(* ===== verification/_CoqProject ===== *)
-Q . S2P
Prelude.v
Bytes.v
Crc32c.v
Hash.v
Md5.v
Fips180.v
Sha.v
Sha3.v
Hashes.v
SList.v
Buddy.v
TxDesc.v
Task.v
Cdb.v
CdbUnmarshall.v
DataIn.v
Inquiry.v
ModePages.v
Unmarshall.v
Context.v
Pdu.v
Queue.v
Complete.v
Cancel.v
Iovec.v
Writer.v
Command.v
Tasks.v
Process.v
Reader.v
Service.v
Text.v
Login.v
LoginRequest.v
LoginReply.v
Discovery.v
Negotiate.v
Init.v
Url.v
Connect.v
Reconnect.v
Sync.v
