(* ===== verification/Prelude.v ===== *)
(** * The protocol engine of libiscsi

    A verification development of the client library in src/lib/: how it sets up a
    session, logs in, builds SCSI commands, wraps them in iSCSI PDUs, orders and sends
    these, and what it does with what the target sends back.  Properties are numbered
    C1, C2, ... in the comment that precedes each.

    ** The program

    An application creates a [struct iscsi_context] (init.c), connects, logs in and
    issues SCSI commands.  Connecting is a chain of callbacks (connect.c): the TCP
    connect (socket.c), the login with its CHAP exchange (login.c, and the digests of
    md5.c, sha1.c, sha224-256.c, sha3.c), TEST UNIT READY, INQUIRY.  A command is a
    [struct scsi_task] whose CDB one of the constructors of scsi-lowlevel.c fills.
    [iscsi_scsi_command_async] (iscsi-command.c) wraps it in a [struct iscsi_pdu]
    (pdu.c), numbers it with the next CmdSN and inserts it in the list [outqueue] of the
    context (socket.c), followed by the Data-Out PDUs it may send unsolicited.  The
    service routine writes the PDUs of [outqueue] to the socket and moves those that
    expect an answer to the list [waitpdu]; it collects what the target sends into PDUs.
    Every PDU received goes through [iscsi_process_pdu] (pdu.c), which verifies the
    digests (crc32c.c), updates the serial numbers, finds the waiting PDU by its task tag
    and calls the handler of the opcode; the handler calls the callback of the
    application and the PDU is unlinked and freed.  Timeouts and cancellation complete
    PDUs without an answer.  When the connection breaks, a new context takes over and
    the PDUs of the old one are queued again (connect.c).  The synchronous wrappers
    (sync.c) start an asynchronous call and serve the connection until its callback
    came.  Parameter data in the answer is decoded into structures (scsi-lowlevel.c).

    ** Files

    Foundations:
    - Prelude: integers of a fixed width, buffers, outcomes of C code ([res]), the state
      monad [M] over them, record update, and the automation all files share.
    - Bytes: [scsi_get_uint*], [scsi_set_uint*], [task_get_uint*] of scsi-lowlevel.c.
    - SList: the macros of include/slist.h on a heap of [next] pointers, refined to
      operations on lists.
    - Crc32c: crc32c.c, against bit-serial polynomial division.
    - Hash: the interface of a streaming hash function ([Hash], with the laws
      [HashLaws]) and what the digests share; Md5, Sha, Sha3: md5.c, sha1.c with
      sha224-256.c, sha3.c, each against its standard; Fips180: that of SHA-1, SHA-224
      and SHA-256, with its own functions, constants, message schedule and padding;
      Hashes: the four that CHAP uses, as the class [Hashes] with the laws [HashesLaws]
      and the instance of the code.

    SCSI:
    - Task: [struct scsi_task] and its io vectors.
    - Cdb: the [scsi_cdb_*] constructors.  CdbUnmarshall: the decoders of READ, WRITE and
      VERIFY CDBs.
    - DataIn, Inquiry, ModePages, Unmarshall: the decoders of parameter data behind
      [scsi_datain_unmarshall]; Inquiry the INQUIRY pages, ModePages the mode pages with
      their encoders, Unmarshall the dispatch.

    PDUs and queues:
    - Context: the state all stateful files share: [iscsi_context] and the stores of
      PDUs, tasks and connect tasks, in the record [world], with what is outside the
      library in the record [system]; allocation, the lock, the callbacks.
      Context.[IO] is [M world].
    - Pdu: pdu.c up to the reject codes, and its header setters.
    - Queue: [iscsi_add_to_outqueue] and the event and length queries of socket.c,
      against the interface [Transport].
    - Complete, Cancel: completion without an answer: [iscsi_timeout_scan],
      [iscsi_cancel_pdus], [iscsi_cancel_lun_pdus] of pdu.c and [iscsi_scsi_cancel_task],
      [iscsi_scsi_cancel_all_tasks] of iscsi-command.c.
    - Command, Tasks: iscsi-command.c: sending a command, R2T, SCSI Response, Data-In,
      sense data; and the [iscsi_*_task] functions.
    - Process: nop.c, task_mgmt.c, the logout of login.c, and the dispatch
      [iscsi_process_pdu], against the interface [Negotiation].

    The socket:
    - Iovec: [iscsi_iovector_readv_writev].  Writer: [iscsi_write_to_socket].  Reader:
      [iscsi_read_from_socket].  Service: [iscsi_tcp_service], the instance of
      [Transport], against the interface [Connect].

    Sessions:
    - Text: the key=value text of login and discovery.  Login: login.c; LoginRequest and
      LoginReply: its requests and replies.  Discovery: discovery.c.  Negotiate: the
      instance of [Negotiation], and what a login response does from the dispatch to the
      callback.
    - Init, Url: init.c: contexts and their settings; URLs.
    - Connect: the TCP connect of socket.c and connect.c, against the interface
      [Sockets]; it gives the instance of [Service.Connect].  Reconnect: its theorems.
    - Sync: sync.c and the loop of the service thread of multithreading.c, against the
      interface [Poll].

    RDMA:
    - Buddy: the buddy allocator of iser.c, against a tree of blocks.  TxDesc: the send
      descriptors of iser.c with their buffers, and the release of all memory of a
      connection, against the interface [Verbs].

    ** How code becomes definitions

    A definition has the name of the C function; a helper cut out of a long function
    says which part it is.  A pointer to a PDU or task is a name ([nat]) in a store of
    the [world], a dereference of a missing name is the outcome [UseAfterFree]; NULL is
    [None].  [outqueue] and [waitpdu] are lists of names, and ISCSI_LIST_REMOVE on an
    empty list, which reads through NULL, is [NullDeref] here too: [SList] justifies the
    step from pointers to lists.  A C integer is a [Z] kept at its width by [u8], [u16],
    [u32], [u64], [i32] wherever the code can wrap.  [malloc] asks the oracle [alloc_ok]
    of the world, so every failure path is part of the theorems.  [iscsi_mt_spin_lock] on
    a held lock is the outcome [Deadlock]; in a build without threads
    ([have_mt = false]) it does nothing.  Calls of callbacks are appended to [trace];
    those of the library itself are run after the call that emitted them (Connect,
    Sync).  The kernel answers reads and writes of the socket from lists of results, of
    any size and with any interruptions.

    An [if] or an early return of the code is one of the definition, in the same order.
    A [for] loop that reads [next] before its body runs is a recursion on the list as it
    was before the loop.

    ** Bounds and fuel

    A loop that is not structural has fuel; running out is the outcome [NoFuel], and the
    theorems give results, so that the fuel is enough where they apply.
    - [send_data_out_loop]: the bytes to send; each turn sends at least one, unless the
      segment length is 0 ([zero_segment_length_never_ends]).
    - [cancel_outqueue]: the length of the queue; [iscsi_scsi_cancel_task] and
      [iscsi_destroy_context]: the depth of the [old_iscsi] chain.
    - [write_loop]: the PDUs of the queue, one of which each turn sends; [write_payload],
      [read_loop]: the answers of the kernel, of which each turn takes one.
    - [forward_head], [forward_tail]: the elements of the io vector.
    - [parse_sense_descriptors_from], [mode_page_loop], [rtpg_pass], [rsoc_loop] and the
      loops over designators and descriptors: the length of the data, of which each turn
      passes some bytes ([unmarshall_outcome] shows that none runs out).
    - [login_text], [discovery_text]: the length of the text; [decode_loop],
      [url_args_loop]: the length of the URL.
    - [md5_chunks], [run_blocks]: the number of blocks of the message.
    - [deliver], [run_callbacks]: the number of callbacks; [connect_at]: the turns of the
      knot between queueing, serving and reconnecting.
    - The loops of Sync, which need not end: the number of turns, an argument.

    ** The theorems

    - Commands: [write_command_data_phase], [write10_task_sends],
      [r2t_sends_requested_range]: the PDUs a WRITE queues, the range each carries and
      the buffer it is taken from; [data_in_reassembles], [scsi_reply_completes_once]:
      what an answer delivers, on every branch, that without memory for the sense data
      included, where the callback is not called.
    - Dispatch: [scsi_response_ends_command]: an answer ends its own command, once and no
      other (or, without memory for the sense data, without its callback);
      [corrupted_header_refused]: a damaged PDU changes nothing.
    - Queues: [add_to_outqueue_ordered]: CmdSN order is an invariant of [outqueue];
      [cancel_pdus_completes_all]: cancellation completes everything once.
    - The socket: [write_to_socket_streams], [write_to_socket_drains],
      [read_delivers_pdu], [iovector_read_in_bounds]: a byte stream in both directions,
      however the kernel cuts it; [response_bytes_end_command] and
      [sync_command_returns]: from the bytes of a response to the callback, and to the
      return of a synchronous command.  Without a data digest, as [late_data_digest_closes]
      shows; the wrappers without multithreading.
    - Sessions: [login_request_strings], [echoed_login_completes],
      [honest_target_accepted], [unauthenticated_target_refused]: login and mutual CHAP;
      [reconnect_reissues], [reconnect_renews]: what survives a reconnect;
      [discovered_targets], [text_reply_once_without_leak]: the reply to SendTargets;
      [discovery_sync_in_order]: the whole call of [iscsi_discovery_sync], from the bytes
      of the reply to the list returned; [full_url_roundtrip]: URLs, and the credentials
      of the environment where they have none.
    - Memory of iSER: [buddy_blocks_apart], [tx_buffers_apart]: buffers lie in registered
      memory and never overlap; [conn_memory_returned]: nothing is leaked or freed twice.
    - Data: [build_wf]: CDBs; [mode_page_roundtrip] (save for the bits that the decoder
      misreads), [device_identification_roundtrip]: parameter data; [unmarshall_outcome]:
      which decoders can access memory out of bounds ([accesses_unchecked]), and that
      the others do not, with the size of every block compared with the stores into it.
    - Foundations: [crc32c_is_ref], [md5_is_rfc1321], [sha_is_fips180],
      [sha3_is_fips202]: the digests are those of the standards;
      [serial32_compare_is_rfc1982]: serial numbers.
    - Defects, as theorems about the code as it is: [mutual_chap_bypassed],
      [zero_segment_length_never_ends], [task_mgmt_sync_hangs], and theorems without a
      number in Cancel, Process, Reader, Command, Cdb, CdbUnmarshall, ModePages, Unmarshall
      and Url that their comments describe.

    ** Not modelled

    Reentrancy: a callback of the application that calls back into the library is an
    event only.  Concurrency: one thread runs at a time; the lock is modelled to see that
    it is released and never taken twice, and the service thread runs while the
    application waits for it.  The start and the end of threads, the events and the work
    requests of iSER (iser.c, calls of the RDMA libraries; of it only the memory is
    modelled), log output, [close], [fd_dup_cb], the choice of an
    interface to bind to, and the free lists of small blocks are left out; an error
    string is the format string of the call.  The hash functions are those of a
    little-endian host.  The programs in src/utils, src/examples, src/tests and
    src/test-tool use the library and are not part of it; src/aros and src/win32 adapt it
    to other platforms. *)

From stdpp Require Export base numbers list gmap strings.
From Stdlib Require Export ZArith Lia.

Open Scope Z_scope.

Create HintDb iscsi discriminated.
Create Rewrite HintDb iscsi.
Create Rewrite HintDb fields.

Declare Scope iscsi_scope.
Delimit Scope iscsi_scope with iscsi.
Open Scope iscsi_scope.

(** ** Machine integers

    An unsigned C integer of width [w] is a [Z] in [[0, 2^w)]; a conversion to
    that type is reduction modulo [2^w].  [int] and [int32_t] are the signed
    32-bit representatives. *)

Definition u8 (z : Z) : Z := z mod 2 ^ 8.
Definition u16 (z : Z) : Z := z mod 2 ^ 16.
Definition u32 (z : Z) : Z := z mod 2 ^ 32.
Definition u64 (z : Z) : Z := z mod 2 ^ 64.

Definition i32 (z : Z) : Z :=
  let r := z mod 2 ^ 32 in if r <? 2 ^ 31 then r else r - 2 ^ 32.

(** A C condition [if (x)] on an integer. *)
Definition truth (z : Z) : bool := negb (z =? 0).

(** [!!(e)] *)
Definition notnot (z : Z) : Z := if truth z then 1 else 0.

(** [MIN(a, b)] of include/iscsi-private.h. *)
Definition MIN (a b : Z) : Z := if a <? b then a else b.

Notation "x &&& y" := (Z.land x y) (at level 40, left associativity) : iscsi_scope.
Notation "x ||| y" := (Z.lor x y) (at level 50, left associativity) : iscsi_scope.
Notation "x ^^^ y" := (Z.lxor x y) (at level 45, left associativity) : iscsi_scope.
Notation "x << n" := (Z.shiftl x n) (at level 38, left associativity) : iscsi_scope.
Notation "x >> n" := (Z.shiftr x n) (at level 38, left associativity) : iscsi_scope.

(** ** Buffers *)

Abbreviation bytes := (list Z).

Definition byte_ok (b : Z) : Prop := 0 <= b < 256.
Definition bytes_ok (l : bytes) : Prop := Forall byte_ok l.

(** Read of a buffer at an index the code knows to be inside it. *)
Definition byte_at (l : bytes) (i : nat) : Z := default 0 (l !! i).

(** [memset(p, 0, n)] of a fresh block. *)
Definition zeros (n : nat) : bytes := replicate n 0.

(** [memcpy(buf + off, src, length src)], inside [buf]. *)
Fixpoint blit (buf : bytes) (off : nat) (src : bytes) : bytes :=
  match src with
  | [] => buf
  | b :: src' => blit (<[off := b]> buf) (S off) src'
  end.

(** ** Outcomes

    [Undef] is a run that the C semantics gives no meaning to, or that never
    continues: a division by zero, an access outside an object, a null or
    dangling pointer, a second acquisition of a held spin lock.  [NoFuel] is
    the bound of a loop model running out. *)

Inductive undef :=
| DivByZero
| OutOfBounds
| NullDeref
| UseAfterFree
| Deadlock
| NoFuel.

Inductive res (A : Type) :=
| Ret (a : A)
| Undef (u : undef).
Arguments Ret {A} a.
Arguments Undef {A} u.

#[export] Instance undef_eq_dec : EqDecision undef.
Proof. solve_decision. Defined.

#[export] Instance res_ret : MRet res := @Ret.
#[export] Instance res_bind : MBind res := fun _ _ f m =>
  match m with Ret a => f a | Undef u => Undef u end.

(** State passing over [S] with such outcomes. *)
Definition M (S A : Type) : Type := S -> res (A * S).

#[export] Instance M_ret {S} : MRet (M S) := fun _ a s => Ret (a, s).
#[export] Instance M_bind {S} : MBind (M S) := fun _ _ f m s =>
  match m s with Ret (a, s') => f a s' | Undef u => Undef u end.

Definition getS {S} : M S S := fun s => Ret (s, s).
Definition gets {S A} (f : S -> A) : M S A := fun s => Ret (f s, s).
Definition modify {S} (f : S -> S) : M S unit := fun s => Ret (tt, f s).
Definition undefined {S A} (u : undef) : M S A := fun _ => Undef u.
Definition when {S} (b : bool) (m : M S unit) : M S unit :=
  if b then m else mret tt.

(** ** Record update

    [r <| f := v |>] is [r] with field [f] set to [v].  A record type opts in
    by an [Eta] instance that rebuilds a value from its projections. *)

Class Eta (R : Type) := eta : R -> R.
Class Setter {R T} (proj : R -> T) := upd : (T -> T) -> R -> R.
Arguments upd {R T} proj {_} _ _.

Ltac build_setter :=
  match goal with
  | |- @Setter ?R ?T ?proj =>
      let inst := constr:(_ : Eta R) in
      let e := eval red in inst in
      let g := eval pattern proj in e in
      match g with
      | ?abs _ =>
          let r := eval cbv beta in
            (fun (f : T -> T) (x : R) => abs (fun y => f (proj y)) x) in
          exact r
      end
  end.

#[export] Hint Extern 1 (Setter _) => build_setter : typeclass_instances.

Notation "r <| f := v |>" := (upd f (fun _ => v) r)
  (at level 1, f at next level, left associativity) : iscsi_scope.
Notation "r <| f ::= g |>" := (upd f g r)
  (at level 1, f at next level, left associativity) : iscsi_scope.

(** * Lemmas *)

(** ** Machine integers *)

Lemma u8_range z : 0 <= u8 z < 2 ^ 8.
Proof. unfold u8. apply Z.mod_pos_bound. lia. Qed.

Lemma u16_range z : 0 <= u16 z < 2 ^ 16.
Proof. unfold u16. apply Z.mod_pos_bound. lia. Qed.

Lemma u32_range z : 0 <= u32 z < 2 ^ 32.
Proof. unfold u32. apply Z.mod_pos_bound. lia. Qed.

Lemma u64_range z : 0 <= u64 z < 2 ^ 64.
Proof. unfold u64. apply Z.mod_pos_bound. lia. Qed.

Lemma u8_small z : 0 <= z < 2 ^ 8 -> u8 z = z.
Proof. apply Z.mod_small. Qed.

Lemma u16_small z : 0 <= z < 2 ^ 16 -> u16 z = z.
Proof. apply Z.mod_small. Qed.

Lemma u32_small z : 0 <= z < 2 ^ 32 -> u32 z = z.
Proof. apply Z.mod_small. Qed.

Lemma u64_small z : 0 <= z < 2 ^ 64 -> u64 z = z.
Proof. apply Z.mod_small. Qed.

Lemma i32_small z : - 2 ^ 31 <= z < 2 ^ 31 -> i32 z = z.
Proof.
  intros Hz. unfold i32. cbv zeta. destruct (Z.ltb_spec 0 (z + 1)).
  - rewrite Z.mod_small by lia. destruct (Z.ltb_spec z (2 ^ 31)); lia.
  - assert (z mod 2 ^ 32 = z + 2 ^ 32) as ->.
    { rewrite <- (Z.mod_small (z + 2 ^ 32) (2 ^ 32)) by lia.
      rewrite Z.add_mod, Z.mod_same, Z.add_0_r, Z.mod_mod by lia. done. }
    destruct (Z.ltb_spec (z + 2 ^ 32) (2 ^ 31)); lia.
Qed.

#[export] Hint Resolve u8_range u16_range u32_range u64_range : iscsi.

(** ** Bits

    [zbits] proves an equation between bit expressions: both sides are
    compared bit by bit, after the position has been compared with every
    constant the expressions shift or mask by. *)

Lemma testbit_mod_pow2 a n i :
  0 <= n -> Z.testbit (a mod 2 ^ n) i = if i <? n then Z.testbit a i else false.
Proof.
  intros Hn. destruct (Z.ltb_spec i n).
  - destruct (Z.neg_nonneg_cases i).
    + rewrite !Z.testbit_neg_r by done. done.
    + by rewrite Z.mod_pow2_bits_low.
  - by rewrite Z.mod_pow2_bits_high by lia.
Qed.

Lemma testbit_small a n i : 0 <= a < 2 ^ n -> n <= i -> Z.testbit a i = false.
Proof.
  intros Ha Hi. destruct (Z.neg_nonneg_cases n) as [Hn|Hn].
  { rewrite Z.pow_neg_r in Ha by done. lia. }
  rewrite <- (Z.mod_small a (2 ^ n)) by done.
  by rewrite Z.mod_pow2_bits_high by lia.
Qed.


Lemma testbit_u8 a i : Z.testbit (u8 a) i = if i <? 8 then Z.testbit a i else false.
Proof. by apply testbit_mod_pow2. Qed.

Lemma testbit_u16 a i : Z.testbit (u16 a) i = if i <? 16 then Z.testbit a i else false.
Proof. by apply testbit_mod_pow2. Qed.

Lemma testbit_u32 a i : Z.testbit (u32 a) i = if i <? 32 then Z.testbit a i else false.
Proof. by apply testbit_mod_pow2. Qed.

Lemma testbit_u64 a i : Z.testbit (u64 a) i = if i <? 64 then Z.testbit a i else false.
Proof. by apply testbit_mod_pow2. Qed.

Lemma bits_below n a b :
  0 <= n -> 0 <= a < 2 ^ n -> 0 <= b < 2 ^ n ->
  (forall i, 0 <= i < n -> Z.testbit a i = Z.testbit b i) -> a = b.
Proof.
  intros Hn Ha Hb Hi. apply Z.bits_inj'. intros i Hi0.
  destruct (Z.lt_ge_cases i n); [by apply Hi|].
  by rewrite !(testbit_small _ n i) by done.
Qed.

Lemma range_of_bits a n :
  0 <= a -> 0 <= n -> (forall i, n <= i -> Z.testbit a i = false) -> 0 <= a < 2 ^ n.
Proof.
  intros Ha Hn Hi. split; [done|].
  assert (a = a mod 2 ^ n) as ->.
  { apply Z.bits_inj'. intros i Hi0. rewrite testbit_mod_pow2 by done.
    destruct (Z.ltb_spec i n); [done|]. by apply Hi. }
  apply Z.mod_pos_bound. lia.
Qed.

Lemma lor_range n a b : 0 <= n ->
  0 <= a < 2 ^ n -> 0 <= b < 2 ^ n -> 0 <= a ||| b < 2 ^ n.
Proof.
  intros Hn Ha Hb. apply range_of_bits; [|done|].
  { apply Z.lor_nonneg. lia. }
  intros i Hi. rewrite Z.lor_spec, (testbit_small a n), (testbit_small b n) by done.
  done.
Qed.

Lemma land_range_r n a b : 0 <= n -> 0 <= b < 2 ^ n -> 0 <= a &&& b < 2 ^ n.
Proof.
  intros Hn Hb. apply range_of_bits; [|done|].
  { apply Z.land_nonneg. lia. }
  intros i Hi. rewrite Z.land_spec, (testbit_small b n) by done. apply andb_false_r.
Qed.

(** Case split of a position below a numeral [n] into its values. *)
Ltac enum_to i n :=
  let k := eval vm_compute in (Z.pred n) in
  lazymatch k with
  | Z.neg _ => exfalso; lia
  | _ => destruct (Z.eq_dec i k) as [->|]; [|enum_to i k]
  end.

(** Push [Z.testbit] at numeral positions down to the variables. *)
Ltac bits_norm :=
  repeat match goal with
  | |- context [Z.testbit ?a (Zneg ?p)] =>
      rewrite (Z.testbit_neg_r a (Zneg p)) by reflexivity
  | |- context [Z.testbit (Zpos ?a) ?p] =>
      let c := eval vm_compute in (Z.testbit (Zpos a) p) in
      change (Z.testbit (Zpos a) p) with c
  | |- context [Z.testbit Z0 ?p] => rewrite (Z.testbit_0_l p)
  | |- context [Z.testbit ?a ?p] =>
      lazymatch p with
      | Z0 => fail | Zpos _ => fail
      | _ => let p' := eval vm_compute in p in change (Z.testbit a p) with (Z.testbit a p')
      end
  | |- context [?a <? ?b] =>
      let c := eval vm_compute in (a <? b) in
      lazymatch c with true => idtac | false => idtac end;
      change (a <? b) with c; cbv iota
  | |- context [Z.testbit (_ &&& _) _] => rewrite Z.land_spec
  | |- context [Z.testbit (_ ||| _) _] => rewrite Z.lor_spec
  | |- context [Z.testbit (_ ^^^ _) _] => rewrite Z.lxor_spec
  | |- context [Z.testbit (u8 _) _] => rewrite testbit_u8
  | |- context [Z.testbit (u16 _) _] => rewrite testbit_u16
  | |- context [Z.testbit (u32 _) _] => rewrite testbit_u32
  | |- context [Z.testbit (u64 _) _] => rewrite testbit_u64
  | |- context [Z.testbit (_ mod _) _] => rewrite testbit_mod_pow2 by (vm_compute; discriminate)
  | |- context [Z.testbit (_ << _) _] => rewrite Z.shiftl_spec by (vm_compute; discriminate)
  | |- context [Z.testbit (_ >> _) _] => rewrite Z.shiftr_spec by (vm_compute; discriminate)
  | H : 0 <= ?a < 2 ^ ?n |- context [Z.testbit ?a ?p] =>
      rewrite (testbit_small a n p H) by (vm_compute; discriminate)
  end.

(** Decide a propositional identity over the bits of the variables. *)
Ltac bits_finish :=
  rewrite ?andb_true_r, ?andb_false_r, ?orb_false_r, ?orb_true_r,
    ?xorb_false_r; cbn [andb orb xorb];
  repeat match goal with
  | |- context [Z.testbit ?a ?p] => destruct (Z.testbit a p)
  end; reflexivity.

(** [zbits n]: an equation between two expressions below [2 ^ n]. *)
Ltac zrange :=
  lazymatch goal with
  | |- 0 <= u8 ?x < _ => pose proof (u8_range x); lia
  | |- 0 <= u16 ?x < _ => pose proof (u16_range x); lia
  | |- 0 <= u32 ?x < _ => pose proof (u32_range x); lia
  | |- 0 <= u64 ?x < _ => pose proof (u64_range x); lia
  | |- 0 <= _ ||| _ < _ => apply lor_range; [lia|zrange|zrange]
  | |- 0 <= _ &&& _ < _ => apply land_range_r; [lia|zrange]
  | |- _ => lia
  end.

Tactic Notation "zbits" constr(n) :=
  apply (bits_below n); [lia|zrange|zrange|];
  let i := fresh "i" in let Hi := fresh "Hi" in
  intros i Hi; enum_to i n; clear Hi; bits_norm; bits_finish.

(** The value of [!!(x & mask)] for a mask of one bit. *)
Definition is_flag (z : Z) : Prop := z = 0 \/ z = 1.

Lemma notnot_bit x k b : 0 <= k -> is_flag b -> Z.testbit x k = truth b ->
  notnot (x &&& 2 ^ k) = b.
Proof.
  intros Hk Hb Hx. assert (truth (x &&& 2 ^ k) = Z.testbit x k) as E.
  { unfold truth. destruct (Z.testbit x k) eqn:Ex.
    - destruct (Z.eqb_spec (x &&& 2 ^ k) 0) as [E|]; [|done]. exfalso.
      assert (Z.testbit (x &&& 2 ^ k) k = false) as Hf by (rewrite E; apply Z.testbit_0_l).
      by rewrite Z.land_spec, Ex, Z.pow2_bits_true in Hf.
    - assert (x &&& 2 ^ k = 0) as ->; [|done]. apply Z.bits_inj'. intros i Hi.
      rewrite Z.land_spec, Z.pow2_bits_eqb, Z.testbit_0_l by done.
      destruct (Z.eqb_spec k i) as [<-|]; [by rewrite Ex|apply andb_false_r]. }
  unfold notnot. rewrite E, Hx. by destruct Hb as [-> | ->].
Qed.

(** ** Running state-passing code *)

Section Run.
Context {S : Type}.

Lemma bind_run {A B} (m : M S A) (f : A -> M S B) s a s' :
  m s = Ret (a, s') -> (m ≫= f) s = f a s'.
Proof. intros E. unfold mbind, M_bind. by rewrite E. Qed.

Lemma bind_ext {A B} (m : M S A) (f g : A -> M S B) s :
  (forall a s', f a s' = g a s') -> (m ≫= f) s = (m ≫= g) s.
Proof. intros E. unfold mbind, M_bind. by destruct (m s) as [[a s']|u]. Qed.

End Run.

(** Run the first operation of a program, whose outcome [E] is known. *)
Ltac run E := rewrite (bind_run _ _ _ _ _ E).

(** ** Lists *)

Lemma filter_all {A} (P : A -> Prop) `{forall x, Decision (P x)} (l : list A) :
  Forall P l -> filter P l = l.
Proof.
  induction 1 as [|x l Hx _ IH]; [done|]. by rewrite filter_cons_True, IH.
Qed.

(** ** Buffers *)

Lemma length_zeros n : length (zeros n) = n.
Proof. apply length_replicate. Qed.

Lemma length_blit buf off src : length (blit buf off src) = length buf.
Proof.
  revert buf off. induction src as [|b src IH]; intros buf off; [done|].
  cbn [blit]. by rewrite IH, length_insert.
Qed.

Lemma blit_lookup buf off src i :
  (off + length src <= length buf)%nat ->
  blit buf off src !! i =
    if decide (off <= i < off + length src)%nat then src !! (i - off)%nat
    else buf !! i.
Proof.
  revert buf off. induction src as [|b src IH]; intros buf off Hl.
  { cbn [blit length]. rewrite decide_False by lia. done. }
  cbn [blit length] in *. rewrite IH by (rewrite length_insert; lia).
  destruct (decide (i = off)) as [->|Hne].
  - rewrite decide_False, decide_True by lia. rewrite Nat.sub_diag.
    by rewrite list_lookup_insert_eq by lia.
  - rewrite list_lookup_insert_ne by done.
    destruct (decide (S off <= i < S off + length src)%nat).
    + rewrite decide_True by lia.
      by replace (i - off)%nat with (S (i - S off)) by lia.
    + rewrite decide_False by lia. done.
Qed.

Lemma blit_prefix (src pre buf : bytes) : (length src <= length buf)%nat ->
  blit (pre ++ buf) (length pre) src = pre ++ src ++ drop (length src) buf.
Proof.
  revert pre buf. induction src as [|b src IH]; intros pre buf Hl; [done|].
  destruct buf as [|x buf]; [cbn in Hl; lia|]. cbn [blit].
  replace (<[length pre:=b]> (pre ++ x :: buf)) with ((pre ++ [b]) ++ buf).
  2: { rewrite <- (Nat.add_0_r (length pre)), insert_app_r. cbn. by rewrite <- app_assoc. }
  replace (S (length pre)) with (length (pre ++ [b])) by (rewrite length_app; cbn; lia).
  rewrite IH by (cbn in Hl; lia). by rewrite <- app_assoc.
Qed.

Lemma drop_zeros k n : drop k (zeros n) = zeros (n - k).
Proof. unfold zeros. apply drop_replicate. Qed.

Lemma byte_at_insert_eq l i v : (i < length l)%nat -> byte_at (<[i := v]> l) i = v.
Proof. intros. unfold byte_at. by rewrite list_lookup_insert_eq. Qed.

Lemma byte_at_insert_ne l i j v : i <> j -> byte_at (<[i := v]> l) j = byte_at l j.
Proof. intros. unfold byte_at. by rewrite list_lookup_insert_ne. Qed.

Lemma byte_at_zeros n i : byte_at (zeros n) i = 0.
Proof.
  unfold byte_at, zeros. destruct (replicate n 0 !! i) eqn:E; [|done].
  by apply lookup_replicate in E as [-> _].
Qed.

Lemma byte_at_ok l i : bytes_ok l -> byte_ok (byte_at l i).
Proof.
  intros Hl. unfold byte_at. destruct (l !! i) eqn:E; cbn; [|unfold byte_ok; lia].
  by apply (Forall_lookup_1 _ _ _ _ Hl E).
Qed.

Lemma bytes_ok_zeros n : bytes_ok (zeros n).
Proof. apply Forall_replicate. unfold byte_ok. lia. Qed.

Lemma bytes_ok_insert l i v : bytes_ok l -> byte_ok v -> bytes_ok (<[i := v]> l).
Proof. intros. by apply Forall_insert. Qed.

Lemma byte_ok_u8 z : byte_ok (u8 z).
Proof. apply u8_range. Qed.

#[export] Hint Rewrite length_zeros length_blit @length_insert : iscsi.
#[export] Hint Resolve byte_ok_u8 bytes_ok_zeros bytes_ok_insert byte_at_ok : iscsi.
