(* ===== verification/Bytes.v ===== *)
(** Big-endian accessors of SCSI and iSCSI buffers
    (src/lib/scsi-lowlevel.c: [scsi_get_uint*], [scsi_set_uint*],
    [task_get_uint*]).

    A pointer [&buf[off]] is the pair of the buffer and the offset.  Every
    theorem states the round trip or the frame of an accessor: what a setter
    stores is what the getter of that width reads back, and no byte outside
    the field moves. *)

From S2P Require Import Prelude.

(** ** Operations *)

Definition scsi_get_uint16 (c : bytes) (off : nat) : Z :=
  let val := byte_at c off in
  u16 (u16 (val << 8) ||| byte_at c (off + 1)).

Definition scsi_get_uint32 (c : bytes) (off : nat) : Z :=
  let val := byte_at c off in
  let val := u32 (val << 8) ||| byte_at c (off + 1) in
  let val := u32 (val << 8) ||| byte_at c (off + 2) in
  u32 (val << 8) ||| byte_at c (off + 3).

Definition scsi_get_uint64 (c : bytes) (off : nat) : Z :=
  let val := scsi_get_uint32 c off in
  let val := u64 (val << 32) in
  val ||| scsi_get_uint32 c (off + 4).

Definition scsi_set_uint16 (c : bytes) (off : nat) (val : Z) : bytes :=
  let c := <[off := u8 (val >> 8)]> c in
  <[(off + 1)%nat := u8 val]> c.

Definition scsi_set_uint32 (c : bytes) (off : nat) (val : Z) : bytes :=
  let c := <[off := u8 (val >> 24)]> c in
  let c := <[(off + 1)%nat := u8 (val >> 16)]> c in
  let c := <[(off + 2)%nat := u8 (val >> 8)]> c in
  <[(off + 3)%nat := u8 val]> c.

Definition scsi_set_uint64 (c : bytes) (off : nat) (v : Z) : bytes :=
  let val := (v >> 32) &&& 0xffffffff in
  let c := scsi_set_uint32 c off val in
  let val := v &&& 0xffffffff in
  scsi_set_uint32 c (off + 4) val.

(** The bounds-checked readers of a task's data-in buffer: 0 when the field
    does not lie inside the data received.  [data] is the received data, its
    length the [datain.size] the code compares with. *)

Definition task_get_uint64 (data : bytes) (offset : nat) : Z :=
  if Z.of_nat offset <=? Z.of_nat (length data) - 8
  then scsi_get_uint64 data offset else 0.

Definition task_get_uint32 (data : bytes) (offset : nat) : Z :=
  if Z.of_nat offset <=? Z.of_nat (length data) - 4
  then scsi_get_uint32 data offset else 0.

Definition task_get_uint16 (data : bytes) (offset : nat) : Z :=
  if Z.of_nat offset <=? Z.of_nat (length data) - 2
  then scsi_get_uint16 data offset else 0.

Definition task_get_uint8 (data : bytes) (offset : nat) : Z :=
  if Z.of_nat offset <=? Z.of_nat (length data) - 1
  then byte_at data offset else 0.

(** ** Lemmas *)

Lemma length_scsi_set_uint16 c off v : length (scsi_set_uint16 c off v) = length c.
Proof. unfold scsi_set_uint16. by autorewrite with iscsi. Qed.

Lemma length_scsi_set_uint32 c off v : length (scsi_set_uint32 c off v) = length c.
Proof. unfold scsi_set_uint32. by autorewrite with iscsi. Qed.

Lemma length_scsi_set_uint64 c off v : length (scsi_set_uint64 c off v) = length c.
Proof. unfold scsi_set_uint64. by rewrite !length_scsi_set_uint32. Qed.

#[export] Hint Rewrite length_scsi_set_uint16 length_scsi_set_uint32
  length_scsi_set_uint64 : iscsi.

Lemma bytes_ok_set16 c off v : bytes_ok c -> bytes_ok (scsi_set_uint16 c off v).
Proof. unfold scsi_set_uint16. auto with iscsi. Qed.

Lemma bytes_ok_set32 c off v : bytes_ok c -> bytes_ok (scsi_set_uint32 c off v).
Proof. unfold scsi_set_uint32. auto 6 with iscsi. Qed.

Lemma bytes_ok_set64 c off v : bytes_ok c -> bytes_ok (scsi_set_uint64 c off v).
Proof. unfold scsi_set_uint64. intros. by do 2 apply bytes_ok_set32. Qed.

#[export] Hint Resolve bytes_ok_set16 bytes_ok_set32 bytes_ok_set64 : iscsi.

(** Bytes outside the field do not move. *)

Lemma byte_at_set16_ne c off v i :
  (i < off \/ off + 2 <= i)%nat -> byte_at (scsi_set_uint16 c off v) i = byte_at c i.
Proof. intros. unfold scsi_set_uint16. by rewrite !byte_at_insert_ne by lia. Qed.

Lemma byte_at_set32_ne c off v i :
  (i < off \/ off + 4 <= i)%nat -> byte_at (scsi_set_uint32 c off v) i = byte_at c i.
Proof. intros. unfold scsi_set_uint32. by rewrite !byte_at_insert_ne by lia. Qed.

Lemma byte_at_set64_ne c off v i :
  (i < off \/ off + 8 <= i)%nat -> byte_at (scsi_set_uint64 c off v) i = byte_at c i.
Proof. intros. unfold scsi_set_uint64. by rewrite !byte_at_set32_ne by lia. Qed.

(** Bytes inside the field are the big-endian digits of the value. *)

Lemma byte_at_set32 c off v k : (off + 4 <= length c)%nat -> (k < 4)%nat ->
  byte_at (scsi_set_uint32 c off v) (off + k) = u8 (v >> (24 - 8 * Z.of_nat k)).
Proof.
  intros Hl Hk. unfold scsi_set_uint32.
  destruct k as [|[|[|[|]]]]; try lia; rewrite ?Nat.add_0_r;
    repeat (rewrite byte_at_insert_ne by lia);
    rewrite byte_at_insert_eq by (autorewrite with iscsi; lia); done.
Qed.

Lemma byte_at_set16 c off v k : (off + 2 <= length c)%nat -> (k < 2)%nat ->
  byte_at (scsi_set_uint16 c off v) (off + k) = u8 (v >> (8 - 8 * Z.of_nat k)).
Proof.
  intros Hl Hk. unfold scsi_set_uint16.
  destruct k as [|[|]]; try lia; rewrite ?Nat.add_0_r;
    repeat (rewrite byte_at_insert_ne by lia);
    rewrite byte_at_insert_eq by (autorewrite with iscsi; lia); done.
Qed.

(** Getters only read their field. *)

Lemma get16_ext c c' off :
  (forall k, (k < 2)%nat -> byte_at c (off + k) = byte_at c' (off + k)) ->
  scsi_get_uint16 c off = scsi_get_uint16 c' off.
Proof.
  intros H. unfold scsi_get_uint16. pose proof (H 0%nat) as H0.
  rewrite Nat.add_0_r in H0. by rewrite H0, (H 1%nat) by lia.
Qed.

Lemma get32_ext c c' off :
  (forall k, (k < 4)%nat -> byte_at c (off + k) = byte_at c' (off + k)) ->
  scsi_get_uint32 c off = scsi_get_uint32 c' off.
Proof.
  intros H. unfold scsi_get_uint32. pose proof (H 0%nat) as H0.
  rewrite Nat.add_0_r in H0.
  by rewrite H0, (H 1%nat), (H 2%nat), (H 3%nat) by lia.
Qed.

Lemma get64_ext c c' off :
  (forall k, (k < 8)%nat -> byte_at c (off + k) = byte_at c' (off + k)) ->
  scsi_get_uint64 c off = scsi_get_uint64 c' off.
Proof.
  intros H. unfold scsi_get_uint64. rewrite (get32_ext c c' off) by auto with lia.
  rewrite (get32_ext c c' (off + 4)); [done|].
  intros k Hk. rewrite <- Nat.add_assoc. apply H. lia.
Qed.

(** What a setter stores, the getter of its width reads back. *)

Lemma get16_set16 c off v : (off + 2 <= length c)%nat ->
  scsi_get_uint16 (scsi_set_uint16 c off v) off = u16 v.
Proof.
  intros Hl. pose proof (byte_at_set16 c off v 0 Hl) as H0. rewrite Nat.add_0_r in H0.
  unfold scsi_get_uint16. rewrite H0, byte_at_set16 by lia. cbn [Z.of_nat Z.sub].
  zbits 16.
Qed.

Lemma get32_set32 c off v : (off + 4 <= length c)%nat ->
  scsi_get_uint32 (scsi_set_uint32 c off v) off = u32 v.
Proof.
  intros Hl. pose proof (byte_at_set32 c off v 0 Hl) as H0. rewrite Nat.add_0_r in H0.
  unfold scsi_get_uint32. rewrite H0, !byte_at_set32 by lia. zbits 32.
Qed.

Lemma get16_set16_ne c o o' v : (o + 2 <= o' \/ o' + 2 <= o)%nat ->
  scsi_get_uint16 (scsi_set_uint16 c o' v) o = scsi_get_uint16 c o.
Proof. intros. apply get16_ext. intros. apply byte_at_set16_ne. lia. Qed.

Lemma get32_set32_ne c o o' v : (o + 4 <= o' \/ o' + 4 <= o)%nat ->
  scsi_get_uint32 (scsi_set_uint32 c o' v) o = scsi_get_uint32 c o.
Proof. intros. apply get32_ext. intros. apply byte_at_set32_ne. lia. Qed.

Lemma get64_set64 c off v : (off + 8 <= length c)%nat ->
  scsi_get_uint64 (scsi_set_uint64 c off v) off = u64 v.
Proof.
  intros Hl. unfold scsi_get_uint64, scsi_set_uint64.
  rewrite get32_set32_ne, !get32_set32 by (autorewrite with iscsi; lia). zbits 64.
Qed.

(** Writing one byte outside a field does not change what is read from it. *)

Lemma get16_insert_ne c off i v : (i < off \/ off + 2 <= i)%nat ->
  scsi_get_uint16 (<[i := v]> c) off = scsi_get_uint16 c off.
Proof. intros. apply get16_ext. intros. apply byte_at_insert_ne. lia. Qed.

Lemma get32_insert_ne c off i v : (i < off \/ off + 4 <= i)%nat ->
  scsi_get_uint32 (<[i := v]> c) off = scsi_get_uint32 c off.
Proof. intros. apply get32_ext. intros. apply byte_at_insert_ne. lia. Qed.

Lemma get64_insert_ne c off i v : (i < off \/ off + 8 <= i)%nat ->
  scsi_get_uint64 (<[i := v]> c) off = scsi_get_uint64 c off.
Proof. intros. apply get64_ext. intros. apply byte_at_insert_ne. lia. Qed.

(** Reading across fields of different width. *)

Lemma get16_set32_ne c o o' v : (o + 2 <= o' \/ o' + 4 <= o)%nat ->
  scsi_get_uint16 (scsi_set_uint32 c o' v) o = scsi_get_uint16 c o.
Proof. intros. apply get16_ext. intros. apply byte_at_set32_ne. lia. Qed.

Lemma get32_set16_ne c o o' v : (o + 4 <= o' \/ o' + 2 <= o)%nat ->
  scsi_get_uint32 (scsi_set_uint16 c o' v) o = scsi_get_uint32 c o.
Proof. intros. apply get32_ext. intros. apply byte_at_set16_ne. lia. Qed.

Lemma get64_set32_ne c o o' v : (o + 8 <= o' \/ o' + 4 <= o)%nat ->
  scsi_get_uint64 (scsi_set_uint32 c o' v) o = scsi_get_uint64 c o.
Proof. intros. apply get64_ext. intros. apply byte_at_set32_ne. lia. Qed.

#[export] Hint Rewrite get16_set16 get32_set32 get64_set64
  get16_set16_ne get32_set32_ne get16_insert_ne get32_insert_ne get64_insert_ne
  get16_set32_ne get32_set16_ne get64_set32_ne
  byte_at_set16_ne byte_at_set32_ne byte_at_set64_ne
  using (autorewrite with iscsi; lia) : fields.

(** Ranges of the getters. *)

Lemma get16_range c off : 0 <= scsi_get_uint16 c off < 2 ^ 16.
Proof. apply u16_range. Qed.

Lemma get32_range c off : bytes_ok c -> 0 <= scsi_get_uint32 c off < 2 ^ 32.
Proof.
  intros Hc. unfold scsi_get_uint32. apply lor_range; [lia|zrange|].
  pose proof (byte_at_ok c (off + 3) Hc) as Hb. unfold byte_ok in Hb. lia.
Qed.

Lemma get64_range c off : bytes_ok c -> 0 <= scsi_get_uint64 c off < 2 ^ 64.
Proof.
  intros Hc. unfold scsi_get_uint64. apply lor_range; [lia|zrange|].
  pose proof (get32_range c (off + 4) Hc). lia.
Qed.

#[export] Hint Resolve get16_range get32_range get64_range : iscsi.

(** The checked readers never look outside the data, and agree with the
    unchecked ones inside it. *)

Lemma task_get_uint32_spec data off :
  task_get_uint32 data off =
    if decide (off + 4 <= length data)%nat then scsi_get_uint32 data off else 0.
Proof.
  unfold task_get_uint32.
  destruct (Z.leb_spec (Z.of_nat off) (Z.of_nat (length data) - 4)).
  - by rewrite decide_True by lia.
  - by rewrite decide_False by lia.
Qed.

Lemma task_get_uint8_in data off : (off < length data)%nat ->
  task_get_uint8 data off = byte_at data off.
Proof.
  intros. unfold task_get_uint8.
  destruct (Z.leb_spec (Z.of_nat off) (Z.of_nat (length data) - 1)); [done|lia].
Qed.

Lemma task_get_uint16_in data off : (off + 2 <= length data)%nat ->
  task_get_uint16 data off = scsi_get_uint16 data off.
Proof.
  intros. unfold task_get_uint16.
  destruct (Z.leb_spec (Z.of_nat off) (Z.of_nat (length data) - 2)); [done|lia].
Qed.

Lemma task_get_uint32_in data off : (off + 4 <= length data)%nat ->
  task_get_uint32 data off = scsi_get_uint32 data off.
Proof. intros. rewrite task_get_uint32_spec. by rewrite decide_True. Qed.

(** Reading behind a prefix. *)

Lemma byte_at_app_r pre l k : byte_at (pre ++ l) (length pre + k) = byte_at l k.
Proof. unfold byte_at. rewrite lookup_app_r by lia. by rewrite Nat.add_comm, Nat.add_sub. Qed.

Lemma byte_at_app_l l post k : (k < length l)%nat -> byte_at (l ++ post) k = byte_at l k.
Proof. intros. unfold byte_at. by rewrite lookup_app_l. Qed.

Lemma get16_app_r pre l k :
  scsi_get_uint16 (pre ++ l) (length pre + k) = scsi_get_uint16 l k.
Proof. unfold scsi_get_uint16. by rewrite <- Nat.add_assoc, !byte_at_app_r. Qed.

(** The two bytes of a 16-bit number. *)
Definition be16 (v : Z) : bytes := [u8 (v >> 8); u8 v].

Lemma get16_be16 v post : 0 <= v < 2 ^ 16 -> scsi_get_uint16 (be16 v ++ post) 0 = v.
Proof.
  intros Hv. unfold scsi_get_uint16, be16, byte_at.
  cbn [lookup list_lookup app default from_option id Nat.add]. zbits 16.
Qed.
