(* ===== verification/Crc32c.v ===== *)
(** CRC32C digests (src/lib/crc32c.c).

    [crctable] is the table of the source, [crc32c] and the chained interface
    [crc32c_init], [crc32c_chain], [crc32c_chain_done] the loops over it.  The
    reference is the bit-serial reflected polynomial division: eight steps of
    [bit_step] per byte.  The theorems show that the table-driven code is that
    division, that chaining over several buffers is the digest of their
    concatenation, and that an error confined to four consecutive bytes is
    always detected. *)

From S2P Require Import Prelude.

(** ** The code *)

Definition crctable : list Z :=
  [0x00000000; 0xF26B8303; 0xE13B70F7; 0x1350F3F4;
   0xC79A971F; 0x35F1141C; 0x26A1E7E8; 0xD4CA64EB;
   0x8AD958CF; 0x78B2DBCC; 0x6BE22838; 0x9989AB3B;
   0x4D43CFD0; 0xBF284CD3; 0xAC78BF27; 0x5E133C24;
   0x105EC76F; 0xE235446C; 0xF165B798; 0x030E349B;
   0xD7C45070; 0x25AFD373; 0x36FF2087; 0xC494A384;
   0x9A879FA0; 0x68EC1CA3; 0x7BBCEF57; 0x89D76C54;
   0x5D1D08BF; 0xAF768BBC; 0xBC267848; 0x4E4DFB4B;
   0x20BD8EDE; 0xD2D60DDD; 0xC186FE29; 0x33ED7D2A;
   0xE72719C1; 0x154C9AC2; 0x061C6936; 0xF477EA35;
   0xAA64D611; 0x580F5512; 0x4B5FA6E6; 0xB93425E5;
   0x6DFE410E; 0x9F95C20D; 0x8CC531F9; 0x7EAEB2FA;
   0x30E349B1; 0xC288CAB2; 0xD1D83946; 0x23B3BA45;
   0xF779DEAE; 0x05125DAD; 0x1642AE59; 0xE4292D5A;
   0xBA3A117E; 0x4851927D; 0x5B016189; 0xA96AE28A;
   0x7DA08661; 0x8FCB0562; 0x9C9BF696; 0x6EF07595;
   0x417B1DBC; 0xB3109EBF; 0xA0406D4B; 0x522BEE48;
   0x86E18AA3; 0x748A09A0; 0x67DAFA54; 0x95B17957;
   0xCBA24573; 0x39C9C670; 0x2A993584; 0xD8F2B687;
   0x0C38D26C; 0xFE53516F; 0xED03A29B; 0x1F682198;
   0x5125DAD3; 0xA34E59D0; 0xB01EAA24; 0x42752927;
   0x96BF4DCC; 0x64D4CECF; 0x77843D3B; 0x85EFBE38;
   0xDBFC821C; 0x2997011F; 0x3AC7F2EB; 0xC8AC71E8;
   0x1C661503; 0xEE0D9600; 0xFD5D65F4; 0x0F36E6F7;
   0x61C69362; 0x93AD1061; 0x80FDE395; 0x72966096;
   0xA65C047D; 0x5437877E; 0x4767748A; 0xB50CF789;
   0xEB1FCBAD; 0x197448AE; 0x0A24BB5A; 0xF84F3859;
   0x2C855CB2; 0xDEEEDFB1; 0xCDBE2C45; 0x3FD5AF46;
   0x7198540D; 0x83F3D70E; 0x90A324FA; 0x62C8A7F9;
   0xB602C312; 0x44694011; 0x5739B3E5; 0xA55230E6;
   0xFB410CC2; 0x092A8FC1; 0x1A7A7C35; 0xE811FF36;
   0x3CDB9BDD; 0xCEB018DE; 0xDDE0EB2A; 0x2F8B6829;
   0x82F63B78; 0x709DB87B; 0x63CD4B8F; 0x91A6C88C;
   0x456CAC67; 0xB7072F64; 0xA457DC90; 0x563C5F93;
   0x082F63B7; 0xFA44E0B4; 0xE9141340; 0x1B7F9043;
   0xCFB5F4A8; 0x3DDE77AB; 0x2E8E845F; 0xDCE5075C;
   0x92A8FC17; 0x60C37F14; 0x73938CE0; 0x81F80FE3;
   0x55326B08; 0xA759E80B; 0xB4091BFF; 0x466298FC;
   0x1871A4D8; 0xEA1A27DB; 0xF94AD42F; 0x0B21572C;
   0xDFEB33C7; 0x2D80B0C4; 0x3ED04330; 0xCCBBC033;
   0xA24BB5A6; 0x502036A5; 0x4370C551; 0xB11B4652;
   0x65D122B9; 0x97BAA1BA; 0x84EA524E; 0x7681D14D;
   0x2892ED69; 0xDAF96E6A; 0xC9A99D9E; 0x3BC21E9D;
   0xEF087A76; 0x1D63F975; 0x0E330A81; 0xFC588982;
   0xB21572C9; 0x407EF1CA; 0x532E023E; 0xA145813D;
   0x758FE5D6; 0x87E466D5; 0x94B49521; 0x66DF1622;
   0x38CC2A06; 0xCAA7A905; 0xD9F75AF1; 0x2B9CD9F2;
   0xFF56BD19; 0x0D3D3E1A; 0x1E6DCDEE; 0xEC064EED;
   0xC38D26C4; 0x31E6A5C7; 0x22B65633; 0xD0DDD530;
   0x0417B1DB; 0xF67C32D8; 0xE52CC12C; 0x1747422F;
   0x49547E0B; 0xBB3FFD08; 0xA86F0EFC; 0x5A048DFF;
   0x8ECEE914; 0x7CA56A17; 0x6FF599E3; 0x9D9E1AE0;
   0xD3D3E1AB; 0x21B862A8; 0x32E8915C; 0xC083125F;
   0x144976B4; 0xE622F5B7; 0xF5720643; 0x07198540;
   0x590AB964; 0xAB613A67; 0xB831C993; 0x4A5A4A90;
   0x9E902E7B; 0x6CFBAD78; 0x7FAB5E8C; 0x8DC0DD8F;
   0xE330A81A; 0x115B2B19; 0x020BD8ED; 0xF0605BEE;
   0x24AA3F05; 0xD6C1BC06; 0xC5914FF2; 0x37FACCF1;
   0x69E9F0D5; 0x9B8273D6; 0x88D28022; 0x7AB90321;
   0xAE7367CA; 0x5C18E4C9; 0x4F48173D; 0xBD23943E;
   0xF36E6F75; 0x0105EC76; 0x12551F82; 0xE03E9C81;
   0x34F4F86A; 0xC69F7B69; 0xD5CF889D; 0x27A40B9E;
   0x79B737BA; 0x8BDCB4B9; 0x988C474D; 0x6AE7C44E;
   0xBE2DA0A5; 0x4C4623A6; 0x5F16D052; 0xAD7D5351].

Definition crctable_at (i : Z) : Z := byte_at crctable (Z.to_nat i).

(** The body of the loop: [crc = (crc>>8) ^ crctable[(crc ^ byte) & 0xFF]]. *)
Definition crc32c_step (crc byte : Z) : Z :=
  (crc >> 8) ^^^ crctable_at ((crc ^^^ byte) &&& 0xFF).

Definition crc32c_loop (crc : Z) (buf : bytes) : Z := foldl crc32c_step crc buf.

Definition crc32c (buf : bytes) : Z :=
  let crc := 0xffffffff in
  crc32c_loop crc buf ^^^ 0xffffffff.

Definition crc32c_init : Z := 0xffffffff.
Definition crc32c_chain (crc : Z) (buf : bytes) : Z := crc32c_loop crc buf.
Definition crc32c_chain_done (crc : Z) : Z := crc ^^^ 0xffffffff.

(** ** The reference: reflected division by the Castagnoli polynomial *)

Definition poly : Z := 0x82F63B78.

Definition bit_step (crc : Z) : Z :=
  (crc >> 1) ^^^ (if Z.testbit crc 0 then poly else 0).

Definition ref_step (crc byte : Z) : Z := Nat.iter 8 bit_step (crc ^^^ byte).

Definition ref_crc32c (buf : bytes) : Z :=
  foldl ref_step 0xffffffff buf ^^^ 0xffffffff.

(** ** The register update is a permutation *)

(** One byte of the table-driven update, the byte already added in. *)
Definition crc_shift (y : Z) : Z := (y >> 8) ^^^ crctable_at (y &&& 0xFF).

Lemma crctable_small i : 0 <= i < 256 -> 0 <= crctable_at i < 2 ^ 32.
Proof.
  intros Hi. unfold crctable_at, byte_at.
  assert (Hall : Forall (fun v => 0 <= v < 2 ^ 32) crctable).
  { apply (bool_decide_unpack _). vm_compute. done. }
  destruct (crctable !! Z.to_nat i) as [v|] eqn:E; cbn; [|lia].
  by apply (Forall_lookup_1 _ _ _ _ Hall E).
Qed.

Lemma land_ff y : y &&& 0xFF = y mod 2 ^ 8.
Proof. apply (Z.land_ones y 8). lia. Qed.

Lemma land_ff_range y : 0 <= y &&& 0xFF < 256.
Proof. rewrite land_ff. apply Z.mod_pos_bound. lia. Qed.

Lemma crc32c_step_shift crc b : byte_ok b -> crc32c_step crc b = crc_shift (crc ^^^ b).
Proof.
  intros Hb. unfold crc32c_step, crc_shift. f_equal.
  rewrite Z.shiftr_lxor. rewrite (Z.shiftr_div_pow2 b) by lia.
  rewrite (Z.div_small b) by (unfold byte_ok in Hb; lia). by rewrite Z.lxor_0_r.
Qed.

Lemma lxor_range n a b : 0 <= n ->
  0 <= a < 2 ^ n -> 0 <= b < 2 ^ n -> 0 <= a ^^^ b < 2 ^ n.
Proof.
  intros Hn Ha Hb. apply range_of_bits; [|done|].
  { apply Z.lxor_nonneg. lia. }
  intros i Hi. rewrite Z.lxor_spec, (testbit_small a n), (testbit_small b n) by done.
  done.
Qed.

Lemma shiftr_range n y : 0 <= y < 2 ^ 32 -> 0 <= n -> 0 <= y >> n < 2 ^ 32.
Proof.
  intros Hy Hn. split; [apply Z.shiftr_nonneg; lia|].
  rewrite Z.shiftr_div_pow2 by lia.
  apply Z.le_lt_trans with y; [|lia]. apply Z.div_le_upper_bound; [lia|].
  assert (1 <= 2 ^ n) by (apply Z.lt_pred_le, Z.pow_pos_nonneg; lia). nia.
Qed.

Lemma crc_shift_range y : 0 <= y < 2 ^ 32 -> 0 <= crc_shift y < 2 ^ 32.
Proof.
  intros Hy. apply lxor_range; [lia|by apply shiftr_range|].
  apply crctable_small, land_ff_range.
Qed.

(** Two entries of the table that agree on their top byte are the same
    entry: this is what makes the update invertible. *)
Definition top_bytes : list Z := map (fun v => v >> 24) crctable.

Lemma top_bytes_NoDup : NoDup top_bytes.
Proof. apply (bool_decide_unpack _). vm_compute. done. Qed.

Lemma crctable_top_inj i j : 0 <= i < 256 -> 0 <= j < 256 ->
  crctable_at i >> 24 = crctable_at j >> 24 -> i = j.
Proof.
  intros Hi Hj E. apply Z2Nat.inj; [lia|lia|].
  assert (Hl : length crctable = 256%nat) by done.
  destruct (lookup_lt_is_Some_2 crctable (Z.to_nat i)) as [vi Ei]; [lia|].
  destruct (lookup_lt_is_Some_2 crctable (Z.to_nat j)) as [vj Ej]; [lia|].
  unfold crctable_at, byte_at in E. rewrite Ei, Ej in E. cbn in E.
  apply (NoDup_lookup top_bytes _ _ (vi >> 24) top_bytes_NoDup);
    unfold top_bytes; rewrite list_lookup_fmap.
  - by rewrite Ei.
  - rewrite Ej. cbn. by rewrite E.
Qed.

Lemma crc_shift_inj y z : 0 <= y < 2 ^ 32 -> 0 <= z < 2 ^ 32 ->
  crc_shift y = crc_shift z -> y = z.
Proof.
  intros Hy Hz E. unfold crc_shift in E.
  assert (Htop : forall w, 0 <= w < 2 ^ 32 -> (w >> 8) >> 24 = 0).
  { intros w Hw. rewrite Z.shiftr_shiftr, Z.shiftr_div_pow2 by lia.
    by apply Z.div_small. }
  assert (Hlow : y &&& 0xFF = z &&& 0xFF).
  { apply crctable_top_inj; [apply land_ff_range..|].
    apply (f_equal (fun v => v >> 24)) in E.
    rewrite !Z.shiftr_lxor, !Htop, !Z.lxor_0_l in E by done. done. }
  rewrite Hlow in E.
  apply (f_equal (fun v => v ^^^ crctable_at (z &&& 0xFF))) in E.
  rewrite !Z.lxor_assoc, !Z.lxor_nilpotent, !Z.lxor_0_r in E.
  rewrite !land_ff in Hlow. rewrite !Z.shiftr_div_pow2 in E by lia.
  rewrite (Z.div_mod y (2 ^ 8)), (Z.div_mod z (2 ^ 8)), E, Hlow by lia. done.
Qed.

(** The update of a sum whose second part is above the low byte. *)
Lemma crc_shift_add y b : 0 <= b ->
  crc_shift (y ^^^ (b << 8)) = crc_shift y ^^^ b.
Proof.
  intros Hb. unfold crc_shift. rewrite Z.shiftr_lxor, Z.shiftr_shiftl_l by lia.
  rewrite Z.sub_diag, Z.shiftl_0_r.
  assert ((y ^^^ (b << 8)) &&& 0xFF = y &&& 0xFF) as ->.
  { apply Z.bits_inj'. intros i Hi. rewrite !land_ff, !testbit_mod_pow2 by lia.
    destruct (Z.ltb_spec i 8); [|done].
    rewrite Z.lxor_spec, Z.shiftl_spec, (Z.testbit_neg_r b) by lia.
    apply xorb_false_r. }
  rewrite !Z.lxor_assoc. f_equal. apply Z.lxor_comm.
Qed.

(** ** The table is the polynomial *)

Lemma shiftl_lxor a b n : (a ^^^ b) << n = (a << n) ^^^ (b << n).
Proof. apply Z.shiftl_lxor. Qed.

Lemma bit_step_lxor a b : bit_step (a ^^^ b) = bit_step a ^^^ bit_step b.
Proof.
  unfold bit_step. rewrite Z.shiftr_lxor, Z.lxor_spec.
  apply Z.bits_inj'. intros i Hi. rewrite !Z.lxor_spec.
  destruct (Z.testbit a 0), (Z.testbit b 0); cbn [xorb]; rewrite ?Z.testbit_0_l;
    destruct (Z.testbit (a >> 1) i), (Z.testbit (b >> 1) i), (Z.testbit poly i); done.
Qed.

Lemma bit_steps_lxor k a b :
  Nat.iter k bit_step (a ^^^ b) = Nat.iter k bit_step a ^^^ Nat.iter k bit_step b.
Proof.
  induction k as [|k IH]; [done|]. rewrite !Nat.iter_succ, IH. apply bit_step_lxor.
Qed.

Lemma bit_step_even a n : 0 < n -> bit_step (a << n) = a << (n - 1).
Proof.
  intros Hn. unfold bit_step. rewrite Z.shiftl_spec_low by lia.
  rewrite Z.lxor_0_r, Z.shiftr_shiftl_l by lia. done.
Qed.

Lemma bit_steps_high a : Nat.iter 8 bit_step (a << 8) = a.
Proof.
  cbn [Nat.iter nat_rect]. do 8 (rewrite bit_step_even by lia).
  apply Z.shiftl_0_r.
Qed.

Lemma crctable_ref i : 0 <= i < 256 -> crctable_at i = Nat.iter 8 bit_step i.
Proof.
  intros Hi.
  assert (Hall : Forall (fun k => crctable_at k = Nat.iter 8 bit_step k) (seqZ 0 256)).
  { apply (bool_decide_unpack _). vm_compute. done. }
  rewrite Forall_forall in Hall. apply Hall. apply elem_of_seqZ. lia.
Qed.

Lemma crc_shift_ref y : 0 <= y -> crc_shift y = Nat.iter 8 bit_step y.
Proof.
  intros Hy. unfold crc_shift. rewrite crctable_ref by apply land_ff_range.
  rewrite <- (bit_steps_high (y >> 8)) at 1. rewrite <- bit_steps_lxor. f_equal.
  apply Z.bits_inj'. intros i Hi.
  rewrite Z.lxor_spec, land_ff, testbit_mod_pow2, Z.shiftl_spec by lia.
  destruct (Z.ltb_spec i 8).
  - by rewrite Z.testbit_neg_r by lia.
  - rewrite Z.shiftr_spec by lia. rewrite Z.sub_add. apply xorb_false_r.
Qed.

Lemma crc32c_loop_range buf crc : bytes_ok buf -> 0 <= crc < 2 ^ 32 ->
  0 <= crc32c_loop crc buf < 2 ^ 32.
Proof.
  revert crc. induction buf as [|b buf IH]; intros crc Hb Hc; [done|].
  apply Forall_cons in Hb as [Hb Hbuf]. cbn. apply IH; [done|].
  rewrite crc32c_step_shift by done. apply crc_shift_range.
  apply lxor_range; [lia|done|]. unfold byte_ok in Hb. lia.
Qed.

Lemma crc32c_loop_ref buf crc : bytes_ok buf -> 0 <= crc < 2 ^ 32 ->
  crc32c_loop crc buf = foldl ref_step crc buf.
Proof.
  revert crc. induction buf as [|b buf IH]; intros crc Hb Hc; [done|].
  apply Forall_cons in Hb as [Hb Hbuf].
  assert (Hx : 0 <= crc ^^^ b < 2 ^ 32).
  { apply lxor_range; [lia|done|]. unfold byte_ok in Hb. lia. }
  change (crc32c_loop (crc32c_step crc b) buf = foldl ref_step (ref_step crc b) buf).
  rewrite crc32c_step_shift, IH by first [done|by apply crc_shift_range].
  unfold ref_step at 3. by rewrite crc_shift_ref by lia.
Qed.

Lemma crc32c_loop_app crc b1 b2 :
  crc32c_loop crc (b1 ++ b2) = crc32c_loop (crc32c_loop crc b1) b2.
Proof. apply foldl_app. Qed.

(** ** Injectivity of the loop *)

Lemma crc32c_loop_inj_crc buf c1 c2 : bytes_ok buf ->
  0 <= c1 < 2 ^ 32 -> 0 <= c2 < 2 ^ 32 ->
  crc32c_loop c1 buf = crc32c_loop c2 buf -> c1 = c2.
Proof.
  revert c1 c2. induction buf as [|b buf IH]; intros c1 c2 Hb H1 H2 E; [done|].
  apply Forall_cons in Hb as [Hb Hbuf]. cbn in E.
  rewrite !crc32c_step_shift in E by done.
  assert (Hb32 : 0 <= b < 2 ^ 32) by (unfold byte_ok in Hb; lia).
  apply IH in E; [|done|by apply crc_shift_range, lxor_range..].
  apply crc_shift_inj in E; [|by apply lxor_range..].
  apply (f_equal (fun v => v ^^^ b)) in E.
  by rewrite !Z.lxor_assoc, !Z.lxor_nilpotent, !Z.lxor_0_r in E.
Qed.

(** The little-endian word of at most four bytes. *)
Fixpoint le_word (l : bytes) : Z :=
  match l with [] => 0 | b :: l' => b ^^^ (le_word l' << 8) end.

Lemma le_word_nonneg l : bytes_ok l -> 0 <= le_word l.
Proof.
  induction l as [|b l IH]; intros Hl; [done|].
  apply Forall_cons in Hl as [Hb Hl]. cbn. apply Z.lxor_nonneg.
  rewrite Z.shiftl_nonneg. unfold byte_ok in Hb. specialize (IH Hl). lia.
Qed.

Lemma le_word_range l : bytes_ok l -> le_word l < 2 ^ (8 * Z.of_nat (length l)).
Proof.
  induction l as [|b l IH]; intros Hl; [done|].
  apply Forall_cons in Hl as [Hb Hl]. cbn [le_word length].
  pose proof (le_word_nonneg l Hl). specialize (IH Hl).
  apply lxor_range; [lia| |].
  - unfold byte_ok in Hb. split; [lia|]. apply Z.lt_le_trans with (2 ^ 8); [lia|].
    apply Z.pow_le_mono_r; lia.
  - rewrite Z.shiftl_mul_pow2 by lia. split; [nia|].
    replace (8 * Z.of_nat (S (length l))) with (8 * Z.of_nat (length l) + 8) by lia.
    rewrite Z.pow_add_r by lia. nia.
Qed.

Lemma le_word_inj l1 l2 : length l1 = length l2 -> bytes_ok l1 -> bytes_ok l2 ->
  le_word l1 = le_word l2 -> l1 = l2.
Proof.
  revert l2. induction l1 as [|b1 l1 IH]; intros [|b2 l2] Hl H1 H2 E; try done.
  apply Forall_cons in H1 as [Hb1 H1]. apply Forall_cons in H2 as [Hb2 H2].
  cbn in Hl, E. injection Hl as Hl.
  assert (Hsplit : forall b w, byte_ok b -> (b ^^^ (w << 8)) mod 2 ^ 8 = b /\
            (b ^^^ (w << 8)) >> 8 = w).
  { intros b w Hb. split.
    - apply Z.bits_inj'. intros i Hi. rewrite testbit_mod_pow2, Z.lxor_spec by lia.
      destruct (Z.ltb_spec i 8).
      + rewrite Z.shiftl_spec, (Z.testbit_neg_r w) by lia. apply xorb_false_r.
      + by rewrite (testbit_small b 8).
    - rewrite Z.shiftr_lxor, Z.shiftr_shiftl_l by lia.
      rewrite (Z.shiftr_div_pow2 b), Z.div_small by (unfold byte_ok in Hb; lia).
      by rewrite Z.lxor_0_l, Z.sub_diag, Z.shiftl_0_r. }
  destruct (Hsplit b1 (le_word l1) Hb1) as [A1 B1].
  destruct (Hsplit b2 (le_word l2) Hb2) as [A2 B2].
  rewrite E in A1, B1. f_equal; [congruence|]. apply IH; [done..|congruence].
Qed.

(** Up to four bytes act on the register as one addition and as many updates. *)
Lemma crc32c_loop_word l crc : bytes_ok l -> 
  crc32c_loop crc l = Nat.iter (length l) crc_shift (crc ^^^ le_word l).
Proof.
  revert crc. induction l as [|b l IH]; intros crc Hl; cbn [crc32c_loop foldl length le_word].
  { by rewrite Z.lxor_0_r. }
  apply Forall_cons in Hl as [Hb Hl].
  change (foldl crc32c_step (crc32c_step crc b) l) with (crc32c_loop (crc32c_step crc b) l).
  rewrite IH, Nat.iter_succ_r by done. f_equal.
  rewrite crc32c_step_shift, <- crc_shift_add by (done || by apply le_word_nonneg).
  by rewrite Z.lxor_assoc.
Qed.

Lemma crc_shifts_inj k y z : 0 <= y < 2 ^ 32 -> 0 <= z < 2 ^ 32 ->
  Nat.iter k crc_shift y = Nat.iter k crc_shift z -> y = z.
Proof.
  revert y z. induction k as [|k IH]; intros y z Hy Hz E; [done|].
  rewrite !Nat.iter_succ_r in E. apply IH in E; [|by apply crc_shift_range..].
  by apply crc_shift_inj.
Qed.

Lemma crc32c_loop_inj_word crc l1 l2 : 0 <= crc < 2 ^ 32 ->
  length l1 = length l2 -> (length l1 <= 4)%nat -> bytes_ok l1 -> bytes_ok l2 ->
  crc32c_loop crc l1 = crc32c_loop crc l2 -> l1 = l2.
Proof.
  intros Hc Hl H4 H1 H2 E. rewrite !crc32c_loop_word, Hl in E by done.
  assert (Hw : forall l, (length l <= 4)%nat -> bytes_ok l -> 0 <= le_word l < 2 ^ 32).
  { intros l Hn Hok. split; [by apply le_word_nonneg|].
    apply Z.lt_le_trans with (2 ^ (8 * Z.of_nat (length l))); [by apply le_word_range|].
    apply Z.pow_le_mono_r; lia. }
  apply crc_shifts_inj in E; [|apply lxor_range; [lia|done|apply Hw; [lia|done]]..].
  apply le_word_inj; [done..|].
  apply (f_equal (fun v => crc ^^^ v)) in E.
  by rewrite <- !Z.lxor_assoc, !Z.lxor_nilpotent, !Z.lxor_0_l in E.
Qed.

Lemma lxor_cancel_r a b c : a ^^^ c = b ^^^ c -> a = b.
Proof.
  intros E. apply (f_equal (fun v => v ^^^ c)) in E.
  by rewrite !Z.lxor_assoc, !Z.lxor_nilpotent, !Z.lxor_0_r in E.
Qed.

Lemma crc32c_burst (pre l1 l2 post : bytes)
  (Hpre : bytes_ok pre) (H1 : bytes_ok l1) (H2 : bytes_ok l2) (Hpost : bytes_ok post)
  (Hlen : length l1 = length l2) (H4 : (length l1 <= 4)%nat) (Hne : l1 <> l2) :
  crc32c (pre ++ l1 ++ post) <> crc32c (pre ++ l2 ++ post).
Proof.
  intros E. apply lxor_cancel_r in E. rewrite !crc32c_loop_app in E.
  assert (Hp : 0 <= crc32c_loop 0xffffffff pre < 2 ^ 32) by by apply crc32c_loop_range.
  apply crc32c_loop_inj_crc in E; [|done|by apply crc32c_loop_range..].
  by apply crc32c_loop_inj_word in E.
Qed.

(** ** Properties *)

(** C37: The table-driven CRC32C of crc32c.c equals bit-serial division by the reflected
    Castagnoli polynomial 0x82F63B78, for every buffer. *)
Theorem crc32c_is_ref (buf : bytes) (Hbuf : bytes_ok buf) : crc32c buf = ref_crc32c buf.
Proof. unfold crc32c, ref_crc32c. by rewrite crc32c_loop_ref. Qed.

Lemma crc32c_is_ref_witness :
  bytes_ok [0x31; 0x32; 0x33; 0x34; 0x35; 0x36; 0x37; 0x38; 0x39] /\
  crc32c [0x31; 0x32; 0x33; 0x34; 0x35; 0x36; 0x37; 0x38; 0x39] = 0xE3069283 /\
  ref_crc32c [0x31; 0x32; 0x33; 0x34; 0x35; 0x36; 0x37; 0x38; 0x39] = 0xE3069283.
Proof.
  assert (H : bytes_ok [0x31; 0x32; 0x33; 0x34; 0x35; 0x36; 0x37; 0x38; 0x39]).
  { repeat constructor; unfold byte_ok; lia. }
  split; [exact H|]. rewrite <- (crc32c_is_ref _ H). by vm_compute.
Defined.

(** Two buffers of the same length that differ only inside a window of at most four
    consecutive bytes never have the same CRC32C digest: every such transmission error
    is detected. *)
Theorem crc32c_detects_burst (pre l1 l2 post : bytes)
  (Hpre : bytes_ok pre) (H1 : bytes_ok l1) (H2 : bytes_ok l2) (Hpost : bytes_ok post)
  (Hlen : length l1 = length l2) (H4 : (length l1 <= 4)%nat) (Hne : l1 <> l2) :
  crc32c (pre ++ l1 ++ post) <> crc32c (pre ++ l2 ++ post).
Proof. by apply crc32c_burst. Qed.

Lemma crc32c_detects_burst_witness :
  crc32c ([1] ++ [2; 3] ++ [4]) <> crc32c ([1] ++ [2; 7] ++ [4]).
Proof.
  apply (crc32c_detects_burst [1] [2; 3] [2; 7] [4]);
    first [ reflexivity | discriminate | cbn; lia
          | repeat constructor; unfold byte_ok; lia ].
Defined.

(** Chaining the digest over two buffers (init, chain, chain, done), as the header
    and data digests are computed, gives the digest of their concatenation. *)
Theorem crc32c_chain_concat (b1 b2 : bytes) :
  crc32c_chain_done (crc32c_chain (crc32c_chain crc32c_init b1) b2) = crc32c (b1 ++ b2).
Proof. unfold crc32c, crc32c_chain, crc32c_chain_done. by rewrite crc32c_loop_app. Qed.
