(* ===== verification/Hash.v ===== *)
(** Hash functions in pieces: what md5.c, sha1.c, sha224-256.c and sha3.c share.

    The interface [Hash] is what login.c uses of a hash function: a context, its
    initial value, the addition of some bytes and the digest, written over the start
    of a block.  [HashLaws] is what login.c relies on: the digest is the function
    [digest] of all the bytes added, however they were cut into pieces.

    MD5, SHA-1 and SHA-256 fold a compression function over blocks of 64 bytes of the
    padded message; [hash_blocks] and [padded] are this construction, and [absorbed] is
    the invariant of their contexts: the blocks so far are compressed, and the buffer
    holds the rest. *)

From S2P Require Import Prelude.

(** ** The interface *)

Class Hash := {
  hash_ctx : Type;
  hash_init : hash_ctx;
  hash_update : hash_ctx -> bytes -> hash_ctx;
  hash_final : hash_ctx -> bytes -> bytes;
  digest : bytes -> bytes
}.

(** The buffers the initiator hashes are far below this bound. *)
Definition MAX_HASHED : Z := 2 ^ 29.

Class HashLaws (h : Hash) (size : Z) := {
  digest_length m : Z.of_nat (length (digest m)) = size;
  digest_bytes m : bytes_ok (digest m);
  digest_streams chunks buf : Forall bytes_ok chunks ->
    Z.of_nat (length (concat chunks)) < MAX_HASHED ->
    hash_final (foldl hash_update hash_init chunks) buf = blit buf 0 (digest (concat chunks))
}.

(** ** Blocks of 64 bytes *)

Section Blocks.
Context {H : Type} (compress : H -> bytes -> H).

Fixpoint run_blocks (k : nat) (h : H) (m : bytes) : H :=
  match k with
  | O => h
  | S k => run_blocks k (compress h (take 64 m)) (drop 64 m)
  end.

(** The whole blocks of a message. *)
Definition hash_blocks (h : H) (m : bytes) : H := run_blocks (length m / 64) h m.

(** The message followed by a byte that starts the padding (0x80, a bit 1, for a
    message of whole bytes), zeros up to 56 modulo 64, and its length. *)
Definition pad_zeros (n : nat) : nat := ((119 - n mod 64) mod 64)%nat.

Definition padded (pad : Z) (m len : bytes) : bytes := m ++ pad :: zeros (pad_zeros (length m)) ++ len.

(** A context that has been given [m]: the hash of its whole blocks, and a buffer
    that starts with the rest. *)
Record absorbed (h0 : H) (m : bytes) (h : H) (block : bytes) (index : nat) : Prop := {
  absorbed_block : length block = 64%nat;
  absorbed_index : index = (length m mod 64)%nat;
  absorbed_hash : h = hash_blocks h0 m;
  absorbed_rest : take index block = drop (64 * (length m / 64)) m
}.

Lemma run_blocks_app j k h a b : length a = (64 * j)%nat ->
  run_blocks (j + k) h (a ++ b) = run_blocks k (run_blocks j h a) b.
Proof.
  revert h a. induction j as [|j IH]; intros h a Ha.
  { by destruct a. }
  cbn [Nat.add run_blocks]. rewrite take_app_le, drop_app_le by lia.
  apply IH. rewrite length_drop. lia.
Qed.

(** A tail shorter than a block waits. *)
Lemma run_blocks_short k h a b : length a = (64 * k)%nat -> run_blocks k h (a ++ b) = run_blocks k h a.
Proof.
  intros Ha. rewrite <- (Nat.add_0_r k) at 1. by rewrite run_blocks_app.
Qed.

Lemma whole_and_rest (m c : bytes) :
  m ++ c = take (64 * (length m / 64)) m ++ drop (64 * (length m / 64)) m ++ c.
Proof. by rewrite app_assoc, take_drop. Qed.

Lemma length_whole (m : bytes) : length (take (64 * (length m / 64)) m) = (64 * (length m / 64))%nat.
Proof. rewrite length_take. pose proof (Nat.Div0.mul_div_le (length m) 64). lia. Qed.

Lemma length_rest (m : bytes) : length (drop (64 * (length m / 64)) m) = (length m mod 64)%nat.
Proof. rewrite length_drop, (Nat.mod_eq (length m) 64) by lia. done. Qed.

Lemma hash_blocks_whole h m : hash_blocks h m = run_blocks (length m / 64) h (take (64 * (length m / 64)) m).
Proof.
  rewrite <- (run_blocks_short _ _ _ (drop (64 * (length m / 64)) m)) by apply length_whole.
  by rewrite take_drop.
Qed.

(** Bytes that end exactly at a block. *)
Lemma hash_blocks_fill h m c : (length m mod 64 + length c = 64)%nat ->
  hash_blocks h (m ++ c) = compress (hash_blocks h m) (drop (64 * (length m / 64)) m ++ c).
Proof.
  intros Hc. pose proof (length_whole m) as Hw. pose proof (length_rest m) as Hr.
  assert (E : (length (m ++ c) / 64 = length m / 64 + 1)%nat).
  { rewrite length_app. pose proof (Nat.div_mod (length m) 64 ltac:(lia)).
    symmetry. apply (Nat.div_unique _ 64 _ 0); lia. }
  rewrite (hash_blocks_whole h m). unfold hash_blocks. rewrite E, whole_and_rest, run_blocks_app by done.
  cbn [run_blocks]. rewrite (take_ge (_ ++ c)) by (rewrite length_app; lia). done.
Qed.

Lemma hash_blocks_some h m c : (length m mod 64 + length c < 64)%nat ->
  (length (m ++ c) / 64 = length m / 64)%nat /\ hash_blocks h (m ++ c) = hash_blocks h m.
Proof.
  intros Hc. assert (E : (length (m ++ c) / 64 = length m / 64)%nat).
  { rewrite length_app. pose proof (Nat.div_mod (length m) 64 ltac:(lia)).
    symmetry. apply (Nat.div_unique _ 64 _ (length m mod 64 + length c)); lia. }
  split; [done|]. rewrite (hash_blocks_whole h m). unfold hash_blocks. rewrite E, whole_and_rest.
  apply run_blocks_short, length_whole.
Qed.

Section Absorbing.
Context (h0 : H).

Lemma absorbed_start block : length block = 64%nat -> absorbed h0 [] h0 block 0.
Proof. by constructor. Qed.

(** Bytes written behind the rest. *)
Lemma take_blit block index (c : bytes) : (index + length c <= length block)%nat ->
  take (index + length c) (blit block index c) = take index block ++ c.
Proof.
  intros Hc. set (pre := take index block).
  assert (Hi : length pre = index) by (unfold pre; rewrite length_take; lia).
  assert (E : blit block index c = pre ++ c ++ drop (length c) (drop index block)).
  { rewrite <- (take_drop index block) at 1. fold pre. rewrite <- Hi at 2. apply blit_prefix.
    rewrite length_drop. lia. }
  rewrite E, app_assoc, <- Hi, <- length_app. apply take_app_length.
Qed.

Lemma absorbed_some m h block index c : absorbed h0 m h block index -> (index + length c < 64)%nat ->
  absorbed h0 (m ++ c) h (blit block index c) (index + length c).
Proof.
  intros [Hb Hi Hh Hr] Hc. destruct (hash_blocks_some h0 m c) as [E1 E2]; [by rewrite <- Hi|].
  constructor.
  - by rewrite length_blit.
  - rewrite length_app, <- Nat.Div0.add_mod_idemp_l, <- Hi. by rewrite Nat.mod_small.
  - by rewrite E2.
  - rewrite E1, take_blit by lia. rewrite Hr, drop_app_le; [done|].
    apply Nat.Div0.mul_div_le.
Qed.

Lemma absorbed_fill m h block index c : absorbed h0 m h block index -> (index + length c = 64)%nat ->
  absorbed h0 (m ++ c) (compress h (blit block index c)) (blit block index c) 0.
Proof.
  intros [Hb Hi Hh Hr] Hc. constructor.
  - by rewrite length_blit.
  - rewrite length_app, <- Nat.Div0.add_mod_idemp_l, <- Hi, Hc. done.
  - rewrite hash_blocks_fill, Hh by lia. f_equal. rewrite <- Hr.
    rewrite <- take_blit by lia. rewrite Hc, take_ge by (rewrite length_blit; lia). done.
  - cbn [take]. rewrite drop_ge; [done|]. rewrite length_app.
    pose proof (Nat.div_mod (length m) 64 ltac:(lia)).
    assert (((length m + length c) / 64 = length m / 64 + 1)%nat) as ->; [|lia].
    symmetry. apply (Nat.div_unique _ 64 _ 0); lia.
Qed.

(** Only the start of the buffer counts. *)
Lemma absorbed_ext m h block block' index : absorbed h0 m h block index -> length block' = 64%nat ->
  take index block' = take index block -> absorbed h0 m h block' index.
Proof. intros [Hb Hi Hh Hr] Hl E. constructor; [done|done|done|by rewrite E]. Qed.

(** One byte. *)
Lemma absorbed_byte m h block index b : absorbed h0 m h block index ->
  let block' := <[index := b]> block in
  if (S index =? 64)%nat then absorbed h0 (m ++ [b]) (compress h block') block' 0
  else absorbed h0 (m ++ [b]) h block' (S index).
Proof.
  intros Ha block'. pose proof (absorbed_index _ _ _ _ _ Ha) as Hi.
  pose proof (Nat.mod_upper_bound (length m) 64 ltac:(lia)).
  destruct (Nat.eqb_spec (S index) 64).
  - apply (absorbed_fill m h block index [b]); [done|cbn; lia].
  - replace (S index) with (index + length [b])%nat by (cbn; lia).
    apply (absorbed_some m h block index [b]); [done|cbn; lia].
Qed.

(** The end of a message: the code pads in one block or in two. *)
Lemma absorbed_padded m h block index pad len : absorbed h0 m h block index -> length len = 8%nat ->
  let start := blit block index (pad :: zeros (63 - index)) in
  let h1 := if (56 <=? index)%nat then compress h start else h in
  let last := if (56 <=? index)%nat then blit start 0 (zeros 56)
              else blit block index (pad :: zeros (55 - index)) in
  compress h1 (blit last 56 len) = hash_blocks h0 (padded pad m len).
Proof.
  intros Ha Hl start h1 last. pose proof (absorbed_index _ _ _ _ _ Ha) as Hi.
  pose proof (Nat.mod_upper_bound (length m) 64 ltac:(lia)).
  assert (Hz : pad_zeros (length m) = if (56 <=? index)%nat then (63 - index + 56)%nat else (55 - index)%nat).
  { unfold pad_zeros. rewrite <- Hi. destruct (Nat.leb_spec 56 index).
    - rewrite Nat.mod_small by lia. lia.
    - symmetry. apply (Nat.mod_unique _ 64 1); lia. }
  assert (Hlast : absorbed h0 (m ++ pad :: zeros (pad_zeros (length m))) h1 last 56).
  { subst h1 last. rewrite Hz. destruct (Nat.leb_spec 56 index) as [Hge|Hlt].
    - assert (H1 : absorbed h0 (m ++ pad :: zeros (63 - index)) (compress h start) start 0).
      { apply absorbed_fill; [done|]. cbn [length]. rewrite length_zeros. lia. }
      replace (m ++ pad :: zeros (63 - index + 56)) with ((m ++ pad :: zeros (63 - index)) ++ zeros 56).
      { apply (absorbed_some _ _ _ 0 (zeros 56)); [done|rewrite length_zeros; lia]. }
      rewrite <- app_assoc. unfold zeros. by rewrite replicate_add.
    - assert (E : (56 = index + length (pad :: zeros (55 - index)))%nat)
        by (cbn [length]; rewrite length_zeros; lia).
      rewrite E at 1. apply absorbed_some; [done|lia]. }
  unfold padded. rewrite app_comm_cons, app_assoc.
  apply (absorbed_hash _ _ _ _ _ (absorbed_fill _ _ _ _ len Hlast ltac:(lia))).
Qed.

End Absorbing.
End Blocks.

(** ** Words *)

(** The little-endian and big-endian 32-bit words at an offset. *)
Definition le32 (b : bytes) (i : nat) : Z :=
  byte_at b i ||| byte_at b (i + 1) << 8 ||| byte_at b (i + 2) << 16 ||| byte_at b (i + 3) << 24.

Definition le32_bytes (v : Z) : bytes := [u8 v; u8 (v >> 8); u8 (v >> 16); u8 (v >> 24)].
Definition be32_bytes (v : Z) : bytes := [u8 (v >> 24); u8 (v >> 16); u8 (v >> 8); u8 v].

(** [~x], [x << n] and a rotation of a 32-bit word. *)
Definition not32 (x : Z) : Z := u32 (Z.lnot x).
Definition rotl32 (x n : Z) : Z := u32 (x << n) ||| x >> (32 - n).
Definition rotr32 (x n : Z) : Z := x >> n ||| u32 (x << (32 - n)).

Lemma le32_bytes_ok v : length (le32_bytes v) = 4%nat /\ bytes_ok (le32_bytes v).
Proof. split; [done|]. repeat constructor; apply u8_range. Qed.

Lemma be32_bytes_ok v : length (be32_bytes v) = 4%nat /\ bytes_ok (be32_bytes v).
Proof. split; [done|]. repeat constructor; apply u8_range. Qed.

Lemma concat_words_ok (f : Z -> bytes) (l : list Z) : (forall v, length (f v) = 4%nat /\ bytes_ok (f v)) ->
  length (concat (map f l)) = (4 * length l)%nat /\ bytes_ok (concat (map f l)).
Proof.
  intros Hf. induction l as [|v l [Hl Hb]]; [split; [done|constructor]|].
  destruct (Hf v) as [H1 H2]. cbn [map concat]. rewrite length_app. split.
  - cbn [length]. lia.
  - by apply Forall_app.
Qed.
