(* ===== verification/Md5.v ===== *)
(** MD5 (src/lib/md5.c).

    The context is [MD5Context]; its buffer [in] is kept as its 64 bytes, and a word
    of it is read and written as the little-endian code does (with WORDS_BIGENDIAN,
    [byteSwap] gives the same words).  [MD5Transform] is the straight-line program of
    the source, a list of MD5STEP instructions on the registers a, b, c, d.

    The reference [md5_rfc] is RFC 1321: its four round functions, the schedule of
    words and shifts by formula, the constants from the sine, and the padding.  The
    code computes it, whatever the pieces the message comes in. *)

From S2P Require Import Prelude Hash.

(** ** The code *)

Record md5_words := { wa : Z; wb : Z; wc : Z; wd : Z }.

Record MD5Context := {
  md5_buf : md5_words;
  bytes_lo : Z;  (* bytes[0] *)
  bytes_hi : Z;  (* bytes[1] *)
  md5_in : bytes
}.

#[export] Instance eta_MD5Context : Eta MD5Context := fun c =>
  Build_MD5Context (md5_buf c) (bytes_lo c) (bytes_hi c) (md5_in c).

Definition MD5Init (c : MD5Context) : MD5Context :=
  c <| md5_buf := {| wa := 0x67452301; wb := 0xefcdab89; wc := 0x98badcfe; wd := 0x10325476 |} |>
    <| bytes_lo := 0 |> <| bytes_hi := 0 |>.

(** The four core functions. *)
Definition F1 (x y z : Z) : Z := z ^^^ (x &&& (y ^^^ z)).
Definition F2 (x y z : Z) : Z := F1 z x y.
Definition F3 (x y z : Z) : Z := x ^^^ y ^^^ z.
Definition F4 (x y z : Z) : Z := y ^^^ (x ||| not32 z).

(** A use of MD5STEP: the function, the registers, the word of [in], the constant
    and the shift. *)
Inductive reg := A | B | C | D.

Record md5_step := STEP {
  step_f : Z -> Z -> Z -> Z; step_w : reg; step_x : reg; step_y : reg; step_z : reg;
  step_in : nat; step_const : Z; step_shift : Z
}.

Definition get (r : reg) (v : md5_words) : Z :=
  match r with A => wa v | B => wb v | C => wc v | D => wd v end.

Definition put (r : reg) (n : Z) (v : md5_words) : md5_words :=
  match r with
  | A => {| wa := n; wb := wb v; wc := wc v; wd := wd v |}
  | B => {| wa := wa v; wb := n; wc := wc v; wd := wd v |}
  | C => {| wa := wa v; wb := wb v; wc := n; wd := wd v |}
  | D => {| wa := wa v; wb := wb v; wc := wc v; wd := n |}
  end.

(** [(w += f(x,y,z) + in, w = (w<<s | w>>(32-s)) + x)] *)
Definition MD5STEP (inp : bytes) (v : md5_words) (i : md5_step) : md5_words :=
  let x := get (step_x i) v in
  let w := u32 (get (step_w i) v
    + u32 (step_f i x (get (step_y i) v) (get (step_z i) v)
           + u32 (le32 inp (4 * step_in i) + step_const i))) in
  put (step_w i) (u32 (rotl32 w (step_shift i) + x)) v.

Definition md5_program : list md5_step :=
  [
   STEP F1 A B C D 0 0xd76aa478 7; STEP F1 D A B C 1 0xe8c7b756 12;
   STEP F1 C D A B 2 0x242070db 17; STEP F1 B C D A 3 0xc1bdceee 22;
   STEP F1 A B C D 4 0xf57c0faf 7; STEP F1 D A B C 5 0x4787c62a 12;
   STEP F1 C D A B 6 0xa8304613 17; STEP F1 B C D A 7 0xfd469501 22;
   STEP F1 A B C D 8 0x698098d8 7; STEP F1 D A B C 9 0x8b44f7af 12;
   STEP F1 C D A B 10 0xffff5bb1 17; STEP F1 B C D A 11 0x895cd7be 22;
   STEP F1 A B C D 12 0x6b901122 7; STEP F1 D A B C 13 0xfd987193 12;
   STEP F1 C D A B 14 0xa679438e 17; STEP F1 B C D A 15 0x49b40821 22;
   STEP F2 A B C D 1 0xf61e2562 5; STEP F2 D A B C 6 0xc040b340 9;
   STEP F2 C D A B 11 0x265e5a51 14; STEP F2 B C D A 0 0xe9b6c7aa 20;
   STEP F2 A B C D 5 0xd62f105d 5; STEP F2 D A B C 10 0x02441453 9;
   STEP F2 C D A B 15 0xd8a1e681 14; STEP F2 B C D A 4 0xe7d3fbc8 20;
   STEP F2 A B C D 9 0x21e1cde6 5; STEP F2 D A B C 14 0xc33707d6 9;
   STEP F2 C D A B 3 0xf4d50d87 14; STEP F2 B C D A 8 0x455a14ed 20;
   STEP F2 A B C D 13 0xa9e3e905 5; STEP F2 D A B C 2 0xfcefa3f8 9;
   STEP F2 C D A B 7 0x676f02d9 14; STEP F2 B C D A 12 0x8d2a4c8a 20;
   STEP F3 A B C D 5 0xfffa3942 4; STEP F3 D A B C 8 0x8771f681 11;
   STEP F3 C D A B 11 0x6d9d6122 16; STEP F3 B C D A 14 0xfde5380c 23;
   STEP F3 A B C D 1 0xa4beea44 4; STEP F3 D A B C 4 0x4bdecfa9 11;
   STEP F3 C D A B 7 0xf6bb4b60 16; STEP F3 B C D A 10 0xbebfbc70 23;
   STEP F3 A B C D 13 0x289b7ec6 4; STEP F3 D A B C 0 0xeaa127fa 11;
   STEP F3 C D A B 3 0xd4ef3085 16; STEP F3 B C D A 6 0x04881d05 23;
   STEP F3 A B C D 9 0xd9d4d039 4; STEP F3 D A B C 12 0xe6db99e5 11;
   STEP F3 C D A B 15 0x1fa27cf8 16; STEP F3 B C D A 2 0xc4ac5665 23;
   STEP F4 A B C D 0 0xf4292244 6; STEP F4 D A B C 7 0x432aff97 10;
   STEP F4 C D A B 14 0xab9423a7 15; STEP F4 B C D A 5 0xfc93a039 21;
   STEP F4 A B C D 12 0x655b59c3 6; STEP F4 D A B C 3 0x8f0ccc92 10;
   STEP F4 C D A B 10 0xffeff47d 15; STEP F4 B C D A 1 0x85845dd1 21;
   STEP F4 A B C D 8 0x6fa87e4f 6; STEP F4 D A B C 15 0xfe2ce6e0 10;
   STEP F4 C D A B 6 0xa3014314 15; STEP F4 B C D A 13 0x4e0811a1 21;
   STEP F4 A B C D 4 0xf7537e82 6; STEP F4 D A B C 11 0xbd3af235 10;
   STEP F4 C D A B 2 0x2ad7d2bb 15; STEP F4 B C D A 9 0xeb86d391 21
  ].

Definition MD5Transform (buf : md5_words) (inp : bytes) : md5_words :=
  let v := foldl (MD5STEP inp) buf md5_program in
  {| wa := u32 (wa buf + wa v); wb := u32 (wb buf + wb v);
     wc := u32 (wc buf + wc v); wd := u32 (wd buf + wd v) |}.

(** The loop of [MD5Update] over chunks of 64 bytes; [fuel] is their number. *)
Fixpoint md5_chunks (fuel : nat) (c : MD5Context) (buf : bytes) : MD5Context * bytes :=
  match fuel with
  | O => (c, buf)
  | S fuel =>
      if (64 <=? length buf)%nat then
        let inp := blit (md5_in c) 0 (take 64 buf) in
        md5_chunks fuel (c <| md5_in := inp |> <| md5_buf := MD5Transform (md5_buf c) inp |>) (drop 64 buf)
      else (c, buf)
  end.

Definition MD5Update (c : MD5Context) (buf : bytes) : MD5Context :=
  let len := Z.of_nat (length buf) in
  let t := bytes_lo c in
  let lo := u32 (t + len) in
  let c := c <| bytes_lo := lo |> <| bytes_hi ::= fun hi => if lo <? t then u32 (hi + 1) else hi |> in
  let t := 64 - (t &&& 0x3f) in
  let at_ := Z.to_nat (64 - t) in
  if len <? t then c <| md5_in ::= fun inp => blit inp at_ buf |>
  else
    let inp := blit (md5_in c) at_ (take (Z.to_nat t) buf) in
    let c := c <| md5_in := inp |> <| md5_buf := MD5Transform (md5_buf c) inp |> in
    let buf := drop (Z.to_nat t) buf in
    let (c, buf) := md5_chunks (length buf / 64) c buf in
    c <| md5_in ::= fun inp => blit inp 0 buf |>.

(** What [memset] leaves of the context. *)
Definition md5_cleared : MD5Context :=
  {| md5_buf := {| wa := 0; wb := 0; wc := 0; wd := 0 |}; bytes_lo := 0; bytes_hi := 0; md5_in := zeros 64 |}.

Definition md5_bytes (v : md5_words) : bytes := concat (map le32_bytes [wa v; wb v; wc v; wd v]).

(** The digest, over the start of [digest], and the cleared context. *)
Definition MD5Final (digest : bytes) (c : MD5Context) : bytes * MD5Context :=
  let count := bytes_lo c &&& 0x3f in
  let inp := <[Z.to_nat count := 0x80]> (md5_in c) in
  let p := S (Z.to_nat count) in
  let count := 56 - 1 - count in
  let '(buf, inp, p, count) :=
    if count <? 0 then
      let inp := blit inp p (zeros (Z.to_nat (count + 8))) in
      (MD5Transform (md5_buf c) inp, inp, 0%nat, 56)
    else (md5_buf c, inp, p, count) in
  let inp := blit inp p (zeros (Z.to_nat count)) in
  let inp := blit inp 56 (le32_bytes (u32 (bytes_lo c << 3))
                          ++ le32_bytes (u32 (bytes_hi c << 3) ||| bytes_lo c >> 29)) in
  let buf := MD5Transform buf inp in
  (blit digest 0 (md5_bytes buf), md5_cleared).

(** ** RFC 1321 *)

Definition rfc_F (x y z : Z) : Z := (x &&& y) ||| (not32 x &&& z).
Definition rfc_G (x y z : Z) : Z := (x &&& z) ||| (y &&& not32 z).
Definition rfc_H (x y z : Z) : Z := x ^^^ y ^^^ z.
Definition rfc_I (x y z : Z) : Z := y ^^^ (x ||| not32 z).

(** [2^200 * sin x] by its series, for [x <= 64]. *)
Fixpoint sine_series (n : nat) (k term x : Z) : Z :=
  match n with
  | O => 0
  | S n => term - sine_series n (k + 2) (term * x * x / ((k + 1) * (k + 2))) x
  end.

(** [T[i]]: the integer part of [4294967296 * abs(sin(i))]. *)
Definition rfc_T (i : nat) : Z :=
  let x := Z.of_nat i + 1 in Z.abs (sine_series 160 1 (x << 200) x) >> (200 - 32).

Definition rfc_round (i : nat) : Z -> Z -> Z -> Z :=
  match (i / 16)%nat with O => rfc_F | 1%nat => rfc_G | 2%nat => rfc_H | _ => rfc_I end.

Definition rfc_word (i : nat) : nat :=
  match (i / 16)%nat with
  | O => i mod 16 | 1%nat => (1 + 5 * i) mod 16 | 2%nat => (5 + 3 * i) mod 16 | _ => (7 * i) mod 16
  end.

Definition rfc_shift (i : nat) : Z :=
  byte_at (match (i / 16)%nat with
    | O => [7; 12; 17; 22] | 1%nat => [5; 9; 14; 20] | 2%nat => [4; 11; 16; 23] | _ => [6; 10; 15; 21]
    end) (i mod 4).

(** One operation [a = b + ((a + F(b,c,d) + X[k] + T[i]) <<< s)], and the change of
    names. *)
Definition rfc_step (X : nat -> Z) (v : md5_words) (i : nat) : md5_words :=
  let '{| wa := a; wb := b; wc := c; wd := d |} := v in
  {| wa := d;
     wb := u32 (b + rotl32 (u32 (a + rfc_round i b c d + X (rfc_word i) + rfc_T i)) (rfc_shift i));
     wc := b; wd := c |}.

Definition rfc_compress (v : md5_words) (block : bytes) : md5_words :=
  let r := foldl (rfc_step (fun k => le32 block (4 * k))) v (seq 0 64) in
  {| wa := u32 (wa v + wa r); wb := u32 (wb v + wb r);
     wc := u32 (wc v + wc r); wd := u32 (wd v + wd r) |}.

(** The length in bits, modulo [2^64], low-order word first. *)
Definition rfc_length (n : nat) : bytes :=
  let bits := u64 (8 * Z.of_nat n) in le32_bytes (u32 bits) ++ le32_bytes (bits >> 32).

Definition md5_start : md5_words :=
  {| wa := 0x67452301; wb := 0xefcdab89; wc := 0x98badcfe; wd := 0x10325476 |}.

Definition md5_rfc (m : bytes) : bytes :=
  md5_bytes (hash_blocks rfc_compress md5_start (padded 0x80 m (rfc_length (length m)))).

(** The digest of "abc" and of the empty message, from the RFC. *)
Example md5_rfc_abc : md5_rfc [97; 98; 99] =
  [0x90; 0x01; 0x50; 0x98; 0x3c; 0xd2; 0x4f; 0xb0; 0xd6; 0x96; 0x3f; 0x7d; 0x28; 0xe1; 0x7f; 0x72].
Proof. vm_compute. reflexivity. Qed.

Example md5_rfc_empty : md5_rfc [] =
  [0xd4; 0x1d; 0x8c; 0xd9; 0x8f; 0x00; 0xb2; 0x04; 0xe9; 0x80; 0x09; 0x98; 0xec; 0xf8; 0x42; 0x7e].
Proof. vm_compute. reflexivity. Qed.

(** ** The transform is RFC 1321 *)

Definition word_ok (x : Z) : Prop := 0 <= x < 2 ^ 32.
Definition words_ok (v : md5_words) : Prop := word_ok (wa v) /\ word_ok (wb v) /\ word_ok (wc v) /\ word_ok (wd v).

(** The optimised functions are those of the RFC. *)
Lemma F1_rfc x y z : word_ok x -> word_ok y -> word_ok z -> F1 x y z = rfc_F x y z.
Proof.
  intros Hx Hy Hz. unfold F1, rfc_F, not32. apply Z.bits_inj'. intros i Hi.
  rewrite !Z.lxor_spec, !Z.lor_spec, !Z.land_spec, Z.lxor_spec, testbit_u32, Z.lnot_spec by lia.
  destruct (Z.ltb_spec i 32); [|rewrite !(testbit_small _ 32 i) by done; done].
  by destruct (Z.testbit x i), (Z.testbit y i), (Z.testbit z i).
Qed.

Lemma F2_rfc x y z : word_ok x -> word_ok y -> word_ok z -> F2 x y z = rfc_G x y z.
Proof.
  intros Hx Hy Hz. unfold F2. rewrite F1_rfc by done. unfold rfc_F, rfc_G. f_equal; apply Z.land_comm.
Qed.

(** The instruction of step [i]. *)
Definition code_round (i : nat) : Z -> Z -> Z -> Z :=
  match (i / 16)%nat with O => F1 | 1%nat => F2 | 2%nat => F3 | _ => F4 end.

Definition turn (i : nat) (r : reg * reg * reg * reg) : reg * reg * reg * reg :=
  let '(w, x, y, z) := r in
  match (i mod 4)%nat with
  | O => (w, x, y, z) | 1%nat => (z, w, x, y) | 2%nat => (y, z, w, x) | _ => (x, y, z, w)
  end.

Definition rfc_instruction (i : nat) : md5_step :=
  let '(w, x, y, z) := turn i (A, B, C, D) in
  STEP (code_round i) w x y z (rfc_word i) (rfc_T i) (rfc_shift i).

Lemma md5_program_rfc : md5_program = map rfc_instruction (seq 0 64).
Proof.
  unfold md5_program, rfc_instruction, code_round. generalize F1 F2 F3 F4. intros f1 f2 f3 f4.
  vm_compute. reflexivity.
Qed.

(** The registers by their role in step [i]. *)
Definition roles (i : nat) (v : md5_words) : md5_words :=
  let '(w, x, y, z) := turn i (A, B, C, D) in
  {| wa := get w v; wb := get x v; wc := get y v; wd := get z v |}.

Lemma code_round_rfc i x y z : word_ok x -> word_ok y -> word_ok z -> code_round i x y z = rfc_round i x y z.
Proof.
  intros. unfold code_round, rfc_round. destruct (i / 16)%nat as [|[|[|n]]]; [by apply F1_rfc|by apply F2_rfc|done|done].
Qed.

Lemma u32_word z : word_ok (u32 z).
Proof. apply u32_range. Qed.

Lemma sum4_u32 a f x t : u32 (a + u32 (f + u32 (x + t))) = u32 (a + f + x + t).
Proof.
  unfold u32. rewrite (Zplus_mod_idemp_r (x + t)), Zplus_mod_idemp_r. f_equal. lia.
Qed.

Lemma mod4_cases i : (i mod 4 = 0 /\ S i mod 4 = 1 \/ i mod 4 = 1 /\ S i mod 4 = 2 \/
  i mod 4 = 2 /\ S i mod 4 = 3 \/ i mod 4 = 3 /\ S i mod 4 = 0)%nat.
Proof.
  pose proof (Nat.mod_upper_bound i 4 ltac:(lia)). pose proof (Nat.div_mod i 4 ltac:(lia)).
  destruct (i mod 4)%nat as [|[|[|[|n]]]] eqn:E; [| | | |lia].
  - left. split; [done|]. symmetry. apply (Nat.mod_unique _ 4 (i / 4)); lia.
  - right; left. split; [done|]. symmetry. apply (Nat.mod_unique _ 4 (i / 4)); lia.
  - right; right; left. split; [done|]. symmetry. apply (Nat.mod_unique _ 4 (i / 4)); lia.
  - right; right; right. split; [done|]. symmetry. apply (Nat.mod_unique _ 4 (S (i / 4))); lia.
Qed.

Lemma step_roles inp v i : words_ok v ->
  roles (S i) (MD5STEP inp v (rfc_instruction i)) = rfc_step (fun k => le32 inp (4 * k)) (roles i v) i /\
  words_ok (MD5STEP inp v (rfc_instruction i)).
Proof.
  intros (Ha & Hb & Hc & Hd). destruct v as [a b c d]. cbn [wa wb wc wd] in *.
  unfold roles, rfc_instruction, turn, MD5STEP.
  destruct (mod4_cases i) as [[-> ->]|[[-> ->]|[[-> ->]|[-> ->]]]];
    cbn [step_f step_w step_x step_y step_z step_in step_const step_shift get put wa wb wc wd];
    rewrite sum4_u32, code_round_rfc by done;
    (split; [unfold rfc_step; f_equal; f_equal; apply Z.add_comm|]);
    unfold words_ok; cbn [wa wb wc wd]; auto using u32_word.
Qed.

Lemma run_roles inp n i v : words_ok v ->
  roles (i + n) (foldl (MD5STEP inp) v (map rfc_instruction (seq i n))) =
    foldl (rfc_step (fun k => le32 inp (4 * k))) (roles i v) (seq i n).
Proof.
  revert i v. induction n as [|n IH]; intros i v Hv; [by rewrite Nat.add_0_r|].
  destruct (step_roles inp v i Hv) as [E Hv']. cbn [seq map foldl].
  rewrite <- E, <- IH by done. f_equal. lia.
Qed.

Lemma MD5Transform_rfc v inp : words_ok v -> MD5Transform v inp = rfc_compress v inp.
Proof.
  intros Hv. unfold MD5Transform, rfc_compress. rewrite md5_program_rfc.
  pose proof (run_roles inp 64 0 v Hv) as E.
  change (roles 0 v) with {| wa := wa v; wb := wb v; wc := wc v; wd := wd v |} in E.
  assert (Ev : {| wa := wa v; wb := wb v; wc := wc v; wd := wd v |} = v) by (by destruct v). rewrite Ev in E.
  rewrite <- E. generalize (foldl (MD5STEP inp) v (map rfc_instruction (seq 0 64))). by intros [].
Qed.

Lemma rfc_compress_ok v block : words_ok (rfc_compress v block).
Proof. repeat split; apply u32_range. Qed.

Lemma rfc_blocks_ok k v m : words_ok v -> words_ok (run_blocks rfc_compress k v m).
Proof.
  revert v m. induction k as [|k IH]; intros v m Hv; [done|]. cbn [run_blocks]. apply IH, rfc_compress_ok.
Qed.

(** ** Hashing in pieces *)

Abbreviation md5_absorbed m c := (absorbed rfc_compress md5_start m (md5_buf c) (md5_in c)).

(** The context after the bytes [m]. *)
Record md5_holds (m : bytes) (c : MD5Context) : Prop := {
  md5_state : md5_absorbed m c (length m mod 64);
  md5_lo : bytes_lo c = u32 (Z.of_nat (length m));
  md5_hi : bytes_hi c = u32 (Z.of_nat (length m) / 2 ^ 32)
}.

Lemma md5_start_ok : words_ok md5_start.
Proof. by vm_compute. Qed.

Lemma md5_absorbed_ok m c i : md5_absorbed m c i -> words_ok (md5_buf c).
Proof. intros Ha. rewrite (absorbed_hash _ _ _ _ _ _ Ha). apply rfc_blocks_ok, md5_start_ok. Qed.

Lemma MD5Init_holds c : length (md5_in c) = 64%nat -> md5_holds [] (MD5Init c).
Proof. intros Hl. constructor; [|done|done]. by apply (absorbed_start rfc_compress md5_start). Qed.

(** The two words of the byte count. *)
Lemma count_words n len : 0 <= n -> 0 <= len < 2 ^ 32 ->
  u32 (u32 n + len) = u32 (n + len) /\
  (if u32 (u32 n + len) <? u32 n then u32 (u32 (n / 2 ^ 32) + 1) else u32 (n / 2 ^ 32)) = u32 ((n + len) / 2 ^ 32).
Proof.
  intros Hn Hlen. assert (E : u32 (u32 n + len) = u32 (n + len)) by apply Zplus_mod_idemp_l.
  split; [done|]. rewrite E. pose proof (Z.div_mod n (2 ^ 32) ltac:(lia)) as Dn.
  pose proof (Z.mod_pos_bound n (2 ^ 32) ltac:(lia)). unfold u32 at 1 2 3 4. set (q := n / 2 ^ 32) in *.
  set (r := n mod 2 ^ 32) in *. destruct (Z_lt_ge_dec (r + len) (2 ^ 32)).
  - assert (E1 : (n + len) / 2 ^ 32 = q) by (symmetry; apply (Z.div_unique _ _ q (r + len)); lia).
    assert (E2 : (n + len) mod 2 ^ 32 = r + len) by (symmetry; apply (Z.mod_unique _ _ q (r + len)); lia).
    rewrite E1, E2. destruct (Z.ltb_spec (r + len) r); [lia|done].
  - assert (E1 : (n + len) / 2 ^ 32 = q + 1) by (symmetry; apply (Z.div_unique _ _ _ (r + len - 2 ^ 32)); lia).
    assert (E2 : (n + len) mod 2 ^ 32 = r + len - 2 ^ 32)
      by (symmetry; apply (Z.mod_unique _ _ (q + 1) (r + len - 2 ^ 32)); lia).
    rewrite E1, E2. destruct (Z.ltb_spec (r + len - 2 ^ 32) r); [|lia]. apply Zplus_mod_idemp_l.
Qed.

(** The position in the buffer. *)
Lemma low_six n : u32 (Z.of_nat n) &&& 0x3f = Z.of_nat (n mod 64).
Proof.
  change 0x3f with (Z.ones 6). rewrite Z.land_ones by lia. unfold u32.
  rewrite Z.mod_mod_divide by (exists (2 ^ 26); lia). by rewrite Nat2Z.inj_mod.
Qed.

Lemma md5_chunks_run k m c buf : md5_absorbed m c 0 -> (64 * k <= length buf)%nat ->
  exists c', md5_chunks k c buf = (c', drop (64 * k) buf) /\ md5_absorbed (m ++ take (64 * k) buf) c' 0 /\
    bytes_lo c' = bytes_lo c /\ bytes_hi c' = bytes_hi c.
Proof.
  revert m c buf. induction k as [|k IH]; intros m c buf Ha Hk.
  { exists c. cbn [md5_chunks]. rewrite Nat.mul_0_r. cbn [take drop]. by rewrite app_nil_r. }
  cbn [md5_chunks]. rewrite (proj2 (Nat.leb_le 64 (length buf))) by lia. cbv zeta.
  set (c1 := c <| md5_in := _ |> <| md5_buf := _ |>).
  assert (Hl : length (take 64 buf) = 64%nat) by (rewrite length_take; lia).
  assert (H1 : md5_absorbed (m ++ take 64 buf) c1 0).
  { unfold c1. cbn [md5_in md5_buf upd]. rewrite (MD5Transform_rfc _ _ (md5_absorbed_ok _ _ _ Ha)).
    by apply (absorbed_fill rfc_compress md5_start m _ _ 0 (take 64 buf)). }
  destruct (IH _ c1 (drop 64 buf) H1 ltac:(rewrite length_drop; lia)) as (c' & E & Ha' & El & Eh).
  exists c'. rewrite E, drop_drop. replace (64 + 64 * k)%nat with (64 * S k)%nat by lia.
  split; [done|]. split; [|done]. rewrite <- app_assoc in Ha'.
  replace (take 64 buf ++ take (64 * k) (drop 64 buf)) with (take (64 * S k) buf) in Ha'; [done|].
  replace (64 * S k)%nat with (64 + 64 * k)%nat by lia. symmetry. apply take_take_drop.
Qed.

Lemma MD5Update_holds m c buf : md5_holds m c -> Z.of_nat (length buf) < 2 ^ 32 ->
  md5_holds (m ++ buf) (MD5Update c buf).
Proof.
  intros [Ha El Eh] Hlen. destruct (count_words (Z.of_nat (length m)) (Z.of_nat (length buf))) as [C1 C2]; [lia|lia|].
  rewrite <- Nat2Z.inj_add, <- length_app in C1, C2. unfold MD5Update. cbv zeta.
  rewrite El, low_six. set (i := (length m mod 64)%nat) in *.
  pose proof (Nat.mod_upper_bound (length m) 64 ltac:(lia)) as Hi. fold i in Hi.
  replace (64 - (64 - Z.of_nat i)) with (Z.of_nat i) by lia. rewrite Nat2Z.id.
  set (c1 := c <| bytes_lo := _ |> <| bytes_hi ::= _ |>).
  assert (L1 : bytes_lo c1 = u32 (Z.of_nat (length (m ++ buf)))) by (unfold c1; cbn; by rewrite <- C1).
  assert (L2 : bytes_hi c1 = u32 (Z.of_nat (length (m ++ buf)) / 2 ^ 32)) by (unfold c1; cbn; by rewrite Eh, <- C2).
  assert (H1 : md5_absorbed m c1 i) by exact Ha. clearbody c1. clear Ha El Eh c C1 C2.
  destruct (Z.ltb_spec (Z.of_nat (length buf)) (64 - Z.of_nat i)) as [Hs|Hf].
  - constructor; [|done|done]. cbn [md5_in md5_buf upd].
    pose proof (absorbed_some rfc_compress md5_start _ _ _ _ buf H1 ltac:(lia)) as H2.
    by rewrite <- (absorbed_index _ _ _ _ _ _ H2).
  - replace (Z.to_nat (64 - Z.of_nat i)) with (64 - i)%nat by lia. set (first := take (64 - i) buf).
    assert (Hl : length first = (64 - i)%nat) by (unfold first; rewrite length_take; lia).
    set (c2 := c1 <| md5_in := _ |> <| md5_buf := _ |>).
    assert (H2 : md5_absorbed (m ++ first) c2 0).
    { unfold c2. cbn [md5_in md5_buf upd]. rewrite (MD5Transform_rfc _ _ (md5_absorbed_ok _ _ _ H1)).
      apply (absorbed_fill rfc_compress md5_start _ _ _ i first H1). lia. }
    destruct (md5_chunks_run (length (drop (64 - i) buf) / 64) _ c2 (drop (64 - i) buf) H2)
      as (c3 & E & H3 & E1 & E2); [apply Nat.Div0.mul_div_le|]. rewrite E.
    constructor; [|cbn; by rewrite E1|cbn; by rewrite E2]. cbn [md5_in md5_buf upd].
    pose proof (length_rest (drop (64 - i) buf)) as Hr.
    pose proof (Nat.mod_upper_bound (length (drop (64 - i) buf)) 64 ltac:(lia)).
    pose proof (absorbed_some rfc_compress md5_start _ _ _ _ _ H3 ltac:(rewrite Hr; lia)) as H4.
    assert (Em : (m ++ first) ++ take (64 * (length (drop (64 - i) buf) / 64)) (drop (64 - i) buf)
                 ++ drop (64 * (length (drop (64 - i) buf) / 64)) (drop (64 - i) buf) = m ++ buf).
    { unfold first. by rewrite take_drop, <- app_assoc, take_drop. }
    rewrite <- app_assoc, Em in H4. by rewrite <- (absorbed_index _ _ _ _ _ _ H4).
Qed.

(** The length field of the last block. *)
Lemma length_words n : 0 <= n ->
  le32_bytes (u32 (u32 n << 3)) ++ le32_bytes (u32 (u32 (n / 2 ^ 32) << 3) ||| u32 n >> 29) =
  le32_bytes (u32 (u64 (8 * n))) ++ le32_bytes (u64 (8 * n) >> 32).
Proof.
  intros Hn. assert (E8 : 8 * n = n << 3) by (rewrite Z.shiftl_mul_pow2 by lia; lia). rewrite E8.
  assert (E1 : u32 (u32 n << 3) = u32 (u64 (n << 3))).
  { apply Z.bits_inj'. intros i Hi. rewrite !testbit_u32, testbit_u64, !Z.shiftl_spec, testbit_u32 by lia.
    destruct (Z.ltb_spec i 32); [|done]. destruct (Z.ltb_spec i 64); [|lia]. destruct (Z.ltb_spec (i - 3) 32); [done|lia]. }
  assert (E2 : u32 (u32 (n / 2 ^ 32) << 3) ||| u32 n >> 29 = u64 (n << 3) >> 32).
  { rewrite <- Z.shiftr_div_pow2 by lia. apply Z.bits_inj'. intros i Hi.
    rewrite Z.lor_spec, testbit_u32, Z.shiftl_spec, testbit_u32 by lia.
    rewrite (Z.shiftr_spec (u32 n)), (Z.shiftr_spec (u64 _)), testbit_u32, testbit_u64, Z.shiftl_spec by lia.
    destruct (Z.ltb_spec i 32); [destruct (Z.ltb_spec (i + 32) 64); [|lia]|destruct (Z.ltb_spec (i + 32) 64); [lia|]].
    - destruct (Z.ltb_spec (i - 3) 32); [|lia]. replace (i + 32 - 3) with (i + 29) by lia.
      destruct (Z.ltb_spec (i + 29) 32).
      + rewrite (Z.testbit_neg_r _ (i - 3)) by lia. done.
      + rewrite Z.shiftr_spec by lia. replace (i - 3 + 32) with (i + 29) by lia. by rewrite orb_false_r.
    - destruct (Z.ltb_spec (i + 29) 32); [lia|done]. }
  by rewrite E1, E2.
Qed.

Lemma MD5Final_holds m c buf : md5_holds m c ->
  MD5Final buf c = (blit buf 0 (md5_rfc m), md5_cleared).
Proof.
  intros [Ha El Eh]. unfold MD5Final, md5_rfc. cbv zeta. rewrite El, Eh, low_six, Nat2Z.id.
  rewrite length_words by lia. set (i := (length m mod 64)%nat) in *.
  pose proof (Nat.mod_upper_bound (length m) 64 ltac:(lia)) as Hi. fold i in Hi.
  pose proof (absorbed_padded rfc_compress md5_start m _ _ i 0x80 (rfc_length (length m)) Ha ltac:(done)) as E.
  cbv zeta in E. rewrite <- E. clear E. unfold rfc_length. cbv zeta.
  assert (Hb : words_ok (md5_buf c)) by apply (md5_absorbed_ok _ _ _ Ha).
  assert (Eb : forall k, blit (md5_in c) i (0x80 :: zeros k) = blit (<[i := 0x80]> (md5_in c)) (S i) (zeros k)) by done.
  rewrite !Eb. set (inp := <[i := 0x80]> (md5_in c)). clearbody inp. clear Eb.
  set (len := le32_bytes _ ++ le32_bytes _). clearbody len.
  destruct (Z.ltb_spec (56 - 1 - Z.of_nat i) 0); destruct (Nat.leb_spec 56 i); try lia.
  - replace (Z.to_nat (56 - 1 - Z.of_nat i + 8)) with (63 - i)%nat by lia. change (Z.to_nat 56) with 56%nat.
    rewrite (MD5Transform_rfc (md5_buf c)) by exact Hb. rewrite MD5Transform_rfc by apply rfc_compress_ok. reflexivity.
  - replace (Z.to_nat (56 - 1 - Z.of_nat i)) with (55 - i)%nat by lia.
    rewrite MD5Transform_rfc by exact Hb. reflexivity.
Qed.

Lemma md5_bytes_ok v : length (md5_bytes v) = 16%nat /\ bytes_ok (md5_bytes v).
Proof. apply (concat_words_ok le32_bytes [wa v; wb v; wc v; wd v]), le32_bytes_ok. Qed.

(** The pieces of a message, one after the other. *)
Lemma md5_pieces chunks m c : Forall (fun b => Z.of_nat (length b) < 2 ^ 32) chunks -> md5_holds m c ->
  md5_holds (m ++ concat chunks) (foldl MD5Update c chunks).
Proof.
  revert m c. induction chunks as [|b chunks IH]; intros m c Hc Hm; [by rewrite app_nil_r|].
  apply Forall_cons in Hc as [Hb Hc]. cbn [concat foldl]. rewrite app_assoc. by apply IH, MD5Update_holds.
Qed.

(** C31: The code of md5.c computes the MD5 digest of RFC 1321 for every message, of any
    length and cut into any pieces of less than 2^32 bytes: whatever the context held
    before MD5Init, MD5Update on each piece and MD5Final write the 16 bytes of the
    reference, with its own round functions, its constants from the sine and its
    padding, over the start of the buffer, and clear the context. *)
Theorem md5_is_rfc1321 (c : MD5Context) (chunks : list bytes) (buf : bytes)
  (Hc : length (md5_in c) = 64%nat) (Hlen : Forall (fun b => Z.of_nat (length b) < 2 ^ 32) chunks) :
  MD5Final buf (foldl MD5Update (MD5Init c) chunks) = (blit buf 0 (md5_rfc (concat chunks)), md5_cleared).
Proof.
  apply MD5Final_holds, (md5_pieces chunks []); [done|]. by apply MD5Init_holds.
Qed.

(** The RFC's "12345678901234567890...", cut in the middle. *)
Definition sample_digits : bytes := concat (replicate 8 [49; 50; 51; 52; 53; 54; 55; 56; 57; 48]).

Lemma md5_is_rfc1321_witness :
  fst (MD5Final (zeros 16) (foldl MD5Update (MD5Init md5_cleared) [take 33 sample_digits; drop 33 sample_digits])) =
    [0x57; 0xed; 0xf4; 0xa2; 0x2b; 0xe3; 0xc9; 0x55; 0xac; 0x49; 0xda; 0x2e; 0x21; 0x07; 0xb6; 0x7a].
Proof.
  rewrite (md5_is_rfc1321 md5_cleared [take 33 sample_digits; drop 33 sample_digits] (zeros 16));
    [|done|repeat constructor; done].
  vm_compute. reflexivity.
Defined.

(** MD5 as the hash of login.c, in a context of fresh memory. *)
#[export] Instance libiscsi_md5 : Hash := {|
  hash_ctx := MD5Context;
  hash_init := MD5Init md5_cleared;
  hash_update := MD5Update;
  hash_final := fun c buf => fst (MD5Final buf c);
  digest := md5_rfc
|}.

Lemma pieces_short chunks : Z.of_nat (length (concat chunks)) < MAX_HASHED ->
  Forall (fun b : bytes => Z.of_nat (length b) < 2 ^ 32) chunks.
Proof.
  intros Hl. apply Forall_forall. intros b Hb. apply list_elem_of_split in Hb as (l1 & l2 & ->).
  rewrite concat_app, length_app in Hl. cbn [concat] in Hl. rewrite length_app in Hl. unfold MAX_HASHED in Hl. lia.
Qed.

#[export] Instance libiscsi_md5_laws : HashLaws libiscsi_md5 16.
Proof.
  split.
  - intros m. cbn [digest libiscsi_md5]. unfold md5_rfc. by rewrite (proj1 (md5_bytes_ok _)).
  - intros m. apply md5_bytes_ok.
  - intros chunks buf _ Hl. cbn [hash_final hash_update hash_init libiscsi_md5].
    erewrite MD5Final_holds; [done|]. apply (md5_pieces chunks []); [by apply pieces_short|by apply MD5Init_holds].
Qed.
