(* ===== verification/Fips180.v ===== *)
(** FIPS 180: SHA-1, SHA-224 and SHA-256 as the standard defines them, written without
    the code of [Sha]; test vectors.

    A word is a number below [2 ^ 32]; rotations are arithmetic on it, the schedule is
    the recurrence of the standard on the list of words in reverse, the constants are
    computed from the primes. *)

From S2P Require Import Prelude Hash.

(** ** Words *)

Definition word (x : Z) : Prop := 0 <= x < 2 ^ 32.

(** Addition modulo [2 ^ 32], and the rotation to the right by [n]: the lower [n] bits
    become the upper ones. *)
Definition wsum (l : list Z) : Z := foldr Z.add 0 l mod 2 ^ 32.
Definition turn_right (n x : Z) : Z := x / 2 ^ n + x mod 2 ^ n * 2 ^ (32 - n).
Definition turn_left (n x : Z) : Z := turn_right (32 - n) x.

Definition xor3 (x y z : Z) : Z := Z.lxor (Z.lxor x y) z.

(** The bits of [y] where [x] has ones, those of [z] elsewhere; and the majority. *)
Definition choose (x y z : Z) : Z := Z.lor (Z.land x y) (Z.ldiff z x).
Definition majority (x y z : Z) : Z := Z.lor (Z.land x y) (Z.land z (Z.lor x y)).

Definition Sum0 (x : Z) : Z := xor3 (turn_right 2 x) (turn_right 13 x) (turn_right 22 x).
Definition Sum1 (x : Z) : Z := xor3 (turn_right 6 x) (turn_right 11 x) (turn_right 25 x).
Definition mix0 (x : Z) : Z := xor3 (turn_right 7 x) (turn_right 18 x) (x / 2 ^ 3).
Definition mix1 (x : Z) : Z := xor3 (turn_right 17 x) (turn_right 19 x) (x / 2 ^ 10).

(** ** Constants *)

Definition is_prime (p : nat) : bool := forallb (fun d => negb (p mod d =? 0)%nat) (seq 2 (p - 2)).
Definition primes : list Z := map Z.of_nat (filter is_prime (seq 2 310)).

(** The integer part of the cube root, bit by bit. *)
Definition cube_root (x : Z) : Z :=
  foldl (fun r i => let r' := r + 2 ^ Z.of_nat i in if r' ^ 3 <=? x then r' else r) 0 (rev (seq 0 40)).

(** The first 32 bits of the fractional parts of the cube roots of the first 64 primes,
    of the square roots of the first 8, and the second 32 bits of those of the next 8. *)
Definition fips_K256 : list Z := map (fun p => cube_root (p * 2 ^ 96) mod 2 ^ 32) primes.
Definition fips_start256 : list Z := map (fun p => Z.sqrt (p * 2 ^ 64) mod 2 ^ 32) (take 8 primes).
Definition fips_start224 : list Z := map (fun p => Z.sqrt (p * 2 ^ 128) mod 2 ^ 32) (take 8 (drop 8 primes)).

(** Of SHA-1: [2 ^ 30] times the roots of 2, 3, 5 and 10, and five words of the digits
    from 0 to 15, up and down and up, in little-endian order. *)
Definition fips_K1 (t : nat) : Z := Z.sqrt (nth (t / 20) [2; 3; 5; 10] 0 * 2 ^ 60).
Definition fips_start1 : list Z :=
  map (le32 [0x01; 0x23; 0x45; 0x67; 0x89; 0xab; 0xcd; 0xef; 0xfe; 0xdc; 0xba; 0x98; 0x76; 0x54; 0x32; 0x10;
    0xf0; 0xe1; 0xd2; 0xc3]) [0; 4; 8; 12; 16]%nat.

(** ** The schedule *)

Definition block_word (block : bytes) (t : nat) : Z :=
  foldl (fun v b => v * 256 + b) 0 (take 4 (drop (4 * t) block)).

(** [next] makes a word of those before it, the last one first. *)
Definition expand (next : list Z -> Z) (n : nat) (block : bytes) : list Z :=
  rev (Nat.iter n (fun w => next w :: w) (rev (map (block_word block) (seq 0 16)))).

Definition next1 (w : list Z) : Z :=
  turn_left 1 (Z.lxor (xor3 (nth 2 w 0) (nth 7 w 0) (nth 13 w 0)) (nth 15 w 0)).
Definition next256 (w : list Z) : Z :=
  wsum [mix1 (nth 1 w 0); nth 6 w 0; mix0 (nth 14 w 0); nth 15 w 0].

(** ** The compression functions *)

Definition fips_f (t : nat) : Z -> Z -> Z -> Z :=
  match (t / 20)%nat with O => choose | 2%nat => majority | _ => xor3 end.

Definition step1 (W : list Z) (v : list Z) (t : nat) : list Z :=
  match v with
  | [a; b; c; d; e] => [wsum [turn_left 5 a; fips_f t b c d; e; fips_K1 t; nth t W 0]; a; turn_left 30 b; c; d]
  | _ => v
  end.

Definition step256 (W : list Z) (v : list Z) (t : nat) : list Z :=
  match v with
  | [a; b; c; d; e; f; g; h] =>
      let T1 := wsum [h; Sum1 e; choose e f g; nth t fips_K256 0; nth t W 0] in
      let T2 := wsum [Sum0 a; majority a b c] in
      [wsum [T1; T2]; a; b; c; wsum [d; T1]; e; f; g]
  | _ => v
  end.

Definition compress (step : list Z -> list Z -> nat -> list Z) (next : list Z -> Z) (rounds : nat)
    (h : list Z) (block : bytes) : list Z :=
  zip_with (fun x y => wsum [x; y]) h
    (foldl (step (expand next (rounds - 16) block)) h (seq 0 rounds)).

Definition fips_compress1 : list Z -> bytes -> list Z := compress step1 next1 80.
Definition fips_compress256 : list Z -> bytes -> list Z := compress step256 next256 64.

(** ** The digest *)

(** A message of [m] and the first [n] bits of the byte [bits]: the byte with the bit
    that starts the padding, and the length as 64 bits. *)
Definition fips_pad (bits : Z) (n : nat) : Z :=
  (bits >> (8 - Z.of_nat n)) << (8 - Z.of_nat n) ||| 2 ^ (7 - Z.of_nat n).

Definition word_bytes (v : Z) : bytes := [v / 2 ^ 24 mod 256; v / 2 ^ 16 mod 256; v / 2 ^ 8 mod 256; v mod 256].
Definition fips_length (bits : Z) : bytes := word_bytes (bits / 2 ^ 32) ++ word_bytes (bits mod 2 ^ 32).

Definition fips_hash (process : list Z -> bytes -> list Z) (h0 : list Z) (size : nat)
    (m : bytes) (bits : Z) (n : nat) : bytes :=
  take size (concat (map word_bytes (hash_blocks process h0
    (padded (fips_pad bits n) m (fips_length (8 * Z.of_nat (length m) + Z.of_nat n)))))).

Definition fips_sha1 : bytes -> Z -> nat -> bytes := fips_hash fips_compress1 fips_start1 20.
Definition fips_sha224 : bytes -> Z -> nat -> bytes := fips_hash fips_compress256 fips_start224 28.
Definition fips_sha256 : bytes -> Z -> nat -> bytes := fips_hash fips_compress256 fips_start256 32.

(** The digests of "abc", and of the 5 bits 01100 that RFC 6234 tests with SHA-1. *)
Definition hex (d : bytes) : Z := foldl (fun v b => v * 256 + b) 0 d.

Example fips_sha1_abc : hex (fips_sha1 [97; 98; 99] 0 0) = 0xa9993e364706816aba3e25717850c26c9cd0d89d.
Proof. vm_compute. reflexivity. Qed.

Example fips_sha224_abc :
  hex (fips_sha224 [97; 98; 99] 0 0) = 0x23097d223405d8228642a477bda255b32aadbce4bda0b3f7e36c9da7.
Proof. vm_compute. reflexivity. Qed.

Example fips_sha256_abc :
  hex (fips_sha256 [97; 98; 99] 0 0) = 0xba7816bf8f01cfea414140de5dae2223b00361a396177a9cb410ff61f20015ad.
Proof. vm_compute. reflexivity. Qed.

Example fips_sha1_bits : hex (fips_sha1 [] 0x98 5) = 0x29826b003b906e660eff4027ce98af3531ac75ba.
Proof. vm_compute. reflexivity. Qed.
