(* ===== verification/Sha.v ===== *)
(** SHA-1 and SHA-224/256 (src/lib/sha1.c, src/lib/sha224-256.c, include/sha.h).

    The two files are the same code around different block functions, on contexts
    that differ in the number of words: [sha_context] is both, its
    [Intermediate_Hash] a list of words, and the functions [Sha...] take the block
    function as a parameter.  A NULL pointer is [None].

    The reference is [Fips180], which shares nothing with this code: the rounds, the
    schedule, the constants and the padding are shown to be those of the standard. *)

From S2P Require Import Prelude Hash Fips180.

(** ** The code *)

Definition shaSuccess : Z := 0.
Definition shaNull : Z := 1.
Definition shaInputTooLong : Z := 2.
Definition shaStateError : Z := 3.
Definition shaBadParam : Z := 4.

Definition SHA_Message_Block_Size : nat := 64.
Definition SHA1HashSize : nat := 20.
Definition SHA224HashSize : nat := 28.
Definition SHA256HashSize : nat := 32.

Record sha_context := {
  Intermediate_Hash : list Z;
  Length_Low : Z;
  Length_High : Z;
  Message_Block_Index : nat;
  Message_Block : bytes;
  Computed : Z;
  Corrupted : Z
}.

#[export] Instance eta_sha_context : Eta sha_context := fun c =>
  Build_sha_context (Intermediate_Hash c) (Length_Low c) (Length_High c) (Message_Block_Index c)
    (Message_Block c) (Computed c) (Corrupted c).

Definition SHA_Ch (x y z : Z) : Z := (x &&& y) ^^^ (not32 x &&& z).
Definition SHA_Maj (x y z : Z) : Z := (x &&& y) ^^^ (x &&& z) ^^^ (y &&& z).
Definition SHA_Parity (x y z : Z) : Z := x ^^^ y ^^^ z.

(** A word of a block, and of an array of words. *)
Definition be32 (b : bytes) (i : nat) : Z :=
  byte_at b i << 24 ||| byte_at b (i + 1) << 16 ||| byte_at b (i + 2) << 8 ||| byte_at b (i + 3).

Definition word_at (w : list Z) (i : nat) : Z := default 0 (w !! i).

(** [for (t = first; t < first + n; t++) W[t] = f(W, t)] *)
Fixpoint extend (f : list Z -> nat -> Z) (n : nat) (w : list Z) : list Z :=
  match n with
  | O => w
  | S n => extend f n (w ++ [f w (length w)])
  end.

Definition first_words (block : bytes) : list Z := map (fun t => be32 block (4 * t)) (seq 0 16).

(** ** The block function of SHA-1 *)

Definition sha1_K : list Z := [0x5A827999; 0x6ED9EBA1; 0x8F1BBCDC; 0xCA62C1D6].

Definition sha1_next (w : list Z) (t : nat) : Z :=
  rotl32 (word_at w (t - 3) ^^^ word_at w (t - 8) ^^^ word_at w (t - 14) ^^^ word_at w (t - 16)) 1.

Definition sha1_W (block : bytes) : list Z := extend sha1_next 64 (first_words block).

(** The body of the four loops, for their function and constant. *)
Definition sha1_round (w : list Z) (f : Z -> Z -> Z -> Z) (k : Z) (v : Z * Z * Z * Z * Z) (t : nat)
    : Z * Z * Z * Z * Z :=
  let '(a, b, c, d, e) := v in
  let temp := u32 (rotl32 a 5 + f b c d + e + word_at w t + k) in
  (temp, a, rotl32 b 30, c, d).

Definition sha1_block (h : list Z) (block : bytes) : list Z :=
  let w := sha1_W block in
  let v := (word_at h 0, word_at h 1, word_at h 2, word_at h 3, word_at h 4) in
  let v := foldl (sha1_round w SHA_Ch (word_at sha1_K 0)) v (seq 0 20) in
  let v := foldl (sha1_round w SHA_Parity (word_at sha1_K 1)) v (seq 20 20) in
  let v := foldl (sha1_round w SHA_Maj (word_at sha1_K 2)) v (seq 40 20) in
  let v := foldl (sha1_round w SHA_Parity (word_at sha1_K 3)) v (seq 60 20) in
  let '(a, b, c, d, e) := v in
  [u32 (word_at h 0 + a); u32 (word_at h 1 + b); u32 (word_at h 2 + c);
   u32 (word_at h 3 + d); u32 (word_at h 4 + e)].

(** ** The block function of SHA-224 and SHA-256 *)

Definition SHA256_SIGMA0 (x : Z) : Z := rotr32 x 2 ^^^ rotr32 x 13 ^^^ rotr32 x 22.
Definition SHA256_SIGMA1 (x : Z) : Z := rotr32 x 6 ^^^ rotr32 x 11 ^^^ rotr32 x 25.
Definition SHA256_sigma0 (x : Z) : Z := rotr32 x 7 ^^^ rotr32 x 18 ^^^ x >> 3.
Definition SHA256_sigma1 (x : Z) : Z := rotr32 x 17 ^^^ rotr32 x 19 ^^^ x >> 10.

(** By the lines of the table in the source. *)
Definition sha256_K : list Z :=
  concat [
    [0x428a2f98; 0x71374491; 0xb5c0fbcf; 0xe9b5dba5; 0x3956c25b];
    [0x59f111f1; 0x923f82a4; 0xab1c5ed5; 0xd807aa98; 0x12835b01];
    [0x243185be; 0x550c7dc3; 0x72be5d74; 0x80deb1fe; 0x9bdc06a7];
    [0xc19bf174; 0xe49b69c1; 0xefbe4786; 0x0fc19dc6; 0x240ca1cc];
    [0x2de92c6f; 0x4a7484aa; 0x5cb0a9dc; 0x76f988da; 0x983e5152];
    [0xa831c66d; 0xb00327c8; 0xbf597fc7; 0xc6e00bf3; 0xd5a79147];
    [0x06ca6351; 0x14292967; 0x27b70a85; 0x2e1b2138; 0x4d2c6dfc];
    [0x53380d13; 0x650a7354; 0x766a0abb; 0x81c2c92e; 0x92722c85];
    [0xa2bfe8a1; 0xa81a664b; 0xc24b8b70; 0xc76c51a3; 0xd192e819];
    [0xd6990624; 0xf40e3585; 0x106aa070; 0x19a4c116; 0x1e376c08];
    [0x2748774c; 0x34b0bcb5; 0x391c0cb3; 0x4ed8aa4a; 0x5b9cca4f];
    [0x682e6ff3; 0x748f82ee; 0x78a5636f; 0x84c87814; 0x8cc70208];
    [0x90befffa; 0xa4506ceb; 0xbef9a3f7; 0xc67178f2]].

Definition sha256_next (w : list Z) (t : nat) : Z :=
  u32 (SHA256_sigma1 (word_at w (t - 2)) + word_at w (t - 7)
       + SHA256_sigma0 (word_at w (t - 15)) + word_at w (t - 16)).

Definition sha256_W (block : bytes) : list Z := extend sha256_next 48 (first_words block).

Definition sha256_round (w : list Z) (v : Z * Z * Z * Z * Z * Z * Z * Z) (t : nat)
    : Z * Z * Z * Z * Z * Z * Z * Z :=
  let '(a, b, c, d, e, f, g, h) := v in
  let temp1 := u32 (h + SHA256_SIGMA1 e + SHA_Ch e f g + word_at sha256_K t + word_at w t) in
  let temp2 := u32 (SHA256_SIGMA0 a + SHA_Maj a b c) in
  (u32 (temp1 + temp2), a, b, c, u32 (d + temp1), e, f, g).

Definition sha256_block (h : list Z) (block : bytes) : list Z :=
  let v := (word_at h 0, word_at h 1, word_at h 2, word_at h 3,
            word_at h 4, word_at h 5, word_at h 6, word_at h 7) in
  let '(a, b, c, d, e, f, g, i) := foldl (sha256_round (sha256_W block)) v (seq 0 64) in
  [u32 (word_at h 0 + a); u32 (word_at h 1 + b); u32 (word_at h 2 + c); u32 (word_at h 3 + d);
   u32 (word_at h 4 + e); u32 (word_at h 5 + f); u32 (word_at h 6 + g); u32 (word_at h 7 + i)].

(** ** The context *)

Section Sha.
Context (process : list Z -> bytes -> list Z).

Definition ShaProcessMessageBlock (c : sha_context) : sha_context :=
  c <| Intermediate_Hash := process (Intermediate_Hash c) (Message_Block c) |>
    <| Message_Block_Index := 0%nat |>.

Definition ShaReset (h0 : list Z) (context : option sha_context) : Z * option sha_context :=
  match context with
  | None => (shaNull, None)
  | Some c =>
      (shaSuccess, Some (c <| Length_Low := 0 |> <| Length_High := 0 |> <| Message_Block_Index := 0%nat |>
                           <| Intermediate_Hash := h0 |> <| Computed := 0 |> <| Corrupted := 0 |>))
  end.

(** The macro [SHA1AddLength], [SHA224_256AddLength]; its value is [Corrupted]. *)
Definition ShaAddLength (n : Z) (c : sha_context) : sha_context :=
  let addTemp := Length_Low c in
  let c := c <| Length_Low ::= fun l => u32 (l + n) |> in
  if Length_Low c <? addTemp then
    let c := c <| Length_High ::= fun h => u32 (h + 1) |> in
    c <| Corrupted := if Length_High c =? 0 then 1 else 0 |>
  else c <| Corrupted := 0 |>.

(** [context->Message_Block[context->Message_Block_Index++] = b] *)
Definition sha_store (b : Z) (c : sha_context) : sha_context :=
  c <| Message_Block ::= fun block => <[Message_Block_Index c := b]> block |>
    <| Message_Block_Index ::= S |>.

Fixpoint sha_input_loop (l : bytes) (c : sha_context) : sha_context :=
  match l with
  | [] => c
  | b :: l =>
      if truth (Corrupted c) then c else
      let c := ShaAddLength 8 (sha_store (b &&& 0xFF) c) in
      sha_input_loop l
        (if negb (truth (Corrupted c)) && (Message_Block_Index c =? SHA_Message_Block_Size)%nat
         then ShaProcessMessageBlock c else c)
  end.

Definition ShaInput (context : option sha_context) (message_array : option bytes) (length : nat)
    : Z * option sha_context :=
  if (length =? 0)%nat then (shaSuccess, context) else
  match context, message_array with
  | Some c, Some m =>
      if truth (Computed c) then (shaStateError, Some (c <| Corrupted := shaStateError |>)) else
      if truth (Corrupted c) then (Corrupted c, Some c) else
      (shaSuccess, Some (sha_input_loop (take length m) c))
  | _, _ => (shaNull, context)
  end.

(** [while (Message_Block_Index < n) Message_Block[Message_Block_Index++] = 0] *)
Definition sha_zeros (n : nat) (c : sha_context) : sha_context :=
  Nat.iter (n - Message_Block_Index c) (sha_store 0) c.

(** The length as the last 8 octets of the block. *)
Definition sha_length (c : sha_context) : bytes :=
  [u8 (Length_High c >> 24); u8 (Length_High c >> 16); u8 (Length_High c >> 8); u8 (Length_High c);
   u8 (Length_Low c >> 24); u8 (Length_Low c >> 16); u8 (Length_Low c >> 8); u8 (Length_Low c)].

Definition ShaPadMessage (Pad_Byte : Z) (c : sha_context) : sha_context :=
  let c :=
    if (SHA_Message_Block_Size - 8 <=? Message_Block_Index c)%nat then
      ShaProcessMessageBlock (sha_zeros SHA_Message_Block_Size (sha_store Pad_Byte c))
    else sha_store Pad_Byte c in
  let c := sha_zeros (SHA_Message_Block_Size - 8) c in
  ShaProcessMessageBlock (c <| Message_Block ::= fun block => blit block 56 (sha_length c) |>).

Definition ShaFinalize (Pad_Byte : Z) (c : sha_context) : sha_context :=
  (ShaPadMessage Pad_Byte c)
    <| Message_Block ::= fun block => blit block 0 (zeros SHA_Message_Block_Size) |>
    <| Length_Low := 0 |> <| Length_High := 0 |> <| Computed := 1 |>.

Definition masks : list Z := [0x00; 0x80; 0xC0; 0xE0; 0xF0; 0xF8; 0xFC; 0xFE].
Definition markbit : list Z := [0x80; 0x40; 0x20; 0x10; 0x08; 0x04; 0x02; 0x01].

Definition ShaFinalBits (context : option sha_context) (message_bits : Z) (length : nat)
    : Z * option sha_context :=
  if (length =? 0)%nat then (shaSuccess, context) else
  match context with
  | None => (shaNull, None)
  | Some c =>
      if truth (Computed c) || (8 <=? length)%nat || (length =? 0)%nat
      then (shaStateError, Some (c <| Corrupted := shaStateError |>)) else
      if truth (Corrupted c) then (Corrupted c, Some c) else
      (shaSuccess, Some (ShaFinalize ((message_bits &&& word_at masks length) ||| word_at markbit length)
                           (ShaAddLength (Z.of_nat length) c)))
  end.

(** The digest is written over the start of [Message_Digest]. *)
Definition ShaResult (HashSize : nat) (context : option sha_context) (Message_Digest : option bytes)
    : Z * option sha_context * option bytes :=
  match context, Message_Digest with
  | Some c, Some d =>
      if truth (Corrupted c) then (Corrupted c, Some c, Some d) else
      let c := if truth (Computed c) then c else ShaFinalize 0x80 c in
      let octet i := u8 (word_at (Intermediate_Hash c) (i / 4) >> (8 * (3 - Z.of_nat (i mod 4)))) in
      (shaSuccess, Some c, Some (blit d 0 (map octet (seq 0 HashSize))))
  | _, _ => (shaNull, context, Message_Digest)
  end.

End Sha.

(** ** sha1.c *)

Definition sha1_H0 : list Z := [0x67452301; 0xEFCDAB89; 0x98BADCFE; 0x10325476; 0xC3D2E1F0].

Definition SHA1ProcessMessageBlock := ShaProcessMessageBlock sha1_block.
Definition SHA1PadMessage := ShaPadMessage sha1_block.
Definition SHA1Finalize := ShaFinalize sha1_block.
Definition SHA1Reset := ShaReset sha1_H0.
Definition SHA1Input := ShaInput sha1_block.
Definition SHA1FinalBits := ShaFinalBits sha1_block.
Definition SHA1Result := ShaResult sha1_block SHA1HashSize.

(** ** sha224-256.c *)

Definition SHA256_H0 : list Z :=
  [0x6A09E667; 0xBB67AE85; 0x3C6EF372; 0xA54FF53A; 0x510E527F; 0x9B05688C; 0x1F83D9AB; 0x5BE0CD19].

Definition SHA224_H0 : list Z :=
  [0xC1059ED8; 0x367CD507; 0x3070DD17; 0xF70E5939; 0xFFC00B31; 0x68581511; 0x64F98FA7; 0xBEFA4FA4].

Definition SHA224_256ProcessMessageBlock := ShaProcessMessageBlock sha256_block.
Definition SHA224_256PadMessage := ShaPadMessage sha256_block.
Definition SHA224_256Finalize := ShaFinalize sha256_block.
Definition SHA224_256Reset (context : option sha_context) (H0 : list Z) := ShaReset H0 context.
Definition SHA224_256ResultN (context : option sha_context) (d : option bytes) (HashSize : nat) :=
  ShaResult sha256_block HashSize context d.

Definition SHA256Reset (context : option sha_context) := SHA224_256Reset context SHA256_H0.
Definition SHA256Input := ShaInput sha256_block.
Definition SHA256FinalBits := ShaFinalBits sha256_block.
Definition SHA256Result (context : option sha_context) (d : option bytes) :=
  SHA224_256ResultN context d SHA256HashSize.

Definition SHA224Reset (context : option sha_context) := SHA224_256Reset context SHA224_H0.
Definition SHA224Input := SHA256Input.
Definition SHA224FinalBits := SHA256FinalBits.
Definition SHA224Result (context : option sha_context) (d : option bytes) :=
  SHA224_256ResultN context d SHA224HashSize.

(** ** Hashing in pieces *)

(** Read the fields of an updated context. *)
Ltac sha_fields :=
  unfold upd in *;
  cbn [Intermediate_Hash Length_Low Length_High Message_Block_Index Message_Block Computed Corrupted] in *.

Section Streaming.
Context (process : list Z -> bytes -> list Z) (h0 : list Z).

Abbreviation sha_absorbed m c :=
  (absorbed process h0 m (Intermediate_Hash c) (Message_Block c) (Message_Block_Index c)).

(** The context after [bits] bits, those of the bytes [m] and maybe a few more. *)
Record sha_holds (m : bytes) (bits : Z) (c : sha_context) : Prop := {
  sha_state : sha_absorbed m c;
  sha_low : Length_Low c = bits mod 2 ^ 32;
  sha_high : Length_High c = bits / 2 ^ 32;
  sha_open : Computed c = 0;
  sha_sound : Corrupted c = 0
}.

Definition MAX_BITS : Z := 2 ^ 64.

Lemma ShaReset_holds c : length (Message_Block c) = 64%nat ->
  exists c', ShaReset h0 (Some c) = (shaSuccess, Some c') /\ sha_holds [] 0 c'.
Proof.
  intros Hl. eexists. split; [reflexivity|]. constructor; [|done|done|done|done].
  by apply absorbed_start.
Qed.

(** A sum kept in two words. *)
Lemma carry_words N n : 0 <= N -> 0 <= n < 2 ^ 32 ->
  let low := u32 (N mod 2 ^ 32 + n) in
  low = (N + n) mod 2 ^ 32 /\
  (if low <? N mod 2 ^ 32 then N / 2 ^ 32 + 1 else N / 2 ^ 32) = (N + n) / 2 ^ 32.
Proof.
  intros HN Hn. cbv zeta. unfold u32. rewrite Zplus_mod_idemp_l. split; [done|].
  pose proof (Z.div_mod N (2 ^ 32) ltac:(lia)) as D. pose proof (Z.mod_pos_bound N (2 ^ 32) ltac:(lia)).
  set (q := N / 2 ^ 32) in *. set (r := N mod 2 ^ 32) in *.
  destruct (Z_lt_ge_dec (r + n) (2 ^ 32)).
  - assert (E1 : (N + n) / 2 ^ 32 = q) by (symmetry; apply (Z.div_unique _ _ q (r + n)); lia).
    assert (E2 : (N + n) mod 2 ^ 32 = r + n) by (symmetry; apply (Z.mod_unique _ _ q (r + n)); lia).
    rewrite E1, E2. destruct (Z.ltb_spec (r + n) r); lia.
  - assert (E1 : (N + n) / 2 ^ 32 = q + 1) by (symmetry; apply (Z.div_unique _ _ _ (r + n - 2 ^ 32)); lia).
    assert (E2 : (N + n) mod 2 ^ 32 = r + n - 2 ^ 32)
      by (symmetry; apply (Z.mod_unique _ _ (q + 1) (r + n - 2 ^ 32)); lia).
    rewrite E1, E2. destruct (Z.ltb_spec (r + n - 2 ^ 32) r); lia.
Qed.

Lemma ShaAddLength_eq N n c : Length_Low c = N mod 2 ^ 32 -> Length_High c = N / 2 ^ 32 ->
  0 <= N -> 0 <= n < 2 ^ 32 -> N + n < MAX_BITS ->
  ShaAddLength n c = c <| Length_Low := (N + n) mod 2 ^ 32 |> <| Length_High := (N + n) / 2 ^ 32 |>
                       <| Corrupted := 0 |>.
Proof.
  intros El Eh HN Hn Hb. destruct (carry_words N n HN Hn) as [C1 C2]. cbv zeta in C2. unfold ShaAddLength.
  destruct c as [ih lo hi idx blk comp corr]. cbn in El, Eh. subst lo hi. cbv zeta.
  sha_fields. rewrite C1 in C2 |- *.
  assert (Hd : 0 <= (N + n) / 2 ^ 32 < 2 ^ 32).
  { split; [apply Z.div_pos; lia|]. apply Z.div_lt_upper_bound; unfold MAX_BITS in Hb; lia. }
  destruct ((N + n) mod 2 ^ 32 <? N mod 2 ^ 32).
  - assert (Ehi : u32 (N / 2 ^ 32 + 1) = (N + n) / 2 ^ 32) by (rewrite C2; by apply u32_small).
    assert (Hz : (N + n) / 2 ^ 32 =? 0 = false).
    { apply Z.eqb_neq. rewrite <- C2. pose proof (Z.div_pos N (2 ^ 32) HN ltac:(lia)). lia. }
    by rewrite Ehi, Hz.
  - by rewrite <- C2.
Qed.

Lemma sha_input_loop_holds l m c : sha_holds m (8 * Z.of_nat (length m)) c -> bytes_ok l ->
  8 * Z.of_nat (length (m ++ l)) < MAX_BITS ->
  sha_holds (m ++ l) (8 * Z.of_nat (length (m ++ l))) (sha_input_loop process l c).
Proof.
  revert m c. induction l as [|b l IH]; intros m c Hc Hl Hb; [by rewrite app_nil_r|].
  apply Forall_cons in Hl as [Hbyte Hl]. cbn [sha_input_loop]. rewrite (sha_sound _ _ _ Hc). cbn [truth negb Z.eqb].
  replace (m ++ b :: l) with ((m ++ [b]) ++ l) in Hb |- * by (by rewrite <- app_assoc).
  assert (Eb : b &&& 0xFF = b).
  { change 0xFF with (Z.ones 8). rewrite Z.land_ones by lia. by apply Z.mod_small. }
  rewrite Eb. apply IH; [|done|done]. rewrite !length_app in Hb. cbn [length] in Hb.
  assert (E8 : 8 * Z.of_nat (length (m ++ [b])) = 8 * Z.of_nat (length m) + 8) by (rewrite length_app; cbn; lia).
  rewrite E8. pose proof (absorbed_byte process h0 m _ _ _ b (sha_state _ _ _ Hc)) as Hs. cbv zeta in Hs.
  rewrite (ShaAddLength_eq (8 * Z.of_nat (length m)) 8 (sha_store b c))
    by first [by destruct Hc|lia]. destruct Hc as [Ha _ _ Eo Es].
  destruct c as [ih lo0 hi0 idx blk comp corr]. unfold sha_store, ShaProcessMessageBlock, SHA_Message_Block_Size.
  sha_fields. cbn [truth Z.eqb negb andb]. destruct (Nat.eqb_spec (S idx) 64); by constructor.
Qed.

(** The loops of the padding. *)
Lemma sha_zeros_run k c : Nat.iter k (sha_store 0) c =
  c <| Message_Block ::= fun b => blit b (Message_Block_Index c) (zeros k) |>
    <| Message_Block_Index ::= fun i => (i + k)%nat |>.
Proof.
  revert c. induction k as [|k IH]; intros c.
  { destruct c as [ih lo hi idx blk comp corr]. cbn [Nat.iter]. sha_fields. by rewrite Nat.add_0_r. }
  rewrite Nat.iter_succ_r, IH. destruct c as [ih lo hi idx blk comp corr]. unfold sha_store. sha_fields.
  f_equal. lia.
Qed.

Lemma sha_zeros_fields n c :
  Message_Block (sha_zeros n c) = blit (Message_Block c) (Message_Block_Index c) (zeros (n - Message_Block_Index c)) /\
  Intermediate_Hash (sha_zeros n c) = Intermediate_Hash c /\ sha_length (sha_zeros n c) = sha_length c.
Proof. unfold sha_zeros. rewrite sha_zeros_run. by destruct c. Qed.

(** The context before the zeros up to the length. *)
Definition sha_padding (pad : Z) (c : sha_context) : sha_context :=
  if (SHA_Message_Block_Size - 8 <=? Message_Block_Index c)%nat then
    ShaProcessMessageBlock process (sha_zeros SHA_Message_Block_Size (sha_store pad c))
  else sha_store pad c.

Lemma sha_padding_fields pad c :
  let start := blit (Message_Block c) (Message_Block_Index c) (pad :: zeros (63 - Message_Block_Index c)) in
  sha_length (sha_padding pad c) = sha_length c /\
  if (56 <=? Message_Block_Index c)%nat then
    Intermediate_Hash (sha_padding pad c) = process (Intermediate_Hash c) start /\
    Message_Block (sha_padding pad c) = start /\ Message_Block_Index (sha_padding pad c) = 0%nat
  else sha_padding pad c = sha_store pad c.
Proof.
  cbv zeta. unfold sha_padding. change (SHA_Message_Block_Size - 8)%nat with 56%nat.
  destruct (sha_zeros_fields SHA_Message_Block_Size (sha_store pad c)) as (E1 & E2 & E3).
  destruct (Nat.leb_spec 56 (Message_Block_Index c)); [|by destruct c].
  set (z := sha_zeros _ _) in *. clearbody z. split; [exact E3|].
  change (Intermediate_Hash (ShaProcessMessageBlock process z)) with (process (Intermediate_Hash z) (Message_Block z)).
  change (Message_Block (ShaProcessMessageBlock process z)) with (Message_Block z). rewrite E1, E2.
  unfold SHA_Message_Block_Size. by replace (64 - Message_Block_Index (sha_store pad c))%nat
    with (63 - Message_Block_Index c)%nat by (cbn; lia).
Qed.

Lemma ShaPadMessage_hash m pad c : sha_absorbed m c ->
  Intermediate_Hash (ShaPadMessage process pad c) = hash_blocks process h0 (padded pad m (sha_length c)).
Proof.
  intros Ha. pose proof (absorbed_index _ _ _ _ _ _ Ha) as Hi.
  rewrite <- (absorbed_padded process h0 m _ _ _ pad (sha_length c) Ha) by done. cbv zeta.
  destruct (sha_padding_fields pad c) as [El Ep]. cbv zeta in Ep.
  destruct (sha_zeros_fields (SHA_Message_Block_Size - 8) (sha_padding pad c)) as (E1 & E2 & E3).
  unfold ShaPadMessage. fold (sha_padding pad c). cbv zeta. set (z := sha_zeros _ _) in *. clearbody z.
  transitivity (process (Intermediate_Hash z) (blit (Message_Block z) 56 (sha_length z))); [done|].
  rewrite E1, E2, E3, El. change (SHA_Message_Block_Size - 8)%nat with 56%nat.
  destruct (56 <=? Message_Block_Index c)%nat.
  - destruct Ep as (-> & -> & ->). done.
  - rewrite Ep. change (Message_Block_Index (sha_store pad c)) with (S (Message_Block_Index c)).
    by replace (56 - S (Message_Block_Index c))%nat with (55 - Message_Block_Index c)%nat by lia.
Qed.
End Streaming.

(** ** FIPS 180 *)

(** *** Functions of words *)

Lemma testbit_word x i : word x -> 32 <= i -> Z.testbit x i = false.
Proof. intros Hx Hi. by apply (testbit_small x 32). Qed.

Lemma lor_shifted u v k : 0 <= k -> 0 <= v < 2 ^ k -> Z.lor (u * 2 ^ k) v = u * 2 ^ k + v.
Proof.
  intros Hk Hv.
  assert (E : Z.land (u * 2 ^ k) v = 0).
  { apply Z.bits_inj'. intros i Hi. rewrite Z.land_spec, Z.bits_0, <- Z.shiftl_mul_pow2 by lia.
    destruct (Z.lt_ge_cases i k); [by rewrite Z.shiftl_spec_low by lia|].
    rewrite (testbit_small v k) by lia. apply andb_false_r. }
  by rewrite <- Z.lxor_lor, <- Z.add_nocarry_lxor.
Qed.

Lemma rotr32_turn x n : word x -> 0 < n < 32 -> rotr32 x n = turn_right n x.
Proof.
  intros Hx Hn. unfold rotr32, turn_right, u32.
  assert (E32 : 2 ^ 32 = 2 ^ n * 2 ^ (32 - n)) by (rewrite <- Z.pow_add_r by lia; f_equal; lia).
  assert (E : (x << (32 - n)) mod 2 ^ 32 = x mod 2 ^ n * 2 ^ (32 - n)).
  { rewrite Z.shiftl_mul_pow2, E32 by lia. apply Z.mul_mod_distr_r; apply Z.pow_nonzero; lia. }
  rewrite E, Z.shiftr_div_pow2, Z.lor_comm, Z.add_comm by lia. apply lor_shifted; [lia|].
  unfold word in Hx. pose proof (Z.pow_pos_nonneg 2 n). pose proof (Z.pow_pos_nonneg 2 (32 - n)).
  split; [apply Z.div_pos; lia|]. apply Z.div_lt_upper_bound; lia.
Qed.

Lemma rotl32_turn x n : word x -> 0 < n < 32 -> rotl32 x n = turn_left n x.
Proof.
  intros Hx Hn. unfold turn_left. rewrite <- rotr32_turn by (done || lia). unfold rotl32, rotr32.
  rewrite Z.lor_comm. by replace (32 - (32 - n)) with n by lia.
Qed.

Lemma word_land x y : word y -> word (Z.land x y).
Proof. intros Hy. by apply (land_range_r 32). Qed.

Lemma word_lor x y : word x -> word y -> word (Z.lor x y).
Proof. intros Hx Hy. by apply (lor_range 32). Qed.

Lemma word_ldiff x y : word x -> word (Z.ldiff x y).
Proof. intros Hx. rewrite Z.ldiff_land, Z.land_comm. by apply word_land. Qed.

Lemma word_shift x n : word x -> 0 <= n -> word (x >> n).
Proof.
  intros Hx Hn. unfold word in *. rewrite Z.shiftr_div_pow2 by done. pose proof (Z.pow_pos_nonneg 2 n).
  split; [apply Z.div_pos; lia|]. apply Z.div_lt_upper_bound; nia.
Qed.

Lemma word_turn_right x n : word x -> 0 < n < 32 -> word (turn_right n x).
Proof. intros Hx Hn. rewrite <- rotr32_turn by done. apply word_lor; [apply word_shift; [done|lia]|apply u32_range]. Qed.

Lemma word_turn_left x n : word x -> 0 < n < 32 -> word (turn_left n x).
Proof. intros Hx Hn. apply word_turn_right; [done|lia]. Qed.

Lemma word_lxor x y : word x -> word y -> word (Z.lxor x y).
Proof.
  intros Hx Hy. apply range_of_bits; [apply Z.lxor_nonneg; unfold word in *; lia|lia|].
  intros i Hi. by rewrite Z.lxor_spec, !testbit_word by (done || lia).
Qed.

Lemma word_wsum l : word (wsum l).
Proof. apply Z.mod_pos_bound. lia. Qed.

Lemma wsum_u32 l : wsum l = u32 (foldr Z.add 0 l).
Proof. done. Qed.

Lemma SHA_Ch_choose x y z : word z -> SHA_Ch x y z = choose x y z.
Proof.
  intros Hz. apply Z.bits_inj'. intros i Hi. unfold SHA_Ch, choose, not32.
  rewrite Z.lxor_spec, Z.lor_spec, !Z.land_spec, Z.ldiff_spec, testbit_u32, Z.lnot_spec by done.
  destruct (Z.ltb_spec i 32); [|rewrite (testbit_word z) by done];
    by destruct (Z.testbit x i), (Z.testbit y i), (Z.testbit z i).
Qed.

Lemma SHA_Maj_majority x y z : SHA_Maj x y z = majority x y z.
Proof.
  apply Z.bits_inj'. intros i Hi. unfold SHA_Maj, majority.
  rewrite !Z.lxor_spec, !Z.lor_spec, !Z.land_spec, !Z.lor_spec.
  by destruct (Z.testbit x i), (Z.testbit y i), (Z.testbit z i).
Qed.

Lemma SIGMA_sums x : word x -> SHA256_SIGMA0 x = Sum0 x /\ SHA256_SIGMA1 x = Sum1 x /\
  SHA256_sigma0 x = mix0 x /\ SHA256_sigma1 x = mix1 x.
Proof.
  intros Hx. unfold SHA256_SIGMA0, SHA256_SIGMA1, SHA256_sigma0, SHA256_sigma1, Sum0, Sum1, mix0, mix1, xor3.
  by rewrite !rotr32_turn, !Z.shiftr_div_pow2 by (done || lia).
Qed.

(** *** The schedule *)

Lemma be32_word block t : bytes_ok block -> length block = 64%nat -> (t < 16)%nat ->
  be32 block (4 * t) = block_word block t /\ word (block_word block t).
Proof.
  intros Hb Hl Ht. unfold be32, block_word.
  assert (Hd : exists a b c d l, drop (4 * t) block = a :: b :: c :: d :: l).
  { pose proof (length_drop block (4 * t)) as Hn.
    destruct (drop (4 * t) block) as [|a [|b [|c [|d l]]]]; cbn [length] in Hn; try lia. by exists a, b, c, d, l. }
  destruct Hd as (a & b & c & d & l & Ed).
  assert (Hx : Forall byte_ok (a :: b :: c :: d :: l)) by (rewrite <- Ed; by apply Forall_drop).
  assert (Hat : forall k, byte_at block (4 * t + k) = byte_at (a :: b :: c :: d :: l) k).
  { intros k. unfold byte_at. by rewrite <- Ed, lookup_drop. }
  rewrite <- (Nat.add_0_r (4 * t)) at 1. rewrite !Hat, Ed. change (take 4 (a :: b :: c :: d :: l)) with [a; b; c; d].
  cbn [byte_at lookup list_lookup default from_option id foldl].
  repeat (apply Forall_cons in Hx as [? Hx]). unfold byte_ok, word in *. split; [|lia].
  rewrite !Z.shiftl_mul_pow2 by lia. rewrite (lor_shifted a _ 24) by lia.
  replace (a * 2 ^ 24 + b * 2 ^ 16) with ((a * 256 + b) * 2 ^ 16) by lia. rewrite (lor_shifted _ _ 16) by lia.
  replace ((a * 256 + b) * 2 ^ 16 + c * 2 ^ 8) with (((a * 256 + b) * 256 + c) * 2 ^ 8) by lia.
  rewrite (lor_shifted _ _ 8) by lia. lia.
Qed.

Lemma first_words_fips block : bytes_ok block -> length block = 64%nat ->
  first_words block = map (block_word block) (seq 0 16) /\ Forall word (first_words block).
Proof.
  intros Hb Hl. split.
  - apply map_ext_in. intros t Ht. apply in_seq in Ht. apply (be32_word block t Hb Hl). lia.
  - apply Forall_forall. intros x Hx. apply list_elem_of_fmap in Hx as (t & -> & Ht). apply elem_of_seq in Ht.
    destruct (be32_word block t Hb Hl) as [-> Hw]; [lia|done].
Qed.

Lemma word_at_nth w t : word_at w t = nth t w 0.
Proof. unfold word_at. by rewrite nth_lookup. Qed.

Lemma word_at_rev w k n : n = length w -> (k < n)%nat -> word_at w (n - S k) = nth k (rev w) 0.
Proof. intros -> Hk. by rewrite word_at_nth, rev_nth. Qed.

Lemma nth_word w t : Forall word w -> word (nth t w 0).
Proof.
  intros Hw. rewrite nth_lookup. destruct (w !! t) as [x|] eqn:E; cbn; [|unfold word; lia].
  by apply (Forall_lookup_1 _ _ _ _ Hw E).
Qed.

(** The words appended are those of the standard. *)
Lemma extend_expand f next n w : Forall word w -> (16 <= length w)%nat ->
  (forall w, Forall word w -> (16 <= length w)%nat -> f w (length w) = next (rev w) /\ word (next (rev w))) ->
  extend f n w = rev (Nat.iter n (fun w => next w :: w) (rev w)) /\ Forall word (extend f n w).
Proof.
  intros Hw Hl Hf. revert w Hw Hl. induction n as [|n IH]; intros w Hw Hl; [cbn; by rewrite rev_involutive|].
  destruct (Hf w Hw Hl) as [E Hx]. cbn [extend]. rewrite E.
  destruct (IH (w ++ [next (rev w)])) as [E1 H1]; [by apply Forall_app; split; [|constructor]|rewrite length_app; lia|].
  split; [|done]. by rewrite E1, Nat.iter_succ_r, rev_unit.
Qed.

Lemma sha1_next_fips w : Forall word w -> (16 <= length w)%nat ->
  sha1_next w (length w) = next1 (rev w) /\ word (next1 (rev w)).
Proof.
  intros Hw Hl. assert (Hr : Forall word (rev w)) by (by apply Forall_rev).
  pose proof (nth_word _ 2 Hr). pose proof (nth_word _ 7 Hr). pose proof (nth_word _ 13 Hr). pose proof (nth_word _ 15 Hr).
  assert (Hx : word (Z.lxor (xor3 (nth 2 (rev w) 0) (nth 7 (rev w) 0) (nth 13 (rev w) 0)) (nth 15 (rev w) 0)))
    by (unfold xor3; by repeat apply word_lxor).
  split; [|by apply word_turn_left]. unfold sha1_next, next1. rewrite !(word_at_rev w) by lia. by apply rotl32_turn.
Qed.

Lemma sha256_next_fips w : Forall word w -> (16 <= length w)%nat ->
  sha256_next w (length w) = next256 (rev w) /\ word (next256 (rev w)).
Proof.
  intros Hw Hl. assert (Hr : Forall word (rev w)) by (by apply Forall_rev).
  split; [|apply word_wsum]. unfold sha256_next, next256. rewrite !(word_at_rev w) by lia. rewrite wsum_u32. cbn [foldr].
  destruct (SIGMA_sums _ (nth_word _ 1 Hr)) as (_ & _ & _ & ->). destruct (SIGMA_sums _ (nth_word _ 14 Hr)) as (_ & _ & -> & _).
  f_equal. lia.
Qed.

Lemma sha1_W_fips block : bytes_ok block -> length block = 64%nat ->
  sha1_W block = expand next1 64 block /\ Forall word (sha1_W block).
Proof.
  intros Hb Hl. destruct (first_words_fips block Hb Hl) as [E Hw]. unfold sha1_W, expand. rewrite <- E.
  apply extend_expand; [done|cbn; lia|exact sha1_next_fips].
Qed.

Lemma sha256_W_fips block : bytes_ok block -> length block = 64%nat ->
  sha256_W block = expand next256 48 block /\ Forall word (sha256_W block).
Proof.
  intros Hb Hl. destruct (first_words_fips block Hb Hl) as [E Hw]. unfold sha256_W, expand. rewrite <- E.
  apply extend_expand; [done|cbn; lia|exact sha256_next_fips].
Qed.

(** *** The compression functions *)

Lemma sha256_K_fips : sha256_K = fips_K256.
Proof. vm_compute. reflexivity. Qed.

Lemma fips_K256_words : Forall word fips_K256.
Proof.
  rewrite <- sha256_K_fips. apply Forall_forall. intros x Hx.
  assert (H : forallb (fun x => (0 <=? x) && (x <? 2 ^ 32)) sha256_K = true) by (vm_compute; reflexivity).
  rewrite forallb_forall in H. apply list_elem_of_In, H, andb_true_iff in Hx as [H1 H2]. unfold word. lia.
Qed.

Definition words5 (v : Z * Z * Z * Z * Z) : list Z := let '(a, b, c, d, e) := v in [a; b; c; d; e].
Definition words8 (v : Z * Z * Z * Z * Z * Z * Z * Z) : list Z := let '(a, b, c, d, e, f, g, h) := v in [a; b; c; d; e; f; g; h].

(** One fold, on tuples or on lists. *)
Lemma foldl_as_list {A B} (f : A -> B -> A) (g : list Z -> B -> list Z) (as_list : A -> list Z) l v :
  (forall v t, t ∈ l -> Forall word (as_list v) -> as_list (f v t) = g (as_list v) t /\ Forall word (g (as_list v) t)) ->
  Forall word (as_list v) -> as_list (foldl f v l) = foldl g (as_list v) l /\ Forall word (foldl g (as_list v) l).
Proof.
  revert v. induction l as [|t l IH]; intros v Hfg Hv; [done|]. cbn [foldl].
  destruct (Hfg v t (list_elem_of_here _ _) Hv) as [E Hn]. rewrite <- E in Hn |- *. apply IH; [|done]. intros u s Hs. apply Hfg. by right.
Qed.

Lemma sha1_round_fips w f k v t : Forall word w -> Forall word (words5 v) ->
  (forall x y z, word z -> f x y z = fips_f t x y z) -> k = fips_K1 t ->
  words5 (sha1_round w f k v t) = step1 w (words5 v) t /\ Forall word (step1 w (words5 v) t).
Proof.
  destruct v as [[[[a b] c] d] e]. intros Hw Hv Hf ->. cbn [words5] in Hv.
  repeat (apply Forall_cons in Hv as [? Hv]). cbn [sha1_round words5 step1]. rewrite Hf, word_at_nth, !rotl32_turn by (done || lia).
  split.
  - f_equal. rewrite wsum_u32. f_equal. cbn [foldr]. lia.
  - rewrite !Forall_cons. split_and!; try done; first [apply word_wsum|by apply word_turn_left|apply Forall_nil_2].
Qed.

Lemma fips_rounds1 j t : (j < 4)%nat -> t ∈ seq (20 * j) 20 -> (t / 20 = j)%nat.
Proof. intros Hj Ht. apply elem_of_seq in Ht. symmetry. apply (Nat.div_unique _ 20 _ (t - 20 * j)); lia. Qed.

(** One of the four loops. *)
Lemma sha1_loop_fips w f j v : (j < 4)%nat -> Forall word w -> Forall word (words5 v) ->
  (forall x y z, word z -> f x y z = fips_f (20 * j) x y z) ->
  words5 (foldl (sha1_round w f (word_at sha1_K j)) v (seq (20 * j) 20)) = foldl (step1 w) (words5 v) (seq (20 * j) 20) /\
  Forall word (foldl (step1 w) (words5 v) (seq (20 * j) 20)).
Proof.
  intros Hj Hw Hv Hf. apply foldl_as_list; [|done]. intros u t Ht Hu. pose proof (fips_rounds1 j t Hj Ht) as Et.
  assert (E0 : (20 * j / 20 = j)%nat) by (rewrite Nat.mul_comm; by apply Nat.div_mul).
  apply sha1_round_fips; [done|done| |].
  - intros x y z Hz. rewrite Hf by done. unfold fips_f. by rewrite Et, E0.
  - unfold fips_K1. rewrite Et. do 4 (destruct j as [|j]; [vm_compute; reflexivity|]). lia.
Qed.

Lemma sha1_block_fips h block : length h = 5%nat -> Forall word h -> bytes_ok block -> length block = 64%nat ->
  sha1_block h block = fips_compress1 h block.
Proof.
  intros Hl Hh Hb Hbl. destruct (sha1_W_fips block Hb Hbl) as [E Hw].
  do 6 (destruct h as [|? h]; try discriminate Hl). unfold sha1_block, fips_compress1, compress.
  change (80 - 16)%nat with 64%nat. rewrite <- E. cbn [word_at lookup list_lookup default from_option id]. cbv zeta.
  change (seq 0 80) with (seq (20 * 0) 20 ++ seq (20 * 1) 20 ++ seq (20 * 2) 20 ++ seq (20 * 3) 20). rewrite !foldl_app.
  set (v0 := (z, z0, z1, z2, z3)). change [z; z0; z1; z2; z3] with (words5 v0) in *.
  destruct (sha1_loop_fips (sha1_W block) SHA_Ch 0 v0 ltac:(lia) Hw Hh) as [E0 H0]; [intros; by apply SHA_Ch_choose|].
  change (seq 0 20) with (seq (20 * 0) 20). set (v1 := foldl (sha1_round _ SHA_Ch _) v0 _) in *. rewrite <- E0 in H0 |- *.
  destruct (sha1_loop_fips (sha1_W block) SHA_Parity 1 v1 ltac:(lia) Hw H0) as [E1 H1]; [done|].
  change (seq 20 20) with (seq (20 * 1) 20). set (v2 := foldl (sha1_round _ _ (word_at sha1_K 1)) v1 _) in *. rewrite <- E1 in H1 |- *.
  destruct (sha1_loop_fips (sha1_W block) SHA_Maj 2 v2 ltac:(lia) Hw H1) as [E2 H2]; [intros; apply SHA_Maj_majority|].
  change (seq 40 20) with (seq (20 * 2) 20). set (v3 := foldl (sha1_round _ _ (word_at sha1_K 2)) v2 _) in *. rewrite <- E2 in H2 |- *.
  destruct (sha1_loop_fips (sha1_W block) SHA_Parity 3 v3 ltac:(lia) Hw H2) as [E3 H3]; [done|].
  change (seq 60 20) with (seq (20 * 3) 20). set (v4 := foldl (sha1_round _ _ (word_at sha1_K 3)) v3 _) in *. rewrite <- E3.
  destruct v4 as [[[[a b] c] d] e]. cbn [words5 zip_with v0]. rewrite !wsum_u32. cbn [foldr]. by rewrite !Z.add_0_r.
Qed.

Lemma sha256_round_fips w v t : Forall word w -> Forall word (words8 v) ->
  words8 (sha256_round w v t) = step256 w (words8 v) t /\ Forall word (step256 w (words8 v) t).
Proof.
  destruct v as [[[[[[[a b] c] d] e] f] g] h]. intros Hw Hv. cbn [words8] in Hv. repeat (apply Forall_cons in Hv as [? Hv]).
  cbn [sha256_round words8 step256]. rewrite SHA_Ch_choose, SHA_Maj_majority, !word_at_nth, sha256_K_fips by done.
  destruct (SIGMA_sums a ltac:(done)) as (-> & _). destruct (SIGMA_sums e ltac:(done)) as (_ & -> & _).
  assert (E1 : wsum [h; Sum1 e; choose e f g; nth t fips_K256 0; nth t w 0] =
    u32 (h + Sum1 e + choose e f g + nth t fips_K256 0 + nth t w 0)).
  { rewrite wsum_u32. f_equal. cbn [foldr]. lia. }
  assert (E2 : wsum [Sum0 a; majority a b c] = u32 (Sum0 a + majority a b c)).
  { rewrite wsum_u32. f_equal. cbn [foldr]. lia. }
  rewrite E1, E2. set (T1 := u32 (h + _ + _ + _ + _)). set (T2 := u32 (Sum0 a + _)). split.
  - unfold wsum. cbn [foldr]. by rewrite !Z.add_0_r.
  - rewrite !Forall_cons. split_and!; try done; first [apply word_wsum|apply Forall_nil_2].
Qed.

Lemma sha256_block_fips h block : length h = 8%nat -> Forall word h -> bytes_ok block -> length block = 64%nat ->
  sha256_block h block = fips_compress256 h block.
Proof.
  intros Hl Hh Hb Hbl. destruct (sha256_W_fips block Hb Hbl) as [E Hw].
  do 9 (destruct h as [|? h]; try discriminate Hl). unfold sha256_block, fips_compress256, compress.
  change (64 - 16)%nat with 48%nat. rewrite <- E. cbn [word_at lookup list_lookup default from_option id].
  set (v0 := (z, z0, z1, z2, z3, z4, z5, z6)). change [z; z0; z1; z2; z3; z4; z5; z6] with (words8 v0) in *.
  destruct (foldl_as_list (sha256_round (sha256_W block)) (step256 (sha256_W block)) words8 (seq 0 64) v0) as [E0 _]; [|done|].
  { intros u t _ Hu. by apply sha256_round_fips. }
  rewrite <- E0. destruct (foldl _ v0 _) as [[[[[[[a b] c] d] e] f] g] i]. cbn [words8 zip_with v0].
  rewrite !wsum_u32. cbn [foldr]. by rewrite !Z.add_0_r.
Qed.

(** ** The result *)

(** [enum SHAversion], and the functions of each version. *)
Inductive sha_version := SHA1 | SHA224 | SHA256.

Definition sha_reset (v : sha_version) : option sha_context -> Z * option sha_context :=
  match v with SHA1 => SHA1Reset | SHA224 => SHA224Reset | SHA256 => SHA256Reset end.
Definition sha_input (v : sha_version) : option sha_context -> option bytes -> nat -> Z * option sha_context :=
  match v with SHA1 => SHA1Input | SHA224 => SHA224Input | SHA256 => SHA256Input end.
Definition sha_final_bits (v : sha_version) : option sha_context -> Z -> nat -> Z * option sha_context :=
  match v with SHA1 => SHA1FinalBits | SHA224 => SHA224FinalBits | SHA256 => SHA256FinalBits end.
Definition sha_result (v : sha_version) : option sha_context -> option bytes -> Z * option sha_context * option bytes :=
  match v with SHA1 => SHA1Result | SHA224 => SHA224Result | SHA256 => SHA256Result end.

Definition sha_process (v : sha_version) : list Z -> bytes -> list Z :=
  match v with SHA1 => sha1_block | _ => sha256_block end.
Definition sha_start (v : sha_version) : list Z :=
  match v with SHA1 => sha1_H0 | SHA224 => SHA224_H0 | SHA256 => SHA256_H0 end.
Definition sha_size (v : sha_version) : nat :=
  match v with SHA1 => SHA1HashSize | SHA224 => SHA224HashSize | SHA256 => SHA256HashSize end.

(** The digest of the standard, and what the code computes: the same construction with
    its block function and start. *)
Definition sha_fips (v : sha_version) : bytes -> Z -> nat -> bytes :=
  match v with SHA1 => fips_sha1 | SHA224 => fips_sha224 | SHA256 => fips_sha256 end.
Definition sha_folded (v : sha_version) : bytes -> Z -> nat -> bytes :=
  fips_hash (sha_process v) (sha_start v) (sha_size v).

(** Input of one piece after the other, up to an error. *)
Fixpoint sha_feed (v : sha_version) (c : option sha_context) (chunks : list bytes) : Z * option sha_context :=
  match chunks with
  | [] => (shaSuccess, c)
  | b :: chunks =>
      let (rc, c) := sha_input v c (Some b) (length b) in
      if rc =? shaSuccess then sha_feed v c chunks else (rc, c)
  end.

Lemma sha_input_eq v : sha_input v = ShaInput (sha_process v).
Proof. destruct v; cbn [sha_input sha_process]; unfold SHA1Input, SHA224Input, SHA256Input; reflexivity. Qed.

Lemma sha_result_eq v : sha_result v = ShaResult (sha_process v) (sha_size v).
Proof.
  destruct v; cbn [sha_result sha_process sha_size];
    unfold SHA1Result, SHA224Result, SHA256Result, SHA224_256ResultN; reflexivity.
Qed.

Lemma sha_final_bits_eq v : sha_final_bits v = ShaFinalBits (sha_process v).
Proof. destruct v; cbn [sha_final_bits sha_process]; unfold SHA1FinalBits, SHA224FinalBits, SHA256FinalBits; reflexivity. Qed.

Lemma sha_reset_eq v : sha_reset v = ShaReset (sha_start v).
Proof.
  destruct v; cbn [sha_reset sha_start]; unfold SHA1Reset, SHA224Reset, SHA256Reset, SHA224_256Reset; reflexivity.
Qed.

Abbreviation holds v := (sha_holds (sha_process v) (sha_start v)).

Lemma sha_input_run v m c b : holds v m (8 * Z.of_nat (length m)) c -> bytes_ok b ->
  8 * Z.of_nat (length (m ++ b)) < MAX_BITS ->
  exists c', sha_input v (Some c) (Some b) (length b) = (shaSuccess, Some c') /\
    holds v (m ++ b) (8 * Z.of_nat (length (m ++ b))) c'.
Proof.
  intros Hc Hb Hl. rewrite sha_input_eq.
  unfold ShaInput. destruct b as [|x b].
  { eexists. split; [reflexivity|]. by rewrite app_nil_r. }
  change (length (x :: b) =? 0)%nat with false. cbv iota.
  rewrite (sha_open _ _ _ _ _ Hc), (sha_sound _ _ _ _ _ Hc). cbn [truth negb Z.eqb]. rewrite firstn_all.
  eexists. split; [reflexivity|]. by apply sha_input_loop_holds.
Qed.

Lemma sha_feed_run v chunks m c : holds v m (8 * Z.of_nat (length m)) c -> Forall bytes_ok chunks ->
  8 * Z.of_nat (length (m ++ concat chunks)) < MAX_BITS ->
  exists c', sha_feed v (Some c) chunks = (shaSuccess, Some c') /\
    holds v (m ++ concat chunks) (8 * Z.of_nat (length (m ++ concat chunks))) c'.
Proof.
  revert m c. induction chunks as [|b chunks IH]; intros m c Hc Hb Hl.
  { exists c. cbn [concat]. by rewrite app_nil_r. }
  apply Forall_cons in Hb as [Hb Hbs]. cbn [concat] in *. rewrite app_assoc in *.
  destruct (sha_input_run v m c b Hc Hb) as (c1 & E1 & H1); [rewrite length_app in Hl; lia|].
  destruct (IH _ _ H1 Hbs Hl) as (c2 & E2 & H2). exists c2. split; [|done].
  cbn [sha_feed]. by rewrite E1.
Qed.

(** The words of a hash after whole blocks. *)
Definition words_of (v : sha_version) : nat := match v with SHA1 => 5%nat | _ => 8%nat end.

Lemma sha_process_length v h b : length (sha_process v h b) = words_of v.
Proof.
  destruct v; cbn [sha_process words_of].
  - unfold sha1_block. cbv zeta. by destruct (foldl _ _ (seq 60 20)) as [[[[? ?] ?] ?] ?].
  - unfold sha256_block. by destruct (foldl _ _ _) as [[[[[[[? ?] ?] ?] ?] ?] ?] ?].
  - unfold sha256_block. by destruct (foldl _ _ _) as [[[[[[[? ?] ?] ?] ?] ?] ?] ?].
Qed.

Lemma sha_blocks_length v m : length (hash_blocks (sha_process v) (sha_start v) m) = words_of v.
Proof.
  unfold hash_blocks. generalize (length m / 64)%nat as k. intros k.
  assert (H0 : length (sha_start v) = words_of v) by (by destruct v). revert H0. generalize (sha_start v). revert m.
  induction k as [|k IH]; intros m h Hh; [done|]. cbn [run_blocks]. apply IH, sha_process_length.
Qed.

(** The two agree. *)
Definition fips_process (v : sha_version) : list Z -> bytes -> list Z :=
  match v with SHA1 => fips_compress1 | _ => fips_compress256 end.

Lemma fips_process_words v h b : length h = words_of v ->
  length (fips_process v h b) = words_of v /\ Forall word (fips_process v h b).
Proof.
  intros Hl. assert (Hs : forall step (l : list nat), (forall v t, length (step v t) = length v) ->
    length (foldl step h l) = length h).
  { intros step l Hstep. revert h Hl. induction l as [|t l IH]; intros h Hl; [done|]. cbn [foldl].
    rewrite IH; [by apply Hstep|by rewrite Hstep]. }
  assert (Hc : forall step next rounds, (forall w v t, length (step w v t) = length v) ->
    length (compress step next rounds h b) = words_of v /\ Forall word (compress step next rounds h b)).
  { intros step next rounds Hstep. unfold compress. split.
    - rewrite length_zip_with, Hs by (intros; apply Hstep). lia.
    - generalize (foldl (step (expand next (rounds - 16) b)) h (seq 0 rounds)). clear. induction h as [|x h IH]; intros [|y l]; try constructor.
      + apply word_wsum.
      + apply IH. }
  destruct v; apply Hc; intros W u t.
  - by do 6 (destruct u as [|? u]; try done).
  - by do 9 (destruct u as [|? u]; try done).
  - by do 9 (destruct u as [|? u]; try done).
Qed.

Lemma sha_process_fips v h b : length h = words_of v -> Forall word h -> bytes_ok b -> length b = 64%nat ->
  sha_process v h b = fips_process v h b.
Proof. destruct v; [apply sha1_block_fips|apply sha256_block_fips|apply sha256_block_fips]. Qed.

Lemma run_blocks_fips v k : forall h m, length h = words_of v -> Forall word h -> bytes_ok m -> (64 * k <= length m)%nat ->
  run_blocks (sha_process v) k h m = run_blocks (fips_process v) k h m.
Proof.
  induction k as [|k IH]; intros h m Hl Hh Hm Hk; [done|]. cbn [run_blocks].
  rewrite sha_process_fips by first [done|by apply Forall_take|rewrite length_take; lia].
  destruct (fips_process_words v h (take 64 m) Hl) as [H1 H2].
  apply IH; [done|done|by apply Forall_drop|rewrite length_drop; lia].
Qed.

Definition fips_start (v : sha_version) : list Z :=
  match v with SHA1 => fips_start1 | SHA224 => fips_start224 | SHA256 => fips_start256 end.

Lemma sha_start_fips v : sha_start v = fips_start v /\ length (fips_start v) = words_of v /\ Forall word (fips_start v).
Proof.
  assert (E : sha_start v = fips_start v) by (destruct v; vm_compute; reflexivity).
  split; [done|]. rewrite <- E. split; [by destruct v|].
  destruct v; unfold sha_start, sha1_H0, SHA224_H0, SHA256_H0, word; rewrite !Forall_cons; split_and!; (lia || apply Forall_nil_2).
Qed.

Lemma fips_pad_byte bits n : byte_ok bits -> (n < 8)%nat -> byte_ok (fips_pad bits n).
Proof.
  intros Hb Hn. unfold fips_pad.
  assert (T : forallb (fun b => forallb (fun n => let x := (Z.of_nat b >> (8 - Z.of_nat n)) << (8 - Z.of_nat n) |||
    2 ^ (7 - Z.of_nat n) in (0 <=? x) && (x <? 256)) (seq 0 8)) (seq 0 256) = true) by (vm_compute; reflexivity).
  rewrite forallb_forall in T. specialize (T (Z.to_nat bits)). rewrite forallb_forall in T. unfold byte_ok in *.
  specialize (T ltac:(apply in_seq; lia) n ltac:(apply in_seq; lia)). cbv zeta in T. rewrite Z2Nat.id in T by lia. lia.
Qed.

Lemma word_bytes_ok v : length (word_bytes v) = 4%nat /\ bytes_ok (word_bytes v).
Proof. split; [done|]. repeat (constructor; [apply Z.mod_pos_bound; lia|]). constructor. Qed.

Lemma sha_folded_fips v m bits n : bytes_ok m -> byte_ok bits -> (n < 8)%nat -> sha_folded v m bits n = sha_fips v m bits n.
Proof.
  intros Hm Hb Hn. transitivity (fips_hash (fips_process v) (fips_start v) (sha_size v) m bits n); [|by destruct v].
  unfold sha_folded, fips_hash. destruct (sha_start_fips v) as (-> & Hl & Hh). do 3 f_equal. unfold hash_blocks.
  apply run_blocks_fips; [done|done| |apply Nat.Div0.mul_div_le].
  unfold padded, zeros, fips_length. apply Forall_app. split; [done|]. constructor; [by apply fips_pad_byte|].
  apply Forall_app. split; [apply Forall_replicate; unfold byte_ok; lia|]. apply Forall_app. split; apply word_bytes_ok.
Qed.

Lemma be32_bytes_word v : be32_bytes v = word_bytes v.
Proof. unfold be32_bytes, word_bytes, u8. by rewrite !Z.shiftr_div_pow2 by lia. Qed.

Lemma sha_octets v (h : list Z) : length h = words_of v ->
  map (fun i => u8 (word_at h (i / 4) >> (8 * (3 - Z.of_nat (i mod 4))))) (seq 0 (sha_size v)) =
  take (sha_size v) (concat (map word_bytes h)).
Proof.
  intros Hl. rewrite <- (map_ext be32_bytes word_bytes be32_bytes_word). destruct v; cbn [words_of] in Hl; do 9 (try destruct h as [|? h]); try discriminate Hl;
    cbn [seq map sha_size SHA1HashSize SHA224HashSize SHA256HashSize Nat.div Nat.modulo Nat.divmod fst snd Nat.sub
         word_at lookup list_lookup default be32_bytes concat app take Z.of_nat Pos.of_succ_nat Pos.succ];
    by rewrite ?Z.shiftr_0_r.
Qed.

(** The digest of a context that was padded. *)
Lemma sha_result_computed v c d : Computed c = 1 -> Corrupted c = 0 ->
  length (Intermediate_Hash c) = words_of v ->
  sha_result v (Some c) (Some d) =
    (shaSuccess, Some c, Some (blit d 0 (take (sha_size v) (concat (map word_bytes (Intermediate_Hash c)))))).
Proof.
  intros Ec Es Hl. rewrite sha_result_eq. unfold ShaResult. rewrite Ec, Es. cbn [truth negb Z.eqb]. cbv zeta. by rewrite sha_octets.
Qed.

Lemma ShaFinalize_run v m N pad c : holds v m N c -> 0 <= N < MAX_BITS ->
  let c' := ShaFinalize (sha_process v) pad c in
  Intermediate_Hash c' = hash_blocks (sha_process v) (sha_start v) (padded pad m (fips_length N)) /\
  Computed c' = 1 /\ Corrupted c' = 0.
Proof.
  intros Hc HN c'. pose proof (ShaPadMessage_hash _ _ m pad c (sha_state _ _ _ _ _ Hc)) as E.
  assert (El : sha_length c = fips_length N).
  { unfold fips_length. rewrite <- !be32_bytes_word. unfold sha_length. by rewrite (sha_low _ _ _ _ _ Hc), (sha_high _ _ _ _ _ Hc). }
  rewrite El in E. split; [exact E|]. split; [done|].
  assert (Es : forall c, Corrupted (ShaPadMessage (sha_process v) pad c) = Corrupted c).
  { intros c0. unfold ShaPadMessage, sha_zeros. rewrite !sha_zeros_run.
    destruct (_ <=? Message_Block_Index c0)%nat; by destruct c0. }
  change (Corrupted c') with (Corrupted (ShaPadMessage (sha_process v) pad c)). rewrite Es.
  apply (sha_sound _ _ _ _ _ Hc).
Qed.

Lemma final_byte bits n : byte_ok bits -> (0 < n < 8)%nat ->
  (bits &&& word_at masks n) ||| word_at markbit n = fips_pad bits n.
Proof.
  intros Hb Hn. unfold fips_pad.
  assert (T : forallb (fun b => forallb (fun n => (Z.of_nat b &&& word_at masks n) ||| word_at markbit n =?
    (Z.of_nat b >> (8 - Z.of_nat n)) << (8 - Z.of_nat n) ||| 2 ^ (7 - Z.of_nat n)) (seq 1 7)) (seq 0 256) = true)
    by (vm_compute; reflexivity).
  rewrite forallb_forall in T. specialize (T (Z.to_nat bits)). rewrite forallb_forall in T.
  unfold byte_ok in Hb. specialize (T ltac:(apply in_seq; lia) n ltac:(apply in_seq; lia)).
  apply Z.eqb_eq in T. rewrite Z2Nat.id in T by lia. exact T.
Qed.

Lemma bytes_ok_concat l : Forall bytes_ok l -> bytes_ok (concat l).
Proof. induction 1; [constructor|]. cbn [concat]. by apply Forall_app. Qed.

(** The last bits of a message, if any, and its digest. *)
Lemma sha_finish v m c bits n d : holds v m (8 * Z.of_nat (length m)) c -> bytes_ok m -> byte_ok bits -> (n < 8)%nat ->
  8 * Z.of_nat (length m) + Z.of_nat n < MAX_BITS ->
  exists c1 c2, sha_final_bits v (Some c) bits n = (shaSuccess, Some c1) /\
    sha_result v (Some c1) (Some d) = (shaSuccess, Some c2, Some (blit d 0 (sha_fips v m bits n))) /\
    Computed c2 = 1.
Proof.
  intros Hc Hm Hb Hn Hl. rewrite <- sha_folded_fips, sha_final_bits_eq, sha_result_eq by done. unfold ShaFinalBits. destruct n as [|n].
  - rewrite Z.add_0_r in Hl. destruct (ShaFinalize_run v m _ 0x80 c Hc ltac:(lia)) as (E1 & E2 & E3).
    exists c, (ShaFinalize (sha_process v) 0x80 c). split; [done|]. split; [|exact E2].
    unfold ShaResult. rewrite (sha_sound _ _ _ _ _ Hc), (sha_open _ _ _ _ _ Hc). cbn [truth negb Z.eqb]. cbv zeta.
    rewrite sha_octets by (rewrite E1; apply sha_blocks_length). rewrite E1.
    unfold sha_folded, fips_hash. assert (Ep : fips_pad bits 0 = 0x80).
    { unfold fips_pad. change (8 - Z.of_nat 0) with 8. change (2 ^ (7 - Z.of_nat 0)) with 0x80.
      rewrite Z.shiftr_div_pow2, Z.div_small by (unfold byte_ok in Hb; lia). done. }
    by rewrite Ep, Z.add_0_r.
  - set (k := S n) in *. change (k =? 0)%nat with false. cbv iota.
    rewrite (sha_open _ _ _ _ _ Hc), (sha_sound _ _ _ _ _ Hc). cbn [truth negb Z.eqb].
    destruct (Nat.leb_spec 8 k); [lia|]. cbn [orb].
    rewrite (ShaAddLength_eq (8 * Z.of_nat (length m)) (Z.of_nat k) c) by first [by destruct Hc|lia].
    rewrite final_byte by (done || lia).
    set (c0 := c <| Length_Low := _ |> <| Length_High := _ |> <| Corrupted := 0 |>).
    assert (H0 : holds v m (8 * Z.of_nat (length m) + Z.of_nat k) c0) by (destruct Hc; by constructor).
    destruct (ShaFinalize_run v m _ (fips_pad bits k) c0 H0 ltac:(lia)) as (E1 & E2 & E3).
    set (cf := ShaFinalize _ _ _) in *. exists cf, cf. split; [done|]. split; [|exact E2].
    rewrite <- sha_result_eq, (sha_result_computed v cf d E2 E3) by (rewrite E1; apply sha_blocks_length).
    by rewrite E1.
Qed.

(** C32: SHA-1, SHA-224 and SHA-256 of sha1.c and sha224-256.c compute the digest of
    FIPS 180, which [Fips180] defines without their code, for every message of fewer
    than 2^64 bits, cut into any pieces of bytes and followed by up to seven bits,
    whatever the context held before the reset: every call returns shaSuccess, the
    result is written over the start of the buffer, and a byte added afterwards is
    refused with shaStateError. *)
Theorem sha_is_fips180 (v : sha_version) (c : sha_context) (chunks : list bytes) (bits : Z) (n : nat) (d : bytes)
  (Hc : length (Message_Block c) = 64%nat) (Hb : Forall bytes_ok chunks) (Hbits : byte_ok bits) (Hn : (n < 8)%nat)
  (Hl : 8 * Z.of_nat (length (concat chunks)) + Z.of_nat n < 2 ^ 64) :
  exists c1 c2 c3 c4, sha_reset v (Some c) = (shaSuccess, Some c1) /\
    sha_feed v (Some c1) chunks = (shaSuccess, Some c2) /\
    sha_final_bits v (Some c2) bits n = (shaSuccess, Some c3) /\
    sha_result v (Some c3) (Some d) = (shaSuccess, Some c4, Some (blit d 0 (sha_fips v (concat chunks) bits n))) /\
    (forall b l, fst (sha_input v (Some c4) (Some (b :: l)) (length (b :: l))) = shaStateError).
Proof.
  destruct (ShaReset_holds (sha_process v) (sha_start v) c Hc) as (c1 & E1 & H1).
  rewrite <- sha_reset_eq in E1.
  destruct (sha_feed_run v chunks [] c1 H1 Hb) as (c2 & E2 & H2); [unfold MAX_BITS; cbn [app]; lia|].
  destruct (sha_finish v _ c2 bits n d H2 (bytes_ok_concat _ Hb) Hbits Hn Hl) as (c3 & c4 & E3 & E4 & E5).
  exists c1, c2, c3, c4. split; [done|]. split; [done|]. split; [done|]. split; [done|].
  intros b l. rewrite sha_input_eq. unfold ShaInput. cbn [length Nat.eqb]. rewrite E5. done.
Qed.

Definition sample_sha : sha_context :=
  {| Intermediate_Hash := []; Length_Low := 0; Length_High := 0; Message_Block_Index := 0;
     Message_Block := zeros 64; Computed := 0; Corrupted := 0 |}.

(** "abc", in two pieces. *)
Lemma sha_is_fips180_witness :
  exists c1 c2 c3 c4, sha_reset SHA256 (Some sample_sha) = (shaSuccess, Some c1) /\
    sha_feed SHA256 (Some c1) [[97]; [98; 99]] = (shaSuccess, Some c2) /\
    sha_final_bits SHA256 (Some c2) 0 0 = (shaSuccess, Some c3) /\
    sha_result SHA256 (Some c3) (Some (zeros 32)) = (shaSuccess, Some c4, Some
      [0xba; 0x78; 0x16; 0xbf; 0x8f; 0x01; 0xcf; 0xea; 0x41; 0x41; 0x40; 0xde; 0x5d; 0xae; 0x22; 0x23;
       0xb0; 0x03; 0x61; 0xa3; 0x96; 0x17; 0x7a; 0x9c; 0xb4; 0x10; 0xff; 0x61; 0xf2; 0x00; 0x15; 0xad]) /\
    (forall b l, fst (sha_input SHA256 (Some c4) (Some (b :: l)) (length (b :: l))) = shaStateError).
Proof.
  assert (E : blit (zeros 32) 0 (sha_fips SHA256 (concat [[97]; [98; 99]]) 0 0) =
    [0xba; 0x78; 0x16; 0xbf; 0x8f; 0x01; 0xcf; 0xea; 0x41; 0x41; 0x40; 0xde; 0x5d; 0xae; 0x22; 0x23;
     0xb0; 0x03; 0x61; 0xa3; 0x96; 0x17; 0x7a; 0x9c; 0xb4; 0x10; 0xff; 0x61; 0xf2; 0x00; 0x15; 0xad])
    by (vm_compute; reflexivity).
  assert (Hc : length (Message_Block sample_sha) = 64%nat) by reflexivity.
  assert (Hb : Forall bytes_ok [[97]; [98; 99]]) by (apply (bool_decide_unpack _); vm_compute; exact I).
  assert (Hl : 8 * Z.of_nat (length (concat [[97]; [98; 99]])) + Z.of_nat 0 < 2 ^ 64) by (vm_compute; reflexivity).
  assert (Hbits : byte_ok 0) by (split; [lia|reflexivity]).
  assert (Hn : (0 < 8)%nat) by lia.
  rewrite <- E.
  exact (sha_is_fips180 SHA256 sample_sha [[97]; [98; 99]] 0 0 (zeros 32) Hc Hb Hbits Hn Hl).
Defined.

(** The hashes of login.c, in contexts of fresh memory; the calls ignore the results. *)
Definition sha_hash (v : sha_version) : Hash := {|
  hash_ctx := option sha_context;
  hash_init := snd (sha_reset v (Some sample_sha));
  hash_update := fun c b => snd (sha_input v c (Some b) (length b));
  hash_final := fun c d => default d (snd (sha_result v c (Some d)));
  digest := fun m => sha_fips v m 0 0
|}.

Lemma sha_foldl v chunks m c : holds v m (8 * Z.of_nat (length m)) c -> Forall bytes_ok chunks ->
  8 * Z.of_nat (length (m ++ concat chunks)) < MAX_BITS ->
  exists c', foldl (@hash_update (sha_hash v)) (Some c) chunks = Some c' /\
    holds v (m ++ concat chunks) (8 * Z.of_nat (length (m ++ concat chunks))) c'.
Proof.
  revert m c. induction chunks as [|b chunks IH]; intros m c Hc Hb Hl.
  { exists c. cbn [concat]. by rewrite app_nil_r. }
  apply Forall_cons in Hb as [Hb Hbs]. cbn [concat] in *. rewrite app_assoc in *.
  destruct (sha_input_run v m c b Hc Hb) as (c1 & E1 & H1); [rewrite length_app in Hl; lia|].
  cbn [foldl]. assert (E : @hash_update (sha_hash v) (Some c) b = Some c1) by (cbn [hash_update sha_hash]; by rewrite E1).
  rewrite E. by apply IH.
Qed.

Lemma sha_laws v : HashLaws (sha_hash v) (Z.of_nat (sha_size v)).
Proof.
  assert (Hw : forall m, length (sha_fips v m 0 0) = sha_size v /\ bytes_ok (sha_fips v m 0 0)).
  { intros m. assert (E : sha_fips v m 0 0 = fips_hash (fips_process v) (fips_start v) (sha_size v) m 0 0) by (by destruct v).
    rewrite E. unfold fips_hash. destruct (sha_start_fips v) as (_ & Hl & _). set (p := padded _ _ _). clearbody p.
    assert (Hh : length (hash_blocks (fips_process v) (fips_start v) p) = words_of v).
    { unfold hash_blocks. generalize (length p / 64)%nat as k, Hl. intros k. generalize (fips_start v), p.
      induction k as [|k IH]; intros h q Hq; [done|]. cbn [run_blocks]. by apply IH, fips_process_words. }
    set (h := hash_blocks _ _ _) in *. clearbody h.
    destruct (concat_words_ok word_bytes h word_bytes_ok) as [H1 H2]. split; [|by apply Forall_take].
    rewrite length_take, H1, Hh. by destruct v. }
  split; [intros m; by rewrite <- (proj1 (Hw m))|intros m; apply Hw|].
  intros chunks buf Hb Hl. unfold MAX_HASHED in Hl.
  destruct (ShaReset_holds (sha_process v) (sha_start v) sample_sha ltac:(done)) as (c1 & E1 & H1).
  rewrite <- sha_reset_eq in E1.
  destruct (sha_foldl v chunks [] c1 H1 Hb) as (c2 & E2 & H2); [unfold MAX_BITS; cbn [app]; lia|].
  destruct (sha_finish v _ c2 0 0 buf H2 (bytes_ok_concat _ Hb) ltac:(done) ltac:(lia)) as (c3 & c4 & E3 & E4 & _);
    [unfold MAX_BITS; cbn [app]; lia|].
  assert (Ei : @hash_init (sha_hash v) = Some c1) by (cbn [hash_init sha_hash]; by rewrite E1).
  rewrite Ei, E2. rewrite sha_final_bits_eq in E3. injection E3 as <-.
  cbn [hash_final sha_hash]. by rewrite E4.
Qed.

#[export] Instance libiscsi_sha1 : Hash := sha_hash SHA1.
#[export] Instance libiscsi_sha256 : Hash := sha_hash SHA256.
#[export] Instance libiscsi_sha1_laws : HashLaws libiscsi_sha1 20 := sha_laws SHA1.
#[export] Instance libiscsi_sha256_laws : HashLaws libiscsi_sha256 32 := sha_laws SHA256.
