(* ===== verification/Sha3.v ===== *)
(** SHA-3 and SHAKE (src/lib/sha3.c, include/sha3.h).

    The state is a union of 200 bytes and 25 words of 64 bits; it is kept as its bytes,
    and [sha3_keccakf] works on the little-endian words of them (on a big-endian host
    the code converts them itself).  The loops of the permutation are written as folds
    over the array they update.

    The reference is FIPS 202: the five steps on lanes A[x,y], with the rotation
    offsets and round constants computed as the standard computes them, and the sponge
    over the padded message.  The code is the reference, for the permutation as for the
    sponge, whatever the pieces the message comes in. *)

From S2P Require Import Prelude Hash.

(** ** The code *)

Definition lane_at (st : list Z) (i : nat) : Z := default 0 (st !! i).

Definition not64 (x : Z) : Z := u64 (Z.lnot x).
Definition ROTL64 (x y : Z) : Z := u64 (x << y) ||| x >> (64 - y).

Definition keccakf_rndc : list Z :=
  [0x0000000000000001; 0x0000000000008082; 0x800000000000808a;
   0x8000000080008000; 0x000000000000808b; 0x0000000080000001;
   0x8000000080008081; 0x8000000000008009; 0x000000000000008a;
   0x0000000000000088; 0x0000000080008009; 0x000000008000000a;
   0x000000008000808b; 0x800000000000008b; 0x8000000000008089;
   0x8000000000008003; 0x8000000000008002; 0x8000000000000080;
   0x000000000000800a; 0x800000008000000a; 0x8000000080008081;
   0x8000000000008080; 0x0000000080000001; 0x8000000080008008].

Definition keccakf_rotc : list Z :=
  [1; 3; 6; 10; 15; 21; 28; 36; 45; 55; 2; 14; 27; 41; 56; 8; 25; 43; 62; 18; 39; 61; 20; 44].

Definition keccakf_piln : list nat :=
  [10; 7; 11; 17; 18; 3; 5; 16; 8; 21; 24; 4; 15; 23; 19; 13; 12; 2; 20; 14; 22; 9; 6; 1]%nat.

(** [for (j = 0; j < 25; j += 5)] *)
Definition rows : list nat := [0; 5; 10; 15; 20]%nat.

Definition xor_lane (st : list Z) (i : nat) (t : Z) : list Z := <[i := lane_at st i ^^^ t]> st.

Definition keccak_theta (st : list Z) : list Z :=
  let bc := map (fun i => lane_at st i ^^^ lane_at st (i + 5) ^^^ lane_at st (i + 10)
                          ^^^ lane_at st (i + 15) ^^^ lane_at st (i + 20)) (seq 0 5) in
  foldl (fun st i =>
    let t := lane_at bc ((i + 4) mod 5) ^^^ ROTL64 (lane_at bc ((i + 1) mod 5)) 1 in
    foldl (fun st j => xor_lane st (j + i) t) st rows) st (seq 0 5).

Definition keccak_rho_pi (st : list Z) : list Z :=
  fst (foldl (fun '(st, t) i =>
    let j := default 0%nat (keccakf_piln !! i) in
    let bc0 := lane_at st j in
    (<[j := ROTL64 t (lane_at keccakf_rotc i)]> st, bc0)) (st, lane_at st 1) (seq 0 24)).

Definition keccak_chi (st : list Z) : list Z :=
  foldl (fun st j =>
    let bc := map (fun i => lane_at st (j + i)) (seq 0 5) in
    foldl (fun st i => xor_lane st (j + i) (not64 (lane_at bc ((i + 1) mod 5)) &&& lane_at bc ((i + 2) mod 5)))
      st (seq 0 5)) st rows.

Definition keccak_round (st : list Z) (r : nat) : list Z :=
  xor_lane (keccak_chi (keccak_rho_pi (keccak_theta st))) 0 (lane_at keccakf_rndc r).

Definition KECCAKF_ROUNDS : nat := 24.

Definition sha3_keccakf (st : list Z) : list Z := foldl keccak_round st (seq 0 KECCAKF_ROUNDS).

(** The two sides of the union. *)
Definition le64 (b : bytes) (i : nat) : Z :=
  foldr (fun k v => byte_at b (i + k) ||| v << 8) 0 (seq 0 8).
Definition le64_bytes (v : Z) : bytes := map (fun k => u8 (v >> (8 * Z.of_nat k))) (seq 0 8).

Definition words_q (b : bytes) : list Z := map (fun i => le64 b (8 * i)) (seq 0 25).
Definition bytes_b (q : list Z) : bytes := concat (map le64_bytes q).

Definition keccakf_bytes (b : bytes) : bytes := bytes_b (sha3_keccakf (words_q b)).

Record sha3_ctx := { st_b : bytes; pt : nat; rsiz : nat; mdlen : nat }.

#[export] Instance eta_sha3_ctx : Eta sha3_ctx := fun c => Build_sha3_ctx (st_b c) (pt c) (rsiz c) (mdlen c).

Definition sha3_init (md : nat) (c : sha3_ctx) : sha3_ctx :=
  {| st_b := bytes_b (replicate 25 0); mdlen := md; rsiz := 200 - 2 * md; pt := 0 |}.

(** [c->st.b[i] ^= v] *)
Definition xor_at (i : nat) (v : Z) (b : bytes) : bytes := <[i := byte_at b i ^^^ v]> b.

Fixpoint sha3_update_loop (rate : nat) (data : bytes) (s : bytes * nat) : bytes * nat :=
  match data with
  | [] => s
  | v :: data =>
      let (b, j) := s in
      let b := xor_at j v b in
      let j := S j in
      sha3_update_loop rate data (if (rate <=? j)%nat then (keccakf_bytes b, 0%nat) else (b, j))
  end.

Definition sha3_update (c : sha3_ctx) (data : bytes) : sha3_ctx :=
  let (b, j) := sha3_update_loop (rsiz c) data (st_b c, pt c) in
  c <| st_b := b |> <| pt := j |>.

Definition sha3_final (md : bytes) (c : sha3_ctx) : bytes * sha3_ctx :=
  let c := c <| st_b ::= xor_at (pt c) 0x06 |> in
  let c := c <| st_b ::= xor_at (rsiz c - 1) 0x80 |> in
  let c := c <| st_b ::= keccakf_bytes |> in
  (blit md 0 (map (byte_at (st_b c)) (seq 0 (mdlen c))), c).

Definition sha3 (inp md : bytes) (md_len : nat) (c : sha3_ctx) : bytes :=
  fst (sha3_final md (sha3_update (sha3_init md_len c) inp)).

Definition shake_xof (c : sha3_ctx) : sha3_ctx :=
  let c := c <| st_b ::= xor_at (pt c) 0x1F |> in
  let c := c <| st_b ::= xor_at (rsiz c - 1) 0x80 |> in
  c <| st_b ::= keccakf_bytes |> <| pt := 0%nat |>.

(** [len] bytes of output. *)
Fixpoint shake_out_loop (rate len : nat) (s : bytes * nat) : bytes * (bytes * nat) :=
  match len with
  | O => ([], s)
  | S len =>
      let (b, j) := s in
      let (b, j) := if (rate <=? j)%nat then (keccakf_bytes b, 0%nat) else (b, j) in
      let (out, s) := shake_out_loop rate len (b, S j) in
      (byte_at b j :: out, s)
  end.

Definition shake_out (c : sha3_ctx) (out : bytes) (len : nat) : bytes * sha3_ctx :=
  let '(o, (b, j)) := shake_out_loop (rsiz c) len (st_b c, pt c) in
  (blit out 0 o, c <| st_b := b |> <| pt := j |>).

(** ** FIPS 202 *)

(** The lane A[x,y], for any [x] and [y]. *)
Definition lane (A : list Z) (x y : nat) : Z := lane_at A (x mod 5 + 5 * (y mod 5)).

(** The array with the lanes [f x y]. *)
Definition lanes (f : nat -> nat -> Z) : list Z := map (fun i => f (i mod 5)%nat (i / 5)%nat) (seq 0 25).

Definition fips_theta (A : list Z) : list Z :=
  let C x := lane A x 0 ^^^ lane A x 1 ^^^ lane A x 2 ^^^ lane A x 3 ^^^ lane A x 4 in
  let D x := C ((x + 4) mod 5)%nat ^^^ ROTL64 (C ((x + 1) mod 5)%nat) 1 in
  lanes (fun x y => lane A x y ^^^ D x).

(** The walk over the lanes that gives the rotation offsets: lane (1,0) first, (y, 2x+3y)
    after (x,y); the offset of step [t] is the triangular number. *)
Fixpoint rho_offset (n t x y i j : nat) : Z :=
  match n with
  | O => 0
  | S n => if ((x =? i) && (y =? j))%nat then Z.of_nat ((t + 1) * (t + 2) / 2) mod 64
           else rho_offset n (S t) y ((2 * x + 3 * y) mod 5) i j
  end.

Definition fips_rho (A : list Z) : list Z :=
  lanes (fun x y => if ((x =? 0) && (y =? 0))%nat then lane A x y
                    else ROTL64 (lane A x y) (rho_offset 24 0 1 0 x y)).

Definition fips_pi (A : list Z) : list Z := lanes (fun x y => lane A (x + 3 * y) x).

Definition fips_chi (A : list Z) : list Z :=
  lanes (fun x y => lane A x y ^^^ (not64 (lane A (x + 1) y) &&& lane A (x + 2) y)).

(** The bit rc(t): the linear feedback shift register x^8 + x^6 + x^5 + x^4 + 1. *)
Definition lfsr (r : Z) : Z :=
  let r := r << 1 in if Z.testbit r 8 then r ^^^ 0x171 else r.
Definition rc (t : nat) : bool := Z.testbit (Nat.iter (t mod 255) lfsr 1) 0.

Definition fips_RC (ir : nat) : Z :=
  foldr (fun j v => (if rc (j + 7 * ir) then 2 ^ (2 ^ Z.of_nat j - 1) else 0) ||| v) 0 (seq 0 7).

Definition fips_iota (ir : nat) (A : list Z) : list Z :=
  lanes (fun x y => if ((x =? 0) && (y =? 0))%nat then lane A x y ^^^ fips_RC ir else lane A x y).

Definition fips_round (A : list Z) (ir : nat) : list Z :=
  fips_iota ir (fips_chi (fips_pi (fips_rho (fips_theta A)))).

(** Keccak-p[1600,24]. *)
Definition fips_keccak (A : list Z) : list Z := foldl fips_round A (seq 0 24).

Definition fips_f (b : bytes) : bytes := bytes_b (fips_keccak (words_q b)).

(** The sponge: a block is added to the start of the state. *)
Fixpoint xor_block (b block : bytes) : bytes :=
  match b, block with
  | x :: b, v :: block => (x ^^^ v) :: xor_block b block
  | _, _ => b
  end.

Fixpoint fips_absorb (rate k : nat) (b m : bytes) : bytes :=
  match k with
  | O => b
  | S k => fips_absorb rate k (fips_f (xor_block b (take rate m))) (drop rate m)
  end.

(** The suffix of the function (01 for SHA-3, 1111 for SHAKE) with the first bit of
    pad10*1, zeros, and the last bit. *)
Definition fips_padding (suffix : Z) (q : nat) : bytes :=
  if (q =? 1)%nat then [suffix ^^^ 0x80] else suffix :: zeros (q - 2) ++ [0x80].

Definition fips_sponge (suffix : Z) (rate : nat) (m : bytes) : bytes :=
  let m := m ++ fips_padding suffix (rate - length m mod rate) in
  fips_absorb rate (length m / rate) (zeros 200) m.

Definition fips_sha3 (d : nat) (m : bytes) : bytes := take d (fips_sponge 0x06 (200 - 2 * d) m).

(** Byte [i] of the output of SHAKE. *)
Definition fips_squeeze (rate : nat) (b : bytes) (i : nat) : Z :=
  byte_at (Nat.iter (i / rate) fips_f b) (i mod rate).
Definition fips_shake (rate : nat) (m : bytes) (i : nat) : Z := fips_squeeze rate (fips_sponge 0x1F rate m) i.

Example sha3_256_empty : fips_sha3 32 [] =
  [0xa7; 0xff; 0xc6; 0xf8; 0xbf; 0x1e; 0xd7; 0x66; 0x51; 0xc1; 0x47; 0x56; 0xa0; 0x61; 0xd6; 0x62;
   0xf5; 0x80; 0xff; 0x4d; 0xe4; 0x3b; 0x49; 0xfa; 0x82; 0xd8; 0x0a; 0x4b; 0x80; 0xf8; 0x43; 0x4a].
Proof. vm_compute. reflexivity. Qed.

(** ** The permutation *)

Lemma length_xor_lane st i t : length (xor_lane st i t) = length st.
Proof. apply length_insert. Qed.

Lemma length_lanes f : length (lanes f) = 25%nat.
Proof. done. Qed.

(** A list of 25 lanes, lane by lane. *)
Ltac lanes_of st H :=
  do 25 (destruct st as [|? st]; [discriminate H|]); destruct st; [clear H|discriminate H].

Lemma theta_fips st : length st = 25%nat -> keccak_theta st = fips_theta st.
Proof. intros H. lanes_of st H. lazy -[Z.lxor ROTL64]. reflexivity. Qed.

Lemma rho_pi_fips st : length st = 25%nat -> keccak_rho_pi st = fips_pi (fips_rho st).
Proof. intros H. lanes_of st H. lazy -[ROTL64]. reflexivity. Qed.

Lemma chi_fips st : length st = 25%nat -> keccak_chi st = fips_chi st.
Proof. intros H. lanes_of st H. lazy -[Z.lxor Z.land not64]. reflexivity. Qed.

Lemma iota_fips st r : length st = 25%nat -> (r < 24)%nat -> xor_lane st 0 (lane_at keccakf_rndc r) = fips_iota r st.
Proof.
  intros H Hr. assert (E : lane_at keccakf_rndc r = fips_RC r).
  { do 24 (destruct r as [|r]; [by vm_compute|]). lia. }
  rewrite E. unfold fips_iota. generalize (fips_RC r) as c. intros c. lanes_of st H. lazy -[Z.lxor]. reflexivity.
Qed.

Lemma keccak_round_fips st r : length st = 25%nat -> (r < 24)%nat -> keccak_round st r = fips_round st r.
Proof.
  intros H Hr. unfold keccak_round, fips_round.
  rewrite theta_fips, rho_pi_fips, chi_fips, iota_fips by done. done.
Qed.

Lemma keccakf_fips st : length st = 25%nat -> sha3_keccakf st = fips_keccak st.
Proof.
  intros H. unfold sha3_keccakf, fips_keccak, KECCAKF_ROUNDS.
  assert (Hr : Forall (fun r => r < 24)%nat (seq 0 24)) by (apply Forall_seq; lia).
  revert st H Hr. generalize (seq 0 24) as l. induction l as [|r l IH]; intros st H Hl; [done|].
  apply Forall_cons in Hl as [Hr Hl]. cbn [foldl]. rewrite keccak_round_fips by done. by apply IH.
Qed.

Lemma keccakf_bytes_fips b : keccakf_bytes b = fips_f b.
Proof. unfold keccakf_bytes, fips_f. by rewrite keccakf_fips. Qed.

Lemma bytes_b_ok q : length (bytes_b q) = (8 * length q)%nat /\ bytes_ok (bytes_b q).
Proof.
  unfold bytes_b. induction q as [|v q [Hl Hb]]; [split; [done|constructor]|]. cbn [map concat]. split.
  - rewrite length_app, Hl. cbn [length le64_bytes map seq]. lia.
  - apply Forall_app. split; [|done]. apply Forall_map, Forall_forall. intros k _. apply byte_ok_u8.
Qed.

Lemma length_keccak l A : length A = 25%nat -> length (foldl fips_round A l) = 25%nat.
Proof. revert A. induction l as [|r l IH]; intros A HA; [done|]. cbn [foldl]. by apply IH. Qed.

Lemma fips_f_ok b : length (fips_f b) = 200%nat /\ bytes_ok (fips_f b).
Proof.
  unfold fips_f. destruct (bytes_b_ok (fips_keccak (words_q b))) as [Hl Hb]. split; [|done].
  rewrite Hl. unfold fips_keccak. by rewrite length_keccak.
Qed.

(** ** The sponge *)

Lemma length_xor_block b l : length (xor_block b l) = length b.
Proof. revert l. induction b as [|x b IH]; intros [|v l]; cbn [xor_block length]; [done|done|done|by rewrite IH]. Qed.

Lemma xor_block_snoc b l v : (length l < length b)%nat ->
  xor_block b (l ++ [v]) = xor_at (length l) v (xor_block b l).
Proof.
  revert l. induction b as [|x b IH]; intros l Hl; [cbn in Hl; lia|].
  destruct l as [|w l]; cbn [app xor_block length]; [by destruct b|].
  rewrite IH by (cbn in Hl; lia). unfold xor_at, byte_at. done.
Qed.

Lemma xor_at_zero i b : xor_at i 0 b = b.
Proof.
  unfold xor_at, byte_at. destruct (b !! i) as [x|] eqn:E.
  - cbn. rewrite Z.lxor_0_r. by apply list_insert_id.
  - apply list_insert_ge. by apply lookup_ge_None.
Qed.

Lemma xor_block_zeros b l n : (length l + n <= length b)%nat -> xor_block b (l ++ zeros n) = xor_block b l.
Proof.
  revert l. induction n as [|n IH]; intros l Hl; [by rewrite app_nil_r|].
  unfold zeros in *. cbn [replicate]. replace (l ++ 0 :: replicate n 0) with ((l ++ [0]) ++ replicate n 0)
    by (by rewrite <- app_assoc).
  rewrite IH by (rewrite length_app; cbn; lia). rewrite xor_block_snoc by lia. apply xor_at_zero.
Qed.

Section Sponge.
Context (rate : nat) (Hrate : (0 < rate <= 200)%nat).

Lemma fips_absorb_app k1 k2 b m1 m2 : length m1 = (k1 * rate)%nat ->
  fips_absorb rate (k1 + k2) b (m1 ++ m2) = fips_absorb rate k2 (fips_absorb rate k1 b m1) m2.
Proof.
  revert b m1. induction k1 as [|k1 IH]; intros b m1 Hl; [by destruct m1|].
  cbn [Nat.add fips_absorb]. rewrite take_app_le, drop_app_le by lia. apply IH. rewrite length_drop. lia.
Qed.

(** A state that has taken the message [m]: the whole blocks are absorbed, the rest is
    added to the state. *)
Definition sponge_holds (m : bytes) (b : bytes) (j : nat) : Prop :=
  exists k whole rest, m = whole ++ rest /\ length whole = (k * rate)%nat /\ j = length rest /\ (j < rate)%nat /\
    length (fips_absorb rate k (zeros 200) whole) = 200%nat /\
    b = xor_block (fips_absorb rate k (zeros 200) whole) rest.

Lemma sponge_start : sponge_holds [] (zeros 200) 0.
Proof. exists 0%nat, [], []. by split_and!; [..|lia|done|]. Qed.

Lemma sponge_byte m b j v : sponge_holds m b j ->
  let b' := xor_at j v b in
  if (rate <=? S j)%nat then sponge_holds (m ++ [v]) (fips_f b') 0 else sponge_holds (m ++ [v]) b' (S j).
Proof.
  intros (k & whole & rest & -> & Hw & -> & Hj & Hl & ->) b'.
  assert (Eb : b' = xor_block (fips_absorb rate k (zeros 200) whole) (rest ++ [v]))
    by (unfold b'; rewrite xor_block_snoc by lia; done).
  rewrite <- app_assoc. destruct (Nat.leb_spec rate (S (length rest))).
  - assert (Hlen : length (rest ++ [v]) = rate) by (rewrite length_app; cbn; lia).
    exists (k + 1)%nat, (whole ++ rest ++ [v]), []. rewrite app_nil_r, length_app, Hlen, Hw.
    rewrite fips_absorb_app by done. cbn [fips_absorb]. rewrite take_ge by lia. rewrite <- Eb.
    split_and!; [done|lia|done|lia|apply fips_f_ok|by destruct (fips_f b')].
  - exists k, whole, (rest ++ [v]). rewrite length_app. cbn [length]. split_and!; [done|done|lia|lia|done|done].
Qed.

Lemma sponge_update data m b j : sponge_holds m b j ->
  exists b' j', sha3_update_loop rate data (b, j) = (b', j') /\ sponge_holds (m ++ data) b' j'.
Proof.
  revert m b j. induction data as [|v data IH]; intros m b j Hs.
  { exists b, j. by rewrite app_nil_r. }
  pose proof (sponge_byte m b j v Hs) as Hb. cbv zeta in Hb. cbn [sha3_update_loop]. rewrite keccakf_bytes_fips.
  replace (m ++ v :: data) with ((m ++ [v]) ++ data) by (by rewrite <- app_assoc).
  destruct (rate <=? S j)%nat; by apply IH.
Qed.

(** The last block. *)
Lemma sponge_end suffix m b j : sponge_holds m b j ->
  fips_f (xor_at (rate - 1) 0x80 (xor_at j suffix b)) = fips_sponge suffix rate m.
Proof.
  intros (k & whole & rest & -> & Hw & -> & Hj & Hl & ->). unfold fips_sponge.
  assert (Hmod : (length (whole ++ rest) mod rate = length rest)%nat).
  { rewrite length_app, Hw. symmetry. apply (Nat.mod_unique _ rate k); lia. }
  rewrite Hmod. set (p := fips_padding suffix (rate - length rest)).
  assert (Hp : length (rest ++ p) = rate).
  { unfold p, fips_padding. rewrite length_app. destruct (Nat.eqb_spec (rate - length rest) 1); [cbn; lia|].
    cbn [length]. rewrite length_app, length_zeros. cbn. lia. }
  assert (Hdiv : (length ((whole ++ rest) ++ p) / rate = k + 1)%nat).
  { rewrite <- app_assoc, length_app, Hp, Hw. symmetry. apply (Nat.div_unique _ rate _ 0); lia. }
  cbv zeta. rewrite Hdiv, <- app_assoc, fips_absorb_app by done. cbn [fips_absorb]. rewrite take_ge by lia. f_equal.
  set (s := fips_absorb rate k (zeros 200) whole) in *. unfold p, fips_padding.
  destruct (Nat.eqb_spec (rate - length rest) 1) as [E1|E1].
  - rewrite xor_block_snoc by lia. replace (rate - 1)%nat with (length rest) by lia.
    unfold xor_at. rewrite byte_at_insert_eq by (rewrite length_xor_block; lia).
    by rewrite list_insert_insert_eq, Z.lxor_assoc.
  - set (n := (rate - length rest - 2)%nat).
    replace (rest ++ suffix :: zeros n ++ [0x80]) with (((rest ++ [suffix]) ++ zeros n) ++ [0x80])
      by (by rewrite <- !app_assoc).
    assert (Hn : length ((rest ++ [suffix]) ++ zeros n) = (rate - 1)%nat)
      by (rewrite !length_app, length_zeros; cbn [length]; lia).
    rewrite xor_block_snoc by lia. rewrite Hn. f_equal.
    rewrite xor_block_zeros by (rewrite length_app; cbn [length]; lia). by rewrite xor_block_snoc by lia.
Qed.
End Sponge.

(** ** The functions *)

(** The context after the message [m]. *)
Record sha3_holds (d : nat) (m : bytes) (c : sha3_ctx) : Prop := {
  sha3_state : sponge_holds (200 - 2 * d) m (st_b c) (pt c);
  sha3_rate : rsiz c = (200 - 2 * d)%nat;
  sha3_md : mdlen c = d
}.

Section Digests.
Context (d : nat) (Hd : (0 < d < 100)%nat).

Lemma sha3_init_holds c : sha3_holds d [] (sha3_init d c).
Proof. constructor; [|done|done]. apply sponge_start. lia. Qed.

Lemma sha3_update_holds m c data : sha3_holds d m c -> sha3_holds d (m ++ data) (sha3_update c data).
Proof.
  intros [Hs Hr Hm]. destruct (sponge_update (200 - 2 * d) ltac:(lia) data m _ _ Hs) as (b & j & E & Hs').
  unfold sha3_update. rewrite Hr, E. by constructor.
Qed.

Lemma sha3_pieces chunks m c : sha3_holds d m c -> sha3_holds d (m ++ concat chunks) (foldl sha3_update c chunks).
Proof.
  revert m c. induction chunks as [|data chunks IH]; intros m c Hc; [by rewrite app_nil_r|].
  cbn [concat foldl]. rewrite app_assoc. by apply IH, sha3_update_holds.
Qed.

Lemma fips_sponge_ok suffix m : length (fips_sponge suffix (200 - 2 * d) m) = 200%nat /\
  bytes_ok (fips_sponge suffix (200 - 2 * d) m).
Proof.
  destruct (sha3_pieces [m] [] _ (sha3_init_holds {| st_b := []; pt := 0; rsiz := 0; mdlen := 0 |})) as [Hs _ _].
  cbn [concat app] in Hs. rewrite app_nil_r in Hs.
  rewrite <- (sponge_end (200 - 2 * d) ltac:(lia) suffix m _ _ Hs). apply fips_f_ok.
Qed.

Lemma bytes_prefix (b : bytes) n : (n <= length b)%nat -> map (byte_at b) (seq 0 n) = take n b.
Proof.
  intros Hn. apply list_eq. intros i. rewrite list_lookup_fmap. destruct (decide (i < n)%nat).
  - rewrite lookup_seq_lt, lookup_take_lt by lia. cbn. unfold byte_at.
    destruct (b !! i) eqn:E; [done|]. apply lookup_ge_None in E. lia.
  - rewrite lookup_seq_ge, lookup_take_ge by lia. done.
Qed.

Lemma sha3_final_holds m c buf : sha3_holds d m c -> fst (sha3_final buf c) = blit buf 0 (fips_sha3 d m).
Proof.
  intros [Hs Hr Hm]. unfold sha3_final, fips_sha3. cbn [fst].
  rewrite <- (sponge_end (200 - 2 * d) ltac:(lia) 0x06 m _ _ Hs). unfold upd. cbn [st_b pt rsiz mdlen].
  rewrite Hr, Hm, keccakf_bytes_fips. f_equal. apply bytes_prefix. rewrite (proj1 (fips_f_ok _)). lia.
Qed.

(** Output of SHAKE: [t] bytes were read. *)
Definition squeezed (s : bytes) (t : nat) (b : bytes) (j : nat) : Prop :=
  exists q, b = Nat.iter q fips_f s /\ t = (q * (200 - 2 * d) + j)%nat /\ (j <= 200 - 2 * d)%nat.

Lemma shake_out_run s n t b j : squeezed s t b j ->
  exists b' j', shake_out_loop (200 - 2 * d) n (b, j) =
      (map (fips_squeeze (200 - 2 * d) s) (seq t n), (b', j')) /\
    squeezed s (t + n) b' j'.
Proof.
  revert t b j. induction n as [|n IH]; intros t b j Hs.
  { exists b, j. by rewrite Nat.add_0_r. }
  assert (E : exists b1 j1, (if (200 - 2 * d <=? j)%nat then (keccakf_bytes b, 0%nat) else (b, j)) = (b1, j1) /\
    squeezed s t b1 j1 /\ (j1 < 200 - 2 * d)%nat).
  { destruct (Nat.leb_spec (200 - 2 * d) j) as [Hge|Hlt]; [|exists b, j; split_and!; [done|done|lia]].
    destruct Hs as (q & -> & -> & Hj). exists (fips_f (Nat.iter q fips_f s)), 0%nat. rewrite keccakf_bytes_fips.
    split_and!; [done|exists (S q); split_and!; [done|lia|lia]|lia]. }
  destruct E as (b1 & j1 & E1 & (q & Eb & Et & _) & Hj). cbn [shake_out_loop]. rewrite E1.
  destruct (IH (S t) b1 (S j1)) as (b' & j' & E & Hs').
  { exists q. split_and!; [done|lia|lia]. }
  exists b', j'. rewrite E. split; [|by replace (t + S n)%nat with (S t + n)%nat by lia].
  cbn [seq map]. do 2 f_equal. unfold fips_squeeze.
  assert (E1' : (t / (200 - 2 * d) = q)%nat) by (symmetry; apply (Nat.div_unique _ (200 - 2 * d) _ j1); lia).
  assert (E2' : (t mod (200 - 2 * d) = j1)%nat) by (symmetry; apply (Nat.mod_unique _ (200 - 2 * d) q); lia).
  by rewrite E1', E2', Eb.
Qed.

(** The output of calls of [shake_out] for these lengths. *)
Fixpoint shake_outs (lens : list nat) (c : sha3_ctx) : bytes :=
  match lens with
  | [] => []
  | n :: lens => let (out, c) := shake_out c (zeros n) n in out ++ shake_outs lens c
  end.

Lemma shake_outs_run s lens t c : rsiz c = (200 - 2 * d)%nat -> squeezed s t (st_b c) (pt c) ->
  shake_outs lens c = map (fips_squeeze (200 - 2 * d) s) (seq t (sum_list lens)).
Proof.
  revert t c. induction lens as [|n lens IH]; intros t c Hr Hs; [done|].
  destruct (shake_out_run s n t _ _ Hs) as (b & j & E & Hs'). cbn [shake_outs]. unfold shake_out. rewrite Hr, E.
  cbn [sum_list sum_list_with]. rewrite seq_app, map_app. f_equal; [|by apply IH].
  set (o := map _ (seq t n)). assert (Hl : length o = length (zeros n)) by (unfold o; by rewrite length_map, length_seq, length_zeros).
  pose proof (blit_prefix o [] (zeros n) (Nat.eq_le_incl _ _ Hl)) as Eb. cbn [app length] in Eb.
  rewrite Eb, drop_ge by (rewrite Hl; done). apply app_nil_r.
Qed.

Lemma shake_xof_holds m c : sha3_holds d m c ->
  rsiz (shake_xof c) = (200 - 2 * d)%nat /\
  squeezed (fips_sponge 0x1F (200 - 2 * d) m) 0 (st_b (shake_xof c)) (pt (shake_xof c)).
Proof.
  intros [Hs Hr Hm]. split; [done|]. exists 0%nat. split_and!; [|done|change (pt (shake_xof c)) with 0%nat; lia]. cbn [Nat.iter].
  rewrite <- (sponge_end (200 - 2 * d) ltac:(lia) 0x1F m _ _ Hs).
  unfold shake_xof, upd. cbn [st_b pt rsiz mdlen]. by rewrite Hr, keccakf_bytes_fips.
Qed.
End Digests.

(** C33: The code of sha3.c is SHA-3 and SHAKE of FIPS 202, for every digest length and
    every message in any pieces: sha3_keccakf is the permutation of the standard on
    every state; sha3_final writes the digest of the concatenation over the start of the
    buffer; and after shake_xof the calls of shake_out, whatever their lengths, return
    consecutive bytes of the output of the standard. *)
Theorem sha3_is_fips202 (d : nat) (c : sha3_ctx) (chunks : list bytes) (buf : bytes) (lens : list nat)
  (Hd : (0 < d < 100)%nat) :
  let fed := foldl sha3_update (sha3_init d c) chunks in
  (forall st, length st = 25%nat -> sha3_keccakf st = fips_keccak st) /\
  fst (sha3_final buf fed) = blit buf 0 (fips_sha3 d (concat chunks)) /\
  shake_outs lens (shake_xof fed) = map (fips_shake (200 - 2 * d) (concat chunks)) (seq 0 (sum_list lens)).
Proof.
  cbv zeta. pose proof (sha3_pieces d Hd chunks [] _ (sha3_init_holds d Hd c)) as H.
  destruct (shake_xof_holds d Hd _ _ H) as [Hr Hs].
  split; [exact keccakf_fips|]. split; [by apply (sha3_final_holds d Hd)|].
  by apply (shake_outs_run d Hd).
Qed.

Definition sample_sha3 : sha3_ctx := {| st_b := zeros 200; pt := 0; rsiz := 0; mdlen := 0 |}.

(** "abc" in two pieces: SHA3-256, and the first bytes of SHAKE256 in two calls. *)
Lemma sha3_is_fips202_witness :
  let fed := foldl sha3_update (sha3_init 32 sample_sha3) [[97]; [98; 99]] in
  fst (sha3_final (zeros 32) fed) =
    [0x3a; 0x98; 0x5d; 0xa7; 0x4f; 0xe2; 0x25; 0xb2; 0x04; 0x5c; 0x17; 0x2d; 0x6b; 0xd3; 0x90; 0xbd;
     0x85; 0x5f; 0x08; 0x6e; 0x3e; 0x9d; 0x52; 0x5b; 0x46; 0xbf; 0xe2; 0x45; 0x11; 0x43; 0x15; 0x32] /\
  shake_outs [1; 3]%nat (shake_xof fed) = [0x48; 0x33; 0x66; 0x60].
Proof.
  destruct (sha3_is_fips202 32 sample_sha3 [[97]; [98; 99]] (zeros 32) [1; 3]%nat ltac:(lia)) as (_ & E1 & E2).
  cbv zeta in *. rewrite E1, E2. split; vm_compute; reflexivity.
Defined.

(** SHA3-256 as the hash of login.c. *)
#[export] Instance libiscsi_sha3_256 : Hash := {|
  hash_ctx := sha3_ctx;
  hash_init := sha3_init 32 sample_sha3;
  hash_update := sha3_update;
  hash_final := fun c d => fst (sha3_final d c);
  digest := fips_sha3 32
|}.

#[export] Instance libiscsi_sha3_256_laws : HashLaws libiscsi_sha3_256 32.
Proof.
  split.
  - intros m. cbn [digest libiscsi_sha3_256]. unfold fips_sha3.
    rewrite length_take, (proj1 (fips_sponge_ok 32 ltac:(lia) 0x06 m)). done.
  - intros m. apply Forall_take, (fips_sponge_ok 32 ltac:(lia)).
  - intros chunks buf _ _. apply (sha3_final_holds 32 ltac:(lia)), (sha3_pieces 32 ltac:(lia) chunks []), (sha3_init_holds 32). lia.
Qed.
