(* ===== verification/Hashes.v ===== *)
(** The hash functions of a login: the interface login.c is written against, and
    the functions of md5.c, sha1.c, sha224-256.c and sha3.c as its instance. *)

From S2P Require Import Prelude Hash Md5 Sha Sha3.

(** In a build with GnuTLS or libgcrypt, MD5 is theirs. *)
Class Hashes := { md5 : Hash; sha1 : Hash; sha256 : Hash; sha3_256 : Hash }.

#[export] Instance libiscsi_hashes : Hashes :=
  {| md5 := libiscsi_md5; sha1 := libiscsi_sha1; sha256 := libiscsi_sha256; sha3_256 := libiscsi_sha3_256 |}.

(** The promise login.c relies on. *)
Class HashesLaws `{Hashes} := {
  md5_laws :: HashLaws md5 16;
  sha1_laws :: HashLaws sha1 20;
  sha256_laws :: HashLaws sha256 32;
  sha3_256_laws :: HashLaws sha3_256 32
}.

#[export] Instance libiscsi_hashes_laws : HashesLaws.
Proof.
  split; [exact libiscsi_md5_laws|exact libiscsi_sha1_laws|exact libiscsi_sha256_laws|exact libiscsi_sha3_256_laws].
Qed.
