(* ===== verification/SList.v ===== *)
(** The intrusive singly linked lists of src/include/slist.h.

    Every queue of the library (outqueue, waitpdu, the memory lists) is such a
    list: a head pointer and a [next] field in each node.  [next h] is the
    [next] fields of the allocated nodes; [ISCSI_LIST_ADD],
    [ISCSI_LIST_ADD_END] and [ISCSI_LIST_REMOVE] are the macros, pointer walk
    included.  [lseg h p l] says that the pointers from [p] spell the list
    [l]; the refinement theorem shows that under it the macros are consing,
    appending and removing, so the components above keep their queues as
    lists of node names. *)

From S2P Require Import Prelude.

Abbreviation next := (gmap nat (option nat)).

(** [p->next] *)
Definition next_of (h : next) (p : option nat) : res (option nat) :=
  match p with
  | None => Undef NullDeref
  | Some x => match h !! x with Some q => Ret q | None => Undef UseAfterFree end
  end.

(** [p->next = q] *)
Definition set_next (h : next) (p q : option nat) : res next :=
  match p with
  | None => Undef NullDeref
  | Some x => match h !! x with Some _ => Ret (<[x := q]> h) | None => Undef UseAfterFree end
  end.

Definition ISCSI_LIST_ADD (h : next) (list : option nat) (item : nat)
  : res (next * option nat) :=
  h ← set_next h (Some item) list;
  mret (h, Some item).

(** The loop that moves the head pointer to the last node. *)
Fixpoint walk_end (fuel : nat) (h : next) (list : option nat) : res (option nat) :=
  match fuel with
  | O => Undef NoFuel
  | S fuel =>
      n ← next_of h list;
      match n with None => mret list | Some _ => walk_end fuel h n end
  end.

Definition ISCSI_LIST_ADD_END (h : next) (list : option nat) (item : nat)
  : res (next * option nat) :=
  match list with
  | None => ISCSI_LIST_ADD h list item
  | Some _ =>
      let head := list in
      last ← walk_end (S (size h)) h list;
      h ← set_next h last (Some item);
      h ← set_next h (Some item) None;
      mret (h, head)
  end.

(** The loop that stops before [item], or at the last node. *)
Fixpoint walk_to (fuel : nat) (h : next) (list : option nat) (item : nat)
  : res (option nat) :=
  match fuel with
  | O => Undef NoFuel
  | S fuel =>
      n ← next_of h list;
      match n with
      | None => mret list
      | Some y => if decide (y = item) then mret list else walk_to fuel h n item
      end
  end.

Definition ISCSI_LIST_REMOVE (h : next) (list : option nat) (item : nat)
  : res (next * option nat) :=
  if decide (list = Some item) then
    n ← next_of h (Some item);
    mret (h, n)
  else
    let head := list in
    prev ← walk_to (S (size h)) h list item;
    n ← next_of h prev;
    match n with
    | None => mret (h, head)
    | Some y =>
        nn ← next_of h (Some y);
        h ← set_next h prev nn;
        mret (h, head)
    end.

(** ** List segments *)

(** The pointers from [p] reach [q] through exactly the nodes [l]. *)
Fixpoint seg (h : next) (p : option nat) (l : list nat) (q : option nat) : Prop :=
  match l with
  | [] => p = q
  | x :: l' => p = Some x /\ exists n, h !! x = Some n /\ seg h n l' q
  end.

Definition lseg (h : next) (p : option nat) (l : list nat) : Prop := seg h p l None.

Lemma seg_app h p l1 l2 q :
  seg h p (l1 ++ l2) q <-> exists m, seg h p l1 m /\ seg h m l2 q.
Proof.
  revert p. induction l1 as [|x l1 IH]; intros p; cbn [app seg].
  { split; [intros H; by exists p|by intros (m & -> & H)]. }
  setoid_rewrite IH. split.
  - intros (-> & n & Hx & m & H1 & H2). eauto 7.
  - intros (m & (-> & n & Hx & H1) & H2). eauto 7.
Qed.

Lemma seg_frame h x v p l q : x ∉ l -> seg h p l q -> seg (<[x := v]> h) p l q.
Proof.
  revert p. induction l as [|y l IH]; intros p Hx; cbn; [done|].
  intros (-> & n & Hy & Hn). apply not_elem_of_cons in Hx as [Hne Hx].
  split; [done|]. exists n. rewrite lookup_insert_ne by done. auto.
Qed.

Lemma seg_allocated h p l q x : seg h p l q -> x ∈ l -> is_Some (h !! x).
Proof.
  revert p. induction l as [|y l IH]; intros p; cbn; [by rewrite elem_of_nil|].
  intros (_ & n & Hy & Hn) [->|Hx]%elem_of_cons; [by eexists|by eapply IH].
Qed.

Lemma lseg_det h p l1 l2 : lseg h p l1 -> lseg h p l2 -> l1 = l2.
Proof.
  unfold lseg. revert p l2. induction l1 as [|x l1 IH]; intros p [|y l2]; cbn.
  { done. }
  { by intros -> [? _]. }
  { by intros [-> _] ?. }
  intros (-> & n & Hx & Hn) (E & m & Hy & Hm). simplify_eq. f_equal. by eapply IH.
Qed.

(** A chain that ends cannot pass through a node twice. *)
Lemma lseg_NoDup h p l : lseg h p l -> NoDup l.
Proof.
  unfold lseg. revert p. induction l as [|x l IH]; intros p; cbn; [constructor|].
  intros (-> & n & Hx & Hn). constructor; [|by eapply IH].
  intros Hin. apply list_elem_of_split in Hin as (l1 & l2 & ->).
  pose proof Hn as (m & H1 & H2)%seg_app. cbn in H2. destruct H2 as (-> & n2 & Hx2 & H2).
  simplify_eq. assert (E : l1 ++ x :: l2 = l2) by by eapply lseg_det.
  apply (f_equal length) in E. rewrite length_app in E. cbn in E. lia.
Qed.

Lemma lseg_size h p l : lseg h p l -> (length l <= size h)%nat.
Proof.
  intros Hl. pose proof (lseg_NoDup _ _ _ Hl) as Hnd.
  rewrite <- (size_dom (D := gset nat)), <- (size_list_to_set (C := gset nat) l Hnd).
  apply subseteq_size. intros x [y Hy]%elem_of_list_to_set%(seg_allocated _ _ _ _ _ Hl).
  apply elem_of_dom. by exists y.
Qed.

Lemma walk_end_spec fuel h p l x : lseg h p (l ++ [x]) -> (length l < fuel)%nat ->
  walk_end fuel h p = Ret (Some x).
Proof.
  revert p fuel. induction l as [|y l IH]; intros p [|fuel] Hl Hf; cbn in Hf; try lia.
  - cbn in Hl. destruct Hl as (-> & n & Hx & ->). cbn. by rewrite Hx.
  - cbn in Hl. destruct Hl as (-> & n & Hy & Hn). cbn. rewrite Hy. cbn.
    destruct n as [z|]; [apply IH; [exact Hn|lia]|]. destruct l; by destruct Hn.
Qed.

(** The walk stops before [item], or at the last node. *)
Lemma walk_to_spec fuel h p l1 x l2 item :
  lseg h p (l1 ++ x :: l2) -> item ∉ l1 ++ [x] -> (length l1 < fuel)%nat ->
  (match l2 with [] => True | y :: _ => y = item end) ->
  walk_to fuel h p item = Ret (Some x).
Proof.
  revert p fuel. induction l1 as [|y l1 IH]; intros p [|fuel] Hl Hni Hf Hl2; cbn in Hf; try lia.
  - cbn in Hl. destruct Hl as (-> & n & Hx & Hn). cbn. rewrite Hx. cbn.
    destruct l2 as [|y l2]; cbn in Hn; [by subst|]. destruct Hn as [-> _]. subst y.
    by rewrite decide_True.
  - cbn in Hl. destruct Hl as (-> & n & Hy & Hn). cbn. rewrite Hy. cbn.
    cbn in Hni. apply not_elem_of_cons in Hni as [_ Hni].
    destruct n as [z|]; [|destruct l1; by destruct Hn].
  
    rewrite decide_False; [apply IH; [exact Hn|done|lia|done]|].
    intros ->. apply Hni. destruct l1 as [|w l1]; cbn in Hn; destruct Hn as [E _];
      injection E as <-; left.
Qed.

Lemma set_next_ok h x n q : h !! x = Some n -> set_next h (Some x) q = Ret (<[x := q]> h).
Proof. intros Hx. unfold set_next. by rewrite Hx. Qed.

Lemma next_of_ok h x n : h !! x = Some n -> next_of h (Some x) = Ret n.
Proof. intros Hx. unfold next_of. by rewrite Hx. Qed.

(** [h'] differs from [h] at most at the nodes [l]. *)
Definition only_moves (h h' : next) (l : list nat) : Prop :=
  forall x, x ∉ l -> h' !! x = h !! x.

Lemma add_spec h p l item : lseg h p l -> item ∉ l -> is_Some (h !! item) ->
  exists h', ISCSI_LIST_ADD h p item = Ret (h', Some item) /\
    lseg h' (Some item) (item :: l) /\ only_moves h h' (item :: l).
Proof.
  intros Hl Hni [n Hn]. exists (<[item := p]> h). split; [|split].
  - unfold ISCSI_LIST_ADD. by rewrite (set_next_ok _ _ n).
  - cbn. split; [done|]. exists p. rewrite lookup_insert_eq. split; [done|].
    by apply seg_frame.
  - intros x Hx. apply lookup_insert_ne. set_solver.
Qed.

Lemma add_end_spec h p l item : lseg h p l -> item ∉ l -> is_Some (h !! item) ->
  exists h' p', ISCSI_LIST_ADD_END h p item = Ret (h', p') /\
    lseg h' p' (l ++ [item]) /\ only_moves h h' (item :: l).
Proof.
  intros Hl Hni Hit. destruct (decide (l = [])) as [->|Hne].
  { cbn in Hl. subst p. destruct (add_spec h None [] item) as (h' & E & Hl' & Hm); try done.
    eauto. }
  destruct (exists_last Hne) as (l' & x & ->). destruct Hit as [n Hn].
  pose proof (lseg_size _ _ _ Hl) as Hsz. rewrite length_app in Hsz. cbn in Hsz.
  pose proof (lseg_NoDup _ _ _ Hl) as Hnd.
  assert (Hx : x ∉ l') by (apply NoDup_app in Hnd as (_ & H & _); set_solver).
  assert (Hne' : item <> x) by set_solver.
  pose proof Hl as (m & H1 & H2)%seg_app. cbn in H2. destruct H2 as (-> & nx & Hnx & ->).
  exists (<[item := None]> (<[x := Some item]> h)), p. split; [|split].
  - unfold ISCSI_LIST_ADD_END. destruct p as [y|]; [|destruct l'; [discriminate H1|by destruct H1]].
    rewrite (walk_end_spec _ _ _ l' x) by (done || lia). cbn [mbind res_bind].
    rewrite (set_next_ok _ _ None) by done. cbn [mbind res_bind].
    by rewrite (set_next_ok _ _ n) by (by rewrite lookup_insert_ne).
  - rewrite <- app_assoc. apply seg_app. exists (Some x). split.
    + apply seg_frame; [set_solver|]. by apply seg_frame.
    + cbn. split; [done|]. exists (Some item). rewrite lookup_insert_ne, lookup_insert_eq by done.
      split; [done|]. split; [done|]. exists None. by rewrite lookup_insert_eq.
  - intros y Hy. rewrite !lookup_insert_ne by set_solver. done.
Qed.

Lemma filter_ne_id (item : nat) (l : list nat) : item ∉ l -> filter (.≠ item) l = l.
Proof.
  induction l as [|x l IH]; [done|]. intros [Hne Hni]%not_elem_of_cons.
  rewrite filter_cons_True by done. by rewrite IH.
Qed.

Lemma remove_spec h p l item : lseg h p l -> l <> [] ->
  exists h' p', ISCSI_LIST_REMOVE h p item = Ret (h', p') /\
    lseg h' p' (filter (.≠ item) l) /\ only_moves h h' l.
Proof.
  intros Hl Hne. destruct (decide (item ∈ l)) as [Hin|Hni].
  2: { (* not queued: nothing changes *)
    exists h, p. rewrite filter_ne_id by done. split; [|done].
    destruct (exists_last Hne) as (l' & x & ->).
    pose proof (lseg_size _ _ _ Hl) as Hsz. rewrite length_app in Hsz. cbn in Hsz.
    unfold ISCSI_LIST_REMOVE. rewrite decide_False.
    2: { intros ->. destruct l' as [|y l']; cbn in Hl; destruct Hl as [E _];
         injection E as <-; set_solver. }
    rewrite (walk_to_spec _ _ _ l' x [] item) by (done || lia).
    apply seg_app in Hl as (m & _ & -> & nx & Hnx & ->). cbn. by rewrite Hnx. }
  pose proof (lseg_NoDup _ _ _ Hl) as Hnd. pose proof (lseg_size _ _ _ Hl) as Hsz.
  apply list_elem_of_split in Hin as (l1 & l2 & ->). rewrite length_app in Hsz. cbn in Hsz.
  apply NoDup_app in Hnd as (_ & Hd & Hnd2). apply NoDup_cons in Hnd2 as [Hni2 _].
  assert (Hni1 : item ∉ l1) by set_solver.
  rewrite filter_app, filter_cons_False, !filter_ne_id by (done || auto).
  destruct (decide (l1 = [])) as [->|Hne1].
  - cbn in Hl. destruct Hl as (-> & n & Hn & Hl). exists h, n.
    unfold ISCSI_LIST_REMOVE. rewrite decide_True by done. rewrite (next_of_ok _ _ n) by done.
    done.
  - destruct (exists_last Hne1) as (l1' & x & ->).
    pose proof Hl as Hl0. rewrite <- app_assoc in Hl0.
    pose proof Hl as (m & H1 & H2)%seg_app. cbn in H2. destruct H2 as (-> & n & Hn & Hl2).
    apply seg_app in H1 as (m & H1 & -> & nx & Hnx & ->).
    assert ((x ∉ l1') /\ (x ∉ l2) /\ x <> item) as (Hx1 & Hx2 & Hxi).
    { pose proof (lseg_NoDup _ _ _ Hl) as Hnd. rewrite <- app_assoc in Hnd.
      apply NoDup_app in Hnd as (_ & Hd' & Hnd'). apply NoDup_cons in Hnd' as [Hnx' _].
      set_solver. }
    exists (<[x := n]> h), p. unfold ISCSI_LIST_REMOVE. rewrite decide_False.
    2: { intros ->. destruct l1' as [|y l1']; cbn in Hl; destruct Hl as [E _];
         injection E as <-; set_solver. }
    rewrite length_app in Hsz. cbn in Hsz.
    rewrite (walk_to_spec _ _ _ l1' x (item :: l2) item) by (done || lia || set_solver).
    cbn [mbind res_bind]. rewrite (next_of_ok _ _ (Some item)) by done. cbn [mbind res_bind].
    rewrite (next_of_ok _ _ n) by done. cbn [mbind res_bind].
    rewrite (set_next_ok _ _ (Some item)) by done. split; [done|split].
    + rewrite <- app_assoc. apply seg_app. exists (Some x). split.
      * by apply seg_frame.
      * cbn. split; [done|]. exists n. rewrite lookup_insert_eq. split; [done|].
        by apply seg_frame.
    + intros y Hy. apply lookup_insert_ne. set_solver.
Qed.

(** ** Properties *)

(** On a NULL-terminated chain the list macros ISCSI_LIST_ADD, ISCSI_LIST_ADD_END
    and ISCSI_LIST_REMOVE are consing, appending and removing: they terminate, touch
    only nodes of the list and leave a chain that spells the resulting list; removing
    from an empty list dereferences NULL. *)
Theorem slist_refines_list (h : next) (p : option nat) (l : list nat) (item : nat)
  (Hl : lseg h p l) (Hitem : is_Some (h !! item)) :
  ((item ∉ l) -> exists h' p',
     ISCSI_LIST_ADD h p item = Ret (h', p') /\
     lseg h' p' (item :: l) /\ only_moves h h' (item :: l)) /\
  ((item ∉ l) -> exists h' p',
     ISCSI_LIST_ADD_END h p item = Ret (h', p') /\
     lseg h' p' (l ++ [item]) /\ only_moves h h' (item :: l)) /\
  (l <> [] -> exists h' p',
     ISCSI_LIST_REMOVE h p item = Ret (h', p') /\
     lseg h' p' (filter (.≠ item) l) /\ only_moves h h' l) /\
  (l = [] -> ISCSI_LIST_REMOVE h p item = Undef NullDeref).
Proof.
  repeat apply conj; intros H.
  - destruct (add_spec h p l item) as (h' & E & H'); eauto.
  - by apply add_end_spec.
  - by apply remove_spec.
  - subst l. cbn in Hl. by subst p.
Qed.

Lemma slist_refines_list_witness :
  exists h' p',
    ISCSI_LIST_REMOVE {[ 1%nat := Some 2%nat; 2%nat := Some 3%nat; 3%nat := None ]}
      (Some 1%nat) 2 = Ret (h', p') /\ lseg h' p' [1%nat; 3%nat].
Proof.
  destruct (slist_refines_list
    {[ 1%nat := Some 2%nat; 2%nat := Some 3%nat; 3%nat := None ]} (Some 1%nat)
    [1%nat; 2%nat; 3%nat] 2) as (_ & _ & H & _).
  - cbn. eauto 10.
  - by eexists.
  - destruct H as (h' & p' & E & Hl & _); [done|]. by exists h', p'.
Defined.
