(* ===== verification/Buddy.v ===== *)
(** The buddy allocator of src/lib/iser.c: a chunk of registered memory is
    [DATA_BUFFER_CHUNK_UNITS] units, managed by a tree in an array.

    Node [p] of the tree has the children [2 * p] and [2 * p + 1]; the root is 1, and
    the leaves are the units.  A position is a [positive], so that [pos << 1],
    [(pos << 1) | 1] and [pos >> 1] are [xO p], [xI p] and the tail.  The level of a leaf
    is 1, that of the root 11.  An entry is the level of the largest block that is free
    below the node, 0 for none; a block that was handed out has the entry 0 at its node,
    and the entries below it stay as they were.  All entries are small, so [int8_t] and
    [int] are [nat] here.

    The specification is a tree of blocks, [shape]: free, taken, or split in two halves
    that are not both free.  The array represents one shape; allocation takes a free
    block of the level that is wanted, splitting larger ones, and fails only if there is
    none; freeing gives the block back and merges. *)

From S2P Require Import Prelude.

Local Open Scope nat_scope.

(** ** The code *)

Definition DATA_BUFFER_UNIT_SHIFT : Z := 12.
Definition DATA_BUFFER_UNIT_SIZE : Z := 4096.
Definition DATA_BUFFER_CHUNK_SHIFT : Z := 22.
Definition DATA_BUFFER_CHUNK_SIZE : Z := (1 << DATA_BUFFER_CHUNK_SHIFT)%Z.
Definition DATA_BUFFER_CHUNK_UNITS_SHIFT : nat := 10.
Definition DATA_BUFFER_CHUNK_UNITS : nat := 1024.

(** The array [tree]; [node t p] is [tree[p]]. *)
Definition node (t : list nat) (p : positive) : nat := default 0 (t !! Pos.to_nat p).
Definition put_node (p : positive) (v : nat) (t : list nat) : list nat := <[Pos.to_nat p := v]> t.

(** The loops [memset(tree + (1 << i), SHIFT - i + 1, 1 << i)]; entry 0 is not set. *)
Definition tree_init : list nat :=
  0 :: concat (map (fun i => replicate (2 ^ i) (DATA_BUFFER_CHUNK_UNITS_SHIFT - i + 1))
                (seq 0 (DATA_BUFFER_CHUNK_UNITS_SHIFT + 1))).

(** What a node of level [level] gets from its children. *)
Definition node_value (level left right : nat) : nat :=
  if left =? level - 1 then (if right =? level - 1 then level else level - 1)
  else if right <? left then left else right.

(** [for (pos >>= 1, level++; pos; pos >>= 1, level++)]; [level] is that of [pos]. *)
Fixpoint iser_buf_chunk_tree_propagate (t : list nat) (pos : positive) (level : nat) : list nat :=
  match pos with
  | xH => t
  | xO pos | xI pos =>
      let value := node_value (S level) (node t (xO pos)) (node t (xI pos)) in
      if value =? node t pos then t
      else iser_buf_chunk_tree_propagate (put_node pos value t) pos (S level)
  end.

(** [for (; tree[pos]; pos >>= 1, level++)]; [None] when it runs past the root. *)
Fixpoint find_taken (t : list nat) (pos : positive) (level : nat) : option (positive * nat) :=
  if node t pos =? 0 then Some (pos, level) else
  match pos with
  | xH => None
  | xO pos | xI pos => find_taken t pos (S level)
  end.

(** [ptr] is [chunk->buf + unit * DATA_BUFFER_UNIT_SIZE]: the unit is the argument. *)
Definition chunk_free (t : list nat) (unit : nat) : option (list nat) :=
  match find_taken t (Pos.of_nat (unit + DATA_BUFFER_CHUNK_UNITS)) 1 with
  | Some (pos, level) => Some (iser_buf_chunk_tree_propagate (put_node pos level t) pos level)
  | None => None
  end.

(** [for (pos = 1, level = ...; want < level; level--)] *)
Fixpoint look_down (t : list nat) (want level : nat) (pos : positive) : positive * nat :=
  match level with
  | O => (pos, level)
  | S l =>
      if want <? level then
        look_down t want l (if want <=? node t (xO pos) then xO pos else xI pos)
      else (pos, level)
  end.

(** The unit of the block, and the tree. *)
Definition chunk_alloc (t : list nat) (want : nat) : option (nat * list nat) :=
  if node t 1 <? want then None else
  let (pos, level) := look_down t want (DATA_BUFFER_CHUNK_UNITS_SHIFT + 1) 1 in
  let t := put_node pos 0 t in
  let unit := Pos.to_nat pos * 2 ^ (level - 1) - DATA_BUFFER_CHUNK_UNITS in
  Some (unit, iser_buf_chunk_tree_propagate t pos level).

(** [fls(x)] for [x >= 0]: the number of bits. *)
Definition fls (x : Z) : nat := if (x =? 0)%Z then 0 else S (Z.to_nat (Z.log2 x)).

(** The level of the block for [data_size] bytes ([size_t]). *)
Definition want_of (data_size : Z) : nat :=
  fls (u64 (u64 (data_size * 2) - 1) / DATA_BUFFER_UNIT_SIZE / 2) + 1.

(** ** The specification *)

Inductive shape := Free | Taken | Split (l r : shape).

#[export] Instance shape_eq_dec : EqDecision shape.
Proof. solve_decision. Defined.

(** The level of the largest free block below a node of level [l]. *)
Fixpoint avail (l : nat) (s : shape) : nat :=
  match s with
  | Free => l
  | Taken => 0
  | Split a b => Nat.max (avail (l - 1) a) (avail (l - 1) b)
  end.

(** Two halves, merged if both are free. *)
Definition halves (a b : shape) : shape :=
  match a, b with Free, Free => Free | _, _ => Split a b end.

(** The array represents [s] below node [p] of level [l]. *)
Fixpoint represents (t : list nat) (p : positive) (l : nat) (s : shape) : Prop :=
  match l with
  | O => s = Free
  | S l =>
      node t p = avail (S l) s /\
      match s with
      | Free | Taken => represents t (xO p) l Free /\ represents t (xI p) l Free
      | Split a b => halves a b = Split a b /\ represents t (xO p) l a /\ represents t (xI p) l b
      end
  end.

(** The blocks that are handed out: their nodes and levels. *)
Fixpoint blocks (p : positive) (l : nat) (s : shape) : list (positive * nat) :=
  match s with
  | Free => []
  | Taken => [(p, l)]
  | Split a b => blocks (xO p) (l - 1) a ++ blocks (xI p) (l - 1) b
  end.

(** The level of the root; the size of a block in units. *)
Definition top : nat := DATA_BUFFER_CHUNK_UNITS_SHIFT + 1.
Definition units (b : positive * nat) : nat := 2 ^ (b.2 - 1).

(** ** Where a node is *)

(** [q] is [p] or below it. *)
Inductive under (p : positive) : positive -> Prop :=
| under_here : under p p
| under_left q : under p q -> under p (xO q)
| under_right q : under p q -> under p (xI q).

Lemma under_size p q : under p q -> p = q \/ (Pos.size_nat p < Pos.size_nat q).
Proof.
  induction 1 as [|q _ [->|IH]|q _ [->|IH]]; [by left|..]; right; cbn; lia.
Qed.

Lemma under_trans p q r : under p q -> under q r -> under p r.
Proof. induction 2; [done|by apply under_left|by apply under_right]. Qed.

Lemma under_child p q : under (xO p) q \/ under (xI p) q -> under p q.
Proof.
  intros [Hu|Hu]; (eapply under_trans; [|exact Hu]); [apply under_left|apply under_right]; apply under_here.
Qed.

Lemma not_under_parent p q : under (xO p) q \/ under (xI p) q -> ~ under q p.
Proof.
  intros Hu Hq. assert (Pos.size_nat p < Pos.size_nat q).
  { destruct Hu as [Hu|Hu]; apply under_size in Hu; destruct Hu as [<-|Hu]; cbn in *; lia. }
  apply under_size in Hq. destruct Hq as [->|]; lia.
Qed.

Lemma under_sibling p q : under (xO p) q -> ~ under (xI p) q.
Proof.
  assert (Hup : ~ (under (xO p) p \/ under (xI p) p)).
  { intros [Hu|Hu]; apply under_size in Hu; destruct Hu as [E|Hu]; cbn in *; try lia;
      apply (f_equal Pos.size_nat) in E; cbn in E; lia. }
  induction 1 as [|q Hu IH|q Hu IH]; intros Hs; inversion Hs as [|? Hs'|? Hs']; subst;
    first [by apply IH|apply Hup; by auto].
Qed.

(** ** Entries of the array *)

Lemma node_put_ne t p q v : p <> q -> node (put_node p v t) q = node t q.
Proof. intros Hne. unfold node, put_node. rewrite list_lookup_insert_ne; [done|]. by intros ?%Pos2Nat.inj. Qed.

Lemma node_put_eq t p v : Pos.to_nat p < length t -> node (put_node p v t) p = v.
Proof. intros Hp. unfold node, put_node. by rewrite list_lookup_insert_eq. Qed.

Lemma length_put t p v : length (put_node p v t) = length t.
Proof. apply length_insert. Qed.

Lemma represents_frame t t' p l s : (forall q, under p q -> node t' q = node t q) ->
  represents t p l s -> represents t' p l s.
Proof.
  revert p s. induction l as [|l IH]; intros p s Hf; [done|]. cbn [represents]. rewrite (Hf p (under_here p)).
  assert (HL : forall s, represents t (xO p) l s -> represents t' (xO p) l s).
  { intros s'. apply IH. intros q Hq. apply Hf, under_child. by left. }
  assert (HR : forall s, represents t (xI p) l s -> represents t' (xI p) l s).
  { intros s'. apply IH. intros q Hq. apply Hf, under_child. by right. }
  destruct s; naive_solver.
Qed.

Lemma represents_avail t p l s : represents t p l s -> avail l s <= l /\ (avail l s = l -> 0 < l -> s = Free).
Proof.
  revert p s. induction l as [|l IH]; intros p s; [by intros ->|]. cbn [represents]. intros [_ Hs].
  destruct s as [| |a b]; cbn [avail]; [done|lia|]. destruct Hs as (Hh & Ha & Hb).
  rewrite Nat.sub_succ, Nat.sub_0_r. apply IH in Ha as [Ha Ha'], Hb as [Hb Hb']. lia.
Qed.

(** The value the code computes is that of the merged halves. *)
Lemma node_value_halves t p l a b : 0 < l -> represents t (xO p) l a -> represents t (xI p) l b ->
  node_value (S l) (avail l a) (avail l b) = avail (S l) (halves a b).
Proof.
  intros Hl Ha Hb. apply represents_avail in Ha as [Ha Ha'], Hb as [Hb Hb'].
  unfold node_value. rewrite Nat.sub_succ, Nat.sub_0_r.
  destruct (Nat.eqb_spec (avail l a) l) as [E|E], (Nat.eqb_spec (avail l b) l) as [E'|E'].
  - by rewrite (Ha' E Hl), (Hb' E' Hl).
  - rewrite (Ha' E Hl). destruct b; cbn [avail halves] in *; rewrite ?Nat.sub_succ, ?Nat.sub_0_r; lia.
  - rewrite (Hb' E' Hl). destruct a; cbn [avail halves] in *; rewrite ?Nat.sub_succ, ?Nat.sub_0_r;
      first [lia|match goal with |- context [?x <? ?y] => destruct (Nat.ltb_spec x y) end; lia].
  - assert (Hab : halves a b = Split a b) by (destruct a, b; cbn [avail halves] in *; done). rewrite Hab. cbn [avail].
    rewrite Nat.sub_succ, Nat.sub_0_r. destruct (Nat.ltb_spec (avail l b) (avail l a)); lia.
Qed.

Lemma represents_halves t p l a b : represents t (xO p) l a -> represents t (xI p) l b ->
  node t p = avail (S l) (halves a b) -> represents t p (S l) (halves a b).
Proof. intros Ha Hb Hn. split; [done|]. by destruct a, b. Qed.

(** A shape that is not taken, as its halves. *)
Lemma represents_split t p l s : represents t p (S l) s -> s <> Taken ->
  exists a b, s = halves a b /\ represents t (xO p) l a /\ represents t (xI p) l b.
Proof.
  intros [_ Hs] Hne. destruct s as [| |a b]; [|done|].
  - by exists Free, Free.
  - destruct Hs as (Hh & Ha & Hb). by exists a, b.
Qed.

Lemma blocks_halves p l a b : blocks p (S l) (halves a b) = blocks (xO p) l a ++ blocks (xI p) l b.
Proof. destruct a, b; cbn [halves blocks]; by rewrite ?Nat.sub_succ, ?Nat.sub_0_r. Qed.

(** ** A node in its tree

    [context t p l v plug rest]: the array is right but for what is below node [p] of
    level [l], as long as the entry of [p] is [v]; [plug s] is the whole shape when [s]
    is the one at [p], and [rest] the blocks outside of it. *)
Inductive context (t : list nat) : positive -> nat -> nat -> (shape -> shape) -> list (positive * nat) -> Prop :=
| context_root v : context t 1 top v (fun s => s) []
| context_left p l v b plug rest : 0 < l -> context t p (S l) (node t p) plug rest ->
    represents t (xI p) l b -> node t p = node_value (S l) v (avail l b) ->
    context t (xO p) l v (fun s => plug (halves s b)) (blocks (xI p) l b ++ rest)
| context_right p l v a plug rest : 0 < l -> context t p (S l) (node t p) plug rest ->
    represents t (xO p) l a -> node t p = node_value (S l) (avail l a) v ->
    context t (xI p) l v (fun s => plug (halves a s)) (blocks (xO p) l a ++ rest).

Lemma context_frame t t' p l v plug rest : (forall q, ~ under p q -> node t' q = node t q) ->
  context t p l v plug rest -> context t' p l v plug rest.
Proof.
  intros Hf. induction 1 as [v|p l v b plug rest Hl Hc IH Hb Hn|p l v a plug rest Hl Hc IH Ha Hn].
  - constructor.
  - assert (Ep : node t' p = node t p) by (apply Hf, not_under_parent; left; apply under_here).
    constructor; [done| | |by rewrite Ep].
    + rewrite Ep. apply IH. intros q Hq. apply Hf. intros Hu. apply Hq, under_child. by left.
    + eapply represents_frame; [|exact Hb]. intros q Hq. apply Hf. intros Hu. by apply (under_sibling _ _ Hu).
  - assert (Ep : node t' p = node t p) by (apply Hf, not_under_parent; right; apply under_here).
    constructor; [done| | |by rewrite Ep].
    + rewrite Ep. apply IH. intros q Hq. apply Hf. intros Hu. apply Hq, under_child. by right.
    + eapply represents_frame; [|exact Ha]. intros q Hq. apply Hf. intros Hu. by apply (under_sibling _ _ Hq).
Qed.

(** A node whose shape is known, in its tree: the whole tree is known. *)
Lemma context_plug t p l v plug rest : context t p l v plug rest -> forall s, v = avail l s ->
  represents t p l s -> represents t 1 top (plug s) /\ blocks 1 top (plug s) ≡ₚ blocks p l s ++ rest.
Proof.
  induction 1 as [v|p l v b plug rest Hl Hc IH Hb Hn|p l v a plug rest Hl Hc IH Ha Hn]; intros s -> Hs.
  - by rewrite app_nil_r.
  - pose proof Hn as Hn'. rewrite (node_value_halves t p l s b Hl Hs Hb) in Hn'.
    destruct (IH (halves s b) Hn' (represents_halves t p l s b Hs Hb Hn')) as [H1 H2].
    split; [done|]. rewrite H2, blocks_halves. by rewrite app_assoc.
  - pose proof Hn as Hn'. rewrite (node_value_halves t p l a s Hl Ha Hs) in Hn'.
    destruct (IH (halves a s) Hn' (represents_halves t p l a s Ha Hs Hn')) as [H1 H2].
    split; [done|]. rewrite H2, blocks_halves, (Permutation_app_comm (blocks (xO p) l a)). by rewrite app_assoc.
Qed.

(** The loop of [iser_buf_chunk_tree_propagate] carries a new entry to the root. *)
Definition carries (t : list nat) (p : positive) (l : nat) (plug : shape -> shape) (rest : list (positive * nat)) : Prop :=
  forall t1, (forall q, ~ under p q -> node t1 q = node t q) -> Pos.to_nat p < length t1 ->
  let t2 := iser_buf_chunk_tree_propagate t1 p l in
  context t2 p l (node t1 p) plug rest /\ (forall q, under p q -> node t2 q = node t1 q) /\ length t2 = length t1.

(** One turn of it, at the parent [p] of the node that changed. *)
Lemma propagate_turn t p l value plug rest t1 : carries t p (S l) plug rest ->
  context t p (S l) (node t p) plug rest -> Pos.to_nat p < length t1 ->
  (forall q, ~ under p q -> node t1 q = node t q) -> node t1 p = node t p ->
  let t2 := if value =? node t1 p then t1 else iser_buf_chunk_tree_propagate (put_node p value t1) p (S l) in
  context t2 p (S l) (node t2 p) plug rest /\ node t2 p = value /\
  (forall q, under (xO p) q \/ under (xI p) q -> node t2 q = node t1 q) /\ length t2 = length t1.
Proof.
  intros IH Hc Hp Hf Ep t2. unfold t2. destruct (Nat.eqb_spec value (node t1 p)) as [E|E].
  - split; [|by repeat split]. rewrite Ep. by apply (context_frame t).
  - destruct (IH (put_node p value t1)) as (H1 & H2 & H3); [|by rewrite length_put|].
    { intros q Hq. rewrite node_put_ne; [by apply Hf|]. intros ->. apply Hq, under_here. }
    rewrite node_put_eq in H1 by done. rewrite length_put in H3.
    assert (Ev : node (iser_buf_chunk_tree_propagate (put_node p value t1) p (S l)) p = value).
    { rewrite H2 by apply under_here. by apply node_put_eq. }
    split; [by rewrite Ev|]. split; [done|]. split; [|done]. intros q Hq.
    rewrite H2 by (by apply under_child). apply node_put_ne. intros ->. by eapply not_under_parent, under_here.
Qed.

Lemma propagate_context t p l v plug rest : context t p l v plug rest -> carries t p l plug rest.
Proof.
  induction 1 as [v|p l v b plug rest Hl Hc IH Hb Hn|p l v a plug rest Hl Hc IH Ha Hn]; intros t1 Hf Hp t2.
  - split; [constructor|done].
  - assert (Ep : node t1 p = node t p) by (apply Hf, not_under_parent; left; apply under_here).
    assert (Hsib : forall q, under (xI p) q -> node t1 q = node t q).
    { intros q Hq. apply Hf. intros Hu. by apply (under_sibling _ _ Hu). }
    assert (Eb : node t1 (xI p) = avail l b).
    { rewrite Hsib by apply under_here. destruct l; [lia|]. apply Hb. }
    destruct (propagate_turn t p l (node_value (S l) (node t1 (xO p)) (avail l b)) plug rest t1 IH Hc ltac:(lia)) as (H1 & H2 & H3 & H4);
      [|exact Ep|].
    { intros q Hq. apply Hf. intros Hu. apply Hq, under_child. by left. }
    change t2 with (if node_value (S l) (node t1 (xO p)) (node t1 (xI p)) =? node t1 p then t1
      else iser_buf_chunk_tree_propagate (put_node p (node_value (S l) (node t1 (xO p)) (node t1 (xI p))) t1) p (S l)).
    rewrite Eb. split; [|split; [|exact H4]]; [|intros q Hq; apply H3; by left].
    apply context_left; [done|exact H1| |exact H2].
    eapply represents_frame; [|exact Hb]. intros q Hq. rewrite H3 by (by right). by apply Hsib.
  - assert (Ep : node t1 p = node t p) by (apply Hf, not_under_parent; right; apply under_here).
    assert (Hsib : forall q, under (xO p) q -> node t1 q = node t q).
    { intros q Hq. apply Hf. intros Hu. by apply (under_sibling _ _ Hq). }
    assert (Ea : node t1 (xO p) = avail l a).
    { rewrite Hsib by apply under_here. destruct l; [lia|]. apply Ha. }
    destruct (propagate_turn t p l (node_value (S l) (avail l a) (node t1 (xI p))) plug rest t1 IH Hc ltac:(lia)) as (H1 & H2 & H3 & H4);
      [|exact Ep|].
    { intros q Hq. apply Hf. intros Hu. apply Hq, under_child. by right. }
    change t2 with (if node_value (S l) (node t1 (xO p)) (node t1 (xI p)) =? node t1 p then t1
      else iser_buf_chunk_tree_propagate (put_node p (node_value (S l) (node t1 (xO p)) (node t1 (xI p))) t1) p (S l)).
    rewrite Ea. split; [|split; [|exact H4]]; [|intros q Hq; apply H3; by right].
    apply context_right; [done|exact H1| |exact H2].
    eapply represents_frame; [|exact Ha]. intros q Hq. rewrite H3 by (by left). by apply Hsib.
Qed.

(** ** Finding a block *)

Lemma look_down_run t want l : forall p s plug rest, represents t p l s -> context t p l (avail l s) plug rest ->
  1 <= want <= avail l s ->
  exists q plug' rest', look_down t want l p = (q, want) /\ represents t q want Free /\
    context t q want want plug' rest' /\ plug' Free = plug s /\ under p q.
Proof.
  induction l as [|l IH]; intros p s plug rest Hs Hc Hw.
  { cbn in Hs. subst s. cbn in Hw. lia. }
  cbn [look_down]. destruct (Nat.ltb_spec want (S l)) as [Hlt|Hge].
  - assert (Hne : s <> Taken) by (intros ->; cbn in Hw; lia).
    destruct (represents_split t p l s Hs Hne) as (a & b & -> & Ha & Hb).
    assert (Hl : 0 < l) by lia.
    assert (Ea : node t (xO p) = avail l a) by (destruct l; [lia|apply Ha]).
    assert (Hn : node t p = avail (S l) (halves a b)) by apply Hs.
    pose proof (node_value_halves t p l a b Hl Ha Hb) as Hv. rewrite <- Hn in Hc, Hv.
    rewrite Ea. destruct (Nat.leb_spec want (avail l a)) as [Hwa|Hwa].
    + destruct (IH (xO p) a _ _ Ha (context_left t p l (avail l a) b plug rest Hl Hc Hb (eq_sym Hv)) ltac:(lia))
        as (q & plug' & rest' & E & Hq & Hc' & Ep & Hu).
      exists q, plug', rest'. do 4 (split; [done|]). apply under_child. by left.
    + assert (Hwb : want <= avail l b).
      { revert Hw. rewrite <- Hn, <- Hv. apply represents_avail in Hb as [Hb _]. unfold node_value.
        rewrite Nat.sub_succ, Nat.sub_0_r. destruct (avail l a =? l) eqn:E; [apply Nat.eqb_eq in E; lia|].
        destruct (avail l b <? avail l a) eqn:E'; lia. }
      destruct (IH (xI p) b _ _ Hb (context_right t p l (avail l b) a plug rest Hl Hc Ha (eq_sym Hv)) ltac:(lia))
        as (q & plug' & rest' & E & Hq & Hc' & Ep & Hu).
      exists q, plug', rest'. do 4 (split; [done|]). apply under_child. by right.
  - pose proof (represents_avail t p (S l) s Hs) as [Hle Hfree].
    assert (Hwl : want = S l) by lia. subst want.
    assert (s = Free) as -> by (apply Hfree; lia). exists p, plug, rest. do 4 (split; [done|]). apply under_here.
Qed.

(** The leftmost leaf below [q]. *)
Definition leaf (q : positive) (n : nat) : positive := Nat.iter n xO q.

Lemma leaf_number q n : Pos.to_nat (leaf q n) = Pos.to_nat q * 2 ^ n.
Proof.
  induction n as [|n IH]; [cbn; lia|]. unfold leaf in *. rewrite Nat.iter_succ, Pos2Nat.inj_xO, IH, Nat.pow_succ_r'. lia.
Qed.

Lemma leaf_left q n : leaf q (S n) = leaf (xO q) n.
Proof. unfold leaf. by rewrite Nat.iter_succ_r. Qed.

(** The walk from there passes what is free. *)
Lemma find_taken_free t l : forall q, represents t q (S l) Free ->
  find_taken t (leaf q l) 1 = find_taken t q (S l).
Proof.
  induction l as [|l IH]; intros q Hq; [done|]. rewrite leaf_left.
  destruct Hq as [_ [Hq _]]. rewrite IH by done. destruct Hq as [Hn _]. cbn [find_taken]. by rewrite Hn.
Qed.

Lemma find_taken_run t l q : represents t q (S l) Taken -> find_taken t (leaf q l) 1 = Some (q, S l).
Proof.
  intros [Hn Hs]. assert (E : find_taken t q (S l) = Some (q, S l)).
  { destruct q; cbn [find_taken]; by rewrite Hn. }
  destruct l as [|l]; [done|]. rewrite leaf_left. destruct Hs as [Hq _]. rewrite find_taken_free by done.
  destruct Hq as [Hn' _]. cbn [find_taken]. by rewrite Hn'.
Qed.

(** A block that was handed out, in its tree. *)
Lemma block_context t l : forall p s plug rest b, represents t p l s -> context t p l (avail l s) plug rest ->
  b ∈ blocks p l s ->
  exists l' plug' rest', b.2 = S l' /\ represents t b.1 b.2 Taken /\ context t b.1 b.2 0 plug' rest' /\
    plug' Taken = plug s /\ under p b.1.
Proof.
  induction l as [|l IH]; intros p s plug rest b Hs Hc Hb.
  { cbn in Hs. subst s. by apply elem_of_nil in Hb. }
  destruct (decide (s = Taken)) as [->|Hne].
  - apply list_elem_of_singleton in Hb as ->. exists l, plug, rest. do 4 (split; [done|]). apply under_here.
  - destruct (represents_split t p l s Hs Hne) as (x & y & -> & Hx & Hy).
    rewrite blocks_halves in Hb.
    assert (Hl : 0 < l).
    { destruct l; [|lia]. cbn in Hx, Hy. subst. by apply elem_of_nil in Hb. }
    assert (Hn : node t p = avail (S l) (halves x y)) by apply Hs.
    pose proof (node_value_halves t p l x y Hl Hx Hy) as Hv. rewrite <- Hn in Hc, Hv.
    apply elem_of_app in Hb as [Hb|Hb].
    + destruct (IH (xO p) x _ _ b Hx (context_left t p l (avail l x) y plug rest Hl Hc Hy (eq_sym Hv)) Hb)
        as (l' & plug' & rest' & E & H1 & H2 & H3 & Hu).
      exists l', plug', rest'. do 4 (split; [done|]). apply under_child. by left.
    + destruct (IH (xI p) y _ _ b Hy (context_right t p l (avail l y) x plug rest Hl Hc Hx (eq_sym Hv)) Hb)
        as (l' & plug' & rest' & E & H1 & H2 & H3 & Hu).
      exists l', plug', rest'. do 4 (split; [done|]). apply under_child. by right.
Qed.

(** ** Which units a block covers *)

(** The leaves of a block, by their positions. *)
Definition start (b : positive * nat) : nat := Pos.to_nat b.1 * units b.
Definition on_leaf (n : nat) (b : positive * nat) : Prop := start b <= n < start b + units b.

#[export] Instance on_leaf_dec n b : Decision (on_leaf n b).
Proof. unfold on_leaf. apply _. Defined.

Lemma start_children p l : 0 < l -> start (xO p, l) = start (p, S l) /\
  start (xI p, l) = start (p, S l) + units (p, l) /\ units (p, S l) = units (p, l) + units (p, l).
Proof.
  intros Hl. destruct l as [|l]; [lia|]. unfold start, units. cbn [fst snd].
  rewrite !Nat.sub_succ, !Nat.sub_0_r, Pos2Nat.inj_xO, Pos2Nat.inj_xI, Nat.pow_succ_r'. lia.
Qed.

Lemma units_level p q l : units (p, l) = units (q, l).
Proof. done. Qed.

(** A leaf is in one block at most, and then below [p]. *)
Lemma blocks_apart t l : forall p s n, represents t p l s ->
  length (filter (on_leaf n) (blocks p l s)) <= (if decide (on_leaf n (p, l)) then 1 else 0).
Proof.
  induction l as [|l IH]; intros p s n Hs; [cbn in Hs; subst s; cbn; lia|].
  destruct (decide (s = Taken)) as [->|Hne].
  { cbn [blocks]. rewrite filter_cons, filter_nil. by destruct (decide _). }
  destruct (represents_split t p l s Hs Hne) as (a & b & -> & Ha & Hb). rewrite blocks_halves, filter_app, length_app.
  destruct (decide (l = 0)) as [->|Hl]; [cbn in Ha, Hb; subst; cbn; lia|].
  specialize (IH (xO p) a n Ha) as H1. specialize (IH (xI p) b n Hb) as H2.
  destruct (start_children p l ltac:(lia)) as (E1 & E2 & E3).
  revert H1 H2. repeat case_decide; unfold on_leaf in *; rewrite ?E1, ?E2, ?E3, ?(units_level (xO p) p), ?(units_level (xI p) p) in *; lia.
Qed.

(** What is not free has a block. *)
Lemma blocks_nonempty t l p s : represents t p l s -> s <> Free -> exists b n, b ∈ blocks p l s /\ on_leaf n b /\ on_leaf n (p, l).
Proof.
  revert p s. induction l as [|l IH]; intros p s Hs Hne; [done|].
  destruct (decide (s = Taken)) as [->|Hnt].
  { exists (p, S l), (start (p, S l)). split; [by apply list_elem_of_singleton|].
    assert (0 < units (p, S l)) by (apply Nat.neq_0_lt_0, Nat.pow_nonzero; lia). unfold on_leaf. lia. }
  destruct (represents_split t p l s Hs Hnt) as (a & b & -> & Ha & Hb). rewrite blocks_halves.
  destruct (decide (l = 0)) as [->|Hl]; [cbn in Ha, Hb; by subst|].
  destruct (start_children p l ltac:(lia)) as (E1 & E2 & E3).
  destruct (decide (a = Free)) as [->|Hna].
  - destruct (IH (xI p) b Hb) as (c & n & Hc & H1 & H2); [by intros ->|]. exists c, n.
    split; [apply elem_of_app; by right|]. split; [done|].
    unfold on_leaf in *; rewrite ?E2, ?E3, ?(units_level (xI p) p) in *; lia.
  - destruct (IH (xO p) a Ha Hna) as (c & n & Hc & H1 & H2). exists c, n.
    split; [apply elem_of_app; by left|]. split; [done|].
    unfold on_leaf in *; rewrite ?E1, ?E3, ?(units_level (xO p) p) in *; lia.
Qed.

(** A node below [p] lies in it. *)
Lemma under_span p q l w : under p q -> Pos.size_nat q + w = Pos.size_nat p + l -> 0 < w ->
  start (p, l) <= start (q, w) /\ start (q, w) + units (q, w) <= start (p, l) + units (p, l).
Proof.
  intros Hu. revert w. induction Hu as [|q Hu IH|q Hu IH]; intros w Hq Hw.
  - assert (w = l) as -> by lia. lia.
  - destruct (IH (S w) ltac:(cbn in Hq; lia) ltac:(lia)). destruct (start_children q w Hw) as (E1 & E2 & E3).
    rewrite E1, (units_level (xO q) q). lia.
  - destruct (IH (S w) ltac:(cbn in Hq; lia) ltac:(lia)). destruct (start_children q w Hw) as (E1 & E2 & E3).
    rewrite E2, (units_level (xI q) q). lia.
Qed.

Lemma under_parts p q : under p q -> p <> q -> under (xO p) q \/ under (xI p) q.
Proof.
  induction 1 as [|q Hu IH|q Hu IH]; [done| |]; intros _; destruct (decide (p = q)) as [<-|Hn].
  - left. apply under_here.
  - destruct (IH Hn); [left|right]; by constructor.
  - right. apply under_here.
  - destruct (IH Hn); [left|right]; by constructor.
Qed.

Lemma node_value_le l x y w : x <= l -> y <= l -> node_value (S l) x y < w -> x < w /\ y < w.
Proof.
  unfold node_value. rewrite Nat.sub_succ, Nat.sub_0_r. intros Hx Hy.
  destruct (Nat.eqb_spec x l), (Nat.eqb_spec y l), (Nat.ltb_spec y x); lia.
Qed.

(** Where no block of level [w] is free, every one that could be meets one that was
    handed out. *)
Lemma no_room t l : forall p s q w, represents t p l s -> avail l s < w -> 0 < w -> under p q ->
  Pos.size_nat q + w = Pos.size_nat p + l -> exists b n, b ∈ blocks p l s /\ on_leaf n b /\ on_leaf n (q, w).
Proof.
  induction l as [|l IH]; intros p s q w Hs Hw H0 Hu Hq.
  { apply under_size in Hu. destruct Hu as [->|]; lia. }
  destruct (decide (p = q)) as [<-|Hpq].
  { assert (w = S l) as -> by lia. apply (blocks_nonempty t (S l) p s Hs). intros ->. cbn in Hw. lia. }
  assert (Hl : 0 < l) by (apply under_size in Hu; destruct Hu as [|Hu]; [done|lia]).
  destruct (decide (s = Taken)) as [->|Hnt].
  { exists (p, S l), (start (q, w)). split; [by apply list_elem_of_singleton|].
    assert (0 < units (q, w)) by (apply Nat.neq_0_lt_0, Nat.pow_nonzero; lia).
    destruct (under_span p q (S l) w Hu Hq H0). unfold on_leaf. lia. }
  destruct (represents_split t p l s Hs Hnt) as (a & b & -> & Ha & Hb). rewrite blocks_halves.
  rewrite <- (node_value_halves t p l a b Hl Ha Hb) in Hw.
  apply node_value_le in Hw as [Hwa Hwb]; [|by eapply represents_avail|by eapply represents_avail].
  destruct (under_parts p q Hu Hpq) as [Hc|Hc].
  - destruct (IH (xO p) a q w Ha Hwa H0 Hc ltac:(cbn; lia)) as (c & n & H1 & H2). exists c, n.
    split; [apply elem_of_app; by left|done].
  - destruct (IH (xI p) b q w Hb Hwb H0 Hc ltac:(cbn; lia)) as (c & n & H1 & H2). exists c, n.
    split; [apply elem_of_app; by right|done].
Qed.

(** ** Operations on a chunk *)

Definition chunk_ok (t : list nat) (s : shape) : Prop := length t = 2 ^ top /\ represents t 1 top s.

(** A block as its user has it: the first unit, and the level. *)
Definition held (b : positive * nat) : nat * nat := (start b - DATA_BUFFER_CHUNK_UNITS, b.2).

Lemma context_span t p l v plug rest : context t p l v plug rest ->
  0 < l /\ Pos.size_nat p + l = S top /\ under 1 p.
Proof.
  induction 1 as [v|p l v b plug rest Hl Hc IH Hb Hn|p l v a plug rest Hl Hc IH Ha Hn].
  - split; [unfold top, DATA_BUFFER_CHUNK_UNITS_SHIFT; lia|]. split; [done|constructor].
  - destruct IH as (_ & H1 & H2). split; [done|]. split; [cbn [Pos.size_nat]; lia|by constructor].
  - destruct IH as (_ & H1 & H2). split; [done|]. split; [cbn [Pos.size_nat]; lia|by constructor].
Qed.

(** The leaves are [1024, 2048). *)
Lemma chunk_span p l : under 1 p -> Pos.size_nat p + l = S top -> 0 < l ->
  DATA_BUFFER_CHUNK_UNITS <= start (p, l) /\ start (p, l) + units (p, l) <= 2 ^ top.
Proof.
  intros Hu Hp Hl. pose proof (under_span 1 p top l Hu Hp Hl) as [H1 H2].
  change (start (1%positive, top)) with DATA_BUFFER_CHUNK_UNITS in *.
  change (units (1%positive, top)) with DATA_BUFFER_CHUNK_UNITS in *.
  change (2 ^ top) with (DATA_BUFFER_CHUNK_UNITS + DATA_BUFFER_CHUNK_UNITS). lia.
Qed.

(** A new entry at a node, and the loop to the root. *)
Lemma chunk_update t p l v v' plug rest s' : length t = 2 ^ top -> context t p l v plug rest ->
  v' = avail l s' -> (forall t', (forall q, under p q -> p <> q -> node t' q = node t q) -> node t' p = v' -> represents t' p l s') ->
  let t2 := iser_buf_chunk_tree_propagate (put_node p v' t) p l in
  chunk_ok t2 (plug s') /\ blocks 1 top (plug s') ≡ₚ blocks p l s' ++ rest.
Proof.
  intros Hlen Hc Hv Hs. destruct (context_span _ _ _ _ _ _ Hc) as (Hl & Hp & Hu).
  destruct (chunk_span p l Hu Hp Hl) as [_ Hspan].
  assert (Hrange : Pos.to_nat p < length (put_node p v' t)).
  { rewrite length_put, Hlen. assert (0 < units (p, l)) by (apply Nat.neq_0_lt_0, Nat.pow_nonzero; lia).
    unfold start in Hspan. cbn [fst] in Hspan. nia. }
  destruct (propagate_context _ _ _ _ _ _ Hc (put_node p v' t)) as (H1 & H2 & H3); [|done|].
  { intros q Hq. apply node_put_ne. intros ->. apply Hq, under_here. }
  rewrite length_put in Hrange. rewrite node_put_eq in H1 by done.
  set (t2 := iser_buf_chunk_tree_propagate (put_node p v' t) p l) in *. cbv zeta.
  destruct (context_plug _ _ _ _ _ _ H1 s' Hv) as [H4 H5].
  { apply Hs; [|rewrite H2 by apply under_here; by apply node_put_eq].
    intros q Hq Hne. rewrite H2 by done. by apply node_put_ne. }
  split; [|done]. split; [|done]. by rewrite H3, length_put.
Qed.

Lemma children_free t p l s t' : represents t p (S l) s -> s = Free \/ s = Taken ->
  (forall q, under p q -> p <> q -> node t' q = node t q) ->
  represents t' (xO p) l Free /\ represents t' (xI p) l Free.
Proof.
  intros Hs Hcase Hf. assert (H : represents t (xO p) l Free /\ represents t (xI p) l Free).
  { destruct Hs as [_ Hs]. by destruct Hcase as [-> | ->]. }
  destruct H as [H1 H2]. split.
  - apply (represents_frame t); [|done]. intros q Hq. apply Hf; [by apply under_child; left|].
    intros ->. by apply (not_under_parent q q); [left|constructor].
  - apply (represents_frame t); [|done]. intros q Hq. apply Hf; [by apply under_child; right|].
    intros ->. by apply (not_under_parent q q); [right|constructor].
Qed.

Lemma chunk_alloc_run t s want u t' : chunk_ok t s -> 1 <= want -> chunk_alloc t want = Some (u, t') ->
  exists s' b, chunk_ok t' s' /\ held b = (u, want) /\ blocks 1 top s' ≡ₚ b :: blocks 1 top s.
Proof.
  intros [Hlen Hs] Hw. unfold chunk_alloc.
  assert (Eroot : node t 1 = avail top s) by apply Hs. rewrite Eroot.
  destruct (Nat.ltb_spec (avail top s) want) as [|Hle]; [done|].
  destruct (look_down_run t want top 1 s _ _ Hs (context_root t _) ltac:(lia))
    as (q & plug & rest & E & Hq & Hc & Ep & _). unfold top in E. rewrite E. intros [= <- <-].
  destruct want as [|w]; [lia|].
  destruct (chunk_update t q (S w) (S w) 0 plug rest Taken Hlen Hc eq_refl) as [H1 H2].
  { intros t' Hf Hn. split; [done|]. by apply (children_free t q w Free); [|left|]. }
  exists (plug Taken), (q, S w). split; [exact H1|]. split; [done|]. rewrite H2.
  destruct (context_plug _ _ _ _ _ _ Hc Free eq_refl Hq) as [_ H3]. rewrite <- Ep, H3. done.
Qed.

Lemma chunk_free_run t s b : chunk_ok t s -> b ∈ blocks 1 top s ->
  exists t' s', chunk_free t (held b).1 = Some t' /\ chunk_ok t' s' /\ blocks 1 top s ≡ₚ b :: blocks 1 top s'.
Proof.
  intros [Hlen Hs] Hb.
  destruct (block_context t top 1 s _ _ b Hs (context_root t _) Hb) as (l & plug & rest & El & Ht & Hc & Ep & _).
  destruct b as [p l']. cbn [fst snd] in *. subst l'.
  destruct (context_span _ _ _ _ _ _ Hc) as (Hl & Hp & Hu). destruct (chunk_span p (S l) Hu Hp Hl) as [Hlow _].
  assert (Epos : Pos.of_nat ((held (p, S l)).1 + DATA_BUFFER_CHUNK_UNITS) = leaf p l).
  { cbn [held fst]. rewrite Nat.sub_add by lia. rewrite <- (Pos2Nat.id (leaf p l)), leaf_number. f_equal.
    unfold start, units. cbn [fst snd]. by rewrite Nat.sub_succ, Nat.sub_0_r. }
  unfold chunk_free. rewrite Epos, find_taken_run by done.
  destruct (chunk_update t p (S l) 0 (S l) plug rest Free Hlen Hc eq_refl) as [H1 H2].
  { intros t' Hf Hn. split; [done|]. by apply (children_free t p l Taken); [|right|]. }
  eexists _, (plug Free). split; [done|]. split; [exact H1|].
  destruct (context_plug _ _ _ _ _ _ Hc Taken eq_refl Ht) as [_ H3]. rewrite <- Ep, H3, H2. done.
Qed.

(** Every position is below the root, at the depth of its number. *)
Lemma under_root q : under 1 q.
Proof. induction q; by constructor. Qed.

Lemma size_of_number q n : 2 ^ n <= Pos.to_nat q < 2 ^ S n -> Pos.size_nat q = S n.
Proof.
  revert n. induction q as [q IH|q IH|]; intros n Hn; cbn [Pos.size_nat].
  - rewrite Pos2Nat.inj_xI, !Nat.pow_succ_r' in Hn. destruct n as [|n]; [cbn in Hn; lia|].
    f_equal. apply IH. rewrite !Nat.pow_succ_r' in *. lia.
  - rewrite Pos2Nat.inj_xO, !Nat.pow_succ_r' in Hn. destruct n as [|n]; [cbn in Hn; lia|].
    f_equal. apply IH. rewrite !Nat.pow_succ_r' in *. lia.
  - destruct n as [|n]; [done|]. rewrite Nat.pow_succ_r' in Hn. pose proof (Nat.pow_nonzero 2 n). lia.
Qed.

Lemma number_of_size q : 2 ^ (Pos.size_nat q - 1) <= Pos.to_nat q.
Proof.
  induction q as [q IH|q IH|]; cbn [Pos.size_nat]; rewrite ?Pos2Nat.inj_xI, ?Pos2Nat.inj_xO, ?Nat.sub_succ, ?Nat.sub_0_r;
    [..|done]; (destruct (Pos.size_nat q) eqn:E; [by destruct q|]);
    rewrite Nat.sub_succ, Nat.sub_0_r in IH; rewrite Nat.pow_succ_r'; lia.
Qed.

Lemma chunk_full t s want k : chunk_ok t s -> 1 <= want <= top -> chunk_alloc t want = None ->
  (k + 1) * 2 ^ (want - 1) <= DATA_BUFFER_CHUNK_UNITS ->
  exists b n, b ∈ blocks 1 top s /\ on_leaf n b /\
    DATA_BUFFER_CHUNK_UNITS + k * 2 ^ (want - 1) <= n < DATA_BUFFER_CHUNK_UNITS + (k + 1) * 2 ^ (want - 1).
Proof.
  intros [Hlen Hs] Hw. unfold chunk_alloc. assert (Eroot : node t 1 = avail top s) by apply Hs. rewrite Eroot.
  destruct (Nat.ltb_spec (avail top s) want) as [Hlt|]; [|by destruct (look_down _ _ _ _)]. intros _ Hk.
  set (q := Pos.of_nat (2 ^ (top - want) + k)).
  assert (Hpow : 2 ^ (top - want) * 2 ^ (want - 1) = DATA_BUFFER_CHUNK_UNITS).
  { rewrite <- Nat.pow_add_r. replace (top - want + (want - 1)) with 10 by (unfold top, DATA_BUFFER_CHUNK_UNITS_SHIFT in *; lia). done. }
  pose proof (Nat.pow_nonzero 2 (top - want) ltac:(lia)). pose proof (Nat.pow_nonzero 2 (want - 1) ltac:(lia)).
  assert (Eq : Pos.to_nat q = 2 ^ (top - want) + k) by (apply Nat2Pos.id; lia).
  assert (Hsize : Pos.size_nat q = S (top - want)).
  { apply size_of_number. rewrite Eq, Nat.pow_succ_r'. nia. }
  destruct (no_room t top 1 s q want Hs Hlt ltac:(lia) (under_root q)) as (b & n & Hb & H1 & H2).
  { rewrite Hsize. cbn [Pos.size_nat]. lia. }
  exists b, n. split; [done|]. split; [done|]. unfold on_leaf, start, units in H2. cbn [fst snd] in H2. rewrite Eq in H2. nia.
Qed.

(** ** The life of a chunk *)

(** The states of a chunk: its array, and the blocks its users hold. *)
Inductive chunk_state : list nat -> list (nat * nat) -> Prop :=
| chunk_new : chunk_state tree_init []
| chunk_take t h want u t' : chunk_state t h -> 1 <= want <= top -> chunk_alloc t want = Some (u, t') ->
    chunk_state t' ((u, want) :: h)
| chunk_give t h u want h' t' : chunk_state t h -> h ≡ₚ (u, want) :: h' -> chunk_free t u = Some t' ->
    chunk_state t' h'.

(** A unit of a block that is held. *)
Definition in_block (n : nat) (b : nat * nat) : Prop := b.1 <= n < b.1 + 2 ^ (b.2 - 1).

#[export] Instance in_block_dec n b : Decision (in_block n b).
Proof. unfold in_block. apply _. Defined.

Lemma chunk_state_shape t h : chunk_state t h -> exists s, chunk_ok t s /\ map held (blocks 1 top s) ≡ₚ h.
Proof.
  induction 1 as [|t h want u t' _ (s & Hs & Hh) Hw E|t h u want h' t' _ (s & Hs & Hh) Hp E].
  - exists Free. split; [|done]. split; [vm_compute; reflexivity|]. vm_compute. tauto.
  - destruct (chunk_alloc_run t s want u t' Hs ltac:(lia) E) as (s' & b & Hs' & Hb & Hperm).
    exists s'. split; [done|]. rewrite (Permutation_map held Hperm). cbn [map]. by rewrite Hb, Hh.
  - rewrite Hp in Hh.
    assert (Hin : (u, want) ∈ map held (blocks 1 top s)) by (rewrite Hh; apply list_elem_of_here).
    apply list_elem_of_fmap in Hin as (b & Eb & Hb).
    destruct (chunk_free_run t s b Hs Hb) as (t1 & s' & E1 & Hs' & Hperm).
    rewrite <- Eb in E1. cbn [fst] in E1. rewrite E in E1. injection E1 as <-.
    exists s'. split; [done|]. apply (Permutation_cons_inv (a := (u, want))). rewrite <- Hh, Eb.
    by rewrite (Permutation_map held Hperm).
Qed.

Lemma block_span t s b : chunk_ok t s -> b ∈ blocks 1 top s ->
  1 <= b.2 <= top /\ DATA_BUFFER_CHUNK_UNITS <= start b /\ start b + units b <= 2 ^ top.
Proof.
  intros [_ Hs] Hb.
  destruct (block_context t top 1 s _ _ b Hs (context_root t _) Hb) as (l & plug & rest & El & _ & Hc & _).
  destruct (context_span _ _ _ _ _ _ Hc) as (Hl & Hp & Hu). split; [|by apply (chunk_span b.1 b.2)].
  pose proof (under_size 1 b.1 Hu) as [E|E]; [rewrite <- E in Hp; cbn [Pos.size_nat] in Hp; lia|cbn [Pos.size_nat] in E; lia].
Qed.

Lemma count_held t s n : chunk_ok t s -> length (filter (in_block n) (map held (blocks 1 top s))) <= 1.
Proof.
  intros Hs. assert (E : length (filter (in_block n) (map held (blocks 1 top s))) =
    length (filter (on_leaf (n + DATA_BUFFER_CHUNK_UNITS)) (blocks 1 top s))).
  { assert (Hall : Forall (fun b => DATA_BUFFER_CHUNK_UNITS <= start b) (blocks 1 top s)).
    { apply Forall_forall. intros b Hb. by destruct (block_span t s b Hs Hb) as (_ & H & _). }
    induction Hall as [|b l Hb Hall IH]; [done|]. cbn [map]. rewrite !filter_cons.
    assert (Hiff : in_block n (held b) <-> on_leaf (n + DATA_BUFFER_CHUNK_UNITS) b).
    { unfold in_block, on_leaf, held. cbn [fst snd]. change (2 ^ (b.2 - 1)) with (units b). lia. }
    destruct (decide (in_block n (held b))), (decide (on_leaf _ b)); cbn [length]; rewrite ?IH; naive_solver. }
  rewrite E. destruct Hs as [_ Hs]. pose proof (blocks_apart t top 1 s (n + DATA_BUFFER_CHUNK_UNITS) Hs). by case_decide; lia.
Qed.

(** Two arrays of one shape agree. *)
Lemma represents_same t t' l : forall p s, represents t p l s -> represents t' p l s ->
  forall q, under p q -> Pos.size_nat q < Pos.size_nat p + l -> node t q = node t' q.
Proof.
  induction l as [|l IH]; intros p s Hs Hs' q Hu Hq.
  { apply under_size in Hu. destruct Hu as [->|]; lia. }
  destruct (decide (p = q)) as [<-|Hpq]; [by rewrite (proj1 Hs), (proj1 Hs')|].
  assert (H : exists a b, (represents t (xO p) l a /\ represents t' (xO p) l a) /\
    (represents t (xI p) l b /\ represents t' (xI p) l b)).
  { destruct Hs as [_ Hs], Hs' as [_ Hs']. destruct s as [| |a b]; [exists Free, Free|exists Free, Free|exists a, b]; naive_solver. }
  destruct H as (a & b & [H1 H2] & [H3 H4]).
  destruct (under_parts p q Hu Hpq) as [Hc|Hc]; [apply (IH (xO p) a)|apply (IH (xI p) b)]; try done; cbn [Pos.size_nat]; lia.
Qed.

(** C35: Whatever sequence of allocations and frees a chunk goes through, the blocks its
    users hold lie in the chunk, aligned to their size, and no unit is in two of them;
    each of them can be freed; an allocation is refused only when every aligned range of
    the size wanted meets a block that is held; and when the last block is given back
    the tree is as it was at the start. *)
Theorem buddy_blocks_apart (t : list nat) (h : list (nat * nat)) (Hreach : chunk_state t h) :
  (forall u w, (u, w) ∈ h -> 1 <= w <= top /\ u + 2 ^ (w - 1) <= DATA_BUFFER_CHUNK_UNITS /\ (2 ^ (w - 1) | u)) /\
  (forall n, length (filter (in_block n) h) <= 1) /\
  (forall u w, (u, w) ∈ h -> is_Some (chunk_free t u)) /\
  (forall want k, 1 <= want <= top -> chunk_alloc t want = None -> (k + 1) * 2 ^ (want - 1) <= DATA_BUFFER_CHUNK_UNITS ->
     exists b n, b ∈ h /\ in_block n b /\ k * 2 ^ (want - 1) <= n < (k + 1) * 2 ^ (want - 1)) /\
  (h = [] -> forall p, Pos.to_nat p < 2 ^ top -> node t p = node tree_init p).
Proof.
  destruct (chunk_state_shape t h Hreach) as (s & Hs & Hh).
  assert (Hin : forall x, x ∈ h -> exists b, b ∈ blocks 1 top s /\ held b = x).
  { intros x Hx. rewrite <- Hh in Hx. apply list_elem_of_fmap in Hx as (b & -> & Hb). by exists b. }
  split_and!.
  - intros u w Hx. destruct (Hin _ Hx) as (b & Hb & [= <- <-]).
    destruct (block_span t s b Hs Hb) as (Hl & H1 & H2). split; [done|].
    change (2 ^ (b.2 - 1)) with (units b). change (2 ^ top) with (DATA_BUFFER_CHUNK_UNITS + DATA_BUFFER_CHUNK_UNITS) in H2.
    split; [lia|]. apply Nat.divide_sub_r; [by exists (Pos.to_nat b.1)|].
    exists (2 ^ (top - b.2)). unfold units. rewrite <- Nat.pow_add_r.
    replace (top - b.2 + (b.2 - 1)) with 10 by (unfold top, DATA_BUFFER_CHUNK_UNITS_SHIFT in *; lia). done.
  - intros n. rewrite <- Hh. by apply (count_held t).
  - intros u w Hx. destruct (Hin _ Hx) as (b & Hb & E). destruct (chunk_free_run t s b Hs Hb) as (t' & _ & E' & _).
    rewrite E in E'. by eexists.
  - intros want k Hw E Hk. destruct (chunk_full t s want k Hs Hw E Hk) as (b & n & Hb & Hn & Hr).
    exists (held b), (n - DATA_BUFFER_CHUNK_UNITS). destruct (block_span t s b Hs Hb) as (_ & H1 & _).
    split; [rewrite <- Hh; by apply list_elem_of_fmap_2|]. unfold in_block, held, on_leaf in *. cbn [fst snd].
    change (2 ^ (b.2 - 1)) with (units b). lia.
  - intros -> p Hp. apply Permutation_nil_r in Hh.
    assert (Hfree : s = Free).
    { destruct (decide (s = Free)) as [|Hne]; [done|].
      destruct (blocks_nonempty t top 1 s (proj2 Hs) Hne) as (b & n & Hb & _).
      by destruct (blocks 1 top s); [apply elem_of_nil in Hb|]. }
    subst s. apply (represents_same t tree_init top 1 Free); [apply Hs|vm_compute; tauto|apply under_root|].
    destruct (Nat.le_gt_cases (1 + top) (Pos.size_nat p)) as [Hle|]; [|done]. exfalso.
    pose proof (number_of_size p). assert (2 ^ top <= 2 ^ (Pos.size_nat p - 1)) by (apply Nat.pow_le_mono_r; lia). lia.
Qed.

(** A request is served with a block of the smallest level that holds it, for every
    size from one byte to the whole chunk. *)
Lemma want_of_smallest (size : Z) (Hsize : (0 < size <= DATA_BUFFER_CHUNK_SIZE)%Z) :
  1 <= want_of size <= top /\
  (size <= Z.of_nat (2 ^ (want_of size - 1)) * DATA_BUFFER_UNIT_SIZE)%Z /\
  (forall w, 1 <= w -> (size <= Z.of_nat (2 ^ (w - 1)) * DATA_BUFFER_UNIT_SIZE)%Z -> want_of size <= w).
Proof.
  change DATA_BUFFER_CHUNK_SIZE with 4194304%Z in Hsize. unfold DATA_BUFFER_UNIT_SIZE.
  set (x := ((size - 1) / 4096)%Z).
  assert (Ew : want_of size = fls x + 1).
  { unfold want_of. rewrite (u64_small (size * 2)), u64_small by lia. do 2 f_equal. unfold DATA_BUFFER_UNIT_SIZE, x.
    rewrite Z.div_div by lia. Z.div_mod_to_equations. lia. }
  assert (Hx : (4096 * x <= size - 1 < 4096 * x + 4096)%Z) by (unfold x; Z.div_mod_to_equations; lia).
  assert (Hfls : forall w, (x < Z.of_nat (2 ^ w))%Z <-> fls x <= w).
  { intros w. rewrite Nat2Z.inj_pow. unfold fls. destruct (Z.eqb_spec x 0) as [->|Hne].
    - pose proof (Z.pow_pos_nonneg 2 (Z.of_nat w)). lia.
    - rewrite Z.log2_lt_pow2 by lia. pose proof (Z.log2_nonneg x). lia. }
  assert (H11 : fls x <= 10) by (apply Hfls; change (Z.of_nat (2 ^ 10)) with 1024%Z; lia).
  rewrite Ew, Nat.add_sub. pose proof (proj2 (Hfls (fls x)) (Nat.le_refl _)).
  split; [unfold top, DATA_BUFFER_CHUNK_UNITS_SHIFT; lia|]. split; [lia|].
  intros w Hw Hs. enough (fls x <= w - 1) by lia. apply Hfls. lia.
Qed.

(** *** Witnesses *)

(** A block of four units and one of a single unit; then the first is freed. *)
Definition tree_after (t : option (nat * list nat)) : list nat := match t with Some (_, t) => t | None => [] end.
Definition sample_tree_1 : list nat := tree_after (chunk_alloc tree_init 3).
Definition sample_tree_2 : list nat := tree_after (chunk_alloc sample_tree_1 1).
Definition sample_tree_3 : list nat := default [] (chunk_free sample_tree_2 0).

Lemma buddy_blocks_apart_witness :
  chunk_state sample_tree_3 [(4, 1)] /\ is_Some (chunk_free sample_tree_3 4) /\
  length (filter (in_block 4) [(4, 1)]) <= 1.
Proof.
  assert (H : chunk_state sample_tree_3 [(4, 1)]).
  { apply (chunk_give sample_tree_2 [(4, 1); (0, 3)] 0 3).
    - apply (chunk_take sample_tree_1 [(0, 3)] 1 4).
      + apply (chunk_take tree_init [] 3 0); [constructor|vm_compute; lia|vm_compute; reflexivity].
      + vm_compute; lia.
      + vm_compute; reflexivity.
    - apply Permutation_swap.
    - vm_compute; reflexivity. }
  split; [exact H|]. destruct (buddy_blocks_apart sample_tree_3 [(4, 1)] H) as (_ & H2 & H3 & _).
  split; [apply (H3 4 1), list_elem_of_here|apply H2].
Defined.
