(* ===== verification/TxDesc.v ===== *)
(** The memory of an iSER connection: the send descriptors of src/lib/iser.c with their
    data buffers, which the chunks of [Buddy] serve, and their release.

    A block of malloc and a memory region of libibverbs are named by numbers that are
    never used again; [live] are the blocks that were not freed, [registered] the regions
    that are not deregistered, each with its block and length.  What malloc and
    [ibv_reg_mr] answer is the interface [Verbs].  The lock around the walk of the PDU
    queues, the error strings and the result of [ibv_dereg_mr], which the code ignores,
    are left out. *)

From S2P Require Import Prelude Buddy.

(** ** The code *)

(** Whether the call with that number succeeds; [ibv_reg_mr] is given the buffer. *)
Class Verbs := {
  malloc_ok : nat -> bool;
  reg_mr_ok : nat -> option nat -> Z -> bool
}.

(** Memory at NULL cannot be registered. *)
Class VerbsLaws `{Verbs} := {
  reg_mr_null n len : reg_mr_ok n None len = false
}.

(** A pointer into the data: its block, and the units from the start of it. *)
Abbreviation address := (option nat * nat)%type.
Definition NULL : address := (None, 0%nat).

Record iser_tx_desc := {
  hdr_mr : nat;
  data_buff : address;
  data_mr : option nat
}.
#[export] Instance eta_tx_desc : Eta iser_tx_desc := fun t =>
  Build_iser_tx_desc (hdr_mr t) (data_buff t) (data_mr t).

Record iser_buf_chunk := {
  chunk_block : nat;
  buf : option nat;
  chunk_mr : nat;
  tree : list nat
}.
#[export] Instance eta_chunk : Eta iser_buf_chunk := fun c =>
  Build_iser_buf_chunk (chunk_block c) (buf c) (chunk_mr c) (tree c).

(** [tx_desc] and [buf_chunk] of [struct iser_conn]; [descs] are the descriptors. *)
Record iser_mem := {
  tx_desc : list nat;
  buf_chunk : list iser_buf_chunk;
  descs : gmap nat iser_tx_desc;
  live : list nat;
  registered : list (nat * (option nat * Z));
  calls : nat
}.
#[export] Instance eta_mem : Eta iser_mem := fun m =>
  Build_iser_mem (tx_desc m) (buf_chunk m) (descs m) (live m) (registered m) (calls m).

Definition mem_init : iser_mem := Build_iser_mem [] [] ∅ [] [] 0.

Abbreviation MM := (M iser_mem).

(** [sizeof(struct iser_hdr) + ISCSI_RAW_HEADER_SIZE] *)
Definition ISER_HEADERS_LEN : Z := 28 + 48.

Definition drop_key {A} (f : A -> nat) (k : nat) (l : list A) : list A := filter (fun x => f x <> k) l.

(** iscsi_malloc *)
Definition conn_malloc `{Verbs} : MM (option nat) := fun m =>
  let n := calls m in
  if malloc_ok n then Ret (Some n, m <| calls := S n |> <| live := n :: live m |>)
  else Ret (None, m <| calls := S n |>).

(** iscsi_free *)
Definition conn_free (ptr : address) : MM unit := fun m =>
  match ptr with
  | (None, O) => Ret (tt, m)
  | (Some b, O) =>
      if decide (b ∈ live m) then Ret (tt, m <| live := drop_key id b (live m) |> <| descs := delete b (descs m) |>)
      else Undef UseAfterFree
  | _ => Undef OutOfBounds
  end.

Definition ibv_reg_mr `{Verbs} (b : option nat) (len : Z) : MM (option nat) := fun m =>
  let n := calls m in
  if reg_mr_ok n b len then Ret (Some n, m <| calls := S n |> <| registered := (n, (b, len)) :: registered m |>)
  else Ret (None, m <| calls := S n |>).

Definition ibv_dereg_mr (mr : nat) : MM unit := fun m =>
  if decide (mr ∈ map fst (registered m)) then Ret (tt, m <| registered := drop_key fst mr (registered m) |>)
  else Undef UseAfterFree.

Definition get_desc (d : nat) : MM iser_tx_desc := fun m =>
  match descs m !! d with Some t => Ret (t, m) | None => Undef UseAfterFree end.

Definition put_desc (d : nat) (t : iser_tx_desc) : MM unit := modify (fun m => m <| descs := <[d := t]> (descs m) |>).

Definition iser_buf_chunk_free (c : iser_buf_chunk) (ptr : address) : res iser_buf_chunk :=
  if decide (ptr.1 = buf c) then
    match chunk_free (tree c) ptr.2 with Some t => Ret (c <| tree := t |>) | None => Undef OutOfBounds end
  else Undef OutOfBounds.

Definition iser_buf_chunk_alloc (c : iser_buf_chunk) (want : nat) : address * iser_buf_chunk :=
  match chunk_alloc (tree c) want with
  | None => (NULL, c)
  | Some (unit, t) => ((buf c, unit), c <| tree := t |>)
  end.

(** [for (; chunk != NULL; chunk = chunk->next)]; [None] at the end of the list. *)
Fixpoint free_in_chunks (l : list iser_buf_chunk) (mr : nat) (ptr : address) : res (option (list iser_buf_chunk)) :=
  match l with
  | [] => Ret None
  | c :: l =>
      if Nat.eqb (chunk_mr c) mr then c' ← iser_buf_chunk_free c ptr; Ret (Some (c' :: l))
      else r ← free_in_chunks l mr ptr; Ret (match r with Some l' => Some (c :: l') | None => None end)
  end.

Definition iser_tx_desc_free (d : nat) : MM unit :=
  t ← get_desc d;
  _ ← match data_mr t with
      | None => mret tt
      | Some mr =>
          chunks ← gets buf_chunk;
          match free_in_chunks chunks mr (data_buff t) with
          | Undef u => undefined u
          | Ret (Some chunks) => modify (fun m => m <| buf_chunk := chunks |>)
          | Ret None => _ ← ibv_dereg_mr mr; conn_free (data_buff t)
          end
      end;
  modify (fun m => m <| tx_desc := d :: tx_desc m |>).

(** The loop over [buf_chunk] that asks every chunk for a buffer. *)
Fixpoint alloc_in_chunks (l : list iser_buf_chunk) (want : nat) : option (address * nat) * list iser_buf_chunk :=
  match l with
  | [] => (None, [])
  | c :: l =>
      let (a, c') := iser_buf_chunk_alloc c want in
      if decide (a = NULL) then let (r, l') := alloc_in_chunks l want in (r, c' :: l')
      else (Some (a, chunk_mr c'), c' :: l)
  end.

Definition new_tx_desc `{Verbs} : MM (option nat) :=
  d ← conn_malloc;
  match d with
  | None => mret None
  | Some d =>
      mr ← ibv_reg_mr (Some d) ISER_HEADERS_LEN;
      match mr with
      | None => _ ← conn_free (Some d, O); mret None
      | Some mr => _ ← put_desc d (Build_iser_tx_desc mr NULL None); mret (Some d)
      end
  end.

(** The descriptor: from the list, or new. *)
Definition take_tx_desc `{Verbs} : MM (option nat) :=
  l ← gets tx_desc;
  match l with
  | d :: l => _ ← modify (fun m => m <| tx_desc := l |>); mret (Some d)
  | [] => new_tx_desc
  end.

(** The label [release].  The fields [data_buff] and [data_mr] that the code may have set
    before it are not read again: every later allocation sets both. *)
Definition release (d : nat) : MM (option nat) := _ ← modify (fun m => m <| tx_desc := d :: tx_desc m |>); mret None.

Definition set_data (d : nat) (a : address) (mr : option nat) : MM (option nat) :=
  t ← get_desc d; _ ← put_desc d (t <| data_buff := a |> <| data_mr := mr |>); mret (Some d).

(** [data_size > DATA_BUFFER_CHUNK_SIZE] *)
Definition alloc_big `{Verbs} (d : nat) (data_size : Z) : MM (option nat) :=
  b ← conn_malloc;
  match b with
  | None => release d
  | Some b =>
      mr ← ibv_reg_mr (Some b) data_size;
      match mr with
      | None => _ ← conn_free (Some b, O); release d
      | Some mr => set_data d (Some b, O) (Some mr)
      end
  end.

(** From the allocation of a chunk on; the test after the second malloc is of [chunk],
    which is not NULL there. *)
Definition alloc_chunk `{Verbs} (d want : nat) : MM (option nat) :=
  chunk ← conn_malloc;
  match chunk with
  | None => release d
  | Some chunk =>
      b ← conn_malloc;
      mr ← ibv_reg_mr b (DATA_BUFFER_CHUNK_SIZE);
      match mr with
      | None => _ ← conn_free (b, O); _ ← conn_free (Some chunk, O); release d
      | Some mr =>
          let (a, c) := iser_buf_chunk_alloc (Build_iser_buf_chunk chunk b mr tree_init) want in
          _ ← modify (fun m => m <| buf_chunk := buf_chunk m ++ [c] |>);
          set_data d a (Some mr)
      end
  end.

Definition iser_tx_desc_alloc `{Verbs} (data_size : Z) : MM (option nat) :=
  d ← take_tx_desc;
  match d with
  | None => mret None
  | Some d =>
      if data_size =? 0 then set_data d NULL None
      else if DATA_BUFFER_CHUNK_SIZE <? data_size then alloc_big d data_size
      else
        let want := want_of data_size in
        chunks ← gets buf_chunk;
        let (r, chunks) := alloc_in_chunks chunks want in
        _ ← modify (fun m => m <| buf_chunk := chunks |>);
        match r with
        | Some (a, mr) => set_data d a (Some mr)
        | None => alloc_chunk d want
        end
  end.

(** The PDUs of [waitpdu] and of [outqueue], by their [desc]. *)
Fixpoint free_pdu_descs (pdus : list (option nat)) : MM (list (option nat)) :=
  match pdus with
  | [] => mret []
  | desc :: pdus =>
      _ ← match desc with Some d => iser_tx_desc_free d | None => mret tt end;
      pdus ← free_pdu_descs pdus;
      mret (None :: pdus)
  end.

Definition iser_free_queued_pdu_tx_desc (waitpdu outqueue : list (option nat)) :
    MM (list (option nat) * list (option nat)) :=
  waitpdu ← free_pdu_descs waitpdu;
  outqueue ← free_pdu_descs outqueue;
  mret (waitpdu, outqueue).

(** [while (tx_desc)] *)
Fixpoint free_descs (l : list nat) : MM unit :=
  match l with
  | [] => mret tt
  | d :: l =>
      t ← get_desc d;
      _ ← ibv_dereg_mr (hdr_mr t);
      _ ← conn_free (Some d, O);
      free_descs l
  end.

(** [for (chunk = iser_conn->buf_chunk; chunk; )] *)
Fixpoint free_chunks (l : list iser_buf_chunk) : MM unit :=
  match l with
  | [] => mret tt
  | c :: l =>
      _ ← ibv_dereg_mr (chunk_mr c);
      _ ← conn_free (buf c, O);
      _ ← conn_free (Some (chunk_block c), O);
      free_chunks l
  end.

Definition iser_free_reg_mr : MM unit :=
  l ← gets tx_desc;
  _ ← free_descs l;
  _ ← modify (fun m => m <| tx_desc := [] |>);
  chunks ← gets buf_chunk;
  _ ← free_chunks chunks;
  modify (fun m => m <| buf_chunk := [] |>).

(** The part of [iser_conn_release] that is about this memory. *)
Definition conn_memory_release (waitpdu outqueue : list (option nat)) : MM (list (option nat) * list (option nat)) :=
  pdus ← iser_free_queued_pdu_tx_desc waitpdu outqueue;
  _ ← iser_free_reg_mr;
  mret pdus.

(** ** Who owns what

    [place]: where the data of a descriptor is.  [owns m fs hs bs rs]: the live blocks
    and the registered regions are those of the free descriptors [fs] (with their header
    region), the descriptors in use [hs], the chunks, and [bs] and [rs], which a function
    in its middle holds. *)

Inductive place :=
| Nowhere
| Big (mr b : nat)
| InChunk (mr b u w : nat).

Record use := { u_desc : nat; u_hdr : nat; u_size : Z; u_place : place }.

Definition big_block (h : use) : list nat := match u_place h with Big _ b => [b] | _ => [] end.
Definition big_reg (h : use) : list (nat * (option nat * Z)) :=
  match u_place h with Big mr b => [(mr, (Some b, u_size h))] | _ => [] end.
Definition held_in (mr : nat) (h : use) : list (nat * nat) :=
  match u_place h with InChunk mr' _ u w => if Nat.eqb mr' mr then [(u, w)] else [] | _ => [] end.
Definition hdr_reg (f : nat * nat) : nat * (option nat * Z) := (f.2, (Some f.1, ISER_HEADERS_LEN)).
Definition use_hdr (h : use) : nat * nat := (u_desc h, u_hdr h).
Definition chunk_blocks (c : iser_buf_chunk) : list nat := chunk_block c :: option_list (buf c).
Definition chunk_reg (c : iser_buf_chunk) : nat * (option nat * Z) := (chunk_mr c, (buf c, DATA_BUFFER_CHUNK_SIZE)).

Definition use_ok (ds : gmap nat iser_tx_desc) (cs : list iser_buf_chunk) (h : use) : Prop :=
  exists t, ds !! u_desc h = Some t /\ hdr_mr t = u_hdr h /\
  match u_place h with
  | Nowhere => data_mr t = None /\ u_size h = 0
  | Big mr b => data_mr t = Some mr /\ data_buff t = (Some b, O) /\ DATA_BUFFER_CHUNK_SIZE < u_size h
  | InChunk mr b u w => data_mr t = Some mr /\ data_buff t = (Some b, u) /\
      (mr, Some b) ∈ map (fun c => (chunk_mr c, buf c)) cs /\ w = want_of (u_size h) /\
      0 < u_size h <= DATA_BUFFER_CHUNK_SIZE
  end.

Definition free_ok (ds : gmap nat iser_tx_desc) (f : nat * nat) : Prop :=
  exists t, ds !! f.1 = Some t /\ hdr_mr t = f.2.

Definition chunk_holds (hs : list use) (c : iser_buf_chunk) : Prop :=
  is_Some (buf c) /\
  exists s, chunk_ok (tree c) s /\ map held (blocks 1 top s) ≡ₚ flat_map (held_in (chunk_mr c)) hs.

Record owns (m : iser_mem) (fs : list (nat * nat)) (hs : list use)
    (bs : list nat) (rs : list (nat * (option nat * Z))) : Prop := {
  own_live : live m ≡ₚ bs ++ map fst fs ++ map u_desc hs ++ flat_map chunk_blocks (buf_chunk m) ++ flat_map big_block hs;
  own_nodup : NoDup (live m);
  own_fresh : Forall (fun b => b < calls m)%nat (live m);
  own_regs : registered m ≡ₚ rs ++ map hdr_reg fs ++ map hdr_reg (map use_hdr hs) ++ map chunk_reg (buf_chunk m) ++ flat_map big_reg hs;
  own_regs_nodup : NoDup (map fst (registered m));
  own_regs_fresh : Forall (fun mr => mr < calls m)%nat (map fst (registered m));
  own_list : tx_desc m = map fst fs;
  own_free : Forall (free_ok (descs m)) fs;
  own_used : Forall (use_ok (descs m) (buf_chunk m)) hs;
  own_chunks : Forall (chunk_holds hs) (buf_chunk m)
}.

Definition owned (m : iser_mem) (hs : list use) : Prop := exists fs, owns m fs hs [] [].

(** *** Permutations, by counting *)

Section Counting.
Context {A : Type} `{EqDecision A}.

Definition count (x : A) (l : list A) : nat := length (filter (fun y => y = x) l).

Lemma count_nil x : count x [] = 0%nat.
Proof. done. Qed.

Lemma count_app x l k : count x (l ++ k) = (count x l + count x k)%nat.
Proof. unfold count. by rewrite filter_app, length_app. Qed.

Lemma count_cons x y l : count x (y :: l) = ((if decide (y = x) then 1 else 0) + count x l)%nat.
Proof. unfold count. rewrite filter_cons. by case_decide. Qed.

Lemma count_perm l k : l ≡ₚ k <-> forall x, count x l = count x k.
Proof.
  split; [intros H x; unfold count; by rewrite H|].
  revert k. induction l as [|y l IH]; intros k H.
  - destruct k as [|z k]; [done|]. specialize (H z). rewrite count_cons, decide_True in H by done. unfold count in H. cbn in H. lia.
  - assert (Hy : y ∈ k).
    { specialize (H y). rewrite count_cons, decide_True in H by done. unfold count in H.
      destruct (filter (fun z => z = y) k) as [|z q] eqn:E; [cbn in H; lia|].
      assert (Hz : z ∈ filter (fun z => z = y) k) by (rewrite E; apply list_elem_of_here).
      by apply list_elem_of_filter in Hz as [-> Hz]. }
    apply list_elem_of_split in Hy as (k1 & k2 & ->). rewrite <- Permutation_middle. constructor. apply IH. intros x.
    specialize (H x). rewrite !count_cons, count_app, count_cons in H. rewrite count_app. lia.
Qed.

Lemma drop_key_rest {B} (f : B -> nat) (k : nat) (l r : list B) x :
  NoDup (map f l) -> l ≡ₚ x :: r -> f x = k -> drop_key f k l ≡ₚ r.
Proof.
  intros Hnd Hp <-. unfold drop_key. rewrite Hp, filter_cons, decide_False by tauto.
  rewrite (Permutation_map f Hp) in Hnd. cbn [map] in Hnd. apply NoDup_cons in Hnd as [Hx _].
  rewrite filter_all; [done|]. apply Forall_forall. intros y Hy E. apply Hx. rewrite <- E. by apply list_elem_of_fmap_2.
Qed.

End Counting.

(** An equation of lists up to order, from others. *)
Ltac perm :=
  repeat match goal with H : _ ≡ₚ _ |- _ => rewrite count_perm in H end;
  rewrite count_perm; let x := fresh "x" in intros x;
  repeat match goal with H : forall y : _, count y _ = count y _ |- _ => specialize (H x) end;
  unfold option_list, option_rect in *;
  rewrite ?map_app, ?flat_map_app in *; cbn [map flat_map app] in *;
  rewrite ?count_app, ?count_cons, ?count_app, ?count_nil in *; lia.

(** *** Specifications of the operations *)

Definition spec {A} (P : iser_mem -> Prop) (x : MM A) (Q : A -> iser_mem -> Prop) : Prop :=
  forall m, P m -> exists a m', x m = Ret (a, m') /\ Q a m'.

Lemma spec_bind {A B} P (x : MM A) (f : A -> MM B) Q R :
  spec P x Q -> (forall a, spec (Q a) (f a) R) -> spec P (x ≫= f) R.
Proof.
  intros Hx Hf m Hm. destruct (Hx m Hm) as (a & m' & E & Ha). destruct (Hf a m' Ha) as (b & m2 & E2 & Hb).
  exists b, m2. by run E.
Qed.

Lemma spec_ret {A} (a : A) Q : spec (Q a) (mret a) Q.
Proof. intros m Hm. by exists a, m. Qed.

Lemma spec_pre {A} (P P' : iser_mem -> Prop) (x : MM A) Q : (forall m, P m -> P' m) -> spec P' x Q -> spec P x Q.
Proof. intros HP Hx m Hm. apply Hx, HP, Hm. Qed.

Lemma spec_modify (P : iser_mem -> Prop) f Q : (forall m, P m -> Q tt (f m)) -> spec P (modify f) Q.
Proof. intros HQ m Hm. exists tt, (f m). by split; [|apply HQ]. Qed.

Section Specs.
Context `{Verbs}.

(** What [owns] says of [m] does not change when the call number grows. *)
Lemma owns_calls m fs hs bs rs : owns m fs hs bs rs -> owns (m <| calls := S (calls m) |>) fs hs bs rs.
Proof.
  intros []. split; try done; cbn [live registered calls upd]; (eapply Forall_impl; [done|]); cbn; lia.
Qed.

Lemma conn_malloc_owns fs hs bs rs :
  spec (fun m => owns m fs hs bs rs) conn_malloc (fun r m => owns m fs hs (option_list r ++ bs) rs).
Proof.
  intros m Hm. unfold conn_malloc. destruct (malloc_ok (calls m)); eexists _, _; (split; [done|]); cbn [option_list option_rect app];
    [|by apply owns_calls].
  destruct Hm. split; cbn [live registered calls upd]; try done; cbn [app].
  - cbn. by rewrite own_live0.
  - constructor; [|done]. intros Hin. rewrite Forall_forall in own_fresh0. specialize (own_fresh0 _ Hin). lia.
  - constructor; [cbn; lia|]. eapply Forall_impl; [done|]. cbn; lia.
  - eapply Forall_impl; [done|]. cbn; lia.
Qed.

Lemma ibv_reg_mr_owns fs hs bs rs b len :
  spec (fun m => owns m fs hs bs rs) (ibv_reg_mr b len)
    (fun r m => owns m fs hs bs (match r with Some mr => [(mr, (b, len))] | None => [] end ++ rs) /\
       (is_Some r -> exists n, reg_mr_ok n b len = true)).
Proof.
  intros m Hm. unfold ibv_reg_mr. destruct (reg_mr_ok (calls m) b len) eqn:E; eexists _, _; (split; [done|]); cbn [app];
    [split; [|by eexists]|split; [by apply owns_calls|by intros [? ?]]].
  destruct Hm. split; cbn [live registered calls upd]; try done.
  - eapply Forall_impl; [done|]. cbn; lia.
  - cbn. by rewrite own_regs0.
  - cbn [map fst]. constructor; [|done]. intros Hin. rewrite Forall_forall in own_regs_fresh0. specialize (own_regs_fresh0 _ Hin). lia.
  - cbn [map fst]. constructor; [lia|]. eapply Forall_impl; [done|]. cbn; lia.
Qed.

Lemma ibv_dereg_mr_owns fs hs bs rs mr x :
  spec (fun m => owns m fs hs bs ((mr, x) :: rs)) (ibv_dereg_mr mr) (fun _ m => owns m fs hs bs rs).
Proof.
  intros m Hm. destruct Hm. unfold ibv_dereg_mr. rewrite decide_True.
  2: { rewrite (Permutation_map fst own_regs0). apply list_elem_of_here. }
  eexists _, _. split; [done|].
  pose proof (drop_key_rest fst mr (registered m) _ (mr, x) own_regs_nodup0 own_regs0 eq_refl) as Hd.
  cbn [app] in own_regs0. rewrite (Permutation_map fst own_regs0) in own_regs_nodup0, own_regs_fresh0.
  cbn [map fst] in own_regs_nodup0, own_regs_fresh0. apply NoDup_cons in own_regs_nodup0 as [_ Hnd]. apply Forall_cons in own_regs_fresh0 as [_ Hf].
  split; cbn [live registered calls upd]; try done; cbn; by rewrite Hd.
Qed.

(** A block that is not a descriptor is freed. *)
Lemma desc_kept ds fs hs bs b live : live ≡ₚ b :: bs ++ map fst fs ++ map u_desc hs -> NoDup live ->
  Forall (free_ok ds) fs -> (forall cs, Forall (use_ok ds cs) hs -> Forall (use_ok (delete b ds) cs) hs) /\
  Forall (free_ok (delete b ds)) fs.
Proof.
  intros Hp Hnd Hf. rewrite Hp in Hnd. apply NoDup_cons in Hnd as [Hb _]. split.
  - intros cs Hu. apply Forall_forall. intros h Hh. rewrite Forall_forall in Hu. destruct (Hu h Hh) as (t & Ht & Hrest).
    exists t. split; [|done]. rewrite lookup_delete_ne; [done|]. intros ->. apply Hb.
    rewrite !elem_of_app. right. right. by apply list_elem_of_fmap_2.
  - rewrite Forall_forall in Hf |- *. intros f Hin. destruct (Hf f Hin) as (t & Ht & Hrest). exists t. split; [|done].
    rewrite lookup_delete_ne; [done|]. intros ->. apply Hb. rewrite !elem_of_app. right. left. by apply list_elem_of_fmap_2.
Qed.

Lemma conn_free_owns fs hs bs rs b :
  spec (fun m => owns m fs hs (b :: bs) rs) (conn_free (Some b, O)) (fun _ m => owns m fs hs bs rs).
Proof.
  intros m Hm. destruct Hm. unfold conn_free. rewrite decide_True by (rewrite own_live0; apply list_elem_of_here).
  eexists _, _. split; [done|].
  assert (Hid : NoDup (map id (live m))) by (by rewrite map_id).
  pose proof (drop_key_rest id b (live m) _ b Hid own_live0 eq_refl) as Hd.
  destruct (desc_kept (descs m) fs hs (bs ++ flat_map chunk_blocks (buf_chunk m) ++ flat_map big_block hs) b (live m)) as [Hu Hf];
    [perm|done|done|].
  rewrite own_live0 in own_nodup0, own_fresh0. cbn [app] in *.
  apply NoDup_cons in own_nodup0 as [_ Hnd]. apply Forall_cons in own_fresh0 as [_ Hfr].
  split; cbn [live registered calls descs buf_chunk tx_desc upd]; try done; try (cbn; by rewrite Hd). cbn. by apply Hu.
Qed.

Lemma conn_free_null P : spec P (conn_free NULL) (fun _ => P).
Proof. intros m Hm. by exists tt, m. Qed.

(** *** Descriptors *)

(** What the functions hold while they work on a descriptor that is neither free nor in use. *)
Definition holds_desc (d mr : nat) (fs : list (nat * nat)) (hs : list use) (bs : list nat)
    (rs : list (nat * (option nat * Z))) (m : iser_mem) : Prop :=
  owns m fs hs (d :: bs) (hdr_reg (d, mr) :: rs) /\ free_ok (descs m) (d, mr).

Lemma owns_fresh_desc m fs hs bs rs d mr t : owns m fs hs (d :: bs) rs -> hdr_mr t = mr ->
  Forall (free_ok (<[d := t]> (descs m))) fs /\
  (forall cs, Forall (use_ok (descs m) cs) hs -> Forall (use_ok (<[d := t]> (descs m)) cs) hs).
Proof.
  intros Hm Ht. destruct Hm. rewrite own_live0 in own_nodup0. cbn [app] in own_nodup0. apply NoDup_cons in own_nodup0 as [Hd _].
  rewrite !elem_of_app in Hd. split.
  - rewrite Forall_forall in own_free0 |- *. intros f Hin. destruct (own_free0 f Hin) as (t' & Ht' & Hr). exists t'. split; [|done].
    rewrite lookup_insert_ne; [done|]. intros ->. apply Hd. right. left. by apply list_elem_of_fmap_2.
  - intros cs. rewrite !Forall_forall. intros Hu h Hin. destruct (Hu h Hin) as (t' & Ht' & Hr). exists t'. split; [|done].
    rewrite lookup_insert_ne; [done|]. intros ->. apply Hd. do 2 right. left. by apply list_elem_of_fmap_2.
Qed.

Lemma put_desc_owns fs hs bs rs d mr t : hdr_mr t = mr ->
  spec (fun m => owns m fs hs (d :: bs) (hdr_reg (d, mr) :: rs)) (put_desc d t)
    (fun _ m => holds_desc d mr fs hs bs rs m /\ descs m !! d = Some t).
Proof.
  intros Ht. apply spec_modify. intros m Hm. destruct (owns_fresh_desc _ _ _ _ _ _ _ _ Hm Ht) as [Hf Hu].
  split; [|by cbn; rewrite lookup_insert_eq]. split; [|exists t; by cbn; rewrite lookup_insert_eq].
  destruct Hm. split; try done. cbn. by apply Hu.
Qed.

Lemma put_back_owns d mr fs hs bs rs :
  spec (holds_desc d mr fs hs bs rs) (modify (fun m => m <| tx_desc := d :: tx_desc m |>))
    (fun _ m => owns m ((d, mr) :: fs) hs bs rs).
Proof.
  apply spec_modify. intros m [Hm Hd]. destruct Hm. split; try done; cbn [live registered calls descs buf_chunk tx_desc upd].
  - cbn. perm.
  - cbn. perm.
  - cbn. by rewrite own_list0.
  - by constructor.
Qed.

Lemma release_owns d mr fs hs bs rs :
  spec (holds_desc d mr fs hs bs rs) (release d) (fun r m => r = None /\ owns m ((d, mr) :: fs) hs bs rs).
Proof. eapply spec_bind; [apply put_back_owns|]. intros _ m Hm. by exists None, m. Qed.

Lemma new_tx_desc_owns hs :
  spec (fun m => owns m [] hs [] []) new_tx_desc (fun r m => match r with
    | None => owns m [] hs [] []
    | Some d => exists mr, holds_desc d mr [] hs [] [] m end).
Proof.
  unfold new_tx_desc. eapply spec_bind; [apply (conn_malloc_owns [] hs [] [])|].
  intros [d|]; [|intros m Hm; by exists None, m]. cbn [option_list option_rect app]. eapply spec_bind; [apply ibv_reg_mr_owns|].
  intros [mr|]; cbn [app].
  - eapply spec_bind; [eapply spec_pre; [|apply (put_desc_owns [] hs [] [] d mr); reflexivity]; by intros ? [? _]|].
    intros _ m' [Hm' _]. eexists _, _. split; [done|]. by exists mr.
  - eapply spec_bind; [eapply spec_pre; [|apply (conn_free_owns [] hs [] [] d)]; by intros ? [? _]|].
    intros _ m Hm. by exists None, m.
Qed.

Lemma take_tx_desc_owns fs hs :
  spec (fun m => owns m fs hs [] []) take_tx_desc (fun r m => match r with
    | None => owns m fs hs [] []
    | Some d => exists mr fs', holds_desc d mr fs' hs [] [] m end).
Proof.
  intros m Hm. unfold take_tx_desc. run (eq_refl : gets tx_desc m = _). rewrite (own_list _ _ _ _ _ Hm).
  destruct fs as [|[d mr] fs]; cbn [map fst].
  - destruct (new_tx_desc_owns hs m Hm) as (r & m' & E & Hq). exists r, m'. split; [exact E|].
    destruct r as [d|]; [|done]. destruct Hq as [mr Hq]. by exists mr, [].
  - eexists _, _. split; [done|]. exists mr, fs. destruct Hm. apply Forall_cons in own_free0 as [Hd Hf].
    split; [|done]. split; try done; cbn; perm.
Qed.

(** The descriptor is in use, with no data or with a buffer of its own. *)
Lemma set_data_owns d mr fs hs bs rs bs' rs' a r size pl : let h := {| u_desc := d; u_hdr := mr; u_size := size; u_place := pl |} in
  bs = big_block h ++ bs' -> rs = big_reg h ++ rs' ->
  match pl with
  | Nowhere => r = None /\ size = 0
  | Big mr b => r = Some mr /\ a = (Some b, O) /\ DATA_BUFFER_CHUNK_SIZE < size
  | InChunk _ _ _ _ => False
  end ->
  spec (holds_desc d mr fs hs bs rs) (set_data d a r) (fun o m => o = Some d /\ owns m fs (h :: hs) bs' rs').
Proof.
  intros h -> -> Hpl m [Hm (t & Ht & Hmr)]. cbn [fst snd] in *. unfold set_data, get_desc.
  assert (Eg : get_desc d m = Ret (t, m)) by (unfold get_desc; by rewrite Ht). change (fun m => match descs m !! d with Some t => _ | None => _ end) with (get_desc d).
  run Eg. set (t' := t <| data_buff := a |> <| data_mr := r |>).
  destruct (owns_fresh_desc _ _ _ _ _ _ mr t' Hm Hmr) as [Hf Hu].
  eexists _, _. split; [done|]. split; [done|]. destruct Hm.
  split; try done; cbn [live registered calls descs buf_chunk tx_desc upd].
  - cbn. change (u_desc h) with d. perm.
  - cbn. change (use_hdr h) with (d, mr). perm.
  - constructor; [|cbn; by apply Hu]. exists t'. cbn. rewrite lookup_insert_eq. split; [done|]. split; [done|].
    destruct pl; [naive_solver|naive_solver|done].
  - eapply Forall_impl; [done|]. intros c [Hb (s & Hs & Hp)]. split; [done|]. exists s. split; [done|]. cbn [flat_map].
    replace (held_in (chunk_mr c) h) with (@nil (nat * nat)) by (by destruct pl). done.
Qed.

(** *** Chunks *)

Lemma chunk_alloc_buf c want u t : chunk_alloc (tree c) want = Some (u, t) ->
  iser_buf_chunk_alloc c want = ((buf c, u), c <| tree := t |>).
Proof. unfold iser_buf_chunk_alloc. by intros ->. Qed.

Lemma alloc_in_chunks_run l want : Forall (fun c => is_Some (buf c)) l ->
  match alloc_in_chunks l want with
  | (None, l') => l' = l
  | (Some (a, mr), l') => exists l1 c l2 u t, l = l1 ++ c :: l2 /\ l' = l1 ++ c <| tree := t |> :: l2 /\
      chunk_alloc (tree c) want = Some (u, t) /\ a = (buf c, u) /\ mr = chunk_mr c
  end.
Proof.
  induction 1 as [|c l [b Hb] _ IH]; [done|]. cbn [alloc_in_chunks].
  destruct (chunk_alloc (tree c) want) as [[u t]|] eqn:E.
  - rewrite (chunk_alloc_buf _ _ _ _ E), decide_False by (rewrite Hb; done). by exists [], c, l, u, t.
  - unfold iser_buf_chunk_alloc. rewrite E, decide_True by done.
    destruct (alloc_in_chunks l want) as [[[a mr]|] l']; [|by rewrite IH].
    destruct IH as (l1 & c' & l2 & u & t & -> & -> & Hr). by exists (c :: l1), c', l2, u, t.
Qed.

Lemma free_in_chunks_none l mr ptr : mr ∉ map chunk_mr l -> free_in_chunks l mr ptr = Ret None.
Proof.
  induction l as [|c l IH]; [done|]. cbn [map free_in_chunks]. rewrite not_elem_of_cons. intros [Hc Hl].
  destruct (Nat.eqb_spec (chunk_mr c) mr); [done|]. by rewrite IH.
Qed.

Lemma free_in_chunks_some l1 c l2 u t : chunk_mr c ∉ map chunk_mr l1 -> chunk_free (tree c) u = Some t ->
  free_in_chunks (l1 ++ c :: l2) (chunk_mr c) (buf c, u) = Ret (Some (l1 ++ c <| tree := t |> :: l2)).
Proof.
  intros Hl Ht. induction l1 as [|c1 l1 IH]; cbn [map free_in_chunks app].
  - rewrite Nat.eqb_refl. unfold iser_buf_chunk_free. rewrite decide_True by done. cbn [snd]. by rewrite Ht.
  - cbn [map] in Hl. rewrite not_elem_of_cons in Hl. destruct (Nat.eqb_spec (chunk_mr c1) (chunk_mr c)); [naive_solver|].
    by rewrite IH by naive_solver.
Qed.

(** The chunks of a connection have regions of their own. *)
Lemma owns_chunk_regs m fs hs bs rs : owns m fs hs bs rs ->
  NoDup (map fst rs ++ map chunk_mr (buf_chunk m) ++ map fst (flat_map big_reg hs)).
Proof.
  intros Hm. destruct Hm. rewrite (Permutation_map fst own_regs0), !map_app in own_regs_nodup0.
  assert (E : map chunk_mr (buf_chunk m) = map fst (map chunk_reg (buf_chunk m))) by (by rewrite map_map). rewrite E.
  apply NoDup_app in own_regs_nodup0 as (H1 & H2 & H3). apply NoDup_app in H3 as (_ & _ & H3). apply NoDup_app in H3 as (_ & _ & H3).
  apply NoDup_app. split; [done|]. split; [|done]. intros x Hx Hin. apply (H2 x Hx). rewrite !elem_of_app in *. naive_solver.
Qed.

(** The entry of a chunk in its list is replaced. *)
Lemma chunk_replaced {A} (f : iser_buf_chunk -> A) l1 c l2 t : (forall c t, f (c <| tree := t |>) = f c) ->
  map f (l1 ++ c <| tree := t |> :: l2) = map f (l1 ++ c :: l2).
Proof. intros Hf. rewrite !map_app. cbn [map]. by rewrite Hf. Qed.

Lemma chunk_holds_other h hs c : chunk_holds hs c -> (forall mr b u w, u_place h = InChunk mr b u w -> mr <> chunk_mr c) ->
  chunk_holds (h :: hs) c.
Proof.
  intros [Hb (s & Hs & Hp)] Hne. split; [done|]. exists s. split; [done|]. cbn [flat_map]. unfold held_in at 1.
  destruct (u_place h) as [| |mr b u w]; [done|done|]. destruct (Nat.eqb_spec mr (chunk_mr c)) as [E|]; [|done].
  by destruct (Hne mr b u w eq_refl).
Qed.

Lemma chunk_use_owns d mr fs hs l1 c l2 b u t size :
  0 < size <= DATA_BUFFER_CHUNK_SIZE -> buf c = Some b -> chunk_alloc (tree c) (want_of size) = Some (u, t) ->
  let h := {| u_desc := d; u_hdr := mr; u_size := size; u_place := InChunk (chunk_mr c) b u (want_of size) |} in
  spec (fun m => holds_desc d mr fs hs [] [] m /\ buf_chunk m = l1 ++ c :: l2)
    (_ ← modify (fun m => m <| buf_chunk := l1 ++ c <| tree := t |> :: l2 |>); set_data d (buf c, u) (Some (chunk_mr c)))
    (fun o m => o = Some d /\ owns m fs (h :: hs) [] []).
Proof.
  intros Hsize Hb Ht h m [[Hm (td & Htd & Hmr)] Hl]. cbn [fst snd] in *. rewrite Hb.
  set (m1 := m <| buf_chunk := l1 ++ c <| tree := t |> :: l2 |>). 
  run (eq_refl : modify (fun m => m <| buf_chunk := l1 ++ c <| tree := t |> :: l2 |>) m = Ret (tt, m1)).
  unfold set_data. assert (Eg : get_desc d m1 = Ret (td, m1)) by (unfold get_desc; change (descs m1) with (descs m); by rewrite Htd). run Eg.
  set (td' := td <| data_buff := (Some b, u) |> <| data_mr := Some (chunk_mr c) |>).
  destruct (owns_fresh_desc _ _ _ _ _ _ mr td' Hm Hmr) as [Hf Hu]. pose proof (owns_chunk_regs _ _ _ _ _ Hm) as Hnd.
  eexists _, _. split; [done|]. split; [done|]. destruct Hm. rewrite Hl in *.
  assert (Hflat : flat_map chunk_blocks (l1 ++ c <| tree := t |> :: l2) = flat_map chunk_blocks (l1 ++ c :: l2)).
  { rewrite !flat_map_app. done. }
  split; try done; cbn [live registered calls descs buf_chunk tx_desc upd].
  - cbn. rewrite Hflat. change (u_desc h) with d. perm.
  - cbn. rewrite (chunk_replaced chunk_reg) by done. change (use_hdr h) with (d, mr). perm.
  - constructor.
    + exists td'. cbn. rewrite lookup_insert_eq. do 4 (split; [done|]). split; [|done].
      apply list_elem_of_fmap. exists (c <| tree := t |>). cbn. rewrite Hb. split; [done|]. apply elem_of_app. right. apply list_elem_of_here.
    + eapply Forall_impl; [exact (Hu _ own_used0)|]. intros h' (t' & Ht' & Hr & Hp). exists t'. do 2 (split; [done|]).
      cbn. by rewrite (chunk_replaced (fun c => (chunk_mr c, buf c))).
  - cbn. apply Forall_app in own_chunks0 as [Hc1 Hc2]. apply Forall_cons in Hc2 as [Hc Hc2].
    rewrite map_app in Hnd. cbn [map app] in Hnd. apply NoDup_cons in Hnd as [_ Hnd]. apply NoDup_app in Hnd as (Hnd & _ & _).
    apply NoDup_app in Hnd as (_ & Hn1 & Hn2). apply NoDup_cons in Hn2 as [Hn2 _].
    apply Forall_app. split; [|constructor].
    + apply Forall_forall. intros c' Hc'. rewrite Forall_forall in Hc1. apply chunk_holds_other; [by apply Hc1|].
      intros ? ? ? ? [= <- _ _ _] E. apply (Hn1 (chunk_mr c')); [by apply list_elem_of_fmap_2|]. rewrite E. apply list_elem_of_here.
    + destruct Hc as [_ (s & Hs & Hp)]. destruct (want_of_smallest size Hsize) as (Hw & _).
      destruct (chunk_alloc_run (tree c) s _ u t Hs (proj1 Hw) Ht) as (s' & blk & Hs' & Hh & Hp').
      split; [by exists b|]. exists s'. split; [done|]. rewrite (Permutation_map held Hp'). cbn [map flat_map]. rewrite Hh.
      unfold held_in at 1. cbn [u_place h chunk_mr upd]. cbn. rewrite Nat.eqb_refl. cbn [app]. by constructor.
    + apply Forall_forall. intros c' Hc'. rewrite Forall_forall in Hc2. apply chunk_holds_other; [by apply Hc2|].
      intros ? ? ? ? [= <- _ _ _] E. apply Hn2. rewrite E. by apply list_elem_of_fmap_2.
Qed.

(** A chunk that nobody uses yet. *)
Lemma new_chunk_owns m fs hs bs rs cb b mr : owns m fs hs (cb :: b :: bs) ((mr, (Some b, DATA_BUFFER_CHUNK_SIZE)) :: rs) ->
  owns (m <| buf_chunk := buf_chunk m ++ [Build_iser_buf_chunk cb (Some b) mr tree_init] |>) fs hs bs rs.
Proof.
  intros Hm. pose proof (owns_chunk_regs _ _ _ _ _ Hm) as Hnd. cbn [map fst app] in Hnd. apply NoDup_cons in Hnd as [Hnd _].
  destruct Hm. split; try done; cbn [live registered calls descs buf_chunk tx_desc upd].
  - cbn. rewrite flat_map_app. cbn. perm.
  - cbn. rewrite map_app. cbn. unfold chunk_reg at 2. cbn. perm.
  - eapply Forall_impl; [exact own_used0|]. intros h (t & Ht & Hr & Hp). exists t. do 2 (split; [done|]).
    destruct (u_place h); [done|done|]. destruct Hp as (H1 & H2 & H3 & H4). do 2 (split; [done|]). split; [|done].
    cbn. rewrite map_app. apply elem_of_app. by left.
  - cbn. apply Forall_app. split; [done|]. constructor; [|done]. split; [by exists b|]. exists Free.
    split; [split; [vm_compute; reflexivity|vm_compute; tauto]|]. cbn [blocks map chunk_mr].
    assert (E : flat_map (held_in mr) hs = []); [|by rewrite E].
    clear -own_used0 Hnd. rewrite !not_elem_of_app in Hnd. destruct Hnd as (_ & Hnd & _).
    induction own_used0 as [|h hs (t & _ & _ & Hp) _ IH]; [done|]. cbn [flat_map]. rewrite IH, app_nil_r. unfold held_in.
    destruct (u_place h) as [| |mr' b' u w]; [done|done|]. destruct (Nat.eqb_spec mr' mr) as [->|]; [|done].
    exfalso. apply Hnd. destruct Hp as (_ & _ & Hp & _). apply list_elem_of_fmap in Hp as (c & [= -> _] & Hc). by apply list_elem_of_fmap_2.
Qed.

(** *** Allocation and release of a descriptor *)

Definition alloc_post (size : Z) (hs : list use) (r : option nat) (m : iser_mem) : Prop :=
  match r with
  | None => owned m hs
  | Some d => exists h, u_desc h = d /\ u_size h = size /\ owned m (h :: hs)
  end.

Lemma release_post d mr fs hs size : spec (holds_desc d mr fs hs [] []) (release d) (alloc_post size hs).
Proof.
  intros m Hm. destruct (release_owns _ _ _ _ _ _ m Hm) as (r & m' & E & -> & Hm').
  exists None, m'. split; [done|]. by exists ((d, mr) :: fs).
Qed.

(** A result of [set_data]. *)
Lemma alloc_post_some P (x : MM (option nat)) fs hs h :
  spec P x (fun o m => o = Some (u_desc h) /\ owns m fs (h :: hs) [] []) -> spec P x (alloc_post (u_size h) hs).
Proof.
  intros Hx m Hm. destruct (Hx m Hm) as (o & m' & E & -> & Hm'). exists (Some (u_desc h)), m'. split; [done|].
  exists h. do 2 (split; [done|]). by exists fs.
Qed.

(** [holds_desc] with more in hand: the operations on blocks and regions keep the descriptor. *)
Lemma holds_malloc d mr fs hs bs rs : spec (holds_desc d mr fs hs bs rs) conn_malloc
  (fun r => holds_desc d mr fs hs (option_list r ++ bs) rs).
Proof.
  intros m [Hm Hd]. destruct (conn_malloc_owns _ _ _ _ m Hm) as (r & m' & E & Hm'). exists r, m'. split; [done|].
  assert (Ed : descs m' = descs m) by (unfold conn_malloc in E; by destruct (malloc_ok _); injection E as _ <-).
  split; [|by rewrite Ed]. destruct Hm'. split; try done. destruct r; cbn [option_list option_rect app] in *; perm.
Qed.

Lemma holds_reg_mr d mr fs hs bs rs b len : spec (holds_desc d mr fs hs bs rs) (ibv_reg_mr b len)
  (fun r m => holds_desc d mr fs hs bs (match r with Some mr => [(mr, (b, len))] | None => [] end ++ rs) m /\
     (is_Some r -> exists n, reg_mr_ok n b len = true)).
Proof.
  intros m [Hm Hd]. destruct (ibv_reg_mr_owns _ _ _ _ b len m Hm) as (r & m' & E & Hm' & Hr). exists r, m'. split; [done|].
  assert (Ed : descs m' = descs m) by (unfold ibv_reg_mr in E; by destruct (reg_mr_ok _); injection E as _ <-).
  split; [|done]. split; [|by rewrite Ed]. destruct Hm'. split; try done. destruct r; cbn [app] in *; perm.
Qed.

Lemma holds_free d mr fs hs bs rs b : spec (holds_desc d mr fs hs (b :: bs) rs) (conn_free (Some b, O))
  (fun _ => holds_desc d mr fs hs bs rs).
Proof.
  intros m [Hm Hd].
  assert (Hb : owns m fs hs (b :: d :: bs) (hdr_reg (d, mr) :: rs)) by (destruct Hm; split; try done; perm).
  destruct (conn_free_owns _ _ _ _ _ m Hb) as (r & m' & E & Hm'). exists r, m'. split; [done|]. split; [done|].
  assert (Hne : b <> d).
  { destruct Hb. rewrite own_live0 in own_nodup0. cbn [app] in own_nodup0. apply NoDup_cons in own_nodup0 as [Hn _].
    intros ->. apply Hn, list_elem_of_here. }
  unfold conn_free in E. case_decide; [|done]. injection E as <- <-. destruct Hd as (t & Ht & Hr). exists t.
  split; [|done]. cbn [fst] in *. cbn. by rewrite lookup_delete_ne.
Qed.

Lemma alloc_big_owns d mr fs hs size : DATA_BUFFER_CHUNK_SIZE < size ->
  spec (holds_desc d mr fs hs [] []) (alloc_big d size) (alloc_post size hs).
Proof.
  intros Hsize. unfold alloc_big. eapply spec_bind; [apply holds_malloc|]. intros [b|]; [|apply release_post].
  cbn [option_list option_rect app]. eapply spec_bind; [apply holds_reg_mr|]. intros [r|]; cbn [app].
  - eapply spec_pre; [intros m [Hm _]; exact Hm|].
    apply (alloc_post_some _ _ fs hs {| u_desc := d; u_hdr := mr; u_size := size; u_place := Big r b |}).
    by apply (set_data_owns d mr fs hs [b] [(r, (Some b, size))] [] []).
  - eapply spec_bind; [eapply spec_pre; [|apply (holds_free d mr fs hs [] [] b)]; by intros m [Hm _]|].
    intros ?. apply release_post.
Qed.

Lemma tree_init_alloc w : (1 <= w <= top)%nat -> exists u t, chunk_alloc tree_init w = Some (u, t).
Proof.
  intros Hw. unfold chunk_alloc. change (node tree_init 1) with top.
  destruct (Nat.ltb_spec top w); [lia|]. destruct (look_down _ _ _ _) as [p l]. by eexists _, _.
Qed.

Lemma alloc_chunk_owns `{!VerbsLaws} d mr fs hs size : 0 < size <= DATA_BUFFER_CHUNK_SIZE ->
  spec (holds_desc d mr fs hs [] []) (alloc_chunk d (want_of size)) (alloc_post size hs).
Proof.
  intros Hsize. unfold alloc_chunk. eapply spec_bind; [apply holds_malloc|]. intros [cb|]; [|apply release_post].
  cbn [option_list option_rect app]. eapply spec_bind; [apply holds_malloc|]. intros b.
  eapply spec_bind; [apply holds_reg_mr|]. intros [r|]; cbn [app].
  - destruct b as [b|].
    2: { intros m [_ Hr]. destruct (Hr (ltac:(by eexists))) as [n Hn]. by rewrite reg_mr_null in Hn. }
    cbn [option_list option_rect app]. intros m [[Hm Hd] _].
    assert (Hm0 : owns m fs hs (cb :: b :: [d]) ((r, (Some b, DATA_BUFFER_CHUNK_SIZE)) :: [hdr_reg (d, mr)])).
    { destruct Hm; split; try done; perm. }
    destruct (want_of_smallest size Hsize) as (Hw & _).
    set (c := Build_iser_buf_chunk cb (Some b) r tree_init).
    destruct (tree_init_alloc _ Hw) as (u & t & Ht). change tree_init with (tree c) in Ht. rewrite (chunk_alloc_buf c _ u t Ht). set (m1 := m <| buf_chunk := buf_chunk m ++ [c] |>).
    pose proof (chunk_use_owns d mr fs hs (buf_chunk m) c [] b u t size Hsize eq_refl Ht) as Hs. cbv zeta in Hs.
    destruct (Hs m1) as (o & m' & E & -> & Hm').
    { split; [|done]. split; [|done]. by apply new_chunk_owns. }
    exists (Some d), m'. split; [exact E|]. eexists. split; [|split; [|by exists fs]]; done.
  - apply (spec_bind _ _ _ (fun _ => holds_desc d mr fs hs [cb] [])).
    + destruct b as [b|]; [eapply spec_pre; [|apply (holds_free d mr fs hs [cb] [] b)]; by intros m [Hm _]|].
      intros m [Hm _]. by exists tt, m.
    + intros ?. eapply spec_bind; [apply holds_free|]. intros ?. apply release_post.
Qed.

Lemma iser_tx_desc_alloc_owns `{!VerbsLaws} size hs : 0 <= size ->
  spec (fun m => owned m hs) (iser_tx_desc_alloc size) (alloc_post size hs).
Proof.
  intros Hsize m [fs Hm]. destruct (take_tx_desc_owns fs hs m Hm) as (r & m1 & E & Hm1). unfold iser_tx_desc_alloc. run E.
  destruct r as [d|]; [|by exists None, m1; split; [|exists fs]]. destruct Hm1 as (mr & fs' & Hm1).
  destruct (Z.eqb_spec size 0) as [->|Hne].
  { refine (alloc_post_some (holds_desc d mr fs' hs [] []) _ fs' hs {| u_desc := d; u_hdr := mr; u_size := 0; u_place := Nowhere |} _ m1 Hm1).
    by apply (set_data_owns d mr fs' hs [] [] [] []). }
  destruct (Z.ltb_spec DATA_BUFFER_CHUNK_SIZE size) as [Hbig|Hsmall]; [by apply (alloc_big_owns d mr fs' hs size)|].
  cbv zeta. run (eq_refl : gets buf_chunk m1 = _).
  assert (Hbuf : Forall (fun c => is_Some (buf c)) (buf_chunk m1)).
  { eapply Forall_impl; [apply Hm1|]. by intros c []. }
  pose proof (alloc_in_chunks_run (buf_chunk m1) (want_of size) Hbuf) as Hrun.
  destruct (alloc_in_chunks (buf_chunk m1) (want_of size)) as [[[a amr]|] l'].
  - destruct Hrun as (l1 & c & l2 & u & t & El & -> & Ht & -> & ->).
    assert (Hc : is_Some (buf c)).
    { rewrite Forall_forall in Hbuf. apply Hbuf. rewrite El. apply elem_of_app. right. apply list_elem_of_here. }
    destruct Hc as [b Hb].
    pose proof (chunk_use_owns d mr fs' hs l1 c l2 b u t size ltac:(lia) Hb Ht m1 (conj Hm1 El)) as (o & m' & E' & -> & Hm').
    exists (Some d), m'. split; [exact E'|]. eexists. split; [|split; [|by exists fs']]; done.
  - subst l'. change (modify _ m1) with (Ret (tt, m1 <| buf_chunk := buf_chunk m1 |>)).
    apply (alloc_chunk_owns d mr fs' hs size); [lia|]. by destruct m1.
Qed.

Lemma holds_dereg d mr0 fs hs bs rs mr x :
  spec (holds_desc d mr0 fs hs bs ((mr, x) :: rs)) (ibv_dereg_mr mr) (fun _ => holds_desc d mr0 fs hs bs rs).
Proof.
  intros m [Hm Hd].
  assert (Hr : owns m fs hs (d :: bs) ((mr, x) :: hdr_reg (d, mr0) :: rs)) by (destruct Hm; split; try done; perm).
  destruct (ibv_dereg_mr_owns _ _ _ _ _ _ m Hr) as (r & m' & E & Hm'). exists r, m'. split; [done|]. split; [done|].
  unfold ibv_dereg_mr in E. case_decide; [|done]. by injection E as _ <-.
Qed.

(** A descriptor that leaves its place. *)
Lemma unused_owns m fs h hs : owns m fs (h :: hs) [] [] -> (forall mr b u w, u_place h <> InChunk mr b u w) ->
  holds_desc (u_desc h) (u_hdr h) fs hs (big_block h) (big_reg h) m.
Proof.
  intros Hm Hpl. destruct Hm. apply Forall_cons in own_used0 as [(t & Ht & Hr & _) Hu]. split; [|by exists t].
  split; try done; [perm|change (hdr_reg (u_desc h, u_hdr h)) with (hdr_reg (use_hdr h)); perm|].
  eapply Forall_impl; [done|]. intros c [Hb (s & Hs & Hp)]. split; [done|]. exists s. split; [done|]. revert Hp. cbn [flat_map].
  unfold held_in at 1. by destruct (u_place h) as [| |mr b u w]; [| |by destruct (Hpl mr b u w)].
Qed.

Lemma in_chunk_owns m fs h hs mr b u w : owns m fs (h :: hs) [] [] -> u_place h = InChunk mr b u w ->
  exists l1 c l2 t, buf_chunk m = l1 ++ c :: l2 /\ chunk_mr c = mr /\ buf c = Some b /\ chunk_mr c ∉ map chunk_mr l1 /\
    chunk_free (tree c) u = Some t /\
    holds_desc (u_desc h) (u_hdr h) fs hs [] [] (m <| buf_chunk := l1 ++ c <| tree := t |> :: l2 |>).
Proof.
  intros Hm Epl. pose proof (owns_chunk_regs _ _ _ _ _ Hm) as Hnd. destruct Hm.
  apply Forall_cons in own_used0 as [(td & Htd & Hr & Hp) Hu]. rewrite Epl in Hp. destruct Hp as (_ & _ & Hin & _).
  apply list_elem_of_fmap in Hin as (c & [= -> Hb] & Hc). apply list_elem_of_split in Hc as (l1 & l2 & El). rewrite El in *.
  cbn [map app] in Hnd. rewrite map_app in Hnd. apply NoDup_app in Hnd as (Hnd & _ & _). cbn [map] in Hnd.
  apply NoDup_app in Hnd as (_ & Hn1 & Hn2). apply NoDup_cons in Hn2 as [Hn2 _].
  apply Forall_app in own_chunks0 as [Hc1 Hc2]. apply Forall_cons in Hc2 as [[_ (s & Hs & Hheld)] Hc2].
  cbn [flat_map] in Hheld. unfold held_in at 1 in Hheld. rewrite Epl, Nat.eqb_refl in Hheld. cbn [app] in Hheld.
  assert (Hblk : (u, w) ∈ map held (blocks 1 top s)) by (rewrite Hheld; apply list_elem_of_here).
  apply list_elem_of_fmap in Hblk as (blk & Eblk & Hblk). destruct (chunk_free_run _ _ _ Hs Hblk) as (t & s' & Et & Hs' & Hperm).
  rewrite <- Eblk in Et. cbn [fst] in Et. exists l1, c, l2, t. do 2 (split; [done|]). split; [by symmetry|].
  assert (Hother : forall c', chunk_holds (h :: hs) c' -> chunk_mr c' <> chunk_mr c -> chunk_holds hs c').
  { intros c' [H1 (s1 & H2 & H3)] Hne. split; [done|]. exists s1. split; [done|]. revert H3. cbn [flat_map]. unfold held_in at 1.
    rewrite Epl. by destruct (Nat.eqb_spec (chunk_mr c) (chunk_mr c')). }
  split; [|split; [done|]].
  { intros Hin. apply (Hn1 _ Hin), list_elem_of_here. }
  split; [|by exists td].
  assert (Eb : big_block h = []) by (unfold big_block; by rewrite Epl). assert (Er : big_reg h = []) by (unfold big_reg; by rewrite Epl).
  cbn [flat_map] in own_live0, own_regs0. rewrite Eb in own_live0. rewrite Er in own_regs0.
  split; try done; cbn [live registered calls descs buf_chunk tx_desc upd].
  - cbn. assert (Hflat : flat_map chunk_blocks (l1 ++ c <| tree := t |> :: l2) = flat_map chunk_blocks (l1 ++ c :: l2)).
    { by rewrite !flat_map_app. }
    rewrite Hflat. perm.
  - cbn. rewrite (chunk_replaced chunk_reg) by done. change (hdr_reg (u_desc h, u_hdr h)) with (hdr_reg (use_hdr h)). perm.
  - cbn. eapply Forall_impl; [exact Hu|]. intros h' (t' & Ht' & Hr' & Hp'). exists t'. do 2 (split; [done|]).
    by rewrite (chunk_replaced (fun c => (chunk_mr c, buf c))).
  - cbn. apply Forall_app. split; [|constructor].
    + rewrite Forall_forall in Hc1 |- *. intros c' Hc'. apply Hother; [by apply Hc1|]. intros E. apply (Hn1 (chunk_mr c')).
      * by apply list_elem_of_fmap_2.
      * rewrite E. apply list_elem_of_here.
    + split; [by exists b|]. exists s'. split; [done|]. apply (Permutation_cons_inv (a := (u, w))). cbn. rewrite <- Hheld, Eblk.
      by rewrite (Permutation_map held Hperm).
    + rewrite Forall_forall in Hc2 |- *. intros c' Hc'. apply Hother; [by apply Hc2|]. intros E. apply Hn2. rewrite <- E.
      by apply list_elem_of_fmap_2.
Qed.

Lemma iser_tx_desc_free_owns h hs :
  spec (fun m => owned m (h :: hs)) (iser_tx_desc_free (u_desc h)) (fun _ m => owned m hs).
Proof.
  intros m [fs Hm]. pose proof (own_used _ _ _ _ _ Hm) as Hu. apply Forall_cons in Hu as [(t & Ht & Hr & Hp) _].
  unfold iser_tx_desc_free. assert (Eg : get_desc (u_desc h) m = Ret (t, m)) by (unfold get_desc; by rewrite Ht). run Eg.
  assert (Hback : forall m', holds_desc (u_desc h) (u_hdr h) fs hs [] [] m' ->
    exists a m2, modify (fun m => m <| tx_desc := u_desc h :: tx_desc m |>) m' = Ret (a, m2) /\ owned m2 hs).
  { intros m' Hm'. destruct (put_back_owns _ _ _ _ _ _ m' Hm') as (a & m2 & E & Hm2). exists a, m2. split; [done|]. by eexists. }
  destruct (u_place h) as [|mr b|mr b u w] eqn:Epl.
  - destruct Hp as [-> _]. run (eq_refl : (mret tt : MM unit) m = Ret (tt, m)). apply Hback.
    pose proof (unused_owns m fs h hs Hm) as Hd. unfold big_block, big_reg in Hd. rewrite Epl in Hd. by apply Hd.
  - destruct Hp as (-> & -> & _). pose proof (unused_owns m fs h hs Hm) as Hd. unfold big_block, big_reg in Hd. rewrite Epl in Hd.
    specialize (Hd ltac:(done)). pose proof (owns_chunk_regs _ _ _ _ _ (proj1 Hd)) as Hnd. cbn [map fst app] in Hnd.
    apply NoDup_cons in Hnd as [_ Hnd]. apply NoDup_cons in Hnd as [Hnd _]. rewrite not_elem_of_app in Hnd.
    revert m Hm Eg Ht Hd Hnd. intros m Hm Eg Ht Hd [Hnd _].
    destruct (holds_dereg _ _ _ _ _ _ _ _ m Hd) as (a1 & m1 & E1 & Hm1).
    destruct (holds_free _ _ _ _ _ _ _ m1 Hm1) as (a2 & m2 & E2 & Hm2).
    assert (E : (chunks ← gets buf_chunk; match free_in_chunks chunks mr (Some b, O) with
      | Undef u => undefined u
      | Ret (Some chunks) => modify (fun m => m <| buf_chunk := chunks |>)
      | Ret None => _ ← ibv_dereg_mr mr; conn_free (Some b, O) end) m = Ret (a2, m2)).
    { run (eq_refl : gets buf_chunk m = _). rewrite free_in_chunks_none by done. by run E1. }
    run E. by apply Hback.
  - destruct Hp as (-> & -> & _). destruct (in_chunk_owns m fs h hs mr b u w Hm Epl) as (l1 & c & l2 & t' & El & <- & Hb & Hn & Et & Hd).
    assert (E : (chunks ← gets buf_chunk; match free_in_chunks chunks (chunk_mr c) (Some b, u) with
      | Undef u => undefined u
      | Ret (Some chunks) => modify (fun m => m <| buf_chunk := chunks |>)
      | Ret None => _ ← ibv_dereg_mr (chunk_mr c); conn_free (Some b, u) end) m =
      Ret (tt, m <| buf_chunk := l1 ++ c <| tree := t' |> :: l2 |>)).
    { run (eq_refl : gets buf_chunk m = _). rewrite El, <- Hb, (free_in_chunks_some _ _ _ _ t') by done. done. }
    run E. by apply Hback.
Qed.

Lemma owned_perm m hs hs' : hs ≡ₚ hs' -> owned m hs -> owned m hs'.
Proof.
  intros Hp [fs Hm]. exists fs. destruct Hm. split; try done.
  - by rewrite <- Hp.
  - by rewrite <- Hp.
  - by rewrite <- Hp.
  - eapply Forall_impl; [exact own_chunks0|]. intros c [Hb (s & Hs & Hh)]. split; [done|]. exists s. split; [done|]. by rewrite <- Hp.
Qed.

Lemma free_pdu_descs_owns pdus : forall hs hs', omap id pdus ≡ₚ map u_desc hs ->
  spec (fun m => owned m (hs ++ hs')) (free_pdu_descs pdus) (fun r m => r = map (fun _ => None) pdus /\ owned m hs').
Proof.
  induction pdus as [|[d|] pdus IH]; intros hs hs' Hp.
  - symmetry in Hp. apply Permutation_nil_r in Hp. apply map_eq_nil in Hp as ->. intros m Hm. by exists [], m.
  - cbn [omap list_omap id] in Hp. apply Permutation_map_inv in Hp as (ks & E & Hk).
    destruct ks as [|k ks]; [done|]. cbn [map] in E. injection E as -> E. cbn [free_pdu_descs].
    eapply spec_bind.
    { eapply spec_pre; [|apply (iser_tx_desc_free_owns k (ks ++ hs'))]. intros m. apply owned_perm. by rewrite Hk. }
    intros ?. eapply spec_bind; [apply (IH ks hs'); by rewrite E|]. intros r m [-> Hm]. by eexists _, _.
  - cbn [free_pdu_descs]. apply (spec_bind _ _ _ (fun _ m => owned m (hs ++ hs'))); [intros m Hm; by exists tt, m|].
    intros _. eapply spec_bind; [by apply (IH hs hs')|]. intros r m [-> Hm]. by eexists _, _.
Qed.

(** *** The end of the connection *)

Lemma conn_free_opt fs hs bs rs b :
  spec (fun m => owns m fs hs (option_list b ++ bs) rs) (conn_free (b, O)) (fun _ m => owns m fs hs bs rs).
Proof. destruct b as [b|]; [apply conn_free_owns|apply conn_free_null]. Qed.

(** [owns] when the lists of [m] are taken to be [fs] and [cs]: what remains while the
    code walks them. *)
Definition relist (fs : list (nat * nat)) (cs : list iser_buf_chunk) (m : iser_mem) : iser_mem :=
  m <| tx_desc := map fst fs |> <| buf_chunk := cs |>.
Definition remains (fs : list (nat * nat)) (cs : list iser_buf_chunk) (bs : list nat)
    (rs : list (nat * (option nat * Z))) (m : iser_mem) : Prop := owns (relist fs cs m) fs [] bs rs.

Lemma spec_relist {A} fs cs (P Q : iser_mem -> Prop) (x : MM A) :
  (forall m, x (relist fs cs m) = match x m with Ret (a, m') => Ret (a, relist fs cs m') | Undef u => Undef u end) ->
  spec P x (fun _ => Q) -> spec (fun m => P (relist fs cs m)) x (fun _ m => Q (relist fs cs m)).
Proof.
  intros Hx Hs m Hm. destruct (Hs _ Hm) as (a & m' & E & Hq). rewrite Hx in E. destruct (x m) as [[a' m1]|]; [|done].
  injection E as <- <-. by exists a', m1.
Qed.

Lemma remains_dereg fs cs bs rs mr x : spec (remains fs cs bs ((mr, x) :: rs)) (ibv_dereg_mr mr) (fun _ => remains fs cs bs rs).
Proof.
  apply (spec_relist fs cs (fun m => owns m fs [] bs ((mr, x) :: rs)) (fun m => owns m fs [] bs rs)); [|apply ibv_dereg_mr_owns].
  intros m. unfold ibv_dereg_mr. cbn. by case_decide.
Qed.

Lemma remains_free fs cs bs rs b : spec (remains fs cs (option_list b ++ bs) rs) (conn_free (b, O)) (fun _ => remains fs cs bs rs).
Proof.
  apply (spec_relist fs cs (fun m => owns m fs [] (option_list b ++ bs) rs) (fun m => owns m fs [] bs rs)); [|apply conn_free_opt].
  intros m. destruct b as [b|]; [|done]. unfold conn_free. cbn. by case_decide.
Qed.

Lemma free_descs_remains fs cs : spec (remains fs cs [] []) (free_descs (map fst fs)) (fun _ => remains [] cs [] []).
Proof.
  induction fs as [|[d mr] fs IH]; [intros m Hm; by exists tt, m|]. intros m Hm. cbn [map fst free_descs].
  assert (Hd : remains fs cs [d] [hdr_reg (d, mr)] m).
  { destruct Hm. apply Forall_cons in own_free0 as [_ Hf]. split; try done; cbn in *; perm. }
  pose proof (own_free _ _ _ _ _ Hm) as Hf. apply Forall_cons in Hf as [(t & Ht & Hr) _]. cbn in Ht, Hr.
  assert (Eg : get_desc d m = Ret (t, m)) by (unfold get_desc; by rewrite Ht). run Eg. rewrite Hr.
  destruct (remains_dereg _ _ _ _ _ _ m Hd) as (a & m1 & E & Hm1). run E.
  destruct (remains_free fs cs [] [] (Some d) m1 Hm1) as (a2 & m2 & E2 & Hm2). run E2. by apply IH.
Qed.

Lemma free_chunks_remains cs : spec (remains [] cs [] []) (free_chunks cs) (fun _ => remains [] [] [] []).
Proof.
  induction cs as [|c cs IH]; [intros m Hm; by exists tt, m|]. intros m Hm. cbn [free_chunks].
  assert (Hd : remains [] cs (option_list (buf c) ++ [chunk_block c]) [chunk_reg c] m).
  { destruct Hm. apply Forall_cons in own_chunks0 as [_ Hc]. split; try done; cbn in *; unfold chunk_blocks in *; perm. }
  destruct (remains_dereg _ _ _ _ _ _ m Hd) as (a & m1 & E & Hm1). run E.
  destruct (remains_free _ _ _ _ _ m1 Hm1) as (a2 & m2 & E2 & Hm2). run E2.
  destruct (remains_free [] cs [] [] (Some (chunk_block c)) m2 Hm2) as (a3 & m3 & E3 & Hm3). run E3. by apply IH.
Qed.

Lemma free_descs_chunks l : forall m a m', free_descs l m = Ret (a, m') -> buf_chunk m' = buf_chunk m.
Proof.
  induction l as [|d l IH]; intros m a m' E; [by injection E as _ <-|]. cbn [free_descs] in E. unfold mbind, M_bind, get_desc in E.
  destruct (descs m !! d) as [t|]; [|done]. unfold ibv_dereg_mr at 1 in E. case_decide; [|done].
  unfold conn_free at 1 in E. case_decide; [|done]. by rewrite (IH _ _ _ E).
Qed.

Lemma iser_free_reg_mr_owns : spec (fun m => owned m []) iser_free_reg_mr (fun _ m => live m = [] /\ registered m = []).
Proof.
  intros m [fs Hm]. unfold iser_free_reg_mr. run (eq_refl : gets tx_desc m = _). rewrite (own_list _ _ _ _ _ Hm).
  assert (Hr : remains fs (buf_chunk m) [] [] m) by (unfold remains, relist; rewrite <- (own_list _ _ _ _ _ Hm); by destruct m).
  destruct (free_descs_remains _ _ m Hr) as (a & m1 & E & Hm1). run E.
  pose proof (free_descs_chunks _ _ _ _ E) as Ec.
  set (m1' := m1 <| tx_desc := [] |>). change (remains [] (buf_chunk m) [] [] m1') in Hm1. change (buf_chunk m1') with (buf_chunk m1) in Ec.
  run (eq_refl : modify (fun m => m <| tx_desc := [] |>) m1 = Ret (tt, m1')). run (eq_refl : gets buf_chunk m1' = Ret (buf_chunk m1, m1')).
  rewrite Ec. destruct (free_chunks_remains (buf_chunk m) m1' Hm1) as (a2 & m2 & E2 & Hm2). run E2.
  eexists tt, _. split; [done|]. destruct Hm2. cbn in own_live0, own_regs0.
  apply Permutation_nil_r in own_live0, own_regs0. done.
Qed.

(** ** The states of a connection *)

(** The memory, and the descriptors that PDUs hold with the sizes they asked for. *)
Inductive conn_state : iser_mem -> list (nat * Z) -> Prop :=
| conn_new : conn_state mem_init []
| conn_alloc m uses size r m' : conn_state m uses -> 0 <= size -> iser_tx_desc_alloc size m = Ret (r, m') ->
    conn_state m' (match r with Some d => (d, size) :: uses | None => uses end)
| conn_release m uses d size uses' m' : conn_state m uses -> uses ≡ₚ (d, size) :: uses' ->
    iser_tx_desc_free d m = Ret (tt, m') -> conn_state m' uses'.

Definition use_of (h : use) : nat * Z := (u_desc h, u_size h).

Lemma conn_state_owned `{!VerbsLaws} m uses : conn_state m uses -> exists hs, owned m hs /\ map use_of hs ≡ₚ uses.
Proof.
  induction 1 as [|m uses size r m' _ (hs & Hm & Hp) Hsize E|m uses d size uses' m' _ (hs & Hm & Hp) Hu E].
  - exists []. split; [|done]. exists []. by split; try constructor.
  - destruct (iser_tx_desc_alloc_owns size hs Hsize m Hm) as (r' & m1 & E' & Hpost). rewrite E in E'. injection E' as <- <-.
    destruct r as [d|]; [|by exists hs]. destruct Hpost as (h & <- & <- & Hm'). exists (h :: hs). split; [done|]. cbn [map]. by rewrite Hp.
  - rewrite Hu in Hp. symmetry in Hp. apply Permutation_map_inv in Hp as (ks & Ek & Hk). destruct ks as [|k ks]; [done|].
    cbn [map] in Ek. injection Ek as -> -> ->. apply (owned_perm _ _ _ Hk) in Hm.
    destruct (iser_tx_desc_free_owns k ks m Hm) as (a & m1 & E' & Hm'). rewrite E in E'. injection E' as _ <-. by exists ks.
Qed.

(** Where the buffers are. *)
Definition apart (a1 : address) (size1 : Z) (a2 : address) (size2 : Z) : Prop :=
  a1.1 <> a2.1 \/ Z.of_nat a1.2 * DATA_BUFFER_UNIT_SIZE + size1 <= Z.of_nat a2.2 * DATA_BUFFER_UNIT_SIZE \/
  Z.of_nat a2.2 * DATA_BUFFER_UNIT_SIZE + size2 <= Z.of_nat a1.2 * DATA_BUFFER_UNIT_SIZE.

Definition in_region (m : iser_mem) (t : iser_tx_desc) (size : Z) : Prop :=
  exists mr b len, data_mr t = Some mr /\ (data_buff t).1 = Some b /\ b ∈ live m /\ (mr, (Some b, len)) ∈ registered m /\
    Z.of_nat (data_buff t).2 * DATA_BUFFER_UNIT_SIZE + size <= len.

Lemma nodup_flat_map {A B} (f : A -> list B) l c1 c2 x : NoDup (flat_map f l) -> c1 ∈ l -> c2 ∈ l -> x ∈ f c1 -> x ∈ f c2 -> c1 = c2.
Proof.
  assert (Hin : forall l c, c ∈ l -> x ∈ f c -> x ∈ flat_map f l).
  { intros k c Hc Hx. apply list_elem_of_In, in_flat_map. exists c. by split; apply list_elem_of_In. }
  induction l as [|c l IH]; [by intros _ ?%elem_of_nil|]. cbn [flat_map]. intros (_ & Hd & Hnd)%NoDup_app Hc1 Hc2 Hx1 Hx2.
  apply elem_of_cons in Hc1, Hc2. destruct Hc1 as [->|Hc1], Hc2 as [->|Hc2]; [done| | |by apply IH].
  - destruct (Hd x Hx1). by apply (Hin l c2).
  - destruct (Hd x Hx2). by apply (Hin l c1).
Qed.

Lemma owns_block_span m fs h hs mr b u w : owns m fs (h :: hs) [] [] -> u_place h = InChunk mr b u w ->
  exists c, c ∈ buf_chunk m /\ chunk_mr c = mr /\ buf c = Some b /\ chunk_holds (h :: hs) c /\
    u_size h <= Z.of_nat (2 ^ (w - 1)) * DATA_BUFFER_UNIT_SIZE /\ (u + 2 ^ (w - 1) <= DATA_BUFFER_CHUNK_UNITS)%nat.
Proof.
  intros Hm Epl. destruct Hm. apply Forall_cons in own_used0 as [(t & _ & _ & Hp) _]. rewrite Epl in Hp.
  destruct Hp as (_ & _ & Hin & -> & Hsize). apply list_elem_of_fmap in Hin as (c & [= -> Hb] & Hc).
  rewrite Forall_forall in own_chunks0. pose proof (own_chunks0 c Hc) as Hch. exists c. do 2 (split; [done|]). split; [by symmetry|].
  split; [done|]. destruct (want_of_smallest (u_size h) Hsize) as (_ & Hs & _). split; [done|].
  destruct Hch as [_ (s & Hok & Hp)]. cbn [flat_map] in Hp. unfold held_in at 1 in Hp. rewrite Epl, Nat.eqb_refl in Hp. cbn [app] in Hp.
  assert (Hblk : (u, want_of (u_size h)) ∈ map held (blocks 1 top s)) by (rewrite Hp; apply list_elem_of_here).
  apply list_elem_of_fmap in Hblk as (blk & [= -> ->] & Hblk). destruct (block_span _ _ _ Hok Hblk) as (_ & H1 & H2).
  change (2 ^ (blk.2 - 1))%nat with (units blk). change (2 ^ top)%nat with (DATA_BUFFER_CHUNK_UNITS + DATA_BUFFER_CHUNK_UNITS)%nat in H2. lia.
Qed.

Lemma use_in_region m fs h hs : owns m fs (h :: hs) [] [] -> 0 < u_size h ->
  exists t, descs m !! u_desc h = Some t /\ in_region m t (u_size h).
Proof.
  intros Hm Hpos. pose proof (own_used _ _ _ _ _ Hm) as Hu. apply Forall_cons in Hu as [(t & Ht & _ & Hp) _].
  exists t. split; [done|]. destruct (u_place h) as [|mr b|mr b u w] eqn:Epl.
  - lia.
  - destruct Hp as (E1 & E2 & _). exists mr, b, (u_size h). rewrite E2. destruct Hm. rewrite own_live0, own_regs0.
    cbn [flat_map]. unfold big_block at 1, big_reg at 1. rewrite Epl, !elem_of_app, !elem_of_cons. cbn. naive_solver lia.
  - destruct Hp as (E1 & E2 & _). destruct (owns_block_span _ _ _ _ _ _ _ _ Hm Epl) as (c & Hc & <- & Hb & _ & H1 & H2).
    exists (chunk_mr c), b, DATA_BUFFER_CHUNK_SIZE. rewrite E2. destruct Hm. rewrite own_live0, own_regs0, !elem_of_app. cbn [fst snd].
    do 2 (split; [done|]). split; [|split].
    + do 3 right. left. apply list_elem_of_In, in_flat_map. exists c. split; [by apply list_elem_of_In|]. unfold chunk_blocks. rewrite Hb. by right; left.
    + do 3 right. left. apply list_elem_of_fmap. exists c. unfold chunk_reg. by rewrite Hb.
    + change DATA_BUFFER_CHUNK_SIZE with 4194304. change DATA_BUFFER_CHUNK_UNITS with 1024%nat in H2. unfold DATA_BUFFER_UNIT_SIZE in *. lia.
Qed.

(** The block of a descriptor's data belongs to its region. *)
Definition data_block (h : use) : option nat :=
  match u_place h with Nowhere => None | Big _ b => Some b | InChunk _ b _ _ => Some b end.

Lemma chunk_of_block m fs hs bs rs c1 c2 b : owns m fs hs bs rs -> c1 ∈ buf_chunk m -> c2 ∈ buf_chunk m ->
  buf c1 = Some b -> buf c2 = Some b -> c1 = c2.
Proof.
  intros Hm H1 H2 E1 E2. destruct Hm. rewrite own_live0 in own_nodup0.
  do 3 (apply NoDup_app in own_nodup0 as (_ & _ & own_nodup0)). apply NoDup_app in own_nodup0 as (Hnd & _ & _).
  apply (nodup_flat_map _ _ _ _ b Hnd H1 H2); unfold chunk_blocks; [rewrite E1|rewrite E2]; by right; left.
Qed.

(** A block of its own is no chunk, and no other descriptor has it. *)
Lemma big_block_alone m fs h1 h2 hs mr b : owns m fs (h1 :: h2 :: hs) [] [] -> u_place h1 = Big mr b -> data_block h2 <> Some b.
Proof.
  intros Hm E1. pose proof (own_used _ _ _ _ _ Hm) as Hu. apply Forall_cons in Hu as [_ Hu]. apply Forall_cons in Hu as [(t & _ & _ & Hp) _].
  destruct Hm. rewrite own_live0 in own_nodup0. do 3 (apply NoDup_app in own_nodup0 as (_ & _ & own_nodup0)).
  apply NoDup_app in own_nodup0 as (_ & Hd & Hnd). cbn [flat_map] in Hd, Hnd. unfold big_block at 1 in Hd. unfold big_block at 1 in Hnd. rewrite E1 in Hd, Hnd.
  unfold data_block. destruct (u_place h2) as [|mr2 b2|mr2 b2 u w] eqn:E2; [done|..]; intros [= ->].
  - cbn [app] in Hnd. apply NoDup_cons in Hnd as [Hnd _]. apply Hnd. unfold big_block at 1. rewrite E2. apply list_elem_of_here.
  - destruct Hp as (_ & _ & Hin & _). apply list_elem_of_fmap in Hin as (c & [= _ Hb] & Hc). apply (Hd b); [|apply list_elem_of_here].
    apply list_elem_of_In, in_flat_map. exists c. split; [by apply list_elem_of_In|]. unfold chunk_blocks. rewrite <- Hb. by right; left.
Qed.

Lemma owns_swap m fs h1 h2 hs : owns m fs (h1 :: h2 :: hs) [] [] -> owned m (h2 :: h1 :: hs).
Proof. intros Hm. apply (owned_perm _ (h1 :: h2 :: hs)); [constructor|by exists fs]. Qed.

Lemma same_chunk_apart m fs h1 h2 hs mr1 mr2 b u1 u2 w1 w2 : owns m fs (h1 :: h2 :: hs) [] [] ->
  u_place h1 = InChunk mr1 b u1 w1 -> u_place h2 = InChunk mr2 b u2 w2 ->
  (u1 + 2 ^ (w1 - 1) <= u2 \/ u2 + 2 ^ (w2 - 1) <= u1)%nat.
Proof.
  intros Hm E1 E2. destruct (owns_block_span _ _ _ _ _ _ _ _ Hm E1) as (c & Hc & Em1 & Hb & [_ (s & Hs & Hp)] & _ & _).
  destruct (owns_swap _ _ _ _ _ Hm) as [fs' Hm'].
  destruct (owns_block_span _ _ _ _ _ _ _ _ Hm' E2) as (c2 & Hc2 & Em2 & Hb2 & _ & _ & _).
  pose proof (chunk_of_block _ _ _ _ _ _ _ _ Hm Hc Hc2 Hb Hb2) as <-. cbn [flat_map] in Hp. unfold held_in at 1 2 in Hp.
  rewrite E1, E2, Em1, Nat.eqb_refl in Hp. rewrite <- Em2, Em1, Nat.eqb_refl in Hp. cbn [app] in Hp.
  pose proof (count_held (tree c) s (Nat.max u1 u2) Hs) as Hcount. rewrite Hp, !filter_cons in Hcount.
  pose proof (Nat.pow_nonzero 2 (w1 - 1) ltac:(lia)). pose proof (Nat.pow_nonzero 2 (w2 - 1) ltac:(lia)).
  repeat case_decide; unfold in_block in *; cbn [fst snd length] in *; lia.
Qed.

Lemma uses_apart m fs h1 h2 hs t1 t2 : owns m fs (h1 :: h2 :: hs) [] [] -> 0 < u_size h1 -> 0 < u_size h2 ->
  descs m !! u_desc h1 = Some t1 -> descs m !! u_desc h2 = Some t2 ->
  apart (data_buff t1) (u_size h1) (data_buff t2) (u_size h2).
Proof.
  intros Hm Hs1 Hs2 Ht1 Ht2. pose proof (own_used _ _ _ _ _ Hm) as Hu. apply Forall_cons in Hu as [(t1' & Ht1' & _ & Hp1) Hu].
  apply Forall_cons in Hu as [(t2' & Ht2' & _ & Hp2) _]. rewrite Ht1 in Ht1'. rewrite Ht2 in Ht2'. injection Ht1' as <-. injection Ht2' as <-.
  destruct (owns_swap _ _ _ _ _ Hm) as [fs' Hm'].
  destruct (u_place h1) as [|mr1 b1|mr1 b1 u1 w1] eqn:E1; [lia| |].
  { left. destruct Hp1 as (_ & -> & _). pose proof (big_block_alone _ _ _ _ _ _ _ Hm E1) as Hb. unfold data_block in Hb.
    destruct (u_place h2); [lia|destruct Hp2 as (_ & -> & _); cbn; congruence|destruct Hp2 as (_ & -> & _); cbn; congruence]. }
  destruct (u_place h2) as [|mr2 b2|mr2 b2 u2 w2] eqn:E2; [lia| |].
  { left. destruct Hp2 as (_ & -> & _), Hp1 as (_ & -> & _). pose proof (big_block_alone _ _ _ _ _ _ _ Hm' E2) as Hb.
    unfold data_block in Hb. rewrite E1 in Hb. cbn. congruence. }
  destruct Hp1 as (_ & -> & _), Hp2 as (_ & -> & _). unfold apart. cbn [fst snd].
  destruct (decide (b1 = b2)) as [<-|Hne]; [right|left; congruence].
  destruct (owns_block_span _ _ _ _ _ _ _ _ Hm E1) as (_ & _ & _ & _ & _ & Hl1 & _).
  destruct (owns_block_span _ _ _ _ _ _ _ _ Hm' E2) as (_ & _ & _ & _ & _ & Hl2 & _).
  unfold DATA_BUFFER_UNIT_SIZE in *. destruct (same_chunk_apart _ _ _ _ _ _ _ _ _ _ _ _ Hm E1 E2); [left|right]; lia.
Qed.

(** C34: The data buffers of an iSER connection never overlap: whatever descriptors are
    allocated and freed, in any order and with any failures of malloc and ibv_reg_mr, a
    descriptor in use that asked for data has a buffer of that size inside a block that
    is live and in the region its data_mr registers; two descriptors in use are not the
    same, nor do their buffers share a byte; the next allocation returns, whatever fails
    in it, and so does the release of each of them. *)
Theorem tx_buffers_apart `{!VerbsLaws} m uses (Hreach : conn_state m uses) :
  (forall d size, (d, size) ∈ uses -> 0 < size -> exists t, descs m !! d = Some t /\ in_region m t size) /\
  (forall d1 size1 d2 size2 rest t1 t2, uses ≡ₚ (d1, size1) :: (d2, size2) :: rest -> 0 < size1 -> 0 < size2 ->
     descs m !! d1 = Some t1 -> descs m !! d2 = Some t2 -> d1 <> d2 /\ apart (data_buff t1) size1 (data_buff t2) size2) /\
  (forall size, 0 <= size -> exists r m', iser_tx_desc_alloc size m = Ret (r, m')) /\
  (forall d size, (d, size) ∈ uses -> exists m', iser_tx_desc_free d m = Ret (tt, m')).
Proof.
  destruct (conn_state_owned m uses Hreach) as (hs & Hm & Hp).
  assert (Hpick : forall d size, (d, size) ∈ uses -> exists h ks, use_of h = (d, size) /\ owned m (h :: ks)).
  { intros d size Hin. rewrite <- Hp in Hin. apply list_elem_of_fmap in Hin as (h & -> & Hh).
    apply list_elem_of_split in Hh as (l1 & l2 & ->). exists h, (l1 ++ l2). split; [done|].
    apply (owned_perm _ _ _ (Permutation_sym (Permutation_middle l1 l2 h)) Hm). }
  split_and!.
  - intros d size Hin Hpos. destruct (Hpick d size Hin) as (h & ks & [= <- <-] & [fs Hh]). by apply (use_in_region m fs h ks).
  - intros d1 size1 d2 size2 rest t1 t2 E Hp1 Hp2 Ht1 Ht2. rewrite E in Hp. symmetry in Hp.
    apply Permutation_map_inv in Hp as (ks & Ek & Hk). destruct ks as [|h1 [|h2 ks]]; [done..|]. cbn [map] in Ek.
    injection Ek as -> -> -> -> ->. destruct (owned_perm _ _ _ Hk Hm) as [fs Hm'].
    split; [|by apply (uses_apart m fs h1 h2 ks)]. destruct Hm'. rewrite own_live0 in own_nodup0. do 2 (apply NoDup_app in own_nodup0 as (_ & _ & own_nodup0)).
    apply NoDup_app in own_nodup0 as (Hnd & _ & _). cbn [map] in Hnd. apply NoDup_cons in Hnd as [Hnd _].
    intros E'. apply Hnd. rewrite E'. apply list_elem_of_here.
  - intros size Hsize. destruct (iser_tx_desc_alloc_owns size hs Hsize m Hm) as (r & m' & E & _). by exists r, m'.
  - intros d size Hin. destruct (Hpick d size Hin) as (h & ks & [= <- <-] & Hh).
    destruct (iser_tx_desc_free_owns h ks m Hh) as ([] & m' & E & _). by exists m'.
Qed.

(** C36: The end of a connection gives everything back: when the PDUs of the two queues
    hold the descriptors that are in use, iser_conn_release takes them from the PDUs and
    frees every block and deregisters every region that the connection has - the
    descriptors, their buffers, the chunks - each of them exactly once. *)
Theorem conn_memory_returned `{!VerbsLaws} m uses waitpdu outqueue
  (Hreach : conn_state m uses) (Hpdus : omap id (waitpdu ++ outqueue) ≡ₚ map fst uses) :
  exists m', conn_memory_release waitpdu outqueue m =
    Ret ((map (fun _ => None) waitpdu, map (fun _ => None) outqueue), m') /\
  live m' = [] /\ registered m' = [].
Proof.
  destruct (conn_state_owned m uses Hreach) as (hs & Hm & Hp).
  assert (Hd : omap id waitpdu ++ omap id outqueue ≡ₚ map u_desc hs).
  { rewrite <- omap_app, Hpdus, <- Hp, map_map. done. }
  symmetry in Hd. symmetry in Hd. apply Permutation_map_inv in Hd as (ks & Ek & Hk).
  symmetry in Ek. apply map_eq_app in Ek as (k1 & k2 & -> & E1 & E2). apply (owned_perm _ _ _ Hk) in Hm.
  destruct (free_pdu_descs_owns waitpdu k1 k2 ltac:(by rewrite E1) m Hm) as (r1 & m1 & R1 & -> & Hm1).
  rewrite <- (app_nil_r k2) in Hm1.
  destruct (free_pdu_descs_owns outqueue k2 [] ltac:(by rewrite E2) m1 Hm1) as (r2 & m2 & R2 & -> & Hm2).
  destruct (iser_free_reg_mr_owns m2 Hm2) as ([] & m3 & R3 & Hl & Hr). exists m3. split; [|done].
  assert (R : iser_free_queued_pdu_tx_desc waitpdu outqueue m =
    Ret ((map (fun _ => None) waitpdu, map (fun _ => None) outqueue), m2)).
  { unfold iser_free_queued_pdu_tx_desc. run R1. by run R2. }
  unfold conn_memory_release. run R. by run R3.
Qed.

End Specs.

(** *** Witnesses *)

(** Every call succeeds; a write of 6000 bytes, a task without data, and one of 5 MB. *)
#[local] Instance sample_verbs : Verbs := {| malloc_ok := fun _ => true; reg_mr_ok := fun _ b _ => bool_decide (is_Some b) |}.
#[local] Instance sample_laws : VerbsLaws.
Proof. by split. Qed.

Definition after (x : MM (option nat)) (m : iser_mem) : iser_mem := match x m with Ret (_, m') => m' | Undef _ => m end.
Definition sample_mem_1 : iser_mem := after (iser_tx_desc_alloc 6000) mem_init.
Definition sample_mem_2 : iser_mem := after (iser_tx_desc_alloc 0) sample_mem_1.
Definition sample_mem_3 : iser_mem := after (iser_tx_desc_alloc 5000000) sample_mem_2.
Definition sample_mem_4 : iser_mem := after (iser_tx_desc_alloc 100) sample_mem_3.

Definition sample_uses : list (nat * Z) := [(11%nat, 100); (7%nat, 5000000); (5%nat, 0); (0%nat, 6000)].

Lemma sample_conn : conn_state sample_mem_4 sample_uses.
Proof.
  apply (conn_alloc sample_mem_3 [(7%nat, 5000000); (5%nat, 0); (0%nat, 6000)] 100 (Some 11%nat)); [|lia|vm_compute; reflexivity].
  apply (conn_alloc sample_mem_2 [(5%nat, 0); (0%nat, 6000)] 5000000 (Some 7%nat)); [|lia|vm_compute; reflexivity].
  apply (conn_alloc sample_mem_1 [(0%nat, 6000)] 0 (Some 5%nat)); [|lia|vm_compute; reflexivity].
  apply (conn_alloc mem_init [] 6000 (Some 0%nat)); [constructor|lia|vm_compute; reflexivity].
Qed.

Lemma tx_buffers_apart_witness :
  (exists t, descs sample_mem_4 !! 11%nat = Some t /\ in_region sample_mem_4 t 100) /\
  (exists m', iser_tx_desc_free 0 sample_mem_4 = Ret (tt, m')).
Proof.
  destruct (tx_buffers_apart sample_mem_4 sample_uses sample_conn) as (H1 & _ & _ & H4). split.
  - apply (H1 11%nat 100); [apply list_elem_of_here|lia].
  - apply (H4 0%nat 6000). do 3 right. apply list_elem_of_here.
Defined.

Lemma conn_memory_returned_witness :
  exists m', conn_memory_release [Some 5%nat; Some 11%nat] [None; Some 0%nat; Some 7%nat] sample_mem_4 =
    Ret (([None; None], [None; None; None]), m') /\ live m' = [] /\ registered m' = [].
Proof.
  apply (conn_memory_returned sample_mem_4 sample_uses [Some 5%nat; Some 11%nat] [None; Some 0%nat; Some 7%nat] sample_conn).
  apply (bool_decide_unpack _). vm_compute. exact I.
Defined.
