(* ===== verification/Task.v ===== *)
(** SCSI tasks: struct scsi_task and its parts
    (src/include/scsi-lowlevel.h), their allocation and the io vectors a
    caller attaches to them (src/lib/scsi-lowlevel.c).

    A task is a value; the stateful components keep tasks in a store under
    names.  [malloc] appears as a boolean argument that says whether the
    allocation of that call succeeds. *)

From S2P Require Import Prelude.

(** ** Data *)

Record scsi_sense := {
  error_type : Z;
  key : Z;
  ascq : Z;
  sense_specific : Z;
  ill_param_in_cdb : Z;
  bit_pointer_valid : Z;
  info_valid : Z;
  bit_pointer : Z;
  field_pointer : Z;
  information : Z
}.

#[export] Instance eta_scsi_sense : Eta scsi_sense := fun s =>
  Build_scsi_sense (error_type s) (key s) (ascq s) (sense_specific s)
    (ill_param_in_cdb s) (bit_pointer_valid s) (info_valid s) (bit_pointer s)
    (field_pointer s) (information s).

(** [iov_base] is an address, [iov_len] a [size_t]. *)
Record scsi_iovec := { iov_base : Z; iov_len : Z }.

#[export] Instance eta_scsi_iovec : Eta scsi_iovec := fun v =>
  Build_scsi_iovec (iov_base v) (iov_len v).

(** [iov] is the array pointed to ([None] for NULL); its length is the number
    of elements the array really has. *)
Record scsi_iovector := {
  iov : option (list scsi_iovec);
  niov : Z;
  nalloc : Z;
  offset : Z;
  consumed : Z
}.

#[export] Instance eta_scsi_iovector : Eta scsi_iovector := fun v =>
  Build_scsi_iovector (iov v) (niov v) (nalloc v) (offset v) (consumed v).

(** [datain] is the received data (its length is [datain.size]); [mem] the
    sizes of the blocks on the task's memory list, the last allocated first. *)
Record scsi_task := {
  status : Z;
  cdb_size : Z;
  xfer_dir : Z;
  expxferlen : Z;
  cdb : bytes;
  residual_status : Z;
  residual : Z;
  sense : scsi_sense;
  datain : bytes;
  mem : list Z;
  task_ptr : option nat;
  task_itt : Z;
  task_cmdsn : Z;
  task_lun : Z;
  iovector_in : scsi_iovector;
  iovector_out : scsi_iovector
}.

#[export] Instance eta_scsi_task : Eta scsi_task := fun t =>
  Build_scsi_task (status t) (cdb_size t) (xfer_dir t) (expxferlen t) (cdb t)
    (residual_status t) (residual t) (sense t) (datain t) (mem t) (task_ptr t)
    (task_itt t) (task_cmdsn t) (task_lun t) (iovector_in t) (iovector_out t).

(** enum scsi_xfer_dir *)
Definition SCSI_XFER_NONE : Z := 0.
Definition SCSI_XFER_READ : Z := 1.
Definition SCSI_XFER_WRITE : Z := 2.

(** enum scsi_residual *)
Definition SCSI_RESIDUAL_NO_RESIDUAL : Z := 0.
Definition SCSI_RESIDUAL_UNDERFLOW : Z := 1.
Definition SCSI_RESIDUAL_OVERFLOW : Z := 2.

Definition SCSI_CDB_MAX_SIZE : nat := 16.

(** ** Operations *)

Definition zero_sense : scsi_sense := Build_scsi_sense 0 0 0 0 0 0 0 0 0 0.
Definition zero_iovector : scsi_iovector := Build_scsi_iovector None 0 0 0 0.

(** [memset(task, 0, sizeof(struct scsi_task))] of a fresh task. *)
Definition new_task : scsi_task :=
  Build_scsi_task 0 0 0 0 (zeros SCSI_CDB_MAX_SIZE) 0 0 zero_sense [] [] None 0 0 0
    zero_iovector zero_iovector.

Definition scsi_malloc (malloc_ok : bool) (size : Z) (task : scsi_task) : option scsi_task :=
  if malloc_ok then Some (task <| mem ::= cons size |>) else None.

(** [memcpy(&task->cdb[0], cdb, cdb_size)] writes past the array when the
    caller's CDB is longer than 16 bytes. *)
Definition scsi_create_task (malloc_ok : bool) (cdb_size : Z) (buf : bytes)
  (xfer_dir expxferlen : Z) : res (option scsi_task) :=
  if negb malloc_ok then mret None else
  if (Z.of_nat SCSI_CDB_MAX_SIZE <? cdb_size) || (cdb_size <? 0)
     || (Z.of_nat (length buf) <? cdb_size)
  then Undef OutOfBounds
  else mret (Some (new_task
         <| cdb ::= fun c => blit c 0 (take (Z.to_nat cdb_size) buf) |>
         <| Task.cdb_size := cdb_size |>
         <| Task.xfer_dir := xfer_dir |>
         <| Task.expxferlen := expxferlen |>)).

Definition scsi_set_task_private_ptr (task : scsi_task) (ptr : option nat) : scsi_task :=
  task <| task_ptr := ptr |>.

Definition scsi_get_task_private_ptr (task : scsi_task) : option nat := task_ptr task.

Definition scsi_task_set_iov_out (task : scsi_task) (v : list scsi_iovec) (n : Z) : scsi_task :=
  task <| iovector_out ::= fun iv => iv <| iov := Some v |> <| niov := n |> |>.

Definition scsi_task_set_iov_in (task : scsi_task) (v : list scsi_iovec) (n : Z) : scsi_task :=
  task <| iovector_in ::= fun iv => iv <| iov := Some v |> <| niov := n |> |>.

Definition scsi_task_reset_iov (iv : scsi_iovector) : scsi_iovector :=
  iv <| offset := 0 |> <| consumed := 0 |>.

Definition scsi_task_get_status (task : scsi_task) : Z * scsi_sense :=
  (status task, sense task).

Definition IOVECTOR_INITAL_ALLOC : Z := 16.

Definition zero_iovec : scsi_iovec := Build_scsi_iovec 0 0.

Definition sizeof_iovec : Z := 16.

(** One allocation for the first element, one when the array is full: [ok1]
    and [ok2] are their outcomes.  The result is the [int] returned, the
    vector and the task whose memory list the new array is on. *)
Definition scsi_iovector_add (ok1 ok2 : bool) (task : scsi_task) (iv : scsi_iovector)
  (len buf : Z) : res (Z * scsi_iovector * scsi_task) :=
  if len <? 0 then mret (-1, iv, task) else
  let first :=
    match iov iv with
    | Some _ => Some (iv, task)
    | None =>
        task ← scsi_malloc ok1 (IOVECTOR_INITAL_ALLOC * sizeof_iovec) task;
        Some (iv <| iov := Some (replicate (Z.to_nat IOVECTOR_INITAL_ALLOC) zero_iovec) |>
                 <| nalloc := IOVECTOR_INITAL_ALLOC |>, task)
    end in
  match first with
  | None => mret (-1, iv, task)
  | Some (iv, task) =>
      let old_iov := default [] (iov iv) in
      let grown :=
        if nalloc iv <? niov iv + 1 then
          match scsi_malloc ok2 (2 * nalloc iv * sizeof_iovec) task with
          | None => mret None
          | Some task =>
              if (2 * nalloc iv <? niov iv) || (Z.of_nat (length old_iov) <? niov iv)
              then Undef OutOfBounds
              else
                let copied := take (Z.to_nat (niov iv)) old_iov in
                let room := replicate (Z.to_nat (2 * nalloc iv - niov iv)) zero_iovec in
                mret (Some (iv <| iov := Some (copied ++ room) |>
                               <| nalloc := i32 (nalloc iv << 1) |>, task))
          end
        else mret (Some (iv, task)) in
      g ← grown;
      match g with
      | None => mret (-1, iv <| iov := None |>, task)
      | Some (iv, task) =>
          let arr := default [] (iov iv) in
          if (0 <=? niov iv) && (niov iv <? Z.of_nat (length arr)) then
            mret (0, iv <| iov := Some (<[Z.to_nat (niov iv) := Build_scsi_iovec buf len]> arr) |>
                        <| niov := niov iv + 1 |>, task)
          else Undef OutOfBounds
      end
  end.

Definition scsi_task_add_data_in_buffer (ok1 ok2 : bool) (task : scsi_task) (len buf : Z)
  : res (Z * scsi_task) :=
  '(rc, iv, task) ← scsi_iovector_add ok1 ok2 task (iovector_in task) len buf;
  mret (rc, task <| iovector_in := iv |>).

Definition scsi_task_add_data_out_buffer (ok1 ok2 : bool) (task : scsi_task) (len buf : Z)
  : res (Z * scsi_task) :=
  '(rc, iv, task) ← scsi_iovector_add ok1 ok2 task (iovector_out task) len buf;
  mret (rc, task <| iovector_out := iv |>).

(** ** Invariant of a vector grown by [scsi_iovector_add] *)

(** The elements added so far. *)
Definition iov_elems (iv : scsi_iovector) : list scsi_iovec :=
  take (Z.to_nat (niov iv)) (default [] (iov iv)).

Definition iovector_wf (iv : scsi_iovector) : Prop :=
  match iov iv with
  | None => niov iv = 0
  | Some arr => Z.of_nat (length arr) = nalloc iv /\ 0 <= niov iv <= nalloc iv /\
                0 < nalloc iv
  end.

Lemma iov_elems_store arr n v nal off con :
  0 <= n < Z.of_nat (length arr) ->
  iov_elems (Build_scsi_iovector (Some (<[Z.to_nat n := v]> arr)) (n + 1) nal off con) =
  take (Z.to_nat n) arr ++ [v].
Proof.
  intros Hn. unfold iov_elems. cbn [niov iov default from_option id].
  replace (Z.to_nat (n + 1)) with (S (Z.to_nat n)) by lia.
  rewrite (take_S_r _ _ v) by (apply list_lookup_insert_eq; lia).
  by rewrite take_insert_ge by lia.
Qed.

(** ** Properties *)

(** Adding a buffer to a well-formed io vector either appends exactly that element
    (growing the array by doubling, all earlier elements kept) or returns -1 and only
    when an allocation failed. *)
Theorem scsi_iovector_add_appends (ok1 ok2 : bool) (task : scsi_task) (iv : scsi_iovector)
  (len buf : Z) (Hwf : iovector_wf iv) (Hn : niov iv < 2 ^ 29) (Hlen : 0 <= len) :
  exists rc iv' task', scsi_iovector_add ok1 ok2 task iv len buf = Ret (rc, iv', task') /\
    (rc = 0 -> iovector_wf iv' /\ iov_elems iv' = iov_elems iv ++ [Build_scsi_iovec buf len] /\
               offset iv' = offset iv /\ consumed iv' = consumed iv) /\
    (rc <> 0 -> rc = -1 /\ (ok1 = false \/ ok2 = false)) /\
    (ok1 = true -> ok2 = true -> rc = 0).
Proof.
  destruct iv as [[arr|] n nal off con]; unfold iovector_wf in Hwf; cbn in Hwf, Hn;
    unfold scsi_iovector_add; rewrite (proj2 (Z.ltb_ge len 0)) by done.
  - destruct Hwf as (Hlen' & Hn' & Hpos). cbn. destruct (Z.ltb_spec nal (n + 1)).
    + assert (nal = n) as -> by lia. destruct ok2; cbn.
      2: { do 3 eexists. split; [done|]. split; [done|]. split; [by auto|done]. }
      destruct (Z.ltb_spec (2 * n) n); [lia|]. cbn [orb].
      destruct (Z.ltb_spec (Z.of_nat (length arr)) n); [lia|]. cbn.
      rewrite length_app, length_take, length_replicate.
      destruct (Z.leb_spec 0 n); [|lia]. cbn [andb].
      match goal with |- context [n <? ?e] => destruct (Z.ltb_spec n e); [|lia] end.
      do 3 eexists. split; [done|]. split; [|split; [done|done]]. intros _.
      rewrite i32_small by (rewrite Z.shiftl_mul_pow2; lia).
      split; [|split; [|done]].
      * unfold iovector_wf. cbn. rewrite length_insert, length_app, length_take, length_replicate.
        rewrite Z.shiftl_mul_pow2; lia.
      * unfold upd at 1 2. cbn -[Z.to_nat take]. rewrite iov_elems_store.
        2: { rewrite length_app, length_take, length_replicate. lia. }
        rewrite take_app_le, take_take by (rewrite length_take; lia).
        by rewrite Nat.min_id.
    + cbn. destruct (Z.leb_spec 0 n); [|lia].
      destruct (Z.ltb_spec n (Z.of_nat (length arr))); [|lia]. cbn [andb].
      do 3 eexists. split; [done|]. split; [|split; done]. intros _. split; [|split; [|done]].
      * unfold iovector_wf. cbn. rewrite length_insert. lia.
      * unfold upd at 1 2. cbn -[Z.to_nat take]. by rewrite iov_elems_store by lia.
  - subst n. destruct ok1; cbn.
    + do 3 eexists. split; [done|]. split; [|split; done]. intros _. split; [|done].
      unfold iovector_wf, IOVECTOR_INITAL_ALLOC. cbn. rewrite length_insert, length_replicate. lia.
    + do 3 eexists. split; [done|]. split; [done|]. split; [by auto|done].
Qed.

Lemma scsi_iovector_add_appends_witness :
  let iv := Build_scsi_iovector (Some [Build_scsi_iovec 4096 8]) 1 1 0 0 in
  exists rc iv' task',
    scsi_iovector_add true true new_task iv 24 8192 = Ret (rc, iv', task') /\ rc = 0 /\
    iov_elems iv' = [Build_scsi_iovec 4096 8; Build_scsi_iovec 8192 24].
Proof.
  intros iv.
  destruct (scsi_iovector_add_appends true true new_task iv 24 8192)
    as (rc & iv' & task' & E & Hok & _ & H0); [cbn; lia..|].
  exists rc, iv', task'. specialize (H0 eq_refl eq_refl). split; [exact E|].
  split; [exact H0|]. apply (Hok H0).
Defined.
