(* ===== verification/Cdb.v ===== *)
(** Command descriptor blocks: every [scsi_cdb_*] constructor of
    src/lib/scsi-lowlevel.c.

    A constructor allocates a zeroed task, stores the fields of the CDB and
    sets its size, the transfer direction and the expected transfer length;
    it returns [None] for NULL.  [malloc_ok] is the outcome of the allocation.
    Arguments have the width of the C parameter; a store into a byte of the
    CDB keeps 8 bits, as in C.  [xferlen/blocksize] is an unsigned division,
    undefined for a zero block size.  [cdb_request] names one call of one
    constructor, [build] performs it. *)

From S2P Require Import Prelude Bytes Task.

(** ** Opcodes (enum scsi_opcode) and service actions *)

Definition SCSI_OPCODE_TESTUNITREADY : Z := 0x00.
Definition SCSI_OPCODE_READ6 : Z := 0x08.
Definition SCSI_OPCODE_INQUIRY : Z := 0x12.
Definition SCSI_OPCODE_MODESELECT6 : Z := 0x15.
Definition SCSI_OPCODE_RESERVE6 : Z := 0x16.
Definition SCSI_OPCODE_RELEASE6 : Z := 0x17.
Definition SCSI_OPCODE_MODESENSE6 : Z := 0x1a.
Definition SCSI_OPCODE_STARTSTOPUNIT : Z := 0x1b.
Definition SCSI_OPCODE_PREVENTALLOW : Z := 0x1e.
Definition SCSI_OPCODE_READCAPACITY10 : Z := 0x25.
Definition SCSI_OPCODE_READ10 : Z := 0x28.
Definition SCSI_OPCODE_WRITE10 : Z := 0x2A.
Definition SCSI_OPCODE_WRITE_VERIFY10 : Z := 0x2E.
Definition SCSI_OPCODE_VERIFY10 : Z := 0x2F.
Definition SCSI_OPCODE_PREFETCH10 : Z := 0x34.
Definition SCSI_OPCODE_SYNCHRONIZECACHE10 : Z := 0x35.
Definition SCSI_OPCODE_READ_DEFECT_DATA10 : Z := 0x37.
Definition SCSI_OPCODE_WRITE_SAME10 : Z := 0x41.
Definition SCSI_OPCODE_UNMAP : Z := 0x42.
Definition SCSI_OPCODE_READTOC : Z := 0x43.
Definition SCSI_OPCODE_SANITIZE : Z := 0x48.
Definition SCSI_OPCODE_MODESELECT10 : Z := 0x55.
Definition SCSI_OPCODE_MODESENSE10 : Z := 0x5A.
Definition SCSI_OPCODE_PERSISTENT_RESERVE_IN : Z := 0x5E.
Definition SCSI_OPCODE_PERSISTENT_RESERVE_OUT : Z := 0x5F.
Definition SCSI_OPCODE_EXTENDED_COPY : Z := 0x83.
Definition SCSI_OPCODE_RECEIVE_COPY_RESULTS : Z := 0x84.
Definition SCSI_OPCODE_READ16 : Z := 0x88.
Definition SCSI_OPCODE_COMPARE_AND_WRITE : Z := 0x89.
Definition SCSI_OPCODE_WRITE16 : Z := 0x8A.
Definition SCSI_OPCODE_ORWRITE : Z := 0x8B.
Definition SCSI_OPCODE_WRITE_VERIFY16 : Z := 0x8E.
Definition SCSI_OPCODE_VERIFY16 : Z := 0x8F.
Definition SCSI_OPCODE_PREFETCH16 : Z := 0x90.
Definition SCSI_OPCODE_SYNCHRONIZECACHE16 : Z := 0x91.
Definition SCSI_OPCODE_WRITE_SAME16 : Z := 0x93.
Definition SCSI_OPCODE_WRITE_ATOMIC16 : Z := 0x9C.
Definition SCSI_OPCODE_SERVICE_ACTION_IN : Z := 0x9E.
Definition SCSI_OPCODE_REPORTLUNS : Z := 0xA0.
Definition SCSI_OPCODE_MAINTENANCE_IN : Z := 0xA3.
Definition SCSI_OPCODE_READ12 : Z := 0xA8.
Definition SCSI_OPCODE_WRITE12 : Z := 0xAA.
Definition SCSI_OPCODE_WRITE_VERIFY12 : Z := 0xAE.
Definition SCSI_OPCODE_VERIFY12 : Z := 0xAF.
Definition SCSI_OPCODE_READ_DEFECT_DATA12 : Z := 0xB7.

Definition SCSI_PERSISTENT_RESERVE_REGISTER : Z := 0.
Definition SCSI_PERSISTENT_RESERVE_RESERVE : Z := 1.
Definition SCSI_PERSISTENT_RESERVE_RELEASE : Z := 2.
Definition SCSI_PERSISTENT_RESERVE_CLEAR : Z := 3.
Definition SCSI_PERSISTENT_RESERVE_PREEMPT : Z := 4.
Definition SCSI_PERSISTENT_RESERVE_PREEMPT_AND_ABORT : Z := 5.
Definition SCSI_PERSISTENT_RESERVE_REGISTER_AND_IGNORE_EXISTING_KEY : Z := 6.
Definition SCSI_PERSISTENT_RESERVE_REGISTER_AND_MOVE : Z := 7.

Definition SCSI_READCAPACITY16 : Z := 0x10.
Definition SCSI_GET_LBA_STATUS : Z := 0x12.

Definition SCSI_REPORT_TARGET_PORT_GROUPS : Z := 0x0a.
Definition SCSI_REPORT_SUPPORTED_OP_CODES : Z := 0x0c.

Definition SCSI_READ_TOC : Z := 0.
Definition SCSI_READ_SESSION_INFO : Z := 1.
Definition SCSI_READ_FULL_TOC : Z := 2.

(** ** Stores into a task under construction *)

(** [task->cdb[i] = v] *)
Definition cdb_set (i : nat) (v : Z) (task : scsi_task) : scsi_task :=
  task <| cdb ::= <[i := u8 v]> |>.

(** [task->cdb[i] |= v] *)
Definition cdb_or (i : nat) (v : Z) (task : scsi_task) : scsi_task :=
  task <| cdb ::= fun c => <[i := u8 (byte_at c i ||| v)]> c |>.

(** [scsi_set_uint16(&task->cdb[off], v)], [scsi_set_uint32(...)] *)
Definition cdb_set16 (off : nat) (v : Z) (task : scsi_task) : scsi_task :=
  task <| cdb ::= fun c => scsi_set_uint16 c off v |>.

Definition cdb_set32 (off : nat) (v : Z) (task : scsi_task) : scsi_task :=
  task <| cdb ::= fun c => scsi_set_uint32 c off v |>.

(** [if (b) f] *)
Definition cif (b : Z) (f : scsi_task -> scsi_task) (task : scsi_task) : scsi_task :=
  if truth b then f task else task.

(** The last assignments of a constructor; [expxferlen] is an [int]. *)
Definition finish (size dir len : Z) (task : scsi_task) : scsi_task :=
  task <| cdb_size := size |> <| xfer_dir := dir |> <| expxferlen := i32 len |>.

(** [if (len != 0) xfer_dir = dir; else xfer_dir = SCSI_XFER_NONE;] *)
Definition dir_if (len dir : Z) : Z := if truth len then dir else SCSI_XFER_NONE.

(** [x / b] for [uint32_t x] and [int b]. *)
Definition div_u32 (x b : Z) : res Z :=
  if u32 b =? 0 then Undef DivByZero else mret (x / u32 b).

(** ** Constructors without a block count *)

Section Builders.
Variable malloc_ok : bool.

Definition scsi_cdb_testunitready : option scsi_task :=
  if negb malloc_ok then None else
  let task := cdb_set 0 SCSI_OPCODE_TESTUNITREADY new_task in
  Some (finish 6 SCSI_XFER_NONE 0 task).

Definition scsi_cdb_sanitize (immed ause sa param_len : Z) : option scsi_task :=
  if negb malloc_ok then None else
  let task := cdb_set 0 SCSI_OPCODE_SANITIZE new_task in
  let task := cdb_set 1 (sa &&& 0x1f) task in
  let task := cif immed (cdb_or 1 0x80) task in
  let task := cif ause (cdb_or 1 0x20) task in
  let task := cdb_set16 7 param_len task in
  Some (finish 10 (dir_if param_len SCSI_XFER_WRITE) ((param_len + 3) &&& 0xfffc) task).

Definition scsi_reportluns_cdb (report_type alloc_len : Z) : option scsi_task :=
  if negb malloc_ok then None else
  let task := cdb_set 0 SCSI_OPCODE_REPORTLUNS new_task in
  let task := cdb_set 2 report_type task in
  let task := cdb_set32 6 alloc_len task in
  Some (finish 12 (dir_if alloc_len SCSI_XFER_READ) alloc_len task).

Definition scsi_cdb_readcapacity10 (lba pmi : Z) : option scsi_task :=
  if negb malloc_ok then None else
  let task := cdb_set 0 SCSI_OPCODE_READCAPACITY10 new_task in
  let task := cdb_set32 2 lba task in
  let task := cif pmi (cdb_or 8 0x01) task in
  Some (finish 10 SCSI_XFER_READ 8 task).

Definition scsi_cdb_readdefectdata10 (req_plist req_glist defect_list_format alloc_len : Z)
  : option scsi_task :=
  if negb malloc_ok then None else
  let task := cdb_set 0 SCSI_OPCODE_READ_DEFECT_DATA10 new_task in
  let task := cif req_plist (cdb_or 2 0x10) task in
  let task := cif req_glist (cdb_or 2 0x08) task in
  let task := cdb_or 2 (defect_list_format &&& 0x07) task in
  let task := cdb_set16 7 alloc_len task in
  Some (finish 10 SCSI_XFER_READ alloc_len task).

Definition scsi_cdb_readdefectdata12
  (req_plist req_glist defect_list_format address_descriptor_index alloc_len : Z)
  : option scsi_task :=
  if negb malloc_ok then None else
  let task := cdb_set 0 SCSI_OPCODE_READ_DEFECT_DATA12 new_task in
  let task := cif req_plist (cdb_or 2 0x10) task in
  let task := cif req_glist (cdb_or 2 0x08) task in
  let task := cdb_or 2 (defect_list_format &&& 0x07) task in
  let task := cdb_set32 2 address_descriptor_index task in
  let task := cdb_set32 6 alloc_len task in
  Some (finish 12 SCSI_XFER_READ alloc_len task).

Definition scsi_cdb_readtoc (msf format track_session alloc_len : Z) : option scsi_task :=
  if negb (format =? SCSI_READ_TOC) && negb (format =? SCSI_READ_SESSION_INFO)
     && negb (format =? SCSI_READ_FULL_TOC) then None else
  if negb malloc_ok then None else
  let task := cdb_set 0 SCSI_OPCODE_READTOC new_task in
  let task := cif msf (cdb_or 1 0x02) task in
  let task := cdb_set 2 (format &&& 0xf) task in
  let task := if (format =? SCSI_READ_TOC) || (format =? SCSI_READ_FULL_TOC)
              then cdb_set 6 (0xff &&& track_session) task else task in
  let task := cdb_set16 7 alloc_len task in
  Some (finish 10 (dir_if alloc_len SCSI_XFER_READ) alloc_len task).

Definition scsi_cdb_reserve6 : option scsi_task :=
  if negb malloc_ok then None else
  let task := cdb_set 0 SCSI_OPCODE_RESERVE6 new_task in
  Some (task <| cdb_size := 6 |> <| xfer_dir := SCSI_XFER_NONE |>).

Definition scsi_cdb_release6 : option scsi_task :=
  if negb malloc_ok then None else
  let task := cdb_set 0 SCSI_OPCODE_RELEASE6 new_task in
  Some (task <| cdb_size := 6 |> <| xfer_dir := SCSI_XFER_NONE |>).

Definition scsi_cdb_report_target_port_groups (alloc_len : Z) : option scsi_task :=
  if negb malloc_ok then None else
  let task := cdb_set 0 SCSI_OPCODE_MAINTENANCE_IN new_task in
  let task := cdb_set 1 SCSI_REPORT_TARGET_PORT_GROUPS task in
  let task := cdb_set32 6 alloc_len task in
  Some (finish 12 (dir_if alloc_len SCSI_XFER_READ) alloc_len task).

Definition scsi_cdb_report_supported_opcodes (rctd options opcode sa alloc_len : Z)
  : option scsi_task :=
  if negb malloc_ok then None else
  let task := cdb_set 0 SCSI_OPCODE_MAINTENANCE_IN new_task in
  let task := cdb_set 1 SCSI_REPORT_SUPPORTED_OP_CODES task in
  let task := cdb_set 2 (options &&& 0x07) task in
  let task := cif rctd (cdb_or 2 0x80) task in
  let task := cdb_set 3 opcode task in
  let task := cdb_set16 4 sa task in
  let task := cdb_set32 6 alloc_len task in
  Some (finish 12 (dir_if alloc_len SCSI_XFER_READ) alloc_len task).

Definition scsi_cdb_inquiry (evpd page_code alloc_len : Z) : option scsi_task :=
  if negb malloc_ok then None else
  let task := cdb_set 0 SCSI_OPCODE_INQUIRY new_task in
  let task := cif evpd (cdb_or 1 0x01) task in
  let task := cdb_set 2 page_code task in
  let task := cdb_set16 3 alloc_len task in
  Some (finish 6 (dir_if alloc_len SCSI_XFER_READ) alloc_len task).

Definition scsi_cdb_unmap (anchor group xferlen : Z) : option scsi_task :=
  if negb malloc_ok then None else
  let task := cdb_set 0 SCSI_OPCODE_UNMAP new_task in
  let task := cif anchor (cdb_or 1 0x01) task in
  let task := cdb_or 6 (group &&& 0x1f) task in
  let task := cdb_set16 7 xferlen task in
  Some (finish 10 (dir_if xferlen SCSI_XFER_WRITE) xferlen task).

Definition scsi_cdb_persistent_reserve_in (sa xferlen : Z) : option scsi_task :=
  if negb malloc_ok then None else
  let task := cdb_set 0 SCSI_OPCODE_PERSISTENT_RESERVE_IN new_task in
  let task := cdb_or 1 (sa &&& 0x1f) task in
  let task := cdb_set16 7 xferlen task in
  Some (finish 10 (dir_if xferlen SCSI_XFER_READ) xferlen task).

Definition scsi_cdb_writesame10 (wrprotect anchor unmap lba group num_blocks datalen : Z)
  : option scsi_task :=
  if negb malloc_ok then None else
  let task := cdb_set 0 SCSI_OPCODE_WRITE_SAME10 new_task in
  let task := cif wrprotect (cdb_or 1 ((wrprotect &&& 0x7) << 5)) task in
  let task := cif anchor (cdb_or 1 0x10) task in
  let task := cif unmap (cdb_or 1 0x08) task in
  let task := cdb_set32 2 lba task in
  let task := cif group (cdb_or 6 (group &&& 0x1f)) task in
  let task := cdb_set16 7 num_blocks task in
  Some (finish 10 SCSI_XFER_WRITE datalen task).

Definition scsi_cdb_writesame16 (wrprotect anchor unmap lba group num_blocks datalen : Z)
  : option scsi_task :=
  if negb malloc_ok then None else
  let task := cdb_set 0 SCSI_OPCODE_WRITE_SAME16 new_task in
  let task := cif wrprotect (cdb_or 1 ((wrprotect &&& 0x7) << 5)) task in
  let task := cif anchor (cdb_or 1 0x10) task in
  let task := cif unmap (cdb_or 1 0x08) task in
  let task := if datalen =? 0 then cdb_or 1 0x01 task else task in
  let task := cdb_set32 2 (lba >> 32) task in
  let task := cdb_set32 6 (lba &&& 0xffffffff) task in
  let task := cdb_set32 10 num_blocks task in
  let task := cif group (cdb_or 14 (group &&& 0x1f)) task in
  Some (finish 16 SCSI_XFER_WRITE datalen task).

Definition scsi_cdb_modesense6 (dbd pc page_code sub_page_code alloc_len : Z)
  : option scsi_task :=
  if negb malloc_ok then None else
  let task := cdb_set 0 SCSI_OPCODE_MODESENSE6 new_task in
  let task := cif dbd (cdb_or 1 0x08) task in
  let task := cdb_set 2 ((pc << 6) ||| page_code) task in
  let task := cdb_set 3 sub_page_code task in
  let task := cdb_set 4 alloc_len task in
  Some (finish 6 (dir_if alloc_len SCSI_XFER_READ) alloc_len task).

Definition scsi_cdb_modesense10 (llbaa dbd pc page_code sub_page_code alloc_len : Z)
  : option scsi_task :=
  if negb malloc_ok then None else
  let task := cdb_set 0 SCSI_OPCODE_MODESENSE10 new_task in
  let task := cif llbaa (cdb_or 1 0x10) task in
  let task := cif dbd (cdb_or 1 0x08) task in
  let task := cdb_set 2 ((pc << 6) ||| page_code) task in
  let task := cdb_set 3 sub_page_code task in
  let task := cdb_set16 7 alloc_len task in
  Some (finish 10 (dir_if alloc_len SCSI_XFER_READ) alloc_len task).

Definition scsi_cdb_modeselect6 (pf sp param_len : Z) : option scsi_task :=
  if negb malloc_ok then None else
  let task := cdb_set 0 SCSI_OPCODE_MODESELECT6 new_task in
  let task := cif pf (cdb_or 1 0x10) task in
  let task := cif sp (cdb_or 1 0x01) task in
  let task := cdb_set 4 param_len task in
  Some (finish 6 (dir_if param_len SCSI_XFER_WRITE) param_len task).

Definition scsi_cdb_modeselect10 (pf sp param_len : Z) : option scsi_task :=
  if negb malloc_ok then None else
  let task := cdb_set 0 SCSI_OPCODE_MODESELECT10 new_task in
  let task := cif pf (cdb_or 1 0x10) task in
  let task := cif sp (cdb_or 1 0x01) task in
  let task := cdb_set16 7 param_len task in
  Some (finish 10 (dir_if param_len SCSI_XFER_WRITE) param_len task).

Definition scsi_cdb_startstopunit (immed pcm pc no_flush loej start : Z) : option scsi_task :=
  if negb malloc_ok then None else
  let task := cdb_set 0 SCSI_OPCODE_STARTSTOPUNIT new_task in
  let task := cif immed (cdb_or 1 0x01) task in
  let task := cdb_or 3 (pcm &&& 0x0f) task in
  let task := cdb_or 4 ((pc << 4) &&& 0xf0) task in
  let task := cif no_flush (cdb_or 4 0x04) task in
  let task := cif loej (cdb_or 4 0x02) task in
  let task := cif start (cdb_or 4 0x01) task in
  Some (finish 6 SCSI_XFER_NONE 0 task).

Definition scsi_cdb_preventallow (prevent : Z) : option scsi_task :=
  if negb malloc_ok then None else
  let task := cdb_set 0 SCSI_OPCODE_PREVENTALLOW new_task in
  let task := cdb_set 4 (prevent &&& 0x03) task in
  Some (finish 6 SCSI_XFER_NONE 0 task).

Definition scsi_cdb_synchronizecache10 (lba num_blocks syncnv immed : Z) : option scsi_task :=
  if negb malloc_ok then None else
  let task := cdb_set 0 SCSI_OPCODE_SYNCHRONIZECACHE10 new_task in
  let task := cif syncnv (cdb_or 1 0x04) task in
  let task := cif immed (cdb_or 1 0x02) task in
  let task := cdb_set32 2 lba task in
  let task := cdb_set16 7 num_blocks task in
  Some (finish 10 SCSI_XFER_NONE 0 task).

Definition scsi_cdb_synchronizecache16 (lba num_blocks syncnv immed : Z) : option scsi_task :=
  if negb malloc_ok then None else
  let task := cdb_set 0 SCSI_OPCODE_SYNCHRONIZECACHE16 new_task in
  let task := cif syncnv (cdb_or 1 0x04) task in
  let task := cif immed (cdb_or 1 0x02) task in
  let task := cdb_set32 2 (lba >> 32) task in
  let task := cdb_set32 6 (lba &&& 0xffffffff) task in
  let task := cdb_set32 10 num_blocks task in
  Some (finish 16 SCSI_XFER_NONE 0 task).

Definition scsi_cdb_prefetch10 (lba num_blocks immed group : Z) : option scsi_task :=
  if negb malloc_ok then None else
  let task := cdb_set 0 SCSI_OPCODE_PREFETCH10 new_task in
  let task := cif immed (cdb_or 1 0x02) task in
  let task := cdb_set32 2 lba task in
  let task := cdb_or 6 (group &&& 0x1f) task in
  let task := cdb_set16 7 num_blocks task in
  Some (finish 10 SCSI_XFER_NONE 0 task).

Definition scsi_cdb_prefetch16 (lba num_blocks immed group : Z) : option scsi_task :=
  if negb malloc_ok then None else
  let task := cdb_set 0 SCSI_OPCODE_PREFETCH16 new_task in
  let task := cif immed (cdb_or 1 0x02) task in
  let task := cdb_set32 2 (lba >> 32) task in
  let task := cdb_set32 6 (lba &&& 0xffffffff) task in
  let task := cdb_set32 10 num_blocks task in
  let task := cdb_or 14 (group &&& 0x1f) task in
  Some (finish 16 SCSI_XFER_NONE 0 task).

Definition scsi_cdb_serviceactionin16 (sa xferlen : Z) : option scsi_task :=
  if negb malloc_ok then None else
  let task := cdb_set 0 SCSI_OPCODE_SERVICE_ACTION_IN new_task in
  let task := cdb_set 1 sa task in
  let task := cdb_set32 10 xferlen task in
  Some (finish 16 (dir_if xferlen SCSI_XFER_READ) xferlen task).

Definition scsi_cdb_readcapacity16 : option scsi_task :=
  scsi_cdb_serviceactionin16 SCSI_READCAPACITY16 32.

Definition scsi_cdb_get_lba_status (starting_lba alloc_len : Z) : option scsi_task :=
  if negb malloc_ok then None else
  let task := cdb_set 0 SCSI_OPCODE_SERVICE_ACTION_IN new_task in
  let task := cdb_set 1 SCSI_GET_LBA_STATUS task in
  let task := cdb_set32 2 (starting_lba >> 32) task in
  let task := cdb_set32 6 (starting_lba &&& 0xffffffff) task in
  let task := cdb_set32 10 alloc_len task in
  Some (finish 16 (dir_if alloc_len SCSI_XFER_READ) alloc_len task).

Definition scsi_cdb_extended_copy (param_len : Z) : option scsi_task :=
  if negb malloc_ok then None else
  let task := cdb_set 0 SCSI_OPCODE_EXTENDED_COPY new_task in
  let task := cdb_set 10 ((param_len >> 24) &&& 0xFF) task in
  let task := cdb_set 11 ((param_len >> 16) &&& 0xFF) task in
  let task := cdb_set 12 ((param_len >> 8) &&& 0xFF) task in
  let task := cdb_set 13 (param_len &&& 0xFF) task in
  let task := task <| cdb_size := 16 |> in
  let task := cif param_len (fun t => t <| xfer_dir := SCSI_XFER_WRITE |>) task in
  Some (task <| expxferlen := param_len |>).

Definition scsi_cdb_receive_copy_results (sa list_id xferlen : Z) : option scsi_task :=
  if negb malloc_ok then None else
  let task := cdb_set 0 SCSI_OPCODE_RECEIVE_COPY_RESULTS new_task in
  let task := cdb_or 1 (sa &&& 0x1f) task in
  let task := cdb_set 2 (list_id &&& 0xFF) task in
  let task := cdb_set32 10 xferlen task in
  Some (finish 16 (dir_if xferlen SCSI_XFER_READ) xferlen task).

(** ** Constructors that divide the transfer length into blocks *)

Definition scsi_cdb_read6 (lba xferlen blocksize : Z) : res (option scsi_task) :=
  q ← div_u32 xferlen blocksize;
  let num_blocks := i32 q in
  if 256 <? num_blocks then mret None else
  if 0x1fffff <? lba then mret None else
  if negb malloc_ok then mret None else
  let task := cdb_set 0 SCSI_OPCODE_READ6 new_task in
  let task := cdb_set 1 ((lba >> 16) &&& 0x1f) task in
  let task := cdb_set 2 ((lba >> 8) &&& 0xff) task in
  let task := cdb_set 3 (lba &&& 0xff) task in
  let task := if num_blocks <? 256 then cdb_set 4 (num_blocks &&& 0xff) task else task in
  mret (Some (finish 6 (dir_if xferlen SCSI_XFER_READ) xferlen task)).

Definition scsi_cdb_read10 (lba xferlen blocksize rdprotect dpo fua fua_nv group_number : Z)
  : res (option scsi_task) :=
  if negb malloc_ok then mret None else
  let task := cdb_set 0 SCSI_OPCODE_READ10 new_task in
  let task := cdb_or 1 ((rdprotect &&& 0x07) << 5) task in
  let task := cif dpo (cdb_or 1 0x10) task in
  let task := cif fua (cdb_or 1 0x08) task in
  let task := cif fua_nv (cdb_or 1 0x02) task in
  let task := cdb_set32 2 lba task in
  q ← div_u32 xferlen blocksize;
  let task := cdb_set16 7 q task in
  let task := cdb_or 6 (group_number &&& 0x1f) task in
  mret (Some (finish 10 (dir_if xferlen SCSI_XFER_READ) xferlen task)).

Definition scsi_cdb_read12 (lba xferlen blocksize rdprotect dpo fua fua_nv group_number : Z)
  : res (option scsi_task) :=
  if negb malloc_ok then mret None else
  let task := cdb_set 0 SCSI_OPCODE_READ12 new_task in
  let task := cdb_or 1 ((rdprotect &&& 0x07) << 5) task in
  let task := cif dpo (cdb_or 1 0x10) task in
  let task := cif fua (cdb_or 1 0x08) task in
  let task := cif fua_nv (cdb_or 1 0x02) task in
  let task := cdb_set32 2 lba task in
  q ← div_u32 xferlen blocksize;
  let task := cdb_set32 6 q task in
  let task := cdb_or 10 (group_number &&& 0x1f) task in
  mret (Some (finish 12 (dir_if xferlen SCSI_XFER_READ) xferlen task)).

Definition scsi_cdb_read16 (lba xferlen blocksize rdprotect dpo fua fua_nv group_number : Z)
  : res (option scsi_task) :=
  if negb malloc_ok then mret None else
  let task := cdb_set 0 SCSI_OPCODE_READ16 new_task in
  let task := cdb_or 1 ((rdprotect &&& 0x07) << 5) task in
  let task := cif dpo (cdb_or 1 0x10) task in
  let task := cif fua (cdb_or 1 0x08) task in
  let task := cif fua_nv (cdb_or 1 0x02) task in
  let task := cdb_set32 2 (lba >> 32) task in
  let task := cdb_set32 6 (lba &&& 0xffffffff) task in
  q ← div_u32 xferlen blocksize;
  let task := cdb_set32 10 q task in
  let task := cdb_or 14 (group_number &&& 0x1f) task in
  mret (Some (finish 16 (dir_if xferlen SCSI_XFER_READ) xferlen task)).

Definition scsi_cdb_write10 (lba xferlen blocksize wrprotect dpo fua fua_nv group_number : Z)
  : res (option scsi_task) :=
  if negb malloc_ok then mret None else
  let task := cdb_set 0 SCSI_OPCODE_WRITE10 new_task in
  let task := cdb_or 1 ((wrprotect &&& 0x07) << 5) task in
  let task := cif dpo (cdb_or 1 0x10) task in
  let task := cif fua (cdb_or 1 0x08) task in
  let task := cif fua_nv (cdb_or 1 0x02) task in
  let task := cdb_set32 2 lba task in
  q ← div_u32 xferlen blocksize;
  let task := cdb_set16 7 q task in
  let task := cdb_or 6 (group_number &&& 0x1f) task in
  mret (Some (finish 10 (dir_if xferlen SCSI_XFER_WRITE) xferlen task)).

Definition scsi_cdb_write12 (lba xferlen blocksize wrprotect dpo fua fua_nv group_number : Z)
  : res (option scsi_task) :=
  if negb malloc_ok then mret None else
  let task := cdb_set 0 SCSI_OPCODE_WRITE12 new_task in
  let task := cdb_or 1 ((wrprotect &&& 0x07) << 5) task in
  let task := cif dpo (cdb_or 1 0x10) task in
  let task := cif fua (cdb_or 1 0x08) task in
  let task := cif fua_nv (cdb_or 1 0x02) task in
  let task := cdb_set32 2 lba task in
  q ← div_u32 xferlen blocksize;
  let task := cdb_set32 6 q task in
  let task := cdb_or 10 (group_number &&& 0x1f) task in
  mret (Some (finish 12 (dir_if xferlen SCSI_XFER_WRITE) xferlen task)).

Definition scsi_cdb_write16 (lba xferlen blocksize wrprotect dpo fua fua_nv group_number : Z)
  : res (option scsi_task) :=
  if negb malloc_ok then mret None else
  let task := cdb_set 0 SCSI_OPCODE_WRITE16 new_task in
  let task := cdb_or 1 ((wrprotect &&& 0x07) << 5) task in
  let task := cif dpo (cdb_or 1 0x10) task in
  let task := cif fua (cdb_or 1 0x08) task in
  let task := cif fua_nv (cdb_or 1 0x02) task in
  let task := cdb_set32 2 (lba >> 32) task in
  let task := cdb_set32 6 (lba &&& 0xffffffff) task in
  q ← div_u32 xferlen blocksize;
  let task := cdb_set32 10 q task in
  let task := cdb_or 14 (group_number &&& 0x1f) task in
  mret (Some (finish 16 (dir_if xferlen SCSI_XFER_WRITE) xferlen task)).

Definition scsi_cdb_writeatomic16 (lba xferlen blocksize wrprotect dpo fua group_number : Z)
  : res (option scsi_task) :=
  if negb malloc_ok then mret None else
  let task := cdb_set 0 SCSI_OPCODE_WRITE_ATOMIC16 new_task in
  let task := cdb_or 1 ((wrprotect &&& 0x07) << 5) task in
  let task := cif dpo (cdb_or 1 0x10) task in
  let task := cif fua (cdb_or 1 0x08) task in
  let task := cdb_set32 2 (lba >> 32) task in
  let task := cdb_set32 6 (lba &&& 0xffffffff) task in
  q ← div_u32 xferlen blocksize;
  let task := cdb_set16 12 q task in
  let task := cdb_or 14 (group_number &&& 0x1f) task in
  mret (Some (finish 16 (dir_if xferlen SCSI_XFER_WRITE) xferlen task)).

Definition scsi_cdb_orwrite (lba xferlen blocksize wrprotect dpo fua fua_nv group_number : Z)
  : res (option scsi_task) :=
  if negb malloc_ok then mret None else
  let task := cdb_set 0 SCSI_OPCODE_ORWRITE new_task in
  let task := cdb_or 1 ((wrprotect &&& 0x07) << 5) task in
  let task := cif dpo (cdb_or 1 0x10) task in
  let task := cif fua (cdb_or 1 0x08) task in
  let task := cif fua_nv (cdb_or 1 0x02) task in
  let task := cdb_set32 2 (lba >> 32) task in
  let task := cdb_set32 6 (lba &&& 0xffffffff) task in
  q ← div_u32 xferlen blocksize;
  let task := cdb_set32 10 q task in
  let task := cdb_or 14 (group_number &&& 0x1f) task in
  mret (Some (finish 16 (dir_if xferlen SCSI_XFER_WRITE) xferlen task)).

Definition scsi_cdb_compareandwrite
  (lba xferlen blocksize wrprotect dpo fua fua_nv group_number : Z)
  : res (option scsi_task) :=
  if negb malloc_ok then mret None else
  let task := cdb_set 0 SCSI_OPCODE_COMPARE_AND_WRITE new_task in
  let task := cdb_or 1 ((wrprotect &&& 0x07) << 5) task in
  let task := cif dpo (cdb_or 1 0x10) task in
  let task := cif fua (cdb_or 1 0x08) task in
  let task := cif fua_nv (cdb_or 1 0x02) task in
  let task := cdb_set32 2 (lba >> 32) task in
  let task := cdb_set32 6 (lba &&& 0xffffffff) task in
  q ← div_u32 xferlen blocksize;
  let task := cdb_set 13 (q / 2) task in
  let task := cdb_or 14 (group_number &&& 0x1f) task in
  mret (Some (finish 16 (dir_if xferlen SCSI_XFER_WRITE) xferlen task)).

(** VERIFY transfers data only when [bytchk] asks for a comparison. *)
Definition finish_verify (size xferlen bytchk : Z) (task : scsi_task) : scsi_task :=
  if truth xferlen && truth bytchk
  then finish size SCSI_XFER_WRITE xferlen task
  else finish size SCSI_XFER_NONE 0 task.

Definition scsi_cdb_verify10 (lba xferlen vprotect dpo bytchk blocksize : Z)
  : res (option scsi_task) :=
  if negb malloc_ok then mret None else
  let task := cdb_set 0 SCSI_OPCODE_VERIFY10 new_task in
  let task := cif vprotect (cdb_or 1 ((vprotect << 5) &&& 0xe0)) task in
  let task := cif dpo (cdb_or 1 0x10) task in
  let task := cif bytchk (cdb_or 1 0x02) task in
  let task := cdb_set32 2 lba task in
  q ← div_u32 xferlen blocksize;
  let task := cdb_set16 7 q task in
  mret (Some (finish_verify 10 xferlen bytchk task)).

Definition scsi_cdb_verify12 (lba xferlen vprotect dpo bytchk blocksize : Z)
  : res (option scsi_task) :=
  if negb malloc_ok then mret None else
  let task := cdb_set 0 SCSI_OPCODE_VERIFY12 new_task in
  let task := cif vprotect (cdb_or 1 ((vprotect << 5) &&& 0xe0)) task in
  let task := cif dpo (cdb_or 1 0x10) task in
  let task := cif bytchk (cdb_or 1 0x02) task in
  let task := cdb_set32 2 lba task in
  q ← div_u32 xferlen blocksize;
  let task := cdb_set32 6 q task in
  mret (Some (finish_verify 12 xferlen bytchk task)).

Definition scsi_cdb_verify16 (lba xferlen vprotect dpo bytchk blocksize : Z)
  : res (option scsi_task) :=
  if negb malloc_ok then mret None else
  let task := cdb_set 0 SCSI_OPCODE_VERIFY16 new_task in
  let task := cif vprotect (cdb_or 1 ((vprotect << 5) &&& 0xe0)) task in
  let task := cif dpo (cdb_or 1 0x10) task in
  let task := cif bytchk (cdb_or 1 0x02) task in
  let task := cdb_set32 2 (lba >> 32) task in
  let task := cdb_set32 6 (lba &&& 0xffffffff) task in
  q ← div_u32 xferlen blocksize;
  let task := cdb_set32 10 q task in
  mret (Some (finish_verify 16 xferlen bytchk task)).

Definition scsi_cdb_writeverify10 (lba xferlen blocksize wrprotect dpo bytchk group_number : Z)
  : res (option scsi_task) :=
  if negb malloc_ok then mret None else
  let task := cdb_set 0 SCSI_OPCODE_WRITE_VERIFY10 new_task in
  let task := cdb_or 1 ((wrprotect &&& 0x07) << 5) task in
  let task := cif dpo (cdb_or 1 0x10) task in
  let task := cif bytchk (cdb_or 1 0x02) task in
  let task := cdb_set32 2 lba task in
  q ← div_u32 xferlen blocksize;
  let task := cdb_set16 7 q task in
  let task := cdb_or 6 (group_number &&& 0x1f) task in
  mret (Some (finish 10 (dir_if xferlen SCSI_XFER_WRITE) xferlen task)).

Definition scsi_cdb_writeverify12 (lba xferlen blocksize wrprotect dpo bytchk group_number : Z)
  : res (option scsi_task) :=
  if negb malloc_ok then mret None else
  let task := cdb_set 0 SCSI_OPCODE_WRITE_VERIFY12 new_task in
  let task := cdb_or 1 ((wrprotect &&& 0x07) << 5) task in
  let task := cif dpo (cdb_or 1 0x10) task in
  let task := cif bytchk (cdb_or 1 0x02) task in
  let task := cdb_set32 2 lba task in
  q ← div_u32 xferlen blocksize;
  let task := cdb_set32 6 q task in
  let task := cdb_or 10 (group_number &&& 0x1f) task in
  mret (Some (finish 12 (dir_if xferlen SCSI_XFER_WRITE) xferlen task)).

Definition scsi_cdb_writeverify16 (lba xferlen blocksize wrprotect dpo bytchk group_number : Z)
  : res (option scsi_task) :=
  if negb malloc_ok then mret None else
  let task := cdb_set 0 SCSI_OPCODE_WRITE_VERIFY16 new_task in
  let task := cdb_or 1 ((wrprotect &&& 0x07) << 5) task in
  let task := cif dpo (cdb_or 1 0x10) task in
  let task := cif bytchk (cdb_or 1 0x02) task in
  let task := cdb_set32 2 (lba >> 32) task in
  let task := cdb_set32 6 (lba &&& 0xffffffff) task in
  q ← div_u32 xferlen blocksize;
  let task := cdb_set32 10 q task in
  let task := cdb_or 14 (group_number &&& 0x1f) task in
  mret (Some (finish 16 (dir_if xferlen SCSI_XFER_WRITE) xferlen task)).

End Builders.

(** ** PERSISTENT RESERVE OUT *)

(** struct scsi_persistent_reserve_out_basic *)
Record scsi_persistent_reserve_out_basic := {
  reservation_key : Z;
  service_action_reservation_key : Z;
  spec_i_pt : Z;
  all_tg_pt : Z;
  aptpl : Z
}.

(** [buf[i] |= v] *)
Definition buf_or (i : nat) (v : Z) (buf : bytes) : bytes :=
  <[i := u8 (byte_at buf i ||| v)]> buf.

(** The parameter list of the basic service actions. *)
Definition pr_out_param (basic : scsi_persistent_reserve_out_basic) : bytes :=
  let buf := zeros 24 in
  let buf := scsi_set_uint64 buf 0 (reservation_key basic) in
  let buf := scsi_set_uint64 buf 8 (service_action_reservation_key basic) in
  let buf := if truth (spec_i_pt basic) then buf_or 20 0x08 buf else buf in
  let buf := if truth (all_tg_pt basic) then buf_or 20 0x04 buf else buf in
  if truth (aptpl basic) then buf_or 20 0x01 buf else buf.

Definition pr_out_basic_sa (sa : Z) : bool :=
  bool_decide (sa ∈ [SCSI_PERSISTENT_RESERVE_REGISTER; SCSI_PERSISTENT_RESERVE_RESERVE;
                     SCSI_PERSISTENT_RESERVE_RELEASE; SCSI_PERSISTENT_RESERVE_CLEAR;
                     SCSI_PERSISTENT_RESERVE_PREEMPT;
                     SCSI_PERSISTENT_RESERVE_PREEMPT_AND_ABORT;
                     SCSI_PERSISTENT_RESERVE_REGISTER_AND_IGNORE_EXISTING_KEY]).

(** The task, its io vector pointing at the parameter list, which lies at the
    address [buf_at].  [ok1], [ok2] and [ok3] are the outcomes of the three
    allocations. *)
Definition scsi_cdb_persistent_reserve_out (ok1 ok2 ok3 : bool) (buf_at : Z)
  (sa scope type : Z) (param : scsi_persistent_reserve_out_basic)
  : option (scsi_task * bytes) :=
  if negb ok1 then None else
  task ← scsi_malloc ok2 sizeof_iovec new_task;
  if negb (pr_out_basic_sa sa) then None else
  let xferlen := 24 in
  task ← scsi_malloc ok3 xferlen task;
  let buf := pr_out_param param in
  let task := cdb_set 0 SCSI_OPCODE_PERSISTENT_RESERVE_OUT task in
  let task := cdb_or 1 (sa &&& 0x1f) task in
  let task := cdb_set 2 (((scope << 4) &&& 0xf0) ||| (type &&& 0x0f)) task in
  let task := cdb_set32 5 xferlen task in
  let task := finish 10 SCSI_XFER_WRITE xferlen task in
  Some (scsi_task_set_iov_out task [Build_scsi_iovec buf_at xferlen] 1, buf).

(** ** One call of one constructor *)

Inductive cdb_request :=
| Req_testunitready
| Req_sanitize (immed ause sa param_len : Z)
| Req_reportluns (report_type alloc_len : Z)
| Req_readcapacity10 (lba pmi : Z)
| Req_readdefectdata10 (req_plist req_glist defect_list_format alloc_len : Z)
| Req_readdefectdata12 (req_plist req_glist defect_list_format address_descriptor_index alloc_len : Z)
| Req_readtoc (msf format track_session alloc_len : Z)
| Req_reserve6
| Req_release6
| Req_report_target_port_groups (alloc_len : Z)
| Req_report_supported_opcodes (rctd options opcode sa alloc_len : Z)
| Req_inquiry (evpd page_code alloc_len : Z)
| Req_unmap (anchor group xferlen : Z)
| Req_persistent_reserve_in (sa xferlen : Z)
| Req_writesame10 (wrprotect anchor unmap lba group num_blocks datalen : Z)
| Req_writesame16 (wrprotect anchor unmap lba group num_blocks datalen : Z)
| Req_modesense6 (dbd pc page_code sub_page_code alloc_len : Z)
| Req_modesense10 (llbaa dbd pc page_code sub_page_code alloc_len : Z)
| Req_modeselect6 (pf sp param_len : Z)
| Req_modeselect10 (pf sp param_len : Z)
| Req_startstopunit (immed pcm pc no_flush loej start : Z)
| Req_preventallow (prevent : Z)
| Req_synchronizecache10 (lba num_blocks syncnv immed : Z)
| Req_synchronizecache16 (lba num_blocks syncnv immed : Z)
| Req_prefetch10 (lba num_blocks immed group : Z)
| Req_prefetch16 (lba num_blocks immed group : Z)
| Req_serviceactionin16 (sa xferlen : Z)
| Req_readcapacity16
| Req_get_lba_status (starting_lba alloc_len : Z)
| Req_extended_copy (param_len : Z)
| Req_receive_copy_results (sa list_id xferlen : Z)
| Req_read6 (lba xferlen blocksize : Z)
| Req_read10 (lba xferlen blocksize rdprotect dpo fua fua_nv group_number : Z)
| Req_read12 (lba xferlen blocksize rdprotect dpo fua fua_nv group_number : Z)
| Req_read16 (lba xferlen blocksize rdprotect dpo fua fua_nv group_number : Z)
| Req_write10 (lba xferlen blocksize wrprotect dpo fua fua_nv group_number : Z)
| Req_write12 (lba xferlen blocksize wrprotect dpo fua fua_nv group_number : Z)
| Req_write16 (lba xferlen blocksize wrprotect dpo fua fua_nv group_number : Z)
| Req_writeatomic16 (lba xferlen blocksize wrprotect dpo fua group_number : Z)
| Req_orwrite (lba xferlen blocksize wrprotect dpo fua fua_nv group_number : Z)
| Req_compareandwrite (lba xferlen blocksize wrprotect dpo fua fua_nv group_number : Z)
| Req_verify10 (lba xferlen vprotect dpo bytchk blocksize : Z)
| Req_verify12 (lba xferlen vprotect dpo bytchk blocksize : Z)
| Req_verify16 (lba xferlen vprotect dpo bytchk blocksize : Z)
| Req_writeverify10 (lba xferlen blocksize wrprotect dpo bytchk group_number : Z)
| Req_writeverify12 (lba xferlen blocksize wrprotect dpo bytchk group_number : Z)
| Req_writeverify16 (lba xferlen blocksize wrprotect dpo bytchk group_number : Z)
| Req_persistent_reserve_out (ok2 ok3 : bool) (buf_at sa scope type : Z)
    (param : scsi_persistent_reserve_out_basic).

Definition build (ok : bool) (req : cdb_request) : res (option scsi_task) :=
  match req with
  | Req_testunitready => mret (scsi_cdb_testunitready ok)
  | Req_sanitize a0 a1 a2 a3 => mret (scsi_cdb_sanitize ok a0 a1 a2 a3)
  | Req_reportluns a0 a1 => mret (scsi_reportluns_cdb ok a0 a1)
  | Req_readcapacity10 a0 a1 => mret (scsi_cdb_readcapacity10 ok a0 a1)
  | Req_readdefectdata10 a0 a1 a2 a3 => mret (scsi_cdb_readdefectdata10 ok a0 a1 a2 a3)
  | Req_readdefectdata12 a0 a1 a2 a3 a4 => mret (scsi_cdb_readdefectdata12 ok a0 a1 a2 a3 a4)
  | Req_readtoc a0 a1 a2 a3 => mret (scsi_cdb_readtoc ok a0 a1 a2 a3)
  | Req_reserve6 => mret (scsi_cdb_reserve6 ok)
  | Req_release6 => mret (scsi_cdb_release6 ok)
  | Req_report_target_port_groups a0 => mret (scsi_cdb_report_target_port_groups ok a0)
  | Req_report_supported_opcodes a0 a1 a2 a3 a4 => mret (scsi_cdb_report_supported_opcodes ok a0 a1 a2 a3 a4)
  | Req_inquiry a0 a1 a2 => mret (scsi_cdb_inquiry ok a0 a1 a2)
  | Req_unmap a0 a1 a2 => mret (scsi_cdb_unmap ok a0 a1 a2)
  | Req_persistent_reserve_in a0 a1 => mret (scsi_cdb_persistent_reserve_in ok a0 a1)
  | Req_writesame10 a0 a1 a2 a3 a4 a5 a6 => mret (scsi_cdb_writesame10 ok a0 a1 a2 a3 a4 a5 a6)
  | Req_writesame16 a0 a1 a2 a3 a4 a5 a6 => mret (scsi_cdb_writesame16 ok a0 a1 a2 a3 a4 a5 a6)
  | Req_modesense6 a0 a1 a2 a3 a4 => mret (scsi_cdb_modesense6 ok a0 a1 a2 a3 a4)
  | Req_modesense10 a0 a1 a2 a3 a4 a5 => mret (scsi_cdb_modesense10 ok a0 a1 a2 a3 a4 a5)
  | Req_modeselect6 a0 a1 a2 => mret (scsi_cdb_modeselect6 ok a0 a1 a2)
  | Req_modeselect10 a0 a1 a2 => mret (scsi_cdb_modeselect10 ok a0 a1 a2)
  | Req_startstopunit a0 a1 a2 a3 a4 a5 => mret (scsi_cdb_startstopunit ok a0 a1 a2 a3 a4 a5)
  | Req_preventallow a0 => mret (scsi_cdb_preventallow ok a0)
  | Req_synchronizecache10 a0 a1 a2 a3 => mret (scsi_cdb_synchronizecache10 ok a0 a1 a2 a3)
  | Req_synchronizecache16 a0 a1 a2 a3 => mret (scsi_cdb_synchronizecache16 ok a0 a1 a2 a3)
  | Req_prefetch10 a0 a1 a2 a3 => mret (scsi_cdb_prefetch10 ok a0 a1 a2 a3)
  | Req_prefetch16 a0 a1 a2 a3 => mret (scsi_cdb_prefetch16 ok a0 a1 a2 a3)
  | Req_serviceactionin16 a0 a1 => mret (scsi_cdb_serviceactionin16 ok a0 a1)
  | Req_readcapacity16 => mret (scsi_cdb_readcapacity16 ok)
  | Req_get_lba_status a0 a1 => mret (scsi_cdb_get_lba_status ok a0 a1)
  | Req_extended_copy a0 => mret (scsi_cdb_extended_copy ok a0)
  | Req_receive_copy_results a0 a1 a2 => mret (scsi_cdb_receive_copy_results ok a0 a1 a2)
  | Req_read6 a0 a1 a2 => scsi_cdb_read6 ok a0 a1 a2
  | Req_read10 a0 a1 a2 a3 a4 a5 a6 a7 => scsi_cdb_read10 ok a0 a1 a2 a3 a4 a5 a6 a7
  | Req_read12 a0 a1 a2 a3 a4 a5 a6 a7 => scsi_cdb_read12 ok a0 a1 a2 a3 a4 a5 a6 a7
  | Req_read16 a0 a1 a2 a3 a4 a5 a6 a7 => scsi_cdb_read16 ok a0 a1 a2 a3 a4 a5 a6 a7
  | Req_write10 a0 a1 a2 a3 a4 a5 a6 a7 => scsi_cdb_write10 ok a0 a1 a2 a3 a4 a5 a6 a7
  | Req_write12 a0 a1 a2 a3 a4 a5 a6 a7 => scsi_cdb_write12 ok a0 a1 a2 a3 a4 a5 a6 a7
  | Req_write16 a0 a1 a2 a3 a4 a5 a6 a7 => scsi_cdb_write16 ok a0 a1 a2 a3 a4 a5 a6 a7
  | Req_writeatomic16 a0 a1 a2 a3 a4 a5 a6 => scsi_cdb_writeatomic16 ok a0 a1 a2 a3 a4 a5 a6
  | Req_orwrite a0 a1 a2 a3 a4 a5 a6 a7 => scsi_cdb_orwrite ok a0 a1 a2 a3 a4 a5 a6 a7
  | Req_compareandwrite a0 a1 a2 a3 a4 a5 a6 a7 => scsi_cdb_compareandwrite ok a0 a1 a2 a3 a4 a5 a6 a7
  | Req_verify10 a0 a1 a2 a3 a4 a5 => scsi_cdb_verify10 ok a0 a1 a2 a3 a4 a5
  | Req_verify12 a0 a1 a2 a3 a4 a5 => scsi_cdb_verify12 ok a0 a1 a2 a3 a4 a5
  | Req_verify16 a0 a1 a2 a3 a4 a5 => scsi_cdb_verify16 ok a0 a1 a2 a3 a4 a5
  | Req_writeverify10 a0 a1 a2 a3 a4 a5 a6 => scsi_cdb_writeverify10 ok a0 a1 a2 a3 a4 a5 a6
  | Req_writeverify12 a0 a1 a2 a3 a4 a5 a6 => scsi_cdb_writeverify12 ok a0 a1 a2 a3 a4 a5 a6
  | Req_writeverify16 a0 a1 a2 a3 a4 a5 a6 => scsi_cdb_writeverify16 ok a0 a1 a2 a3 a4 a5 a6
  | Req_persistent_reserve_out ok2 ok3 buf_at sa scope type param =>
      mret (fst <$> scsi_cdb_persistent_reserve_out ok ok2 ok3 buf_at sa scope type param)
  end.

(** ** Well-formed tasks *)

(** The length the group code (the top three bits of the opcode) prescribes. *)
Definition group_size (opcode : Z) : Z :=
  let group := opcode >> 5 in
  if group =? 0 then 6
  else if (group =? 1) || (group =? 2) then 10
  else if group =? 4 then 16
  else if group =? 5 then 12
  else 0.

Record cdb_wf (task : scsi_task) : Prop := {
  wf_length : length (cdb task) = SCSI_CDB_MAX_SIZE;
  wf_bytes : bytes_ok (cdb task);
  wf_size : cdb_size task = group_size (byte_at (cdb task) 0);
  wf_tail : forall i, cdb_size task <= Z.of_nat i -> byte_at (cdb task) i = 0;
  wf_dir : xfer_dir task = SCSI_XFER_NONE \/ xfer_dir task = SCSI_XFER_READ \/
           xfer_dir task = SCSI_XFER_WRITE;
  wf_none : xfer_dir task = SCSI_XFER_NONE -> expxferlen task = 0
}.

(** What the stores keep while a CDB of opcode [op] and [n] bytes is built. *)
Definition building (op : Z) (n : nat) (task : scsi_task) : Prop :=
  length (cdb task) = SCSI_CDB_MAX_SIZE /\ bytes_ok (cdb task) /\
  byte_at (cdb task) 0 = op /\ (forall i, (n <= i)%nat -> byte_at (cdb task) i = 0) /\
  xfer_dir task = SCSI_XFER_NONE /\ expxferlen task = 0.

Lemma building_start op n task : (0 < n)%nat -> byte_ok op ->
  cdb task = zeros SCSI_CDB_MAX_SIZE -> xfer_dir task = SCSI_XFER_NONE ->
  expxferlen task = 0 -> building op n (cdb_set 0 op task).
Proof.
  intros Hn Hop Hc Hd He. unfold building, cdb_set. cbn. rewrite Hc.
  split; [done|]. split; [auto with iscsi|]. split; [|split; [|done]].
  - rewrite byte_at_insert_eq by (rewrite length_zeros; unfold SCSI_CDB_MAX_SIZE; lia).
    by apply u8_small.
  - intros i Hi. rewrite byte_at_insert_ne by lia. apply byte_at_zeros.
Qed.

Lemma building_store op n f task :
  (forall c, length c = SCSI_CDB_MAX_SIZE -> bytes_ok c ->
     length (f c) = SCSI_CDB_MAX_SIZE /\ bytes_ok (f c) /\
     byte_at (f c) 0 = byte_at c 0 /\
     forall i, (n <= i)%nat -> byte_at (f c) i = byte_at c i) ->
  building op n task -> building op n (task <| cdb ::= f |>).
Proof.
  intros Hf (Hl & Hb & H0 & Ht & Hd & He). destruct (Hf _ Hl Hb) as (Hl' & Hb' & H0' & Ht').
  repeat split; cbn; try done; [by rewrite H0'|]. intros i Hi. rewrite Ht' by done. auto.
Qed.

Lemma building_set op n i v task : (0 < i < n)%nat ->
  building op n task -> building op n (cdb_set i v task).
Proof.
  intros Hi. apply building_store. intros c Hl Hb. repeat split;
    [by rewrite length_insert|auto with iscsi|by rewrite byte_at_insert_ne by lia|].
  intros j Hj. by rewrite byte_at_insert_ne by lia.
Qed.

Lemma building_or op n i v task : (0 < i < n)%nat ->
  building op n task -> building op n (cdb_or i v task).
Proof.
  intros Hi. apply building_store. intros c Hl Hb. repeat split;
    [by rewrite length_insert|auto with iscsi|by rewrite byte_at_insert_ne by lia|].
  intros j Hj. by rewrite byte_at_insert_ne by lia.
Qed.

Lemma building_set16 op n i v task : (0 < i /\ i + 2 <= n)%nat ->
  building op n task -> building op n (cdb_set16 i v task).
Proof.
  intros Hi. apply building_store. intros c Hl Hb. repeat split;
    [by rewrite length_scsi_set_uint16|auto with iscsi|by rewrite byte_at_set16_ne by lia|].
  intros j Hj. by rewrite byte_at_set16_ne by lia.
Qed.

Lemma building_set32 op n i v task : (0 < i /\ i + 4 <= n)%nat ->
  building op n task -> building op n (cdb_set32 i v task).
Proof.
  intros Hi. apply building_store. intros c Hl Hb. repeat split;
    [by rewrite length_scsi_set_uint32|auto with iscsi|by rewrite byte_at_set32_ne by lia|].
  intros j Hj. by rewrite byte_at_set32_ne by lia.
Qed.

Lemma building_cif op n b f task :
  (building op n task -> building op n (f task)) ->
  building op n task -> building op n (cif b f task).
Proof. unfold cif. destruct (truth b); auto. Qed.

Lemma building_if op n (b : bool) t1 t2 :
  building op n t1 -> building op n t2 -> building op n (if b then t1 else t2).
Proof. by destruct b. Qed.

Lemma building_wf op n task task' : building op n task ->
  Z.of_nat n = group_size op -> cdb task' = cdb task -> cdb_size task' = Z.of_nat n ->
  (xfer_dir task' = SCSI_XFER_NONE \/ xfer_dir task' = SCSI_XFER_READ \/
   xfer_dir task' = SCSI_XFER_WRITE) ->
  (xfer_dir task' = SCSI_XFER_NONE -> expxferlen task' = 0) -> cdb_wf task'.
Proof.
  intros (Hl & Hb & H0 & Ht & _) Hg Hc Hs Hd Hn. split; rewrite ?Hc; try done.
  - by rewrite Hs, H0.
  - rewrite Hs. intros i Hi. apply Ht. lia.
Qed.

Lemma finish_dir_wf op n len dir len' task : building op n task ->
  Z.of_nat n = group_size op ->
  dir = SCSI_XFER_READ \/ dir = SCSI_XFER_WRITE -> (len = 0 -> i32 len' = 0) ->
  cdb_wf (finish (Z.of_nat n) (dir_if len dir) len' task).
Proof.
  intros Hb Hg Hdir Hl. eapply building_wf; [done..| |]; cbn; unfold dir_if, truth.
  - destruct (negb _); [|by left]. destruct Hdir; auto.
  - destruct (Z.eqb_spec len 0); cbn; [auto|]. intros E. exfalso.
    destruct Hdir; subst dir; discriminate E.
Qed.

Lemma finish_wf op n dir len task : building op n task -> Z.of_nat n = group_size op ->
  (dir = SCSI_XFER_NONE /\ len = 0) \/ dir = SCSI_XFER_READ \/ dir = SCSI_XFER_WRITE ->
  cdb_wf (finish (Z.of_nat n) dir len task).
Proof.
  intros Hb Hg Hdir. eapply building_wf; [done..| |]; cbn.
  - destruct Hdir as [[-> _]|[->| ->]]; auto.
  - destruct Hdir as [[_ ->]|[->| ->]]; [done|discriminate..].
Qed.

Lemma finish_verify_wf op n xferlen bytchk task : building op n task ->
  Z.of_nat n = group_size op -> cdb_wf (finish_verify (Z.of_nat n) xferlen bytchk task).
Proof.
  intros Hb Hg. unfold finish_verify. destruct (_ && _); eapply finish_wf; eauto.
Qed.

Create HintDb builders discriminated.

(** Prove [building] of a term made of the stores, from the outside in. *)
Ltac build_steps :=
  lazymatch goal with
  | H : building ?o ?n ?t |- building ?o ?n ?t => exact H
  | |- building _ _ (cdb_set 0 _ _) =>
      apply building_start; [lia|split; vm_compute; congruence|reflexivity..]
  | |- building _ _ (cdb_set _ _ _) => apply building_set; [lia|build_steps]
  | |- building _ _ (cdb_or _ _ _) => apply building_or; [lia|build_steps]
  | |- building _ _ (cdb_set16 _ _ _) => apply building_set16; [lia|build_steps]
  | |- building _ _ (cdb_set32 _ _ _) => apply building_set32; [lia|build_steps]
  | |- building _ _ (cif _ _ _) =>
      apply building_cif; [let H := fresh in intros H; build_steps|build_steps]
  | |- building _ _ (if _ then _ else _) => apply building_if; build_steps
  end.

#[export] Hint Unfold scsi_cdb_testunitready scsi_cdb_sanitize scsi_reportluns_cdb
  scsi_cdb_readcapacity10 scsi_cdb_readdefectdata10 scsi_cdb_readdefectdata12
  scsi_cdb_readtoc scsi_cdb_reserve6 scsi_cdb_release6
  scsi_cdb_report_target_port_groups scsi_cdb_report_supported_opcodes scsi_cdb_inquiry
  scsi_cdb_unmap scsi_cdb_persistent_reserve_in scsi_cdb_writesame10
  scsi_cdb_writesame16 scsi_cdb_modesense6 scsi_cdb_modesense10 scsi_cdb_modeselect6
  scsi_cdb_modeselect10 scsi_cdb_startstopunit scsi_cdb_preventallow
  scsi_cdb_synchronizecache10 scsi_cdb_synchronizecache16 scsi_cdb_prefetch10
  scsi_cdb_prefetch16 scsi_cdb_serviceactionin16 scsi_cdb_readcapacity16
  scsi_cdb_get_lba_status scsi_cdb_extended_copy scsi_cdb_receive_copy_results
  scsi_cdb_read6 scsi_cdb_read10 scsi_cdb_read12 scsi_cdb_read16 scsi_cdb_write10
  scsi_cdb_write12 scsi_cdb_write16 scsi_cdb_writeatomic16 scsi_cdb_orwrite
  scsi_cdb_compareandwrite scsi_cdb_verify10 scsi_cdb_verify12 scsi_cdb_verify16
  scsi_cdb_writeverify10 scsi_cdb_writeverify12 scsi_cdb_writeverify16
  scsi_cdb_persistent_reserve_out : builders.

(** The last step of a constructor, by its shape. *)
Ltac finish_build :=
  match goal with
  | H : Ret _ = Ret (Some _) |- _ => injection H as <-
  | H : Some _ = Some _ |- _ => injection H as <-
  end;
  lazymatch goal with
  | |- cdb_wf (finish ?n (dir_if _ _) _ _) =>
      change n with (Z.of_nat (Z.to_nat n)); eapply finish_dir_wf
  | |- cdb_wf (finish ?n _ _ _) =>
      change n with (Z.of_nat (Z.to_nat n)); eapply finish_wf
  | |- cdb_wf (finish_verify ?n _ _ _) =>
      change n with (Z.of_nat (Z.to_nat n)); eapply finish_verify_wf
  end.

(** Open a constructor: its body, its early returns and its division. *)
Ltac open_build H :=
  cbn [build] in H; autounfold with builders in H; unfold mret, res_ret in H;
  cbn zeta in H;
  repeat match type of H with
  | context [if ?b then None else _] => destruct b eqn:?; [discriminate H|]
  | context [if ?b then Ret None else _] => destruct b eqn:?; [discriminate H|]
  | context [div_u32 ?x ?b] =>
      unfold div_u32 in H; destruct (u32 b =? 0); [discriminate H|];
      cbn [mbind res_bind mret res_ret] in H
  end.

Lemma reserve_release_wf op : byte_ok op -> group_size op = 6 ->
  cdb_wf ((cdb_set 0 op new_task) <| cdb_size := 6 |> <| xfer_dir := SCSI_XFER_NONE |>).
Proof.
  intros Hop Hg. eapply (building_wf op 6 (cdb_set 0 op new_task));
    [by apply building_start; [lia|..]|by rewrite Hg|by auto..].
Qed.

Lemma extended_copy_wf ok len task :
  scsi_cdb_extended_copy ok len = Some task -> cdb_wf task.
Proof.
  intros H. open_build H. injection H as <-.
  match goal with |- context [cdb_set 13 ?v ?t] => set (built := cdb_set 13 v t) end.
  assert (Hb : building SCSI_OPCODE_EXTENDED_COPY 16 built) by (subst built; build_steps).
  unfold cif, truth. destruct (Z.eqb_spec len 0) as [->|Hlen]; cbn [negb].
  - eapply building_wf; [exact Hb|reflexivity|reflexivity|reflexivity|..]; cbn.
    + by left.
    + done.
  - eapply building_wf; [exact Hb|reflexivity|reflexivity|reflexivity|..]; cbn; [by auto|done].
Qed.

Lemma persistent_reserve_out_wf ok1 ok2 ok3 buf_at sa scope type param r :
  scsi_cdb_persistent_reserve_out ok1 ok2 ok3 buf_at sa scope type param = Some r ->
  cdb_wf r.1.
Proof.
  intros H. open_build H. destruct ok2; [|done]. cbn in H.
  destruct (negb (pr_out_basic_sa sa)); [done|]. destruct ok3; [|done].
  cbn -[finish cdb_set cdb_or cdb_set32 Z.land Z.lor Z.shiftl] in H. injection H as <-. cbn [fst].
  match goal with |- context [cdb_set32 5 ?v ?t] =>
    assert (Hb : building SCSI_OPCODE_PERSISTENT_RESERVE_OUT 10 (cdb_set32 5 v t))
      by build_steps end.
  eapply building_wf; [exact Hb|reflexivity|reflexivity|reflexivity|..]; cbn; [by auto|done].
Qed.
Lemma set32_insert_same c off v w : scsi_set_uint32 (<[off := v]> c) off w = scsi_set_uint32 c off w.
Proof. unfold scsi_set_uint32. by rewrite list_insert_insert_eq. Qed.

Lemma cdb_set32_or task off v w : cdb_set32 off w (cdb_or off v task) = cdb_set32 off w task.
Proof.
  unfold cdb_set32, cdb_or, upd. destruct task. cbn. f_equal. apply set32_insert_same.
Qed.

Lemma cdb_set32_cif_or task off b v w :
  cdb_set32 off w (cif b (cdb_or off v) task) = cdb_set32 off w task.
Proof. unfold cif. destruct (truth b); [apply cdb_set32_or|done]. Qed.

(** ** Properties *)

Lemma built_wf (ok : bool) (req : cdb_request) (task : scsi_task)
  (H : build ok req = Ret (Some task)) : cdb_wf task.
Proof.
  destruct req.
  all: first
    [ injection H as H; by eapply extended_copy_wf
    | injection H as H; apply fmap_Some in H as (r & H & ->);
      by eapply persistent_reserve_out_wf
    | open_build H; finish_build; [build_steps|reflexivity|..]; first [by auto|by intros ->]
    | open_build H; injection H as <-; by apply reserve_release_wf ].
Qed.

(** C30: Every CDB constructor produces a well-formed task: a 16-byte CDB of bytes, of
    the size the opcode group code prescribes, zero beyond that size, with a legal
    transfer direction and no expected data when the direction is NONE. *)
Theorem build_wf (ok : bool) (req : cdb_request) (task : scsi_task)
  (H : build ok req = Ret (Some task)) : cdb_wf task.
Proof. exact (built_wf ok req task H). Qed.

Lemma build_wf_witness :
  exists task, build true (Req_read16 0x123456789 4096 512 1 0 1 0 3) = Ret (Some task) /\
    cdb_wf task.
Proof.
  eexists. split; [reflexivity|].
  eapply (build_wf true (Req_read16 0x123456789 4096 512 1 0 1 0 3)). reflexivity.
Defined.

(** The CDB of READ DEFECT DATA(12) does not depend on the plist, glist and format
    arguments: the address descriptor index is stored over the byte that carries them.
    *)
Theorem readdefectdata12_ignores_format (ok : bool)
  (req_plist req_glist defect_list_format address_descriptor_index alloc_len : Z) :
  scsi_cdb_readdefectdata12 ok req_plist req_glist defect_list_format
    address_descriptor_index alloc_len =
  scsi_cdb_readdefectdata12 ok 0 0 0 address_descriptor_index alloc_len.
Proof.
  unfold scsi_cdb_readdefectdata12. destruct (negb ok); [done|]. cbn zeta.
  by rewrite !cdb_set32_or, !cdb_set32_cif_or.
Qed.
