(* ===== verification/CdbUnmarshall.v ===== *)
(** Decoding of CDBs: [scsi_cdb_unmarshall] of src/lib/scsi-lowlevel.c and the
    structures it fills (src/include/scsi-lowlevel.h).

    The pointer returned is one of the structures of [cdb_view]; an
    assignment to a field keeps the width of the field.  The theorems are
    round trips: decoding what the constructor of Cdb encoded gives its
    arguments back, each reduced to the field of the CDB that carries it. *)

From S2P Require Import Prelude Bytes Task Cdb.

(** ** Structures *)

Record scsi_read6_cdb := {
  r6_opcode : Z;
  r6_lba : Z;
  r6_transfer_length : Z;
  r6_control : Z
}.

Record scsi_read10_cdb := {
  r10_opcode : Z;
  r10_rdprotect : Z;
  r10_dpo : Z;
  r10_fua : Z;
  r10_fua_nv : Z;
  r10_lba : Z;
  r10_group : Z;
  r10_transfer_length : Z;
  r10_control : Z
}.

Record scsi_read12_cdb := {
  r12_opcode : Z;
  r12_rdprotect : Z;
  r12_dpo : Z;
  r12_fua : Z;
  r12_rarc : Z;
  r12_fua_nv : Z;
  r12_lba : Z;
  r12_transfer_length : Z;
  r12_group : Z;
  r12_control : Z
}.

Record scsi_read16_cdb := {
  r16_opcode : Z;
  r16_rdprotect : Z;
  r16_dpo : Z;
  r16_fua : Z;
  r16_rarc : Z;
  r16_fua_nv : Z;
  r16_lba : Z;
  r16_transfer_length : Z;
  r16_group : Z;
  r16_control : Z
}.

Record scsi_verify10_cdb := {
  v10_opcode : Z;
  v10_vrprotect : Z;
  v10_dpo : Z;
  v10_bytchk : Z;
  v10_lba : Z;
  v10_group : Z;
  v10_verification_length : Z;
  v10_control : Z
}.

Record scsi_verify12_cdb := {
  v12_opcode : Z;
  v12_vrprotect : Z;
  v12_dpo : Z;
  v12_bytchk : Z;
  v12_lba : Z;
  v12_verification_length : Z;
  v12_group : Z;
  v12_control : Z
}.

Record scsi_verify16_cdb := {
  v16_opcode : Z;
  v16_vrprotect : Z;
  v16_dpo : Z;
  v16_bytchk : Z;
  v16_lba : Z;
  v16_verification_length : Z;
  v16_group : Z;
  v16_control : Z
}.

Record scsi_write10_cdb := {
  w10_opcode : Z;
  w10_wrprotect : Z;
  w10_dpo : Z;
  w10_fua : Z;
  w10_fua_nv : Z;
  w10_lba : Z;
  w10_group : Z;
  w10_transfer_length : Z;
  w10_control : Z
}.

Record scsi_write12_cdb := {
  w12_opcode : Z;
  w12_wrprotect : Z;
  w12_dpo : Z;
  w12_fua : Z;
  w12_fua_nv : Z;
  w12_lba : Z;
  w12_transfer_length : Z;
  w12_group : Z;
  w12_control : Z
}.

Record scsi_write16_cdb := {
  w16_opcode : Z;
  w16_wrprotect : Z;
  w16_dpo : Z;
  w16_fua : Z;
  w16_fua_nv : Z;
  w16_lba : Z;
  w16_transfer_length : Z;
  w16_group : Z;
  w16_control : Z
}.

Record scsi_writeatomic16_cdb := {
  wa16_opcode : Z;
  wa16_wrprotect : Z;
  wa16_dpo : Z;
  wa16_fua : Z;
  wa16_lba : Z;
  wa16_transfer_length : Z;
  wa16_group : Z;
  wa16_control : Z
}.

Inductive cdb_view :=
| View_read6 (v : scsi_read6_cdb)
| View_read10 (v : scsi_read10_cdb)
| View_read12 (v : scsi_read12_cdb)
| View_read16 (v : scsi_read16_cdb)
| View_verify10 (v : scsi_verify10_cdb)
| View_verify12 (v : scsi_verify12_cdb)
| View_verify16 (v : scsi_verify16_cdb)
| View_write10 (v : scsi_write10_cdb)
| View_write12 (v : scsi_write12_cdb)
| View_write16 (v : scsi_write16_cdb)
| View_writeatomic16 (v : scsi_writeatomic16_cdb).

(** ** Decoders *)

Definition scsi_read6_cdb_unmarshall (malloc_ok : bool) (task : scsi_task)
  : option (scsi_read6_cdb * scsi_task) :=
  task ← scsi_malloc malloc_ok 12 task;
  let c := cdb task in
  Some ({|
    r6_opcode := SCSI_OPCODE_READ6;
    r6_lba := u32 (scsi_get_uint32 c 0 &&& 0x001fffff);
    r6_transfer_length := u16 (byte_at c 4);
    r6_control := u8 (byte_at c 5)
  |}, task).

Definition scsi_read10_cdb_unmarshall (malloc_ok : bool) (task : scsi_task)
  : option (scsi_read10_cdb * scsi_task) :=
  task ← scsi_malloc malloc_ok 20 task;
  let c := cdb task in
  Some ({|
    r10_opcode := SCSI_OPCODE_READ10;
    r10_rdprotect := u8 ((byte_at c 1 >> 5) &&& 0x7);
    r10_dpo := u8 (notnot (byte_at c 1 &&& 0x10));
    r10_fua := u8 (notnot (byte_at c 1 &&& 0x08));
    r10_fua_nv := u8 (notnot (byte_at c 1 &&& 0x02));
    r10_lba := u32 (scsi_get_uint32 c 2);
    r10_group := u8 (byte_at c 6 &&& 0x1f);
    r10_transfer_length := u16 (scsi_get_uint16 c 7);
    r10_control := u8 (byte_at c 9)
  |}, task).

Definition scsi_read12_cdb_unmarshall (malloc_ok : bool) (task : scsi_task)
  : option (scsi_read12_cdb * scsi_task) :=
  task ← scsi_malloc malloc_ok 24 task;
  let c := cdb task in
  Some ({|
    r12_opcode := SCSI_OPCODE_READ12;
    r12_rdprotect := u8 ((byte_at c 1 >> 5) &&& 0x7);
    r12_dpo := u8 (notnot (byte_at c 1 &&& 0x10));
    r12_fua := u8 (notnot (byte_at c 1 &&& 0x08));
    r12_rarc := u8 (notnot (byte_at c 1 &&& 0x04));
    r12_fua_nv := u8 (notnot (byte_at c 1 &&& 0x02));
    r12_lba := u32 (scsi_get_uint32 c 2);
    r12_transfer_length := u32 (scsi_get_uint32 c 6);
    r12_group := u8 (byte_at c 10 &&& 0x1f);
    r12_control := u8 (byte_at c 11)
  |}, task).

Definition scsi_read16_cdb_unmarshall (malloc_ok : bool) (task : scsi_task)
  : option (scsi_read16_cdb * scsi_task) :=
  task ← scsi_malloc malloc_ok 32 task;
  let c := cdb task in
  Some ({|
    r16_opcode := SCSI_OPCODE_READ16;
    r16_rdprotect := u8 ((byte_at c 1 >> 5) &&& 0x7);
    r16_dpo := u8 (notnot (byte_at c 1 &&& 0x10));
    r16_fua := u8 (notnot (byte_at c 1 &&& 0x08));
    r16_rarc := u8 (notnot (byte_at c 1 &&& 0x04));
    r16_fua_nv := u8 (notnot (byte_at c 1 &&& 0x02));
    r16_lba := u64 (scsi_get_uint64 c 2);
    r16_transfer_length := u32 (scsi_get_uint32 c 10);
    r16_group := u8 (byte_at c 14 &&& 0x1f);
    r16_control := u8 (byte_at c 15)
  |}, task).

Definition scsi_verify10_cdb_unmarshall (malloc_ok : bool) (task : scsi_task)
  : option (scsi_verify10_cdb * scsi_task) :=
  task ← scsi_malloc malloc_ok 20 task;
  let c := cdb task in
  Some ({|
    v10_opcode := SCSI_OPCODE_VERIFY10;
    v10_vrprotect := u8 ((byte_at c 1 >> 5) &&& 0x7);
    v10_dpo := u8 (notnot (byte_at c 1 &&& 0x10));
    v10_bytchk := u8 (notnot (byte_at c 1 &&& 0x02));
    v10_lba := u32 (scsi_get_uint32 c 2);
    v10_group := u8 (byte_at c 6 &&& 0x1f);
    v10_verification_length := u16 (scsi_get_uint16 c 7);
    v10_control := u8 (byte_at c 9)
  |}, task).

Definition scsi_verify12_cdb_unmarshall (malloc_ok : bool) (task : scsi_task)
  : option (scsi_verify12_cdb * scsi_task) :=
  task ← scsi_malloc malloc_ok 20 task;
  let c := cdb task in
  Some ({|
    v12_opcode := SCSI_OPCODE_VERIFY12;
    v12_vrprotect := u8 ((byte_at c 1 >> 5) &&& 0x7);
    v12_dpo := u8 (notnot (byte_at c 1 &&& 0x10));
    v12_bytchk := u8 (notnot (byte_at c 1 &&& 0x02));
    v12_lba := u32 (scsi_get_uint32 c 2);
    v12_verification_length := u32 (scsi_get_uint32 c 6);
    v12_group := u8 (byte_at c 10 &&& 0x1f);
    v12_control := u8 (byte_at c 11)
  |}, task).

Definition scsi_verify16_cdb_unmarshall (malloc_ok : bool) (task : scsi_task)
  : option (scsi_verify16_cdb * scsi_task) :=
  task ← scsi_malloc malloc_ok 24 task;
  let c := cdb task in
  Some ({|
    v16_opcode := SCSI_OPCODE_VERIFY16;
    v16_vrprotect := u8 ((byte_at c 1 >> 5) &&& 0x7);
    v16_dpo := u8 (notnot (byte_at c 1 &&& 0x10));
    v16_bytchk := u8 (notnot (byte_at c 1 &&& 0x02));
    v16_lba := u64 (scsi_get_uint64 c 2);
    v16_verification_length := u32 (scsi_get_uint32 c 10);
    v16_group := u8 (byte_at c 14 &&& 0x1f);
    v16_control := u8 (byte_at c 15)
  |}, task).

Definition scsi_write10_cdb_unmarshall (malloc_ok : bool) (task : scsi_task)
  : option (scsi_write10_cdb * scsi_task) :=
  task ← scsi_malloc malloc_ok 20 task;
  let c := cdb task in
  Some ({|
    w10_opcode := SCSI_OPCODE_WRITE10;
    w10_wrprotect := u8 ((byte_at c 1 >> 5) &&& 0x7);
    w10_dpo := u8 (notnot (byte_at c 1 &&& 0x10));
    w10_fua := u8 (notnot (byte_at c 1 &&& 0x08));
    w10_fua_nv := u8 (notnot (byte_at c 1 &&& 0x02));
    w10_lba := u32 (scsi_get_uint32 c 2);
    w10_group := u8 (byte_at c 6 &&& 0x1f);
    w10_transfer_length := u16 (scsi_get_uint16 c 7);
    w10_control := u8 (byte_at c 9)
  |}, task).

Definition scsi_write12_cdb_unmarshall (malloc_ok : bool) (task : scsi_task)
  : option (scsi_write12_cdb * scsi_task) :=
  task ← scsi_malloc malloc_ok 20 task;
  let c := cdb task in
  Some ({|
    w12_opcode := SCSI_OPCODE_WRITE12;
    w12_wrprotect := u8 ((byte_at c 1 >> 5) &&& 0x7);
    w12_dpo := u8 (notnot (byte_at c 1 &&& 0x10));
    w12_fua := u8 (notnot (byte_at c 1 &&& 0x08));
    w12_fua_nv := u8 (notnot (byte_at c 1 &&& 0x02));
    w12_lba := u32 (scsi_get_uint32 c 2);
    w12_transfer_length := u32 (scsi_get_uint32 c 6);
    w12_group := u8 (byte_at c 10 &&& 0x1f);
    w12_control := u8 (byte_at c 11)
  |}, task).

Definition scsi_write16_cdb_unmarshall (malloc_ok : bool) (task : scsi_task)
  : option (scsi_write16_cdb * scsi_task) :=
  task ← scsi_malloc malloc_ok 20 task;
  let c := cdb task in
  Some ({|
    w16_opcode := SCSI_OPCODE_WRITE16;
    w16_wrprotect := u8 ((byte_at c 1 >> 5) &&& 0x7);
    w16_dpo := u8 (notnot (byte_at c 1 &&& 0x10));
    w16_fua := u8 (notnot (byte_at c 1 &&& 0x08));
    w16_fua_nv := u8 (notnot (byte_at c 1 &&& 0x02));
    w16_lba := u32 (scsi_get_uint64 c 2);
    w16_transfer_length := u32 (scsi_get_uint32 c 10);
    w16_group := u8 (byte_at c 14 &&& 0x1f);
    w16_control := u8 (byte_at c 15)
  |}, task).

Definition scsi_writeatomic16_cdb_unmarshall (malloc_ok : bool) (task : scsi_task)
  : option (scsi_writeatomic16_cdb * scsi_task) :=
  task ← scsi_malloc malloc_ok 16 task;
  let c := cdb task in
  Some ({|
    wa16_opcode := SCSI_OPCODE_WRITE_ATOMIC16;
    wa16_wrprotect := u8 ((byte_at c 1 >> 5) &&& 0x7);
    wa16_dpo := u8 (notnot (byte_at c 1 &&& 0x10));
    wa16_fua := u8 (notnot (byte_at c 1 &&& 0x08));
    wa16_lba := u32 (scsi_get_uint64 c 2);
    wa16_transfer_length := u16 (scsi_get_uint16 c 12);
    wa16_group := u8 (byte_at c 14 &&& 0x1f);
    wa16_control := u8 (byte_at c 15)
  |}, task).

Definition scsi_cdb_unmarshall (malloc_ok : bool) (task : scsi_task) (opcode : Z)
  : option (cdb_view * scsi_task) :=
  let op := byte_at (cdb task) 0 in
  if negb (op =? opcode) then None else
  if op =? SCSI_OPCODE_READ6 then prod_map View_read6 id <$> scsi_read6_cdb_unmarshall malloc_ok task else
  if op =? SCSI_OPCODE_READ10 then prod_map View_read10 id <$> scsi_read10_cdb_unmarshall malloc_ok task else
  if op =? SCSI_OPCODE_READ12 then prod_map View_read12 id <$> scsi_read12_cdb_unmarshall malloc_ok task else
  if op =? SCSI_OPCODE_READ16 then prod_map View_read16 id <$> scsi_read16_cdb_unmarshall malloc_ok task else
  if op =? SCSI_OPCODE_VERIFY10 then prod_map View_verify10 id <$> scsi_verify10_cdb_unmarshall malloc_ok task else
  if op =? SCSI_OPCODE_VERIFY12 then prod_map View_verify12 id <$> scsi_verify12_cdb_unmarshall malloc_ok task else
  if op =? SCSI_OPCODE_VERIFY16 then prod_map View_verify16 id <$> scsi_verify16_cdb_unmarshall malloc_ok task else
  if op =? SCSI_OPCODE_WRITE10 then prod_map View_write10 id <$> scsi_write10_cdb_unmarshall malloc_ok task else
  if op =? SCSI_OPCODE_WRITE12 then prod_map View_write12 id <$> scsi_write12_cdb_unmarshall malloc_ok task else
  if op =? SCSI_OPCODE_WRITE16 then prod_map View_write16 id <$> scsi_write16_cdb_unmarshall malloc_ok task else
  if op =? SCSI_OPCODE_WRITE_ATOMIC16 then prod_map View_writeatomic16 id <$> scsi_writeatomic16_cdb_unmarshall malloc_ok task else
  None.

(** ** From stores to bit expressions *)

(** A conditional store as a store of a conditional value. *)
Definition flag (b v : Z) : Z := if truth b then v else 0.

Lemma cif_or op n b i v task : building op n task -> (i < 16)%nat ->
  cif b (cdb_or i v) task = cdb_or i (flag b v) task.
Proof.
  intros (Hl & Hb & _) Hi. unfold cif, flag. destruct (truth b); [done|].
  destruct task. unfold cdb_or, upd. cbn in *. f_equal. symmetry. apply list_insert_id.
  unfold byte_at. rewrite Z.lor_0_r.
  destruct (lookup_lt_is_Some_2 cdb i) as [x Hx]; [rewrite Hl; unfold SCSI_CDB_MAX_SIZE; lia|].
  rewrite Hx. cbn. by rewrite u8_small by apply (Forall_lookup_1 _ _ _ _ Hb Hx).
Qed.

Lemma truth_land_pow2 x k : 0 <= k -> truth (x &&& 2 ^ k) = Z.testbit x k.
Proof.
  intros Hk. assert (Ex : x &&& 2 ^ k = if Z.testbit x k then 2 ^ k else 0).
  { apply Z.bits_inj'. intros i Hi. rewrite Z.land_spec, Z.pow2_bits_eqb by done.
    destruct (Z.eqb_spec k i) as [->|Hne].
    - destruct (Z.testbit x i); cbn; [by rewrite Z.pow2_bits_true|by rewrite Z.testbit_0_l].
    - rewrite andb_false_r. destruct (Z.testbit x k); [|by rewrite Z.testbit_0_l].
      by rewrite Z.pow2_bits_false. }
  unfold truth. rewrite Ex. destruct (Z.testbit x k); [|done].
  pose proof (Z.pow_pos_nonneg 2 k). destruct (Z.eqb_spec (2 ^ k) 0); [lia|done].
Qed.

(** [!!(x & mask)] for a one-bit mask that the store of [flag b mask] set. *)
Lemma notnot_land_pow2 x k b : 0 <= k -> Z.testbit x k = truth b ->
  u8 (notnot (x &&& 2 ^ k)) = notnot b.
Proof.
  intros Hk Hx. unfold notnot. rewrite truth_land_pow2, Hx by done. by destruct (truth b).
Qed.

(** The bytes of the CDB of a term made of the stores, as expressions. *)
Ltac eval_cdb :=
  cbv [cdb_or cdb_set cdb_set16 cdb_set32 finish finish_verify upd eta eta_scsi_task
       new_task cdb zeros replicate SCSI_CDB_MAX_SIZE insert list_insert list_alter byte_at
       lookup list_lookup default from_option id scsi_set_uint16 scsi_set_uint32 Nat.add
       status cdb_size xfer_dir expxferlen residual_status residual sense datain mem
       task_ptr task_itt task_cmdsn task_lun iovector_in iovector_out
       scsi_get_uint16 scsi_get_uint32 scsi_get_uint64].

Ltac cifs op n := repeat (rewrite (cif_or op n) by (build_steps || lia)).

(** A group of bits or a number of a decoded CDB. *)
Ltac field_bits n := eval_cdb; unfold flag;
  repeat match goal with |- context [truth ?b] => destruct (truth b) end; zbits n.

(** A one-bit flag, at bit [k] of its byte. *)
Ltac field_flag k :=
  eval_cdb; apply (notnot_land_pow2 _ k); [lia|]; unfold flag;
  repeat match goal with |- context [truth ?b] => destruct (truth b) end;
  bits_norm; bits_finish.

Lemma flag_vprotect v : flag v ((v << 5) &&& 0xe0) = (v << 5) &&& 0xe0.
Proof.
  unfold flag, truth. destruct (Z.eqb_spec v 0) as [->|]; [|done]. by rewrite Z.shiftl_0_l.
Qed.

(** The decoder selected by the opcode. *)
Ltac dispatch Hop := unfold scsi_cdb_unmarshall; rewrite Hop; reflexivity.

Lemma unmarshall_read6 task : byte_at (cdb task) 0 = SCSI_OPCODE_READ6 ->
  fst <$> scsi_cdb_unmarshall true task SCSI_OPCODE_READ6 =
  (fun r => View_read6 r.1) <$> scsi_read6_cdb_unmarshall true task.
Proof. intros Hop. dispatch Hop. Qed.

Lemma unmarshall_read10 task : byte_at (cdb task) 0 = SCSI_OPCODE_READ10 ->
  fst <$> scsi_cdb_unmarshall true task SCSI_OPCODE_READ10 =
  (fun r => View_read10 r.1) <$> scsi_read10_cdb_unmarshall true task.
Proof. intros Hop. dispatch Hop. Qed.

Lemma unmarshall_read12 task : byte_at (cdb task) 0 = SCSI_OPCODE_READ12 ->
  fst <$> scsi_cdb_unmarshall true task SCSI_OPCODE_READ12 =
  (fun r => View_read12 r.1) <$> scsi_read12_cdb_unmarshall true task.
Proof. intros Hop. dispatch Hop. Qed.

Lemma unmarshall_read16 task : byte_at (cdb task) 0 = SCSI_OPCODE_READ16 ->
  fst <$> scsi_cdb_unmarshall true task SCSI_OPCODE_READ16 =
  (fun r => View_read16 r.1) <$> scsi_read16_cdb_unmarshall true task.
Proof. intros Hop. dispatch Hop. Qed.

Lemma unmarshall_verify10 task : byte_at (cdb task) 0 = SCSI_OPCODE_VERIFY10 ->
  fst <$> scsi_cdb_unmarshall true task SCSI_OPCODE_VERIFY10 =
  (fun r => View_verify10 r.1) <$> scsi_verify10_cdb_unmarshall true task.
Proof. intros Hop. dispatch Hop. Qed.

Lemma unmarshall_verify12 task : byte_at (cdb task) 0 = SCSI_OPCODE_VERIFY12 ->
  fst <$> scsi_cdb_unmarshall true task SCSI_OPCODE_VERIFY12 =
  (fun r => View_verify12 r.1) <$> scsi_verify12_cdb_unmarshall true task.
Proof. intros Hop. dispatch Hop. Qed.

Lemma unmarshall_verify16 task : byte_at (cdb task) 0 = SCSI_OPCODE_VERIFY16 ->
  fst <$> scsi_cdb_unmarshall true task SCSI_OPCODE_VERIFY16 =
  (fun r => View_verify16 r.1) <$> scsi_verify16_cdb_unmarshall true task.
Proof. intros Hop. dispatch Hop. Qed.

Lemma unmarshall_write10 task : byte_at (cdb task) 0 = SCSI_OPCODE_WRITE10 ->
  fst <$> scsi_cdb_unmarshall true task SCSI_OPCODE_WRITE10 =
  (fun r => View_write10 r.1) <$> scsi_write10_cdb_unmarshall true task.
Proof. intros Hop. dispatch Hop. Qed.

Lemma unmarshall_write12 task : byte_at (cdb task) 0 = SCSI_OPCODE_WRITE12 ->
  fst <$> scsi_cdb_unmarshall true task SCSI_OPCODE_WRITE12 =
  (fun r => View_write12 r.1) <$> scsi_write12_cdb_unmarshall true task.
Proof. intros Hop. dispatch Hop. Qed.

Lemma unmarshall_write16 task : byte_at (cdb task) 0 = SCSI_OPCODE_WRITE16 ->
  fst <$> scsi_cdb_unmarshall true task SCSI_OPCODE_WRITE16 =
  (fun r => View_write16 r.1) <$> scsi_write16_cdb_unmarshall true task.
Proof. intros Hop. dispatch Hop. Qed.

Lemma unmarshall_writeatomic16 task : byte_at (cdb task) 0 = SCSI_OPCODE_WRITE_ATOMIC16 ->
  fst <$> scsi_cdb_unmarshall true task SCSI_OPCODE_WRITE_ATOMIC16 =
  (fun r => View_writeatomic16 r.1) <$> scsi_writeatomic16_cdb_unmarshall true task.
Proof. intros Hop. dispatch Hop. Qed.


Lemma div_u32_ok x b : u32 b <> 0 -> div_u32 x b = Ret (x / u32 b).
Proof. intros Hb. unfold div_u32. destruct (Z.eqb_spec (u32 b) 0); done. Qed.

(** Build, normalise the stores, select the decoder and compare the fields. *)
Ltac build_then op n lem decoder :=
  cbn [negb]; rewrite ?div_u32_ok by assumption; cbn [mbind res_bind];
  eexists; split; [reflexivity|]; cifs op n; rewrite ?flag_vprotect;
  unfold finish_verify;
  repeat match goal with |- context [if ?a && ?b then _ else _] => destruct (a && b) end;
  rewrite lem by reflexivity; unfold decoder, scsi_malloc;
  cbn [fmap option_fmap option_map mbind option_bind fst]; f_equal; f_equal; f_equal.

(** A one-bit flag that no store sets. *)
Ltac field_unset k :=
  eval_cdb; apply (notnot_land_pow2 _ k 0); [lia|]; change (truth 0) with false; unfold flag;
  repeat match goal with |- context [truth ?b] => destruct (truth b) end;
  bits_norm; bits_finish.

(** Big-endian numbers, as [eval_cdb] spells them. *)
Definition be32 (a : Z) : Z :=
  u32 ((u32 ((u32 (u8 (a >> 24) << 8) ||| u8 (a >> 16)) << 8) ||| u8 (a >> 8)) << 8)
    ||| u8 a.

Lemma be32_eq a : be32 a = u32 a.
Proof. unfold be32. zbits 32. Qed.

Lemma be32_field a : 0 <= a < 2 ^ 32 -> u32 (be32 a) = a.
Proof. intros Ha. rewrite be32_eq, !u32_small by (rewrite ?u32_small; done). done. Qed.

Lemma be64_eq a : 0 <= a < 2 ^ 64 ->
  u64 (be32 (a >> 32) << 32) ||| be32 (a &&& 0xffffffff) = a.
Proof. intros Ha. rewrite !be32_eq. zbits 64. Qed.

Lemma be64_field a : 0 <= a < 2 ^ 64 ->
  u64 (u64 (be32 (a >> 32) << 32) ||| be32 (a &&& 0xffffffff)) = a.
Proof. intros Ha. rewrite be64_eq by done. by apply u64_small. Qed.

Lemma be64_low a : 0 <= a < 2 ^ 64 ->
  u32 (u64 (be32 (a >> 32) << 32) ||| be32 (a &&& 0xffffffff)) = u32 a.
Proof. intros Ha. by rewrite be64_eq by done. Qed.

Ltac solve_field :=
  lazymatch goal with
  | |- u8 (notnot _) = notnot _ => first [field_flag 4 | field_flag 3 | field_flag 1]
  | |- u8 (notnot _) = 0 => field_unset 2
  | |- u8 _ = _ => field_bits 8
  | |- u16 _ = _ => field_bits 16
  | |- u32 _ = u32 _ => eval_cdb; by apply be64_low
  | |- u32 _ = _ => eval_cdb; by apply be32_field
  | |- u64 _ = _ => eval_cdb; by apply be64_field
  | |- _ => reflexivity
  end.

Section Roundtrips.
Variables xferlen blocksize dpo fua fua_nv bytchk group : Z.
Hypothesis Hx : 0 <= xferlen < 2 ^ 32.
Hypothesis Hb : u32 blocksize <> 0.

Let blocks := xferlen / u32 blocksize.

Lemma blocks_range : 0 <= xferlen / u32 blocksize < 2 ^ 32.
Proof.
  pose proof (u32_range blocksize). split; [apply Z.div_pos; lia|].
  apply Z.div_lt_upper_bound; [lia|]. nia.
Qed.

Lemma read10_roundtrip lba rdprotect : 0 <= lba < 2 ^ 32 ->
  exists task,
    scsi_cdb_read10 true lba xferlen blocksize rdprotect dpo fua fua_nv group
      = Ret (Some task) /\
    fst <$> scsi_cdb_unmarshall true task SCSI_OPCODE_READ10 = Some (View_read10 {|
      r10_opcode := SCSI_OPCODE_READ10; r10_rdprotect := rdprotect &&& 7;
      r10_dpo := notnot dpo; r10_fua := notnot fua; r10_fua_nv := notnot fua_nv;
      r10_lba := lba; r10_group := group &&& 0x1f;
      r10_transfer_length := u16 blocks; r10_control := 0 |}).
Proof.
  intros Hlba. pose proof blocks_range as Hbl. unfold scsi_cdb_read10.
  build_then SCSI_OPCODE_READ10 10%nat unmarshall_read10 scsi_read10_cdb_unmarshall.
  all: unfold blocks; generalize dependent (xferlen / u32 blocksize); intros; solve_field.
Qed.

Lemma read12_roundtrip lba rdprotect : 0 <= lba < 2 ^ 32 ->
  exists task,
    scsi_cdb_read12 true lba xferlen blocksize rdprotect dpo fua fua_nv group
      = Ret (Some task) /\
    fst <$> scsi_cdb_unmarshall true task SCSI_OPCODE_READ12 = Some (View_read12 {|
      r12_opcode := SCSI_OPCODE_READ12; r12_rdprotect := rdprotect &&& 7;
      r12_dpo := notnot dpo; r12_fua := notnot fua; r12_rarc := 0; r12_fua_nv := notnot fua_nv;
      r12_lba := lba; r12_group := group &&& 0x1f;
      r12_transfer_length := blocks; r12_control := 0 |}).
Proof.
  intros Hlba. pose proof blocks_range as Hbl. unfold scsi_cdb_read12.
  build_then SCSI_OPCODE_READ12 12%nat unmarshall_read12 scsi_read12_cdb_unmarshall.
  all: unfold blocks; generalize dependent (xferlen / u32 blocksize); intros; solve_field.
Qed.

Lemma read16_roundtrip lba rdprotect : 0 <= lba < 2 ^ 64 ->
  exists task,
    scsi_cdb_read16 true lba xferlen blocksize rdprotect dpo fua fua_nv group
      = Ret (Some task) /\
    fst <$> scsi_cdb_unmarshall true task SCSI_OPCODE_READ16 = Some (View_read16 {|
      r16_opcode := SCSI_OPCODE_READ16; r16_rdprotect := rdprotect &&& 7;
      r16_dpo := notnot dpo; r16_fua := notnot fua; r16_rarc := 0; r16_fua_nv := notnot fua_nv;
      r16_lba := lba; r16_group := group &&& 0x1f;
      r16_transfer_length := blocks; r16_control := 0 |}).
Proof.
  intros Hlba. pose proof blocks_range as Hbl. unfold scsi_cdb_read16.
  build_then SCSI_OPCODE_READ16 16%nat unmarshall_read16 scsi_read16_cdb_unmarshall.
  all: unfold blocks; generalize dependent (xferlen / u32 blocksize); intros; solve_field.
Qed.

Lemma write10_roundtrip lba wrprotect : 0 <= lba < 2 ^ 32 ->
  exists task,
    scsi_cdb_write10 true lba xferlen blocksize wrprotect dpo fua fua_nv group
      = Ret (Some task) /\
    fst <$> scsi_cdb_unmarshall true task SCSI_OPCODE_WRITE10 = Some (View_write10 {|
      w10_opcode := SCSI_OPCODE_WRITE10; w10_wrprotect := wrprotect &&& 7;
      w10_dpo := notnot dpo; w10_fua := notnot fua; w10_fua_nv := notnot fua_nv;
      w10_lba := lba; w10_group := group &&& 0x1f;
      w10_transfer_length := u16 blocks; w10_control := 0 |}).
Proof.
  intros Hlba. pose proof blocks_range as Hbl. unfold scsi_cdb_write10.
  build_then SCSI_OPCODE_WRITE10 10%nat unmarshall_write10 scsi_write10_cdb_unmarshall.
  all: unfold blocks; generalize dependent (xferlen / u32 blocksize); intros; solve_field.
Qed.

Lemma write12_roundtrip lba wrprotect : 0 <= lba < 2 ^ 32 ->
  exists task,
    scsi_cdb_write12 true lba xferlen blocksize wrprotect dpo fua fua_nv group
      = Ret (Some task) /\
    fst <$> scsi_cdb_unmarshall true task SCSI_OPCODE_WRITE12 = Some (View_write12 {|
      w12_opcode := SCSI_OPCODE_WRITE12; w12_wrprotect := wrprotect &&& 7;
      w12_dpo := notnot dpo; w12_fua := notnot fua; w12_fua_nv := notnot fua_nv;
      w12_lba := lba; w12_group := group &&& 0x1f;
      w12_transfer_length := blocks; w12_control := 0 |}).
Proof.
  intros Hlba. pose proof blocks_range as Hbl. unfold scsi_cdb_write12.
  build_then SCSI_OPCODE_WRITE12 12%nat unmarshall_write12 scsi_write12_cdb_unmarshall.
  all: unfold blocks; generalize dependent (xferlen / u32 blocksize); intros; solve_field.
Qed.

Lemma write16_roundtrip lba wrprotect : 0 <= lba < 2 ^ 64 ->
  exists task,
    scsi_cdb_write16 true lba xferlen blocksize wrprotect dpo fua fua_nv group
      = Ret (Some task) /\
    fst <$> scsi_cdb_unmarshall true task SCSI_OPCODE_WRITE16 = Some (View_write16 {|
      w16_opcode := SCSI_OPCODE_WRITE16; w16_wrprotect := wrprotect &&& 7;
      w16_dpo := notnot dpo; w16_fua := notnot fua; w16_fua_nv := notnot fua_nv;
      w16_lba := u32 lba; w16_group := group &&& 0x1f;
      w16_transfer_length := blocks; w16_control := 0 |}).
Proof.
  intros Hlba. pose proof blocks_range as Hbl. unfold scsi_cdb_write16.
  build_then SCSI_OPCODE_WRITE16 16%nat unmarshall_write16 scsi_write16_cdb_unmarshall.
  all: unfold blocks; generalize dependent (xferlen / u32 blocksize); intros; solve_field.
Qed.

Lemma writeatomic16_roundtrip lba wrprotect : 0 <= lba < 2 ^ 64 ->
  exists task,
    scsi_cdb_writeatomic16 true lba xferlen blocksize wrprotect dpo fua group
      = Ret (Some task) /\
    fst <$> scsi_cdb_unmarshall true task SCSI_OPCODE_WRITE_ATOMIC16 = Some (View_writeatomic16 {|
      wa16_opcode := SCSI_OPCODE_WRITE_ATOMIC16; wa16_wrprotect := wrprotect &&& 7;
      wa16_dpo := notnot dpo; wa16_fua := notnot fua; wa16_lba := u32 lba;
      wa16_group := group &&& 0x1f; wa16_transfer_length := u16 blocks; wa16_control := 0 |}).
Proof.
  intros Hlba. pose proof blocks_range as Hbl. unfold scsi_cdb_writeatomic16.
  build_then SCSI_OPCODE_WRITE_ATOMIC16 16%nat unmarshall_writeatomic16 scsi_writeatomic16_cdb_unmarshall.
  all: unfold blocks; generalize dependent (xferlen / u32 blocksize); intros; solve_field.
Qed.

Lemma verify10_roundtrip lba vprotect : 0 <= lba < 2 ^ 32 ->
  exists task,
    scsi_cdb_verify10 true lba xferlen vprotect dpo bytchk blocksize = Ret (Some task) /\
    fst <$> scsi_cdb_unmarshall true task SCSI_OPCODE_VERIFY10 = Some (View_verify10 {|
      v10_opcode := SCSI_OPCODE_VERIFY10; v10_vrprotect := vprotect &&& 7;
      v10_dpo := notnot dpo; v10_bytchk := notnot bytchk; v10_lba := lba;
      v10_group := 0; v10_verification_length := u16 blocks; v10_control := 0 |}).
Proof.
  intros Hlba. pose proof blocks_range as Hbl. unfold scsi_cdb_verify10.
  build_then SCSI_OPCODE_VERIFY10 10%nat unmarshall_verify10 scsi_verify10_cdb_unmarshall.
  all: unfold blocks; generalize dependent (xferlen / u32 blocksize); intros; solve_field.
Qed.

Lemma verify12_roundtrip lba vprotect : 0 <= lba < 2 ^ 32 ->
  exists task,
    scsi_cdb_verify12 true lba xferlen vprotect dpo bytchk blocksize = Ret (Some task) /\
    fst <$> scsi_cdb_unmarshall true task SCSI_OPCODE_VERIFY12 = Some (View_verify12 {|
      v12_opcode := SCSI_OPCODE_VERIFY12; v12_vrprotect := vprotect &&& 7;
      v12_dpo := notnot dpo; v12_bytchk := notnot bytchk; v12_lba := lba;
      v12_group := 0; v12_verification_length := blocks; v12_control := 0 |}).
Proof.
  intros Hlba. pose proof blocks_range as Hbl. unfold scsi_cdb_verify12.
  build_then SCSI_OPCODE_VERIFY12 12%nat unmarshall_verify12 scsi_verify12_cdb_unmarshall.
  all: unfold blocks; generalize dependent (xferlen / u32 blocksize); intros; solve_field.
Qed.

Lemma verify16_roundtrip lba vprotect : 0 <= lba < 2 ^ 64 ->
  exists task,
    scsi_cdb_verify16 true lba xferlen vprotect dpo bytchk blocksize = Ret (Some task) /\
    fst <$> scsi_cdb_unmarshall true task SCSI_OPCODE_VERIFY16 = Some (View_verify16 {|
      v16_opcode := SCSI_OPCODE_VERIFY16; v16_vrprotect := vprotect &&& 7;
      v16_dpo := notnot dpo; v16_bytchk := notnot bytchk; v16_lba := lba;
      v16_group := 0; v16_verification_length := blocks; v16_control := 0 |}).
Proof.
  intros Hlba. pose proof blocks_range as Hbl. unfold scsi_cdb_verify16.
  build_then SCSI_OPCODE_VERIFY16 16%nat unmarshall_verify16 scsi_verify16_cdb_unmarshall.
  all: unfold blocks; generalize dependent (xferlen / u32 blocksize); intros; solve_field.
Qed.

End Roundtrips.

(** READ6 has a 21-bit LBA and an 8-bit count in which 0 stands for 256. *)
Lemma read6_roundtrip lba xferlen blocksize : u32 blocksize <> 0 -> 0 <= lba <= 0x1fffff ->
  0 <= xferlen / u32 blocksize <= 256 ->
  exists task,
    scsi_cdb_read6 true lba xferlen blocksize = Ret (Some task) /\
    fst <$> scsi_cdb_unmarshall true task SCSI_OPCODE_READ6 = Some (View_read6 {|
      r6_opcode := SCSI_OPCODE_READ6; r6_lba := lba;
      r6_transfer_length := u8 (xferlen / u32 blocksize); r6_control := 0 |}).
Proof.
  intros Hb Hlba Hn. unfold scsi_cdb_read6. rewrite div_u32_ok by done.
  cbn [mbind res_bind negb]. generalize dependent (xferlen / u32 blocksize). intros n Hn.
  rewrite i32_small by lia. rewrite (proj2 (Z.ltb_ge 256 n)) by lia.
  rewrite (proj2 (Z.ltb_ge 0x1fffff lba)) by lia.
  assert (Hl21 : 0 <= lba < 2 ^ 21) by lia. clear Hlba.
  eexists. split; [reflexivity|]. destruct (Z.ltb_spec n 256).
  - rewrite unmarshall_read6 by reflexivity. unfold scsi_read6_cdb_unmarshall, scsi_malloc.
    cbn [fmap option_fmap option_map mbind option_bind fst]. f_equal; f_equal; f_equal;
      try reflexivity.
    + eval_cdb. zbits 32.
    + eval_cdb. zbits 16.
  - assert (n = 256) as -> by lia.
    rewrite unmarshall_read6 by reflexivity. unfold scsi_read6_cdb_unmarshall, scsi_malloc.
    cbn [fmap option_fmap option_map mbind option_bind fst]. f_equal; f_equal; f_equal;
      try reflexivity. eval_cdb. zbits 32.
Qed.

(** ** Properties *)

(** Decoding the CDB built by scsi_cdb_read10/12/16 gives back the LBA, the
    protection, DPO, FUA, FUA_NV and group fields and the block count, each reduced to
    its field width. *)
Theorem read_cdb_roundtrip (lba xferlen blocksize rdprotect dpo fua fua_nv group : Z)
  (Hx : 0 <= xferlen < 2 ^ 32) (Hb : u32 blocksize <> 0)
  (H64 : 0 <= lba < 2 ^ 64) :
  (lba < 2 ^ 32 -> exists task,
    scsi_cdb_read10 true lba xferlen blocksize rdprotect dpo fua fua_nv group
      = Ret (Some task) /\
    fst <$> scsi_cdb_unmarshall true task SCSI_OPCODE_READ10 = Some (View_read10 {|
      r10_opcode := SCSI_OPCODE_READ10; r10_rdprotect := rdprotect &&& 7;
      r10_dpo := notnot dpo; r10_fua := notnot fua; r10_fua_nv := notnot fua_nv;
      r10_lba := lba; r10_group := group &&& 0x1f;
      r10_transfer_length := u16 (xferlen / u32 blocksize); r10_control := 0 |})) /\
  (lba < 2 ^ 32 -> exists task,
    scsi_cdb_read12 true lba xferlen blocksize rdprotect dpo fua fua_nv group
      = Ret (Some task) /\
    fst <$> scsi_cdb_unmarshall true task SCSI_OPCODE_READ12 = Some (View_read12 {|
      r12_opcode := SCSI_OPCODE_READ12; r12_rdprotect := rdprotect &&& 7;
      r12_dpo := notnot dpo; r12_fua := notnot fua; r12_rarc := 0; r12_fua_nv := notnot fua_nv;
      r12_lba := lba; r12_group := group &&& 0x1f;
      r12_transfer_length := (xferlen / u32 blocksize); r12_control := 0 |})) /\
  (exists task,
    scsi_cdb_read16 true lba xferlen blocksize rdprotect dpo fua fua_nv group
      = Ret (Some task) /\
    fst <$> scsi_cdb_unmarshall true task SCSI_OPCODE_READ16 = Some (View_read16 {|
      r16_opcode := SCSI_OPCODE_READ16; r16_rdprotect := rdprotect &&& 7;
      r16_dpo := notnot dpo; r16_fua := notnot fua; r16_rarc := 0; r16_fua_nv := notnot fua_nv;
      r16_lba := lba; r16_group := group &&& 0x1f;
      r16_transfer_length := (xferlen / u32 blocksize); r16_control := 0 |})).
Proof.
  split; [|split; [|by apply read16_roundtrip]]; intros H32;
    [apply read10_roundtrip|apply read12_roundtrip]; first [done|lia].
Qed.

Lemma read_cdb_roundtrip_witness :
  exists task, scsi_cdb_read10 true 0x12345678 8192 512 2 1 0 1 5 = Ret (Some task) /\
    fst <$> scsi_cdb_unmarshall true task SCSI_OPCODE_READ10 = Some (View_read10 {|
      r10_opcode := SCSI_OPCODE_READ10; r10_rdprotect := 2; r10_dpo := 1; r10_fua := 0;
      r10_fua_nv := 1; r10_lba := 0x12345678; r10_group := 5; r10_transfer_length := 16;
      r10_control := 0 |}).
Proof. apply (read_cdb_roundtrip 0x12345678 8192 512 2 1 0 1 5); [lia|discriminate|lia..]. Defined.

(** Decoding the CDB built by scsi_cdb_write10/12 gives back its arguments, each
    reduced to its field width. *)
Theorem write_cdb_roundtrip (lba xferlen blocksize wrprotect dpo fua fua_nv group : Z)
  (Hx : 0 <= xferlen < 2 ^ 32) (Hb : u32 blocksize <> 0)
  (H32 : 0 <= lba < 2 ^ 32) :
  (exists task,
    scsi_cdb_write10 true lba xferlen blocksize wrprotect dpo fua fua_nv group
      = Ret (Some task) /\
    fst <$> scsi_cdb_unmarshall true task SCSI_OPCODE_WRITE10 = Some (View_write10 {|
      w10_opcode := SCSI_OPCODE_WRITE10; w10_wrprotect := wrprotect &&& 7;
      w10_dpo := notnot dpo; w10_fua := notnot fua; w10_fua_nv := notnot fua_nv;
      w10_lba := lba; w10_group := group &&& 0x1f;
      w10_transfer_length := u16 (xferlen / u32 blocksize); w10_control := 0 |})) /\
  (exists task,
    scsi_cdb_write12 true lba xferlen blocksize wrprotect dpo fua fua_nv group
      = Ret (Some task) /\
    fst <$> scsi_cdb_unmarshall true task SCSI_OPCODE_WRITE12 = Some (View_write12 {|
      w12_opcode := SCSI_OPCODE_WRITE12; w12_wrprotect := wrprotect &&& 7;
      w12_dpo := notnot dpo; w12_fua := notnot fua; w12_fua_nv := notnot fua_nv;
      w12_lba := lba; w12_group := group &&& 0x1f;
      w12_transfer_length := (xferlen / u32 blocksize); w12_control := 0 |})).
Proof. split; [by apply write10_roundtrip|by apply write12_roundtrip]. Qed.

Lemma write_cdb_roundtrip_witness :
  exists task, scsi_cdb_write12 true 7 1048576 512 0 0 1 0 33 = Ret (Some task) /\
    fst <$> scsi_cdb_unmarshall true task SCSI_OPCODE_WRITE12 = Some (View_write12 {|
      w12_opcode := SCSI_OPCODE_WRITE12; w12_wrprotect := 0; w12_dpo := 0; w12_fua := 1;
      w12_fua_nv := 0; w12_lba := 7; w12_transfer_length := 2048; w12_group := 1;
      w12_control := 0 |}).
Proof. apply (write_cdb_roundtrip 7 1048576 512 0 0 1 0 33); [lia|discriminate|lia..]. Defined.

(** Decoding the CDB built by scsi_cdb_verify10/12/16 gives back its arguments,
    each reduced to its field width. *)
Theorem verify_cdb_roundtrip (lba xferlen blocksize vprotect dpo bytchk : Z)
  (Hx : 0 <= xferlen < 2 ^ 32) (Hb : u32 blocksize <> 0)
  (H64 : 0 <= lba < 2 ^ 64) :
  (lba < 2 ^ 32 -> exists task,
    scsi_cdb_verify10 true lba xferlen vprotect dpo bytchk blocksize = Ret (Some task) /\
    fst <$> scsi_cdb_unmarshall true task SCSI_OPCODE_VERIFY10 = Some (View_verify10 {|
      v10_opcode := SCSI_OPCODE_VERIFY10; v10_vrprotect := vprotect &&& 7;
      v10_dpo := notnot dpo; v10_bytchk := notnot bytchk; v10_lba := lba;
      v10_group := 0; v10_verification_length := u16 (xferlen / u32 blocksize); v10_control := 0 |})) /\
  (lba < 2 ^ 32 -> exists task,
    scsi_cdb_verify12 true lba xferlen vprotect dpo bytchk blocksize = Ret (Some task) /\
    fst <$> scsi_cdb_unmarshall true task SCSI_OPCODE_VERIFY12 = Some (View_verify12 {|
      v12_opcode := SCSI_OPCODE_VERIFY12; v12_vrprotect := vprotect &&& 7;
      v12_dpo := notnot dpo; v12_bytchk := notnot bytchk; v12_lba := lba;
      v12_group := 0; v12_verification_length := (xferlen / u32 blocksize); v12_control := 0 |})) /\
  (exists task,
    scsi_cdb_verify16 true lba xferlen vprotect dpo bytchk blocksize = Ret (Some task) /\
    fst <$> scsi_cdb_unmarshall true task SCSI_OPCODE_VERIFY16 = Some (View_verify16 {|
      v16_opcode := SCSI_OPCODE_VERIFY16; v16_vrprotect := vprotect &&& 7;
      v16_dpo := notnot dpo; v16_bytchk := notnot bytchk; v16_lba := lba;
      v16_group := 0; v16_verification_length := (xferlen / u32 blocksize); v16_control := 0 |})).
Proof.
  split; [|split; [|by apply verify16_roundtrip]]; intros H32;
    [apply verify10_roundtrip|apply verify12_roundtrip]; first [done|lia].
Qed.

Lemma verify_cdb_roundtrip_witness :
  exists task, scsi_cdb_verify12 true 9 4096 1 0 1 512 = Ret (Some task) /\
    fst <$> scsi_cdb_unmarshall true task SCSI_OPCODE_VERIFY12 = Some (View_verify12 {|
      v12_opcode := SCSI_OPCODE_VERIFY12; v12_vrprotect := 1; v12_dpo := 0; v12_bytchk := 1;
      v12_lba := 9; v12_verification_length := 8; v12_group := 0; v12_control := 0 |}).
Proof. apply (verify_cdb_roundtrip 9 4096 512 1 0 1); [lia|discriminate|lia..]. Defined.

(** Decoding a WRITE16 or WRITE ATOMIC16 CDB keeps only the low 32 bits of the
    64-bit LBA (the structures declare lba as uint32_t); every other field round-trips.
    *)
Theorem write16_unmarshall_truncates_lba (lba xferlen blocksize wrprotect dpo fua fua_nv group : Z)
  (Hx : 0 <= xferlen < 2 ^ 32) (Hb : u32 blocksize <> 0)
  (H64 : 0 <= lba < 2 ^ 64) :
  (exists task,
    scsi_cdb_write16 true lba xferlen blocksize wrprotect dpo fua fua_nv group
      = Ret (Some task) /\
    fst <$> scsi_cdb_unmarshall true task SCSI_OPCODE_WRITE16 = Some (View_write16 {|
      w16_opcode := SCSI_OPCODE_WRITE16; w16_wrprotect := wrprotect &&& 7;
      w16_dpo := notnot dpo; w16_fua := notnot fua; w16_fua_nv := notnot fua_nv;
      w16_lba := u32 lba; w16_group := group &&& 0x1f;
      w16_transfer_length := (xferlen / u32 blocksize); w16_control := 0 |})) /\
  (exists task,
    scsi_cdb_writeatomic16 true lba xferlen blocksize wrprotect dpo fua group
      = Ret (Some task) /\
    fst <$> scsi_cdb_unmarshall true task SCSI_OPCODE_WRITE_ATOMIC16 = Some (View_writeatomic16 {|
      wa16_opcode := SCSI_OPCODE_WRITE_ATOMIC16; wa16_wrprotect := wrprotect &&& 7;
      wa16_dpo := notnot dpo; wa16_fua := notnot fua; wa16_lba := u32 lba;
      wa16_group := group &&& 0x1f; wa16_transfer_length := u16 (xferlen / u32 blocksize); wa16_control := 0 |})).
Proof. split; [by apply write16_roundtrip|by apply writeatomic16_roundtrip]. Qed.

Lemma write16_unmarshall_truncates_lba_witness :
  exists task, scsi_cdb_write16 true 0x100000007 4096 512 0 0 0 0 0 = Ret (Some task) /\
    fst <$> scsi_cdb_unmarshall true task SCSI_OPCODE_WRITE16 = Some (View_write16 {|
      w16_opcode := SCSI_OPCODE_WRITE16; w16_wrprotect := 0; w16_dpo := 0; w16_fua := 0;
      w16_fua_nv := 0; w16_lba := 7; w16_transfer_length := 8; w16_group := 0;
      w16_control := 0 |}).
Proof.
  apply (write16_unmarshall_truncates_lba 0x100000007 4096 512 0 0 0 0 0);
    [lia|discriminate|lia].
Defined.
