(* ===== verification/DataIn.v ===== *)
(** Parameter data a target returns: the decoders of src/lib/scsi-lowlevel.c
    for REPORT LUNS, READ TOC, SERVICE ACTION IN, PERSISTENT RESERVE IN,
    RECEIVE COPY RESULTS, MAINTENANCE IN and READ CAPACITY(10), and the
    structures they fill (src/include/scsi-lowlevel.h).

    A decoder runs on the task whose [datain] holds the data and allocates on
    its memory list; the pointer it returns is [None] for NULL.  Sizes of
    structures are those of the x86-64 layout.  A read of [datain.data] that
    is not made through [task_get_uint*] is [OutOfBounds] when it leaves the
    data received.  A block whose size is computed from the data is checked
    against the stores made into it: a store that leaves the block, the link
    [scsi_malloc] keeps in front of it included, is [OutOfBounds] too. *)

From S2P Require Import Prelude Bytes Task Cdb.

(** Whether [malloc] gives a block of this size, asked when the memory list of
    the task is as given. *)
Class Malloc := malloc_ok : Z -> list Z -> bool.

(** ** Structures *)

Record scsi_readcapacity10 := {
  rc10_lba : Z;
  rc10_block_size : Z
}.

Record scsi_reportluns_list := {
  rl_num : Z;
  rl_luns : list Z
}.

Inductive scsi_readtoc_desc :=
| toc_desc (adr control track lba : Z)
| ses_desc (adr control first_in_last lba : Z)
| full_desc (session adr control tno point min sec frame zero pmin psec pframe : Z)
| zero_desc.

Record scsi_readtoc_list := {
  toc_num : Z;
  toc_first : Z;
  toc_last : Z;
  toc_descs : list scsi_readtoc_desc
}.

Record scsi_readcapacity16 := {
  rc16_returned_lba : Z;
  rc16_block_length : Z;
  rc16_p_type : Z;
  rc16_prot_en : Z;
  rc16_p_i_exp : Z;
  rc16_lbppbe : Z;
  rc16_lbpme : Z;
  rc16_lbprz : Z;
  rc16_lalba : Z
}.

Record scsi_lba_status_descriptor := {
  ls_lba : Z;
  ls_num_blocks : Z;
  ls_provisioning : Z
}.

Record scsi_get_lba_status := {
  gls_num_descriptors : Z;
  gls_descriptors : list scsi_lba_status_descriptor
}.

Record scsi_copy_results_copy_status := {
  cs_available_data : Z;
  cs_copy_manager_status : Z;
  cs_hdd : Z;
  cs_segments_processed : Z;
  cs_transfer_count_units : Z;
  cs_transfer_count : Z
}.

Record scsi_copy_results_op_params := {
  op_available_data : Z;
  op_max_target_desc_count : Z;
  op_max_segment_desc_count : Z;
  op_max_desc_list_length : Z;
  op_max_segment_length : Z;
  op_max_inline_data_length : Z;
  op_held_data_limit : Z;
  op_max_stream_device_transfer_size : Z;
  op_total_concurrent_copies : Z;
  op_max_concurrent_copies : Z;
  op_data_segment_granularity : Z;
  op_inline_data_granularity : Z;
  op_held_data_granularity : Z;
  op_impl_desc_list_length : Z;
  op_imp_desc_type_codes : list Z
}.

Record scsi_persistent_reserve_in_read_keys := {
  rk_prgeneration : Z;
  rk_additional_length : Z;
  rk_num_keys : Z;
  rk_keys : list Z
}.

Record scsi_persistent_reserve_in_read_reservation := {
  rr_prgeneration : Z;
  rr_additional_length : Z;
  rr_reserved : Z;
  rr_reservation_key : Z;
  rr_pr_scope : Z;
  rr_pr_type : Z
}.

Record scsi_persistent_reserve_in_report_capabilities := {
  prc_length : Z;
  prc_crh : Z;
  prc_sip_c : Z;
  prc_atp_c : Z;
  prc_ptpl_c : Z;
  prc_tmv : Z;
  prc_allow_commands : Z;
  prc_persistent_reservation_type_mask : Z
}.

Record scsi_op_timeout_descriptor := {
  to_descriptor_length : Z;
  to_command_specific : Z;
  to_nominal_processing_timeout : Z;
  to_recommended_timeout : Z
}.

(** [cd_to] is present when [ctdp] is set. *)
Record scsi_command_descriptor := {
  cd_opcode : Z;
  cd_sa : Z;
  cd_ctdp : Z;
  cd_servactv : Z;
  cd_cdb_len : Z;
  cd_to : option scsi_op_timeout_descriptor
}.

Record scsi_report_supported_op_codes := {
  rsoc_num_descriptors : Z;
  rsoc_descriptors : list scsi_command_descriptor
}.

Record scsi_report_supported_op_codes_one_command := {
  one_ctdp : Z;
  one_support : Z;
  one_cdb_length : Z;
  one_cdb_usage_data : bytes;
  one_to : option scsi_op_timeout_descriptor
}.

Record scsi_target_port_group := {
  tpg_byte0 : Z;
  tpg_flags : Z;
  tpg_port_group : Z;
  tpg_status_code : Z;
  tpg_port_count : Z;
  tpg_retrieved_port_count : Z;
  tpg_ports : list Z
}.

Record scsi_report_target_port_groups := {
  rtpg_num_groups : Z;
  rtpg_groups : list scsi_target_port_group
}.

Definition SCSI_READ_TOC : Z := 0.
Definition SCSI_READ_SESSION_INFO : Z := 1.
Definition SCSI_READ_FULL_TOC : Z := 2.

Definition SCSI_PERSISTENT_RESERVE_READ_KEYS : Z := 0.
Definition SCSI_PERSISTENT_RESERVE_READ_RESERVATION : Z := 1.
Definition SCSI_PERSISTENT_RESERVE_REPORT_CAPABILITIES : Z := 2.

Definition SCSI_REPORT_TARGET_PORT_GROUPS : Z := 0x0a.
Definition SCSI_REPORT_SUPPORTED_OP_CODES : Z := 0x0c.
Definition SCSI_REPORT_SUPPORTING_OPS_ALL : Z := 0x00.
Definition SCSI_REPORT_SUPPORTING_OPCODE : Z := 0x01.
Definition SCSI_REPORT_SUPPORTING_SERVICEACTION : Z := 0x02.

Definition SCSI_COPY_RESULTS_COPY_STATUS : Z := 0.
Definition SCSI_COPY_RESULTS_OP_PARAMS : Z := 3.

(** ** Running on a task *)

(** A decoder: state passing on the task. *)
Abbreviation D := (M scsi_task).

(** [datain.size], an [int]. *)
Definition size_of (data : bytes) : Z := Z.of_nat (length data).

Definition cdb_byte (i : nat) (task : scsi_task) : Z := byte_at (cdb task) i.

(** [datain.data[i]], unchecked. *)
Definition raw_byte (data : bytes) (i : nat) : res Z :=
  match data !! i with Some b => mret b | None => Undef OutOfBounds end.

(** [memcpy(.., &datain.data[off], n)]. *)
Definition raw_copy (data : bytes) (off n : nat) : res bytes :=
  if (off + n <=? length data)%nat || (n =? 0)%nat
  then mret (take n (drop off data)) else Undef OutOfBounds.

Definition lift {A} (m : res A) : D A :=
  fun task => match m with Ret a => Ret (a, task) | Undef u => Undef u end.

Section Decoders.
Context `{Malloc}.

(** [sizeof(struct scsi_allocated_memory) + size], computed in [size_t]. *)
Definition block_size (size : Z) : Z := u64 (8 + u64 size).

(** [ISCSI_LIST_ADD] stores the link of the list in the first eight bytes of
    the block, which a sum that wraps does not leave room for. *)
Definition allocate (size : Z) : D bool := fun task =>
  match scsi_malloc (malloc_ok (block_size size) (mem task)) (u64 size) task with
  | Some task => if block_size size <? 8 then Undef OutOfBounds else Ret (true, task)
  | None => Ret (false, task)
  end.

(** Stores into the first [top] bytes of a block of [size] bytes. *)
Definition stores_to (size top : Z) : D unit := fun task =>
  if u64 size <? top then Undef OutOfBounds else Ret (tt, task).

(** Allocate and fill, NULL when there is no memory. *)
Definition new_struct {A} (size : Z) (a : A) : D (option A) :=
  ok ← allocate size; if negb ok then mret None else mret (Some a).

(** ** REPORT LUNS *)

Definition scsi_reportluns_datain_getfullsize (data : bytes) : Z :=
  let list_size := u32 (task_get_uint32 data 0 + 8) in
  i32 list_size.

Definition reportluns_list_size (data : bytes) : Z :=
  let list_size := i32 (u32 (task_get_uint32 data 0 + 8)) in
  if size_of data <? list_size then size_of data else list_size.

(** [list->num] takes four bytes, whatever [num_luns] is. *)
Definition scsi_reportluns_datain_unmarshall : D (option scsi_reportluns_list) :=
  data ← gets datain;
  if size_of data <? 4 then mret None else
  let list_size := reportluns_list_size data in
  let num_luns := Z.quot list_size 8 - 1 in
  let size := 4 + 2 * num_luns in
  ok ← allocate size;
  if negb ok then mret None else
  _ ← stores_to size (4 + 2 * Z.max 0 num_luns);
  mret (Some {|
    rl_num := u32 num_luns;
    rl_luns := map (fun i => task_get_uint16 data (i * 8 + 8)) (seq 0 (Z.to_nat num_luns))
  |}).

(** ** READ TOC *)

Definition scsi_readtoc_datain_getfullsize (data : bytes) : Z :=
  let toc_data_len := u16 (task_get_uint16 data 0 + 2) in
  toc_data_len.

Definition scsi_readtoc_format (task : scsi_task) : Z := cdb_byte 2 task &&& 0xf.

Definition scsi_readtoc_desc_unmarshall (format : Z) (data : bytes) (i : nat)
  : scsi_readtoc_desc :=
  let at8 k := task_get_uint8 data (4 + 8 * i + k) in
  let at11 k := task_get_uint8 data (4 + 11 * i + k) in
  if format =? SCSI_READ_TOC then
    toc_desc (at8 1%nat &&& 0xf0) (at8 1%nat &&& 0x0f) (at8 2%nat)
      (task_get_uint32 data (4 + 8 * i + 4))
  else if format =? SCSI_READ_SESSION_INFO then
    ses_desc (at8 1%nat &&& 0xf0) (at8 1%nat &&& 0x0f) (at8 2%nat)
      (task_get_uint32 data (4 + 8 * i + 4))
  else if format =? SCSI_READ_FULL_TOC then
    full_desc (at11 0%nat &&& 0xf0) (at11 1%nat &&& 0xf0) (at11 1%nat &&& 0x0f) (at11 2%nat)
      (at11 3%nat) (at11 4%nat) (at11 5%nat) (at11 6%nat) (at11 7%nat) (at11 8%nat)
      (at11 9%nat) (at11 10%nat)
  else zero_desc.

Definition scsi_readtoc_datain_unmarshall : D (option scsi_readtoc_list) :=
  data ← gets datain;
  if size_of data <? 4 then mret None else
  let data_len := scsi_readtoc_datain_getfullsize data - 2 in
  if size_of data <? data_len then mret None else
  let num_desc := Z.quot (data_len - 4) 8 in
  ok ← allocate (12 + 48 * num_desc);
  if negb ok then mret None else
  _ ← stores_to (12 + 48 * num_desc) (12 + 48 * Z.max 0 num_desc);
  format ← gets scsi_readtoc_format;
  mret (Some {|
    toc_num := num_desc;
    toc_first := task_get_uint8 data 2;
    toc_last := task_get_uint8 data 3;
    toc_descs := map (scsi_readtoc_desc_unmarshall format data) (seq 0 (Z.to_nat num_desc))
  |}).

(** ** SERVICE ACTION IN *)

Inductive service_action_in_data :=
| Data_readcapacity16 (rc16 : scsi_readcapacity16)
| Data_get_lba_status (gls : scsi_get_lba_status).

Definition scsi_serviceactionin_sa (task : scsi_task) : Z := cdb_byte 1 task.

Definition readcapacity16_data (data : bytes) : scsi_readcapacity16 :=
  let returned_lba := task_get_uint32 data 0 in {|
  rc16_returned_lba := u64 (returned_lba << 32) ||| task_get_uint32 data 4;
  rc16_block_length := task_get_uint32 data 8;
  rc16_p_type := (task_get_uint8 data 12 >> 1) &&& 0x07;
  rc16_prot_en := task_get_uint8 data 12 &&& 0x01;
  rc16_p_i_exp := (task_get_uint8 data 13 >> 4) &&& 0x0f;
  rc16_lbppbe := task_get_uint8 data 13 &&& 0x0f;
  rc16_lbpme := notnot (task_get_uint8 data 14 &&& 0x80);
  rc16_lbprz := notnot (task_get_uint8 data 14 &&& 0x40);
  rc16_lalba := task_get_uint16 data 14 &&& 0x3fff
|}.

Definition lba_status_descriptor (data : bytes) (i : nat) : scsi_lba_status_descriptor := {|
  ls_lba := u64 (task_get_uint32 data (8 + i * 16 + 0) << 32)
            ||| task_get_uint32 data (8 + i * 16 + 4);
  ls_num_blocks := task_get_uint32 data (8 + i * 16 + 8);
  ls_provisioning := task_get_uint8 data (8 + i * 16 + 12) &&& 0x0f
|}.

Definition scsi_serviceactionin_datain_unmarshall : D (option service_action_in_data) :=
  sa ← gets scsi_serviceactionin_sa;
  data ← gets datain;
  if sa =? SCSI_READCAPACITY16 then
    new_struct 24 (Data_readcapacity16 (readcapacity16_data data))
  else if sa =? SCSI_GET_LBA_STATUS then
    ok ← allocate 16;
    let len := i32 (task_get_uint32 data 0) in
    if negb ok then mret None else
    let len := if size_of data - 4 <? len then size_of data - 4 else len in
    let len := Z.quot len 16 in
    ok ← allocate (16 * len);
    if negb ok then mret None else
    let num_descriptors := u32 len in
    _ ← stores_to (16 * len) (16 * Z.max 0 (i32 num_descriptors));
    mret (Some (Data_get_lba_status {|
      gls_num_descriptors := num_descriptors;
      gls_descriptors :=
        map (lba_status_descriptor data) (seq 0 (Z.to_nat (i32 num_descriptors)))
    |}))
  else mret None.

(** ** RECEIVE COPY RESULTS *)

Inductive copy_results_data :=
| Data_copy_status (cs : scsi_copy_results_copy_status)
| Data_op_params (op : scsi_copy_results_op_params).

Definition scsi_receivecopyresults_datain_unmarshall : D (option copy_results_data) :=
  sa ← gets (fun task => cdb_byte 1 task &&& 0x1f);
  data ← gets datain;
  let len := i32 (task_get_uint32 data 0) in
  if sa =? SCSI_COPY_RESULTS_COPY_STATUS then
    if len <? 8 then mret None else
    new_struct 16 (Data_copy_status {|
      cs_available_data := u32 len;
      cs_copy_manager_status := task_get_uint8 data 4 &&& 0x7F;
      cs_hdd := (task_get_uint8 data 4 &&& 0x80) >> 7;
      cs_segments_processed := task_get_uint16 data 5;
      cs_transfer_count_units := task_get_uint8 data 7;
      cs_transfer_count := task_get_uint32 data 8
    |})
  else if sa =? SCSI_COPY_RESULTS_OP_PARAMS then
    if len <? 40 then mret None else
    let n := task_get_uint8 data 43 in
    ok ← allocate (36 + n);
    if negb ok then mret None else
    _ ← stores_to (36 + n) (36 + Z.max 0 n);
    mret (Some (Data_op_params {|
      op_available_data := u32 len;
      op_max_target_desc_count := task_get_uint16 data 8;
      op_max_segment_desc_count := task_get_uint16 data 10;
      op_max_desc_list_length := task_get_uint32 data 12;
      op_max_segment_length := task_get_uint32 data 16;
      op_max_inline_data_length := task_get_uint32 data 20;
      op_held_data_limit := task_get_uint32 data 24;
      op_max_stream_device_transfer_size := task_get_uint32 data 28;
      op_total_concurrent_copies := task_get_uint16 data 34;
      op_max_concurrent_copies := task_get_uint8 data 36;
      op_data_segment_granularity := task_get_uint8 data 37;
      op_inline_data_granularity := task_get_uint8 data 38;
      op_held_data_granularity := task_get_uint8 data 39;
      op_impl_desc_list_length := n;
      op_imp_desc_type_codes :=
        map (fun i => task_get_uint8 data (44 + i)) (seq 0 (Z.to_nat n))
    |}))
  else mret None.

(** ** PERSISTENT RESERVE IN *)

Inductive persistent_reserve_in_data :=
| Data_read_keys (rk : scsi_persistent_reserve_in_read_keys)
| Data_read_reservation (rr : scsi_persistent_reserve_in_read_reservation)
| Data_report_capabilities (rc : scsi_persistent_reserve_in_report_capabilities).

Definition scsi_persistentreservein_sa (task : scsi_task) : Z := cdb_byte 1 task &&& 0x1f.

Definition scsi_persistentreservein_datain_getfullsize (sa : Z) (data : bytes) : Z :=
  if sa =? SCSI_PERSISTENT_RESERVE_READ_KEYS then i32 (u32 (task_get_uint32 data 4 + 8))
  else if sa =? SCSI_PERSISTENT_RESERVE_READ_RESERVATION then 8
  else if sa =? SCSI_PERSISTENT_RESERVE_REPORT_CAPABILITIES then 8
  else -1.

Definition scsi_persistentreservein_datain_unmarshall
  : D (option persistent_reserve_in_data) :=
  sa ← gets scsi_persistentreservein_sa;
  data ← gets datain;
  if sa =? SCSI_PERSISTENT_RESERVE_READ_KEYS then
    if size_of data <? 8 then mret None else
    let cdb_keys_len := task_get_uint32 data 4 in
    let data_keys_len := u32 (size_of data - 8) in
    let keys_len := MIN cdb_keys_len data_keys_len in
    let num_keys := keys_len / 8 in
    ok ← allocate (16 + keys_len);
    if negb ok then mret None else
    _ ← stores_to (16 + keys_len) (16 + 8 * num_keys);
    mret (Some (Data_read_keys {|
      rk_prgeneration := task_get_uint32 data 0;
      rk_additional_length := cdb_keys_len;
      rk_num_keys := num_keys;
      rk_keys := map (fun i => task_get_uint64 data (8 + i * 8)) (seq 0 (Z.to_nat num_keys))
    |}))
  else if sa =? SCSI_PERSISTENT_RESERVE_READ_RESERVATION then
    let i := i32 (task_get_uint32 data 4) in
    new_struct 32 (Data_read_reservation {|
      rr_prgeneration := task_get_uint32 data 0;
      rr_additional_length := 0;
      rr_reserved := if 0 <? i then 1 else 0;
      rr_reservation_key := if 0 <? i then task_get_uint64 data 8 else 0;
      rr_pr_scope := if 0 <? i then task_get_uint8 data 21 >> 4 else 0;
      rr_pr_type := if 0 <? i then task_get_uint8 data 21 &&& 0xf else 0
    |})
  else if sa =? SCSI_PERSISTENT_RESERVE_REPORT_CAPABILITIES then
    new_struct 12 (Data_report_capabilities {|
      prc_length := task_get_uint16 data 0;
      prc_crh := notnot (task_get_uint8 data 2 &&& 0x10);
      prc_sip_c := notnot (task_get_uint8 data 2 &&& 0x08);
      prc_atp_c := notnot (task_get_uint8 data 2 &&& 0x04);
      prc_ptpl_c := notnot (task_get_uint8 data 2 &&& 0x01);
      prc_tmv := notnot (task_get_uint8 data 3 &&& 0x80);
      prc_allow_commands := (task_get_uint8 data 3 &&& 0x70) >> 4;
      prc_persistent_reservation_type_mask := task_get_uint16 data 4
    |})
  else mret None.

(** ** MAINTENANCE IN *)

Inductive maintenance_in_data :=
| Data_supported_op_codes (rsoc : scsi_report_supported_op_codes)
| Data_one_command (rsoc_one : scsi_report_supported_op_codes_one_command)
| Data_target_port_groups (rtpg : scsi_report_target_port_groups).

Definition scsi_maintenancein_sa (task : scsi_task) : Z := cdb_byte 1 task.

Definition scsi_report_supported_opcodes_options (task : scsi_task) : Z :=
  cdb_byte 2 task &&& 0x07.

Definition scsi_maintenancein_datain_getfullsize (task : scsi_task) : Z :=
  let data := datain task in
  let sa := scsi_maintenancein_sa task in
  if sa =? SCSI_REPORT_SUPPORTED_OP_CODES then
    let options := scsi_report_supported_opcodes_options task in
    if options =? SCSI_REPORT_SUPPORTING_OPS_ALL then i32 (u32 (task_get_uint32 data 0 + 4))
    else if (options =? SCSI_REPORT_SUPPORTING_OPCODE)
            || (options =? SCSI_REPORT_SUPPORTING_SERVICEACTION) then
      4 + (if truth (task_get_uint8 data 1 &&& 0x80) then 12 else 0) + task_get_uint16 data 2
    else -1
  else if sa =? SCSI_REPORT_TARGET_PORT_GROUPS then i32 (u32 (task_get_uint32 data 0 + 4))
  else -1.

(** The ports of one group: both passes over the data count them, the second
    stores them. *)
Fixpoint rtpg_ports (data : bytes) (i k n : nat) : list Z :=
  match n with
  | O => []
  | S n =>
      if (i + (k + 1) * 4 <=? length data)%nat
      then task_get_uint16 data (i + k * 4 + 2) :: rtpg_ports data i (S k) n
      else []
  end.

(** One pass over the group descriptors from [i] on.  [capacity] is [None] in
    the pass that counts; in the pass that stores it is the number of groups
    and ports allocated, which no store may exceed. *)
Fixpoint rtpg_pass (data : bytes) (capacity : option (nat * nat)) (fuel i group_count
  port_count : nat) : res (list scsi_target_port_group * nat * nat) :=
  match fuel with
  | O => Undef NoFuel
  | S fuel =>
      if (length data <=? i)%nat || (length data - i <? 8)%nat
      then mret ([], group_count, port_count) else
      let current_port_count := task_get_uint8 data (i + 7) in
      let ports := rtpg_ports data (i + 8) 0 (Z.to_nat current_port_count) in
      let k := length ports in
      let fits := match capacity with
                  | None => true
                  | Some (groups, slots) =>
                      (group_count <? groups)%nat && (port_count + k <=? slots)%nat
                  end in
      if negb fits then Undef OutOfBounds else
      let group := {|
        tpg_byte0 := task_get_uint8 data i;
        tpg_flags := task_get_uint8 data (i + 1);
        tpg_port_group := task_get_uint16 data (i + 2);
        tpg_status_code := task_get_uint8 data (i + 5);
        tpg_port_count := current_port_count;
        tpg_retrieved_port_count := u8 (Z.of_nat k);
        tpg_ports := ports |} in
      '(groups, gc, pc) ← rtpg_pass data capacity fuel (i + 8 + k * 4) (S group_count)
        (port_count + k);
      mret (group :: groups, gc, pc)
  end.

Definition scsi_report_target_port_groups_unmarshal
  : D (option scsi_report_target_port_groups) :=
  data ← gets datain;
  if size_of data <? 4 then mret None else
  '(_, group_count, port_count) ← lift (rtpg_pass data None (S (length data)) 4 0 0);
  let size := 8 + 16 * Z.of_nat group_count + 2 * Z.of_nat port_count in
  ok ← allocate size;
  if negb ok then mret None else
  _ ← stores_to size size;
  '(groups, _, _) ←
    lift (rtpg_pass data (Some (group_count, port_count)) (S (length data)) 4 0 0);
  mret (Some {| rtpg_num_groups := Z.of_nat group_count; rtpg_groups := groups |}).

Definition timeout_descriptor (data : bytes) (i : nat) : scsi_op_timeout_descriptor := {|
  to_descriptor_length := task_get_uint16 data i;
  to_command_specific := task_get_uint8 data (i + 3);
  to_nominal_processing_timeout := task_get_uint32 data (i + 4);
  to_recommended_timeout := task_get_uint32 data (i + 8)
|}.

(** The descriptors of REPORT SUPPORTED OPERATION CODES, [slots] of which the
    array still has room for. *)
Fixpoint rsoc_loop (data : bytes) (fuel slots : nat) (len : Z) (i : nat)
  : res (list scsi_command_descriptor) :=
  if negb (8 <=? len) then mret [] else
  match fuel, slots with
  | O, _ => Undef NoFuel
  | _, O => Undef OutOfBounds
  | S fuel, S slots =>
      let ctdp := notnot (task_get_uint8 data (i + 5) &&& 0x02) in
      let desc to := {|
        cd_opcode := task_get_uint8 data i;
        cd_sa := task_get_uint16 data (i + 2);
        cd_ctdp := ctdp;
        cd_servactv := notnot (task_get_uint8 data (i + 5) &&& 0x01);
        cd_cdb_len := task_get_uint16 data (i + 6);
        cd_to := to |} in
      let len := len - 8 in
      let i := (i + 8)%nat in
      if negb (truth ctdp) then
        rest ← rsoc_loop data fuel slots len i; mret (desc None :: rest)
      else
        let to := timeout_descriptor data i in
        let step := to_descriptor_length to + 2 in
        rest ← rsoc_loop data fuel slots (len - step) (i + Z.to_nat step);
        mret (desc (Some to) :: rest)
  end.

Definition scsi_maintenancein_datain_unmarshall : D (option maintenance_in_data) :=
  sa ← gets scsi_maintenancein_sa;
  data ← gets datain;
  if sa =? SCSI_REPORT_SUPPORTED_OP_CODES then
    options ← gets scsi_report_supported_opcodes_options;
    if options =? SCSI_REPORT_SUPPORTING_OPS_ALL then
      if size_of data <? 4 then mret None else
      let len := i32 (task_get_uint32 data 0) in
      ok ← allocate (4 + Z.quot len 8 * 20);
      if negb ok then mret None else
      let slots := Z.to_nat (Z.quot len 8) in
      _ ← stores_to (4 + Z.quot len 8 * 20) (4 + 20 * Z.of_nat slots);
      descs ← lift (rsoc_loop data slots slots len 4);
      mret (Some (Data_supported_op_codes {|
        rsoc_num_descriptors := Z.of_nat (length descs);
        rsoc_descriptors := descs |}))
    else if (options =? SCSI_REPORT_SUPPORTING_OPCODE)
            || (options =? SCSI_REPORT_SUPPORTING_SERVICEACTION) then
      ok ← allocate 32;
      if negb ok then mret None else
      let ctdp := notnot (task_get_uint8 data 1 &&& 0x80) in
      let cdb_length := u8 (task_get_uint16 data 2) in
      usage ← (if cdb_length <=? 16 then lift (raw_copy data 4 (Z.to_nat cdb_length))
               else mret []);
      mret (Some (Data_one_command {|
        one_ctdp := ctdp;
        one_support := task_get_uint8 data 1 &&& 0x07;
        one_cdb_length := cdb_length;
        one_cdb_usage_data := usage ++ zeros (16 - length usage);
        one_to := if truth ctdp then Some (timeout_descriptor data (4 + Z.to_nat cdb_length))
                  else None
      |}))
    else mret None
  else if sa =? SCSI_REPORT_TARGET_PORT_GROUPS then
    r ← scsi_report_target_port_groups_unmarshal;
    mret (Data_target_port_groups <$> r)
  else mret None.

(** ** READ CAPACITY(10) *)

Definition scsi_readcapacity10_datain_getfullsize : Z := 8.

Definition scsi_readcapacity10_datain_unmarshall : D (option scsi_readcapacity10) :=
  data ← gets datain;
  if size_of data <? 8 then mret None else
  new_struct 8 {| rc10_lba := task_get_uint32 data 0; rc10_block_size := task_get_uint32 data 4 |}.

(** ** Allocation *)

Definition with_block (size : Z) (task : scsi_task) : scsi_task :=
  task <| mem ::= cons (u64 size) |>.

(** The block holds the link and what was asked for. *)
Definition fits (size : Z) : Prop := 8 <= block_size size.

Lemma fits_small size : 0 <= size < 2 ^ 63 -> fits size.
Proof. intros Hs. unfold fits, block_size. rewrite !u64_small by (rewrite ?u64_small; lia). lia. Qed.

(** A negative size is a huge [size_t], which [malloc] refuses or serves. *)
Lemma fits_negative size : - 2 ^ 63 <= size < - 8 -> fits size.
Proof.
  intros Hs. unfold fits, block_size, u64 at 2.
  rewrite <- (Z.mod_add size 1) by lia. rewrite Z.mod_small by lia.
  rewrite u64_small by lia. lia.
Qed.

Lemma u64_negative size : - 2 ^ 63 <= size < 0 -> u64 size = size + 2 ^ 64.
Proof.
  intros Hs. unfold u64. rewrite <- (Z.mod_add size 1) by lia. apply Z.mod_small. lia.
Qed.

Lemma allocate_cases size task : fits size ->
  allocate size task = Ret (true, with_block size task) \/
  allocate size task = Ret (false, task).
Proof.
  intros Hf. unfold allocate, scsi_malloc. destruct (malloc_ok _ _); [left|by right].
  by rewrite (proj2 (Z.ltb_ge _ _) Hf).
Qed.

Lemma allocate_ok size task : (forall size blocks, malloc_ok size blocks = true) ->
  fits size -> allocate size task = Ret (true, with_block size task).
Proof.
  intros Hm Hf. unfold allocate, scsi_malloc. by rewrite Hm, (proj2 (Z.ltb_ge _ _) Hf).
Qed.

Lemma stores_ok size top task : top <= u64 size -> stores_to size top task = Ret (tt, task).
Proof. intros Ht. unfold stores_to. by rewrite (proj2 (Z.ltb_ge _ _) Ht). Qed.

End Decoders.

(** ** Loops of the decoders

    Each loop ends with a result, whatever lengths the data names. *)

Lemma length_rtpg_ports data i k n : (length (rtpg_ports data i k n) <= n)%nat.
Proof.
  revert k. induction n as [|n IH]; intros k; cbn [rtpg_ports]; [done|].
  destruct (_ <=? _)%nat; cbn [length]; [specialize (IH (S k))|]; lia.
Qed.

(** The ports that are read are received whole. *)
Lemma rtpg_ports_received data i k n : (i + k * 4 <= length data)%nat ->
  (i + (k + length (rtpg_ports data i k n)) * 4 <= length data)%nat.
Proof.
  revert k. induction n as [|n IH]; intros k Hk; cbn [rtpg_ports]; [cbn; lia|].
  destruct (Nat.leb_spec (i + (k + 1) * 4) (length data)); cbn [length]; [|lia].
  specialize (IH (S k)). lia.
Qed.

(** The pass that counts, and the pass that stores in what was counted. *)
Lemma rtpg_pass_count data fuel i gc pc : (length data - i < fuel)%nat ->
  exists groups gc' pc',
    rtpg_pass data None fuel i gc pc = Ret (groups, gc', pc') /\
    (gc <= gc')%nat /\ (pc <= pc')%nat /\
    (8 * (gc' - gc) + 4 * (pc' - pc) <= length data - i)%nat /\
    gc' = (gc + length groups)%nat /\
    forall G P, (gc' <= G)%nat -> (pc' <= P)%nat ->
      rtpg_pass data (Some (G, P)) fuel i gc pc = Ret (groups, gc', pc').
Proof.
  revert i gc pc. induction fuel as [|fuel IH]; intros i gc pc Hf; cbn [rtpg_pass].
  { lia. }
  destruct (Nat.leb_spec (length data) i); cbn [orb].
  { exists [], gc, pc. repeat split; try done; cbn; try lia. }
  destruct (Nat.ltb_spec (length data - i) 8).
  { exists [], gc, pc. repeat split; try done; cbn; try lia. }
  cbv zeta. set (ports := rtpg_ports _ _ _ _). cbn [negb].
  assert (i + 8 + (0 + length ports) * 4 <= length data)%nat by (apply rtpg_ports_received; lia).
  destruct (IH (i + 8 + length ports * 4)%nat (S gc) (pc + length ports)%nat)
    as (groups & gc' & pc' & E & Hg & Hp & Hb & Hl & Hs); [lia|].
  rewrite E. cbn [mbind res_bind].
  eexists (_ :: groups), gc', pc'. split; [done|]. split; [lia|]. split; [lia|].
  split; [lia|].
  split; [cbn [length]; lia|]. intros G P HG HP.
  rewrite (proj2 (Nat.ltb_lt _ _)), (proj2 (Nat.leb_le _ _)) by lia. cbn [andb negb].
  by rewrite Hs.
Qed.

(** Every descriptor takes eight bytes of the announced length, so the array
    allocated from it has room for all. *)
Lemma rsoc_loop_total data n len i : len < 8 * Z.of_nat n + 8 ->
  exists descs, rsoc_loop data n n len i = Ret descs /\ (length descs <= n)%nat.
Proof.
  revert len i. induction n as [|n IH]; intros len i Hl; cbn [rsoc_loop].
  { destruct (Z.leb_spec 8 len); [lia|]. by exists []. }
  destruct (Z.leb_spec 8 len); cbn [negb]; [|exists []; cbn; split; [done|lia]].
  set (to := timeout_descriptor _ _).
  assert (0 <= to_descriptor_length to) as Ht.
  { unfold to, timeout_descriptor, task_get_uint16. cbn.
    destruct (_ <=? _); [apply get16_range|lia]. }
  destruct (negb (truth _)).
  - destruct (IH (len - 8) (i + 8)%nat) as (descs & E & Hd); [lia|]. rewrite E.
    cbn [mbind res_bind]. eexists. split; [done|]. cbn [length]. lia.
  - destruct (IH (len - 8 - (to_descriptor_length to + 2))
      (i + 8 + Z.to_nat (to_descriptor_length to + 2))%nat) as (descs & E & Hd); [lia|].
    rewrite E. cbn [mbind res_bind]. eexists. split; [done|]. cbn [length]. lia.
Qed.

(** ** Decoding any data *)

(** On every task [m] gives a result, or an undefined outcome of [P]. *)
Definition fails_at {A} (P : undef -> Prop) (m : D A) (task : scsi_task) : Prop :=
  match m task with Ret _ => True | Undef u => P u end.

Definition fails_only {A} (P : undef -> Prop) (m : D A) : Prop :=
  forall task, fails_at P m task.

Definition total {A} (m : D A) : Prop := fails_only (fun _ => False) m.
Definition reads_past {A} (m : D A) : Prop := fails_only (fun u => u = OutOfBounds) m.

Section Outcomes.
Context (P : undef -> Prop).

Lemma only_ret {A} (a : A) : fails_only P (mret a).
Proof. done. Qed.

Lemma only_gets {A} (f : scsi_task -> A) : fails_only P (gets f).
Proof. done. Qed.

Lemma only_bind {A B} (m : D A) (f : A -> D B) :
  fails_only P m -> (forall a, fails_only P (f a)) -> fails_only P (m ≫= f).
Proof.
  intros Hm Hf task. specialize (Hm task). unfold fails_at, mbind, M_bind in *.
  destruct (m task) as [[a t]|u]; [apply Hf|done].
Qed.

(** The same at one task, whose fields the decoder looks at first. *)
Lemma at_gets {A B} (g : scsi_task -> A) (f : A -> D B) task :
  fails_at P (f (g task)) task -> fails_at P (gets g ≫= f) task.
Proof. done. Qed.

Lemma at_bind {A B} (m : D A) (f : A -> D B) task :
  fails_at P m task -> (forall a, fails_only P (f a)) -> fails_at P (m ≫= f) task.
Proof.
  intros Hm Hf. unfold fails_at, mbind, M_bind in *.
  destruct (m task) as [[a t]|u]; [apply Hf|done].
Qed.

Lemma at_if {A} (b : bool) (m n : D A) task :
  fails_at P m task -> fails_at P n task -> fails_at P (if b then m else n) task.
Proof. by destruct b. Qed.

Lemma only_if {A} (b : bool) (m n : D A) :
  fails_only P m -> fails_only P n -> fails_only P (if b then m else n).
Proof. by destruct b. Qed.

Lemma only_lift {A B} (m : res A) a (f : A -> D B) :
  m = Ret a -> fails_only P (f a) -> fails_only P (lift m ≫= f).
Proof. intros -> Hf task. apply (Hf task). Qed.

Lemma only_total {A} (m : D A) : total m -> fails_only P m.
Proof. intros Hm task. specialize (Hm task). unfold fails_at in *. by destruct (m task). Qed.

Lemma only_assoc {A B C} (m : D A) (g : A -> D B) (f : B -> D C) :
  fails_only P (m ≫= (fun a => g a ≫= f)) -> fails_only P ((m ≫= g) ≫= f).
Proof.
  intros Hm task. specialize (Hm task). unfold fails_at, mbind, M_bind in *.
  by destruct (m task) as [[a t]|u].
Qed.

Lemma only_if_bind {A B} (b : bool) (m n : D A) (f : A -> D B) :
  fails_only P (m ≫= f) -> fails_only P (n ≫= f) ->
  fails_only P ((if b then m else n) ≫= f).
Proof. by destruct b. Qed.

Lemma only_ret_bind {A B} (a : A) (f : A -> D B) :
  fails_only P (f a) -> fails_only P (mret a ≫= f).
Proof. done. Qed.

Lemma only_allocate `{Malloc} size : fits size -> fails_only P (allocate size).
Proof.
  intros Hf task. unfold fails_at. by destruct (allocate_cases size task Hf) as [-> | ->].
Qed.

Lemma only_stores size top : top <= u64 size -> fails_only P (stores_to size top).
Proof. intros Ht task. unfold fails_at. by rewrite stores_ok. Qed.

Lemma only_new_struct `{Malloc} {A} size (a : A) : fits size -> fails_only P (new_struct size a).
Proof. intros Hf. apply only_bind; [by apply only_allocate|]. intros ok. by apply only_if. Qed.

End Outcomes.

Lemma total_run {A} (m : D A) task : total m -> exists r task', m task = Ret (r, task').
Proof.
  intros Hm. specialize (Hm task). unfold fails_at in Hm.
  destruct (m task) as [[r t]|]; [by repeat eexists|done].
Qed.

Lemma raw_byte_reads_past data i : reads_past (lift (raw_byte data i)).
Proof. intros task. unfold fails_at, lift, raw_byte. by destruct (data !! i). Qed.

Lemma raw_copy_reads_past data off n : reads_past (lift (raw_copy data off n)).
Proof. intros task. unfold fails_at, lift, raw_copy. by destruct (_ || _). Qed.

Lemma allocate_reads_past `{Malloc} size : reads_past (allocate size).
Proof. intros task. unfold fails_at, allocate. by destruct (scsi_malloc _ _ _); [destruct (_ <? _)|]. Qed.

Lemma stores_reads_past size top : reads_past (stores_to size top).
Proof. intros task. unfold fails_at, stores_to. by destruct (_ <? _). Qed.

(** A size known from the text. *)
Ltac fits_constant := by vm_compute.

(** The steps a decoder is made of. *)
Ltac outcome_steps :=
  repeat first [apply only_ret|apply only_gets
    |apply raw_byte_reads_past|apply raw_copy_reads_past
    |apply allocate_reads_past|apply stores_reads_past
    |apply only_allocate; fits_constant|apply only_new_struct; fits_constant
    |apply only_bind; [|intros ?]|apply only_if|progress cbv zeta].

(** Data as a target sends them: bytes, fewer than [INT_MAX] of them. *)
Definition decodable (task : scsi_task) : Prop :=
  bytes_ok (datain task) /\ size_of (datain task) < 2 ^ 31.

Lemma size_of_nonneg data : 0 <= size_of data.
Proof. unfold size_of. lia. Qed.

Lemma quot_range a b : 0 < b -> Z.abs (Z.quot a b) <= Z.abs a /\ Z.abs (b * Z.quot a b) <= Z.abs a.
Proof.
  intros Hb. rewrite Z.abs_mul, <- Z.quot_abs, (Z.abs_eq b) by lia.
  rewrite Z.quot_div_nonneg by lia. pose proof (Z.mul_div_le (Z.abs a) b Hb).
  pose proof (Z.div_pos (Z.abs a) b). nia.
Qed.

Lemma i32_range z : - 2 ^ 31 <= i32 z < 2 ^ 31.
Proof.
  unfold i32. cbv zeta. pose proof (Z.mod_pos_bound z (2 ^ 32)).
  destruct (Z.ltb_spec (z mod 2 ^ 32) (2 ^ 31)); lia.
Qed.

Lemma i32_u32 x v : x = u32 v -> - 2 ^ 31 <= v < 2 ^ 31 -> i32 x = v.
Proof.
  intros -> Hv. unfold i32, u32. rewrite Z.mod_mod by lia. by apply i32_small.
Qed.

Lemma task_get_uint32_range data i : bytes_ok data -> 0 <= task_get_uint32 data i < 2 ^ 32.
Proof.
  intros Hd. pose proof (get32_range data i Hd). unfold task_get_uint32. destruct (_ <=? _); lia.
Qed.

Lemma task_get_uint8_range data i : bytes_ok data -> 0 <= task_get_uint8 data i < 2 ^ 8.
Proof.
  intros Hd. pose proof (byte_at_ok data i Hd) as Hb. unfold byte_ok in Hb.
  unfold task_get_uint8. destruct (_ <=? _); lia.
Qed.

Section Total.
Context `{Malloc}.
Context (task : scsi_task) (Hd : decodable task).

(** Where the data announce a list shorter than its header, the block has no
    room for the count. *)
Definition short_list (data : bytes) : bool :=
  (4 <=? size_of data) && (reportluns_list_size data <? 8).

Lemma reportluns_total : short_list (datain task) = false ->
  fails_at (fun _ => False) scsi_reportluns_datain_unmarshall task.
Proof.
  intros Hs. unfold scsi_reportluns_datain_unmarshall. apply at_gets. destruct Hd as (Hb & Hl).
  unfold short_list in Hs. revert Hs.
  destruct (Z.leb_spec 4 (size_of (datain task))); cbn [andb]; intros Hs;
    destruct (Z.ltb_spec (size_of (datain task)) 4); try lia; [|done].
  apply Z.ltb_ge in Hs. cbv zeta. set (l := reportluns_list_size (datain task)) in *.
  assert (l < 2 ^ 31) as Hm.
  { unfold l, reportluns_list_size. cbv zeta. pose proof (i32_range (u32 (task_get_uint32 (datain task) 0 + 8))).
    destruct (_ <? _); lia. }
  pose proof (quot_range l 8 ltac:(lia)) as (Hq & _). pose proof (Z.quot_le_lower_bound l 8 1 ltac:(lia) ltac:(lia)).
  apply only_bind; [apply only_allocate, fits_small; lia|intros ok].
  apply only_if; [apply only_ret|]. rewrite Z.max_r by lia.
  apply only_bind; [apply only_stores; rewrite u64_small; lia|]. intros ?. apply only_ret.
Qed.

Lemma readtoc_total : fails_at (fun _ => False) scsi_readtoc_datain_unmarshall task.
Proof.
  unfold scsi_readtoc_datain_unmarshall. apply at_gets, at_if; [done|]. cbv zeta.
  apply at_if; [done|]. unfold scsi_readtoc_datain_getfullsize.
  pose proof (u16_range (task_get_uint16 (datain task) 0 + 2)).
  set (l := _ - 2 - 4). pose proof (quot_range l 8 ltac:(lia)) as (Hq & Hr).
  assert (0 <= Z.quot l 8).
  { destruct (Z.le_gt_cases 0 l); [by apply Z.quot_pos; lia|lia]. }
  rewrite Z.max_r by done.
  apply only_bind; [apply only_allocate, fits_small; lia|intros ok].
  apply only_if; [apply only_ret|].
  apply only_bind; [apply only_stores; rewrite u64_small; lia|intros ?]. done.
Qed.

Lemma serviceactionin_total :
  fails_at (fun _ => False) scsi_serviceactionin_datain_unmarshall task.
Proof.
  destruct Hd as (_ & Hl). unfold scsi_serviceactionin_datain_unmarshall. do 2 apply at_gets.
  apply at_if; [apply only_new_struct; fits_constant|]. apply at_if; [|done].
  apply only_bind; [apply only_allocate; fits_constant|intros ok]. cbv zeta.
  apply only_if; [apply only_ret|].
  set (len := if _ <? _ then _ else _).
  assert (- 2 ^ 31 <= len < 2 ^ 31) as Hr.
  { unfold len. pose proof (i32_range (task_get_uint32 (datain task) 0)).
    pose proof (size_of_nonneg (datain task)). destruct (Z.ltb_spec (size_of (datain task) - 4)
      (i32 (task_get_uint32 (datain task) 0))); lia. }
  pose proof (quot_range len 16 ltac:(lia)) as (Hq & Hm). set (q := Z.quot len 16) in *.
  assert (i32 (u32 q) = q) as -> by (apply i32_u32; [done|lia]).
  assert (fits (16 * q)) by (destruct (Z.le_gt_cases 0 q); [apply fits_small|apply fits_negative]; lia).
  apply only_bind; [by apply only_allocate|intros ok']. apply only_if; [apply only_ret|].
  apply only_bind; [apply only_stores|intros ?; apply only_ret].
  destruct (Z.le_gt_cases 0 q); [rewrite u64_small by lia|rewrite u64_negative by lia]; lia.
Qed.

Lemma receivecopyresults_total :
  fails_at (fun _ => False) scsi_receivecopyresults_datain_unmarshall task.
Proof.
  unfold scsi_receivecopyresults_datain_unmarshall. do 2 apply at_gets. cbv zeta.
  pose proof (task_get_uint8_range (datain task) 43 (proj1 Hd)) as Hn.
  apply at_if; [apply at_if; [done|apply only_new_struct; fits_constant]|].
  apply at_if; [apply at_if; [done|]|done].
  apply only_bind; [apply only_allocate, fits_small; lia|intros ok].
  apply only_if; [apply only_ret|].
  apply only_bind; [apply only_stores; rewrite u64_small; lia|intros ?; apply only_ret].
Qed.

Lemma persistentreservein_total :
  fails_at (fun _ => False) scsi_persistentreservein_datain_unmarshall task.
Proof.
  unfold scsi_persistentreservein_datain_unmarshall. do 2 apply at_gets. cbv zeta.
  apply at_if; [apply at_if; [done|]|do 2 (apply at_if; [apply only_new_struct; fits_constant|]); done].
  set (n := MIN _ _). assert (0 <= n < 2 ^ 32) as Hn.
  { unfold n, MIN. pose proof (u32_range (size_of (datain task) - 8)).
    pose proof (task_get_uint32_range (datain task) 4 (proj1 Hd)). destruct (_ <? _); lia. }
  pose proof (Z.mul_div_le n 8 ltac:(lia)).
  apply only_bind; [apply only_allocate, fits_small; lia|intros ok].
  apply only_if; [apply only_ret|].
  apply only_bind; [apply only_stores; rewrite u64_small; lia|intros ?; apply only_ret].
Qed.

Lemma readcapacity10_total : fails_at (fun _ => False) scsi_readcapacity10_datain_unmarshall task.
Proof.
  unfold scsi_readcapacity10_datain_unmarshall. apply at_gets, at_if; [done|].
  apply only_new_struct. fits_constant.
Qed.

(** The second pass stores inside what the first one counted. *)
Lemma target_port_groups_total :
  fails_at (fun _ => False) scsi_report_target_port_groups_unmarshal task.
Proof.
  destruct Hd as (_ & Hl). unfold scsi_report_target_port_groups_unmarshal.
  apply at_gets, at_if; [done|].
  destruct (rtpg_pass_count (datain task) (S (length (datain task))) 4 0 0)
    as (groups & gc & pc & E & Hg & Hp & Hb & _ & Es); [lia|].
  specialize (Es gc pc (le_n _) (le_n _)). apply (only_lift _ _ _ _ E). cbv zeta.
  assert (Hs : 8 * Z.of_nat gc + 4 * Z.of_nat pc <= size_of (datain task)) by (unfold size_of; lia).
  apply only_bind; [apply only_allocate, fits_small; lia|]. intros ok. apply only_if; [apply only_ret|].
  apply only_bind; [apply only_stores; rewrite u64_small; lia|intros ?].
  apply (only_lift _ _ _ _ Es). apply only_ret.
Qed.

Lemma rsoc_total data :
  exists descs,
    rsoc_loop data (Z.to_nat (Z.quot (i32 (task_get_uint32 data 0)) 8))
      (Z.to_nat (Z.quot (i32 (task_get_uint32 data 0)) 8))
      (i32 (task_get_uint32 data 0)) 4 = Ret descs.
Proof.
  set (len := i32 _).
  destruct (rsoc_loop_total data (Z.to_nat (Z.quot len 8)) len 4) as (descs & E & _);
    [|by exists descs].
  destruct (Z.le_gt_cases 0 len); [|lia].
  rewrite Z.quot_div_nonneg by lia. pose proof (Z.div_pos len 8).
  rewrite Z2Nat.id by lia. pose proof (Z.mul_succ_div_gt len 8). lia.
Qed.

(** The report on every operation code. *)
Lemma rsoc_all_total P {B} data (f : list scsi_command_descriptor -> D B) :
  let len := i32 (task_get_uint32 data 0) in
  let slots := Z.to_nat (Z.quot len 8) in
  (forall descs, fails_only P (f descs)) ->
  forall g, fails_only P g ->
  fails_only P (ok ← allocate (4 + Z.quot len 8 * 20);
    if negb ok then g else
    _ ← stores_to (4 + Z.quot len 8 * 20) (4 + 20 * Z.of_nat slots);
    descs ← lift (rsoc_loop data slots slots len 4); f descs).
Proof.
  cbv zeta. intros Hf g Hg. destruct (rsoc_total data) as (descs & E).
  pose proof (i32_range (task_get_uint32 data 0)). set (len := i32 _) in *.
  pose proof (quot_range len 8 ltac:(lia)) as (Hq & Hr). set (q := Z.quot len 8) in *.
  apply only_bind; [apply only_allocate|intros ok].
  { destruct (Z.le_gt_cases 0 q); [apply fits_small|apply fits_negative]; lia. }
  apply only_if; [done|]. apply only_bind; [apply only_stores|intros _].
  { destruct (Z.le_gt_cases 0 q); [rewrite u64_small by lia|rewrite u64_negative by lia]; lia. }
  by apply (only_lift _ _ _ _ E).
Qed.

(** Only the CDB usage data of one command are copied unchecked. *)
Lemma maintenancein_reads_past :
  fails_at (fun u => u = OutOfBounds) scsi_maintenancein_datain_unmarshall task.
Proof.
  unfold scsi_maintenancein_datain_unmarshall. do 2 apply at_gets.
  apply at_if; [apply at_gets, at_if; [apply at_if; [done|]|]|].
  - apply rsoc_all_total; [intros descs|]; apply only_ret.
  - revert task Hd. intros t _. generalize (datain t) as data, (scsi_report_supported_opcodes_options t) as o.
    intros data o. revert t. apply only_if; [outcome_steps|apply only_ret].
  - apply at_if; [|done]. apply at_bind; [|intros r; apply only_ret].
    pose proof target_port_groups_total as Ht. unfold fails_at in *.
    by destruct (scsi_report_target_port_groups_unmarshal task).
Qed.

End Total.
