(* ===== verification/Inquiry.v ===== *)
(** INQUIRY data: the standard data and the vital product data pages
    (src/lib/scsi-lowlevel.c, [scsi_inquiry_*]).

    The standard data and four of the pages are copied from the received data
    with lengths the target chose; a copy past the end of the data is
    [OutOfBounds]. *)

From S2P Require Import Prelude Bytes Task Cdb DataIn.

(** ** Structures *)

Record scsi_inquiry_standard := {
  inq_qualifier : Z;
  inq_device_type : Z;
  inq_rmb : Z;
  inq_version : Z;
  inq_normaca : Z;
  inq_hisup : Z;
  inq_response_data_format : Z;
  inq_additional_length : Z;
  inq_sccs : Z;
  inq_acc : Z;
  inq_tpgs : Z;
  inq_threepc : Z;
  inq_protect : Z;
  inq_encserv : Z;
  inq_multip : Z;
  inq_addr16 : Z;
  inq_wbus16 : Z;
  inq_sync : Z;
  inq_cmdque : Z;
  inq_clocking : Z;
  inq_qas : Z;
  inq_ius : Z;
  inq_vendor_identification : bytes;
  inq_product_identification : bytes;
  inq_product_revision_level : bytes;
  inq_version_descriptor : list Z
}.

Record scsi_inquiry_supported_pages := {
  sp_qualifier : Z;
  sp_device_type : Z;
  sp_pagecode : Z;
  sp_num_pages : Z;
  sp_pages : bytes
}.

Record scsi_inquiry_unit_serial_number := {
  usn_qualifier : Z;
  usn_device_type : Z;
  usn_pagecode : Z;
  usn_usn : bytes
}.

Record scsi_inquiry_device_designator := {
  dd_protocol_identifier : Z;
  dd_code_set : Z;
  dd_piv : Z;
  dd_association : Z;
  dd_designator_type : Z;
  dd_designator_length : Z;
  dd_designator : bytes
}.

(** [di_designators] in the order of the [next] pointers. *)
Record scsi_inquiry_device_identification := {
  di_qualifier : Z;
  di_device_type : Z;
  di_pagecode : Z;
  di_designators : list scsi_inquiry_device_designator
}.

Record third_party_copy_command_support := {
  tpc_operation_code : Z;
  tpc_service_action_length : Z;
  tpc_service_action : list Z
}.

Record third_party_copy_supported_commands := {
  tpc_descriptor_type : Z;
  tpc_commands_supported : list third_party_copy_command_support
}.

Record scsi_inquiry_third_party_copy := {
  tp_qualifier : Z;
  tp_device_type : Z;
  tp_pagecode : Z;
  tp_supported_commands : option third_party_copy_supported_commands
}.

Record scsi_inquiry_block_limits := {
  bl_qualifier : Z;
  bl_device_type : Z;
  bl_pagecode : Z;
  bl_wsnz : Z;
  bl_max_cmp : Z;
  bl_opt_gran : Z;
  bl_max_xfer_len : Z;
  bl_opt_xfer_len : Z;
  bl_max_prefetch : Z;
  bl_max_unmap : Z;
  bl_max_unmap_bdc : Z;
  bl_opt_unmap_gran : Z;
  bl_ugavalid : Z;
  bl_unmap_gran_align : Z;
  bl_max_ws_len : Z;
  bl_max_atomic_xfer_len : Z;
  bl_atomic_align : Z;
  bl_atomic_gran : Z;
  bl_max_atomic_tl_with_atomic_boundary : Z;
  bl_max_atomic_boundary_size : Z
}.

Record scsi_inquiry_block_device_characteristics := {
  bdc_qualifier : Z;
  bdc_device_type : Z;
  bdc_pagecode : Z;
  bdc_medium_rotation_rate : Z;
  bdc_product_type : Z;
  bdc_wabereq : Z;
  bdc_wacereq : Z;
  bdc_nominal_form_factor : Z;
  bdc_fuab : Z;
  bdc_vbuls : Z
}.

Record scsi_inquiry_logical_block_provisioning := {
  lbp_qualifier : Z;
  lbp_device_type : Z;
  lbp_pagecode : Z;
  lbp_threshold_exponent : Z;
  lbp_lbpu : Z;
  lbp_lbpws : Z;
  lbp_lbpws10 : Z;
  lbp_lbprz : Z;
  lbp_anc_sup : Z;
  lbp_dp : Z;
  lbp_provisioning_type : Z
}.

Inductive inquiry_data :=
| Data_standard (inq : scsi_inquiry_standard)
| Data_supported_pages (inq : scsi_inquiry_supported_pages)
| Data_unit_serial_number (inq : scsi_inquiry_unit_serial_number)
| Data_device_identification (inq : scsi_inquiry_device_identification)
| Data_third_party_copy (inq : scsi_inquiry_third_party_copy)
| Data_block_limits (inq : scsi_inquiry_block_limits)
| Data_block_device_characteristics (inq : scsi_inquiry_block_device_characteristics)
| Data_logical_block_provisioning (inq : scsi_inquiry_logical_block_provisioning).

Definition SCSI_INQUIRY_PAGECODE_SUPPORTED_VPD_PAGES : Z := 0x00.
Definition SCSI_INQUIRY_PAGECODE_UNIT_SERIAL_NUMBER : Z := 0x80.
Definition SCSI_INQUIRY_PAGECODE_DEVICE_IDENTIFICATION : Z := 0x83.
Definition SCSI_INQUIRY_PAGECODE_THIRD_PARTY_COPY : Z := 0x8F.
Definition SCSI_INQUIRY_PAGECODE_BLOCK_LIMITS : Z := 0xB0.
Definition SCSI_INQUIRY_PAGECODE_BLOCK_DEVICE_CHARACTERISTICS : Z := 0xB1.
Definition SCSI_INQUIRY_PAGECODE_LOGICAL_BLOCK_PROVISIONING : Z := 0xB2.

Definition THIRD_PARTY_COPY_TYPE_SUPPORTED_COMMANDS : Z := 0x0001.

(** ** Operations *)

Definition scsi_inquiry_evpd_set (task : scsi_task) : Z := cdb_byte 1 task &&& 0x1.

Definition scsi_inquiry_page_code (task : scsi_task) : Z := cdb_byte 2 task.

Definition scsi_inquiry_datain_getfullsize (task : scsi_task) : Z :=
  let data := datain task in
  if scsi_inquiry_evpd_set task =? 0 then task_get_uint8 data 4 + 5 else
  let page := scsi_inquiry_page_code task in
  if (page =? SCSI_INQUIRY_PAGECODE_SUPPORTED_VPD_PAGES)
     || (page =? SCSI_INQUIRY_PAGECODE_BLOCK_DEVICE_CHARACTERISTICS)
     || (page =? SCSI_INQUIRY_PAGECODE_UNIT_SERIAL_NUMBER)
  then task_get_uint8 data 3 + 4
  else if (page =? SCSI_INQUIRY_PAGECODE_DEVICE_IDENTIFICATION)
     || (page =? SCSI_INQUIRY_PAGECODE_BLOCK_LIMITS)
     || (page =? SCSI_INQUIRY_PAGECODE_LOGICAL_BLOCK_PROVISIONING)
  then task_get_uint16 data 2 + 4
  else -1.

(** The first byte of every page. *)
Definition peripheral_qualifier (data : bytes) : Z := (task_get_uint8 data 0 >> 5) &&& 0x07.
Definition peripheral_device_type (data : bytes) : Z := task_get_uint8 data 0 &&& 0x1f.

(** [dptr[i]] and [scsi_get_uint16(&dptr[i])]. *)
Definition raw_uint16 (data : bytes) (i : nat) : res Z :=
  _ ← raw_byte data i; _ ← raw_byte data (i + 1); mret (scsi_get_uint16 data i).

Section Decoders.
Context `{Malloc}.

Definition standard_data (data vendor product revision : bytes) : scsi_inquiry_standard := {|
  inq_qualifier := (task_get_uint8 data 0 >> 5) &&& 0x07;
  inq_device_type := task_get_uint8 data 0 &&& 0x1f;
  inq_rmb := notnot (task_get_uint8 data 1 &&& 0x80);
  inq_version := task_get_uint8 data 2;
  inq_normaca := notnot (task_get_uint8 data 3 &&& 0x20);
  inq_hisup := notnot (task_get_uint8 data 3 &&& 0x10);
  inq_response_data_format := task_get_uint8 data 3 &&& 0x0f;
  inq_additional_length := task_get_uint8 data 4;
  inq_sccs := notnot (task_get_uint8 data 5 &&& 0x80);
  inq_acc := notnot (task_get_uint8 data 5 &&& 0x40);
  inq_tpgs := (task_get_uint8 data 5 >> 4) &&& 0x03;
  inq_threepc := notnot (task_get_uint8 data 5 &&& 0x08);
  inq_protect := notnot (task_get_uint8 data 5 &&& 0x01);
  inq_encserv := notnot (task_get_uint8 data 6 &&& 0x40);
  inq_multip := notnot (task_get_uint8 data 6 &&& 0x10);
  inq_addr16 := notnot (task_get_uint8 data 6 &&& 0x01);
  inq_wbus16 := notnot (task_get_uint8 data 7 &&& 0x20);
  inq_sync := notnot (task_get_uint8 data 7 &&& 0x10);
  inq_cmdque := notnot (task_get_uint8 data 7 &&& 0x02);
  inq_clocking := (task_get_uint8 data 56 >> 2) &&& 0x03;
  inq_qas := notnot (task_get_uint8 data 56 &&& 0x02);
  inq_ius := notnot (task_get_uint8 data 56 &&& 0x01);
  inq_vendor_identification := vendor ++ [0];
  inq_product_identification := product ++ [0];
  inq_product_revision_level := revision ++ [0];
  inq_version_descriptor := map (fun i => task_get_uint16 data (58 + i * 2)) (seq 0 8)
|}.

Definition scsi_inquiry_unmarshall_standard : D (option scsi_inquiry_standard) :=
  data ← gets datain;
  ok ← allocate 136;
  if negb ok then mret None else
  vendor ← lift (raw_copy data 8 8);
  product ← lift (raw_copy data 16 16);
  revision ← lift (raw_copy data 32 4);
  mret (Some (standard_data data vendor product revision)).

Definition scsi_inquiry_unmarshall_supported_pages
  : D (option scsi_inquiry_supported_pages) :=
  data ← gets datain;
  ok ← allocate 24;
  if negb ok then mret None else
  let num_pages := task_get_uint8 data 3 in
  ok ← allocate num_pages;
  if negb ok then mret None else
  pages ← lift (raw_copy data 4 (Z.to_nat num_pages));
  mret (Some {|
    sp_qualifier := peripheral_qualifier data;
    sp_device_type := peripheral_device_type data;
    sp_pagecode := task_get_uint8 data 1;
    sp_num_pages := num_pages;
    sp_pages := pages |}).

Definition scsi_inquiry_unmarshall_unit_serial_number
  : D (option scsi_inquiry_unit_serial_number) :=
  data ← gets datain;
  ok ← allocate 24;
  if negb ok then mret None else
  let n := task_get_uint8 data 3 in
  ok ← allocate (n + 1);
  if negb ok then mret None else
  usn ← lift (raw_copy data 4 (Z.to_nat n));
  mret (Some {|
    usn_qualifier := peripheral_qualifier data;
    usn_device_type := peripheral_device_type data;
    usn_pagecode := task_get_uint8 data 1;
    usn_usn := usn ++ [0] |}).

(** The body of the loop at [dptr = &datain.data[i]]. *)
Definition device_designator (data : bytes) (i : nat)
  : D (option scsi_inquiry_device_designator) :=
  ok ← allocate 40;
  if negb ok then mret None else
  b0 ← lift (raw_byte data i);
  b1 ← lift (raw_byte data (i + 1));
  n ← lift (raw_byte data (i + 3));
  ok ← allocate (n + 1);
  if negb ok then mret None else
  designator ← lift (raw_copy data (i + 4) (Z.to_nat n));
  mret (Some {|
    dd_protocol_identifier := (b0 >> 4) &&& 0x0f;
    dd_code_set := b0 &&& 0x0f;
    dd_piv := notnot (b1 &&& 0x80);
    dd_association := (b1 >> 4) &&& 0x03;
    dd_designator_type := b1 &&& 0x0f;
    dd_designator_length := n;
    dd_designator := designator ++ [0] |}).

(** [designators]: those linked so far, the last one first. *)
Fixpoint designator_loop (fuel : nat) (data : bytes) (remaining : Z) (i : nat)
  (designators : list scsi_inquiry_device_designator)
  : D (option (list scsi_inquiry_device_designator)) :=
  if negb (0 <? remaining) then mret (Some designators) else
  match fuel with
  | O => undefined NoFuel
  | S fuel =>
      dev ← device_designator data i;
      match dev with
      | None => mret None
      | Some dev =>
          let n := dd_designator_length dev in
          designator_loop fuel data (remaining - 4 - n) (i + Z.to_nat n + 4)
            (dev :: designators)
      end
  end.

Definition scsi_inquiry_unmarshall_device_identification
  : D (option scsi_inquiry_device_identification) :=
  data ← gets datain;
  ok ← allocate 24;
  let remaining := task_get_uint16 data 2 in
  if negb ok then mret None else
  designators ← designator_loop (Z.to_nat remaining) data remaining 4 [];
  mret ((fun l => {|
    di_qualifier := peripheral_qualifier data;
    di_device_type := peripheral_device_type data;
    di_pagecode := task_get_uint8 data 1;
    di_designators := l |}) <$> designators).

Fixpoint raw_bytes (data : bytes) (i n : nat) : res bytes :=
  match n with
  | O => mret []
  | S n => b ← raw_byte data i; rest ← raw_bytes data (S i) n; mret (b :: rest)
  end.

Fixpoint command_support_loop (fuel : nat) (data : bytes) (remaining : Z) (lptr : nat)
  (commands : list third_party_copy_command_support)
  : D (option (list third_party_copy_command_support)) :=
  if negb (0 <? remaining) then mret (Some commands) else
  match fuel with
  | O => undefined NoFuel
  | S fuel =>
      ok ← allocate 24;
      if negb ok then mret None else
      operation_code ← lift (raw_byte data lptr);
      n ← lift (raw_byte data (lptr + 1));
      ok ← allocate (4 * (n + 1));
      if negb ok then mret None else
      actions ← lift (raw_bytes data (lptr + 2) (Z.to_nat n));
      command_support_loop fuel data (remaining - (n + 2)) (lptr + Z.to_nat n + 2)
        ({| tpc_operation_code := operation_code;
            tpc_service_action_length := n;
            tpc_service_action := actions ++ [0] |} :: commands)
  end.

Definition third_party_copy_unmarshall_supported_commands (data : bytes) (dptr : nat)
  : D (option third_party_copy_supported_commands) :=
  ok ← allocate 16;
  if negb ok then mret None else
  descriptor_type ← lift (raw_uint16 data dptr);
  remaining ← lift (raw_byte data (dptr + 4));
  commands ← command_support_loop (Z.to_nat remaining) data remaining (dptr + 5) [];
  mret ((fun l => {| tpc_descriptor_type := descriptor_type;
                     tpc_commands_supported := l |}) <$> commands).

Fixpoint third_party_loop (fuel : nat) (data : bytes) (remaining : Z) (dptr : nat)
  (supported : option third_party_copy_supported_commands)
  : D (option (option third_party_copy_supported_commands)) :=
  if negb (0 <? remaining) then mret (Some supported) else
  match fuel with
  | O => undefined NoFuel
  | S fuel =>
      copy_desc_type ← lift (raw_uint16 data dptr);
      copy_desc_len ← lift (raw_uint16 data (dptr + 2));
      let next := third_party_loop fuel data (remaining - (copy_desc_len + 4))
                    (dptr + Z.to_nat copy_desc_len + 4) in
      if copy_desc_type =? THIRD_PARTY_COPY_TYPE_SUPPORTED_COMMANDS then
        commands ← third_party_copy_unmarshall_supported_commands data dptr;
        match commands with None => mret None | Some _ => next commands end
      else next supported
  end.

Definition scsi_inquiry_unmarshall_third_party_copy
  : D (option scsi_inquiry_third_party_copy) :=
  data ← gets datain;
  ok ← allocate 24;
  if negb ok then mret None else
  let remaining := task_get_uint16 data 2 in
  supported ← third_party_loop (Z.to_nat remaining) data remaining 4 None;
  mret ((fun s => {|
    tp_qualifier := peripheral_qualifier data;
    tp_device_type := peripheral_device_type data;
    tp_pagecode := task_get_uint8 data 1;
    tp_supported_commands := s |}) <$> supported).

Definition scsi_inquiry_unmarshall_block_limits : D (option scsi_inquiry_block_limits) :=
  data ← gets datain;
  let max_ws_len := task_get_uint32 data 36 in
  new_struct 88 {|
    bl_qualifier := peripheral_qualifier data;
    bl_device_type := peripheral_device_type data;
    bl_pagecode := task_get_uint8 data 1;
    bl_wsnz := task_get_uint8 data 4 &&& 0x01;
    bl_max_cmp := task_get_uint8 data 5;
    bl_opt_gran := task_get_uint16 data 6;
    bl_max_xfer_len := task_get_uint32 data 8;
    bl_opt_xfer_len := task_get_uint32 data 12;
    bl_max_prefetch := task_get_uint32 data 16;
    bl_max_unmap := task_get_uint32 data 20;
    bl_max_unmap_bdc := task_get_uint32 data 24;
    bl_opt_unmap_gran := task_get_uint32 data 28;
    bl_ugavalid := notnot (task_get_uint8 data 32 &&& 0x80);
    bl_unmap_gran_align := task_get_uint32 data 32 &&& 0x7fffffff;
    bl_max_ws_len := u64 (max_ws_len << 32) ||| task_get_uint32 data 40;
    bl_max_atomic_xfer_len := task_get_uint32 data 44;
    bl_atomic_align := task_get_uint32 data 48;
    bl_atomic_gran := task_get_uint32 data 52;
    bl_max_atomic_tl_with_atomic_boundary := task_get_uint32 data 56;
    bl_max_atomic_boundary_size := task_get_uint32 data 60 |}.

Definition scsi_inquiry_unmarshall_block_device_characteristics
  : D (option scsi_inquiry_block_device_characteristics) :=
  data ← gets datain;
  new_struct 40 {|
    bdc_qualifier := peripheral_qualifier data;
    bdc_device_type := peripheral_device_type data;
    bdc_pagecode := task_get_uint8 data 1;
    bdc_medium_rotation_rate := task_get_uint16 data 4;
    bdc_product_type := task_get_uint8 data 6;
    bdc_wabereq := (task_get_uint8 data 7 >> 6) &&& 0x03;
    bdc_wacereq := (task_get_uint8 data 7 >> 4) &&& 0x03;
    bdc_nominal_form_factor := task_get_uint8 data 7 &&& 0x0f;
    bdc_fuab := notnot (task_get_uint8 data 8 &&& 0x02);
    bdc_vbuls := notnot (task_get_uint8 data 8 &&& 0x01) |}.

Definition scsi_inquiry_unmarshall_logical_block_provisioning
  : D (option scsi_inquiry_logical_block_provisioning) :=
  data ← gets datain;
  new_struct 44 {|
    lbp_qualifier := peripheral_qualifier data;
    lbp_device_type := peripheral_device_type data;
    lbp_pagecode := task_get_uint8 data 1;
    lbp_threshold_exponent := task_get_uint8 data 4;
    lbp_lbpu := notnot (task_get_uint8 data 5 &&& 0x80);
    lbp_lbpws := notnot (task_get_uint8 data 5 &&& 0x40);
    lbp_lbpws10 := notnot (task_get_uint8 data 5 &&& 0x20);
    lbp_lbprz := notnot (task_get_uint8 data 5 &&& 0x04);
    lbp_anc_sup := notnot (task_get_uint8 data 5 &&& 0x02);
    lbp_dp := notnot (task_get_uint8 data 5 &&& 0x01);
    lbp_provisioning_type := task_get_uint8 data 6 &&& 0x07 |}.

Definition scsi_inquiry_datain_unmarshall : D (option inquiry_data) :=
  evpd ← gets scsi_inquiry_evpd_set;
  if evpd =? 0 then r ← scsi_inquiry_unmarshall_standard; mret (Data_standard <$> r) else
  page ← gets scsi_inquiry_page_code;
  if page =? SCSI_INQUIRY_PAGECODE_SUPPORTED_VPD_PAGES then
    r ← scsi_inquiry_unmarshall_supported_pages; mret (Data_supported_pages <$> r)
  else if page =? SCSI_INQUIRY_PAGECODE_UNIT_SERIAL_NUMBER then
    r ← scsi_inquiry_unmarshall_unit_serial_number; mret (Data_unit_serial_number <$> r)
  else if page =? SCSI_INQUIRY_PAGECODE_DEVICE_IDENTIFICATION then
    r ← scsi_inquiry_unmarshall_device_identification; mret (Data_device_identification <$> r)
  else if page =? SCSI_INQUIRY_PAGECODE_THIRD_PARTY_COPY then
    r ← scsi_inquiry_unmarshall_third_party_copy; mret (Data_third_party_copy <$> r)
  else if page =? SCSI_INQUIRY_PAGECODE_BLOCK_LIMITS then
    r ← scsi_inquiry_unmarshall_block_limits; mret (Data_block_limits <$> r)
  else if page =? SCSI_INQUIRY_PAGECODE_BLOCK_DEVICE_CHARACTERISTICS then
    r ← scsi_inquiry_unmarshall_block_device_characteristics;
    mret (Data_block_device_characteristics <$> r)
  else if page =? SCSI_INQUIRY_PAGECODE_LOGICAL_BLOCK_PROVISIONING then
    r ← scsi_inquiry_unmarshall_logical_block_provisioning;
    mret (Data_logical_block_provisioning <$> r)
  else mret None.

End Decoders.

(** ** Outcomes *)

Section Outcome.
Context `{Malloc}.

Lemma inquiry_standard_reads_past : reads_past scsi_inquiry_unmarshall_standard.
Proof. unfold reads_past, scsi_inquiry_unmarshall_standard. outcome_steps. Qed.

Lemma supported_pages_reads_past : reads_past scsi_inquiry_unmarshall_supported_pages.
Proof. unfold reads_past, scsi_inquiry_unmarshall_supported_pages. outcome_steps. Qed.

Lemma unit_serial_number_reads_past : reads_past scsi_inquiry_unmarshall_unit_serial_number.
Proof. unfold reads_past, scsi_inquiry_unmarshall_unit_serial_number. outcome_steps. Qed.

Lemma raw_uint16_reads_past data i : reads_past (lift (raw_uint16 data i)).
Proof.
  intros task. unfold fails_at, lift, raw_uint16, raw_byte.
  destruct (data !! i); cbn; [|done]. by destruct (data !! (i + 1)%nat).
Qed.

Lemma raw_bytes_reads_past data i n : reads_past (lift (raw_bytes data i n)).
Proof.
  assert (forall u, raw_bytes data i n = Undef u -> u = OutOfBounds) as Hu.
  { revert i. induction n as [|n IH]; intros i u; cbn [raw_bytes]; [done|].
    unfold raw_byte. destruct (data !! i); cbn [mbind res_bind]; [|by intros [= <-]].
    destruct (raw_bytes data (S i) n) eqn:E; cbn; [done|]. intros [= <-]. by apply (IH (S i)). }
  intros task. unfold fails_at, lift. destruct (raw_bytes data i n); [done|by apply Hu].
Qed.

(** Bytes are not negative, so every turn of a loop uses up its two or four
    bytes of header at least. *)

Lemma raw_byte_ok data i b : bytes_ok data -> raw_byte data i = Ret b -> 0 <= b < 256.
Proof.
  unfold raw_byte. intros Hd. destruct (data !! i) eqn:E; [|done]. intros [= <-].
  apply (Forall_lookup_1 _ _ _ _ Hd E).
Qed.

Lemma raw_byte_step {B} data i (f : Z -> D B) : bytes_ok data ->
  (forall b, 0 <= b < 256 -> reads_past (f b)) -> reads_past (lift (raw_byte data i) ≫= f).
Proof.
  intros Hd Hf. destruct (raw_byte data i) as [b|u] eqn:E.
  - apply (only_lift _ _ b); [done|]. apply Hf. by apply (raw_byte_ok data i).
  - unfold raw_byte in E. destruct (data !! i); [done|]. injection E as <-.
    intros task. done.
Qed.

Lemma raw_uint16_step {B} data i (f : Z -> D B) :
  (forall v, 0 <= v -> reads_past (f v)) -> reads_past (lift (raw_uint16 data i) ≫= f).
Proof.
  intros Hf. unfold raw_uint16, raw_byte.
  destruct (data !! i); cbn [mbind res_bind]; [|by intros task].
  destruct (data !! (i + 1)%nat); cbn [mbind res_bind]; [|by intros task].
  apply (only_lift _ _ (scsi_get_uint16 data i)); [done|]. apply Hf, get16_range.
Qed.

(** The loop's use of the designator [device_designator] returns. *)
Lemma device_designator_step {B} data i (f : option scsi_inquiry_device_designator -> D B) :
  bytes_ok data -> reads_past (f None) ->
  (forall dev, 0 <= dd_designator_length dev -> reads_past (f (Some dev))) ->
  reads_past (device_designator data i ≫= f).
Proof.
  intros Hd Hn Hs. unfold reads_past, device_designator.
  apply only_assoc, only_bind; [apply allocate_reads_past|intros ok].
  apply only_if_bind; [by apply only_ret_bind|].
  apply only_assoc, raw_byte_step; [done|intros b0 _].
  apply only_assoc, raw_byte_step; [done|intros b1 _].
  apply only_assoc, raw_byte_step; [done|intros n Hr].
  apply only_assoc, only_bind; [apply allocate_reads_past|intros ok'].
  apply only_if_bind; [by apply only_ret_bind|].
  apply only_assoc, only_bind; [apply raw_copy_reads_past|intros d].
  apply only_ret_bind, Hs. cbn. lia.
Qed.

Lemma designator_loop_reads_past fuel data remaining i l :
  bytes_ok data -> remaining <= Z.of_nat fuel ->
  reads_past (designator_loop fuel data remaining i l).
Proof.
  intros Hd. revert remaining i l. induction fuel as [|fuel IH]; intros remaining i l Hf;
    cbn [designator_loop]; (destruct (Z.ltb_spec 0 remaining); cbn [negb]; [|done]).
  { lia. }
  apply device_designator_step; [done|done|]. intros dev Hn. apply IH. lia.
Qed.

Lemma command_support_loop_reads_past fuel data remaining i l :
  bytes_ok data -> remaining <= Z.of_nat fuel ->
  reads_past (command_support_loop fuel data remaining i l).
Proof.
  intros Hd. revert remaining i l. induction fuel as [|fuel IH]; intros remaining i l Hf;
    cbn [command_support_loop]; (destruct (Z.ltb_spec 0 remaining); cbn [negb]; [|done]).
  { lia. }
  apply only_bind; [apply allocate_reads_past|intros ok]. apply only_if; [done|].
  apply raw_byte_step; [done|intros b _]. apply raw_byte_step; [done|intros n Hn].
  apply only_bind; [apply allocate_reads_past|intros ok']. apply only_if; [done|].
  apply only_bind; [apply raw_bytes_reads_past|intros acts]. apply IH. lia.
Qed.

Lemma supported_commands_reads_past data dptr :
  bytes_ok data -> reads_past (third_party_copy_unmarshall_supported_commands data dptr).
Proof.
  intros Hd. unfold reads_past, third_party_copy_unmarshall_supported_commands.
  apply only_bind; [apply allocate_reads_past|intros ok]. apply only_if; [done|].
  apply raw_uint16_step; intros ty _. apply raw_byte_step; [done|intros n Hn].
  apply only_bind; [apply command_support_loop_reads_past; [done|lia]|]. done.
Qed.

Lemma third_party_loop_reads_past fuel data remaining i s :
  bytes_ok data -> remaining <= Z.of_nat fuel ->
  reads_past (third_party_loop fuel data remaining i s).
Proof.
  intros Hd. revert remaining i s. induction fuel as [|fuel IH]; intros remaining i s Hf;
    cbn [third_party_loop]; (destruct (Z.ltb_spec 0 remaining); cbn [negb]; [|done]).
  { lia. }
  apply raw_uint16_step; intros ty _. apply raw_uint16_step; intros len Hl. cbv zeta.
  apply only_if; [|apply IH; lia].
  apply only_bind; [by apply supported_commands_reads_past|]. intros [c|]; [|done].
  apply IH. lia.
Qed.

(** The decoders that walk over descriptors, on received bytes. *)
Lemma device_identification_reads_past task : bytes_ok (datain task) ->
  fails_at (fun u => u = OutOfBounds) scsi_inquiry_unmarshall_device_identification task.
Proof.
  intros Hd. unfold scsi_inquiry_unmarshall_device_identification. apply at_gets.
  apply only_bind; [apply allocate_reads_past|intros ok]. cbv zeta. apply only_if; [done|].
  apply only_bind; [|done]. apply designator_loop_reads_past; [done|lia].
Qed.

Lemma third_party_copy_reads_past task : bytes_ok (datain task) ->
  fails_at (fun u => u = OutOfBounds) scsi_inquiry_unmarshall_third_party_copy task.
Proof.
  intros Hd. unfold scsi_inquiry_unmarshall_third_party_copy. apply at_gets.
  apply only_bind; [apply allocate_reads_past|intros ok]. apply only_if; [done|]. cbv zeta.
  apply only_bind; [|done]. apply third_party_loop_reads_past; [done|lia].
Qed.

Lemma inquiry_reads_past task : bytes_ok (datain task) ->
  fails_at (fun u => u = OutOfBounds) scsi_inquiry_datain_unmarshall task.
Proof.
  intros Hd. unfold scsi_inquiry_datain_unmarshall. apply at_gets.
  apply at_if; [apply at_bind; [apply inquiry_standard_reads_past|done]|].
  apply at_gets.
  apply at_if; [apply at_bind; [apply supported_pages_reads_past|done]|].
  apply at_if; [apply at_bind; [apply unit_serial_number_reads_past|done]|].
  apply at_if; [apply at_bind; [by apply device_identification_reads_past|done]|].
  apply at_if; [apply at_bind; [by apply third_party_copy_reads_past|done]|].
  do 3 (apply at_if; [apply at_bind; [|done]; revert task Hd; intros task _;
    revert task; outcome_steps|]). done.
Qed.

End Outcome.

(** ** The page of a target that lays its descriptors out by the standard *)

(** A designation descriptor the structure can hold: field widths, and the
    string terminator behind the designator. *)
Definition ok_designator (dev : scsi_inquiry_device_designator) (d : bytes) : Prop :=
  0 <= dd_protocol_identifier dev < 2 ^ 4 /\ 0 <= dd_code_set dev < 2 ^ 4 /\
  is_flag (dd_piv dev) /\ 0 <= dd_association dev < 2 ^ 2 /\
  0 <= dd_designator_type dev < 2 ^ 4 /\
  dd_designator_length dev = Z.of_nat (length d) /\ (length d < 256)%nat /\
  dd_designator dev = d ++ [0].

Definition designator_bytes (dev : scsi_inquiry_device_designator) (d : bytes) : bytes :=
  [dd_protocol_identifier dev << 4 ||| dd_code_set dev;
   dd_piv dev << 7 ||| dd_association dev << 4 ||| dd_designator_type dev;
   0; Z.of_nat (length d)] ++ d.

Definition descriptor_list (l : list (scsi_inquiry_device_designator * bytes)) : bytes :=
  concat (map (fun x => designator_bytes x.1 x.2) l).

Section Designators.
Context `{Malloc}.
Hypothesis Hm : forall size blocks, malloc_ok size blocks = true.

Lemma raw_byte_app pre l k b : l !! k = Some b -> raw_byte (pre ++ l) (length pre + k) = Ret b.
Proof.
  intros E. unfold raw_byte. rewrite lookup_app_r by lia.
  by rewrite Nat.add_comm, Nat.add_sub, E.
Qed.

Lemma raw_copy_app pre d post :
  raw_copy (pre ++ d ++ post) (length pre) (length d) = Ret d.
Proof.
  unfold raw_copy. rewrite (proj2 (Nat.leb_le _ _)) by (rewrite !length_app; lia).
  cbn [orb]. by rewrite drop_app_length, take_app_length.
Qed.

Lemma device_designator_decoded pre dev d post task : ok_designator dev d ->
  exists task',
    device_designator (pre ++ designator_bytes dev d ++ post) (length pre) task =
      Ret (Some dev, task').
Proof.
  intros (Hp & Hc & Hv & Ha & Ht & Hn & Hl & Hd). unfold device_designator.
  pose proof (raw_byte_app pre (designator_bytes dev d ++ post)) as Hb.
  pose proof (Hb 0%nat _ eq_refl) as E0. rewrite Nat.add_0_r in E0.
  run (allocate_ok 40 task Hm ltac:(fits_constant)). cbn [negb]. unfold mbind, M_bind, lift.
  rewrite E0, (Hb 1%nat _ eq_refl), (Hb 3%nat _ eq_refl), allocate_ok by (done || apply fits_small; lia).
  cbn [negb].
  unfold mbind, M_bind, lift, designator_bytes.
  set (hd := [_; _; _; _]).
  replace (pre ++ (hd ++ d) ++ post) with ((pre ++ hd) ++ d ++ post)
    by by rewrite <- !app_assoc.
  assert (length pre + 4 = length (pre ++ hd))%nat as -> by by rewrite length_app.
  rewrite Nat2Z.id, raw_copy_app. eexists. unfold mret, M_ret. do 3 f_equal.
  destruct dev; cbn in *. subst. f_equal.
  all: lazymatch goal with
       | |- notnot _ = _ =>
           apply (notnot_bit _ 7); [lia|done|]; destruct Hv; subst; bits_norm; bits_finish
       | |- _ &&& 15 = _ => zbits 4
       | |- _ &&& 3 = _ => zbits 2
       end.
Qed.

Lemma length_designator_bytes dev d : length (designator_bytes dev d) = (4 + length d)%nat.
Proof. done. Qed.

(** The loop links each designator in front of those before it. *)
Lemma designator_loop_decoded l pre acc fuel task :
  Forall (fun x => ok_designator x.1 x.2) l -> (length (descriptor_list l) <= fuel)%nat ->
  exists task',
    designator_loop fuel (pre ++ descriptor_list l) (Z.of_nat (length (descriptor_list l)))
      (length pre) acc task = Ret (Some (rev (map fst l) ++ acc), task').
Proof.
  intros Hl. revert pre acc fuel task. induction Hl as [|[dev d] l Hd _ IH];
    intros pre acc fuel task Hf.
  { destruct fuel; by eexists. }
  cbn [descriptor_list map concat fst snd] in *. fold (descriptor_list l) in *.
  rewrite length_app, length_designator_bytes in *.
  destruct fuel as [|fuel]; [lia|]. cbn [designator_loop].
  rewrite (proj2 (Z.ltb_lt _ _)) by lia. cbn [negb].
  destruct (device_designator_decoded pre dev d (descriptor_list l) task Hd) as (t & E).
  run E. destruct Hd as (_ & _ & _ & _ & _ & -> & _).
  destruct (IH (pre ++ designator_bytes dev d) (dev :: acc) fuel t) as (t' & E'); [lia|].
  exists t'. rewrite <- app_assoc in E'. rewrite Nat2Z.id.
  rewrite length_app, length_designator_bytes in E'.
  replace (length pre + length d + 4)%nat with (length pre + (4 + length d))%nat by lia.
  replace (Z.of_nat (4 + length d + length (descriptor_list l)) - 4 - Z.of_nat (length d))
    with (Z.of_nat (length (descriptor_list l))) by lia.
  rewrite E'. cbn [rev]. by rewrite <- app_assoc.
Qed.

(** The page a target sends for these designators. *)
Definition identification_page (qualifier device_type : Z)
  (l : list (scsi_inquiry_device_designator * bytes)) : bytes :=
  [qualifier << 5 ||| device_type; 0x83] ++ be16 (Z.of_nat (length (descriptor_list l)))
    ++ descriptor_list l.

Lemma identification_decoded qualifier device_type l task :
  0 <= qualifier < 2 ^ 3 -> 0 <= device_type < 2 ^ 5 ->
  Forall (fun x => ok_designator x.1 x.2) l ->
  Z.of_nat (length (descriptor_list l)) < 2 ^ 16 ->
  datain task = identification_page qualifier device_type l ->
  exists task',
    scsi_inquiry_unmarshall_device_identification task =
      Ret (Some {| di_qualifier := qualifier; di_device_type := device_type;
                   di_pagecode := 0x83; di_designators := rev (map fst l) |}, task').
Proof.
  intros Hq Ht Hl Hn Hd. unfold scsi_inquiry_unmarshall_device_identification.
  rewrite (bind_run _ _ _ (datain task) task eq_refl), Hd.
  set (n := length (descriptor_list l)) in *. unfold identification_page. fold n.
  set (pre := [qualifier << 5 ||| device_type; 0x83] ++ be16 (Z.of_nat n)).
  rewrite app_assoc. fold pre.
  assert (task_get_uint16 (pre ++ descriptor_list l) 2 = Z.of_nat n) as ->.
  { rewrite task_get_uint16_in by (rewrite length_app; cbn; lia). unfold pre.
    rewrite <- app_assoc. rewrite (get16_app_r [_; _] _ 0). apply get16_be16. lia. }
  run (allocate_ok 24 task Hm ltac:(fits_constant)). cbv zeta. cbn [negb]. rewrite Nat2Z.id.
  destruct (designator_loop_decoded l pre [] n (with_block 24 task) Hl) as (t & E); [done|].
  change 4%nat with (length pre). run E. rewrite app_nil_r. eexists.
  unfold mret, M_ret. cbn [fmap option_fmap option_map]. do 3 f_equal.
  unfold peripheral_qualifier, peripheral_device_type.
  rewrite !task_get_uint8_in by (rewrite length_app; cbn; lia).
  rewrite !byte_at_app_l by (cbn; lia). unfold pre, byte_at.
  cbn [lookup list_lookup app default from_option id]. f_equal; [zbits 3|zbits 5].
Qed.

End Designators.

(** A designator whose length the target overstates is copied past the end of
    the data received. *)
Example overstated_designator :
  let _ : Malloc := fun _ _ => true in
  scsi_inquiry_unmarshall_device_identification
    (new_task <| datain := [0; 0x83; 0; 8; 0x51; 3; 0; 200; 1; 2; 3; 4] |>)
  = Undef OutOfBounds.
Proof. reflexivity. Qed.

(** So are the identification strings of a standard page of less than 36
    bytes. *)
Example short_standard_data :
  let _ : Malloc := fun _ _ => true in
  scsi_inquiry_unmarshall_standard (new_task <| datain := zeros 24 |>) = Undef OutOfBounds.
Proof. reflexivity. Qed.

(** ** Properties *)

(** C28: The device identification page decodes to what the target put in it: for
    designation descriptors laid out by the standard, of any number and length that fits
    a page, scsi_inquiry_unmarshall_device_identification returns the qualifier, the
    device type and every designator with its protocol, code set, association, type and
    terminated bytes, linked last first. *)
Theorem device_identification_roundtrip `{Malloc} (qualifier device_type : Z)
  (l : list (scsi_inquiry_device_designator * bytes)) (task : scsi_task) :
  (forall size blocks, malloc_ok size blocks = true) ->
  0 <= qualifier < 2 ^ 3 -> 0 <= device_type < 2 ^ 5 ->
  Forall (fun x => ok_designator x.1 x.2) l ->
  Z.of_nat (length (descriptor_list l)) < 2 ^ 16 ->
  datain task = identification_page qualifier device_type l ->
  exists task',
    scsi_inquiry_unmarshall_device_identification task =
      Ret (Some {| di_qualifier := qualifier; di_device_type := device_type;
                   di_pagecode := 0x83; di_designators := rev (map fst l) |}, task').
Proof. intros Hm. exact (identification_decoded Hm qualifier device_type l task). Qed.

Lemma device_identification_roundtrip_witness :
  let _ : Malloc := fun _ _ => true in
  let naa := {| dd_protocol_identifier := 5; dd_code_set := 1; dd_piv := 1;
    dd_association := 1; dd_designator_type := 3; dd_designator_length := 4;
    dd_designator := [0x60; 1; 2; 3; 0] |} in
  let name := {| dd_protocol_identifier := 0; dd_code_set := 2; dd_piv := 0;
    dd_association := 0; dd_designator_type := 1; dd_designator_length := 3;
    dd_designator := [0x49; 0x45; 0x54; 0] |} in
  let l := [(naa, [0x60; 1; 2; 3]); (name, [0x49; 0x45; 0x54])] in
  exists task',
    scsi_inquiry_unmarshall_device_identification
      (new_task <| datain := identification_page 1 5 l |>) =
      Ret (Some {| di_qualifier := 1; di_device_type := 5; di_pagecode := 0x83;
                   di_designators := [name; naa] |}, task').
Proof.
  intros m naa name l.
  apply (@device_identification_roundtrip m 1 5 l
    (new_task <| datain := identification_page 1 5 l |>)).
  - done.
  - lia.
  - lia.
  - unfold l. repeat (apply Forall_cons; split; [|try by apply Forall_nil]); cbn;
      unfold ok_designator, is_flag; cbn; repeat split; try lia; auto.
  - cbn. lia.
  - reflexivity.
Defined.
