(* ===== verification/ModePages.v ===== *)
(** Mode parameters: decoding of MODE SENSE data and encoding of the parameter
    list of MODE SELECT (src/lib/scsi-lowlevel.c, [scsi_modesense_*],
    [scsi_parse_mode_*]). *)

From S2P Require Import Prelude Bytes Task Cdb DataIn.

(** ** Structures *)

Record scsi_mode_page_caching := {
  mc_ic : Z;
  mc_abpf : Z;
  mc_cap : Z;
  mc_disc : Z;
  mc_size : Z;
  mc_wce : Z;
  mc_mf : Z;
  mc_rcd : Z;
  mc_demand_read_retention_priority : Z;
  mc_write_retention_priority : Z;
  mc_disable_prefetch_transfer_length : Z;
  mc_minimum_prefetch : Z;
  mc_maximum_prefetch : Z;
  mc_maximum_prefetch_ceiling : Z;
  mc_fsw : Z;
  mc_lbcss : Z;
  mc_dra : Z;
  mc_nv_dis : Z;
  mc_number_of_cache_segments : Z;
  mc_cache_segment_size : Z
}.

Record scsi_mode_page_power_condition := {
  mpc_pm_bg_precedence : Z;
  mpc_standby_y : Z;
  mpc_idle_c : Z;
  mpc_idle_b : Z;
  mpc_idle_a : Z;
  mpc_standby_z : Z;
  mpc_idle_a_condition_timer : Z;
  mpc_standby_z_condition_timer : Z;
  mpc_idle_b_condition_timer : Z;
  mpc_idle_c_condition_timer : Z;
  mpc_standby_y_condition_timer : Z;
  mpc_ccf_idle : Z;
  mpc_ccf_standby : Z;
  mpc_ccf_stopped : Z
}.

Record scsi_mode_page_control := {
  mt_tst : Z;
  mt_tmf_only : Z;
  mt_dpicz : Z;
  mt_d_sense : Z;
  mt_gltsd : Z;
  mt_rlec : Z;
  mt_queue_algorithm_modifier : Z;
  mt_nuar : Z;
  mt_qerr : Z;
  mt_vs : Z;
  mt_rac : Z;
  mt_ua_intlck_ctrl : Z;
  mt_swp : Z;
  mt_ato : Z;
  mt_tas : Z;
  mt_atmpe : Z;
  mt_rwwp : Z;
  mt_autoload_mode : Z;
  mt_busy_timeout_period : Z;
  mt_extended_selftest_completion_time : Z
}.

Record scsi_mode_page_disconnect_reconnect := {
  md_buffer_full_ratio : Z;
  md_buffer_empty_ratio : Z;
  md_bus_inactivity_limit : Z;
  md_disconnect_time_limit : Z;
  md_connect_time_limit : Z;
  md_maximum_burst_size : Z;
  md_emdp : Z;
  md_fair_arbitration : Z;
  md_dimm : Z;
  md_dtdc : Z;
  md_first_burst_size : Z
}.

Record scsi_mode_page_informational_exceptions_control := {
  me_perf : Z;
  me_ebf : Z;
  me_ewasc : Z;
  me_dexcpt : Z;
  me_test : Z;
  me_ebackerr : Z;
  me_logerr : Z;
  me_mrie : Z;
  me_interval_timer : Z;
  me_report_count : Z
}.

Definition SCSI_MODEPAGE_DISCONNECT_RECONNECT : Z := 0x02.
Definition SCSI_MODEPAGE_CACHING : Z := 0x08.
Definition SCSI_MODEPAGE_CONTROL : Z := 0x0a.
Definition SCSI_MODEPAGE_POWER_CONDITION : Z := 0x1a.
Definition SCSI_MODEPAGE_INFORMATIONAL_EXCEPTIONS_CONTROL : Z := 0x1c.

(** The union of struct scsi_mode_page: the member in use is the one that
    [page_code] names; no member is in use for the other codes. *)
Inductive mode_page_body :=
| Mode_caching (c : scsi_mode_page_caching)
| Mode_control (c : scsi_mode_page_control)
| Mode_disconnect_reconnect (c : scsi_mode_page_disconnect_reconnect)
| Mode_iec (c : scsi_mode_page_informational_exceptions_control)
| Mode_power_condition (c : scsi_mode_page_power_condition)
| Mode_other (page_code : Z).

Record scsi_mode_page := {
  mp_ps : Z;
  mp_spf : Z;
  mp_subpage_code : Z;
  mp_len : Z;
  mp_body : mode_page_body
}.

Definition mp_page_code (mp : scsi_mode_page) : Z :=
  match mp_body mp with
  | Mode_caching _ => SCSI_MODEPAGE_CACHING
  | Mode_control _ => SCSI_MODEPAGE_CONTROL
  | Mode_disconnect_reconnect _ => SCSI_MODEPAGE_DISCONNECT_RECONNECT
  | Mode_iec _ => SCSI_MODEPAGE_INFORMATIONAL_EXCEPTIONS_CONTROL
  | Mode_power_condition _ => SCSI_MODEPAGE_POWER_CONDITION
  | Mode_other page_code => page_code
  end.

(** [ms_pages] in the order of the [next] pointers. *)
Record scsi_mode_sense := {
  ms_mode_data_length : Z;
  ms_medium_type : Z;
  ms_device_specific_parameter : Z;
  ms_longlba : Z;
  ms_block_descriptor_length : Z;
  ms_pages : list scsi_mode_page
}.

#[export] Instance eta_scsi_mode_sense : Eta scsi_mode_sense := fun ms =>
  Build_scsi_mode_sense (ms_mode_data_length ms) (ms_medium_type ms)
    (ms_device_specific_parameter ms) (ms_longlba ms) (ms_block_descriptor_length ms)
    (ms_pages ms).

(** ** Decoding *)

Definition scsi_modesense_get_page (ms : scsi_mode_sense) (page_code subpage_code : Z)
  : option scsi_mode_page :=
  List.find (fun mp => (mp_page_code mp =? page_code) && (mp_subpage_code mp =? subpage_code))
    (ms_pages ms).

Definition scsi_modesense_datain_getfullsize (is_modesense6 : bool) (data : bytes) : Z :=
  if is_modesense6 then task_get_uint8 data 0 + 1 else task_get_uint16 data 0 + 2.

Definition scsi_parse_mode_caching (data : bytes) (pos : nat) : scsi_mode_page_caching := {|
  mc_ic := notnot (task_get_uint8 data pos &&& 0x80);
  mc_abpf := notnot (task_get_uint8 data pos &&& 0x40);
  mc_cap := notnot (task_get_uint8 data pos &&& 0x20);
  mc_disc := notnot (task_get_uint8 data pos &&& 0x10);
  mc_size := notnot (task_get_uint8 data pos &&& 0x08);
  mc_wce := notnot (task_get_uint8 data pos &&& 0x04);
  mc_mf := notnot (task_get_uint8 data pos &&& 0x02);
  mc_rcd := notnot (task_get_uint8 data pos &&& 0x01);
  mc_demand_read_retention_priority := (task_get_uint8 data (pos + 1) >> 4) &&& 0x0f;
  mc_write_retention_priority := task_get_uint8 data (pos + 1) &&& 0x0f;
  mc_disable_prefetch_transfer_length := task_get_uint16 data (pos + 2);
  mc_minimum_prefetch := task_get_uint16 data (pos + 4);
  mc_maximum_prefetch := task_get_uint16 data (pos + 6);
  mc_maximum_prefetch_ceiling := task_get_uint16 data (pos + 8);
  mc_fsw := notnot (task_get_uint8 data (pos + 10) &&& 0x80);
  mc_lbcss := notnot (task_get_uint8 data (pos + 10) &&& 0x40);
  mc_dra := notnot (task_get_uint8 data (pos + 10) &&& 0x20);
  mc_nv_dis := notnot (task_get_uint8 data (pos + 10) &&& 0x01);
  mc_number_of_cache_segments := task_get_uint8 data (pos + 11);
  mc_cache_segment_size := task_get_uint16 data (pos + 12)
|}.

Definition scsi_parse_mode_control (data : bytes) (pos : nat) : scsi_mode_page_control := {|
  mt_tst := (task_get_uint8 data pos >> 5) &&& 0x07;
  mt_tmf_only := notnot (task_get_uint8 data pos &&& 0x10);
  mt_dpicz := notnot (task_get_uint8 data pos &&& 0x08);
  mt_d_sense := notnot (task_get_uint8 data pos &&& 0x04);
  mt_gltsd := notnot (task_get_uint8 data pos &&& 0x02);
  mt_rlec := notnot (task_get_uint8 data pos &&& 0x01);
  mt_queue_algorithm_modifier := (task_get_uint8 data (pos + 1) >> 4) &&& 0x0f;
  mt_nuar := task_get_uint8 data (pos + 1) &&& 0x08;
  mt_qerr := (task_get_uint8 data (pos + 1) >> 1) &&& 0x03;
  mt_vs := notnot (task_get_uint8 data (pos + 2) &&& 0x80);
  mt_rac := notnot (task_get_uint8 data (pos + 2) &&& 0x40);
  mt_ua_intlck_ctrl := (task_get_uint8 data (pos + 2) >> 4) &&& 0x0f;
  mt_swp := notnot (task_get_uint8 data (pos + 2) &&& 0x08);
  mt_ato := notnot (task_get_uint8 data (pos + 3) &&& 0x80);
  mt_tas := notnot (task_get_uint8 data (pos + 3) &&& 0x40);
  mt_atmpe := notnot (task_get_uint8 data (pos + 3) &&& 0x20);
  mt_rwwp := notnot (task_get_uint8 data (pos + 3) &&& 0x10);
  mt_autoload_mode := notnot (task_get_uint8 data (pos + 3) &&& 0x07);
  mt_busy_timeout_period := task_get_uint16 data (pos + 6);
  mt_extended_selftest_completion_time := task_get_uint16 data (pos + 8)
|}.

Definition scsi_parse_mode_power_condition (data : bytes) (pos : nat)
  : scsi_mode_page_power_condition := {|
  mpc_pm_bg_precedence := (task_get_uint8 data pos >> 6) &&& 0x03;
  mpc_standby_y := notnot (task_get_uint8 data pos &&& 0x01);
  mpc_idle_c := notnot (task_get_uint8 data (pos + 1) &&& 0x08);
  mpc_idle_b := notnot (task_get_uint8 data (pos + 1) &&& 0x04);
  mpc_idle_a := notnot (task_get_uint8 data (pos + 1) &&& 0x02);
  mpc_standby_z := notnot (task_get_uint8 data (pos + 1) &&& 0x01);
  mpc_idle_a_condition_timer := task_get_uint32 data (pos + 2);
  mpc_standby_z_condition_timer := task_get_uint32 data (pos + 6);
  mpc_idle_b_condition_timer := task_get_uint32 data (pos + 10);
  mpc_idle_c_condition_timer := task_get_uint32 data (pos + 14);
  mpc_standby_y_condition_timer := task_get_uint32 data (pos + 18);
  mpc_ccf_idle := (task_get_uint8 data (pos + 37) >> 6) &&& 0x03;
  mpc_ccf_standby := (task_get_uint8 data (pos + 37) >> 4) &&& 0x03;
  mpc_ccf_stopped := (task_get_uint8 data (pos + 37) >> 2) &&& 0x03
|}.

Definition scsi_parse_mode_disconnect_reconnect (data : bytes) (pos : nat)
  : scsi_mode_page_disconnect_reconnect := {|
  md_buffer_full_ratio := task_get_uint8 data pos;
  md_buffer_empty_ratio := task_get_uint8 data (pos + 1);
  md_bus_inactivity_limit := task_get_uint16 data (pos + 2);
  md_disconnect_time_limit := task_get_uint16 data (pos + 4);
  md_connect_time_limit := task_get_uint16 data (pos + 6);
  md_maximum_burst_size := task_get_uint16 data (pos + 8);
  md_emdp := notnot (task_get_uint8 data (pos + 10) &&& 0x80);
  md_fair_arbitration := (task_get_uint8 data (pos + 10) >> 4) &&& 0x0f;
  md_dimm := notnot (task_get_uint8 data (pos + 10) &&& 0x08);
  md_dtdc := task_get_uint8 data (pos + 10) &&& 0x07;
  md_first_burst_size := task_get_uint16 data (pos + 12)
|}.

Definition scsi_parse_mode_informational_exceptions_control (data : bytes) (pos : nat)
  : scsi_mode_page_informational_exceptions_control := {|
  me_perf := notnot (task_get_uint8 data pos &&& 0x80);
  me_ebf := notnot (task_get_uint8 data pos &&& 0x20);
  me_ewasc := notnot (task_get_uint8 data pos &&& 0x10);
  me_dexcpt := notnot (task_get_uint8 data pos &&& 0x08);
  me_test := notnot (task_get_uint8 data pos &&& 0x04);
  me_ebackerr := notnot (task_get_uint8 data pos &&& 0x02);
  me_logerr := notnot (task_get_uint8 data pos &&& 0x01);
  me_mrie := task_get_uint8 data (pos + 1) &&& 0x0f;
  me_interval_timer := i32 (task_get_uint32 data (pos + 2));
  me_report_count := i32 (task_get_uint32 data (pos + 6))
|}.

(** One page at [pos]: the page and the position behind its header. *)
Definition parse_mode_page (data : bytes) (pos : nat) : scsi_mode_page * nat :=
  let ps := task_get_uint8 data pos &&& 0x80 in
  let spf := task_get_uint8 data pos &&& 0x40 in
  let page_code := task_get_uint8 data pos &&& 0x3f in
  let pos := (pos + 1)%nat in
  let '(subpage_code, len, pos) :=
    if truth spf
    then (task_get_uint8 data pos, task_get_uint16 data (pos + 1), (pos + 3)%nat)
    else (0, task_get_uint8 data pos, (pos + 1)%nat) in
  let body :=
    if page_code =? SCSI_MODEPAGE_CACHING then Mode_caching (scsi_parse_mode_caching data pos)
    else if page_code =? SCSI_MODEPAGE_CONTROL then
      Mode_control (scsi_parse_mode_control data pos)
    else if page_code =? SCSI_MODEPAGE_DISCONNECT_RECONNECT then
      Mode_disconnect_reconnect (scsi_parse_mode_disconnect_reconnect data pos)
    else if page_code =? SCSI_MODEPAGE_INFORMATIONAL_EXCEPTIONS_CONTROL then
      Mode_iec (scsi_parse_mode_informational_exceptions_control data pos)
    else if page_code =? SCSI_MODEPAGE_POWER_CONDITION then
      Mode_power_condition (scsi_parse_mode_power_condition data pos)
    else Mode_other page_code in
  ({| mp_ps := ps; mp_spf := spf; mp_subpage_code := subpage_code; mp_len := len;
      mp_body := body |}, pos).

Section Malloc.
Context `{Malloc}.

(** [pages]: those linked so far, the last one first.  The loop ends early,
    with the pages it has, when there is no memory for the next one. *)
Fixpoint mode_page_loop (fuel : nat) (data : bytes) (pos : nat) (pages : list scsi_mode_page)
  : D (list scsi_mode_page) :=
  if (length data <=? pos)%nat then mret pages else
  match fuel with
  | O => undefined NoFuel
  | S fuel =>
      ok ← allocate 112;
      if negb ok then mret pages else
      let '(mp, pos) := parse_mode_page data pos in
      mode_page_loop fuel data (pos + Z.to_nat (mp_len mp)) (mp :: pages)
  end.

Definition mode_sense_header (is_modesense6 : bool) (data : bytes) : scsi_mode_sense :=
  if is_modesense6 then {|
    ms_mode_data_length := task_get_uint8 data 0;
    ms_medium_type := task_get_uint8 data 1;
    ms_device_specific_parameter := task_get_uint8 data 2;
    ms_longlba := 0;
    ms_block_descriptor_length := task_get_uint8 data 3;
    ms_pages := [] |}
  else {|
    ms_mode_data_length := task_get_uint16 data 0;
    ms_medium_type := task_get_uint8 data 2;
    ms_device_specific_parameter := task_get_uint8 data 3;
    ms_longlba := task_get_uint8 data 4 &&& 0x01;
    ms_block_descriptor_length := u8 (task_get_uint16 data 6);
    ms_pages := [] |}.

Definition scsi_modesense_datain_unmarshall (is_modesense6 : bool)
  : D (option scsi_mode_sense) :=
  data ← gets datain;
  let hdr_len := if is_modesense6 then 4 else 8 in
  if size_of data <? hdr_len then mret None else
  ok ← allocate 16;
  if negb ok then mret None else
  let ms := mode_sense_header is_modesense6 data in
  if size_of data <? ms_mode_data_length ms + 1 then mret None else
  let pos := Z.to_nat (hdr_len + ms_block_descriptor_length ms) in
  pages ← mode_page_loop (length data) data pos [];
  mret (Some (ms <| ms_pages := pages |>)).

(** ** Encoding *)

(** [data->data[k] |= v] and the same behind [if (flag)]. *)
Definition or_at (k : nat) (v : Z) (data : bytes) : bytes :=
  <[k := u8 (byte_at data k ||| v)]> data.

Definition or_if (flag : Z) (k : nat) (v : Z) (data : bytes) : bytes :=
  if truth flag then or_at k v data else data.

Definition set_at (k : nat) (v : Z) (data : bytes) : bytes := <[k := u8 v]> data.

(** A zeroed buffer of [size] bytes behind a struct scsi_data. *)
Definition new_data (size : nat) : D (option bytes) :=
  ok ← allocate 16;
  if negb ok then mret None else
  ok ← allocate (Z.of_nat size);
  if negb ok then mret None else mret (Some (zeros size)).

Definition put_caching (hdr_size : nat) (c : scsi_mode_page_caching) (data : bytes) : bytes :=
  let k := (hdr_size + 2)%nat in
  let data := or_if (mc_ic c) k 0x80 data in
  let data := or_if (mc_abpf c) k 0x40 data in
  let data := or_if (mc_cap c) k 0x20 data in
  let data := or_if (mc_disc c) k 0x10 data in
  let data := or_if (mc_size c) k 0x08 data in
  let data := or_if (mc_wce c) k 0x04 data in
  let data := or_if (mc_mf c) k 0x02 data in
  let data := or_if (mc_rcd c) k 0x01 data in
  let data := or_at (hdr_size + 3) ((mc_demand_read_retention_priority c << 4) &&& 0xf0) data in
  let data := or_at (hdr_size + 3) (mc_write_retention_priority c &&& 0x0f) data in
  let data := scsi_set_uint16 data (hdr_size + 4) (mc_disable_prefetch_transfer_length c) in
  let data := scsi_set_uint16 data (hdr_size + 6) (mc_minimum_prefetch c) in
  let data := scsi_set_uint16 data (hdr_size + 8) (mc_maximum_prefetch c) in
  let data := scsi_set_uint16 data (hdr_size + 10) (mc_maximum_prefetch_ceiling c) in
  let data := or_if (mc_fsw c) (hdr_size + 12) 0x80 data in
  let data := or_if (mc_lbcss c) (hdr_size + 12) 0x40 data in
  let data := or_if (mc_dra c) (hdr_size + 12) 0x20 data in
  let data := or_if (mc_nv_dis c) (hdr_size + 12) 0x01 data in
  let data := set_at (hdr_size + 13) (mc_number_of_cache_segments c) data in
  scsi_set_uint16 data (hdr_size + 14) (mc_cache_segment_size c).

Definition scsi_modesense_marshall_caching (c : scsi_mode_page_caching) (hdr_size : nat)
  : D (option bytes) :=
  data ← new_data (20 + hdr_size); mret (put_caching hdr_size c <$> data).

Definition put_control (hdr_size : nat) (c : scsi_mode_page_control) (data : bytes) : bytes :=
  let k := (hdr_size + 2)%nat in
  let data := or_at k ((mt_tst c << 5) &&& 0xe0) data in
  let data := or_if (mt_tmf_only c) k 0x10 data in
  let data := or_if (mt_dpicz c) k 0x08 data in
  let data := or_if (mt_d_sense c) k 0x04 data in
  let data := or_if (mt_gltsd c) k 0x02 data in
  let data := or_if (mt_rlec c) k 0x01 data in
  let k := (hdr_size + 3)%nat in
  let data := or_at k ((mt_queue_algorithm_modifier c << 4) &&& 0xf0) data in
  let data := or_if (mt_nuar c) k 0x08 data in
  let data := or_at k ((mt_qerr c << 1) &&& 0x06) data in
  let k := (hdr_size + 4)%nat in
  let data := or_if (mt_vs c) k 0x80 data in
  let data := or_if (mt_rac c) k 0x40 data in
  let data := or_at k ((mt_ua_intlck_ctrl c << 4) &&& 0x30) data in
  let data := or_if (mt_swp c) k 0x08 data in
  let k := (hdr_size + 5)%nat in
  let data := or_if (mt_ato c) k 0x80 data in
  let data := or_if (mt_tas c) k 0x40 data in
  let data := or_if (mt_atmpe c) k 0x20 data in
  let data := or_if (mt_rwwp c) k 0x10 data in
  let data := or_at k (mt_autoload_mode c &&& 0x07) data in
  let data := scsi_set_uint16 data (hdr_size + 8) (mt_busy_timeout_period c) in
  scsi_set_uint16 data (hdr_size + 10) (mt_extended_selftest_completion_time c).

Definition scsi_modesense_marshall_control (c : scsi_mode_page_control) (hdr_size : nat)
  : D (option bytes) :=
  data ← new_data (12 + hdr_size); mret (put_control hdr_size c <$> data).

Definition put_power_condition (hdr_size : nat) (c : scsi_mode_page_power_condition)
  (data : bytes) : bytes :=
  let data := or_at (hdr_size + 2) ((mpc_pm_bg_precedence c << 6) &&& 0xc0) data in
  let data := or_if (mpc_standby_y c) (hdr_size + 2) 0x01 data in
  let data := or_if (mpc_idle_c c) (hdr_size + 3) 0x08 data in
  let data := or_if (mpc_idle_b c) (hdr_size + 3) 0x04 data in
  let data := or_if (mpc_idle_a c) (hdr_size + 3) 0x02 data in
  let data := or_if (mpc_standby_z c) (hdr_size + 3) 0x01 data in
  let data := scsi_set_uint32 data (hdr_size + 4) (mpc_idle_a_condition_timer c) in
  let data := scsi_set_uint32 data (hdr_size + 8) (mpc_standby_z_condition_timer c) in
  let data := scsi_set_uint32 data (hdr_size + 12) (mpc_idle_b_condition_timer c) in
  let data := scsi_set_uint32 data (hdr_size + 16) (mpc_idle_c_condition_timer c) in
  let data := scsi_set_uint32 data (hdr_size + 20) (mpc_standby_y_condition_timer c) in
  let data := or_at (hdr_size + 39) ((mpc_ccf_idle c << 6) &&& 0xc0) data in
  let data := or_at (hdr_size + 39) ((mpc_ccf_standby c << 4) &&& 0x30) data in
  or_at (hdr_size + 39) ((mpc_ccf_stopped c << 2) &&& 0x0c) data.

Definition scsi_modesense_marshall_power_condition (c : scsi_mode_page_power_condition)
  (hdr_size : nat) : D (option bytes) :=
  data ← new_data (40 + hdr_size); mret (put_power_condition hdr_size c <$> data).

Definition put_disconnect_reconnect (hdr_size : nat) (c : scsi_mode_page_disconnect_reconnect)
  (data : bytes) : bytes :=
  let data := set_at (hdr_size + 2) (md_buffer_full_ratio c) data in
  let data := set_at (hdr_size + 3) (md_buffer_empty_ratio c) data in
  let data := scsi_set_uint16 data (hdr_size + 4) (md_bus_inactivity_limit c) in
  let data := scsi_set_uint16 data (hdr_size + 6) (md_disconnect_time_limit c) in
  let data := scsi_set_uint16 data (hdr_size + 8) (md_connect_time_limit c) in
  let data := scsi_set_uint16 data (hdr_size + 10) (md_maximum_burst_size c) in
  let k := (hdr_size + 12)%nat in
  let data := or_if (md_emdp c) k 0x80 data in
  let data := or_at k ((md_fair_arbitration c << 4) &&& 0x70) data in
  let data := or_if (md_dimm c) k 0x08 data in
  let data := or_at k (md_dtdc c &&& 0x07) data in
  scsi_set_uint16 data (hdr_size + 14) (md_first_burst_size c).

Definition scsi_modesense_marshall_disconnect_reconnect
  (c : scsi_mode_page_disconnect_reconnect) (hdr_size : nat) : D (option bytes) :=
  data ← new_data (16 + hdr_size); mret (put_disconnect_reconnect hdr_size c <$> data).

Definition put_iec (hdr_size : nat) (c : scsi_mode_page_informational_exceptions_control)
  (data : bytes) : bytes :=
  let k := (hdr_size + 2)%nat in
  let data := or_if (me_perf c) k 0x80 data in
  let data := or_if (me_ebf c) k 0x20 data in
  let data := or_if (me_ewasc c) k 0x10 data in
  let data := or_if (me_dexcpt c) k 0x08 data in
  let data := or_if (me_test c) k 0x04 data in
  let data := or_if (me_ebackerr c) k 0x02 data in
  let data := or_if (me_logerr c) k 0x01 data in
  let data := or_at (hdr_size + 3) (me_mrie c &&& 0x0f) data in
  let data := scsi_set_uint32 data (hdr_size + 4) (me_interval_timer c) in
  scsi_set_uint32 data (hdr_size + 8) (me_report_count c).

Definition scsi_modesense_marshall_informational_exceptions_control
  (c : scsi_mode_page_informational_exceptions_control) (hdr_size : nat) : D (option bytes) :=
  data ← new_data (12 + hdr_size); mret (put_iec hdr_size c <$> data).

(** The two or four bytes in front of the page. *)
Definition put_page_header (hdr_size : nat) (mp : scsi_mode_page) (data : bytes) : bytes :=
  let size := size_of data in
  let hdr := Z.of_nat hdr_size in
  let data := set_at (hdr_size + 0) (mp_page_code mp &&& 0x3f) data in
  let data := or_if (mp_ps mp) (hdr_size + 0) 0x80 data in
  if truth (mp_spf mp) then
    let data := or_at (hdr_size + 0) 0x40 data in
    let data := set_at (hdr_size + 1) (mp_subpage_code mp) data in
    scsi_set_uint16 data (hdr_size + 2) (size - hdr - 4)
  else set_at (hdr_size + 1) ((size - hdr - 2) &&& 0xff) data.

Definition scsi_modesense_dataout_marshall (mp : scsi_mode_page) (is_modeselect6 : bool)
  : D (option bytes) :=
  let hdr_size := if is_modeselect6 then 4%nat else 8%nat in
  data ← match mp_body mp with
         | Mode_caching c => scsi_modesense_marshall_caching c hdr_size
         | Mode_control c => scsi_modesense_marshall_control c hdr_size
         | Mode_disconnect_reconnect c => scsi_modesense_marshall_disconnect_reconnect c hdr_size
         | Mode_iec c => scsi_modesense_marshall_informational_exceptions_control c hdr_size
         | Mode_power_condition c => scsi_modesense_marshall_power_condition c hdr_size
         | Mode_other _ => mret None
         end;
  mret (put_page_header hdr_size mp <$> data).

End Malloc.

(** ** What a page encodes to *)

(** The store behind [if (flag)] as a store of a conditional value. *)
Definition flag (b v : Z) : Z := if truth b then v else 0.

Lemma testbit_flag b v i : Z.testbit (flag b v) i = truth b && Z.testbit v i.
Proof. unfold flag. destruct (truth b); [done|apply Z.testbit_0_l]. Qed.

Lemma or_if_flag b k v data : bytes_ok data -> or_if b k v data = or_at k (flag b v) data.
Proof.
  intros Hd. unfold or_if, or_at, flag. destruct (truth b); [done|].
  rewrite Z.lor_0_r, u8_small by (by apply byte_at_ok).
  unfold byte_at. destruct (data !! k) eqn:E; cbn.
  - symmetry. by apply list_insert_id.
  - symmetry. apply list_insert_ge. by apply lookup_ge_None.
Qed.

Lemma bytes_ok_or_at k v data : bytes_ok data -> bytes_ok (or_at k v data).
Proof. unfold or_at. auto with iscsi. Qed.

Lemma bytes_ok_set_at k v data : bytes_ok data -> bytes_ok (set_at k v data).
Proof. unfold set_at. auto with iscsi. Qed.

Lemma bytes_ok_or_if b k v data : bytes_ok data -> bytes_ok (or_if b k v data).
Proof. unfold or_if. destruct (truth b); auto using bytes_ok_or_at. Qed.

#[export] Hint Resolve bytes_ok_or_at bytes_ok_set_at bytes_ok_or_if : iscsi.

Lemma length_or_at k v data : length (or_at k v data) = length data.
Proof. apply length_insert. Qed.

Lemma length_set_at k v data : length (set_at k v data) = length data.
Proof. apply length_insert. Qed.

Lemma length_or_if b k v data : length (or_if b k v data) = length data.
Proof. unfold or_if. destruct (truth b); [apply length_or_at|done]. Qed.

#[export] Hint Rewrite length_or_at length_set_at length_or_if : iscsi.

(** The bytes of a term made of the stores, as expressions. *)
Ltac eval_stores :=
  repeat (rewrite or_if_flag by auto 40 with iscsi);
  cbv [or_at set_at zeros replicate insert list_insert list_alter byte_at
       lookup list_lookup default from_option id scsi_set_uint16 scsi_set_uint32
       Nat.add scsi_get_uint16 scsi_get_uint32].

Ltac flag_norm := repeat first [rewrite testbit_flag | progress bits_norm].

(** A field of several bits. *)
Ltac bits_field n :=
  apply (bits_below n); [lia|zrange|lia|];
  let i := fresh "i" in let Hi := fresh "Hi" in
  intros i Hi; enum_to i n; clear Hi; flag_norm; bits_finish.

Ltac bit_field k :=
  apply (notnot_bit _ k); [lia|first [assumption|by left]|]; flag_norm; bits_finish.

(** A number of several bits, all but the last one 0, made a flag. *)
Lemma notnot_small x b : b = 0 \/ b = 1 -> x = b -> notnot x = b.
Proof. by intros [-> | ->] ->. Qed.

(** ** Encoding, then decoding

    The values a field of the structures can carry through its bits. *)

Definition below (n z : Z) : Prop := 0 <= z < 2 ^ n.

Definition ok_caching (c : scsi_mode_page_caching) : Prop :=
  is_flag (mc_ic c) /\ is_flag (mc_abpf c) /\ is_flag (mc_cap c) /\ is_flag (mc_disc c) /\
  is_flag (mc_size c) /\ is_flag (mc_wce c) /\ is_flag (mc_mf c) /\ is_flag (mc_rcd c) /\
  below 4 (mc_demand_read_retention_priority c) /\
  below 4 (mc_write_retention_priority c) /\
  below 16 (mc_disable_prefetch_transfer_length c) /\ below 16 (mc_minimum_prefetch c) /\
  below 16 (mc_maximum_prefetch c) /\ below 16 (mc_maximum_prefetch_ceiling c) /\
  is_flag (mc_fsw c) /\ is_flag (mc_lbcss c) /\ is_flag (mc_dra c) /\ is_flag (mc_nv_dis c) /\
  below 8 (mc_number_of_cache_segments c) /\ below 16 (mc_cache_segment_size c).

(** The decoder takes the bits of [vs] and [rac] into [ua_intlck_ctrl] and
    makes a flag of the three bits of [autoload_mode]. *)
Definition ok_control (c : scsi_mode_page_control) : Prop :=
  below 3 (mt_tst c) /\ is_flag (mt_tmf_only c) /\ is_flag (mt_dpicz c) /\
  is_flag (mt_d_sense c) /\ is_flag (mt_gltsd c) /\ is_flag (mt_rlec c) /\
  below 4 (mt_queue_algorithm_modifier c) /\ (mt_nuar c = 0 \/ mt_nuar c = 8) /\
  below 2 (mt_qerr c) /\ mt_vs c = 0 /\ mt_rac c = 0 /\ below 2 (mt_ua_intlck_ctrl c) /\
  is_flag (mt_swp c) /\ is_flag (mt_ato c) /\ is_flag (mt_tas c) /\ is_flag (mt_atmpe c) /\
  is_flag (mt_rwwp c) /\ is_flag (mt_autoload_mode c) /\
  below 16 (mt_busy_timeout_period c) /\ below 16 (mt_extended_selftest_completion_time c).

(** The decoder takes the bit of [emdp] into [fair_arbitration]. *)
Definition ok_disconnect_reconnect (c : scsi_mode_page_disconnect_reconnect) : Prop :=
  below 8 (md_buffer_full_ratio c) /\ below 8 (md_buffer_empty_ratio c) /\
  below 16 (md_bus_inactivity_limit c) /\ below 16 (md_disconnect_time_limit c) /\
  below 16 (md_connect_time_limit c) /\ below 16 (md_maximum_burst_size c) /\
  md_emdp c = 0 /\ below 3 (md_fair_arbitration c) /\ is_flag (md_dimm c) /\
  below 3 (md_dtdc c) /\ below 16 (md_first_burst_size c).

Definition is_int (z : Z) : Prop := - 2 ^ 31 <= z < 2 ^ 31.

Definition ok_iec (c : scsi_mode_page_informational_exceptions_control) : Prop :=
  is_flag (me_perf c) /\ is_flag (me_ebf c) /\ is_flag (me_ewasc c) /\
  is_flag (me_dexcpt c) /\ is_flag (me_test c) /\ is_flag (me_ebackerr c) /\
  is_flag (me_logerr c) /\ below 4 (me_mrie c) /\ is_int (me_interval_timer c) /\
  is_int (me_report_count c).

Definition ok_power_condition (c : scsi_mode_page_power_condition) : Prop :=
  below 2 (mpc_pm_bg_precedence c) /\ is_flag (mpc_standby_y c) /\ is_flag (mpc_idle_c c) /\
  is_flag (mpc_idle_b c) /\ is_flag (mpc_idle_a c) /\ is_flag (mpc_standby_z c) /\
  below 32 (mpc_idle_a_condition_timer c) /\ below 32 (mpc_standby_z_condition_timer c) /\
  below 32 (mpc_idle_b_condition_timer c) /\ below 32 (mpc_idle_c_condition_timer c) /\
  below 32 (mpc_standby_y_condition_timer c) /\ below 2 (mpc_ccf_idle c) /\
  below 2 (mpc_ccf_standby c) /\ below 2 (mpc_ccf_stopped c).

(** The pages as one family: the structure's stores and its PAGE LENGTH. *)
Definition put_body (hdr_size : nat) (body : mode_page_body) : bytes -> bytes :=
  match body with
  | Mode_caching c => put_caching hdr_size c
  | Mode_control c => put_control hdr_size c
  | Mode_disconnect_reconnect c => put_disconnect_reconnect hdr_size c
  | Mode_iec c => put_iec hdr_size c
  | Mode_power_condition c => put_power_condition hdr_size c
  | Mode_other _ => id
  end.

Definition page_len (body : mode_page_body) : nat :=
  match body with
  | Mode_caching _ => 18
  | Mode_control _ => 10
  | Mode_disconnect_reconnect _ => 14
  | Mode_iec _ => 10
  | Mode_power_condition _ => 38
  | Mode_other _ => 0
  end.

Definition ok_body (body : mode_page_body) : Prop :=
  match body with
  | Mode_caching c => ok_caching c
  | Mode_control c => ok_control c
  | Mode_disconnect_reconnect c => ok_disconnect_reconnect c
  | Mode_iec c => ok_iec c
  | Mode_power_condition c => ok_power_condition c
  | Mode_other _ => False
  end.

(** A page without a subpage that MODE SELECT can carry. *)
Definition ok_page (mp : scsi_mode_page) : Prop :=
  (mp_ps mp = 0 \/ mp_ps mp = 0x80) /\ mp_spf mp = 0 /\ mp_subpage_code mp = 0 /\
  mp_len mp = Z.of_nat (page_len (mp_body mp)) /\ ok_body (mp_body mp).

Definition page_bytes (hdr_size : nat) (mp : scsi_mode_page) : bytes :=
  put_page_header hdr_size mp
    (put_body hdr_size (mp_body mp) (zeros (page_len (mp_body mp) + 2 + hdr_size))).

Ltac read_fields :=
  rewrite ?task_get_uint8_in, ?task_get_uint16_in, ?task_get_uint32_in
    by (autorewrite with iscsi; cbn; lia).

(** Numbers as [eval_stores] spells them. *)
Lemma be16_read v : 0 <= v < 2 ^ 16 -> u16 (u16 (u8 (v >> 8) << 8) ||| u8 v) = v.
Proof. intros. zbits 16. Qed.

Lemma be32_bytes v :
  u32 ((u32 ((u32 (u8 (v >> 24) << 8) ||| u8 (v >> 16)) << 8) ||| u8 (v >> 8)) << 8)
    ||| u8 v
  = u32 v.
Proof. zbits 32. Qed.

Lemma be32_read v : 0 <= v < 2 ^ 32 ->
  u32 ((u32 ((u32 (u8 (v >> 24) << 8) ||| u8 (v >> 16)) << 8) ||| u8 (v >> 8)) << 8)
    ||| u8 v
  = v.
Proof. intros. rewrite be32_bytes. by apply u32_small. Qed.

Ltac mode_field :=
  lazymatch goal with
  | |- i32 _ = _ => apply i32_u32; [apply be32_bytes|assumption]
  | H : is_flag ?b |- notnot (_ &&& 7) = ?b =>
      apply (notnot_small _ _ H); destruct H; subst b; bits_field 3
  | H : ?b = 0 \/ ?b = 8 |- _ &&& 8 = ?b => destruct H; subst b; bits_field 4
  | |- notnot _ = _ =>
      first [bit_field 7|bit_field 6|bit_field 5|bit_field 4|bit_field 3|bit_field 2
            |bit_field 1|bit_field 0]
  | |- u32 _ ||| _ = _ => by apply be32_read
  | |- u16 _ = _ => by apply be16_read
  | |- u8 _ = _ => by apply u8_small
  | |- _ &&& 15 = _ => bits_field 4
  | |- _ &&& 7 = _ => bits_field 3
  | |- _ &&& 3 = _ => bits_field 2
  end.

Ltac ranges :=
  repeat match goal with
  | H : _ /\ _ |- _ => destruct H
  end;
  repeat match goal with H : below _ _ |- _ => unfold below in H end.

Section Fields.
Variables (hdr_size : nat) (mp : scsi_mode_page).
Hypothesis Hhdr : (hdr_size = 4 \/ hdr_size = 8)%nat.
Hypothesis Hspf : mp_spf mp = 0.

Notation page n put := (put_page_header hdr_size mp (put (zeros (n + 2 + hdr_size)))).

Lemma parse_put_caching c : ok_caching c ->
  scsi_parse_mode_caching (page 18 (put_caching hdr_size c)) (hdr_size + 2) = c.
Proof.
  destruct c. unfold ok_caching, scsi_parse_mode_caching, put_page_header, put_caching.
  cbn [mc_ic mc_abpf mc_cap mc_disc mc_size mc_wce mc_mf mc_rcd
    mc_demand_read_retention_priority mc_write_retention_priority
    mc_disable_prefetch_transfer_length mc_minimum_prefetch mc_maximum_prefetch
    mc_maximum_prefetch_ceiling mc_fsw mc_lbcss mc_dra mc_nv_dis mc_number_of_cache_segments
    mc_cache_segment_size].
  intros Hok. ranges. rewrite Hspf. change (truth 0) with false. cbv iota zeta.
  destruct Hhdr as [-> | ->]; read_fields; eval_stores; f_equal; mode_field.
Qed.

Lemma parse_put_control c : ok_control c ->
  scsi_parse_mode_control (page 10 (put_control hdr_size c)) (hdr_size + 2) = c.
Proof.
  destruct c. unfold ok_control, scsi_parse_mode_control, put_page_header, put_control.
  cbn [mt_tst mt_tmf_only mt_dpicz mt_d_sense mt_gltsd mt_rlec mt_queue_algorithm_modifier
    mt_nuar mt_qerr mt_vs mt_rac mt_ua_intlck_ctrl mt_swp mt_ato mt_tas mt_atmpe mt_rwwp
    mt_autoload_mode mt_busy_timeout_period mt_extended_selftest_completion_time].
  intros Hok. ranges. subst. rewrite Hspf. change (truth 0) with false. cbv iota zeta.
  destruct Hhdr as [-> | ->]; read_fields; eval_stores; f_equal; mode_field.
Qed.

Lemma parse_put_disconnect_reconnect c : ok_disconnect_reconnect c ->
  scsi_parse_mode_disconnect_reconnect (page 14 (put_disconnect_reconnect hdr_size c))
    (hdr_size + 2) = c.
Proof.
  destruct c. unfold ok_disconnect_reconnect, scsi_parse_mode_disconnect_reconnect,
    put_page_header, put_disconnect_reconnect.
  cbn [md_buffer_full_ratio md_buffer_empty_ratio md_bus_inactivity_limit
    md_disconnect_time_limit md_connect_time_limit md_maximum_burst_size md_emdp
    md_fair_arbitration md_dimm md_dtdc md_first_burst_size].
  intros Hok. ranges. subst. rewrite Hspf. change (truth 0) with false. cbv iota zeta.
  destruct Hhdr as [-> | ->]; read_fields; eval_stores; f_equal; mode_field.
Qed.

Lemma parse_put_iec c : ok_iec c ->
  scsi_parse_mode_informational_exceptions_control (page 10 (put_iec hdr_size c))
    (hdr_size + 2) = c.
Proof.
  destruct c. unfold ok_iec, scsi_parse_mode_informational_exceptions_control,
    put_page_header, put_iec.
  cbn [me_perf me_ebf me_ewasc me_dexcpt me_test me_ebackerr me_logerr me_mrie
    me_interval_timer me_report_count].
  intros Hok. ranges. rewrite Hspf. change (truth 0) with false. cbv iota zeta.
  destruct Hhdr as [-> | ->]; read_fields; eval_stores; f_equal; mode_field.
Qed.

Lemma parse_put_power_condition c : ok_power_condition c ->
  scsi_parse_mode_power_condition (page 38 (put_power_condition hdr_size c))
    (hdr_size + 2) = c.
Proof.
  destruct c. unfold ok_power_condition, scsi_parse_mode_power_condition,
    put_page_header, put_power_condition.
  cbn [mpc_pm_bg_precedence mpc_standby_y mpc_idle_c mpc_idle_b mpc_idle_a mpc_standby_z
    mpc_idle_a_condition_timer mpc_standby_z_condition_timer mpc_idle_b_condition_timer
    mpc_idle_c_condition_timer mpc_standby_y_condition_timer mpc_ccf_idle mpc_ccf_standby
    mpc_ccf_stopped].
  intros Hok. ranges. rewrite Hspf. change (truth 0) with false. cbv iota zeta.
  destruct Hhdr as [-> | ->]; read_fields; eval_stores; f_equal; mode_field.
Qed.

End Fields.

(** ** The page and the whole parameter list *)

Lemma length_put_body hdr_size body data : length (put_body hdr_size body data) = length data.
Proof.
  destruct body; cbn [put_body id]; try done;
    unfold put_caching, put_control, put_disconnect_reconnect, put_iec, put_power_condition;
    by autorewrite with iscsi.
Qed.

Lemma bytes_ok_put_body hdr_size body data :
  bytes_ok data -> bytes_ok (put_body hdr_size body data).
Proof.
  destruct body; cbn [put_body id]; try done;
    unfold put_caching, put_control, put_disconnect_reconnect, put_iec, put_power_condition;
    auto 60 with iscsi.
Qed.

Lemma length_put_page_header hdr_size mp data :
  length (put_page_header hdr_size mp data) = length data.
Proof.
  unfold put_page_header. destruct (truth (mp_spf mp)); cbv zeta; by autorewrite with iscsi.
Qed.

Lemma length_page_bytes hdr_size mp :
  length (page_bytes hdr_size mp) = (page_len (mp_body mp) + 2 + hdr_size)%nat.
Proof.
  unfold page_bytes. by rewrite length_put_page_header, length_put_body, length_zeros.
Qed.

(** Code, flag and length of the page, in front of it. *)
Lemma page_header_bytes hdr_size mp : mp_spf mp = 0 ->
  byte_at (page_bytes hdr_size mp) hdr_size =
    u8 (u8 (mp_page_code mp &&& 0x3f) ||| flag (mp_ps mp) 0x80) /\
  byte_at (page_bytes hdr_size mp) (hdr_size + 1) =
    u8 (Z.of_nat (page_len (mp_body mp)) &&& 0xff).
Proof.
  intros Hs. unfold page_bytes.
  pose proof (length_put_body hdr_size (mp_body mp)
    (zeros (page_len (mp_body mp) + 2 + hdr_size))) as Hl.
  pose proof (bytes_ok_put_body hdr_size (mp_body mp) _
    (bytes_ok_zeros (page_len (mp_body mp) + 2 + hdr_size))) as Hok.
  set (data := put_body _ _ _) in *. rewrite length_zeros in Hl.
  unfold put_page_header. rewrite Hs. change (truth 0) with false. cbv iota zeta.
  rewrite or_if_flag by auto with iscsi. unfold or_at, set_at. rewrite Nat.add_0_r.
  unfold size_of. rewrite Hl. split.
  - rewrite byte_at_insert_ne by lia.
    rewrite !byte_at_insert_eq by (autorewrite with iscsi; lia). done.
  - rewrite byte_at_insert_eq by (autorewrite with iscsi; lia). do 2 f_equal. lia.
Qed.

(** The body of a page whose header bytes are known numbers. *)
Ltac page_body ps len C parse lem :=
  match goal with
  | Hps : ps = 0 \/ ps = _, data := _ : bytes |- _ = (_, (?h + 2)%nat) =>
      trans ({| mp_ps := ps; mp_spf := 0; mp_subpage_code := 0; mp_len := len;
                mp_body := C (parse data (h + 2)%nat) |}, (h + 2)%nat);
      [clearbody data; by destruct Hps as [-> | ->]
      |unfold data; by rewrite lem by done]
  end.

Lemma parse_page_bytes hdr_size mp : (hdr_size = 4 \/ hdr_size = 8)%nat -> ok_page mp ->
  parse_mode_page (page_bytes hdr_size mp) hdr_size = (mp, (hdr_size + 2)%nat).
Proof.
  intros Hh (Hps & Hs & Hsub & Hlen & Hbody).
  destruct (page_header_bytes hdr_size mp Hs) as (E0 & E1).
  pose proof (length_page_bytes hdr_size mp) as Hl.
  unfold parse_mode_page. rewrite !task_get_uint8_in, E0, E1 by lia. clear E0 E1 Hl.
  rewrite <- Nat.add_assoc. change (1 + 1)%nat with 2%nat.
  unfold page_bytes. set (data := put_page_header _ _ _).
  destruct mp as [ps spf sub len body]; cbn [mp_ps mp_spf mp_subpage_code mp_len mp_body] in *.
  subst spf sub len.
  destruct body as [c|c|c|c|c|]; [..|done]; cbn [ok_body put_body page_len] in *.
  - page_body ps 18 Mode_caching scsi_parse_mode_caching parse_put_caching.
  - page_body ps 10 Mode_control scsi_parse_mode_control parse_put_control.
  - page_body ps 14 Mode_disconnect_reconnect scsi_parse_mode_disconnect_reconnect
      parse_put_disconnect_reconnect.
  - page_body ps 10 Mode_iec scsi_parse_mode_informational_exceptions_control parse_put_iec.
  - page_body ps 38 Mode_power_condition scsi_parse_mode_power_condition
      parse_put_power_condition.
Qed.

Section Roundtrip.
Context `{Malloc}.

(** The loop over the pages reads one page that ends the data. *)
Lemma mode_page_loop_one hdr_size mp task : (hdr_size = 4 \/ hdr_size = 8)%nat -> ok_page mp ->
  (forall size blocks, malloc_ok size blocks = true) ->
  exists task',
    mode_page_loop (length (page_bytes hdr_size mp)) (page_bytes hdr_size mp) hdr_size [] task
      = Ret ([mp], task').
Proof.
  intros Hh Hok Hm. pose proof (length_page_bytes hdr_size mp) as Hl.
  destruct (length (page_bytes hdr_size mp)) as [|[|n]] eqn:El; try lia.
  cbn [mode_page_loop]. rewrite El, (proj2 (Nat.leb_gt _ _)) by lia.
  run (allocate_ok 112 task Hm ltac:(fits_constant)). cbn [negb].
  rewrite parse_page_bytes by done. destruct Hok as (_ & _ & _ & Hlen & _).
  rewrite Hlen, Nat2Z.id, (proj2 (Nat.leb_le _ _)) by lia. by eexists.
Qed.

Lemma new_data_ok n task : (forall size blocks, malloc_ok size blocks = true) ->
  (n <= 64)%nat ->
  new_data n task = Ret (Some (zeros n), with_block (Z.of_nat n) (with_block 16 task)).
Proof.
  intros Hm Hn. unfold new_data. run (allocate_ok 16 task Hm ltac:(fits_constant)). cbn [negb].
  by run (allocate_ok (Z.of_nat n) (with_block 16 task) Hm (fits_small (Z.of_nat n) ltac:(lia))).
Qed.

Lemma marshall_page mp is6 task : ok_page mp ->
  (forall size blocks, malloc_ok size blocks = true) ->
  exists task',
    scsi_modesense_dataout_marshall mp is6 task =
      Ret (Some (page_bytes (if is6 then 4 else 8) mp), task').
Proof.
  intros (_ & _ & _ & _ & Hbody) Hm. unfold scsi_modesense_dataout_marshall, page_bytes.
  eexists. set (n := (page_len (mp_body mp) + 2 + (if is6 then 4 else 8))%nat).
  trans (mret (M := M scsi_task) (put_page_header (if is6 then 4 else 8) mp <$>
    (put_body (if is6 then 4 else 8) (mp_body mp) <$> Some (zeros n)))
    (with_block (Z.of_nat n) (with_block 16 task))); [|done].
  subst n. destruct (mp_body mp); [..|done];
    unfold scsi_modesense_marshall_caching, scsi_modesense_marshall_control,
      scsi_modesense_marshall_disconnect_reconnect, scsi_modesense_marshall_power_condition,
      scsi_modesense_marshall_informational_exceptions_control;
    unfold mbind, M_bind; rewrite new_data_ok by (done || by destruct is6; cbn; lia); by destruct is6.
Qed.

Lemma byte_at_or_at_ne k v data i : i <> k -> byte_at (or_at k v data) i = byte_at data i.
Proof. intros. unfold or_at. by rewrite byte_at_insert_ne. Qed.

Lemma byte_at_set_at_ne k v data i : i <> k -> byte_at (set_at k v data) i = byte_at data i.
Proof. intros. unfold set_at. by rewrite byte_at_insert_ne. Qed.

Lemma byte_at_or_if_ne b k v data i : i <> k -> byte_at (or_if b k v data) i = byte_at data i.
Proof. intros. unfold or_if. destruct (truth b); [by apply byte_at_or_at_ne|done]. Qed.

(** Every byte in front of the page is 0. *)
Lemma page_bytes_front hdr_size mp i : (i < hdr_size)%nat ->
  byte_at (page_bytes hdr_size mp) i = 0.
Proof.
  intros Hi. unfold page_bytes, put_page_header. destruct (truth (mp_spf mp)); cbv zeta;
    destruct (mp_body mp); cbn [put_body id];
    unfold put_caching, put_control, put_disconnect_reconnect, put_iec, put_power_condition;
    repeat first [rewrite byte_at_set16_ne by lia|rewrite byte_at_set32_ne by lia
      |rewrite byte_at_or_at_ne by lia|rewrite byte_at_set_at_ne by lia
      |rewrite byte_at_or_if_ne by lia]; apply byte_at_zeros.
Qed.

Definition no_header (pages : list scsi_mode_page) : scsi_mode_sense :=
  {| ms_mode_data_length := 0; ms_medium_type := 0; ms_device_specific_parameter := 0;
     ms_longlba := 0; ms_block_descriptor_length := 0; ms_pages := pages |}.

Lemma page_bytes_header is6 mp :
  mode_sense_header is6 (page_bytes (if is6 then 4 else 8) mp) = no_header [].
Proof.
  pose proof (length_page_bytes (if is6 then 4 else 8)%nat mp) as Hl.
  pose proof (page_bytes_front (if is6 then 4 else 8)%nat mp) as Hf.
  destruct is6; unfold mode_sense_header;
    rewrite ?task_get_uint8_in, ?task_get_uint16_in by lia; unfold scsi_get_uint16;
    rewrite !Hf by lia; reflexivity.
Qed.

(** Encoded for MODE SELECT and decoded as MODE SENSE data. *)
Lemma mode_page_roundtrip_run mp is6 task task' :
  ok_page mp -> (forall size blocks, malloc_ok size blocks = true) ->
  exists data t t',
    scsi_modesense_dataout_marshall mp is6 task = Ret (Some data, t) /\
    length data = ((if is6 then 4 else 8) + 2 + Z.to_nat (mp_len mp))%nat /\
    scsi_modesense_datain_unmarshall is6 (task' <| datain := data |>) =
      Ret (Some (no_header [mp]), t').
Proof.
  intros Hok Hm. destruct (marshall_page mp is6 task Hok Hm) as (t & E).
  pose proof (length_page_bytes (if is6 then 4 else 8)%nat mp) as Hl.
  pose proof Hok as (_ & _ & _ & Hlen & _).
  set (hdr := if is6 then 4%nat else 8%nat) in *.
  assert (hdr = 4 \/ hdr = 8)%nat as Hh by (subst hdr; destruct is6; auto).
  destruct (mode_page_loop_one hdr mp (with_block 16 (task' <| datain := page_bytes hdr mp |>))
    Hh Hok Hm) as (t' & El).
  exists (page_bytes hdr mp), t, t'. split; [exact E|]. split; [lia|].
  unfold scsi_modesense_datain_unmarshall.
  set (data := page_bytes hdr mp) in *. set (task2 := task' <| datain := data |>) in *.
  assert (datain task2 = data) as Hd by (unfold task2; by destruct task').
  trans ((let data := datain task2 in
          if size_of data <? Z.of_nat hdr then mret None else
          ok ← allocate 16;
          if negb ok then mret None else
          let ms := mode_sense_header is6 data in
          if size_of data <? ms_mode_data_length ms + 1 then mret None else
          pages ← mode_page_loop (length data) data
            (Z.to_nat (Z.of_nat hdr + ms_block_descriptor_length ms)) [];
          mret (Some (ms <| ms_pages := pages |>))) task2); [by destruct is6|].
  cbv zeta. rewrite Hd.
  assert (mode_sense_header is6 data = no_header []) as -> by apply page_bytes_header.
  rewrite (proj2 (Z.ltb_ge _ _)) by (unfold size_of; lia).
  run (allocate_ok 16 task2 Hm ltac:(fits_constant)). cbn [negb no_header ms_mode_data_length
    ms_block_descriptor_length].
  rewrite (proj2 (Z.ltb_ge _ _)) by (unfold size_of; lia).
  rewrite Z.add_0_r, Nat2Z.id. by run El.
Qed.

End Roundtrip.

(** ** Decoding any data *)

Section Total.
Context `{Malloc}.

Lemma parse_mode_page_advances data pos : (pos + 2 <= (parse_mode_page data pos).2)%nat.
Proof. unfold parse_mode_page. cbv zeta. destruct (truth (_ &&& 0x40)); cbn [snd]; lia. Qed.

(** Two bytes of header at least: the position grows in every turn, whatever
    lengths the data names. *)
Lemma mode_page_loop_total data fuel pos pages task : (length data <= pos + fuel)%nat ->
  exists r task', mode_page_loop fuel data pos pages task = Ret (r, task').
Proof.
  revert pos pages task. induction fuel as [|fuel IH]; intros pos pages task Hf;
    cbn [mode_page_loop]; (destruct (Nat.leb_spec (length data) pos); [by repeat eexists|]).
  { lia. }
  destruct (allocate_cases 112 task ltac:(fits_constant)) as [E|E]; run E; cbn [negb]; [|by repeat eexists].
  pose proof (parse_mode_page_advances data pos) as Hp.
  destruct (parse_mode_page data pos) as [mp pos']. cbn [snd] in Hp. apply IH. lia.
Qed.

Lemma modesense_total is6 task :
  exists r task', scsi_modesense_datain_unmarshall is6 task = Ret (r, task').
Proof.
  unfold scsi_modesense_datain_unmarshall.
  rewrite (bind_run _ _ _ (datain task) task eq_refl). cbv zeta.
  destruct (size_of (datain task) <? _); [by repeat eexists|].
  destruct (allocate_cases 16 task ltac:(fits_constant)) as [E|E]; run E; cbn [negb]; [|by repeat eexists].
  destruct (size_of (datain task) <? _); [by repeat eexists|].
  set (pos := Z.to_nat _).
  destruct (mode_page_loop_total (datain task) (length (datain task)) pos []
    (with_block 16 task)) as (r & t & El); [lia|].
  run El. by repeat eexists.
Qed.

End Total.

(** EMDP and FAIR ARBITRATION share a byte: the decoder takes four bits of it
    for a field of three. *)
Example emdp_read_as_arbitration :
  scsi_parse_mode_disconnect_reconnect ([0x02; 14] ++ zeros 10 ++ [0x80] ++ zeros 3) 2 =
  {| md_buffer_full_ratio := 0; md_buffer_empty_ratio := 0; md_bus_inactivity_limit := 0;
     md_disconnect_time_limit := 0; md_connect_time_limit := 0; md_maximum_burst_size := 0;
     md_emdp := 1; md_fair_arbitration := 8; md_dimm := 0; md_dtdc := 0;
     md_first_burst_size := 0 |}.
Proof. reflexivity. Qed.

(** AUTOLOAD MODE is a field of three bits: MODE 2 is read as 1. *)
Example autoload_mode_read_as_flag :
  mt_autoload_mode (scsi_parse_mode_control ([0x0a; 10; 0; 0; 0; 2] ++ zeros 6) 2) = 1.
Proof. reflexivity. Qed.

(** VS and RAC are read into UA_INTLCK_CTRL, a field of two bits. *)
Example vs_rac_read_as_interlock :
  mt_ua_intlck_ctrl (scsi_parse_mode_control ([0x0a; 10; 0; 0; 0xc0; 0] ++ zeros 6) 2) = 12.
Proof. reflexivity. Qed.

(** ** Properties *)

(** C27: Mode pages round trip: for each of the five pages the library knows, without a
    subpage and with field values their bits can carry - save where the decoder misreads
    them: a control page has VS and RAC 0 and AUTOLOAD MODE, a field of three bits, 0 or
    1, and a disconnect-reconnect page has EMDP 0 -, with memory, the parameter list
    scsi_modesense_dataout_marshall builds for MODE SELECT(6) or (10) has the header,
    the page and nothing else, and decoding it as MODE SENSE data gives back exactly
    that page. *)
Theorem mode_page_roundtrip `{Malloc} (mp : scsi_mode_page) (is6 : bool)
  (task task' : scsi_task) :
  ok_page mp -> (forall size blocks, malloc_ok size blocks = true) ->
  exists data t t',
    scsi_modesense_dataout_marshall mp is6 task = Ret (Some data, t) /\
    length data = ((if is6 then 4 else 8) + 2 + Z.to_nat (mp_len mp))%nat /\
    scsi_modesense_datain_unmarshall is6 (task' <| datain := data |>) =
      Ret (Some (no_header [mp]), t').
Proof. exact (mode_page_roundtrip_run mp is6 task task'). Qed.

Lemma mode_page_roundtrip_witness :
  let _ : Malloc := fun _ _ => true in
  let mp := {| mp_ps := 0x80; mp_spf := 0; mp_subpage_code := 0; mp_len := 10;
    mp_body := Mode_control {|
      mt_tst := 5; mt_tmf_only := 1; mt_dpicz := 0; mt_d_sense := 1; mt_gltsd := 0;
      mt_rlec := 1; mt_queue_algorithm_modifier := 9; mt_nuar := 8; mt_qerr := 2; mt_vs := 0;
      mt_rac := 0; mt_ua_intlck_ctrl := 3; mt_swp := 1; mt_ato := 0; mt_tas := 1;
      mt_atmpe := 0; mt_rwwp := 1; mt_autoload_mode := 1; mt_busy_timeout_period := 0xabcd;
      mt_extended_selftest_completion_time := 0x1234 |} |} in
  exists data t t',
    scsi_modesense_dataout_marshall mp true new_task = Ret (Some data, t) /\
    length data = 16%nat /\
    scsi_modesense_datain_unmarshall true (new_task <| datain := data |>) =
      Ret (Some (no_header [mp]), t').
Proof.
  intros m mp. apply (@mode_page_roundtrip m mp true new_task new_task).
  - repeat split; try (by left); try (by right); cbn; lia.
  - done.
Defined.
