(* ===== verification/Unmarshall.v ===== *)
(** The entry points to parameter data: [scsi_datain_getfullsize] and
    [scsi_datain_unmarshall] of src/lib/scsi-lowlevel.c, which select a decoder
    of DataIn, Inquiry or ModePages by the CDB of the task. *)

From S2P Require Import Prelude Bytes Task Cdb DataIn Inquiry ModePages.

(** What the pointer [scsi_datain_unmarshall] returns points to. *)
Inductive datain_view :=
| View_inquiry (inq : inquiry_data)
| View_mode_sense (ms : scsi_mode_sense)
| View_readcapacity10 (rc10 : scsi_readcapacity10)
| View_readtoc (toc : scsi_readtoc_list)
| View_reportluns (list : scsi_reportluns_list)
| View_service_action_in (sai : service_action_in_data)
| View_persistent_reserve_in (pri : persistent_reserve_in_data)
| View_maintenance_in (mi : maintenance_in_data)
| View_copy_results (cr : copy_results_data).

Definition scsi_datain_getfullsize (task : scsi_task) : Z :=
  let op := byte_at (cdb task) 0 in
  let data := datain task in
  if op =? SCSI_OPCODE_TESTUNITREADY then 0 else
  if op =? SCSI_OPCODE_INQUIRY then scsi_inquiry_datain_getfullsize task else
  if op =? SCSI_OPCODE_MODESENSE6 then scsi_modesense_datain_getfullsize true data else
  if op =? SCSI_OPCODE_READCAPACITY10 then scsi_readcapacity10_datain_getfullsize else
  if op =? SCSI_OPCODE_SYNCHRONIZECACHE10 then 0 else
  if op =? SCSI_OPCODE_READTOC then scsi_readtoc_datain_getfullsize data else
  if op =? SCSI_OPCODE_REPORTLUNS then scsi_reportluns_datain_getfullsize data else
  if op =? SCSI_OPCODE_PERSISTENT_RESERVE_IN then
    scsi_persistentreservein_datain_getfullsize (scsi_persistentreservein_sa task) data else
  if op =? SCSI_OPCODE_MAINTENANCE_IN then scsi_maintenancein_datain_getfullsize task else
  -1.

Section Unmarshall.
Context `{Malloc}.

Definition view {A} (f : A -> datain_view) (m : D (option A)) : D (option datain_view) :=
  r ← m; mret (f <$> r).

Definition scsi_datain_unmarshall : D (option datain_view) :=
  data ← gets datain;
  if size_of data =? 0 then mret None else
  op ← gets (cdb_byte 0);
  if op =? SCSI_OPCODE_INQUIRY then view View_inquiry scsi_inquiry_datain_unmarshall else
  if op =? SCSI_OPCODE_MODESENSE6 then
    view View_mode_sense (scsi_modesense_datain_unmarshall true) else
  if op =? SCSI_OPCODE_MODESENSE10 then
    view View_mode_sense (scsi_modesense_datain_unmarshall false) else
  if op =? SCSI_OPCODE_READCAPACITY10 then
    view View_readcapacity10 scsi_readcapacity10_datain_unmarshall else
  if op =? SCSI_OPCODE_READTOC then view View_readtoc scsi_readtoc_datain_unmarshall else
  if op =? SCSI_OPCODE_REPORTLUNS then
    view View_reportluns scsi_reportluns_datain_unmarshall else
  if op =? SCSI_OPCODE_SERVICE_ACTION_IN then
    view View_service_action_in scsi_serviceactionin_datain_unmarshall else
  if op =? SCSI_OPCODE_PERSISTENT_RESERVE_IN then
    view View_persistent_reserve_in scsi_persistentreservein_datain_unmarshall else
  if op =? SCSI_OPCODE_MAINTENANCE_IN then
    view View_maintenance_in scsi_maintenancein_datain_unmarshall else
  if op =? SCSI_OPCODE_RECEIVE_COPY_RESULTS then
    view View_copy_results scsi_receivecopyresults_datain_unmarshall else
  mret None.

(** ** Outcomes *)

Lemma view_at P {A} (f : A -> datain_view) (m : D (option A)) task :
  fails_at P m task -> fails_at P (view f m) task.
Proof. intros Hm. apply at_bind; [done|]. intros r. apply only_ret. Qed.

Lemma fails_never P {A} (m : D A) task : fails_at (fun _ => False) m task -> fails_at P m task.
Proof. unfold fails_at. by destruct (m task). Qed.

Lemma modesense_total' is6 : total (scsi_modesense_datain_unmarshall is6).
Proof.
  intros task. destruct (modesense_total is6 task) as (r & t & E). unfold fails_at.
  by rewrite E.
Qed.

(** The decoders that copy bytes without a check: standard INQUIRY data, the
    pages that list pages, serial number, designators or copy descriptors, and
    the report on one operation code; and the one that stores without a check:
    REPORT LUNS data that announce a list shorter than its header. *)
Definition accesses_unchecked (task : scsi_task) : bool :=
  let op := cdb_byte 0 task in
  let page := scsi_inquiry_page_code task in
  let options := scsi_report_supported_opcodes_options task in
  ((op =? SCSI_OPCODE_REPORTLUNS) && short_list (datain task)) ||
  ((op =? SCSI_OPCODE_INQUIRY) &&
   ((scsi_inquiry_evpd_set task =? 0) ||
    (page =? SCSI_INQUIRY_PAGECODE_SUPPORTED_VPD_PAGES) ||
    (page =? SCSI_INQUIRY_PAGECODE_UNIT_SERIAL_NUMBER) ||
    (page =? SCSI_INQUIRY_PAGECODE_DEVICE_IDENTIFICATION) ||
    (page =? SCSI_INQUIRY_PAGECODE_THIRD_PARTY_COPY))) ||
  ((op =? SCSI_OPCODE_MAINTENANCE_IN) &&
   (scsi_maintenancein_sa task =? SCSI_REPORT_SUPPORTED_OP_CODES) &&
   ((options =? SCSI_REPORT_SUPPORTING_OPCODE) ||
    (options =? SCSI_REPORT_SUPPORTING_SERVICEACTION))).

Lemma inquiry_checked task : scsi_inquiry_evpd_set task <> 0 ->
  scsi_inquiry_page_code task <> SCSI_INQUIRY_PAGECODE_SUPPORTED_VPD_PAGES ->
  scsi_inquiry_page_code task <> SCSI_INQUIRY_PAGECODE_UNIT_SERIAL_NUMBER ->
  scsi_inquiry_page_code task <> SCSI_INQUIRY_PAGECODE_DEVICE_IDENTIFICATION ->
  scsi_inquiry_page_code task <> SCSI_INQUIRY_PAGECODE_THIRD_PARTY_COPY ->
  fails_at (fun _ => False) scsi_inquiry_datain_unmarshall task.
Proof.
  intros H0 H1 H2 H3 H4. unfold scsi_inquiry_datain_unmarshall. apply at_gets.
  rewrite (proj2 (Z.eqb_neq _ _) H0). apply at_gets.
  rewrite (proj2 (Z.eqb_neq _ _) H1), (proj2 (Z.eqb_neq _ _) H2), (proj2 (Z.eqb_neq _ _) H3),
    (proj2 (Z.eqb_neq _ _) H4). clear.
  generalize (scsi_inquiry_page_code task) as page. intros page. revert task.
  do 3 (apply only_if; [apply only_bind; [|intros ?; apply only_ret]; outcome_steps|]).
  apply only_ret.
Qed.

Lemma maintenancein_checked task : decodable task ->
  (scsi_maintenancein_sa task =? SCSI_REPORT_SUPPORTED_OP_CODES) &&
  ((scsi_report_supported_opcodes_options task =? SCSI_REPORT_SUPPORTING_OPCODE) ||
   (scsi_report_supported_opcodes_options task =? SCSI_REPORT_SUPPORTING_SERVICEACTION))
    = false ->
  fails_at (fun _ => False) scsi_maintenancein_datain_unmarshall task.
Proof.
  intros Hd Hc. unfold scsi_maintenancein_datain_unmarshall. do 2 apply at_gets.
  destruct (scsi_maintenancein_sa task =? SCSI_REPORT_SUPPORTED_OP_CODES); cbn [andb] in Hc.
  - apply at_gets. rewrite Hc. apply at_if; [|done]. apply at_if; [done|].
    apply rsoc_all_total; [intros descs|]; apply only_ret.
  - apply at_if; [|done]. apply at_bind; [by apply target_port_groups_total|].
    intros r. apply only_ret.
Qed.

(** The decoders that need no condition end with a result. *)
Lemma unmarshall_by P task : decodable task ->
  (cdb_byte 0 task = SCSI_OPCODE_INQUIRY -> fails_at P scsi_inquiry_datain_unmarshall task) ->
  (cdb_byte 0 task = SCSI_OPCODE_MAINTENANCE_IN ->
     fails_at P scsi_maintenancein_datain_unmarshall task) ->
  (cdb_byte 0 task = SCSI_OPCODE_REPORTLUNS ->
     fails_at P scsi_reportluns_datain_unmarshall task) ->
  fails_at P scsi_datain_unmarshall task.
Proof.
  intros Hd Hi Hm Hr. unfold scsi_datain_unmarshall. apply at_gets, at_if; [done|]. apply at_gets.
  destruct (Z.eqb_spec (cdb_byte 0 task) SCSI_OPCODE_INQUIRY);
    [apply at_bind; [auto|intros r; apply only_ret]|].
  destruct (Z.eqb_spec (cdb_byte 0 task) SCSI_OPCODE_MAINTENANCE_IN) as [E|].
  { rewrite E. cbn. apply at_bind; [auto|intros r; apply only_ret]. }
  destruct (Z.eqb_spec (cdb_byte 0 task) SCSI_OPCODE_REPORTLUNS) as [E|].
  { rewrite E. cbn. apply at_bind; [auto|intros r; apply only_ret]. }
  clear Hi Hm Hr. apply fails_never.
  repeat (apply at_if; [first [done|apply view_at; first
    [apply modesense_total'|by apply readcapacity10_total|by apply readtoc_total
    |by apply serviceactionin_total|by apply persistentreservein_total
    |by apply receivecopyresults_total]]|]). done.
Qed.

Lemma unmarshall_checked task : decodable task -> accesses_unchecked task = false ->
  exists r task', scsi_datain_unmarshall task = Ret (r, task').
Proof.
  unfold accesses_unchecked. intros Hd Hc. rewrite !orb_false_iff in Hc.
  destruct Hc as ((Hr & Hi) & Hm).
  assert (fails_at (fun _ => False) scsi_datain_unmarshall task) as Hf.
  { apply unmarshall_by; [done| | |]; intros E.
    - rewrite E in Hi. change (SCSI_OPCODE_INQUIRY =? SCSI_OPCODE_INQUIRY) with true in Hi.
      cbn [andb] in Hi. rewrite !orb_false_iff, !Z.eqb_neq in Hi.
      apply inquiry_checked; tauto.
    - rewrite E, <- andb_assoc in Hm. by apply maintenancein_checked.
    - rewrite E in Hr. by apply reportluns_total. }
  unfold fails_at in Hf. destruct (scsi_datain_unmarshall task) as [[r t]|]; [|done].
  by repeat eexists.
Qed.

Lemma reportluns_stores_past : reads_past scsi_reportluns_datain_unmarshall.
Proof. unfold reads_past, scsi_reportluns_datain_unmarshall. outcome_steps. Qed.

Lemma unmarshall_reads_past task : decodable task ->
  fails_at (fun u => u = OutOfBounds) scsi_datain_unmarshall task.
Proof.
  intros Hd. apply unmarshall_by; [done|..]; intros _;
    [by apply inquiry_reads_past, Hd|by apply maintenancein_reads_past
    |apply reportluns_stores_past].
Qed.

End Unmarshall.

(** ** Deviations of the decoders, on concrete data *)

Definition all_memory : Malloc := fun _ _ => true.

(** Of a REPORT LUNS answer of four to seven bytes -1 LUNs are computed: the
    count is stored past the two bytes that are allocated for the list. *)
Lemma reportluns_stores_out task : (4 <= length (datain task) < 8)%nat ->
  8 <= i32 (u32 (task_get_uint32 (datain task) 0 + 8)) ->
  @scsi_reportluns_datain_unmarshall all_memory task = Undef OutOfBounds.
Proof.
  intros Hl Hn. unfold scsi_reportluns_datain_unmarshall.
  rewrite (bind_run _ _ _ (datain task) task eq_refl). unfold reportluns_list_size, size_of.
  cbv zeta. rewrite (proj2 (Z.ltb_ge _ _)), (proj2 (Z.ltb_lt _ (i32 _))) by lia.
  rewrite Z.quot_small by lia. reflexivity.
Qed.

Example reportluns_short :
  @scsi_reportluns_datain_unmarshall all_memory (new_task <| datain := [0; 0; 0; 16] |>) =
  Undef OutOfBounds.
Proof. apply reportluns_stores_out; [cbn; lia|by vm_compute]. Qed.

(** A table of contents of two tracks gives one descriptor: two bytes are
    subtracted that the length field already leaves out. *)
Example readtoc_drops_last :
  exists task',
    @scsi_readtoc_datain_unmarshall all_memory (new_task
      <| datain := [0; 18; 1; 2; 0; 0x14; 1; 0; 0; 0; 0; 0; 0; 0x14; 2; 0; 0; 0; 1; 0] |>) =
    Ret (Some {| toc_num := 1; toc_first := 1; toc_last := 2;
                 toc_descs := [toc_desc 0x10 4 1 0] |}, task').
Proof. vm_compute. eexists. reflexivity. Qed.

(** ** Properties *)

(** C22: Decoding parameter data is safe but for accesses the code does not check: on
    every task whose data are fewer than 2^31 bytes, with every outcome of malloc,
    scsi_datain_unmarshall returns a structure or NULL - every loop ends and every store
    is inside the block it is made to - for every command but INQUIRY for the standard
    data or a page that is copied, the report on one operation code, and REPORT LUNS
    with data of at least four bytes that announce or hold less than the list's header;
    for those the only other outcome is an access out of bounds: a read past the end of
    the data received or, for REPORT LUNS, a store past the end of the block. *)
Theorem unmarshall_outcome `{Malloc} (task : scsi_task) :
  bytes_ok (datain task) -> size_of (datain task) < 2 ^ 31 ->
  (accesses_unchecked task = false ->
   exists r task', scsi_datain_unmarshall task = Ret (r, task')) /\
  ((exists r task', scsi_datain_unmarshall task = Ret (r, task')) \/
   scsi_datain_unmarshall task = Undef OutOfBounds).
Proof.
  intros Hb Hl. assert (decodable task) as Hd by done. split; [by apply unmarshall_checked|].
  pose proof (unmarshall_reads_past task Hd) as Hf. unfold fails_at in Hf.
  destruct (scsi_datain_unmarshall task) as [[r t]|u]; [left; by repeat eexists|right].
  by rewrite Hf.
Qed.

(** Both outcomes happen: REPORT TARGET PORT GROUPS with a cut last group, and
    a serial number page that claims more than it has. *)
Lemma unmarshall_outcome_witness :
  let _ := all_memory in
  let rtpg := new_task <| cdb := [0xA3; 0x0a] ++ zeros 14 |>
    <| datain := [0; 0; 0; 20; 0x80; 1; 0; 7; 0; 0; 0; 2; 0; 0; 0; 9; 0; 0] |> in
  let usn := new_task <| cdb := [0x12; 1; 0x80] ++ zeros 13 |>
    <| datain := [0; 0x80; 0; 9; 65] |> in
  accesses_unchecked rtpg = false /\
  (exists r task', scsi_datain_unmarshall rtpg = Ret (r, task')) /\
  accesses_unchecked usn = true /\
  ((exists r task', scsi_datain_unmarshall usn = Ret (r, task')) \/
   scsi_datain_unmarshall usn = Undef OutOfBounds).
Proof.
  intros m rtpg usn. split; [reflexivity|]. split; [|split; [reflexivity|]].
  - apply (@unmarshall_outcome m rtpg); [|reflexivity|reflexivity].
    unfold bytes_ok. change (datain rtpg) with [0; 0; 0; 20; 0x80; 1; 0; 7; 0; 0; 0; 2; 0; 0; 0; 9; 0; 0].
    repeat (apply Forall_cons; split; [unfold byte_ok; lia|]). by apply Forall_nil.
  - apply (@unmarshall_outcome m usn); [|reflexivity].
    unfold bytes_ok. change (datain usn) with [0; 0x80; 0; 9; 65].
    repeat (apply Forall_cons; split; [unfold byte_ok; lia|]). by apply Forall_nil.
Defined.
