(* ===== verification/Context.v ===== *)
(** The state the library works on: the iSCSI context, the PDUs and tasks it
    refers to (src/include/iscsi-private.h) and the services of the platform.

    PDUs and tasks live in stores under names, a pointer is a name, and a
    freed object is a name the store no longer has: reading or writing
    through it is the outcome [UseAfterFree].  The queues, intrusive lists in
    the code, are lists of names (SList relates the two).  The allocator is
    an oracle that decides each allocation; the clock is a field.  A spin lock
    taken twice by the same call chain is the outcome [Deadlock].  Calls of
    user callbacks are appended to [trace]. *)

From S2P Require Import Prelude Bytes Task.

(** ** Constants *)

Definition ISCSI_RAW_HEADER_SIZE : Z := 48.
Definition ISCSI_DIGEST_SIZE : Z := 4.

Definition ISCSI_HEADER_DIGEST_NONE : Z := 0.
Definition ISCSI_DATA_DIGEST_NONE : Z := 0.

Definition ISCSI_PDU_IMMEDIATE : Z := 0x40.
Definition ISCSI_PDU_SCSI_FINAL : Z := 0x80.
Definition ISCSI_PDU_SCSI_READ : Z := 0x40.
Definition ISCSI_PDU_SCSI_WRITE : Z := 0x20.
Definition ISCSI_PDU_SCSI_ATTR_SIMPLE : Z := 0x01.
Definition ISCSI_PDU_DATA_FINAL : Z := 0x80.
Definition ISCSI_PDU_DATA_ACK_REQUESTED : Z := 0x40.
Definition ISCSI_PDU_DATA_RESIDUAL_OVERFLOW : Z := 0x04.
Definition ISCSI_PDU_DATA_RESIDUAL_UNDERFLOW : Z := 0x02.
Definition ISCSI_PDU_DATA_CONTAINS_STATUS : Z := 0x01.

(** enum iscsi_opcode *)
Definition ISCSI_PDU_NOP_OUT : Z := 0x00.
Definition ISCSI_PDU_SCSI_REQUEST : Z := 0x01.
Definition ISCSI_PDU_SCSI_TASK_MANAGEMENT_REQUEST : Z := 0x02.
Definition ISCSI_PDU_LOGIN_REQUEST : Z := 0x03.
Definition ISCSI_PDU_TEXT_REQUEST : Z := 0x04.
Definition ISCSI_PDU_DATA_OUT : Z := 0x05.
Definition ISCSI_PDU_LOGOUT_REQUEST : Z := 0x06.
Definition ISCSI_PDU_NOP_IN : Z := 0x20.
Definition ISCSI_PDU_SCSI_RESPONSE : Z := 0x21.
Definition ISCSI_PDU_SCSI_TASK_MANAGEMENT_RESPONSE : Z := 0x22.
Definition ISCSI_PDU_LOGIN_RESPONSE : Z := 0x23.
Definition ISCSI_PDU_TEXT_RESPONSE : Z := 0x24.
Definition ISCSI_PDU_DATA_IN : Z := 0x25.
Definition ISCSI_PDU_LOGOUT_RESPONSE : Z := 0x26.
Definition ISCSI_PDU_R2T : Z := 0x31.
Definition ISCSI_PDU_ASYNC_MSG : Z := 0x32.
Definition ISCSI_PDU_REJECT : Z := 0x3f.
Definition ISCSI_PDU_NO_PDU : Z := 0xff.

(** PDU flags *)
Definition ISCSI_PDU_DELETE_WHEN_SENT : Z := 0x1.
Definition ISCSI_PDU_DROP_ON_RECONNECT : Z := 0x4.
Definition ISCSI_PDU_CORK_WHEN_SENT : Z := 0x8.

(** enum scsi_status *)
Definition SCSI_STATUS_GOOD : Z := 0.
Definition SCSI_STATUS_CHECK_CONDITION : Z := 2.
Definition SCSI_STATUS_CONDITION_MET : Z := 4.
Definition SCSI_STATUS_BUSY : Z := 8.
Definition SCSI_STATUS_RESERVATION_CONFLICT : Z := 0x18.
Definition SCSI_STATUS_TASK_SET_FULL : Z := 0x28.
Definition SCSI_STATUS_ACA_ACTIVE : Z := 0x30.
Definition SCSI_STATUS_TASK_ABORTED : Z := 0x40.
Definition SCSI_STATUS_CANCELLED : Z := 0x0f000000.
Definition SCSI_STATUS_ERROR : Z := 0x0f000001.
Definition SCSI_STATUS_TIMEOUT : Z := 0x0f000002.

Definition ISCSI_SESSION_DISCOVERY : Z := 1.
Definition ISCSI_SESSION_NORMAL : Z := 2.
Definition ISCSI_INITIAL_R2T_NO : Z := 0.
Definition ISCSI_INITIAL_R2T_YES : Z := 1.
Definition ISCSI_IMMEDIATE_DATA_NO : Z := 0.
Definition ISCSI_IMMEDIATE_DATA_YES : Z := 1.

(** ** PDUs *)

(** struct iscsi_data: [dsize] is the field [size], [ddata] the block
    [data] points to ([None] for NULL), which may be longer (padding). *)
Record iscsi_data := { dsize : Z; ddata : option bytes }.

#[export] Instance eta_iscsi_data : Eta iscsi_data := fun d =>
  Build_iscsi_data (dsize d) (ddata d).

(** The functions a PDU's [callback] can be: the two of the library, with the
    private data they are installed with, or a function of the user. *)
Inductive iscsi_command_cb :=
| Cb_scsi_response
| Cb_reconnect_after_logout
| Cb_user (f : nat).

Record iscsi_pdu := {
  pdu_flags : Z;
  pdu_lun : Z;
  pdu_itt : Z;
  pdu_cmdsn : Z;
  pdu_datasn : Z;
  response_opcode : Z;
  pdu_callback : option iscsi_command_cb;
  private_data : Z;
  outdata : iscsi_data;
  outdata_written : Z;
  payload_offset : Z;
  payload_len : Z;
  payload_written : Z;
  indata : iscsi_data;
  (* struct iscsi_scsi_cbdata scsi_cbdata *)
  cbdata_callback : option nat;
  cbdata_private_data : Z;
  cbdata_task : option nat;
  pdu_scsi_timeout : Z;
  pdu_expxferlen : Z;
  calculated_data_digest : Z;
  outdata_digest_computed : bool
}.

#[export] Instance eta_iscsi_pdu : Eta iscsi_pdu := fun p =>
  Build_iscsi_pdu (pdu_flags p) (pdu_lun p) (pdu_itt p) (pdu_cmdsn p) (pdu_datasn p)
    (response_opcode p) (pdu_callback p) (private_data p) (outdata p) (outdata_written p)
    (payload_offset p) (payload_len p) (payload_written p) (indata p) (cbdata_callback p)
    (cbdata_private_data p) (cbdata_task p) (pdu_scsi_timeout p) (pdu_expxferlen p)
    (calculated_data_digest p) (outdata_digest_computed p).

(** A PDU being received: [hdr] is the block for the header and its digest
    ([[]] for NULL: a header block is never empty), of which [hdr_pos] bytes
    are there; [in_data] is the block for the payload and its padding, of which
    [data_pos] bytes are there. *)
Record iscsi_in_pdu := {
  hdr_pos : Z;
  hdr : bytes;
  data_pos : Z;
  in_data : option bytes;
  data_digest_buf : bytes;
  received_data_digest_bytes : Z;
  in_calculated_data_digest : Z
}.

#[export] Instance eta_iscsi_in_pdu : Eta iscsi_in_pdu := fun i =>
  Build_iscsi_in_pdu (hdr_pos i) (hdr i) (data_pos i) (in_data i) (data_digest_buf i)
    (received_data_digest_bytes i) (in_calculated_data_digest i).

(** ** Login parameters

    The fields of struct iscsi_context that login negotiates or sends.  A
    character array is the bytes before its NUL. *)

Record login_state := {
  initiator_name : bytes;
  target_name : bytes;
  target_address : bytes;
  target_name2 : bytes;
  alias : bytes;
  chap_auth : Z;
  user : bytes;
  passwd : bytes;
  chap_c : bytes;
  target_user : bytes;
  target_passwd : bytes;
  target_chap_i : Z;
  target_chap_r : bytes;
  want_header_digest : Z;
  want_data_digest : Z;
  current_phase : Z;
  next_phase : Z;
  secneg_phase : Z;
  chap_a : Z;
  chap_i : Z;
  max_burst_length : Z;
  want_initial_r2t : Z;
  want_immediate_data : Z;
  transport : Z
}.

#[export] Instance eta_login_state : Eta login_state := fun l =>
  Build_login_state (initiator_name l) (target_name l) (target_address l) (target_name2 l)
    (alias l) (chap_auth l) (user l) (passwd l) (chap_c l) (target_user l) (target_passwd l)
    (target_chap_i l) (target_chap_r l) (want_header_digest l) (want_data_digest l)
    (current_phase l) (next_phase l) (secneg_phase l) (chap_a l) (chap_i l)
    (max_burst_length l) (want_initial_r2t l) (want_immediate_data l) (transport l).

(** ** The connection

    The fields of struct iscsi_context of the socket transport. *)

Record connection := {
  fd : Z;
  incoming : option iscsi_in_pdu;
  initiator_max_recv_data_segment_length : Z;
  tcp_nonblocking : bool;
  socket_status_cb : option iscsi_command_cb;
  connect_data : Z
}.

#[export] Instance eta_connection : Eta connection := fun c =>
  Build_connection (fd c) (incoming c) (initiator_max_recv_data_segment_length c)
    (tcp_nonblocking c) (socket_status_cb c) (connect_data c).

(** ** What the application set up, and the state of reconnecting *)

Record settings := {
  connected_portal : bytes;
  portal : bytes;
  bind_interfaces : bytes;
  bind_interfaces_cnt : Z;
  unit_serial_number : bytes;
  ctx_lun : Z;
  no_auto_reconnect : Z;
  reconnect_deferred : Z;
  reconnect_max_retries : Z;
  retry_cnt : Z;
  no_ua_on_reconnect : Z;
  log_level : Z;
  cache_allocations : Z;
  tcp_user_timeout : Z;
  tcp_keepcnt : Z;
  tcp_keepintvl : Z;
  tcp_keepidle : Z;
  tcp_syncnt : Z;
  rdma_ack_timeout : Z
}.

#[export] Instance eta_settings : Eta settings := fun s =>
  Build_settings (connected_portal s) (portal s) (bind_interfaces s) (bind_interfaces_cnt s)
    (unit_serial_number s) (ctx_lun s) (no_auto_reconnect s) (reconnect_deferred s)
    (reconnect_max_retries s) (retry_cnt s) (no_ua_on_reconnect s) (log_level s)
    (cache_allocations s) (tcp_user_timeout s) (tcp_keepcnt s) (tcp_keepintvl s)
    (tcp_keepidle s) (tcp_syncnt s) (rdma_ack_timeout s).

(** ** The context *)

Unset Elimination Schemes.
Inductive iscsi_context := Build_iscsi_context {
  isid : bytes;
  session_type : Z;
  itt : Z;
  cmdsn : Z;
  min_cmdsn_waiting : Z;
  expcmdsn : Z;
  maxcmdsn : Z;
  statsn : Z;
  header_digest : Z;
  data_digest : Z;
  is_connected : bool;
  is_corked : bool;
  is_loggedin : bool;
  login_attempts : Z;
  nops_in_flight : Z;
  outqueue : list nat;
  outqueue_current : option nat;
  waitpdu : list nat;
  first_burst_length : Z;
  target_max_recv_data_segment_length : Z;
  use_initial_r2t : Z;
  use_immediate_data : Z;
  pending_reconnect : bool;
  next_reconnect : Z;
  scsi_timeout : Z;
  mallocs : Z;
  reallocs : Z;
  frees : Z;
  error_string : string;
  multithreading_enabled : bool;
  iscsi_lock : bool;
  login : login_state;
  conn : connection;
  conf : settings;
  old_iscsi : option iscsi_context
}.
Set Elimination Schemes.

#[export] Instance eta_iscsi_context : Eta iscsi_context := fun c =>
  Build_iscsi_context (isid c) (session_type c) (itt c) (cmdsn c) (min_cmdsn_waiting c)
    (expcmdsn c) (maxcmdsn c) (statsn c) (header_digest c) (data_digest c) (is_connected c)
    (is_corked c) (is_loggedin c) (login_attempts c) (nops_in_flight c) (outqueue c)
    (outqueue_current c) (waitpdu c) (first_burst_length c)
    (target_max_recv_data_segment_length c) (use_initial_r2t c) (use_immediate_data c)
    (pending_reconnect c) (next_reconnect c) (scsi_timeout c) (mallocs c) (reallocs c)
    (frees c) (error_string c) (multithreading_enabled c) (iscsi_lock c) (login c)
    (conn c) (conf c) (old_iscsi c).

(** A discovered target, with its portals; a portal of which the name could
    not be stored is [None]. *)
Record iscsi_discovery_address := {
  da_target_name : bytes;
  da_portals : list (option bytes)
}.

#[export] Instance eta_discovery_address : Eta iscsi_discovery_address := fun a =>
  Build_iscsi_discovery_address (da_target_name a) (da_portals a).

(** What a user callback is given besides the status. *)
Inductive command_data :=
| Data_none
| Data_task (task : nat)
| Data_response (response : Z)
| Data_buffer (size : Z) (data : option bytes)
| Data_targets (targets : list iscsi_discovery_address).

Inductive event :=
| Ev_callback (f : nat) (status : Z) (data : command_data) (private : Z)
| Ev_wakeup.

(** struct connect_task: what a connect in progress is for ([cb] is the name of
    a function). *)
Record connect_task := {
  ct_cb : nat;
  ct_private_data : Z;
  ct_lun : Z;
  ct_num_uas : Z
}.

#[export] Instance eta_connect_task : Eta connect_task := fun c =>
  Build_connect_task (ct_cb c) (ct_private_data c) (ct_lun c) (ct_num_uas c).

(** The answer of the kernel to one call on the socket: that many bytes at
    most, or -1 with [errno]. *)
Inductive io_result :=
| Io_ok (n : Z)
| Io_error (e : Z).

Definition EINTR : Z := 4.
Definition EAGAIN : Z := 11.
Definition EINVAL : Z := 22.

(** What is outside the library: the memory of the user, by address; [errno];
    the answers the kernel will give to the next writes ([tx]) and reads
    ([rx]) of the socket, EAGAIN when there are none left; the bytes it took
    from the library ([sent]) and those of the target it has not handed over
    yet ([peer]); the pending error of the socket; and the numbers [rand] will
    return. *)
Record system := {
  umem : gmap Z Z;
  errno : Z;
  tx : list io_result;
  sent : bytes;
  rx : list io_result;
  peer : bytes;
  so_error : Z;
  rand_seq : nat -> Z;
  rand_n : nat
}.

#[export] Instance eta_system : Eta system := fun s =>
  Build_system (umem s) (errno s) (tx s) (sent s) (rx s) (peer s) (so_error s) (rand_seq s)
    (rand_n s).

(** The world a call runs in.  [have_mt] and [have_pthread] are the build
    options HAVE_MULTITHREADING and HAVE_PTHREAD; [env] is the environment of
    the process; [alloc_ok] is the allocator's oracle, asked in
    turn; [fresh] is above every name in use. *)
Record world := {
  ctx : iscsi_context;
  pdus : gmap nat iscsi_pdu;
  tasks : gmap nat scsi_task;
  connects : gmap nat connect_task;
  fresh : nat;
  alloc_ok : nat -> bool;
  alloc_n : nat;
  now : Z;
  env : string -> option bytes;
  have_mt : bool;
  have_pthread : bool;
  sys : system;
  trace : list event
}.

#[export] Instance eta_world : Eta world := fun w =>
  Build_world (ctx w) (pdus w) (tasks w) (connects w) (fresh w) (alloc_ok w) (alloc_n w) (now w)
    (env w) (have_mt w) (have_pthread w) (sys w) (trace w).

Abbreviation IO := (M world).

(** [getenv(name) != NULL] *)
Definition getenv (w : world) (name : string) : bool := bool_decide (is_Some (env w name)).

(** ** Primitive operations *)

(** A computation without state, run in the world. *)
Definition lift {A} (r : res A) : IO A := fun w =>
  match r with Ret a => Ret (a, w) | Undef u => Undef u end.

Definition get_ctx {A} (f : iscsi_context -> A) : IO A := gets (fun w => f (ctx w)).

Definition set_ctx (f : iscsi_context -> iscsi_context) : IO unit :=
  modify (fun w => w <| ctx ::= f |>).

Definition get_pdu (p : nat) : IO iscsi_pdu :=
  w ← getS;
  match pdus w !! p with Some pdu => mret pdu | None => undefined UseAfterFree end.

Definition set_pdu (p : nat) (f : iscsi_pdu -> iscsi_pdu) : IO unit :=
  pdu ← get_pdu p;
  modify (fun w => w <| pdus ::= <[p := f pdu]> |>).

Definition get_task (t : nat) : IO scsi_task :=
  w ← getS;
  match tasks w !! t with Some task => mret task | None => undefined UseAfterFree end.

Definition set_task (t : nat) (f : scsi_task -> scsi_task) : IO unit :=
  task ← get_task t;
  modify (fun w => w <| tasks ::= <[t := f task]> |>).

(** The task pointer of a PDU, which the code dereferences without a test. *)
Definition deref {A} (p : option A) : IO A :=
  match p with Some a => mret a | None => undefined NullDeref end.

Definition emit (e : event) : IO unit := modify (fun w => w <| trace ::= fun t => t ++ [e] |>).

(** The message is the format string of the call. *)
Definition iscsi_set_error (s : string) : IO unit := set_ctx (fun c => c <| error_string := s |>).

Definition iscsi_mt_spin_lock : IO unit :=
  w ← getS;
  if have_mt w then
    if iscsi_lock (ctx w) then undefined Deadlock
    else set_ctx (fun c => c <| iscsi_lock := true |>)
  else mret tt.

Definition iscsi_mt_spin_unlock : IO unit :=
  w ← getS;
  when (have_mt w) (set_ctx (fun c => c <| iscsi_lock := false |>)).

(** [malloc(...) != NULL] *)
Definition malloc : IO bool :=
  w ← getS;
  _ ← modify (fun w => w <| alloc_n ::= S |>);
  mret (alloc_ok w (alloc_n w)).

Definition iscsi_malloc : IO bool :=
  ok ← malloc;
  _ ← when ok (set_ctx (fun c => c <| mallocs ::= Z.add 1 |>));
  mret ok.

Definition iscsi_realloc : IO bool :=
  ok ← malloc;
  _ ← when ok (set_ctx (fun c => c <| reallocs ::= Z.add 1 |>));
  mret ok.

Definition iscsi_zmalloc : IO bool := iscsi_malloc.

(** [iscsi_strdup(iscsi, str)]: the copy, or [None] for NULL. *)
Definition iscsi_strdup (s : bytes) : IO (option bytes) :=
  ok ← malloc;
  _ ← when ok (set_ctx (fun c => c <| mallocs ::= Z.add 1 |>));
  mret (if (ok : bool) then Some s else None).

(** [iscsi_free(iscsi, ptr)], for [ptr != NULL] or not. *)
Definition iscsi_free (nonnull : bool) : IO unit :=
  when nonnull (set_ctx (fun c => c <| frees ::= Z.add 1 |>)).

(** [iscsi = iscsi->old_iscsi; m]: run [m] on the old context, which shares
    the stores with the current one. *)
Definition on_old {A} (old : iscsi_context) (m : IO A) : IO A := fun w =>
  match m (w <| ctx := old |>) with
  | Ret (a, w') => Ret (a, w' <| ctx := (ctx w) <| old_iscsi := Some (ctx w') |> |>)
  | Undef u => Undef u
  end.

(** [ISCSI_LIST_REMOVE] on a queue kept as a list of names; see
    [SList.slist_refines_list]. *)
Definition list_remove (l : list nat) (p : nat) : IO (list nat) :=
  match l with [] => undefined NullDeref | _ => mret (filter (.≠ p) l) end.

Definition outqueue_remove (p : nat) : IO unit :=
  l ← get_ctx outqueue;
  l ← list_remove l p;
  set_ctx (fun c => c <| outqueue := l |>).

Definition waitpdu_remove (p : nat) : IO unit :=
  l ← get_ctx waitpdu;
  l ← list_remove l p;
  set_ctx (fun c => c <| waitpdu := l |>).

(** ** Callbacks *)

(** iscsi_scsi_response_cb: the statuses it passes on. *)
Definition known_status (status : Z) : bool :=
  bool_decide (status ∈ [SCSI_STATUS_RESERVATION_CONFLICT; SCSI_STATUS_CHECK_CONDITION;
    SCSI_STATUS_GOOD; SCSI_STATUS_BUSY; SCSI_STATUS_CONDITION_MET; SCSI_STATUS_TASK_SET_FULL;
    SCSI_STATUS_ACA_ACTIVE; SCSI_STATUS_TASK_ABORTED; SCSI_STATUS_ERROR;
    SCSI_STATUS_CANCELLED; SCSI_STATUS_TIMEOUT]).

Definition iscsi_scsi_response_cb (status : Z) (p : nat) : IO unit :=
  pdu ← get_pdu p;
  t ← deref (cbdata_task pdu);
  let call status :=
    match cbdata_callback pdu with
    | Some f => emit (Ev_callback f status (Data_task t) (cbdata_private_data pdu))
    | None => mret tt
    end in
  if known_status status then
    _ ← set_task t (fun task => task <| Task.status := status |>);
    call status
  else
    _ ← set_task t (fun task => task <| Task.status := SCSI_STATUS_ERROR |>);
    _ ← iscsi_set_error "Cant handle  scsi status %d yet.";
    call SCSI_STATUS_ERROR.

Definition iscsi_reconnect_after_logout (status : Z) : IO unit :=
  set_ctx (fun c => c <| pending_reconnect := true |>).

(** [if (pdu->callback) pdu->callback(iscsi, status, data, pdu->private_data);] *)
Definition call_callback (p : nat) (status : Z) (data : command_data) : IO unit :=
  pdu ← get_pdu p;
  match pdu_callback pdu with
  | None => mret tt
  | Some Cb_scsi_response => iscsi_scsi_response_cb status p
  | Some Cb_reconnect_after_logout => iscsi_reconnect_after_logout status
  | Some (Cb_user f) => emit (Ev_callback f status data (private_data pdu))
  end.

(** ** A sample world

    A logged-in context without traffic, and allocations that succeed: what
    the witnesses of the theorems run on. *)

Definition sample_login : login_state := {|
  initiator_name := [0x69; 0x71; 0x6e]; target_name := [0x74]; target_address := [];
  target_name2 := []; alias := []; chap_auth := 5; user := []; passwd := []; chap_c := zeros 2049;
  target_user := []; target_passwd := []; target_chap_i := 0; target_chap_r := zeros 32;
  want_header_digest := 0; want_data_digest := 0;
  current_phase := 0; next_phase := 0; secneg_phase := 0; chap_a := 0; chap_i := 0;
  max_burst_length := 262144; want_initial_r2t := ISCSI_INITIAL_R2T_NO;
  want_immediate_data := ISCSI_IMMEDIATE_DATA_YES; transport := 0
|}.

Definition sample_conn : connection := {|
  fd := 3; incoming := None; initiator_max_recv_data_segment_length := 262144;
  tcp_nonblocking := true; socket_status_cb := None; connect_data := 0
|}.

Definition sample_conf : settings := {|
  connected_portal := []; portal := []; bind_interfaces := []; bind_interfaces_cnt := 0;
  unit_serial_number := []; ctx_lun := 0; no_auto_reconnect := 0; reconnect_deferred := 0;
  reconnect_max_retries := -1; retry_cnt := 0; no_ua_on_reconnect := 0; log_level := 0;
  cache_allocations := 1; tcp_user_timeout := 0; tcp_keepcnt := 3; tcp_keepintvl := 30;
  tcp_keepidle := 30; tcp_syncnt := 0; rdma_ack_timeout := 0
|}.

Definition sample_system : system := {|
  umem := ∅; errno := 0; tx := []; sent := []; rx := []; peer := []; so_error := 0;
  rand_seq := fun _ => 7; rand_n := 0
|}.

Definition sample_ctx : iscsi_context := {|
  isid := [0x80; 1; 2; 3; 4; 5];
  session_type := ISCSI_SESSION_NORMAL;
  itt := 17; cmdsn := 5; min_cmdsn_waiting := 0; expcmdsn := 5; maxcmdsn := 36; statsn := 9;
  header_digest := ISCSI_HEADER_DIGEST_NONE;
  data_digest := ISCSI_DATA_DIGEST_NONE;
  is_connected := true; is_corked := false; is_loggedin := true;
  login_attempts := 0; nops_in_flight := 0;
  outqueue := []; outqueue_current := None; waitpdu := [];
  first_burst_length := 65536;
  target_max_recv_data_segment_length := 8192;
  use_initial_r2t := ISCSI_INITIAL_R2T_NO;
  use_immediate_data := ISCSI_IMMEDIATE_DATA_YES;
  pending_reconnect := false; next_reconnect := 0; scsi_timeout := 0;
  mallocs := 0; reallocs := 0; frees := 0; error_string := "";
  multithreading_enabled := false; iscsi_lock := false;
  login := sample_login; conn := sample_conn; conf := sample_conf; old_iscsi := None
|}.

Definition sample_world : world := {|
  ctx := sample_ctx; pdus := ∅; tasks := ∅; connects := ∅; fresh := 1;
  alloc_ok := fun _ => true; alloc_n := 0; now := 1000; env := fun _ => None;
  have_mt := true; have_pthread := true; sys := sample_system; trace := []
|}.

(** A PDU with the given first header byte and CmdSN. *)
Definition sample_pdu (opcode sn : Z) : iscsi_pdu :=
  Build_iscsi_pdu 0 0 0 sn 0 0 None 0 (Build_iscsi_data 48 (Some (<[0%nat := opcode]> (zeros 48))))
    0 0 0 0 (Build_iscsi_data 0 None) None 0 None 0 0 0 false.

(** Two commands queued, and PDU 3 allocated. *)
Definition sample_queue (opcode sn : Z) : world :=
  sample_world
    <| pdus := {[ 1%nat := sample_pdu 1 5; 2%nat := sample_pdu 1 7; 3%nat := sample_pdu opcode sn ]} |>
    <| fresh := 4%nat |> <| ctx ::= fun c => c <| outqueue := [1%nat; 2%nat] |> |>.
