(* ===== verification/Pdu.v ===== *)
(** PDUs (src/lib/pdu.c): serial numbers, allocation, the fields of the
    basic header segment, payload data and its padding.

    A setter writes through the pointer [pdu->outdata.data]; [set_hdr] is that
    store.  [iscsi_allocate_pdu] and [iscsi_free_pdu] are those of the TCP
    transport ([drv->new_pdu], [drv->free_pdu]). *)

From S2P Require Import Prelude Bytes Crc32c Task Context.

(** ** Serial numbers *)

Definition iscsi_serial32_compare (s1 s2 : Z) : Z :=
  if s1 =? s2 then 0
  else if (s1 <? s2) && (u32 (s2 - s1) <? 1 << 31) then -1
  else if (s2 <? s1) && (u32 (s1 - s2) <? 1 << 31) then 1
  else if (s2 <? s1) && (1 << 31 <? u32 (s1 - s2)) then -1
  else if (s1 <? s2) && (1 << 31 <? u32 (s2 - s1)) then 1
  else -1.

Definition iscsi_itt_post_increment : IO Z :=
  _ ← iscsi_mt_spin_lock;
  old_itt ← get_ctx itt;
  _ ← set_ctx (fun c => c <| itt := u32 (old_itt + 1) |>);
  i ← get_ctx itt;
  _ ← when (i =? 0xffffffff) (set_ctx (fun c => c <| itt := 0 |>));
  _ ← iscsi_mt_spin_unlock;
  mret old_itt.

(** ** Header fields *)

(** A store into the header of a PDU, through [pdu->outdata.data]. *)
Definition set_hdr (p : nat) (f : bytes -> bytes) : IO unit :=
  pdu ← get_pdu p;
  match ddata (outdata pdu) with
  | None => undefined NullDeref
  | Some b => set_pdu p (fun pdu => pdu <| outdata ::= fun d => d <| ddata := Some (f b) |> |>)
  end.

Definition iscsi_pdu_set_itt (p : nat) (itt : Z) : IO unit :=
  set_hdr p (fun b => scsi_set_uint32 b 16 itt).
Definition iscsi_pdu_set_ritt (p : nat) (ritt : Z) : IO unit :=
  set_hdr p (fun b => scsi_set_uint32 b 20 ritt).
Definition iscsi_pdu_set_pduflags (p : nat) (flags : Z) : IO unit :=
  set_hdr p (fun b => <[1%nat := u8 flags]> b).
Definition iscsi_pdu_set_immediate (p : nat) : IO unit :=
  set_hdr p (fun b => <[0%nat := u8 (byte_at b 0 ||| ISCSI_PDU_IMMEDIATE)]> b).
Definition iscsi_pdu_set_ttt (p : nat) (ttt : Z) : IO unit :=
  set_hdr p (fun b => scsi_set_uint32 b 20 ttt).
Definition iscsi_pdu_set_rcmdsn (p : nat) (rcmdsn : Z) : IO unit :=
  set_hdr p (fun b => scsi_set_uint32 b 32 rcmdsn).
Definition iscsi_pdu_set_datasn (p : nat) (datasn : Z) : IO unit :=
  set_hdr p (fun b => scsi_set_uint32 b 36 datasn).
Definition iscsi_pdu_set_expstatsn (p : nat) (expstatsn : Z) : IO unit :=
  set_hdr p (fun b => scsi_set_uint32 b 28 expstatsn).
Definition iscsi_pdu_set_bufferoffset (p : nat) (bufferoffset : Z) : IO unit :=
  set_hdr p (fun b => scsi_set_uint32 b 40 bufferoffset).
Definition iscsi_pdu_set_lun (p : nat) (lun : Z) : IO unit :=
  set_hdr p (fun b => scsi_set_uint16 b 8 lun).

Definition iscsi_pdu_set_cmdsn (p : nat) (cmdsn : Z) : IO unit :=
  _ ← set_hdr p (fun b => scsi_set_uint32 b 24 cmdsn);
  _ ← set_pdu p (fun pdu => pdu <| pdu_cmdsn := cmdsn |>);
  pdu ← get_pdu p;
  match cbdata_task pdu with
  | None => mret tt
  | Some t => set_task t (fun task =>
      task <| task_cmdsn := pdu_cmdsn pdu |> <| task_itt := pdu_itt pdu |>)
  end.

Definition iscsi_pdu_set_expxferlen (p : nat) (expxferlen : Z) : IO unit :=
  _ ← set_pdu p (fun pdu => pdu <| pdu_expxferlen := expxferlen |>);
  set_hdr p (fun b => scsi_set_uint32 b 20 expxferlen).

(** [memset(&data[32], 0, 16); memcpy(&data[32], task->cdb, task->cdb_size)];
    a size above 16 reads past [task->cdb]. *)
Definition iscsi_pdu_set_cdb (p : nat) (task : scsi_task) : IO unit :=
  if (cdb_size task <? 0) || (16 <? cdb_size task) then undefined OutOfBounds else
  set_hdr p (fun b => blit (blit b 32 (zeros 16)) 32 (take (Z.to_nat (cdb_size task)) (cdb task))).

Definition iscsi_scsi_get_task_from_pdu (pdu : iscsi_pdu) : option nat := cbdata_task pdu.

(** ** Allocation *)

Definition ISCSI_HEADER_SIZE (hdr_digest : Z) : Z :=
  ISCSI_RAW_HEADER_SIZE +
  (if hdr_digest =? ISCSI_HEADER_DIGEST_NONE then 0 else ISCSI_DIGEST_SIZE).

Definition no_data : iscsi_data := Build_iscsi_data 0 None.

(** [zmalloc] of a struct iscsi_pdu *)
Definition zero_pdu : iscsi_pdu :=
  Build_iscsi_pdu 0 0 0 0 0 0 None 0 no_data 0 0 0 0 no_data None 0 None 0 0 0 false.

Definition iscsi_tcp_new_pdu : IO (option nat) :=
  ok ← iscsi_malloc;
  if negb ok then mret None else
  w ← getS;
  let p := fresh w in
  _ ← modify (fun w => w <| pdus ::= <[p := zero_pdu]> |> <| fresh := S p |>);
  mret (Some p).

Definition iscsi_tcp_free_pdu (p : nat) : IO unit :=
  pdu ← get_pdu p;
  _ ← iscsi_free (bool_decide (is_Some (ddata (outdata pdu))));
  _ ← iscsi_free (bool_decide (is_Some (ddata (indata pdu))));
  current ← get_ctx outqueue_current;
  _ ← when (bool_decide (current = Some p)) (set_ctx (fun c => c <| outqueue_current := None |>));
  _ ← modify (fun w => w <| pdus ::= delete p |>);
  iscsi_free true.

Definition iscsi_allocate_pdu (opcode response_opcode itt flags : Z) : IO (option nat) :=
  r ← iscsi_tcp_new_pdu;
  match r with
  | None => _ ← iscsi_set_error "failed to allocate pdu"; mret None
  | Some p =>
      digest ← get_ctx header_digest;
      let size := ISCSI_HEADER_SIZE digest in
      _ ← set_pdu p (fun pdu => pdu <| outdata ::= fun d => d <| dsize := size |> |>);
      ok ← iscsi_malloc;
      if negb ok then
        _ ← iscsi_set_error "failed to allocate pdu header";
        _ ← iscsi_tcp_free_pdu p;
        mret None
      else
        _ ← set_pdu p (fun pdu =>
              pdu <| outdata ::= fun d => d <| ddata := Some (zeros (Z.to_nat size)) |> |>);
        _ ← set_hdr p (fun b => <[0%nat := u8 opcode]> b);
        _ ← set_pdu p (fun pdu => pdu <| Context.response_opcode := response_opcode |>);
        id ← get_ctx isid;
        _ ← when (opcode =? ISCSI_PDU_LOGIN_REQUEST) (set_hdr p (fun b => blit b 8 (take 6 id)));
        _ ← iscsi_pdu_set_itt p itt;
        _ ← set_pdu p (fun pdu => pdu <| pdu_itt := itt |> <| pdu_flags := flags |>
              <| calculated_data_digest := crc32c_init |>);
        mret (Some p)
  end.

(** ** Payload data *)

(** [iscsi_add_data] on a buffer: [size_t] arithmetic, the block reallocated
    to the (aligned) size, the bytes beyond the data zero when padded.  The
    bytes of a fresh or grown block that the code does not write are not
    specified; the model makes them zero. *)
Definition iscsi_add_data (d : iscsi_data) (src : bytes) (dsize' : Z) (pdualignment : bool)
  : IO (Z * iscsi_data) :=
  if dsize' =? 0 then
    _ ← iscsi_set_error "Trying to append zero size data to iscsi_data"; mret (-1, d)
  else
    let len := u64 (dsize d + dsize') in
    let aligned := if pdualignment then (len + 3) &&& 0xfffffffc else len in
    ok ← (if dsize d =? 0 then iscsi_malloc else iscsi_realloc);
    if negb ok then
      _ ← iscsi_set_error "failed to allocate buffer for %d bytes";
      mret (-1, d <| ddata := None |>)
    else
      let old := if dsize d =? 0 then [] else default [] (ddata d) in
      let block := take (Z.to_nat aligned) (old ++ zeros (Z.to_nat aligned)) in
      if (dsize' <? 0) || (aligned <? len) || (Z.of_nat (length src) <? dsize') then
        undefined OutOfBounds
      else
        let block := blit block (Z.to_nat (dsize d)) (take (Z.to_nat dsize') src) in
        let block := if len =? aligned then block
                     else blit block (Z.to_nat len) (zeros (Z.to_nat (aligned - len))) in
        mret (0, Build_iscsi_data len (Some block)).

Definition iscsi_pdu_add_data (p : option nat) (src : bytes) (dsize' : Z) : IO Z :=
  match p with
  | None => _ ← iscsi_set_error "trying to add data to NULL pdu"; mret (-1)
  | Some p =>
      if dsize' =? 0 then
        _ ← iscsi_set_error "Trying to append zero size data to pdu"; mret (-1)
      else
        pdu ← get_pdu p;
        '(rc, d) ← iscsi_add_data (outdata pdu) src dsize' true;
        _ ← set_pdu p (fun pdu => pdu <| outdata := d |>);
        if negb (rc =? 0) then
          _ ← iscsi_set_error "failed to add data to pdu buffer"; mret (-1)
        else
          digest ← get_ctx header_digest;
          _ ← set_hdr p (fun b => scsi_set_uint32 b 4 (dsize d - ISCSI_HEADER_SIZE digest));
          mret 0
  end.

Definition iscsi_get_pdu_data_size (h : bytes) : Z := scsi_get_uint32 h 4 &&& 0x00ffffff.

Definition iscsi_get_pdu_padding_size (h : bytes) : Z :=
  let data_size := scsi_get_uint32 h 4 &&& 0x00ffffff in
  let padded_size := (data_size + 3) &&& 0xfffffffc in
  padded_size - data_size.

(** ** Serials of a received PDU *)

Definition iscsi_process_pdu_serials (inp : iscsi_in_pdu) : IO unit :=
  let itt := scsi_get_uint32 (hdr inp) 16 in
  let sn := scsi_get_uint32 (hdr inp) 24 in
  let max := scsi_get_uint32 (hdr inp) 32 in
  let exp := scsi_get_uint32 (hdr inp) 28 in
  let status := scsi_get_uint16 (hdr inp) 36 in
  let flags := byte_at (hdr inp) 1 in
  let opcode := byte_at (hdr inp) 0 &&& 0x3f in
  if (opcode =? ISCSI_PDU_LOGIN_RESPONSE) && truth (status >> 8) then mret tt else
  _ ← iscsi_mt_spin_lock;
  m ← get_ctx maxcmdsn;
  _ ← when (0 <? iscsi_serial32_compare max m) (set_ctx (fun c => c <| maxcmdsn := max |>));
  e ← get_ctx expcmdsn;
  _ ← when (0 <? iscsi_serial32_compare exp e) (set_ctx (fun c => c <| expcmdsn := exp |>));
  if (opcode =? ISCSI_PDU_DATA_IN) && negb (truth (flags &&& ISCSI_PDU_DATA_CONTAINS_STATUS))
  then iscsi_mt_spin_unlock
  else
    let sn := if itt =? 0xffffffff then u32 (sn - 1) else sn in
    s ← get_ctx statsn;
    _ ← when (0 <? iscsi_serial32_compare sn s) (set_ctx (fun c => c <| statsn := sn |>));
    iscsi_mt_spin_unlock.

(** ** Lemmas *)

(** The later of two serial numbers, as [iscsi_process_pdu_serials] keeps it. *)
Definition serial_max (received old : Z) : Z :=
  if 0 <? iscsi_serial32_compare received old then received else old.

Lemma serial32_sgn s1 s2 : 0 <= s1 < 2 ^ 32 -> 0 <= s2 < 2 ^ 32 ->
  iscsi_serial32_compare s1 s2 = Z.sgn (i32 (s1 - s2)).
Proof.
  intros H1 H2. unfold iscsi_serial32_compare. change (1 << 31) with (2 ^ 31).
  assert (Hu : forall d, 0 <= d < 2 ^ 32 -> u32 d = d) by (intros; by apply u32_small).
  assert (Hneg : forall d, - 2 ^ 32 < d < 0 -> d mod 2 ^ 32 = d + 2 ^ 32).
  { intros d Hd. rewrite <- (Z.mod_small (d + 2 ^ 32) (2 ^ 32)) by lia.
    rewrite Z.add_mod, Z.mod_same, Z.add_0_r, Z.mod_mod by lia. done. }
  unfold i32. cbv zeta.
  destruct (Z.eqb_spec s1 s2) as [->|Hne].
  { rewrite Z.sub_diag. done. }
  destruct (Z.ltb_spec s1 s2) as [Hlt|Hge].
  - rewrite (Hneg (s1 - s2)) by lia. rewrite (Hu (s2 - s1)) by lia.
    destruct (Z.ltb_spec s2 s1); [lia|].
    destruct (Z.ltb_spec (s1 - s2 + 2 ^ 32) (2 ^ 31));
      destruct (Z.ltb_spec (s2 - s1) (2 ^ 31)); cbn [andb];
      destruct (Z.ltb_spec (2 ^ 31) (s2 - s1)); cbn [andb]; lia.
  - destruct (Z.ltb_spec s2 s1); [|lia]. cbn [andb].
    rewrite (Z.mod_small (s1 - s2)) by lia. rewrite (Hu (s1 - s2)) by lia.
    destruct (Z.ltb_spec (s1 - s2) (2 ^ 31)); cbn [andb]; [lia|].
    destruct (Z.ltb_spec (2 ^ 31) (s1 - s2)); cbn [andb]; lia.
Qed.

Lemma serial_max_ge received old : 0 <= received < 2 ^ 32 -> 0 <= old < 2 ^ 32 ->
  0 <= iscsi_serial32_compare (serial_max received old) old.
Proof.
  intros Hr Ho. unfold serial_max.
  destruct (Z.ltb_spec 0 (iscsi_serial32_compare received old)); [lia|].
  unfold iscsi_serial32_compare. rewrite Z.eqb_refl. lia.
Qed.

(** No call of the library is inside a critical section. *)
Definition unlocked (w : world) : Prop := iscsi_lock (ctx w) = false.

(** Run a program on a world given by its fields. *)
Ltac open_world w :=
  let c := fresh "c" in destruct w as [c ? ? ? ? ? ? ? ? ? ?];
  destruct c; cbn in *; subst.

Lemma itt_step i : 0 <= i < 0xffffffff ->
  (if u32 (i + 1) =? 0xffffffff then 0 else u32 (i + 1)) = (i + 1) mod 0xffffffff.
Proof.
  intros Hi. rewrite u32_small by lia. destruct (Z.eqb_spec (i + 1) 0xffffffff) as [->|Hne].
  - done.
  - rewrite Z.mod_small by lia. done.
Qed.

Lemma itt_post_increment_run w : unlocked w -> 0 <= itt (ctx w) < 0xffffffff ->
  iscsi_itt_post_increment w =
  Ret (itt (ctx w), w <| ctx ::= fun c => c <| itt := (itt c + 1) mod 0xffffffff |> |>).
Proof.
  unfold unlocked. intros Hl Hi. open_world w.
  unfold iscsi_itt_post_increment, iscsi_mt_spin_lock, iscsi_mt_spin_unlock, when, get_ctx,
    set_ctx, gets, getS, modify, mbind, M_bind, mret, M_ret, upd, eta, eta_world, eta_iscsi_context.
  destruct have_mt; cbn; rewrite <- (itt_step _ Hi); destruct (u32 _ =? _); cbn; done.
Qed.

Lemma serials_run w inp : unlocked w ->
  let h := hdr inp in
  let opcode := byte_at h 0 &&& 0x3f in
  let sn := if scsi_get_uint32 h 16 =? 0xffffffff then u32 (scsi_get_uint32 h 24 - 1)
            else scsi_get_uint32 h 24 in
  iscsi_process_pdu_serials inp w = Ret (tt,
    if (opcode =? ISCSI_PDU_LOGIN_RESPONSE) && truth (scsi_get_uint16 h 36 >> 8) then w
    else w <| ctx ::= fun c => c
      <| maxcmdsn := serial_max (scsi_get_uint32 h 32) (maxcmdsn c) |>
      <| expcmdsn := serial_max (scsi_get_uint32 h 28) (expcmdsn c) |>
      <| statsn :=
          if (opcode =? ISCSI_PDU_DATA_IN) &&
             negb (truth (byte_at h 1 &&& ISCSI_PDU_DATA_CONTAINS_STATUS))
          then statsn c else serial_max sn (statsn c) |> |>).
Proof.
  unfold unlocked. intros Hl. cbv zeta. open_world w.
  unfold iscsi_process_pdu_serials. cbv zeta.
  destruct (_ && truth (_ >> _)); [done|]. unfold serial_max.
  unfold iscsi_mt_spin_lock, iscsi_mt_spin_unlock, when, get_ctx,
    set_ctx, gets, getS, modify, mbind, M_bind, mret, M_ret, upd, eta, eta_world, eta_iscsi_context.
  destruct have_mt; cbn -[Z.land u32 scsi_get_uint32];
    destruct (0 <? iscsi_serial32_compare _ maxcmdsn); cbn -[Z.land u32 scsi_get_uint32];
    destruct (0 <? iscsi_serial32_compare _ expcmdsn); cbn -[Z.land u32 scsi_get_uint32];
    destruct (_ && _); cbn -[Z.land u32 scsi_get_uint32]; try done;
    destruct (0 <? iscsi_serial32_compare _ statsn); done.
Qed.

(** *** Payload data *)

(** An outgoing buffer: a header of [hs] bytes, the payload, zero padding to
    a multiple of four. *)
Definition outdata_wf (hs : nat) (d : iscsi_data) (h payload : bytes) : Prop :=
  length h = hs /\ dsize d = Z.of_nat (hs + length payload) /\
  exists pad, ddata d = Some (h ++ payload ++ zeros pad) /\ (pad < 4)%nat /\
    ((hs + length payload + pad) mod 4 = 0)%nat.

Lemma align4_land n : 0 <= n -> n + 3 < 2 ^ 32 -> (n + 3) &&& 0xfffffffc = 4 * ((n + 3) / 4).
Proof.
  intros H0 Hn.
  assert ((n + 3) &&& 0xfffffffc = ((n + 3) >> 2) << 2) as ->.
  { apply (bits_below 32); [lia|..].
    - apply land_range_r; lia.
    - rewrite Z.shiftr_div_pow2, Z.shiftl_mul_pow2 by lia. change (2 ^ 2) with 4.
      pose proof (Z.mul_div_le (n + 3) 4). split; [|lia].
      apply Z.mul_nonneg_nonneg; [|lia]. apply Z.div_pos; lia.
    - assert (Hb : 0 <= n + 3 < 2 ^ 32) by lia. revert Hb. generalize (n + 3). intros m Hm i Hi.
      enum_to i 32; clear Hi; bits_norm; bits_finish. }
  rewrite Z.shiftr_div_pow2, Z.shiftl_mul_pow2 by lia. change (2 ^ 2) with 4. lia.
Qed.

Lemma align4_pad n : 0 <= n -> exists pad : nat,
  4 * ((n + 3) / 4) = n + Z.of_nat pad /\ (pad < 4)%nat /\ (n + Z.of_nat pad) mod 4 = 0.
Proof.
  intros Hn. exists (Z.to_nat (4 * ((n + 3) / 4) - n)).
  pose proof (Z.div_mod (n + 3) 4). pose proof (Z.mod_pos_bound (n + 3) 4).
  assert (E : 4 * ((n + 3) / 4) = n + Z.of_nat (Z.to_nat (4 * ((n + 3) / 4) - n))) by lia.
  split; [done|]. split; [lia|]. rewrite <- E, Z.mul_comm. apply Z.mod_mul. lia.
Qed.

(** Appending inside a block that was grown first. *)
Lemma grow_append (h payload src : bytes) (pad0 pad : nat) :
  (pad0 <= length src + pad)%nat ->
  let total := (length h + length payload + length src + pad)%nat in
  let block := take total ((h ++ payload ++ zeros pad0) ++ zeros total) in
  blit block (length h + length payload) src = h ++ (payload ++ src) ++ zeros pad.
Proof.
  intros Hpad total block.
  assert (Hb : block = (h ++ payload) ++ zeros (length src + pad)).
  { subst block. rewrite !app_assoc. rewrite <- (app_assoc _ (zeros pad0)), take_app_ge
      by (rewrite length_app; lia). f_equal. unfold zeros.
    rewrite <- replicate_add, take_replicate. f_equal. rewrite length_app. lia. }
  rewrite Hb. replace (length h + length payload)%nat with (length (h ++ payload))
    by (rewrite length_app; lia).
  rewrite blit_prefix by (rewrite length_zeros; lia). rewrite drop_zeros.
  rewrite <- !app_assoc. do 4 f_equal. lia.
Qed.

Lemma pad_in_place (pre : bytes) (pad : nat) :
  blit (pre ++ zeros pad) (length pre) (zeros pad) = pre ++ zeros pad.
Proof.
  rewrite blit_prefix by done. rewrite drop_zeros, length_zeros, Nat.sub_diag.
  by rewrite app_nil_r.
Qed.

(** The world after one successful reallocation. *)
Definition realloced (w : world) : world :=
  w <| alloc_n ::= S |> <| ctx ::= fun c => c <| reallocs ::= Z.add 1 |> |>.

Lemma iscsi_realloc_run w : alloc_ok w (alloc_n w) = true ->
  iscsi_realloc w = Ret (true, realloced w).
Proof.
  intros Hok. unfold iscsi_realloc, malloc, when, set_ctx, mbind, M_bind, getS, modify, mret, M_ret.
  rewrite Hok. done.
Qed.

Lemma add_data_run hs d h payload src w :
  outdata_wf hs d h payload -> (0 < hs)%nat -> src <> [] ->
  Z.of_nat (hs + length payload + length src) + 3 < 2 ^ 32 ->
  alloc_ok w (alloc_n w) = true ->
  exists d', iscsi_add_data d src (Z.of_nat (length src)) true w = Ret ((0, d'), realloced w) /\
    outdata_wf hs d' h (payload ++ src).
Proof.
  intros (Hh & Hd & pad0 & Hb & Hp0 & H0) Hhs Hne Hmax Hok.
  apply Nat.Div0.mod_divides in H0 as [k Hk].
  assert (Hsrc : (0 < length src)%nat) by (destruct src; [done|cbn; lia]).
  unfold iscsi_add_data. destruct (Z.eqb_spec (Z.of_nat (length src)) 0); [lia|]. cbv zeta.
  rewrite Hd, Hb. destruct (Z.eqb_spec (Z.of_nat (hs + length payload)) 0); [lia|].
  unfold mbind, M_bind. rewrite iscsi_realloc_run by done. cbn [negb default from_option id].
  rewrite u64_small by lia.
  remember (Z.of_nat (hs + length payload) + Z.of_nat (length src)) as len eqn:Elen.
  rewrite align4_land by lia.
  destruct (align4_pad len ltac:(lia)) as (pad & Ea & Hp & Hmod). rewrite Ea.
  destruct (Z.ltb_spec (Z.of_nat (length src)) 0); [lia|].
  destruct (Z.ltb_spec (len + Z.of_nat pad) len); [lia|].
  destruct (Z.ltb_spec (Z.of_nat (length src)) (Z.of_nat (length src))); [lia|]. cbn [orb].
  rewrite (take_ge src) by lia. rewrite !Nat2Z.id.
  replace (Z.to_nat (len + Z.of_nat pad)) with (length h + length payload + length src + pad)%nat
    by lia.
  replace (hs + length payload)%nat with (length h + length payload)%nat by lia.
  rewrite grow_append by lia.
  eexists. split; [reflexivity|]. split; [done|]. split.
  { cbn [dsize]. rewrite length_app. lia. }
  exists pad. split; [|split; [done|]].
  - cbn [ddata]. f_equal. destruct (Z.eqb_spec len (len + Z.of_nat pad)); [done|].
    rewrite app_assoc. replace (Z.to_nat len) with (length (h ++ payload ++ src))
      by (rewrite !length_app; lia).
    replace (Z.to_nat (len + Z.of_nat pad - len)) with pad by lia. apply pad_in_place.
  - rewrite length_app. apply Nat2Z.inj. rewrite Nat2Z.inj_mod.
    replace (Z.of_nat (hs + (length payload + length src) + pad)) with (len + Z.of_nat pad) by lia.
    done.
Qed.

Lemma set32_app_l (h rest : bytes) off v : (off + 4 <= length h)%nat ->
  scsi_set_uint32 (h ++ rest) off v = scsi_set_uint32 h off v ++ rest.
Proof.
  intros Hl. unfold scsi_set_uint32. rewrite insert_app_l by lia.
  rewrite insert_app_l by (rewrite length_insert; lia).
  rewrite insert_app_l by (rewrite !length_insert; lia).
  by rewrite insert_app_l by (rewrite !length_insert; lia).
Qed.

Lemma outdata_wf_set32 hs d h payload off v : outdata_wf hs d h payload -> (off + 4 <= hs)%nat ->
  forall b, ddata d = Some b ->
  outdata_wf hs (d <| ddata := Some (scsi_set_uint32 b off v) |>)
    (scsi_set_uint32 h off v) payload.
Proof.
  intros (Hh & Hd & pad & Hb & Hp) Hoff b Hb'. rewrite Hb in Hb'. injection Hb' as <-.
  split; [by rewrite length_scsi_set_uint32|]. split; [done|]. exists pad. split; [|done].
  cbn. by rewrite set32_app_l by lia.
Qed.

Lemma get_ctx_run {A} (f : iscsi_context -> A) w : get_ctx f w = Ret (f (ctx w), w).
Proof. done. Qed.

Lemma get_pdu_run w p pdu : pdus w !! p = Some pdu -> get_pdu p w = Ret (pdu, w).
Proof. intros Hp. unfold get_pdu, mbind, M_bind, getS. by rewrite Hp. Qed.

Lemma set_pdu_run w p pdu f : pdus w !! p = Some pdu ->
  set_pdu p f w = Ret (tt, w <| pdus ::= <[p := f pdu]> |>).
Proof. intros Hp. unfold set_pdu, mbind at 1, M_bind at 1. by rewrite (get_pdu_run _ _ pdu). Qed.

Lemma set_hdr_run w p pdu f b : pdus w !! p = Some pdu -> ddata (outdata pdu) = Some b ->
  set_hdr p f w = Ret (tt, w <| pdus ::= <[p := pdu <| outdata ::= fun d => d <| ddata := Some (f b) |> |>]> |>).
Proof.
  intros Hp Hb. unfold set_hdr. run (get_pdu_run w p pdu Hp). rewrite Hb. by apply set_pdu_run.
Qed.

(** The PDU after [iscsi_pdu_set_cmdsn]. *)
Definition with_cmdsn (pdu : iscsi_pdu) (sn : Z) : iscsi_pdu :=
  pdu <| outdata ::= fun d => d <| ddata := (fun b => scsi_set_uint32 b 24 sn) <$> ddata d |> |>
      <| pdu_cmdsn := sn |>.

(** The task a PDU refers to, if any, exists. *)
Definition task_live (w : world) (pdu : iscsi_pdu) : Prop :=
  match cbdata_task pdu with Some t => is_Some (tasks w !! t) | None => True end.

(** The tasks after [iscsi_pdu_set_cmdsn] on a PDU. *)
Definition tasks_with_cmdsn (ts : gmap nat scsi_task) (pdu : iscsi_pdu) (sn : Z)
  : gmap nat scsi_task :=
  match cbdata_task pdu with
  | Some t => alter (fun task => task <| task_cmdsn := sn |> <| task_itt := pdu_itt pdu |>) t ts
  | None => ts
  end.

(** Worlds that agree outside the stores, and on the stores. *)
Lemma world_stores_eq w1 w2 :
  w1 <| pdus := ∅ |> <| tasks := ∅ |> = w2 <| pdus := ∅ |> <| tasks := ∅ |> ->
  pdus w1 = pdus w2 -> tasks w1 = tasks w2 -> w1 = w2.
Proof. destruct w1, w2. cbn. intros E -> ->. by simplify_eq. Qed.

Lemma set_cmdsn_run w p pdu sn : pdus w !! p = Some pdu ->
  is_Some (ddata (outdata pdu)) -> task_live w pdu ->
  iscsi_pdu_set_cmdsn p sn w =
  Ret (tt, w <| pdus ::= <[p := with_cmdsn pdu sn]> |>
             <| tasks ::= fun ts => tasks_with_cmdsn ts pdu sn |>).
Proof.
  intros Hp [b Hb] Ht. unfold iscsi_pdu_set_cmdsn.
  run (set_hdr_run w p pdu (fun b => scsi_set_uint32 b 24 sn) b Hp Hb).
  set (pdu1 := pdu <| outdata ::= fun d => d <| ddata := Some (scsi_set_uint32 b 24 sn) |> |>).
  assert (H1 : forall m : gmap nat iscsi_pdu, <[p := pdu1]> m !! p = Some pdu1)
    by (intros; apply lookup_insert_eq).
  match goal with |- (_ ≫= _) ?v = _ =>
    run (set_pdu_run v p pdu1 (fun q => q <| pdu_cmdsn := sn |>) (H1 _)) end.
  assert (Epdu : pdu1 <| pdu_cmdsn := sn |> = with_cmdsn pdu sn).
  { unfold with_cmdsn, pdu1. destruct pdu, outdata. cbn in *. by rewrite Hb. }
  match goal with |- (_ ≫= _) ?v = _ =>
    run (get_pdu_run v p (pdu1 <| pdu_cmdsn := sn |>) (lookup_insert_eq _ _ _)) end.
  unfold tasks_with_cmdsn, task_live in *. change (cbdata_task (upd _ _ _)) with (cbdata_task pdu).
  destruct (cbdata_task pdu) as [t|].
  - destruct Ht as [task Ht]. unfold set_task, get_task, mbind, M_bind, getS, modify. cbn [tasks].
    change (tasks (upd _ _ _)) with (tasks w). rewrite Ht. cbn.
    do 2 f_equal. apply world_stores_eq; cbn; [done..| |].
    + by rewrite insert_insert_eq, <- Epdu.
    + apply map_eq. intros i. destruct (decide (i = t)) as [->|Hne].
      * by rewrite lookup_insert_eq, lookup_alter_eq, Ht.
      * by rewrite lookup_insert_ne, lookup_alter_ne.
  - unfold mret, M_ret. do 2 f_equal. apply world_stores_eq; cbn; [done..| |done].
    by rewrite insert_insert_eq, <- Epdu.
Qed.

Lemma padding_of_dsl h n : scsi_get_uint32 h 4 = n -> 0 <= n < 2 ^ 24 ->
  iscsi_get_pdu_data_size h = n /\ 0 <= iscsi_get_pdu_padding_size h < 4 /\
  (n + iscsi_get_pdu_padding_size h) mod 4 = 0.
Proof.
  intros Hn Hr. unfold iscsi_get_pdu_data_size, iscsi_get_pdu_padding_size. cbv zeta. rewrite Hn.
  assert (n &&& 0x00ffffff = n) as ->.
  { change 0x00ffffff with (Z.ones 24). rewrite Z.land_ones by lia. by apply Z.mod_small. }
  split; [done|]. rewrite align4_land by lia.
  destruct (align4_pad n ltac:(lia)) as (pad & -> & Hp & Hmod).
  replace (n + Z.of_nat pad - n) with (Z.of_nat pad) by lia. split; [lia|done].
Qed.

(** ** Building a PDU *)

(** The world with the PDU [pdu] under the name [p]. *)
Definition put (w : world) (p : nat) (pdu : iscsi_pdu) : world := w <| pdus ::= <[p := pdu]> |>.

Lemma put_lookup w p pdu : pdus (put w p pdu) !! p = Some pdu.
Proof. apply lookup_insert_eq. Qed.

Lemma put_lookup_ne w p pdu x : x <> p -> pdus (put w p pdu) !! x = pdus w !! x.
Proof. intros Hne. by apply lookup_insert_ne. Qed.

Lemma put_put w p a b : put (put w p a) p b = put w p b.
Proof. apply world_stores_eq; [done| |done]. apply insert_insert_eq. Qed.

Lemma put_swap w p q a b : p <> q -> put (put w p a) q b = put (put w q b) p a.
Proof. intros Hne. apply world_stores_eq; [done| |done]. by apply insert_insert_ne. Qed.

Lemma get_put_run w p a : get_pdu p (put w p a) = Ret (a, put w p a).
Proof. apply get_pdu_run, put_lookup. Qed.

Lemma set_put_run w p a f : set_pdu p f (put w p a) = Ret (tt, put w p (f a)).
Proof. rewrite (set_pdu_run _ p a f (put_lookup w p a)). f_equal. f_equal. apply put_put. Qed.

Lemma hdr_put_run w p a f b : ddata (outdata a) = Some b ->
  set_hdr p f (put w p a) =
  Ret (tt, put w p (a <| outdata ::= fun d => d <| ddata := Some (f b) |> |>)).
Proof.
  intros Hb. rewrite (set_hdr_run _ p a f b (put_lookup w p a) Hb). f_equal. f_equal. apply put_put.
Qed.

(** The PDU [iscsi_allocate_pdu] returns, for an opcode other than the login
    request's. *)
Definition blank_pdu (digest opcode resp itt flags : Z) : iscsi_pdu :=
  zero_pdu
    <| outdata := Build_iscsi_data (ISCSI_HEADER_SIZE digest)
         (Some (scsi_set_uint32 (<[0%nat := u8 opcode]>
            (zeros (Z.to_nat (ISCSI_HEADER_SIZE digest)))) 16 itt)) |>
    <| response_opcode := resp |> <| pdu_itt := itt |> <| pdu_flags := flags |>
    <| calculated_data_digest := crc32c_init |>.

(** The world after the two allocations of a PDU. *)
Definition allocated (w : world) : world :=
  w <| alloc_n ::= fun n => S (S n) |> <| fresh ::= S |>
    <| ctx ::= fun c => c <| mallocs ::= fun n => 1 + (1 + n) |> |>.

(** The header block of a fresh PDU; a login request carries the ISID. *)
Definition blank_hdr (c : iscsi_context) (opcode itt : Z) : bytes :=
  let b := <[0%nat := u8 opcode]> (zeros (Z.to_nat (ISCSI_HEADER_SIZE (header_digest c)))) in
  scsi_set_uint32 (if opcode =? ISCSI_PDU_LOGIN_REQUEST then blit b 8 (take 6 (isid c)) else b) 16 itt.

Definition fresh_pdu (c : iscsi_context) (opcode resp itt flags : Z) : iscsi_pdu :=
  zero_pdu
    <| outdata := Build_iscsi_data (ISCSI_HEADER_SIZE (header_digest c)) (Some (blank_hdr c opcode itt)) |>
    <| response_opcode := resp |> <| pdu_itt := itt |> <| pdu_flags := flags |>
    <| calculated_data_digest := crc32c_init |>.

Lemma allocate_run w opcode resp itt flags :
  alloc_ok w (alloc_n w) = true -> alloc_ok w (S (alloc_n w)) = true ->
  iscsi_allocate_pdu opcode resp itt flags w =
  Ret (Some (fresh w), put (allocated w) (fresh w) (fresh_pdu (ctx w) opcode resp itt flags)).
Proof.
  intros H1 H2. unfold iscsi_allocate_pdu. set (p := fresh w).
  set (w1 := w <| alloc_n ::= S |> <| ctx ::= fun c => c <| mallocs ::= Z.add 1 |> |>
               <| fresh ::= S |>).
  assert (E1 : iscsi_tcp_new_pdu w = Ret (Some p, put w1 p zero_pdu)).
  { unfold iscsi_tcp_new_pdu, iscsi_malloc, malloc, when, set_ctx, mbind, M_bind, getS, modify,
      mret, M_ret. by rewrite H1. }
  run E1. set (size := ISCSI_HEADER_SIZE (header_digest (ctx w))).
  run (get_ctx_run header_digest (put w1 p zero_pdu)).
  change (header_digest (ctx (put w1 p zero_pdu))) with (header_digest (ctx w)). fold size. cbv zeta.
  run (set_put_run w1 p zero_pdu (fun pdu => pdu <| outdata ::= fun d => d <| dsize := size |> |>)).
  set (a1 := zero_pdu <| outdata ::= fun d => d <| dsize := size |> |>).
  assert (E2 : iscsi_malloc (put w1 p a1) = Ret (true, put (allocated w) p a1)).
  { unfold iscsi_malloc, malloc, when, set_ctx, mbind, M_bind, getS, modify, mret, M_ret.
    change (alloc_ok (put w1 p a1)) with (alloc_ok w).
    change (alloc_n (put w1 p a1)) with (S (alloc_n w)). by rewrite H2. }
  run E2. cbn [negb]. set (v := allocated w). set (b0 := <[0%nat := u8 opcode]> (zeros (Z.to_nat size))).
  run (set_put_run v p a1 (fun pdu => pdu <| outdata ::= fun d => d <| ddata := Some (zeros (Z.to_nat size)) |> |>)).
  match goal with |- context [put v p ?x] => set (a2 := x) end.
  run (hdr_put_run v p a2 (fun b => <[0%nat := u8 opcode]> b) (zeros (Z.to_nat size)) eq_refl). fold b0.
  match goal with |- context [put v p ?x] => set (a3 := x) end.
  run (set_put_run v p a3 (fun pdu => pdu <| Context.response_opcode := resp |>)).
  match goal with |- context [put v p ?x] => set (a4 := x) end.
  run (get_ctx_run isid (put v p a4)). change (isid (ctx (put v p a4))) with (isid (ctx w)).
  set (b1 := if opcode =? ISCSI_PDU_LOGIN_REQUEST then blit b0 8 (take 6 (isid (ctx w))) else b0).
  rewrite (bind_run _ _ _ tt (put v p (a4 <| outdata ::= fun d => d <| ddata := Some b1 |> |>))).
  2: { unfold b1. destruct (_ =? _); [|done].
       by apply (hdr_put_run v p a4 (fun b => blit b 8 (take 6 (isid (ctx w)))) b0). }
  set (a5 := a4 <| outdata ::= _ |>). unfold iscsi_pdu_set_itt.
  run (hdr_put_run v p a5 (fun b => scsi_set_uint32 b 16 itt) b1 eq_refl).
  match goal with |- context [put v p ?x] => set (a6 := x) end.
  by run (set_put_run v p a6 (fun pdu => pdu <| pdu_itt := itt |> <| pdu_flags := flags |>
              <| calculated_data_digest := crc32c_init |>)).
Qed.

Lemma allocate_pdu_run w opcode resp itt flags :
  alloc_ok w (alloc_n w) = true -> alloc_ok w (S (alloc_n w)) = true ->
  opcode <> ISCSI_PDU_LOGIN_REQUEST ->
  iscsi_allocate_pdu opcode resp itt flags w =
  Ret (Some (fresh w),
       put (allocated w) (fresh w) (blank_pdu (header_digest (ctx w)) opcode resp itt flags)).
Proof.
  intros H1 H2 Hop. rewrite allocate_run by done. unfold fresh_pdu, blank_hdr.
  by rewrite (proj2 (Z.eqb_neq _ _) Hop).
Qed.

(** ** Properties *)

(** C26: iscsi_serial32_compare equals the RFC 1982 comparison of 32-bit serial numbers:
    the sign of the 32-bit two's complement difference, for all pairs, the antipodal
    ones included. *)
Theorem serial32_compare_is_rfc1982 (s1 s2 : Z)
  (H1 : 0 <= s1 < 2 ^ 32) (H2 : 0 <= s2 < 2 ^ 32) :
  iscsi_serial32_compare s1 s2 = Z.sgn (i32 (s1 - s2)).
Proof. by apply serial32_sgn. Qed.

Lemma serial32_compare_is_rfc1982_witness : iscsi_serial32_compare 0xfffffffe 3 = -1.
Proof. rewrite (serial32_compare_is_rfc1982 0xfffffffe 3); [reflexivity|lia|lia]. Defined.

(** iscsi_itt_post_increment returns the current tag and steps it modulo 2^32-1, so
    that the reserved tag 0xffffffff is never used. *)
Theorem itt_never_reserved (w : world) (Hw : unlocked w) (Hitt : 0 <= itt (ctx w) < 0xffffffff) :
  exists w', iscsi_itt_post_increment w = Ret (itt (ctx w), w') /\ unlocked w' /\
    itt (ctx w') = (itt (ctx w) + 1) mod 0xffffffff /\ 0 <= itt (ctx w') < 0xffffffff.
Proof.
  eexists. split; [by apply itt_post_increment_run|].
  pose proof (Z.mod_pos_bound (itt (ctx w) + 1) 0xffffffff ltac:(lia)). by open_world w.
Qed.

(** Processing the serials of any received PDU never moves MaxCmdSN, ExpCmdSN or
    StatSN backwards in serial arithmetic: the first two become the serial maximum of
    the old and received values, and StatSN is untouched by a Data-In without status. *)
Theorem process_serials_monotone (w : world) (inp : iscsi_in_pdu) (Hw : unlocked w)
  (Hhdr : bytes_ok (hdr inp))
  (Hmax : 0 <= maxcmdsn (ctx w) < 2 ^ 32) (Hexp : 0 <= expcmdsn (ctx w) < 2 ^ 32)
  (Hstat : 0 <= statsn (ctx w) < 2 ^ 32) :
  exists w', iscsi_process_pdu_serials inp w = Ret (tt, w') /\ unlocked w' /\
    0 <= iscsi_serial32_compare (maxcmdsn (ctx w')) (maxcmdsn (ctx w)) /\
    0 <= iscsi_serial32_compare (expcmdsn (ctx w')) (expcmdsn (ctx w)) /\
    0 <= iscsi_serial32_compare (statsn (ctx w')) (statsn (ctx w)) /\
    (byte_at (hdr inp) 0 &&& 0x3f <> ISCSI_PDU_LOGIN_RESPONSE ->
       maxcmdsn (ctx w') = serial_max (scsi_get_uint32 (hdr inp) 32) (maxcmdsn (ctx w)) /\
       expcmdsn (ctx w') = serial_max (scsi_get_uint32 (hdr inp) 28) (expcmdsn (ctx w))) /\
    (byte_at (hdr inp) 0 &&& 0x3f = ISCSI_PDU_DATA_IN ->
       byte_at (hdr inp) 1 &&& ISCSI_PDU_DATA_CONTAINS_STATUS = 0 ->
       statsn (ctx w') = statsn (ctx w)).
Proof.
  eexists. split; [by apply serials_run|].
  assert (Hrefl : forall s, 0 <= iscsi_serial32_compare s s).
  { intros s. unfold iscsi_serial32_compare. rewrite Z.eqb_refl. lia. }
  destruct (Z.eqb_spec (byte_at (hdr inp) 0 &&& 0x3f) ISCSI_PDU_LOGIN_RESPONSE) as [Hl|Hl];
    cbn [andb].
  - destruct (truth (scsi_get_uint16 (hdr inp) 36 >> 8)).
    + rewrite Hl. repeat split; auto; by intros.
    + rewrite Hl. open_world w.
      repeat split; try (by apply serial_max_ge; auto using get32_range); try (by intros).
      destruct (scsi_get_uint32 (hdr inp) 16 =? 4294967295);
        apply serial_max_ge; auto using get32_range, u32_range.
  - open_world w.
    repeat split; try (by apply serial_max_ge; auto using get32_range); try (by intros).
    + destruct (_ && _); [done|]. destruct (scsi_get_uint32 (hdr inp) 16 =? 4294967295);
        apply serial_max_ge; auto using get32_range, u32_range.
    + intros -> Hs. by rewrite Hs.
Qed.

Lemma itt_never_reserved_witness :
  exists w', iscsi_itt_post_increment sample_world = Ret (17, w') /\ itt (ctx w') = 18.
Proof.
  destruct (itt_never_reserved sample_world) as (w' & E & _ & Hi & _);
    [reflexivity|cbn; lia|]. exists w'. split; [exact E|exact Hi].
Defined.

Lemma process_serials_monotone_witness :
  let inp := {| hdr_pos := 48; hdr := <[32%nat := 0xff]> (zeros 48); data_pos := 0; in_data := None;
                data_digest_buf := []; received_data_digest_bytes := 0; in_calculated_data_digest := 0 |} in
  exists w', iscsi_process_pdu_serials inp sample_world = Ret (tt, w') /\
    maxcmdsn (ctx w') = 36.
Proof.
  intros inp. destruct (process_serials_monotone sample_world inp)
    as (w' & E & _ & _ & _ & _ & H & _); try (cbn; lia); try reflexivity.
  - apply bytes_ok_insert; [apply bytes_ok_zeros|unfold byte_ok; lia].
  - exists w'. split; [exact E|]. destruct H as [H _]; [discriminate|]. rewrite H. reflexivity.
Defined.

(** The world after data has been added to the PDU [p]. *)
Definition added (w : world) (p : nat) (pdu' : iscsi_pdu) : world :=
  realloced w <| pdus ::= <[p := pdu']> |>.

Lemma pdu_add_data_run w p pdu hs h payload src : pdus w !! p = Some pdu ->
  Z.of_nat hs = ISCSI_HEADER_SIZE (header_digest (ctx w)) ->
  outdata_wf hs (outdata pdu) h payload -> src <> [] ->
  Z.of_nat (length payload + length src) < 2 ^ 24 -> alloc_ok w (alloc_n w) = true ->
  exists pdu' h', iscsi_pdu_add_data (Some p) src (Z.of_nat (length src)) w = Ret (0, added w p pdu') /\
    pdu' = pdu <| outdata := outdata pdu' |> /\ outdata_wf hs (outdata pdu') h' (payload ++ src) /\
    iscsi_get_pdu_data_size h' = Z.of_nat (length payload + length src) /\
    0 <= iscsi_get_pdu_padding_size h' < 4 /\
    (Z.of_nat (length payload + length src) + iscsi_get_pdu_padding_size h') mod 4 = 0 /\
    (forall i, (i < 4 \/ 8 <= i)%nat -> byte_at h' i = byte_at h i).
Proof.
  intros Hp Hhs Hwf Hsrc Hmax Hok.
  assert (H48 : (48 <= hs)%nat).
  { unfold ISCSI_HEADER_SIZE, ISCSI_RAW_HEADER_SIZE, ISCSI_DIGEST_SIZE in Hhs.
    destruct (_ =? _); lia. }
  assert (Hs0 : (0 < length src)%nat) by (destruct src; [done|cbn; lia]).
  assert (H52 : Z.of_nat hs <= 52).
  { unfold ISCSI_HEADER_SIZE, ISCSI_RAW_HEADER_SIZE, ISCSI_DIGEST_SIZE in Hhs.
    destruct (_ =? _); lia. }
  destruct (add_data_run hs (outdata pdu) h payload src w) as (d' & Ed & Hd'); try done; [lia|lia|].
  destruct (Hd') as (Hh & Hsz & pad & Hb & _). set (b := h ++ (payload ++ src) ++ zeros pad) in *.
  set (n := Z.of_nat (length payload + length src)).
  assert (En : dsize d' - ISCSI_HEADER_SIZE (header_digest (ctx w)) = n).
  { rewrite Hsz, <- Hhs, length_app. lia. }
  assert (Hdsl : scsi_get_uint32 (scsi_set_uint32 h 4 n) 4 = n).
  { rewrite get32_set32 by lia. apply u32_small. lia. }
  pose proof (padding_of_dsl _ _ Hdsl ltac:(lia)) as (Hn & Hp4 & Hm).
  eexists _, (scsi_set_uint32 h 4 n). split; [|split].
  - unfold iscsi_pdu_add_data. destruct (Z.eqb_spec (Z.of_nat (length src)) 0); [lia|].
    run (get_pdu_run w p pdu Hp). run Ed. cbn [negb Z.eqb].
    run (set_pdu_run (realloced w) p pdu (fun q => q <| outdata := d' |>) Hp).
    match goal with |- context [get_ctx header_digest ≫= ?k] =>
      match goal with |- (_ ≫= _) ?v = _ => run (get_ctx_run header_digest v) end end.
    change (header_digest (ctx _)) with (header_digest (ctx w)). rewrite En.
    assert (Hp' : pdus (realloced w <| pdus ::= <[p := pdu <| outdata := d' |>]> |>) !! p
                  = Some (pdu <| outdata := d' |>)) by apply lookup_insert_eq.
    run (set_hdr_run _ p _ (fun c => scsi_set_uint32 c 4 n) b Hp' Hb). unfold mret, M_ret. do 2 f_equal.
    apply world_stores_eq; [done| |done]. apply insert_insert_eq.
  - done.
  - split; [|split; [done|split; [done|split; [done|]]]].
    + apply (outdata_wf_set32 hs d' h (payload ++ src) 4 n); [done|lia|done].
    + intros i Hi. apply byte_at_set32_ne. lia.
Qed.

(** Adding data to a PDU appends it after the earlier payload, pads with zero bytes
    to a multiple of four, sets DataSegmentLength to the unpadded length and changes no
    other header byte. *)
Theorem pdu_add_data_appends (w : world) (p : nat) (pdu : iscsi_pdu) (hs : nat)
  (h payload src : bytes)
  (Hp : pdus w !! p = Some pdu)
  (Hhs : Z.of_nat hs = ISCSI_HEADER_SIZE (header_digest (ctx w)))
  (Hwf : outdata_wf hs (outdata pdu) h payload) (Hsrc : src <> [])
  (Hmax : Z.of_nat (length payload + length src) < 2 ^ 24)
  (Hok : alloc_ok w (alloc_n w) = true) :
  exists w' pdu' h', iscsi_pdu_add_data (Some p) src (Z.of_nat (length src)) w = Ret (0, w') /\
    pdus w' !! p = Some pdu' /\ outdata_wf hs (outdata pdu') h' (payload ++ src) /\
    iscsi_get_pdu_data_size h' = Z.of_nat (length payload + length src) /\
    0 <= iscsi_get_pdu_padding_size h' < 4 /\
    (Z.of_nat (length payload + length src) + iscsi_get_pdu_padding_size h') mod 4 = 0 /\
    (forall i, (i < 4 \/ 8 <= i)%nat -> byte_at h' i = byte_at h i).
Proof.
  destruct (pdu_add_data_run w p pdu hs h payload src) as (pdu' & h' & E & _ & R); try done.
  exists (added w p pdu'), pdu', h'. split; [done|]. split; [apply lookup_insert_eq|done].
Qed.

Lemma pdu_add_data_appends_witness :
  let pdu := zero_pdu <| outdata := Build_iscsi_data 48 (Some (zeros 48)) |> in
  let w := sample_world <| pdus := {[ 1%nat := pdu ]} |> in
  exists w' pdu' h', iscsi_pdu_add_data (Some 1%nat) [7; 8; 9] 3 w = Ret (0, w') /\
    pdus w' !! 1%nat = Some pdu' /\ outdata_wf 48 (outdata pdu') h' [7; 8; 9] /\
    iscsi_get_pdu_data_size h' = 3.
Proof.
  intros pdu w.
  destruct (pdu_add_data_appends w 1 pdu 48 (zeros 48) [] [7; 8; 9])
    as (w' & pdu' & h' & E & Hp & Hwf & Hn & _); try reflexivity.
  - split; [reflexivity|]. split; [reflexivity|]. exists 0%nat.
    split; [reflexivity|]. split; [lia|reflexivity].
  - discriminate.
  - exists w', pdu', h'. split; [exact E|]. split; [exact Hp|]. split; [exact Hwf|exact Hn].
Defined.
