(* ===== verification/Queue.v ===== *)
(** The queue of PDUs to send (src/lib/socket.c: [iscsi_add_to_outqueue],
    [iscsi_tcp_queue_pdu], [iscsi_tcp_which_events], [iscsi_queue_length]).

    [drv->service], which a queued PDU may trigger, is the operation of the
    interface [Transport].  The theorems show that insertion keeps the queue
    in CmdSN order (as serial numbers inside a window), behind every PDU of
    the same CmdSN, and that an immediate PDU goes ahead of every
    non-immediate one. *)

From S2P Require Import Prelude Bytes Task Context Pdu.
From Stdlib Require Import Sorted.

Definition POLLIN : Z := 1.
Definition POLLOUT : Z := 4.

(** [iscsi->drv->service] *)
Class Transport := { service : Z -> IO Z }.

(** ** Operations *)

Definition is_immediate (b : bytes) : bool := truth (byte_at b 0 &&& ISCSI_PDU_IMMEDIATE).
Definition bhs_opcode (b : bytes) : Z := byte_at b 0 &&& 0x3f.

(** [pdu->outdata.data] *)
Definition hdr_of (p : nat) : IO bytes :=
  pdu ← get_pdu p;
  match ddata (outdata pdu) with None => undefined NullDeref | Some b => mret b end.

(** The CmdSN of the first PDU that is not a DATA-OUT. *)
Fixpoint first_cmd_cmdsn (q : list nat) : IO (option Z) :=
  match q with
  | [] => mret None
  | c :: q' =>
      b ← hdr_of c;
      if negb (bhs_opcode b =? ISCSI_PDU_DATA_OUT) then
        cur ← get_pdu c; mret (Some (pdu_cmdsn cur))
      else first_cmd_cmdsn q'
  end.

(** The second loop: [p] goes before the first PDU it must precede.  Returns
    the queue and [current]. *)
Fixpoint queue_insert (p : nat) (q : list nat) : IO (list nat * option nat) :=
  match q with
  | [] => mret ([p], None)
  | c :: q' =>
      pdu ← get_pdu p;
      cur ← get_pdu c;
      before ←
        (if iscsi_serial32_compare (pdu_cmdsn pdu) (pdu_cmdsn cur) <? 0 then mret true
         else pb ← hdr_of p;
              if is_immediate pb then cb ← hdr_of c; mret (negb (is_immediate cb))
              else mret false);
      if (before : bool) then mret (p :: c :: q', Some c)
      else '(r, cur) ← queue_insert p q'; mret (c :: r, cur)
  end.

Definition outqueue_insert (p : nat) : IO (option nat) :=
  q ← get_ctx outqueue;
  match q with
  | [] => _ ← set_ctx (fun c => c <| outqueue := [p] |>); mret None
  | _ =>
      b ← hdr_of p;
      _ ← when (is_immediate b)
            (sn ← first_cmd_cmdsn q;
             match sn with Some sn => iscsi_pdu_set_cmdsn p sn | None => mret tt end);
      '(q', current) ← queue_insert p q;
      _ ← set_ctx (fun c => c <| outqueue := q' |>);
      mret current
  end.

Definition iscsi_tcp_which_events : IO Z :=
  w ← getS;
  let c := ctx w in
  let events := if is_connected c then POLLIN else POLLOUT in
  if pending_reconnect c && bool_decide (is_Some (old_iscsi c)) && (now w <? next_reconnect c)
  then mret 0
  else
    _ ← iscsi_mt_spin_lock;
    out ← (match outqueue_current c, outqueue c with
           | Some _, _ => mret true
           | None, [] => mret false
           | None, h :: _ =>
               if is_corked c then mret false else
               pdu ← get_pdu h;
               if iscsi_serial32_compare (pdu_cmdsn pdu) (maxcmdsn c) <=? 0 then mret true
               else b ← hdr_of h; mret (is_immediate b)
           end);
    _ ← iscsi_mt_spin_unlock;
    mret (if (out : bool) then events ||| POLLOUT else events).

(** The loops of [iscsi_queue_length] follow the [next] pointer of every PDU. *)
Fixpoint count_pdus (q : list nat) (i : Z) : IO Z :=
  match q with
  | [] => mret i
  | p :: q' => _ ← get_pdu p; count_pdus q' (i + 1)
  end.

Definition iscsi_queue_length : IO Z :=
  _ ← iscsi_mt_spin_lock;
  q ← get_ctx outqueue;
  i ← count_pdus q 0;
  q ← get_ctx waitpdu;
  i ← count_pdus q i;
  connected ← get_ctx is_connected;
  let i := if (connected : bool) then i else i + 1 in
  _ ← iscsi_mt_spin_unlock;
  mret i.

Definition iscsi_out_queue_length : IO Z :=
  _ ← iscsi_mt_spin_lock;
  q ← get_ctx outqueue;
  i ← count_pdus q 0;
  _ ← iscsi_mt_spin_unlock;
  mret i.

Section Queue.
Context `{Transport}.

(** What follows the critical section: wake the service thread when the queue
    was empty, or send at once when [p] is at the head. *)
Definition outqueue_notify (p : nat) (current : option nat) : IO unit :=
  w ← getS;
  let head := hd_error (outqueue (ctx w)) in
  if have_mt w && have_pthread w && multithreading_enabled (ctx w) then
    when (bool_decide (current = None) && bool_decide (head = Some p)) (emit Ev_wakeup)
  else
    when (bool_decide (head = Some p)) (_ ← service POLLOUT; mret tt).

Definition iscsi_add_to_outqueue (p : nat) : IO unit :=
  w ← getS;
  _ ← set_pdu p (fun pdu => pdu <| pdu_scsi_timeout :=
        if 0 <? scsi_timeout (ctx w) then now w + scsi_timeout (ctx w) else 0 |>);
  _ ← iscsi_mt_spin_lock;
  current ← outqueue_insert p;
  _ ← iscsi_mt_spin_unlock;
  outqueue_notify p current.

Definition iscsi_tcp_queue_pdu (p : nat) : IO unit := iscsi_add_to_outqueue p.

(** [iscsi->drv->queue_pdu] of the TCP transport *)
Definition iscsi_queue_pdu (p : nat) : IO unit := iscsi_tcp_queue_pdu p.

End Queue.

(** ** Insertion as a function on lists *)

Fixpoint insert_before (before : nat -> bool) (p : nat) (q : list nat) : list nat :=
  match q with
  | [] => [p]
  | c :: q' => if before c then p :: c :: q' else c :: insert_before before p q'
  end.

(** The PDU a name stands for, and its header. *)
Definition the_pdu (w : world) (p : nat) : iscsi_pdu := default zero_pdu (pdus w !! p).
Definition the_hdr (w : world) (p : nat) : bytes := default [] (ddata (outdata (the_pdu w p))).

(** [p] is allocated and has a header. *)
Definition live (w : world) (p : nat) : Prop :=
  exists pdu b, pdus w !! p = Some pdu /\ ddata (outdata pdu) = Some b.

Definition goes_before (w : world) (p c : nat) : bool :=
  (iscsi_serial32_compare (pdu_cmdsn (the_pdu w p)) (pdu_cmdsn (the_pdu w c)) <? 0) ||
  (is_immediate (the_hdr w p) && negb (is_immediate (the_hdr w c))).

Lemma live_get w p : live w p -> get_pdu p w = Ret (the_pdu w p, w).
Proof.
  intros (pdu & b & Hp & _). unfold the_pdu. rewrite Hp. by apply get_pdu_run.
Qed.

Lemma live_hdr w p : live w p -> hdr_of p w = Ret (the_hdr w p, w).
Proof.
  intros Hl. unfold hdr_of. run (live_get w p Hl).
  destruct Hl as (pdu & b & Hp & Hb). unfold the_hdr, the_pdu. rewrite Hp. cbn [default from_option id].
  by rewrite Hb.
Qed.

Lemma queue_insert_run w p q : live w p -> Forall (live w) q ->
  exists cur, queue_insert p q w = Ret ((insert_before (goes_before w p) p q, cur), w) /\
    (cur = None <-> Forall (fun c => goes_before w p c = false) q).
Proof.
  intros Hp. induction q as [|c q IH]; intros Hq; [by exists None|].
  apply Forall_cons in Hq as [Hc Hq]. destruct (IH Hq) as (cur & E & Hcur). cbn [queue_insert].
  run (live_get w p Hp). run (live_get w c Hc).
  assert (Hb : (if iscsi_serial32_compare (pdu_cmdsn (the_pdu w p)) (pdu_cmdsn (the_pdu w c)) <? 0
                then mret true
                else pb ← hdr_of p;
                     if is_immediate pb then cb ← hdr_of c; mret (negb (is_immediate cb))
                     else mret false) w = Ret (goes_before w p c, w)).
  { unfold goes_before. destruct (_ <? 0); [done|]. run (live_hdr w p Hp).
    destruct (is_immediate (the_hdr w p)); [|done]. by run (live_hdr w c Hc). }
  run Hb. cbn [insert_before]. destruct (goes_before w p c) eqn:Eb.
  - exists (Some c). split; [done|]. split; [done|]. intros Hf. apply Forall_cons in Hf as [Hf _].
    congruence.
  - run E. exists cur. split; [done|]. rewrite Hcur, Forall_cons.
    by split; [intros|intros []].
Qed.

Lemma insert_before_split before p q : exists q1 q2,
  q = q1 ++ q2 /\ insert_before before p q = q1 ++ p :: q2 /\
  Forall (fun c => before c = false) q1 /\
  match q2 with [] => True | c :: _ => before c = true end.
Proof.
  induction q as [|c q IH]; cbn; [by exists [], []|].
  destruct (before c) eqn:E; [by exists [], (c :: q)|].
  destruct IH as (q1 & q2 & -> & -> & H1 & H2). exists (c :: q1), q2. eauto.
Qed.

Lemma first_cmd_run w h q : Forall (live w) (h :: q) ->
  bhs_opcode (the_hdr w h) <> ISCSI_PDU_DATA_OUT ->
  first_cmd_cmdsn (h :: q) w = Ret (Some (pdu_cmdsn (the_pdu w h)), w).
Proof.
  intros Hq Hop. apply Forall_cons in Hq as [Hh _]. cbn [first_cmd_cmdsn].
  run (live_hdr w h Hh). destruct (Z.eqb_spec (bhs_opcode (the_hdr w h)) ISCSI_PDU_DATA_OUT); [done|].
  cbn [negb]. by run (live_get w h Hh).
Qed.

(** ** CmdSN order *)

(** The distance of a PDU's CmdSN from [base]; inside a window of 2^31 serial
    numbers it orders them. *)
Definition rank (base : Z) (w : world) (p : nat) : Z := u32 (pdu_cmdsn (the_pdu w p) - base).

Definition in_window (base : Z) (w : world) (p : nat) : Prop :=
  0 <= pdu_cmdsn (the_pdu w p) < 2 ^ 32 /\ rank base w p < 2 ^ 31.

Definition cmdsn_sorted (base : Z) (w : world) (q : list nat) : Prop :=
  StronglySorted (fun a b => rank base w a <= rank base w b) q.

Lemma i32_cong a b : - 2 ^ 31 <= b < 2 ^ 31 -> (a - b) mod 2 ^ 32 = 0 -> i32 a = b.
Proof.
  intros Hb Hm. rewrite <- (i32_small b) by done. unfold i32. cbv zeta.
  assert (a mod 2 ^ 32 = b mod 2 ^ 32) as ->; [|done].
  apply Z.mod_divide in Hm as [k Hk]; [|lia].
  replace a with (b + k * 2 ^ 32) by lia. apply Z.mod_add. lia.
Qed.

Lemma compare_rank base s1 s2 : 0 <= s1 < 2 ^ 32 -> 0 <= s2 < 2 ^ 32 ->
  u32 (s1 - base) < 2 ^ 31 -> u32 (s2 - base) < 2 ^ 31 ->
  iscsi_serial32_compare s1 s2 = Z.sgn (u32 (s1 - base) - u32 (s2 - base)).
Proof.
  intros H1 H2 W1 W2. rewrite serial32_sgn by done. f_equal. apply i32_cong.
  - pose proof (u32_range (s1 - base)). pose proof (u32_range (s2 - base)). lia.
  - unfold u32. rewrite (Z.mod_eq (s1 - base)), (Z.mod_eq (s2 - base)) by lia.
    match goal with |- ?e mod _ = 0 => replace e with
      (((s1 - base) / 2 ^ 32 - (s2 - base) / 2 ^ 32) * 2 ^ 32) by ring end.
    apply Z.mod_mul. lia.
Qed.

Lemma compare_lt base w p c : in_window base w p -> in_window base w c ->
  (iscsi_serial32_compare (pdu_cmdsn (the_pdu w p)) (pdu_cmdsn (the_pdu w c)) <? 0) =
  (rank base w p <? rank base w c).
Proof.
  intros [Hp Wp] [Hc Wc]. rewrite (compare_rank base) by done. unfold rank.
  destruct (Z.ltb_spec (Z.sgn (u32 (pdu_cmdsn (the_pdu w p) - base) -
     u32 (pdu_cmdsn (the_pdu w c) - base))) 0) as [H|H];
  destruct (Z.ltb_spec (u32 (pdu_cmdsn (the_pdu w p) - base))
     (u32 (pdu_cmdsn (the_pdu w c) - base))); lia.
Qed.

Lemma goes_before_spec base w p c : in_window base w p -> in_window base w c ->
  goes_before w p c = (rank base w p <? rank base w c) ||
    (is_immediate (the_hdr w p) && negb (is_immediate (the_hdr w c))).
Proof. intros Hp Hc. unfold goes_before. by rewrite (compare_lt base). Qed.

Lemma sorted_app_inv {A} (R : A -> A -> Prop) l1 l2 : StronglySorted R (l1 ++ l2) ->
  StronglySorted R l1 /\ StronglySorted R l2 /\ Forall (fun a => Forall (R a) l2) l1.
Proof.
  induction l1 as [|a l1 IH]; cbn; intros Hs; [repeat split; [constructor|done|constructor]|].
  apply StronglySorted_inv in Hs as [Hs Ha]. apply Forall_app in Ha as [Ha1 Ha2].
  destruct (IH Hs) as (H1 & H2 & H3). repeat split; [by constructor|done|by constructor].
Qed.

Lemma sorted_insert {A} (R : A -> A -> Prop) l1 x l2 :
  StronglySorted R (l1 ++ l2) -> Forall (fun a => R a x) l1 -> Forall (R x) l2 ->
  StronglySorted R (l1 ++ x :: l2).
Proof.
  intros Hs H1 H2. apply sorted_app_inv in Hs as (S1 & S2 & H12). induction l1 as [|a l1 IH].
  - by constructor.
  - apply StronglySorted_inv in S1 as [S1 Ha]. apply Forall_cons in H1 as [Hax H1].
    apply Forall_cons in H12 as [Ha2 H12]. cbn. constructor; [by apply IH|].
    apply Forall_app. split; [done|]. by constructor.
Qed.

(** The rest of a sorted queue is not before its head. *)
Lemma sorted_head_le {A} (f : A -> Z) b x l :
  StronglySorted (fun a b => f a <= f b) (x :: l) -> b <= f x -> Forall (fun c => b <= f c) (x :: l).
Proof.
  intros Hs Hb. apply StronglySorted_inv in Hs as [_ Hx]. constructor; [done|].
  eapply Forall_impl; [exact Hx|]. cbn. intros. lia.
Qed.

(** Insertion into a sorted queue of a PDU whose rank is not above the first
    one it precedes. *)
Lemma insert_before_sorted base w p q1 q2 :
  in_window base w p -> Forall (in_window base w) (q1 ++ q2) ->
  cmdsn_sorted base w (q1 ++ q2) ->
  Forall (fun c => goes_before w p c = false) q1 ->
  match q2 with [] => True | c :: _ => rank base w p <= rank base w c end ->
  cmdsn_sorted base w (q1 ++ p :: q2).
Proof.
  intros Hp Hw Hs H1 H2. apply Forall_app in Hw as [Hw1 Hw2]. apply sorted_insert; [done|..].
  - rewrite Forall_forall in H1, Hw1 |- *. intros c Hc. specialize (H1 c Hc).
    rewrite (goes_before_spec base) in H1 by auto.
    apply orb_false_iff in H1 as [H1 _]. apply Z.ltb_ge in H1. done.
  - destruct q2 as [|c q2]; [constructor|].
    apply sorted_app_inv in Hs as (_ & Hs & _). by apply sorted_head_le.
Qed.

Lemma outqueue_insert_plain w p : live w p -> Forall (live w) (outqueue (ctx w)) ->
  is_immediate (the_hdr w p) = false ->
  exists cur, outqueue_insert p w = Ret (cur,
    w <| ctx ::= fun c => c <| outqueue := insert_before (goes_before w p) p (outqueue (ctx w)) |> |>).
Proof.
  intros Hp Hq Hi. unfold outqueue_insert. run (get_ctx_run outqueue w).
  destruct (outqueue (ctx w)) as [|h q] eqn:Eq; [by eexists|].
  run (live_hdr w p Hp). rewrite Hi. cbn [when].
  destruct (queue_insert_run w p (h :: q) Hp Hq) as (cur & E & _).
  assert (Hskip : forall k : unit -> IO (option nat), (mret tt ≫= k) w = k tt w) by done.
  rewrite Hskip. run E. by exists cur.
Qed.

(** *** The critical section around the insertion *)

(** The world with the lock held or free. *)
Definition set_lock (b : bool) (w : world) : world :=
  w <| ctx ::= fun c => c <| iscsi_lock := b |> |>.

Lemma set_lock_id w b : iscsi_lock (ctx w) = b -> set_lock b w = w.
Proof.
  destruct w as [[]]. cbn. by intros <-.
Qed.

Lemma lock_run w : unlocked w -> iscsi_mt_spin_lock w = Ret (tt, set_lock (have_mt w) w).
Proof.
  intros Hl. unfold iscsi_mt_spin_lock, mbind, M_bind, getS.
  destruct (have_mt w) eqn:E; [by rewrite Hl|]. by rewrite set_lock_id.
Qed.

Lemma unlock_run w : iscsi_lock (ctx w) = have_mt w ->
  iscsi_mt_spin_unlock w = Ret (tt, set_lock false w).
Proof.
  intros Hl. unfold iscsi_mt_spin_unlock, mbind, M_bind, getS, when.
  destruct (have_mt w) eqn:E; [done|]. by rewrite set_lock_id.
Qed.

(** The PDU with the deadline [iscsi_add_to_outqueue] gives it. *)
Definition stamped (w : world) (pdu : iscsi_pdu) : iscsi_pdu :=
  pdu <| pdu_scsi_timeout :=
    if 0 <? scsi_timeout (ctx w) then now w + scsi_timeout (ctx w) else 0 |>.

Definition enqueued (w : world) (p : nat) (pdu : iscsi_pdu) (q : list nat) : world :=
  w <| pdus ::= <[p := stamped w pdu]> |> <| ctx ::= fun c => c <| outqueue := q |> |>.

Lemma the_pdu_stamp w p pdu q c : pdus w !! p = Some pdu ->
  pdu_cmdsn (the_pdu (enqueued w p pdu q) c) = pdu_cmdsn (the_pdu w c) /\
  the_hdr (enqueued w p pdu q) c = the_hdr w c.
Proof.
  intros Hp. unfold the_hdr, the_pdu, enqueued. cbn.
  destruct (decide (c = p)) as [->|Hne].
  - rewrite lookup_insert_eq, Hp. done.
  - by rewrite lookup_insert_ne by done.
Qed.

Lemma goes_before_stamp w p pdu q c : pdus w !! p = Some pdu ->
  goes_before (enqueued w p pdu q) p c = goes_before w p c.
Proof.
  intros Hp. unfold goes_before.
  destruct (the_pdu_stamp w p pdu q p Hp) as [-> ->].
  by destruct (the_pdu_stamp w p pdu q c Hp) as [-> ->].
Qed.

Lemma live_stamp w p pdu q c : pdus w !! p = Some pdu -> live w c ->
  live (enqueued w p pdu q) c.
Proof.
  intros Hp (pc & b & Hc & Hb). unfold live, enqueued. cbn.
  destruct (decide (c = p)) as [->|Hne].
  - rewrite Hp in Hc. injection Hc as ->. exists (stamped w pc), b. by rewrite lookup_insert_eq.
  - exists pc, b. by rewrite lookup_insert_ne by done.
Qed.

Lemma insert_before_ext f g p q : (forall c, f c = g c) -> insert_before f p q = insert_before g p q.
Proof. intros E. induction q as [|c q IH]; cbn; [done|]. by rewrite E, IH. Qed.

Lemma cmdsn_sorted_ext base w w1 q : (forall c, rank base w1 c = rank base w c) ->
  cmdsn_sorted base w q -> cmdsn_sorted base w1 q.
Proof.
  intros E Hs. induction Hs as [|c l _ IH Hc]; constructor; [done|].
  eapply Forall_impl; [exact Hc|]. cbn. intros d. by rewrite !E.
Qed.

Section QueueProofs.
Context `{Transport}.

Lemma add_to_outqueue_run w p pdu : unlocked w -> pdus w !! p = Some pdu -> live w p ->
  Forall (live w) (outqueue (ctx w)) -> is_immediate (the_hdr w p) = false ->
  exists cur, iscsi_add_to_outqueue p w =
    outqueue_notify p cur
      (enqueued w p pdu (insert_before (goes_before w p) p (outqueue (ctx w)))).
Proof.
  intros Hl Hp Hlive Hq Hi. unfold iscsi_add_to_outqueue.
  assert (Hget : forall k : world -> IO unit, (getS ≫= k) w = k w w) by done. rewrite Hget.
  run (set_pdu_run w p pdu (fun q => stamped w q) Hp).
  set (w0 := w <| pdus ::= <[p := stamped w pdu]> |>).
  run (lock_run w0 Hl). change (have_mt w0) with (have_mt w). set (b := have_mt w).
  set (q' := insert_before (goes_before w p) p (outqueue (ctx w))).
  assert (E0 : exists cur, outqueue_insert p (set_lock b w0)
     = Ret (cur, set_lock b (w0 <| ctx ::= fun c => c <| outqueue := q' |> |>))).
  { set (wb := set_lock b w0).
    assert (Eb : forall c, the_pdu wb c = the_pdu (enqueued w p pdu []) c) by done.
    destruct (outqueue_insert_plain wb p) as [cur E].
    - by apply (live_stamp w p pdu []).
    - eapply Forall_impl; [exact Hq|]. intros c. by apply (live_stamp w p pdu []).
    - change (is_immediate (the_hdr (enqueued w p pdu []) p) = false). by destruct (the_pdu_stamp w p pdu [] p Hp) as [_ ->].
    - exists cur. rewrite E.
      assert (Eq : insert_before (goes_before wb p) p (outqueue (ctx wb)) = q').
      { apply insert_before_ext. intros c. apply (goes_before_stamp w p pdu [] c Hp). }
      by rewrite Eq. }
  destruct E0 as [cur E0]. exists cur. run E0.
  match goal with |- (_ ≫= _) ?v = _ => run (unlock_run v eq_refl) end.
  transitivity (outqueue_notify p cur (set_lock false (enqueued w p pdu q'))); [done|].
  by rewrite (set_lock_id (enqueued w p pdu q') false Hl).
Qed.

End QueueProofs.

(** ** Properties *)

(** A transport that does nothing. *)
Definition sample_transport : Transport := {| service := fun _ => mret 0 |}.

Section QueueProperties.
Context `{Transport}.

(** C20: Queueing a non-immediate PDU keeps the outqueue sorted by CmdSN (serial
    arithmetic within a window of 2^31): it is placed behind every PDU of smaller or
    equal CmdSN (FIFO) and before every greater one, and nothing but the queue and the
    PDU's timeout changes before the transport is notified. *)
Theorem add_to_outqueue_ordered (w : world) (p : nat) (base : Z) (Hw : unlocked w)
  (Hp : live w p) (Hq : Forall (live w) (outqueue (ctx w)))
  (Hplain : is_immediate (the_hdr w p) = false)
  (Hwin : Forall (in_window base w) (p :: outqueue (ctx w)))
  (Hsorted : cmdsn_sorted base w (outqueue (ctx w))) :
  exists cur w1 q1 q2,
    iscsi_add_to_outqueue p w = outqueue_notify p cur w1 /\
    outqueue (ctx w) = q1 ++ q2 /\ outqueue (ctx w1) = q1 ++ p :: q2 /\
    Forall (fun c => rank base w1 c <= rank base w1 p) q1 /\
    Forall (fun c => rank base w1 p < rank base w1 c) q2 /\
    cmdsn_sorted base w1 (outqueue (ctx w1)) /\
    w1 = w <| pdus ::= alter (stamped w) p |> <| ctx ::= fun c => c <| outqueue := q1 ++ p :: q2 |> |>.
Proof.
  pose proof Hp as (pdu & b & Hpdu & Hb).
  destruct (add_to_outqueue_run w p pdu) as [cur E]; try done.
  destruct (insert_before_split (goes_before w p) p (outqueue (ctx w)))
    as (q1 & q2 & Eq & Eins & H1 & H2).
  apply Forall_cons in Hwin as [Hpw Hqw].
  exists cur, (enqueued w p pdu (q1 ++ p :: q2)), q1, q2.
  assert (Hrank : forall c, rank base (enqueued w p pdu (q1 ++ p :: q2)) c = rank base w c).
  { intros c. unfold rank. by destruct (the_pdu_stamp w p pdu (q1 ++ p :: q2) c Hpdu) as [-> _]. }
  assert (Hgb : forall c, c ∈ outqueue (ctx w) ->
            goes_before w p c = (rank base w p <? rank base w c)).
  { intros c Hc. rewrite Forall_forall in Hqw. rewrite (goes_before_spec base) by auto.
    rewrite Hplain. cbn [andb]. apply orb_false_r. }
  assert (Hle1 : Forall (fun c => rank base w c <= rank base w p) q1).
  { rewrite Forall_forall in H1 |- *. intros c Hc. specialize (H1 c Hc).
    rewrite Hgb in H1 by (rewrite Eq; set_solver). by apply Z.ltb_ge. }
  assert (Hlt2 : Forall (fun c => rank base w p < rank base w c) q2).
  { destruct q2 as [|c q2]; [constructor|]. rewrite Hgb in H2 by (rewrite Eq; set_solver).
    apply Z.ltb_lt in H2. rewrite Eq in Hsorted. apply sorted_app_inv in Hsorted as (_ & Hs & _).
    apply (sorted_head_le _ (rank base w p + 1)) in Hs; [|lia].
    eapply Forall_impl; [exact Hs|]. cbn. intros. lia. }
  split; [by rewrite E, Eins|]. split; [done|]. split; [done|].
  split; [eapply Forall_impl; [exact Hle1|]; intros c; by rewrite !Hrank|].
  split; [eapply Forall_impl; [exact Hlt2|]; intros c; by rewrite !Hrank|]. split.
  - assert (Hs : cmdsn_sorted base w (q1 ++ p :: q2)).
    { rewrite Eq in Hqw, Hsorted. apply insert_before_sorted; [done..|].
      destruct q2 as [|c q2]; [done|]. apply Forall_cons in Hlt2 as [Hlt2 _]. lia. }
    exact (cmdsn_sorted_ext base w _ _ Hrank Hs).
  - apply world_stores_eq; [done| |done]. unfold enqueued. cbn.
    apply map_eq. intros c. destruct (decide (c = p)) as [->|Hne].
    + by rewrite lookup_insert_eq, lookup_alter_eq, Hpdu.
    + by rewrite lookup_insert_ne, lookup_alter_ne.
Qed.

End QueueProperties.

Lemma sample_live opcode sn p : (1 <= p <= 3)%nat -> live (sample_queue opcode sn) p.
Proof.
  intros Hp. destruct p as [|[|[|[|]]]]; try lia; by do 2 eexists.
Qed.

Lemma add_to_outqueue_ordered_witness :
  exists cur w1, @iscsi_add_to_outqueue sample_transport 3 (sample_queue 1 6) =
      @outqueue_notify sample_transport 3 cur w1 /\
    outqueue (ctx w1) = [1%nat; 3%nat; 2%nat].
Proof.
  destruct (@add_to_outqueue_ordered sample_transport (sample_queue 1 6) 3 0)
    as (cur & w1 & q1 & q2 & E & Eq & Eout & H1 & H2 & _ & Ew).
  - reflexivity.
  - apply sample_live. lia.
  - repeat constructor; apply sample_live; lia.
  - reflexivity.
  - repeat constructor; vm_compute; congruence.
  - repeat constructor; vm_compute; congruence.
  - exists cur, w1. split; [exact E|]. rewrite Eout.
    destruct q1 as [|a q1]; [|destruct q1 as [|b q1]].
    + cbn in Eq. subst q2. rewrite Ew in H2. apply Forall_cons in H2 as [H2 _].
      vm_compute in H2. discriminate.
    + cbn in Eq. injection Eq as <- <-. reflexivity.
    + cbn in Eq. injection Eq as <- <- _. rewrite Ew in H1. apply Forall_cons in H1 as [_ H1].
      apply Forall_cons in H1 as [H1 _]. vm_compute in H1. congruence.
Defined.

(** *** Immediate PDUs *)

(** The world after an immediate PDU took the CmdSN [sn]. *)
Definition renumbered (w : world) (p : nat) (pdu : iscsi_pdu) (sn : Z) : world :=
  w <| pdus ::= <[p := with_cmdsn pdu sn]> |> <| tasks ::= fun ts => tasks_with_cmdsn ts pdu sn |>.

Lemma renumbered_other w p pdu sn c : c <> p ->
  the_pdu (renumbered w p pdu sn) c = the_pdu w c /\ the_hdr (renumbered w p pdu sn) c = the_hdr w c.
Proof.
  intros Hne. unfold the_hdr, the_pdu, renumbered. cbn. by rewrite lookup_insert_ne by done.
Qed.

Lemma renumbered_self w p pdu sn b : pdus w !! p = Some pdu -> ddata (outdata pdu) = Some b ->
  pdu_cmdsn (the_pdu (renumbered w p pdu sn) p) = sn /\
  is_immediate (the_hdr (renumbered w p pdu sn) p) = is_immediate (the_hdr w p) /\
  live (renumbered w p pdu sn) p.
Proof.
  intros Hp Hb. unfold the_hdr, the_pdu, live, renumbered. cbn.
  rewrite lookup_insert_eq, Hp. cbn -[scsi_set_uint32]. rewrite Hb. cbn -[scsi_set_uint32]. split; [done|]. split.
  - unfold is_immediate. rewrite byte_at_set32_ne by lia. done.
  - exists (with_cmdsn pdu sn), (scsi_set_uint32 b 24 sn). split; [done|].
    unfold with_cmdsn. cbn -[scsi_set_uint32]. by rewrite Hb.
Qed.

Lemma renumbered_live w p pdu sn q : p ∉ q -> Forall (live w) q ->
  Forall (live (renumbered w p pdu sn)) q.
Proof.
  intros Hni Hq. rewrite Forall_forall in Hq |- *. intros c Hc. destruct (Hq c Hc) as (pc & b & Hpc & Hb).
  exists pc, b. unfold renumbered. cbn. rewrite lookup_insert_ne by set_solver. done.
Qed.

Lemma outqueue_insert_imm_run w p pdu h q : pdus w !! p = Some pdu -> live w p ->
  outqueue (ctx w) = h :: q -> Forall (live w) (h :: q) -> p ∉ h :: q ->
  is_immediate (the_hdr w p) = true -> bhs_opcode (the_hdr w h) <> ISCSI_PDU_DATA_OUT ->
  task_live w pdu ->
  let w1 := renumbered w p pdu (pdu_cmdsn (the_pdu w h)) in
  exists cur, outqueue_insert p w = Ret (cur,
    w1 <| ctx ::= fun c => c <| outqueue := insert_before (goes_before w1 p) p (h :: q) |> |>).
Proof.
  intros Hp Hlive Eq Hq Hni Hi Hop Ht w1. pose proof Hlive as (pdu' & b & Hp' & Hb).
  rewrite Hp in Hp'. injection Hp' as <-.
  unfold outqueue_insert. run (get_ctx_run outqueue w). rewrite Eq. run (live_hdr w p Hlive).
  rewrite Hi. cbn [when].
  assert (E1 : (sn ← first_cmd_cmdsn (h :: q);
                match sn with Some sn => iscsi_pdu_set_cmdsn p sn | None => mret tt end) w
               = Ret (tt, w1)).
  { run (first_cmd_run w h q Hq Hop). apply set_cmdsn_run; [done|by eexists|done]. }
  run E1.
  destruct (renumbered_self w p pdu (pdu_cmdsn (the_pdu w h)) b Hp Hb) as (_ & _ & Hlive1).
  destruct (queue_insert_run w1 p (h :: q) Hlive1) as (cur & E2 & _);
    [by apply renumbered_live|]. run E2. by exists cur.
Qed.

(** Queueing an immediate PDU on a non-empty outqueue headed by a command gives it
    the CmdSN of that head, places it after the immediate PDUs already in front and
    before every other PDU, and keeps the queue sorted by CmdSN. *)
Theorem immediate_pdu_goes_first (w : world) (p h : nat) (q : list nat) (base : Z)
  (Hp : live w p) (Hout : outqueue (ctx w) = h :: q) (Hq : Forall (live w) (h :: q))
  (Hnew : p ∉ h :: q) (Himm : is_immediate (the_hdr w p) = true)
  (Hcmd : bhs_opcode (the_hdr w h) <> ISCSI_PDU_DATA_OUT) (Htask : task_live w (the_pdu w p))
  (Hwin : Forall (in_window base w) (h :: q)) (Hsorted : cmdsn_sorted base w (h :: q)) :
  exists cur w1 q1 q2, outqueue_insert p w = Ret (cur, w1) /\
    h :: q = q1 ++ q2 /\ outqueue (ctx w1) = q1 ++ p :: q2 /\
    Forall (fun c => is_immediate (the_hdr w c) = true) q1 /\
    Forall (fun c => rank base w1 c = rank base w1 p) q1 /\
    pdu_cmdsn (the_pdu w1 p) = pdu_cmdsn (the_pdu w h) /\
    cmdsn_sorted base w1 (outqueue (ctx w1)).
Proof.
  pose proof Hp as (pdu & b & Hpdu & Hb).
  assert (Epdu : the_pdu w p = pdu) by (unfold the_pdu; by rewrite Hpdu). rewrite Epdu in Htask.
  destruct (outqueue_insert_imm_run w p pdu h q) as [cur E]; try done.
  set (sn := pdu_cmdsn (the_pdu w h)) in *. set (w1 := renumbered w p pdu sn) in *.
  destruct (renumbered_self w p pdu sn b Hpdu Hb) as (Esn & Eimm & _). fold w1 in Esn, Eimm.
  destruct (insert_before_split (goes_before w1 p) p (h :: q)) as (q1 & q2 & Eq & Eins & H1 & H2).
  assert (Hother : forall c, c ∈ h :: q -> the_pdu w1 c = the_pdu w c /\ the_hdr w1 c = the_hdr w c).
  { intros c Hc. apply renumbered_other. intros ->. done. }
  assert (Hrank : forall c, c ∈ h :: q -> rank base w1 c = rank base w c).
  { intros c Hc. unfold rank. by destruct (Hother c Hc) as [-> _]. }
  assert (Hwin1 : Forall (in_window base w1) (h :: q)).
  { rewrite Forall_forall in Hwin |- *. intros c Hc. unfold in_window, rank.
    destruct (Hother c Hc) as [-> _]. by apply Hwin. }
  assert (Hhin : h ∈ h :: q) by left.
  assert (Hpr : rank base w1 p = rank base w h) by (unfold rank; by rewrite Esn).
  assert (Hpw : in_window base w1 p).
  { rewrite Forall_forall in Hwin. destruct (Hwin h Hhin) as [? ?]. split; [by rewrite Esn|lia]. }
  assert (Hmin : Forall (fun c => rank base w1 p <= rank base w1 c) (h :: q)).
  { rewrite Hpr. apply (sorted_head_le _ (rank base w h)) in Hsorted; [|lia].
    rewrite Forall_forall in Hsorted |- *. intros c Hc. rewrite Hrank by done. by apply Hsorted. }
  assert (Hgb : forall c, c ∈ h :: q -> goes_before w1 p c = false ->
            is_immediate (the_hdr w c) = true /\ rank base w1 c = rank base w1 p).
  { intros c Hc Hb0. rewrite Forall_forall in Hwin1, Hmin.
    rewrite (goes_before_spec base), Eimm, Himm in Hb0 by auto.
    destruct (Hother c Hc) as [_ Eh]. rewrite Eh in Hb0. apply orb_false_iff in Hb0 as [Hlt Hi].
    apply Z.ltb_ge in Hlt. specialize (Hmin c Hc). split; [by apply negb_false_iff|lia]. }
  assert (Hsub : forall c, c ∈ q1 ++ q2 -> c ∈ h :: q) by (intros c; by rewrite Eq).
  exists cur, (w1 <| ctx ::= fun c => c <| outqueue := q1 ++ p :: q2 |> |>), q1, q2.
  split; [by rewrite E, Eins|]. split; [done|]. split; [done|]. split; [|split; [|split; [done|]]].
  - rewrite Forall_forall in H1 |- *. intros c Hc. apply Hgb; [apply Hsub; set_solver|by apply H1].
  - rewrite Forall_forall in H1 |- *. intros c Hc. apply Hgb; [apply Hsub; set_solver|by apply H1].
  - apply (cmdsn_sorted_ext base w1); [done|]. rewrite Eq in Hwin1, Hmin.
    apply insert_before_sorted; [done|done| |done|].
    + rewrite <- Eq. clear -Hsorted Hrank. unfold cmdsn_sorted in *.
      revert Hrank Hsorted. generalize (h :: q). intros l Hr Hs.
      induction Hs as [|c l Hs IH Hc]; constructor.
      * apply IH. intros d Hd. apply Hr. by right.
      * rewrite Forall_forall in Hc |- *. intros d Hd.
        rewrite (Hr c) by left. rewrite (Hr d) by (by right). by apply Hc.
    + destruct q2 as [|c q2]; [done|]. rewrite Forall_forall in Hmin. apply Hmin. set_solver.
Qed.

Lemma immediate_pdu_goes_first_witness :
  exists cur w1 q1 q2, outqueue_insert 3 (sample_queue 0x40 9) = Ret (cur, w1) /\
    [1%nat; 2%nat] = q1 ++ q2 /\ outqueue (ctx w1) = q1 ++ 3%nat :: q2 /\
    pdu_cmdsn (the_pdu w1 3) = 5.
Proof.
  destruct (immediate_pdu_goes_first (sample_queue 0x40 9) 3 1 [2%nat] 0)
    as (cur & w1 & q1 & q2 & E & Eq & Eout & _ & _ & Esn & _).
  - apply sample_live. lia.
  - reflexivity.
  - repeat constructor; apply sample_live; lia.
  - set_solver.
  - reflexivity.
  - discriminate.
  - exact I.
  - repeat constructor; vm_compute; congruence.
  - repeat constructor; vm_compute; congruence.
  - exists cur, w1, q1, q2. split; [exact E|]. split; [exact Eq|]. split; [exact Eout|exact Esn].
Defined.
