(* ===== verification/Complete.v ===== *)
(** Completing a PDU: calling its callback and freeing it, as every loop of
    the library that ends a PDU does, and what such a step leaves alone.

    A callback of the user is an event of the trace; that it calls back into
    the library is not modelled. *)

From S2P Require Import Prelude Bytes Task Context Pdu Queue.

(** Complete [pdu] with [status] and free it. *)
Definition complete_and_free (p : nat) (status : Z) : IO unit :=
  _ ← call_callback p status Data_none;
  iscsi_tcp_free_pdu p.

(** ** Completing a PDU *)

(** The status the user's function gets through [iscsi_scsi_response_cb]. *)
Definition passed_status (status : Z) : Z :=
  if known_status status then status else SCSI_STATUS_ERROR.

(** The call of a user function that completing [pdu] makes. *)
Definition cb_event (pdu : iscsi_pdu) (status : Z) (data : command_data) : list event :=
  match pdu_callback pdu with
  | Some (Cb_user f) => [Ev_callback f status data (private_data pdu)]
  | Some Cb_scsi_response =>
      match cbdata_callback pdu, cbdata_task pdu with
      | Some f, Some t => [Ev_callback f (passed_status status) (Data_task t) (cbdata_private_data pdu)]
      | _, _ => []
      end
  | _ => []
  end.

(** [p] can be completed: it is allocated, has a header, and the task of a
    SCSI command exists. *)
Definition completable (w : world) (p : nat) : Prop :=
  exists pdu, pdus w !! p = Some pdu /\ is_Some (ddata (outdata pdu)) /\
    (pdu_callback pdu = Some Cb_scsi_response ->
       exists t, cbdata_task pdu = Some t /\ t ∈ dom (tasks w)).

(** The part of a context that completing and freeing PDUs leaves alone. *)
Definition core (c : iscsi_context) : iscsi_context :=
  c <| error_string := EmptyString |> <| pending_reconnect := false |> <| frees := 0 |>
    <| outqueue_current := None |>.

(** What every step below has in common: the core of the context is [f] of the
    old one, the same tasks exist, and the calls [evs] were made. *)
Record steps_to (w w' : world) (f : iscsi_context -> iscsi_context) (evs : list event) : Prop := {
  st_core : core (ctx w') = core (f (ctx w));
  st_tasks : dom (tasks w') = dom (tasks w);
  st_mt : have_mt w' = have_mt w;
  st_trace : trace w' = trace w ++ evs
}.

Lemma steps_to_refl w : steps_to w w id [].
Proof. split; try done. by rewrite app_nil_r. Qed.

Lemma set_task_run w t task f : tasks w !! t = Some task ->
  set_task t f w = Ret (tt, w <| tasks ::= <[t := f task]> |>).
Proof. intros Ht. unfold set_task, get_task, mbind, M_bind, getS. by rewrite Ht. Qed.

Lemma dom_insert_same {A} (m : gmap nat A) t x : t ∈ dom m -> dom (<[t := x]> m) = dom m.
Proof. intros Ht. apply dom_insert_lookup_L. by apply elem_of_dom. Qed.

Lemma call_callback_run w p pdu status data : pdus w !! p = Some pdu -> completable w p ->
  exists w', call_callback p status data w = Ret (tt, w') /\ pdus w' = pdus w /\
    outqueue_current (ctx w') = outqueue_current (ctx w) /\
    steps_to w w' id (cb_event pdu status data).
Proof.
  intros Hp (pdu' & Hp' & _ & Hcb). rewrite Hp in Hp'. injection Hp' as <-.
  unfold call_callback. run (get_pdu_run w p pdu Hp). unfold cb_event.
  destruct (pdu_callback pdu) as [[| |f]|].
  - destruct (Hcb eq_refl) as (t & Ht & Hdom). pose proof Hdom as [task Htask]%elem_of_dom.
    unfold iscsi_scsi_response_cb. run (get_pdu_run w p pdu Hp). rewrite Ht.
    unfold passed_status. cbn [deref].
    assert (Hret : forall k : nat -> IO unit, (mret t ≫= k) w = k t w) by done. rewrite Hret.
    destruct (known_status status).
    + run (set_task_run w t task (fun task => task <| Task.status := status |>) Htask).
      destruct (cbdata_callback pdu); (eexists; split; [reflexivity|]; split; [done|];
        split; [done|]; split; cbn; rewrite ?app_nil_r; try done; by apply dom_insert_same).
    + run (set_task_run w t task (fun task => task <| Task.status := SCSI_STATUS_ERROR |>) Htask).
      destruct (cbdata_callback pdu); (eexists; split; [reflexivity|]; split; [done|];
        split; [done|]; split; cbn; rewrite ?app_nil_r; try done; by apply dom_insert_same).
  - eexists. split; [reflexivity|]. split; [done|]. split; [done|]. split; cbn; try done.
    by rewrite app_nil_r.
  - eexists. split; [reflexivity|]. split; [done|]. split; [done|]. split; done.
  - eexists. split; [reflexivity|]. split; [done|]. split; [done|]. split; cbn; try done.
    by rewrite app_nil_r.
Qed.

Lemma free_pdu_run w p pdu : pdus w !! p = Some pdu ->
  exists w', iscsi_tcp_free_pdu p w = Ret (tt, w') /\ pdus w' = delete p (pdus w) /\
    (forall x, outqueue_current (ctx w') = Some x <->
               outqueue_current (ctx w) = Some x /\ x <> p) /\
    steps_to w w' id [].
Proof.
  intros Hp. unfold iscsi_tcp_free_pdu. run (get_pdu_run w p pdu Hp).
  unfold iscsi_free, when, get_ctx, set_ctx, gets, modify, mbind, M_bind, mret, M_ret.
  destruct (bool_decide (is_Some (ddata (outdata pdu))));
    destruct (bool_decide (is_Some (ddata (indata pdu))));
    destruct (decide (outqueue_current (ctx w) = Some p)) as [Ec|Ec];
    (eexists; split;
     [cbn; first [rewrite bool_decide_true by done|rewrite bool_decide_false by done]; reflexivity|]);
    (split; [done|]; split; [|split; cbn; rewrite ?app_nil_r; done]);
    cbn; intros x; rewrite ?Ec; naive_solver.
Qed.

Lemma steps_trans w w1 w2 f1 f2 e1 e2 : steps_to w w1 f1 e1 -> steps_to w1 w2 f2 e2 ->
  (forall c c', core c = core c' -> core (f2 c) = core (f2 c')) ->
  steps_to w w2 (fun c => f2 (f1 c)) (e1 ++ e2).
Proof.
  intros [C1 T1 M1 R1] [C2 T2 M2 R2] Hf. split; [|congruence|congruence|].
  - rewrite C2. by apply Hf.
  - by rewrite R2, R1, app_assoc.
Qed.

Lemma completable_steps w w' f e p q : steps_to w w' f e -> 
  (forall x, x <> q -> pdus w' !! x = pdus w !! x) -> p <> q -> completable w p -> completable w' p.
Proof.
  intros [_ T _ _] Hpdus Hne (pdu & Hp & Hb & Hcb). exists pdu.
  rewrite Hpdus by done. rewrite T. done.
Qed.

Lemma complete_and_free_run w p pdu status : pdus w !! p = Some pdu -> completable w p ->
  exists w', complete_and_free p status w = Ret (tt, w') /\ pdus w' = delete p (pdus w) /\
    (forall x, outqueue_current (ctx w') = Some x <->
               outqueue_current (ctx w) = Some x /\ x <> p) /\
    steps_to w w' id (cb_event pdu status Data_none).
Proof.
  intros Hp Hc. unfold complete_and_free.
  destruct (call_callback_run w p pdu status Data_none Hp Hc) as (w1 & E1 & P1 & O1 & S1). run E1.
  destruct (free_pdu_run w1 p pdu) as (w2 & E2 & P2 & O2 & S2); [by rewrite P1|].
  exists w2. split; [done|]. split; [by rewrite P2, P1|]. split; [intros x; by rewrite O2, O1|].
  rewrite <- (app_nil_r (cb_event _ _ _)). by apply (steps_trans _ _ _ _ _ _ _ S1 S2).
Qed.
