(* ===== verification/Cancel.v ===== *)
(** Completion without a response: timeouts and cancellation
    (src/lib/pdu.c: [iscsi_timeout_scan], [iscsi_cancel_pdus],
    [iscsi_cancel_lun_pdus]; src/lib/iscsi-command.c:
    [iscsi_scsi_is_task_in_outqueue], [iscsi_scsi_cancel_task],
    [iscsi_scsi_cancel_all_tasks]).

    A loop [for (pdu = list; pdu; pdu = next_pdu)] that may unlink [pdu] reads
    [next] first, so it visits the list as it was when the loop began; the
    loops below recurse on that list. *)

From S2P Require Import SList Prelude Bytes Task Cdb Context Pdu Queue Complete.

(** ** Operations *)

(** [!(data[0] & ISCSI_PDU_IMMEDIATE) && (data[0] & 0x3f) != ISCSI_PDU_DATA_OUT]:
    the PDU consumed a CmdSN. *)
Definition consumes_cmdsn (b : bytes) : bool :=
  negb (is_immediate b) && negb (bhs_opcode b =? ISCSI_PDU_DATA_OUT).

Definition write_opcode (opcode : Z) : bool :=
  bool_decide (opcode ∈ [SCSI_OPCODE_WRITE10; SCSI_OPCODE_WRITE12; SCSI_OPCODE_WRITE16]).

(** Does a queued PDU carry data of this task? *)
Fixpoint outqueue_has_task (q : list nat) (t : option nat) : IO bool :=
  match q with
  | [] => mret false
  | c :: q' =>
      pdu ← get_pdu c;
      if bool_decide (cbdata_task pdu = t) then mret true else outqueue_has_task q' t
  end.

Definition iscsi_pdu_data_out_inprocess (p : nat) : IO bool :=
  b ← hdr_of p;
  pdu ← get_pdu p;
  if negb (bhs_opcode b =? ISCSI_PDU_SCSI_REQUEST) then mret false else
  if negb (write_opcode (byte_at b 32)) then mret false else
  _ ← iscsi_mt_spin_lock;
  current ← get_ctx outqueue_current;
  here ← (match current with
          | None => mret false
          | Some c => cur ← get_pdu c; mret (bool_decide (cbdata_task cur = cbdata_task pdu))
          end);
  q ← get_ctx outqueue;
  ret ← (if (here : bool) then mret true else outqueue_has_task q (cbdata_task pdu));
  _ ← iscsi_mt_spin_unlock;
  mret ret.

(** The first loop of [iscsi_timeout_scan]; returns [tmp]. *)
Fixpoint timeout_outqueue (t : Z) (q : list nat) (gap : Z) (tmp : list nat) : IO (list nat) :=
  match q with
  | [] => mret tmp
  | p :: q' =>
      pdu ← get_pdu p;
      _ ← when (0 <? gap) (iscsi_pdu_set_cmdsn p (u32 (pdu_cmdsn pdu - gap)));
      if pdu_scsi_timeout pdu =? 0 then timeout_outqueue t q' gap tmp else
      if t <? pdu_scsi_timeout pdu then timeout_outqueue t q' gap tmp else
      b ← hdr_of p;
      if consumes_cmdsn b then
        _ ← set_ctx (fun c => c <| cmdsn := u32 (cmdsn c - 1) |>);
        _ ← outqueue_remove p;
        timeout_outqueue t q' (gap + 1) (tmp ++ [p])
      else timeout_outqueue t q' gap tmp
  end.

(** The loop over [waitpdu]; returns [tmp]. *)
Fixpoint timeout_waitpdu (t : Z) (q : list nat) (tmp : list nat) : IO (list nat) :=
  match q with
  | [] => mret tmp
  | p :: q' =>
      pdu ← get_pdu p;
      if pdu_scsi_timeout pdu =? 0 then timeout_waitpdu t q' tmp else
      if t <? pdu_scsi_timeout pdu then timeout_waitpdu t q' tmp else
      busy ← iscsi_pdu_data_out_inprocess p;
      if (busy : bool) then timeout_waitpdu t q' tmp else
      _ ← waitpdu_remove p;
      timeout_waitpdu t q' (tmp ++ [p])
  end.

(** [for (pdu = tmp; pdu; pdu = next_pdu) { ... }]: [next_pdu] is not assigned
    in the body; it is the NULL the preceding loop ended with, so the body
    runs for the first PDU of [tmp] only. *)
Definition complete_tmp (tmp : list nat) (msg : string) (status : Z) : IO unit :=
  match tmp with
  | [] => mret tt
  | p :: _ => _ ← iscsi_set_error msg; complete_and_free p status
  end.

Definition iscsi_timeout_scan : IO unit :=
  w ← getS;
  let t := now w in
  _ ← iscsi_mt_spin_lock;
  q ← get_ctx outqueue;
  tmp ← timeout_outqueue t q 0 [];
  _ ← iscsi_mt_spin_unlock;
  _ ← complete_tmp tmp "command timed out from outqueue" SCSI_STATUS_TIMEOUT;
  _ ← iscsi_mt_spin_lock;
  q ← get_ctx waitpdu;
  tmp ← timeout_waitpdu t q [];
  _ ← iscsi_mt_spin_unlock;
  complete_tmp tmp "command timed out from waitqueue" SCSI_STATUS_TIMEOUT.

(** [while ((pdu = iscsi->outqueue))]; one step per queued PDU. *)
Fixpoint cancel_outqueue (fuel : nat) : IO unit :=
  q ← get_ctx outqueue;
  match q, fuel with
  | [], _ => mret tt
  | p :: _, O => undefined NoFuel
  | p :: _, S fuel =>
      _ ← outqueue_remove p;
      _ ← call_callback p SCSI_STATUS_CANCELLED Data_none;
      b ← hdr_of p;
      _ ← when (consumes_cmdsn b) (set_ctx (fun c => c <| cmdsn := u32 (cmdsn c - 1) |>));
      _ ← iscsi_tcp_free_pdu p;
      cancel_outqueue fuel
  end.

(** [while ((pdu = tmp))] over the detached wait queue. *)
Fixpoint cancel_list (tmp : list nat) : IO unit :=
  match tmp with
  | [] => mret tt
  | p :: tmp' => _ ← complete_and_free p SCSI_STATUS_CANCELLED; cancel_list tmp'
  end.

Definition iscsi_cancel_pdus : IO unit :=
  _ ← iscsi_mt_spin_lock;
  q ← get_ctx outqueue;
  _ ← cancel_outqueue (length q);
  tmp ← get_ctx waitpdu;
  _ ← set_ctx (fun c => c <| waitpdu := [] |>);
  _ ← iscsi_mt_spin_unlock;
  cancel_list tmp.

(** The LUN of the task of a PDU equals [lun]. *)
Definition on_lun (pdu : iscsi_pdu) (lun : Z) : IO bool :=
  match iscsi_scsi_get_task_from_pdu pdu with
  | None => mret false
  | Some t => task ← get_task t; mret (task_lun task =? lun)
  end.

Fixpoint cancel_lun_outqueue (lun : Z) (q : list nat) (gap : Z) (tmp : list nat)
  : IO (list nat) :=
  match q with
  | [] => mret tmp
  | p :: q' =>
      pdu ← get_pdu p;
      _ ← when (0 <? gap) (iscsi_pdu_set_cmdsn p (u32 (pdu_cmdsn pdu - gap)));
      hit ← on_lun pdu lun;
      if negb hit then cancel_lun_outqueue lun q' gap tmp else
      b ← hdr_of p;
      _ ← when (consumes_cmdsn b) (set_ctx (fun c => c <| cmdsn := u32 (cmdsn c - 1) |>));
      _ ← outqueue_remove p;
      cancel_lun_outqueue lun q' (if consumes_cmdsn b then gap + 1 else gap) (tmp ++ [p])
  end.

Definition iscsi_cancel_lun_pdus (lun : Z) : IO unit :=
  _ ← iscsi_mt_spin_lock;
  q ← get_ctx outqueue;
  tmp ← cancel_lun_outqueue lun q 0 [];
  _ ← iscsi_mt_spin_unlock;
  complete_tmp tmp "command cancelled" SCSI_STATUS_CANCELLED.

(** [for (pdu = list; pdu; pdu = pdu->next) if (pdu->itt == itt) break;] *)
Fixpoint find_itt (q : list nat) (itt : Z) : IO (option nat) :=
  match q with
  | [] => mret None
  | p :: q' =>
      pdu ← get_pdu p;
      if pdu_itt pdu =? itt then mret (Some p) else find_itt q' itt
  end.

Definition iscsi_scsi_is_task_in_outqueue (t : nat) : IO bool :=
  task ← get_task t;
  _ ← iscsi_mt_spin_lock;
  q ← get_ctx outqueue;
  r ← find_itt q (task_itt task);
  _ ← iscsi_mt_spin_unlock;
  mret (bool_decide (is_Some r)).

(** The second search of [iscsi_scsi_cancel_task]: [cmdsn_gap] is still 0
    here, so no PDU is renumbered.  Returns [tmp]. *)
Fixpoint cancel_task_outqueue (itt : Z) (q : list nat) (tmp : list nat) : IO (list nat) :=
  match q with
  | [] => mret tmp
  | p :: q' =>
      pdu ← get_pdu p;
      if pdu_itt pdu =? itt then
        _ ← outqueue_remove p; cancel_task_outqueue itt q' (tmp ++ [p])
      else cancel_task_outqueue itt q' tmp
  end.

(** The last loop: as in [complete_tmp], [next_pdu] is NULL, so one PDU is
    completed.  Returns [ret]. *)
Definition cancel_task_complete (tmp : list nat) : IO Z :=
  match tmp with
  | [] => mret (-1)
  | p :: _ =>
      _ ← call_callback p SCSI_STATUS_CANCELLED Data_none;
      b ← hdr_of p;
      _ ← when (consumes_cmdsn b)
            (_ ← iscsi_mt_spin_lock;
             _ ← set_ctx (fun c => c <| cmdsn := u32 (cmdsn c - 1) |>);
             iscsi_mt_spin_unlock);
      _ ← iscsi_tcp_free_pdu p;
      mret 0
  end.

(** [iscsi_scsi_cancel_task] on one context.  [None]: go on with the old
    context when there is one. *)
Definition cancel_task_here (t : nat) : IO (option Z * Z) :=
  task ← get_task t;
  _ ← iscsi_mt_spin_lock;
  q ← get_ctx waitpdu;
  r ← find_itt q (task_itt task);
  match r with
  | Some p =>
      _ ← iscsi_mt_spin_unlock;
      _ ← waitpdu_remove p;
      _ ← complete_and_free p SCSI_STATUS_CANCELLED;
      mret (Some 0, 0)
  | None =>
      q ← get_ctx outqueue;
      tmp ← cancel_task_outqueue (task_itt task) q [];
      _ ← iscsi_mt_spin_unlock;
      ret ← cancel_task_complete tmp;
      mret (None, ret)
  end.

(** One level of recursion per [old_iscsi]; [fuel] bounds their number. *)
Fixpoint iscsi_scsi_cancel_task (fuel : nat) (t : nat) : IO Z :=
  '(done, ret) ← cancel_task_here t;
  match done with
  | Some r => mret r
  | None =>
      old ← get_ctx old_iscsi;
      match old, fuel with
      | None, _ => mret ret
      | Some _, O => undefined NoFuel
      | Some old, S fuel => on_old old (iscsi_scsi_cancel_task fuel t)
      end
  end.

Definition iscsi_scsi_cancel_all_tasks : IO unit :=
  _ ← iscsi_cancel_pdus;
  old ← get_ctx old_iscsi;
  match old with
  | None => mret tt
  | Some old => on_old old iscsi_cancel_pdus
  end.


(** ** Cancelling everything *)

(** The calls made when the PDUs of [q] are completed in order. *)
Definition cancelled_events (w : world) (q : list nat) : list event :=
  concat (map (fun p => cb_event (the_pdu w p) SCSI_STATUS_CANCELLED Data_none) q).

Definition commands_in (w : world) (q : list nat) : Z :=
  Z.of_nat (length (filter (fun p => consumes_cmdsn (the_hdr w p) = true) q)).

(** The context once [n] CmdSNs are given back and the outqueue is [q]. *)
Definition rolled_back (n : Z) (q : list nat) (c : iscsi_context) : iscsi_context :=
  c <| outqueue := q |> <| cmdsn := u32 (cmdsn c - n) |>.

Lemma core_fields c c' : core c = core c' ->
  outqueue c = outqueue c' /\ cmdsn c = cmdsn c' /\ waitpdu c = waitpdu c' /\
  iscsi_lock c = iscsi_lock c' /\ old_iscsi c = old_iscsi c'.
Proof.
  intros E. split; [exact (f_equal outqueue E)|]. split; [exact (f_equal cmdsn E)|].
  split; [exact (f_equal waitpdu E)|]. split; [exact (f_equal iscsi_lock E)|].
  exact (f_equal old_iscsi E).
Qed.

Lemma core_rolled_back n q c c' : core c = core c' ->
  core (rolled_back n q c) = core (rolled_back n q c').
Proof.
  intros E. destruct (core_fields _ _ E) as (_ & Hs & _).
  change (core (rolled_back n q c)) with (rolled_back n q (core c)).
  change (core (rolled_back n q c')) with (rolled_back n q (core c')). by rewrite E.
Qed.

Lemma completable_pdu w p : completable w p -> pdus w !! p = Some (the_pdu w p).
Proof. intros (pdu & Hp & _). unfold the_pdu. by rewrite Hp. Qed.

Lemma completable_live w p : completable w p -> live w p.
Proof. intros (pdu & Hp & [b Hb] & _). by exists pdu, b. Qed.

(** [w'] differs from [w] by the names of [q] being freed. *)
Definition freed (w w' : world) (q : list nat) : Prop :=
  (forall x, pdus w' !! x = if bool_decide (x ∈ q) then None else pdus w !! x) /\
  (forall x, outqueue_current (ctx w') = Some x <->
             outqueue_current (ctx w) = Some x /\ x ∉ q).

Lemma freed_cons w w1 w2 p q : pdus w1 = delete p (pdus w) ->
  (forall x, outqueue_current (ctx w1) = Some x <-> outqueue_current (ctx w) = Some x /\ x <> p) ->
  freed w1 w2 q -> freed w w2 (p :: q).
Proof.
  intros P1 O1 [P2 O2]. split; intros x.
  - rewrite P2, P1. destruct (decide (x = p)) as [->|Hne].
    + rewrite lookup_delete_eq, (bool_decide_true (p ∈ p :: q)) by set_solver. by case_bool_decide.
    + rewrite lookup_delete_ne by done. repeat case_bool_decide; set_solver.
  - rewrite O2, O1. set_solver.
Qed.

Lemma the_pdu_delete w w1 p x : pdus w1 = delete p (pdus w) -> x <> p ->
  the_pdu w1 x = the_pdu w x /\ the_hdr w1 x = the_hdr w x.
Proof.
  intros P Hne. unfold the_hdr, the_pdu. rewrite P, lookup_delete_ne by done. done.
Qed.

Lemma rest_after_free w w1 f e p q : steps_to w w1 f e -> pdus w1 = delete p (pdus w) ->
  NoDup (p :: q) -> Forall (completable w) (p :: q) ->
  Forall (completable w1) q /\ cancelled_events w1 q = cancelled_events w q /\
  commands_in w1 q = commands_in w q.
Proof.
  intros S P [Hp _]%NoDup_cons [_ Hq]%Forall_cons.
  assert (He : forall x, x ∈ q -> the_pdu w1 x = the_pdu w x /\ the_hdr w1 x = the_hdr w x).
  { intros x Hx. apply (the_pdu_delete w w1 p); [done|]. intros ->. done. }
  split; [|split].
  - rewrite Forall_forall in Hq |- *. intros x Hx. assert (x <> p) by (intros ->; done).
    apply (completable_steps w w1 f e x p S); [|done|by apply Hq].
    intros y Hy. by rewrite P, lookup_delete_ne by done.
  - unfold cancelled_events. f_equal. apply map_ext_in. intros x Hx%list_elem_of_In.
    by rewrite (proj1 (He x Hx)).
  - unfold commands_in. f_equal. clear -He. induction q as [|c q IH]; [done|].
    assert (IH' := IH ltac:(intros; apply He; set_solver)).
    assert (Hc := proj2 (He c ltac:(set_solver))).
    rewrite !filter_cons, Hc. destruct (decide _); cbn; lia.
Qed.

Lemma cancel_list_run q : forall w, NoDup q -> Forall (completable w) q ->
  exists w', cancel_list q w = Ret (tt, w') /\ freed w w' q /\
    steps_to w w' id (cancelled_events w q).
Proof.
  induction q as [|p q IH]; intros w Hnd Hq.
  { exists w. split; [done|]. split; [|apply steps_to_refl]. split; intros x; [done|]. set_solver. }
  pose proof (Forall_inv Hq) as Hp. cbn [cancel_list].
  destruct (complete_and_free_run w p _ SCSI_STATUS_CANCELLED (completable_pdu w p Hp) Hp)
    as (w1 & E1 & P1 & O1 & S1). run E1.
  destruct (rest_after_free _ _ _ _ _ _ S1 P1 Hnd Hq) as (Hq1 & Hev & _).
  apply NoDup_cons in Hnd as [_ Hnd]. destruct (IH w1 Hnd Hq1) as (w2 & E2 & F2 & S2).
  exists w2. split; [done|]. split; [by apply (freed_cons w w1)|].
  rewrite Hev in S2. by apply (steps_trans _ _ _ _ _ _ _ S1 S2).
Qed.

Lemma outqueue_remove_head w p q : outqueue (ctx w) = p :: q -> (p ∉ q) ->
  outqueue_remove p w = Ret (tt, w <| ctx ::= fun c => c <| outqueue := q |> |>).
Proof.
  intros Eq Hp. unfold outqueue_remove. run (get_ctx_run outqueue w). rewrite Eq.
  assert (E : list_remove (p :: q) p w = Ret (q, w)).
  { unfold list_remove. by rewrite filter_cons_False, filter_ne_id by auto. }
  by run E.
Qed.

(** Giving a CmdSN back, when the PDU consumed one. *)
Lemma give_back_run w p : live w p ->
  (b ← hdr_of p;
   when (consumes_cmdsn b) (set_ctx (fun c => c <| cmdsn := u32 (cmdsn c - 1) |>))) w =
  Ret (tt, w <| ctx ::= fun c =>
    if consumes_cmdsn (the_hdr w p) then c <| cmdsn := u32 (cmdsn c - 1) |> else c |>).
Proof.
  intros Hp. run (live_hdr w p Hp). destruct (consumes_cmdsn (the_hdr w p)); [done|].
  unfold when, mret, M_ret. by destruct w.
Qed.

Lemma sub_u32 x y : u32 (u32 x - y) = u32 (x - y).
Proof. unfold u32. by rewrite Zminus_mod_idemp_l. Qed.

Lemma commands_in_cons w p q :
  commands_in w (p :: q) = (if consumes_cmdsn (the_hdr w p) then 1 else 0) + commands_in w q.
Proof.
  unfold commands_in. rewrite filter_cons.
  destruct (consumes_cmdsn (the_hdr w p)); (destruct (decide _); [try done|try done]); cbn; lia.
Qed.

(** One turn of the loop of [iscsi_cancel_pdus]. *)
Lemma cancel_turn_run w p q : outqueue (ctx w) = p :: q -> (p ∉ q) -> completable w p ->
  0 <= cmdsn (ctx w) < 2 ^ 32 ->
  exists w1, (forall n, cancel_outqueue (S n) w = cancel_outqueue n w1) /\
    pdus w1 = delete p (pdus w) /\
    (forall x, outqueue_current (ctx w1) = Some x <-> outqueue_current (ctx w) = Some x /\ x <> p) /\
    steps_to w w1 (rolled_back (commands_in w [p]) q)
      (cb_event (the_pdu w p) SCSI_STATUS_CANCELLED Data_none).
Proof.
  intros Eq Hnin Hp Hsn. pose proof (completable_pdu w p Hp) as Hpdu.
  set (wa := w <| ctx ::= fun c => c <| outqueue := q |> |>).
  destruct (call_callback_run wa p (the_pdu w p) SCSI_STATUS_CANCELLED Data_none Hpdu Hp)
    as (wb & Eb & Pb & Ob & Sb).
  assert (Hlb : live wb p).
  { destruct (completable_live w p Hp) as (pdu & b & H1 & H2). exists pdu, b. by rewrite Pb. }
  assert (Hhb : the_hdr wb p = the_hdr w p) by (unfold the_hdr, the_pdu; by rewrite Pb).
  pose proof (give_back_run wb p Hlb) as Ec. rewrite Hhb in Ec.
  match type of Ec with _ = Ret (_, ?v) => set (wc := v) in Ec end.
  destruct (free_pdu_run wc p (the_pdu w p)) as (wd & Ed & Pd & Od & Sd).
  { unfold wc. cbn. by rewrite Pb. }
  exists wd. split; [|split; [|split]].
  - intros n. cbn [cancel_outqueue]. run (get_ctx_run outqueue w). rewrite Eq.
    run (outqueue_remove_head w p q Eq Hnin). fold wa. run Eb. run (live_hdr wb p Hlb).
    rewrite Hhb. revert Ec. unfold mbind at 1, M_bind at 1. rewrite (live_hdr wb p Hlb), Hhb.
    intros Ec. run Ec. by run Ed.
  - by rewrite Pd; unfold wc; cbn; rewrite Pb.
  - intros x. rewrite Od. change (outqueue_current (ctx w)) with (outqueue_current (ctx wa)). rewrite <- Ob. unfold wc. cbn.
    by destruct (consumes_cmdsn _).
  - destruct Sb as [Cb Tb Mb Rb], Sd as [Cd Td Md Rd]. split; [|by rewrite Td|by rewrite Md|].
    + rewrite Cd. unfold wc, id. cbn [ctx]. rewrite commands_in_cons.
      change (commands_in w []) with 0. unfold rolled_back.
      destruct (core_fields _ _ Cb) as (_ & Hs & _). change (cmdsn (id (ctx wa))) with (cmdsn (ctx w)) in Hs.
      destruct (consumes_cmdsn (the_hdr w p)).
      * change (core (upd ctx _ wb).(ctx)) with ((core (ctx wb)) <| cmdsn := u32 (cmdsn (ctx wb) - 1) |>).
        by rewrite Cb, Hs.
      * change (core (upd ctx _ wb).(ctx)) with (core (ctx wb)). rewrite Cb.
        rewrite Z.add_0_r, Z.sub_0_r, (u32_small (cmdsn (ctx w)) Hsn). reflexivity.
    + rewrite Rd, app_nil_r. unfold wc. cbn. by rewrite Rb.
Qed.

Lemma cancel_outqueue_run q : forall w, outqueue (ctx w) = q -> NoDup q ->
  Forall (completable w) q -> 0 <= cmdsn (ctx w) < 2 ^ 32 ->
  exists w', cancel_outqueue (length q) w = Ret (tt, w') /\ freed w w' q /\
    steps_to w w' (rolled_back (commands_in w q) []) (cancelled_events w q).
Proof.
  induction q as [|p q IH]; intros w Eq Hnd Hq Hsn.
  { exists w. split; [cbn; by run (get_ctx_run outqueue w); rewrite Eq|].
    split; [split; intros x; [done|]; split; [intros H; split; [done|apply not_elem_of_nil]|by intros []]|].
    split; [|done|done|by rewrite app_nil_r]. unfold rolled_back. change (commands_in w []) with 0.
    rewrite Z.sub_0_r, u32_small by done. destruct (ctx w). cbn in *. by subst. }
  pose proof (Forall_inv Hq) as Hp. pose proof (NoDup_cons_1_1 _ _ Hnd) as Hni.
  destruct (cancel_turn_run w p q Eq Hni Hp Hsn) as (w1 & E1 & P1 & O1 & S1).
  destruct (rest_after_free _ _ _ _ _ _ S1 P1 Hnd Hq) as (Hq1 & Hev & Hcm).
  destruct (core_fields _ _ (st_core _ _ _ _ S1)) as (Ho & Hs & _).
  destruct (IH w1) as (w2 & E2 & F2 & S2); [done|by apply NoDup_cons in Hnd as [_ ?]|done| |].
  { rewrite Hs. unfold rolled_back. cbn. apply u32_range. }
  exists w2. split; [by cbn [length]; rewrite E1|]. split; [by apply (freed_cons w w1)|].
  rewrite Hev, Hcm in S2.
  pose proof (steps_trans _ _ _ _ _ _ _ S1 S2 (core_rolled_back _ _)) as [C T M R].
  split; [|done|done|done]. rewrite C. unfold rolled_back. cbn.
  rewrite sub_u32, commands_in_cons. change (commands_in w [p]) with
    (commands_in w (p :: [])). rewrite commands_in_cons. change (commands_in w []) with 0.
  by replace (cmdsn (ctx w) - ((if consumes_cmdsn (the_hdr w p) then 1 else 0) + 0) - commands_in w q)
    with (cmdsn (ctx w) - ((if consumes_cmdsn (the_hdr w p) then 1 else 0) + commands_in w q)) by lia.
Qed.

Lemma forall_completable_freed w w' q r f e : steps_to w w' f e -> freed w w' q ->
  NoDup (q ++ r) -> Forall (completable w) r ->
  Forall (completable w') r /\ cancelled_events w' r = cancelled_events w r.
Proof.
  intros [_ T _ _] [P _] (_ & Hd & _)%NoDup_app Hr.
  assert (He : forall x, x ∈ r -> pdus w' !! x = pdus w !! x).
  { intros x Hx. rewrite P, bool_decide_false; [done|]. intros Hq. by apply (Hd x). }
  split.
  - rewrite Forall_forall in Hr |- *. intros x Hx. destruct (Hr x Hx) as (pdu & Hp & H).
    exists pdu. rewrite He, T by done. done.
  - unfold cancelled_events. f_equal. apply map_ext_in. intros x Hx%list_elem_of_In.
    unfold the_pdu. by rewrite He.
Qed.

(** ** Properties *)

(** C18: iscsi_cancel_pdus ends, empties both queues, calls the callback of every queued
    and every waiting PDU exactly once with SCSI_STATUS_CANCELLED, in queue order, frees
    them all and gives back one CmdSN for each unsent PDU that consumed one. *)
Theorem cancel_pdus_completes_all (w : world)
  (Hw : unlocked w) (Hsn : 0 <= cmdsn (ctx w) < 2 ^ 32)
  (Hnd : NoDup (outqueue (ctx w) ++ waitpdu (ctx w)))
  (Hq : Forall (completable w) (outqueue (ctx w) ++ waitpdu (ctx w))) :
  exists w', iscsi_cancel_pdus w = Ret (tt, w') /\ unlocked w' /\
    outqueue (ctx w') = [] /\ waitpdu (ctx w') = [] /\
    trace w' = trace w ++ cancelled_events w (outqueue (ctx w) ++ waitpdu (ctx w)) /\
    cmdsn (ctx w') = u32 (cmdsn (ctx w) - commands_in w (outqueue (ctx w))) /\
    freed w w' (outqueue (ctx w) ++ waitpdu (ctx w)).
Proof.
  set (q := outqueue (ctx w)) in *. set (r := waitpdu (ctx w)) in *.
  pose proof Hnd as (Hndq & Hd & Hndr)%NoDup_app. pose proof Hq as [Hq1 Hr]%Forall_app.
  unfold iscsi_cancel_pdus. run (lock_run w Hw). set (wa := set_lock (have_mt w) w).
  run (get_ctx_run outqueue wa). change (outqueue (ctx wa)) with q.
  destruct (cancel_outqueue_run q wa eq_refl Hndq Hq1 Hsn) as (w1 & E1 & F1 & S1). run E1.
  destruct (core_fields _ _ (st_core _ _ _ _ S1)) as (Ho & Hs & Hwait & Hlock & _).
  run (get_ctx_run waitpdu w1). rewrite Hwait. change (waitpdu (rolled_back _ _ _)) with r.
  set (w2 := w1 <| ctx ::= fun c => c <| waitpdu := [] |> |>).
  assert (E2 : set_ctx (fun c => c <| waitpdu := [] |>) w1 = Ret (tt, w2)) by done. run E2.
  assert (Hl2 : iscsi_lock (ctx w2) = have_mt w2).
  { change (iscsi_lock (ctx w1) = have_mt w1). rewrite Hlock, (st_mt _ _ _ _ S1). done. }
  run (unlock_run w2 Hl2). set (w3 := set_lock false w2).
  destruct (forall_completable_freed wa w1 q r _ _ S1 F1 Hnd Hr) as [Hr1 Hev].
  destruct (cancel_list_run r w3 Hndr Hr1) as (w4 & E4 & F4 & S4).
  destruct (core_fields _ _ (st_core _ _ _ _ S4)) as (Ho4 & Hs4 & Hwait4 & Hlock4 & _).
  exists w4. split; [done|]. split; [done|]. split; [by rewrite Ho4|]. split; [by rewrite Hwait4|].
  split; [|split].
  - rewrite (st_trace _ _ _ _ S4). change (trace w3) with (trace w1).
    rewrite (st_trace _ _ _ _ S1). unfold cancelled_events at 3. rewrite map_app, concat_app, app_assoc.
    change (cancelled_events w3 r) with (cancelled_events w1 r). by rewrite Hev.
  - rewrite Hs4. change (cmdsn (ctx w1) = u32 (cmdsn (ctx w) - commands_in w q)). by rewrite Hs.
  - destruct F1 as [P1 O1], F4 as [P4 O4]. split; intros x.
    + rewrite P4. change (pdus w3) with (pdus w1). rewrite P1. change (pdus wa) with (pdus w).
      repeat case_bool_decide; set_solver.
    + rewrite O4. change (outqueue_current (ctx w3)) with (outqueue_current (ctx w1)).
      rewrite O1. change (outqueue_current (ctx wa)) with (outqueue_current (ctx w)). set_solver.
Qed.

(** ** Sweeping the outqueue

    [iscsi_timeout_scan] and [iscsi_cancel_lun_pdus] unlink the PDUs they hit
    and give the CmdSNs of the others down by the commands removed before
    them.  [sweep] is the loop they share. *)

Fixpoint sweep (hit : nat -> iscsi_pdu -> IO bool) (q : list nat) (gap : Z) (tmp : list nat)
  : IO (list nat) :=
  match q with
  | [] => mret tmp
  | p :: q' =>
      pdu ← get_pdu p;
      _ ← when (0 <? gap) (iscsi_pdu_set_cmdsn p (u32 (pdu_cmdsn pdu - gap)));
      hit_p ← hit p pdu;
      if negb hit_p then sweep hit q' gap tmp else
      b ← hdr_of p;
      _ ← when (consumes_cmdsn b) (set_ctx (fun c => c <| cmdsn := u32 (cmdsn c - 1) |>));
      _ ← outqueue_remove p;
      sweep hit q' (if consumes_cmdsn b then gap + 1 else gap) (tmp ++ [p])
  end.

Lemma cancel_lun_is_sweep lun q : forall gap tmp w,
  cancel_lun_outqueue lun q gap tmp w = sweep (fun _ pdu => on_lun pdu lun) q gap tmp w.
Proof.
  induction q as [|p q IH]; intros gap tmp w; [done|]. cbn [cancel_lun_outqueue sweep].
  apply bind_ext. intros pdu v. apply bind_ext. intros [] v1. apply bind_ext. intros hit v2.
  destruct hit; [|apply IH]. cbn [negb]. apply bind_ext. intros b v3. apply bind_ext. intros [] v4.
  apply bind_ext. intros [] v5. apply IH.
Qed.

(** The PDU with its CmdSN given down by [g]. *)
Definition renumber (g : Z) (pdu : iscsi_pdu) : iscsi_pdu :=
  if 0 <? g then with_cmdsn pdu (u32 (pdu_cmdsn pdu - g)) else pdu.

(** The tasks of [w'] are those of [w], on the same LUNs. *)
Definition tasks_like (w w' : world) : Prop :=
  forall t, task_lun <$> tasks w' !! t = task_lun <$> tasks w !! t.

Section Sweep.
Context (h cons : nat -> bool).

(** The commands removed before [x], for a sweep of [q] that starts at [g]. *)
Fixpoint gap_of (g : Z) (q : list nat) (x : nat) : Z :=
  match q with
  | [] => 0
  | c :: q' => if decide (x = c) then g else gap_of (if h c && cons c then g + 1 else g) q' x
  end.

Definition removed (q : list nat) : list nat := filter (fun x => h x = true) q.
Definition removed_commands (q : list nat) : Z :=
  Z.of_nat (length (filter (fun x => h x && cons x = true) q)).

Record swept (w w' : world) (g : Z) (q : list nat) : Prop := {
  sw_pdus x : pdus w' !! x = renumber (gap_of g q x) <$> pdus w !! x;
  sw_tasks : tasks_like w w';
  sw_ctx : ctx w' = rolled_back (removed_commands q)
             (filter (fun x => x ∉ removed q) (outqueue (ctx w))) (ctx w);
  sw_mt : have_mt w' = have_mt w;
  sw_trace : trace w' = trace w
}.

(** What the loop needs of the PDUs it visits. *)
Definition sweepable (hit : nat -> iscsi_pdu -> IO bool) (w : world) (q : list nat) : Prop :=
  Forall (fun x => live w x /\ task_live w (the_pdu w x) /\ consumes_cmdsn (the_hdr w x) = cons x /\
    forall v, tasks_like w v -> live v x -> consumes_cmdsn (the_hdr v x) = cons x ->
      hit x (the_pdu w x) v = Ret (h x, v)) q.

Lemma tasks_like_refl w : tasks_like w w.
Proof. by intros t. Qed.

Lemma tasks_like_trans w1 w2 w3 : tasks_like w1 w2 -> tasks_like w2 w3 -> tasks_like w1 w3.
Proof. intros H1 H2 t. by rewrite H2. Qed.

Lemma tasks_like_with_cmdsn w w' pdu sn : tasks w' = tasks_with_cmdsn (tasks w) pdu sn ->
  tasks_like w w'.
Proof.
  intros E t. rewrite E. unfold tasks_with_cmdsn. destruct (cbdata_task pdu) as [t'|]; [|done].
  destruct (decide (t = t')) as [->|Hne].
  - rewrite lookup_alter_eq. by destruct (tasks w !! t').
  - by rewrite lookup_alter_ne.
Qed.

Lemma consumes_set_cmdsn b sn : consumes_cmdsn (scsi_set_uint32 b 24 sn) = consumes_cmdsn b.
Proof.
  unfold consumes_cmdsn, is_immediate, bhs_opcode. by rewrite byte_at_set32_ne by lia.
Qed.

Lemma removed_commands_cons p q :
  removed_commands (p :: q) = (if h p && cons p then 1 else 0) + removed_commands q.
Proof.
  unfold removed_commands. rewrite filter_cons. destruct (h p && cons p);
    (destruct (decide _); [try done|try done]); cbn; lia.
Qed.

(** The renumbering at the start of a turn. *)
Lemma renumber_run w p g : live w p -> task_live w (the_pdu w p) ->
  exists w1, when (0 <? g) (iscsi_pdu_set_cmdsn p (u32 (pdu_cmdsn (the_pdu w p) - g))) w
               = Ret (tt, w1) /\
    pdus w1 = <[p := renumber g (the_pdu w p)]> (pdus w) /\ tasks_like w w1 /\
    ctx w1 = ctx w /\ have_mt w1 = have_mt w /\ trace w1 = trace w /\
    live w1 p /\ consumes_cmdsn (the_hdr w1 p) = consumes_cmdsn (the_hdr w p).
Proof.
  intros (pdu & b & Hp & Hb) Ht. unfold the_hdr, the_pdu in *. rewrite Hp in *.
  cbn [default from_option id] in *. unfold when, renumber. destruct (0 <? g).
  - eexists. split; [apply (set_cmdsn_run w p pdu); by try eexists|]. split; [done|].
    split; [by eapply tasks_like_with_cmdsn|]. do 3 (split; [done|]). split.
    + exists (with_cmdsn pdu (u32 (pdu_cmdsn pdu - g))),
        (scsi_set_uint32 b 24 (u32 (pdu_cmdsn pdu - g))).
      split; [apply lookup_insert_eq|]. cbn. by rewrite Hb.
    + change (pdus (upd tasks _ _)) with
        (<[p := with_cmdsn pdu (u32 (pdu_cmdsn pdu - g))]> (pdus w)).
      rewrite lookup_insert_eq. cbn [default from_option id]. cbn. rewrite Hb. cbn.
      apply consumes_set_cmdsn.
  - exists w. split; [done|]. split; [by rewrite insert_id|]. split; [apply tasks_like_refl|].
    do 3 (split; [done|]). split; [by exists pdu, b|]. by rewrite Hp.
Qed.

(** The effect of a hit, and of a miss, on the context. *)
Lemma unlink_run w p : h p = true -> outqueue (ctx w) <> [] -> 0 <= cmdsn (ctx w) < 2 ^ 32 ->
  (_ ← when (cons p) (set_ctx (fun c => c <| cmdsn := u32 (cmdsn c - 1) |>));
   outqueue_remove p) w =
  Ret (tt, w <| ctx := rolled_back (removed_commands [p])
                 (filter (fun x => x ∉ removed [p]) (outqueue (ctx w))) (ctx w) |>).
Proof.
  intros Hh Hq Hsn. unfold outqueue_remove.
  assert (Er : removed [p] = [p]) by (unfold removed; rewrite filter_cons_True by done; done).
  assert (Ef : filter (fun x => x ∉ removed [p]) (outqueue (ctx w)) =
               filter (.≠ p) (outqueue (ctx w))).
  { apply list_filter_iff. intros x. rewrite Er, list_elem_of_singleton. done. }
  assert (En : removed_commands [p] = if cons p then 1 else 0).
  { rewrite removed_commands_cons, Hh. by destruct (cons p). }
  rewrite Ef, En. unfold mbind, M_bind, when, mret, M_ret, get_ctx, gets, set_ctx, modify.
  destruct (cons p).
  - change (outqueue (ctx (upd _ _ _))) with (outqueue (ctx w)).
    destruct (outqueue (ctx w)) as [|c q] eqn:Eq; [done|]. reflexivity.
  - change (outqueue (ctx (upd _ _ _))) with (outqueue (ctx w)).
    destruct (outqueue (ctx w)) as [|c q] eqn:Eq; [done|].
    unfold rolled_back. rewrite Z.sub_0_r, u32_small by done. reflexivity.
Qed.

Lemma untouched_ctx (c : iscsi_context) : 0 <= cmdsn c < 2 ^ 32 ->
  rolled_back 0 (filter (fun x => x ∉ removed []) (outqueue c)) c = c.
Proof.
  intros Hsn. unfold rolled_back. rewrite Z.sub_0_r, u32_small by done. rewrite filter_all.
  - by destruct c.
  - apply Forall_forall. intros x _. unfold removed. rewrite filter_nil. apply not_elem_of_nil.
Qed.

Lemma swept_nil w g : 0 <= cmdsn (ctx w) < 2 ^ 32 -> swept w w g [].
Proof.
  intros Hsn. split; [|apply tasks_like_refl| |done|done].
  - intros x. cbn. unfold renumber. cbn. by destruct (pdus w !! x).
  - symmetry. by apply untouched_ctx.
Qed.

Lemma swept_cons w w1 w2 g p q : swept w w1 g [p] ->
  swept w1 w2 (if h p && cons p then g + 1 else g) q -> (p ∉ q) -> swept w w2 g (p :: q).
Proof.
  intros [P1 T1 C1 M1 R1] [P2 T2 C2 M2 R2] Hp.
  assert (H0 : forall g q x, x ∉ q -> gap_of g q x = 0).
  { clear. intros g q. revert g. induction q as [|c q IH]; [done|]. intros g x Hx. cbn.
    apply not_elem_of_cons in Hx as [Hx1 Hx2]. rewrite decide_False by done. by apply IH. }
  split; [|by eapply tasks_like_trans| |congruence|congruence].
  - intros x. rewrite P2, P1. cbn [gap_of]. destruct (decide (x = p)) as [->|Hne].
    + rewrite (H0 _ q p) by done. by destruct (pdus w !! p).
    + change (renumber 0) with (@id iscsi_pdu). by destruct (pdus w !! x).
  - rewrite C2, C1, removed_commands_cons. unfold rolled_back. cbn [outqueue cmdsn].
    change (removed_commands [p]) with (removed_commands ([p] ++ [])). cbn [app].
    rewrite removed_commands_cons. change (removed_commands []) with 0.
    change (outqueue (upd _ _ _)) with (filter (fun x => x ∉ removed [p]) (outqueue (ctx w))).
    rewrite list_filter_filter. change (cmdsn (upd cmdsn _ _)) with
      (u32 (cmdsn (ctx w) - ((if h p && cons p then 1 else 0) + 0))). rewrite sub_u32.
    assert (E : forall l : list nat, filter (fun x => (x ∉ removed q) /\ (x ∉ removed [p])) l =
                filter (fun x => x ∉ removed (p :: q)) l).
    { intros l. apply list_filter_iff. intros x. unfold removed. rewrite !list_elem_of_filter.
      set_solver. }
    rewrite E.
    replace (cmdsn (ctx w) - ((if h p && cons p then 1 else 0) + 0) - removed_commands q)
      with (cmdsn (ctx w) - ((if h p && cons p then 1 else 0) + removed_commands q)) by lia.
    reflexivity.
Qed.

Context (hit : nat -> iscsi_pdu -> IO bool).

Lemma sweep_turn w p g : sweepable hit w [p] -> p ∈ outqueue (ctx w) ->
  0 <= cmdsn (ctx w) < 2 ^ 32 ->
  exists w1, (forall q tmp, sweep hit (p :: q) g tmp w =
      sweep hit q (if h p && cons p then g + 1 else g) (tmp ++ removed [p]) w1) /\
    swept w w1 g [p].
Proof.
  intros (Hl & Ht & Hc & Hh)%Forall_inv Hin Hsn.
  destruct (renumber_run w p g Hl Ht) as (wr & Er & Pr & Tr & Cr & Mr & Rr & Lr & Hr).
  rewrite Hc in Hr. specialize (Hh wr Tr Lr Hr).
  assert (Hpd : forall x, pdus wr !! x = renumber (gap_of g [p] x) <$> pdus w !! x).
  { intros x. rewrite Pr. cbn [gap_of]. destruct (decide (x = p)) as [->|Hne].
    - rewrite lookup_insert_eq. destruct Hl as (pdu & b & Hp & _). unfold the_pdu. by rewrite Hp.
    - rewrite lookup_insert_ne by done. by destruct (pdus w !! x). }
  assert (Hsn' : 0 <= cmdsn (ctx wr) < 2 ^ 32) by by rewrite Cr.
  destruct (h p) eqn:Ep; cbn [andb].
  - assert (Hne : outqueue (ctx wr) <> []) by (rewrite Cr; intros E; rewrite E in Hin; set_solver).
    pose proof (unlink_run wr p Ep Hne Hsn') as Eu.
    match type of Eu with _ = Ret (_, ?v) => exists v end. split; [|by split; rewrite ?Cr].
    intros q tmp. cbn [sweep]. run (live_get w p Hl). run Er. run Hh. cbn [negb].
    assert (Er1 : removed [p] = [p]) by (unfold removed; by rewrite filter_cons_True by done).
    rewrite Er1. run (live_hdr wr p Lr). rewrite Hr. revert Eu. rewrite Er1.
    unfold mbind at 1 2, M_bind at 1 2.
    destruct (when (cons p) _ wr) as [[[] wu]|u]; [|done]. intros Eu. by run Eu.
  - exists wr. split.
    + intros q tmp. cbn [sweep]. run (live_get w p Hl). run Er. run Hh. cbn [negb].
      assert (Er0 : removed [p] = [])
        by (unfold removed; by rewrite filter_cons_False by (rewrite Ep; done)).
      by rewrite Er0, app_nil_r.
    + split; [done..| |done|done]. rewrite Cr.
      assert (E0 : removed_commands [p] = 0) by (rewrite removed_commands_cons, Ep; done).
      assert (Er0 : removed [p] = removed [])
        by (unfold removed; by rewrite filter_cons_False by (rewrite Ep; done)).
      rewrite E0, Er0. symmetry. by apply untouched_ctx.
Qed.

Lemma sweepable_swept w w1 p g q : swept w w1 g [p] -> (p ∉ q) -> sweepable hit w q ->
  sweepable hit w1 q.
Proof.
  intros [P T _ _ _] Hp Hq. unfold sweepable in *. rewrite Forall_forall in Hq |- *.
  intros x Hx. assert (Hne : x <> p) by (intros ->; done). specialize (P x). cbn [gap_of] in P.
  rewrite decide_False in P by done. change (renumber 0) with (@id iscsi_pdu) in P.
  rewrite option_fmap_id in P. destruct (Hq x Hx) as (Hl & Ht & Hc & Hh).
  unfold the_hdr, the_pdu, live, task_live in *. rewrite P. split; [done|]. split; [|split; [done|]].
  - destruct (cbdata_task _) as [t|]; [|done]. specialize (T t).
    destruct Ht as [task Ht]. rewrite Ht in T. by destruct (tasks w1 !! t).
  - intros v Tv Lv. apply Hh; [by eapply tasks_like_trans|done].
Qed.

Lemma sweep_run q : forall w g tmp, NoDup q -> sweepable hit w q ->
  Forall (fun x => x ∈ outqueue (ctx w)) q -> 0 <= cmdsn (ctx w) < 2 ^ 32 ->
  exists w', sweep hit q g tmp w = Ret (tmp ++ removed q, w') /\ swept w w' g q.
Proof.
  induction q as [|p q IH]; intros w g tmp Hnd Hq Hin Hsn.
  { exists w. split; [by rewrite app_nil_r|]. by apply swept_nil. }
  apply NoDup_cons in Hnd as [Hp Hnd]. apply Forall_cons in Hin as [Hpin Hin].
  apply Forall_cons in Hq as [Hq1 Hq].
  destruct (sweep_turn w p g) as (w1 & E1 & S1); [by constructor|done|done|].
  destruct (IH w1 (if h p && cons p then g + 1 else g) (tmp ++ removed [p])) as (w2 & E2 & S2);
    [done|by apply (sweepable_swept w w1 p g)| | |].
  - rewrite (sw_ctx _ _ _ _ S1), Forall_forall in *. intros x Hx.
    change (x ∈ filter (fun x => x ∉ removed [p]) (outqueue (ctx w))).
    apply list_elem_of_filter. split; [|by apply Hin]. unfold removed.
    rewrite list_elem_of_filter, list_elem_of_singleton. intros [_ ->]. done.
  - rewrite (sw_ctx _ _ _ _ S1). apply u32_range.
  - exists w2. split; [|by apply (swept_cons w w1)].
    rewrite E1, E2. unfold removed. rewrite <- app_assoc, <- filter_app. done.
Qed.
End Sweep.

(** *** Cancelling the commands of a LUN *)

Definition lun_hit (w : world) (lun : Z) (p : nat) : bool :=
  match t ← cbdata_task (the_pdu w p); tasks w !! t with
  | Some task => task_lun task =? lun
  | None => false
  end.

Definition cmd_of (w : world) (p : nat) : bool := consumes_cmdsn (the_hdr w p).

Lemma on_lun_run w lun v x : task_live w (the_pdu w x) -> tasks_like w v ->
  on_lun (the_pdu w x) lun v = Ret (lun_hit w lun x, v).
Proof.
  intros Ht Tv. unfold on_lun, lun_hit, iscsi_scsi_get_task_from_pdu, task_live in *.
  destruct (cbdata_task (the_pdu w x)) as [t|]; [|done]. cbn [mbind option_bind].
  specialize (Tv t). destruct Ht as [task Ht]. rewrite Ht in Tv |- *. cbn in Tv.
  destruct (tasks v !! t) as [task'|] eqn:Et; [|done]. injection Tv as Tv.
  unfold get_task, mbind, M_bind, getS. rewrite Et. unfold mret, M_ret. by rewrite Tv.
Qed.

Lemma lun_sweepable w lun q : Forall (fun x => completable w x /\ task_live w (the_pdu w x)) q ->
  sweepable (lun_hit w lun) (cmd_of w) (fun _ pdu => on_lun pdu lun) w q.
Proof.
  intros Hq. eapply Forall_impl; [exact Hq|]. intros x [Hc Ht]. split; [by apply completable_live|].
  split; [done|]. split; [done|]. intros v Tv _ _. by apply on_lun_run.
Qed.

Lemma renumber_cb g pdu status data : cb_event (renumber g pdu) status data = cb_event pdu status data.
Proof. unfold renumber. by destruct (0 <? g). Qed.

Lemma renumber_completable h k w w' g q p : swept h k w w' g q ->
  completable w p -> completable w' p /\ the_pdu w' p = renumber (gap_of h k g q p) (the_pdu w p).
Proof.
  intros [P T _ _ _] (pdu & Hp & [b Hb] & Hcb). specialize (P p). rewrite Hp in P. cbn in P.
  unfold the_pdu. rewrite P, Hp. split; [|done]. exists (renumber (gap_of h k g q p) pdu).
  split; [done|]. unfold renumber. destruct (0 <? _).
  - split; [by cbn; rewrite Hb|]. intros H. destruct (Hcb H) as (t & Ht & Hd). exists t.
    split; [done|]. specialize (T t). apply elem_of_dom in Hd as [task Hd]. rewrite Hd in T.
    apply elem_of_dom. by destruct (tasks w' !! t).
  - split; [done|]. intros H. destruct (Hcb H) as (t & Ht & Hd). exists t.
    split; [done|]. specialize (T t). apply elem_of_dom in Hd as [task Hd]. rewrite Hd in T.
    apply elem_of_dom. by destruct (tasks w' !! t).
Qed.

(** The completion loop after a sweep, run on the first PDU only. *)
Lemma complete_tmp_run w tmp msg status : Forall (completable w) tmp ->
  exists w', complete_tmp tmp msg status w = Ret (tt, w') /\
    (forall x, pdus w' !! x = if bool_decide (hd_error tmp = Some x) then None else pdus w !! x) /\
    steps_to w w' id
      (match tmp with [] => [] | p :: _ => cb_event (the_pdu w p) status Data_none end).
Proof.
  intros Hq. destruct tmp as [|p tmp]; [exists w; split; [done|]; split; [done|apply steps_to_refl]|].
  apply Forall_inv in Hq as Hp. cbn [complete_tmp].
  set (w1 := w <| ctx ::= fun c => c <| error_string := msg |> |>).
  assert (E1 : iscsi_set_error msg w = Ret (tt, w1)) by done. run E1.
  destruct (complete_and_free_run w1 p (the_pdu w p) status (completable_pdu w p Hp))
    as (w2 & E2 & P2 & _ & [C2 T2 M2 R2]); [done|]. exists w2. split; [done|]. split.
  - intros x. rewrite P2. cbn [hd_error]. case_bool_decide as Hx.
    + injection Hx as ->. apply lookup_delete_eq.
    + apply lookup_delete_ne. intros ->. done.
  - by split.
Qed.

(** iscsi_cancel_lun_pdus unlinks every queued PDU whose task is on the LUN,
    renumbers the PDUs that stay and gives the CmdSNs back, but calls the callback of
    only the first unlinked PDU and frees only that one; the others are neither
    completed nor freed. *)
Theorem cancel_lun_completes_only_the_first (w : world) (lun : Z)
  (Hw : unlocked w) (Hsn : 0 <= cmdsn (ctx w) < 2 ^ 32) (Hnd : NoDup (outqueue (ctx w)))
  (Hq : Forall (fun x => completable w x /\ task_live w (the_pdu w x)) (outqueue (ctx w))) :
  let q := outqueue (ctx w) in
  let gone := removed (lun_hit w lun) q in
  exists w', iscsi_cancel_lun_pdus lun w = Ret (tt, w') /\ unlocked w' /\
    outqueue (ctx w') = filter (fun x => x ∉ gone) q /\ waitpdu (ctx w') = waitpdu (ctx w) /\
    cmdsn (ctx w') = u32 (cmdsn (ctx w) - removed_commands (lun_hit w lun) (cmd_of w) q) /\
    trace w' = trace w ++ match gone with
      | [] => []
      | p :: _ => cb_event (the_pdu w p) SCSI_STATUS_CANCELLED Data_none
      end /\
    (forall x, pdus w' !! x = if bool_decide (hd_error gone = Some x) then None
       else renumber (gap_of (lun_hit w lun) (cmd_of w) 0 q x) <$> pdus w !! x).
Proof.
  intros q gone. unfold iscsi_cancel_lun_pdus. run (lock_run w Hw).
  set (wa := set_lock (have_mt w) w). run (get_ctx_run outqueue wa).
  change (outqueue (ctx wa)) with q.
  destruct (sweep_run (lun_hit w lun) (cmd_of w) (fun _ pdu => on_lun pdu lun) q wa 0 [])
    as (w1 & E1 & S1); [done|by apply (lun_sweepable wa lun q)| |done|].
  { apply Forall_forall. by intros x Hx. }
  rewrite <- cancel_lun_is_sweep in E1. run E1. cbn [app]. fold gone.
  pose proof (sw_ctx _ _ _ _ _ _ S1) as C1.
  assert (Hl : iscsi_lock (ctx w1) = have_mt w1).
  { rewrite C1, (sw_mt _ _ _ _ _ _ S1). done. }
  run (unlock_run w1 Hl). set (w2 := set_lock false w1).
  assert (Hgone : Forall (completable w2) gone).
  { apply Forall_forall. intros x Hx. apply list_elem_of_filter in Hx as [_ Hx].
    rewrite Forall_forall in Hq. destruct (Hq x Hx) as [Hc _].
    apply (renumber_completable _ _ wa w1 0 q x S1 Hc). }
  destruct (complete_tmp_run w2 gone "command cancelled" SCSI_STATUS_CANCELLED Hgone)
    as (w3 & E3 & P3 & S3).
  destruct (core_fields _ _ (st_core _ _ _ _ S3)) as (Ho & Hs & Hwt & Hk & _).
  exists w3. split; [done|]. split; [done|].
  split; [by rewrite Ho; change (outqueue (ctx w1) = filter (fun x => x ∉ gone) q); rewrite C1|].
  split; [by rewrite Hwt; change (waitpdu (ctx w1) = waitpdu (ctx w)); rewrite C1|].
  split; [rewrite Hs; change (cmdsn (ctx w1) =
    u32 (cmdsn (ctx w) - removed_commands (lun_hit w lun) (cmd_of w) q)); by rewrite C1|].
  split.
  - rewrite (st_trace _ _ _ _ S3). change (trace w2) with (trace w1).
    rewrite (sw_trace _ _ _ _ _ _ S1). change (trace wa) with (trace w). f_equal.
    destruct gone as [|p r] eqn:Eg; [done|].
    assert (Hp : p ∈ q).
    { eapply (list_elem_of_filter (fun x => lun_hit w lun x = true)). fold gone. fold (removed (lun_hit w lun) q).
      fold gone. rewrite Eg. set_solver. }
    rewrite Forall_forall in Hq. destruct (Hq p Hp) as [Hc _].
    destruct (renumber_completable _ _ wa w1 0 q p S1 Hc) as [_ Ep].
    change (the_pdu w2 p) with (the_pdu w1 p). by rewrite Ep, renumber_cb.
  - intros x. rewrite P3. change (pdus w2) with (pdus w1).
    by rewrite (sw_pdus _ _ _ _ _ _ S1).
Qed.

(** A command with a callback of the user. *)
Definition sample_cmd (sn : Z) (f : nat) (t : option nat) : iscsi_pdu :=
  (sample_pdu ISCSI_PDU_SCSI_REQUEST sn) <| pdu_callback := Some (Cb_user f) |>
    <| cbdata_task := t |>.

(** Commands 1 and 2, of tasks on LUN 0. *)
Definition sample_cancel (out wait : list nat) : world :=
  sample_world
    <| pdus := {[ 1%nat := sample_cmd 3 7 (Some 10%nat); 2%nat := sample_cmd 4 8 (Some 11%nat) ]} |>
    <| tasks := {[ 10%nat := new_task; 11%nat := new_task ]} |>
    <| ctx ::= fun c => c <| outqueue := out |> <| waitpdu := wait |> |>.

Lemma cancel_pdus_completes_all_witness :
  exists w', iscsi_cancel_pdus (sample_cancel [2%nat] [1%nat]) = Ret (tt, w') /\
    trace w' = [Ev_callback 8 SCSI_STATUS_CANCELLED Data_none 0;
                Ev_callback 7 SCSI_STATUS_CANCELLED Data_none 0] /\ cmdsn (ctx w') = 4.
Proof.
  destruct (cancel_pdus_completes_all (sample_cancel [2%nat] [1%nat]))
    as (w' & E & _ & _ & _ & T & C & _); [reflexivity|cbn; lia|..].
  - apply (bool_decide_unpack _). reflexivity.
  - repeat constructor; (eexists; split; [reflexivity|]; split; [by eexists|discriminate]).
  - exists w'. split; [exact E|]. split; [exact T|exact C].
Defined.

Lemma cancel_lun_completes_only_the_first_witness :
  exists w', iscsi_cancel_lun_pdus 0 (sample_cancel [1%nat; 2%nat] []) = Ret (tt, w') /\
    outqueue (ctx w') = [] /\ is_Some (pdus w' !! 2%nat) /\
    trace w' = [Ev_callback 7 SCSI_STATUS_CANCELLED Data_none 0].
Proof.
  destruct (cancel_lun_completes_only_the_first (sample_cancel [1%nat; 2%nat] []) 0)
    as (w' & E & _ & Q & _ & _ & T & P); [reflexivity|cbn; lia|..].
  - apply (bool_decide_unpack _). reflexivity.
  - repeat constructor; try (eexists; split; [reflexivity|]; split; [by eexists|discriminate]);
      by eexists.
  - exists w'. split; [exact E|]. split; [exact Q|]. split; [|exact T].
    rewrite (P 2%nat). by eexists.
Defined.

(** *** The timeout scan and the lock *)

Definition expired (w : world) (pdu : iscsi_pdu) : Prop :=
  pdu_scsi_timeout pdu <> 0 /\ pdu_scsi_timeout pdu <= now w.

Lemma busy_write_deadlocks w p b : pdus w !! p = Some (the_pdu w p) ->
  ddata (outdata (the_pdu w p)) = Some b -> bhs_opcode b = ISCSI_PDU_SCSI_REQUEST ->
  write_opcode (byte_at b 32) = true -> have_mt w = true -> iscsi_lock (ctx w) = true ->
  iscsi_pdu_data_out_inprocess p w = Undef Deadlock.
Proof.
  intros Hp Hb Hop Hwr Hmt Hl. unfold iscsi_pdu_data_out_inprocess.
  assert (Hh : hdr_of p w = Ret (b, w)).
  { unfold hdr_of. run (get_pdu_run w p _ Hp). by rewrite Hb. }
  run Hh. run (get_pdu_run w p _ Hp). rewrite Hop, Hwr. rewrite Z.eqb_refl.
  cbn [negb]. assert (Hlk : iscsi_mt_spin_lock w = Undef Deadlock).
  { unfold iscsi_mt_spin_lock, mbind, M_bind, getS. by rewrite Hmt, Hl. }
  unfold mbind at 1, M_bind at 1. by rewrite Hlk.
Qed.

(** With multithreading, iscsi_timeout_scan locks a lock it holds, and so never
    returns, when the first waiting PDU is an expired WRITE10, WRITE12 or WRITE16
    command. *)
Theorem timeout_scan_deadlocks_on_write (w : world) (p : nat) (q : list nat) (b : bytes)
  (Hw : unlocked w) (Hmt : have_mt w = true) (Hout : outqueue (ctx w) = [])
  (Hwait : waitpdu (ctx w) = p :: q) (Hp : pdus w !! p = Some (the_pdu w p))
  (Hexp : expired w (the_pdu w p)) (Hb : ddata (outdata (the_pdu w p)) = Some b)
  (Hop : bhs_opcode b = ISCSI_PDU_SCSI_REQUEST) (Hwr : write_opcode (byte_at b 32) = true) :
  iscsi_timeout_scan w = Undef Deadlock.
Proof.
  unfold iscsi_timeout_scan. assert (E0 : getS w = Ret (w, w)) by done. run E0. cbv zeta.
  run (lock_run w Hw). set (w1 := set_lock (have_mt w) w). run (get_ctx_run outqueue w1).
  change (outqueue (ctx w1)) with (outqueue (ctx w)). rewrite Hout. cbn [timeout_outqueue].
  assert (E1 : (mret [] : IO (list nat)) w1 = Ret ([], w1)) by done. run E1.
  run (unlock_run w1 eq_refl). set (w2 := set_lock false w1). cbn [complete_tmp].
  assert (E2 : (mret tt : IO unit) w2 = Ret (tt, w2)) by done. run E2.
  run (lock_run w2 eq_refl). set (w3 := set_lock (have_mt w2) w2). run (get_ctx_run waitpdu w3).
  change (waitpdu (ctx w3)) with (waitpdu (ctx w)). rewrite Hwait. cbn [timeout_waitpdu].
  destruct Hexp as [He1 He2].
  assert (Et : ((pdu ← get_pdu p;
      if pdu_scsi_timeout pdu =? 0 then timeout_waitpdu (now w) q [] else
      if now w <? pdu_scsi_timeout pdu then timeout_waitpdu (now w) q [] else
      busy ← iscsi_pdu_data_out_inprocess p;
      if (busy : bool) then timeout_waitpdu (now w) q [] else
      _ ← waitpdu_remove p;
      timeout_waitpdu (now w) q ([] ++ [p])) w3 : res (list nat * world)) = Undef Deadlock).
  { run (get_pdu_run w3 p (the_pdu w p) Hp). destruct (Z.eqb_spec (pdu_scsi_timeout (the_pdu w p)) 0); [done|].
    destruct (Z.ltb_spec (now w) (pdu_scsi_timeout (the_pdu w p))); [lia|].
    unfold mbind, M_bind. by rewrite (busy_write_deadlocks w3 p b). }
  unfold mbind at 1, M_bind at 1. by rewrite Et.
Qed.

Lemma timeout_scan_deadlocks_on_write_witness :
  let pdu := (sample_cmd 3 7 (Some 10%nat)) <| pdu_scsi_timeout := 900 |>
    <| outdata ::= fun d => d <| ddata := option_map (insert 32%nat SCSI_OPCODE_WRITE10) (ddata d) |> |> in
  iscsi_timeout_scan ((sample_cancel [] [1%nat]) <| pdus := {[ 1%nat := pdu ]} |>) = Undef Deadlock.
Proof.
  intros pdu. eapply timeout_scan_deadlocks_on_write; try reflexivity.
  split; vm_compute; discriminate.
Defined.
