(* ===== verification/Iovec.v ===== *)
(** Transfers between the socket and the io vectors of a task
    (src/lib/socket.c: [iscsi_iovector_readv_writev]; src/lib/iscsi-command.c:
    [iscsi_get_scsi_task_iovector_in], [iscsi_get_scsi_task_iovector_out]).

    An io vector is the list of its elements; the buffers lie in the memory of
    the user.  The theorems read an io vector as one buffer, the
    concatenation of its elements (its addresses are [addrs]): a transfer of [count] bytes at
    [pos] touches exactly that range of it, wherever the boundaries of the
    elements are and however the kernel cuts the transfer short. *)

From S2P Require Import SList Prelude Bytes Crc32c Task Context Pdu Queue Complete Cancel.

(** ** The memory of the user *)

(** [n] bytes from [a] on; memory that is not mapped must not be read. *)
Fixpoint mem_read (m : gmap Z Z) (a : Z) (n : nat) : res bytes :=
  match n with
  | O => mret []
  | S n => match m !! a with
           | None => Undef OutOfBounds
           | Some b => l ← mem_read m (a + 1) n; mret (b :: l)
           end
  end.

Fixpoint mem_write (m : gmap Z Z) (a : Z) (l : bytes) : res (gmap Z Z) :=
  match l with
  | [] => mret m
  | b :: l => match m !! a with
              | None => Undef OutOfBounds
              | Some _ => mem_write (<[a := b]> m) (a + 1) l
              end
  end.

(** ** The socket *)

Definition get_sys {A} (f : system -> A) : IO A := gets (fun w => f (sys w)).
Definition set_sys (f : system -> system) : IO unit := modify (fun w => w <| sys ::= f |>).
Definition set_errno (e : Z) : IO unit := set_sys (fun s => s <| errno := e |>).

(** [-1], or at most [count] bytes of [data] taken by the kernel. *)
Definition send (data : bytes) : IO Z :=
  l ← get_sys tx;
  match l with
  | [] => _ ← set_errno EAGAIN; mret (-1)
  | Io_error e :: l => _ ← set_sys (fun s => s <| tx := l |>); _ ← set_errno e; mret (-1)
  | Io_ok n :: l =>
      let k := take (Z.to_nat n) data in
      _ ← set_sys (fun s => s <| tx := l |> <| sent ::= fun b => b ++ k |>);
      mret (Z.of_nat (length k))
  end.

(** [-1] and nothing, or at most [count] bytes handed over by the kernel: none
    when the peer closed the connection, and none when [count] is 0. *)
Definition recv (count : Z) : IO (Z * bytes) :=
  l ← get_sys rx;
  match l with
  | [] => _ ← set_errno EAGAIN; mret (-1, [])
  | Io_error e :: l => _ ← set_sys (fun s => s <| rx := l |>); _ ← set_errno e; mret (-1, [])
  | Io_ok n :: l =>
      p ← get_sys peer;
      let k := Z.to_nat (Z.min n count) in
      _ ← set_sys (fun s => s <| rx := l |> <| peer := drop k p |>);
      mret (Z.of_nat (length (take k p)), take k p)
  end.

(** [writev] and [readv] on the elements given. *)
Fixpoint gather (m : gmap Z Z) (v : list scsi_iovec) : res bytes :=
  match v with
  | [] => mret []
  | e :: v => l ← mem_read m (iov_base e) (Z.to_nat (iov_len e)); l' ← gather m v; mret (l ++ l')
  end.

Fixpoint scatter (m : gmap Z Z) (v : list scsi_iovec) (l : bytes) : res (gmap Z Z) :=
  match v with
  | [] => mret m
  | e :: v =>
      let k := Z.to_nat (iov_len e) in
      m ← mem_write m (iov_base e) (take k l);
      scatter m v (drop k l)
  end.

Definition writev (v : list scsi_iovec) : IO Z :=
  m ← get_sys umem;
  data ← lift (gather m v);
  send data.

Definition total_len (v : list scsi_iovec) : Z := foldr (fun e n => iov_len e + n) 0 v.

Definition readv (v : list scsi_iovec) : IO Z :=
  '(n, data) ← recv (total_len v);
  m ← get_sys umem;
  m ← lift (scatter m v data);
  _ ← set_sys (fun s => s <| umem := m |>);
  mret n.

(** ** iscsi_iovector_readv_writev *)

(** [iovector->iov[i]]; the array ends where the list does. *)
Definition iov_at (v : list scsi_iovec) (i : Z) : res scsi_iovec :=
  if i <? 0 then Undef OutOfBounds else
  match v !! Z.to_nat i with Some e => mret e | None => Undef OutOfBounds end.

(** [while (pos >= iov->iov_len)]: the position in the first element to pass,
    or [None] when the vector is exhausted; and the vector with its [offset]
    and [consumed] moved on. *)
Fixpoint forward_head (fuel : nat) (iv : scsi_iovector) (v : list scsi_iovec) (pos : Z)
  : res (scsi_iovector * option Z) :=
  e ← iov_at v (consumed iv);
  if pos <? iov_len e then mret (iv, Some pos) else
  match fuel with
  | O => Undef NoFuel
  | S fuel =>
      let iv := iv <| offset := u64 (offset iv + iov_len e) |> <| consumed := consumed iv + 1 |> in
      let pos := u32 (pos - iov_len e) in
      if niov iv <=? consumed iv then mret (iv, None) else forward_head fuel iv v pos
  end.

(** [while (len2 > iov2->iov_len)]: the number of elements and the length of
    the last one, or [None] when the vector is too short. *)
Fixpoint forward_tail (fuel : nat) (iv : scsi_iovector) (v : list scsi_iovec) (n len2 : Z)
  : res (option (Z * Z)) :=
  e ← iov_at v (consumed iv + n - 1);
  if len2 <=? iov_len e then mret (Some (n, len2)) else
  match fuel with
  | O => Undef NoFuel
  | S fuel =>
      if niov iv <? consumed iv + (n + 1) then mret None
      else forward_tail fuel iv v (n + 1) (u32 (len2 - iov_len e))
  end.

(** The elements passed: [n] from [consumed] on, the first without its first
    [pos] bytes, the last cut to [len2]. *)
Definition passed (iv : scsi_iovector) (v : list scsi_iovec) (n pos len2 : Z) : list scsi_iovec :=
  let l := take (Z.to_nat n) (drop (Z.to_nat (consumed iv)) v) in
  let l := alter (fun e => e <| iov_len := len2 |>) (Z.to_nat (n - 1)) l in
  alter (fun e => Build_scsi_iovec (iov_base e + pos) (u64 (iov_len e - pos))) 0%nat l.

(** The loop that updates the data digest with the first [n] bytes of the
    elements passed. *)
Fixpoint digest_iov (m : gmap Z Z) (crc : Z) (v : list scsi_iovec) (n : Z) : res Z :=
  match v with
  | [] => mret crc
  | e :: v =>
      if n =? 0 then mret crc else
      let chunk := MIN n (iov_len e) in
      l ← mem_read m (iov_base e) (Z.to_nat chunk);
      digest_iov m (crc32c_chain crc l) v (n - chunk)
  end.

(** [return -1] with [errno = EINVAL]; the message of the read or the write
    case. *)
Definition iov_fail {A} (msg : string) (a : A) : IO (Z * A) :=
  _ ← iscsi_set_error msg; _ ← set_errno EINVAL; mret (-1, a).

(** Returns the count, the vector and the digest.  The elements are restored
    before the return, so the array is as before. *)
Definition iscsi_iovector_readv_writev (iv : scsi_iovector) (pos count : Z) (digest : option Z)
  (do_write : bool) : IO (Z * (scsi_iovector * option Z)) :=
  match iov iv with
  | None => iov_fail "%s: iovector empty buffer" (iv, digest)
  | Some v =>
      if pos <? offset iv then
        iov_fail "%s: iovector reset. pos(%d) is smaller thancurrent offset(%zu)" (iv, digest)
      else if niov iv <=? consumed iv then
        iov_fail "%s: iovector consumed(%d) exceeds niov(%d)" (iv, digest)
      else
      '(iv, r) ← lift (forward_head (Z.to_nat (niov iv)) iv v (u32 (pos - offset iv)));
      match r with
      | None => iov_fail "%s: iovector consumed(%d) exceeds niov(%d) on head" (iv, digest)
      | Some pos =>
          r ← lift (forward_tail (Z.to_nat (niov iv)) iv v 1 (u32 (pos + count)));
          match r with
          | None =>
              iov_fail "%s: iovector consumed(%d) + niov(%d) exceeds niov(%d) on tail" (iv, digest)
          | Some (k, len2) =>
              let segs := passed iv v k pos len2 in
              n ← (if do_write then writev segs else readv segs);
              m ← get_sys umem;
              digest ← (match digest with
                        | Some crc => if 0 <? n then crc ← lift (digest_iov m crc segs n);
                                                     mret (Some crc)
                                      else mret (Some crc)
                        | None => mret None
                        end);
              if count <? n then _ ← set_errno EINVAL; mret (-1, (iv, digest)) else
              e ← get_sys errno;
              _ ← when ((n <=? 0) && negb (e =? EAGAIN) && (e =? EINTR))
                    (iscsi_set_error "%s: socket failed, errno:%d");
              mret (n, (iv, digest))
          end
      end
  end.

(** ** The io vectors of a PDU *)

(** The task whose [iovector_in] receives the data of a Data-In PDU. *)
Definition iscsi_get_scsi_task_iovector_in (inp : iscsi_in_pdu) : IO (option nat) :=
  if negb (byte_at (hdr inp) 0 &&& 0x3f =? ISCSI_PDU_DATA_IN) then mret None else
  _ ← iscsi_mt_spin_lock;
  q ← get_ctx waitpdu;
  r ← find_itt q (scsi_get_uint32 (hdr inp) 16);
  _ ← iscsi_mt_spin_unlock;
  match r with
  | None => mret None
  | Some p =>
      pdu ← get_pdu p;
      t ← deref (cbdata_task pdu);
      task ← get_task t;
      match iov (iovector_in task) with None => mret None | Some _ => mret (Some t) end
  end.

(** The task whose [iovector_out] holds the payload of a PDU. *)
Definition iscsi_get_scsi_task_iovector_out (p : nat) : IO (option nat) :=
  pdu ← get_pdu p;
  t ← deref (cbdata_task pdu);
  task ← get_task t;
  match iov (iovector_out task) with None => mret None | Some _ => mret (Some t) end.

(** * Lemmas *)

(** ** An io vector as one buffer *)

(** The addresses of the bytes of an io vector, in order. *)
Definition addrs (v : list scsi_iovec) : list Z :=
  concat (map (fun e => seqZ (iov_base e) (iov_len e)) v).

Definition lens_ok (v : list scsi_iovec) : Prop := Forall (fun e => 0 <= iov_len e) v.

Fixpoint read_addrs (m : gmap Z Z) (l : list Z) : res bytes :=
  match l with
  | [] => mret []
  | a :: l => match m !! a with
              | None => Undef OutOfBounds
              | Some b => r ← read_addrs m l; mret (b :: r)
              end
  end.

Lemma addrs_app v v' : addrs (v ++ v') = addrs v ++ addrs v'.
Proof. unfold addrs. by rewrite map_app, concat_app. Qed.

Lemma length_addrs v : lens_ok v -> Z.of_nat (length (addrs v)) = total_len v.
Proof.
  induction 1 as [|e v He Hv IH]; [done|].
  change (total_len (e :: v)) with (iov_len e + total_len v).
  change (addrs (e :: v)) with (seqZ (iov_base e) (iov_len e) ++ addrs v).
  rewrite length_app, length_seqZ. lia.
Qed.

Lemma total_len_app v v' : total_len (v ++ v') = total_len v + total_len v'.
Proof.
  induction v as [|e v IH]; [done|]. cbn [app].
  change (total_len (e :: v ++ v')) with (iov_len e + total_len (v ++ v')).
  change (total_len (e :: v)) with (iov_len e + total_len v). lia.
Qed.

Lemma total_len_nonneg v : lens_ok v -> 0 <= total_len v.
Proof. intros H. rewrite <- length_addrs by done. lia. Qed.

Lemma mem_read_addrs m n : forall a, mem_read m a n = read_addrs m (seqZ a (Z.of_nat n)).
Proof.
  induction n as [|n IH]; intros a; [done|]. cbn [mem_read].
  rewrite (seqZ_cons a) by lia. cbn [read_addrs]. destruct (m !! a) as [b|]; [|done].
  rewrite IH. by replace (Z.pred (Z.of_nat (S n))) with (Z.of_nat n) by lia.
Qed.

Lemma read_addrs_app m l : forall l', read_addrs m (l ++ l') =
  (b ← read_addrs m l; b' ← read_addrs m l'; mret (b ++ b')).
Proof.
  induction l as [|a l IH]; intros l'; cbn [app read_addrs].
  - unfold mbind, res_bind, mret, res_ret. by destruct (read_addrs m l').
  - destruct (m !! a) as [b|]; [|done]. rewrite IH. unfold mbind, res_bind, mret, res_ret.
    destruct (read_addrs m l); [|done]. by destruct (read_addrs m l').
Qed.

Lemma gather_addrs m v : lens_ok v -> gather m v = read_addrs m (addrs v).
Proof.
  induction 1 as [|e v He Hv IH]; [done|]. cbn [gather]. unfold addrs. cbn [map concat].
  fold (addrs v). by rewrite read_addrs_app, IH, mem_read_addrs, Z2Nat.id by exact He.
Qed.

Lemma read_addrs_length m l b : read_addrs m l = Ret b -> length b = length l.
Proof.
  revert b. induction l as [|a l IH]; intros b E; cbn [read_addrs] in E.
  - by injection E as <-.
  - destruct (m !! a); [|done]. unfold mbind, res_bind in E.
    destruct (read_addrs m l) as [r|] eqn:Er; [|done]. injection E as <-. cbn. f_equal. by apply IH.
Qed.

Lemma read_addrs_take m l b n : read_addrs m l = Ret b -> read_addrs m (take n l) = Ret (take n b).
Proof.
  revert b n. induction l as [|a l IH]; intros b n E; cbn [read_addrs] in E.
  - injection E as <-. by rewrite !take_nil.
  - destruct (m !! a) as [x|] eqn:Ea; [|done]. unfold mbind, res_bind in E.
    destruct (read_addrs m l) as [r|] eqn:Er; [|done]. injection E as <-.
    destruct n as [|n]; [done|]. cbn [take read_addrs]. rewrite Ea. by rewrite (IH r n).
Qed.

Lemma read_addrs_drop m l b n : read_addrs m l = Ret b -> read_addrs m (drop n l) = Ret (drop n b).
Proof.
  revert b n. induction l as [|a l IH]; intros b n E; cbn [read_addrs] in E.
  - injection E as <-. by rewrite !drop_nil.
  - destruct (m !! a) as [x|] eqn:Ea; [|done]. unfold mbind, res_bind in E.
    destruct (read_addrs m l) as [r|] eqn:Er; [|done]. injection E as <-.
    destruct n as [|n]; [cbn [drop read_addrs]; by rewrite Ea, Er|]. cbn [drop]. by apply IH.
Qed.

Lemma seqZ_take m n k : 0 <= k <= n -> take (Z.to_nat k) (seqZ m n) = seqZ m k.
Proof.
  intros Hk. replace n with (k + (n - k)) by lia. rewrite seqZ_app by lia.
  apply take_app_length'. by rewrite length_seqZ.
Qed.

Lemma seqZ_drop m n k : 0 <= k <= n -> drop (Z.to_nat k) (seqZ m n) = seqZ (m + k) (n - k).
Proof.
  intros Hk. replace n with (k + (n - k)) at 1 by lia. rewrite seqZ_app by lia.
  apply drop_app_length'. by rewrite length_seqZ.
Qed.

(** Stores at a list of addresses. *)
Fixpoint write_addrs (m : gmap Z Z) (l : list Z) (data : bytes) : res (gmap Z Z) :=
  match data, l with
  | b :: data, a :: l => match m !! a with
                         | None => Undef OutOfBounds
                         | Some _ => write_addrs (<[a := b]> m) l data
                         end
  | _, _ => mret m
  end.

Lemma mem_write_addrs data : forall m a, mem_write m a data =
  write_addrs m (seqZ a (Z.of_nat (length data))) data.
Proof.
  induction data as [|b data IH]; intros m a; [done|]. cbn [mem_write length].
  rewrite (seqZ_cons a) by lia. cbn [write_addrs]. destruct (m !! a); [|done].
  rewrite IH. by replace (Z.pred (Z.of_nat (S (length data)))) with (Z.of_nat (length data)) by lia.
Qed.

Lemma write_addrs_take m l data k :
  write_addrs m (take k l) (take k data) = write_addrs m (take k l) data.
Proof.
  revert m l data. induction k as [|k IH]; intros m l data.
  - rewrite !take_0. by destruct data.
  - destruct l as [|a l]; [by destruct data|]. destruct data as [|b data]; [done|].
    cbn [take write_addrs]. destruct (m !! a); [|done]. apply IH.
Qed.

Lemma write_addrs_enough m l data k :
  (length data <= k)%nat -> write_addrs m (take k l) data = write_addrs m l data.
Proof.
  revert m l data. induction k as [|k IH]; intros m l data Hk.
  - destruct data; [|cbn in Hk; lia]. by destruct l.
  - destruct l as [|a l]; [done|]. destruct data as [|b data]; [done|].
    cbn [take write_addrs]. destruct (m !! a); [|done]. apply IH. cbn in Hk. lia.
Qed.

Lemma write_addrs_app m l l' data : write_addrs m (l ++ l') data =
  (m' ← write_addrs m l data; write_addrs m' l' (drop (length l) data)).
Proof.
  revert m data. induction l as [|a l IH]; intros m data; [by destruct data|].
  destruct data as [|b data]; [by destruct l'|]. cbn [app write_addrs length drop].
  destruct (m !! a); [|done]. apply IH.
Qed.

Lemma scatter_addrs v : forall m data, lens_ok v -> scatter m v data = write_addrs m (addrs v) data.
Proof.
  induction v as [|e v IH]; intros m data Hv.
  { by destruct data. }
  apply Forall_cons in Hv as [He Hv]. cbn [scatter].
  change (addrs (e :: v)) with (seqZ (iov_base e) (iov_len e) ++ addrs v).
  rewrite write_addrs_app, length_seqZ. rewrite mem_write_addrs.
  rewrite length_take.
  replace (Z.of_nat (Z.to_nat (iov_len e) `min` length data))
    with (Z.min (iov_len e) (Z.of_nat (length data))) by lia.
  assert (E : write_addrs m (seqZ (iov_base e) (Z.min (iov_len e) (Z.of_nat (length data))))
      (take (Z.to_nat (iov_len e)) data) = write_addrs m (seqZ (iov_base e) (iov_len e)) data).
  { destruct (decide (iov_len e <= Z.of_nat (length data))).
    - rewrite Z.min_l by lia. rewrite <- (seqZ_take _ (iov_len e)) by lia. apply write_addrs_take.
    - rewrite Z.min_r by lia. rewrite (take_ge data) by lia.
      rewrite <- (seqZ_take _ (iov_len e)) by lia. rewrite Nat2Z.id. by apply write_addrs_enough. }
  unfold mbind, res_bind in *. rewrite E. destruct (write_addrs m _ data); [|done]. by apply IH.
Qed.

(** Stores at distinct mapped addresses. *)
Lemma write_addrs_run l : forall m data, NoDup l -> Forall (fun a => is_Some (m !! a)) l ->
  exists m', write_addrs m l data = Ret m' /\
    (forall i a b, l !! i = Some a -> data !! i = Some b -> m' !! a = Some b) /\
    (forall a, a ∉ take (length data) l -> m' !! a = m !! a).
Proof.
  induction l as [|a l IH]; intros m data Hnd Hm.
  { exists m. split; [by destruct data|]. split; [intros i a b Hi; by rewrite lookup_nil in Hi|done]. }
  apply NoDup_cons in Hnd as [Ha Hnd]. apply Forall_cons in Hm as [[x Hx] Hm].
  destruct data as [|b data]; [exists m; split; [done|]; split; [|done]; by intros|].
  destruct (IH (<[a := b]> m) data Hnd) as (m' & E & H1 & H2).
  { eapply Forall_impl; [exact Hm|]. intros a' [y Hy]. destruct (decide (a = a')) as [->|Hne];
      [rewrite lookup_insert_eq|rewrite lookup_insert_ne by done]; by eexists. }
  exists m'. cbn [write_addrs]. rewrite Hx. split; [done|]. split.
  - intros [|i] a' b' Hi Hb; cbn in Hi, Hb; [|by eapply H1].
    injection Hi as <-. injection Hb as <-. rewrite H2; [apply lookup_insert_eq|].
    intros Hin. apply Ha. apply list_elem_of_lookup in Hin as [j Hj]. apply lookup_take_Some in Hj as [Hj _].
    by eapply list_elem_of_lookup_2.
  - intros a' Hin. cbn [length take] in Hin. apply not_elem_of_cons in Hin as [Hne Hin].
    rewrite H2 by done. by apply lookup_insert_ne.
Qed.

Lemma read_addrs_total m l : Forall (fun a => is_Some (m !! a)) l -> exists b, read_addrs m l = Ret b.
Proof.
  induction 1 as [|a l [x Hx] Hl (b & IH)]; [by exists []|]. exists (x :: b). cbn [read_addrs].
  by rewrite Hx, IH.
Qed.

Lemma read_addrs_lookup m l b i a : read_addrs m l = Ret b -> l !! i = Some a -> m !! a = b !! i.
Proof.
  revert b i. induction l as [|a' l IH]; intros b i E Hi; [done|]. cbn [read_addrs] in E.
  destruct (m !! a') as [x|] eqn:Ea; [|done]. unfold mbind, res_bind in E.
  destruct (read_addrs m l) as [r|] eqn:Er; [|done]. injection E as <-.
  destruct i as [|i]; cbn in Hi |- *; [by injection Hi as <-|by apply IH].
Qed.

Lemma write_addrs_dom m l data m' a : write_addrs m l data = Ret m' ->
  is_Some (m !! a) -> is_Some (m' !! a).
Proof.
  revert m data. induction l as [|a' l IH]; intros m data E Ha.
  { destruct data; by injection E as <-. }
  destruct data as [|b data]; [by injection E as <-|]. cbn [write_addrs] in E.
  destruct (m !! a') eqn:Ea; [|done]. apply (IH _ _ E). destruct (decide (a' = a)) as [->|];
    [rewrite lookup_insert_eq|rewrite lookup_insert_ne by done]; [by eexists|done].
Qed.

(** Memory that holds [data] at the first addresses of [l]. *)
Lemma read_addrs_prefix m l b data : read_addrs m l = Ret b ->
  (forall i a x, l !! i = Some a -> data !! i = Some x -> m !! a = Some x) ->
  (length data <= length l)%nat -> take (length data) b = data.
Proof.
  intros Hb Hd Hlen. pose proof (read_addrs_length _ _ _ Hb) as Hl. apply list_eq. intros i.
  destruct (decide (i < length data)%nat) as [Hi|Hi].
  - rewrite lookup_take_lt by done. destruct (lookup_lt_is_Some_2 data i Hi) as [x Hx].
    destruct (lookup_lt_is_Some_2 l i) as [a Ha]; [lia|].
    rewrite Hx, <- (read_addrs_lookup _ _ _ _ _ Hb Ha). by eapply Hd.
  - rewrite lookup_take_ge, lookup_ge_None_2 by lia. done.
Qed.

(** ** Finding the elements to pass *)

(** The vector of [iv]: its [niov] elements [v], [consumed] of which lie
    before [offset]. *)
Record iov_wf (iv : scsi_iovector) (v : list scsi_iovec) : Prop := {
  wf_iov : iov iv = Some v;
  wf_niov : niov iv = Z.of_nat (length v);
  wf_consumed : 0 <= consumed iv <= niov iv;
  wf_lens : lens_ok v;
  wf_offset : offset iv = total_len (take (Z.to_nat (consumed iv)) v);
  wf_total : total_len v < 2 ^ 32
}.

Lemma lens_ok_take n v : lens_ok v -> lens_ok (take n v).
Proof. apply Forall_take. Qed.
Lemma lens_ok_drop n v : lens_ok v -> lens_ok (drop n v).
Proof. apply Forall_drop. Qed.

Lemma total_len_split n v : total_len v = total_len (take n v) + total_len (drop n v).
Proof. rewrite <- total_len_app. by rewrite take_drop. Qed.

Lemma iov_at_run v i e : 0 <= i -> v !! Z.to_nat i = Some e -> iov_at v i = Ret e.
Proof. intros Hi E. unfold iov_at. destruct (Z.ltb_spec i 0); [lia|]. by rewrite E. Qed.

Lemma iov_wf_next iv v e : iov_wf iv v -> v !! Z.to_nat (consumed iv) = Some e ->
  iov_wf (iv <| offset := u64 (offset iv + iov_len e) |> <| consumed := consumed iv + 1 |>) v.
Proof.
  intros [Hv Hn Hc Hl Ho Ht] Ee. pose proof (lookup_lt_Some _ _ _ Ee) as Hlen.
  assert (Hc1 : Z.to_nat (consumed iv + 1) = S (Z.to_nat (consumed iv))) by lia.
  assert (He : 0 <= iov_len e) by (eapply Forall_lookup_1 in Hl; [|exact Ee]; exact Hl).
  assert (Etl : total_len (take (S (Z.to_nat (consumed iv))) v) = offset iv + iov_len e).
  { rewrite (take_S_r _ _ _ Ee), total_len_app, Ho. cbn. lia. }
  pose proof (total_len_split (S (Z.to_nat (consumed iv))) v) as Hsp.
  pose proof (total_len_nonneg _ (lens_ok_drop (S (Z.to_nat (consumed iv))) v Hl)) as Hd.
  pose proof (total_len_nonneg _ (lens_ok_take (Z.to_nat (consumed iv)) v Hl)) as Hd0.
  split; try done.
  - cbn. lia.
  - cbn. rewrite Hc1, Etl. apply u64_small. lia.
Qed.

(** The first element is the one that contains position [pos] of the rest. *)
Lemma forward_head_run v fuel : forall iv pos, iov_wf iv v ->
  0 <= pos < total_len (drop (Z.to_nat (consumed iv)) v) ->
  niov iv - consumed iv <= Z.of_nat fuel ->
  exists iv' pos' e, forward_head fuel iv v pos = Ret (iv', Some pos') /\ iov_wf iv' v /\
    v !! Z.to_nat (consumed iv') = Some e /\ 0 <= pos' < iov_len e /\
    offset iv + pos = offset iv' + pos'.
Proof.
  induction fuel as [|fuel IH]; intros iv pos Hwf Hpos Hf; pose proof Hwf as [Hv Hn Hc Hl Ho Ht].
  { rewrite drop_ge in Hpos by lia. cbn in Hpos. lia. }
  destruct (v !! Z.to_nat (consumed iv)) as [e|] eqn:Ee.
  2: { apply lookup_ge_None in Ee. rewrite drop_ge in Hpos by done. cbn in Hpos. lia. }
  assert (He : 0 <= iov_len e) by (eapply Forall_lookup_1 in Hl; [|exact Ee]; exact Hl).
  pose proof (drop_S _ _ _ Ee) as Ed. pose proof (take_S_r _ _ _ Ee) as Et.
  cbn [forward_head]. rewrite (iov_at_run v _ e) by (done || lia). cbn [mbind res_bind].
  destruct (Z.ltb_spec pos (iov_len e)) as [Hlt|Hge].
  { exists iv, pos, e. do 3 (split; [done|]). lia. }
  rewrite Ed in Hpos.
  change (total_len (e :: drop (S (Z.to_nat (consumed iv))) v))
    with (iov_len e + total_len (drop (S (Z.to_nat (consumed iv))) v)) in Hpos.
  pose proof (total_len_split (S (Z.to_nat (consumed iv))) v) as Hsp.
  pose proof (total_len_nonneg _ (lens_ok_drop (S (Z.to_nat (consumed iv))) v Hl)) as Hd.
  assert (Etl : total_len (take (S (Z.to_nat (consumed iv))) v) = offset iv + iov_len e).
  { rewrite Et, total_len_app, Ho. cbn. lia. }
  pose proof (total_len_nonneg _ (lens_ok_take (Z.to_nat (consumed iv)) v Hl)) as Hd0.
  set (iv1 := iv <| offset := u64 (offset iv + iov_len e) |> <| consumed := consumed iv + 1 |>).
  assert (Hc1 : Z.to_nat (consumed iv + 1) = S (Z.to_nat (consumed iv))) by lia.
  pose proof (lookup_lt_Some _ _ _ Ee) as Hlen.
  assert (Hwf1 : iov_wf iv1 v) by (by apply iov_wf_next).
  assert (Hpos1 : 0 <= pos - iov_len e < total_len (drop (Z.to_nat (consumed iv1)) v)).
  { change (consumed iv1) with (consumed iv + 1). rewrite Hc1. lia. }
  change (niov iv1) with (niov iv). change (consumed iv1) with (consumed iv + 1).
  destruct (Z.leb_spec (niov iv) (consumed iv + 1)) as [Hle|Hgt].
  { change (consumed iv1) with (consumed iv + 1) in Hpos1. rewrite drop_ge in Hpos1 by lia.
    cbn in Hpos1. lia. }
  rewrite u32_small by lia.
  destruct (IH iv1 (pos - iov_len e) Hwf1 Hpos1) as (iv' & pos' & e' & E & Hwf' & Ee' & Hp' & Eo).
  { change (niov iv1) with (niov iv). change (consumed iv1) with (consumed iv + 1). lia. }
  exists iv', pos', e'. do 4 (split; [done|]). rewrite <- Eo. cbn.
  rewrite u64_small by lia. lia.
Qed.

(** The last element is the one that contains the end of the range. *)
Lemma forward_tail_run iv v fuel : forall k len2, iov_wf iv v -> 1 <= k ->
  consumed iv + k <= niov iv ->
  0 < len2 <= total_len (drop (Z.to_nat (consumed iv + k - 1)) v) ->
  niov iv - (consumed iv + k) <= Z.of_nat fuel ->
  exists k' len2' e, forward_tail fuel iv v k len2 = Ret (Some (k', len2')) /\
    k <= k' /\ consumed iv + k' <= niov iv /\
    v !! Z.to_nat (consumed iv + k' - 1) = Some e /\ 0 < len2' <= iov_len e /\
    total_len (take (Z.to_nat (k' - 1)) (drop (Z.to_nat (consumed iv)) v)) + len2' =
    total_len (take (Z.to_nat (k - 1)) (drop (Z.to_nat (consumed iv)) v)) + len2.
Proof.
  induction fuel as [|fuel IH]; intros k len2 Hwf Hk Hck Hlen Hf;
    pose proof Hwf as [Hv Hn Hc Hl Ho Ht];
    (destruct (v !! Z.to_nat (consumed iv + k - 1)) as [e|] eqn:Ee;
     [|apply lookup_ge_None in Ee; lia]);
    cbn [forward_tail]; rewrite (iov_at_run v _ e) by (done || lia); cbn [mbind res_bind];
    pose proof (drop_S _ _ _ Ee) as Ed; rewrite Ed in Hlen;
    match type of Hlen with _ < _ <= total_len (e :: ?l) =>
      change (total_len (e :: l)) with (iov_len e + total_len l) in Hlen end;
    (destruct (Z.leb_spec len2 (iov_len e)) as [Hle|Hgt]; [exists k, len2, e; split; [done|]; split; [lia|]; by repeat (split; [done || lia|])|]).
  { rewrite drop_ge in Hlen by lia. cbn in Hlen. lia. }
  assert (He : 0 <= iov_len e) by (eapply Forall_lookup_1 in Hl; [|exact Ee]; exact Hl).
  destruct (Z.ltb_spec (niov iv) (consumed iv + (k + 1))) as [Hlt|Hge].
  { rewrite drop_ge in Hlen by lia. cbn in Hlen. lia. }
  pose proof (total_len_split (S (Z.to_nat (consumed iv + k - 1))) v) as Hsp.
  pose proof (total_len_nonneg _ (lens_ok_take (S (Z.to_nat (consumed iv + k - 1))) v Hl)).
  rewrite u32_small by lia.
  assert (Hnat : Z.to_nat (consumed iv + (k + 1) - 1) = S (Z.to_nat (consumed iv + k - 1))) by lia.
  destruct (IH (k + 1) (len2 - iov_len e)) as (k' & len2' & e' & E & H1 & H2 & H3 & H4 & H5);
    [done|lia|lia|rewrite Hnat; lia|lia|].
  exists k', len2', e'. do 2 (split; [done || lia|]). do 3 (split; [done|]). rewrite H5.
  replace (k + 1 - 1) with k by lia. replace (Z.to_nat k) with (S (Z.to_nat (k - 1))) by lia.
  assert (Ee2 : drop (Z.to_nat (consumed iv)) v !! Z.to_nat (k - 1) = Some e).
  { rewrite lookup_drop. rewrite <- Ee. f_equal. lia. }
  rewrite (take_S_r _ _ _ Ee2), total_len_app. cbn [total_len foldr]. lia.
Qed.

Lemma alter_last {A} (f : A -> A) (l : list A) x :
  alter f (length l) (l ++ [x]) = l ++ [f x].
Proof. induction l as [|y l IH]; [done|]. cbn. by f_equal. Qed.

Lemma addrs_one e : addrs [e] = seqZ (iov_base e) (iov_len e).
Proof. unfold addrs. cbn. apply app_nil_r. Qed.

Lemma addrs_cons e v : addrs (e :: v) = seqZ (iov_base e) (iov_len e) ++ addrs v.
Proof. done. Qed.

(** The elements passed are the range [[pos, pos + count)] of the rest. *)
Lemma passed_addrs iv v k pos len2 e0 e : iov_wf iv v ->
  v !! Z.to_nat (consumed iv) = Some e0 -> 0 <= pos < iov_len e0 -> 1 <= k ->
  v !! Z.to_nat (consumed iv + k - 1) = Some e -> 0 < len2 <= iov_len e ->
  (k = 1 -> pos <= len2) ->
  let rest := drop (Z.to_nat (consumed iv)) v in
  addrs (passed iv v k pos len2) =
    take (Z.to_nat (total_len (take (Z.to_nat (k - 1)) rest) + len2 - pos))
      (drop (Z.to_nat pos) (addrs rest)) /\
  lens_ok (passed iv v k pos len2).
Proof.
  intros [Hv Hn Hc Hl Ho Ht] E0 Hpos Hk Ee Hlen Hone rest.
  pose proof (total_len_nonneg v Hl) as Htn.
  assert (Hle : forall i x, v !! i = Some x -> 0 <= iov_len x <= total_len v).
  { intros i x Ex. pose proof (take_drop_middle _ _ _ Ex) as Em. rewrite <- Em, total_len_app.
    pose proof (total_len_nonneg _ (lens_ok_take i v Hl)).
    pose proof (total_len_nonneg _ (lens_ok_drop (S i) v Hl)).
    assert (0 <= iov_len x) by (eapply Forall_lookup_1 in Hl; [|exact Ex]; exact Hl).
    match goal with |- context [total_len (x :: ?l)] =>
      change (total_len (x :: l)) with (iov_len x + total_len l) end. lia. }
  pose proof (Hle _ _ E0) as Hle0. pose proof (Hle _ _ Ee) as Hle1.
  pose proof (drop_S _ _ _ E0) as Ed. fold rest in Ed.
  set (r := drop (S (Z.to_nat (consumed iv))) v) in *.
  unfold passed. fold rest. rewrite Ed.
  destruct (decide (k = 1)) as [->|Hk1].
  - replace (consumed iv + 1 - 1) with (consumed iv) in Ee by lia. rewrite E0 in Ee. injection Ee as <-.
    change (Z.to_nat 1) with 1%nat. change (Z.to_nat (1 - 1)) with 0%nat. cbn [take]. rewrite !take_0.
    change (alter _ 0%nat (alter _ 0%nat [e0])) with
      [Build_scsi_iovec (iov_base e0 + pos) (u64 (len2 - pos))].
    specialize (Hone eq_refl). rewrite u64_small by lia. split; [|constructor; [cbn; lia|done]].
    rewrite addrs_one, addrs_cons. cbn [iov_base iov_len total_len foldr].
    rewrite drop_app_le by (rewrite length_seqZ; lia). rewrite seqZ_drop by lia.
    rewrite take_app_le by (rewrite length_seqZ; lia). rewrite Z.add_0_l, seqZ_take by lia. done.
  - set (mid := take (Z.to_nat (k - 2)) r).
    assert (Em : r = mid ++ e :: drop (S (Z.to_nat (k - 2))) r).
    { unfold mid. symmetry. apply take_drop_middle. unfold r. rewrite lookup_drop. rewrite <- Ee. f_equal. lia. }
    assert (Lm : length mid = Z.to_nat (k - 2)).
    { unfold mid. rewrite length_take. apply (f_equal length) in Em. rewrite length_app in Em. cbn in Em.
      unfold mid in Em. rewrite length_take in Em. lia. }
    assert (Lr : lens_ok mid) by (apply lens_ok_take, lens_ok_drop, Hl).
    replace (Z.to_nat k) with (S (Z.to_nat (k - 1))) by lia. cbn [take].
    replace (Z.to_nat (k - 1)) with (S (Z.to_nat (k - 2))) by lia. cbn [take]. fold mid.
    assert (Et : take (S (Z.to_nat (k - 2))) r = mid ++ [e]).
    { rewrite Em at 1. rewrite <- Lm. change (S (length mid)) with (1 + length mid)%nat.
      rewrite Nat.add_comm. by rewrite take_app_add. }
    rewrite Et.
    assert (Ealt : alter (fun e => e <| iov_len := len2 |>) (S (Z.to_nat (k - 2))) (e0 :: mid ++ [e])
      = e0 :: mid ++ [e <| iov_len := len2 |>]).
    { cbn [alter list_alter]. rewrite <- Lm. by rewrite alter_last. }
    replace (Z.to_nat (k - 1)) with (S (Z.to_nat (k - 2))) by lia. rewrite Ealt.
    match goal with |- context [alter ?f 0%nat (e0 :: ?l)] =>
      change (alter f 0%nat (e0 :: l)) with (f e0 :: l) end. cbv beta.
    rewrite u64_small by lia. split.
    + rewrite addrs_cons, addrs_app, addrs_one. cbn [iov_base iov_len].
      change (iov_base (e <| iov_len := len2 |>)) with (iov_base e).
      change (iov_len (e <| iov_len := len2 |>)) with len2.
      change (total_len (e0 :: mid)) with (iov_len e0 + total_len mid).
      rewrite addrs_cons. rewrite drop_app_le by (rewrite length_seqZ; lia). rewrite seqZ_drop by lia.
      rewrite Em, addrs_app, addrs_cons.
      pose proof (length_addrs mid Lr) as La. pose proof (total_len_nonneg mid Lr).
      replace (Z.to_nat (iov_len e0 + total_len mid + len2 - pos)) with
        (length (seqZ (iov_base e0 + pos) (iov_len e0 - pos)) + (length (addrs mid) + Z.to_nat len2))%nat
        by (rewrite length_seqZ; lia).
      rewrite take_app_add, take_app_add. f_equal. f_equal.
      rewrite take_app_le by (rewrite length_seqZ; lia). by rewrite seqZ_take by lia.
    + constructor; [cbn; lia|]. apply Forall_app. split; [done|]. constructor; [cbn; lia|done].
Qed.

(** ** A transfer *)

(** The bytes [count] from [pos] on of the whole vector. *)
Definition range (v : list scsi_iovec) (pos count : Z) : list Z :=
  take (Z.to_nat count) (drop (Z.to_nat pos) (addrs v)).

(** What the digest becomes when [data] went over the connection. *)
Definition digested (digest : option Z) (data : bytes) : option Z :=
  match digest with Some crc => Some (crc32c_chain crc data) | None => None end.

Lemma crc32c_chain_app crc b1 b2 :
  crc32c_chain crc (b1 ++ b2) = crc32c_chain (crc32c_chain crc b1) b2.
Proof. unfold crc32c_chain. apply crc32c_loop_app. Qed.

Lemma digest_iov_run m v : forall crc n b, lens_ok v -> read_addrs m (addrs v) = Ret b ->
  0 <= n -> digest_iov m crc v n = Ret (crc32c_chain crc (take (Z.to_nat n) b)).
Proof.
  induction v as [|e v IH]; intros crc n b Hv Hb Hn.
  { injection Hb as <-. by rewrite take_nil. }
  apply Forall_cons in Hv as [He Hv]. cbn [digest_iov].
  destruct (Z.eqb_spec n 0) as [->|Hn0]; [done|].
  pose proof (read_addrs_take _ _ _ (Z.to_nat (iov_len e)) Hb) as Hb1.
  pose proof (read_addrs_drop _ _ _ (Z.to_nat (iov_len e)) Hb) as Hb2.
  rewrite addrs_cons, take_app_length' in Hb1 by (by rewrite length_seqZ).
  rewrite addrs_cons, drop_app_length' in Hb2 by (by rewrite length_seqZ).
  set (k := MIN n (iov_len e)). assert (Hk : 0 <= k <= iov_len e /\ k <= n).
  { subst k. unfold MIN. destruct (Z.ltb_spec n (iov_len e)); lia. }
  assert (Er : mem_read m (iov_base e) (Z.to_nat k) = Ret (take (Z.to_nat k) b)).
  { rewrite mem_read_addrs, Z2Nat.id by lia. rewrite <- (seqZ_take _ (iov_len e)) by lia.
    rewrite (read_addrs_take _ _ _ _ Hb1). rewrite take_take. f_equal. f_equal. lia. }
  unfold mbind, res_bind. rewrite Er. rewrite (IH _ _ _ Hv Hb2) by lia.
  rewrite <- crc32c_chain_app. do 2 f_equal.
  destruct (decide (n <= iov_len e)).
  - assert (k = n) as -> by (subst k; unfold MIN; destruct (Z.ltb_spec n (iov_len e)); lia).
    rewrite Z.sub_diag. by rewrite take_0, app_nil_r.
  - assert (k = iov_len e) as -> by (subst k; unfold MIN; destruct (Z.ltb_spec n (iov_len e)); lia).
    rewrite take_take_drop. f_equal. lia.
Qed.

(** The elements to pass for a range of the vector. *)
Lemma select_run iv v pos count : iov_wf iv v -> offset iv <= pos -> 0 < count ->
  pos + count <= total_len v ->
  exists iv' pos' k len2,
    forward_head (Z.to_nat (niov iv)) iv v (u32 (pos - offset iv)) = Ret (iv', Some pos') /\
    forward_tail (Z.to_nat (niov iv')) iv' v 1 (u32 (pos' + count)) = Ret (Some (k, len2)) /\
    iov_wf iv' v /\ offset iv' <= pos /\ niov iv' = niov iv /\ consumed iv < niov iv /\
    addrs (passed iv' v k pos' len2) = range v pos count /\
    lens_ok (passed iv' v k pos' len2).
Proof.
  intros Hwf Hpos Hc Hend. pose proof Hwf as [Hv Hn Hcs Hl Ho Ht].
  pose proof (total_len_split (Z.to_nat (consumed iv)) v) as Hsp.
  pose proof (total_len_nonneg _ (lens_ok_take (Z.to_nat (consumed iv)) v Hl)) as H0.
  rewrite u32_small by lia.
  destruct (forward_head_run v (Z.to_nat (niov iv)) iv (pos - offset iv) Hwf)
    as (iv' & pos' & e & E1 & Hwf' & Ee & Hp' & Eo); [lia|lia|].
  pose proof Hwf' as [Hv' Hn' Hcs' _ Ho' _].
  assert (Ed : drop (Z.to_nat (consumed iv')) v = e :: drop (S (Z.to_nat (consumed iv'))) v)
    by (by apply drop_S).
  pose proof (total_len_split (Z.to_nat (consumed iv')) v) as Hsp'.
  pose proof (total_len_nonneg _ (lens_ok_take (Z.to_nat (consumed iv')) v Hl)) as H0'.
  pose proof (lookup_lt_Some _ _ _ Ee) as Hlt.
  destruct (forward_tail_run iv' v (Z.to_nat (niov iv')) 1 (pos' + count) Hwf')
    as (k & len2 & e2 & E2 & Hk & Hck & Ee2 & Hl2 & Et);
    [lia|lia|replace (consumed iv' + 1 - 1) with (consumed iv') by lia; lia|lia|].
  change (Z.to_nat (1 - 1)) with 0%nat in Et. cbn [take total_len foldr] in Et.
  rewrite take_0 in Et. cbn [total_len foldr] in Et.
  destruct (passed_addrs iv' v k pos' len2 e e2 Hwf' Ee Hp' Hk Ee2 Hl2) as [Ea Hla].
  { intros ->. change (Z.to_nat (1 - 1)) with 0%nat in Et. rewrite take_0 in Et. cbn in Et. lia. }
  exists iv', pos', k, len2. split; [done|]. split; [by rewrite u32_small by lia|].
  split; [done|]. split; [lia|]. split; [lia|]. split. { destruct (decide (consumed iv < niov iv)); [done|].
    rewrite drop_ge in Hsp by lia. cbn in Hsp. lia. }
  split; [|done]. rewrite Ea, Et. unfold range. f_equal; [lia|].
  replace (Z.to_nat pos) with (length (addrs (take (Z.to_nat (consumed iv')) v)) + Z.to_nat pos')%nat.
  2: { pose proof (length_addrs _ (lens_ok_take (Z.to_nat (consumed iv')) v Hl)). lia. }
  rewrite <- drop_drop. f_equal.
  assert (addrs v = addrs (take (Z.to_nat (consumed iv')) v) ++
    addrs (drop (Z.to_nat (consumed iv')) v)) as -> by (by rewrite <- addrs_app, take_drop).
  symmetry. by apply drop_app_length'.
Qed.

Lemma take_min_length {A} n (l : list A) : take (n `min` length l) l = take n l.
Proof.
  destruct (decide (n <= length l)%nat).
  - by rewrite Nat.min_l by done.
  - rewrite Nat.min_r by lia. rewrite !take_ge by lia. done.
Qed.

Lemma lift_bind {A B} (r : res A) a (k : A -> IO B) w : r = Ret a -> (lift r ≫= k) w = k a w.
Proof. intros ->. done. Qed.

Lemma send_cases data w : exists n s,
  send data w = Ret (n, w <| sys := s |>) /\ umem s = umem (sys w) /\
  sent s = sent (sys w) ++ take (Z.to_nat n) data /\ -1 <= n <= Z.of_nat (length data) /\
  rx s = rx (sys w) /\ peer s = peer (sys w).
Proof.
  unfold send, get_sys, set_errno, set_sys, gets, modify, mbind, M_bind, mret, M_ret.
  destruct w as [? ? ? ? ? ? ? ? ? ? ? sys ?]. cbn. destruct (tx sys) as [|[n|e] l] eqn:Et.
  - exists (-1). eexists. split; [reflexivity|]. cbn. rewrite app_nil_r. repeat (split; [done || lia|]). done.
  - eexists. eexists. split; [reflexivity|]. cbn. split; [done|]. rewrite Nat2Z.id, length_take.
    split; [f_equal; symmetry; apply take_min_length|]. repeat (split; [done || lia|]). done.
  - exists (-1). eexists. split; [reflexivity|]. cbn. rewrite app_nil_r. repeat (split; [done || lia|]). done.
Qed.

Lemma recv_cases count w : 0 <= count -> exists n s,
  recv count w = Ret ((n, take (Z.to_nat n) (peer (sys w))), w <| sys := s |>) /\
  umem s = umem (sys w) /\ peer s = drop (Z.to_nat n) (peer (sys w)) /\
  -1 <= n <= count /\ n <= Z.of_nat (length (peer (sys w))) /\
  tx s = tx (sys w) /\ sent s = sent (sys w).
Proof.
  intros Hc. unfold recv, get_sys, set_errno, set_sys, gets, modify, mbind, M_bind, mret, M_ret.
  destruct w as [? ? ? ? ? ? ? ? ? ? ? sys ?]. cbn. destruct (rx sys) as [|[n|e] l] eqn:Et.
  - exists (-1). eexists. split; [reflexivity|]. cbn. repeat (split; [done || lia|]). done.
  - eexists. eexists. split.
    + cbn. f_equal. f_equal. f_equal. rewrite Nat2Z.id, length_take. symmetry. apply take_min_length.
    + cbn. split; [done|]. rewrite Nat2Z.id, length_take. split.
      * destruct (decide (Z.to_nat (Z.min n count) <= length (peer sys))%nat).
        -- by rewrite Nat.min_l by done.
        -- rewrite Nat.min_r by lia. rewrite !drop_ge by lia. done.
      * repeat (split; [done || lia|]). done.
  - exists (-1). eexists. split; [reflexivity|]. cbn. repeat (split; [done || lia|]). done.
Qed.

(** What the end of a transfer notes for an interrupted call. *)
Definition io_note (n : Z) (w : world) : world :=
  if (n <=? 0) && negb (errno (sys w) =? EAGAIN) && (errno (sys w) =? EINTR)
  then w <| ctx ::= fun c => c <| error_string := "%s: socket failed, errno:%d" |> |> else w.

Lemma io_note_sys n w : sys (io_note n w) = sys w.
Proof. unfold io_note. by destruct (_ && _). Qed.

(** The part of a transfer after the call of the kernel. *)
Lemma after_transfer {A} n count (a : A) w : n <= count ->
  (if count <? n then _ ← set_errno EINVAL; mret (-1, a) else
   e ← get_sys errno;
   _ ← when ((n <=? 0) && negb (e =? EAGAIN) && (e =? EINTR))
         (iscsi_set_error "%s: socket failed, errno:%d");
   mret (n, a)) w = Ret ((n, a), io_note n w).
Proof.
  intros Hn. destruct (Z.ltb_spec count n); [lia|]. unfold io_note.
  unfold get_sys, gets, iscsi_set_error, set_ctx, modify, when, mbind, M_bind, mret, M_ret.
  by destruct (_ && _).
Qed.

Lemma digest_step_run {A} digest segs b n w (k : option Z -> IO A) : lens_ok segs ->
  read_addrs (umem (sys w)) (addrs segs) = Ret b ->
  (m ← get_sys umem;
   digest ← (match digest with
             | Some crc => if 0 <? n then crc ← lift (digest_iov m crc segs n); mret (Some crc)
                           else mret (Some crc)
             | None => mret None
             end);
   k digest) w = k (digested digest (take (Z.to_nat n) b)) w.
Proof.
  intros Hl Hb. unfold get_sys, gets, mbind, M_bind, mret, M_ret, lift.
  destruct digest as [crc|]; [|done]. destruct (Z.ltb_spec 0 n) as [Hn|Hn].
  - rewrite (digest_iov_run _ _ crc n b Hl Hb) by lia. done.
  - by replace (Z.to_nat n) with 0%nat by lia.
Qed.

Lemma guards_run iv v pos : iov_wf iv v -> offset iv <= pos -> consumed iv < niov iv ->
  iov iv = Some v /\ (pos <? offset iv) = false /\ (niov iv <=? consumed iv) = false.
Proof.
  intros [Hv _ _ _ _ _] Hp Hc. split; [done|]. split; [by apply Z.ltb_ge|by apply Z.leb_gt].
Qed.

(** A write of a range: what the kernel takes is a prefix of its bytes. *)
Lemma iovector_write_run iv v pos count digest data w n w1 :
  iov_wf iv v -> offset iv <= pos -> 0 < count -> pos + count <= total_len v ->
  read_addrs (umem (sys w)) (range v pos count) = Ret data -> send data w = Ret (n, w1) ->
  exists iv', iscsi_iovector_readv_writev iv pos count digest true w =
      Ret ((n, (iv', digested digest (take (Z.to_nat n) data))), io_note n w1) /\
    iov_wf iv' v /\ offset iv' <= pos.
Proof.
  intros Hwf Hpos Hc Hend Hr Hs.
  destruct (select_run iv v pos count Hwf Hpos Hc Hend)
    as (iv' & pos' & k & len2 & E1 & E2 & Hwf' & Hpos' & Hn & Hlt & Ea & Hl).
  exists iv'. split; [|done]. unfold iscsi_iovector_readv_writev.
  destruct (guards_run iv v pos Hwf Hpos Hlt) as (-> & -> & ->).
  rewrite (lift_bind _ _ _ _ E1). cbv beta iota. rewrite (lift_bind _ _ _ _ E2). cbv beta iota.
  assert (Eg : writev (passed iv' v k pos' len2) w = Ret (n, w1)).
  { unfold writev, get_sys, gets, lift, mbind, M_bind. by rewrite gather_addrs, Ea, Hr. }
  run Eg. pose proof (send_cases data w) as (n' & s & Es & Em & _ & Hb & _).
  rewrite Es in Hs. injection Hs as -> <-.
  rewrite (digest_step_run _ _ data) by (done || (change (umem (sys (w <| sys := s |>))) with (umem s); by rewrite Ea, Em)).
  apply after_transfer. pose proof (read_addrs_length _ _ _ Hr) as Hlen.
  unfold range in Hlen. rewrite length_take in Hlen. lia.
Qed.

(** A read of a range: what the kernel hands over is stored at its first
    addresses and nowhere else. *)
Lemma iovector_read_run iv v pos count digest w :
  iov_wf iv v -> offset iv <= pos -> 0 < count -> pos + count <= total_len v ->
  NoDup (range v pos count) -> Forall (fun a => is_Some (umem (sys w) !! a)) (range v pos count) ->
  exists n s m iv',
    let data := take (Z.to_nat n) (peer (sys w)) in
    recv count w = Ret ((n, data), w <| sys := s |>) /\
    iscsi_iovector_readv_writev iv pos count digest false w =
      Ret ((n, (iv', digested digest data)), io_note n (w <| sys := s <| umem := m |> |>)) /\
    iov_wf iv' v /\ offset iv' <= pos /\ -1 <= n <= count /\ length data = Z.to_nat n /\
    (forall i a b, range v pos count !! i = Some a -> data !! i = Some b -> m !! a = Some b) /\
    (forall a, a ∉ take (Z.to_nat n) (range v pos count) -> m !! a = umem (sys w) !! a).
Proof.
  intros Hwf Hpos Hc Hend Hnd Hmap.
  destruct (select_run iv v pos count Hwf Hpos Hc Hend)
    as (iv' & pos' & k & len2 & E1 & E2 & Hwf' & Hpos' & Hn & Hlt & Ea & Hl).
  destruct (recv_cases count w) as (n & s & Er & Em & Ep & Hb & Hb2 & _); [lia|].
  set (data := take (Z.to_nat n) (peer (sys w))) in *.
  assert (Hlen : length data = Z.to_nat n) by (unfold data; rewrite length_take; lia).
  destruct (write_addrs_run (range v pos count) (umem (sys w)) data Hnd Hmap)
    as (m & Ew & Hm1 & Hm2). rewrite Hlen in Hm2.
  exists n, s, m, iv'. cbv zeta. fold data. split; [done|]. split; [|done].
  unfold iscsi_iovector_readv_writev.
  destruct (guards_run iv v pos Hwf Hpos Hlt) as (-> & -> & ->).
  rewrite (lift_bind _ _ _ _ E1). cbv beta iota. rewrite (lift_bind _ _ _ _ E2). cbv beta iota.
  assert (Etl : total_len (passed iv' v k pos' len2) = count).
  { rewrite <- length_addrs by done. rewrite Ea. unfold range. rewrite length_take, length_drop.
    destruct Hwf as [_ _ _ Hlv Ho _]. pose proof (length_addrs v Hlv).
    pose proof (total_len_nonneg _ (lens_ok_take (Z.to_nat (consumed iv)) v Hlv)). lia. }
  assert (Eg : readv (passed iv' v k pos' len2) w = Ret (n, w <| sys := s <| umem := m |> |>)).
  { unfold readv. rewrite Etl. run Er. cbv beta iota.
    unfold get_sys, gets, lift, set_sys, modify, mbind, M_bind, mret, M_ret.
    change (umem (sys (w <| sys := s |>))) with (umem s). rewrite Em.
    rewrite scatter_addrs, Ea, Ew by done. done. }
  run Eg. destruct (read_addrs_total m (range v pos count)) as (b & Eb).
  { apply Forall_forall. intros a Ha. eapply write_addrs_dom; [exact Ew|]. rewrite Forall_forall in Hmap. auto. }
  rewrite (digest_step_run _ _ b) by (done || (change (umem (sys (w <| sys := s <| umem := m |> |>))) with m; by rewrite Ea)).
  replace (take (Z.to_nat n) b) with data; [by apply after_transfer; lia|].
  symmetry. rewrite <- Hlen. apply (read_addrs_prefix m (range v pos count)); [done|done|].
  pose proof (length_addrs _ Hl) as Hla. rewrite Ea in Hla. lia.
Qed.

(** The search runs off the end of a vector that is too short. *)
Lemma forward_head_none v fuel : forall iv pos, iov_wf iv v -> consumed iv < niov iv ->
  total_len (drop (Z.to_nat (consumed iv)) v) <= pos < 2 ^ 32 ->
  niov iv - consumed iv <= Z.of_nat fuel ->
  exists iv', forward_head fuel iv v pos = Ret (iv', None) /\ iov_wf iv' v.
Proof.
  induction fuel as [|fuel IH]; intros iv pos Hwf Hlt Hpos Hf;
    pose proof Hwf as [Hv Hn Hc Hl Ho Ht]; [lia|].
  destruct (v !! Z.to_nat (consumed iv)) as [e|] eqn:Ee; [|apply lookup_ge_None in Ee; lia].
  cbn [forward_head]. rewrite (iov_at_run v _ e) by (done || lia). cbn [mbind res_bind].
  rewrite (drop_S _ _ _ Ee) in Hpos.
  change (total_len (e :: drop (S (Z.to_nat (consumed iv))) v))
    with (iov_len e + total_len (drop (S (Z.to_nat (consumed iv))) v)) in Hpos.
  pose proof (total_len_nonneg _ (lens_ok_drop (S (Z.to_nat (consumed iv))) v Hl)) as Hd.
  assert (He : 0 <= iov_len e) by (eapply Forall_lookup_1 in Hl; [|exact Ee]; exact Hl).
  destruct (Z.ltb_spec pos (iov_len e)) as [|_]; [lia|].
  set (iv1 := iv <| offset := u64 (offset iv + iov_len e) |> <| consumed := consumed iv + 1 |>).
  assert (Hwf1 : iov_wf iv1 v) by (by apply iov_wf_next).
  change (niov iv1) with (niov iv). change (consumed iv1) with (consumed iv + 1).
  destruct (Z.leb_spec (niov iv) (consumed iv + 1)) as [Hle|Hgt]; [by exists iv1|].
  rewrite u32_small by lia. apply IH; [done|cbn; lia| |cbn; lia].
  change (consumed iv1) with (consumed iv + 1).
  replace (Z.to_nat (consumed iv + 1)) with (S (Z.to_nat (consumed iv))) by lia. lia.
Qed.

Lemma forward_tail_none iv v fuel : forall k len2, iov_wf iv v -> 1 <= k ->
  consumed iv + k <= niov iv ->
  total_len (drop (Z.to_nat (consumed iv + k - 1)) v) < len2 < 2 ^ 32 ->
  niov iv - (consumed iv + k) < Z.of_nat fuel ->
  forward_tail fuel iv v k len2 = Ret None.
Proof.
  induction fuel as [|fuel IH]; intros k len2 Hwf Hk Hck Hlen Hf;
    pose proof Hwf as [Hv Hn Hc Hl Ho Ht]; [lia|].
  destruct (v !! Z.to_nat (consumed iv + k - 1)) as [e|] eqn:Ee; [|apply lookup_ge_None in Ee; lia].
  cbn [forward_tail]. rewrite (iov_at_run v _ e) by (done || lia). cbn [mbind res_bind].
  rewrite (drop_S _ _ _ Ee) in Hlen.
  change (total_len (e :: drop (S (Z.to_nat (consumed iv + k - 1))) v))
    with (iov_len e + total_len (drop (S (Z.to_nat (consumed iv + k - 1))) v)) in Hlen.
  pose proof (total_len_nonneg _ (lens_ok_drop (S (Z.to_nat (consumed iv + k - 1))) v Hl)) as Hd.
  assert (He : 0 <= iov_len e) by (eapply Forall_lookup_1 in Hl; [|exact Ee]; exact Hl).
  destruct (Z.leb_spec len2 (iov_len e)) as [|_]; [lia|].
  destruct (Z.ltb_spec (niov iv) (consumed iv + (k + 1))) as [|Hge]; [done|].
  rewrite u32_small by lia. apply IH; [done|lia|lia| |lia].
  replace (Z.to_nat (consumed iv + (k + 1) - 1)) with (S (Z.to_nat (consumed iv + k - 1))) by lia. lia.
Qed.

Lemma iov_fail_run {A} msg (a : A) w : iov_fail msg a w =
  Ret ((-1, a), w <| ctx ::= fun c => c <| error_string := msg |> |>
                  <| sys ::= fun s => s <| errno := EINVAL |> |>).
Proof. done. Qed.

(** A range that is not inside the rest of the vector is refused. *)
Lemma iovector_out_of_range iv v pos count digest do_write w : iov_wf iv v ->
  0 <= pos < 2 ^ 32 -> 0 < count -> total_len v + count < 2 ^ 32 ->
  ~ (offset iv <= pos /\ pos + count <= total_len v) ->
  exists iv' msg, iscsi_iovector_readv_writev iv pos count digest do_write w =
      iov_fail msg (iv', digest) w /\ iov_wf iv' v.
Proof.
  intros Hwf Hpos Hc Ht Hout. pose proof Hwf as [Hv Hn Hcs Hl Ho Htot].
  unfold iscsi_iovector_readv_writev. rewrite Hv.
  destruct (Z.ltb_spec pos (offset iv)) as [Hlt|Hge]; [by do 2 eexists|].
  destruct (Z.leb_spec (niov iv) (consumed iv)) as [Hle|Hgt]; [by do 2 eexists|].
  pose proof (total_len_split (Z.to_nat (consumed iv)) v) as Hsp.
  pose proof (total_len_nonneg _ (lens_ok_take (Z.to_nat (consumed iv)) v Hl)) as H0.
  rewrite u32_small by lia.
  destruct (decide (total_len v <= pos)) as [Hend|Hin].
  { destruct (forward_head_none v (Z.to_nat (niov iv)) iv (pos - offset iv)) as (iv' & E & Hwf');
      [done|lia|lia|lia|].
    rewrite (lift_bind _ _ _ _ E). by do 2 eexists. }
  destruct (forward_head_run v (Z.to_nat (niov iv)) iv (pos - offset iv) Hwf)
    as (iv' & pos' & e & E1 & Hwf' & Ee & Hp' & Eo); [lia|lia|].
  rewrite (lift_bind _ _ _ _ E1). cbv beta iota.
  pose proof Hwf' as [Hv' Hn' Hcs' _ Ho' _].
  pose proof (total_len_split (Z.to_nat (consumed iv')) v) as Hsp'.
  pose proof (total_len_nonneg _ (lens_ok_take (Z.to_nat (consumed iv')) v Hl)) as H0'.
  pose proof (lookup_lt_Some _ _ _ Ee) as Hlt'.
  rewrite u32_small by lia. rewrite (lift_bind _ None).
  { by do 2 eexists. }
  apply forward_tail_none; [done|lia|lia| |lia].
  replace (consumed iv' + 1 - 1) with (consumed iv') by lia. lia.
Qed.

(** ** The property *)

(** What a read of [count] bytes at [pos] did: [n] bytes of the peer, or [-1],
    are at the first addresses of the range, and in the digest. *)
Record filled (v : list scsi_iovec) (pos count : Z) (digest digest' : option Z) (n : Z)
  (w w' : world) : Prop := {
  fl_count : -1 <= n <= count;
  fl_avail : n <= Z.of_nat (length (peer (sys w)));
  fl_peer : peer (sys w') = drop (Z.to_nat n) (peer (sys w));
  fl_digest : digest' = digested digest (take (Z.to_nat n) (peer (sys w)));
  fl_stored : forall i a, (i < Z.to_nat n)%nat -> range v pos count !! i = Some a ->
    umem (sys w') !! a = peer (sys w) !! i;
  fl_rest : forall a, a ∉ take (Z.to_nat n) (range v pos count) ->
    umem (sys w') !! a = umem (sys w) !! a
}.

Lemma range_sublist v pos count : exists l1 l2, addrs v = l1 ++ range v pos count ++ l2.
Proof.
  exists (take (Z.to_nat pos) (addrs v)), (drop (Z.to_nat count) (drop (Z.to_nat pos) (addrs v))).
  unfold range. by rewrite !take_drop.
Qed.

(** C19: Data from the target goes where the request says and nowhere else: a read of
    [count] bytes at [pos] of an io vector stores what the kernel hands over, [n] bytes,
    at the first [n] positions of the range, across the boundaries of the elements,
    chains the data digest over exactly these bytes, and changes no other byte of
    memory; a range that does not lie in the rest of the vector is refused with EINVAL,
    with nothing read or stored. *)
Theorem iovector_read_in_bounds (iv : scsi_iovector) (v : list scsi_iovec) (pos count : Z)
  (digest : option Z) (w : world)
  (Hwf : iov_wf iv v) (Hpos : 0 <= pos < 2 ^ 32) (Hcount : 0 < count)
  (Htotal : total_len v + count < 2 ^ 32) (Hnd : NoDup (addrs v))
  (Hmap : Forall (fun a => is_Some (umem (sys w) !! a)) (addrs v)) :
  exists n iv' digest' w',
    iscsi_iovector_readv_writev iv pos count digest false w = Ret ((n, (iv', digest')), w') /\
    iov_wf iv' v /\
    if decide (offset iv <= pos /\ pos + count <= total_len v)
    then filled v pos count digest digest' n w w' /\ offset iv' <= pos
    else n = -1 /\ errno (sys w') = EINVAL /\ digest' = digest /\
         umem (sys w') = umem (sys w) /\ rx (sys w') = rx (sys w) /\ peer (sys w') = peer (sys w).
Proof.
  destruct (decide _) as [[Hlo Hhi]|Hout].
  - destruct (range_sublist v pos count) as (l1 & l2 & Ev).
    assert (Hnd' : NoDup (range v pos count)).
    { rewrite Ev in Hnd. apply NoDup_app in Hnd as (_ & _ & Hnd). by apply NoDup_app in Hnd as (H & _). }
    assert (Hmap' : Forall (fun a => is_Some (umem (sys w) !! a)) (range v pos count)).
    { rewrite Ev, !Forall_app in Hmap. tauto. }
    destruct (iovector_read_run iv v pos count digest w Hwf Hlo Hcount Hhi Hnd' Hmap')
      as (n & s & m & iv' & Er & E & Hwf' & Ho & Hn & Hl & Hm1 & Hm2).
    destruct (recv_cases count w) as (n' & s' & Er' & _ & Ep & _ & Hav & _); [lia|].
    rewrite Er in Er'. injection Er' as <- _ <-.
    do 4 eexists. split; [exact E|]. split; [done|]. split; [|done].
    split; rewrite ?io_note_sys; try done.
    intros i a Hi Ha. change (umem (sys (w <| sys := s <| umem := m |> |>))) with m.
    destruct (lookup_lt_is_Some_2 (take (Z.to_nat n) (peer (sys w))) i) as [b Hb]; [lia|].
    rewrite (Hm1 _ _ _ Ha Hb). by rewrite lookup_take_lt in Hb by done.
  - destruct (iovector_out_of_range iv v pos count digest false w Hwf Hpos Hcount Htotal Hout)
      as (iv' & msg & E & Hwf').
    rewrite iov_fail_run in E. do 4 eexists. split; [exact E|]. by repeat (split; [done|]).
Qed.

Definition sample_iov : list scsi_iovec := [Build_scsi_iovec 100 2; Build_scsi_iovec 200 3].

Definition sample_iovector (l : list scsi_iovec) : scsi_iovector :=
  Build_scsi_iovector (Some l) (Z.of_nat (length l)) (Z.of_nat (length l)) 0 0.

Definition sample_memory (l : list scsi_iovec) : gmap Z Z :=
  list_to_map (map (fun a => (a, a mod 251)) (addrs l)).

Lemma sample_iov_wf : iov_wf (sample_iovector sample_iov) sample_iov.
Proof. split; try done; repeat constructor; done. Qed.

Lemma iovector_read_in_bounds_witness :
  let w := sample_world <| sys ::= fun s => s <| umem := sample_memory sample_iov |>
             <| rx := [Io_ok 3] |> <| peer := [7; 8; 9; 10] |> |> in
  exists n iv' digest' w',
    iscsi_iovector_readv_writev (sample_iovector sample_iov) 1 4 (Some crc32c_init) false w =
      Ret ((n, (iv', digest')), w') /\
    iov_wf iv' sample_iov /\
    if decide (offset (sample_iovector sample_iov) <= 1 /\ 1 + 4 <= total_len sample_iov)
    then filled sample_iov 1 4 (Some crc32c_init) digest' n w w' /\ offset iv' <= 1
    else n = -1 /\ errno (sys w') = EINVAL /\ digest' = Some crc32c_init /\
         umem (sys w') = umem (sys w) /\ rx (sys w') = rx (sys w) /\ peer (sys w') = peer (sys w).
Proof.
  cbv zeta. apply iovector_read_in_bounds.
  - exact sample_iov_wf.
  - lia.
  - lia.
  - vm_compute. reflexivity.
  - apply (bool_decide_unpack _). vm_compute. exact I.
  - apply (bool_decide_unpack _). vm_compute. exact I.
Defined.

(** The three bytes delivered end in the second element. *)
Example read_across_elements :
  match iscsi_iovector_readv_writev (sample_iovector sample_iov) 1 4 None false
          (sample_world <| sys ::= fun s => s <| umem := sample_memory sample_iov |>
             <| rx := [Io_ok 3] |> <| peer := [7; 8; 9; 10] |> |>) with
  | Ret ((n, (iv', _)), w') =>
      (n, offset iv', map (fun a => umem (sys w') !! a) [100; 101; 200; 201; 202])
  | Undef _ => (0, 0, [])
  end = (3, 0, [Some 100; Some 7; Some 8; Some 9; Some 202]).
Proof. vm_compute. reflexivity. Qed.
