(* ===== verification/Writer.v ===== *)
(** Sending: the queue of PDUs as a byte stream (src/lib/socket.c:
    [iscsi_pdu_update_headerdigest], [iscsi_write_to_socket]).

    A PDU goes out as its header block (basic header, header digest, data
    segment and padding when the library holds the data), then the payload
    from the io vector of its task, padding, and the data digest.  The kernel
    may take any part of what it is offered; [outdata_written] and
    [payload_written] say where to go on.  The theorems read the queue as one
    stream, [pending], that a call may only shorten from the front. *)

From S2P Require Import SList Prelude Bytes Crc32c Task Context Pdu Queue Complete Cancel Iovec.
From Stdlib Require Import Sorted.

(** [(n + 3) & 0xfffffffc] *)
Definition align4 (n : Z) : Z := (n + 3) &&& 0xfffffffc.

(** A digest on the wire: four bytes, least significant first. *)
Definition le4 (crc : Z) : bytes := [u8 crc; u8 (crc >> 8); u8 (crc >> 16); u8 (crc >> 24)].

(** ** iscsi_pdu_update_headerdigest *)

Definition put_header_digest (b : bytes) : bytes :=
  let crc := crc32c (take (Z.to_nat ISCSI_RAW_HEADER_SIZE) b) in
  <[48%nat := u8 crc]> (<[49%nat := u8 (crc >> 8)]> (<[50%nat := u8 (crc >> 16)]>
    (<[51%nat := u8 (crc >> 24)]> b))).

Definition iscsi_pdu_update_headerdigest (p : nat) : IO Z :=
  pdu ← get_pdu p;
  if dsize (outdata pdu) <? ISCSI_RAW_HEADER_SIZE + ISCSI_DIGEST_SIZE then
    _ ← iscsi_set_error "PDU too small (%u) to contain header digest"; mret (-1)
  else
    _ ← set_hdr p put_header_digest; mret 0.

(** ** iscsi_write_to_socket

    The stages of one turn of the loop; [Some rc] is [return rc]. *)

(** [m], and [k] unless [m] returns from the function. *)
Definition stage (m k : IO (option Z)) : IO (option Z) :=
  r ← m; match r with Some rc => mret (Some rc) | None => k end.

(** [outqueue_current] is NULL: the head of the queue becomes the current
    PDU. *)
Definition pop_outqueue : IO (option Z) :=
  c ← get_ctx id;
  if is_corked c then mret (Some 0) else
  h ← deref (hd_error (outqueue c));
  pdu ← get_pdu h;
  b ← hdr_of h;
  if (0 <? iscsi_serial32_compare (pdu_cmdsn pdu) (maxcmdsn c)) && negb (is_immediate b)
  then mret (Some 0)
  else if (iscsi_serial32_compare (pdu_cmdsn pdu) (expcmdsn c) <? 0)
          && negb (bhs_opcode b =? ISCSI_PDU_DATA_OUT) then
    _ ← iscsi_set_error "iscsi_write_to_socket: outqueue[0]->cmdsn < expcmdsn (%08x < %08x) opcode %02x";
    mret (Some (-1))
  else
    _ ← iscsi_mt_spin_lock;
    _ ← set_ctx (fun c => c <| outqueue_current := Some h |>);
    _ ← iscsi_pdu_set_expstatsn h
          (if negb (bhs_opcode b =? ISCSI_PDU_DATA_OUT) then u32 (statsn c + 1) else statsn c);
    rc ← (if negb (header_digest c =? ISCSI_HEADER_DIGEST_NONE)
          then iscsi_pdu_update_headerdigest h else mret 0);
    if negb (rc =? 0) then _ ← iscsi_mt_spin_unlock; mret (Some (-1)) else
    _ ← outqueue_remove h;
    pdu ← get_pdu h;
    _ ← when (negb (truth (pdu_flags pdu &&& ISCSI_PDU_DELETE_WHEN_SENT)))
          (set_ctx (fun c => c <| waitpdu ::= fun q => q ++ [h] |>));
    _ ← iscsi_mt_spin_unlock;
    mret None.

(** A call of [send] on [n] bytes of a block from [off] on. *)
Definition send_block (b : bytes) (off n : Z) : IO Z :=
  if (Z.of_nat (length b) <? off + n) || (off <? 0) then undefined OutOfBounds
  else send (take (Z.to_nat n) (drop (Z.to_nat off) b)).

(** What follows [count == -1]. *)
Definition write_failed (msg : option string) : IO (option Z) :=
  e ← get_sys errno;
  if e =? EAGAIN then mret (Some 0) else
  _ ← (match msg with Some msg => iscsi_set_error msg | None => mret tt end);
  mret (Some (-1)).

Definition write_error : option string := Some "Error when writing to socket :%d"%string.

(** Write header and any immediate data. *)
Definition write_header (p : nat) : IO (option Z) :=
  _ ← set_pdu p (fun pdu => pdu <| outdata ::= fun d => d <| dsize ::= align4 |> |>);
  pdu ← get_pdu p;
  let size := dsize (outdata pdu) in
  let full (n : Z) : IO (option Z) := mret (if n =? size then None else Some 0) in
  if outdata_written pdu <? size then
    b ← hdr_of p;
    count ← send_block b (outdata_written pdu) (size - outdata_written pdu);
    if count =? -1 then write_failed write_error else
    _ ← set_pdu p (fun pdu => pdu <| outdata_written ::= Z.add count |>);
    full (outdata_written pdu + count)
  else full (outdata_written pdu).

(** [execute_data_digest]: the header block holds the data segment, whose
    digest is computed here, once.  Returns the flag. *)
Definition digest_outdata (p : nat) (do_data_digest : bool) : IO bool :=
  if negb do_data_digest then mret false else
  pdu ← get_pdu p;
  b ← hdr_of p;
  let execute := truth (iscsi_get_pdu_data_size b) && (payload_len pdu =? 0) in
  if execute && negb (outdata_digest_computed pdu) then
    digest ← get_ctx header_digest;
    let head_len := if negb (digest =? ISCSI_HEADER_DIGEST_NONE) then 52 else 48 in
    let offset := head_len + byte_at b 4 * 4 in
    if (dsize (outdata pdu) <? offset) || (Z.of_nat (length b) <? dsize (outdata pdu))
    then undefined OutOfBounds else
    _ ← set_pdu p (fun pdu => pdu
          <| calculated_data_digest := crc32c_chain (calculated_data_digest pdu)
               (take (Z.to_nat (dsize (outdata pdu) - offset)) (drop (Z.to_nat offset) b)) |>
          <| outdata_digest_computed := true |>);
    mret execute
  else mret execute.

(** One transfer from the io vector of the task. *)
Definition write_iovector (p : nat) (do_data_digest : bool) : IO (option Z) :=
  pdu ← get_pdu p;
  r ← iscsi_get_scsi_task_iovector_out p;
  match r with
  | None =>
      _ ← iscsi_set_error "Can't find iovector data for DATA-OUT"; mret (Some (-1))
  | Some t =>
      task ← get_task t;
      '(count, (iv, digest)) ← iscsi_iovector_readv_writev (iovector_out task)
          (u32 (payload_offset pdu + payload_written pdu))
          (payload_len pdu - payload_written pdu)
          (if do_data_digest then Some (calculated_data_digest pdu) else None) true;
      _ ← set_task t (fun task => task <| iovector_out := iv |>);
      _ ← set_pdu p (fun pdu => pdu
            <| calculated_data_digest := default (calculated_data_digest pdu) digest |>);
      if count =? -1 then write_failed None else
      _ ← set_pdu p (fun pdu => pdu <| payload_written ::= fun n => u32 (n + count) |>);
      mret None
  end.

(** Write any iovectors that might have been passed to us.  Every turn uses
    an answer of the kernel or ends the loop. *)
Fixpoint write_payload (fuel : nat) (p : nat) (do_data_digest : bool) : IO (option Z) :=
  pdu ← get_pdu p;
  if payload_len pdu <=? payload_written pdu then mret None else
  match fuel with
  | O => undefined NoFuel
  | S fuel => stage (write_iovector p do_data_digest) (write_payload fuel p do_data_digest)
  end.

(** Write padding. *)
Definition write_padding (p : nat) (do_data_digest : bool) : IO (option Z) :=
  pdu ← get_pdu p;
  let total := align4 (payload_len pdu) in
  let full (n : Z) : IO (option Z) := mret (if n <? total then Some 0 else None) in
  if payload_written pdu <? total then
    count ← send_block (zeros 3) 0 (total - payload_written pdu);
    if count =? -1 then write_failed write_error else
    _ ← when do_data_digest (set_pdu p (fun pdu => pdu
          <| calculated_data_digest :=
               crc32c_chain (calculated_data_digest pdu) (zeros (Z.to_nat count)) |>));
    _ ← set_pdu p (fun pdu => pdu <| payload_written ::= fun n => u32 (n + count) |>);
    full (u32 (payload_written pdu + count))
  else full (payload_written pdu).

(** Write the data digest, when there is one. *)
Definition write_data_digest (p : nat) (do_data_digest execute_data_digest : bool)
  : IO (option Z) :=
  pdu ← get_pdu p;
  let total := align4 (payload_len pdu) in
  if execute_data_digest || (do_data_digest && truth (payload_written pdu)) then
    let buf := le4 (crc32c_chain_done (calculated_data_digest pdu)) in
    let total := total + ISCSI_DIGEST_SIZE in
    let full (n : Z) : IO (option Z) := mret (if n =? total then None else Some 0) in
    if payload_written pdu <? total then
      let todo := total - payload_written pdu in
      count ← send_block buf (ISCSI_DIGEST_SIZE - todo) todo;
      if count =? -1 then write_failed write_error else
      _ ← set_pdu p (fun pdu => pdu <| payload_written ::= fun n => u32 (n + count) |>);
      full (u32 (payload_written pdu + count))
    else full (payload_written pdu)
  else mret (if payload_written pdu =? total then None else Some 0).

(** Everything of the current PDU is written. *)
Definition finish_current (p : nat) : IO unit :=
  pdu ← get_pdu p;
  _ ← when (truth (pdu_flags pdu &&& ISCSI_PDU_CORK_WHEN_SENT))
        (set_ctx (fun c => c <| is_corked := true |>));
  _ ← when (truth (pdu_flags pdu &&& ISCSI_PDU_DELETE_WHEN_SENT)) (iscsi_tcp_free_pdu p);
  set_ctx (fun c => c <| outqueue_current := None |>).

(** What is left of the current PDU. *)
Definition write_stages (p : nat) (do_data_digest : bool) : IO (option Z) :=
  stage (write_header p)
    (execute ← digest_outdata p do_data_digest;
     answers ← get_sys tx;
     stage (write_payload (S (length answers)) p do_data_digest)
       (stage (write_padding p do_data_digest) (write_data_digest p do_data_digest execute))).

Definition write_pdu (p : nat) (do_data_digest : bool) : IO (option Z) :=
  stage (write_stages p do_data_digest) (_ ← finish_current p; mret None).

(** Every turn ends a PDU or the loop. *)
Fixpoint write_loop (fuel : nat) (do_data_digest : bool) : IO Z :=
  c ← get_ctx id;
  match outqueue_current c, outqueue c with
  | None, [] => mret 0
  | current, _ =>
      match fuel with
      | O => undefined NoFuel
      | S fuel =>
          r ← stage (match current with None => pop_outqueue | Some _ => mret None end)
                (c ← get_ctx id; p ← deref (outqueue_current c); write_pdu p do_data_digest);
          match r with
          | Some rc => mret rc
          | None => write_loop fuel do_data_digest
          end
      end
  end.

Definition iscsi_write_to_socket : IO Z :=
  c ← get_ctx id;
  if fd (conn c) =? -1 then
    _ ← iscsi_set_error "trying to write but not connected"; mret (-1)
  else
    write_loop (S (length (outqueue c))) (negb (data_digest c =? ISCSI_DATA_DIGEST_NONE)).

(** * Lemmas *)

(** ** The queue as a byte stream *)

(** The header block of a queued PDU as it will be sent: ExpStatSN and the
    header digest are filled in when the PDU becomes the current one. *)
Definition popped_hdr (c : iscsi_context) (b : bytes) : bytes :=
  let sn := if negb (bhs_opcode b =? ISCSI_PDU_DATA_OUT) then u32 (statsn c + 1) else statsn c in
  let b := scsi_set_uint32 b 28 sn in
  if negb (header_digest c =? ISCSI_HEADER_DIGEST_NONE) then put_header_digest b else b.

(** Where the data segment starts in a header block. *)
Definition segment_offset (c : iscsi_context) (b : bytes) : Z :=
  (if negb (header_digest c =? ISCSI_HEADER_DIGEST_NONE) then 52 else 48) + byte_at b 4 * 4.

Definition head_of (size : Z) (b : bytes) : bytes := take (Z.to_nat (align4 size)) b.

Definition segment_of (c : iscsi_context) (size : Z) (b : bytes) : bytes :=
  drop (Z.to_nat (segment_offset c b)) (head_of size b).

Definition body_of (pl : bytes) : bytes :=
  pl ++ zeros (Z.to_nat (align4 (Z.of_nat (length pl)) - Z.of_nat (length pl))).

(** The data digest that is sent, [[]] for none. *)
Definition digest_of (c : iscsi_context) (size : Z) (b pl : bytes) : bytes :=
  if data_digest c =? ISCSI_DATA_DIGEST_NONE then [] else
  match pl with
  | [] => if truth (iscsi_get_pdu_data_size b) then le4 (crc32c (segment_of c size b)) else []
  | _ => le4 (crc32c (body_of pl))
  end.

(** A PDU on the wire: its header block, its payload, its digest. *)
Definition wire (c : iscsi_context) (size : Z) (b pl : bytes) : bytes :=
  head_of size b ++ body_of pl ++ digest_of c size b pl.

(** The payload of a PDU, in the memory of the user. *)
Definition payload_of (w : world) (pdu : iscsi_pdu) : bytes :=
  match t ← cbdata_task pdu; task ← tasks w !! t; iov (iovector_out task) with
  | Some v => match read_addrs (umem (sys w)) (range v (payload_offset pdu) (payload_len pdu)) with
              | Ret b => b
              | Undef _ => []
              end
  | None => []
  end.

Definition pdu_wire (w : world) (p : nat) (b : bytes) : bytes :=
  wire (ctx w) (dsize (outdata (the_pdu w p))) b (payload_of w (the_pdu w p)).

Definition queued_wire (w : world) (p : nat) : bytes :=
  pdu_wire w p (popped_hdr (ctx w) (the_hdr w p)).

(** How much of a PDU is written. *)
Definition written (pdu : iscsi_pdu) : Z := outdata_written pdu + payload_written pdu.

Definition current_rest (w : world) (p : nat) : bytes :=
  drop (Z.to_nat (written (the_pdu w p))) (pdu_wire w p (the_hdr w p)).

(** What is still to be sent. *)
Definition pending (w : world) : bytes :=
  match outqueue_current (ctx w) with Some p => current_rest w p | None => [] end ++
  concat (map (queued_wire w) (outqueue (ctx w))).

(** ** What the writer relies on *)

(** The header block: complete, with room for the digest. *)
Record block_ok (c : iscsi_context) (pdu : iscsi_pdu) (b : bytes) : Prop := {
  bk_data : ddata (outdata pdu) = Some b;
  bk_size : ISCSI_HEADER_SIZE (header_digest c) <= dsize (outdata pdu) < 2 ^ 32 - 3;
  bk_block : align4 (dsize (outdata pdu)) <= Z.of_nat (length b);
  bk_segment : 0 <= byte_at b 4 /\ segment_offset c b <= dsize (outdata pdu)
}.

(** The payload is [payload_len] bytes of an io vector of the task, not yet
    passed by the vector's position. *)
Record in_vector (w : world) (pdu : iscsi_pdu) (pl : bytes) (t : nat) (task : scsi_task)
  (v : list scsi_iovec) : Prop := {
  iv_task : cbdata_task pdu = Some t;
  iv_lookup : tasks w !! t = Some task;
  iv_wf : iov_wf (iovector_out task) v;
  iv_range : 0 <= payload_offset pdu /\ payload_offset pdu + payload_len pdu <= total_len v;
  iv_offset : offset (iovector_out task) <=
    payload_offset pdu + Z.min (payload_written pdu) (payload_len pdu);
  iv_read : read_addrs (umem (sys w)) (range v (payload_offset pdu) (payload_len pdu)) = Ret pl
}.

Record payload_ok (w : world) (pdu : iscsi_pdu) (pl : bytes) : Prop := {
  py_len : payload_len pdu = Z.of_nat (length pl);
  py_max : payload_len pdu < 2 ^ 31;
  py_vector : 0 < payload_len pdu -> exists t task v, in_vector w pdu pl t task v
}.

(** The digest so far. *)
Definition digest_so_far (c : iscsi_context) (pdu : iscsi_pdu) (b pl : bytes) : Z :=
  if payload_len pdu =? 0 then
    (if outdata_digest_computed pdu
     then crc32c_chain crc32c_init (segment_of c (dsize (outdata pdu)) b) else crc32c_init)
  else crc32c_chain crc32c_init (take (Z.to_nat (payload_written pdu)) (body_of pl)).

(** A PDU that is partly written. *)
Record sending (w : world) (p : nat) (pdu : iscsi_pdu) (b pl : bytes) : Prop := {
  sd_pdu : pdus w !! p = Some pdu;
  sd_block : block_ok (ctx w) pdu b;
  sd_payload : payload_ok w pdu pl;
  sd_out : 0 <= outdata_written pdu <= align4 (dsize (outdata pdu));
  sd_written : 0 <= payload_written pdu <=
    Z.of_nat (length (body_of pl ++ digest_of (ctx w) (dsize (outdata pdu)) b pl));
  sd_order : 0 < payload_written pdu -> outdata_written pdu = align4 (dsize (outdata pdu));
  sd_digest : data_digest (ctx w) <> ISCSI_DATA_DIGEST_NONE ->
    calculated_data_digest pdu = digest_so_far (ctx w) pdu b pl
}.

(** ** Alignment *)

Lemma align4_spec n : 0 <= n < 2 ^ 32 - 3 ->
  n <= align4 n < n + 4 /\ align4 n mod 4 = 0 /\ align4 (align4 n) = align4 n.
Proof.
  intros Hn. assert (E : align4 n = 4 * ((n + 3) / 4)) by (apply align4_land; lia).
  destruct (align4_pad n ltac:(lia)) as (pad & E' & Hp & Hm). rewrite E' in E. rewrite E.
  split; [lia|]. split; [done|].
  apply Z.mod_divide in Hm as [k Hk]; [|lia]. rewrite Hk. unfold align4.
  rewrite align4_land by lia. rewrite Z.add_comm, Z.div_add by lia. change (3 / 4) with 0. lia.
Qed.

Lemma align4_idem n : 0 <= n < 2 ^ 32 - 3 -> align4 (align4 n) = align4 n.
Proof. intros Hn. by apply align4_spec. Qed.

Lemma length_body pl : Z.of_nat (length pl) < 2 ^ 31 ->
  Z.of_nat (length (body_of pl)) = align4 (Z.of_nat (length pl)).
Proof.
  intros Hl. unfold body_of. rewrite length_app, length_zeros.
  pose proof (align4_spec (Z.of_nat (length pl)) ltac:(lia)). lia.
Qed.

Lemma length_head c pdu b : block_ok c pdu b ->
  Z.of_nat (length (head_of (dsize (outdata pdu)) b)) = align4 (dsize (outdata pdu)) /\
  0 <= align4 (dsize (outdata pdu)).
Proof.
  intros [_ Hs Hb _]. unfold head_of. rewrite length_take.
  assert (0 <= dsize (outdata pdu)).
  { revert Hs. unfold ISCSI_HEADER_SIZE, ISCSI_RAW_HEADER_SIZE, ISCSI_DIGEST_SIZE.
    destruct (_ =? _); lia. }
  pose proof (align4_spec (dsize (outdata pdu)) ltac:(lia)). lia.
Qed.

Lemma length_le4 crc : length (le4 crc) = 4%nat.
Proof. done. Qed.

Lemma payload_of_vector w pdu pl : payload_ok w pdu pl -> payload_of w pdu = pl.
Proof.
  intros [Hl Hm Hv]. unfold payload_of. destruct (decide (0 < payload_len pdu)) as [H|H].
  - destruct (Hv H) as (t & task & v & [Ht Hk Hw _ _ Hr]). rewrite Ht. cbn. rewrite Hk. cbn.
    rewrite (wf_iov _ _ Hw). by rewrite Hr.
  - assert (pl = []) as -> by (destruct pl; [done|cbn in Hl; lia]).
    destruct (_ ≫= _) as [v|]; [|done]. unfold range.
    replace (Z.to_nat (payload_len pdu)) with 0%nat by lia. by rewrite take_0.
Qed.

(** ** What a stage does *)

(** The fields of a PDU that writing does not change. *)
Record same_pdu (a a' : iscsi_pdu) : Prop := {
  sp_flags : pdu_flags a' = pdu_flags a;
  sp_cmdsn : pdu_cmdsn a' = pdu_cmdsn a;
  sp_task : cbdata_task a' = cbdata_task a;
  sp_offset : payload_offset a' = payload_offset a;
  sp_len : payload_len a' = payload_len a
}.

(** The task [t] is as before, or it is the task of the PDU and the position
    of its io vector has moved, inside the payload of the PDU. *)
Definition task_moved (w w' : world) (pdu : iscsi_pdu) (t : nat) : Prop :=
  tasks w' !! t = tasks w !! t \/
  exists task iv v, cbdata_task pdu = Some t /\ 0 < payload_len pdu /\
    tasks w !! t = Some task /\ tasks w' !! t = Some (task <| iovector_out := iv |>) /\
    Task.iov (iovector_out task) = Some v /\ iov_wf iv v /\
    offset iv <= payload_offset pdu + payload_len pdu.

(** An answer of the kernel that takes something. *)
Definition takes (r : io_result) : Prop :=
  match r with Io_ok n => 1 <= n | Io_error _ => False end.

(** [data] went out, of the PDU [p]. *)
Record emitted (w w' : world) (p : nat) (pdu : iscsi_pdu) (data : bytes) : Prop := {
  em_sent : sent (sys w') = sent (sys w) ++ data;
  em_umem : umem (sys w') = umem (sys w);
  em_ctx : exists msg, ctx w' = (ctx w) <| error_string := msg |>;
  em_pdus : forall q, q <> p -> pdus w' !! q = pdus w !! q;
  em_tasks : forall t, task_moved w w' pdu t;
  em_mt : have_mt w' = have_mt w;
  em_answers : exists used, tx (sys w) = used ++ tx (sys w') /\
    (Forall takes used -> (length used <= length data)%nat)
}.

(** Where a stage stops the function. *)
Definition stopped (w w' : world) (data : bytes) (rc : Z) : Prop :=
  Forall takes (tx (sys w)) -> rc = 0 /\ (tx (sys w') = [] \/ data <> []).

Record staged (w : world) (p : nat) (pdu : iscsi_pdu) (b pl : bytes) (r : option Z)
  (w' : world) (data : bytes) (pdu' : iscsi_pdu) : Prop := {
  sg_emitted : emitted w w' p pdu data;
  sg_sending : sending w' p pdu' b pl;
  sg_same : same_pdu pdu pdu';
  sg_size : align4 (dsize (outdata pdu')) = align4 (dsize (outdata pdu));
  sg_data : data = take (length data)
    (drop (Z.to_nat (written pdu)) (wire (ctx w) (dsize (outdata pdu)) b pl));
  sg_written : written pdu' = written pdu + Z.of_nat (length data);
  sg_stop : match r with
            | None => True
            | Some rc => stopped w w' data rc /\
                written pdu' < Z.of_nat (length (wire (ctx w) (dsize (outdata pdu)) b pl))
            end
}.

Lemma same_pdu_refl a : same_pdu a a.
Proof. by split. Qed.

Lemma same_pdu_trans a b c : same_pdu a b -> same_pdu b c -> same_pdu a c.
Proof. intros [] []. split; congruence. Qed.

Lemma emitted_refl w p pdu : emitted w w p pdu [].
Proof.
  split; try done.
  - by rewrite app_nil_r.
  - exists (error_string (ctx w)). by destruct (ctx w).
  - intros t. by left.
  - exists []. done.
Qed.

Lemma task_moved_trans w1 w2 w3 a a' t : same_pdu a a' -> task_moved w1 w2 a t ->
  task_moved w2 w3 a' t -> task_moved w1 w3 a t.
Proof.
  intros [_ _ St So Sl] M1 M2.
  destruct M2 as [E2|(task2 & iv2 & v2 & Ht2 & Hl2 & K2 & E2 & V2 & W2 & O2)].
  - destruct M1 as [E1|M1]; [left; congruence|right; by rewrite E2].
  - right. rewrite St in Ht2. rewrite Sl in Hl2, O2. rewrite So in O2.
    destruct M1 as [E1|(task & iv & v & Ht & Hl & K & E & V & W & O)].
    + exists task2, iv2, v2. by rewrite <- E1.
    + rewrite E in K2. injection K2 as <-. exists task, iv2, v2. do 3 (split; [done|]).
      split; [by rewrite E2|]. split; [|done].
      cbn in V2. rewrite (wf_iov _ _ W) in V2. by rewrite V, V2.
Qed.

Lemma emitted_trans w1 w2 w3 p a a' d1 d2 : same_pdu a a' -> emitted w1 w2 p a d1 ->
  emitted w2 w3 p a' d2 -> emitted w1 w3 p a (d1 ++ d2).
Proof.
  intros Hs [S1 U1 (m1 & C1) P1 T1 M1 (u1 & A1 & L1)] [S2 U2 (m2 & C2) P2 T2 M2 (u2 & A2 & L2)].
  split; try congruence.
  - by rewrite S2, S1, app_assoc.
  - exists m2. by rewrite C2, C1.
  - intros q Hq. by rewrite P2, P1 by done.
  - intros t. by eapply task_moved_trans.
  - exists (u1 ++ u2). rewrite A1, A2, app_assoc. split; [done|]. rewrite Forall_app, !length_app.
    intros [F1 F2]. specialize (L1 F1). specialize (L2 F2). lia.
Qed.

Lemma wire_ctx c c' size b pl : header_digest c' = header_digest c ->
  data_digest c' = data_digest c -> wire c' size b pl = wire c size b pl.
Proof.
  intros E1 E2. unfold wire, digest_of, segment_of, segment_offset. by rewrite E1, E2.
Qed.

Lemma wire_size c s s' b pl : align4 s' = align4 s -> wire c s' b pl = wire c s b pl.
Proof. intros E. unfold wire, digest_of, segment_of, head_of. by rewrite E. Qed.

Lemma emitted_ctx w w' p pdu data : emitted w w' p pdu data ->
  header_digest (ctx w') = header_digest (ctx w) /\ data_digest (ctx w') = data_digest (ctx w).
Proof. intros [_ _ (m & ->) _ _ _ _]. done. Qed.

(** Two stages in a row. *)
Lemma staged_then w p pdu b pl w1 d1 pdu1 r w2 d2 pdu2 :
  staged w p pdu b pl None w1 d1 pdu1 -> staged w1 p pdu1 b pl r w2 d2 pdu2 ->
  0 <= written pdu ->
  staged w p pdu b pl r w2 (d1 ++ d2) pdu2.
Proof.
  intros [E1 S1 P1 Z1 D1 W1 _] [E2 S2 P2 Z2 D2 W2 T2] H0.
  pose proof (emitted_ctx _ _ _ _ _ E1) as [Eh Ed].
  assert (Ew : wire (ctx w1) (dsize (outdata pdu1)) b pl = wire (ctx w) (dsize (outdata pdu)) b pl)
    by (rewrite (wire_ctx (ctx w)) by done; by apply wire_size).
  rewrite Ew in D2, T2. split.
  - by eapply emitted_trans.
  - done.
  - by eapply same_pdu_trans.
  - congruence.
  - set (W := drop _ _) in *. 
    assert (D2' : d2 = take (length d2) (drop (length d1) W)).
    { rewrite D2 at 1. f_equal. unfold W. rewrite drop_drop. f_equal. lia. }
    rewrite length_app. rewrite <- take_take_drop. by rewrite <- D1, <- D2'.
  - rewrite W2, W1, length_app. lia.
  - destruct r as [rc|]; [|done]. destruct T2 as [Ts Tw]. split; [|done].
    intros F. destruct E1 as [_ _ _ _ _ _ (u1 & A1 & L1)]. rewrite A1 in F.
    apply Forall_app in F as [F1 F2]. destruct (Ts F2) as [-> [Ht|Hd]]; (split; [done|]).
    + by left.
    + right. by intros [_ ?]%app_eq_nil.
Qed.

(** [stage] in terms of its two parts. *)
Lemma stage_run m k w p pdu b pl r1 w1 d1 pdu1 :
  m w = Ret (r1, w1) -> staged w p pdu b pl r1 w1 d1 pdu1 -> 0 <= written pdu ->
  (r1 = None -> exists r w' data pdu', k w1 = Ret (r, w') /\ staged w1 p pdu1 b pl r w' data pdu') ->
  exists r w' data pdu', stage m k w = Ret (r, w') /\ staged w p pdu b pl r w' data pdu'.
Proof.
  intros E S H0 K. unfold stage. run E. destruct r1 as [rc|].
  - by exists (Some rc), w1, d1, pdu1.
  - destruct (K eq_refl) as (r & w' & data & pdu' & E' & S'). rewrite E'.
    exists r, w', (d1 ++ data), pdu'. split; [done|]. by eapply staged_then.
Qed.

(** ** Sending a piece *)

Lemma send_answers d w n s : send d w = Ret (n, w <| sys := s |>) -> d <> [] ->
  exists used, tx (sys w) = used ++ tx s /\
    (Forall takes used -> Z.of_nat (length used) <= Z.max 0 n) /\
    (Forall takes (tx (sys w)) -> n <> 0 /\ (n = -1 -> tx s = [] /\ errno s = EAGAIN)).
Proof.
  unfold send, get_sys, set_errno, set_sys, gets, modify, mbind, M_bind, mret, M_ret.
  destruct w as [? ? ? ? ? ? ? ? ? ? ? sys ?]. cbn. intros E Hd.
  assert (Hlen : (1 <= length d)%nat) by (destruct d; [done|cbn; lia]).
  destruct (tx sys) as [|[k|e] l] eqn:Et; cbn in E; injection E as <- <-; cbn.
  - exists []. rewrite Et. split; [done|]. split; [intros _; cbn; lia|]. done.
  - exists [Io_ok k]. split; [done|].
    assert (Hk : 1 <= k -> Z.of_nat (length (take (Z.to_nat k) d)) >= 1).
    { intros Hk. rewrite length_take. lia. }
    split; intros F; apply Forall_cons in F as [F _]; cbn in F; [cbn; lia|]. lia.
  - exists [Io_error e]. split; [done|]. split; intros F; by apply Forall_cons in F as [F _].
Qed.

Lemma send_emitted d w p pdu : d <> [] -> exists n s,
  send d w = Ret (n, w <| sys := s |>) /\ -1 <= n <= Z.of_nat (length d) /\ umem s = umem (sys w) /\
  (forall w', pdus w' = pdus w \/ (exists a, pdus w' = <[p := a]> (pdus w)) -> sys w' = s ->
     tasks w' = tasks w -> have_mt w' = have_mt w ->
     (exists msg, ctx w' = (ctx w) <| error_string := msg |>) ->
     emitted w w' p pdu (take (Z.to_nat n) d)) /\
  (Forall takes (tx (sys w)) -> n <> 0 /\ (n = -1 -> tx s = [] /\ errno s = EAGAIN)).
Proof.
  intros Hd. destruct (send_cases d w) as (n & s & E & Hu & Hs & Hn & _).
  destruct (send_answers d w n s E Hd) as (used & Ht & Hc & Hf).
  exists n, s. do 3 (split; [done|]). split; [|done].
  intros w' Hp Hsys Htk Hmt Hctx. split; try (rewrite Hsys); try done.
  - intros q Hq. destruct Hp as [->|[a ->]]; [done|by rewrite lookup_insert_ne].
  - intros t. left. by rewrite Htk.
  - exists used. split; [done|]. intros F. specialize (Hc F). rewrite length_take. lia.
Qed.

(** A PDU stays valid when only its counters, its digest and the alignment of
    its size change. *)
Lemma sending_update w w' p pdu pdu' b pl : sending w p pdu b pl ->
  tasks w' = tasks w -> umem (sys w') = umem (sys w) ->
  (exists msg, ctx w' = (ctx w) <| error_string := msg |>) ->
  pdus w' !! p = Some pdu' -> same_pdu pdu pdu' ->
  ddata (outdata pdu') = ddata (outdata pdu) ->
  dsize (outdata pdu') = dsize (outdata pdu) \/
    dsize (outdata pdu') = align4 (dsize (outdata pdu)) ->
  outdata_written pdu <= outdata_written pdu' <= align4 (dsize (outdata pdu)) ->
  payload_written pdu <= payload_written pdu' <=
    Z.of_nat (length (body_of pl ++ digest_of (ctx w) (dsize (outdata pdu)) b pl)) ->
  (0 < payload_written pdu' -> outdata_written pdu' = align4 (dsize (outdata pdu))) ->
  (data_digest (ctx w) <> ISCSI_DATA_DIGEST_NONE ->
    calculated_data_digest pdu' = digest_so_far (ctx w) pdu' b pl) ->
  sending w' p pdu' b pl.
Proof.
  intros [Hp [Kd Ks Kb Kg] [Yl Ym Yv] Ho Hw Hr Hd] Et Eu (msg & Ec) Ep [Sf Sc St So Sl] Edd Esz Hout Hpw Hord Hdig.
  assert (Hs0 : 0 <= dsize (outdata pdu)).
  { revert Ks. unfold ISCSI_HEADER_SIZE, ISCSI_RAW_HEADER_SIZE, ISCSI_DIGEST_SIZE. destruct (_ =? _); lia. }
  destruct (align4_spec (dsize (outdata pdu)) ltac:(lia)) as (A1 & A2 & A3).
  assert (A4 : align4 (dsize (outdata pdu)) < 2 ^ 32 - 3).
  { apply Z.mod_divide in A2 as [k Hk]; lia. }
  assert (Ea : align4 (dsize (outdata pdu')) = align4 (dsize (outdata pdu)))
    by (destruct Esz as [-> | ->]; [done|congruence]).
  assert (Edg : digest_of (ctx w') (dsize (outdata pdu')) b pl =
                digest_of (ctx w) (dsize (outdata pdu)) b pl).
  { rewrite Ec. unfold digest_of, segment_of, segment_offset, head_of. cbn. by rewrite Ea. }
  split; rewrite ?Ea, ?Edg; try done.
  - split; rewrite ?Ea, ?Ec, ?Edd; try done; cbn.
    + destruct Esz as [-> | ->]; lia.
    + unfold segment_offset in *. cbn. destruct Esz as [-> | ->]; lia.
  - split; rewrite ?Sl; try done. intros Hpos.
    destruct (Yv Hpos) as (t & task & v & [V1 V2 V3 V4 V5 V6]). exists t, task, v.
    split; rewrite ?St, ?So, ?Sl, ?Et, ?Eu; try done. lia.
  - lia.
  - lia.
  - rewrite Ec. cbn. intros Hne. by rewrite (Hdig Hne).
Qed.

(** The world with another error string. *)
Definition noted (msg : string) (w : world) : world :=
  w <| ctx ::= fun c => c <| error_string := msg |> |>.

Lemma noted_same w : w = noted (error_string (ctx w)) w.
Proof. by destruct w as [[]]. Qed.

Lemma emitted_noted w w' p pdu data msg : emitted w w' p pdu data -> emitted w (noted msg w') p pdu data.
Proof. intros [E1 E2 [m E3] E4 E5 E6 E7]. split; try done. exists msg. cbn. by rewrite E3. Qed.

Lemma sending_noted w p pdu b pl msg : sending w p pdu b pl -> sending (noted msg w) p pdu b pl.
Proof.
  intros Hs. pose proof Hs as [Hp _ _ Ho Hpw Hor Hd]. eapply sending_update; try done; try lia;
    first [by exists msg|by left].
Qed.

Lemma sending_sys w p pdu b pl s : sending w p pdu b pl -> umem s = umem (sys w) ->
  sending (w <| sys := s |>) p pdu b pl.
Proof.
  intros Hs Hu. pose proof Hs as [Hp _ _ Ho Hpw Hor Hd]. eapply sending_update; try done; try lia;
    first [exists (error_string (ctx w)); by destruct w as [[]]|by left].
Qed.

(** The end of a stage that the kernel gave nothing. *)
Lemma write_failed_staged w w1 p pdu b pl msg : sending w1 p pdu b pl -> emitted w w1 p pdu [] ->
  (Forall takes (tx (sys w)) -> tx (sys w1) = [] /\ errno (sys w1) = EAGAIN) ->
  written pdu < Z.of_nat (length (wire (ctx w) (dsize (outdata pdu)) b pl)) ->
  exists rc w', write_failed msg w1 = Ret (Some rc, w') /\ staged w p pdu b pl (Some rc) w' [] pdu.
Proof.
  intros Hs He Hf Hw. unfold write_failed, get_sys, gets, mbind, M_bind, mret, M_ret.
  assert (Hst : forall m rc, (Forall takes (tx (sys w)) -> rc = 0) ->
    staged w p pdu b pl (Some rc) (noted m w1) [] pdu).
  { intros m rc Hrc. split; try done.
    - by apply emitted_noted.
    - by apply sending_noted.
    - cbn. lia.
    - split; [|done]. intros F. split; [by apply Hrc|]. left. by apply (Hf F). }
  assert (Hst' : forall rc, (Forall takes (tx (sys w)) -> rc = 0) ->
    staged w p pdu b pl (Some rc) w1 [] pdu).
  { intros rc Hrc. rewrite (noted_same w1). by apply Hst. }
  destruct (Z.eqb_spec (errno (sys w1)) EAGAIN) as [Ee|Ee].
  - exists 0, w1. split; [done|]. by apply Hst'.
  - assert (Hrc : Forall takes (tx (sys w)) -> -1 = 0) by (intros F; destruct (Hf F); done).
    exists (-1). destruct msg as [m|]; eexists; (split; [reflexivity|]); [by apply Hst|by apply Hst'].
Qed.

(** ** The stages *)

Lemma length_wire w p pdu b pl : sending w p pdu b pl ->
  Z.of_nat (length (wire (ctx w) (dsize (outdata pdu)) b pl)) =
  align4 (dsize (outdata pdu)) +
  Z.of_nat (length (body_of pl ++ digest_of (ctx w) (dsize (outdata pdu)) b pl)).
Proof.
  intros [_ Hb _ _ _ _ _]. pose proof (length_head _ _ _ Hb) as [Hl _].
  unfold wire. rewrite length_app. lia.
Qed.

(** After the header block. *)
Lemma wire_rest w p pdu b pl : sending w p pdu b pl ->
  outdata_written pdu = align4 (dsize (outdata pdu)) ->
  drop (Z.to_nat (written pdu)) (wire (ctx w) (dsize (outdata pdu)) b pl) =
  drop (Z.to_nat (payload_written pdu))
    (body_of pl ++ digest_of (ctx w) (dsize (outdata pdu)) b pl).
Proof.
  intros [_ Hb _ _ Hw _ _] Ho. pose proof (length_head _ _ _ Hb) as [Hl H0].
  unfold wire, written. rewrite Ho.
  replace (Z.to_nat (align4 (dsize (outdata pdu)) + payload_written pdu)) with
    (length (head_of (dsize (outdata pdu)) b) + Z.to_nat (payload_written pdu))%nat by lia.
  rewrite <- drop_drop. f_equal. by apply drop_app_length'.
Qed.

Lemma staged_nothing w p pdu b pl w' pdu' : sending w' p pdu' b pl -> emitted w w' p pdu [] ->
  same_pdu pdu pdu' -> align4 (dsize (outdata pdu')) = align4 (dsize (outdata pdu)) ->
  written pdu' = written pdu -> staged w p pdu b pl None w' [] pdu'.
Proof. intros. split; try done. cbn. lia. Qed.

Lemma put_emitted w p pdu a : emitted w (put w p a) p pdu [].
Proof.
  split; try done.
  - by rewrite app_nil_r.
  - exists (error_string (ctx w)). by destruct w as [[]].
  - intros q Hq. by apply put_lookup_ne.
  - intros t. by left.
  - by exists [].
Qed.

Definition aligned (pdu : iscsi_pdu) : iscsi_pdu := pdu <| outdata ::= fun d => d <| dsize ::= align4 |> |>.

Lemma sending_size w p pdu b pl : sending w p pdu b pl ->
  0 <= dsize (outdata pdu) < 2 ^ 32 - 3 /\ 0 <= align4 (dsize (outdata pdu)) < 2 ^ 32 - 3 /\
  align4 (align4 (dsize (outdata pdu))) = align4 (dsize (outdata pdu)).
Proof.
  intros [_ [_ Ks _ _] _ _ _ _ _].
  assert (Hs0 : 0 <= dsize (outdata pdu)).
  { revert Ks. unfold ISCSI_HEADER_SIZE, ISCSI_RAW_HEADER_SIZE, ISCSI_DIGEST_SIZE. destruct (_ =? _); lia. }
  destruct (align4_spec (dsize (outdata pdu)) ltac:(lia)) as (A1 & A2 & A3).
  apply Z.mod_divide in A2 as [k Hk]; lia.
Qed.

Lemma sending_aligned w p pdu b pl : sending w p pdu b pl -> sending (put w p (aligned pdu)) p (aligned pdu) b pl.
Proof.
  intros Hs. pose proof (sending_size _ _ _ _ _ Hs) as (A1 & A2 & A3). pose proof Hs as [Hp Hb Hy Ho Hw Hr Hd].
  eapply sending_update; try done.
  - exists (error_string (ctx w)). by destruct w as [[]].
  - apply put_lookup.
  - by right.
  - cbn. lia.
  - cbn. lia.
  - intros Hne. cbn. rewrite (Hd Hne). unfold digest_so_far, segment_of, head_of. cbn. by rewrite A3.
Qed.

(** A short write, of [n] of the [d] bytes offered. *)
Lemma staged_piece w p pdu b pl d n s pdu' r w' : sending w p pdu b pl ->
  0 <= n <= Z.of_nat (length d) ->
  take (length d) (drop (Z.to_nat (written pdu)) (wire (ctx w) (dsize (outdata pdu)) b pl)) = d ->
  sys w' = s -> (Forall takes (tx (sys w)) -> n <> 0) ->
  emitted w w' p pdu (take (Z.to_nat n) d) -> sending w' p pdu' b pl -> same_pdu pdu pdu' ->
  align4 (dsize (outdata pdu')) = align4 (dsize (outdata pdu)) -> written pdu' = written pdu + n ->
  r = None \/ (r = Some 0 /\ n < Z.of_nat (length d)) ->
  staged w p pdu b pl r w' (take (Z.to_nat n) d) pdu'.
Proof.
  intros Hs Hn Hd Es Hf He Hs' Hsame Ha Hw Hr.
  assert (El : length (take (Z.to_nat n) d) = Z.to_nat n) by (rewrite length_take; lia).
  split; try done.
  - rewrite El. rewrite <- Hd at 1. rewrite take_take. f_equal. lia.
  - rewrite El. lia.
  - destruct Hr as [->|[-> Hlt]]; [done|]. split.
    + intros F. split; [done|]. right. specialize (Hf F). intros E. apply (f_equal length) in E.
      rewrite El in E. cbn in E. lia.
    + apply (f_equal length) in Hd. rewrite length_take, length_drop in Hd.
      pose proof (sd_out _ _ _ _ _ Hs). pose proof (sd_written _ _ _ _ _ Hs). unfold written in *. lia.
Qed.

Lemma ctx_same_error (w : world) : exists msg, ctx w = (ctx w) <| error_string := msg |>.
Proof. exists (error_string (ctx w)). by destruct w as [[]]. Qed.

(** A stage that offers [d] to the kernel and moves the counters by what it
    took. *)
Lemma send_piece_run w p pdu b pl d msg (U : Z -> IO unit) (f : Z -> iscsi_pdu) (k : Z -> option Z) :
  sending w p pdu b pl -> d <> [] ->
  take (length d) (drop (Z.to_nat (written pdu)) (wire (ctx w) (dsize (outdata pdu)) b pl)) = d ->
  (forall n s, U n (w <| sys := s |>) = Ret (tt, put (w <| sys := s |>) p (f n))) ->
  (forall n s, 0 <= n <= Z.of_nat (length d) -> umem s = umem (sys w) ->
     sending (put (w <| sys := s |>) p (f n)) p (f n) b pl /\ same_pdu pdu (f n) /\
     align4 (dsize (outdata (f n))) = align4 (dsize (outdata pdu)) /\ written (f n) = written pdu + n) ->
  (forall n, 0 <= n <= Z.of_nat (length d) -> k n = None \/ (k n = Some 0 /\ n < Z.of_nat (length d))) ->
  exists r w' data pdu',
    (count ← send d;
     if count =? -1 then write_failed msg else _ ← U count; mret (k count)) w = Ret (r, w') /\
    staged w p pdu b pl r w' data pdu' /\
    (pdu' = pdu /\ r <> None \/ exists n, 0 <= n <= Z.of_nat (length d) /\ pdu' = f n /\ r = k n).
Proof.
  intros Hs Hd Ed HU Hf Hk.
  assert (Hw : written pdu < Z.of_nat (length (wire (ctx w) (dsize (outdata pdu)) b pl))).
  { pose proof (f_equal length Ed) as El. rewrite length_take, length_drop in El.
    assert (length d <> 0%nat) by (by destruct d).
    pose proof (sd_out _ _ _ _ _ Hs). pose proof (sd_written _ _ _ _ _ Hs). unfold written in *. lia. }
  destruct (send_emitted d w p pdu Hd) as (n & s & E & Hn & Hu & He & Ht). run E.
  destruct (Z.eqb_spec n (-1)) as [->|Hn1].
  { destruct (write_failed_staged w (w <| sys := s |>) p pdu b pl msg) as (rc & w' & E' & S').
    - by apply sending_sys.
    - apply He; try done; [by left|exact (ctx_same_error w)].
    - intros F. by apply Ht.
    - done.
    - exists (Some rc), w', [], pdu. rewrite E'. split; [done|]. split; [done|by left]. }
  run (HU n s). destruct (Hf n s ltac:(lia) Hu) as (Hs' & Hsame & Ha & Hwr).
  exists (k n), (put (w <| sys := s |>) p (f n)), (take (Z.to_nat n) d), (f n).
  split; [done|]. split; [|right; exists n; split; [lia|done]].
  eapply staged_piece; try done; [lia|by apply Ht| |apply Hk; lia].
  apply He; try done; [right; by exists (f n)|exact (ctx_same_error w)].
Qed.

Lemma written_nonneg w p pdu b pl : sending w p pdu b pl -> 0 <= written pdu.
Proof.
  intros Hs. pose proof (sd_out _ _ _ _ _ Hs). pose proof (sd_written _ _ _ _ _ Hs). unfold written. lia.
Qed.

Lemma sending_hdr w p pdu b pl : sending w p pdu b pl -> hdr_of p w = Ret (b, w).
Proof.
  intros Hs. unfold hdr_of. run (get_pdu_run w p pdu (sd_pdu _ _ _ _ _ Hs)).
  by rewrite (bk_data _ _ _ (sd_block _ _ _ _ _ Hs)).
Qed.

(** *** The header block *)

Lemma header_piece w p a b pl : sending w p a b pl -> dsize (outdata a) = align4 (dsize (outdata a)) ->
  outdata_written a < dsize (outdata a) ->
  let size := dsize (outdata a) in
  exists r w' data pdu',
    (count ← send_block b (outdata_written a) (size - outdata_written a);
     if count =? -1 then write_failed write_error else
     _ ← set_pdu p (fun pdu => pdu <| outdata_written ::= Z.add count |>);
     mret (if outdata_written a + count =? size then None else Some 0)) w = Ret (r, w') /\
    staged w p a b pl r w' data pdu' /\ dsize (outdata pdu') = size /\
    (r = None -> outdata_written pdu' = size).
Proof.
  intros Hs Ha Hlt size. pose proof (sending_size _ _ _ _ _ Hs) as (A1 & _ & _).
  pose proof (sd_out _ _ _ _ _ Hs) as Ho.
  assert (Epw : payload_written a = 0).
  { pose proof (sd_order _ _ _ _ _ Hs). pose proof (sd_written _ _ _ _ _ Hs). lia. }
  pose proof (bk_block _ _ _ (sd_block _ _ _ _ _ Hs)) as Kb. rewrite <- Ha in Kb. fold size in Kb, Ho, Ha, Hlt, A1.
  unfold send_block.
  replace (outdata_written a + (size - outdata_written a)) with size by lia.
  destruct (Z.ltb_spec (Z.of_nat (length b)) size); [lia|].
  destruct (Z.ltb_spec (outdata_written a) 0); [lia|]. cbn [orb].
  set (d := take _ (drop _ b)).
  assert (Ld : Z.of_nat (length d) = size - outdata_written a).
  { unfold d. rewrite length_take, length_drop. lia. }
  destruct (send_piece_run w p a b pl d write_error
    (fun count => set_pdu p (fun pdu => pdu <| outdata_written ::= Z.add count |>))
    (fun n => a <| outdata_written ::= Z.add n |>)
    (fun n => if outdata_written a + n =? size then None else Some 0) Hs)
    as (r & w' & data & pdu' & E & S & Hr).
  - intros E. rewrite E in Ld. cbn in Ld. lia.
  - unfold written. rewrite Epw, Z.add_0_r. fold size. unfold wire.
    pose proof (length_head _ _ _ (sd_block _ _ _ _ _ Hs)) as [Hl _]. fold size in Hl. rewrite <- Ha in Hl.
    rewrite drop_app_le by lia. rewrite take_app_le by (rewrite length_drop; lia).
    unfold d, head_of. rewrite <- Ha, skipn_firstn_comm, take_take. f_equal.
    rewrite length_take, length_drop. lia.
  - intros n s. apply (set_pdu_run (w <| sys := s |>)), (sd_pdu _ _ _ _ _ Hs).
  - intros n s Hn Hu. split; [|split; [done|]; split; [done|unfold written; cbn; lia]].
    eapply sending_update; try done; [exact (ctx_same_error w)|apply put_lookup|by left|cbn; fold size; lia| | |].
    + cbn. pose proof (sd_written _ _ _ _ _ Hs). lia.
    + cbn. lia.
    + by apply (sd_digest _ _ _ _ _ Hs).
  - intros n Hn. destruct (Z.eqb_spec (outdata_written a + n) size); [by left|right]. split; [done|]. lia.
  - exists r, w', data, pdu'. split; [done|]. split; [done|].
    destruct Hr as [[-> Hne]|(n & Hn & -> & ->)]; [done|]. split; [done|]. cbn.
    destruct (Z.eqb_spec (outdata_written a + n) size); [lia|done].
Qed.

Lemma write_header_run w p pdu b pl : sending w p pdu b pl ->
  exists r w' data pdu', write_header p w = Ret (r, w') /\ staged w p pdu b pl r w' data pdu' /\
    dsize (outdata pdu') = align4 (dsize (outdata pdu)) /\
    (r = None -> outdata_written pdu' = dsize (outdata pdu')).
Proof.
  intros Hs0. pose proof (sending_size _ _ _ _ _ Hs0) as (A1 & A2 & A3).
  pose proof (sending_aligned _ _ _ _ _ Hs0) as Hs. set (a := aligned pdu) in *.
  set (v := put w p a) in *.
  assert (H1 : staged w p pdu b pl None v [] a) by (apply staged_nothing; try done; apply put_emitted).
  assert (Ha : dsize (outdata a) = align4 (dsize (outdata pdu))) by done.
  cut (exists r w' data pdu', write_header p w = Ret (r, w') /\ staged v p a b pl r w' data pdu' /\
    dsize (outdata pdu') = dsize (outdata a) /\ (r = None -> outdata_written pdu' = dsize (outdata a))).
  { intros (r & w' & data & pdu' & E & S & D & R). exists r, w', ([] ++ data), pdu'.
    split; [done|]. split; [eapply staged_then; try done; by eapply written_nonneg|].
    rewrite D. split; [done|]. intros Hr. by apply R. }
  unfold write_header. run (set_pdu_run w p pdu (fun pdu => pdu <| outdata ::= fun d => d <| dsize ::= align4 |> |>) (sd_pdu _ _ _ _ _ Hs0)).
  fold (aligned pdu). fold a. fold (put w p a). fold v. run (get_pdu_run v p a (sd_pdu _ _ _ _ _ Hs)).
  cbv zeta. pose proof (sd_out _ _ _ _ _ Hs) as Ho. rewrite Ha, A3 in Ho.
  destruct (Z.ltb_spec (outdata_written a) (dsize (outdata a))) as [Hlt|Hge].
  - run (sending_hdr _ _ _ _ _ Hs). apply header_piece; [done|by rewrite Ha, A3|done].
  - assert (Eo : outdata_written a = dsize (outdata a)) by lia. rewrite Eo, Z.eqb_refl.
    exists None, v, [], a. split; [done|]. split; [|done].
    apply staged_nothing; try done. apply emitted_refl.
Qed.

(** *** The digest of the data segment in the header block *)

Definition digests (c : iscsi_context) : bool := negb (data_digest c =? ISCSI_DATA_DIGEST_NONE).

Lemma digests_spec c : digests c = true <-> data_digest c <> ISCSI_DATA_DIGEST_NONE.
Proof. unfold digests. rewrite negb_true_iff. apply Z.eqb_neq. Qed.

Lemma digest_outdata_run w p pdu b pl : sending w p pdu b pl ->
  dsize (outdata pdu) = align4 (dsize (outdata pdu)) ->
  let execute := digests (ctx w) && (truth (iscsi_get_pdu_data_size b) && (payload_len pdu =? 0)) in
  exists w' pdu', digest_outdata p (digests (ctx w)) w = Ret (execute, w') /\
    staged w p pdu b pl None w' [] pdu' /\ dsize (outdata pdu') = dsize (outdata pdu) /\
    outdata_written pdu' = outdata_written pdu /\ payload_written pdu' = payload_written pdu /\
    sys w' = sys w /\ (execute = true -> outdata_digest_computed pdu' = true).
Proof.
  intros Hs Ha execute. unfold digest_outdata.
  assert (Hsame : staged w p pdu b pl None w [] pdu).
  { apply staged_nothing; try done. apply emitted_refl. }
  destruct (digests (ctx w)) eqn:Edd; cbn [negb]; [|by exists w, pdu].
  run (get_pdu_run w p pdu (sd_pdu _ _ _ _ _ Hs)). run (sending_hdr _ _ _ _ _ Hs). cbv zeta.
  change (true && ?x) with x in execute. fold execute.
  destruct (execute && negb (outdata_digest_computed pdu)) eqn:Ee.
  2: { exists w, pdu. do 6 (split; [done|]). intros Ex. rewrite Ex in Ee. cbn in Ee.
       by destruct (outdata_digest_computed pdu). }
  apply andb_true_iff in Ee as [Ex Ec]. apply negb_true_iff in Ec.
  assert (Hl : payload_len pdu = 0).
  { unfold execute in Ex. apply andb_true_iff in Ex as [_ Ex]. by apply Z.eqb_eq. }
  unfold get_ctx at 1. rewrite (bind_run _ _ _ (header_digest (ctx w)) w) by done.
  pose proof (sd_block _ _ _ _ _ Hs) as [_ _ Kb [Kg0 Kg]]. rewrite <- Ha in Kb.
  fold (segment_offset (ctx w) b).
  destruct (Z.ltb_spec (dsize (outdata pdu)) (segment_offset (ctx w) b)); [lia|].
  destruct (Z.ltb_spec (Z.of_nat (length b)) (dsize (outdata pdu))); [lia|]. cbn [orb].
  set (a := pdu <| calculated_data_digest := crc32c_chain crc32c_init (segment_of (ctx w) (dsize (outdata pdu)) b) |>
                <| outdata_digest_computed := true |>).
  assert (Hcalc : crc32c_chain (calculated_data_digest pdu)
      (take (Z.to_nat (dsize (outdata pdu) - segment_offset (ctx w) b)) (drop (Z.to_nat (segment_offset (ctx w) b)) b))
    = crc32c_chain crc32c_init (segment_of (ctx w) (dsize (outdata pdu)) b)).
  { rewrite (sd_digest _ _ _ _ _ Hs) by (by apply digests_spec). unfold digest_so_far.
    rewrite Hl, Ec. cbn [Z.eqb]. f_equal. unfold segment_of, head_of. rewrite <- Ha.
    assert (0 <= segment_offset (ctx w) b) by (unfold segment_offset; destruct (negb _); lia).
    rewrite skipn_firstn_comm. f_equal. lia. }
  rewrite (bind_run _ _ _ tt (put w p a)).
  2: { rewrite (set_pdu_run w p pdu _ (sd_pdu _ _ _ _ _ Hs)). by rewrite Hcalc. }
  exists (put w p a), a. split; [done|]. split; [|done].
  apply staged_nothing; [|apply put_emitted|done|done|done].
  pose proof Hs as [Hp _ _ Ho Hpw Hor Hd]. eapply sending_update; try done;
    try (cbn; lia); try first [exact (ctx_same_error w)|apply put_lookup|by left].
  intros _. unfold digest_so_far. cbn. by rewrite Hl.
Qed.

(** *** The payload *)

Lemma send_uses d w n s : send d w = Ret (n, w <| sys := s |>) -> 0 <= n ->
  length (tx (sys w)) = S (length (tx s)).
Proof.
  unfold send, get_sys, set_errno, set_sys, gets, modify, mbind, M_bind, mret, M_ret.
  destruct w as [? ? ? ? ? ? ? ? ? ? ? sys ?]. cbn. intros E Hn.
  destruct (tx sys) as [|[k|e] l] eqn:Et; cbn in E; injection E as <- <-; cbn; [lia|done|lia].
Qed.

Lemma range_drop v pos count k : 0 <= pos -> 0 <= k <= count ->
  range v (pos + k) (count - k) = drop (Z.to_nat k) (range v pos count).
Proof.
  intros Hp Hk. unfold range. rewrite skipn_firstn_comm, drop_drop. f_equal; [lia|]. f_equal. lia.
Qed.

Lemma body_take pl k n : (k + n <= length pl)%nat ->
  take (k + n) (body_of pl) = take k (body_of pl) ++ take n (drop k pl).
Proof.
  intros H. unfold body_of. rewrite !take_app_le by lia. symmetry. apply take_take_drop.
Qed.

Lemma io_note_noted n w : exists msg, io_note n w = noted msg w.
Proof.
  unfold io_note. destruct (_ && _); [by eexists|]. eexists. apply noted_same.
Qed.

(** The PDU after a transfer of [n] payload bytes. *)
Lemma sending_payload w w' p pdu pdu' b pl t task v iv' n : sending w p pdu b pl ->
  in_vector w pdu pl t task v -> iov_wf iv' v -> offset iv' <= payload_offset pdu + payload_written pdu ->
  outdata_written pdu = align4 (dsize (outdata pdu)) ->
  0 <= n <= payload_len pdu - payload_written pdu -> 0 < payload_len pdu ->
  tasks w' = <[t := task <| iovector_out := iv' |>]> (tasks w) -> umem (sys w') = umem (sys w) ->
  (exists msg, ctx w' = (ctx w) <| error_string := msg |>) -> pdus w' !! p = Some pdu' ->
  same_pdu pdu pdu' -> outdata pdu' = outdata pdu -> outdata_written pdu' = outdata_written pdu ->
  payload_written pdu' = payload_written pdu + n ->
  (data_digest (ctx w) <> ISCSI_DATA_DIGEST_NONE -> calculated_data_digest pdu' =
     crc32c_chain (calculated_data_digest pdu) (take (Z.to_nat n) (drop (Z.to_nat (payload_written pdu)) pl))) ->
  sending w' p pdu' b pl.
Proof.
  intros [Hp [Kd Ks Kb Kg] [Yl Ym _] Ho Hw Hr Hd] [V1 V2 V3 V4 V5 V6] Hwf Hoff Hout Hn Hpos Et Eu (msg & Ec) Ep
    [Sf Sc St So Sl] Ed Eo Epw Hdig.
  assert (Edg : digest_of (ctx w') (dsize (outdata pdu')) b pl = digest_of (ctx w) (dsize (outdata pdu)) b pl).
  { rewrite Ec, Ed. done. }
  assert (Hbody : payload_len pdu <= Z.of_nat (length (body_of pl))).
  { unfold body_of. rewrite length_app. lia. }
  split; rewrite ?Edg, ?Ed, ?Eo, ?Epw; try done.
  - by split; rewrite ?Ec, ?Ed.
  - split; rewrite ?Sl; try done. intros _. exists t, (task <| iovector_out := iv' |>), v.
    split; rewrite ?St, ?So, ?Sl, ?Eu; try done.
    + rewrite Et. apply lookup_insert_eq.
    + cbn. lia.
  - rewrite length_app. lia.
  - rewrite Ec. cbn. intros Hne. rewrite (Hdig Hne), (Hd Hne). unfold digest_so_far. rewrite Sl, Epw.
    destruct (Z.eqb_spec (payload_len pdu) 0); [lia|]. rewrite <- crc32c_chain_app. f_equal.
    rewrite Z2Nat.inj_add by lia. rewrite body_take by lia. done.
Qed.

(** The world after a transfer of [data] from the io vector of task [t]. *)
Definition transferred (w : world) (p : nat) (pdu : iscsi_pdu) (s : system) (msg : string)
  (t : nat) (task : scsi_task) (iv : scsi_iovector) (data : bytes) : world :=
  put ((noted msg (w <| sys := s |>)) <| tasks ::= <[t := task <| iovector_out := iv |>]> |>) p
    (pdu <| calculated_data_digest :=
       if digests (ctx w) then crc32c_chain (calculated_data_digest pdu) data
       else calculated_data_digest pdu |>).

Lemma write_iovector_call w p pdu b pl t task v : sending w p pdu b pl ->
  payload_written pdu < payload_len pdu -> in_vector w pdu pl t task v ->
  let d := drop (Z.to_nat (payload_written pdu)) pl in
  forall n s, send d w = Ret (n, w <| sys := s |>) ->
  exists iv msg, iov_wf iv v /\ offset iv <= payload_offset pdu + payload_written pdu /\
    write_iovector p (digests (ctx w)) w =
      (if n =? -1 then write_failed None else
       _ ← set_pdu p (fun pdu => pdu <| payload_written ::= fun k => u32 (k + n) |>);
       mret None) (transferred w p pdu s msg t task iv (take (Z.to_nat n) d)).
Proof.
  intros Hs Hlt [V1 V2 V3 [V4 V4'] V5 V6] d n s E.
  pose proof (sd_written _ _ _ _ _ Hs) as Hpw. rewrite Z.min_l in V5 by lia.
  pose proof (wf_total _ _ V3) as Hmax.
  pose proof (py_len _ _ _ (sd_payload _ _ _ _ _ Hs)) as Yl. unfold write_iovector.
  run (get_pdu_run w p pdu (sd_pdu _ _ _ _ _ Hs)).
  assert (Etk : get_task t w = Ret (task, w)) by (unfold get_task, getS, mbind, M_bind; by rewrite V2).
  assert (Et : iscsi_get_scsi_task_iovector_out p w = Ret (Some t, w)).
  { unfold iscsi_get_scsi_task_iovector_out. run (get_pdu_run w p pdu (sd_pdu _ _ _ _ _ Hs)).
    rewrite V1. unfold deref. rewrite (bind_run _ _ _ t w) by done. run Etk.
    by rewrite (wf_iov _ _ V3). }
  run Et. run Etk. rewrite u32_small by lia.
  assert (Er : read_addrs (umem (sys w)) (range v (payload_offset pdu + payload_written pdu)
      (payload_len pdu - payload_written pdu)) = Ret d).
  { rewrite range_drop by lia. by apply read_addrs_drop. }
  destruct (iovector_write_run (iovector_out task) v (payload_offset pdu + payload_written pdu)
    (payload_len pdu - payload_written pdu)
    (if digests (ctx w) then Some (calculated_data_digest pdu) else None) d w n _ V3 V5
    ltac:(lia) ltac:(lia) Er E) as (iv & Ei & Hwf' & Hoff).
  run Ei. cbv beta iota. destruct (io_note_noted n (w <| sys := s |>)) as [msg ->].
  exists iv, msg. do 2 (split; [done|]).
  rewrite (bind_run _ _ _ tt ((noted msg (w <| sys := s |>)) <| tasks ::= <[t := task <| iovector_out := iv |>]> |>))
    by (by apply set_task_run).
  unfold transferred. set (w1 := _ <| tasks ::= _ |>).
  rewrite (bind_run _ _ _ tt (put w1 p (pdu <| calculated_data_digest :=
       if digests (ctx w) then crc32c_chain (calculated_data_digest pdu) (take (Z.to_nat n) d)
       else calculated_data_digest pdu |>))); [done|].
  rewrite (set_pdu_run w1 p pdu) by apply Hs. by destruct (digests (ctx w)).
Qed.

Lemma write_iovector_run w p pdu b pl : sending w p pdu b pl ->
  outdata_written pdu = align4 (dsize (outdata pdu)) -> payload_written pdu < payload_len pdu ->
  exists r w' data pdu', write_iovector p (digests (ctx w)) w = Ret (r, w') /\
    staged w p pdu b pl r w' data pdu' /\ outdata pdu' = outdata pdu /\
    outdata_written pdu' = outdata_written pdu /\
    outdata_digest_computed pdu' = outdata_digest_computed pdu /\
    (r = None -> length (tx (sys w)) = S (length (tx (sys w')))).
Proof.
  intros Hs Hout Hlt. pose proof (sd_written _ _ _ _ _ Hs) as Hpw.
  pose proof (sd_payload _ _ _ _ _ Hs) as [Yl Ym Yv].
  destruct (Yv ltac:(lia)) as (t & task & v & Hv). pose proof Hv as [V1 V2 V3 [V4 V4'] V5 V6].
  set (d := drop (Z.to_nat (payload_written pdu)) pl).
  assert (Ld : Z.of_nat (length d) = payload_len pdu - payload_written pdu) by (unfold d; rewrite length_drop; lia).
  assert (Hd : d <> []) by (intros E; rewrite E in Ld; cbn in Ld; lia).
  destruct (send_emitted d w p pdu Hd) as (n & s & E & Hn & Hu & _ & Ht).
  destruct (send_answers d w n s E Hd) as (used & Hused & Hcount & _).
  destruct (send_cases d w) as (n' & s' & E' & _ & Hsent & _). rewrite E in E'. injection E' as <- <-.
  destruct (write_iovector_call w p pdu b pl t task v Hs Hlt Hv n s E) as (iv & msg & Hwf & Hoff & Ew).
  rewrite Ew. fold d. set (data := take (Z.to_nat n) d). set (w2 := transferred w p pdu s msg t task iv data).
  assert (Hw : written pdu < Z.of_nat (length (wire (ctx w) (dsize (outdata pdu)) b pl))).
  { rewrite (length_wire _ _ _ _ _ Hs). unfold written. rewrite length_app. unfold body_of. rewrite length_app. lia. }
  assert (Hem : forall a, emitted w (put w2 p a) p pdu data).
  { intros a. split; try done.
    - by exists msg.
    - intros q Hq. unfold w2, transferred. by rewrite !put_lookup_ne by done.
    - intros t'. destruct (decide (t' = t)) as [->|Hne]; [right|left].
      + exists task, iv, v. do 2 (split; [done || lia|]). split; [done|]. split; [apply lookup_insert_eq|].
        split; [apply (wf_iov _ _ V3)|]. split; [done|lia].
      + cbn. by apply lookup_insert_ne.
    - exists used. split; [done|]. intros F. specialize (Hcount F). unfold data. rewrite length_take. lia. }
  assert (Hsd : forall k a, 0 <= k <= n \/ k = 0 -> a = pdu <| calculated_data_digest :=
       if digests (ctx w) then crc32c_chain (calculated_data_digest pdu) (take (Z.to_nat k) d)
       else calculated_data_digest pdu |> <| payload_written := payload_written pdu + k |> ->
     sending (put w2 p a) p a b pl).
  { intros k a Hk ->. eapply (sending_payload w _ p pdu _ b pl t task v iv k); try done; try lia.
    - by exists msg.
    - apply put_lookup.
    - intros Hne. apply digests_spec in Hne. cbn. by rewrite Hne. }
  destruct (Z.eqb_spec n (-1)) as [->|Hn1].
  - assert (Ed : data = []) by done.
    assert (Ew2 : w2 = put w2 p pdu).
    { unfold w2, transferred. rewrite Ed, put_put. f_equal.
      destruct pdu; by destruct (digests (ctx w)). }
    destruct (write_failed_staged w w2 p pdu b pl None) as (rc & w' & E' & S').
    + rewrite Ew2. apply (Hsd 0 pdu); [by right|]. rewrite Z.add_0_r. destruct pdu; by destruct (digests (ctx w)).
    + rewrite Ew2, <- Ed. apply Hem.
    + intros F. by apply Ht.
    + done.
    + exists (Some rc), w', [], pdu. rewrite E'. done.
  - rewrite (bind_run _ _ _ _ _ (set_pdu_run w2 p _ (fun pdu => pdu <| payload_written ::= fun k => u32 (k + n) |>) (put_lookup _ _ _))).
    cbn [payload_written]. set (a := _ <| payload_written ::= _ |>).
    assert (Ea : a = pdu <| calculated_data_digest :=
       if digests (ctx w) then crc32c_chain (calculated_data_digest pdu) (take (Z.to_nat n) d)
       else calculated_data_digest pdu |> <| payload_written := payload_written pdu + n |>).
    { unfold a. change (upd payload_written (fun k => u32 (k + n)) ?x) with (x <| payload_written := u32 (payload_written x + n) |>).
      cbn. rewrite u32_small by lia. done. }
    exists None, (put w2 p a), data, a. split; [done|]. split.
    + refine (staged_piece w p pdu b pl d n s a None (put w2 p a) Hs _ _ eq_refl _ (Hem a) (Hsd n a _ Ea) _ _ _ _);
        [lia| |by apply Ht|lia|by rewrite Ea|by rewrite Ea|rewrite Ea; unfold written; cbn; lia|by left].
      rewrite (wire_rest _ _ _ _ _ Hs Hout). unfold body_of. rewrite <- app_assoc, drop_app_le by lia.
      fold d. by rewrite take_app_le, take_ge by lia.
    + rewrite Ea. do 3 (split; [done|]). intros _. apply (send_uses d w n s); [done|lia].
Qed.

Lemma write_payload_run fuel : forall w p pdu b pl, sending w p pdu b pl ->
  outdata_written pdu = align4 (dsize (outdata pdu)) -> (length (tx (sys w)) < fuel)%nat ->
  exists r w' data pdu', write_payload fuel p (digests (ctx w)) w = Ret (r, w') /\
    staged w p pdu b pl r w' data pdu' /\ outdata pdu' = outdata pdu /\
    outdata_written pdu' = outdata_written pdu /\
    outdata_digest_computed pdu' = outdata_digest_computed pdu /\
    (r = None -> payload_len pdu <= payload_written pdu').
Proof.
  induction fuel as [|fuel IH]; intros w p pdu b pl Hs Hout Hf; [lia|]. cbn [write_payload].
  run (get_pdu_run w p pdu (sd_pdu _ _ _ _ _ Hs)).
  destruct (Z.leb_spec (payload_len pdu) (payload_written pdu)) as [Hle|Hlt].
  { exists None, w, [], pdu. split; [done|]. split; [|done].
    apply staged_nothing; try done. apply emitted_refl. }
  destruct (write_iovector_run w p pdu b pl Hs Hout Hlt) as (r & w1 & d1 & pdu1 & E & S & O1 & O2 & O3 & Hr).
  unfold stage. run E. destruct r as [rc|].
  { by exists (Some rc), w1, d1, pdu1. }
  pose proof (emitted_ctx _ _ _ _ _ (sg_emitted _ _ _ _ _ _ _ _ _ S)) as [_ Edd].
  destruct (IH w1 p pdu1 b pl (sg_sending _ _ _ _ _ _ _ _ _ S)) as (r & w2 & d2 & pdu2 & E2 & S2 & P1 & P2 & P3 & Hr2).
  { by rewrite O1, O2. }
  { specialize (Hr eq_refl). lia. }
  unfold digests in E2 |- *. rewrite Edd in E2. rewrite E2.
  exists r, w2, (d1 ++ d2), pdu2. split; [done|]. split.
  { eapply staged_then; try done. by eapply written_nonneg. }
  rewrite P1, P2, P3. do 3 (split; [done|]). intros Hn. specialize (Hr2 Hn).
  by rewrite (sp_len _ _ (sg_same _ _ _ _ _ _ _ _ _ S)) in Hr2.
Qed.

(** *** Padding *)

Lemma drop_body pl k : (length pl <= k)%nat -> Z.of_nat (length pl) < 2 ^ 31 ->
  drop k (body_of pl) = zeros (Z.to_nat (align4 (Z.of_nat (length pl))) - k).
Proof.
  intros Hk Hl. unfold body_of. rewrite drop_app_ge by done. rewrite drop_zeros. f_equal.
  pose proof (align4_spec (Z.of_nat (length pl)) ltac:(lia)). lia.
Qed.

Lemma take_zeros n k : take n (zeros k) = zeros (n `min` k).
Proof. unfold zeros. by rewrite take_replicate. Qed.

(** The digest part of a PDU is four bytes or nothing. *)
Lemma length_digest_of c size b pl : length (digest_of c size b pl) = 4%nat \/ digest_of c size b pl = [].
Proof.
  unfold digest_of. destruct (_ =? _); [by right|]. destruct pl; [|by left].
  destruct (truth _); [by left|by right].
Qed.

Lemma sending_max w p pdu b pl : sending w p pdu b pl ->
  0 <= payload_written pdu <= align4 (payload_len pdu) + 4 /\
  payload_len pdu <= align4 (payload_len pdu) < payload_len pdu + 4 /\
  0 <= payload_len pdu < 2 ^ 31 /\
  Z.of_nat (length (body_of pl)) = align4 (payload_len pdu).
Proof.
  intros Hs. pose proof (sd_payload _ _ _ _ _ Hs) as [Yl Ym _]. pose proof (sd_written _ _ _ _ _ Hs) as Hw.
  rewrite Yl in *. rewrite length_app in Hw. pose proof (length_body pl ltac:(lia)).
  pose proof (align4_spec (Z.of_nat (length pl)) ltac:(lia)).
  destruct (length_digest_of (ctx w) (dsize (outdata pdu)) b pl) as [Hd|Hd]; rewrite Hd in Hw; cbn in Hw; lia.
Qed.

Lemma write_padding_run w p pdu b pl : sending w p pdu b pl ->
  outdata_written pdu = align4 (dsize (outdata pdu)) -> payload_len pdu <= payload_written pdu ->
  exists r w' data pdu', write_padding p (digests (ctx w)) w = Ret (r, w') /\
    staged w p pdu b pl r w' data pdu' /\ outdata pdu' = outdata pdu /\
    outdata_written pdu' = outdata_written pdu /\
    outdata_digest_computed pdu' = outdata_digest_computed pdu /\
    (r = None -> align4 (payload_len pdu) <= payload_written pdu').
Proof.
  intros Hs Hout Hle. pose proof (sending_max _ _ _ _ _ Hs) as (Hmax & Hal & Hlen & Hbody).
  pose proof (py_len _ _ _ (sd_payload _ _ _ _ _ Hs)) as Yl.
  unfold write_padding. run (get_pdu_run w p pdu (sd_pdu _ _ _ _ _ Hs)). cbv zeta.
  set (total := align4 (payload_len pdu)) in *.
  destruct (Z.ltb_spec (payload_written pdu) total) as [Hlt|Hge].
  2: { exists None, w, [], pdu. destruct (Z.ltb_spec (payload_written pdu) total); [lia|].
       split; [done|]. split; [|done]. apply staged_nothing; try done. apply emitted_refl. }
  unfold send_block. destruct (Z.ltb_spec (Z.of_nat (length (zeros 3))) (0 + (total - payload_written pdu))) as [H3|_].
  { rewrite length_zeros in H3. lia. }
  cbn [orb]. change (0 <? 0) with false. cbv iota.
  set (d := take _ (drop _ (zeros 3))).
  assert (Ed : d = zeros (Z.to_nat (total - payload_written pdu))).
  { unfold d. rewrite drop_zeros, take_zeros. f_equal. lia. }
  assert (Ld : Z.of_nat (length d) = total - payload_written pdu) by (rewrite Ed, length_zeros; lia).
  destruct (send_piece_run w p pdu b pl d write_error
    (fun count => _ ← when (digests (ctx w)) (set_pdu p (fun pdu => pdu
          <| calculated_data_digest :=
               crc32c_chain (calculated_data_digest pdu) (zeros (Z.to_nat count)) |>));
       set_pdu p (fun pdu => pdu <| payload_written ::= fun n => u32 (n + count) |>))
    (fun n => (if digests (ctx w) then pdu <| calculated_data_digest :=
               crc32c_chain (calculated_data_digest pdu) (zeros (Z.to_nat n)) |> else pdu)
       <| payload_written ::= fun k => u32 (k + n) |>)
    (fun n => if u32 (payload_written pdu + n) <? total then Some 0 else None) Hs)
    as (r & w' & data & pdu' & E & S & Hr).
  - intros E. rewrite E in Ld. cbn in Ld. lia.
  - rewrite (wire_rest _ _ _ _ _ Hs Hout). rewrite drop_app_le by lia.
    rewrite take_app_le by (rewrite length_drop; lia).
    rewrite drop_body, take_zeros by lia. rewrite Ed, length_zeros. f_equal. rewrite <- Yl. fold total. lia.
  - intros n s. cbv beta. destruct (digests (ctx w)); cbn [when].
    + rewrite (bind_run _ _ _ tt (put (w <| sys := s |>) p (pdu <| calculated_data_digest :=
        crc32c_chain (calculated_data_digest pdu) (zeros (Z.to_nat n)) |>)))
        by (apply (set_pdu_run (w <| sys := s |>) p pdu (fun a => a <| calculated_data_digest :=
              crc32c_chain (calculated_data_digest a) (zeros (Z.to_nat n)) |>)), (sd_pdu _ _ _ _ _ Hs)).
      rewrite (set_pdu_run _ p _ _ (put_lookup (w <| sys := s |>) p _)). f_equal. f_equal. apply put_put.
    + unfold mbind, M_bind, mret, M_ret. by apply (set_pdu_run (w <| sys := s |>)), (sd_pdu _ _ _ _ _ Hs).
  - intros n s Hn Hu. set (a := (_ <| payload_written ::= _ |>)).
    assert (Ea : payload_written a = payload_written pdu + n).
    { unfold a. destruct (digests (ctx w)); cbn; apply u32_small; lia. }
    assert (Eo : outdata a = outdata pdu /\ outdata_written a = outdata_written pdu /\ payload_len a = payload_len pdu /\ same_pdu pdu a)
      by (unfold a; by destruct (digests (ctx w))).
    destruct Eo as (Eo1 & Eo2 & Eo3 & Eo4).
    split; [|split; [done|]; split; [by rewrite Eo1|unfold written; lia]].
    pose proof (sd_out _ _ _ _ _ Hs). rewrite Hout in H.
    eapply sending_update; try done; rewrite ?Eo1, ?Eo2, ?Ea, ?Hout; try done;
      try first [exact (ctx_same_error w)|apply put_lookup|by left|lia|rewrite length_app; lia].
    + intros Hne. 
      assert (calculated_data_digest a = crc32c_chain (calculated_data_digest pdu) (zeros (Z.to_nat n))) as ->
        by (unfold a; by rewrite (proj2 (digests_spec _) Hne)).
      rewrite (sd_digest _ _ _ _ _ Hs Hne). unfold digest_so_far. rewrite Eo3.
      destruct (Z.eqb_spec (payload_len pdu) 0) as [E0|_].
      { exfalso. unfold total in Hlt. rewrite E0 in Hlt. change (align4 0) with 0 in Hlt. lia. }
      rewrite Ea, <- crc32c_chain_app. f_equal. rewrite Z2Nat.inj_add, <- take_take_drop by lia. f_equal.
      rewrite drop_body, take_zeros by lia. f_equal. rewrite <- Yl. fold total. lia.
  - intros n Hn. rewrite u32_small by lia.
    destruct (Z.ltb_spec (payload_written pdu + n) total); [right; split; [done|lia]|by left].
  - exists r, w', data, pdu'. split.
    { rewrite <- E. apply bind_ext. intros n v. destruct (n =? -1); [done|].
      unfold mbind, M_bind. by destruct (when _ _ _) as [[] |]. }
    split; [done|]. destruct Hr as [[-> Hne]|(n & Hn & -> & ->)]; [done|].
    destruct (digests (ctx w)); cbn; do 3 (split; [done|]);
      destruct (Z.ltb_spec (u32 (payload_written pdu + n)) total); done || lia.
Qed.

(** *** The data digest *)

(** When the code sends a digest, it is the one of the PDU. *)
Lemma digest_sent w p pdu b pl : sending w p pdu b pl ->
  align4 (payload_len pdu) <= payload_written pdu ->
  let execute := digests (ctx w) && (truth (iscsi_get_pdu_data_size b) && (payload_len pdu =? 0)) in
  (execute = true -> outdata_digest_computed pdu = true) ->
  digest_of (ctx w) (dsize (outdata pdu)) b pl =
    (if execute || (digests (ctx w) && truth (payload_written pdu))
     then le4 (crc32c_chain_done (calculated_data_digest pdu)) else []).
Proof.
  intros Hs Hge execute Hex. pose proof (sending_max _ _ _ _ _ Hs) as (_ & Hal & Hlen & Hbody).
  pose proof (sd_payload _ _ _ _ _ Hs) as [Yl _ _]. pose proof (sd_written _ _ _ _ _ Hs) as Hw.
  pose proof (sd_digest _ _ _ _ _ Hs) as Hd.
  change (crc32c_chain_done (calculated_data_digest pdu)) with (calculated_data_digest pdu ^^^ 0xffffffff).
  unfold digest_of in *. unfold execute in *. clear execute. unfold digests in *.
  destruct (Z.eqb_spec (data_digest (ctx w)) ISCSI_DATA_DIGEST_NONE) as [|Hne]; [done|].
  cbn [negb andb]. specialize (Hd Hne). unfold digest_so_far in Hd.
  destruct (Z.eqb_spec (payload_len pdu) 0) as [E0|E0].
  - assert (pl = []) as -> by (destruct pl; [done|cbn in Yl; lia]). rewrite andb_true_r in Hex |- *.
    destruct (truth (iscsi_get_pdu_data_size b)) eqn:Et; cbn [orb negb andb] in *.
    + rewrite (Hex eq_refl) in Hd. by rewrite Hd.
    + assert (payload_written pdu = 0) as ->; [|done]. rewrite app_nil_r in Hw.
      rewrite E0 in Hbody. change (align4 0) with 0 in Hbody. lia.
  - destruct pl as [|x pl]; [cbn in Yl; lia|]. rewrite andb_false_r. cbn [orb].
    assert (truth (payload_written pdu) = true) as -> by (unfold truth; destruct (Z.eqb_spec (payload_written pdu) 0); [lia|done]).
    rewrite Hd, take_ge by lia. done.
Qed.

Lemma write_data_digest_run w p pdu b pl : sending w p pdu b pl ->
  outdata_written pdu = align4 (dsize (outdata pdu)) ->
  align4 (payload_len pdu) <= payload_written pdu ->
  let execute := digests (ctx w) && (truth (iscsi_get_pdu_data_size b) && (payload_len pdu =? 0)) in
  (execute = true -> outdata_digest_computed pdu = true) ->
  exists r w' data pdu', write_data_digest p (digests (ctx w)) execute w = Ret (r, w') /\
    staged w p pdu b pl r w' data pdu' /\
    (r = None -> written pdu' = Z.of_nat (length (wire (ctx w) (dsize (outdata pdu)) b pl))).
Proof.
  intros Hs Hout Hge execute Hex. pose proof (digest_sent _ _ _ _ _ Hs Hge Hex) as Ed.
  pose proof (sending_max _ _ _ _ _ Hs) as (Hmax & Hal & Hlen & Hbody).
  pose proof (sd_payload _ _ _ _ _ Hs) as [Yl _ _]. pose proof (sd_written _ _ _ _ _ Hs) as Hw.
  pose proof (length_wire _ _ _ _ _ Hs) as Lw. fold execute in Ed.
  unfold write_data_digest. run (get_pdu_run w p pdu (sd_pdu _ _ _ _ _ Hs)). cbv zeta.
  set (total := align4 (payload_len pdu)) in *.
  assert (Hend : forall n, written pdu + n = Z.of_nat (length (wire (ctx w) (dsize (outdata pdu)) b pl)) <->
    payload_written pdu + n = Z.of_nat (length (body_of pl ++ digest_of (ctx w) (dsize (outdata pdu)) b pl))).
  { intros n. unfold written. lia. }
  rewrite length_app, Nat2Z.inj_add, Hbody in Hend, Hw.
  assert (Hstay : forall r, r = None -> payload_written pdu = total + Z.of_nat (length (digest_of (ctx w) (dsize (outdata pdu)) b pl)) ->
    exists r' w' data pdu', (mret r : IO (option Z)) w = Ret (r', w') /\ staged w p pdu b pl r' w' data pdu' /\
    (r' = None -> written pdu' = Z.of_nat (length (wire (ctx w) (dsize (outdata pdu)) b pl)))).
  { intros r -> E. exists None, w, [], pdu. split; [done|]. split.
    - apply staged_nothing; try done. apply emitted_refl.
    - intros _. pose proof (proj2 (Hend 0)). lia. }
  destruct (execute || _) eqn:Econd.
  2: { rewrite Ed in Hw, Hstay. cbn in Hw, Hstay. apply Hstay; [|lia]. destruct (Z.eqb_spec (payload_written pdu) total); [done|lia]. }
  set (buf := le4 _) in *. rewrite Ed in Hw, Hstay, Hend. change (length buf) with 4%nat in *.
  unfold ISCSI_DIGEST_SIZE.
  destruct (Z.ltb_spec (payload_written pdu) (total + 4)) as [Hlt|Hnlt].
  2: { apply Hstay; [|lia]. destruct (Z.eqb_spec (payload_written pdu) (total + 4)); [done|lia]. }
  unfold send_block. change (Z.of_nat (length buf)) with 4.
  destruct (Z.ltb_spec 4 (4 - (total + 4 - payload_written pdu) + (total + 4 - payload_written pdu))); [lia|].
  destruct (Z.ltb_spec (4 - (total + 4 - payload_written pdu)) 0); [lia|]. cbn [orb].
  set (d := take _ (drop _ buf)).
  assert (Edd : d = drop (Z.to_nat (payload_written pdu - total)) buf).
  { unfold d. rewrite take_ge; [f_equal; lia|]. rewrite length_drop. change (length buf) with 4%nat. lia. }
  assert (Ld : Z.of_nat (length d) = total + 4 - payload_written pdu).
  { rewrite Edd, length_drop. change (length buf) with 4%nat. lia. }
  destruct (send_piece_run w p pdu b pl d write_error
    (fun count => set_pdu p (fun pdu => pdu <| payload_written ::= fun n => u32 (n + count) |>))
    (fun n => pdu <| payload_written ::= fun k => u32 (k + n) |>)
    (fun n => if u32 (payload_written pdu + n) =? total + 4 then None else Some 0) Hs)
    as (r & w' & data & pdu' & E & S & Hr).
  - intros E. rewrite E in Ld. cbn in Ld. lia.
  - rewrite (wire_rest _ _ _ _ _ Hs Hout). rewrite drop_app_ge by lia. rewrite Ed.
    replace (Z.to_nat (payload_written pdu) - length (body_of pl))%nat
      with (Z.to_nat (payload_written pdu - total)) by lia.
    rewrite <- Edd. by apply take_ge.
  - intros n s. apply (set_pdu_run (w <| sys := s |>)), (sd_pdu _ _ _ _ _ Hs).
  - intros n s Hn Hu. cbn [payload_written]. 
    assert (Ea : payload_written (pdu <| payload_written ::= fun k => u32 (k + n) |>) = payload_written pdu + n)
      by (cbn; apply u32_small; lia).
    split; [|split; [done|]; split; [done|unfold written; rewrite Ea; cbn; lia]].
    pose proof (sd_out _ _ _ _ _ Hs) as Ho. rewrite Hout in Ho.
    eapply sending_update; try done; rewrite ?Ea; try done;
      try first [exact (ctx_same_error w)|apply put_lookup|by left|lia|rewrite length_app, Ed; lia].
    + cbn. rewrite Hout. lia.
    + rewrite length_app, Nat2Z.inj_add, Hbody, Ed. change (length buf) with 4%nat. lia.
    + intros Hne. cbn. rewrite (sd_digest _ _ _ _ _ Hs Hne). unfold digest_so_far. cbn.
      rewrite u32_small by lia. destruct (_ =? 0); [done|]. by rewrite !take_ge by lia.
  - intros n Hn. rewrite u32_small by lia.
    destruct (Z.eqb_spec (payload_written pdu + n) (total + 4)); [by left|right; split; [done|lia]].
  - exists r, w', data, pdu'. do 2 (split; [done|]).
    destruct Hr as [[-> Hne]|(n & Hn & -> & ->)]; [done|].
    rewrite u32_small by lia. destruct (Z.eqb_spec (payload_written pdu + n) (total + 4)) as [Et|]; [|done].
    intros _. assert (written (pdu <| payload_written ::= fun k => u32 (k + n) |>) = written pdu + n) as ->
      by (unfold written; cbn; rewrite u32_small by lia; lia).
    apply Hend. lia.
Qed.

(** *** All stages *)

Lemma staged_digests w p pdu b pl r w' data pdu' : staged w p pdu b pl r w' data pdu' ->
  digests (ctx w') = digests (ctx w).
Proof. intros S. unfold digests. by destruct (emitted_ctx _ _ _ _ _ (sg_emitted _ _ _ _ _ _ _ _ _ S)) as [_ ->]. Qed.

Lemma write_stages_run w p pdu b pl : sending w p pdu b pl ->
  exists r w' data pdu', write_stages p (digests (ctx w)) w = Ret (r, w') /\
    staged w p pdu b pl r w' data pdu' /\
    (r = None -> written pdu' = Z.of_nat (length (wire (ctx w) (dsize (outdata pdu)) b pl))).
Proof.
  intros Hs. pose proof (sending_size _ _ _ _ _ Hs) as (_ & _ & Aidem).
  destruct (write_header_run w p pdu b pl Hs) as (r1 & w1 & d1 & a1 & E1 & S1 & Z1 & R1).
  pose proof (written_nonneg _ _ _ _ _ Hs) as H0.
  unfold write_stages, stage at 1. run E1.
  destruct r1 as [rc|]; [by exists (Some rc), w1, d1, a1|]. specialize (R1 eq_refl).
  pose proof (sg_sending _ _ _ _ _ _ _ _ _ S1) as Hs1.
  assert (Za : dsize (outdata a1) = align4 (dsize (outdata a1))) by (rewrite Z1; congruence).
  rewrite <- (staged_digests _ _ _ _ _ _ _ _ _ S1).
  destruct (digest_outdata_run w1 p a1 b pl Hs1 Za) as (w2 & a2 & E2 & S2 & Z2 & O2 & P2 & Y2 & C2). run E2.
  set (execute := digests (ctx w1) && _) in *.
  pose proof (sg_sending _ _ _ _ _ _ _ _ _ S2) as Hs2.
  pose proof (staged_then _ _ _ _ _ _ _ _ _ _ _ _ S1 S2 H0) as S12.
  assert (O2' : outdata_written a2 = align4 (dsize (outdata a2))) by congruence.
  rewrite <- (staged_digests _ _ _ _ _ _ _ _ _ S2). unfold get_sys at 1.
  rewrite (bind_run _ _ _ (tx (sys w2)) w2) by done.
  destruct (write_payload_run (S (length (tx (sys w2)))) w2 p a2 b pl Hs2 O2' ltac:(lia))
    as (r3 & w3 & d3 & a3 & E3 & S3 & Z3 & O3 & C3 & R3).
  unfold stage at 1. run E3. pose proof (staged_then _ _ _ _ _ _ _ _ _ _ _ _ S12 S3 H0) as S123.
  destruct r3 as [rc|]; [by do 4 eexists|]. specialize (R3 eq_refl).
  pose proof (sg_sending _ _ _ _ _ _ _ _ _ S3) as Hs3.
  assert (L3 : payload_len a3 = payload_len a2) by apply S3.
  rewrite <- (staged_digests _ _ _ _ _ _ _ _ _ S3).
  destruct (write_padding_run w3 p a3 b pl Hs3) as (r4 & w4 & d4 & a4 & E4 & S4 & Z4 & O4 & C4 & R4);
    [congruence|by rewrite L3|].
  unfold stage at 1. run E4. pose proof (staged_then _ _ _ _ _ _ _ _ _ _ _ _ S123 S4 H0) as S1234.
  destruct r4 as [rc|]; [by do 4 eexists|]. specialize (R4 eq_refl).
  pose proof (sg_sending _ _ _ _ _ _ _ _ _ S4) as Hs4.
  assert (L4 : payload_len a4 = payload_len a3) by apply S4.
  assert (Ex : execute = digests (ctx w4) && (truth (iscsi_get_pdu_data_size b) && (payload_len a4 =? 0))).
  { rewrite (staged_digests _ _ _ _ _ _ _ _ _ S4), (staged_digests _ _ _ _ _ _ _ _ _ S3),
      (staged_digests _ _ _ _ _ _ _ _ _ S2). unfold execute.
    by rewrite L4, L3, (sp_len _ _ (sg_same _ _ _ _ _ _ _ _ _ S2)). }
  rewrite <- (staged_digests _ _ _ _ _ _ _ _ _ S4).
  destruct (write_data_digest_run w4 p a4 b pl Hs4) as (r5 & w5 & d5 & a5 & E5 & S5 & R5);
    [congruence|by rewrite L4|rewrite <- Ex, C4, C3; done|].
  rewrite <- Ex in E5. rewrite E5.
  pose proof (staged_then _ _ _ _ _ _ _ _ _ _ _ _ S1234 S5 H0) as S.
  do 4 eexists. split; [done|]. split; [exact S|]. intros Hr. rewrite (R5 Hr).
  rewrite (wire_size _ (dsize (outdata pdu)) (dsize (outdata a4))) by apply S1234.
  destruct (emitted_ctx _ _ _ _ _ (sg_emitted _ _ _ _ _ _ _ _ _ S1234)) as [Eh Ed].
  by rewrite (wire_ctx (ctx w)).
Qed.

(** ** The queue *)

(** A queued PDU: complete, nothing of it written. *)
Record queued_pdu (w : world) (p : nat) (pdu : iscsi_pdu) (b pl : bytes) : Prop := {
  qd_pdu : pdus w !! p = Some pdu;
  qd_block : block_ok (ctx w) pdu b;
  qd_payload : payload_ok w pdu pl;
  qd_fresh : outdata_written pdu = 0 /\ payload_written pdu = 0 /\ outdata_digest_computed pdu = false;
  qd_digest : digests (ctx w) = true -> calculated_data_digest pdu = crc32c_init
}.

Definition queued (w : world) (p : nat) : Prop := exists pdu b pl, queued_pdu w p pdu b pl.

(** The PDUs the writer works on, in the order they go out. *)
Definition line (w : world) : list nat :=
  match outqueue_current (ctx w) with Some p => [p] | None => [] end ++ outqueue (ctx w).

(** Payloads of one task go out in the order of their offsets: the position of
    an io vector only moves forward. *)
Definition payload_before (w : world) (p q : nat) : Prop :=
  let a := the_pdu w p in
  let b := the_pdu w q in
  cbdata_task a = cbdata_task b -> 0 < payload_len a -> 0 < payload_len b ->
  payload_offset a + payload_len a <= payload_offset b.

Record writer_inv (w : world) : Prop := {
  wi_lock : unlocked w;
  wi_nodup : NoDup (line w);
  wi_current : forall p, outqueue_current (ctx w) = Some p -> exists pdu b pl, sending w p pdu b pl;
  wi_queue : Forall (queued w) (outqueue (ctx w));
  wi_order : StronglySorted (payload_before w) (line w)
}.

Lemma queued_wire_eq w p pdu b pl : queued_pdu w p pdu b pl ->
  queued_wire w p = wire (ctx w) (dsize (outdata pdu)) (popped_hdr (ctx w) b) pl.
Proof.
  intros [Hp [Hb _ _ _] Hy _ _]. unfold queued_wire, pdu_wire, the_hdr, the_pdu. rewrite Hp.
  cbn [default from_option id]. by rewrite Hb, (payload_of_vector _ _ _ Hy).
Qed.

Lemma current_rest_eq w p pdu b pl : sending w p pdu b pl ->
  current_rest w p = drop (Z.to_nat (written pdu)) (wire (ctx w) (dsize (outdata pdu)) b pl).
Proof.
  intros [Hp [Hb _ _ _] Hy _ _ _ _]. unfold current_rest, pdu_wire, the_hdr, the_pdu. rewrite Hp.
  cbn [default from_option id]. by rewrite Hb, (payload_of_vector _ _ _ Hy).
Qed.

(** What a queued PDU depends on. *)
Record same_line (w w' : world) (q : nat) : Prop := {
  sl_header : header_digest (ctx w') = header_digest (ctx w);
  sl_data : data_digest (ctx w') = data_digest (ctx w);
  sl_statsn : statsn (ctx w') = statsn (ctx w);
  sl_umem : umem (sys w') = umem (sys w);
  sl_pdu : pdus w' !! q = pdus w !! q;
  sl_task : forall t, cbdata_task (the_pdu w q) = Some t -> 0 < payload_len (the_pdu w q) ->
    tasks w' !! t = tasks w !! t \/
    exists task iv v, tasks w !! t = Some task /\ tasks w' !! t = Some (task <| iovector_out := iv |>) /\
      Task.iov (iovector_out task) = Some v /\ iov_wf iv v /\ offset iv <= payload_offset (the_pdu w q)
}.

Lemma queued_keep w w' q pdu b pl : queued_pdu w q pdu b pl -> same_line w w' q ->
  queued_pdu w' q pdu b pl /\ queued_wire w' q = queued_wire w q.
Proof.
  intros Hq [Eh Ed Es Eu Ep Et]. pose proof Hq as [Hp [K1 K2 K3 K4] [Yl Ym Yv] (F1 & F2 & F3) Hd].
  assert (Hq' : queued_pdu w' q pdu b pl).
  { unfold the_pdu in Et. rewrite Hp in Et. cbn [default from_option id] in Et.
    split; try done.
    - by rewrite Ep.
    - split; try done; rewrite ?Eh; try done. unfold segment_offset in *. by rewrite Eh.
    - split; try done. intros Hpos. destruct (Yv Hpos) as (t & task & v & [V1 V2 V3 V4 V5 V6]).
      destruct (Et t V1 Hpos) as [E|(task' & iv & v' & H1 & H2 & H3 & H4 & H5)].
      + exists t, task, v. split; rewrite ?E, ?Eu; done.
      + rewrite V2 in H1. injection H1 as <-. rewrite (wf_iov _ _ V3) in H3. injection H3 as <-.
        exists t, (task <| iovector_out := iv |>), v. split; rewrite ?Eu; try done.
        cbn. rewrite F2. lia.
    - unfold digests. by rewrite Ed. }
  split; [done|]. rewrite (queued_wire_eq _ _ _ _ _ Hq), (queued_wire_eq _ _ _ _ _ Hq').
  rewrite (wire_ctx (ctx w)) by done. f_equal. unfold popped_hdr. by rewrite Eh, Es.
Qed.

Lemma queue_keep w w' l : Forall (queued w) l -> Forall (same_line w w') l ->
  Forall (queued w') l /\ map (queued_wire w') l = map (queued_wire w) l.
Proof.
  induction 1 as [|q l (pdu & b & pl & Hq) _ IH]; [done|]. intros [H1 H2]%Forall_cons.
  destruct (queued_keep _ _ _ _ _ _ Hq H1) as [Hq' E]. destruct (IH H2) as [IH1 IH2].
  split; [constructor; [by exists pdu, b, pl|done]|]. cbn. by rewrite E, IH2.
Qed.

Lemma order_keep w w' l : (forall q, q ∈ l -> same_pdu (the_pdu w q) (the_pdu w' q)) ->
  StronglySorted (payload_before w) l -> StronglySorted (payload_before w') l.
Proof.
  intros Hs. induction 1 as [|x l Hl IH Hx]; [constructor|]. constructor.
  - apply IH. intros q Hq. apply Hs. by constructor.
  - rewrite Forall_forall in Hx |- *. intros q Hq.
    destruct (Hs x) as [_ _ T1 O1 L1]; [by constructor|]. destruct (Hs q) as [_ _ T2 O2 L2]; [by constructor|].
    specialize (Hx q Hq). unfold payload_before in *. by rewrite T1, T2, O1, O2, L1, L2.
Qed.

(** ** Progress of the stream *)

(** Whether the head of the queue may be sent now. *)
Definition can_go (w : world) (p : nat) : Prop :=
  (iscsi_serial32_compare (pdu_cmdsn (the_pdu w p)) (maxcmdsn (ctx w)) <= 0 \/
   is_immediate (the_hdr w p) = true) /\
  (0 <= iscsi_serial32_compare (pdu_cmdsn (the_pdu w p)) (expcmdsn (ctx w)) \/
   bhs_opcode (the_hdr w p) = ISCSI_PDU_DATA_OUT).

(** Nothing but the kernel can stop the writer. *)
Record unblocked (w : world) : Prop := {
  ub_corked : is_corked (ctx w) = false;
  ub_queue : Forall (can_go w) (outqueue (ctx w));
  ub_flags : Forall (fun p => truth (pdu_flags (the_pdu w p) &&& ISCSI_PDU_CORK_WHEN_SENT) = false) (line w)
}.

(** [out] moved from the stream to the socket. *)
Record flow (w w' : world) (out : bytes) : Prop := {
  fw_sent : sent (sys w') = sent (sys w) ++ out;
  fw_pending : pending w = out ++ pending w';
  fw_inv : writer_inv w';
  fw_answers : exists used, tx (sys w) = used ++ tx (sys w') /\
    (Forall takes used -> (length used <= length out)%nat);
  fw_unblocked : unblocked w -> unblocked w';
  fw_digests : digests (ctx w') = digests (ctx w);
  fw_conn : conn (ctx w') = conn (ctx w)
}.

Lemma flow_refl w : writer_inv w -> flow w w [].
Proof. intros Hw. split; try done; [by rewrite app_nil_r|by exists []]. Qed.

Lemma flow_trans w1 w2 w3 d1 d2 : flow w1 w2 d1 -> flow w2 w3 d2 -> flow w1 w3 (d1 ++ d2).
Proof.
  intros [S1 P1 I1 (u1 & A1 & L1) B1 D1] [S2 P2 I2 (u2 & A2 & L2) B2 D2]. split; try congruence.
  - by rewrite S2, S1, app_assoc.
  - by rewrite P1, P2, app_assoc.
  - exists (u1 ++ u2). rewrite A1, A2, app_assoc. split; [done|]. rewrite Forall_app, !length_app.
    intros [F1 F2]. specialize (L1 F1). specialize (L2 F2). lia.
  - auto.
Qed.

(** *** Taking the head of the queue *)

Definition with_hdr (pdu : iscsi_pdu) (b : bytes) : iscsi_pdu :=
  pdu <| outdata ::= fun d => d <| ddata := Some b |> |>.

(** The world after the head [h] was taken. *)
Definition popped (w : world) (h : nat) (q : list nat) (pdu : iscsi_pdu) (b : bytes) : world :=
  (put w h (with_hdr pdu (popped_hdr (ctx w) b)))
    <| ctx ::= fun c => c <| outqueue_current := Some h |> <| outqueue := q |>
         <| waitpdu := if negb (truth (pdu_flags pdu &&& ISCSI_PDU_DELETE_WHEN_SENT))
                       then waitpdu c ++ [h] else waitpdu c |> <| iscsi_lock := false |> |>.

(** The two ways [pop_outqueue] refuses. *)
Definition refused_head (w : world) (h : nat) : Prop := is_corked (ctx w) = true \/ ~ can_go w h.

Lemma header_digest_run w p pdu b : pdus w !! p = Some pdu -> ddata (outdata pdu) = Some b ->
  52 <= dsize (outdata pdu) ->
  iscsi_pdu_update_headerdigest p w = Ret (0, put w p (with_hdr pdu (put_header_digest b))).
Proof.
  intros Hp Hb Hs. unfold iscsi_pdu_update_headerdigest. run (get_pdu_run w p pdu Hp).
  change (ISCSI_RAW_HEADER_SIZE + ISCSI_DIGEST_SIZE) with 52.
  destruct (Z.ltb_spec (dsize (outdata pdu)) 52); [lia|].
  by run (set_hdr_run w p pdu put_header_digest b Hp Hb).
Qed.

Lemma pop_run w h q pdu b : unlocked w -> outqueue (ctx w) = h :: q -> h ∉ q ->
  pdus w !! h = Some pdu -> block_ok (ctx w) pdu b ->
  (exists rc w', pop_outqueue w = Ret (Some rc, w') /\ (exists msg, w' = noted msg w) /\
     refused_head w h /\ (is_corked (ctx w) = true -> rc = 0)) \/
  pop_outqueue w = Ret (None, popped w h q pdu b).
Proof.
  intros Hl Hq Hnin Hp [Kd Ks _ _]. unfold pop_outqueue. run (get_ctx_run id w). change (id (ctx w)) with (ctx w).
  destruct (is_corked (ctx w)) eqn:Ec.
  { left. exists 0, w. split; [done|]. split; [eexists; apply noted_same|]. split; [by left|done]. }
  rewrite Hq. cbn [hd_error]. unfold deref. rewrite (bind_run _ _ _ h w) by done.
  run (get_pdu_run w h pdu Hp).
  assert (Eh : hdr_of h w = Ret (b, w)) by (unfold hdr_of; run (get_pdu_run w h pdu Hp); by rewrite Kd).
  run Eh. unfold refused_head, can_go, the_hdr, the_pdu. rewrite Hp. cbn [default from_option id]. rewrite Kd.
  cbn [default from_option id]. rewrite Ec.
  destruct (_ && negb (is_immediate b)) eqn:E1.
  { left. exists 0, w. split; [done|]. split; [eexists; apply noted_same|]. split; [|done]. right.
    apply andb_true_iff in E1 as [E1 E1']. apply negb_true_iff in E1'. apply Z.ltb_lt in E1.
    intros [[?|?] _]; [lia|congruence]. }
  destruct (_ && negb (bhs_opcode b =? ISCSI_PDU_DATA_OUT)) eqn:E2.
  { left. exists (-1). eexists. split; [reflexivity|]. split; [by eexists|]. split; [|done]. right.
    apply andb_true_iff in E2 as [E2 E2']. apply negb_true_iff, Z.eqb_neq in E2'. apply Z.ltb_lt in E2.
    intros [_ [?|?]]; [lia|congruence]. }
  right. clear E1 E2. run (lock_run w Hl). set (sn := if negb (bhs_opcode b =? _) then _ else _).
  set (w2 := (set_lock (have_mt w) w) <| ctx ::= fun c => c <| outqueue_current := Some h |> |>).
  rewrite (bind_run _ _ _ tt w2) by done.
  assert (Hp2 : pdus w2 !! h = Some pdu) by done.
  run (set_hdr_run w2 h pdu (fun b => scsi_set_uint32 b 28 sn) b Hp2 Kd).
  fold (with_hdr pdu (scsi_set_uint32 b 28 sn)). fold (put w2 h (with_hdr pdu (scsi_set_uint32 b 28 sn))).
  assert (E4 : (if negb (header_digest (ctx w) =? ISCSI_HEADER_DIGEST_NONE)
     then iscsi_pdu_update_headerdigest h else mret 0) (put w2 h (with_hdr pdu (scsi_set_uint32 b 28 sn))) =
     Ret (0, put w2 h (with_hdr pdu (popped_hdr (ctx w) b)))).
  { unfold popped_hdr. fold sn. revert Ks. unfold ISCSI_HEADER_SIZE, ISCSI_RAW_HEADER_SIZE, ISCSI_DIGEST_SIZE.
    destruct (_ =? ISCSI_HEADER_DIGEST_NONE); intros Ks; [done|]. cbn [negb].
    rewrite (header_digest_run _ h _ (scsi_set_uint32 b 28 sn) (put_lookup _ _ _)) by (done || (cbn; lia)).
    by rewrite put_put. }
  run E4. cbn [Z.eqb negb].
  set (w4 := put w2 h _). assert (Hq4 : outqueue (ctx w4) = h :: q) by done.
  run (outqueue_remove_head w4 h q Hq4 Hnin).
  set (w5 := w4 <| ctx ::= _ |>). rewrite (bind_run _ _ _ (with_hdr pdu (popped_hdr (ctx w) b)) w5)
    by (apply get_pdu_run, put_lookup).
  cbn [pdu_flags with_hdr]. change (pdu_flags (with_hdr pdu _)) with (pdu_flags pdu).
  set (keep := negb (truth (pdu_flags pdu &&& ISCSI_PDU_DELETE_WHEN_SENT))).
  set (w6 := w5 <| ctx ::= fun c => c <| waitpdu := if keep then waitpdu c ++ [h] else waitpdu c |> |>).
  rewrite (bind_run _ _ _ tt w6).
  2: { unfold when, w6. destruct keep; [done|]. unfold mret, M_ret. by do 2 f_equal. }
  rewrite (bind_run _ _ _ tt (set_lock false w6)) by (apply unlock_run; done).
  unfold mret, M_ret. do 2 f_equal.
Qed.

Lemma length_popped c b : length (popped_hdr c b) = length b.
Proof.
  unfold popped_hdr, put_header_digest. cbv zeta. destruct (negb _).
  - by rewrite !length_insert, length_scsi_set_uint32.
  - by rewrite length_scsi_set_uint32.
Qed.

Lemma popped_byte4 c b : byte_at (popped_hdr c b) 4 = byte_at b 4.
Proof.
  unfold popped_hdr, put_header_digest. cbv zeta. destruct (negb _);
    rewrite ?byte_at_insert_ne by lia; by rewrite byte_at_set32_ne by lia.
Qed.

Lemma the_pdu_put w h a x : the_pdu (put w h a) x = if decide (x = h) then a else the_pdu w x.
Proof.
  unfold the_pdu. destruct (decide (x = h)) as [->|Hne]; [by rewrite put_lookup|by rewrite put_lookup_ne].
Qed.

Lemma popped_sending w h q pdu b pl : queued_pdu w h pdu b pl ->
  sending (popped w h q pdu b) h (with_hdr pdu (popped_hdr (ctx w) b)) (popped_hdr (ctx w) b) pl.
Proof.
  intros [Hp [K1 K2 K3 K4] [Yl Ym Yv] (F1 & F2 & F3) Hd].
  assert (Hsz : 0 <= dsize (outdata pdu)).
  { revert K2. unfold ISCSI_HEADER_SIZE, ISCSI_RAW_HEADER_SIZE, ISCSI_DIGEST_SIZE. destruct (_ =? _); lia. }
  pose proof (align4_spec (dsize (outdata pdu)) ltac:(lia)) as (A1 & _).
  split; cbn; rewrite ?F1, ?F2; try lia.
  - apply lookup_insert_eq.
  - split; cbn; rewrite ?length_popped; try done. unfold segment_offset in *. by rewrite popped_byte4.
  - split; try done. cbn. intros Hpos. destruct (Yv Hpos) as (t & task & v & [V1 V2 V3 V4 V5 V6]).
    exists t, task, v. by split.
  - intros Hne%digests_spec. unfold digest_so_far. cbn. rewrite F2, F3, (Hd Hne).
    by destruct (_ =? 0).
Qed.

Lemma popped_other w h q pdu b x : x <> h -> same_line w (popped w h q pdu b) x.
Proof.
  intros Hx. split; try done.
  - unfold popped. cbn. by rewrite lookup_insert_ne.
  - intros. by left.
Qed.

Lemma popped_line w h q pdu b x : pdus w !! h = Some pdu ->
  same_pdu (the_pdu w x) (the_pdu (popped w h q pdu b) x).
Proof.
  intros Hp. change (the_pdu (popped w h q pdu b) x) with (the_pdu (put w h (with_hdr pdu (popped_hdr (ctx w) b))) x).
  rewrite the_pdu_put. destruct (decide (x = h)) as [->|]; [|apply same_pdu_refl].
  unfold the_pdu. by rewrite Hp.
Qed.

Lemma can_go_keep w w' x : pdus w' !! x = pdus w !! x -> maxcmdsn (ctx w') = maxcmdsn (ctx w) ->
  expcmdsn (ctx w') = expcmdsn (ctx w) -> can_go w x -> can_go w' x.
Proof. intros E1 E2 E3. unfold can_go, the_hdr, the_pdu. by rewrite E1, E2, E3. Qed.

Lemma flags_keep w w' l : (forall q, q ∈ l -> same_pdu (the_pdu w q) (the_pdu w' q)) ->
  Forall (fun p => truth (pdu_flags (the_pdu w p) &&& ISCSI_PDU_CORK_WHEN_SENT) = false) l ->
  Forall (fun p => truth (pdu_flags (the_pdu w' p) &&& ISCSI_PDU_CORK_WHEN_SENT) = false) l.
Proof.
  intros Hs Hf. rewrite Forall_forall in Hf |- *. intros q Hq. by rewrite (sp_flags _ _ (Hs q Hq)), Hf.
Qed.

Lemma popped_flow w h q pdu b pl : writer_inv w -> outqueue_current (ctx w) = None ->
  outqueue (ctx w) = h :: q -> queued_pdu w h pdu b pl -> flow w (popped w h q pdu b) [].
Proof.
  intros [Hl Hnd Hc Hq Ho] En Eq Hh. pose proof (popped_sending w h q pdu b pl Hh) as Hs.
  pose proof (qd_pdu _ _ _ _ _ Hh) as Hp. unfold line in *. rewrite En, Eq in Hnd, Ho. cbn in Hnd, Ho.
  pose proof Hnd as [Hnin _]%NoDup_cons. rewrite Eq in Hq. apply Forall_cons in Hq as [_ Hq].
  assert (Hsl : Forall (same_line w (popped w h q pdu b)) q).
  { apply Forall_forall. intros x Hx. apply popped_other. by intros ->. }
  destruct (queue_keep w _ q Hq Hsl) as [Hq' Ew].
  split; try done.
  - by rewrite app_nil_r.
  - unfold pending. rewrite En, Eq. cbn [outqueue_current outqueue popped ctx map concat app].
    change (outqueue_current (ctx (popped w h q pdu b))) with (Some h).
    change (outqueue (ctx (popped w h q pdu b))) with q. cbv iota.
    rewrite (current_rest_eq _ _ _ _ _ Hs), (queued_wire_eq _ _ _ _ _ Hh), Ew. f_equal.
    assert (written (with_hdr pdu (popped_hdr (ctx w) b)) = 0) as ->.
    { destruct Hh as [_ _ _ (F1 & F2 & _) _]. unfold written. cbn. lia. }
    done.
  - split; try done.
    + intros p [= <-]. by exists (with_hdr pdu (popped_hdr (ctx w) b)), (popped_hdr (ctx w) b), pl.
    + change (line (popped w h q pdu b)) with (h :: q). eapply order_keep; [|exact Ho].
      intros x _. by apply popped_line.
  - by exists [].
  - intros [B1 B2 B3]. unfold line in *. rewrite Eq in B2. rewrite En, Eq in B3. split; [done| |].
    + change (outqueue (ctx (popped w h q pdu b))) with q. apply Forall_cons in B2 as [_ B2].
      rewrite Forall_forall in B2 |- *. intros x Hx.
      apply (can_go_keep w); [|done|done|by apply B2]. cbn. apply lookup_insert_ne. by intros <-.
    + unfold line. cbn [app] in *. eapply flags_keep; [|exact B3]. intros x _. by apply popped_line.
Qed.

Lemma noted_flow w msg : writer_inv w -> flow w (noted msg w) [].
Proof.
  intros [Hl Hnd Hc Hq Ho]. split; try done.
  - by rewrite app_nil_r.
  - split; try done.
    + intros p Hp. destruct (Hc p Hp) as (pdu & b & pl & Hs). exists pdu, b, pl. by apply sending_noted.
    + refine (proj1 (queue_keep w _ _ Hq _)). apply Forall_forall. intros x _. split; try done.
      intros. by left.
  - by exists [].
  - intros [B1 B2 B3]. by split.
Qed.

(** *** The current PDU *)

Lemma emitted_line w w' p pdu data q : emitted w w' p pdu data -> q <> p -> pdus w !! p = Some pdu ->
  payload_before w p q -> same_line w w' q.
Proof.
  intros [E1 E2 [m E3] E4 E5 E6 E7] Hq Hp Hb. split; rewrite ?E3; try done; [by apply E4|].
  intros t Ht Hl. destruct (E5 t) as [E|(task & iv & v & H1 & H2 & H3 & H4 & H5 & H6 & H7)]; [by left|].
  right. exists task, iv, v. do 4 (split; [done|]). unfold payload_before in Hb.
  assert (Ep : the_pdu w p = pdu) by (unfold the_pdu; by rewrite Hp). rewrite Ep in Hb.
  specialize (Hb ltac:(congruence) H2 Hl). lia.
Qed.

Lemma staged_line w p pdu b pl r w' data pdu' x : staged w p pdu b pl r w' data pdu' ->
  pdus w !! p = Some pdu -> same_pdu (the_pdu w x) (the_pdu w' x).
Proof.
  intros S Hp. pose proof (sg_emitted _ _ _ _ _ _ _ _ _ S) as E. unfold the_pdu.
  destruct (decide (x = p)) as [->|Hne].
  - rewrite Hp, (sd_pdu _ _ _ _ _ (sg_sending _ _ _ _ _ _ _ _ _ S)). apply S.
  - rewrite (em_pdus _ _ _ _ _ E) by done. apply same_pdu_refl.
Qed.

Lemma staged_flow w p pdu b pl r w' data pdu' : writer_inv w -> outqueue_current (ctx w) = Some p ->
  sending w p pdu b pl -> staged w p pdu b pl r w' data pdu' ->
  flow w w' data /\ outqueue_current (ctx w') = Some p /\ outqueue (ctx w') = outqueue (ctx w).
Proof.
  intros [Hl Hnd Hc Hq Ho] Ec Hs S. pose proof (sd_pdu _ _ _ _ _ Hs) as Hp.
  pose proof S as [E S' Hsame Ha Hd Hw _]. pose proof E as [E1 E2 [m E3] E4 E5 E6 E7].
  assert (Eq : outqueue (ctx w') = outqueue (ctx w)) by (by rewrite E3).
  assert (Ec' : outqueue_current (ctx w') = Some p) by (by rewrite E3).
  split; [|done]. unfold line in Hnd, Ho. rewrite Ec in Hnd, Ho. cbn [app] in Hnd, Ho.
  pose proof Hnd as [Hnin _]%NoDup_cons. apply StronglySorted_inv in Ho as Ho'. destruct Ho' as [_ Hpb].
  assert (Hsl : Forall (same_line w w') (outqueue (ctx w))).
  { rewrite Forall_forall in Hpb |- *. intros q Hin. eapply emitted_line; [done| |done|by apply Hpb]. by intros ->. }
  destruct (queue_keep w w' _ Hq Hsl) as [Hq' Ew].
  assert (El : line w' = line w) by (unfold line; by rewrite Eq, Ec', Ec).
  assert (Hsp : forall x, same_pdu (the_pdu w x) (the_pdu w' x)) by (intros x; by eapply staged_line).
  split; try done.
  - unfold pending. rewrite Eq, Ec, Ec', Ew, app_assoc. f_equal.
    rewrite (current_rest_eq _ _ _ _ _ Hs), (current_rest_eq _ _ _ _ _ S').
    destruct (emitted_ctx _ _ _ _ _ E) as [Eh Ed]. rewrite (wire_ctx (ctx w) (ctx w')) by done.
    rewrite (wire_size _ _ _ _ _ Ha), Hw. pose proof (written_nonneg _ _ _ _ _ Hs).
    replace (Z.to_nat (written pdu + Z.of_nat (length data)))
      with (Z.to_nat (written pdu) + length data)%nat by lia.
    rewrite <- drop_drop. set (rest := drop (Z.to_nat (written pdu)) _) in *.
    rewrite <- (take_drop (length data) rest) at 1. by rewrite <- Hd.
  - split.
    + unfold unlocked. by rewrite E3.
    + rewrite El. unfold line. by rewrite Ec.
    + intros x Hx. rewrite Ec' in Hx. injection Hx as <-. by exists pdu', b, pl.
    + by rewrite Eq.
    + rewrite El. unfold line. rewrite Ec. cbn [app]. eapply order_keep; [|exact Ho]. by intros x _.
  - intros [B1 B2 B3]. split.
    + by rewrite E3.
    + rewrite Eq. rewrite Forall_forall in B2 |- *. intros x Hx.
      apply (can_go_keep w); [|by rewrite E3|by rewrite E3|by apply B2]. apply E4. by intros ->.
    + rewrite El. eapply flags_keep; [|exact B3]. by intros x _.
  - unfold digests. by destruct (emitted_ctx _ _ _ _ _ E) as [_ ->].
  - by rewrite E3.
Qed.

(** The world after the current PDU [p] was finished. *)
Definition finished (w : world) (p : nat) (pdu : iscsi_pdu) (fr : Z) : world :=
  w <| pdus ::= fun m => if truth (pdu_flags pdu &&& ISCSI_PDU_DELETE_WHEN_SENT) then delete p m else m |>
    <| ctx ::= fun c => c
         <| is_corked := if truth (pdu_flags pdu &&& ISCSI_PDU_CORK_WHEN_SENT) then true else is_corked c |>
         <| frees := fr |> <| outqueue_current := None |> |>.

Lemma finish_run w p pdu : pdus w !! p = Some pdu ->
  exists fr, finish_current p w = Ret (tt, finished w p pdu fr).
Proof.
  intros Hp. unfold finish_current. run (get_pdu_run w p pdu Hp). unfold finished.
  set (w1 := if truth (pdu_flags pdu &&& ISCSI_PDU_CORK_WHEN_SENT) then w <| ctx ::= fun c => c <| is_corked := true |> |> else w).
  rewrite (bind_run _ _ _ tt w1) by (unfold when, w1; by destruct (truth _)).
  assert (Hp1 : pdus w1 !! p = Some pdu) by (unfold w1; by destruct (truth _)).
  destruct (truth (pdu_flags pdu &&& ISCSI_PDU_DELETE_WHEN_SENT)); cbn [when].
  - unfold iscsi_tcp_free_pdu. 
    unfold iscsi_free, when, get_ctx, set_ctx, gets, modify, mbind, M_bind, mret, M_ret.
    rewrite (get_pdu_run w1 p pdu Hp1).
    destruct (bool_decide (is_Some (ddata (outdata pdu)))); destruct (bool_decide (is_Some (ddata (indata pdu))));
      destruct (bool_decide _); eexists; unfold w1; clear; destruct (truth _); destruct w as [c ? ? ? ? ? ? ? ? ? ? ?];
      destruct c; reflexivity.
  - exists (frees (ctx w)). unfold w1. destruct (truth _); by destruct w as [[]].
Qed.

Lemma finished_flow w p pdu b pl fr : writer_inv w -> outqueue_current (ctx w) = Some p ->
  sending w p pdu b pl -> written pdu = Z.of_nat (length (wire (ctx w) (dsize (outdata pdu)) b pl)) ->
  flow w (finished w p pdu fr) [].
Proof.
  intros [Hl Hnd Hc Hq Ho] Ec Hs Hw. pose proof (sd_pdu _ _ _ _ _ Hs) as Hp. set (w' := finished w p pdu fr).
  unfold line in Hnd, Ho. rewrite Ec in Hnd, Ho. cbn [app] in Hnd, Ho.
  apply NoDup_cons in Hnd as [Hnin Hnd]. apply StronglySorted_inv in Ho as [Ho _].
  assert (Hx : forall x, x ∈ outqueue (ctx w) -> pdus w' !! x = pdus w !! x).
  { intros x Hx. unfold w', finished. cbn. destruct (truth _); [|done]. apply lookup_delete_ne. by intros ->. }
  assert (Hsl : Forall (same_line w w') (outqueue (ctx w))).
  { apply Forall_forall. intros x Hin. split; try done; [by apply Hx|]. intros. by left. }
  destruct (queue_keep w w' _ Hq Hsl) as [Hq' Ew].
  assert (Hsp : forall x, x ∈ outqueue (ctx w) -> same_pdu (the_pdu w x) (the_pdu w' x)).
  { intros x Hin. unfold the_pdu. rewrite Hx by done. apply same_pdu_refl. }
  split; try done.
  - by rewrite app_nil_r.
  - unfold pending. rewrite Ec. change (outqueue_current (ctx w')) with (@None nat).
    change (outqueue (ctx w')) with (outqueue (ctx w)). rewrite Ew.
    rewrite (current_rest_eq _ _ _ _ _ Hs), drop_ge by lia. done.
  - split; try done. change (line w') with (outqueue (ctx w)). by eapply order_keep.
  - by exists [].
  - intros [B1 B2 B3]. unfold line in B3. rewrite Ec in B3. apply Forall_cons in B3 as [B3 B4]. split.
    + unfold w', finished. cbn. unfold the_pdu in B3. rewrite Hp in B3. cbn in B3. by rewrite B3.
    + change (outqueue (ctx w')) with (outqueue (ctx w)). rewrite Forall_forall in B2 |- *. intros x Hin.
      apply (can_go_keep w); [by apply Hx|done|done|by apply B2].
    + change (line w') with (outqueue (ctx w)). by eapply flags_keep.
Qed.

(** *** The loop *)

Definition drained (w : world) : Prop := outqueue_current (ctx w) = None /\ outqueue (ctx w) = [].

Lemma write_pdu_run w p : writer_inv w -> outqueue_current (ctx w) = Some p ->
  exists r w' out, write_pdu p (digests (ctx w)) w = Ret (r, w') /\ flow w w' out /\
    match r with
    | Some rc => stopped w w' out rc /\ pending w' <> []
    | None => outqueue_current (ctx w') = None /\ outqueue (ctx w') = outqueue (ctx w)
    end.
Proof.
  intros Hw Ec. destruct (wi_current _ Hw p Ec) as (pdu & b & pl & Hs).
  destruct (write_stages_run w p pdu b pl Hs) as (r & w1 & d & a & E & S & Hr).
  destruct (staged_flow w p pdu b pl r w1 d a Hw Ec Hs S) as (F & Ec1 & Eq1).
  pose proof (sg_sending _ _ _ _ _ _ _ _ _ S) as Hs1.
  pose proof (sg_size _ _ _ _ _ _ _ _ _ S) as Ha.
  assert (Ew : wire (ctx w1) (dsize (outdata a)) b pl = wire (ctx w) (dsize (outdata pdu)) b pl).
  { rewrite (wire_size _ _ _ _ _ Ha). apply wire_ctx; eapply emitted_ctx, S. }
  unfold write_pdu, stage. run E. destruct r as [rc|].
  - exists (Some rc), w1, d. split; [done|]. split; [done|].
    destruct (sg_stop _ _ _ _ _ _ _ _ _ S) as [Hst Hlt]. split; [done|].
    unfold pending. rewrite Ec1, (current_rest_eq _ _ _ _ _ Hs1), Ew. intros [E0 _]%app_eq_nil.
    apply (f_equal length) in E0. rewrite length_drop in E0. cbn in E0.
    pose proof (written_nonneg _ _ _ _ _ Hs1). lia.
  - destruct (finish_run w1 p a (sd_pdu _ _ _ _ _ Hs1)) as [fr Ef]. run Ef.
    exists None, (finished w1 p a fr), d. split; [done|]. split; [|done].
    rewrite <- (app_nil_r d). eapply flow_trans; [exact F|].
    eapply finished_flow; [apply F|done|exact Hs1|]. rewrite Ew. by apply Hr.
Qed.

(** How the loop ends: everything is sent; or the head of the queue has to
    wait; or the kernel did not take what it was offered. *)
Definition loop_end (w w' : world) (out : bytes) (rc : Z) : Prop :=
  (drained w' /\ rc = 0) \/
  (outqueue_current (ctx w') = None /\ exists h q, outqueue (ctx w') = h :: q /\ refused_head w' h) \/
  (pending w' <> [] /\ stopped w w' out rc).

Lemma loop_end_after w w1 w' d out rc : flow w w1 d -> loop_end w1 w' out rc ->
  loop_end w w' (d ++ out) rc.
Proof.
  intros F [H|[H|[Hp Hs]]]; [by left|by right; left|]. right. right. split; [done|]. intros Ht.
  destruct (fw_answers _ _ _ F) as (used & Et & _). rewrite Et in Ht. apply Forall_app in Ht as [_ Ht].
  destruct (Hs Ht) as [-> [Hx|Hx]]; (split; [done|]); [by left|right]. by intros [_ ?]%app_eq_nil.
Qed.

Lemma write_loop_run fuel : forall w, writer_inv w -> (length (line w) <= fuel)%nat ->
  exists rc w' out, write_loop fuel (digests (ctx w)) w = Ret (rc, w') /\ flow w w' out /\
    loop_end w w' out rc.
Proof.
  assert (Hturn : forall n w p, writer_inv w -> outqueue_current (ctx w) = Some p ->
    (forall v, writer_inv v -> outqueue_current (ctx v) = None -> outqueue (ctx v) = outqueue (ctx w) ->
       digests (ctx v) = digests (ctx w) ->
       exists rc w' out, write_loop n (digests (ctx v)) v = Ret (rc, w') /\ flow v w' out /\ loop_end v w' out rc) ->
    exists rc w' out, (r ← write_pdu p (digests (ctx w));
      match r with Some rc => mret rc | None => write_loop n (digests (ctx w)) end) w = Ret (rc, w') /\
      flow w w' out /\ loop_end w w' out rc).
  { intros n w p Hw Ec K. destruct (write_pdu_run w p Hw Ec) as (r & w1 & d & E & F & Hr). run E.
    destruct r as [rc|].
    - exists rc, w1, d. split; [done|]. split; [done|]. right. right. by destruct Hr.
    - destruct Hr as [Ec1 Eq1]. destruct (K w1) as (rc & w' & out & E' & F' & L'); [apply F|done|done|apply F|].
      rewrite (fw_digests _ _ _ F) in E'. exists rc, w', (d ++ out). split; [done|].
      split; [by eapply flow_trans|by eapply loop_end_after]. }
  induction fuel as [|fuel IH]; intros w Hw Hf.
  - apply Nat.le_0_r, length_zero_iff_nil in Hf. unfold line in Hf. exists 0, w, [].
    cbn [write_loop]. run (get_ctx_run id w). change (id (ctx w)) with (ctx w).
    destruct (outqueue_current (ctx w)) as [p|] eqn:Ec; [done|]. cbn in Hf. rewrite Hf.
    split; [done|]. split; [by apply flow_refl|]. left. by split.
  - assert (Hbody : forall p, outqueue_current (ctx w) = Some p ->
      exists rc w' out, (r ← write_pdu p (digests (ctx w));
        match r with Some rc => mret rc | None => write_loop fuel (digests (ctx w)) end) w = Ret (rc, w') /\
        flow w w' out /\ loop_end w w' out rc).
    { intros p Ec. apply Hturn; [done|done|]. intros v Hv Ecv Eqv _. apply IH; [done|].
      unfold line in *. rewrite Ec in Hf. rewrite Ecv, Eqv. cbn in *. lia. }
    cbn [write_loop]. run (get_ctx_run id w). change (id (ctx w)) with (ctx w).
    destruct (outqueue_current (ctx w)) as [p|] eqn:Ec.
    + assert (Est : stage (mret None) (c ← get_ctx id; p0 ← deref (outqueue_current c); write_pdu p0 (digests (ctx w))) w =
        write_pdu p (digests (ctx w)) w).
      { unfold stage, get_ctx, gets, mbind, M_bind, mret, M_ret, id. by rewrite Ec. }
      unfold mbind at 1, M_bind at 1. rewrite Est. by apply (Hbody p).
    + destruct (outqueue (ctx w)) as [|h q] eqn:Eq.
      { exists 0, w, []. split; [done|]. split; [by apply flow_refl|]. left. by split. }
      pose proof (wi_queue _ Hw) as Hq. rewrite Eq in Hq. apply Forall_cons in Hq as [(pdu & b & pl & Hh) _].
      pose proof (wi_nodup _ Hw) as Hnd. unfold line in Hnd. rewrite Ec, Eq in Hnd. apply NoDup_cons in Hnd as [Hnin _].
      destruct (pop_run w h q pdu b (wi_lock _ Hw) Eq Hnin (qd_pdu _ _ _ _ _ Hh) (qd_block _ _ _ _ _ Hh))
        as [(rc & w' & E & [msg ->] & Hr & Hrc)|E].
      * exists rc, (noted msg w), []. unfold stage. unfold mbind at 1, M_bind at 1. run E.
        split; [done|]. split; [by apply noted_flow|]. right. left. split; [done|]. by exists h, q.
      * pose proof (popped_flow w h q pdu b pl Hw Ec Eq Hh) as F. set (v := popped w h q pdu b) in *.
        assert (Ev : digests (ctx v) = digests (ctx w)) by done.
        destruct (Hturn fuel v h) as (rc & w' & out & E' & F' & L'); [apply F|done| |].
        { intros u Hu Ecu Equ _. apply IH; [done|]. unfold line in *. rewrite Ec, Eq in Hf. rewrite Ecu, Equ.
          cbn in *. lia. }
        exists rc, w', ([] ++ out). split; [|split; [by eapply flow_trans|by eapply loop_end_after]].
        rewrite <- E', Ev. unfold stage. unfold mbind at 1, M_bind at 1. run E. done.
Qed.

(** ** The properties *)

Lemma drained_pending w : drained w -> pending w = [].
Proof. intros [E1 E2]. unfold pending. by rewrite E1, E2. Qed.

Lemma write_to_socket_run w : writer_inv w -> fd (conn (ctx w)) <> -1 ->
  exists rc w' out, iscsi_write_to_socket w = Ret (rc, w') /\ flow w w' out /\ loop_end w w' out rc.
Proof.
  intros Hw Hfd. unfold iscsi_write_to_socket. run (get_ctx_run id w). change (id (ctx w)) with (ctx w).
  rewrite (proj2 (Z.eqb_neq _ _) Hfd). apply write_loop_run; [done|].
  unfold line. destruct (outqueue_current (ctx w)); cbn; lia.
Qed.

(** C5: iscsi_write_to_socket sends the queue as one byte stream: whatever part of each
    offer the kernel takes and wherever a call stops, the bytes taken are a prefix [out]
    of the stream [pending] (each PDU's header block with ExpStatSN and header digest,
    its payload from the io vector, padding and data digest, in queue order), what
    remains is the rest of that stream, and the queue stays valid; the call ends with
    the queue sent, or with a head that has to wait (corked, CmdSN window), or with
    bytes left that the kernel did not take, and then without error if the kernel gave
    none. *)
Theorem write_to_socket_streams (w : world) (Hw : writer_inv w) :
  exists rc w' out, iscsi_write_to_socket w = Ret (rc, w') /\
    pending w = out ++ pending w' /\ sent (sys w') = sent (sys w) ++ out /\ writer_inv w' /\
    (fd (conn (ctx w)) <> -1 ->
       drained w' /\ rc = 0 \/
       (outqueue_current (ctx w') = None /\ exists h q, outqueue (ctx w') = h :: q /\ refused_head w' h) \/
       (pending w' <> [] /\ (Forall takes (tx (sys w)) -> rc = 0 /\ (tx (sys w') = [] \/ out <> [])))).
Proof.
  destruct (decide (fd (conn (ctx w)) = -1)) as [Efd|Hfd].
  - unfold iscsi_write_to_socket. run (get_ctx_run id w). change (id (ctx w)) with (ctx w).
    rewrite Efd. exists (-1), (noted "trying to write but not connected" w), [].
    destruct (noted_flow w "trying to write but not connected" Hw) as [S P I _ _ _ _]. done.
  - destruct (write_to_socket_run w Hw Hfd) as (rc & w' & out & E & [S P I _ _ _ _] & L).
    exists rc, w', out. done.
Qed.

(** [n] calls, until one fails. *)
Fixpoint write_calls (n : nat) : IO Z :=
  match n with
  | O => mret 0
  | S n => rc ← iscsi_write_to_socket; if rc =? 0 then write_calls n else mret rc
  end.

Lemma write_calls_drained n w : writer_inv w -> fd (conn (ctx w)) <> -1 -> drained w ->
  write_calls n w = Ret (0, w).
Proof.
  intros Hw Hfd [E1 E2]. induction n as [|n IH]; [done|]. cbn [write_calls].
  assert (E : iscsi_write_to_socket w = Ret (0, w)).
  { unfold iscsi_write_to_socket. run (get_ctx_run id w). change (id (ctx w)) with (ctx w).
    rewrite (proj2 (Z.eqb_neq _ _) Hfd). cbn [write_loop]. run (get_ctx_run id w).
    change (id (ctx w)) with (ctx w). by rewrite E1, E2. }
  by run E.
Qed.

Lemma refused_blocked w h q : unblocked w -> outqueue (ctx w) = h :: q -> ~ refused_head w h.
Proof.
  intros [B1 B2 _] Eq [H|H]; [congruence|]. rewrite Eq in B2. by apply Forall_cons in B2 as [? _].
Qed.

(** C6: When nothing but the kernel holds the queue back (not corked, every PDU inside
    the CmdSN window, none that corks) and every answer of the kernel takes at least one
    byte, the whole stream is sent: after at most one call more than there are bytes the
    queue is empty and the bytes sent are exactly the stream. *)
Theorem write_to_socket_drains (n : nat) : forall (w : world)
  (Hw : writer_inv w) (Hfd : fd (conn (ctx w)) <> -1) (Hub : unblocked w)
  (Htakes : Forall takes (tx (sys w))) (Hlen : (length (pending w) <= length (tx (sys w)))%nat)
  (Hn : (length (pending w) < n)%nat),
  exists w', write_calls n w = Ret (0, w') /\ drained w' /\
    sent (sys w') = sent (sys w) ++ pending w.
Proof.
  induction n as [|n IH]; intros w Hw Hfd Hub Htakes Hlen Hn; [lia|].
  destruct (write_to_socket_run w Hw Hfd) as (rc & w1 & out & E & [S P I (used & A & L) B D K] & Hend).
  cbn [write_calls]. run E. rewrite P, length_app in Hlen, Hn.
  assert (Htx : (length (pending w1) <= length (tx (sys w1)))%nat).
  { rewrite A, length_app in Hlen. rewrite A, Forall_app in Htakes. destruct Htakes as [Ht _].
    specialize (L Ht). lia. }
  assert (Htakes' : Forall takes (tx (sys w1))) by (rewrite A, Forall_app in Htakes; tauto).
  destruct Hend as [[Hd ->]|[(_ & h & q & Eq & Hr)|[Hp Hst]]].
  - cbn [Z.eqb]. rewrite <- K in Hfd. rewrite write_calls_drained by done. exists w1. split; [done|].
    split; [done|]. rewrite S, P, (drained_pending _ Hd). by rewrite app_nil_r.
  - by destruct (refused_blocked w1 h q (B Hub) Eq).
  - destruct (Hst Htakes) as [-> Ho]. cbn [Z.eqb].
    assert (length (pending w1) <> 0%nat) by (by destruct (pending w1)).
    assert (length out <> 0%nat).
    { destruct Ho as [Ho|Ho]; [rewrite Ho in Htx; cbn in Htx; lia|by destruct out]. }
    destruct (IH w1) as (w' & E' & Hd & Es); [done|by rewrite K|by apply B|done|done|lia|].
    exists w'. split; [done|]. split; [done|]. by rewrite Es, S, P, app_assoc.
Qed.

(** *** A sample stream: a command and a Data-Out PDU of three bytes, with a
    data digest, and a kernel that takes ten bytes at a time. *)

Definition sample_task_out : scsi_task :=
  new_task <| iovector_out := sample_iovector sample_iov |>.

Definition sample_out_pdu : iscsi_pdu :=
  (sample_pdu 5 5) <| calculated_data_digest := crc32c_init |> <| cbdata_task := Some 1%nat |>
    <| payload_offset := 1 |> <| payload_len := 3 |>
    <| outdata := Build_iscsi_data 48 (Some (scsi_set_uint32 (<[0%nat := 5]> (zeros 48)) 4 3)) |>.

Definition sample_stream (answers : list io_result) : world :=
  sample_world
    <| pdus := {[ 1%nat := (sample_pdu 1 5) <| calculated_data_digest := crc32c_init |>; 2%nat := sample_out_pdu ]} |>
    <| tasks := {[ 1%nat := sample_task_out ]} |> <| fresh := 3%nat |>
    <| ctx ::= fun c => c <| outqueue := [1%nat; 2%nat] |> <| data_digest := 1 |> |>
    <| sys ::= fun s => s <| umem := sample_memory sample_iov |> <| tx := answers |> |>.

Lemma sample_stream_inv answers : writer_inv (sample_stream answers).
Proof.
  split; try done.
  - apply (bool_decide_unpack _). vm_compute. exact I.
  - constructor; [|constructor; [|constructor]].
    + exists ((sample_pdu 1 5) <| calculated_data_digest := crc32c_init |>), (<[0%nat := 1]> (zeros 48)), [].
      split; try done.
    + exists sample_out_pdu, (scsi_set_uint32 (<[0%nat := 5]> (zeros 48)) 4 3), [101; 200; 201].
      split; try done.
      split; try done. intros _. exists 1%nat, sample_task_out, sample_iov.
      split; try done. exact sample_iov_wf.
  - repeat constructor. intros E. vm_compute in E. done.
Qed.

(** Header blocks, payload, one byte of padding, digest. *)
Example sample_stream_sent :
  match write_calls 20 (sample_stream (replicate 20 (Io_ok 10))) with
  | Ret (rc, w') => (rc, length (sent (sys w')), drop 96 (sent (sys w')))
  | Undef _ => (0, 0%nat, [])
  end = (0, 104%nat, [101; 200; 201; 0] ++ le4 (crc32c [101; 200; 201; 0])).
Proof. vm_compute. reflexivity. Qed.

Lemma write_to_socket_streams_witness :
  exists rc w' out, iscsi_write_to_socket (sample_stream [Io_ok 60; Io_ok 40; Io_ok 50; Io_ok 2]) = Ret (rc, w') /\
    pending (sample_stream [Io_ok 60; Io_ok 40; Io_ok 50; Io_ok 2]) = out ++ pending w' /\
    sent (sys w') = [] ++ out /\ writer_inv w' /\
    (3 <> -1 ->
       drained w' /\ rc = 0 \/
       (outqueue_current (ctx w') = None /\ exists h q, outqueue (ctx w') = h :: q /\ refused_head w' h) \/
       (pending w' <> [] /\ (Forall takes [Io_ok 60; Io_ok 40; Io_ok 50; Io_ok 2] ->
          rc = 0 /\ (tx (sys w') = [] \/ out <> [])))).
Proof.
  apply (write_to_socket_streams (sample_stream [Io_ok 60; Io_ok 40; Io_ok 50; Io_ok 2])).
  apply sample_stream_inv.
Defined.

Lemma write_to_socket_drains_witness :
  exists w', write_calls 105 (sample_stream (replicate 104 (Io_ok 1))) = Ret (0, w') /\ drained w' /\
    sent (sys w') = [] ++ pending (sample_stream (replicate 104 (Io_ok 1))).
Proof.
  apply (write_to_socket_drains 105 (sample_stream (replicate 104 (Io_ok 1)))).
  - apply sample_stream_inv.
  - discriminate.
  - split; [done| |].
    + constructor; [|constructor; [|constructor]]; (split; left; vm_compute; discriminate).
    + constructor; [|constructor; [|constructor]]; reflexivity.
  - apply Forall_replicate. vm_compute. discriminate.
  - vm_compute. lia.
  - vm_compute. lia.
Defined.
