(* ===== verification/Command.v ===== *)
(** SCSI commands (src/lib/iscsi-command.c): sending a command with its
    immediate and unsolicited data, answering an R2T, and completing a command
    from a SCSI response or from Data-In PDUs.

    A data buffer of the caller is its address and size; address 0 is NULL.
    The sense parser works on the bytes it is given, and a read past their end
    is the outcome [OutOfBounds]. *)

From S2P Require Import Prelude Bytes Task Context Pdu Queue Complete.

(** [task ? task : NULL] as the data of a callback. *)
Definition task_data (t : option nat) : command_data :=
  match t with Some t => Data_task t | None => Data_none end.

(** ** Operations *)

Section Command.
Context `{Transport}.

(** One DATA-OUT PDU of [len] bytes at [offset]; [None] when it cannot be
    allocated. *)
Definition send_one_data_out (cmd : nat) (ttt offset tot_len len : Z) : IO bool :=
  cmd_pdu ← get_pdu cmd;
  r ← iscsi_allocate_pdu ISCSI_PDU_DATA_OUT ISCSI_PDU_NO_PDU (pdu_itt cmd_pdu)
        (ISCSI_PDU_DROP_ON_RECONNECT ||| ISCSI_PDU_DELETE_WHEN_SENT);
  match r with
  | None => _ ← iscsi_set_error "Out-of-memory, Failed to allocate scsi data out pdu."; mret false
  | Some p =>
      _ ← set_pdu p (fun pdu => pdu <| cbdata_task := cbdata_task cmd_pdu |>
            <| pdu_cmdsn := pdu_cmdsn cmd_pdu |>);
      let flags := if tot_len =? len then ISCSI_PDU_SCSI_FINAL else 0 in
      _ ← iscsi_pdu_set_pduflags p flags;
      _ ← iscsi_pdu_set_lun p (pdu_lun cmd_pdu);
      _ ← iscsi_pdu_set_ttt p ttt;
      _ ← iscsi_pdu_set_datasn p (pdu_datasn cmd_pdu);
      _ ← set_pdu cmd (fun pdu => pdu <| pdu_datasn := u32 (pdu_datasn pdu + 1) |>);
      _ ← iscsi_pdu_set_bufferoffset p offset;
      _ ← set_pdu p (fun pdu => pdu <| payload_offset := offset |> <| payload_len := len |>);
      _ ← set_hdr p (fun b => scsi_set_uint32 b 4 len);
      _ ← iscsi_queue_pdu p;
      mret true
  end.

(** The label [error] of [iscsi_send_data_out]. *)
Definition send_data_out_error (cmd : nat) : IO Z :=
  _ ← iscsi_mt_spin_lock;
  _ ← outqueue_remove cmd;
  _ ← waitpdu_remove cmd;
  _ ← iscsi_mt_spin_unlock;
  _ ← call_callback cmd SCSI_STATUS_ERROR Data_none;
  _ ← iscsi_tcp_free_pdu cmd;
  mret (-1).

(** [while (tot_len > 0)]; every turn sends at least one byte when the target
    accepts any, so [tot_len] turns are enough. *)
Fixpoint send_data_out_loop (fuel : nat) (cmd : nat) (ttt offset tot_len : Z) : IO Z :=
  if tot_len =? 0 then mret 0 else
  match fuel with
  | O => undefined NoFuel
  | S fuel =>
      max ← get_ctx target_max_recv_data_segment_length;
      let len := MIN tot_len max in
      ok ← send_one_data_out cmd ttt offset tot_len len;
      if (ok : bool) then
        send_data_out_loop fuel cmd ttt (u32 (offset + len)) (u32 (tot_len - len))
      else send_data_out_error cmd
  end.

Definition iscsi_send_data_out (cmd : nat) (ttt offset tot_len : Z) : IO Z :=
  send_data_out_loop (Z.to_nat tot_len) cmd ttt offset tot_len.

Definition iscsi_send_unsolicited_data_out (p : nat) : IO Z :=
  pdu ← get_pdu p;
  burst ← get_ctx first_burst_length;
  let len := u32 (MIN (pdu_expxferlen pdu) burst - payload_len pdu) in
  iscsi_send_data_out p 0xffffffff (payload_len pdu) len.

(** The data-out vector made of the caller's buffer [d]; [false] when the
    vector cannot be allocated. *)
Definition set_data_out (t : nat) (d : option scsi_iovec) : IO bool :=
  match d with
  | Some v =>
      if iov_base v =? 0 then mret true else
      ok ← malloc;
      task ← get_task t;
      match scsi_malloc ok sizeof_iovec task with
      | None => mret false
      | Some task => _ ← set_task t (fun _ => scsi_task_set_iov_out task [v] 1); mret true
      end
  | None => mret true
  end.

(** The switch on [task->xfer_dir]: the flags of the PDU, and its immediate
    data. *)
Definition command_flags (p : nat) (task : scsi_task) : IO Z :=
  let flags := ISCSI_PDU_SCSI_FINAL ||| ISCSI_PDU_SCSI_ATTR_SIMPLE in
  if xfer_dir task =? SCSI_XFER_READ then mret (flags ||| ISCSI_PDU_SCSI_READ) else
  if negb (xfer_dir task =? SCSI_XFER_WRITE) then mret flags else
  let flags := flags ||| ISCSI_PDU_SCSI_WRITE in
  w ← getS;
  let c := ctx w in
  _ ← when (use_immediate_data c =? ISCSI_IMMEDIATE_DATA_YES)
        (let len := u32 (Task.expxferlen task) in
         let len := MIN len (first_burst_length c) in
         let len := MIN len (target_max_recv_data_segment_length c) in
         _ ← set_pdu p (fun pdu => pdu <| payload_offset := 0 |> <| payload_len := len |>);
         set_hdr p (fun b => scsi_set_uint32 b 4 len));
  pdu ← get_pdu p;
  mret (if (use_initial_r2t c =? ISCSI_INITIAL_R2T_NO)
           && (payload_len pdu <? u32 (Task.expxferlen task))
           && (payload_len pdu <? first_burst_length c)
        then flags &&& Z.lnot ISCSI_PDU_SCSI_FINAL else flags).

(** [iscsi_scsi_command_async] once the context is chosen. *)
Definition scsi_command_here (lun : Z) (t : nat) (cb : option nat) (d : option scsi_iovec)
  (private : Z) : IO Z :=
  w ← getS;
  let c := ctx w in
  if negb (session_type c =? ISCSI_SESSION_NORMAL) then
    _ ← iscsi_set_error "Trying to send command on discovery session."; mret (-1)
  else if negb (is_loggedin c) && negb (pending_reconnect c) then
    _ ← iscsi_set_error "Trying to send command while not logged in."; mret (-1)
  else
  ok ← set_data_out t d;
  if negb ok then mret (-1) else
  itt ← iscsi_itt_post_increment;
  r ← iscsi_allocate_pdu ISCSI_PDU_SCSI_REQUEST ISCSI_PDU_SCSI_RESPONSE itt 0;
  match r with
  | None => _ ← iscsi_set_error "Out-of-memory, Failed to allocate scsi pdu."; mret (-1)
  | Some p =>
      _ ← set_pdu p (fun pdu => pdu <| cbdata_task := Some t |> <| cbdata_callback := cb |>
            <| cbdata_private_data := private |>
            <| payload_offset := 0 |> <| payload_len := 0 |>);
      _ ← set_task t (fun task => scsi_set_task_private_ptr task (Some p));
      task ← get_task t;
      flags ← command_flags p task;
      _ ← iscsi_pdu_set_pduflags p flags;
      _ ← set_pdu p (fun pdu => pdu <| pdu_callback := Some Cb_scsi_response |>
            <| private_data := 0 |>);
      _ ← iscsi_pdu_set_lun p (u32 lun);
      _ ← set_pdu p (fun pdu => pdu <| pdu_lun := u32 lun |>);
      _ ← set_task t (fun task => task <| task_lun := u32 lun |>);
      _ ← iscsi_pdu_set_expxferlen p (u32 (Task.expxferlen task));
      _ ← iscsi_mt_spin_lock;
      sn ← get_ctx cmdsn;
      _ ← set_ctx (fun c => c <| cmdsn := u32 (sn + 1) |>);
      _ ← iscsi_pdu_set_cmdsn p sn;
      _ ← iscsi_mt_spin_unlock;
      task ← get_task t;
      _ ← iscsi_pdu_set_cdb p task;
      _ ← iscsi_queue_pdu p;
      _ ← when (negb (truth (flags &&& ISCSI_PDU_SCSI_FINAL)))
            (_ ← iscsi_send_unsolicited_data_out p; mret tt);
      mret 0
  end.

(** While a reconnect is under way, commands go to the old context. *)
Definition iscsi_scsi_command_async (lun : Z) (t : nat) (cb : option nat) (d : option scsi_iovec)
  (private : Z) : IO Z :=
  old ← get_ctx old_iscsi;
  match old with
  | Some old => on_old old (scsi_command_here lun t cb d private)
  | None => scsi_command_here lun t cb d private
  end.

Definition iscsi_process_r2t (p : nat) (inp : iscsi_in_pdu) : IO Z :=
  let ttt := scsi_get_uint32 (hdr inp) 20 in
  let offset := scsi_get_uint32 (hdr inp) 40 in
  let len := scsi_get_uint32 (hdr inp) 44 in
  _ ← set_pdu p (fun pdu => pdu <| pdu_datasn := 0 |>);
  _ ← iscsi_send_data_out p ttt offset len;
  mret 0.

End Command.

(** *** Sense data *)

(** [sb[i]], a read that must be inside the buffer. *)
Definition rd (sb : bytes) (i : Z) : res Z :=
  if i <? 0 then Undef OutOfBounds else
  match sb !! Z.to_nat i with Some b => mret b | None => Undef OutOfBounds end.

(** [n] bytes from [sb + i] on. *)
Definition rd_bytes (sb : bytes) (i : Z) (n : nat) : res bytes :=
  if (i <? 0) || (Z.of_nat (length sb) <? i + Z.of_nat n) then Undef OutOfBounds
  else mret (take n (drop (Z.to_nat i) sb)).

(** [inf] are the bytes from [inf[0]] to the end of the buffer. *)
Definition parse_sense_spec (sense : scsi_sense) (inf : bytes) : res scsi_sense :=
  b0 ← rd inf 0;
  if negb (truth (b0 &&& 0x80)) then mret sense else
  let sense := sense <| sense_specific := 1 |> <| ill_param_in_cdb := notnot (b0 &&& 0x40) |> in
  let sense := if truth (b0 &&& 8)
               then sense <| bit_pointer_valid := 1 |> <| bit_pointer := b0 &&& 7 |> else sense in
  f ← rd_bytes inf 1 2;
  mret (sense <| field_pointer := scsi_get_uint16 f 0 |>).

(** One descriptor at [p]. *)
Definition parse_sense_descriptor (sense : scsi_sense) (sb : bytes) (p addl_len : Z)
  : res scsi_sense :=
  ty ← rd sb p;
  if ty =? 0 then
    if addl_len =? 0x0a then
      f ← rd sb (p + 2);
      if truth (f &&& 0x80) then
        info ← rd_bytes sb (p + 4) 8;
        mret (sense <| info_valid := 1 |> <| information := scsi_get_uint64 info 0 |>)
      else mret sense
    else mret sense
  else if ty =? 2 then
    if addl_len =? 0x06 then parse_sense_spec sense (drop (Z.to_nat (p + 4)) sb) else mret sense
  else mret sense.

(** [for (p = sb; p < end; p += p[1])]; a turn that goes on advances by four
    at least. *)
Fixpoint parse_sense_descriptors_from (fuel : nat) (sense : scsi_sense) (sb : bytes)
  (sb_len p : Z) : res scsi_sense :=
  if sb_len <=? p then mret sense else
  match fuel with
  | O => Undef NoFuel
  | S fuel =>
      addl_len ← rd sb (p + 1);
      if addl_len <? 4 then mret sense else
      sense ← parse_sense_descriptor sense sb p addl_len;
      parse_sense_descriptors_from fuel sense sb sb_len (p + addl_len)
  end.

Definition parse_sense_descriptors (sense : scsi_sense) (sb : bytes) (sb_len : Z)
  : res scsi_sense :=
  parse_sense_descriptors_from (Z.to_nat sb_len) sense sb sb_len 0.

Definition scsi_parse_sense_data (sense : scsi_sense) (sb : bytes) : res scsi_sense :=
  b0 ← rd sb 0;
  let sense := sense <| error_type := b0 &&& 0x7f |> in
  if (error_type sense =? 0x70) || (error_type sense =? 0x71) then
    b2 ← rd sb 2;
    let sense := sense <| key := b2 &&& 0x0f |> in
    sense ← (if truth (b0 &&& 0x80) then
               info ← rd_bytes sb 3 4;
               mret (sense <| info_valid := 1 |> <| information := scsi_get_uint32 info 0 |>)
             else mret sense);
    ascq ← rd_bytes sb 12 2;
    parse_sense_spec (sense <| Task.ascq := scsi_get_uint16 ascq 0 |>) (drop 15 sb)
  else if (error_type sense =? 0x72) || (error_type sense =? 0x73) then
    b1 ← rd sb 1;
    ascq ← rd_bytes sb 2 2;
    b7 ← rd sb 7;
    parse_sense_descriptors (sense <| key := b1 &&& 0x0f |>
      <| Task.ascq := scsi_get_uint16 ascq 0 |>) (drop 8 sb) b7
  else mret sense.

(** *** Completion *)

(** [memcpy(data, in->data, in->data_pos)] into a fresh block. *)
Definition copy_in_data (inp : iscsi_in_pdu) : res bytes :=
  if data_pos inp =? 0 then mret [] else
  match in_data inp with
  | None => Undef NullDeref
  | Some d => if (data_pos inp <? 0) || (Z.of_nat (length d) <? data_pos inp)
              then Undef OutOfBounds else mret (take (Z.to_nat (data_pos inp)) d)
  end.

(** [task->datain = pdu->indata] and clear [pdu->indata]. *)
Definition take_indata (p t : nat) : IO unit :=
  pdu ← get_pdu p;
  _ ← set_task t (fun task => task <| datain :=
        take (Z.to_nat (dsize (indata pdu))) (default [] (ddata (indata pdu))) |>);
  _ ← when (bool_decide (is_Some (ddata (indata pdu))))
        (set_ctx (fun c => c <| frees ::= Z.add 1 |>));
  set_pdu p (fun pdu => pdu <| indata := no_data |>).

(** [task->residual_status] and [task->residual] from the flags of a PDU that
    carries the status. *)
Definition set_residual (t : nat) (h : bytes) : IO unit :=
  let flags := byte_at h 1 in
  when (truth (flags &&& (ISCSI_PDU_DATA_RESIDUAL_OVERFLOW ||| ISCSI_PDU_DATA_RESIDUAL_UNDERFLOW)))
    (set_task t (fun task => task <| residual := scsi_get_uint32 h 44 |>
       <| residual_status := if truth (flags &&& ISCSI_PDU_DATA_RESIDUAL_UNDERFLOW)
                             then SCSI_RESIDUAL_UNDERFLOW else SCSI_RESIDUAL_OVERFLOW |>)).

(** The case SCSI_STATUS_CHECK_CONDITION: without memory for the sense data
    the function returns without a callback.  A [datain] of size [data_pos]
    without data is the empty one here. *)
Definition reply_check_condition (p t : nat) (inp : iscsi_in_pdu) : IO Z :=
  ok ← malloc;
  if negb ok then
    _ ← set_task t (fun task => task <| datain := [] |>);
    _ ← iscsi_set_error "failed to allocate blob for sense data";
    mret 0
  else
    d ← lift (copy_in_data inp);
    _ ← set_task t (fun task => task <| datain := d |>);
    task ← get_task t;
    s ← lift (scsi_parse_sense_data (sense task) (drop 2 d));
    _ ← set_task t (fun task => task <| sense := s |>);
    _ ← iscsi_set_error "SENSE KEY:%s(%d) ASCQ:%s(0x%04x)";
    _ ← call_callback p SCSI_STATUS_CHECK_CONDITION (Data_task t);
    mret 0.

(** The statuses passed on with an error string. *)
Definition status_message (status : Z) : option string :=
  if status =? SCSI_STATUS_RESERVATION_CONFLICT then Some "RESERVATION CONFLICT"%string
  else if status =? SCSI_STATUS_TASK_SET_FULL then Some "TASK_SET_FULL"%string
  else if status =? SCSI_STATUS_ACA_ACTIVE then Some "ACA_ACTIVE"%string
  else if status =? SCSI_STATUS_TASK_ABORTED then Some "TASK_ABORTED"%string
  else if status =? SCSI_STATUS_BUSY then Some "BUSY"%string
  else None.

(** The switch on the status of a SCSI response. *)
Definition reply_status_switch (p t : nat) (inp : iscsi_in_pdu) : IO Z :=
  let status := byte_at (hdr inp) 3 in
  if (status =? SCSI_STATUS_GOOD) || (status =? SCSI_STATUS_CONDITION_MET) then
    _ ← take_indata p t;
    _ ← call_callback p SCSI_STATUS_GOOD (Data_task t);
    mret 0
  else if status =? SCSI_STATUS_CHECK_CONDITION then reply_check_condition p t inp
  else match status_message status with
  | Some msg => _ ← iscsi_set_error msg; _ ← call_callback p status (Data_task t); mret 0
  | None => _ ← iscsi_set_error "Unknown SCSI status :%d.";
            _ ← call_callback p SCSI_STATUS_ERROR (Data_task t); mret (-1)
  end.

Definition iscsi_process_scsi_reply (p : nat) (inp : iscsi_in_pdu) : IO Z :=
  pdu ← get_pdu p;
  let task := cbdata_task pdu in
  let flags := byte_at (hdr inp) 1 in
  let fail msg := (_ ← iscsi_set_error msg;
                   _ ← call_callback p SCSI_STATUS_ERROR (task_data task); mret (-1)) in
  if flags &&& ISCSI_PDU_DATA_FINAL =? 0 then
    fail "scsi response pdu but Final bit is not set: 0x%02x."%string
  else if negb (flags &&& ISCSI_PDU_DATA_ACK_REQUESTED =? 0) then
    fail "scsi response asked for ACK 0x%02x."%string
  else
    t ← deref task;
    _ ← set_task t (fun task => task <| residual_status := SCSI_RESIDUAL_NO_RESIDUAL |>
          <| residual := 0 |>);
    if truth (flags &&& (ISCSI_PDU_DATA_RESIDUAL_OVERFLOW ||| ISCSI_PDU_DATA_RESIDUAL_UNDERFLOW))
       && negb (byte_at (hdr inp) 2 =? 0)
    then fail "protocol error: flags %#02x; response %#02x."%string
    else
      _ ← set_residual t (hdr inp);
      reply_status_switch p t inp.

(** Returns [ret] and [*is_finished], which is 1 at the call. *)
Definition iscsi_process_scsi_data_in (p : nat) (inp : iscsi_in_pdu) : IO (Z * bool) :=
  pdu ← get_pdu p;
  let task := cbdata_task pdu in
  let flags := byte_at (hdr inp) 1 in
  if negb (flags &&& ISCSI_PDU_DATA_ACK_REQUESTED =? 0) then
    _ ← iscsi_set_error "scsi response asked for ACK 0x%02x.";
    _ ← call_callback p SCSI_STATUS_ERROR (task_data task);
    mret (-1, true)
  else
  let dsl := scsi_get_uint32 (hdr inp) 4 &&& 0x00ffffff in
  t ← deref task;
  task ← get_task t;
  ok ← (match iov (iovector_in task) with
        | Some _ => mret true
        | None =>
            '(rc, d) ← iscsi_add_data (indata pdu) (default [] (in_data inp)) dsl false;
            _ ← set_pdu p (fun pdu => pdu <| indata := d |>);
            mret (rc =? 0)
        end);
  if negb ok then
    _ ← iscsi_set_error "Out-of-memory: failed to add data to pdu in buffer."; mret (-1, true)
  else if (flags &&& ISCSI_PDU_DATA_FINAL =? 0) || (flags &&& ISCSI_PDU_DATA_CONTAINS_STATUS =? 0)
  then mret (0, false)
  else
    _ ← set_task t (fun task => task <| residual_status := SCSI_RESIDUAL_NO_RESIDUAL |>
          <| residual := 0 |>);
    _ ← set_residual t (hdr inp);
    _ ← take_indata p t;
    _ ← call_callback p (byte_at (hdr inp) 3) (Data_task t);
    mret (0, true).

(** * Lemmas *)

(** ** Sense data *)

Lemma rd_ok sb i : 0 <= i < Z.of_nat (length sb) -> rd sb i = Ret (byte_at sb (Z.to_nat i)).
Proof.
  intros Hi. unfold rd, byte_at. destruct (Z.ltb_spec i 0); [lia|].
  destruct (lookup_lt_is_Some_2 sb (Z.to_nat i)) as [b Hb]; [lia|]. by rewrite Hb.
Qed.

Lemma rd_bytes_ok sb i n : 0 <= i -> i + Z.of_nat n <= Z.of_nat (length sb) ->
  rd_bytes sb i n = Ret (take n (drop (Z.to_nat i) sb)).
Proof.
  intros Hi Hn. unfold rd_bytes. destruct (Z.ltb_spec i 0); [lia|]. cbn [orb].
  by destruct (Z.ltb_spec (Z.of_nat (length sb)) (i + Z.of_nat n)); [lia|].
Qed.

(** The fields a descriptor does not write. *)
Definition same_key (s s' : scsi_sense) : Prop :=
  error_type s' = error_type s /\ key s' = key s /\ ascq s' = ascq s.

Lemma sense_spec_ok s inf : 3 <= Z.of_nat (length inf) ->
  exists s', parse_sense_spec s inf = Ret s' /\ same_key s s'.
Proof.
  intros Hl. unfold parse_sense_spec. rewrite rd_ok, rd_bytes_ok by lia. cbn [mbind res_bind].
  destruct (negb _); [by exists s|]. destruct (truth (_ &&& 8)); by eexists.
Qed.

Lemma sense_descriptor_ok s sb p n : 0 <= p -> p + 12 <= Z.of_nat (length sb) ->
  exists s', parse_sense_descriptor s sb p n = Ret s' /\ same_key s s'.
Proof.
  intros Hp Hl. unfold parse_sense_descriptor. rewrite !rd_ok, rd_bytes_ok by lia.
  cbn [mbind res_bind]. destruct (_ =? 0).
  - destruct (_ =? 10); [|by exists s]. destruct (truth _); by eexists.
  - destruct (_ =? 2); [|by exists s]. destruct (_ =? 6); [|by exists s].
    apply sense_spec_ok. rewrite length_drop. lia.
Qed.

Lemma sense_descriptors_ok sb sb_len fuel : forall s p, 0 <= p ->
  sb_len + 11 <= Z.of_nat (length sb) -> sb_len - p <= Z.of_nat fuel ->
  exists s', parse_sense_descriptors_from fuel s sb sb_len p = Ret s' /\ same_key s s'.
Proof.
  induction fuel as [|fuel IH]; intros s p Hp Hl Hf; cbn [parse_sense_descriptors_from];
    (destruct (Z.leb_spec sb_len p); [by exists s|]); [lia|].
  rewrite rd_ok by lia. cbn [mbind res_bind].
  set (n := byte_at sb (Z.to_nat (p + 1))). destruct (Z.ltb_spec n 4); [by exists s|].
  destruct (sense_descriptor_ok s sb p n) as (s1 & -> & H1); [lia|lia|]. cbn [mbind res_bind].
  destruct (IH s1 (p + n)) as (s2 & -> & H2); [lia|lia|lia|]. exists s2. split; [done|].
  unfold same_key in *. intuition congruence.
Qed.

(** Sense data the parser stays inside of: 18 bytes and, in descriptor format,
    eleven beyond the descriptors, which a last short descriptor may reach. *)
Record sense_wf (sb : bytes) : Prop := {
  sense_len : 18 <= Z.of_nat (length sb);
  sense_bytes : bytes_ok sb;
  sense_desc : byte_at sb 0 &&& 0x7f = 0x72 \/ byte_at sb 0 &&& 0x7f = 0x73 ->
    byte_at sb 7 + 19 <= Z.of_nat (length sb)
}.

Lemma sense_parse_ok (s : scsi_sense) (sb : bytes) : sense_wf sb ->
  exists s', scsi_parse_sense_data s sb = Ret s' /\ error_type s' = byte_at sb 0 &&& 0x7f /\
    (error_type s' = 0x70 \/ error_type s' = 0x71 ->
       key s' = byte_at sb 2 &&& 0x0f /\ ascq s' = scsi_get_uint16 (take 2 (drop 12 sb)) 0) /\
    (error_type s' = 0x72 \/ error_type s' = 0x73 ->
       key s' = byte_at sb 1 &&& 0x0f /\ ascq s' = scsi_get_uint16 (take 2 (drop 2 sb)) 0).
Proof.
  intros [Hlen Hok Hdesc]. unfold scsi_parse_sense_data. rewrite !rd_ok, !rd_bytes_ok by lia. cbn [mbind res_bind].
  change (error_type (upd error_type _ s)) with (byte_at sb 0 &&& 0x7f).
  change (Z.to_nat 0) with 0%nat. change (Z.to_nat 1) with 1%nat. change (Z.to_nat 2) with 2%nat.
  change (Z.to_nat 7) with 7%nat. change (Z.to_nat 12) with 12%nat.
  set (ty := byte_at sb 0 &&& 0x7f) in *.
  destruct (Z.eqb_spec ty 0x70); [|destruct (Z.eqb_spec ty 0x71)]; cbn [orb].
  1, 2: destruct (truth (byte_at sb 0 &&& 0x80)); cbn [mbind res_bind mret res_ret];
    (match goal with |- context [parse_sense_spec ?s0 _] =>
       destruct (sense_spec_ok s0 (drop 15 sb)) as (s' & -> & He & Hk & Ha) end;
     [rewrite length_drop; lia|]; exists s'; split; [done|]; split; [done|];
     split; [done|]; rewrite He; change (error_type _) with ty; lia).
  destruct (Z.eqb_spec ty 0x72); [|destruct (Z.eqb_spec ty 0x73)]; cbn [orb].
  1, 2: unfold parse_sense_descriptors;
    (match goal with |- context [parse_sense_descriptors_from ?f ?s0 ?b ?n ?p] =>
       destruct (sense_descriptors_ok b n f s0 p) as (s' & -> & He & Hk & Ha) end;
     [lia| |pose proof (byte_at_ok sb 7 Hok) as Hb; unfold byte_ok in Hb; lia|];
     [rewrite length_drop; specialize (Hdesc ltac:(lia)); lia|];
     exists s'; split; [done|]; split; [done|]; split; [rewrite He; change (error_type _) with ty; lia|done]).
  exists (s <| error_type := ty |>). do 2 (split; [done|]).
  change (error_type (s <| error_type := ty |>)) with ty. split; lia.
Qed.

(** ** Properties *)

(** On sense data that is long enough for its response code (and, in descriptor
    format, whose descriptors lie inside it) the parser reads no byte outside the
    buffer, ends, and returns the response code, sense key and additional sense code of
    the format. *)
Theorem sense_parse_total (s : scsi_sense) (sb : bytes) (Hwf : sense_wf sb) :
  exists s', scsi_parse_sense_data s sb = Ret s' /\ error_type s' = byte_at sb 0 &&& 0x7f /\
    (error_type s' = 0x70 \/ error_type s' = 0x71 ->
       key s' = byte_at sb 2 &&& 0x0f /\ ascq s' = scsi_get_uint16 (take 2 (drop 12 sb)) 0) /\
    (error_type s' = 0x72 \/ error_type s' = 0x73 ->
       key s' = byte_at sb 1 &&& 0x0f /\ ascq s' = scsi_get_uint16 (take 2 (drop 2 sb)) 0).
Proof. by apply sense_parse_ok. Qed.

Lemma sense_parse_total_witness :
  let sb := [0x72; 5; 0x24; 0; 0; 0; 0; 0] ++ zeros 11 in
  exists s', scsi_parse_sense_data zero_sense sb = Ret s' /\ key s' = 5 /\ ascq s' = 0x2400.
Proof.
  intros sb. destruct (sense_parse_total zero_sense sb) as (s' & E & Et & _ & H).
  - split; [vm_compute; discriminate| |intros _; vm_compute; discriminate].
    apply Forall_app. split; [|apply bytes_ok_zeros]. repeat constructor; unfold byte_ok; lia.
  - exists s'. split; [exact E|]. destruct H as [Hk Ha]; [left; exact Et|].
    split; [exact Hk|exact Ha].
Defined.

(** In descriptor format sense data with an information descriptor followed by a
    sense-key-specific descriptor, the parser returns the information field but not the
    sense-key-specific data: it advances by the additional length, not by the length of
    the descriptor. *)
Theorem sense_descriptor_after_information_lost (sense_key asc qual b0 b1 b2 b3 b4 b5 b6 b7 k0 k1 k2 : Z)
  (Hlast : b7 < 4) :
  let header := [0x72; sense_key; asc; qual; 0; 0; 0; 20] in
  let info_desc := [0x00; 0x0a; 0x80; 0; b0; b1; b2; b3; b4; b5; b6; b7] in
  let sks_desc := [0x02; 0x06; 0; 0; k0; k1; k2; 0] in
  exists s, scsi_parse_sense_data zero_sense (header ++ info_desc ++ sks_desc) = Ret s /\
    info_valid s = 1 /\ information s = scsi_get_uint64 [b0; b1; b2; b3; b4; b5; b6; b7] 0 /\
    sense_specific s = 0.
Proof.
  intros header info_desc sks_desc. set (db := info_desc ++ sks_desc).
  set (s1 := zero_sense <| error_type := 0x72 |> <| key := sense_key &&& 0x0f |>
               <| ascq := scsi_get_uint16 [asc; qual] 0 |>).
  set (s2 := s1 <| info_valid := 1 |>
               <| information := scsi_get_uint64 [b0; b1; b2; b3; b4; b5; b6; b7] 0 |>).
  assert (E1 : scsi_parse_sense_data zero_sense (header ++ info_desc ++ sks_desc) =
               parse_sense_descriptors_from 20 s1 db 20 0) by reflexivity.
  assert (E2 : parse_sense_descriptors_from 20 s1 db 20 0 =
               parse_sense_descriptors_from 19 s2 db 20 10) by reflexivity.
  fold db in E1. rewrite E1, E2. cbn [parse_sense_descriptors_from]. change (20 <=? 10) with false.
  change (rd db (10 + 1)) with (Ret b7). cbn [mbind res_bind].
  rewrite (proj2 (Z.ltb_lt b7 4)) by done. by exists s2.
Qed.

Lemma sense_descriptor_after_information_lost_witness :
  exists s, scsi_parse_sense_data zero_sense
      ([0x72; 3; 0x11; 0; 0; 0; 0; 20] ++ [0; 0x0a; 0x80; 0; 0; 0; 0; 0; 0; 0; 1; 0] ++
       [2; 6; 0; 0; 0x80; 0; 9; 0]) = Ret s /\ sense_specific s = 0.
Proof.
  destruct (sense_descriptor_after_information_lost 3 0x11 0 0 0 0 0 0 0 1 0 0x80 0 9)
    as (s & E & _ & _ & H); [lia|]. exists s. split; [exact E|exact H].
Defined.

(** ** SCSI responses *)

(** The value returned and the status given to the callback, for a status
    byte, and for a response. *)
Definition status_outcome (status : Z) : Z * Z :=
  if (status =? SCSI_STATUS_GOOD) || (status =? SCSI_STATUS_CONDITION_MET)
  then (0, SCSI_STATUS_GOOD)
  else if bool_decide (status ∈ [SCSI_STATUS_CHECK_CONDITION; SCSI_STATUS_BUSY;
            SCSI_STATUS_RESERVATION_CONFLICT; SCSI_STATUS_TASK_SET_FULL; SCSI_STATUS_ACA_ACTIVE;
            SCSI_STATUS_TASK_ABORTED])
  then (0, status) else (-1, SCSI_STATUS_ERROR).

Definition reply_outcome (h : bytes) : Z * Z :=
  let flags := byte_at h 1 in
  if (flags &&& ISCSI_PDU_DATA_FINAL =? 0)
     || negb (flags &&& ISCSI_PDU_DATA_ACK_REQUESTED =? 0)
     || (truth (flags &&& (ISCSI_PDU_DATA_RESIDUAL_OVERFLOW ||| ISCSI_PDU_DATA_RESIDUAL_UNDERFLOW))
         && negb (byte_at h 2 =? 0))
  then (-1, SCSI_STATUS_ERROR) else status_outcome (byte_at h 3).

(** The residual the header announces. *)
Definition with_residual (h : bytes) (task : scsi_task) : scsi_task :=
  let flags := byte_at h 1 in
  if truth (flags &&& (ISCSI_PDU_DATA_RESIDUAL_OVERFLOW ||| ISCSI_PDU_DATA_RESIDUAL_UNDERFLOW))
  then task <| residual := scsi_get_uint32 h 44 |>
         <| residual_status := if truth (flags &&& ISCSI_PDU_DATA_RESIDUAL_UNDERFLOW)
                               then SCSI_RESIDUAL_UNDERFLOW else SCSI_RESIDUAL_OVERFLOW |>
  else task.

Definition no_residual (task : scsi_task) : scsi_task :=
  task <| residual_status := SCSI_RESIDUAL_NO_RESIDUAL |> <| residual := 0 |>.

(** The command of task [t] waits as PDU [p] with the user callback [f]. *)
Record waiting (w : world) (p t f : nat) (pdu : iscsi_pdu) (task : scsi_task) : Prop := {
  wt_pdu : pdus w !! p = Some pdu;
  wt_cb : pdu_callback pdu = Some Cb_scsi_response;
  wt_task : cbdata_task pdu = Some t;
  wt_user : cbdata_callback pdu = Some f;
  wt_live : tasks w !! t = Some task
}.

(** The connection, and what the loop that serves it looks at. *)
Definition link_of (c : iscsi_context) : connection * option iscsi_context * (bool * bool) * Z * bool :=
  (conn c, old_iscsi c, (is_connected c, pending_reconnect c), scsi_timeout c, multithreading_enabled c).

(** All but PDU [p], its task and the counters is as it was. *)
Definition kept (p : nat) (w w' : world) : Prop :=
  waitpdu (ctx w') = waitpdu (ctx w) /\ outqueue (ctx w') = outqueue (ctx w) /\
  iscsi_lock (ctx w') = iscsi_lock (ctx w) /\ have_mt w' = have_mt w /\
  (exists a a', pdus w !! p = Some a /\ pdus w' !! p = Some a' /\ pdu_itt a' = pdu_itt a) /\
  (forall x, x <> p -> pdus w' !! x = pdus w !! x) /\ link_of (ctx w') = link_of (ctx w).

Lemma kept_trans p w1 w2 w3 : kept p w1 w2 -> kept p w2 w3 -> kept p w1 w3.
Proof.
  intros (A1 & A2 & A3 & A4 & A5 & A6 & A7) (B1 & B2 & B3 & B4 & B5 & B6 & B7).
  do 4 (split; [congruence|]).
  split; [|split; [intros x Hx; rewrite B6 by done; by apply A6|congruence]].
  destruct A5 as (a & a1 & Ha & Ha1 & Ea), B5 as (b & b1 & Hb & Hb1 & Eb).
  rewrite Ha1 in Hb. injection Hb as <-. exists a, b1. split; [done|]. split; [done|congruence].
Qed.

Lemma kept_same p w w' : is_Some (pdus w !! p) -> pdus w' = pdus w -> have_mt w' = have_mt w ->
  waitpdu (ctx w') = waitpdu (ctx w) -> outqueue (ctx w') = outqueue (ctx w) ->
  iscsi_lock (ctx w') = iscsi_lock (ctx w) -> link_of (ctx w') = link_of (ctx w) -> kept p w w'.
Proof.
  intros [a Ha] E ? ? ? ? ?. do 4 (split; [done|]). rewrite E. split; [|by split]. by exists a, a.
Qed.

Lemma put_task_id w t task : tasks w !! t = Some task -> w <| tasks ::= <[t := task]> |> = w.
Proof.
  intros Ht. apply world_stores_eq; [done|done|]. cbn. by apply insert_id.
Qed.

Lemma set_residual_run w t task h : tasks w !! t = Some task ->
  set_residual t h w = Ret (tt, w <| tasks ::= <[t := with_residual h task]> |>).
Proof.
  intros Ht. unfold set_residual, when, with_residual. destruct (truth _).
  - by rewrite (set_task_run w t task _ Ht).
  - by rewrite put_task_id.
Qed.

(** The library's callback of a SCSI command, on a status it knows. *)
Lemma scsi_callback_run w p t f pdu task st data : waiting w p t f pdu task ->
  known_status st = true ->
  call_callback p st data w =
  Ret (tt, w <| tasks ::= <[t := task <| status := st |>]> |>
             <| trace ::= fun tr => tr ++ [Ev_callback f st (Data_task t) (cbdata_private_data pdu)] |>).
Proof.
  intros [Hp Hcb Ht Hf Htask] Hst. unfold call_callback. run (get_pdu_run w p pdu Hp). rewrite Hcb.
  unfold iscsi_scsi_response_cb. run (get_pdu_run w p pdu Hp). rewrite Ht. cbn [deref].
  assert (Hret : forall k : nat -> IO unit, (mret t ≫= k) w = k t w) by done. rewrite Hret.
  rewrite Hst, Hf. by run (set_task_run w t task (fun task => task <| status := st |>) Htask).
Qed.

Lemma waiting_put w p t f pdu task task' : waiting w p t f pdu task ->
  waiting (w <| tasks ::= <[t := task']> |>) p t f pdu task'.
Proof. intros [Hp Hcb Ht Hf Htask]. split; try done. apply lookup_insert_eq. Qed.

Lemma waiting_ctx w p t f pdu task g : waiting w p t f pdu task ->
  waiting (w <| ctx ::= g |>) p t f pdu task.
Proof. by intros [Hp Hcb Ht Hf Htask]. Qed.

(** Setting an error string and calling back. *)
Lemma fail_run w p t f pdu task msg st data rc : waiting w p t f pdu task ->
  known_status st = true ->
  exists w', (_ ← iscsi_set_error msg; _ ← call_callback p st data; mret rc : IO Z) w
      = Ret (rc, w') /\
    trace w' = trace w ++ [Ev_callback f st (Data_task t) (cbdata_private_data pdu)] /\
    tasks w' !! t = Some (task <| status := st |>) /\ kept p w w'.
Proof.
  intros Hw Hst. set (w1 := w <| ctx ::= fun c => c <| error_string := msg |> |>).
  assert (E : iscsi_set_error msg w = Ret (tt, w1)) by done. run E.
  pose proof (scsi_callback_run w1 p t f pdu task st data (waiting_ctx _ _ _ _ _ _ _ Hw) Hst) as E2.
  run E2. eexists. split; [reflexivity|]. split; [done|]. split; [apply lookup_insert_eq|].
  apply kept_same; try done. destruct Hw as [Hp _ _ _ _]. by eexists.
Qed.

Lemma take_indata_run w p t f pdu task : waiting w p t f pdu task ->
  exists w', take_indata p t w = Ret (tt, w') /\ trace w' = trace w /\ kept p w w' /\
    waiting w' p t f (pdu <| indata := no_data |>) (task <| datain :=
      take (Z.to_nat (dsize (indata pdu))) (default [] (ddata (indata pdu))) |>).
Proof.
  intros Hw. pose proof Hw as [Hp Hcb Ht Hf Htask]. unfold take_indata.
  run (get_pdu_run w p pdu Hp). set (g := fun task : scsi_task => task <| datain := _ |>).
  run (set_task_run w t task g Htask).
  set (w1 := w <| tasks ::= <[t := g task]> |>).
  assert (E : exists w2, when (bool_decide (is_Some (ddata (indata pdu))))
      (set_ctx (fun c => c <| frees ::= Z.add 1 |>)) w1 = Ret (tt, w2) /\
      pdus w2 = pdus w /\ tasks w2 = <[t := g task]> (tasks w) /\ trace w2 = trace w /\ kept p w w2).
  { destruct (bool_decide _); (eexists; split; [reflexivity|]; do 3 (split; [done|]);
      apply kept_same; try done; by eexists). }
  destruct E as (w2 & E & P2 & T2 & R2 & (K1 & K2 & K3 & K4 & K5 & K6 & K7)). run E.
  assert (Hp2 : pdus w2 !! p = Some pdu) by by rewrite P2.
  rewrite (set_pdu_run w2 p pdu _ Hp2). eexists. split; [reflexivity|]. split; [done|]. split.
  { do 4 (split; [done|]). split; [eexists pdu, _; split; [done|]; by split; [apply lookup_insert_eq|]|].
    split; [|exact K7]. intros x Hx. cbn. rewrite lookup_insert_ne by done. by apply K6. }
  split; [apply lookup_insert_eq|done|done|done|]. cbn. rewrite T2. apply lookup_insert_eq.
Qed.

(** What a completed SCSI response of outcome [o] leaves in the task. *)
Definition reply_done (o : Z * Z) (w' : world) (t : nat) (task : scsi_task) (pdu : iscsi_pdu)
  (inp : iscsi_in_pdu) : Prop :=
  exists task', tasks w' !! t = Some task' /\ status task' = snd o /\
    (fst o = 0 ->
       residual task' = residual (with_residual (hdr inp) (no_residual task)) /\
       residual_status task' = residual_status (with_residual (hdr inp) (no_residual task))) /\
    (snd o = SCSI_STATUS_GOOD ->
       datain task' = take (Z.to_nat (dsize (indata pdu))) (default [] (ddata (indata pdu)))) /\
    (snd o = SCSI_STATUS_CHECK_CONDITION ->
       in_data inp = Some (datain task') /\
       scsi_parse_sense_data (sense task) (drop 2 (datain task')) = Ret (sense task')).

(** The sense data of a CHECK CONDITION can be stored and read. *)
Definition sense_received (w : world) (inp : iscsi_in_pdu) : Prop :=
  alloc_ok w (alloc_n w) = true /\
  exists d, in_data inp = Some d /\ data_pos inp = Z.of_nat (length d) /\ d <> [] /\
    sense_wf (drop 2 d).

Lemma with_residual_sense h task : sense (with_residual h task) = sense task.
Proof. unfold with_residual. by destruct (truth _). Qed.

Lemma check_condition_run w p t f pdu task inp : waiting w p t f pdu task -> sense_received w inp ->
  exists w' s d, reply_check_condition p t inp w = Ret (0, w') /\
    trace w' = trace w ++ [Ev_callback f SCSI_STATUS_CHECK_CONDITION (Data_task t)
                             (cbdata_private_data pdu)] /\
    tasks w' !! t = Some (task <| datain := d |> <| sense := s |>
                            <| status := SCSI_STATUS_CHECK_CONDITION |>) /\
    in_data inp = Some d /\ scsi_parse_sense_data (sense task) (drop 2 d) = Ret s /\ kept p w w'.
Proof.
  intros Hw [Hok (d & Hd & Hpos & Hne & Hwf)].
  destruct (sense_parse_ok (sense task) _ Hwf) as (s & Es & _).
  set (w0 := w <| alloc_n ::= S |>).
  assert (Em : malloc w = Ret (true, w0)).
  { unfold malloc, mbind, M_bind, getS, modify, mret, M_ret. by rewrite Hok. }
  unfold reply_check_condition. run Em. cbn [negb].
  assert (Ec : copy_in_data inp = Ret d).
  { unfold copy_in_data. rewrite Hd, Hpos. destruct d as [|b d]; [done|].
    destruct (Z.eqb_spec (Z.of_nat (length (b :: d))) 0) as [E|_]; [cbn in E; lia|].
    destruct (Z.ltb_spec (Z.of_nat (length (b :: d))) 0); [lia|].
    rewrite Z.ltb_irrefl. cbn [orb]. rewrite Nat2Z.id. by rewrite take_ge. }
  assert (El : lift (copy_in_data inp) w0 = Ret (d, w0)) by (unfold lift; by rewrite Ec). run El.
  assert (Hw0 : waiting w0 p t f pdu task) by by destruct Hw.
  run (set_task_run w0 t task (fun task => task <| datain := d |>) (wt_live _ _ _ _ _ _ Hw0)).
  set (w1 := w0 <| tasks ::= <[t := task <| datain := d |>]> |>).
  pose proof (waiting_put _ _ _ _ _ _ (task <| datain := d |>) Hw0) as Hw1. fold w1 in Hw1.
  assert (Eg : get_task t w1 = Ret (task <| datain := d |>, w1)).
  { unfold get_task, mbind, M_bind, getS. by rewrite (wt_live _ _ _ _ _ _ Hw1). }
  run Eg. change (sense (task <| datain := d |>)) with (sense task).
  assert (El2 : lift (scsi_parse_sense_data (sense task) (drop 2 d)) w1 = Ret (s, w1))
    by (unfold lift; by rewrite Es). run El2.
  run (set_task_run w1 t _ (fun task => task <| sense := s |>) (wt_live _ _ _ _ _ _ Hw1)).
  match goal with |- context [(iscsi_set_error ?m ≫= _) ?v] =>
    destruct (fail_run v p t f pdu (task <| datain := d |> <| sense := s |>) m
      SCSI_STATUS_CHECK_CONDITION (Data_task t) 0) as (w2 & E2 & R2 & T2 & K2) end.
  { exact (waiting_put _ _ _ _ _ _ _ Hw1). }
  { done. }
  exists w2, s, d. split; [exact E2|]. split; [exact R2|]. split; [exact T2|].
  split; [done|]. split; [done|]. apply (kept_trans p w w1); [|exact K2].
  apply kept_same; try done. destruct Hw as [Hp _ _ _ _]. by eexists.
Qed.

Lemma status_message_some st msg : status_message st = Some msg ->
  status_outcome st = (0, st) /\ known_status st = true /\ st <> SCSI_STATUS_GOOD.
Proof.
  unfold status_message. repeat match goal with |- context [st =? ?c] => destruct (Z.eqb_spec st c) as [->|];
    [intros _; repeat split; vm_compute; congruence|] end. intros [=].
Qed.

Lemma status_message_none st : status_message st = None -> st <> SCSI_STATUS_GOOD ->
  st <> SCSI_STATUS_CONDITION_MET -> st <> SCSI_STATUS_CHECK_CONDITION ->
  status_outcome st = (-1, SCSI_STATUS_ERROR).
Proof.
  unfold status_message, status_outcome. intros Hn H0 H4 H2.
  rewrite (proj2 (Z.eqb_neq _ _) H0), (proj2 (Z.eqb_neq _ _) H4). cbn [orb].
  rewrite bool_decide_false; [done|]. intros Hin. revert Hn.
  repeat match goal with |- context [st =? ?c] => destruct (Z.eqb_spec st c); [done|] end.
  rewrite !elem_of_cons in Hin. intros _.
  destruct Hin as [?|[?|[?|[?|[?|[?|Hin]]]]]]; try done. by apply not_elem_of_nil in Hin.
Qed.

(** The switch on the status, after the residual is set. *)
Lemma status_switch_run w p t f pdu task inp : waiting w p t f pdu task ->
  let o := status_outcome (byte_at (hdr inp) 3) in
  (snd o = SCSI_STATUS_CHECK_CONDITION -> sense_received w inp) ->
  exists w' task', reply_status_switch p t inp w = Ret (fst o, w') /\
    trace w' = trace w ++ [Ev_callback f (snd o) (Data_task t) (cbdata_private_data pdu)] /\
    tasks w' !! t = Some task' /\ Task.status task' = snd o /\
    residual task' = residual task /\ residual_status task' = residual_status task /\
    (snd o = SCSI_STATUS_GOOD ->
       datain task' = take (Z.to_nat (dsize (indata pdu))) (default [] (ddata (indata pdu)))) /\
    (snd o = SCSI_STATUS_CHECK_CONDITION ->
       in_data inp = Some (datain task') /\
       scsi_parse_sense_data (sense task) (drop 2 (datain task')) = Ret (sense task')) /\
    kept p w w'.
Proof.
  intros Hw o. unfold reply_status_switch. cbv zeta. unfold o. clear o.
  set (st := byte_at (hdr inp) 3). clearbody st.
  destruct ((st =? SCSI_STATUS_GOOD) || (st =? SCSI_STATUS_CONDITION_MET)) eqn:Eg.
  { assert (Eo : status_outcome st = (0, SCSI_STATUS_GOOD)) by (unfold status_outcome; by rewrite Eg).
    rewrite Eo. intros _.
    destruct (take_indata_run w p t f pdu task Hw) as (w1 & E1 & R1 & K1 & Hw1). run E1.
    run (scsi_callback_run w1 p t f _ _ SCSI_STATUS_GOOD (Data_task t) Hw1 eq_refl).
    eexists _, _. split; [reflexivity|]. split; [by cbn; rewrite R1|].
    split; [apply lookup_insert_eq|]. do 5 (split; [done|]). apply (kept_trans p w w1); [done|].
    apply kept_same; try done. destruct Hw1 as [Hp1 _ _ _ _]. by eexists. }
  apply orb_false_iff in Eg as [Eg Em]. apply Z.eqb_neq in Eg, Em.
  destruct (Z.eqb_spec st SCSI_STATUS_CHECK_CONDITION) as [->|Ec].
  { change (status_outcome SCSI_STATUS_CHECK_CONDITION) with (0, SCSI_STATUS_CHECK_CONDITION).
    cbn [fst snd]. intros Hs.
    destruct (check_condition_run w p t f pdu task inp Hw (Hs eq_refl))
      as (w' & s & d & E & R & T & Hd & Hp & K).
    eexists w', _. split; [exact E|]. split; [exact R|].
    split; [exact T|]. do 3 (split; [done|]). split; [done|]. by split; [intros _|]. }
  intros _. destruct (status_message st) as [msg|] eqn:Emsg.
  - destruct (status_message_some st msg Emsg) as (-> & Hk & Hg). cbn [fst snd].
    destruct (fail_run w p t f pdu task msg st (Data_task t) 0 Hw Hk) as (w' & E & R & T & K).
    eexists w', _. split; [exact E|]. split; [exact R|]. split; [exact T|]. by do 5 (split; [done|]).
  - rewrite (status_message_none st Emsg) by done. cbn [fst snd].
    destruct (fail_run w p t f pdu task "Unknown SCSI status :%d." SCSI_STATUS_ERROR (Data_task t)
      (-1) Hw eq_refl) as (w' & E & R & T & K).
    eexists w', _. split; [exact E|]. split; [exact R|]. split; [exact T|]. by do 5 (split; [done|]).
Qed.

Lemma scsi_reply_run (w : world) (p t f : nat) (pdu : iscsi_pdu) (task : scsi_task)
  (inp : iscsi_in_pdu) (Hw : waiting w p t f pdu task)
  (Hsense : snd (reply_outcome (hdr inp)) = SCSI_STATUS_CHECK_CONDITION -> sense_received w inp) :
  exists w', iscsi_process_scsi_reply p inp w = Ret (fst (reply_outcome (hdr inp)), w') /\
    trace w' = trace w ++ [Ev_callback f (snd (reply_outcome (hdr inp))) (Data_task t)
                             (cbdata_private_data pdu)] /\
    reply_done (reply_outcome (hdr inp)) w' t task pdu inp /\
    kept p w w'.
Proof.
  unfold iscsi_process_scsi_reply. run (get_pdu_run w p pdu (wt_pdu _ _ _ _ _ _ Hw)). cbv zeta.
  rewrite (wt_task _ _ _ _ _ _ Hw). cbn [task_data]. unfold reply_outcome in *.
  assert (Hfail : forall msg v task1, waiting v p t f pdu task1 -> trace v = trace w -> kept p w v ->
    exists w', (_ ← iscsi_set_error msg; _ ← call_callback p SCSI_STATUS_ERROR (Data_task t);
                mret (-1) : IO Z) v = Ret (-1, w') /\
      trace w' = trace w ++ [Ev_callback f SCSI_STATUS_ERROR (Data_task t) (cbdata_private_data pdu)] /\
      reply_done (-1, SCSI_STATUS_ERROR) w' t task pdu inp /\ kept p w w').
  { intros msg v task1 Hv Hr Hk.
    destruct (fail_run v p t f pdu task1 msg SCSI_STATUS_ERROR (Data_task t) (-1) Hv eq_refl)
      as (w' & E & R & T & K). exists w'. split; [exact E|]. split; [by rewrite R, Hr|].
    split; [eexists; split; [exact T|]; by repeat split|]. by apply (kept_trans p w v). }
  assert (Hk0 : kept p w w).
  { apply kept_same; try done. destruct Hw as [Hp _ _ _ _]. by eexists. }
  destruct (_ =? 0); cbn [orb fst snd].
  { edestruct Hfail as (w' & E & R & T); [exact Hw|done|exact Hk0|].
    by exists w'. }
  destruct (negb _); cbn [orb fst snd].
  { edestruct Hfail as (w' & E & R & T); [exact Hw|done|exact Hk0|].
    by exists w'. }
  assert (Hret : forall k : nat -> IO Z, (deref (Some t) ≫= k) w = k t w) by done. rewrite Hret.
  run (set_task_run w t task no_residual (wt_live _ _ _ _ _ _ Hw)).
  set (w1 := w <| tasks ::= <[t := no_residual task]> |>).
  pose proof (waiting_put _ _ _ _ _ _ (no_residual task) Hw) as Hw1. fold w1 in Hw1.
  assert (Hk1 : kept p w w1).
  { apply kept_same; try done. destruct Hw as [Hp _ _ _ _]. by eexists. }
  destruct (_ && negb _) eqn:Ebad; cbn [fst snd].
  { edestruct Hfail as (w' & E & R & T); [exact Hw1|done|exact Hk1|].
    by exists w'. }
  run (set_residual_run w1 t _ (hdr inp) (wt_live _ _ _ _ _ _ Hw1)).
  set (w2 := w1 <| tasks ::= <[t := with_residual (hdr inp) (no_residual task)]> |>).
  pose proof (waiting_put _ _ _ _ _ _ (with_residual (hdr inp) (no_residual task)) Hw1) as Hw2.
  fold w2 in Hw2.
  destruct (status_switch_run w2 p t f pdu _ inp Hw2 Hsense)
    as (w3 & task' & E & R & T & S & R1 & R2 & Hg & Hc & K).
  exists w3. split; [exact E|]. split; [exact R|].
  split; [|by apply (kept_trans p w w2)]. exists task'. split; [exact T|].
  split; [exact S|]. split; [by intros _|]. split; [exact Hg|].
  intros H2. destruct (Hc H2) as [Hd Hp]. split; [exact Hd|]. rewrite <- Hp.
  by rewrite with_residual_sense.
Qed.

(** Without memory for the sense data. *)
Lemma scsi_reply_no_memory (w : world) (p t f : nat) (pdu : iscsi_pdu) (task : scsi_task) (inp : iscsi_in_pdu) :
  waiting w p t f pdu task -> snd (reply_outcome (hdr inp)) = SCSI_STATUS_CHECK_CONDITION ->
  alloc_ok w (alloc_n w) = false ->
  exists w' task', iscsi_process_scsi_reply p inp w = Ret (0, w') /\ trace w' = trace w /\
    tasks w' !! t = Some task' /\ status task' = status task /\ kept p w w'.
Proof.
  intros Hw Hc Hno. unfold reply_outcome in Hc. unfold iscsi_process_scsi_reply.
  run (get_pdu_run w p pdu (wt_pdu _ _ _ _ _ _ Hw)). cbv zeta. rewrite (wt_task _ _ _ _ _ _ Hw).
  destruct (_ =? 0); cbn [orb snd] in *; [done|]. destruct (negb _); cbn [orb snd] in *; [done|].
  assert (Hret : forall k : nat -> IO Z, (deref (Some t) ≫= k) w = k t w) by done. rewrite Hret.
  run (set_task_run w t task no_residual (wt_live _ _ _ _ _ _ Hw)).
  set (w1 := w <| tasks ::= <[t := no_residual task]> |>).
  pose proof (waiting_put _ _ _ _ _ _ (no_residual task) Hw) as Hw1. fold w1 in Hw1.
  destruct (_ && negb _); cbn [snd] in Hc; [done|].
  run (set_residual_run w1 t _ (hdr inp) (wt_live _ _ _ _ _ _ Hw1)).
  set (task2 := with_residual (hdr inp) (no_residual task)). set (w2 := w1 <| tasks ::= <[t := task2]> |>).
  pose proof (waiting_put _ _ _ _ _ _ task2 Hw1) as Hw2. fold w2 in Hw2.
  assert (Est : byte_at (hdr inp) 3 = SCSI_STATUS_CHECK_CONDITION).
  { revert Hc. unfold status_outcome. destruct (_ || _); [done|]. by destruct (bool_decide _). }
  assert (Esw : reply_status_switch p t inp = reply_check_condition p t inp)
    by (unfold reply_status_switch; by rewrite Est).
  rewrite Esw. set (w3 := w2 <| alloc_n ::= S |>).
  assert (Em : malloc w2 = Ret (false, w3)).
  { unfold malloc, mbind, M_bind, getS, modify, mret, M_ret. change (alloc_ok w2 (alloc_n w2)) with (alloc_ok w (alloc_n w)). by rewrite Hno. }
  unfold reply_check_condition. run Em. cbn [negb].
  run (set_task_run w3 t task2 (fun task => task <| datain := [] |>) (wt_live _ _ _ _ _ _ Hw2)).
  eexists _, _. split; [reflexivity|]. split; [done|]. split; [apply lookup_insert_eq|]. split.
  - unfold task2, with_residual. by destruct (truth _).
  - apply kept_same; try done. destruct Hw as [Hp _ _ _ _]. by eexists.
Qed.

(** C15: What processing a SCSI Response does, for all flags, response codes and
    statuses: the command's callback is called exactly once and with the documented
    status - protocol violations and unknown statuses become SCSI_STATUS_ERROR and
    return -1, GOOD and CONDITION MET hand over the received data as GOOD, CHECK
    CONDITION the parsed sense data - and the residual count is recorded. CHECK
    CONDITION needs memory and a segment with complete sense data for this; when the
    memory is missing, the function returns 0, the task keeps its status and the
    callback is not called. *)
Theorem scsi_reply_completes_once (w : world) (p t f : nat) (pdu : iscsi_pdu) (task : scsi_task)
  (inp : iscsi_in_pdu) (Hw : waiting w p t f pdu task) :
  let o := reply_outcome (hdr inp) in
  ((snd o = SCSI_STATUS_CHECK_CONDITION -> sense_received w inp) ->
   exists w', iscsi_process_scsi_reply p inp w = Ret (fst o, w') /\
     trace w' = trace w ++ [Ev_callback f (snd o) (Data_task t) (cbdata_private_data pdu)] /\
     reply_done o w' t task pdu inp) /\
  (snd o = SCSI_STATUS_CHECK_CONDITION -> alloc_ok w (alloc_n w) = false ->
   exists w' task', iscsi_process_scsi_reply p inp w = Ret (0, w') /\ trace w' = trace w /\
     tasks w' !! t = Some task' /\ status task' = status task).
Proof.
  intros o. split.
  - intros Hsense. destruct (scsi_reply_run w p t f pdu task inp Hw Hsense) as (w' & E & R & D & _). by exists w'.
  - intros Hc Hno. destruct (scsi_reply_no_memory w p t f pdu task inp Hw Hc Hno) as (w' & task' & E & R & T & S & _).
    by exists w', task'.
Qed.

(** Command 7 of task 10 waits as PDU 1. *)
Definition sample_waiting : world :=
  sample_world
    <| pdus := {[ 1%nat := (sample_pdu ISCSI_PDU_SCSI_REQUEST 4)
         <| pdu_callback := Some Cb_scsi_response |> <| cbdata_task := Some 10%nat |>
         <| cbdata_callback := Some 7%nat |> <| cbdata_private_data := 99 |>
         <| response_opcode := ISCSI_PDU_SCSI_RESPONSE |> ]} |>
    <| tasks := {[ 10%nat := new_task ]} |> <| ctx ::= fun c => c <| waitpdu := [1%nat] |> |>.

Definition sample_response (flags response status residual : Z) (d : bytes) : iscsi_in_pdu :=
  {| hdr_pos := 48; hdr := scsi_set_uint32 (<[3%nat := status]> (<[2%nat := response]>
       (<[1%nat := flags]> (<[0%nat := ISCSI_PDU_SCSI_RESPONSE]> (zeros 48))))) 44 residual;
     data_pos := Z.of_nat (length d); in_data := Some d;
     data_digest_buf := []; received_data_digest_bytes := 0; in_calculated_data_digest := 0 |}.

Lemma scsi_reply_completes_once_witness :
  exists w' task', iscsi_process_scsi_reply 1 (sample_response 0x82 0 8 512 []) sample_waiting
      = Ret (0, w') /\
    trace w' = [Ev_callback 7 SCSI_STATUS_BUSY (Data_task 10) 99] /\
    tasks w' !! 10%nat = Some task' /\ residual task' = 512.
Proof.
  destruct (scsi_reply_completes_once sample_waiting 1 10 7
    (default zero_pdu (pdus sample_waiting !! 1%nat)) new_task (sample_response 0x82 0 8 512 [])) as [H _];
    [by split|].
  destruct H as (w' & E & R & task' & T & _ & Hr & _).
  - intros H. vm_compute in H. discriminate.
  - exists w', task'. split; [exact E|]. split; [exact R|]. split; [exact T|].
    destruct (Hr eq_refl) as [Hres _]. rewrite Hres. reflexivity.
Defined.

(** ** Data-In PDUs *)

(** Any status; the one passed on is [passed_status st]. *)
Lemma scsi_callback_any w p t f pdu task st data : waiting w p t f pdu task ->
  exists w', call_callback p st data w = Ret (tt, w') /\
    trace w' = trace w ++ [Ev_callback f (passed_status st) (Data_task t) (cbdata_private_data pdu)] /\
    tasks w' !! t = Some (task <| status := passed_status st |>).
Proof.
  intros Hw. unfold passed_status. destruct (known_status st) eqn:Hst.
  { eexists. split; [by apply (scsi_callback_run w p t f pdu task)|]. split; [done|].
    apply lookup_insert_eq. }
  pose proof Hw as [Hp Hcb Ht Hf Htask]. unfold call_callback. run (get_pdu_run w p pdu Hp).
  rewrite Hcb. unfold iscsi_scsi_response_cb. run (get_pdu_run w p pdu Hp). rewrite Ht. cbn [deref].
  assert (Hret : forall k : nat -> IO unit, (mret t ≫= k) w = k t w) by done. rewrite Hret.
  rewrite Hst, Hf. run (set_task_run w t task (fun task => task <| status := SCSI_STATUS_ERROR |>) Htask).
  eexists. split; [reflexivity|]. split; [done|]. apply lookup_insert_eq.
Qed.

(** The data segment a Data-In PDU carries. *)
Definition data_segment (inp : iscsi_in_pdu) : bytes :=
  take (Z.to_nat (scsi_get_uint32 (hdr inp) 4 &&& 0x00ffffff)) (default [] (in_data inp)).

(** Its length is the one the header announces, and not 0. *)
Definition has_segment (inp : iscsi_in_pdu) : Prop :=
  0 < scsi_get_uint32 (hdr inp) 4 &&& 0x00ffffff <= Z.of_nat (length (default [] (in_data inp))).

Definition no_ack (inp : iscsi_in_pdu) : Prop := byte_at (hdr inp) 1 &&& ISCSI_PDU_DATA_ACK_REQUESTED = 0.

(** The F and S bits, which end the command together. *)
Definition last_data_in (inp : iscsi_in_pdu) : bool :=
  negb (byte_at (hdr inp) 1 &&& ISCSI_PDU_DATA_FINAL =? 0) &&
  negb (byte_at (hdr inp) 1 &&& ISCSI_PDU_DATA_CONTAINS_STATUS =? 0).

(** The buffer of a PDU holds [acc]. *)
Definition holds (d : iscsi_data) (acc : bytes) : Prop :=
  dsize d = Z.of_nat (length acc) /\ (acc <> [] -> ddata d = Some acc).

(** Every allocation succeeds. *)
Definition memory (w : world) : Prop := forall n, alloc_ok w n = true.

Lemma malloc_any_run (m : IO bool) w : memory w -> m = iscsi_malloc \/ m = iscsi_realloc ->
  exists w', m w = Ret (true, w') /\ memory w' /\ pdus w' = pdus w /\ tasks w' = tasks w /\
    trace w' = trace w.
Proof.
  intros Hm [-> | ->]; unfold iscsi_malloc, iscsi_realloc, malloc, when, set_ctx, mbind, M_bind,
    getS, modify, mret, M_ret; rewrite Hm; by eexists.
Qed.

Lemma append_run w d acc src n : memory w -> holds d acc -> 0 < n <= Z.of_nat (length src) ->
  Z.of_nat (length acc) + n < 2 ^ 32 ->
  exists w' d', iscsi_add_data d src n false w = Ret ((0, d'), w') /\
    holds d' (acc ++ take (Z.to_nat n) src) /\ memory w' /\ pdus w' = pdus w /\
    tasks w' = tasks w /\ trace w' = trace w.
Proof.
  intros Hm [Hd Hacc] Hn Hmax. unfold iscsi_add_data. rewrite (proj2 (Z.eqb_neq n 0)) by lia.
  cbv zeta. rewrite Hd, u64_small by lia.
  set (alloc := if Z.of_nat (length acc) =? 0 then iscsi_malloc else iscsi_realloc).
  destruct (malloc_any_run alloc w) as (w' & E & Hm' & P & T & R); [done|unfold alloc; destruct (_ =? _); auto|].
  run E. cbn [negb].
  rewrite (proj2 (Z.ltb_ge n 0)), (proj2 (Z.ltb_ge (Z.of_nat (length src)) n)), Z.ltb_irrefl by lia.
  cbn [orb]. rewrite Z.eqb_refl.
  eexists w', _. split; [reflexivity|]. split; [|done]. split.
  - cbn [dsize]. rewrite length_app, length_take. lia.
  - intros _. cbn [ddata]. f_equal.
    assert (Hold : (if Z.of_nat (length acc) =? 0 then [] else default [] (ddata d)) = acc).
    { destruct acc as [|b acc]; [done|]. rewrite Hacc by done. done. }
    rewrite Hold, Nat2Z.id.
    replace (Z.to_nat (Z.of_nat (length acc) + n)) with (length acc + Z.to_nat n)%nat by lia.
    rewrite take_app, take_ge by lia. unfold zeros. rewrite take_replicate.
    replace (Nat.min (length acc + Z.to_nat n - length acc) (length acc + Z.to_nat n))
      with (Z.to_nat n) by lia.
    rewrite blit_prefix by (rewrite length_take, length_replicate; lia).
    rewrite length_take, Nat.min_l by lia. rewrite drop_ge by (rewrite length_replicate; lia).
    by rewrite app_nil_r.
Qed.

(** The command of [pdu] expects its data in the buffer of the PDU. *)
Definition receiving (w : world) (p t f : nat) (pdu : iscsi_pdu) (task : scsi_task) (acc : bytes)
  : Prop := waiting w p t f pdu task /\ iov (iovector_in task) = None /\ memory w /\
            holds (indata pdu) acc.

(** The buffering that precedes the look at the F and S bits. *)
Lemma data_in_buffer w p t f pdu task acc inp : receiving w p t f pdu task acc ->
  has_segment inp -> no_ack inp -> Z.of_nat (length acc + length (data_segment inp)) < 2 ^ 32 ->
  exists w1 d, receiving w1 p t f (pdu <| indata := d |>) task (acc ++ data_segment inp) /\
    trace w1 = trace w /\
    iscsi_process_scsi_data_in p inp w =
    (if negb (last_data_in inp) then mret (0, false) else
     _ ← set_task t no_residual;
     _ ← set_residual t (hdr inp);
     _ ← take_indata p t;
     _ ← call_callback p (byte_at (hdr inp) 3) (Data_task t);
     mret (0, true)) w1.
Proof.
  intros (Hw & Hiov & Hm & Hacc) Hseg Hack Hlen. pose proof Hw as [Hp Hcb Ht Hf Htask].
  set (n := scsi_get_uint32 (hdr inp) 4 &&& 0x00ffffff). unfold has_segment in Hseg. fold n in Hseg.
  destruct (append_run w (indata pdu) acc (default [] (in_data inp)) n) as (w0 & d & E & Hd & Hm0 & P0 & T0 & R0);
    [done|done|done| |].
  { unfold data_segment in Hlen. fold n in Hlen. rewrite length_take in Hlen. lia. }
  set (w1 := w0 <| pdus ::= <[p := pdu <| indata := d |>]> |>).
  exists w1, d. split; [|split; [done|]].
  - split; [|done]. split; [apply lookup_insert_eq|done..|]. change (tasks w0 !! t = Some task). by rewrite T0.
  - unfold iscsi_process_scsi_data_in. run (get_pdu_run w p pdu Hp). cbv zeta. rewrite Ht.
    unfold no_ack in Hack. rewrite Hack. cbn [Z.eqb negb].
    assert (Hret : forall k : nat -> IO (Z * bool), (deref (Some t) ≫= k) w = k t w) by done. rewrite Hret.
    assert (Eg : get_task t w = Ret (task, w)).
    { unfold get_task, mbind, M_bind, getS. by rewrite Htask. }
    run Eg. rewrite Hiov.
    assert (Eb : ('(rc, d) ← iscsi_add_data (indata pdu) (default [] (in_data inp)) n false;
                  _ ← set_pdu p (fun pdu => pdu <| indata := d |>); mret (rc =? 0)) w = Ret (true, w1)).
    { run E. assert (Hp0 : pdus w0 !! p = Some pdu) by by rewrite P0.
      run (set_pdu_run w0 p pdu (fun pdu => pdu <| indata := d |>) Hp0). done. }
    run Eb. cbn [negb]. unfold last_data_in. rewrite negb_andb, !negb_involutive.
    by destruct (_ || _).
Qed.

Lemma data_in_step w p t f pdu task acc inp : receiving w p t f pdu task acc ->
  has_segment inp -> no_ack inp -> Z.of_nat (length acc + length (data_segment inp)) < 2 ^ 32 ->
  last_data_in inp = false ->
  exists w1 d, iscsi_process_scsi_data_in p inp w = Ret ((0, false), w1) /\
    receiving w1 p t f (pdu <| indata := d |>) task (acc ++ data_segment inp) /\ trace w1 = trace w.
Proof.
  intros Hr Hseg Hack Hlen Hlast.
  destruct (data_in_buffer w p t f pdu task acc inp Hr Hseg Hack Hlen) as (w1 & d & H1 & R1 & E).
  exists w1, d. rewrite E, Hlast. done.
Qed.

Lemma data_in_last w p t f pdu task acc inp : receiving w p t f pdu task acc ->
  has_segment inp -> no_ack inp -> Z.of_nat (length acc + length (data_segment inp)) < 2 ^ 32 ->
  last_data_in inp = true ->
  exists w' task', iscsi_process_scsi_data_in p inp w = Ret ((0, true), w') /\
    trace w' = trace w ++ [Ev_callback f (passed_status (byte_at (hdr inp) 3)) (Data_task t)
                             (cbdata_private_data pdu)] /\
    tasks w' !! t = Some task' /\ datain task' = acc ++ data_segment inp /\
    Task.status task' = passed_status (byte_at (hdr inp) 3) /\
    residual task' = residual (with_residual (hdr inp) (no_residual task)) /\
    residual_status task' = residual_status (with_residual (hdr inp) (no_residual task)).
Proof.
  intros Hr Hseg Hack Hlen Hlast.
  destruct (data_in_buffer w p t f pdu task acc inp Hr Hseg Hack Hlen)
    as (w1 & d & (Hw1 & _ & _ & Hd & Hd') & R1 & E).
  rewrite E, Hlast. cbn [negb].
  run (set_task_run w1 t task no_residual (wt_live _ _ _ _ _ _ Hw1)).
  pose proof (waiting_put _ _ _ _ _ _ (no_residual task) Hw1) as Hw2.
  match goal with |- context [(set_residual _ _ ≫= _) ?v] => set (w2 := v) in * end.
  run (set_residual_run w2 t _ (hdr inp) (wt_live _ _ _ _ _ _ Hw2)).
  pose proof (waiting_put _ _ _ _ _ _ (with_residual (hdr inp) (no_residual task)) Hw2) as Hw3.
  match goal with |- context [(take_indata _ _ ≫= _) ?v] => set (w3 := v) in * end.
  destruct (take_indata_run w3 p t f _ _ Hw3) as (w4 & E4 & R4 & _ & Hw4). run E4.
  destruct (scsi_callback_any w4 p t f _ _ (byte_at (hdr inp) 3) (Data_task t) Hw4) as (w5 & E5 & R5 & T5).
  run E5. eexists w5, _. split; [reflexivity|].
  split; [rewrite R5, R4; change (trace w3) with (trace w1); by rewrite R1|]. split; [exact T5|].
  split; [|done]. cbn. change (take (Z.to_nat (dsize d)) (default [] (ddata d)) = acc ++ data_segment inp).
  cbn in Hd, Hd'. rewrite Hd, Nat2Z.id. rewrite Hd'; [by rewrite take_ge by done|].
  unfold has_segment in Hseg. unfold data_segment. intros E0. apply app_eq_nil in E0 as [_ E0].
  apply (f_equal length) in E0. rewrite length_take in E0. cbn in E0. lia.
Qed.

(** The Data-In PDUs of a command, in the order received. *)
Fixpoint process_data_ins (p : nat) (inps : list iscsi_in_pdu) : IO (Z * bool) :=
  match inps with
  | [] => mret (0, false)
  | inp :: inps =>
      '(rc, finished) ← iscsi_process_scsi_data_in p inp;
      if negb (rc =? 0) || finished then mret (rc, finished) else process_data_ins p inps
  end.

Definition segments (inps : list iscsi_in_pdu) : bytes := concat (map data_segment inps).

Lemma data_ins_run inps last : forall w p t f pdu task acc, receiving w p t f pdu task acc ->
  Forall (fun i => has_segment i /\ no_ack i /\ last_data_in i = false) inps ->
  has_segment last -> no_ack last -> last_data_in last = true ->
  Z.of_nat (length acc + length (segments (inps ++ [last]))) < 2 ^ 32 ->
  exists w' task', process_data_ins p (inps ++ [last]) w = Ret ((0, true), w') /\
    trace w' = trace w ++ [Ev_callback f (passed_status (byte_at (hdr last) 3)) (Data_task t)
                             (cbdata_private_data pdu)] /\
    tasks w' !! t = Some task' /\ datain task' = acc ++ segments (inps ++ [last]) /\
    Task.status task' = passed_status (byte_at (hdr last) 3) /\
    residual task' = residual (with_residual (hdr last) (no_residual task)) /\
    residual_status task' = residual_status (with_residual (hdr last) (no_residual task)).
Proof.
  induction inps as [|i inps IH]; intros w p t f pdu task acc Hr Hi Hs Ha Hl Hlen.
  - cbn [app process_data_ins]. unfold segments in *. cbn in Hlen |- *. rewrite app_nil_r in *.
    destruct (data_in_last w p t f pdu task acc last Hr Hs Ha Hlen Hl) as (w' & task' & E & H).
    run E. by exists w', task'.
  - apply Forall_cons in Hi as [(Hs1 & Ha1 & Hl1) Hi]. unfold segments in *. cbn in Hlen.
    rewrite length_app in Hlen.
    destruct (data_in_step w p t f pdu task acc i Hr Hs1 Ha1) as (w1 & d & E & Hr1 & R1); [lia|done|].
    destruct (IH w1 p t f _ task (acc ++ data_segment i) Hr1 Hi Hs Ha Hl)
      as (w' & task' & E' & R' & T' & D' & H'); [rewrite length_app; lia|].
    exists w', task'. cbn [app process_data_ins]. run E. cbn [Z.eqb negb orb].
    split; [exact E'|]. split; [by rewrite R', R1|]. split; [exact T'|].
    split; [|exact H']. cbn. by rewrite D', <- app_assoc.
Qed.

(** C14: A sequence of Data-In PDUs with data, of which only the last has both the F and
    the S bit, delivers to the command's callback, exactly once, the status of the last
    PDU and a buffer that is the concatenation of all data segments, with the residual
    count of the last PDU. *)
Theorem data_in_reassembles (w : world) (p t f : nat) (pdu : iscsi_pdu) (task : scsi_task)
  (front : list iscsi_in_pdu) (last : iscsi_in_pdu)
  (Hr : receiving w p t f pdu task [])
  (Hfront : Forall (fun i => has_segment i /\ no_ack i /\ last_data_in i = false) front)
  (Hseg : has_segment last) (Hack : no_ack last) (Hlast : last_data_in last = true)
  (Hlen : Z.of_nat (length (segments (front ++ [last]))) < 2 ^ 32) :
  exists w' task', process_data_ins p (front ++ [last]) w = Ret ((0, true), w') /\
    trace w' = trace w ++ [Ev_callback f (passed_status (byte_at (hdr last) 3)) (Data_task t)
                             (cbdata_private_data pdu)] /\
    tasks w' !! t = Some task' /\ datain task' = segments (front ++ [last]) /\
    Task.status task' = passed_status (byte_at (hdr last) 3) /\
    residual task' = residual (with_residual (hdr last) (no_residual task)) /\
    residual_status task' = residual_status (with_residual (hdr last) (no_residual task)).
Proof. by apply (data_ins_run front last w p t f pdu task []). Qed.

Definition sample_data_in (flags : Z) (d : bytes) : iscsi_in_pdu :=
  {| hdr_pos := 48; hdr := scsi_set_uint32 (<[1%nat := flags]> (<[0%nat := ISCSI_PDU_DATA_IN]> (zeros 48))) 4
              (Z.of_nat (length d));
     data_pos := Z.of_nat (length d); in_data := Some d;
     data_digest_buf := []; received_data_digest_bytes := 0; in_calculated_data_digest := 0 |}.

Lemma data_in_reassembles_witness :
  exists w' task', process_data_ins 1 [sample_data_in 0 [1; 2; 3]; sample_data_in 0x81 [4; 5]]
      sample_waiting = Ret ((0, true), w') /\
    tasks w' !! 10%nat = Some task' /\ datain task' = [1; 2; 3; 4; 5].
Proof.
  destruct (data_in_reassembles sample_waiting 1 10 7 (default zero_pdu (pdus sample_waiting !! 1%nat))
    new_task [sample_data_in 0 [1; 2; 3]] (sample_data_in 0x81 [4; 5]))
    as (w' & task' & E & _ & T & D & _).
  - split; [by split|]. split; [reflexivity|]. split; [done|]. by split.
  - repeat constructor; vm_compute; congruence.
  - split; vm_compute; congruence.
  - reflexivity.
  - reflexivity.
  - reflexivity.
  - exists w', task'. split; [exact E|]. split; [exact T|exact D].
Defined.

(** ** Data-Out trains *)

(** The header of a DATA-OUT PDU for the command [c]. *)
Definition data_out_hdr (digest : Z) (c : iscsi_pdu) (ttt offset len : Z) (final : bool) : bytes :=
  let h := <[0%nat := u8 ISCSI_PDU_DATA_OUT]> (zeros (Z.to_nat (ISCSI_HEADER_SIZE digest))) in
  let h := scsi_set_uint32 h 16 (pdu_itt c) in
  let h := <[1%nat := u8 (if final then ISCSI_PDU_SCSI_FINAL else 0)]> h in
  let h := scsi_set_uint16 h 8 (pdu_lun c) in
  let h := scsi_set_uint32 h 20 ttt in
  let h := scsi_set_uint32 h 36 (pdu_datasn c) in
  let h := scsi_set_uint32 h 40 offset in
  scsi_set_uint32 h 4 len.

Definition data_out_pdu (digest : Z) (c : iscsi_pdu) (ttt offset len : Z) (final : bool)
  : iscsi_pdu :=
  (blank_pdu digest ISCSI_PDU_DATA_OUT ISCSI_PDU_NO_PDU (pdu_itt c)
    (ISCSI_PDU_DROP_ON_RECONNECT ||| ISCSI_PDU_DELETE_WHEN_SENT))
    <| outdata := Build_iscsi_data (ISCSI_HEADER_SIZE digest)
         (Some (data_out_hdr digest c ttt offset len final)) |>
    <| cbdata_task := cbdata_task c |> <| pdu_cmdsn := pdu_cmdsn c |>
    <| payload_offset := offset |> <| payload_len := len |>.

(** The command after [n] DATA-OUT PDUs. *)
Definition counted (n : Z) (c : iscsi_pdu) : iscsi_pdu := c <| pdu_datasn := u32 (pdu_datasn c + n) |>.

Lemma set_other_run w p q a b f : p <> q -> pdus w !! q = Some b ->
  set_pdu q f (put w p a) = Ret (tt, put (put w q (f b)) p a).
Proof.
  intros Hne Hq. rewrite (set_pdu_run _ q b) by (by rewrite put_lookup_ne).
  f_equal. f_equal. symmetry. by apply put_swap.
Qed.

Section DataOut.
Context `{Transport}.

(** Nothing is sent inside the calls below: a service thread does it, or the
    socket takes nothing. *)
Definition quiet (w : world) : Prop :=
  have_mt w && have_pthread w && multithreading_enabled (ctx w) = true \/
  forall v, exists r, service POLLOUT v = Ret (r, v).

Definition wakeups (w w' : world) : Prop :=
  exists evs, trace w' = trace w ++ evs /\ Forall (.= Ev_wakeup) evs.

Lemma notify_run w p cur : quiet w -> exists w', outqueue_notify p cur w = Ret (tt, w') /\
  wakeups w w' /\ w' = w <| trace := trace w' |>.
Proof.
  intros Hq. unfold outqueue_notify.
  assert (Hget : forall k : world -> IO unit, (getS ≫= k) w = k w w) by done. rewrite Hget. cbv zeta.
  assert (Hid : wakeups w w /\ w = w <| trace := trace w |>).
  { split; [exists []; by rewrite app_nil_r|]. by destruct w. }
  destruct Hq as [-> | Hs].
  - unfold when. destruct (_ && _); [|by exists w]. eexists. split; [reflexivity|].
    split; [|done]. exists [Ev_wakeup]. split; [done|]. by constructor.
  - destruct (Hs w) as [r E]. unfold when. destruct (have_mt w && _ && _); destruct (bool_decide _);
      cbn [andb]; try (by exists w).
    + destruct (bool_decide _); [|by exists w]. eexists. split; [reflexivity|]. split; [|done].
      exists [Ev_wakeup]. split; [done|]. by constructor.
    + run E. by exists w.
Qed.

Lemma insert_before_ext_in (f g : nat -> bool) p q : Forall (fun x => f x = g x) q ->
  insert_before f p q = insert_before g p q.
Proof.
  induction 1 as [|x q E _ IH]; [done|]. cbn. by rewrite E, IH.
Qed.

(** Names in use are below [fresh]. *)
Definition names_ok (w : world) : Prop := forall x, is_Some (pdus w !! x) -> (x < fresh w)%nat.

Record ready (w : world) : Prop := {
  rd_lock : unlocked w;
  rd_quiet : quiet w;
  rd_mem : memory w;
  rd_names : names_ok w;
  rd_queue : Forall (live w) (outqueue (ctx w))
}.

(** Everything but the stores, the outqueue and the counters is that of [w]. *)
Definition same_env (w w' : world) (q : list nat) : Prop :=
  (exists m, ctx w' = (ctx w) <| mallocs := m |> <| outqueue := q |>) /\
  tasks w' = tasks w /\ alloc_ok w' = alloc_ok w /\ now w' = now w /\
  have_mt w' = have_mt w /\ have_pthread w' = have_pthread w /\ connects w' = connects w /\ wakeups w w'.

(** [x] is behind a PDU with the CmdSN [sn]. *)
Definition later (w : world) (sn : Z) (x : nat) : bool :=
  iscsi_serial32_compare sn (pdu_cmdsn (the_pdu w x)) <? 0.

Lemma queue_new_run w p a : unlocked w -> quiet w -> pdus w !! p = None ->
  Forall (live w) (outqueue (ctx w)) -> is_Some (ddata (outdata a)) ->
  is_immediate (default [] (ddata (outdata a))) = false ->
  exists w', iscsi_queue_pdu p (put w p a) = Ret (tt, w') /\
    pdus w' = <[p := stamped w a]> (pdus w) /\ fresh w' = fresh w /\
    same_env w w' (insert_before (later w (pdu_cmdsn a)) p (outqueue (ctx w))).
Proof.
  intros Hl Hqt Hp Hq [b Hb] Hi. unfold iscsi_queue_pdu, iscsi_tcp_queue_pdu.
  assert (Hne : forall x, x ∈ outqueue (ctx w) -> x <> p).
  { intros x Hx ->. rewrite Forall_forall in Hq. destruct (Hq p Hx) as (? & ? & H1 & _). congruence. }
  destruct (add_to_outqueue_run (put w p a) p a) as [cur E].
  - done.
  - apply put_lookup.
  - exists a, b. split; [apply put_lookup|done].
  - rewrite Forall_forall in Hq |- *. intros x Hx. destruct (Hq x Hx) as (px & bx & H1 & H2).
    exists px, bx. by rewrite put_lookup_ne by (by apply Hne).
  - unfold the_hdr, the_pdu. by rewrite put_lookup.
  - rewrite E. change (outqueue (ctx (put w p a))) with (outqueue (ctx w)).
    rewrite (insert_before_ext_in _ (later w (pdu_cmdsn a))).
    2: { apply Forall_forall. intros x Hx. unfold goes_before, later, the_hdr, the_pdu.
         rewrite put_lookup, put_lookup_ne by (by apply Hne). cbn [default from_option id].
         rewrite Hi. apply orb_false_r. }
    set (v := enqueued _ _ _ _).
    destruct (notify_run v p cur Hqt) as (w' & E' & Hwk & Ew). exists w'. rewrite E', Ew.
    split; [done|]. split; [apply insert_insert_eq|]. split; [done|].
    split; [by exists (mallocs (ctx w))|]. do 6 (split; [done|]). exact Hwk.
Qed.

Lemma data_out_not_immediate digest c ttt offset len final :
  is_immediate (data_out_hdr digest c ttt offset len final) = false.
Proof.
  unfold is_immediate, data_out_hdr. cbv zeta.
  rewrite !byte_at_set32_ne, byte_at_set16_ne, byte_at_insert_ne,
    byte_at_set32_ne by lia.
  rewrite byte_at_insert_eq; [done|]. rewrite length_zeros. unfold ISCSI_HEADER_SIZE.
  destruct (_ =? _); vm_compute; lia.
Qed.

Lemma send_one_run w cmd c ttt offset tot len : ready w -> pdus w !! cmd = Some c ->
  exists w', send_one_data_out cmd ttt offset tot len w = Ret (true, w') /\
    pdus w' = <[fresh w := stamped w (data_out_pdu (header_digest (ctx w)) c ttt offset len (tot =? len))]>
                (<[cmd := counted 1 c]> (pdus w)) /\
    fresh w' = S (fresh w) /\
    same_env w w' (insert_before (later w (pdu_cmdsn c)) (fresh w) (outqueue (ctx w))).
Proof.
  intros [Hl Hqt Hm Hn Hq] Hc. set (p := fresh w). set (d := header_digest (ctx w)).
  assert (Hp : pdus w !! p = None).
  { apply eq_None_not_Some. intros Hs. apply Hn in Hs. unfold p in Hs. lia. }
  assert (Hpc : p <> cmd) by (intros E; rewrite E in Hp; congruence).
  unfold send_one_data_out. run (get_pdu_run w cmd c Hc).
  run (allocate_pdu_run w ISCSI_PDU_DATA_OUT ISCSI_PDU_NO_PDU (pdu_itt c)
    (ISCSI_PDU_DROP_ON_RECONNECT ||| ISCSI_PDU_DELETE_WHEN_SENT) (Hm _) (Hm _) ltac:(done)).
  fold p d. set (v := allocated w). set (a0 := blank_pdu _ _ _ _ _).
  run (set_put_run v p a0 (fun pdu => pdu <| cbdata_task := cbdata_task c |>
            <| pdu_cmdsn := pdu_cmdsn c |>)). cbv zeta.
  unfold iscsi_pdu_set_pduflags, iscsi_pdu_set_lun, iscsi_pdu_set_ttt, iscsi_pdu_set_datasn,
    iscsi_pdu_set_bufferoffset.
  do 4 match goal with |- exists w', (set_hdr _ ?f ≫= _) (put _ _ ?a) = _ /\ _ =>
         run (hdr_put_run v p a f _ eq_refl) end.
  match goal with |- exists w', (set_pdu _ ?f ≫= _) (put _ _ ?a) = _ /\ _ =>
    run (set_other_run v p cmd a c f Hpc Hc) end.
  set (v1 := put v cmd (counted 1 c)).
  match goal with |- exists w', (_ ≫= _) (put ?x _ _) = _ /\ _ => change x with v1 end.
  match goal with |- exists w', (set_hdr _ ?f ≫= _) (put _ _ ?a) = _ /\ _ =>
           run (hdr_put_run v1 p a f _ eq_refl) end.
  match goal with |- exists w', (set_pdu _ ?f ≫= _) (put _ _ ?a) = _ /\ _ =>
    run (set_put_run v1 p a f) end.
  match goal with |- exists w', (set_hdr _ ?f ≫= _) (put _ _ ?a) = _ /\ _ =>
           run (hdr_put_run v1 p a f _ eq_refl) end.
  set (a := data_out_pdu d c ttt offset len (tot =? len)).
  match goal with |- exists w', (_ ≫= _) (put _ _ ?x) = _ /\ _ => change x with a end.
  assert (Hcmd : forall x, pdu_cmdsn (the_pdu v1 x) = pdu_cmdsn (the_pdu w x)).
  { intros x. unfold the_pdu, v1. destruct (decide (x = cmd)) as [->|Hne].
    - rewrite put_lookup, Hc. done.
    - by rewrite put_lookup_ne by done. }
  destruct (queue_new_run v1 p a) as (w' & E & P & F & S).
  - done.
  - done.
  - unfold v1. by rewrite put_lookup_ne.
  - change (outqueue (ctx v1)) with (outqueue (ctx w)). rewrite Forall_forall in Hq |- *.
    intros x Hx. destruct (Hq x Hx) as (px & bx & H1 & H2). unfold live, v1.
    destruct (decide (x = cmd)) as [->|Hne].
    + rewrite put_lookup. rewrite Hc in H1. injection H1 as ->. by eexists _, bx.
    + rewrite put_lookup_ne by done. by eexists _, _.
  - by eexists.
  - apply data_out_not_immediate.
  - run E. exists w'. split; [done|]. split; [exact P|]. split; [exact F|].
    destruct S as ((m & C) & R). split; [|exact R]. exists m. rewrite C.
    rewrite (insert_before_ext_in _ (later w (pdu_cmdsn c))); [done|].
    apply Forall_forall. intros x _. unfold later. by rewrite Hcmd.
Qed.


Lemma MIN_spec a b : MIN a b = Z.min a b.
Proof. unfold MIN. destruct (Z.ltb_spec a b); lia. Qed.

(** The DATA-OUT PDUs of [max] bytes at most that carry [tot] bytes. *)
Definition turns (max tot : Z) : Z := (tot + max - 1) / max.

Lemma turns_0 max : 0 < max -> turns max 0 = 0.
Proof. intros Hm. unfold turns. apply Z.div_small. lia. Qed.

Lemma turns_step max tot : 0 < max -> 0 < tot ->
  turns max tot = 1 + turns max (tot - MIN tot max).
Proof.
  intros Hm Ht. rewrite MIN_spec. destruct (Z.le_gt_cases max tot).
  - rewrite Z.min_r by done. unfold turns.
    replace (tot + max - 1) with (tot - max + max - 1 + 1 * max) by lia.
    rewrite Z.div_add by lia. lia.
  - rewrite Z.min_l, Z.sub_diag, turns_0 by lia. unfold turns.
    replace (tot + max - 1) with (tot - 1 + 1 * max) by lia.
    rewrite Z.div_add, Z.div_small by lia. done.
Qed.

Lemma turns_nonneg max tot : 0 < max -> 0 <= tot -> 0 <= turns max tot.
Proof. intros. unfold turns. apply Z.div_pos; lia. Qed.

Lemma counted_0 c : 0 <= pdu_datasn c < 2 ^ 32 -> counted 0 c = c.
Proof. intros Hc. unfold counted. rewrite Z.add_0_r, u32_small by done. by destruct c. Qed.

Lemma counted_counted n m c : counted n (counted m c) = counted (m + n) c.
Proof.
  unfold counted. cbn. unfold u32. by rewrite Zplus_mod_idemp_l, <- Z.add_assoc.
Qed.

Lemma same_env_trans w1 w2 w3 q q' : same_env w1 w2 q -> same_env w2 w3 q' -> same_env w1 w3 q'.
Proof.
  intros ((m1 & C1) & T1 & A1 & N1 & H1 & P1 & K1 & e1 & R1 & F1)
         ((m2 & C2) & T2 & A2 & N2 & H2 & P2 & K2 & e2 & R2 & F2).
  split; [exists m2; by rewrite C2, C1|]. do 6 (split; [congruence|]).
  exists (e1 ++ e2). split; [by rewrite R2, R1, app_assoc|]. by apply Forall_app.
Qed.

Lemma same_env_fields w w' q : same_env w w' q ->
  outqueue (ctx w') = q /\ header_digest (ctx w') = header_digest (ctx w) /\
  target_max_recv_data_segment_length (ctx w') = target_max_recv_data_segment_length (ctx w) /\
  (forall a, stamped w' a = stamped w a).
Proof.
  intros ((m & C) & _ & _ & N & _). rewrite C. do 3 (split; [done|]). intros a. unfold stamped.
  by rewrite C, N.
Qed.

Lemma same_env_ready w w' q : same_env w w' q -> ready w -> names_ok w' ->
  Forall (live w') q -> ready w'.
Proof.
  intros ((m & C) & T & A & N & Hh & P & _ & _) [Hl Hqt Hm Hn Hq] Hn' Hq'. split; [|..].
  - unfold unlocked. by rewrite C.
  - unfold quiet in *. rewrite C, Hh, P. done.
  - unfold memory. by rewrite A.
  - done.
  - by rewrite C.
Qed.

(** PDU [i] of the train that sends [tot] bytes from [offset] on for [c]. *)
Definition train_pdu (digest max : Z) (c : iscsi_pdu) (ttt offset tot : Z) (i : nat) : iscsi_pdu :=
  let done := Z.of_nat i * max in
  data_out_pdu digest (counted (Z.of_nat i) c) ttt (offset + done) (MIN (tot - done) max)
    (tot - done <=? max).

Lemma train_pdu_0 digest max c ttt offset tot : 0 <= pdu_datasn c < 2 ^ 32 ->
  train_pdu digest max c ttt offset tot 0 =
  data_out_pdu digest c ttt offset (MIN tot max) (tot =? MIN tot max).
Proof.
  intros Hc. unfold train_pdu. cbv zeta. rewrite counted_0 by done.
  change (Z.of_nat 0 * max) with 0. rewrite Z.add_0_r, Z.sub_0_r, MIN_spec.
  replace (tot =? Z.min tot max) with (tot <=? max); [done|].
  destruct (Z.leb_spec tot max); destruct (Z.eqb_spec tot (Z.min tot max)); lia.
Qed.

Lemma train_pdu_S digest max c ttt offset tot i : MIN tot max = max ->
  train_pdu digest max (counted 1 c) ttt (offset + MIN tot max) (tot - MIN tot max) i =
  train_pdu digest max c ttt offset tot (S i).
Proof.
  intros E. unfold train_pdu. cbv zeta. rewrite counted_counted, E.
  replace (1 + Z.of_nat i) with (Z.of_nat (S i)) by lia.
  replace (offset + max + Z.of_nat i * max) with (offset + Z.of_nat (S i) * max) by lia.
  by replace (tot - max - Z.of_nat i * max) with (tot - Z.of_nat (S i) * max) by lia.
Qed.

Lemma insert_before_at (f : nat -> bool) p q1 q2 : Forall (fun x => f x = false) q1 ->
  match q2 with [] => True | x :: _ => f x = true end ->
  insert_before f p (q1 ++ q2) = q1 ++ p :: q2.
Proof.
  induction 1 as [|x q1 E _ IH]; intros H2; cbn.
  - destruct q2 as [|x q2]; [done|]. cbn. by rewrite H2.
  - rewrite E. by rewrite IH.
Qed.

(** What the train leaves: [n] new PDUs between [q1] and [q2]. *)
Record train_sent (w w' : world) (cmd : nat) (c : iscsi_pdu) (ttt offset tot : Z)
  (q1 q2 : list nat) (n : nat) : Prop := {
  tr_fresh : fresh w' = (fresh w + n)%nat;
  tr_env : same_env w w' (q1 ++ seq (fresh w) n ++ q2);
  tr_cmd : pdus w' !! cmd = Some (counted (Z.of_nat n) c);
  tr_old x : x <> cmd -> (x < fresh w)%nat -> pdus w' !! x = pdus w !! x;
  tr_new i : (i < n)%nat -> pdus w' !! (fresh w + i)%nat =
    Some (stamped w (train_pdu (header_digest (ctx w))
            (target_max_recv_data_segment_length (ctx w)) c ttt offset tot i));
  tr_ready : ready w'
}.

(** The state after the first PDU of the train. *)
Lemma first_turn w cmd c ttt offset tot len q1 q2 : ready w -> pdus w !! cmd = Some c ->
  0 <= pdu_datasn c < 2 ^ 32 -> outqueue (ctx w) = q1 ++ q2 ->
  Forall (fun x => later w (pdu_cmdsn c) x = false) q1 ->
  match q2 with [] => True | x :: _ => later w (pdu_cmdsn c) x = true end ->
  exists w1, send_one_data_out cmd ttt offset tot len w = Ret (true, w1) /\ ready w1 /\
    pdus w1 = <[fresh w := stamped w (data_out_pdu (header_digest (ctx w)) c ttt offset len (tot =? len))]>
                (<[cmd := counted 1 c]> (pdus w)) /\
    fresh w1 = S (fresh w) /\ cmd <> fresh w /\ same_env w w1 (q1 ++ fresh w :: q2) /\
    Forall (fun x => later w1 (pdu_cmdsn c) x = false) (q1 ++ [fresh w]) /\
    match q2 with [] => True | x :: _ => later w1 (pdu_cmdsn c) x = true end.
Proof.
  intros Hr Hc Hsn Hq H1 H2. pose proof Hr as [Hl Hqt Hm Hn Hlive]. rewrite Hq in Hlive.
  destruct (send_one_run w cmd c ttt offset tot len Hr Hc) as (w1 & E & P & F & Henv).
  rewrite Hq, insert_before_at in Henv by done.
  assert (Hpc : cmd <> fresh w).
  { intros ->. assert (Hs : is_Some (pdus w !! fresh w)) by (by eexists). apply Hn in Hs. lia. }
  assert (Hlt : forall x, x ∈ q1 ++ q2 -> x <> fresh w).
  { intros x Hx ->. rewrite Forall_forall in Hlive. destruct (Hlive _ Hx) as (px & bx & Hp & _).
    assert (Hs : is_Some (pdus w !! fresh w)) by (by eexists). apply Hn in Hs. lia. }
  assert (Hsame : forall x, x ∈ q1 ++ q2 -> pdu_cmdsn (the_pdu w1 x) = pdu_cmdsn (the_pdu w x)).
  { intros x Hx. unfold the_pdu. rewrite P, lookup_insert_ne by (symmetry; by apply Hlt).
    destruct (decide (x = cmd)) as [->|Hne]; [by rewrite lookup_insert_eq, Hc|].
    by rewrite lookup_insert_ne by done. }
  exists w1. split; [done|]. split; [|do 4 (split; [done|]); split].
  - apply (same_env_ready _ _ _ Henv Hr).
    + intros x Hx. rewrite F. rewrite P in Hx. destruct (decide (x = fresh w)) as [->|Hne]; [lia|].
      rewrite lookup_insert_ne in Hx by done.
      destruct (decide (x = cmd)) as [->|Hne2]; [assert (Hs : is_Some (pdus w !! cmd)) by (by eexists);
        apply Hn in Hs; lia|]. rewrite lookup_insert_ne in Hx by done. apply Hn in Hx. lia.
    + assert (Hl1 : forall x, x ∈ q1 ++ q2 -> live w1 x).
      { intros x Hx. rewrite Forall_forall in Hlive. destruct (Hlive _ Hx) as (px & bx & Hp & Hb).
        unfold live. rewrite P, lookup_insert_ne by (symmetry; by apply Hlt).
        destruct (decide (x = cmd)) as [->|Hne].
        - rewrite lookup_insert_eq. rewrite Hc in Hp. injection Hp as ->. by eexists _, bx.
        - rewrite lookup_insert_ne by done. by eexists _, _. }
      apply Forall_app. split; [apply Forall_forall; intros x Hx; apply Hl1; set_solver|].
      constructor; [|apply Forall_forall; intros x Hx; apply Hl1; set_solver].
      eexists _, _. split; [rewrite P; apply lookup_insert_eq|]. reflexivity.
  - apply Forall_app. split.
    + rewrite Forall_forall in H1 |- *. intros x Hx. unfold later. rewrite Hsame by set_solver.
      by apply H1.
    + constructor; [|done]. unfold later, the_pdu. rewrite P, lookup_insert_eq.
      cbn [default from_option id]. change (pdu_cmdsn (stamped _ _)) with (pdu_cmdsn c).
      unfold iscsi_serial32_compare. by rewrite Z.eqb_refl.
  - destruct q2 as [|x q2]; [done|]. unfold later. rewrite Hsame by set_solver. done.
Qed.

Lemma data_out_loop_run fuel : forall w cmd c ttt offset tot q1 q2,
  ready w -> pdus w !! cmd = Some c -> 0 <= pdu_datasn c < 2 ^ 32 ->
  outqueue (ctx w) = q1 ++ q2 ->
  Forall (fun x => later w (pdu_cmdsn c) x = false) q1 ->
  match q2 with [] => True | x :: _ => later w (pdu_cmdsn c) x = true end ->
  0 < target_max_recv_data_segment_length (ctx w) -> 0 <= tot <= Z.of_nat fuel ->
  0 <= offset -> offset + tot < 2 ^ 32 ->
  exists w', send_data_out_loop fuel cmd ttt offset tot w = Ret (0, w') /\
    train_sent w w' cmd c ttt offset tot q1 q2
      (Z.to_nat (turns (target_max_recv_data_segment_length (ctx w)) tot)).
Proof.
  induction fuel as [|fuel IH]; intros w cmd c ttt offset tot q1 q2 Hr Hc Hsn Hq H1 H2 Hmax Htot Hoff Hend;
    set (max := target_max_recv_data_segment_length (ctx w)) in *; cbn [send_data_out_loop];
    (destruct (Z.eqb_spec tot 0) as [->|Hne];
     [exists w; split; [done|]; rewrite turns_0 by done; split;
       [cbn; lia| |by rewrite counted_0|done|lia|done]|]).
  1, 3: change (seq (fresh w) (Z.to_nat 0)) with (@nil nat); cbn [app]; rewrite <- Hq;
    split; [exists (mallocs (ctx w)); by destruct (ctx w)|];
    do 6 (split; [done|]); exists []; by rewrite app_nil_r.
  - lia.
  - run (get_ctx_run target_max_recv_data_segment_length w). fold max. cbv zeta.
    set (len := MIN tot max). assert (Hlen : 0 < len <= tot) by (unfold len; rewrite MIN_spec; lia).
    destruct (first_turn w cmd c ttt offset tot len q1 q2 Hr Hc Hsn Hq H1 H2)
      as (w1 & E & Hr1 & P & F & Hcf & Henv & H1' & H2'). run E.
    rewrite !u32_small by lia.
    destruct (same_env_fields _ _ _ Henv) as (Eq & Ed & Em & Est).
    destruct (IH w1 cmd (counted 1 c) ttt (offset + len) (tot - len) (q1 ++ [fresh w]) q2)
      as (w2 & E2 & [F2 Env2 C2 O2 N2 R2]); try done.
    + by rewrite P, lookup_insert_ne, lookup_insert_eq by done.
    + apply u32_range.
    + by rewrite Eq, <- app_assoc.
    + by rewrite Em.
    + lia.
    + lia.
    + lia.
    + exists w2. split; [done|]. rewrite Em in *. fold max in N2, F2, C2, Env2. fold max.
      rewrite turns_step by lia. fold len. pose proof (turns_nonneg max (tot - len) Hmax ltac:(lia)).
      replace (Z.to_nat (1 + turns max (tot - len))) with (S (Z.to_nat (turns max (tot - len)))) by lia.
      set (n := Z.to_nat (turns max (tot - len))) in *. split.
      * rewrite F2, F. lia.
      * rewrite F in Env2. cbn [seq]. rewrite <- app_assoc in Env2.
        exact (same_env_trans _ _ _ _ _ Henv Env2).
      * rewrite C2, counted_counted. do 2 f_equal. lia.
      * intros x Hx Hlt. rewrite O2 by (done || lia). rewrite P.
        rewrite !lookup_insert_ne by (done || lia). done.
      * intros [|i] Hi.
        { rewrite Nat.add_0_r, O2 by (done || lia). rewrite P, lookup_insert_eq.
          by rewrite train_pdu_0. }
        replace (fresh w + S i)%nat with (fresh w1 + i)%nat by lia. rewrite N2 by lia.
        rewrite Ed, Est. unfold len in *. rewrite train_pdu_S; [done|].
        rewrite MIN_spec in *. destruct (Z.le_gt_cases max tot); [lia|].
        exfalso. unfold n in Hi. rewrite MIN_spec, Z.min_l, Z.sub_diag, turns_0 in Hi by lia. cbn in Hi. lia.
      * exact R2.
Qed.
End DataOut.

(** The command, task, CmdSN and range of the data a DATA-OUT PDU announces. *)
Record carries (c pdu : iscsi_pdu) (ttt sn off len : Z) (last : bool) (h : bytes) : Prop := {
  ca_hdr : ddata (outdata pdu) = Some h;
  ca_opcode : byte_at h 0 = ISCSI_PDU_DATA_OUT;
  ca_flags : byte_at h 1 = if last then ISCSI_PDU_SCSI_FINAL else 0;
  ca_lun : scsi_get_uint16 h 8 = u16 (pdu_lun c);
  ca_itt : scsi_get_uint32 h 16 = u32 (pdu_itt c);
  ca_ttt : scsi_get_uint32 h 20 = u32 ttt;
  ca_sn : scsi_get_uint32 h 36 = sn;
  ca_off : scsi_get_uint32 h 40 = off;
  ca_len : iscsi_get_pdu_data_size h = len;
  ca_payload : payload_offset pdu = off /\ payload_len pdu = len;
  ca_task : cbdata_task pdu = cbdata_task c /\ pdu_cmdsn pdu = pdu_cmdsn c
}.

Ltac hdr_length :=
  rewrite ?length_scsi_set_uint32, ?length_scsi_set_uint16, ?length_insert,
    ?length_scsi_set_uint32, ?length_insert, ?length_zeros; unfold ISCSI_HEADER_SIZE;
  destruct (_ =? _); vm_compute; lia.

(** Reads of a field of a header just built: skip the stores elsewhere. *)
Ltac hdr_field :=
  repeat first
    [ rewrite get32_set32 by hdr_length | rewrite get16_set16 by hdr_length
    | rewrite get32_set32_ne by lia | rewrite get32_set16_ne by lia
    | rewrite get16_set32_ne by lia | rewrite get32_insert_ne by lia
    | rewrite get16_insert_ne by lia
    | rewrite byte_at_set32_ne by lia | rewrite byte_at_set16_ne by lia
    | rewrite byte_at_insert_ne by lia | rewrite byte_at_insert_eq by hdr_length ].

Lemma data_out_carries digest c ttt off len last :
  0 <= pdu_datasn c < 2 ^ 32 -> 0 <= off < 2 ^ 32 -> 0 <= len < 2 ^ 24 ->
  carries c (data_out_pdu digest c ttt off len last) ttt (pdu_datasn c) off len last
    (data_out_hdr digest c ttt off len last).
Proof.
  intros Hsn Hoff Hlen. split; try done; unfold data_out_hdr; cbv zeta.
  - by hdr_field.
  - hdr_field. by destruct last.
  - by hdr_field.
  - by hdr_field.
  - by hdr_field.
  - hdr_field. by apply u32_small.
  - hdr_field. by apply u32_small.
  - refine (proj1 (padding_of_dsl _ len _ Hlen)). hdr_field. apply u32_small. lia.
Qed.

(** The train is described by the command as it was, with the deadline set. *)
Lemma carries_stamped w c x pdu ttt sn sn' off len last h : sn = sn' ->
  carries (c <| pdu_datasn := x |>) pdu ttt sn off len last h -> carries c (stamped w pdu) ttt sn' off len last h.
Proof. intros <- [H1 H2 H3 H4 H5 H6 H7 H8 H9 H10 H11]. by split. Qed.

Section R2T.
Context `{Transport}.

(** The CmdSN of the PDUs of [q1] is not after [sn], that of the first of
    [q2] is. *)
Definition splits (w : world) (sn : Z) (q1 q2 : list nat) : Prop :=
  outqueue (ctx w) = q1 ++ q2 /\ Forall (fun x => later w sn x = false) q1 /\
  match q2 with [] => True | x :: _ => later w sn x = true end.

Lemma ready_put w cmd c c' : ready w -> pdus w !! cmd = Some c -> outdata c' = outdata c ->
  ready (put w cmd c').
Proof.
  intros [Hl Hqt Hm Hn Hq] Hc Ho. split; try done.
  - intros x Hx. destruct (decide (x = cmd)) as [->|Hne].
    + apply Hn. by eexists.
    + rewrite put_lookup_ne in Hx by done. by apply Hn.
  - change (outqueue (ctx (put w cmd c'))) with (outqueue (ctx w)).
    eapply Forall_impl; [exact Hq|]. intros x (px & bx & H1 & H2). unfold live.
    destruct (decide (x = cmd)) as [->|Hne].
    + rewrite put_lookup. rewrite Hc in H1. injection H1 as <-. exists c', bx. by rewrite Ho.
    + rewrite put_lookup_ne by done. by exists px, bx.
Qed.

Lemma later_put w cmd c c' sn x : pdus w !! cmd = Some c -> pdu_cmdsn c' = pdu_cmdsn c ->
  later (put w cmd c') sn x = later w sn x.
Proof.
  intros Hc E. unfold later, the_pdu. destruct (decide (x = cmd)) as [->|Hne].
  - by rewrite put_lookup, Hc; cbn; rewrite E.
  - by rewrite put_lookup_ne.
Qed.

Lemma splits_put w cmd c c' sn q1 q2 : pdus w !! cmd = Some c -> pdu_cmdsn c' = pdu_cmdsn c ->
  splits w sn q1 q2 -> splits (put w cmd c') sn q1 q2.
Proof.
  intros Hc E (Hq & H1 & H2). split; [done|]. split.
  - eapply Forall_impl; [exact H1|]. intros x Hx. by rewrite (later_put w cmd c).
  - destruct q2 as [|x q2]; [done|]. by rewrite (later_put w cmd c).
Qed.

(** The range of PDU [i], inside the [tot] bytes. *)
Lemma chunk_range max tot i : 0 < max < 2 ^ 24 -> 0 <= tot -> 0 <= i < turns max tot ->
  0 <= i * max < tot /\ 0 < MIN (tot - i * max) max < 2 ^ 24.
Proof.
  intros Hm Ht [Hi0 Hi]. rewrite MIN_spec. unfold turns in Hi.
  assert (i + 1 <= (tot + max - 1) / max) as Hle by lia.
  assert ((tot + max - 1) / max * max <= tot + max - 1)
    by (rewrite Z.mul_comm; apply Z.mul_div_le; lia).
  nia.
Qed.

(** Every byte of the range is in one PDU. *)
Lemma chunk_cover max tot b : 0 < max -> 0 <= b < tot ->
  exists i, 0 <= i < turns max tot /\ i * max <= b < i * max + MIN (tot - i * max) max.
Proof.
  intros Hm Hb. exists (b / max). pose proof (Z.mul_div_le b max Hm).
  pose proof (Z.mul_succ_div_gt b max Hm). rewrite MIN_spec. split; [|nia].
  split; [apply Z.div_pos; lia|]. unfold turns.
  assert (b / max * max < tot) by lia. assert (b / max + 1 <= (tot + max - 1) / max); [|lia].
  apply Z.div_le_lower_bound; nia.
Qed.

(** C13: Answering an R2T queues ceil(len/MaxRecvDataSegmentLength) Data-Out PDUs that
    carry its TTT, consecutive DataSN from 0 and the requested range [offset,
    offset+len) in order and without gap, with the F bit on the last one only; they are
    queued behind all PDUs of smaller or equal CmdSN, and every byte of the range is in
    one of them. *)
Theorem r2t_sends_requested_range (w : world) (cmd : nat) (c : iscsi_pdu) (inp : iscsi_in_pdu)
  (q1 q2 : list nat) (Hr : ready w) (Hc : pdus w !! cmd = Some c)
  (Hq : splits w (pdu_cmdsn c) q1 q2)
  (Hmax : 0 < target_max_recv_data_segment_length (ctx w) < 2 ^ 24) (Hhdr : bytes_ok (hdr inp))
  (Hend : scsi_get_uint32 (hdr inp) 40 + scsi_get_uint32 (hdr inp) 44 < 2 ^ 32) :
  let max := target_max_recv_data_segment_length (ctx w) in
  let off := scsi_get_uint32 (hdr inp) 40 in
  let len := scsi_get_uint32 (hdr inp) 44 in
  let n := Z.to_nat (turns max len) in
  exists w', iscsi_process_r2t cmd inp w = Ret (0, w') /\
    outqueue (ctx w') = q1 ++ seq (fresh w) n ++ q2 /\
    (forall i, (i < n)%nat -> exists pdu h, pdus w' !! (fresh w + i)%nat = Some pdu /\
       carries c pdu (scsi_get_uint32 (hdr inp) 20) (Z.of_nat i) (off + Z.of_nat i * max)
         (MIN (len - Z.of_nat i * max) max) (len - Z.of_nat i * max <=? max) h) /\
    (forall b, 0 <= b < len -> exists i, (i < n)%nat /\
       Z.of_nat i * max <= b < Z.of_nat i * max + MIN (len - Z.of_nat i * max) max) /\
    (forall x, x <> cmd -> (x < fresh w)%nat -> pdus w' !! x = pdus w !! x) /\ unlocked w'.
Proof.
  intros max off len n. unfold iscsi_process_r2t. cbv zeta.
  set (c0 := c <| pdu_datasn := 0 |>).
  run (set_pdu_run w cmd c (fun pdu => pdu <| pdu_datasn := 0 |>) Hc). fold c0. fold (put w cmd c0).
  set (w0 := put w cmd c0).
  assert (Hr0 : ready w0) by by apply (ready_put w cmd c).
  destruct (splits_put w cmd c c0 (pdu_cmdsn c) q1 q2 Hc eq_refl Hq) as (Hq0 & H1 & H2).
  pose proof (get32_range (hdr inp) 40 Hhdr) as Roff. pose proof (get32_range (hdr inp) 44 Hhdr) as Rlen.
  fold off in Roff, Hend. fold len in Rlen, Hend.
  destruct (data_out_loop_run (Z.to_nat len) w0 cmd c0 (scsi_get_uint32 (hdr inp) 20) off len q1 q2)
    as (w' & E & [F Env C O N]); try done; [apply put_lookup|apply Hmax|lia|lia|].
  change (target_max_recv_data_segment_length (ctx w0)) with max in *. fold n in F, Env, C, N.
  exists w'. unfold iscsi_send_data_out. fold off len. run E. split; [done|].
  destruct (same_env_fields _ _ _ Env) as (Eq & _). split; [exact Eq|]. split; [|split; [|split]].
  - intros i Hi. destruct (chunk_range max len (Z.of_nat i)) as [Ra Rb]; [exact Hmax|lia|unfold n in Hi; lia|].
    eexists _, _. split; [apply (N i Hi)|]. unfold train_pdu. cbv zeta.
    assert (Hn : Z.of_nat i < 2 ^ 32) by nia.
    assert (Hd : pdu_datasn (counted (Z.of_nat i) c0) = Z.of_nat i)
      by (cbn; apply u32_small; lia).
    apply (carries_stamped w0 c (u32 (0 + Z.of_nat i)) _ _ _ _ _ _ _ _ Hd).
    apply data_out_carries; [rewrite Hd; lia|lia|lia].
  - intros b Hb. destruct (chunk_cover max len b) as (i & Hi & Hib); [apply Hmax|done|].
    exists (Z.to_nat i). rewrite Z2Nat.id by lia. split; [unfold n; lia|done].
  - intros x Hx Hlt. rewrite O by done. by apply put_lookup_ne.
  - destruct Env as ((m & Ec) & _). unfold unlocked. rewrite Ec. apply Hr.
Qed.
End R2T.

Section Divergence.
Context `{Transport}.

(** C40: When the target declared MaxRecvDataSegmentLength 0, iscsi_send_data_out never
    ends: for every number of turns the loop still has the same bytes left and goes on
    allocating empty PDUs. *)
Theorem zero_segment_length_never_ends (fuel : nat) : forall (w : world) (cmd : nat) (c : iscsi_pdu)
  (ttt offset tot : Z) (q1 q2 : list nat) (Hr : ready w) (Hc : pdus w !! cmd = Some c)
  (Hsn : 0 <= pdu_datasn c < 2 ^ 32) (Hq : splits w (pdu_cmdsn c) q1 q2)
  (Hmax : target_max_recv_data_segment_length (ctx w) = 0) (Hoff : 0 <= offset < 2 ^ 32)
  (Htot : 0 < tot < 2 ^ 32),
  send_data_out_loop fuel cmd ttt offset tot w = Undef NoFuel.
Proof.
  induction fuel as [|fuel IH]; intros w cmd c ttt offset tot q1 q2 Hr Hc Hsn (Hq & H1 & H2) Hmax Hoff Htot;
    cbn [send_data_out_loop]; (destruct (Z.eqb_spec tot 0); [lia|]); [done|].
  run (get_ctx_run target_max_recv_data_segment_length w). rewrite Hmax. cbv zeta.
  rewrite MIN_spec, Z.min_r, Z.add_0_r, Z.sub_0_r, !u32_small by lia.
  destruct (first_turn w cmd c ttt offset tot 0 q1 q2 Hr Hc Hsn Hq H1 H2)
      as (w1 & E & Hr1 & P & F & Hcf & Henv & H1' & H2'). run E.
  destruct (same_env_fields _ _ _ Henv) as (Eq & _ & Em & _).
  apply (IH w1 cmd (counted 1 c) ttt offset tot (q1 ++ [fresh w]) q2); try done.
  - by rewrite P, lookup_insert_ne, lookup_insert_eq by done.
  - apply u32_range.
  - split; [by rewrite Eq, <- app_assoc|]. split; [exact H1'|exact H2'].
  - by rewrite Em.
Qed.
End Divergence.

(** A WRITE waits as PDU 1; the service thread does the sending. *)
Definition sample_write (max : Z) : world :=
  sample_waiting <| fresh := 2%nat |>
    <| ctx ::= fun c => c <| multithreading_enabled := true |>
         <| target_max_recv_data_segment_length := max |> |>.

Definition sample_r2t (off len : Z) : iscsi_in_pdu :=
  {| hdr_pos := 48; hdr := scsi_set_uint32 (scsi_set_uint32 (<[0%nat := ISCSI_PDU_R2T]> (zeros 48)) 40 off) 44 len;
     data_pos := 0; in_data := None; data_digest_buf := []; received_data_digest_bytes := 0; in_calculated_data_digest := 0 |}.

Lemma sample_write_ready max : @ready sample_transport (sample_write max).
Proof.
  split; try done.
  - by left.
  - intros x [a Ha]. change (pdus (sample_write max)) with (pdus sample_waiting) in Ha.
    destruct (decide (x = 1%nat)) as [->|Hne]; [cbn; lia|].
    assert (E : pdus sample_waiting !! x = None) by by apply lookup_singleton_ne. congruence.
Qed.

Lemma r2t_sends_requested_range_witness :
  exists w', @iscsi_process_r2t sample_transport 1 (sample_r2t 4096 5000) (sample_write 2048)
      = Ret (0, w') /\ outqueue (ctx w') = [2; 3; 4]%nat /\
    exists pdu h, pdus w' !! 4%nat = Some pdu /\
      carries (default zero_pdu (pdus sample_waiting !! 1%nat)) pdu 0 2 8192 904 true h.
Proof.
  destruct (@r2t_sends_requested_range sample_transport (sample_write 2048) 1
    (default zero_pdu (pdus sample_waiting !! 1%nat)) (sample_r2t 4096 5000) [] [])
    as (w' & E & Q & C & _).
  - apply sample_write_ready.
  - reflexivity.
  - split; [reflexivity|]. by split.
  - cbn. lia.
  - repeat apply bytes_ok_set32. apply bytes_ok_insert; [apply bytes_ok_zeros|vm_compute; split; congruence].
  - reflexivity.
  - exists w'. split; [exact E|]. split; [exact Q|].
    destruct (C 2%nat) as (pdu & h & P & H); [vm_compute; lia|]. exists pdu, h.
    split; [exact P|exact H].
Defined.

Lemma zero_segment_length_never_ends_witness :
  @send_data_out_loop sample_transport 1000 1 0 0 512 (sample_write 0) = Undef NoFuel.
Proof.
  apply (@zero_segment_length_never_ends sample_transport 1000 (sample_write 0) 1
    (default zero_pdu (pdus sample_waiting !! 1%nat)) 0 0 512 [] []).
  - apply sample_write_ready.
  - reflexivity.
  - vm_compute. split; congruence.
  - split; [reflexivity|]. by split.
  - reflexivity.
  - lia.
  - lia.
Defined.

(** ** Sending a command *)

(** The immediate data of a command that writes [exp] bytes, and whether its
    PDU has the F bit. *)
Definition immediate_len (c : iscsi_context) (exp : Z) : Z :=
  if use_immediate_data c =? ISCSI_IMMEDIATE_DATA_YES
  then MIN (MIN exp (first_burst_length c)) (target_max_recv_data_segment_length c) else 0.

Definition is_final (c : iscsi_context) (exp : Z) : bool :=
  negb ((use_initial_r2t c =? ISCSI_INITIAL_R2T_NO) && (immediate_len c exp <? exp)
        && (immediate_len c exp <? first_burst_length c)).

Definition write_flags (final : bool) : Z :=
  ISCSI_PDU_SCSI_ATTR_SIMPLE ||| ISCSI_PDU_SCSI_WRITE ||| (if final then ISCSI_PDU_SCSI_FINAL else 0).

Lemma set_task_put_run v p a t task f : tasks v !! t = Some task ->
  set_task t f (put v p a) = Ret (tt, put (v <| tasks ::= <[t := f task]> |>) p a).
Proof. intros Ht. by rewrite (set_task_run (put v p a) t task f Ht). Qed.

Lemma get_task_run w t task : tasks w !! t = Some task -> get_task t w = Ret (task, w).
Proof. intros Ht. unfold get_task, mbind, M_bind, getS. by rewrite Ht. Qed.

(** The PDU after the switch on the direction. *)
Definition with_immediate (c : iscsi_context) (exp : Z) (a : iscsi_pdu) : iscsi_pdu :=
  if use_immediate_data c =? ISCSI_IMMEDIATE_DATA_YES
  then a <| payload_offset := 0 |> <| payload_len := immediate_len c exp |>
         <| outdata ::= fun d => d <| ddata :=
              (fun b => scsi_set_uint32 b 4 (immediate_len c exp)) <$> ddata d |> |>
  else a.

(** What a command sends without an R2T depends on its direction: [phase] is
    the context in the eyes of the switch on [xfer_dir]. *)
Definition phase (task : scsi_task) (c : iscsi_context) : iscsi_context :=
  if xfer_dir task =? SCSI_XFER_WRITE then c
  else c <| use_immediate_data := ISCSI_IMMEDIATE_DATA_NO |> <| use_initial_r2t := ISCSI_INITIAL_R2T_YES |>.

Definition phase_flags (task : scsi_task) (final : bool) : Z :=
  if xfer_dir task =? SCSI_XFER_WRITE then write_flags final
  else if xfer_dir task =? SCSI_XFER_READ
  then ISCSI_PDU_SCSI_FINAL ||| ISCSI_PDU_SCSI_ATTR_SIMPLE ||| ISCSI_PDU_SCSI_READ
  else ISCSI_PDU_SCSI_FINAL ||| ISCSI_PDU_SCSI_ATTR_SIMPLE.

Lemma phase_write task c : xfer_dir task = SCSI_XFER_WRITE -> phase task c = c.
Proof. intros E. unfold phase. by rewrite E. Qed.

Lemma immediate_data_run v p a exp b : ddata (outdata a) = Some b ->
  when (use_immediate_data (ctx v) =? ISCSI_IMMEDIATE_DATA_YES)
    (let len := MIN exp (first_burst_length (ctx v)) in
     let len := MIN len (target_max_recv_data_segment_length (ctx v)) in
     _ ← set_pdu p (fun pdu => pdu <| payload_offset := 0 |> <| payload_len := len |>);
     set_hdr p (fun b => scsi_set_uint32 b 4 len)) (put v p a) =
  Ret (tt, put v p (with_immediate (ctx v) exp a)).
Proof.
  intros Hb. unfold when, with_immediate, immediate_len. destruct (_ =? ISCSI_IMMEDIATE_DATA_YES); [|done].
  cbv zeta. match goal with |- (set_pdu _ ?f ≫= _) _ = _ => run (set_put_run v p a f) end.
  match goal with |- set_hdr _ ?f (put _ _ ?x) = _ => rewrite (hdr_put_run v p x f b Hb) end.
  do 3 f_equal. destruct a as [? ? ? ? ? ? ? ? [? o] ? ? ? ? ? ? ? ? ? ? ? ?]. cbn in Hb |- *.
  by rewrite Hb.
Qed.

Lemma command_flags_run v p a task :
  payload_len a = 0 -> is_Some (ddata (outdata a)) ->
  command_flags p task (put v p a) =
  Ret (phase_flags task (is_final (phase task (ctx v)) (u32 (Task.expxferlen task))),
       put v p (with_immediate (phase task (ctx v)) (u32 (Task.expxferlen task)) a)).
Proof.
  intros Ha [b Hb]. unfold command_flags, phase, phase_flags. cbv zeta.
  destruct (Z.eqb_spec (xfer_dir task) SCSI_XFER_WRITE) as [Hx|Hx].
  2: { unfold with_immediate. by destruct (_ =? SCSI_XFER_READ). }
  rewrite Hx. change (SCSI_XFER_WRITE =? SCSI_XFER_READ) with false. cbn [negb].
  set (exp := u32 (Task.expxferlen task)).
  assert (Hget : forall k : world -> IO Z, (getS ≫= k) (put v p a) = k (put v p a) (put v p a)) by done.
  rewrite Hget. change (ctx (put v p a)) with (ctx v). run (immediate_data_run v p a exp b Hb).
  run (get_put_run v p (with_immediate (ctx v) exp a)).
  assert (Hp : payload_len (with_immediate (ctx v) exp a) = immediate_len (ctx v) exp).
  { unfold with_immediate, immediate_len. by destruct (_ =? ISCSI_IMMEDIATE_DATA_YES). }
  rewrite Hp. unfold is_final, write_flags. by destruct (_ && _ && _).
Qed.

(** The task that is sent is the one that was given, but for its vectors,
    tags and private pointer. *)
Record same_command (task task' : scsi_task) : Prop := {
  sc_dir : xfer_dir task' = xfer_dir task;
  sc_len : Task.expxferlen task' = Task.expxferlen task;
  sc_cdb : cdb task' = cdb task;
  sc_size : cdb_size task' = cdb_size task
}.

(** The data the command sends: the caller's buffer, or those of the task. *)
Definition vector_out (d : option scsi_iovec) (task : scsi_task) : scsi_iovector :=
  match d with
  | Some v => if iov_base v =? 0 then iovector_out task
              else iovector_out (scsi_task_set_iov_out task [v] 1)
  | None => iovector_out task
  end.

Lemma set_data_out_run w t d task : memory w -> tasks w !! t = Some task ->
  exists n task0, set_data_out t d w = Ret (true, w <| alloc_n := n |> <| tasks ::= <[t := task0]> |>) /\
    same_command task task0 /\ iovector_out task0 = vector_out d task.
Proof.
  intros Hm Ht. unfold set_data_out, vector_out.
  assert (Hid : w = w <| alloc_n := alloc_n w |> <| tasks ::= <[t := task]> |>).
  { apply world_stores_eq; [done|done|]. cbn. by rewrite insert_id. }
  destruct d as [v|]; [|exists (alloc_n w), task; by rewrite <- Hid].
  destruct (_ =? 0); [exists (alloc_n w), task; by rewrite <- Hid|].
  assert (Em : malloc w = Ret (true, w <| alloc_n ::= S |>)).
  { unfold malloc, mbind, M_bind, getS, modify, mret, M_ret. by rewrite Hm. }
  run Em. set (w1 := w <| alloc_n ::= S |>). run (get_task_run w1 t task Ht). cbn [scsi_malloc].
  run (set_task_run w1 t task (fun _ => scsi_task_set_iov_out (task <| mem ::= cons sizeof_iovec |>) [v] 1) Ht).
  exists (S (alloc_n w)). eexists. by split.
Qed.

(** The CDB at offset 32. *)
Definition cdb_field (task : scsi_task) (h : bytes) : bytes :=
  blit (blit h 32 (zeros 16)) 32 (take (Z.to_nat (cdb_size task)) (cdb task)).

Definition command_hdr (flags lun exp sn : Z) (task : scsi_task) (h : bytes) : bytes :=
  let h := <[1%nat := u8 flags]> h in
  let h := scsi_set_uint16 h 8 (u32 lun) in
  let h := scsi_set_uint32 h 20 exp in
  let h := scsi_set_uint32 h 24 sn in
  cdb_field task h.

(** The PDU of a command, once every field is set. *)
Definition command_pdu (flags lun exp sn : Z) (task : scsi_task) (h : bytes) (a : iscsi_pdu)
  : iscsi_pdu :=
  a <| outdata ::= fun d => d <| ddata := Some (command_hdr flags lun exp sn task h) |> |>
    <| pdu_callback := Some Cb_scsi_response |> <| private_data := 0 |>
    <| pdu_lun := u32 lun |> <| pdu_expxferlen := exp |> <| pdu_cmdsn := sn |>.

Lemma put_pdu_eq v p a b : a = b -> put v p a = put v p b.
Proof. by intros ->. Qed.

Lemma ret_put_eq v p a b : a = b -> Ret (tt, put v p a) = Ret (tt, put v p b).
Proof. by intros ->. Qed.

Lemma command_fields_run (K : IO Z) v p t a h flags lun task exp :
  unlocked v -> ddata (outdata a) = Some h -> cbdata_task a = Some t ->
  tasks v !! t = Some task -> 0 <= cdb_size task <= 16 ->
  exists v' task', tasks v' = <[t := task']> (tasks v) /\
    v' = v <| ctx ::= fun c => c <| cmdsn := u32 (cmdsn (ctx v) + 1) |> |> <| tasks := tasks v' |> /\
    task' = task <| task_lun := u32 lun |> <| task_cmdsn := cmdsn (ctx v) |>
              <| task_itt := pdu_itt a |> /\
    (_ ← iscsi_pdu_set_pduflags p flags;
     _ ← set_pdu p (fun pdu => pdu <| pdu_callback := Some Cb_scsi_response |>
            <| private_data := 0 |>);
     _ ← iscsi_pdu_set_lun p (u32 lun);
     _ ← set_pdu p (fun pdu => pdu <| pdu_lun := u32 lun |>);
     _ ← set_task t (fun task => task <| task_lun := u32 lun |>);
     _ ← iscsi_pdu_set_expxferlen p exp;
     _ ← iscsi_mt_spin_lock;
     sn ← get_ctx cmdsn;
     _ ← set_ctx (fun c => c <| cmdsn := u32 (sn + 1) |>);
     _ ← iscsi_pdu_set_cmdsn p sn;
     _ ← iscsi_mt_spin_unlock;
     task ← get_task t;
     _ ← iscsi_pdu_set_cdb p task;
     K) (put v p a) =
    K (put v' p (command_pdu flags lun exp (cmdsn (ctx v)) task h a)).
Proof.
  intros Hl Hh Ht Htask Hcdb. set (sn := cmdsn (ctx v)).
  set (f1 := fun task : scsi_task => task <| task_lun := u32 lun |>).
  set (v1 := v <| tasks ::= <[t := f1 task]> |>).
  set (v2 := set_lock (have_mt v) v1).
  set (v3 := v2 <| ctx ::= fun c => c <| cmdsn := u32 (sn + 1) |> |>).
  set (f2 := fun task : scsi_task => task <| task_cmdsn := sn |> <| task_itt := pdu_itt a |>).
  set (v4 := v3 <| tasks ::= <[t := f2 (f1 task)]> |>).
  set (v5 := set_lock false v4).
  exists v5, (f2 (f1 task)). split; [apply insert_insert_eq|]. split.
  { change v5 with ((set_lock false v) <| ctx ::= fun c => c <| cmdsn := u32 (sn + 1) |> |>
      <| tasks := tasks v5 |>). by rewrite set_lock_id. }
  split; [done|].
  unfold iscsi_pdu_set_pduflags, iscsi_pdu_set_lun, iscsi_pdu_set_expxferlen.
  run (hdr_put_run v p a (fun b => <[1%nat := u8 flags]> b) h Hh).
  match goal with |- (set_pdu _ ?f ≫= _) (put _ _ ?x) = _ => run (set_put_run v p x f) end.
  match goal with |- (set_hdr _ ?f ≫= _) (put _ _ ?x) = _ => run (hdr_put_run v p x f _ eq_refl) end.
  match goal with |- (set_pdu _ ?f ≫= _) (put _ _ ?x) = _ => run (set_put_run v p x f) end.
  match goal with |- (set_task _ ?f ≫= _) (put _ _ ?x) = _ =>
    run (set_task_put_run v p x t task f Htask) end.
  change (v <| tasks ::= <[t := _]> |>) with v1.
  match goal with |- ((set_pdu _ ?f ≫= ?k) ≫= ?K1) (put _ _ ?x) = _ =>
    assert (E : (set_pdu p f ≫= k) (put v1 p x) =
      Ret (tt, put v1 p ((f x) <| outdata ::= fun d => d <| ddata := Some (scsi_set_uint32
        (scsi_set_uint16 (<[1%nat := u8 flags]> h) 8 (u32 lun)) 20 exp) |> |>)));
    [run (set_put_run v1 p x f);
     exact (hdr_put_run v1 p (f x) (fun b => scsi_set_uint32 b 20 exp) _ eq_refl)|run E] end.
  match goal with |- (_ ≫= _) (put _ _ ?x) = _ => set (a1 := x) end.
  assert (E1 : iscsi_mt_spin_lock (put v1 p a1) = Ret (tt, put v2 p a1)) by by apply lock_run.
  run E1. run (get_ctx_run cmdsn (put v2 p a1)). change (cmdsn (ctx (put v2 p a1))) with sn.
  assert (E2 : set_ctx (fun c => c <| cmdsn := u32 (sn + 1) |>) (put v2 p a1) = Ret (tt, put v3 p a1))
    by done. run E2.
  set (h1 := scsi_set_uint32 (scsi_set_uint16 (<[1%nat := u8 flags]> h) 8 (u32 lun)) 20 exp).
  set (a2 := a1 <| outdata ::= fun d => d <| ddata := Some (scsi_set_uint32 h1 24 sn) |> |>
               <| pdu_cmdsn := sn |>).
  assert (E3 : iscsi_pdu_set_cmdsn p sn (put v3 p a1) = Ret (tt, put v4 p a2)).
  { unfold iscsi_pdu_set_cmdsn.
    run (hdr_put_run v3 p a1 (fun b => scsi_set_uint32 b 24 sn) h1 eq_refl).
    match goal with |- (set_pdu _ ?f ≫= _) (put _ _ ?x) = _ => run (set_put_run v3 p x f) end.
    match goal with |- (get_pdu _ ≫= _) (put _ _ ?x) = _ => run (get_put_run v3 p x) end.
    match goal with |- context [cbdata_task ?x] => change (cbdata_task x) with (cbdata_task a) end.
    rewrite Ht.
    assert (H3 : tasks v3 !! t = Some (f1 task)) by apply lookup_insert_eq.
    match goal with |- set_task _ ?f (put _ _ ?x) = _ =>
      rewrite (set_task_put_run v3 p x t (f1 task) f H3) end.
    apply ret_put_eq. unfold a2, a1, h1. destruct a. reflexivity. }
  run E3. assert (E4 : iscsi_mt_spin_unlock (put v4 p a2) = Ret (tt, put v5 p a2)).
  { by apply (unlock_run (put v4 p a2)). }
  run E4. assert (H5 : tasks (put v5 p a2) !! t = Some (f2 (f1 task))) by apply lookup_insert_eq.
  run (get_task_run _ t _ H5). unfold iscsi_pdu_set_cdb. change (cdb_size (f2 (f1 task))) with (cdb_size task).
  destruct (Z.ltb_spec (cdb_size task) 0); [lia|]. destruct (Z.ltb_spec 16 (cdb_size task)); [lia|].
  cbn [orb]. match goal with |- (set_hdr _ ?f ≫= _) (put _ _ ?x) = _ =>
    run (hdr_put_run v5 p x f (scsi_set_uint32 h1 24 sn) eq_refl) end.
  apply f_equal, put_pdu_eq. unfold command_pdu, command_hdr, a2, a1, h1. destruct a. reflexivity.
Qed.

Section CommandProofs.
Context `{Transport}.

(** A new PDU goes behind those of its CmdSN or an earlier one. *)
Lemma queue_at_split v p a b q1 q2 : ready v -> (p < fresh v)%nat -> pdus v !! p = None ->
  ddata (outdata a) = Some b -> is_immediate b = false -> splits v (pdu_cmdsn a) q1 q2 ->
  exists w', iscsi_queue_pdu p (put v p a) = Ret (tt, w') /\ ready w' /\
    pdus w' = <[p := stamped v a]> (pdus v) /\ fresh w' = fresh v /\
    same_env v w' (q1 ++ p :: q2) /\ splits w' (pdu_cmdsn a) (q1 ++ [p]) q2.
Proof.
  intros Hr Hp Hnone Hb Hi (Hq & H1 & H2). pose proof Hr as [Hl Hqt Hm Hn Hlive].
  destruct (queue_new_run v p a) as (w' & E & P & F & Henv); try done;
    [by rewrite Hb|].
  rewrite Hq, insert_before_at in Henv by done. rewrite Hq in Hlive.
  assert (Hne : forall x, x ∈ q1 ++ q2 -> x <> p).
  { intros x Hx ->. rewrite Forall_forall in Hlive. destruct (Hlive p Hx) as (? & ? & ? & _). congruence. }
  assert (Hsame : forall x, x ∈ q1 ++ q2 -> pdus w' !! x = pdus v !! x).
  { intros x Hx. rewrite P. apply lookup_insert_ne. symmetry. by apply Hne. }
  assert (Hlater : forall x, x ∈ q1 ++ q2 -> later w' (pdu_cmdsn a) x = later v (pdu_cmdsn a) x).
  { intros x Hx. unfold later, the_pdu. by rewrite Hsame. }
  exists w'. split; [done|]. split; [|do 3 (split; [done|])].
  - apply (same_env_ready _ _ _ Henv Hr).
    + intros x Hx. rewrite F. rewrite P in Hx. destruct (decide (x = p)) as [->|Hx2]; [done|].
      rewrite lookup_insert_ne in Hx by done. by apply Hn.
    + assert (Hl1 : forall x, x ∈ q1 ++ q2 -> live w' x).
      { intros x Hx. rewrite Forall_forall in Hlive. unfold live. rewrite Hsame by done. by apply Hlive. }
      apply Forall_app. split; [apply Forall_forall; intros x Hx; apply Hl1; set_solver|].
      constructor; [|apply Forall_forall; intros x Hx; apply Hl1; set_solver].
      exists (stamped v a), b. by rewrite P, lookup_insert_eq.
  - split; [by rewrite (proj1 (same_env_fields _ _ _ Henv)), <- app_assoc|]. split.
    + apply Forall_app. split.
      * rewrite Forall_forall in H1 |- *. intros x Hx. rewrite Hlater by set_solver. by apply H1.
      * constructor; [|done]. unfold later, the_pdu. rewrite P, lookup_insert_eq.
        cbn [default from_option id]. change (pdu_cmdsn (stamped v a)) with (pdu_cmdsn a).
        unfold iscsi_serial32_compare. by rewrite Z.eqb_refl.
    + destruct q2 as [|x q2]; [done|]. rewrite Hlater by set_solver. done.
Qed.

(** The header of a command before its fields are set, with its immediate
    data announced. *)
Definition request_hdr (c : iscsi_context) (itt exp : Z) : bytes :=
  let h := scsi_set_uint32 (<[0%nat := u8 ISCSI_PDU_SCSI_REQUEST]>
             (zeros (Z.to_nat (ISCSI_HEADER_SIZE (header_digest c))))) 16 itt in
  if use_immediate_data c =? ISCSI_IMMEDIATE_DATA_YES
  then scsi_set_uint32 h 4 (immediate_len c exp) else h.

Lemma length_request_hdr c itt exp : (48 <= length (request_hdr c itt exp))%nat.
Proof.
  unfold request_hdr. cbv zeta. destruct (_ =? ISCSI_IMMEDIATE_DATA_YES);
    rewrite ?length_scsi_set_uint32, length_insert, length_zeros; unfold ISCSI_HEADER_SIZE;
    destruct (_ =? _); vm_compute; lia.
Qed.

Lemma request_field c itt exp :
  byte_at (request_hdr c itt exp) 0 = ISCSI_PDU_SCSI_REQUEST /\
  scsi_get_uint32 (request_hdr c itt exp) 16 = u32 itt /\
  scsi_get_uint32 (request_hdr c itt exp) 4 = u32 (immediate_len c exp).
Proof.
  unfold request_hdr, immediate_len. cbv zeta. destruct (_ =? ISCSI_IMMEDIATE_DATA_YES).
  - repeat split; hdr_field; done.
  - repeat split; hdr_field; try done. unfold scsi_get_uint32. by rewrite !byte_at_zeros.
Qed.

Lemma cdb_field_below task h i : (48 <= length h)%nat -> (i < 32)%nat ->
  0 <= cdb_size task <= 16 -> byte_at (cdb_field task h) i = byte_at h i.
Proof.
  intros Hh Hi Hs. unfold cdb_field, byte_at.
  rewrite blit_lookup by (rewrite length_blit, length_take; lia). rewrite decide_False by lia.
  rewrite blit_lookup by (rewrite length_zeros; lia). by rewrite decide_False by lia.
Qed.

Lemma cdb_field_at task h k : (48 <= length h)%nat -> (k < 16)%nat ->
  0 <= cdb_size task <= 16 -> length (cdb task) = 16%nat ->
  byte_at (cdb_field task h) (32 + k) =
  if Z.of_nat k <? cdb_size task then byte_at (cdb task) k else 0.
Proof.
  intros Hh Hk Hs Hl. unfold cdb_field, byte_at.
  rewrite blit_lookup by (rewrite length_blit, length_take; lia). rewrite length_take.
  destruct (Z.ltb_spec (Z.of_nat k) (cdb_size task)).
  - rewrite decide_True by lia. rewrite lookup_take_lt by lia. by replace (32 + k - 32)%nat with k by lia.
  - rewrite decide_False by lia. rewrite blit_lookup by (rewrite length_zeros; lia).
    rewrite length_zeros, decide_True by lia.
    exact (byte_at_zeros 16 (32 + k - 32)).
Qed.

(** What the header of a WRITE command says. *)
Record announces (h : bytes) (flags lun itt exp sn imm : Z) (task : scsi_task) : Prop := {
  an_opcode : byte_at h 0 = ISCSI_PDU_SCSI_REQUEST;
  an_flags : byte_at h 1 = flags;
  an_lun : scsi_get_uint16 h 8 = u16 lun;
  an_itt : scsi_get_uint32 h 16 = u32 itt;
  an_exp : scsi_get_uint32 h 20 = u32 exp;
  an_sn : scsi_get_uint32 h 24 = u32 sn;
  an_imm : iscsi_get_pdu_data_size h = imm;
  an_cdb k : (k < 16)%nat ->
    byte_at h (32 + k) = if Z.of_nat k <? cdb_size task then byte_at (cdb task) k else 0
}.

Lemma command_announces c itt exp flags lun sn task :
  0 <= cdb_size task <= 16 -> length (cdb task) = 16%nat ->
  0 <= immediate_len c exp < 2 ^ 24 -> 0 <= flags < 2 ^ 8 ->
  announces (command_hdr flags lun exp sn task (request_hdr c itt exp)) flags (u32 lun) itt exp sn
    (immediate_len c exp) task.
Proof.
  intros Hs Hl Himm Hf. unfold command_hdr. cbv zeta.
  destruct (request_field c itt exp) as (R0 & R1 & R2). pose proof (length_request_hdr c itt exp) as Hh.
  set (h0 := request_hdr c itt exp) in *.
  assert (Hlen : forall x y z f, length (scsi_set_uint32 (scsi_set_uint32
      (scsi_set_uint16 (<[1%nat := f]> h0) 8 x) 20 y) 24 z) = length h0).
  { intros. by rewrite !length_scsi_set_uint32, length_scsi_set_uint16, length_insert. }
  assert (Hlen2 : forall f x, (48 <= length (scsi_set_uint16 (<[1%nat := f]> h0) 8 x))%nat).
  { intros. by rewrite length_scsi_set_uint16, length_insert. }
  assert (H32 : forall (b : bytes) off, (48 <= length b)%nat -> (off + 4 <= 32)%nat ->
    scsi_get_uint32 (cdb_field task b) off = scsi_get_uint32 b off).
  { intros b off Hb Ho. apply get32_ext. intros i Hi. by apply cdb_field_below; [|lia|]. }
  split.
  - rewrite cdb_field_below by (rewrite ?Hlen; done || lia).
    by rewrite !byte_at_set32_ne, byte_at_set16_ne, byte_at_insert_ne by lia.
  - rewrite cdb_field_below by (rewrite ?Hlen; done || lia).
    rewrite !byte_at_set32_ne, byte_at_set16_ne, byte_at_insert_eq by lia. by apply u8_small.
  - rewrite (get16_ext _ (scsi_set_uint32 (scsi_set_uint32
      (scsi_set_uint16 (<[1%nat := u8 flags]> h0) 8 (u32 lun)) 20 exp) 24 sn)).
    2: { intros i Hi. apply cdb_field_below; [rewrite Hlen; done|lia|done]. }
    rewrite !get16_set32_ne by lia. rewrite get16_set16 by (rewrite length_insert; lia). done.
  - rewrite H32 by (rewrite ?Hlen; done || lia). rewrite !get32_set32_ne, get32_set16_ne, get32_insert_ne by lia.
    done.
  - rewrite H32 by (rewrite ?Hlen; done || lia). rewrite get32_set32_ne by lia.
    by rewrite get32_set32 by (specialize (Hlen2 (u8 flags) (u32 lun)); lia).
  - rewrite H32 by (rewrite ?Hlen; done || lia). rewrite get32_set32; [done|].
    rewrite length_scsi_set_uint32. specialize (Hlen2 (u8 flags) (u32 lun)). lia.
  - refine (proj1 (padding_of_dsl _ _ _ Himm)). rewrite H32 by (rewrite ?Hlen; done || lia).
    rewrite !get32_set32_ne, get32_set16_ne, get32_insert_ne by lia. rewrite R2. apply u32_small. lia.
  - intros k Hk. apply cdb_field_at; [rewrite Hlen; done|done..].
Qed.

(** The caller may send a command of task [t]. *)
Record sendable (w : world) (t : nat) (task : scsi_task) : Prop := {
  sd_ready : ready w;
  sd_old : old_iscsi (ctx w) = None;
  sd_session : session_type (ctx w) = ISCSI_SESSION_NORMAL;
  sd_login : is_loggedin (ctx w) = true \/ pending_reconnect (ctx w) = true;
  sd_itt : 0 <= itt (ctx w) < 0xffffffff;
  sd_max : 0 < target_max_recv_data_segment_length (ctx w) < 2 ^ 24;
  sd_burst : 0 <= first_burst_length (ctx w) < 2 ^ 32;
  sd_task : tasks w !! t = Some task;
  sd_cdb : 0 <= cdb_size task <= 16 /\ length (cdb task) = 16%nat;
  sd_len : 0 <= Task.expxferlen task < 2 ^ 31
}.

Lemma immediate_range c exp : 0 <= exp -> 0 <= first_burst_length c ->
  0 < target_max_recv_data_segment_length c < 2 ^ 24 ->
  0 <= immediate_len c exp < 2 ^ 24 /\ immediate_len c exp <= exp /\
  immediate_len c exp <= first_burst_length c.
Proof. intros. unfold immediate_len. rewrite !MIN_spec. destruct (_ =? _); lia. Qed.

(** The command queued, before its unsolicited data. *)
Definition queued_command (w : world) (lun : Z) (task : scsi_task) (cb : option nat) (priv : Z)
  (c : iscsi_pdu) : Prop :=
  let imm := immediate_len (ctx w) (Task.expxferlen task) in
  exists h, ddata (outdata c) = Some h /\
    announces h (write_flags (is_final (ctx w) (Task.expxferlen task))) (u32 lun) (itt (ctx w))
      (Task.expxferlen task) (cmdsn (ctx w)) imm task /\
    payload_offset c = 0 /\ payload_len c = imm /\ pdu_cmdsn c = cmdsn (ctx w) /\
    pdu_itt c = itt (ctx w) /\ pdu_lun c = u32 lun /\ pdu_expxferlen c = Task.expxferlen task /\
    response_opcode c = ISCSI_PDU_SCSI_RESPONSE /\ pdu_callback c = Some Cb_scsi_response /\
    cbdata_callback c = cb /\ cbdata_private_data c = priv.

(** The command queued, for any direction; for a WRITE it is
    [queued_command]. *)
Definition queued_any (w : world) (lun : Z) (task : scsi_task) (cb : option nat) (priv : Z)
  (c : iscsi_pdu) : Prop :=
  let ph := phase task (ctx w) in
  let imm := immediate_len ph (Task.expxferlen task) in
  exists h, ddata (outdata c) = Some h /\
    announces h (phase_flags task (is_final ph (Task.expxferlen task))) (u32 lun) (itt (ctx w))
      (Task.expxferlen task) (cmdsn (ctx w)) imm task /\
    payload_offset c = 0 /\ payload_len c = imm /\ pdu_cmdsn c = cmdsn (ctx w) /\
    pdu_itt c = itt (ctx w) /\ pdu_lun c = u32 lun /\ pdu_expxferlen c = Task.expxferlen task /\
    response_opcode c = ISCSI_PDU_SCSI_RESPONSE /\ pdu_callback c = Some Cb_scsi_response /\
    cbdata_callback c = cb /\ cbdata_private_data c = priv.

Lemma queued_write w lun task cb priv c : xfer_dir task = SCSI_XFER_WRITE ->
  queued_any w lun task cb priv c -> queued_command w lun task cb priv c.
Proof.
  intros Hd. unfold queued_any, queued_command, phase_flags. rewrite (phase_write task _ Hd), Hd.
  by rewrite Z.eqb_refl.
Qed.

(** What sending a command changes besides the queue and the PDUs. *)
Record command_frame (w w' : world) (t : nat) (task : scsi_task) (lun : Z) (d : option scsi_iovec) : Prop := {
  cf_ctx : exists m, ctx w' = (ctx w) <| itt := (itt (ctx w) + 1) mod 0xffffffff |>
    <| mallocs := m |> <| cmdsn := u32 (cmdsn (ctx w) + 1) |> <| outqueue := outqueue (ctx w') |>;
  cf_tasks : exists task', tasks w' = <[t := task']> (tasks w) /\ same_command task task' /\
    task_itt task' = itt (ctx w) /\ task_cmdsn task' = cmdsn (ctx w) /\ task_lun task' = u32 lun /\
    iovector_out task' = vector_out d task;
  cf_env : alloc_ok w' = alloc_ok w /\ now w' = now w /\ have_mt w' = have_mt w /\
    have_pthread w' = have_pthread w /\ connects w' = connects w;
  cf_trace : wakeups w w'
}.

(** The PDU of a command before its fields are set. *)
Definition blank_command (w : world) (t : nat) (cb : option nat) (priv : Z) : iscsi_pdu :=
  (blank_pdu (header_digest (ctx w)) ISCSI_PDU_SCSI_REQUEST ISCSI_PDU_SCSI_RESPONSE (itt (ctx w)) 0)
    <| cbdata_task := Some t |> <| cbdata_callback := cb |> <| cbdata_private_data := priv |>
    <| payload_offset := 0 |> <| payload_len := 0 |>.

Definition begun_command (w : world) (t : nat) (task : scsi_task) (cb : option nat) (priv : Z) : iscsi_pdu :=
  with_immediate (phase task (ctx w)) (Task.expxferlen task) (blank_command w t cb priv).

Lemma begun_hdr w t task cb priv : ddata (outdata (begun_command w t task cb priv)) =
  Some (request_hdr (phase task (ctx w)) (itt (ctx w)) (Task.expxferlen task)).
Proof.
  unfold begun_command, with_immediate, request_hdr, phase. cbv zeta.
  destruct (_ =? SCSI_XFER_WRITE); [|done]. by destruct (_ =? ISCSI_IMMEDIATE_DATA_YES).
Qed.

Lemma begun_fields w t task cb priv :
  let a := begun_command w t task cb priv in
  cbdata_task a = Some t /\ pdu_datasn a = 0 /\ pdu_itt a = itt (ctx w) /\ payload_offset a = 0 /\
  payload_len a = immediate_len (phase task (ctx w)) (Task.expxferlen task) /\
  response_opcode a = ISCSI_PDU_SCSI_RESPONSE /\ cbdata_callback a = cb /\ cbdata_private_data a = priv.
Proof.
  unfold begun_command, with_immediate, immediate_len. cbv zeta.
  by destruct (_ =? ISCSI_IMMEDIATE_DATA_YES).
Qed.

(** The world in which the fields of the command are set. *)
Definition started (w : world) (n t : nat) (task : scsi_task) : world :=
  w <| ctx ::= fun c => c <| itt := (itt (ctx w) + 1) mod 0xffffffff |> <| mallocs := 1 + (1 + mallocs c) |> |>
    <| alloc_n := n |> <| fresh ::= S |> <| tasks ::= <[t := task]> |>.

(** [scsi_command_here] from the flags on. *)
Definition command_rest (p t : nat) (lun exp flags : Z) : IO Z :=
  _ ← iscsi_pdu_set_pduflags p flags;
  _ ← set_pdu p (fun pdu => pdu <| pdu_callback := Some Cb_scsi_response |>
        <| private_data := 0 |>);
  _ ← iscsi_pdu_set_lun p (u32 lun);
  _ ← set_pdu p (fun pdu => pdu <| pdu_lun := u32 lun |>);
  _ ← set_task t (fun task => task <| task_lun := u32 lun |>);
  _ ← iscsi_pdu_set_expxferlen p exp;
  _ ← iscsi_mt_spin_lock;
  sn ← get_ctx cmdsn;
  _ ← set_ctx (fun c => c <| cmdsn := u32 (sn + 1) |>);
  _ ← iscsi_pdu_set_cmdsn p sn;
  _ ← iscsi_mt_spin_unlock;
  task ← get_task t;
  _ ← iscsi_pdu_set_cdb p task;
  _ ← iscsi_queue_pdu p;
  _ ← when (negb (truth (flags &&& ISCSI_PDU_SCSI_FINAL)))
        (_ ← iscsi_send_unsolicited_data_out p; mret tt);
  mret 0.

Lemma command_start_run w t task lun cb d priv : sendable w t task ->
  exists n task1, (same_command task task1 /\ iovector_out task1 = vector_out d task) /\
    scsi_command_here lun t cb d priv w =
    command_rest (fresh w) t lun (Task.expxferlen task)
      (phase_flags task (is_final (phase task (ctx w)) (Task.expxferlen task)))
      (put (started w n t task1) (fresh w) (begun_command w t task cb priv)).
Proof.
  intros [Hr Hold Hses Hlog Hitt Hmax Hfbl Htask Hcdb Hexp]. pose proof Hr as [Hl _ Hm _ _].
  set (p := fresh w). assert (Hu : u32 (Task.expxferlen task) = Task.expxferlen task) by (apply u32_small; lia).
  destruct (set_data_out_run w t d task Hm Htask) as (n & task0 & E0 & [Dx Dl Dc Ds] & Dv).
  set (w0 := w <| alloc_n := n |> <| tasks ::= <[t := task0]> |>) in E0.
  set (w1 := w0 <| ctx ::= fun c => c <| itt := (itt c + 1) mod 0xffffffff |> |>).
  assert (E1 : iscsi_itt_post_increment w0 = Ret (itt (ctx w), w1)) by (by rewrite itt_post_increment_run).
  set (f1 := fun pdu : iscsi_pdu => pdu <| cbdata_task := Some t |> <| cbdata_callback := cb |>
            <| cbdata_private_data := priv |> <| payload_offset := 0 |> <| payload_len := 0 |>).
  set (a0 := blank_pdu (header_digest (ctx w)) ISCSI_PDU_SCSI_REQUEST ISCSI_PDU_SCSI_RESPONSE (itt (ctx w)) 0).
  assert (E2 : iscsi_allocate_pdu ISCSI_PDU_SCSI_REQUEST ISCSI_PDU_SCSI_RESPONSE (itt (ctx w)) 0 w1 =
    Ret (Some p, put (allocated w1) p a0)).
  { rewrite allocate_pdu_run; [done|apply Hm|apply Hm|done]. }
  set (task1 := scsi_set_task_private_ptr task0 (Some p)).
  exists (alloc_n (allocated w1)), task1. split; [split; [by split|exact Dv]|].
  assert (Ev : (allocated w1) <| tasks ::= <[t := task1]> |> = started w (alloc_n (allocated w1)) t task1).
  { apply world_stores_eq; [done|done|]. apply insert_insert_eq. }
  unfold scsi_command_here.
  assert (Hget : forall k : world -> IO Z, (getS ≫= k) w = k w w) by done. rewrite Hget. cbv zeta.
  rewrite Hses, Z.eqb_refl. cbn [negb].
  assert (Hlg : negb (is_loggedin (ctx w)) && negb (pending_reconnect (ctx w)) = false).
  { destruct Hlog as [-> | ->]; [done|apply andb_false_r]. }
  rewrite Hlg. run E0. cbn [negb]. run E1. run E2. fold f1. run (set_put_run (allocated w1) p a0 f1).
  assert (T1 : tasks (allocated w1) !! t = Some task0) by apply lookup_insert_eq.
  run (set_task_put_run (allocated w1) p (f1 a0) t task0 (fun task => scsi_set_task_private_ptr task (Some p)) T1).
  fold task1. rewrite Ev. set (v := started w _ t task1).
  assert (T2 : tasks (put v p (f1 a0)) !! t = Some task1) by apply lookup_insert_eq.
  run (get_task_run _ t _ T2). run (command_flags_run v p (f1 a0) task1 eq_refl ltac:(by eexists)).
  unfold begun_command, phase, phase_flags. change (Task.expxferlen task1) with (Task.expxferlen task0).
  change (xfer_dir task1) with (xfer_dir task0). rewrite Dx, Dl, Hu. by destruct (_ =? SCSI_XFER_WRITE).
Qed.

(** The command before it is queued: everything is that of [w] but the
    counters and the task. *)
Record dressed (w v : world) (t : nat) (task : scsi_task) (lun : Z) (d : option scsi_iovec) : Prop := {
  dr_ctx : ctx v = (ctx w) <| itt := (itt (ctx w) + 1) mod 0xffffffff |>
      <| mallocs := 1 + (1 + mallocs (ctx w)) |> <| cmdsn := u32 (cmdsn (ctx w) + 1) |>;
  dr_pdus : pdus v = pdus w;
  dr_fresh : fresh v = S (fresh w);
  dr_tasks : exists task', tasks v = <[t := task']> (tasks w) /\ same_command task task' /\
    task_itt task' = itt (ctx w) /\ task_cmdsn task' = cmdsn (ctx w) /\ task_lun task' = u32 lun /\
    iovector_out task' = vector_out d task;
  dr_env : alloc_ok v = alloc_ok w /\ now v = now w /\ have_mt v = have_mt w /\
    have_pthread v = have_pthread w /\ connects v = connects w /\ trace v = trace w
}.

Lemma dressed_ready w v t task lun d : dressed w v t task lun d -> ready w -> ready v.
Proof.
  intros [Ec Ep Ef _ (Ea & _ & Em & Et & _)] [Hl Hqt Hm Hn Hlive]. split.
  - unfold unlocked. by rewrite Ec.
  - destruct Hqt as [Hqt|Hqt]; [left|by right]. by rewrite Ec, Em, Et.
  - intros n. by rewrite Ea.
  - intros x Hx. rewrite Ef. rewrite Ep in Hx. apply Hn in Hx. lia.
  - rewrite Ec. eapply Forall_impl; [exact Hlive|]. unfold live. by rewrite Ep.
Qed.

Lemma command_dress_run w n t task task1 lun cb d priv : sendable w t task ->
  same_command task task1 /\ iovector_out task1 = vector_out d task ->
  0 <= cmdsn (ctx w) < 2 ^ 32 ->
  let exp := Task.expxferlen task in
  let flags := phase_flags task (is_final (phase task (ctx w)) exp) in
  exists v c, dressed w v t task lun d /\ queued_any w lun task cb priv c /\ cbdata_task c = Some t /\
    pdu_datasn c = 0 /\
    command_rest (fresh w) t lun exp flags (put (started w n t task1) (fresh w) (begun_command w t task cb priv)) =
    (_ ← iscsi_queue_pdu (fresh w);
     _ ← when (negb (truth (flags &&& ISCSI_PDU_SCSI_FINAL)))
           (_ ← iscsi_send_unsolicited_data_out (fresh w); mret tt);
     mret 0) (put v (fresh w) c).
Proof.
  intros [Hr Hold Hses Hlog Hitt Hmax Hfbl Htask [Hcs Hcl] Hexp] Hsc Hsn exp flags.
  assert (Hph : 0 <= first_burst_length (phase task (ctx w)) /\
    0 < target_max_recv_data_segment_length (phase task (ctx w)) < 2 ^ 24).
  { unfold phase. destruct (_ =? SCSI_XFER_WRITE); (split; [apply Hfbl|apply Hmax]). }
  pose proof Hsc as [[Dx Dl Dc Ds] Dv]. set (v := started w n t task1).
  set (a := begun_command w t task cb priv). pose proof (begun_hdr w t task cb priv) as Ha. fold a exp in Ha.
  destruct (begun_fields w t task cb priv) as (Ht & Hd & Hi & Hpo & Hpl & Hro & Hcb & Hpr). fold a in Ht, Hd, Hi, Hpo, Hpl, Hro, Hcb, Hpr. fold exp in Hpl.
  unfold command_rest.
  match goal with |- context [iscsi_queue_pdu (fresh w) ≫= ?k] => set (K := iscsi_queue_pdu (fresh w) ≫= k) end.
  set (hd := request_hdr (phase task (ctx w)) (itt (ctx w)) exp) in *.
  destruct (command_fields_run K v (fresh w) t a hd flags lun task1 exp) as (v' & task' & T & Ev & Et & E);
    [apply Hr|exact Ha|exact Ht|apply lookup_insert_eq|by rewrite Ds|].
  set (sn := cmdsn (ctx w)) in *. change (cmdsn (ctx v)) with sn in *.
  exists v', (command_pdu flags lun exp sn task1 hd a). split; [|split; [|split; [exact Ht|split; [exact Hd|exact E]]]].
  - split; [by rewrite Ev|by rewrite Ev|by rewrite Ev| |by rewrite Ev].
    exists task'. split; [rewrite T; apply insert_insert_eq|]. rewrite Et, Hi. by split; [split|].
  - unfold queued_any. cbv zeta. fold exp flags sn.
    exists (command_hdr flags lun exp sn task1 hd). split; [done|]. split; [|by rewrite <- Hpl, <- Hpo, <- Hro, <- Hi].
    destruct (immediate_range (phase task (ctx w)) exp) as (Himm & _); [lia|apply Hph|apply Hph|].
    destruct (command_announces (phase task (ctx w)) (itt (ctx w)) exp flags lun sn task1) as [? ? ? ? ? ? ? Hk];
      [by rewrite Ds|by rewrite Dc|done| |].
    { unfold flags, phase_flags, write_flags. repeat case_match; vm_compute; split; congruence. }
    split; try done. intros k Hk'. rewrite Hk by done. by rewrite Ds, Dc.
Qed.

Lemma write_flags_final final : negb (truth (write_flags final &&& ISCSI_PDU_SCSI_FINAL)) = negb final.
Proof. by destruct final. Qed.

Lemma phase_flags_final task c exp :
  let final := is_final (phase task c) exp in
  negb (truth (phase_flags task final &&& ISCSI_PDU_SCSI_FINAL)) = negb final.
Proof.
  cbv zeta. unfold phase, phase_flags. destruct (_ =? SCSI_XFER_WRITE); [apply write_flags_final|].
  by destruct (_ =? SCSI_XFER_READ).
Qed.

(** [scsi_command_here] up to the unsolicited data. *)
Record command_queued (w w' : world) (t : nat) (task : scsi_task) (lun : Z) (cb : option nat)
  (d : option scsi_iovec) (priv : Z) (q1 q2 : list nat) (c : iscsi_pdu) : Prop := {
  cq_queued : queued_any w lun task cb priv c;
  cq_task : cbdata_task c = Some t;
  cq_datasn : pdu_datasn c = 0;
  cq_pdus : pdus w' = <[fresh w := c]> (pdus w);
  cq_ready : ready w';
  cq_fresh : fresh w' = S (fresh w);
  cq_splits : splits w' (cmdsn (ctx w)) (q1 ++ [fresh w]) q2;
  cq_frame : command_frame w w' t task lun d
}.

Lemma command_queue_run w t task lun cb d priv q1 q2 :
  sendable w t task -> 0 <= cmdsn (ctx w) < 2 ^ 32 -> splits w (cmdsn (ctx w)) q1 q2 ->
  exists w' c, command_queued w w' t task lun cb d priv q1 q2 c /\
    scsi_command_here lun t cb d priv w =
    (_ ← when (negb (is_final (phase task (ctx w)) (Task.expxferlen task)))
           (_ ← iscsi_send_unsolicited_data_out (fresh w); mret tt);
     mret 0) w'.
Proof.
  intros Hs Hsn Hsp. pose proof Hs as [Hr _ _ _ _ _ _ _ _ _].
  destruct (command_start_run w t task lun cb d priv Hs) as (n & task1 & Hsc & E0).
  destruct (command_dress_run w n t task task1 lun cb d priv Hs Hsc Hsn) as (v & c & Hv & Hq & Ht & Hd & E1).
  pose proof (dressed_ready w v t task lun d Hv Hr) as Hrv.
  destruct Hv as [Ec Ep Ef Et (Ea & En & Em & Eh & Ek & Etr)]. pose proof Hq as (h & Hh & Han & _ & _ & Hpc & _).
  destruct (queue_at_split v (fresh w) c h q1 q2 Hrv) as (w' & E & Hr' & P' & F' & Env & Sp').
  - rewrite Ef. lia.
  - rewrite Ep. apply eq_None_not_Some. intros Hx. apply (rd_names _ Hr) in Hx. lia.
  - exact Hh.
  - unfold is_immediate. by rewrite (an_opcode _ _ _ _ _ _ _ _ Han).
  - rewrite Hpc. unfold splits, later, the_pdu. rewrite Ec, Ep. exact Hsp.
  - exists w', (stamped v c). split.
    + destruct (same_env_fields _ _ _ Env) as (Eq & _). destruct Env as ((m & C) & T & A & N & Hm & Hp & K & e & R & Fw).
      split; [exact Hq|exact Ht|exact Hd|by rewrite P', Ep|exact Hr'|by rewrite F', Ef|by rewrite <- Hpc|].
      split; [exists m; by rewrite Eq, C, Ec|by rewrite T| |exists e; by rewrite R, Etr].
      rewrite A, N, Hm, Hp, K. done.
    + rewrite E0, E1, phase_flags_final. by run E.
Qed.

(** The bytes sent as DATA-OUT without an R2T. *)
Definition unsolicited_len (c : iscsi_context) (exp : Z) : Z :=
  if is_final c exp then 0 else MIN exp (first_burst_length c) - immediate_len c exp.

Lemma unsolicited_range c exp : 0 <= exp < 2 ^ 31 -> 0 <= first_burst_length c ->
  0 < target_max_recv_data_segment_length c < 2 ^ 24 ->
  0 <= unsolicited_len c exp /\
  (is_final c exp = false -> 0 < unsolicited_len c exp) /\
  immediate_len c exp + unsolicited_len c exp <= exp /\
  immediate_len c exp + unsolicited_len c exp <= first_burst_length c.
Proof.
  intros He Hf Hm. pose proof (immediate_range c exp ltac:(lia) Hf Hm) as (H0 & H1 & H2).
  unfold unsolicited_len. destruct (is_final c exp) eqn:E; [split; [lia|split; [done|lia]]|].
  rewrite MIN_spec. unfold is_final in E. apply negb_false_iff in E.
  apply andb_true_iff in E as [E E2]. apply andb_true_iff in E as [_ E1].
  apply Z.ltb_lt in E1, E2. lia.
Qed.

Lemma phase_range task w t : sendable w t task -> let c := phase task (ctx w) in
  0 <= first_burst_length c < 2 ^ 32 /\ 0 < target_max_recv_data_segment_length c < 2 ^ 24 /\
  first_burst_length c = first_burst_length (ctx w).
Proof. intros [_ _ _ _ _ ? ? _ _ _]. unfold phase. by destruct (_ =? SCSI_XFER_WRITE). Qed.

(** What is sent without an R2T, and in how many PDUs. *)
Definition unsolicited (w : world) (task : scsi_task) : Z :=
  unsolicited_len (phase task (ctx w)) (Task.expxferlen task).
Definition train_length (w : world) (task : scsi_task) : nat :=
  Z.to_nat (turns (target_max_recv_data_segment_length (ctx w)) (unsolicited w task)).

(** A command with its immediate data and its train of Data-Out PDUs. *)
Record command_sent (w w' : world) (t : nat) (task : scsi_task) (lun : Z) (cb : option nat)
  (d : option scsi_iovec) (priv : Z) (q1 q2 : list nat) (c : iscsi_pdu) : Prop := {
  st_queued : queued_any w lun task cb priv c;
  st_task : cbdata_task c = Some t;
  st_pdu : pdus w' !! fresh w = Some c;
  st_queue : outqueue (ctx w') = q1 ++ fresh w :: seq (S (fresh w)) (train_length w task) ++ q2;
  st_train i : (i < train_length w task)%nat ->
    let max := target_max_recv_data_segment_length (ctx w) in
    let left := unsolicited w task - Z.of_nat i * max in
    exists pdu h, pdus w' !! (S (fresh w) + i)%nat = Some pdu /\
      carries c pdu 0xffffffff (Z.of_nat i)
        (immediate_len (phase task (ctx w)) (Task.expxferlen task) + Z.of_nat i * max)
        (MIN left max) (left <=? max) h;
  st_old x : (x < fresh w)%nat -> pdus w' !! x = pdus w !! x;
  st_fresh : fresh w' = (S (fresh w) + train_length w task)%nat;
  st_ready : ready w';
  st_frame : command_frame w w' t task lun d
}.

Lemma command_frame_env w w1 w2 t task lun d q : command_frame w w1 t task lun d -> same_env w1 w2 q ->
  command_frame w w2 t task lun d.
Proof.
  intros [(m & C) T (A & N & Hm & Hp & K) (e & R & F)] Env. destruct (same_env_fields _ _ _ Env) as (Eq & _).
  destruct Env as ((m2 & C2) & T2 & A2 & N2 & Hm2 & Hp2 & K2 & e2 & R2 & F2).
  split; [exists m2; by rewrite Eq, C2, C|by rewrite T2|rewrite A2, N2, Hm2, Hp2, K2; done|].
  exists (e ++ e2). split; [by rewrite R2, R, app_assoc|by apply Forall_app].
Qed.

(** The unsolicited data of a command just queued. *)
Lemma unsolicited_run w w1 t task lun cb d priv q1 q2 c : sendable w t task ->
  command_queued w w1 t task lun cb d priv q1 q2 c ->
  is_final (phase task (ctx w)) (Task.expxferlen task) = false ->
  exists w2, iscsi_send_unsolicited_data_out (fresh w) w1 = Ret (0, w2) /\
    command_sent w w2 t task lun cb d priv q1 q2 (counted (Z.of_nat (train_length w task)) c).
Proof.
  intros Hs [Hq Hct Hdn P Hr1 F Sp Hf] Ef. destruct (phase_range task w t Hs) as (Pf & Pm & Pb).
  pose proof Hs as [Hr _ _ _ _ Hmax Hfbl _ _ Hexp]. set (exp := Task.expxferlen task) in *.
  set (ph := phase task (ctx w)) in *. set (imm := immediate_len ph exp).
  destruct (unsolicited_range ph exp Hexp) as (R0 & R1 & R2 & R3); [lia|done|]. fold imm in R2, R3.
  destruct (immediate_range ph exp) as (I0 & I1 & I2); [lia|lia|done|]. fold imm in I0, I1, I2.
  change (unsolicited_len ph exp) with (unsolicited w task) in *. set (rest := unsolicited w task) in *.
  assert (Hrest : rest = MIN exp (first_burst_length ph) - imm)
    by (unfold rest, unsolicited, unsolicited_len; fold ph exp; by rewrite Ef).
  assert (Hcl : pdus w1 !! fresh w = Some c) by (by rewrite P, lookup_insert_eq).
  pose proof Hq as (h & Hh & Han & Hpo & Hpl & Hpc & Hpi & Hpu & Hpx & Hq'). pose proof Sp as (Sq & S1 & S2).
  rewrite <- Hpc in S1, S2. change (payload_len c = imm) in Hpl.
  assert (Hmx : target_max_recv_data_segment_length (ctx w1) = target_max_recv_data_segment_length (ctx w) /\
    first_burst_length (ctx w1) = first_burst_length (ctx w)).
  { destruct (cf_ctx _ _ _ _ _ _ Hf) as [m Ec]. by rewrite Ec. }
  destruct Hmx as [Mx Fb]. set (max := target_max_recv_data_segment_length (ctx w)) in *.
  destruct (data_out_loop_run (Z.to_nat rest) w1 (fresh w) c 0xffffffff imm rest (q1 ++ [fresh w]) q2)
    as (w2 & E2 & [F2 Env2 C2 O2 N2 Rd2]); try done; [rewrite Hdn; lia|by rewrite Mx; apply Hmax|lia|lia|lia|].
  rewrite Mx in F2, Env2, C2, N2. fold max in F2, Env2, C2, N2. exists w2. split.
  - unfold iscsi_send_unsolicited_data_out. run (get_pdu_run w1 (fresh w) c Hcl).
    run (get_ctx_run first_burst_length w1). cbv zeta. rewrite Fb, Hpl, Hpx. fold exp.
    rewrite <- Pb. fold ph. rewrite <- Hrest, u32_small by lia. exact E2.
  - destruct (same_env_fields _ _ _ Env2) as (Eq & _). split; try done.
    + rewrite Eq, F, <- app_assoc. done.
    + intros i Hi. cbv zeta. fold max rest ph exp imm.
      destruct (chunk_range max rest (Z.of_nat i)) as [Ra Rb]; [exact Hmax|lia|unfold train_length in Hi; fold max rest in Hi; lia|].
      eexists _, _. split; [rewrite <- F; apply (N2 i Hi)|]. unfold train_pdu. cbv zeta.
      assert (Hd : pdu_datasn (counted (Z.of_nat i) c) = Z.of_nat i).
      { cbn. rewrite Hdn. apply u32_small. nia. }
      apply (carries_stamped w1 (counted (Z.of_nat (train_length w task)) c)
        (u32 (pdu_datasn c + Z.of_nat i)) _ _ _ _ _ _ _ _ Hd).
      apply data_out_carries; [rewrite Hd; nia|nia|nia].
    + intros x Hx. rewrite O2 by lia. rewrite P. apply lookup_insert_ne. lia.
    + rewrite F2, F. reflexivity.
    + exact (command_frame_env _ _ _ _ _ _ _ _ Hf Env2).
Qed.

Lemma command_run (w : world) (t : nat) (task : scsi_task) (lun : Z) (cb : option nat)
  (d : option scsi_iovec) (priv : Z) (q1 q2 : list nat) :
  sendable w t task -> 0 <= cmdsn (ctx w) < 2 ^ 32 -> splits w (cmdsn (ctx w)) q1 q2 ->
  exists w' c, iscsi_scsi_command_async lun t cb d priv w = Ret (0, w') /\
    command_sent w w' t task lun cb d priv q1 q2 c.
Proof.
  intros Hs Hsn Hsp. destruct (command_queue_run w t task lun cb d priv q1 q2 Hs Hsn Hsp) as (w1 & c & Hq & E).
  unfold iscsi_scsi_command_async. run (get_ctx_run old_iscsi w). rewrite (sd_old _ _ _ Hs), E.
  destruct (is_final (phase task (ctx w)) (Task.expxferlen task)) eqn:Ef; cbn [negb when].
  - assert (E0 : train_length w task = 0%nat).
    { unfold train_length, unsolicited, unsolicited_len. rewrite Ef, turns_0; [done|apply (sd_max _ _ _ Hs)]. }
    destruct Hq as [Hq Hct Hdn P Hr1 F (Sq & _ & _) Hf]. exists w1, c. split; [done|].
    split; try done; rewrite ?E0; [by rewrite P, lookup_insert_eq|by rewrite Sq, <- app_assoc|lia| |by rewrite Nat.add_0_r].
    intros x Hx. rewrite P. apply lookup_insert_ne. lia.
  - destruct (unsolicited_run w w1 t task lun cb d priv q1 q2 c Hs Hq Ef) as (w2 & Eu & Hsent).
    assert (Eu2 : (_ ← iscsi_send_unsolicited_data_out (fresh w); mret tt) w1 = Ret (tt, w2)) by (by run Eu).
    run Eu2. by eexists w2, _.
Qed.

(** The same for a WRITE command. *)
Lemma write_command_run (w : world) (t : nat) (task : scsi_task) (lun : Z)
  (cb : option nat) (d : option scsi_iovec) (priv : Z) (q1 q2 : list nat)
  (Hs : sendable w t task) (Hdir : xfer_dir task = SCSI_XFER_WRITE)
  (Hsn : 0 <= cmdsn (ctx w) < 2 ^ 32) (Hsp : splits w (cmdsn (ctx w)) q1 q2) :
  let exp := Task.expxferlen task in
  let imm := immediate_len (ctx w) exp in
  let max := target_max_recv_data_segment_length (ctx w) in
  let rest := unsolicited_len (ctx w) exp in
  let n := Z.to_nat (turns max rest) in
  exists w' c, iscsi_scsi_command_async lun t cb d priv w = Ret (0, w') /\
    outqueue (ctx w') = q1 ++ fresh w :: seq (S (fresh w)) n ++ q2 /\
    pdus w' !! fresh w = Some c /\ queued_command w lun task cb priv c /\ cbdata_task c = Some t /\
    imm + rest <= exp /\ imm + rest <= first_burst_length (ctx w) /\
    (forall i, (i < n)%nat -> exists pdu h, pdus w' !! (S (fresh w) + i)%nat = Some pdu /\
       carries c pdu 0xffffffff (Z.of_nat i) (imm + Z.of_nat i * max)
         (MIN (rest - Z.of_nat i * max) max) (rest - Z.of_nat i * max <=? max) h) /\
    cmdsn (ctx w') = u32 (cmdsn (ctx w) + 1) /\
    (exists task', tasks w' !! t = Some task' /\ task_itt task' = itt (ctx w) /\
       task_cmdsn task' = cmdsn (ctx w) /\ task_lun task' = u32 lun /\
       iovector_out task' = vector_out d task) /\
    (forall x, (x < fresh w)%nat -> pdus w' !! x = pdus w !! x).
Proof.
  intros exp imm max rest n. pose proof Hs as [_ _ _ _ _ Hmax Hfbl _ _ Hexp].
  destruct (unsolicited_range (ctx w) exp Hexp) as (_ & _ & R2 & R3); [lia|done|].
  destruct (command_run w t task lun cb d priv q1 q2 Hs Hsn Hsp) as (w' & c & E & [Hq Hct P Q T O F R [(m & C) Ht _ _]]).
  unfold train_length, unsolicited in *. rewrite (phase_write task (ctx w) Hdir) in *.
  exists w', c. split; [exact E|]. split; [exact Q|]. split; [exact P|].
  split; [by apply queued_write|]. split; [exact Hct|]. split; [exact R2|]. split; [exact R3|]. split; [exact T|].
  split; [by rewrite C|]. split; [|exact O].
  destruct Ht as (task' & Et & _ & Hi). exists task'. split; [by rewrite Et, lookup_insert_eq|exact Hi].
Qed.

(** C1: Sending a WRITE command on a logged-in session queues one SCSI Command PDU that
    announces its CDB, tags, LUN and length and carries the immediate data, directly
    followed by a train of Data-Out PDUs with TTT 0xffffffff whose DataSN, offset,
    length and F bit cover the unsolicited data exactly; immediate and unsolicited data
    together exceed neither the transfer length nor FirstBurstLength, one CmdSN is
    consumed, and the data are taken from the caller's buffer where one is given. *)
Theorem write_command_data_phase (w : world) (t : nat) (task : scsi_task) (lun : Z)
  (cb : option nat) (d : option scsi_iovec) (priv : Z) (q1 q2 : list nat)
  (Hs : sendable w t task) (Hdir : xfer_dir task = SCSI_XFER_WRITE)
  (Hsn : 0 <= cmdsn (ctx w) < 2 ^ 32) (Hsp : splits w (cmdsn (ctx w)) q1 q2) :
  let exp := Task.expxferlen task in
  let imm := immediate_len (ctx w) exp in
  let max := target_max_recv_data_segment_length (ctx w) in
  let rest := unsolicited_len (ctx w) exp in
  let n := Z.to_nat (turns max rest) in
  exists w' c, iscsi_scsi_command_async lun t cb d priv w = Ret (0, w') /\
    outqueue (ctx w') = q1 ++ fresh w :: seq (S (fresh w)) n ++ q2 /\
    pdus w' !! fresh w = Some c /\ queued_command w lun task cb priv c /\ cbdata_task c = Some t /\
    imm + rest <= exp /\ imm + rest <= first_burst_length (ctx w) /\
    (forall i, (i < n)%nat -> exists pdu h, pdus w' !! (S (fresh w) + i)%nat = Some pdu /\
       carries c pdu 0xffffffff (Z.of_nat i) (imm + Z.of_nat i * max)
         (MIN (rest - Z.of_nat i * max) max) (rest - Z.of_nat i * max <=? max) h) /\
    cmdsn (ctx w') = u32 (cmdsn (ctx w) + 1) /\
    (exists task', tasks w' !! t = Some task' /\ task_itt task' = itt (ctx w) /\
       task_cmdsn task' = cmdsn (ctx w) /\ task_lun task' = u32 lun /\
       iovector_out task' = vector_out d task) /\
    (forall x, (x < fresh w)%nat -> pdus w' !! x = pdus w !! x).
Proof. exact (write_command_run w t task lun cb d priv q1 q2 Hs Hdir Hsn Hsp). Qed.
End CommandProofs.

(** Task 10 writes 20000 bytes. *)
Definition sample_write_task : scsi_task :=
  new_task <| cdb := [0x2a; 0; 0; 0; 0; 0; 0; 0; 40; 0; 0; 0; 0; 0; 0; 0] |> <| cdb_size := 10 |>
    <| xfer_dir := SCSI_XFER_WRITE |> <| Task.expxferlen := 20000 |>.

Definition sample_idle : world :=
  sample_world <| tasks := {[ 10%nat := sample_write_task ]} |>
    <| ctx ::= fun c => c <| multithreading_enabled := true |> |>.

Lemma write_command_data_phase_witness :
  exists w' c, @iscsi_scsi_command_async sample_transport 0 10 (Some 7%nat) None 0 sample_idle
      = Ret (0, w') /\ outqueue (ctx w') = [1; 2; 3]%nat /\
    pdus w' !! 1%nat = Some c /\ payload_len c = 8192 /\ cmdsn (ctx w') = 6 /\
    exists pdu h, pdus w' !! 3%nat = Some pdu /\ carries c pdu 0xffffffff 1 16384 3616 true h.
Proof.
  destruct (@write_command_data_phase sample_transport sample_idle 10 sample_write_task 0
    (Some 7%nat) None 0 [] []) as (w' & c & E & Q & P & (h & _ & _ & _ & L & _) & _ & _ & _ & D & S & _).
  - assert (Hr : @ready sample_transport sample_idle).
    { split; try done; [by left|]. intros x [a Ha].
      assert (pdus sample_idle !! x = None) by apply lookup_empty. congruence. }
    split; [exact Hr|done|done|by left|cbn; lia|cbn; lia|cbn; lia|done| |cbn; lia].
    split; [cbn; lia|done].
  - reflexivity.
  - cbn. lia.
  - split; [reflexivity|]. by split.
  - exists w', c. split; [exact E|]. split; [exact Q|]. split; [exact P|]. split; [exact L|].
    split; [exact S|]. destruct (D 1%nat) as (pdu & hd & P1 & C1); [vm_compute; lia|].
    exists pdu, hd. split; [exact P1|exact C1].
Defined.
