(* ===== verification/Tasks.v ===== *)
(** The SCSI commands of the application (the iscsi_*_task functions of
    src/lib/iscsi-command.c): each builds the CDB of one command, attaches the
    caller's buffer or io vector, and sends the task.

    [lun], [cb] and [private], which all functions take, come first; the rest
    are the arguments of the C function in its order.  A buffer is its address,
    0 for NULL. *)

From S2P Require Import SList Prelude Bytes Task Cdb CdbUnmarshall DataIn ModePages Context Pdu Queue Complete Cancel Iovec Command.

Definition SCSI_SANITIZE_BLOCK_ERASE : Z := 0x02.
Definition SCSI_SANITIZE_CRYPTO_ERASE : Z := 0x03.
Definition SCSI_SANITIZE_EXIT_FAILURE_MODE : Z := 0x1f.

(** ** The common parts *)

(** The task gets a name in the store. *)
Definition new_name (task : scsi_task) : IO nat :=
  w ← getS;
  _ ← modify (fun w => w <| tasks ::= <[fresh w := task]> |> <| fresh ::= S |>);
  mret (fresh w).

Definition scsi_free_scsi_task (t : nat) : IO unit :=
  _ ← get_task t;
  modify (fun w => w <| tasks ::= delete t |>).

(** [task = scsi_cdb_...(); if (task == NULL) ...] *)
Definition create_task (msg : string) (req : cdb_request) (k : scsi_task -> IO (option nat)) :
    IO (option nat) :=
  ok ← malloc;
  r ← lift (build ok req);
  match r with
  | None => _ ← iscsi_set_error msg; mret None
  | Some task => k task
  end.

(** [x % b] for [uint32_t x] and [int b]. *)
Definition mod_u32 (x b : Z) : res Z :=
  if u32 b =? 0 then Undef DivByZero else mret (x mod u32 b).

(** [if (datalen % blocksize != 0) ...] *)
Definition whole_blocks (msg : string) (datalen blocksize : Z) (k : IO (option nat)) : IO (option nat) :=
  r ← lift (mod_u32 datalen blocksize);
  if negb (r =? 0) then _ ← iscsi_set_error msg; mret None else k.

(** [if (iov != NULL) scsi_task_set_iov_in(task, iov, niov)] *)
Definition with_iov_in (iov : option (list scsi_iovec)) (niov : Z) (task : scsi_task) : scsi_task :=
  match iov with Some v => scsi_task_set_iov_in task v niov | None => task end.
Definition with_iov_out (iov : option (list scsi_iovec)) (niov : Z) (task : scsi_task) : scsi_task :=
  match iov with Some v => scsi_task_set_iov_out task v niov | None => task end.

(** [d.data = data; d.size = datalen;] *)
Definition buffer (data datalen : Z) : option scsi_iovec := Some (Build_scsi_iovec data datalen).

Section Tasks.
Context `{Transport}.

(** [if (iscsi_scsi_command_async(...) != 0) { scsi_free_scsi_task(task);
    return NULL; } return task;] *)
Definition send_task (lun : Z) (cb : option nat) (private : Z) (task : scsi_task)
    (d : option scsi_iovec) : IO (option nat) :=
  t ← new_name task;
  rc ← iscsi_scsi_command_async lun t cb d private;
  if negb (rc =? 0) then _ ← scsi_free_scsi_task t; mret None else mret (Some t).

Context (lun : Z) (cb : option nat) (private : Z).

(** ** Commands without data, or with data from the target *)

Definition iscsi_testunitready_task : IO (option nat) :=
  create_task "Out-of-memory: Failed to create testunitready cdb."
    Req_testunitready
    (fun task => send_task lun cb private task None).

Definition iscsi_inquiry_task (evpd page_code maxsize : Z) : IO (option nat) :=
  create_task "Out-of-memory: Failed to create inquiry cdb."
    (Req_inquiry evpd page_code maxsize)
    (fun task => send_task lun cb private task None).

Definition iscsi_readcapacity10_task (lba pmi : Z) : IO (option nat) :=
  create_task "Out-of-memory: Failed to create readcapacity10 cdb."
    (Req_readcapacity10 lba pmi)
    (fun task => send_task lun cb private task None).

Definition iscsi_readcapacity16_task : IO (option nat) :=
  create_task "Out-of-memory: Failed to create readcapacity16 cdb."
    Req_readcapacity16
    (fun task => send_task lun cb private task None).

Definition iscsi_readdefectdata10_task (req_plist req_glist defect_list_format alloc_len
      : Z) : IO (option nat) :=
  create_task "Out-of-memory: Failed to create readdefectdata10 cdb."
    (Req_readdefectdata10 req_plist req_glist defect_list_format alloc_len)
    (fun task => send_task lun cb private task None).

Definition iscsi_readdefectdata12_task (req_plist req_glist defect_list_format
      address_descriptor_index alloc_len : Z) : IO (option nat) :=
  create_task "Out-of-memory: Failed to create readdefectdata12 cdb."
    (Req_readdefectdata12 req_plist req_glist defect_list_format address_descriptor_index alloc_len)
    (fun task => send_task lun cb private task None).

Definition iscsi_get_lba_status_task (starting_lba alloc_len : Z) : IO (option nat) :=
  create_task "Out-of-memory: Failed to create get-lba-status cdb."
    (Req_get_lba_status starting_lba alloc_len)
    (fun task => send_task lun cb private task None).

(** ** Reading *)

Definition iscsi_read6_iov_task (lba datalen blocksize : Z)
    (iov : option (list scsi_iovec)) (niov : Z) : IO (option nat) :=
  whole_blocks "Datalen:%d is not a multiple of the blocksize:%d." datalen blocksize (
  create_task "Out-of-memory: Failed to create read6 cdb."
    (Req_read6 lba datalen blocksize)
    (fun task => send_task lun cb private (with_iov_in iov niov task) None)).

Definition iscsi_read6_task (lba datalen blocksize : Z) : IO (option nat) :=
  whole_blocks "Datalen:%d is not a multiple of the blocksize:%d." datalen blocksize (
  create_task "Out-of-memory: Failed to create read6 cdb."
    (Req_read6 lba datalen blocksize)
    (fun task => send_task lun cb private task None)).

Definition iscsi_read10_iov_task (lba datalen blocksize rdprotect dpo fua fua_nv group_number : Z)
    (iov : option (list scsi_iovec)) (niov : Z) : IO (option nat) :=
  whole_blocks "Datalen:%d is not a multiple of the blocksize:%d." datalen blocksize (
  create_task "Out-of-memory: Failed to create read10 cdb."
    (Req_read10 lba datalen blocksize rdprotect dpo fua fua_nv group_number)
    (fun task => send_task lun cb private (with_iov_in iov niov task) None)).

Definition iscsi_read10_task (lba datalen blocksize rdprotect dpo fua fua_nv group_number
      : Z) : IO (option nat) :=
  whole_blocks "Datalen:%d is not a multiple of the blocksize:%d." datalen blocksize (
  create_task "Out-of-memory: Failed to create read10 cdb."
    (Req_read10 lba datalen blocksize rdprotect dpo fua fua_nv group_number)
    (fun task => send_task lun cb private task None)).

Definition iscsi_read12_iov_task (lba datalen blocksize rdprotect dpo fua fua_nv group_number : Z)
    (iov : option (list scsi_iovec)) (niov : Z) : IO (option nat) :=
  whole_blocks "Datalen:%d is not a multiple of the blocksize:%d." datalen blocksize (
  create_task "Out-of-memory: Failed to create read12 cdb."
    (Req_read12 lba datalen blocksize rdprotect dpo fua fua_nv group_number)
    (fun task => send_task lun cb private (with_iov_in iov niov task) None)).

Definition iscsi_read12_task (lba datalen blocksize rdprotect dpo fua fua_nv group_number
      : Z) : IO (option nat) :=
  whole_blocks "Datalen:%d is not a multiple of the blocksize:%d." datalen blocksize (
  create_task "Out-of-memory: Failed to create read12 cdb."
    (Req_read12 lba datalen blocksize rdprotect dpo fua fua_nv group_number)
    (fun task => send_task lun cb private task None)).

Definition iscsi_read16_iov_task (lba datalen blocksize rdprotect dpo fua fua_nv group_number : Z)
    (iov : option (list scsi_iovec)) (niov : Z) : IO (option nat) :=
  whole_blocks "Datalen:%d is not a multiple of the blocksize:%d." datalen blocksize (
  create_task "Out-of-memory: Failed to create read16 cdb."
    (Req_read16 lba datalen blocksize rdprotect dpo fua fua_nv group_number)
    (fun task => send_task lun cb private (with_iov_in iov niov task) None)).

Definition iscsi_read16_task (lba datalen blocksize rdprotect dpo fua fua_nv group_number
      : Z) : IO (option nat) :=
  whole_blocks "Datalen:%d is not a multiple of the blocksize:%d." datalen blocksize (
  create_task "Out-of-memory: Failed to create read16 cdb."
    (Req_read16 lba datalen blocksize rdprotect dpo fua fua_nv group_number)
    (fun task => send_task lun cb private task None)).

(** ** Writing and verifying *)

Definition iscsi_write10_task (lba data datalen blocksize wrprotect dpo fua fua_nv
      group_number : Z) : IO (option nat) :=
  whole_blocks "Datalen:%d is not a multiple of the blocksize:%d." datalen blocksize (
  create_task "Out-of-memory: Failed to create write10 cdb."
    (Req_write10 lba datalen blocksize wrprotect dpo fua fua_nv group_number)
    (fun task => send_task lun cb private task (buffer data datalen))).

Definition iscsi_write10_iov_task (lba data datalen blocksize wrprotect dpo fua fua_nv
      group_number : Z) (iov : option (list scsi_iovec)) (niov : Z) : IO (option nat) :=
  whole_blocks "Datalen:%d is not a multiple of the blocksize:%d." datalen blocksize (
  create_task "Out-of-memory: Failed to create write10 cdb."
    (Req_write10 lba datalen blocksize wrprotect dpo fua fua_nv group_number)
    (fun task => send_task lun cb private (with_iov_out iov niov task) (buffer data datalen))).

Definition iscsi_write12_task (lba data datalen blocksize wrprotect dpo fua fua_nv
      group_number : Z) : IO (option nat) :=
  whole_blocks "Datalen:%d is not a multiple of the blocksize:%d." datalen blocksize (
  create_task "Out-of-memory: Failed to create write12 cdb."
    (Req_write12 lba datalen blocksize wrprotect dpo fua fua_nv group_number)
    (fun task => send_task lun cb private task (buffer data datalen))).

Definition iscsi_write12_iov_task (lba data datalen blocksize wrprotect dpo fua fua_nv
      group_number : Z) (iov : option (list scsi_iovec)) (niov : Z) : IO (option nat) :=
  whole_blocks "Datalen:%d is not a multiple of the blocksize:%d." datalen blocksize (
  create_task "Out-of-memory: Failed to create write12 cdb."
    (Req_write12 lba datalen blocksize wrprotect dpo fua fua_nv group_number)
    (fun task => send_task lun cb private (with_iov_out iov niov task) (buffer data datalen))).

Definition iscsi_write16_task (lba data datalen blocksize wrprotect dpo fua fua_nv
      group_number : Z) : IO (option nat) :=
  whole_blocks "Datalen:%d is not a multiple of the blocksize:%d." datalen blocksize (
  create_task "Out-of-memory: Failed to create write16 cdb."
    (Req_write16 lba datalen blocksize wrprotect dpo fua fua_nv group_number)
    (fun task => send_task lun cb private task (buffer data datalen))).

Definition iscsi_write16_iov_task (lba data datalen blocksize wrprotect dpo fua fua_nv
      group_number : Z) (iov : option (list scsi_iovec)) (niov : Z) : IO (option nat) :=
  whole_blocks "Datalen:%d is not a multiple of the blocksize:%d." datalen blocksize (
  create_task "Out-of-memory: Failed to create write16 cdb."
    (Req_write16 lba datalen blocksize wrprotect dpo fua fua_nv group_number)
    (fun task => send_task lun cb private (with_iov_out iov niov task) (buffer data datalen))).

Definition iscsi_writeatomic16_task (lba data datalen blocksize wrprotect dpo fua
      group_number : Z) : IO (option nat) :=
  whole_blocks "Datalen:%d is not a multiple of the blocksize:%d." datalen blocksize (
  create_task "Out-of-memory: Failed to create writeAtomic16 cdb."
    (Req_writeatomic16 lba datalen blocksize wrprotect dpo fua group_number)
    (fun task => send_task lun cb private task (buffer data datalen))).

Definition iscsi_writeatomic16_iov_task (lba data datalen blocksize wrprotect dpo fua
      group_number : Z) (iov : option (list scsi_iovec)) (niov : Z) : IO (option nat) :=
  whole_blocks "Datalen:%d is not a multiple of the blocksize:%d." datalen blocksize (
  create_task "Out-of-memory: Failed to create writeAtomic16 cdb."
    (Req_writeatomic16 lba datalen blocksize wrprotect dpo fua group_number)
    (fun task => send_task lun cb private (with_iov_out iov niov task) (buffer data datalen))).

Definition iscsi_orwrite_task (lba data datalen blocksize wrprotect dpo fua fua_nv
      group_number : Z) : IO (option nat) :=
  whole_blocks "Datalen:%d is not a multiple of the blocksize:%d." datalen blocksize (
  create_task "Out-of-memory: Failed to create orwrite cdb."
    (Req_orwrite lba datalen blocksize wrprotect dpo fua fua_nv group_number)
    (fun task => send_task lun cb private task (buffer data datalen))).

Definition iscsi_orwrite_iov_task (lba data datalen blocksize wrprotect dpo fua fua_nv
      group_number : Z) (iov : option (list scsi_iovec)) (niov : Z) : IO (option nat) :=
  whole_blocks "Datalen:%d is not a multiple of the blocksize:%d." datalen blocksize (
  create_task "Out-of-memory: Failed to create orwrite cdb."
    (Req_orwrite lba datalen blocksize wrprotect dpo fua fua_nv group_number)
    (fun task => send_task lun cb private (with_iov_out iov niov task) (buffer data datalen))).

Definition iscsi_compareandwrite_task (lba data datalen blocksize wrprotect dpo fua
      fua_nv group_number : Z) : IO (option nat) :=
  whole_blocks "Datalen:%d is not a multiple of the blocksize * 2:%d." datalen (i32 (blocksize * 2)) (
  create_task "Out-of-memory: Failed to create compareandwrite cdb."
    (Req_compareandwrite lba datalen blocksize wrprotect dpo fua fua_nv group_number)
    (fun task => send_task lun cb private task (buffer data datalen))).

Definition iscsi_compareandwrite_iov_task (lba data datalen blocksize wrprotect dpo fua
      fua_nv group_number : Z) (iov : option (list scsi_iovec)) (niov : Z) : IO (option nat) :=
  whole_blocks "Datalen:%d is not a multiple of the blocksize * 2:%d." datalen (i32 (blocksize * 2)) (
  create_task "Out-of-memory: Failed to create compareandwrite cdb."
    (Req_compareandwrite lba datalen blocksize wrprotect dpo fua fua_nv group_number)
    (fun task => send_task lun cb private (with_iov_out iov niov task) (buffer data datalen))).

Definition iscsi_writeverify10_task (lba data datalen blocksize wrprotect dpo bytchk
      group_number : Z) : IO (option nat) :=
  whole_blocks "Datalen:%d is not a multiple of the blocksize:%d." datalen blocksize (
  create_task "Out-of-memory: Failed to create writeverify10 cdb."
    (Req_writeverify10 lba datalen blocksize wrprotect dpo bytchk group_number)
    (fun task => send_task lun cb private task (buffer data datalen))).

Definition iscsi_writeverify10_iov_task (lba data datalen blocksize wrprotect dpo bytchk
      group_number : Z) (iov : option (list scsi_iovec)) (niov : Z) : IO (option nat) :=
  whole_blocks "Datalen:%d is not a multiple of the blocksize:%d." datalen blocksize (
  create_task "Out-of-memory: Failed to create writeverify10 cdb."
    (Req_writeverify10 lba datalen blocksize wrprotect dpo bytchk group_number)
    (fun task => send_task lun cb private (with_iov_out iov niov task) (buffer data datalen))).

Definition iscsi_writeverify12_task (lba data datalen blocksize wrprotect dpo bytchk
      group_number : Z) : IO (option nat) :=
  whole_blocks "Datalen:%d is not a multiple of the blocksize:%d." datalen blocksize (
  create_task "Out-of-memory: Failed to create writeverify12 cdb."
    (Req_writeverify12 lba datalen blocksize wrprotect dpo bytchk group_number)
    (fun task => send_task lun cb private task (buffer data datalen))).

Definition iscsi_writeverify12_iov_task (lba data datalen blocksize wrprotect dpo bytchk
      group_number : Z) (iov : option (list scsi_iovec)) (niov : Z) : IO (option nat) :=
  whole_blocks "Datalen:%d is not a multiple of the blocksize:%d." datalen blocksize (
  create_task "Out-of-memory: Failed to create writeverify12 cdb."
    (Req_writeverify12 lba datalen blocksize wrprotect dpo bytchk group_number)
    (fun task => send_task lun cb private (with_iov_out iov niov task) (buffer data datalen))).

Definition iscsi_writeverify16_task (lba data datalen blocksize wrprotect dpo bytchk
      group_number : Z) : IO (option nat) :=
  whole_blocks "Datalen:%d is not a multiple of the blocksize:%d." datalen blocksize (
  create_task "Out-of-memory: Failed to create writeverify16 cdb."
    (Req_writeverify16 lba datalen blocksize wrprotect dpo bytchk group_number)
    (fun task => send_task lun cb private task (buffer data datalen))).

Definition iscsi_writeverify16_iov_task (lba data datalen blocksize wrprotect dpo bytchk
      group_number : Z) (iov : option (list scsi_iovec)) (niov : Z) : IO (option nat) :=
  whole_blocks "Datalen:%d is not a multiple of the blocksize:%d." datalen blocksize (
  create_task "Out-of-memory: Failed to create writeverify16 cdb."
    (Req_writeverify16 lba datalen blocksize wrprotect dpo bytchk group_number)
    (fun task => send_task lun cb private (with_iov_out iov niov task) (buffer data datalen))).

Definition iscsi_verify10_task (data datalen lba vprotect dpo bytchk blocksize : Z) : IO
      (option nat) :=
  whole_blocks "Datalen:%d is not a multiple of the blocksize:%d." datalen blocksize (
  create_task "Out-of-memory: Failed to create verify10 cdb."
    (Req_verify10 lba datalen vprotect dpo bytchk blocksize)
    (fun task => send_task lun cb private task (buffer data datalen))).

Definition iscsi_verify10_iov_task (data datalen lba vprotect dpo bytchk blocksize : Z)
    (iov : option (list scsi_iovec)) (niov : Z) : IO (option nat) :=
  whole_blocks "Datalen:%d is not a multiple of the blocksize:%d." datalen blocksize (
  create_task "Out-of-memory: Failed to create verify10 cdb."
    (Req_verify10 lba datalen vprotect dpo bytchk blocksize)
    (fun task => send_task lun cb private (with_iov_out iov niov task) (buffer data datalen))).

Definition iscsi_verify12_task (data datalen lba vprotect dpo bytchk blocksize : Z) : IO
      (option nat) :=
  whole_blocks "Datalen:%d is not a multiple of the blocksize:%d." datalen blocksize (
  create_task "Out-of-memory: Failed to create verify12 cdb."
    (Req_verify12 lba datalen vprotect dpo bytchk blocksize)
    (fun task => send_task lun cb private task (buffer data datalen))).

Definition iscsi_verify12_iov_task (data datalen lba vprotect dpo bytchk blocksize : Z)
    (iov : option (list scsi_iovec)) (niov : Z) : IO (option nat) :=
  whole_blocks "Datalen:%d is not a multiple of the blocksize:%d." datalen blocksize (
  create_task "Out-of-memory: Failed to create verify12 cdb."
    (Req_verify12 lba datalen vprotect dpo bytchk blocksize)
    (fun task => send_task lun cb private (with_iov_out iov niov task) (buffer data datalen))).

Definition iscsi_verify16_task (data datalen lba vprotect dpo bytchk blocksize : Z) : IO
      (option nat) :=
  whole_blocks "Datalen:%d is not a multiple of the blocksize:%d." datalen blocksize (
  create_task "Out-of-memory: Failed to create verify16 cdb."
    (Req_verify16 lba datalen vprotect dpo bytchk blocksize)
    (fun task => send_task lun cb private task (buffer data datalen))).

Definition iscsi_verify16_iov_task (data datalen lba vprotect dpo bytchk blocksize : Z)
    (iov : option (list scsi_iovec)) (niov : Z) : IO (option nat) :=
  whole_blocks "Datalen:%d is not a multiple of the blocksize:%d." datalen blocksize (
  create_task "Out-of-memory: Failed to create verify16 cdb."
    (Req_verify16 lba datalen vprotect dpo bytchk blocksize)
    (fun task => send_task lun cb private (with_iov_out iov niov task) (buffer data datalen))).

(** ** Other commands *)

Definition iscsi_modesense6_task (dbd pc page_code sub_page_code alloc_len : Z) : IO
      (option nat) :=
  create_task "Out-of-memory: Failed to create modesense6 cdb."
    (Req_modesense6 dbd pc page_code sub_page_code alloc_len)
    (fun task => send_task lun cb private task None).

Definition iscsi_modesense10_task (llbaa dbd pc page_code sub_page_code alloc_len : Z) :
      IO (option nat) :=
  create_task "Out-of-memory: Failed to create modesense10 cdb."
    (Req_modesense10 llbaa dbd pc page_code sub_page_code alloc_len)
    (fun task => send_task lun cb private task None).

Definition iscsi_startstopunit_task (immed pcm pc no_flush loej start : Z) : IO (option nat) :=
  create_task "Out-of-memory: Failed to create startstopunit cdb."
    (Req_startstopunit immed pcm pc no_flush loej start)
    (fun task => send_task lun cb private task None).

Definition iscsi_preventallow_task (prevent : Z) : IO (option nat) :=
  create_task "Out-of-memory: Failed to create PreventAllowMediumRemoval cdb."
    (Req_preventallow prevent)
    (fun task => send_task lun cb private task None).

Definition iscsi_synchronizecache10_task (lba num_blocks syncnv immed : Z) : IO (option nat) :=
  create_task "Out-of-memory: Failed to create synchronizecache10 cdb."
    (Req_synchronizecache10 lba num_blocks syncnv immed)
    (fun task => send_task lun cb private task None).

Definition iscsi_synchronizecache16_task (lba num_blocks syncnv immed : Z) : IO (option nat) :=
  create_task "Out-of-memory: Failed to create synchronizecache16 cdb."
    (Req_synchronizecache16 lba num_blocks syncnv immed)
    (fun task => send_task lun cb private task None).

Definition iscsi_persistent_reserve_in_task (sa xferlen : Z) : IO (option nat) :=
  create_task "Out-of-memory: Failed to create persistent-reserver-in cdb."
    (Req_persistent_reserve_in sa xferlen)
    (fun task => send_task lun cb private task None).

Definition iscsi_prefetch10_task (lba num_blocks immed group : Z) : IO (option nat) :=
  create_task "Out-of-memory: Failed to create prefetch10 cdb."
    (Req_prefetch10 lba num_blocks immed group)
    (fun task => send_task lun cb private task None).

Definition iscsi_prefetch16_task (lba num_blocks immed group : Z) : IO (option nat) :=
  create_task "Out-of-memory: Failed to create prefetch16 cdb."
    (Req_prefetch16 lba num_blocks immed group)
    (fun task => send_task lun cb private task None).

Definition iscsi_readtoc_task (msf format track_session maxsize : Z) : IO (option nat) :=
  create_task "Out-of-memory: Failed to create read TOC cdb."
    (Req_readtoc msf format track_session maxsize)
    (fun task => send_task lun cb private task None).

Definition iscsi_reserve6_task : IO (option nat) :=
  create_task "Out-of-memory: Failed to create reserve6 cdb."
    Req_reserve6
    (fun task => send_task lun cb private task None).

Definition iscsi_release6_task : IO (option nat) :=
  create_task "Out-of-memory: Failed to create release6 cdb."
    Req_release6
    (fun task => send_task lun cb private task None).

Definition iscsi_sanitize_block_erase_task (immed ause : Z) : IO (option nat) :=
  create_task "Out-of-memory: Failed to create sanitize cdb."
    (Req_sanitize immed ause SCSI_SANITIZE_BLOCK_ERASE 0)
    (fun task => send_task lun cb private task None).

Definition iscsi_sanitize_crypto_erase_task (immed ause : Z) : IO (option nat) :=
  create_task "Out-of-memory: Failed to create sanitize cdb."
    (Req_sanitize immed ause SCSI_SANITIZE_CRYPTO_ERASE 0)
    (fun task => send_task lun cb private task None).

Definition iscsi_sanitize_exit_failure_mode_task (immed ause : Z) : IO (option nat) :=
  create_task "Out-of-memory: Failed to create sanitize cdb."
    (Req_sanitize immed ause SCSI_SANITIZE_EXIT_FAILURE_MODE 0)
    (fun task => send_task lun cb private task None).

Definition iscsi_report_supported_opcodes_task (rctd options opcode sa alloc_len : Z) :
      IO (option nat) :=
  create_task "Out-of-memory: Failed to create Maintenance In/Read Supported Op Codes cdb."
    (Req_report_supported_opcodes rctd options opcode sa alloc_len)
    (fun task => send_task lun cb private task None).

Definition iscsi_receive_copy_results_task (sa list_id alloc_len : Z) : IO (option nat) :=
  create_task "Out-of-memory: Failed to create RECEIVE COPY RESULTS cdb."
    (Req_receive_copy_results sa list_id alloc_len)
    (fun task => send_task lun cb private task None).

(** ** Commands with a parameter list *)

Definition iscsi_reportluns_task (report_type alloc_len : Z) : IO (option nat) :=
  if alloc_len <? 16 then
    _ ← iscsi_set_error "Minimum allowed alloc len for reportluns is 16. You specified %d."; mret None
  else
  create_task "Out-of-memory: Failed to create reportluns cdb."
    (Req_reportluns report_type alloc_len)
    (fun task => send_task 0 cb private task None).

Definition iscsi_sanitize_task (immed ause sa param_len : Z) (data : option scsi_iovec) :
    IO (option nat) :=
  create_task "Out-of-memory: Failed to create sanitize cdb."
    (Req_sanitize immed ause sa param_len)
    (fun task => send_task lun cb private task data).

(** [param_data->size] is read without a test of the pointer. *)
Definition iscsi_extended_copy_task (param_data : option scsi_iovec) : IO (option nat) :=
  d ← deref param_data;
  create_task "Out-of-memory: Failed to create EXTENDED COPY cdb."
    (Req_extended_copy (iov_len d))
    (fun task => send_task lun cb private task param_data).

(** [if (data != NULL) task->expxferlen = datalen; else ...] *)
Definition writesame_length (data datalen : Z) (task : scsi_task) : scsi_task :=
  if negb (data =? 0) then task <| Task.expxferlen := i32 datalen |>
  else task <| Task.expxferlen := 0 |> <| xfer_dir := SCSI_XFER_NONE |>.

Definition iscsi_writesame10_task (lba data datalen num_blocks anchor unmap wrprotect group : Z) :
    IO (option nat) :=
  create_task "Out-of-memory: Failed to create writesame10 cdb."
    (Req_writesame10 wrprotect anchor unmap lba group num_blocks datalen)
    (fun task => send_task lun cb private (writesame_length data datalen task) (buffer data datalen)).

Definition iscsi_writesame10_iov_task (lba data datalen num_blocks anchor unmap wrprotect group : Z)
    (iov : option (list scsi_iovec)) (niov : Z) : IO (option nat) :=
  create_task "Out-of-memory: Failed to create writesame10 cdb."
    (Req_writesame10 wrprotect anchor unmap lba group num_blocks datalen)
    (fun task => send_task lun cb private (writesame_length data datalen (with_iov_out iov niov task))
                   (buffer data datalen)).

Definition iscsi_writesame16_task (lba data datalen num_blocks anchor unmap wrprotect group : Z) :
    IO (option nat) :=
  create_task "Out-of-memory: Failed to create writesame16 cdb."
    (Req_writesame16 wrprotect anchor unmap lba group num_blocks datalen)
    (fun task => send_task lun cb private (writesame_length data datalen task) (buffer data datalen)).

Definition iscsi_writesame16_iov_task (lba data datalen num_blocks anchor unmap wrprotect group : Z)
    (iov : option (list scsi_iovec)) (niov : Z) : IO (option nat) :=
  create_task "Out-of-memory: Failed to create writesame16 cdb."
    (Req_writesame16 wrprotect anchor unmap lba group num_blocks datalen)
    (fun task => send_task lun cb private (writesame_length data datalen (with_iov_out iov niov task))
                   (buffer data datalen)).

(** The parameter list lies at the address [param_at] of the caller's memory,
    where [scsi_malloc] put it. *)
Definition store_bytes (a : Z) (l : bytes) : IO unit :=
  set_sys (fun s => s <| umem ::= fun m => foldr (fun '(i, b) m => <[a + i := b]> m) m
                                        (zip (seqZ 0 (Z.of_nat (length l))) l) |>).

Record unmap_list := { unmap_lba : Z; unmap_num : Z }.

(** The loop over the list; the rest of each descriptor is zero. *)
Fixpoint unmap_descriptors (data : bytes) (i : nat) (list : list unmap_list) : bytes :=
  match list with
  | [] => data
  | u :: list =>
      let data := scsi_set_uint32 data (8 + 16 * i) (unmap_lba u >> 32) in
      let data := scsi_set_uint32 data (8 + 16 * i + 4) (unmap_lba u &&& 0xffffffff) in
      let data := scsi_set_uint32 data (8 + 16 * i + 8) (unmap_num u) in
      unmap_descriptors data (S i) list
  end.

Definition unmap_parameters (xferlen : Z) (list : list unmap_list) : bytes :=
  let data := scsi_set_uint16 (zeros (Z.to_nat xferlen)) 0 (xferlen - 2) in
  let data := scsi_set_uint16 data 2 (xferlen - 8) in
  unmap_descriptors data 0 list.

(** [list_len] is the length of the list. *)
Definition iscsi_unmap_task (param_at anchor group : Z) (list : list unmap_list) : IO (option nat) :=
  let xferlen := 8 + Z.of_nat (length list) * 16 in
  create_task "Out-of-memory: Failed to create unmap cdb." (Req_unmap anchor group xferlen)
    (fun task =>
      ok ← malloc;
      match scsi_malloc ok xferlen task with
      | None => _ ← iscsi_set_error "Out-of-memory: Failed to create unmap parameters."; mret None
      | Some task =>
          _ ← store_bytes param_at (unmap_parameters xferlen list);
          ok ← malloc;
          match scsi_malloc ok sizeof_iovec task with
          | None => mret None
          | Some task =>
              send_task lun cb private
                (scsi_task_set_iov_out task [Build_scsi_iovec param_at xferlen] 1) None
          end
      end).

(** The three allocations of the constructor are asked in turn. *)
Definition iscsi_persistent_reserve_out_task (param_at sa scope type : Z)
    (param : scsi_persistent_reserve_out_basic) : IO (option nat) :=
  ok1 ← malloc;
  ok2 ← (if (ok1 : bool) then malloc else mret false);
  ok3 ← (if (ok2 : bool) && pr_out_basic_sa sa then malloc else mret false);
  match scsi_cdb_persistent_reserve_out ok1 ok2 ok3 param_at sa scope type param with
  | None =>
      _ ← iscsi_set_error "Out-of-memory: Failed to create persistent-reserver-out cdb."; mret None
  | Some (task, buf) => _ ← store_bytes param_at buf; send_task lun cb private task None
  end.

(** The two allocations of the encoder are asked in turn; a page it does not
    know needs none. *)
Definition marshall_mode_page (mp : scsi_mode_page) (is_modeselect6 : bool) (task : scsi_task) :
    IO (option bytes * scsi_task) :=
  ok1 ← (match mp_body mp with Mode_other _ => mret false | _ => malloc end);
  ok2 ← (if (ok1 : bool) then malloc else mret false);
  let m : Malloc := fun _ blocks => match blocks with [] => ok1 | _ :: _ => ok2 end in
  Context.lift (scsi_modesense_dataout_marshall mp is_modeselect6 task).

Definition iscsi_modeselect6_task (param_at pf sp : Z) (mp : scsi_mode_page) : IO (option nat) :=
  create_task "Out-of-memory: Failed to create modeselect6 cdb." (Req_modeselect6 pf sp 255)
    (fun task =>
      '(data, task) ← marshall_mode_page mp true task;
      match data with
      | None =>
          _ ← iscsi_set_error "Error: Failed to marshall modesense dataout buffer."; mret None
      | Some data =>
          _ ← store_bytes param_at data;
          let size := Z.of_nat (length data) in
          send_task lun cb private
            (task <| cdb ::= <[4%nat := u8 size]> |> <| Task.expxferlen := size |>)
            (buffer param_at size)
      end).

Definition iscsi_modeselect10_task (param_at pf sp : Z) (mp : scsi_mode_page) : IO (option nat) :=
  create_task "Out-of-memory: Failed to create modeselect10 cdb." (Req_modeselect10 pf sp 255)
    (fun task =>
      '(data, task) ← marshall_mode_page mp false task;
      match data with
      | None =>
          _ ← iscsi_set_error "Error: Failed to marshall modesense dataout buffer."; mret None
      | Some data =>
          _ ← store_bytes param_at data;
          let size := Z.of_nat (length data) in
          send_task lun cb private
            (task <| cdb ::= fun c => <[8%nat := u8 (size &&& 0xff)]> (<[7%nat := u8 (size >> 8)]> c) |>
                  <| Task.expxferlen := size |>)
            (buffer param_at size)
      end).

End Tasks.

(** * Lemmas *)

(** The session can take a command. *)
Record can_send `{Transport} (w : world) : Prop := {
  cs_ready : ready w;
  cs_old : old_iscsi (ctx w) = None;
  cs_session : session_type (ctx w) = ISCSI_SESSION_NORMAL;
  cs_login : is_loggedin (ctx w) = true \/ pending_reconnect (ctx w) = true;
  cs_itt : 0 <= itt (ctx w) < 0xffffffff;
  cs_cmdsn : 0 <= cmdsn (ctx w) < 2 ^ 32;
  cs_max : 0 < target_max_recv_data_segment_length (ctx w) < 2 ^ 24;
  cs_burst : 0 <= first_burst_length (ctx w) < 2 ^ 32
}.

(** The world with a new task, [a] allocations later. *)
Definition named (task : scsi_task) (a : nat) (w : world) : world :=
  w <| alloc_n ::= Nat.add a |> <| tasks ::= <[fresh w := task]> |> <| fresh ::= S |>.

Lemma named_ready `{Transport} task a w : ready w -> ready (named task a w).
Proof.
  intros [Hl Hq Hm Hn Hq']. split; [done|exact Hq|done| |exact Hq'].
  intros x Hx. specialize (Hn x Hx). change (x < S (fresh w))%nat. lia.
Qed.

Lemma named_sendable `{Transport} task a w : can_send w -> 0 <= cdb_size task <= 16 -> length (cdb task) = 16%nat ->
  0 <= Task.expxferlen task < 2 ^ 31 -> sendable (named task a w) (fresh w) task.
Proof.
  intros [Hr Ho Hs Hl Hi Hsn Hm Hb] Hc Hlen He. split; try done; [by apply named_ready|apply lookup_insert_eq].
Qed.

(** The CDB in the header of a command PDU, and what a target makes of it. *)
Definition pdu_cdb (h : bytes) : bytes := map (fun k => byte_at h (32 + k)) (seq 0 16).
Definition received_command (h : bytes) (opcode : Z) : option cdb_view :=
  fst <$> scsi_cdb_unmarshall true (new_task <| cdb := pdu_cdb h |>) opcode.

Lemma announced_cdb h flags lun itt exp sn imm task : announces h flags lun itt exp sn imm task ->
  cdb_wf task -> pdu_cdb h = cdb task.
Proof.
  intros Ha [Hl _ _ Ht _ _]. apply list_eq. intros i. unfold pdu_cdb. destruct (decide (i < 16)%nat) as [Hi|Hi].
  - rewrite list_lookup_fmap, lookup_seq_lt by done. cbn [fmap option_fmap option_map].
    rewrite (an_cdb _ _ _ _ _ _ _ _ Ha) by lia.
    assert (Hx : is_Some (cdb task !! i)) by (apply lookup_lt_is_Some; rewrite Hl; exact Hi).
    destruct Hx as [x Hx]. assert (Eb : byte_at (cdb task) i = x) by (unfold byte_at; by rewrite Hx).
    rewrite Hx, Nat.add_0_l. destruct (Z.ltb_spec (Z.of_nat i) (cdb_size task)); [by rewrite Eb|].
    rewrite <- Eb, Ht by done. done.
  - rewrite !lookup_ge_None_2; [done|rewrite Hl; unfold SCSI_CDB_MAX_SIZE; lia|rewrite length_map, length_seq; lia].
Qed.

(** Decoding looks at the CDB only. *)
Lemma unmarshall_cdb task task' opcode : cdb task = cdb task' ->
  fst <$> scsi_cdb_unmarshall true task opcode = fst <$> scsi_cdb_unmarshall true task' opcode.
Proof.
  intros E. unfold scsi_cdb_unmarshall. rewrite E. repeat case_match; try done;
  unfold scsi_read6_cdb_unmarshall, scsi_read10_cdb_unmarshall, scsi_read12_cdb_unmarshall,
    scsi_read16_cdb_unmarshall, scsi_verify10_cdb_unmarshall, scsi_verify12_cdb_unmarshall,
    scsi_verify16_cdb_unmarshall, scsi_write10_cdb_unmarshall, scsi_write12_cdb_unmarshall,
    scsi_write16_cdb_unmarshall, scsi_writeatomic16_cdb_unmarshall, scsi_malloc; cbn; by rewrite E.
Qed.

Section TaskProofs.
Context `{Transport}.

(** A command with data for the target, from its CDB to the queue. *)
Lemma write_task_run msg req task lun cb priv d w q1 q2 : can_send w -> build true req = Ret (Some task) ->
  xfer_dir task = SCSI_XFER_WRITE -> 0 <= Task.expxferlen task < 2 ^ 31 ->
  splits w (cmdsn (ctx w)) q1 q2 ->
  let p := S (fresh w) in
  let imm := immediate_len (ctx w) (Task.expxferlen task) in
  let max := target_max_recv_data_segment_length (ctx w) in
  let rest := unsolicited_len (ctx w) (Task.expxferlen task) in
  let n := Z.to_nat (turns max rest) in
  exists w' c h, create_task msg req (fun task => send_task lun cb priv task d) w = Ret (Some (fresh w), w') /\
    outqueue (ctx w') = q1 ++ p :: seq (S p) n ++ q2 /\ pdus w' !! p = Some c /\
    cbdata_callback c = cb /\ cbdata_private_data c = priv /\ pdu_lun c = u32 lun /\
    ddata (outdata c) = Some h /\ pdu_cdb h = cdb task /\
    scsi_get_uint32 h 20 = u32 (Task.expxferlen task) /\
    iscsi_get_pdu_data_size h = imm /\ payload_offset c = 0 /\ payload_len c = imm /\
    (forall i, (i < n)%nat -> exists pdu hd, pdus w' !! (S p + i)%nat = Some pdu /\
       carries c pdu 0xffffffff (Z.of_nat i) (imm + Z.of_nat i * max)
         (MIN (rest - Z.of_nat i * max) max) (rest - Z.of_nat i * max <=? max) hd) /\
    cbdata_task c = Some (fresh w) /\
    (exists task', tasks w' !! fresh w = Some task' /\ iovector_out task' = vector_out d task) /\
    cmdsn (ctx w') = u32 (cmdsn (ctx w) + 1).
Proof.
  intros Hw Hb Hd He Hsp p imm max rest n. pose proof (built_wf true req task Hb) as Hwf.
  assert (Hsize : 0 <= cdb_size task <= 16).
  { rewrite (wf_size _ Hwf). unfold group_size. repeat case_match; lia. }
  set (w1 := named task 1 w).
  destruct (write_command_run w1 (fresh w) task lun cb d priv q1 q2) as (w' & c & E & Q & P & Hq & Hct & _ & _ & Tr & C & T & _); try done.
  - by apply named_sendable; [| |apply Hwf|].
  - apply Hw.
  - destruct Hq as (h & Hh & Ha & Ho & Hl & _ & _ & L & _ & _ & _ & Hcb & Hpr).
    exists w', c, h. split.
    + unfold create_task. assert (Em : malloc w = Ret (true, w <| alloc_n ::= S |>)).
      { unfold malloc, mbind, M_bind, getS, modify, mret, M_ret. by rewrite (rd_mem _ (cs_ready _ Hw)). }
      run Em. rewrite Hb. rewrite (bind_run _ _ _ (Some task) (w <| alloc_n ::= S |>)) by done.
      unfold send_task. assert (En : new_name task (w <| alloc_n ::= S |>) = Ret (fresh w, w1)) by done.
      run En. by run E.
    + split; [exact Q|]. split; [exact P|]. split; [done|]. split; [done|]. split; [done|]. split; [done|].
      split; [by apply (announced_cdb _ _ _ _ _ _ _ _ Ha)|]. split; [apply Ha|]. split; [apply Ha|].
      split; [exact Ho|]. split; [exact Hl|]. split; [exact Tr|]. split; [exact Hct|].
      split; [|exact C]. destruct T as (task' & T1 & _ & _ & _ & T2). by exists task'.
Qed.
End TaskProofs.

Section TaskProperties.
Context `{Transport}.

(** C12: iscsi_write10_task, from its arguments to the queue: for a whole number of
    blocks on a session that can send, the SCSI Command PDU queued carries a CDB that
    decodes to WRITE(10) of the given LBA, flags and datalen / blocksize blocks (modulo
    2^16), announces datalen bytes, carries the immediate data and is directly followed
    by Data-Out PDUs with TTT 0xffffffff whose DataSN, offset, length and F bit cover
    the unsolicited data; all of them take their payload, by its offset, from the task
    that is returned, whose data-out vector is the one element (data, datalen); one
    CmdSN is consumed. *)
Theorem write10_task_sends (w : world) (lun : Z) (cb : option nat) (priv : Z)
  (lba data datalen blocksize wrprotect dpo fua fua_nv group : Z) (q1 q2 : list nat)
  (Hw : can_send w) (Hlba : 0 <= lba < 2 ^ 32) (Hlen : 0 < datalen < 2 ^ 31) (Hbs : 0 < blocksize < 2 ^ 31)
  (Hdiv : datalen mod blocksize = 0) (Hdata : data <> 0) (Hsp : splits w (cmdsn (ctx w)) q1 q2) :
  let p := S (fresh w) in
  let imm := immediate_len (ctx w) datalen in
  let max := target_max_recv_data_segment_length (ctx w) in
  let rest := unsolicited_len (ctx w) datalen in
  let n := Z.to_nat (turns max rest) in
  exists w' c h,
    iscsi_write10_task lun cb priv lba data datalen blocksize wrprotect dpo fua fua_nv group w =
      Ret (Some (fresh w), w') /\
    outqueue (ctx w') = q1 ++ p :: seq (S p) n ++ q2 /\ pdus w' !! p = Some c /\
    cbdata_callback c = cb /\ cbdata_private_data c = priv /\ pdu_lun c = u32 lun /\
    ddata (outdata c) = Some h /\
    received_command h SCSI_OPCODE_WRITE10 = Some (View_write10 {|
      w10_opcode := SCSI_OPCODE_WRITE10; w10_wrprotect := wrprotect &&& 7;
      w10_dpo := notnot dpo; w10_fua := notnot fua; w10_fua_nv := notnot fua_nv;
      w10_lba := lba; w10_group := group &&& 0x1f;
      w10_transfer_length := u16 (datalen / blocksize); w10_control := 0 |}) /\
    scsi_get_uint32 h 20 = datalen /\
    iscsi_get_pdu_data_size h = imm /\ payload_offset c = 0 /\ payload_len c = imm /\
    (forall i, (i < n)%nat -> exists pdu hd, pdus w' !! (S p + i)%nat = Some pdu /\
       carries c pdu 0xffffffff (Z.of_nat i) (imm + Z.of_nat i * max)
         (MIN (rest - Z.of_nat i * max) max) (rest - Z.of_nat i * max <=? max) hd) /\
    cbdata_task c = Some (fresh w) /\
    (exists task', tasks w' !! fresh w = Some task' /\
       iovector_out task' = Build_scsi_iovector (Some [Build_scsi_iovec data datalen]) 1 0 0 0) /\
    cmdsn (ctx w') = u32 (cmdsn (ctx w) + 1).
Proof.
  intros p imm max rest n. assert (Eb : u32 blocksize = blocksize) by (apply u32_small; lia).
  destruct (write10_roundtrip datalen blocksize dpo fua fua_nv group ltac:(lia) ltac:(lia) lba wrprotect Hlba) as (task & E1 & V).
  assert (Et : Task.expxferlen task = datalen /\ xfer_dir task = SCSI_XFER_WRITE /\ iovector_out task = zero_iovector).
  { revert E1. unfold scsi_cdb_write10, div_u32. rewrite Eb. destruct (Z.eqb_spec blocksize 0); [lia|].
    cbn [negb mbind res_bind]. unfold mret, res_ret. intros [= <-]. unfold dir_if, truth.
    destruct (Z.eqb_spec datalen 0); [lia|]. split; [cbn; apply i32_small; lia|]. split; [done|]. unfold cif. by repeat case_match. }
  destruct Et as (Ee & Ed & Ev).
  destruct (write_task_run "Out-of-memory: Failed to create write10 cdb." (Req_write10 lba datalen blocksize wrprotect dpo fua fua_nv group)
    task lun cb priv (buffer data datalen) w q1 q2 Hw E1 Ed ltac:(lia) Hsp) as (w' & c & h & E & Q & P & C1 & C2 & C3 & Hh & Hc & X & I & Po & Pl & Tr & Ct & (task' & T1 & T2) & Sn).
  rewrite Ee in Q, X, I, Pl, Tr. exists w', c, h. split; [|do 6 (split; [done|])].
  - unfold iscsi_write10_task, whole_blocks, mod_u32. rewrite Eb. destruct (Z.eqb_spec blocksize 0); [lia|].
    rewrite (bind_run _ _ _ (u32 datalen mod blocksize) w) by (by rewrite u32_small by lia).
    by rewrite u32_small, Hdiv by lia.
  - split; [|split; [by rewrite X, u32_small by lia|]].
    2: { do 5 (split; [done|]). split; [|done]. exists task'. split; [done|]. rewrite T2.
      unfold vector_out, buffer. cbn [iov_base]. rewrite (proj2 (Z.eqb_neq _ _) Hdata).
      unfold scsi_task_set_iov_out. cbn. rewrite Ev. reflexivity. }
    unfold received_command. rewrite (unmarshall_cdb _ task) by exact Hc. rewrite V.
    by rewrite Eb.
Qed.
End TaskProperties.

Lemma write10_task_sends_witness :
  exists w' c h, @iscsi_write10_task sample_transport 3 (Some 7%nat) 0 0x1234 4096 20480 512 0 0 1 0 0 sample_idle =
      Ret (Some 1%nat, w') /\
    outqueue (ctx w') = [2; 3; 4]%nat /\ pdus w' !! 2%nat = Some c /\ ddata (outdata c) = Some h /\
    received_command h SCSI_OPCODE_WRITE10 = Some (View_write10 {|
      w10_opcode := SCSI_OPCODE_WRITE10; w10_wrprotect := 0; w10_dpo := 0; w10_fua := 1; w10_fua_nv := 0;
      w10_lba := 0x1234; w10_group := 0; w10_transfer_length := 40; w10_control := 0 |}) /\
    (exists pdu hd, pdus w' !! 4%nat = Some pdu /\ carries c pdu 0xffffffff 1 16384 4096 true hd).
Proof.
  destruct (@write10_task_sends sample_transport sample_idle 3 (Some 7%nat) 0 0x1234 4096 20480 512 0 0 1 0 0 [] [])
    as (w' & c & h & E & Q & P & _ & _ & _ & Hh & V & _ & _ & _ & _ & Tr & _).
  - assert (Hr : @ready sample_transport sample_idle).
    { split; try done; [by left|]. intros x [a Ha].
      assert (pdus sample_idle !! x = None) by apply lookup_empty. congruence. }
    split; [exact Hr|done|done|by left|cbn; lia|cbn; lia|cbn; lia|cbn; lia].
  - lia.
  - lia.
  - lia.
  - reflexivity.
  - discriminate.
  - split; [reflexivity|]. by split.
  - exists w', c, h. split; [exact E|]. split; [exact Q|]. split; [exact P|]. split; [exact Hh|]. split; [exact V|].
    destruct (Tr 1%nat) as (pdu & hd & P1 & C1); [vm_compute; lia|]. exists pdu, hd. split; [exact P1|exact C1].
Defined.
