(* ===== verification/Process.v ===== *)
(** Requests without SCSI content, and the dispatch of received PDUs
    (src/lib/nop.c, src/lib/task_mgmt.c, the logout of src/lib/login.c, and
    [iscsi_process_reject], [iscsi_process_target_nop_in] and
    [iscsi_process_pdu] of src/lib/pdu.c).

    The replies to login and text requests are operations of the interface
    [Negotiation]. *)

From S2P Require Import SList Prelude Bytes Crc32c Task Context Pdu Queue Complete Cancel Command.

(** What a PDU of the negotiation phase does (src/lib/login.c and
    src/lib/discovery.c). *)
Class Negotiation := {
  iscsi_process_login_reply : nat -> iscsi_in_pdu -> IO Z;
  iscsi_process_text_reply : nat -> iscsi_in_pdu -> IO Z
}.

(** enum iscsi_task_mgmt_funcs *)
Definition ISCSI_TM_ABORT_TASK : Z := 0x01.
Definition ISCSI_TM_ABORT_TASK_SET : Z := 0x02.
Definition ISCSI_TM_LUN_RESET : Z := 0x05.
Definition ISCSI_TM_TARGET_WARM_RESET : Z := 0x06.
Definition ISCSI_TM_TARGET_COLD_RESET : Z := 0x07.

Definition ISCSI_REJECT_WAITING_FOR_LOGOUT : Z := 0x0c.

(** ** Operations *)

Section Process.
Context `{Transport}.

(** *** NOP *)

(** [data] is [Some] for a non-NULL pointer. *)
Definition iscsi_nop_out_async (cb : option iscsi_command_cb) (data : option bytes) (len : Z)
  (private : Z) : IO Z :=
  w ← getS;
  let c := ctx w in
  if bool_decide (is_Some (old_iscsi c)) || pending_reconnect c then mret 0 else
  if negb (is_loggedin c) then
    _ ← iscsi_set_error "trying to send nop-out while not logged in"; mret (-1)
  else
  itt ← iscsi_itt_post_increment;
  r ← iscsi_allocate_pdu ISCSI_PDU_NOP_OUT ISCSI_PDU_NOP_IN itt ISCSI_PDU_DROP_ON_RECONNECT;
  match r with
  | None => _ ← iscsi_set_error "Failed to allocate nop-out pdu"; mret (-1)
  | Some p =>
      _ ← set_pdu p (fun pdu => pdu <| pdu_callback := cb |> <| private_data := private |>);
      _ ← iscsi_pdu_set_pduflags p 0x80;
      _ ← iscsi_pdu_set_ttt p 0xffffffff;
      _ ← iscsi_pdu_set_lun p 0;
      _ ← iscsi_mt_spin_lock;
      sn ← get_ctx cmdsn;
      _ ← iscsi_pdu_set_cmdsn p sn;
      rc ← (match data with
            | Some d => if 0 <? len then iscsi_pdu_add_data (Some p) d len else mret 0
            | None => mret 0
            end);
      if negb (rc =? 0) then
        _ ← iscsi_mt_spin_unlock;
        _ ← iscsi_set_error "Failed to add outdata to nop-out";
        _ ← iscsi_tcp_free_pdu p;
        mret (-1)
      else
        _ ← set_ctx (fun c => c <| cmdsn := u32 (cmdsn c + 1) |>);
        _ ← iscsi_mt_spin_unlock;
        _ ← iscsi_queue_pdu p;
        _ ← set_ctx (fun c => c <| nops_in_flight := i32 (nops_in_flight c + 1) |>);
        mret 0
  end.

Definition iscsi_send_target_nop_out (ttt lun : Z) : IO Z :=
  r ← iscsi_allocate_pdu ISCSI_PDU_NOP_OUT ISCSI_PDU_NO_PDU 0xffffffff
        (ISCSI_PDU_DROP_ON_RECONNECT ||| ISCSI_PDU_DELETE_WHEN_SENT);
  match r with
  | None => _ ← iscsi_set_error "Failed to allocate nop-out pdu"; mret (-1)
  | Some p =>
      _ ← iscsi_pdu_set_immediate p;
      _ ← iscsi_pdu_set_pduflags p 0x80;
      _ ← iscsi_pdu_set_ttt p ttt;
      _ ← iscsi_pdu_set_lun p lun;
      sn ← get_ctx cmdsn;
      _ ← iscsi_pdu_set_cmdsn p sn;
      _ ← iscsi_queue_pdu p;
      mret 0
  end.

Definition iscsi_process_nop_out_reply (p : nat) (inp : iscsi_in_pdu) : IO Z :=
  _ ← iscsi_mt_spin_lock;
  w ← getS;
  first ← deref (hd_error (waitpdu (ctx w)));
  oldest ← get_pdu first;
  let ignore := (pdu_cmdsn oldest =? min_cmdsn_waiting (ctx w))
                && getenv w "LIBISCSI_IGNORE_NOP_OUT_ON_STUCK_WAITPDU_QUEUE" in
  _ ← when (negb ignore) (set_ctx (fun c => c <| nops_in_flight := 0 |>));
  _ ← set_ctx (fun c => c <| min_cmdsn_waiting := pdu_cmdsn oldest |>);
  _ ← iscsi_mt_spin_unlock;
  let data := if data_pos inp =? 0 then Data_buffer 0 None
              else Data_buffer (data_pos inp) (in_data inp) in
  _ ← call_callback p SCSI_STATUS_GOOD data;
  mret 0.

Definition iscsi_get_nops_in_flight : IO Z := get_ctx nops_in_flight.

(** *** Task management *)

Definition iscsi_task_mgmt_async (lun function ritt rcmdsn : Z) (cb : option iscsi_command_cb)
  (private : Z) : IO Z :=
  loggedin ← get_ctx is_loggedin;
  if negb (loggedin : bool) then
    _ ← iscsi_set_error "trying to send task-mgmt while not logged in"; mret (-1)
  else
  itt ← iscsi_itt_post_increment;
  r ← iscsi_allocate_pdu ISCSI_PDU_SCSI_TASK_MANAGEMENT_REQUEST
        ISCSI_PDU_SCSI_TASK_MANAGEMENT_RESPONSE itt ISCSI_PDU_DROP_ON_RECONNECT;
  match r with
  | None => _ ← iscsi_set_error "Failed to allocate task mgmt pdu"; mret (-1)
  | Some p =>
      _ ← iscsi_pdu_set_immediate p;
      _ ← iscsi_pdu_set_pduflags p (0x80 ||| function);
      _ ← iscsi_pdu_set_lun p (u32 lun);
      _ ← iscsi_pdu_set_ritt p ritt;
      sn ← get_ctx cmdsn;
      _ ← iscsi_pdu_set_cmdsn p sn;
      _ ← iscsi_pdu_set_rcmdsn p rcmdsn;
      _ ← set_pdu p (fun pdu => pdu <| pdu_callback := cb |> <| private_data := private |>);
      _ ← iscsi_queue_pdu p;
      mret 0
  end.

Definition iscsi_process_task_mgmt_reply (p : nat) (inp : iscsi_in_pdu) : IO Z :=
  _ ← call_callback p SCSI_STATUS_GOOD (Data_response (byte_at (hdr inp) 2));
  mret 0.

Definition iscsi_task_mgmt_abort_task_async (t : nat) (cb : option iscsi_command_cb)
  (private : Z) : IO Z :=
  task ← get_task t;
  iscsi_task_mgmt_async (task_lun task) ISCSI_TM_ABORT_TASK (task_itt task) (task_cmdsn task)
    cb private.

Definition iscsi_task_mgmt_abort_task_set_async (lun : Z) (cb : option iscsi_command_cb)
  (private : Z) : IO Z :=
  _ ← iscsi_scsi_cancel_all_tasks;
  iscsi_task_mgmt_async lun ISCSI_TM_ABORT_TASK_SET 0xffffffff 0 cb private.

Definition iscsi_task_mgmt_lun_reset_async (lun : Z) (cb : option iscsi_command_cb)
  (private : Z) : IO Z :=
  _ ← iscsi_cancel_lun_pdus lun;
  iscsi_task_mgmt_async lun ISCSI_TM_LUN_RESET 0xffffffff 0 cb private.

Definition iscsi_task_mgmt_target_warm_reset_async (cb : option iscsi_command_cb)
  (private : Z) : IO Z :=
  _ ← iscsi_scsi_cancel_all_tasks;
  iscsi_task_mgmt_async 0 ISCSI_TM_TARGET_WARM_RESET 0xffffffff 0 cb private.

Definition iscsi_task_mgmt_target_cold_reset_async (cb : option iscsi_command_cb)
  (private : Z) : IO Z :=
  _ ← iscsi_scsi_cancel_all_tasks;
  iscsi_task_mgmt_async 0 ISCSI_TM_TARGET_COLD_RESET 0xffffffff 0 cb private.

(** *** Logout *)

Definition iscsi_logout_async (cb : option iscsi_command_cb) (private : Z) : IO Z :=
  _ ← set_ctx (fun c => c <| login_attempts := 0 |>);
  loggedin ← get_ctx is_loggedin;
  if negb (loggedin : bool) then
    _ ← iscsi_set_error "Trying to logout while not logged in."; mret (-1)
  else
  itt ← iscsi_itt_post_increment;
  r ← iscsi_allocate_pdu ISCSI_PDU_LOGOUT_REQUEST ISCSI_PDU_LOGOUT_RESPONSE itt
        (ISCSI_PDU_DROP_ON_RECONNECT ||| ISCSI_PDU_CORK_WHEN_SENT);
  match r with
  | None => _ ← iscsi_set_error "Out-of-memory: Failed to allocate logout pdu."; mret (-1)
  | Some p =>
      _ ← iscsi_pdu_set_immediate p;
      _ ← iscsi_pdu_set_pduflags p 0x80;
      sn ← get_ctx cmdsn;
      _ ← iscsi_pdu_set_cmdsn p sn;
      _ ← set_pdu p (fun pdu => pdu <| pdu_callback := cb |> <| private_data := private |>);
      _ ← iscsi_queue_pdu p;
      mret 0
  end.

Definition iscsi_process_logout_reply (p : nat) (inp : iscsi_in_pdu) : IO Z :=
  _ ← set_ctx (fun c => c <| is_loggedin := false |>);
  _ ← call_callback p SCSI_STATUS_GOOD Data_none;
  mret 0.

(** *** Rejects and unsolicited NOP-Ins *)

Definition iscsi_process_target_nop_in (inp : iscsi_in_pdu) : IO Z :=
  let ttt := scsi_get_uint32 (hdr inp) 20 in
  let lun := scsi_get_uint16 (hdr inp) 8 in
  if ttt =? 0xffffffff then mret 0 else
  _ ← iscsi_send_target_nop_out ttt lun;
  mret 0.

(** [scsi_get_uint32(&in->data[16])] *)
Definition rejected_itt (inp : iscsi_in_pdu) : res Z :=
  match in_data inp with
  | None => Undef NullDeref
  | Some d => if (length d <? 20)%nat then Undef OutOfBounds else mret (scsi_get_uint32 d 16)
  end.

(** The search of [waitpdu] for an initiator task tag. *)
Definition find_waiting (itt : Z) : IO (option nat) :=
  _ ← iscsi_mt_spin_lock;
  q ← get_ctx waitpdu;
  r ← find_itt q itt;
  _ ← iscsi_mt_spin_unlock;
  mret r.

(** Unlink a PDU from [waitpdu] and free it. *)
Definition drop_waiting (p : nat) : IO unit :=
  _ ← iscsi_mt_spin_lock;
  _ ← waitpdu_remove p;
  _ ← iscsi_mt_spin_unlock;
  iscsi_tcp_free_pdu p.

Definition iscsi_process_reject (inp : iscsi_in_pdu) : IO Z :=
  let size := data_pos inp in
  let reason := byte_at (hdr inp) 2 in
  if size <? ISCSI_RAW_HEADER_SIZE then
    _ ← iscsi_set_error "size of REJECT payload is too small.Need >= %d bytes but got %d.";
    mret (-1)
  else if reason =? ISCSI_REJECT_WAITING_FOR_LOGOUT then
    _ ← iscsi_logout_async (Some Cb_reconnect_after_logout) 0; mret 0
  else
    _ ← iscsi_set_error "Request was rejected with reason: 0x%02x (%s)";
    itt ← lift (rejected_itt inp);
    r ← find_waiting itt;
    match r with
    | None =>
        _ ← iscsi_set_error "Can not match REJECT withany outstanding pdu with itt:0x%08x";
        mret (-1)
    | Some p =>
        _ ← call_callback p SCSI_STATUS_ERROR Data_none;
        _ ← drop_waiting p;
        mret 0
    end.

(** *** Dispatch *)

(** A digest received as four bytes, least significant first. *)
Definition digest_rcvd (b : bytes) (off : nat) : Z :=
  byte_at b off ||| (byte_at b (off + 1) << 8) ||| (byte_at b (off + 2) << 16)
  ||| (byte_at b (off + 3) << 24).

Definition header_digest_ok (c : iscsi_context) (inp : iscsi_in_pdu) : bool :=
  if header_digest c =? ISCSI_HEADER_DIGEST_NONE then true
  else crc32c (take 48 (hdr inp)) =? digest_rcvd (hdr inp) 48.

Definition data_digest_ok (c : iscsi_context) (inp : iscsi_in_pdu) : bool :=
  if data_digest c =? ISCSI_DATA_DIGEST_NONE then true
  else if scsi_get_uint32 (hdr inp) 4 &&& 0x00ffffff =? 0 then true
  else crc32c_chain_done (in_calculated_data_digest inp) =? digest_rcvd (data_digest_buf inp) 0.

(** The case ISCSI_PDU_ASYNC_MSG. *)
Definition process_async_msg (inp : iscsi_in_pdu) : IO Z :=
  let event := byte_at (hdr inp) 36 in
  let param2 := scsi_get_uint16 (hdr inp) 40 in
  let logout := (_ ← iscsi_logout_async (Some Cb_reconnect_after_logout) 0; mret 0) in
  w ← getS;
  if event =? 0 then mret 0
  else if event =? 1 then
    if getenv w "LIBISCSI_DROP_CONN_ON_ASYNC_EVENT1" then mret (-1) else logout
  else if (event =? 2) || (event =? 3) then
    _ ← set_ctx (fun c => c <| next_reconnect := now w + param2 |>); mret 0
  else if event =? 4 then logout
  else mret (-1).

(** The opcode a waiting PDU can be answered with. *)
Definition expected_opcode (opcode response_opcode : Z) : Z :=
  let expected :=
    if (opcode =? ISCSI_PDU_DATA_IN) && (response_opcode =? ISCSI_PDU_SCSI_RESPONSE)
    then ISCSI_PDU_DATA_IN else response_opcode in
  if opcode =? ISCSI_PDU_R2T then ISCSI_PDU_R2T else expected.

Context `{Negotiation}.

(** The switch on the opcode: the result of the handler and [is_finished], or
    [None] for an opcode without handler; and the message set on failure. *)
Definition process_reply (opcode : Z) (p : nat) (inp : iscsi_in_pdu)
  : option (IO (Z * bool) * string) :=
  let simple (m : IO Z) := (rc ← m; mret (rc, true)) in
  if opcode =? ISCSI_PDU_LOGIN_RESPONSE then
    Some (simple (iscsi_process_login_reply p inp), "iscsi login reply failed"%string)
  else if opcode =? ISCSI_PDU_TEXT_RESPONSE then
    Some (simple (iscsi_process_text_reply p inp), "iscsi text reply failed"%string)
  else if opcode =? ISCSI_PDU_LOGOUT_RESPONSE then
    Some (simple (iscsi_process_logout_reply p inp), "iscsi logout reply failed"%string)
  else if opcode =? ISCSI_PDU_SCSI_RESPONSE then
    Some (simple (iscsi_process_scsi_reply p inp), "iscsi response reply failed"%string)
  else if opcode =? ISCSI_PDU_DATA_IN then
    Some (iscsi_process_scsi_data_in p inp, "iscsi data in failed"%string)
  else if opcode =? ISCSI_PDU_NOP_IN then
    Some (simple (iscsi_process_nop_out_reply p inp), "iscsi nop-in failed"%string)
  else if opcode =? ISCSI_PDU_SCSI_TASK_MANAGEMENT_RESPONSE then
    Some (simple (iscsi_process_task_mgmt_reply p inp), "iscsi task-mgmt failed"%string)
  else if opcode =? ISCSI_PDU_R2T then
    Some ((rc ← iscsi_process_r2t p inp; mret (rc, false)), "iscsi r2t failed"%string)
  else None.

(** The end of [iscsi_process_pdu]: the PDU is freed inside the critical
    section. *)
Definition finish_waiting (p : nat) (finished : bool) : IO unit :=
  _ ← iscsi_mt_spin_lock;
  q ← get_ctx waitpdu;
  _ ← when (finished && negb (bool_decide (q = [])))
        (_ ← waitpdu_remove p; iscsi_tcp_free_pdu p);
  iscsi_mt_spin_unlock.

(** From the search for the waiting PDU on. *)
Definition process_answer (opcode itt : Z) (inp : iscsi_in_pdu) : IO Z :=
  r ← find_waiting itt;
  match r with
  | None => _ ← iscsi_set_error "Got unsolicited response with itt:%d"; mret (-1)
  | Some p =>
      pdu ← get_pdu p;
      if negb (opcode =? expected_opcode opcode (response_opcode pdu)) then
        _ ← iscsi_set_error "Got wrong opcode back for itt:%d  got:%d expected %d"; mret (-1)
      else match process_reply opcode p inp with
      | None => _ ← iscsi_set_error "Don't know how to handle opcode 0x%02x"; mret (-1)
      | Some (handler, msg) =>
          '(rc, finished) ← handler;
          if negb (rc =? 0) then
            _ ← drop_waiting p; _ ← iscsi_set_error msg; mret (-1)
          else
            _ ← finish_waiting p finished; mret 0
      end
  end.

Definition iscsi_process_pdu (inp : iscsi_in_pdu) : IO Z :=
  let itt := scsi_get_uint32 (hdr inp) 16 in
  let opcode := byte_at (hdr inp) 0 &&& 0x3f in
  let ahslen := byte_at (hdr inp) 4 in
  w ← getS;
  if negb (header_digest_ok (ctx w) inp) then
    _ ← iscsi_set_error "header checksum verification failed: calculated 0x%x received 0x%x";
    mret (-1)
  else if negb (data_digest_ok (ctx w) inp) then
    _ ← iscsi_set_error "data checksum verification failed: calculated 0x%x received 0x%x";
    mret (-1)
  else if negb (ahslen =? 0) then
    _ ← iscsi_set_error "cant handle expanded headers yet"; mret (-1)
  else
    _ ← iscsi_process_pdu_serials inp;
    if opcode =? ISCSI_PDU_ASYNC_MSG then process_async_msg inp
    else if opcode =? ISCSI_PDU_REJECT then iscsi_process_reject inp
    else if (opcode =? ISCSI_PDU_NOP_IN) && (itt =? 0xffffffff) then
      rc ← iscsi_process_target_nop_in inp;
      mret (if negb (rc =? 0) then -1 else 0)
    else process_answer opcode itt inp.

End Process.

(** * Lemmas *)

(** ** Corrupted PDUs *)

Section Digests.
Context `{Transport} `{Negotiation}.

(** The PDU is refused: only the error string changes. *)
Definition refused (inp : iscsi_in_pdu) (w : world) : Prop :=
  exists msg, iscsi_process_pdu inp w =
    Ret (-1, w <| ctx ::= fun c => c <| error_string := msg |> |>).

Lemma refused_if inp w : header_digest_ok (ctx w) inp = false \/ data_digest_ok (ctx w) inp = false \/
  byte_at (hdr inp) 4 <> 0 -> refused inp w.
Proof.
  intros Hbad. unfold refused, iscsi_process_pdu. cbv zeta.
  assert (Hget : forall k : world -> IO Z, (getS ≫= k) w = k w w) by done. rewrite Hget.
  destruct (header_digest_ok (ctx w) inp); cbn [negb]; [|by eexists].
  destruct (data_digest_ok (ctx w) inp); cbn [negb]; [|by eexists].
  destruct Hbad as [?|[?|Hb]]; [done|done|]. rewrite (proj2 (Z.eqb_neq _ _) Hb). by eexists.
Qed.

(** C21: When a header digest is negotiated, a PDU whose 48-byte header differs from the
    one the digest was computed for inside a window of at most four bytes is refused:
    iscsi_process_pdu returns -1 and changes nothing but the error string. *)
Theorem corrupted_header_refused (w : world) (inp : iscsi_in_pdu) (pre good bad post : bytes)
  (Hneg : header_digest (ctx w) <> ISCSI_HEADER_DIGEST_NONE)
  (Hhdr : take 48 (hdr inp) = pre ++ bad ++ post)
  (Hsent : crc32c (pre ++ good ++ post) = digest_rcvd (hdr inp) 48)
  (Hbytes : bytes_ok (pre ++ good ++ bad ++ post))
  (Hlen : length good = length bad) (H4 : (length good <= 4)%nat) (Hne : good <> bad) :
  refused inp w.
Proof.
  apply refused_if. left. unfold header_digest_ok.
  rewrite (proj2 (Z.eqb_neq _ _) Hneg). apply Z.eqb_neq. rewrite Hhdr, <- Hsent.
  apply Forall_app in Hbytes as [Hpre Hbytes]. apply Forall_app in Hbytes as [Hgood Hbytes].
  apply Forall_app in Hbytes as [Hbad Hpost]. intros E. symmetry in E. revert E.
  by apply crc32c_burst.
Qed.

(** When a data digest is negotiated, a PDU whose data segment differs from the one
    the digest was computed for inside a window of at most four bytes is refused:
    iscsi_process_pdu returns -1 and changes nothing but the error string. *)
Theorem corrupted_data_refused (w : world) (inp : iscsi_in_pdu) (pre good bad post : bytes)
  (Hneg : data_digest (ctx w) <> ISCSI_DATA_DIGEST_NONE)
  (Hdata : scsi_get_uint32 (hdr inp) 4 &&& 0x00ffffff <> 0)
  (Hcalc : in_calculated_data_digest inp = crc32c_chain crc32c_init (pre ++ bad ++ post))
  (Hsent : crc32c (pre ++ good ++ post) = digest_rcvd (data_digest_buf inp) 0)
  (Hbytes : bytes_ok (pre ++ good ++ bad ++ post))
  (Hlen : length good = length bad) (H4 : (length good <= 4)%nat) (Hne : good <> bad) :
  refused inp w.
Proof.
  apply refused_if. right. left. unfold data_digest_ok.
  rewrite (proj2 (Z.eqb_neq _ _) Hneg), (proj2 (Z.eqb_neq _ _) Hdata). apply Z.eqb_neq.
  rewrite Hcalc, <- Hsent. change (crc32c (pre ++ bad ++ post) <> crc32c (pre ++ good ++ post)).
  apply Forall_app in Hbytes as [Hpre Hbytes]. apply Forall_app in Hbytes as [Hgood Hbytes].
  apply Forall_app in Hbytes as [Hbad Hpost]. intros E. symmetry in E. revert E.
  by apply crc32c_burst.
Qed.
End Digests.

(** A negotiation that accepts everything. *)
Definition sample_negotiation : Negotiation :=
  {| iscsi_process_login_reply := fun _ _ => mret 0; iscsi_process_text_reply := fun _ _ => mret 0 |}.

Lemma corrupted_header_refused_witness :
  exists w', @iscsi_process_pdu sample_transport sample_negotiation
      {| hdr_pos := 52; hdr := 0x21 :: 0x81 :: zeros 46 ++ [0xd9; 0x2c; 0xba; 0x9f]; data_pos := 0; in_data := None;
         data_digest_buf := []; received_data_digest_bytes := 0; in_calculated_data_digest := 0 |}
      (sample_waiting <| ctx ::= fun c => c <| header_digest := 1 |> |>) = Ret (-1, w') /\
    trace w' = [].
Proof.
  destruct (@corrupted_header_refused sample_transport sample_negotiation
      (sample_waiting <| ctx ::= fun c => c <| header_digest := 1 |> |>)
      {| hdr_pos := 52; hdr := 0x21 :: 0x81 :: zeros 46 ++ [0xd9; 0x2c; 0xba; 0x9f]; data_pos := 0; in_data := None;
         data_digest_buf := []; received_data_digest_bytes := 0; in_calculated_data_digest := 0 |} [0x21] [0x80] [0x81] (zeros 46))
    as (msg & E).
  - discriminate.
  - reflexivity.
  - vm_compute. reflexivity.
  - repeat constructor; unfold byte_ok; lia.
  - reflexivity.
  - cbn. lia.
  - discriminate.
  - eexists. split; [exact E|reflexivity].
Defined.

Lemma corrupted_data_refused_witness :
  exists w', @iscsi_process_pdu sample_transport sample_negotiation
      {| hdr_pos := 48; hdr := scsi_set_uint32 (0x25 :: zeros 47) 4 4; data_pos := 4;
         in_data := Some [0x25; 1; 7; 3]; data_digest_buf := [0x63; 0x95; 0x71; 0xa8];
         received_data_digest_bytes := 0; in_calculated_data_digest := crc32c_chain crc32c_init [0x25; 1; 7; 3] |}
      (sample_waiting <| ctx ::= fun c => c <| data_digest := 1 |> |>) = Ret (-1, w') /\
    trace w' = [].
Proof.
  destruct (@corrupted_data_refused sample_transport sample_negotiation
      (sample_waiting <| ctx ::= fun c => c <| data_digest := 1 |> |>)
      {| hdr_pos := 48; hdr := scsi_set_uint32 (0x25 :: zeros 47) 4 4; data_pos := 4;
         in_data := Some [0x25; 1; 7; 3]; data_digest_buf := [0x63; 0x95; 0x71; 0xa8];
         received_data_digest_bytes := 0; in_calculated_data_digest := crc32c_chain crc32c_init [0x25; 1; 7; 3] |}
      [0x25; 1] [2] [7] [3]) as (msg & E).
  - discriminate.
  - discriminate.
  - reflexivity.
  - vm_compute. reflexivity.
  - repeat constructor; unfold byte_ok; lia.
  - reflexivity.
  - cbn. lia.
  - discriminate.
  - eexists. split; [exact E|reflexivity].
Defined.

(** ** Ending a waiting PDU *)

(** [p] waits for an answer with the tag [itt], and no PDU before it in the
    queue has that tag. *)
Record awaits (w : world) (p : nat) (pdu : iscsi_pdu) (itt : Z) (q1 q2 : list nat) : Prop := {
  aw_queue : waitpdu (ctx w) = q1 ++ p :: q2;
  aw_once : p ∉ q1 ++ q2;
  aw_pdu : pdus w !! p = Some pdu;
  aw_itt : pdu_itt pdu = itt;
  aw_before : Forall (fun x => exists px, pdus w !! x = Some px /\ pdu_itt px <> itt) q1
}.

Lemma find_itt_run w p pdu itt q1 q2 : pdus w !! p = Some pdu -> pdu_itt pdu = itt ->
  Forall (fun x => exists px, pdus w !! x = Some px /\ pdu_itt px <> itt) q1 ->
  find_itt (q1 ++ p :: q2) itt w = Ret (Some p, w).
Proof.
  intros Hp Hi. induction 1 as [|x q1 (px & Hx & Hne) _ IH]; cbn [app find_itt].
  - run (get_pdu_run w p pdu Hp). by rewrite Hi, Z.eqb_refl.
  - run (get_pdu_run w x px Hx). by rewrite (proj2 (Z.eqb_neq _ _) Hne).
Qed.

Lemma set_lock_back w b : unlocked w -> set_lock false (set_lock b w) = w.
Proof.
  intros Hl. change (set_lock false (set_lock b w)) with (set_lock false w). by apply set_lock_id.
Qed.

Lemma find_waiting_run w p pdu itt q1 q2 : unlocked w -> awaits w p pdu itt q1 q2 ->
  find_waiting itt w = Ret (Some p, w).
Proof.
  intros Hl [Hq _ Hp Hi Hb]. unfold find_waiting. run (lock_run w Hl).
  set (w1 := set_lock (have_mt w) w). run (get_ctx_run waitpdu w1).
  change (waitpdu (ctx w1)) with (waitpdu (ctx w)). rewrite Hq.
  run (find_itt_run w1 p pdu itt q1 q2 Hp Hi Hb). run (unlock_run w1 eq_refl).
  unfold w1. by rewrite set_lock_back.
Qed.

Lemma waitpdu_remove_run w p q1 q2 : waitpdu (ctx w) = q1 ++ p :: q2 -> (p ∉ q1 ++ q2) ->
  waitpdu_remove p w = Ret (tt, w <| ctx ::= fun c => c <| waitpdu := q1 ++ q2 |> |>).
Proof.
  intros Hq Hp. unfold waitpdu_remove. run (get_ctx_run waitpdu w). rewrite Hq.
  assert (E : list_remove (q1 ++ p :: q2) p w = Ret (q1 ++ q2, w)).
  { unfold list_remove. destruct (q1 ++ p :: q2) eqn:E0; [by destruct q1|]. rewrite <- E0.
    rewrite filter_app, filter_cons_False by auto. rewrite <- filter_app.
    by rewrite SList.filter_ne_id. }
  by run E.
Qed.

(** The session is in the same state: of the context, only the queue of
    waiting PDUs, the serials, the counters and the lock may differ. *)
Definition session_of (c : iscsi_context) : iscsi_context :=
  c <| waitpdu := [] |> <| outqueue_current := None |> <| frees := 0 |> <| iscsi_lock := false |>
    <| maxcmdsn := 0 |> <| expcmdsn := 0 |> <| statsn := 0 |> <| error_string := "" |>.
Definition same_session (w w' : world) : Prop := session_of (ctx w') = session_of (ctx w).

Lemma same_session_link w w' : same_session w w' -> link_of (ctx w') = link_of (ctx w).
Proof. intros S. exact (f_equal link_of S). Qed.

Lemma free_pdu_exact w p pdu : pdus w !! p = Some pdu ->
  exists w', iscsi_tcp_free_pdu p w = Ret (tt, w') /\ pdus w' = delete p (pdus w) /\
    tasks w' = tasks w /\ trace w' = trace w /\ have_mt w' = have_mt w /\
    waitpdu (ctx w') = waitpdu (ctx w) /\ outqueue (ctx w') = outqueue (ctx w) /\
    iscsi_lock (ctx w') = iscsi_lock (ctx w) /\ same_session w w' /\ alloc_ok w' = alloc_ok w.
Proof.
  intros Hp. unfold iscsi_tcp_free_pdu. run (get_pdu_run w p pdu Hp).
  unfold iscsi_free, when, get_ctx, set_ctx, gets, modify, mbind, M_bind, mret, M_ret.
  destruct (bool_decide (is_Some (ddata (outdata pdu))));
    destruct (bool_decide (is_Some (ddata (indata pdu))));
    destruct (decide (outqueue_current (ctx w) = Some p)) as [Ec|Ec];
    (eexists; split;
     [cbn; first [rewrite bool_decide_true by done|rewrite bool_decide_false by done]; reflexivity|]);
    done.
Qed.

(** What ending [p] leaves. *)
Record ended (w w' : world) (p : nat) (q1 q2 : list nat) : Prop := {
  en_queue : waitpdu (ctx w') = q1 ++ q2;
  en_out : outqueue (ctx w') = outqueue (ctx w);
  en_pdus : pdus w' = delete p (pdus w);
  en_tasks : tasks w' = tasks w;
  en_trace : trace w' = trace w;
  en_lock : unlocked w';
  en_session : same_session w w';
  en_oracle : alloc_ok w' = alloc_ok w
}.

Lemma drop_waiting_run w p pdu itt q1 q2 : unlocked w -> awaits w p pdu itt q1 q2 ->
  exists w', drop_waiting p w = Ret (tt, w') /\ ended w w' p q1 q2.
Proof.
  intros Hl [Hq Ho Hp Hi Hb]. unfold drop_waiting. run (lock_run w Hl).
  set (w1 := set_lock (have_mt w) w). run (waitpdu_remove_run w1 p q1 q2 Hq Ho).
  match goal with |- exists w', (iscsi_mt_spin_unlock ≫= _) ?v = _ /\ _ => run (unlock_run v eq_refl) end.
  match goal with |- exists w', iscsi_tcp_free_pdu p ?v = _ /\ _ =>
    destruct (free_pdu_exact v p pdu Hp) as (w' & E & P & T & R & M & Wq & Oq & L & S & A) end.
  exists w'. split; [done|]. split; [by rewrite Wq|by rewrite Oq|by rewrite P|by rewrite T|by rewrite R| |exact S|exact A].
  unfold unlocked. by rewrite L.
Qed.

Lemma finish_waiting_run w p pdu itt q1 q2 : unlocked w -> awaits w p pdu itt q1 q2 ->
  exists w', finish_waiting p true w = Ret (tt, w') /\ ended w w' p q1 q2.
Proof.
  intros Hl [Hq Ho Hp Hi Hb]. unfold finish_waiting. run (lock_run w Hl).
  set (w1 := set_lock (have_mt w) w). run (get_ctx_run waitpdu w1).
  change (waitpdu (ctx w1)) with (waitpdu (ctx w)).
  rewrite bool_decide_false by (rewrite Hq; by destruct q1). cbn [andb negb when].
  assert (E0 : exists w2, (_ ← waitpdu_remove p; iscsi_tcp_free_pdu p) w1 = Ret (tt, w2) /\
    pdus w2 = delete p (pdus w) /\ tasks w2 = tasks w /\ trace w2 = trace w /\
    have_mt w2 = have_mt w /\ waitpdu (ctx w2) = q1 ++ q2 /\ outqueue (ctx w2) = outqueue (ctx w) /\
    iscsi_lock (ctx w2) = have_mt w /\ same_session w w2 /\ alloc_ok w2 = alloc_ok w).
  { run (waitpdu_remove_run w1 p q1 q2 Hq Ho).
    match goal with |- exists w', iscsi_tcp_free_pdu p ?v = _ /\ _ =>
      destruct (free_pdu_exact v p pdu Hp) as (w' & E & P & T & R & M & Wq & Oq & L & S & A) end.
    eexists. split; [exact E|]. rewrite P, T, R, M, Wq, Oq, L. done. }
  destruct E0 as (w2 & E2 & P & T & R & M & Wq & Oq & L & S & A). run E2.
  assert (Hl2 : iscsi_lock (ctx w2) = have_mt w2) by (by rewrite L, M).
  rewrite (unlock_run w2 Hl2). eexists. split; [reflexivity|]. by split.
Qed.

Lemma awaits_kept w w' p pdu itt q1 q2 : awaits w p pdu itt q1 q2 -> kept p w w' ->
  exists pdu', awaits w' p pdu' itt q1 q2.
Proof.
  intros [Hq Ho Hp Hi Hb] (Kw & _ & _ & _ & (a & a' & Ha & Ha' & Ei) & Kx & _).
  rewrite Hp in Ha. injection Ha as <-. exists a'.
  split; [by rewrite Kw|done|done|congruence|]. rewrite Forall_forall in Hb |- *. intros x Hx.
  destruct (Hb x Hx) as (px & H1 & H2). exists px. rewrite Kx; [done|]. intros ->. set_solver.
Qed.

(** ** Properties of the dispatch *)

Section Dispatch.
Context `{Transport} `{Negotiation}.

(** The world after the serials of an accepted PDU were taken over. *)
Definition after_serials (inp : iscsi_in_pdu) (w : world) : world :=
  match iscsi_process_pdu_serials inp w with Ret (_, w') => w' | Undef _ => w end.

(** The header is one [iscsi_process_pdu] goes on with. *)
Definition accepted (w : world) (inp : iscsi_in_pdu) : Prop :=
  header_digest_ok (ctx w) inp = true /\ data_digest_ok (ctx w) inp = true /\
  byte_at (hdr inp) 4 = 0.

Lemma after_serials_run w inp : unlocked w ->
  iscsi_process_pdu_serials inp w = Ret (tt, after_serials inp w) /\
  unlocked (after_serials inp w) /\ pdus (after_serials inp w) = pdus w /\
  tasks (after_serials inp w) = tasks w /\ trace (after_serials inp w) = trace w /\
  waitpdu (ctx (after_serials inp w)) = waitpdu (ctx w) /\
  outqueue (ctx (after_serials inp w)) = outqueue (ctx w) /\
  link_of (ctx (after_serials inp w)) = link_of (ctx w) /\
  alloc_ok (after_serials inp w) = alloc_ok w /\ alloc_n (after_serials inp w) = alloc_n w.
Proof.
  intros Hl. pose proof (serials_run w inp Hl) as E. cbv zeta in E. unfold after_serials. rewrite E.
  split; [done|]. by destruct (_ && truth _).
Qed.

Lemma process_pdu_accepted w inp opcode itt : unlocked w -> accepted w inp ->
  byte_at (hdr inp) 0 &&& 0x3f = opcode -> scsi_get_uint32 (hdr inp) 16 = itt ->
  opcode <> ISCSI_PDU_ASYNC_MSG -> opcode <> ISCSI_PDU_REJECT -> opcode <> ISCSI_PDU_NOP_IN ->
  iscsi_process_pdu inp w = process_answer opcode itt inp (after_serials inp w).
Proof.
  intros Hl (Hh & Hd & Ha) Hop Hi H1 H2 H3. unfold iscsi_process_pdu. cbv zeta.
  assert (Hget : forall k : world -> IO Z, (getS ≫= k) w = k w w) by done. rewrite Hget.
  rewrite Hh, Hd, Ha, Hop, Hi. cbn [negb Z.eqb].
  run (proj1 (after_serials_run w inp Hl)).
  rewrite (proj2 (Z.eqb_neq _ _) H1), (proj2 (Z.eqb_neq _ _) H2), (proj2 (Z.eqb_neq _ _) H3).
  done.
Qed.

Lemma awaits_serials w p pdu itt q1 q2 inp : unlocked w -> awaits w p pdu itt q1 q2 ->
  awaits (after_serials inp w) p pdu itt q1 q2.
Proof.
  intros Hl [Hq Ho Hp Hi Hb]. destruct (after_serials_run w inp Hl) as (_ & _ & P & _ & _ & Wq & _).
  split; [by rewrite Wq|done|by rewrite P|done|by rewrite P].
Qed.

Lemma waiting_serials w p t f pdu task inp : unlocked w -> waiting w p t f pdu task ->
  waiting (after_serials inp w) p t f pdu task.
Proof.
  intros Hl [Hp Hcb Ht Hf Htask]. destruct (after_serials_run w inp Hl) as (_ & _ & P & T & _).
  split; try done; by rewrite ?P, ?T.
Qed.

(** A PDU without a request is not acted upon. *)
(** An answer whose ITT matches no waiting PDU returns -1, calls no callback and
    leaves both queues, all PDUs and all tasks as they were. *)
Theorem unmatched_answer_ignored (w : world) (inp : iscsi_in_pdu) (Hl : unlocked w)
  (Hacc : accepted w inp)
  (Hop : (byte_at (hdr inp) 0 &&& 0x3f) ∉ [ISCSI_PDU_ASYNC_MSG; ISCSI_PDU_REJECT; ISCSI_PDU_NOP_IN])
  (Hnone : Forall (fun x => exists px, pdus w !! x = Some px /\
             pdu_itt px <> scsi_get_uint32 (hdr inp) 16) (waitpdu (ctx w))) :
  exists w', iscsi_process_pdu inp w = Ret (-1, w') /\ unlocked w' /\ trace w' = trace w /\
    pdus w' = pdus w /\ tasks w' = tasks w /\
    waitpdu (ctx w') = waitpdu (ctx w) /\ outqueue (ctx w') = outqueue (ctx w).
Proof.
  rewrite (process_pdu_accepted w inp _ _ Hl Hacc eq_refl eq_refl)
    by (intros E; rewrite E in Hop; set_solver).
  destruct (after_serials_run w inp Hl) as (_ & Hl1 & P & T & R & Wq & Oq & _).
  set (w1 := after_serials inp w) in *. set (itt := scsi_get_uint32 (hdr inp) 16) in *.
  unfold process_answer.
  assert (E : find_waiting itt w1 = Ret (None, w1)).
  { unfold find_waiting. run (lock_run w1 Hl1). set (w2 := set_lock (have_mt w1) w1).
    run (get_ctx_run waitpdu w2). change (waitpdu (ctx w2)) with (waitpdu (ctx w1)). rewrite Wq.
    assert (E0 : find_itt (waitpdu (ctx w)) itt w2 = Ret (None, w2)).
    { rewrite <- P in Hnone. revert Hnone. generalize (waitpdu (ctx w)). intros q Hq.
      induction Hq as [|x q (px & Hx & Hne) _ IH]; [done|]. cbn [find_itt].
      run (get_pdu_run w2 x px Hx). by rewrite (proj2 (Z.eqb_neq _ _) Hne). }
    run E0. run (unlock_run w2 eq_refl). unfold w2. by rewrite set_lock_back. }
  run E. eexists. split; [reflexivity|]. by rewrite <- P, <- T, <- R, <- Wq, <- Oq.
Qed.

(** A SCSI Response for a waiting command, whatever its handler did. *)
Lemma response_ends (w w2 : world) (p : nat) (pdu : iscsi_pdu) (inp : iscsi_in_pdu) (q1 q2 : list nat) (rc : Z)
  (Hl : unlocked w) (Hacc : accepted w inp)
  (Hop : byte_at (hdr inp) 0 &&& 0x3f = ISCSI_PDU_SCSI_RESPONSE)
  (Haw : awaits w p pdu (scsi_get_uint32 (hdr inp) 16) q1 q2)
  (Hresp : response_opcode pdu = ISCSI_PDU_SCSI_RESPONSE)
  (E2 : iscsi_process_scsi_reply p inp (after_serials inp w) = Ret (rc, w2))
  (K2 : kept p (after_serials inp w) w2) (Hrc : rc = 0 \/ rc = -1) :
  exists w3, iscsi_process_pdu inp w = Ret (rc, w3) /\ unlocked w3 /\ trace w3 = trace w2 /\
    waitpdu (ctx w3) = q1 ++ q2 /\ outqueue (ctx w3) = outqueue (ctx w) /\
    pdus w3 = delete p (pdus w) /\ link_of (ctx w3) = link_of (ctx w) /\ tasks w3 = tasks w2.
Proof.
  rewrite (process_pdu_accepted w inp ISCSI_PDU_SCSI_RESPONSE _ Hl Hacc Hop eq_refl) by done.
  destruct (after_serials_run w inp Hl) as (_ & Hl1 & P & T & R & Wq & Oq & Lk & _).
  pose proof (awaits_serials _ _ _ _ _ _ inp Hl Haw) as Haw1.
  set (w1 := after_serials inp w) in *. set (itt := scsi_get_uint32 (hdr inp) 16) in *.
  unfold process_answer. run (find_waiting_run w1 p pdu itt q1 q2 Hl1 Haw1).
  run (get_pdu_run w1 p pdu (aw_pdu _ _ _ _ _ _ Haw1)). rewrite Hresp. cbn [negb].
  change (negb (ISCSI_PDU_SCSI_RESPONSE =? expected_opcode ISCSI_PDU_SCSI_RESPONSE ISCSI_PDU_SCSI_RESPONSE))
    with false. cbv iota.
  change (process_reply ISCSI_PDU_SCSI_RESPONSE p inp) with
    (Some ((rc ← iscsi_process_scsi_reply p inp; mret (rc, true) : IO (Z * bool)),
           "iscsi response reply failed"%string)). cbv iota.
  assert (E2' : (rc ← iscsi_process_scsi_reply p inp; mret (rc, true) : IO (Z * bool)) w1 = Ret ((rc, true), w2))
    by by run E2.
  run E2'. destruct (awaits_kept _ _ _ _ _ _ _ Haw1 K2) as (pdu2 & Haw2).
  assert (Hl2 : unlocked w2).
  { destruct K2 as (_ & _ & K & _). unfold unlocked. by rewrite K. }
  assert (Hfin : forall w3, ended w2 w3 p q1 q2 -> unlocked w3 /\ trace w3 = trace w2 /\
    waitpdu (ctx w3) = q1 ++ q2 /\ outqueue (ctx w3) = outqueue (ctx w) /\
    pdus w3 = delete p (pdus w) /\ link_of (ctx w3) = link_of (ctx w) /\ tasks w3 = tasks w2).
  { intros w3 [Eq Eo Ep Et Er El Es Ea]. split; [done|]. split; [done|]. split; [done|].
    destruct K2 as (_ & K & _ & _ & _ & Kx & Kl). split; [by rewrite Eo, K|]. split; [|split; [|done]].
    - rewrite Ep. apply map_eq. intros x. destruct (decide (x = p)) as [->|Hx].
      + by rewrite !lookup_delete_eq.
      + rewrite !lookup_delete_ne by done. by rewrite Kx, P.
    - by rewrite (same_session_link _ _ Es), Kl, Lk. }
  destruct Hrc as [-> | ->]; cbn [Z.eqb negb].
  - destruct (finish_waiting_run w2 p pdu2 itt q1 q2 Hl2 Haw2) as (w3 & E3 & H3). run E3.
    exists w3. split; [done|]. by apply Hfin.
  - destruct (drop_waiting_run w2 p pdu2 itt q1 q2 Hl2 Haw2) as (w3 & E3 & H3). run E3.
    eexists. split; [reflexivity|]. destruct H3 as [Eq Eo Ep Et Er El Es Ea].
    apply Hfin. by split.
Qed.

Lemma scsi_response_run (w : world) (p t f : nat) (pdu : iscsi_pdu) (task : scsi_task)
  (inp : iscsi_in_pdu) (q1 q2 : list nat) (Hl : unlocked w) (Hacc : accepted w inp)
  (Hop : byte_at (hdr inp) 0 &&& 0x3f = ISCSI_PDU_SCSI_RESPONSE)
  (Haw : awaits w p pdu (scsi_get_uint32 (hdr inp) 16) q1 q2)
  (Hresp : response_opcode pdu = ISCSI_PDU_SCSI_RESPONSE) (Hw : waiting w p t f pdu task)
  (Hsense : snd (reply_outcome (hdr inp)) = SCSI_STATUS_CHECK_CONDITION -> sense_received w inp) :
  exists w', iscsi_process_pdu inp w = Ret (fst (reply_outcome (hdr inp)), w') /\ unlocked w' /\
    trace w' = trace w ++ [Ev_callback f (snd (reply_outcome (hdr inp))) (Data_task t)
                             (cbdata_private_data pdu)] /\
    waitpdu (ctx w') = q1 ++ q2 /\ outqueue (ctx w') = outqueue (ctx w) /\
    pdus w' = delete p (pdus w) /\ link_of (ctx w') = link_of (ctx w) /\
    reply_done (reply_outcome (hdr inp)) w' t task pdu inp.
Proof.
  destruct (after_serials_run w inp Hl) as (_ & _ & _ & _ & R & _ & _ & _ & A & An).
  pose proof (waiting_serials _ _ _ _ _ _ inp Hl Hw) as Hw1.
  assert (Hsense1 : snd (reply_outcome (hdr inp)) = SCSI_STATUS_CHECK_CONDITION ->
    sense_received (after_serials inp w) inp).
  { intros E. unfold sense_received. rewrite A, An. by apply Hsense. }
  destruct (scsi_reply_run _ p t f pdu task inp Hw1 Hsense1) as (w2 & E2 & R2 & D2 & K2).
  assert (Hrc : fst (reply_outcome (hdr inp)) = 0 \/ fst (reply_outcome (hdr inp)) = -1).
  { unfold reply_outcome, status_outcome. repeat destruct (_ || _); auto. destruct (bool_decide _); auto. }
  destruct (response_ends w w2 p pdu inp q1 q2 _ Hl Hacc Hop Haw Hresp E2 K2 Hrc)
    as (w3 & E & L & T & Q & O & P & Lk & Tk).
  exists w3. split; [done|]. split; [done|]. split; [by rewrite T, R2, R|]. do 4 (split; [done|]).
  unfold reply_done. by rewrite Tk.
Qed.

(** C2: A SCSI Response PDU that passes the digest and header checks and whose ITT
    matches a waiting command ends that command: its PDU and no other is unlinked from
    the wait queue and freed, the lock is released, and the command's callback is called
    exactly once, with the status of the response (CONDITION MET as GOOD, an unknown one
    and a protocol violation as SCSI_STATUS_ERROR) - if, for CHECK CONDITION, there is
    memory for the sense data and the segment has all of it. Without the memory the
    command ends in the same way, but the callback is not called. *)
Theorem scsi_response_ends_command (w : world) (p t f : nat) (pdu : iscsi_pdu) (task : scsi_task)
  (inp : iscsi_in_pdu) (q1 q2 : list nat) (Hl : unlocked w) (Hacc : accepted w inp)
  (Hop : byte_at (hdr inp) 0 &&& 0x3f = ISCSI_PDU_SCSI_RESPONSE)
  (Haw : awaits w p pdu (scsi_get_uint32 (hdr inp) 16) q1 q2)
  (Hresp : response_opcode pdu = ISCSI_PDU_SCSI_RESPONSE) (Hw : waiting w p t f pdu task) :
  let o := reply_outcome (hdr inp) in
  let ends rc w' := iscsi_process_pdu inp w = Ret (rc, w') /\ unlocked w' /\
    waitpdu (ctx w') = q1 ++ q2 /\ outqueue (ctx w') = outqueue (ctx w) /\ pdus w' = delete p (pdus w) in
  ((snd o = SCSI_STATUS_CHECK_CONDITION -> sense_received w inp) ->
   exists w', ends (fst o) w' /\
     trace w' = trace w ++ [Ev_callback f (snd o) (Data_task t) (cbdata_private_data pdu)] /\
     reply_done o w' t task pdu inp) /\
  (snd o = SCSI_STATUS_CHECK_CONDITION -> alloc_ok w (alloc_n w) = false ->
   exists w', ends 0 w' /\ trace w' = trace w).
Proof.
  intros o ends. split.
  - intros Hsense. destruct (scsi_response_run w p t f pdu task inp q1 q2 Hl Hacc Hop Haw Hresp Hw Hsense)
      as (w' & E & L & T & Q & O & P & _ & D). by exists w'.
  - intros Hc Hno. destruct (after_serials_run w inp Hl) as (_ & _ & _ & _ & R & _ & _ & _ & A & An).
    pose proof (waiting_serials _ _ _ _ _ _ inp Hl Hw) as Hw1. rewrite <- A, <- An in Hno.
    destruct (scsi_reply_no_memory _ p t f pdu task inp Hw1 Hc Hno) as (w2 & task' & E2 & R2 & _ & _ & K2).
    destruct (response_ends w w2 p pdu inp q1 q2 0 Hl Hacc Hop Haw Hresp E2 K2 (or_introl eq_refl))
      as (w3 & E & L & T & Q & O & P & _). exists w3. split; [done|]. by rewrite T, R2.
Qed.
End Dispatch.

Lemma sample_awaits itt : itt = 0 ->
  awaits sample_waiting 1 (default zero_pdu (pdus sample_waiting !! 1%nat)) itt [] [].
Proof. intros ->. split; try done. cbn. apply not_elem_of_nil. Qed.

Lemma unmatched_answer_ignored_witness :
  exists w', @iscsi_process_pdu sample_transport sample_negotiation
      (sample_response 0x80 0 0 0 [] ) (sample_world) = Ret (-1, w') /\ trace w' = [].
Proof.
  destruct (@unmatched_answer_ignored sample_transport sample_negotiation sample_world
    (sample_response 0x80 0 0 0 [])) as (w' & E & _ & R & _).
  - reflexivity.
  - by split.
  - vm_compute. intros Hin. repeat (apply elem_of_cons in Hin as [Hin|Hin]; [discriminate|]).
    by apply not_elem_of_nil in Hin.
  - constructor.
  - exists w'. split; [exact E|exact R].
Defined.

Lemma scsi_response_ends_command_witness :
  exists w', @iscsi_process_pdu sample_transport sample_negotiation
      (sample_response 0x80 0 0 0 []) sample_waiting = Ret (0, w') /\
    trace w' = [Ev_callback 7 SCSI_STATUS_GOOD (Data_task 10) 99] /\
    waitpdu (ctx w') = [] /\ pdus w' !! 1%nat = None.
Proof.
  destruct (@scsi_response_ends_command sample_transport sample_negotiation sample_waiting 1 10 7
    (default zero_pdu (pdus sample_waiting !! 1%nat)) new_task (sample_response 0x80 0 0 0 []) [] []) as [H _].
  - reflexivity.
  - by split.
  - reflexivity.
  - by apply sample_awaits.
  - reflexivity.
  - by split.
  - destruct H as (w' & (E & _ & Q & _ & P) & R & _); [intros E; vm_compute in E; discriminate|].
    exists w'. split; [exact E|]. split; [exact R|]. split; [exact Q|]. by rewrite P.
Defined.

(** *** Data-In without data *)

Section EmptyDataIn.
Context `{Transport} `{Negotiation}.

Lemma empty_data_in_run w p t f pdu task inp : waiting w p t f pdu task ->
  iov (iovector_in task) = None -> no_ack inp ->
  scsi_get_uint32 (hdr inp) 4 &&& 0x00ffffff = 0 ->
  exists w', iscsi_process_scsi_data_in p inp w = Ret ((-1, true), w') /\ trace w' = trace w /\
    tasks w' = tasks w /\ kept p w w'.
Proof.
  intros Hw Hiov Hack Hdsl. pose proof Hw as [Hp Hcb Ht Hf Htask].
  unfold iscsi_process_scsi_data_in. run (get_pdu_run w p pdu Hp). cbv zeta. rewrite Ht.
  unfold no_ack in Hack. rewrite Hack, Hdsl. cbn [Z.eqb negb].
  assert (Hret : forall k : nat -> IO (Z * bool), (deref (Some t) ≫= k) w = k t w) by done.
  rewrite Hret. run (get_task_run w t task Htask). rewrite Hiov.
  set (w1 := w <| ctx ::= fun c => c <| error_string :=
    "Trying to append zero size data to iscsi_data" |> |>).
  set (a := pdu <| indata := indata pdu |>).
  assert (E : ('(rc, d) ← iscsi_add_data (indata pdu) (default [] (in_data inp)) 0 false;
               _ ← set_pdu p (fun pdu => pdu <| indata := d |>); mret (rc =? 0)) w
              = Ret (false, put w1 p a)).
  { assert (E0 : iscsi_add_data (indata pdu) (default [] (in_data inp)) 0 false w
      = Ret ((-1, indata pdu), w1)) by done. run E0.
    by run (set_pdu_run w1 p pdu (fun q => q <| indata := indata pdu |>) Hp). }
  run E. cbn [negb]. eexists. split; [reflexivity|]. split; [done|]. split; [done|].
  do 4 (split; [done|]).
  split; [|split; [intros x Hx; exact (put_lookup_ne w1 p a x Hx)|done]].
  exists pdu, a. split; [done|]. split; [apply put_lookup|done].
Qed.

(** A Data-In PDU without data, for a command without a user buffer, makes
    iscsi_process_pdu free the waiting command PDU and return -1 without ever calling
    the command's callback. *)
Theorem empty_data_in_loses_command (w : world) (p t f : nat) (pdu : iscsi_pdu) (task : scsi_task)
  (inp : iscsi_in_pdu) (q1 q2 : list nat) (Hl : unlocked w) (Hacc : accepted w inp)
  (Hop : byte_at (hdr inp) 0 &&& 0x3f = ISCSI_PDU_DATA_IN)
  (Haw : awaits w p pdu (scsi_get_uint32 (hdr inp) 16) q1 q2)
  (Hresp : response_opcode pdu = ISCSI_PDU_SCSI_RESPONSE) (Hw : waiting w p t f pdu task)
  (Hiov : iov (iovector_in task) = None) (Hack : no_ack inp)
  (Hdsl : scsi_get_uint32 (hdr inp) 4 &&& 0x00ffffff = 0) :
  exists w', iscsi_process_pdu inp w = Ret (-1, w') /\ unlocked w' /\ trace w' = trace w /\
    pdus w' = delete p (pdus w) /\ waitpdu (ctx w') = q1 ++ q2 /\ tasks w' = tasks w.
Proof.
  rewrite (process_pdu_accepted w inp ISCSI_PDU_DATA_IN _ Hl Hacc Hop eq_refl) by done.
  destruct (after_serials_run w inp Hl) as (_ & Hl1 & P & T & R & Wq & Oq & _).
  pose proof (awaits_serials _ _ _ _ _ _ inp Hl Haw) as Haw1.
  pose proof (waiting_serials _ _ _ _ _ _ inp Hl Hw) as Hw1.
  set (w1 := after_serials inp w) in *. set (itt := scsi_get_uint32 (hdr inp) 16) in *.
  unfold process_answer. run (find_waiting_run w1 p pdu itt q1 q2 Hl1 Haw1).
  run (get_pdu_run w1 p pdu (aw_pdu _ _ _ _ _ _ Haw1)). rewrite Hresp.
  change (negb (ISCSI_PDU_DATA_IN =? expected_opcode ISCSI_PDU_DATA_IN ISCSI_PDU_SCSI_RESPONSE))
    with false. cbv iota.
  change (process_reply ISCSI_PDU_DATA_IN p inp) with
    (Some (iscsi_process_scsi_data_in p inp, "iscsi data in failed"%string)). cbv iota.
  destruct (empty_data_in_run w1 p t f pdu task inp Hw1 Hiov Hack Hdsl) as (w2 & E2 & R2 & T2 & K2).
  run E2. cbn [Z.eqb negb]. destruct (awaits_kept _ _ _ _ _ _ _ Haw1 K2) as (pdu2 & Haw2).
  destruct K2 as (_ & _ & K & _ & _ & Kx & _).
  assert (Hl2 : unlocked w2) by (unfold unlocked; by rewrite K).
  destruct (drop_waiting_run w2 p pdu2 itt q1 q2 Hl2 Haw2) as (w3 & E3 & [Eq Eo Ep Et Er El Es Ea]). run E3.
  eexists. split; [reflexivity|]. split; [done|].
  split; [exact (eq_trans Er (eq_trans R2 R))|].
  split; [|split; [exact Eq|exact (eq_trans Et (eq_trans T2 T))]].
  refine (eq_trans Ep _). apply map_eq. intros x. destruct (decide (x = p)) as [->|Hx].
  - by rewrite !lookup_delete_eq.
  - rewrite !lookup_delete_ne by done. by rewrite Kx, P.
Qed.
End EmptyDataIn.

Lemma empty_data_in_loses_command_witness :
  exists w', @iscsi_process_pdu sample_transport sample_negotiation
      (sample_data_in 0x81 []) sample_waiting = Ret (-1, w') /\
    trace w' = [] /\ pdus w' !! 1%nat = None.
Proof.
  destruct (@empty_data_in_loses_command sample_transport sample_negotiation sample_waiting 1 10 7
    (default zero_pdu (pdus sample_waiting !! 1%nat)) new_task (sample_data_in 0x81 []) [] [])
    as (w' & E & _ & R & P & _).
  - reflexivity.
  - by split.
  - reflexivity.
  - by apply sample_awaits.
  - reflexivity.
  - by split.
  - reflexivity.
  - reflexivity.
  - reflexivity.
  - exists w'. split; [exact E|]. split; [exact R|]. by rewrite P.
Defined.
