(* ===== verification/Reader.v ===== *)
(** Receiving: the assembly of PDUs from the bytes of the socket
    (src/lib/socket.c: [iscsi_read_from_socket], [iscsi_free_iscsi_in_pdu]).

    A PDU arrives as its header (with the header digest), its data segment and
    padding, and the data digest; the kernel hands over any part of what is
    asked for.  [iscsi->incoming] holds what is there so far.  The theorems
    show that the PDU that is processed does not depend on where the kernel
    cut the stream, and where the code does depend on it. *)

From S2P Require Import SList Prelude Bytes Crc32c Task Context Pdu Queue Complete Cancel Iovec Command Process Writer.

(** [zmalloc] of a struct iscsi_in_pdu *)
Definition zero_in_pdu : iscsi_in_pdu := Build_iscsi_in_pdu 0 [] 0 None (zeros 4) 0 0.

Definition set_conn (f : connection -> connection) : IO unit :=
  set_ctx (fun c => c <| conn ::= f |>).

(** [iscsi->incoming], which is not NULL. *)
Definition get_in : IO iscsi_in_pdu := c ← get_ctx conn; deref (incoming c).

Definition set_in (f : iscsi_in_pdu -> iscsi_in_pdu) : IO unit :=
  inp ← get_in; set_conn (fun c => c <| incoming := Some (f inp) |>).

Definition iscsi_free_iscsi_in_pdu (inp : iscsi_in_pdu) : IO unit :=
  _ ← iscsi_free (bool_decide (hdr inp <> []));
  _ ← iscsi_free (bool_decide (is_Some (in_data inp)));
  iscsi_free true.

(** A store of received bytes into a block. *)
Definition store (block : bytes) (pos : Z) (data : bytes) : res bytes :=
  if (pos <? 0) || (Z.of_nat (length block) <? pos + Z.of_nat (length data)) then Undef OutOfBounds
  else mret (blit block (Z.to_nat pos) data).

(** ** iscsi_read_from_socket

    The stages of one turn of the loop; [Some rc] ends the function with [rc]:
    0 for [break], -1 for [goto finished]. *)

(** What follows [count <= 0]. *)
Definition read_failed (count : Z) (msg : option string) : IO (option Z) :=
  if count =? 0 then mret (Some (-1)) else
  e ← get_sys errno;
  if (e =? EINTR) || (e =? EAGAIN) then mret (Some 0) else
  _ ← (match msg with Some msg => iscsi_set_error msg | None => mret tt end);
  mret (Some (-1)).

(** The blocks for the PDU and its header. *)
Definition read_alloc (hdr_size : Z) : IO (option Z) :=
  c ← get_ctx conn;
  stage
    (match incoming c with
     | Some _ => mret None
     | None =>
         ok ← iscsi_malloc;
         if negb ok then
           _ ← iscsi_set_error "Out-of-memory: failed to malloc iscsi_in_pdu"; mret (Some (-1))
         else _ ← set_conn (fun c => c <| incoming := Some zero_in_pdu |>); mret None
     end)
    (inp ← get_in;
     match hdr inp with
     | _ :: _ => mret None
     | [] =>
         _ ← set_in (fun inp => inp <| in_calculated_data_digest := crc32c_init |>);
         ok ← iscsi_malloc;
         if negb ok then _ ← iscsi_set_error "Out-of-memory"; mret (Some (-1))
         else _ ← set_in (fun inp => inp <| hdr := zeros (Z.to_nat hdr_size) |>); mret None
     end).

(** First we must read the header, including any digests. *)
Definition read_header (hdr_size : Z) : IO (option Z) :=
  inp ← get_in;
  stage
    (if hdr_pos inp <? hdr_size then
       '(count, data) ← recv (hdr_size - hdr_pos inp);
       if count <=? 0 then read_failed count (Some "read from socket failed, errno:%d"%string) else
       b ← lift (store (hdr inp) (hdr_pos inp) data);
       _ ← set_in (fun inp => inp <| hdr := b |> <| hdr_pos ::= Z.add count |>);
       mret None
     else mret None)
    (inp ← get_in; mret (if hdr_pos inp <? hdr_size then Some 0 else None)).

(** A read into the io vector of a task. *)
Definition read_iovector (t : nat) (pos count : Z) (do_data_digest : bool) : IO Z :=
  inp ← get_in;
  task ← get_task t;
  '(n, (iv, digest)) ← iscsi_iovector_readv_writev (iovector_in task) pos count
      (if do_data_digest then Some (in_calculated_data_digest inp) else None) false;
  _ ← set_task t (fun task => task <| iovector_in := iv |>);
  _ ← set_in (fun inp => inp
        <| in_calculated_data_digest := default (in_calculated_data_digest inp) digest |>);
  mret n.

(** A read into [in->data], allocated here ([user] is false), or into
    [padding_buf]. *)
Definition read_buffer (user : bool) (data_size count : Z) (do_data_digest : bool)
  : IO (option Z) :=
  inp ← get_in;
  stage
    (match in_data inp with
     | None =>
         if user then mret None else
         ok ← iscsi_malloc;
         if negb ok then
           _ ← iscsi_set_error "Out-of-memory: failed to malloc iscsi_in_pdu->data(%d)";
           mret (Some (-1))
         else _ ← set_in (fun inp => inp <| in_data := Some (zeros (Z.to_nat data_size)) |>); mret None
     | Some _ => mret None
     end)
    ('(n, data) ← recv count;
     inp ← get_in;
     _ ← (if user then _ ← lift (store (zeros 3) 0 data); mret tt
          else block ← deref (in_data inp);
               b ← lift (store block (data_pos inp) data);
               set_in (fun inp => inp <| in_data := Some b |>));
     _ ← when (do_data_digest && (0 <? n)) (set_in (fun inp => inp
           <| in_calculated_data_digest := crc32c_chain (in_calculated_data_digest inp) data |>));
     if n <=? 0 then read_failed n None else
     _ ← set_in (fun inp => inp <| data_pos ::= Z.add n |>); mret None).

Definition read_data (do_data_digest : bool) : IO (option Z) :=
  inp ← get_in;
  let padding_size := iscsi_get_pdu_padding_size (hdr inp) in
  let data_segment_len := iscsi_get_pdu_data_size (hdr inp) in
  let data_size := data_segment_len + padding_size in
  max ← get_ctx (fun c => initiator_max_recv_data_segment_length (conn c));
  if (data_segment_len <? 0) || (max <? data_segment_len) then
    _ ← iscsi_set_error "Invalid datasegmentlen received from target (%d)"; mret (Some (-1))
  else
  stage
    (if data_size =? 0 then mret None else
     let count := data_size - data_pos inp in
     v ← iscsi_get_scsi_task_iovector_in inp;
     match v with
     | Some t =>
         if padding_size <? count then
           let offset := scsi_get_uint32 (hdr inp) 40 in
           n ← read_iovector t (u32 (data_pos inp + offset)) (count - padding_size) do_data_digest;
           if n <=? 0 then read_failed n None else
           _ ← set_in (fun inp => inp <| data_pos ::= Z.add n |>); mret None
         else read_buffer true data_size count do_data_digest
     | None => read_buffer false data_size count do_data_digest
     end)
    (inp ← get_in; mret (if data_pos inp <? data_size then Some 0 else None)).

(** Handle Data Digest receive. *)
Definition read_digest (do_data_digest : bool) : IO (option Z) :=
  inp ← get_in;
  let data_size := iscsi_get_pdu_data_size (hdr inp) + iscsi_get_pdu_padding_size (hdr inp) in
  if negb (data_size =? 0) && do_data_digest
     && (received_data_digest_bytes inp <? ISCSI_DIGEST_SIZE) then
    '(count, data) ← recv (ISCSI_DIGEST_SIZE - received_data_digest_bytes inp);
    if count <=? 0 then read_failed count None else
    b ← lift (store (data_digest_buf inp) (received_data_digest_bytes inp) data);
    _ ← set_in (fun inp => inp <| data_digest_buf := b |>
          <| received_data_digest_bytes ::= Z.add count |>);
    mret (if received_data_digest_bytes inp + count <? ISCSI_DIGEST_SIZE then Some 0 else None)
  else mret None.

(** Everything up to a complete PDU. *)
Definition read_pdu (do_data_digest : bool) : IO (option Z) :=
  hdr_size ← get_ctx (fun c => ISCSI_HEADER_SIZE (header_digest c));
  stage (read_alloc hdr_size)
    (stage (read_header hdr_size)
       (stage (read_data do_data_digest) (read_digest do_data_digest))).

Section Read.
Context `{Transport} `{Negotiation}.

(** A complete PDU is processed and freed. *)
Definition process_incoming : IO (option Z) :=
  inp ← get_in;
  _ ← set_conn (fun c => c <| incoming := None |>);
  rc ← iscsi_process_pdu inp;
  _ ← iscsi_free_iscsi_in_pdu inp;
  mret (if negb (rc =? 0) then Some (-1) else None).

(** Every turn but the last uses an answer of the kernel. *)
Fixpoint read_loop (fuel : nat) (do_data_digest : bool) : IO Z :=
  match fuel with
  | O => undefined NoFuel
  | S fuel =>
      r ← stage (read_pdu do_data_digest) process_incoming;
      match r with
      | Some rc => mret rc
      | None =>
          c ← get_ctx id;
          if tcp_nonblocking (conn c) && negb (bool_decide (waitpdu c = [])) && is_loggedin c
          then read_loop fuel do_data_digest else mret 0
      end
  end.

Definition iscsi_read_from_socket : IO Z :=
  digest ← get_ctx data_digest;
  answers ← get_sys rx;
  read_loop (S (length answers)) (negb (digest =? ISCSI_DATA_DIGEST_NONE)).

End Read.

(** * Lemmas *)

(** ** What reading changes *)

(** [w] with another state of the allocator, the counters, the PDU being
    received and the system. *)
Definition rd (w : world) (a : nat) (m : Z) (i : option iscsi_in_pdu) (s : system) : world :=
  w <| alloc_n := a |> <| sys := s |>
    <| ctx ::= fun c => c <| mallocs := m |> <| conn ::= fun k => k <| incoming := i |> |> |>.

Lemma rd_id w : w = rd w (alloc_n w) (mallocs (ctx w)) (incoming (conn (ctx w))) (sys w).
Proof. destruct w as [[]]. match goal with k : connection |- _ => by destruct k end. Qed.

Lemma get_in_run w a m inp s : get_in (rd w a m (Some inp) s) = Ret (inp, rd w a m (Some inp) s).
Proof. done. Qed.

Lemma set_in_run w a m inp s f :
  set_in f (rd w a m (Some inp) s) = Ret (tt, rd w a m (Some (f inp)) s).
Proof. done. Qed.

Lemma rd_malloc_run w a m i s : memory w ->
  iscsi_malloc (rd w a m i s) = Ret (true, rd w (S a) (1 + m) i s).
Proof.
  intros Hm. unfold iscsi_malloc, malloc, when, set_ctx, mbind, M_bind, getS, modify, mret, M_ret.
  change (alloc_ok (rd w a m i s)) with (alloc_ok w). rewrite Hm. done.
Qed.

(** An answer of the kernel to a read of an open, working connection. *)
Definition gives (r : io_result) : Prop :=
  match r with Io_ok n => 1 <= n | Io_error e => e = EAGAIN \/ e = EINTR end.

Definition is_ok (r : io_result) : bool := match r with Io_ok _ => true | Io_error _ => false end.

(** The answers with data. *)
Definition oks (l : list io_result) : nat := length (filter (fun r => is_ok r = true) l).

Lemma oks_cons r l : oks (r :: l) = ((if is_ok r then 1 else 0) + oks l)%nat.
Proof. unfold oks. rewrite filter_cons. destruct (is_ok r); by rewrite ?decide_True, ?decide_False by done. Qed.

Lemma recv_run w a m i s count : 0 < count -> Forall gives (rx s) -> rx s <> [] ->
  exists r l, rx s = r :: l /\
  ((is_ok r = true /\ exists n, 1 <= n <= count /\
      recv count (rd w a m i s) =
        let k := take (Z.to_nat n) (peer s) in
        Ret ((Z.of_nat (length k), k), rd w a m i (s <| rx := l |> <| peer := drop (Z.to_nat n) (peer s) |>))) \/
   (is_ok r = false /\ exists e, (e = EAGAIN \/ e = EINTR) /\
      recv count (rd w a m i s) = Ret ((-1, []), rd w a m i (s <| rx := l |> <| errno := e |>)))).
Proof.
  intros Hc Hg Hne. destruct (rx s) as [|r l] eqn:Erx; [done|]. exists r, l. split; [done|].
  apply Forall_cons in Hg as [Hr _]. unfold recv, get_sys, gets, mbind, M_bind.
  change (rx (sys (rd w a m i s))) with (rx s). rewrite Erx. destruct r as [n|e]; [left|right].
  - split; [done|]. exists (Z.min n count). cbn in Hr. split; [lia|]. done.
  - split; [done|]. exists e. done.
Qed.

(** ** Assembly *)

(** Where the assembly of the PDU [h ++ body] is after [got] bytes. *)
Record assembling (h body : bytes) (got : nat) (inp : iscsi_in_pdu) : Prop := {
  as_hdr_pos : hdr_pos inp = Z.of_nat (got `min` length h);
  as_hdr : hdr inp = take got h ++ zeros (length h - got);
  as_data_pos : data_pos inp = Z.of_nat (got - length h);
  as_data : in_data inp = None /\ (got <= length h)%nat \/
    in_data inp = Some (take (got - length h) body ++ zeros (length body - (got - length h))) /\
      (length h <= got)%nat /\ body <> [];
  as_digest : data_digest_buf inp = zeros 4 /\ received_data_digest_bytes inp = 0 /\
    in_calculated_data_digest inp = crc32c_init
}.

Definition assembled (h body : bytes) (got : nat) (i : option iscsi_in_pdu) : Prop :=
  match i with None => got = 0%nat | Some inp => assembling h body got inp end.

(** The whole PDU. *)
Definition whole (h body : bytes) : iscsi_in_pdu :=
  Build_iscsi_in_pdu (Z.of_nat (length h)) h (Z.of_nat (length body))
    (match body with [] => None | _ => Some body end) (zeros 4) 0 crc32c_init.

(** The bytes of a PDU that goes to a buffer of the library, in the context
    [w]. *)
Record buffered_pdu (w : world) (h body : bytes) : Prop := {
  bp_hdr : Z.of_nat (length h) = ISCSI_HEADER_SIZE (header_digest (ctx w));
  bp_body : Z.of_nat (length body) = iscsi_get_pdu_data_size h + iscsi_get_pdu_padding_size h;
  bp_size : 0 <= iscsi_get_pdu_data_size h <= initiator_max_recv_data_segment_length (conn (ctx w));
  bp_opcode : byte_at h 0 &&& 0x3f <> ISCSI_PDU_DATA_IN
}.

Lemma blit_next (pre src : bytes) n : (length src <= n)%nat ->
  blit (pre ++ zeros n) (length pre) src = (pre ++ src) ++ zeros (n - length src).
Proof.
  intros Hl. rewrite blit_prefix by (by rewrite length_zeros). by rewrite drop_zeros, app_assoc.
Qed.

(** Storing the next bytes of a block. *)
Lemma store_next (full data : bytes) (k : nat) :
  data = take (length data) (drop k full) -> (k + length data <= length full)%nat ->
  store (take k full ++ zeros (length full - k)) (Z.of_nat k) data =
    Ret (take (k + length data) full ++ zeros (length full - (k + length data))).
Proof.
  intros Hd Hk. unfold store. destruct (Z.ltb_spec (Z.of_nat k) 0); [lia|].
  rewrite length_app, length_take, length_zeros.
  destruct (Z.ltb_spec (Z.of_nat (k `min` length full + (length full - k))) (Z.of_nat k + Z.of_nat (length data))); [lia|].
  cbn [orb]. unfold mret, res_ret. f_equal. rewrite Nat2Z.id.
  assert (El : length (take k full) = k) by (rewrite length_take; lia).
  pose proof (blit_next (take k full) data (length full - k) ltac:(lia)) as E. rewrite El in E. rewrite E. f_equal.
  - rewrite Hd at 1. apply take_take_drop.
  - f_equal. lia.
Qed.

Section Assembly.
Context (w : world) (h body more : bytes).
Context (Hmem : memory w) (Hpdu : buffered_pdu w h body).

Lemma hdr_size_pos : (48 <= length h)%nat.
Proof.
  destruct Hpdu as [Hh _ _ _]. revert Hh.
  unfold ISCSI_HEADER_SIZE, ISCSI_RAW_HEADER_SIZE, ISCSI_DIGEST_SIZE. destruct (_ =? _); lia.
Qed.

(** The state [i], [s] after [got] bytes, with answers for the rest. *)
Record at_byte (got : nat) (i : option iscsi_in_pdu) (s : system) : Prop := {
  ab_asm : assembled h body got i;
  ab_got : (got <= length h + length body)%nat;
  ab_peer : peer s = drop got (h ++ body) ++ more;
  ab_gives : Forall gives (rx s);
  ab_oks : (length h + length body - got <= oks (rx s))%nat
}.

(** From [got] to [got'] bytes. *)
Record moved (got got' : nat) (s s' : system) : Prop := {
  mv_le : (got <= got')%nat;
  mv_used : exists used, rx s = used ++ rx s' /\ (got < got' -> used <> [])%nat;
  mv_tx : tx s' = tx s;
  mv_sent : sent s' = sent s;
  mv_umem : umem s' = umem s
}.

Lemma moved_refl got s : moved got got s s.
Proof. split; try done. exists []. split; [done|lia]. Qed.

Lemma moved_trans g1 g2 g3 s1 s2 s3 : moved g1 g2 s1 s2 -> moved g2 g3 s2 s3 -> moved g1 g3 s1 s3.
Proof.
  intros [L1 (u1 & A1 & N1) T1 S1 U1] [L2 (u2 & A2 & N2) T2 S2 U2]. split; try congruence; [lia|].
  exists (u1 ++ u2). rewrite A1, A2, app_assoc. split; [done|]. intros Hlt E.
  apply app_eq_nil in E as [-> ->]. destruct (decide (g1 < g2)%nat); [by apply N1|apply N2; [lia|done]].
Qed.

Lemma read_alloc_run a m i s got : at_byte got i s -> exists a' m' inp,
  read_alloc (ISCSI_HEADER_SIZE (header_digest (ctx w))) (rd w a m i s) =
    Ret (None, rd w a' m' (Some inp) s) /\ at_byte got (Some inp) s.
Proof.
  intros [Ha Hg Hp Hr Ho]. pose proof hdr_size_pos as Hs. unfold read_alloc.
  run (get_ctx_run conn (rd w a m i s)). change (incoming (conn (ctx (rd w a m i s)))) with i.
  destruct i as [inp|].
  - exists a, m, inp. split; [|by split]. unfold stage. cbn [mbind M_bind].
    unfold mbind at 1, M_bind at 1, mret at 1, M_ret at 1. run (get_in_run w a m inp s).
    destruct (hdr inp) as [|x l] eqn:Eh; [|done]. rewrite (as_hdr _ _ _ _ Ha) in Eh.
    apply (f_equal length) in Eh. rewrite length_app, length_take, length_zeros in Eh. cbn in Eh. lia.
  - cbn in Ha. subst got. exists (S (S a)), (1 + (1 + m)),
      (zero_in_pdu <| in_calculated_data_digest := crc32c_init |> <| hdr := zeros (length h) |>).
    split.
    + unfold stage. rewrite (bind_run _ _ _ None (rd w (S a) (1 + m) (Some zero_in_pdu) s)).
      2: { run (rd_malloc_run w a m None s Hmem). done. }
      run (get_in_run w (S a) (1 + m) zero_in_pdu s). cbn [hdr zero_in_pdu].
      run (set_in_run w (S a) (1 + m) zero_in_pdu s (fun inp => inp <| in_calculated_data_digest := crc32c_init |>)).
      run (rd_malloc_run w (S a) (1 + m) (Some (zero_in_pdu <| in_calculated_data_digest := crc32c_init |>)) s Hmem).
      cbn [negb]. rewrite <- (bp_hdr _ _ _ Hpdu), Nat2Z.id. done.
    + split; try done. cbn. split; cbn; try done.
      * by rewrite take_0, Nat.sub_0_r.
      * left. split; [done|lia].
Qed.

(** The kernel hands over [n] more bytes of the PDU, or none. *)
Lemma recv_more a m i s got count : at_byte got i s -> (got < length h + length body)%nat ->
  0 < count <= Z.of_nat (length h + length body - got) ->
  exists s' n, (rx s <> [] /\ exists r, rx s = r :: rx s') /\ at_byte got i s /\
  tx s' = tx s /\ sent s' = sent s /\ umem s' = umem s /\ Forall gives (rx s') /\
  ((1 <= n <= Z.to_nat count)%nat /\ peer s' = drop (got + n) (h ++ body) ++ more /\
     (length h + length body - (got + n) <= oks (rx s'))%nat /\
     recv count (rd w a m i s) = Ret ((Z.of_nat n, take n (drop got (h ++ body))), rd w a m i s') \/
   n = 0%nat /\ peer s' = peer s /\ oks (rx s') = oks (rx s) /\ (errno s' = EAGAIN \/ errno s' = EINTR) /\
     recv count (rd w a m i s) = Ret ((-1, []), rd w a m i s')).
Proof.
  intros Hat Hlt Hc. pose proof Hat as [Ha Hg Hp Hr Ho].
  assert (Hne : rx s <> []) by (intros E; rewrite E in Ho; cbn in Ho; lia).
  destruct (recv_run w a m i s count ltac:(lia) Hr Hne) as (r & l & Erx & [(Eok & n & Hn & E)|(Eok & e & He & E)]).
  - exists (s <| rx := l |> <| peer := drop (Z.to_nat n) (peer s) |>), (Z.to_nat n).
    split; [split; [done|by exists r]|]. split; [done|]. do 3 (split; [done|]).
    rewrite Erx in Hr, Ho. apply Forall_cons in Hr as [_ Hr]. split; [done|]. left.
    rewrite oks_cons, Eok in Ho. split; [lia|].
    assert (Lp : (Z.to_nat n <= length (drop got (h ++ body)))%nat) by (rewrite length_drop, length_app; lia).
    split; [cbn; rewrite Hp, drop_app_le by done; by rewrite drop_drop|].
    split; [change (length h + length body - (got + Z.to_nat n) <= oks l)%nat; lia|]. rewrite E. cbv zeta. rewrite Hp, take_app_le by done.
    rewrite length_take_le by done. done.
  - exists (s <| rx := l |> <| errno := e |>), 0%nat. rewrite Erx in Hr, Ho.
    split; [split; [done|by exists r]|]. split; [done|]. do 3 (split; [done|]).
    apply Forall_cons in Hr as [_ Hr]. split; [done|]. right. split; [done|]. split; [done|].
    split; [change (oks l = oks (rx s)); by rewrite Erx, oks_cons, Eok|]. split; [done|]. by rewrite E.
Qed.

Lemma moved_recv got n s s' r : tx s' = tx s -> sent s' = sent s -> umem s' = umem s ->
  rx s = r :: rx s' -> moved got (got + n) s s'.
Proof. intros. split; try done; [lia|]. by exists [r]. Qed.

Lemma read_failed_run a m i s msg : errno s = EAGAIN \/ errno s = EINTR ->
  read_failed (-1) msg (rd w a m i s) = Ret (Some 0, rd w a m i s).
Proof.
  intros He. unfold read_failed. cbn [Z.eqb].
  rewrite (bind_run _ _ _ (errno s) (rd w a m i s)) by done. by destruct He as [-> | ->].
Qed.

Lemma read_header_run a m inp s got : at_byte got (Some inp) s -> (got < length h + length body)%nat ->
  exists r inp' s' got',
    read_header (ISCSI_HEADER_SIZE (header_digest (ctx w))) (rd w a m (Some inp) s) =
      Ret (r, rd w a m (Some inp') s') /\
    at_byte got' (Some inp') s' /\ moved got got' s s' /\
    (r = None /\ (length h <= got' <= got `max` length h)%nat \/
     r = Some 0 /\ (got' < length h)%nat /\ (length (rx s') < length (rx s))%nat).
Proof.
  intros Hat Hlt. pose proof Hat as [Ha Hg Hp Hr Ho]. pose proof Ha as [A1 A2 A3 A4 A5].
  unfold read_header. run (get_in_run w a m inp s). rewrite <- (bp_hdr _ _ _ Hpdu), A1.
  destruct (Z.ltb_spec (Z.of_nat (got `min` length h)) (Z.of_nat (length h))) as [Hh|Hh].
  2: { exists None, inp, s, got. unfold stage. rewrite (bind_run _ _ _ None (rd w a m (Some inp) s)) by done.
       run (get_in_run w a m inp s). rewrite A1.
       destruct (Z.ltb_spec (Z.of_nat (got `min` length h)) (Z.of_nat (length h))); [lia|].
       split; [done|]. split; [done|]. split; [apply moved_refl|]. left. split; [done|]. lia. }
  replace (got `min` length h)%nat with got by lia.
  destruct (recv_more a m (Some inp) s got (Z.of_nat (length h) - Z.of_nat got) Hat Hlt ltac:(lia))
    as (s' & n & (Hne & r & Erx) & _ & T & S & U & Hr' & [(Hn & Hp' & Ho' & E)|(-> & Hp' & Ho' & He & E)]).
  - set (data := take n (drop got (h ++ body))) in *.
    assert (Ed : data = take n (drop got h)).
    { unfold data. rewrite drop_app_le, take_app_le by (rewrite ?length_drop; lia). done. }
    assert (Ld : length data = n) by (rewrite Ed, length_take, length_drop; lia).
    set (inp' := inp <| hdr := take (got + n) h ++ zeros (length h - (got + n)) |> <| hdr_pos ::= Z.add (Z.of_nat n) |>).
    assert (E' : (if Z.of_nat n <=? 0 then read_failed (Z.of_nat n) (Some "read from socket failed, errno:%d"%string) else
       b ← lift (store (hdr inp) (Z.of_nat got) data);
       _ ← set_in (fun inp => inp <| hdr := b |> <| hdr_pos ::= Z.add (Z.of_nat n) |>); mret None)
       (rd w a m (Some inp) s') = Ret (None, rd w a m (Some inp') s')).
    { destruct (Z.leb_spec (Z.of_nat n) 0); [lia|]. rewrite A2.
      rewrite (lift_bind _ (take (got + n) h ++ zeros (length h - (got + n)))).
      - by run (set_in_run w a m inp s' (fun inp => inp <| hdr := take (got + n) h ++ zeros (length h - (got + n)) |> <| hdr_pos ::= Z.add (Z.of_nat n) |>)).
      - rewrite <- Ld. apply store_next; [by rewrite Ld|lia]. }
    assert (Has : assembling h body (got + n) inp').
    { split; cbn; try done.
      - rewrite A1. lia.
      - rewrite A3. lia.
      - left. destruct A4 as [[A4 _]|(_ & A4 & _)]; [split; [done|lia]|lia]. }
    exists (if (got + n <? length h)%nat then Some 0 else None), inp', s', (got + n)%nat.
    split.
    { unfold stage. unfold mbind at 1, M_bind at 1. run E. cbv beta iota. rewrite E'.
      run (get_in_run w a m inp' s'). rewrite (as_hdr_pos _ _ _ _ Has).
      destruct (Nat.ltb_spec (got + n) (length h)); destruct (Z.ltb_spec (Z.of_nat ((got + n) `min` length h)) (Z.of_nat (length h))); done || lia. }
    split; [split; [exact Has|lia|done|done|lia]|]. split; [by eapply moved_recv|].
    destruct (Nat.ltb_spec (got + n) (length h)); [right|left; split; [done|lia]].
    split; [done|]. split; [done|]. rewrite Erx. cbn. lia.
  - exists (Some 0), inp, s', got. split.
    { unfold stage. unfold mbind at 1, M_bind at 1. run E. cbv beta iota. cbn [Z.leb Z.compare].
      by rewrite read_failed_run. }
    split; [split; try done; [by rewrite Hp'|lia]|]. split.
    { rewrite <- (Nat.add_0_r got) at 2. by eapply moved_recv. }
    right. split; [done|]. split; [lia|]. rewrite Erx. cbn. lia.
Qed.

Lemma asm_hdr got inp : assembling h body got inp -> (length h <= got)%nat -> hdr inp = h.
Proof.
  intros [_ A2 _ _ _] Hg. rewrite A2, take_ge by lia. replace (length h - got)%nat with 0%nat by lia.
  apply app_nil_r.
Qed.

(** The buffer for the data segment is there. *)
Lemma read_buffer_alloc a m inp s got : at_byte got (Some inp) s -> (length h <= got)%nat -> body <> [] ->
  exists a' m' inp',
    (match in_data inp with
     | None =>
         ok ← iscsi_malloc;
         if negb ok then
           _ ← iscsi_set_error "Out-of-memory: failed to malloc iscsi_in_pdu->data(%d)";
           mret (Some (-1))
         else _ ← set_in (fun inp => inp <| in_data := Some (zeros (Z.to_nat (Z.of_nat (length body)))) |>); mret None
     | Some _ => mret None
     end : IO (option Z)) (rd w a m (Some inp) s) = Ret (None, rd w a' m' (Some inp') s) /\
    at_byte got (Some inp') s /\
    in_data inp' = Some (take (got - length h) body ++ zeros (length body - (got - length h))).
Proof.
  intros Hat Hg Hb. pose proof Hat as [Ha Hgot Hp Hr Ho]. pose proof Ha as [A1 A2 A3 A4 A5].
  destruct A4 as [[A4 Hle]|(A4 & _ & _)]; rewrite A4.
  - exists (S a), (1 + m), (inp <| in_data := Some (zeros (length body)) |>).
    assert (Eg : (got - length h)%nat = 0%nat) by lia.
    rewrite Nat2Z.id. split.
    + run (rd_malloc_run w a m (Some inp) s Hmem). done.
    + rewrite Eg, take_0, Nat.sub_0_r. split; [|done]. split; try done. cbn.
      split; try done. right. rewrite Eg, take_0, Nat.sub_0_r. done.
  - exists a, m, inp. done.
Qed.

Lemma read_buffer_run a m inp s got : at_byte got (Some inp) s -> (length h <= got)%nat ->
  (got < length h + length body)%nat ->
  exists r a' m' inp' s' got',
    read_buffer false (Z.of_nat (length body)) (Z.of_nat (length h + length body - got)) false (rd w a m (Some inp) s) =
      Ret (r, rd w a' m' (Some inp') s') /\
    at_byte got' (Some inp') s' /\ moved got got' s s' /\ (length (rx s') < length (rx s))%nat /\
    (r = None \/ r = Some 0 /\ got' = got).
Proof.
  intros Hat Hg Hlt. assert (Hb : body <> []) by (intros E; rewrite E in Hlt; cbn in Hlt; lia).
  unfold read_buffer. run (get_in_run w a m inp s).
  destruct (read_buffer_alloc a m inp s got Hat Hg Hb) as (a' & m' & inp1 & E1 & Hat1 & Ed1).
  unfold stage at 1. run E1. clear E1 Hat inp. rename inp1 into inp. pose proof Hat1 as [Ha Hgot Hp Hr Ho].
  pose proof Ha as [A1 A2 A3 A4 A5].
  destruct (recv_more a' m' (Some inp) s got (Z.of_nat (length h + length body - got)) Hat1 Hlt ltac:(lia))
    as (s' & n & (Hne & r & Erx) & _ & T & S & U & Hr' & [(Hn & Hp' & Ho' & E)|(-> & Hp' & Ho' & He & E)]).
  - set (k := (got - length h)%nat) in *.
    set (data := take n (drop got (h ++ body))) in *.
    assert (Ed : data = take n (drop k body)).
    { unfold data. rewrite drop_app_ge by lia. done. }
    assert (Ld : length data = n) by (rewrite Ed, length_take, length_drop; lia).
    set (blk := take (k + n) body ++ zeros (length body - (k + n))).
    set (inp' := inp <| in_data := Some blk |> <| data_pos ::= Z.add (Z.of_nat n) |>).
    exists None, a', m', inp', s', (got + n)%nat. split.
    { run E. run (get_in_run w a' m' inp s'). rewrite Ed1. unfold deref.
      rewrite (bind_run _ _ _ tt (rd w a' m' (Some (inp <| in_data := Some blk |>)) s')).
      2: { rewrite (bind_run _ _ _ (take k body ++ zeros (length body - k)) (rd w a' m' (Some inp) s')) by done.
           rewrite A3. rewrite (lift_bind _ blk); [done|]. fold k.
           pose proof (store_next body data k) as Es. rewrite Ld in Es. apply Es; [done|lia]. }
      cbn [andb when]. rewrite (bind_run _ _ _ tt (rd w a' m' (Some (inp <| in_data := Some blk |>)) s')) by done.
      destruct (Z.leb_spec (Z.of_nat n) 0); [lia|]. done. }
    split; [|split; [by eapply moved_recv|split; [rewrite Erx; cbn; lia|by left]]].
    split; [|lia|done|done|lia]. cbn. split; cbn; try done.
    + rewrite A1. lia.
    + rewrite A2. rewrite !take_ge by lia. f_equal. f_equal. lia.
    + rewrite A3. lia.
    + right. split; [|split; [lia|done]]. unfold blk, k. do 2 f_equal; f_equal; lia.
  - exists (Some 0), a', m', inp, s', got. split.
    { run E. run (get_in_run w a' m' inp s'). rewrite Ed1. unfold deref.
      rewrite (bind_run _ _ _ tt (rd w a' m' (Some inp) s')).
      2: { rewrite (bind_run _ _ _ (take (got - length h) body ++ zeros (length body - (got - length h))) (rd w a' m' (Some inp) s')) by done.
           rewrite A3.
           rewrite (lift_bind _ (take (got - length h) body ++ zeros (length body - (got - length h)))).
           - rewrite set_in_run. do 2 f_equal. f_equal. rewrite <- Ed1. by destruct inp.
           - pose proof (store_next body [] (got - length h)) as Es. cbn in Es. rewrite Nat.add_0_r in Es.
             apply Es; [done|lia]. }
      cbn [andb when]. rewrite (bind_run _ _ _ tt (rd w a' m' (Some inp) s')) by done.
      cbn [Z.leb Z.compare]. by rewrite read_failed_run. }
    split; [split; try done; [by rewrite Hp'|lia]|]. split.
    { rewrite <- (Nat.add_0_r got) at 2. by eapply moved_recv. }
    split; [rewrite Erx; cbn; lia|]. right. done.
Qed.

Lemma assembled_whole inp : assembling h body (length h + length body) inp -> inp = whole h body.
Proof.
  intros Ha. pose proof (asm_hdr _ _ Ha ltac:(lia)) as Eh. destruct Ha as [A1 A2 A3 A4 (A5 & A6 & A7)].
  destruct inp as [hp hd dp d db rd cd]. cbn in *. subst. unfold whole.
  replace (length h + length body - length h)%nat with (length body) in * by lia.
  f_equal; try lia; [congruence|]. destruct A4 as [[-> Hl]|(-> & _ & Hb)].
  - destruct body; [done|cbn in Hl; lia].
  - rewrite take_ge, Nat.sub_diag by lia. rewrite app_nil_r. by destruct body.
Qed.

Lemma no_iovector inp v : byte_at (hdr inp) 0 = byte_at h 0 -> iscsi_get_scsi_task_iovector_in inp v = Ret (None, v).
Proof.
  intros E. unfold iscsi_get_scsi_task_iovector_in. rewrite E.
  by rewrite (proj2 (Z.eqb_neq _ _) (bp_opcode _ _ _ Hpdu)).
Qed.

Lemma read_data_run a m inp s got : at_byte got (Some inp) s -> (length h <= got)%nat ->
  (got < length h + length body)%nat \/ body = [] ->
  exists r a' m' inp' s' got',
    read_data false (rd w a m (Some inp) s) = Ret (r, rd w a' m' (Some inp') s') /\
    at_byte got' (Some inp') s' /\ moved got got' s s' /\
    (r = None /\ got' = (length h + length body)%nat \/
     r = Some 0 /\ (got' < length h + length body)%nat /\ (length (rx s') < length (rx s))%nat).
Proof.
  intros Hat Hg Hlt. pose proof Hat as [Ha Hgot Hp Hr Ho].
  pose proof (asm_hdr _ _ Ha Hg) as Eh. destruct Hpdu as [_ Hb Hsz _].
  unfold read_data. run (get_in_run w a m inp s). rewrite Eh.
  unfold get_ctx at 1. rewrite (bind_run _ _ _ (initiator_max_recv_data_segment_length (conn (ctx w))) (rd w a m (Some inp) s)) by done.
  destruct (Z.ltb_spec (iscsi_get_pdu_data_size h) 0); [lia|].
  destruct (Z.ltb_spec (initiator_max_recv_data_segment_length (conn (ctx w))) (iscsi_get_pdu_data_size h)); [lia|].
  cbn [orb]. rewrite <- Hb. rewrite (as_data_pos _ _ _ _ Ha).
  assert (Hend : forall r2 a2 m2 inp2 s2 got2, at_byte got2 (Some inp2) s2 -> (length h <= got2)%nat -> r2 = None ->
    (r2' ← (mret r2 : IO (option Z));
     match r2' with Some rc => mret (Some rc) | None =>
       inp ← get_in; mret (if data_pos inp <? Z.of_nat (length body) then Some 0 else None) end) (rd w a2 m2 (Some inp2) s2) =
    Ret (if (got2 <? length h + length body)%nat then Some 0 else None, rd w a2 m2 (Some inp2) s2)).
  { intros r2 a2 m2 inp2 s2 got2 [Ha2 _ _ _ _] Hg2 ->. rewrite (bind_run _ _ _ None (rd w a2 m2 (Some inp2) s2)) by done.
    run (get_in_run w a2 m2 inp2 s2). rewrite (as_data_pos _ _ _ _ Ha2).
    destruct (Nat.ltb_spec got2 (length h + length body)); destruct (Z.ltb_spec (Z.of_nat (got2 - length h)) (Z.of_nat (length body))); done || lia. }
  destruct (Z.eqb_spec (Z.of_nat (length body)) 0) as [E0|E0].
  - exists None, a, m, inp, s, got. unfold stage. rewrite (Hend None a m inp s got) by done.
    destruct (Nat.ltb_spec got (length h + length body)); [lia|].
    split; [done|]. split; [done|]. split; [apply moved_refl|]. left. split; [done|]. lia.
  - destruct Hlt as [Hlt|Hlt]; [|rewrite Hlt in E0; by cbn in E0].
    replace (Z.of_nat (length body) - Z.of_nat (got - length h)) with (Z.of_nat (length h + length body - got)) by lia.
    destruct (read_buffer_run a m inp s got Hat Hg Hlt) as (r & a' & m' & inp' & s' & got' & E & Hat' & Hmv & Hrx & Hres).
    assert (E' : (v ← iscsi_get_scsi_task_iovector_in inp;
      match v with
      | Some t =>
         if iscsi_get_pdu_padding_size h <? Z.of_nat (length h + length body - got) then
           let offset := scsi_get_uint32 h 40 in
           n ← read_iovector t (u32 (Z.of_nat (got - length h) + offset)) (Z.of_nat (length h + length body - got) - iscsi_get_pdu_padding_size h) false;
           if n <=? 0 then read_failed n None else
           _ ← set_in (fun inp => inp <| data_pos ::= Z.add n |>); mret None
         else read_buffer true (Z.of_nat (length body)) (Z.of_nat (length h + length body - got)) false
      | None => read_buffer false (Z.of_nat (length body)) (Z.of_nat (length h + length body - got)) false
      end) (rd w a m (Some inp) s) = Ret (r, rd w a' m' (Some inp') s')).
    { rewrite (bind_run _ _ _ None (rd w a m (Some inp) s)) by (apply no_iovector; by rewrite Eh). exact E. }
    exists (if (got' <? length h + length body)%nat then Some 0 else None), a', m', inp', s', got'.
    split.
    { unfold stage. unfold mbind at 1, M_bind at 1. cbv zeta in E' |- *. rewrite E'. destruct Hres as [->|[-> ->]].
      - pose proof (mv_le _ _ _ _ Hmv). rewrite <- (Hend None a' m' inp' s' got' Hat' ltac:(lia) eq_refl). done.
      - by destruct (Nat.ltb_spec got (length h + length body)); [|lia]. }
    split; [done|]. split; [done|]. pose proof (ab_got _ _ _ Hat').
    destruct (Nat.ltb_spec got' (length h + length body)); [right|left]; (split; [done|lia]).
Qed.

(** One attempt at the PDU: either bytes are still missing, and some answer of
    the kernel was used; or the PDU is complete. *)
Lemma read_pdu_run a m i s got : at_byte got i s -> (got < length h + length body)%nat ->
  exists r a' m' inp' s' got',
    read_pdu false (rd w a m i s) = Ret (r, rd w a' m' (Some inp') s') /\
    at_byte got' (Some inp') s' /\ moved got got' s s' /\
    (r = None /\ inp' = whole h body /\ peer s' = more \/
     r = Some 0 /\ (got' < length h + length body)%nat /\ (length (rx s') < length (rx s))%nat).
Proof.
  intros Hat Hlt. unfold read_pdu.
  unfold get_ctx at 1. rewrite (bind_run _ _ _ (ISCSI_HEADER_SIZE (header_digest (ctx w))) (rd w a m i s)) by done.
  destruct (read_alloc_run a m i s got Hat) as (a1 & m1 & inp1 & E1 & Hat1).
  unfold stage at 1. run E1.
  destruct (read_header_run a1 m1 inp1 s got Hat1 Hlt) as (r2 & inp2 & s2 & got2 & E2 & Hat2 & M2 & R2).
  unfold stage at 1. run E2. destruct R2 as [[-> Hg2]|(-> & Hg2 & Hrx2)].
  2: { exists (Some 0), a1, m1, inp2, s2, got2. split; [done|]. split; [done|]. split; [done|]. right. split; [done|]. lia. }
  assert (Hlt2 : (got2 < length h + length body)%nat \/ body = []).
  { destruct body as [|x l]; [by right|left]. cbn in *. lia. }
  destruct (read_data_run a1 m1 inp2 s2 got2 Hat2 ltac:(lia) Hlt2) as (r3 & a3 & m3 & inp3 & s3 & got3 & E3 & Hat3 & M3 & R3).
  unfold stage at 1. run E3. pose proof (moved_trans _ _ _ _ _ _ M2 M3) as M.
  destruct R3 as [[-> ->]|(-> & Hg3 & Hrx3)].
  - assert (Ew : inp3 = whole h body) by (apply assembled_whole, Hat3).
    exists None, a3, m3, inp3, s3, (length h + length body)%nat. split.
    { unfold read_digest. run (get_in_run w a3 m3 inp3 s3). by rewrite andb_false_r. }
    split; [done|]. split; [done|]. left. split; [done|]. split; [done|].
    rewrite (ab_peer _ _ _ Hat3), drop_ge; [done|]. rewrite length_app. lia.
  - exists (Some 0), a3, m3, inp3, s3, got3. split; [done|]. split; [done|]. split; [done|]. right.
    split; [done|]. split; [done|]. destruct (mv_used _ _ _ _ M2) as (u & -> & _). rewrite length_app. lia.
Qed.

End Assembly.

(** ** Whole PDUs *)

Section Delivery.
Context `{Transport} `{Negotiation}.

(** A complete PDU is processed and freed, and reading goes on or ends. *)
Definition deliver (fuel : nat) (inp : iscsi_in_pdu) : IO Z :=
  rc ← iscsi_process_pdu inp;
  _ ← iscsi_free_iscsi_in_pdu inp;
  if negb (rc =? 0) then mret (-1) else
  c ← get_ctx id;
  if tcp_nonblocking (conn c) && negb (bool_decide (waitpdu c = [])) && is_loggedin c
  then read_loop fuel false else mret 0.

(** [n] calls, until one fails. *)
Fixpoint read_calls (n : nat) : IO Z :=
  match n with
  | O => mret 0
  | S n => rc ← iscsi_read_from_socket; if rc =? 0 then read_calls n else mret rc
  end.

Lemma read_calls_app n1 n2 w w1 : read_calls n1 w = Ret (0, w1) ->
  read_calls (n1 + n2) w = read_calls n2 w1.
Proof.
  revert w. induction n1 as [|n1 IH]; intros w E; [by injection E as <-|].
  cbn [read_calls Nat.add] in *. unfold mbind, M_bind in *.
  destruct (iscsi_read_from_socket w) as [[rc v]|]; [|done].
  destruct (Z.eqb_spec rc 0) as [->|Hne]; [by apply IH|]. by injection E as -> _.
Qed.

Lemma read_from_socket_eq v : data_digest (ctx v) = ISCSI_DATA_DIGEST_NONE ->
  iscsi_read_from_socket v = read_loop (S (length (rx (sys v)))) false v.
Proof.
  intros Hd. unfold iscsi_read_from_socket. run (get_ctx_run data_digest v). rewrite Hd.
  by rewrite (bind_run _ _ _ (rx (sys v)) v).
Qed.

Lemma read_stops w a m i s got h body more : buffered_pdu w h body -> memory w ->
  data_digest (ctx w) = ISCSI_DATA_DIGEST_NONE ->
  at_byte h body more got i s -> (got < length h + length body)%nat ->
  exists a' m' inp' s' got', at_byte h body more got' (Some inp') s' /\ moved got got' s s' /\
    ((inp' = whole h body /\ peer s' = more /\
      iscsi_read_from_socket (rd w a m i s) =
        deliver (length (rx s)) (whole h body) (rd w a' m' None s')) \/
     ((got' < length h + length body)%nat /\ (length (rx s') < length (rx s))%nat /\
      iscsi_read_from_socket (rd w a m i s) = Ret (0, rd w a' m' (Some inp') s'))).
Proof.
  intros Hb Hm Hd Hat Hlt.
  destruct (read_pdu_run w h body more Hm Hb a m i s got Hat Hlt) as (r & a' & m' & inp' & s' & got' & E & Hat' & Hmv & Hr).
  exists a', m', inp', s', got'. do 2 (split; [done|]).
  rewrite read_from_socket_eq by done. change (rx (sys (rd w a m i s))) with (rx s). cbn [read_loop].
  destruct Hr as [(-> & -> & Ep)|(-> & Hg & Hrx)]; [left|right]; (split; [done|]); (split; [done|]).
  - unfold stage. unfold mbind at 1, M_bind at 1. run E.
    unfold process_incoming. run (get_in_run w a' m' (whole h body) s').
    rewrite (bind_run _ _ _ tt (rd w a' m' None s')) by done. unfold deliver.
    unfold mbind, M_bind. destruct (iscsi_process_pdu (whole h body) _) as [[rc w1]|]; [|done].
    destruct (iscsi_free_iscsi_in_pdu (whole h body) w1) as [[[] w2]|]; [|done]. by destruct (rc =? 0).
  - unfold stage. unfold mbind at 1, M_bind at 1. by run E.
Qed.

Lemma read_until (fuel : nat) : forall w a m i s got h body more, buffered_pdu w h body -> memory w ->
  data_digest (ctx w) = ISCSI_DATA_DIGEST_NONE ->
  at_byte h body more got i s -> (got < length h + length body)%nat -> (length (rx s) <= fuel)%nat ->
  exists n w0 k a' m' s', (n <= length (rx s))%nat /\
    read_calls n (rd w a m i s) = Ret (0, w0) /\
    iscsi_read_from_socket w0 = deliver k (whole h body) (rd w a' m' None s') /\
    peer s' = more /\ tx s' = tx s /\ sent s' = sent s /\ umem s' = umem s.
Proof.
  induction fuel as [|fuel IH]; intros w a m i s got h body more Hb Hm Hd Hat Hlt Hf;
    destruct (read_stops w a m i s got h body more Hb Hm Hd Hat Hlt)
      as (a1 & m1 & inp1 & s1 & got1 & Hat1 & [_ _ T1 S1 U1] & [(Ei & Ep & E)|(Hg & Hrx & E)]).
  - exists 0%nat, (rd w a m i s), (length (rx s)), a1, m1, s1. split; [lia|]. done.
  - lia.
  - exists 0%nat, (rd w a m i s), (length (rx s)), a1, m1, s1. split; [lia|]. done.
  - destruct (IH w a1 m1 (Some inp1) s1 got1 h body more Hb Hm Hd Hat1 Hg ltac:(lia))
      as (n & w0 & k & a2 & m2 & s2 & Hn & E2 & E3 & Ep & T2 & S2 & U2).
    exists (S n), w0, k, a2, m2, s2. split; [lia|]. split.
    { cbn [read_calls]. run E. exact E2. }
    split; [done|]. split; [done|]. by rewrite T2, S2, U2.
Qed.

(** The bytes [h ++ body] wait in the socket, followed by [more]; the kernel
    hands them over in pieces, with interruptions. *)
Record arriving (w : world) (h body more : bytes) : Prop := {
  ar_digest : data_digest (ctx w) = ISCSI_DATA_DIGEST_NONE;
  ar_idle : incoming (conn (ctx w)) = None;
  ar_peer : peer (sys w) = h ++ body ++ more;
  ar_gives : Forall gives (rx (sys w));
  ar_enough : (length h + length body <= oks (rx (sys w)))%nat
}.

Lemma read_arriving w h body more : memory w -> buffered_pdu w h body -> arriving w h body more ->
  exists n w0 k a m s, (n <= length (rx (sys w)))%nat /\ read_calls n w = Ret (0, w0) /\
    iscsi_read_from_socket w0 = deliver k (whole h body) (rd w a m None s) /\
    peer s = more /\ tx s = tx (sys w) /\ sent s = sent (sys w) /\ umem s = umem (sys w).
Proof.
  intros Hm Hb [Hd Hi Hp Hg Ho]. pose proof (hdr_size_pos w h body Hb).
  pose proof (rd_id w) as Ew. rewrite Hi in Ew.
  destruct (read_until (length (rx (sys w))) w (alloc_n w) (mallocs (ctx w)) None (sys w) 0 h body more)
    as (n & w0 & k & a' & m' & s' & Hn & E & R); try done; [|lia|].
  - split; try done; [lia| |lia]. by rewrite Hp, drop_0, app_assoc.
  - rewrite <- Ew in E. by exists n, w0, k, a', m', s'.
Qed.

(** C7: Without a data digest, and for a PDU other than Data-In whose data segment is
    within MaxRecvDataSegmentLength: however the kernel cuts the stream, in pieces of
    any size and with calls that find nothing (EAGAIN, EINTR) in between, the calls of
    iscsi_read_from_socket collect exactly one PDU: after at most as many calls as there
    were answers, one call hands iscsi_process_pdu the PDU with the header and the data
    segment sent, and not a byte beyond it was taken from the socket. Memory suffices.
    (With a data digest a cut in front of it closes the connection,
    [late_data_digest_closes].) *)
Theorem read_delivers_pdu (w : world) (h body more : bytes)
  (Hmem : memory w) (Hpdu : buffered_pdu w h body) (Harr : arriving w h body more) :
  exists n w0 k a m s, (n <= length (rx (sys w)))%nat /\ read_calls n w = Ret (0, w0) /\
    iscsi_read_from_socket w0 = deliver k (whole h body) (rd w a m None s) /\
    peer s = more /\ tx s = tx (sys w) /\ sent s = sent (sys w) /\ umem s = umem (sys w).
Proof. by apply read_arriving. Qed.

End Delivery.

Section EndToEnd.
Context `{Transport} `{Negotiation}.

Lemma free_in_pdu_run inp w : exists fr,
  iscsi_free_iscsi_in_pdu inp w = Ret (tt, w <| ctx ::= fun c => c <| frees := fr |> |>).
Proof.
  unfold iscsi_free_iscsi_in_pdu, iscsi_free, when, set_ctx, modify, mbind, M_bind, mret, M_ret.
  destruct (bool_decide _); destruct (bool_decide _); eexists; reflexivity.
Qed.

(** The delivery of the response to the one waiting command. *)
Lemma deliver_response (v : world) (p t f : nat) (pdu : iscsi_pdu) (task : scsi_task) (h body : bytes) (k : nat) :
  unlocked v -> accepted v (whole h body) -> byte_at h 0 &&& 0x3f = ISCSI_PDU_SCSI_RESPONSE ->
  awaits v p pdu (scsi_get_uint32 h 16) [] [] -> response_opcode pdu = ISCSI_PDU_SCSI_RESPONSE ->
  waiting v p t f pdu task ->
  (snd (reply_outcome h) = SCSI_STATUS_CHECK_CONDITION -> sense_received v (whole h body)) ->
  exists w', deliver k (whole h body) v = Ret (fst (reply_outcome h), w') /\ unlocked w' /\
    trace w' = trace v ++ [Ev_callback f (snd (reply_outcome h)) (Data_task t) (cbdata_private_data pdu)] /\
    waitpdu (ctx w') = [] /\ outqueue (ctx w') = outqueue (ctx v) /\ pdus w' = delete p (pdus v) /\
    link_of (ctx w') = link_of (ctx v) /\ reply_done (reply_outcome h) w' t task pdu (whole h body).
Proof.
  intros Hl Hacc Hop Haw Hresp Hw Hsense.
  destruct (scsi_response_run v p t f pdu task (whole h body) [] [] Hl Hacc Hop Haw Hresp Hw Hsense)
    as (w1 & E & Hl1 & T & Q & O & P & L & D).
  destruct (free_in_pdu_run (whole h body) w1) as [fr Ef]. set (w2 := w1 <| ctx ::= _ |>) in Ef.
  exists w2. split; [|by do 6 (split; [done|])].
  unfold deliver. run E. run Ef. change (hdr (whole h body)) with h. cbn [app] in Q.
  assert (Hrc : fst (reply_outcome h) = 0 \/ fst (reply_outcome h) = -1).
  { unfold reply_outcome, status_outcome. repeat destruct (_ || _); auto. destruct (bool_decide _); auto. }
  destruct Hrc as [-> | ->]; [|done]. cbn [Z.eqb negb]. run (get_ctx_run id w2).
  change (waitpdu (id (ctx w2))) with (waitpdu (ctx w1)). rewrite Q, bool_decide_true by done.
  by rewrite andb_false_r.
Qed.

(** C3: End to end, without a data digest: the bytes of a SCSI Response for the one
    waiting command, received in pieces of any size with interruptions in between, end
    in exactly one call of the command's callback, with the status of the response; the
    command leaves the wait queue and is freed, and nothing of the following PDU is
    taken. Memory suffices, and the sense data of a CHECK CONDITION are complete. (With
    a data digest a cut in front of it closes the connection,
    [late_data_digest_closes].) *)
Theorem response_bytes_end_command (w : world) (p t f : nat) (pdu : iscsi_pdu) (task : scsi_task)
  (h body more : bytes) (Hl : unlocked w) (Hmem : memory w) (Hpdu : buffered_pdu w h body)
  (Harr : arriving w h body more) (Hacc : accepted w (whole h body))
  (Hop : byte_at h 0 &&& 0x3f = ISCSI_PDU_SCSI_RESPONSE)
  (Haw : awaits w p pdu (scsi_get_uint32 h 16) [] []) (Hw : waiting w p t f pdu task)
  (Hresp : response_opcode pdu = ISCSI_PDU_SCSI_RESPONSE)
  (Hsense : snd (reply_outcome h) = SCSI_STATUS_CHECK_CONDITION -> sense_received w (whole h body)) :
  exists n w', (n <= S (length (rx (sys w))))%nat /\
    read_calls n w = Ret (fst (reply_outcome h), w') /\
    trace w' = trace w ++ [Ev_callback f (snd (reply_outcome h)) (Data_task t) (cbdata_private_data pdu)] /\
    waitpdu (ctx w') = [] /\ pdus w' = delete p (pdus w) /\
    reply_done (reply_outcome h) w' t task pdu (whole h body).
Proof.
  destruct (read_arriving w h body more Hmem Hpdu Harr) as (n & w0 & k & a & m & s & Hn & E1 & E2 & _).
  set (v := rd w a m None s) in *.
  destruct (deliver_response v p t f pdu task h body k) as (w2 & E & _ & T & Q & _ & P & _ & D); try done.
  { destruct Haw as [A1 A2 A3 A4 A5]. split; [exact A1|exact A2|exact A3|exact A4|constructor]. }
  { destruct Hw as [W1 W2 W3 W4 W5]. by split. }
  { intros E. destruct (Hsense E) as (_ & R). split; [apply Hmem|exact R]. }
  exists (S n), w2. split; [lia|]. split; [|split; [exact T|split; [exact Q|split; [exact P|exact D]]]].
  replace (S n) with (n + 1)%nat by lia. rewrite (read_calls_app n 1 w w0 E1). cbn [read_calls].
  unfold mbind, M_bind. rewrite E2, E. by destruct (_ =? 0) eqn:R; [apply Z.eqb_eq in R as ->|].
Qed.

Lemma stage_none (m1 k : IO (option Z)) (v v' : world) : m1 v = Ret (None, v') -> stage m1 k v = k v'.
Proof. intros E. unfold stage. by run E. Qed.

(** With the whole header there, nothing is read before the data segment. *)
Lemma header_there w a m inp s k : hdr inp <> [] ->
  stage (read_alloc (hdr_pos inp)) (stage (read_header (hdr_pos inp)) k) (rd w a m (Some inp) s) =
  k (rd w a m (Some inp) s).
Proof.
  intros Hne. rewrite (stage_none _ _ _ (rd w a m (Some inp) s)).
  - apply stage_none. unfold read_header. run (get_in_run w a m inp s). rewrite Z.ltb_irrefl.
    rewrite (stage_none _ _ _ (rd w a m (Some inp) s)) by done. run (get_in_run w a m inp s).
    by rewrite Z.ltb_irrefl.
  - unfold read_alloc. run (get_ctx_run conn (rd w a m (Some inp) s)).
    change (incoming (conn (ctx (rd w a m (Some inp) s)))) with (Some inp). cbv iota.
    rewrite (stage_none _ _ _ (rd w a m (Some inp) s)) by done. run (get_in_run w a m inp s).
    by destruct (hdr inp).
Qed.

(** A read of no bytes is taken for the end of the connection. *)
Lemma read_buffer_nothing w a m inp s block n l : in_data inp = Some block ->
  0 <= data_pos inp <= Z.of_nat (length block) -> rx s = Io_ok n :: l -> 1 <= n ->
  read_buffer false (data_pos inp) 0 true (rd w a m (Some inp) s) =
    Ret (Some (-1), rd w a m (Some inp) (s <| rx := l |> <| peer := drop 0 (peer s) |>)).
Proof.
  intros Hblock Hpos Hrx Hn. set (s' := s <| rx := l |> <| peer := drop 0 (peer s) |>).
  unfold read_buffer. run (get_in_run w a m inp s). rewrite Hblock.
  rewrite (stage_none _ _ _ (rd w a m (Some inp) s)) by done.
  assert (Er : recv 0 (rd w a m (Some inp) s) = Ret ((0, []), rd w a m (Some inp) s')).
  { unfold recv, get_sys, gets, mbind, M_bind. change (rx (sys (rd w a m (Some inp) s))) with (rx s).
    rewrite Hrx. unfold s'. replace (Z.to_nat (Z.min n 0)) with 0%nat by lia. done. }
  run Er. run (get_in_run w a m inp s'). rewrite Hblock. unfold deref.
  rewrite (bind_run _ _ _ tt (rd w a m (Some inp) s')); [done|].
  rewrite (bind_run _ _ _ block (rd w a m (Some inp) s')) by done.
  rewrite (lift_bind _ block).
  - rewrite set_in_run. do 3 f_equal. rewrite <- Hblock. by destruct inp.
  - unfold store. cbn [length]. destruct (Z.ltb_spec (data_pos inp) 0); [lia|].
    destruct (Z.ltb_spec (Z.of_nat (length block)) (data_pos inp + Z.of_nat 0)); [lia|]. done.
Qed.

(** With a data digest the stream must not be cut before the digest: when a call
    ends after the data segment and the four digest bytes are there for the next call,
    that call asks the kernel for the rest of the data segment, zero bytes, takes the
    answer 0 for the end of the connection and returns -1 without reading the digest
    (the caller then drops the connection). *)
Theorem late_data_digest_closes (w : world) (inp : iscsi_in_pdu) (block : bytes) (n : Z) (l : list io_result)
  (Hin : incoming (conn (ctx w)) = Some inp) (Hdd : data_digest (ctx w) <> ISCSI_DATA_DIGEST_NONE)
  (Hhdr : hdr_pos inp = ISCSI_HEADER_SIZE (header_digest (ctx w))) (Hne : hdr inp <> [])
  (Hmax : 0 <= iscsi_get_pdu_data_size (hdr inp) <= initiator_max_recv_data_segment_length (conn (ctx w)))
  (Hdata : data_pos inp = iscsi_get_pdu_data_size (hdr inp) + iscsi_get_pdu_padding_size (hdr inp))
  (Hpos : 0 < data_pos inp <= Z.of_nat (length block)) (Hblock : in_data inp = Some block)
  (Hop : byte_at (hdr inp) 0 &&& 0x3f <> ISCSI_PDU_DATA_IN)
  (Hrx : rx (sys w) = Io_ok n :: l) (Hn : 1 <= n) :
  exists w', iscsi_read_from_socket w = Ret (-1, w') /\
    peer (sys w') = peer (sys w) /\ trace w' = trace w /\ incoming (conn (ctx w')) = Some inp.
Proof.
  pose proof (rd_id w) as Ew. rewrite Hin in Ew. set (s := sys w) in *.
  set (a := alloc_n w) in Ew. set (m := mallocs (ctx w)) in Ew.
  set (s' := s <| rx := l |> <| peer := drop 0 (peer s) |>).
  exists (rd w a m (Some inp) s'). split; [|by rewrite Ew].
  unfold iscsi_read_from_socket. run (get_ctx_run data_digest w). rewrite (proj2 (Z.eqb_neq _ _) Hdd).
  rewrite (bind_run _ _ _ (rx s) w) by done. cbn [read_loop negb].
  assert (E : read_pdu true w = Ret (Some (-1), rd w a m (Some inp) s')).
  { unfold read_pdu. unfold get_ctx at 1.
    rewrite (bind_run _ _ _ (ISCSI_HEADER_SIZE (header_digest (ctx w))) w) by done.
    rewrite <- Hhdr. match goal with |- ?L w = _ => rewrite (f_equal L Ew) end.
    rewrite header_there by done. unfold stage at 1.
    assert (E3 : read_data true (rd w a m (Some inp) s) = Ret (Some (-1), rd w a m (Some inp) s')).
    { unfold read_data. run (get_in_run w a m inp s). unfold get_ctx at 1.
      rewrite (bind_run _ _ _ (initiator_max_recv_data_segment_length (conn (ctx w))) (rd w a m (Some inp) s)) by done.
      destruct (Z.ltb_spec (iscsi_get_pdu_data_size (hdr inp)) 0); [lia|].
      destruct (Z.ltb_spec (initiator_max_recv_data_segment_length (conn (ctx w))) (iscsi_get_pdu_data_size (hdr inp))); [lia|].
      cbn [orb]. rewrite <- Hdata, Z.sub_diag. destruct (Z.eqb_spec (data_pos inp) 0); [lia|].
      assert (Ev : iscsi_get_scsi_task_iovector_in inp (rd w a m (Some inp) s) = Ret (None, rd w a m (Some inp) s)).
      { unfold iscsi_get_scsi_task_iovector_in. by rewrite (proj2 (Z.eqb_neq _ _) Hop). }
      unfold stage at 1. unfold mbind at 1, M_bind at 1. cbv zeta. run Ev.
      by rewrite (read_buffer_nothing w a m inp s block n l Hblock ltac:(lia) Hrx Hn). }
    by run E3. }
  unfold stage. unfold mbind at 1, M_bind at 1. by run E.
Qed.

End EndToEnd.

(** *** Witnesses *)

(** A world with bytes to receive, in pieces of up to [n] bytes, after one
    call that finds nothing. *)
Definition sample_receiving (w : world) (n : Z) (data : bytes) : world :=
  w <| sys ::= fun s => s <| peer := data |>
         <| rx := [Io_error EAGAIN] ++ replicate (length data) (Io_ok n) |> |>.

(** A NOP-In with three bytes of data. *)
Definition sample_nop_in : bytes := scsi_set_uint32 (<[0%nat := 0x20]> (zeros 48)) 4 3.

Lemma sample_arriving w n h body more : 1 <= n -> data_digest (ctx w) = ISCSI_DATA_DIGEST_NONE ->
  incoming (conn (ctx w)) = None -> arriving (sample_receiving w n (h ++ body ++ more)) h body more.
Proof.
  intros Hn Hd Hi. split; try done.
  - constructor; [by left|]. apply Forall_replicate. exact Hn.
  - change (rx (sys (sample_receiving w n (h ++ body ++ more)))) with
      (Io_error EAGAIN :: replicate (length (h ++ body ++ more)) (Io_ok n)).
    rewrite oks_cons. cbn [is_ok]. rewrite !length_app. generalize (length more). intros m.
    assert (E : forall k, oks (replicate k (Io_ok n)) = k).
    { induction k as [|k IH]; [done|]. cbn [replicate]. rewrite oks_cons, IH. done. }
    rewrite E. lia.
Qed.

Lemma read_delivers_pdu_witness :
  let w := sample_receiving sample_world 5 (sample_nop_in ++ [1; 2; 3; 0] ++ [9; 9]) in
  exists n w0 k a m s, (n <= length (rx (sys w)))%nat /\
    @read_calls sample_transport sample_negotiation n w = Ret (0, w0) /\
    @iscsi_read_from_socket sample_transport sample_negotiation w0 =
      @deliver sample_transport sample_negotiation k (whole sample_nop_in [1; 2; 3; 0]) (rd w a m None s) /\
    peer s = [9; 9] /\ tx s = tx (sys w) /\ sent s = sent (sys w) /\ umem s = umem (sys w).
Proof.
  cbv zeta. apply read_delivers_pdu.
  - intros k. reflexivity.
  - split; try (vm_compute; done); vm_compute; split; discriminate.
  - by apply sample_arriving.
Defined.

Lemma response_bytes_end_command_witness :
  let w := sample_receiving sample_waiting 7 (hdr (sample_response 0x80 0 0 0 []) ++ [] ++ [1; 2; 3]) in
  exists n w', @read_calls sample_transport sample_negotiation n w = Ret (0, w') /\
    trace w' = [Ev_callback 7 SCSI_STATUS_GOOD (Data_task 10) 99] /\ waitpdu (ctx w') = [].
Proof.
  cbv zeta.
  destruct (@response_bytes_end_command sample_transport sample_negotiation
    (sample_receiving sample_waiting 7 (hdr (sample_response 0x80 0 0 0 []) ++ [] ++ [1; 2; 3]))
    1 10 7 (default zero_pdu (pdus sample_waiting !! 1%nat)) new_task
    (hdr (sample_response 0x80 0 0 0 [])) [] [1; 2; 3]) as (n & w' & _ & E & T & Q & _).
  - reflexivity.
  - intros k. reflexivity.
  - split; try (vm_compute; done); vm_compute; split; discriminate.
  - by apply sample_arriving.
  - by split.
  - reflexivity.
  - split; try done. cbn. apply not_elem_of_nil.
  - by split.
  - reflexivity.
  - intros E. vm_compute in E. discriminate.
  - exists n, w'. split; [exact E|]. split; [exact T|exact Q].
Defined.

(** A NOP-In whose data segment is complete and whose digest is still to come. *)
Definition sample_late_digest : world :=
  sample_world <| ctx ::= fun c => c <| data_digest := 1 |>
      <| conn ::= fun k => k <| incoming := Some
           ((whole sample_nop_in [1; 2; 3; 0]) <| in_calculated_data_digest := crc32c_chain crc32c_init [1; 2; 3; 0] |>) |> |> |>
    <| sys ::= fun s => s <| rx := [Io_ok 4] |> <| peer := le4 (crc32c [1; 2; 3; 0]) |> |>.

Lemma late_data_digest_closes_witness :
  exists w', @iscsi_read_from_socket sample_transport sample_negotiation sample_late_digest = Ret (-1, w') /\
    peer (sys w') = le4 (crc32c [1; 2; 3; 0]).
Proof.
  destruct (@late_data_digest_closes sample_transport sample_negotiation sample_late_digest
    ((whole sample_nop_in [1; 2; 3; 0]) <| in_calculated_data_digest := crc32c_chain crc32c_init [1; 2; 3; 0] |>)
    [1; 2; 3; 0] 4 []) as (w' & E & P & _); try reflexivity; try discriminate.
  - vm_compute. split; discriminate.
  - vm_compute. split; [reflexivity|discriminate].
  - exists w'. split; [exact E|exact P].
Defined.
