(* ===== verification/Service.v ===== *)
(** The service routine of the TCP transport (src/lib/socket.c:
    [iscsi_tcp_service], [iscsi_service_reconnect_if_loggedin],
    [iscsi_service]), and the transport the rest of the library queues PDUs
    to.

    Reconnecting and what follows a connect are the interface [Connect].
    [getsockopt] answers with the pending error of the socket and clears it. *)

From S2P Require Import SList Prelude Bytes Crc32c Task Context Pdu Queue Complete Cancel Iovec Command Process Writer Reader.

(** [iscsi_reconnect] and [iscsi_reconnect_cb] of src/lib/connect.c, and the
    function a connect was started with ([socket_status_cb]): it is given the
    status and the private data. *)
Class Connect := {
  iscsi_reconnect : IO Z;
  iscsi_reconnect_cb : Z -> IO unit;
  run_status_cb : iscsi_command_cb -> Z -> Z -> IO unit
}.

Definition POLLERR : Z := 8.
Definition POLLHUP : Z := 16.

(** [getsockopt(fd, SOL_SOCKET, SO_ERROR, &err, ...)] *)
Definition so_error_of_socket : IO Z :=
  e ← get_sys so_error;
  _ ← set_sys (fun s => s <| so_error := 0 |>);
  mret e.

Section Service.
Context `{Connect}.

Definition iscsi_service_reconnect_if_loggedin : IO Z :=
  loggedin ← get_ctx is_loggedin;
  rc ← (if (loggedin : bool) then iscsi_reconnect else mret (-1));
  if (loggedin : bool) && (rc =? 0) then mret 0 else
  c ← get_ctx id;
  if bool_decide (is_Some (old_iscsi c)) then
    _ ← when (negb (pending_reconnect c)) (iscsi_reconnect_cb SCSI_STATUS_ERROR);
    mret 0
  else
    _ ← iscsi_set_error "iscsi_service_reconnect_if_loggedin. Can not reconnect right now.";
    mret (-1).

(** Call [socket_status_cb] once. *)
Definition notify_connect (status : Z) : IO unit :=
  c ← get_ctx conn;
  match socket_status_cb c with
  | None => mret tt
  | Some cb =>
      _ ← run_status_cb cb status (connect_data c);
      set_conn (fun c => c <| socket_status_cb := None |>)
  end.

(** The end of the service routine. *)
Definition check_timeout : IO Z :=
  _ ← iscsi_timeout_scan;
  old ← get_ctx old_iscsi;
  match old with
  | None => mret 0
  | Some old => _ ← on_old old iscsi_timeout_scan; mret 0
  end.

(** A failed connection. *)
Definition service_failed (msg : string) : IO Z :=
  _ ← iscsi_set_error msg;
  _ ← notify_connect SCSI_STATUS_ERROR;
  iscsi_service_reconnect_if_loggedin.

(** The first event on a connecting socket. *)
Definition service_connected : IO Z :=
  err ← so_error_of_socket;
  if negb (err =? 0) then service_failed "iscsi_service: socket error %s(%d) while connecting."
  else
    _ ← set_ctx (fun c => c <| is_connected := true |>);
    _ ← notify_connect SCSI_STATUS_GOOD;
    mret 0.

(** The body of [iscsi_tcp_service] after the test for a pending reconnect;
    [read] is [iscsi_read_from_socket]. *)
Definition service_events (read : IO Z) (revents : Z) : IO Z :=
  if truth (revents &&& POLLERR) then
    err ← so_error_of_socket;
    service_failed (if negb (err =? 0) then "iscsi_service: socket error %s(%d)."
                    else "iscsi_service: POLLERR, Unknown socket error.")
  else if truth (revents &&& POLLHUP) then service_failed "iscsi_service: POLLHUP, socket error."
  else
    connected ← get_ctx is_connected;
    if negb (connected : bool) && truth (revents &&& POLLOUT) then service_connected else
    rc ← (if truth (revents &&& POLLIN) then read else mret 0);
    if negb (rc =? 0) then iscsi_service_reconnect_if_loggedin else
    rc ← (if truth (revents &&& POLLOUT) then iscsi_write_to_socket else mret 0);
    if negb (rc =? 0) then iscsi_service_reconnect_if_loggedin else
    check_timeout.

Definition tcp_service (read : IO Z) (revents : Z) : IO Z :=
  w ← getS;
  let c := ctx w in
  if fd (conn c) <? 0 then mret 0 else
  if pending_reconnect c then
    if next_reconnect c <=? now w then iscsi_reconnect
    else if bool_decide (is_Some (old_iscsi c)) then check_timeout
    else service_events read revents
  else service_events read revents.

(** The transport that queueing a PDU calls: with POLLOUT alone the service
    routine does not read. *)
#[export] Instance tcp_transport : Transport := {| service := tcp_service (undefined NoFuel) |}.

Context `{Negotiation}.

Definition iscsi_tcp_service (revents : Z) : IO Z := tcp_service iscsi_read_from_socket revents.

(** [iscsi->drv->service(iscsi, revents)] *)
Definition iscsi_service (revents : Z) : IO Z := iscsi_tcp_service revents.

End Service.

(** * Lemmas *)

Section ServiceProofs.
Context `{Connect} `{Negotiation}.

(** What [iscsi_add_to_outqueue] calls is the service routine. *)
Lemma service_is_tcp_service w : service POLLOUT w = iscsi_service POLLOUT w.
Proof. reflexivity. Qed.

End ServiceProofs.
