(* ===== verification/Text.v ===== *)
(** The text of login and discovery PDUs: NUL-terminated [key=value] strings
    (used by src/lib/login.c and src/lib/discovery.c), and what those files use
    of the C library on it: [strncmp], [memchr], [strtol], [strtoul], [atoi]
    and [snprintf] with [%d].

    A string is the list of its bytes before the NUL.  The lemmas show that
    printed numbers are read back, that hexadecimal text decodes to the bytes
    it was made from, and that strings joined with their NULs split again. *)

From S2P Require Import Prelude.

(** A string literal. *)
Definition str (s : string) : bytes :=
  map (fun c => Z.of_N (Ascii.N_of_ascii c)) (String.list_ascii_of_string s).

(** [strncmp(s, k, strlen(k)) == 0], and then [s + strlen(k)]. *)
Fixpoint strip (k s : bytes) : option bytes :=
  match k, s with
  | [], _ => Some s
  | a :: k, b :: s => if a =? b then strip k s else None
  | _ :: _, [] => None
  end.

(** [memchr(l, 0, length l)]: what is before the first NUL and what is after
    it. *)
Fixpoint split_nul (l : bytes) : option (bytes * bytes) :=
  match l with
  | [] => None
  | b :: l => if b =? 0 then Some ([], l) else '(s, r) ← split_nul l; Some (b :: s, r)
  end.

(** ** Numbers *)

Definition isspace (b : Z) : bool := (b =? 32) || ((9 <=? b) && (b <=? 13)).
Definition isdigit (b : Z) : bool := (48 <=? b) && (b <=? 57).

(** The value of the leading decimal digits of [s], after those worth [n]. *)
Fixpoint decimal (n : Z) (s : bytes) : Z :=
  match s with
  | b :: s => if isdigit b then decimal (10 * n + (b - 48)) s else n
  | [] => n
  end.

Fixpoint skip_space (s : bytes) : bytes :=
  match s with b :: s' => if isspace b then skip_space s' else s | [] => [] end.

(** The sign and the digits after white space. *)
Definition signed_decimal (s : bytes) : bool * Z :=
  match skip_space s with
  | 45 :: s => (true, decimal 0 s)
  | 43 :: s => (false, decimal 0 s)
  | s => (false, decimal 0 s)
  end.

(** [strtol(s, NULL, 10)] and [strtoul(s, NULL, 10)] for a 64-bit [long]: out
    of range values saturate. *)
Definition strtol (s : bytes) : Z :=
  let '(neg, n) := signed_decimal s in
  if neg : bool then Z.max (- 2 ^ 63) (- n) else Z.min (2 ^ 63 - 1) n.

Definition strtoul (s : bytes) : Z :=
  let '(neg, n) := signed_decimal s in
  if 2 ^ 64 <=? n then 2 ^ 64 - 1 else if neg : bool then u64 (- n) else n.

Definition atoi (s : bytes) : Z := i32 (strtol s).

(** The decimal digits of [n], in front of [acc]. *)
Fixpoint digits (fuel : nat) (n : Z) (acc : bytes) : bytes :=
  match fuel with
  | O => acc
  | S fuel => if n <? 10 then 48 + n :: acc else digits fuel (n / 10) (48 + n mod 10 :: acc)
  end.

(** [%d] of an [int]: ten digits at most. *)
Definition print_d (n : Z) : bytes :=
  if n <? 0 then 45 :: digits 10 (- n) [] else digits 10 n [].

(** ** Hexadecimal digits *)

Definition h2i (h : Z) : Z :=
  if (97 <=? h) && (h <=? 102) then h - 97 + 10
  else if (65 <=? h) && (h <=? 70) then h - 65 + 10
  else h - 48.

Definition i2h (i : Z) : Z := if 10 <=? i then i - 10 + 65 else i + 48.

(** The byte two digits stand for, and the digits of a byte. *)
Definition hex_byte (a b : Z) : Z := u8 ((h2i a << 4) ||| h2i b).
Definition hex_pair (c : Z) : bytes := [i2h ((c >> 4) &&& 0x0f); i2h (c &&& 0x0f)].
Definition hex_text (l : bytes) : bytes := concat (map hex_pair l).

(** The bytes a NUL-terminated hexadecimal text stands for, read two digits at
    a time.  Of a text of odd length the NUL is read as the last digit and the
    reading goes on behind it. *)
Fixpoint hex_bytes (l : bytes) : res bytes :=
  match l with
  | [] => Undef OutOfBounds
  | a :: l =>
      if a =? 0 then mret [] else
      match l with
      | [] => Undef OutOfBounds
      | b :: l => r ← hex_bytes l; mret (hex_byte a b :: r)
      end
  end.

(** The bytes of a text of known length. *)
Fixpoint hex_pairs (l : bytes) : bytes :=
  match l with a :: b :: l => hex_byte a b :: hex_pairs l | _ => [] end.

(** ** Strings in a row *)

(** Strings, each with its NUL. *)
Definition join_nul (l : list bytes) : bytes := concat (map (fun s => s ++ [0]) l).

(** No NUL inside, and not empty. *)
Definition no_nul (s : bytes) : Prop := Forall (fun b => b <> 0) s.
Definition text_ok (s : bytes) : Prop := s <> [] /\ no_nul s.

(** The strings of a text, up to an empty one or its end; [None] when a NUL is
    missing. *)
Fixpoint split_strings (fuel : nat) (text : bytes) : option (list bytes) :=
  match fuel, text with
  | _, [] => Some []
  | O, _ => None
  | S fuel, _ =>
      match split_nul text with
      | None => None
      | Some ([], _) => Some []
      | Some (s, rest) => l ← split_strings fuel rest; Some (s :: l)
      end
  end.

(** * Lemmas *)

(** *** Prefixes *)

Lemma strip_app k s : strip k (k ++ s) = Some s.
Proof. induction k as [|a k IH]; [done|]. cbn [app strip]. by rewrite Z.eqb_refl. Qed.

Lemma strip_Some k s v : strip k s = Some v -> s = k ++ v.
Proof.
  revert s. induction k as [|a k IH]; intros s E; [by injection E|].
  destruct s as [|b s]; [done|]. cbn [strip] in E. destruct (Z.eqb_spec a b) as [->|]; [|done].
  cbn [app]. f_equal. by apply IH.
Qed.

(** Keys of which neither begins with the other exclude each other. *)
Fixpoint clash (k1 k2 : bytes) : bool :=
  match k1, k2 with
  | a :: k1, b :: k2 => if a =? b then clash k1 k2 else true
  | _, _ => false
  end.

Lemma strip_clash k1 k2 s v : clash k1 k2 = true -> strip k1 s = Some v -> strip k2 s = None.
Proof.
  intros Hc E. apply strip_Some in E as ->. revert k2 Hc.
  induction k1 as [|a k1 IH]; intros [|b k2] Hc; try done.
  cbn [clash] in Hc. cbn [app strip]. destruct (Z.eqb_spec a b) as [->|Hne].
  - rewrite Z.eqb_refl. by apply IH.
  - by rewrite (proj2 (Z.eqb_neq b a)) by done.
Qed.

(** *** Splitting *)

Lemma split_nul_app s r : Forall (fun b => b <> 0) s -> split_nul (s ++ 0 :: r) = Some (s, r).
Proof.
  induction 1 as [|b s Hb _ IH]; [done|]. cbn [app split_nul].
  rewrite (proj2 (Z.eqb_neq _ _) Hb), IH. done.
Qed.

Lemma split_nul_Some l s r : split_nul l = Some (s, r) ->
  l = s ++ 0 :: r /\ Forall (fun b => b <> 0) s.
Proof.
  revert s r. induction l as [|b l IH]; intros s r E; [done|]. cbn [split_nul] in E.
  destruct (Z.eqb_spec b 0) as [->|Hb].
  - injection E as <- <-. by split.
  - destruct (split_nul l) as [[s' r']|]; [|done]. cbn in E. injection E as <- <-.
    destruct (IH s' r' eq_refl) as [-> Hs]. by split; [|constructor].
Qed.

Lemma join_nul_cons s l : join_nul (s :: l) = s ++ 0 :: join_nul l.
Proof. unfold join_nul. cbn [map concat]. by rewrite <- app_assoc. Qed.

Lemma join_nul_app l1 l2 : join_nul (l1 ++ l2) = join_nul l1 ++ join_nul l2.
Proof. unfold join_nul. by rewrite map_app, concat_app. Qed.

Lemma length_join_nul l : (length l <= length (join_nul l))%nat.
Proof.
  induction l as [|s l IH]; [done|]. rewrite join_nul_cons, length_app. cbn [length]. lia.
Qed.

Lemma split_join fuel l : Forall text_ok l -> (length l <= fuel)%nat ->
  split_strings fuel (join_nul l) = Some l.
Proof.
  intros Hl. revert fuel. induction Hl as [|s l [Hne Hs] _ IH]; intros fuel Hf; [by destruct fuel|].
  destruct fuel as [|fuel]; [cbn in Hf; lia|]. rewrite join_nul_cons. cbn [split_strings].
  rewrite split_nul_app by done. destruct s as [|b s]; [done|]. cbn [app].
  rewrite IH by (cbn in Hf; lia). done.
Qed.

Lemma text_ok_app k v : text_ok k -> no_nul v -> text_ok (k ++ v).
Proof. intros [Hne Hk] Hv. split; [by destruct k|]. by apply Forall_app. Qed.

(** *** Numbers *)

Lemma isdigit_48 d : 0 <= d < 10 -> isdigit (48 + d) = true.
Proof. intros. unfold isdigit. apply andb_true_iff. lia. Qed.

Lemma decimal_digits fuel n acc : 0 <= n < 10 ^ Z.of_nat fuel -> (0 < fuel)%nat ->
  decimal 0 (digits fuel n acc) = decimal n acc.
Proof.
  revert n acc. induction fuel as [|fuel IH]; intros n acc Hn Hf; [lia|]. cbn [digits].
  destruct (Z.ltb_spec n 10).
  - cbn [decimal]. rewrite isdigit_48 by lia. f_equal. lia.
  - rewrite IH; cycle 1.
    + rewrite Nat2Z.inj_succ, Z.pow_succ_r in Hn by lia. split; [apply Z.div_pos; lia|].
      apply Z.div_lt_upper_bound; lia.
    + destruct fuel; [cbn in Hn; lia|lia].
    + pose proof (Z.mod_pos_bound n 10 ltac:(lia)). cbn [decimal].
      rewrite isdigit_48 by lia. f_equal. pose proof (Z.div_mod n 10 ltac:(lia)). lia.
Qed.

Lemma digits_head fuel n acc : 0 <= n -> (0 < fuel)%nat ->
  exists d r, digits fuel n acc = 48 + d :: r /\ 0 <= d.
Proof.
  revert n acc. induction fuel as [|fuel IH]; intros n acc Hn Hf; [lia|]. cbn [digits].
  destruct (Z.ltb_spec n 10); [by eexists _, _|]. destruct fuel as [|fuel].
  - cbn [digits]. exists (n mod 10), acc. split; [done|]. apply Z.mod_pos_bound. lia.
  - apply IH; [apply Z.div_pos; lia|lia].
Qed.

Lemma digits_no_nul fuel n acc : 0 <= n -> no_nul acc -> no_nul (digits fuel n acc).
Proof.
  revert n acc. induction fuel as [|fuel IH]; intros n acc Hn Ha; [done|]. cbn [digits].
  destruct (_ <? _); [constructor; [lia|done]|]. pose proof (Z.mod_pos_bound n 10 ltac:(lia)).
  apply IH; [apply Z.div_pos; lia|]. constructor; [lia|done].
Qed.

Lemma print_d_no_nul n : no_nul (print_d n).
Proof.
  unfold print_d. destruct (Z.ltb_spec n 0); [constructor; [lia|]|]; apply digits_no_nul; try constructor; lia.
Qed.

Lemma signed_decimal_print n : - 10 ^ 10 < n < 10 ^ 10 ->
  signed_decimal (print_d n) = (n <? 0, Z.abs n).
Proof.
  intros Hn. unfold signed_decimal, print_d. destruct (Z.ltb_spec n 0).
  - cbn [skip_space]. change (isspace 45) with false. cbv iota. f_equal.
    rewrite (decimal_digits 10 (- n) []) by lia. cbn. lia.
  - destruct (digits_head 10 n [] ltac:(lia) ltac:(lia)) as (d & r & E & Hd).
    rewrite E. cbn [skip_space].
    assert (isspace (48 + d) = false) as ->.
    { unfold isspace. apply orb_false_iff. split; [lia|]. apply andb_false_iff. lia. }
    assert (H45 : 48 + d <> 45) by lia. assert (H43 : 48 + d <> 43) by lia.
    transitivity (false, decimal 0 (48 + d :: r)).
    { revert H45 H43. generalize (48 + d). intros b H45 H43.
      destruct b as [|q|q]; try done. do 6 (destruct q; try done). }
    f_equal. rewrite <- E, (decimal_digits 10 n []) by lia. cbn. lia.
Qed.

Lemma strtol_print n : - 2 ^ 31 <= n < 2 ^ 31 -> strtol (print_d n) = n.
Proof.
  intros Hn. unfold strtol. rewrite signed_decimal_print by lia.
  destruct (Z.ltb_spec n 0); lia.
Qed.

Lemma atoi_print n : - 2 ^ 31 <= n < 2 ^ 31 -> atoi (print_d n) = n.
Proof. intros Hn. unfold atoi. rewrite strtol_print by done. by apply i32_small. Qed.

(** A length printed with [%d] is read back as it was, whatever its sign bit. *)
Lemma strtol_print_u32 n : 0 <= n < 2 ^ 32 -> u32 (strtol (print_d (i32 n))) = n.
Proof.
  intros Hn. assert (Hr : - 2 ^ 31 <= i32 n < 2 ^ 31).
  { unfold i32. cbv zeta. rewrite Z.mod_small by lia. destruct (Z.ltb_spec n (2 ^ 31)); lia. }
  rewrite strtol_print by done. unfold i32, u32. cbv zeta. rewrite (Z.mod_small n) by lia.
  destruct (Z.ltb_spec n (2 ^ 31)); [by apply Z.mod_small|].
  rewrite <- (Z.mod_small n (2 ^ 32)) at 2 by lia. rewrite <- (Z.mod_add (n - 2 ^ 32) 1) by lia.
  f_equal. lia.
Qed.

(** *** Hexadecimal *)

Lemma i2h_digit i : 0 <= i < 16 -> i2h i <> 0 /\ h2i (i2h i) = i.
Proof. intros Hi. assert (i = i2h i - 48 \/ i = i2h i - 55) by (unfold i2h; destruct (_ <=? _); lia).
  unfold i2h, h2i. destruct (Z.leb_spec 10 i).
  - destruct (Z.leb_spec 97 (i - 10 + 65)); [lia|]. cbn [andb].
    destruct (Z.leb_spec 65 (i - 10 + 65)); [|lia]. destruct (Z.leb_spec (i - 10 + 65) 70); [|lia].
    cbn [andb]. lia.
  - destruct (Z.leb_spec 97 (i + 48)); [lia|]. cbn [andb].
    destruct (Z.leb_spec 65 (i + 48)); [lia|]. cbn [andb]. lia.
Qed.

Lemma hex_pair_byte c : byte_ok c -> exists a b, hex_pair c = [a; b] /\ a <> 0 /\ b <> 0 /\ hex_byte a b = c.
Proof.
  unfold byte_ok. intros Hc. exists (i2h ((c >> 4) &&& 0x0f)), (i2h (c &&& 0x0f)). split; [done|].
  assert (H1 : 0 <= (c >> 4) &&& 0x0f < 16) by (apply (land_range_r 4); lia).
  assert (H2 : 0 <= c &&& 0x0f < 16) by (apply (land_range_r 4); lia).
  destruct (i2h_digit _ H1) as [N1 E1]. destruct (i2h_digit _ H2) as [N2 E2].
  split; [done|]. split; [done|]. unfold hex_byte. rewrite E1, E2.
  assert (Hc' : 0 <= c < 2 ^ 8) by (cbn; lia). zbits 8.
Qed.

Lemma hex_text_cons c l : hex_text (c :: l) = hex_pair c ++ hex_text l.
Proof. done. Qed.

Lemma length_hex_text l : length (hex_text l) = (2 * length l)%nat.
Proof. induction l as [|c l IH]; [done|]. rewrite hex_text_cons, length_app, IH. cbn. lia. Qed.

Lemma hex_bytes_text l r : bytes_ok l -> hex_bytes (hex_text l ++ 0 :: r) = Ret l.
Proof.
  induction 1 as [|c l Hc _ IH]; [done|]. rewrite hex_text_cons, <- app_assoc.
  destruct (hex_pair_byte c Hc) as (a & b & -> & Ha & _ & E). cbn [app hex_bytes].
  rewrite (proj2 (Z.eqb_neq _ _) Ha), IH. cbn. by rewrite E.
Qed.

Lemma hex_pairs_text l : bytes_ok l -> hex_pairs (hex_text l) = l.
Proof.
  induction 1 as [|c l Hc _ IH]; [done|]. rewrite hex_text_cons.
  destruct (hex_pair_byte c Hc) as (a & b & -> & _ & _ & E). cbn [app hex_pairs]. by rewrite E, IH.
Qed.

Lemma hex_text_nonzero l : bytes_ok l -> Forall (fun b => b <> 0) (hex_text l).
Proof.
  induction 1 as [|c l Hc _ IH]; [constructor|]. rewrite hex_text_cons.
  destruct (hex_pair_byte c Hc) as (a & b & -> & Ha & Hb & _). by repeat constructor.
Qed.
