(* ===== verification/Login.v ===== *)
(** Login (src/lib/login.c): the requests of the security and the operational
    negotiation, CHAP in both directions, and the replies of the target.

    The hash functions are the interface [Hashes].  A character array is the bytes before its NUL, but [chap_c] is
    the whole array, because the code may read beyond the NUL. *)

From S2P Require Import SList Prelude Hash Hashes Bytes Crc32c Task Context Pdu Queue Complete Cancel Iovec Command Process Text.

(** ** Constants *)

Definition ISCSI_PDU_LOGIN_TRANSIT : Z := 0x80.
Definition ISCSI_PDU_LOGIN_CSG_SECNEG : Z := 0x00.
Definition ISCSI_PDU_LOGIN_CSG_OPNEG : Z := 0x04.
Definition ISCSI_PDU_LOGIN_CSG_FF : Z := 0x0c.
Definition ISCSI_PDU_LOGIN_NSG_OPNEG : Z := 0x01.
Definition ISCSI_PDU_LOGIN_NSG_FF : Z := 0x03.

Definition ISCSI_LOGIN_SECNEG_PHASE_OFFER_CHAP : Z := 0.
Definition ISCSI_LOGIN_SECNEG_PHASE_SELECT_ALGORITHM : Z := 1.
Definition ISCSI_LOGIN_SECNEG_PHASE_SEND_RESPONSE : Z := 2.

Definition ISCSI_CHAP_MD5 : Z := 5.
Definition ISCSI_CHAP_SHA_1 : Z := 6.
Definition ISCSI_CHAP_SHA_256 : Z := 7.
Definition ISCSI_CHAP_SHA3_256 : Z := 8.

Definition ISCSI_HEADER_DIGEST_NONE_CRC32C : Z := 1.
Definition ISCSI_HEADER_DIGEST_CRC32C_NONE : Z := 2.
Definition ISCSI_HEADER_DIGEST_CRC32C : Z := 3.
Definition ISCSI_DATA_DIGEST_NONE_CRC32C : Z := 1.
Definition ISCSI_DATA_DIGEST_CRC32C_NONE : Z := 2.
Definition ISCSI_DATA_DIGEST_CRC32C : Z := 3.

Definition SCSI_STATUS_REDIRECT : Z := 0x101.
Definition ISER_TRANSPORT : Z := 1.
Definition MAX_STRING_SIZE : Z := 255.
Definition MAX_ISCSI_NAME_SIZE : Z := 223.
Definition MAX_CHAP_R_SIZE : Z := 32.
Definition MAX_CHAP_C_LENGTH : Z := 2048.

Definition set_login (f : login_state -> login_state) : IO unit :=
  set_ctx (fun c => c <| login ::= f |>).

(** ** Adding strings to a request *)

(** [iscsi_pdu_add_data(iscsi, pdu, s, n)] with the message of login.c. *)
Definition add_text (p : nat) (s : bytes) : IO Z :=
  rc ← iscsi_pdu_add_data (Some p) s (Z.of_nat (length s));
  if negb (rc =? 0) then
    _ ← iscsi_set_error "Out-of-memory: pdu add data failed."; mret (-1)
  else mret 0.

(** A string with its NUL. *)
Definition add_string (p : nat) (s : bytes) : IO Z := add_text p (s ++ [0]).

(** [snprintf(str, MAX_STRING_SIZE, ...)], which leaves room for the NUL. *)
Definition snprintf_str (s : bytes) : bytes := take (Z.to_nat (MAX_STRING_SIZE - 1)) s.

(** We only send the key during opneg. *)
Definition in_opneg (m : IO Z) : IO Z :=
  l ← get_ctx login;
  if negb (current_phase l =? ISCSI_PDU_LOGIN_CSG_OPNEG) then mret 0 else m.

(** We only send the key in the given step of secneg. *)
Definition in_secneg (phase : Z) (m : IO Z) : IO Z :=
  l ← get_ctx login;
  if negb (current_phase l =? ISCSI_PDU_LOGIN_CSG_SECNEG) || negb (secneg_phase l =? phase)
  then mret 0 else m.

Definition iscsi_login_add_initiatorname (p : nat) : IO Z :=
  l ← get_ctx login;
  if negb (secneg_phase l =? ISCSI_LOGIN_SECNEG_PHASE_OFFER_CHAP) then mret 0 else
  add_string p (snprintf_str (str "InitiatorName=" ++ initiator_name l)).

Definition iscsi_login_add_alias (p : nat) : IO Z :=
  l ← get_ctx login;
  if negb (secneg_phase l =? ISCSI_LOGIN_SECNEG_PHASE_OFFER_CHAP) then mret 0 else
  add_string p (snprintf_str (str "InitiatorAlias=" ++ alias l)).

Definition iscsi_login_add_targetname (p : nat) : IO Z :=
  w ← getS;
  let l := login (ctx w) in
  if negb (current_phase l =? ISCSI_PDU_LOGIN_CSG_OPNEG)
     && negb (secneg_phase l =? ISCSI_LOGIN_SECNEG_PHASE_OFFER_CHAP)
     || negb (secneg_phase l =? ISCSI_LOGIN_SECNEG_PHASE_OFFER_CHAP) then mret 0 else
  match target_name l with
  | [] => _ ← iscsi_set_error "Trying normal connect but target name not set."; mret (-1)
  | _ =>
      let name := if negb (bool_decide (target_address l = [])) && negb (bool_decide (target_name2 l = []))
                     && getenv w "LIBISCSI_ALLOW_TARGETNAME_REDIRECT"
                  then target_name2 l else target_name l in
      add_string p (snprintf_str (str "TargetName=" ++ name))
  end.

Definition iscsi_login_add_sessiontype (p : nat) : IO Z :=
  c ← get_ctx id;
  if negb (secneg_phase (login c) =? ISCSI_LOGIN_SECNEG_PHASE_OFFER_CHAP) then mret 0 else
  if session_type c =? ISCSI_SESSION_DISCOVERY then add_string p (str "SessionType=Discovery")
  else if session_type c =? ISCSI_SESSION_NORMAL then add_string p (str "SessionType=Normal")
  else _ ← iscsi_set_error "Can not handle sessions %d yet."; mret (-1).

Definition iscsi_login_add_headerdigest (p : nat) : IO Z :=
  in_opneg (
    l ← get_ctx login;
    let d := want_header_digest l in
    if d =? ISCSI_HEADER_DIGEST_NONE then add_string p (str "HeaderDigest=None")
    else if d =? ISCSI_HEADER_DIGEST_NONE_CRC32C then add_string p (str "HeaderDigest=None,CRC32C")
    else if d =? ISCSI_HEADER_DIGEST_CRC32C_NONE then add_string p (str "HeaderDigest=CRC32C,None")
    else if d =? ISCSI_HEADER_DIGEST_CRC32C then add_string p (str "HeaderDigest=CRC32C")
    else _ ← iscsi_set_error "invalid header digest value"; mret (-1)).

Definition iscsi_login_add_datadigest (p : nat) : IO Z :=
  in_opneg (
    l ← get_ctx login;
    let d := want_data_digest l in
    if d =? ISCSI_DATA_DIGEST_NONE then add_string p (str "DataDigest=None")
    else if d =? ISCSI_DATA_DIGEST_NONE_CRC32C then add_string p (str "DataDigest=None,CRC32C")
    else if d =? ISCSI_DATA_DIGEST_CRC32C_NONE then add_string p (str "DataDigest=CRC32C,None")
    else if d =? ISCSI_DATA_DIGEST_CRC32C then add_string p (str "DataDigest=CRC32C")
    else _ ← iscsi_set_error "invalid data digest value"; mret (-1)).

Definition iscsi_login_add_initialr2t (p : nat) : IO Z :=
  in_opneg (
    l ← get_ctx login;
    add_string p (str "InitialR2T=" ++
      (if want_initial_r2t l =? ISCSI_INITIAL_R2T_NO then str "No" else str "Yes"))).

Definition iscsi_login_add_immediatedata (p : nat) : IO Z :=
  in_opneg (
    l ← get_ctx login;
    add_string p (str "ImmediateData=" ++
      (if want_immediate_data l =? ISCSI_IMMEDIATE_DATA_NO then str "No" else str "Yes"))).

Definition iscsi_login_add_maxburstlength (p : nat) : IO Z :=
  in_opneg (
    n ← get_ctx (fun c => max_burst_length (login c));
    add_string p (snprintf_str (str "MaxBurstLength=" ++ print_d (i32 n)))).

Definition iscsi_login_add_firstburstlength (p : nat) : IO Z :=
  in_opneg (
    n ← get_ctx first_burst_length;
    add_string p (snprintf_str (str "FirstBurstLength=" ++ print_d (i32 n)))).

Definition iscsi_login_add_maxrecvdatasegmentlength (p : nat) : IO Z :=
  in_opneg (
    n ← get_ctx (fun c => initiator_max_recv_data_segment_length (conn c));
    add_string p (snprintf_str (str "MaxRecvDataSegmentLength=" ++ print_d (i32 n)))).

Definition iscsi_login_add_datapduinorder (p : nat) : IO Z :=
  in_opneg (add_string p (str "DataPDUInOrder=Yes")).
Definition iscsi_login_add_defaulttime2wait (p : nat) : IO Z :=
  in_opneg (add_string p (str "DefaultTime2Wait=2")).
Definition iscsi_login_add_defaulttime2retain (p : nat) : IO Z :=
  in_opneg (add_string p (str "DefaultTime2Retain=0")).
Definition iscsi_login_add_ifmarker (p : nat) : IO Z :=
  in_opneg (add_string p (str "IFMarker=No")).
Definition iscsi_login_add_ofmarker (p : nat) : IO Z :=
  in_opneg (add_string p (str "OFMarker=No")).
Definition iscsi_login_add_maxconnections (p : nat) : IO Z :=
  in_opneg (add_string p (str "MaxConnections=1")).
Definition iscsi_login_add_maxoutstandingr2t (p : nat) : IO Z :=
  in_opneg (add_string p (str "MaxOutstandingR2T=1")).
Definition iscsi_login_add_errorrecoverylevel (p : nat) : IO Z :=
  in_opneg (add_string p (str "ErrorRecoveryLevel=0")).
Definition iscsi_login_add_datasequenceinorder (p : nat) : IO Z :=
  in_opneg (add_string p (str "DataSequenceInOrder=Yes")).

Definition iscsi_login_add_authmethod (p : nat) : IO Z :=
  in_secneg ISCSI_LOGIN_SECNEG_PHASE_OFFER_CHAP (add_string p (str "AuthMethod=CHAP,None")).

Definition iscsi_login_add_authalgorithm (p : nat) : IO Z :=
  in_secneg ISCSI_LOGIN_SECNEG_PHASE_SELECT_ALGORITHM (
    l ← get_ctx login;
    add_string p (snprintf_str (str "CHAP_A=" ++ print_d (chap_auth l)))).

Definition iscsi_login_add_chap_username (p : nat) : IO Z :=
  in_secneg ISCSI_LOGIN_SECNEG_PHASE_SEND_RESPONSE (
    l ← get_ctx login;
    rc ← add_text p (str "CHAP_N=");
    if negb (rc =? 0) then mret (-1) else add_string p (user l)).

(** These keys are only valid for the iSER transport. *)
Definition in_iser_opneg (m : IO Z) : IO Z :=
  in_opneg (l ← get_ctx login; if negb (transport l =? ISER_TRANSPORT) then mret 0 else m).

Definition iscsi_login_add_rdma_extensions (p : nat) : IO Z :=
  in_iser_opneg (add_string p (str "RDMAExtensions=Yes")).

Definition iscsi_login_add_initiatorrecvdatasegmentlength (p : nat) : IO Z :=
  in_iser_opneg (
    n ← get_ctx (fun c => initiator_max_recv_data_segment_length (conn c));
    add_string p (snprintf_str (str "InitiatorRecvDataSegmentLength=" ++ print_d (i32 n)))).

Definition iscsi_login_add_targetrecvdatasegmentlength (p : nat) : IO Z :=
  in_iser_opneg (
    n ← get_ctx target_max_recv_data_segment_length;
    add_string p (snprintf_str (str "TargetRecvDataSegmentLength=" ++ print_d (i32 n)))).

(** ** CHAP *)

(** The loop over the challenge, which is given in hexadecimal: a byte at a time. *)
Fixpoint hash_hex `{Hash} (ctx : hash_ctx) (strp : bytes) : res hash_ctx :=
  match strp with
  | [] => Undef OutOfBounds
  | a :: strp =>
      if a =? 0 then mret ctx else
      match strp with
      | [] => Undef OutOfBounds
      | b :: strp => hash_hex (hash_update ctx [hex_byte a b]) strp
      end
  end.

(** What is hashed: the identifier, the secret and the challenge; the response is
    written over the start of [digest]. *)
Definition hash_response (h : Hash) (chap_i : Z) (passwd chap_c digest : bytes) : res bytes :=
  let ctx := hash_update hash_init [u8 chap_i] in
  let ctx := hash_update ctx passwd in
  ctx ← hash_hex ctx chap_c;
  mret (hash_final ctx digest).

Definition chap_r_size (auth : Z) : Z :=
  if auth =? ISCSI_CHAP_MD5 then 16
  else if auth =? ISCSI_CHAP_SHA_1 then 20
  else if (auth =? ISCSI_CHAP_SHA_256) || (auth =? ISCSI_CHAP_SHA3_256) then 32
  else 0.

Section Chap.
Context `{Hashes}.

(** [md5_open] allocates the context, and [md5_putc] and [md5_write] use it unchecked. *)
Definition compute_chap_r_md5 (chap_i : Z) (passwd chap_c digest : bytes) : IO bytes :=
  ok ← malloc;
  if ok : bool then lift (hash_response md5 chap_i passwd chap_c digest) else undefined NullDeref.
Definition compute_chap_r_sha1 (chap_i : Z) (passwd chap_c digest : bytes) : IO bytes :=
  lift (hash_response sha1 chap_i passwd chap_c digest).
Definition compute_chap_r_sha256 (chap_i : Z) (passwd chap_c digest : bytes) : IO bytes :=
  lift (hash_response sha256 chap_i passwd chap_c digest).
Definition compute_chap_r_sha3_256 (chap_i : Z) (passwd chap_c digest : bytes) : IO bytes :=
  lift (hash_response sha3_256 chap_i passwd chap_c digest).

(** The block [digest] with the response. *)
Definition compute_chap_r (auth chap_i : Z) (passwd chap_c digest : bytes) : IO bytes :=
  if auth =? ISCSI_CHAP_MD5 then compute_chap_r_md5 chap_i passwd chap_c digest
  else if auth =? ISCSI_CHAP_SHA_1 then compute_chap_r_sha1 chap_i passwd chap_c digest
  else if auth =? ISCSI_CHAP_SHA_256 then compute_chap_r_sha256 chap_i passwd chap_c digest
  else if auth =? ISCSI_CHAP_SHA3_256 then compute_chap_r_sha3_256 chap_i passwd chap_c digest
  else mret digest.

(** The digits of some bytes, a pair at a time. *)
Fixpoint add_hex (p : nat) (l : bytes) : IO Z :=
  match l with
  | [] => mret 0
  | c :: l =>
      rc ← add_text p (hex_pair c);
      if negb (rc =? 0) then mret (-1) else add_hex p l
  end.

Definition rand : IO Z :=
  s ← get_sys id;
  _ ← set_sys (fun s => s <| rand_n ::= S |>);
  mret (rand_seq s (rand_n s)).

Fixpoint rand_bytes (n : nat) : IO bytes :=
  match n with
  | O => mret []
  | S n => b ← rand; l ← rand_bytes n; mret (b &&& 0xff :: l)
  end.

(** Operations until one fails. *)
Fixpoint add_all (l : list (nat -> IO Z)) (p : nat) : IO Z :=
  match l with
  | [] => mret 0
  | m :: l => rc ← m p; if negb (rc =? 0) then mret (-1) else add_all l p
  end.

(** Bidirectional CHAP: the challenge to the target, and the response it has
    to give. *)
Definition add_target_challenge (p : nat) : IO Z :=
  _ ← set_login (fun l => l <| target_chap_i ::= fun i => i32 (i + 1) |>);
  l ← get_ctx login;
  let size := chap_r_size (chap_auth l) in
  rc ← add_string p (str "CHAP_I=" ++ print_d (target_chap_i l));
  if negb (rc =? 0) then mret (-1) else
  target_chap_c ← rand_bytes (Z.to_nat (size * 2));
  rc ← add_all [fun p => add_text p (str "CHAP_C=0x"); fun p => add_hex p target_chap_c;
                fun p => add_text p [0]] p;
  if negb (rc =? 0) then mret (-1) else
  let hex := blit (zeros (Z.to_nat (MAX_CHAP_R_SIZE * 4 + 1))) 0 (hex_text target_chap_c) in
  r ← compute_chap_r (chap_auth l) (target_chap_i l) (target_passwd l) hex (target_chap_r l);
  _ ← set_login (fun l => l <| target_chap_r := r |>);
  mret 0.

Definition iscsi_login_add_chap_response (p : nat) : IO Z :=
  in_secneg ISCSI_LOGIN_SECNEG_PHASE_SEND_RESPONSE (
    l ← get_ctx login;
    if byte_at (chap_c l) 0 =? 0 then
      _ ← iscsi_set_error "No CHAP challenge found"; mret (-1)
    else
    digest ← compute_chap_r (chap_auth l) (chap_i l) (passwd l) (chap_c l)
               (zeros (Z.to_nat MAX_CHAP_R_SIZE));
    rc ← add_all [fun p => add_text p (str "CHAP_R=0x");
                  fun p => add_hex p (take (Z.to_nat (chap_r_size (chap_auth l))) digest);
                  fun p => add_text p [0]] p;
    if negb (rc =? 0) then mret (-1) else
    match target_user l with [] => mret 0 | _ => add_target_challenge p end).

(** ** The login request *)

(** The keys, in the order of the code. *)
Definition identity_keys (c : iscsi_context) : list (nat -> IO Z) :=
  [iscsi_login_add_initiatorname]
  ++ (if negb (bool_decide (alias (login c) = [])) then [iscsi_login_add_alias] else [])
  ++ (if session_type c =? ISCSI_SESSION_NORMAL then [iscsi_login_add_targetname] else [])
  ++ [iscsi_login_add_sessiontype].

Definition negotiation_keys : list (nat -> IO Z) :=
  [iscsi_login_add_headerdigest; iscsi_login_add_authmethod; iscsi_login_add_authalgorithm;
   iscsi_login_add_chap_username; iscsi_login_add_chap_response; iscsi_login_add_datadigest;
   iscsi_login_add_initialr2t; iscsi_login_add_immediatedata; iscsi_login_add_maxburstlength;
   iscsi_login_add_firstburstlength; iscsi_login_add_defaulttime2wait;
   iscsi_login_add_defaulttime2retain; iscsi_login_add_maxoutstandingr2t;
   iscsi_login_add_errorrecoverylevel; iscsi_login_add_ifmarker; iscsi_login_add_ofmarker;
   iscsi_login_add_maxconnections; iscsi_login_add_maxrecvdatasegmentlength;
   iscsi_login_add_datapduinorder; iscsi_login_add_datasequenceinorder;
   iscsi_login_add_rdma_extensions; iscsi_login_add_initiatorrecvdatasegmentlength;
   iscsi_login_add_targetrecvdatasegmentlength].

Definition login_keys (c : iscsi_context) : list (nat -> IO Z) := identity_keys c ++ negotiation_keys.

(** [current_phase] and [next_phase] of the request. *)
Definition request_phases (l : login_state) : login_state :=
  let l := match user l with [] => l <| current_phase := ISCSI_PDU_LOGIN_CSG_OPNEG |> | _ => l end in
  let l := if current_phase l =? ISCSI_PDU_LOGIN_CSG_SECNEG
           then l <| next_phase := ISCSI_PDU_LOGIN_NSG_OPNEG |> else l in
  if current_phase l =? ISCSI_PDU_LOGIN_CSG_OPNEG
  then l <| next_phase := ISCSI_PDU_LOGIN_NSG_FF |> else l.

(** The T bit. *)
Definition request_transit (l : login_state) : Z :=
  if (current_phase l =? ISCSI_PDU_LOGIN_CSG_OPNEG)
     || (current_phase l =? ISCSI_PDU_LOGIN_CSG_SECNEG)
        && ((secneg_phase l =? ISCSI_LOGIN_SECNEG_PHASE_OFFER_CHAP)
            || (secneg_phase l =? ISCSI_LOGIN_SECNEG_PHASE_SEND_RESPONSE))
  then ISCSI_PDU_LOGIN_TRANSIT else 0.

(** Randomize cmdsn and itt. *)
Definition randomize_serials : IO unit :=
  itt0 ← rand;
  _ ← set_ctx (fun c => c <| itt := u32 itt0 |>);
  sn ← rand;
  set_ctx (fun c => c <| cmdsn := u32 sn |> <| min_cmdsn_waiting := u32 sn |>
             <| maxcmdsn := u32 sn |> <| expcmdsn := u32 sn |>).

Context `{Transport}.

Definition iscsi_login_async (cb : option iscsi_command_cb) (private : Z) : IO Z :=
  c ← get_ctx id;
  _ ← set_ctx (fun c => c <| login_attempts ::= fun n => i32 (n + 1) |>);
  if 10 <? login_attempts c then
    _ ← iscsi_set_error "login took too many tries. giving up."; mret (-1)
  else if is_loggedin c then
    _ ← iscsi_set_error "Trying to login while already logged in."; mret (-1)
  else if negb ((session_type c =? ISCSI_SESSION_DISCOVERY) || (session_type c =? ISCSI_SESSION_NORMAL)) then
    _ ← iscsi_set_error "trying to login without setting session type."; mret (-1)
  else
  _ ← when ((current_phase (login c) =? 0) && (secneg_phase (login c) =? 0)) randomize_serials;
  c ← get_ctx id;
  r ← iscsi_allocate_pdu ISCSI_PDU_LOGIN_REQUEST ISCSI_PDU_LOGIN_RESPONSE (itt c)
        ISCSI_PDU_DROP_ON_RECONNECT;
  match r with
  | None => _ ← iscsi_set_error "Out-of-memory: Failed to allocate login pdu."; mret (-1)
  | Some p =>
      _ ← iscsi_pdu_set_immediate p;
      _ ← iscsi_pdu_set_cmdsn p (cmdsn c);
      _ ← set_login request_phases;
      c ← get_ctx id;
      _ ← iscsi_pdu_set_pduflags p
            (request_transit (login c) ||| current_phase (login c) ||| next_phase (login c));
      rc ← add_all (login_keys c) p;
      if negb (rc =? 0) then _ ← iscsi_tcp_free_pdu p; mret (-1) else
      _ ← set_pdu p (fun pdu => pdu <| pdu_callback := cb |> <| private_data := private |>);
      _ ← iscsi_queue_pdu p;
      mret 0
  end.

End Chap.

Definition login_error_str (status : Z) : string :=
  if status =? 0x0100 then "Target moved (unknown)"
  else if status =? 0x0101 then "Target moved temporarily"
  else if status =? 0x0102 then "Target moved permanently"
  else if status =? 0x0200 then "Initiator error"
  else if status =? 0x0201 then "Authentication failure"
  else if status =? 0x0202 then "Authorization failure"
  else if status =? 0x0203 then "Target not found"
  else if status =? 0x0204 then "Target removed"
  else if status =? 0x0205 then "Unsupported version"
  else if status =? 0x0206 then "Too many connections"
  else if status =? 0x0207 then "Missing parameter"
  else if status =? 0x0208 then "Can't include in session"
  else if status =? 0x0209 then "Session type not supported"
  else if status =? 0x020a then "Session does not exist"
  else if status =? 0x020b then "Invalid during login"
  else if status =? 0x0300 then "Target error"
  else if status =? 0x0301 then "Service unavailable"
  else if status =? 0x0302 then "Out of resources"
  else "Unknown login error".

(** ** The login reply *)

(** [must_have_chap_n] and [must_have_chap_r]. *)
Record owed := { chap_n_owed : bool; chap_r_owed : bool }.

(** What the code does with a key: [inl rc] is [return rc]. *)
Abbreviation handler := (nat -> bytes -> owed -> IO (Z + owed)).

(** An error that the callback is told. *)
Definition login_failed (msg : string) (p : nat) (rc : Z) : IO (Z + owed) :=
  _ ← iscsi_set_error msg;
  _ ← call_callback p SCSI_STATUS_ERROR Data_none;
  mret (inl rc).

(** A key that sets a parameter. *)
Definition parameter (f : bytes -> iscsi_context -> iscsi_context) : handler :=
  fun p v o => _ ← set_ctx (f v); mret (inr o).

Definition digest_of_reply (v : bytes) : Z :=
  if bool_decide (v = str "CRC32C") then ISCSI_HEADER_DIGEST_CRC32C else ISCSI_HEADER_DIGEST_NONE.

Definition reply_initial_r2t (v : bytes) : Z :=
  if bool_decide (v = str "No") then ISCSI_INITIAL_R2T_NO else ISCSI_INITIAL_R2T_YES.

Definition reply_immediate_data (v : bytes) (c : iscsi_context) : Z :=
  if bool_decide (v = str "No") then ISCSI_IMMEDIATE_DATA_NO
  else if want_immediate_data (login c) =? ISCSI_IMMEDIATE_DATA_NO then ISCSI_IMMEDIATE_DATA_NO
  else use_immediate_data c.

Definition reply_chap_c : handler := fun p v o =>
  if MAX_CHAP_C_LENGTH <? Z.of_nat (length v) then
    login_failed "Wrong length of CHAP_C received from target (%d, max: %d)" p 0
  else
    _ ← set_login (fun l => l <| chap_c ::= fun b => blit b 0 (v ++ [0]) |>
          <| secneg_phase := ISCSI_LOGIN_SECNEG_PHASE_SEND_RESPONSE |>);
    mret (inr o).

Definition reply_chap_n : handler := fun p v o =>
  l ← get_ctx login;
  if negb (bool_decide (target_user l = v)) then
    login_failed "Failed to log in to target. Wrong CHAP targetname received: %s" p 0
  else mret (inr {| chap_n_owed := false; chap_r_owed := chap_r_owed o |}).

Definition reply_chap_r : handler := fun p v o =>
  l ← get_ctx login;
  let size := chap_r_size (chap_auth l) in
  if negb (Z.of_nat (length v) =? 2 * size) then
    login_failed "Wrong size of CHAP_R received from target." p 0
  else if negb (bool_decide (hex_pairs v = take (Z.to_nat size) (target_chap_r l))) then
    login_failed "Authentication failed. Invalid CHAP_R response from the target" p 0
  else mret (inr {| chap_n_owed := chap_n_owed o; chap_r_owed := false |}).

(** The keys the code looks for, in its order. *)
Definition reply_keys : list (string * handler) :=
  [("TargetAddress=", parameter (fun v c => c <| login ::= fun l =>
      l <| target_address := take (Z.to_nat MAX_STRING_SIZE) v |> |>));
   ("TargetName=", parameter (fun v c => c <| login ::= fun l =>
      l <| target_name2 := take (Z.to_nat MAX_ISCSI_NAME_SIZE) v |> |>));
   ("HeaderDigest=", parameter (fun v c => c <| login ::= fun l =>
      l <| want_header_digest := digest_of_reply v |> |>));
   ("DataDigest=", parameter (fun v c => c <| login ::= fun l =>
      l <| want_data_digest := digest_of_reply v |> |>));
   ("FirstBurstLength=", parameter (fun v c => c <| first_burst_length := u32 (strtol v) |>));
   ("InitialR2T=", parameter (fun v c => c <| use_initial_r2t := reply_initial_r2t v |>));
   ("ImmediateData=", parameter (fun v c => c <| use_immediate_data := reply_immediate_data v c |>));
   ("MaxBurstLength=", parameter (fun v c => c <| login ::= fun l =>
      l <| max_burst_length := u32 (strtol v) |> |>));
   ("MaxRecvDataSegmentLength=", parameter (fun v c =>
      c <| target_max_recv_data_segment_length := u32 (strtol v) |>));
   ("InitiatorRecvDataSegmentLength=", parameter (fun v c => c <| conn ::= fun k =>
      k <| initiator_max_recv_data_segment_length ::= fun n => MIN (strtoul v) n |> |>));
   ("TargetRecvDataSegmentLength=", parameter (fun v c =>
      c <| target_max_recv_data_segment_length ::= fun n => MIN (strtoul v) n |>));
   ("AuthMethod=", parameter (fun v c =>
      if bool_decide (v = str "CHAP") then c <| login ::= fun l =>
        l <| secneg_phase := ISCSI_LOGIN_SECNEG_PHASE_SELECT_ALGORITHM |> |> else c));
   ("CHAP_A=", parameter (fun v c => c <| login ::= fun l => l <| chap_a := atoi v |>
      <| secneg_phase := ISCSI_LOGIN_SECNEG_PHASE_SEND_RESPONSE |> |>));
   ("CHAP_I=", parameter (fun v c => c <| login ::= fun l => l <| chap_i := atoi v |>
      <| secneg_phase := ISCSI_LOGIN_SECNEG_PHASE_SEND_RESPONSE |> |>));
   ("CHAP_C=0x", reply_chap_c);
   ("CHAP_N=", reply_chap_n);
   ("CHAP_R=0x", reply_chap_r)].

(** The tests of one string, one after the other. *)
Fixpoint try_keys (l : list (string * handler)) (p : nat) (s : bytes) (o : owed) : IO (Z + owed) :=
  match l with
  | [] => mret (inr o)
  | (k, h) :: l =>
      r ← (match strip (str k) s with Some v => h p v o | None => mret (inr o) end);
      match r with inl rc => mret (inl rc) | inr o => try_keys l p s o end
  end.

(** The loop over the strings; every turn but the last consumes one byte at
    least. *)
Fixpoint login_text (fuel : nat) (p : nat) (text : bytes) (o : owed) : IO (Z + owed) :=
  match text with
  | [] => mret (inr o)
  | _ =>
      match split_nul text with
      | None => login_failed "NUL not found after offset %ld when parsing login data" p (-1)
      | Some ([], _) => mret (inr o)
      | Some (s, rest) =>
          r ← try_keys reply_keys p s o;
          match r, fuel with
          | inl rc, _ => mret (inl rc)
          | inr o, S fuel => login_text fuel p rest o
          | inr _, O => undefined NoFuel
          end
      end
  end.

(** [in->data], of which the first [in->data_pos] bytes are read. *)
Definition received_text (inp : iscsi_in_pdu) : res bytes :=
  if data_pos inp <=? 0 then mret [] else
  match in_data inp with
  | None => Undef NullDeref
  | Some d => if Z.of_nat (length d) <? data_pos inp then Undef OutOfBounds
              else mret (take (Z.to_nat (data_pos inp)) d)
  end.

Section Reply.
Context `{Transport} `{Hashes}.

(** The end of a login step: the next phase, and the end of login or the next
    request. *)
Definition login_step_done (p : nat) (flags : Z) : IO Z :=
  let transit := truth (flags &&& ISCSI_PDU_LOGIN_TRANSIT) in
  let nsg := flags &&& ISCSI_PDU_LOGIN_NSG_FF in
  _ ← when transit (set_login (fun l => l <| current_phase := nsg << 2 |>));
  pdu ← get_pdu p;
  if transit && (nsg =? ISCSI_PDU_LOGIN_NSG_FF) then
    _ ← set_ctx (fun c => c <| is_loggedin := true |>);
    _ ← iscsi_itt_post_increment;
    _ ← set_ctx (fun c => c <| header_digest := want_header_digest (login c) |>
                            <| data_digest := want_data_digest (login c) |>);
    _ ← deref (pdu_callback pdu);
    _ ← call_callback p SCSI_STATUS_GOOD Data_none;
    mret 0
  else
    rc ← iscsi_login_async (pdu_callback pdu) (private_data pdu);
    _ ← when (negb (rc =? 0))
          (_ ← iscsi_set_error "Failed to send continuation login pdu";
           call_callback p SCSI_STATUS_ERROR Data_none);
    mret 0.

(** What follows the loop over the text. *)
Definition login_outcome (p : nat) (status flags : Z) (o : owed) : IO Z :=
  let failed msg := (_ ← login_failed msg p 0; mret 0) in
  l ← get_ctx login;
  if (status =? SCSI_STATUS_REDIRECT) && negb (bool_decide (target_address l = [])) then
    _ ← call_callback p SCSI_STATUS_REDIRECT Data_none; mret 0
  else if negb (status =? 0) then failed "Failed to log in to target. Status: %s(%d)"%string
  else if chap_n_owed o then
    failed "Failed to log in to target. It did not return CHAP_N during SECNEG."%string
  else if chap_r_owed o then
    failed "Failed to log in to target. It did not return CHAP_R during SECNEG."%string
  else login_step_done p flags.

Definition iscsi_process_login_reply (p : nat) (inp : iscsi_in_pdu) : IO Z :=
  let status := scsi_get_uint16 (hdr inp) 36 in
  let flags := byte_at (hdr inp) 1 in
  c ← get_ctx id;
  _ ← when (negb (truth (status >> 8)) && (current_phase (login c) =? 0) && (secneg_phase (login c) =? 0))
        (set_ctx (fun c => c <| statsn := scsi_get_uint32 (hdr inp) 24 |>));
  let owes := truth (flags &&& ISCSI_PDU_LOGIN_TRANSIT)
              && (flags &&& ISCSI_PDU_LOGIN_CSG_FF =? ISCSI_PDU_LOGIN_CSG_SECNEG)
              && negb (bool_decide (target_user (login c) = [])) in
  text ← lift (received_text inp);
  r ← login_text (length text) p text {| chap_n_owed := owes; chap_r_owed := owes |};
  match r with
  | inl rc => mret rc
  | inr o => login_outcome p status flags o
  end.

End Reply.

Definition iscsi_set_session_type (type : Z) : IO Z :=
  loggedin ← get_ctx is_loggedin;
  if (loggedin : bool) then
    _ ← iscsi_set_error "trying to set session type while logged in"; mret (-1)
  else _ ← set_ctx (fun c => c <| session_type := type |>); mret 0.
