(* ===== verification/LoginRequest.v ===== *)
(** The login requests (theorems about the first half of [Login]): the strings
    of every step, the header of the request, and the PDU that is queued.

    [appends m w w' s]: the operation [m] adds the bytes [s] to the data
    segment of a PDU, and takes the rest of the world from [w] to [w'].  The
    keys of a request are such operations one after the other, so the text of
    the request is the concatenation of theirs. *)

From S2P Require Import SList Prelude Hash Hashes Bytes Crc32c Task Context Pdu Queue Complete Cancel Iovec Command Process Text Login.

(** * Lemmas *)

(** ** Building the text of a request

    The data segment of the PDU [pdu], a copy of [pdu0] with the header [h0]
    outside the DataSegmentLength, is [text]. *)
Definition text_pdu (digest : Z) (pdu0 : iscsi_pdu) (h0 text : bytes) (pdu : iscsi_pdu) : Prop :=
  pdu = pdu0 <| outdata := outdata pdu |> /\
  exists h, outdata_wf (Z.to_nat (ISCSI_HEADER_SIZE digest)) (outdata pdu) h text /\
    iscsi_get_pdu_data_size h = Z.of_nat (length text) /\
    forall i, (i < 4 \/ 8 <= i)%nat -> byte_at h i = byte_at h0 i.

(** Counters of the allocator. *)
Definition grown (w : world) (a : nat) (m : Z) : world :=
  w <| alloc_n := a |> <| ctx ::= fun c => c <| reallocs := m |> |>.

(** [m] appends [s] to the text of a PDU and otherwise takes [w] to [w']. *)
Definition appends (m : nat -> IO Z) (w w' : world) (s : bytes) : Prop :=
  forall p pdu0 h0 text pdu a r, text_pdu (header_digest (ctx w)) pdu0 h0 text pdu ->
  Z.of_nat (length text + length s) < 2 ^ 24 ->
  exists pdu' a' r', m p (put (grown w a r) p pdu) = Ret (0, put (grown w' a' r') p pdu') /\
    text_pdu (header_digest (ctx w')) pdu0 h0 (text ++ s) pdu'.

Lemma appends_nil w m : (forall p v, ctx v = (ctx w) <| reallocs := reallocs (ctx v) |> -> getenv v = getenv w ->
  m p v = Ret (0, v)) -> appends m w w [].
Proof.
  intros E p pdu0 h0 text pdu a r Ht _. exists pdu, a, r. rewrite app_nil_r. split; [|done]. by apply E.
Qed.

Lemma add_text_appends w s : memory w -> s <> [] -> appends (fun p => add_text p s) w w s.
Proof.
  intros Hm Hs p pdu0 h0 text pdu a r (Epdu & h & Hwf & Hd & Hh) Hlen.
  set (v := put (grown w a r) p pdu). set (hs := Z.to_nat (ISCSI_HEADER_SIZE (header_digest (ctx w)))) in *.
  assert (Hhs : Z.of_nat hs = ISCSI_HEADER_SIZE (header_digest (ctx v))).
  { unfold hs. apply Z2Nat.id. unfold ISCSI_HEADER_SIZE. destruct (_ =? _); vm_compute; congruence. }
  destruct (pdu_add_data_run v p pdu hs h text s) as (pdu' & h' & E & Ep & Hwf' & Hd' & _ & _ & Hh'); try done.
  - apply put_lookup.
  - apply Hm.
  - exists pdu', (S a), (1 + r). unfold add_text. run E. cbn [Z.eqb negb]. split.
    + unfold mret, M_ret. do 2 f_equal. apply world_stores_eq; [done| |done]. apply insert_insert_eq.
    + split; [by rewrite Ep, Epdu|]. exists h'. split; [done|]. rewrite length_app. split; [done|].
      intros i Hi. by rewrite Hh', Hh.
Qed.

Lemma add_string_appends w s : memory w -> appends (fun p => add_string p s) w w (join_nul [s]).
Proof.
  intros Hm. unfold add_string, join_nul. cbn [map concat]. rewrite app_nil_r.
  apply add_text_appends; [done|]. by destruct s.
Qed.

(** Two operations, the second if the first succeeds. *)
Lemma appends_seq m1 m2 w w1 w2 s1 s2 :
  appends m1 w w1 s1 -> appends m2 w1 w2 s2 ->
  appends (fun p => rc ← m1 p; if negb (rc =? 0) then mret (-1) else m2 p) w w2 (s1 ++ s2).
Proof.
  intros H1 H2 p pdu0 h0 text pdu a r Ht Hlen. rewrite length_app in Hlen.
  destruct (H1 p pdu0 h0 text pdu a r Ht ltac:(lia)) as (pdu1 & a1 & r1 & E1 & Ht1).
  destruct (H2 p pdu0 h0 _ pdu1 a1 r1 Ht1) as (pdu2 & a2 & r2 & E2 & Ht2).
  { rewrite length_app. lia. }
  exists pdu2, a2, r2. run E1. cbn [Z.eqb negb]. rewrite app_assoc. done.
Qed.

Lemma add_all_nil w : appends (add_all []) w w [].
Proof. by apply appends_nil. Qed.

Lemma add_all_cons m l w w1 w2 s1 s2 : appends m w w1 s1 -> appends (add_all l) w1 w2 s2 ->
  appends (add_all (m :: l)) w w2 (s1 ++ s2).
Proof. apply (appends_seq m (add_all l)). Qed.

Lemma add_all_same w l ss : Forall2 (fun m s => appends m w w s) l ss ->
  appends (add_all l) w w (concat ss).
Proof.
  induction 1 as [|m s l ss Hm _ IH]; [apply add_all_nil|]. cbn [concat]. by apply (add_all_cons m l w w w).
Qed.

(** An operation that starts by reading the context. *)
Lemma appends_get {A} (f : iscsi_context -> A) (k : nat -> A -> IO Z) w w' s :
  (forall p r, k p (f ((ctx w) <| reallocs := r |>)) = k p (f (ctx w))) ->
  appends (fun p => k p (f (ctx w))) w w' s ->
  appends (fun p => x ← get_ctx f; k p x) w w' s.
Proof.
  intros Hf Hk p pdu0 h0 text pdu a r Ht Hlen. destruct (Hk p pdu0 h0 text pdu a r Ht Hlen) as (pdu' & a' & r' & E & R).
  exists pdu', a', r'. split; [|done]. run (get_ctx_run f (put (grown w a r) p pdu)).
  change (ctx (put (grown w a r) p pdu)) with ((ctx w) <| reallocs := r |>). by rewrite Hf.
Qed.

Lemma in_opneg_appends m w w' s : current_phase (login (ctx w)) = ISCSI_PDU_LOGIN_CSG_OPNEG ->
  appends m w w' s -> appends (fun p => in_opneg (m p)) w w' s.
Proof.
  intros Hp Hm. unfold in_opneg.
  apply (appends_get login); [done|]. by rewrite Hp.
Qed.

Lemma skips_opneg m w : current_phase (login (ctx w)) <> ISCSI_PDU_LOGIN_CSG_OPNEG ->
  appends (fun p => in_opneg (m p)) w w [].
Proof.
  intros Hp. unfold in_opneg.
  apply (appends_get login); [done|]. rewrite (proj2 (Z.eqb_neq _ _) Hp). by apply appends_nil.
Qed.

Definition in_step (w : world) (phase : Z) : Prop :=
  current_phase (login (ctx w)) = ISCSI_PDU_LOGIN_CSG_SECNEG /\ secneg_phase (login (ctx w)) = phase.

Lemma in_secneg_appends phase m w w' s : in_step w phase ->
  appends m w w' s -> appends (fun p => in_secneg phase (m p)) w w' s.
Proof.
  intros [H1 H2] Hm. unfold in_secneg.
  apply (appends_get login); [done|].
  by rewrite H1, H2, !Z.eqb_refl.
Qed.

Lemma skips_secneg phase m w : ~ in_step w phase -> appends (fun p => in_secneg phase (m p)) w w [].
Proof.
  intros Hn. unfold in_secneg.
  apply (appends_get login); [done|]. cbv beta.
  assert (E : negb (current_phase (login (ctx w)) =? ISCSI_PDU_LOGIN_CSG_SECNEG)
    || negb (secneg_phase (login (ctx w)) =? phase) = true).
  { destruct (Z.eqb_spec (current_phase (login (ctx w))) ISCSI_PDU_LOGIN_CSG_SECNEG); [|done].
    destruct (Z.eqb_spec (secneg_phase (login (ctx w))) phase); [|done]. by destruct Hn. }
  rewrite E. by apply appends_nil.
Qed.

(** ** The strings of a request *)

Definition kv (k : string) (v : bytes) : bytes := str k ++ v.

(** The name of the target, or of the one it redirected to. *)
Definition requested_target (w : world) : bytes :=
  let l := login (ctx w) in
  if negb (bool_decide (target_address l = [])) && negb (bool_decide (target_name2 l = []))
     && getenv w "LIBISCSI_ALLOW_TARGETNAME_REDIRECT"
  then target_name2 l else target_name l.

Definition identity_strings (w : world) : list bytes :=
  let c := ctx w in
  [kv "InitiatorName=" (initiator_name (login c))]
  ++ (if negb (bool_decide (alias (login c) = [])) then [kv "InitiatorAlias=" (alias (login c))] else [])
  ++ (if session_type c =? ISCSI_SESSION_NORMAL then [kv "TargetName=" (requested_target w)] else [])
  ++ [kv "SessionType=" (str (if session_type c =? ISCSI_SESSION_DISCOVERY then "Discovery" else "Normal"))].

(** The value of HeaderDigest and DataDigest. *)
Definition digest_text (d : Z) : bytes :=
  str (if d =? 0 then "None" else if d =? 1 then "None,CRC32C"
       else if d =? 2 then "CRC32C,None" else "CRC32C").

Definition yes_no (b : bool) : bytes := str (if b then "Yes" else "No").

Definition operational_strings (c : iscsi_context) : list bytes :=
  let l := login c in
  [kv "HeaderDigest=" (digest_text (want_header_digest l));
   kv "DataDigest=" (digest_text (want_data_digest l));
   kv "InitialR2T=" (yes_no (negb (want_initial_r2t l =? ISCSI_INITIAL_R2T_NO)));
   kv "ImmediateData=" (yes_no (negb (want_immediate_data l =? ISCSI_IMMEDIATE_DATA_NO)));
   kv "MaxBurstLength=" (print_d (i32 (max_burst_length l)));
   kv "FirstBurstLength=" (print_d (i32 (first_burst_length c)));
   kv "DefaultTime2Wait=" (str "2"); kv "DefaultTime2Retain=" (str "0");
   kv "MaxOutstandingR2T=" (str "1"); kv "ErrorRecoveryLevel=" (str "0");
   kv "IFMarker=" (str "No"); kv "OFMarker=" (str "No"); kv "MaxConnections=" (str "1");
   kv "MaxRecvDataSegmentLength=" (print_d (i32 (initiator_max_recv_data_segment_length (conn c))));
   kv "DataPDUInOrder=" (str "Yes"); kv "DataSequenceInOrder=" (str "Yes")]
  ++ (if transport l =? ISER_TRANSPORT then
        [kv "RDMAExtensions=" (str "Yes");
         kv "InitiatorRecvDataSegmentLength=" (print_d (i32 (initiator_max_recv_data_segment_length (conn c))));
         kv "TargetRecvDataSegmentLength=" (print_d (i32 (target_max_recv_data_segment_length c)))]
      else []).

(** The secret, and the bytes of a challenge, as they are in their arrays. *)
Definition secret_ok (pw : bytes) : Prop := bytes_ok pw /\ Z.of_nat (length pw) <= MAX_STRING_SIZE.
Definition challenge_ok (l : bytes) : Prop := bytes_ok l /\ Z.of_nat (length l) <= MAX_CHAP_C_LENGTH.

(** The parameters are ones a request can carry: a session type, digests of
    the enumeration, names that fit. *)
Record requestable (w : world) : Prop := {
  rb_session : session_type (ctx w) = ISCSI_SESSION_DISCOVERY \/ session_type (ctx w) = ISCSI_SESSION_NORMAL;
  rb_header_digest : 0 <= want_header_digest (login (ctx w)) <= 3;
  rb_data_digest : 0 <= want_data_digest (login (ctx w)) <= 3;
  rb_target : target_name (login (ctx w)) <> [];
  rb_initiator_length : (length (initiator_name (login (ctx w))) <= 223)%nat;
  rb_alias_length : (length (alias (login (ctx w))) <= 239)%nat;
  rb_target_length : (length (requested_target w) <= 223)%nat;
  rb_text : Forall no_nul [initiator_name (login (ctx w)); alias (login (ctx w)); requested_target w; user (login (ctx w))];
  rb_secrets : Forall secret_ok [passwd (login (ctx w)); target_passwd (login (ctx w))]
}.

Lemma snprintf_small s : (length s <= 254)%nat -> snprintf_str s = s.
Proof. intros Hs. unfold snprintf_str. change (Z.to_nat (MAX_STRING_SIZE - 1)) with 254%nat. by rewrite take_ge by lia. Qed.

Lemma length_digits fuel n acc : (length (digits fuel n acc) <= fuel + length acc)%nat.
Proof.
  revert n acc. induction fuel as [|fuel IH]; intros n acc; [done|]. cbn [digits].
  destruct (_ <? _); [cbn; lia|]. etransitivity; [apply IH|]. cbn. lia.
Qed.

Lemma snprintf_number k n : (length (str k) <= 240)%nat ->
  snprintf_str (str k ++ print_d n) = kv k (print_d n).
Proof.
  intros Hk. unfold kv. apply snprintf_small. rewrite length_app. unfold print_d.
  pose proof (length_digits 10 n []). pose proof (length_digits 10 (- n) []).
  destruct (_ <? _); cbn [length] in *; lia.
Qed.

(** Prove that an operation appends its string. *)
Ltac appends_string :=
  first
    [ apply add_string_appends; assumption
    | apply (appends_get login); [done|]; cbv beta zeta; appends_string
    | apply (appends_get id); [done|]; cbv beta zeta; appends_string
    | apply (appends_get first_burst_length); [done|]; cbv beta; appends_string
    | apply (appends_get target_max_recv_data_segment_length); [done|]; cbv beta; appends_string
    | apply (appends_get (fun c => max_burst_length (login c))); [done|]; cbv beta; appends_string
    | apply (appends_get (fun c => initiator_max_recv_data_segment_length (conn c))); [done|];
      cbv beta; appends_string ].

Section Requests.
Context `{Hashes} (w : world) (Hm : memory w).

Lemma digest_cases d : 0 <= d <= 3 -> d = 0 \/ d = 1 \/ d = 2 \/ d = 3.
Proof. lia. Qed.

Lemma initiatorname_appends (Hr : requestable w) : secneg_phase (login (ctx w)) = 0 ->
  appends iscsi_login_add_initiatorname w w (join_nul [kv "InitiatorName=" (initiator_name (login (ctx w)))]).
Proof.
  intros Hs. unfold iscsi_login_add_initiatorname. apply (appends_get login); [done|]. rewrite Hs. cbn [Z.eqb negb].
  rewrite snprintf_small; [by apply add_string_appends|]. rewrite length_app. destruct Hr. cbn in *. lia.
Qed.

Lemma alias_appends (Hr : requestable w) : secneg_phase (login (ctx w)) = 0 ->
  appends iscsi_login_add_alias w w (join_nul [kv "InitiatorAlias=" (alias (login (ctx w)))]).
Proof.
  intros Hs. unfold iscsi_login_add_alias. apply (appends_get login); [done|]. rewrite Hs. cbn [Z.eqb negb].
  rewrite snprintf_small; [by apply add_string_appends|]. rewrite length_app. destruct Hr. cbn in *. lia.
Qed.

Lemma targetname_appends (Hr : requestable w) : secneg_phase (login (ctx w)) = 0 ->
  appends iscsi_login_add_targetname w w (join_nul [kv "TargetName=" (requested_target w)]).
Proof.
  intros Hs. unfold iscsi_login_add_targetname.
  assert (Ha : appends (fun p => add_string p (snprintf_str (str "TargetName=" ++ requested_target w))) w w
    (join_nul [kv "TargetName=" (requested_target w)])).
  { rewrite snprintf_small; [by apply add_string_appends|]. rewrite length_app. destruct Hr. cbn in *. lia. }
  intros p pdu0 h0 text pdu a r Ht Hlen. destruct (Ha p pdu0 h0 text pdu a r Ht Hlen) as (pdu' & a' & r' & E & R).
  exists pdu', a', r'. split; [|done]. rewrite <- E.
  assert (Hget : forall k : world -> IO Z, forall v, (getS ≫= k) v = k v v) by done. rewrite Hget. cbv zeta.
  change (login (ctx (put (grown w a r) p pdu))) with (login (ctx w)).
  change (getenv (put (grown w a r) p pdu)) with (getenv w). rewrite Hs. cbn [Z.eqb negb andb orb].
  rewrite andb_false_r. cbn [orb]. destruct Hr as [_ _ _ Ht0 _ _ _ _]. destruct (target_name (login (ctx w))) eqn:Et; [done|].
  unfold requested_target. cbv zeta. by rewrite Et.
Qed.

Lemma sessiontype_appends (Hr : requestable w) : secneg_phase (login (ctx w)) = 0 ->
  appends iscsi_login_add_sessiontype w w
    (join_nul [kv "SessionType=" (str (if session_type (ctx w) =? ISCSI_SESSION_DISCOVERY then "Discovery" else "Normal"))]).
Proof.
  intros Hs. unfold iscsi_login_add_sessiontype. apply (appends_get id); [done|].
  change (id (ctx w)) with (ctx w). rewrite Hs. cbn [Z.eqb negb].
  destruct Hr as [[-> | ->] _ _ _ _ _ _ _]; cbn [Z.eqb]; by apply add_string_appends.
Qed.

(** The operational keys, one by one. *)
Lemma operational_appends (Hr : requestable w) :
  current_phase (login (ctx w)) = ISCSI_PDU_LOGIN_CSG_OPNEG ->
  let l := login (ctx w) in let c := ctx w in
  appends iscsi_login_add_headerdigest w w (join_nul [kv "HeaderDigest=" (digest_text (want_header_digest l))]) /\
  appends iscsi_login_add_datadigest w w (join_nul [kv "DataDigest=" (digest_text (want_data_digest l))]) /\
  appends iscsi_login_add_initialr2t w w
    (join_nul [kv "InitialR2T=" (yes_no (negb (want_initial_r2t l =? ISCSI_INITIAL_R2T_NO)))]) /\
  appends iscsi_login_add_immediatedata w w
    (join_nul [kv "ImmediateData=" (yes_no (negb (want_immediate_data l =? ISCSI_IMMEDIATE_DATA_NO)))]) /\
  appends iscsi_login_add_maxburstlength w w
    (join_nul [kv "MaxBurstLength=" (print_d (i32 (max_burst_length l)))]) /\
  appends iscsi_login_add_firstburstlength w w
    (join_nul [kv "FirstBurstLength=" (print_d (i32 (first_burst_length c)))]) /\
  appends iscsi_login_add_maxrecvdatasegmentlength w w
    (join_nul [kv "MaxRecvDataSegmentLength=" (print_d (i32 (initiator_max_recv_data_segment_length (conn c))))]).
Proof.
  intros Hp l c. destruct Hr as [_ Hh Hd _ _ _ _ _]. fold l in Hh, Hd.
  repeat (split; [apply in_opneg_appends; [done|]|]); [..|apply in_opneg_appends; [done|]].
  - apply (appends_get login); [done|]. cbv beta zeta. fold l.
    destruct (digest_cases _ Hh) as [E|[E|[E|E]]]; rewrite E; by apply add_string_appends.
  - apply (appends_get login); [done|]. cbv beta zeta. fold l.
    destruct (digest_cases _ Hd) as [E|[E|[E|E]]]; rewrite E; by apply add_string_appends.
  - apply (appends_get login); [done|]. cbv beta. fold l. destruct (_ =? _); by apply add_string_appends.
  - apply (appends_get login); [done|]. cbv beta. fold l. destruct (_ =? _); by apply add_string_appends.
  - apply (appends_get (fun c => max_burst_length (login c))); [done|]. cbv beta.
    rewrite snprintf_number by (vm_compute; lia). by apply add_string_appends.
  - apply (appends_get first_burst_length); [done|]. cbv beta.
    rewrite snprintf_number by (vm_compute; lia). by apply add_string_appends.
  - apply (appends_get (fun c => initiator_max_recv_data_segment_length (conn c))); [done|]. cbv beta.
    rewrite snprintf_number by (vm_compute; lia). by apply add_string_appends.
Qed.

Lemma iser_appends (Hp : current_phase (login (ctx w)) = ISCSI_PDU_LOGIN_CSG_OPNEG) :
  appends (add_all [iscsi_login_add_rdma_extensions; iscsi_login_add_initiatorrecvdatasegmentlength;
                    iscsi_login_add_targetrecvdatasegmentlength]) w w
    (join_nul (if transport (login (ctx w)) =? ISER_TRANSPORT then
       [kv "RDMAExtensions=" (str "Yes");
        kv "InitiatorRecvDataSegmentLength=" (print_d (i32 (initiator_max_recv_data_segment_length (conn (ctx w)))));
        kv "TargetRecvDataSegmentLength=" (print_d (i32 (target_max_recv_data_segment_length (ctx w))))] else [])).
Proof.
  destruct (transport (login (ctx w)) =? ISER_TRANSPORT) eqn:Et.
  - change (join_nul [?a; ?b; ?c]) with (concat [a ++ [0]; b ++ [0]; c ++ [0]]). apply add_all_same.
    assert (Hi : forall m s, appends m w w s -> appends (fun p => in_iser_opneg (m p)) w w s).
    { intros m s Hs. apply in_opneg_appends; [done|]. apply (appends_get login); [done|]. by rewrite Et. }
    repeat (constructor; [apply Hi|]); [..|constructor].
    + by apply add_text_appends.
    + apply (appends_get (fun c => initiator_max_recv_data_segment_length (conn c))); [done|]. cbv beta.
      rewrite snprintf_number by (vm_compute; lia). by apply add_text_appends.
    + apply (appends_get target_max_recv_data_segment_length); [done|]. cbv beta.
      rewrite snprintf_number by (vm_compute; lia). by apply add_text_appends.
  - change (join_nul []) with (concat (replicate 3 [] : list bytes)). apply add_all_same.
    assert (Hi : forall m, appends (fun p => in_iser_opneg (m p)) w w []).
    { intros m. apply in_opneg_appends; [done|]. apply (appends_get login); [done|]. rewrite Et. by apply appends_nil. }
    repeat constructor; apply Hi.
Qed.

End Requests.

(** ** The text of every step *)

Lemma add_all_app l1 l2 w w1 w2 s1 s2 : appends (add_all l1) w w1 s1 -> appends (add_all l2) w1 w2 s2 ->
  appends (add_all (l1 ++ l2)) w w2 (s1 ++ s2).
Proof.
  intros H1 H2 p pdu0 h0 text pdu a r Ht Hlen. rewrite length_app in Hlen.
  destruct (H1 p pdu0 h0 text pdu a r Ht ltac:(lia)) as (pdu1 & a1 & r1 & E1 & Ht1).
  destruct (H2 p pdu0 h0 _ pdu1 a1 r1 Ht1) as (pdu2 & a2 & r2 & E2 & Ht2).
  { rewrite length_app. lia. }
  exists pdu2, a2, r2. rewrite app_assoc. split; [|done]. clear H1 H2 Ht Ht1 Ht2 Hlen. rewrite <- E2.
  revert E1. generalize (put (grown w a r) p pdu). induction l1 as [|m l1 IH]; intros v E1.
  { cbn [app add_all] in *. by injection E1 as ->. }
  cbn [app add_all] in *. unfold mbind, M_bind in *. destruct (m p v) as [[rc v']|]; [|done].
  destruct (negb (rc =? 0)); [done|]. by apply IH.
Qed.

(** Strings for operations that append one string or none each. *)
Lemma add_all_strings w l ss : Forall2 (fun m s => appends m w w (join_nul s)) l ss ->
  appends (add_all l) w w (join_nul (concat ss)).
Proof.
  intros Hl. assert (E : join_nul (concat ss) = concat (map join_nul ss)).
  { clear. induction ss as [|s ss IH]; [done|]. cbn [concat map]. by rewrite join_nul_app, IH. }
  rewrite E. apply add_all_same. clear E. induction Hl; by constructor.
Qed.

Section Steps.
Context `{Hashes} (w : world) (Hm : memory w) (Hr : requestable w).

Lemma identity_appends : secneg_phase (login (ctx w)) = 0 ->
  appends (add_all (identity_keys (ctx w))) w w (join_nul (identity_strings w)).
Proof.
  intros Hs. unfold identity_keys, identity_strings.
  rewrite !join_nul_app. apply (add_all_app _ _ w w w); [|apply (add_all_app _ _ w w w); [|apply (add_all_app _ _ w w w)]].
  - apply (add_all_strings w _ [[_]]). repeat constructor. by apply initiatorname_appends.
  - destruct (negb _); [|apply add_all_nil]. apply (add_all_strings w _ [[_]]).
    repeat constructor. by apply alias_appends.
  - destruct (_ =? _); [|apply add_all_nil]. apply (add_all_strings w _ [[_]]).
    repeat constructor. by apply targetname_appends.
  - apply (add_all_strings w _ [[_]]). repeat constructor. by apply sessiontype_appends.
Qed.

Lemma add_all_none l : Forall (fun m => appends m w w []) l -> appends (add_all l) w w [].
Proof.
  induction 1 as [|m l Hmm _ IH]; [apply add_all_nil|]. by apply (add_all_cons m l w w w [] []).
Qed.

Lemma identity_skipped : secneg_phase (login (ctx w)) <> 0 -> appends (add_all (identity_keys (ctx w))) w w [].
Proof.
  intros Hs. apply Z.eqb_neq in Hs. change 0 with ISCSI_LOGIN_SECNEG_PHASE_OFFER_CHAP in Hs. apply add_all_none.
  assert (Hget : forall k : world -> IO Z, forall v, (getS ≫= k) v = k v v) by done.
  assert (Hskip : forall m, (forall p v, login (ctx v) = login (ctx w) -> m p v = Ret (0, v)) -> appends m w w []).
  { intros m Hmm. apply appends_nil. intros p v Hv _. apply Hmm. by rewrite Hv. }
  unfold identity_keys. rewrite !Forall_app. split_and!;
    repeat match goal with |- context [if ?b then _ else _] => destruct b end;
    rewrite ?Forall_singleton, ?Forall_nil; try done; apply Hskip; intros p v El.
  all: unfold iscsi_login_add_initiatorname, iscsi_login_add_alias, iscsi_login_add_targetname, iscsi_login_add_sessiontype.
  all: rewrite ?Hget; cbv zeta; rewrite ?(bind_run _ _ _ _ _ (get_ctx_run login v)), ?(bind_run _ _ _ _ _ (get_ctx_run id v));
    change (id (ctx v)) with (ctx v); by rewrite El, Hs, ?orb_true_r.
Qed.

(** In the operational phase the keys of CHAP are not sent. *)
Lemma operational_step : current_phase (login (ctx w)) = ISCSI_PDU_LOGIN_CSG_OPNEG ->
  appends (add_all negotiation_keys) w w (join_nul (operational_strings (ctx w))).
Proof.
  intros Hp. destruct (operational_appends w Hm Hr Hp) as (A1 & A2 & A3 & A4 & A5 & A6 & A7).
  assert (Hn : forall phase, ~ in_step w phase) by (intros phase [E _]; rewrite E in Hp; discriminate).
  change negotiation_keys with (take 20 negotiation_keys ++ drop 20 negotiation_keys).
  unfold operational_strings. cbv zeta. rewrite join_nul_app. apply (add_all_app _ _ w w w); [|by apply iser_appends].
  apply (add_all_strings w _ [[_]; []; []; []; []; [_]; [_]; [_]; [_]; [_]; [_]; [_]; [_]; [_]; [_]; [_]; [_]; [_]; [_]; [_]]).
  repeat (constructor;
    [first [exact A1|exact A2|exact A3|exact A4|exact A5|exact A6|exact A7
           |apply skips_secneg, Hn|apply in_opneg_appends; [done|]; by apply add_string_appends]|]).
  constructor.
Qed.

End Steps.

(** ** CHAP *)

(** The hash function of an algorithm. *)
Definition chap_function `{Hashes} (auth : Z) : Hash :=
  if auth =? ISCSI_CHAP_MD5 then md5 else if auth =? ISCSI_CHAP_SHA_1 then sha1
  else if auth =? ISCSI_CHAP_SHA_256 then sha256 else sha3_256.

Definition chap_hash `{Hashes} (auth : Z) : bytes -> bytes := @digest (chap_function auth).

Definition chap_known (auth : Z) : Prop :=
  auth = ISCSI_CHAP_MD5 \/ auth = ISCSI_CHAP_SHA_1 \/ auth = ISCSI_CHAP_SHA_256 \/ auth = ISCSI_CHAP_SHA3_256.

Lemma chap_laws `{HashesLaws} auth : chap_known auth -> HashLaws (chap_function auth) (chap_r_size auth).
Proof. intros [-> | [-> | [-> | ->]]]; cbn; apply _. Qed.

Lemma hash_length `{HashesLaws} auth m : chap_known auth -> Z.of_nat (length (chap_hash auth m)) = chap_r_size auth.
Proof. intros Ha. pose proof (chap_laws auth Ha). apply digest_length. Qed.

Lemma hash_bytes `{HashesLaws} auth m : chap_known auth -> bytes_ok (chap_hash auth m).
Proof. intros Ha. pose proof (chap_laws auth Ha) as [_ Hb _]. apply Hb. Qed.

(** The response to a challenge. *)
Definition chap_answer `{Hashes} (auth chap_i : Z) (passwd challenge : bytes) : bytes :=
  chap_hash auth (u8 chap_i :: passwd ++ challenge).

Lemma chap_size_cases auth : chap_known auth -> 16 <= chap_r_size auth <= MAX_CHAP_R_SIZE.
Proof. intros [-> | [-> | [-> | ->]]]; vm_compute; split; discriminate. Qed.

Lemma blit_whole (buf src : bytes) : (length src <= length buf)%nat ->
  blit buf 0 src = src ++ drop (length src) buf.
Proof. intros Hl. apply (blit_prefix src [] buf Hl). Qed.

(** The bytes [rand] gives. *)
Fixpoint draws (f : nat -> Z) (k n : nat) : bytes :=
  match n with O => [] | S n => f k &&& 0xff :: draws f (S k) n end.

Lemma draws_ok f k n : length (draws f k n) = n /\ bytes_ok (draws f k n).
Proof.
  revert k. induction n as [|n IH]; intros k; [by split; [|constructor]|]. destruct (IH (S k)) as [Hl Hb].
  cbn [draws]. split; [cbn; lia|]. constructor; [|done].
  change (0 <= f k &&& 0xff < 2 ^ 8). apply land_range_r; lia.
Qed.

Definition drawn (n : nat) (s : system) : system := s <| rand_n := (n + rand_n s)%nat |>.

Lemma rand_bytes_run n w : rand_bytes n w =
  Ret (draws (rand_seq (sys w)) (rand_n (sys w)) n, w <| sys ::= drawn n |>).
Proof.
  revert w. induction n as [|n IH]; intros w.
  { cbn [rand_bytes]. unfold mret, M_ret. do 2 f_equal. by destruct w as [? ? ? ? ? ? ? ? ? ? ? []]. }
  set (w1 := w <| sys ::= fun s => s <| rand_n ::= S |> |>).
  assert (E1 : rand w = Ret (rand_seq (sys w) (rand_n (sys w)), w1)) by done.
  cbn [rand_bytes]. run E1. run (IH w1). unfold mret, M_ret. f_equal. f_equal.
  transitivity (w <| sys := (sys w) <| rand_n := (n + S (rand_n (sys w)))%nat |> |>); [done|].
  by rewrite Nat.add_succ_r.
Qed.

Section ChapText.
Context `{HashesLaws}.

Lemma hash_hex_run (h : Hash) c l ctx : hex_bytes c = Ret l ->
  hash_hex ctx c = Ret (foldl hash_update ctx (map (fun b => [b]) l)).
Proof.
  remember (length c) as n eqn:En. assert (Hn : (length c <= n)%nat) by lia. clear En. revert c l ctx Hn.
  induction n as [|n IH]; intros c l ctx Hn E; (destruct c as [|a c]; [done|]); [cbn in Hn; lia|].
  cbn [hex_bytes hash_hex] in *. destruct (a =? 0); [by injection E as <-|].
  destruct c as [|b c]; [done|]. destruct (hex_bytes c) as [l'|] eqn:Ec; [|done]. injection E as <-.
  cbn [map foldl]. apply IH; [cbn in Hn; lia|done].
Qed.

Lemma concat_singletons (l : bytes) : concat (map (fun b => [b]) l) = l.
Proof. induction l as [|b l IH]; [done|]. cbn. by rewrite IH. Qed.

Lemma hash_response_run auth i pw c l buf : chap_known auth -> hex_bytes c = Ret l -> secret_ok pw -> challenge_ok l ->
  hash_response (chap_function auth) i pw c buf = Ret (blit buf 0 (chap_answer auth i pw l)).
Proof.
  intros Ha Hc [Hp Hpl] [Hl Hll]. unfold hash_response. rewrite (hash_hex_run _ c l) by done.
  pose proof (chap_laws auth Ha) as [_ _ Hs].
  pose proof (Hs ([u8 i] :: pw :: map (fun b => [b]) l) buf) as E. cbn [concat app] in E.
  rewrite concat_singletons in E. unfold mbind, res_bind, mret, res_ret. f_equal. apply E.
  - constructor; [apply Forall_singleton, byte_ok_u8|]. constructor; [done|]. apply Forall_map.
    eapply Forall_impl; [exact Hl|]. intros b Hb. by apply Forall_singleton.
  - unfold MAX_HASHED, MAX_STRING_SIZE, MAX_CHAP_C_LENGTH in *. cbn [length]. rewrite length_app. lia.
Qed.

(** Only MD5 allocates. *)
Lemma compute_chap_r_run auth i pw c l buf w : chap_known auth -> hex_bytes c = Ret l -> secret_ok pw -> challenge_ok l ->
  memory w -> exists a, compute_chap_r auth i pw c buf w = Ret (blit buf 0 (chap_answer auth i pw l), w <| alloc_n := a |>).
Proof.
  intros Ha Hc Hp Hl Hm. pose proof (hash_response_run auth i pw c l buf Ha Hc Hp Hl) as E.
  assert (Ew : w = w <| alloc_n := alloc_n w |>) by (by destruct w).
  destruct Ha as [-> | [-> | [-> | ->]]].
  - assert (Em : malloc w = Ret (true, w <| alloc_n := S (alloc_n w) |>)).
    { rewrite <- (Hm (alloc_n w)). by destruct w. }
    exists (S (alloc_n w)). transitivity (compute_chap_r_md5 i pw c buf w); [done|].
    unfold compute_chap_r_md5. run Em. unfold lift. change md5 with (chap_function ISCSI_CHAP_MD5). by rewrite E.
  - exists (alloc_n w). rewrite <- Ew. transitivity (lift (hash_response (chap_function ISCSI_CHAP_SHA_1) i pw c buf) w); [done|].
    unfold lift. by rewrite E.
  - exists (alloc_n w). rewrite <- Ew. transitivity (lift (hash_response (chap_function ISCSI_CHAP_SHA_256) i pw c buf) w); [done|].
    unfold lift. by rewrite E.
  - exists (alloc_n w). rewrite <- Ew. transitivity (lift (hash_response (chap_function ISCSI_CHAP_SHA3_256) i pw c buf) w); [done|].
    unfold lift. by rewrite E.
Qed.

Lemma length_answer auth i pw l : chap_known auth ->
  length (chap_answer auth i pw l) = Z.to_nat (chap_r_size auth).
Proof. intros Ha. pose proof (hash_length auth (u8 i :: pw ++ l) Ha). unfold chap_answer. lia. Qed.

Lemma add_hex_appends w l : memory w -> appends (fun p => add_hex p l) w w (hex_text l).
Proof.
  intros Hm. induction l as [|c l IH]; [by apply appends_nil|]. rewrite hex_text_cons.
  apply (appends_seq (fun p => add_text p (hex_pair c)) (fun p => add_hex p l) w w w); [|done].
  by apply add_text_appends.
Qed.

(** "KEY=0x" and the digits of some bytes. *)
Lemma hex_key_appends w k l : memory w -> str k <> [] ->
  appends (add_all [fun p => add_text p (str k); fun p => add_hex p l; fun p => add_text p [0]]) w w
    (join_nul [kv k (hex_text l)]).
Proof.
  intros Hm Hk. assert (E : join_nul [kv k (hex_text l)] = concat [str k; hex_text l; [0]]).
  { unfold join_nul, kv. cbn [map concat]. by rewrite !app_nil_r, <- app_assoc. }
  rewrite E. apply add_all_same. repeat constructor; first [by apply add_text_appends|by apply add_hex_appends].
Qed.

(** The challenge to the target, and the world after it is sent. *)
Definition challenge (w : world) : bytes :=
  draws (rand_seq (sys w)) (rand_n (sys w)) (Z.to_nat (chap_r_size (chap_auth (login (ctx w))) * 2)).

Definition target_identifier (w : world) : Z := i32 (target_chap_i (login (ctx w)) + 1).

(** What the target has to answer. *)
Definition target_answer (w : world) : bytes :=
  chap_answer (chap_auth (login (ctx w))) (target_identifier w) (target_passwd (login (ctx w))) (challenge w).

Definition challenged (w : world) : world :=
  w <| sys ::= drawn (length (challenge w)) |>
    <| ctx ::= fun c => c <| login ::= fun l => l <| target_chap_i := target_identifier w |>
         <| target_chap_r ::= fun r => blit r 0 (target_answer w) |> |> |>.

Definition challenge_strings (w : world) : list bytes :=
  [kv "CHAP_I=" (print_d (target_identifier w)); kv "CHAP_C=0x" (hex_text (challenge w))].

(** The array with the digits of a challenge. *)
Lemma hex_array l n : bytes_ok l -> (2 * length l < n)%nat -> hex_bytes (blit (zeros n) 0 (hex_text l)) = Ret l.
Proof.
  intros Hl Hn. rewrite blit_whole by (rewrite length_hex_text, length_zeros; lia).
  rewrite length_hex_text, drop_zeros. destruct (n - 2 * length l)%nat as [|k] eqn:E; [lia|].
  by apply (hex_bytes_text l (zeros k)).
Qed.

Lemma target_challenge_appends w : memory w -> chap_known (chap_auth (login (ctx w))) ->
  secret_ok (target_passwd (login (ctx w))) ->
  appends add_target_challenge w (challenged w) (join_nul (challenge_strings w)).
Proof.
  intros Hm Ha Hsec p pdu0 h0 text pdu a r Ht Hlen. set (auth := chap_auth (login (ctx w))) in *.
  set (i := target_identifier w). set (ch := challenge w).
  set (w1 := w <| ctx ::= fun c => c <| login ::= fun l => l <| target_chap_i := i |> |> |>).
  change (join_nul (challenge_strings w)) with (join_nul ([kv "CHAP_I=" (print_d i)] ++ [kv "CHAP_C=0x" (hex_text ch)])) in *.
  rewrite join_nul_app in *. rewrite length_app in Hlen.
  destruct (add_string_appends w1 (kv "CHAP_I=" (print_d i)) Hm p pdu0 h0 text pdu a r Ht ltac:(lia))
    as (pdu1 & a1 & r1 & E1 & Ht1).
  set (w2 := w1 <| sys ::= drawn (length ch) |>).
  destruct (hex_key_appends w2 "CHAP_C=0x" ch Hm ltac:(done) p pdu0 h0 _ pdu1 a1 r1 Ht1)
    as (pdu2 & a2 & r2 & E2 & Ht2); [rewrite length_app; lia|].
  destruct (draws_ok (rand_seq (sys w)) (rand_n (sys w)) (Z.to_nat (chap_r_size auth * 2))) as [Hl Hb].
  fold auth in Hl, Hb. change (draws _ _ _) with ch in Hl, Hb. pose proof (chap_size_cases auth Ha) as Hs.
  assert (Hch : challenge_ok ch) by (split; [done|]; unfold MAX_CHAP_R_SIZE, MAX_CHAP_C_LENGTH in *; lia).
  destruct (compute_chap_r_run auth i (target_passwd (login (ctx w)))
    (blit (zeros (Z.to_nat (MAX_CHAP_R_SIZE * 4 + 1))) 0 (hex_text ch)) ch (target_chap_r (login (ctx w)))
    (put (grown w2 a2 r2) p pdu2) Ha (hex_array ch (Z.to_nat (MAX_CHAP_R_SIZE * 4 + 1)) Hb ltac:(unfold MAX_CHAP_R_SIZE in *; lia)) Hsec Hch Hm) as (a3 & E3).
  exists pdu2, a3, r2. rewrite app_assoc. split; [|exact Ht2].
  unfold add_target_challenge. rewrite (bind_run _ _ _ tt (put (grown w1 a r) p pdu)) by done.
  run (get_ctx_run login (put (grown w1 a r) p pdu)). cbv zeta.
  change (chap_auth (login (ctx (put (grown w1 a r) p pdu)))) with auth.
  change (target_chap_i (login (ctx (put (grown w1 a r) p pdu)))) with i.
  run E1. cbn [Z.eqb negb]. run (rand_bytes_run (Z.to_nat (chap_r_size auth * 2)) (put (grown w1 a1 r1) p pdu1)).
  change (draws _ _ _) with ch. rewrite <- Hl.
  change ((put (grown w1 a1 r1) p pdu1) <| sys ::= drawn (length ch) |>) with (put (grown w2 a1 r1) p pdu1).
  run E2. cbn [Z.eqb negb].
  change (target_passwd (login (ctx (put (grown w1 a r) p pdu)))) with (target_passwd (login (ctx w))).
  change (target_chap_r (login (ctx (put (grown w1 a r) p pdu)))) with (target_chap_r (login (ctx w))).
  by run E3.
Qed.

End ChapText.

Section SecuritySteps.
Context `{HashesLaws} (w : world) (Hm : memory w).

Lemma authmethod_appends : in_step w ISCSI_LOGIN_SECNEG_PHASE_OFFER_CHAP ->
  appends iscsi_login_add_authmethod w w (join_nul [kv "AuthMethod=" (str "CHAP,None")]).
Proof. intros Hs. apply in_secneg_appends; [done|]. by apply add_string_appends. Qed.

Lemma authalgorithm_appends : in_step w ISCSI_LOGIN_SECNEG_PHASE_SELECT_ALGORITHM ->
  appends iscsi_login_add_authalgorithm w w (join_nul [kv "CHAP_A=" (print_d (chap_auth (login (ctx w))))]).
Proof.
  intros Hs. apply in_secneg_appends; [done|]. apply (appends_get login); [done|]. cbv beta.
  rewrite snprintf_number by (vm_compute; lia). by apply add_string_appends.
Qed.

Lemma username_appends : in_step w ISCSI_LOGIN_SECNEG_PHASE_SEND_RESPONSE ->
  appends iscsi_login_add_chap_username w w (join_nul [kv "CHAP_N=" (user (login (ctx w)))]).
Proof.
  intros Hs. apply in_secneg_appends; [done|]. apply (appends_get login); [done|]. cbv beta.
  unfold join_nul, kv. cbn [map concat]. rewrite app_nil_r, <- app_assoc.
  apply (appends_seq (fun p => add_text p (str "CHAP_N=")) (fun p => add_string p (user (login (ctx w)))) w w w).
  - by apply add_text_appends.
  - apply (add_text_appends w (user (login (ctx w)) ++ [0])); [done|]. by destruct (user _).
Qed.

(** A challenge [c] of the target was received. *)
Definition has_challenge (c : bytes) : Prop :=
  challenge_ok c /\ c <> [] /\ exists rest, chap_c (login (ctx w)) = hex_text c ++ 0 :: rest.

Definition response_strings (c : bytes) : list bytes :=
  let l := login (ctx w) in
  [kv "CHAP_R=0x" (hex_text (chap_answer (chap_auth l) (chap_i l) (passwd l) c))].

(** The world after the step of the response. *)
Definition responded : world := match target_user (login (ctx w)) with [] => w | _ => challenged w end.

Definition own_challenge_strings : list bytes :=
  match target_user (login (ctx w)) with [] => [] | _ => challenge_strings w end.

(** An operation that starts with the response. *)
Lemma appends_chap auth i pw c l d (k : nat -> bytes -> IO Z) w' s :
  chap_known auth -> hex_bytes c = Ret l -> secret_ok pw -> challenge_ok l ->
  appends (fun p => k p (blit d 0 (chap_answer auth i pw l))) w w' s ->
  appends (fun p => r ← compute_chap_r auth i pw c d; k p r) w w' s.
Proof.
  intros Ha Hc Hp Hl Hk p pdu0 h0 text pdu a r Ht Hlen.
  destruct (compute_chap_r_run auth i pw c l d (put (grown w a r) p pdu) Ha Hc Hp Hl Hm) as (a1 & E).
  destruct (Hk p pdu0 h0 text pdu a1 r Ht Hlen) as (pdu' & a' & r' & Ek & R). exists pdu', a', r'.
  split; [|done]. run E. exact Ek.
Qed.

Lemma chap_response_appends c : in_step w ISCSI_LOGIN_SECNEG_PHASE_SEND_RESPONSE ->
  chap_known (chap_auth (login (ctx w))) -> has_challenge c ->
  secret_ok (passwd (login (ctx w))) -> secret_ok (target_passwd (login (ctx w))) ->
  appends iscsi_login_add_chap_response w responded (join_nul (response_strings c ++ own_challenge_strings)).
Proof.
  intros Hs Ha ([Hc Hcl] & Hne & rest & Ec) Hp1 Hp2. apply in_secneg_appends; [done|].
  apply (appends_get login); [done|]. cbv beta. set (l := login (ctx w)) in *.
  assert (E0 : byte_at (chap_c l) 0 =? 0 = false).
  { rewrite Ec. destruct c as [|b c]; [done|]. apply Forall_cons in Hc as [Hb _].
    destruct (hex_pair_byte b Hb) as (d1 & d2 & E & Hd & _). rewrite hex_text_cons, E. by apply Z.eqb_neq. }
  rewrite E0. eapply (appends_chap (chap_auth l) (chap_i l) (passwd l) (chap_c l) c _ (fun p digest =>
      rc ← add_all [fun p => add_text p (str "CHAP_R=0x");
                    fun p => add_hex p (take (Z.to_nat (chap_r_size (chap_auth l))) digest);
                    fun p => add_text p [0]] p;
      if negb (rc =? 0) then mret (-1) else
      match target_user l with [] => mret 0 | _ => add_target_challenge p end));
    [done|by rewrite Ec, hex_bytes_text|done|by split|].
  set (d := chap_answer (chap_auth l) (chap_i l) (passwd l) c).
  assert (Ed : take (Z.to_nat (chap_r_size (chap_auth l))) (blit (zeros (Z.to_nat MAX_CHAP_R_SIZE)) 0 d) = d).
  { pose proof (length_answer (chap_auth l) (chap_i l) (passwd l) c Ha) as Hd. fold d in Hd.
    pose proof (chap_size_cases _ Ha). rewrite blit_whole by (rewrite length_zeros, Hd; lia).
    rewrite <- Hd. apply take_app_length. }
  change (join_nul (response_strings c ++ own_challenge_strings)) with
    (join_nul ([kv "CHAP_R=0x" (hex_text d)] ++ own_challenge_strings)). rewrite join_nul_app.
  apply (appends_seq _ (fun p => match target_user l with [] => mret 0 | _ => add_target_challenge p end) w w responded).
  - rewrite Ed. by apply hex_key_appends.
  - unfold responded, own_challenge_strings. fold l. destruct (target_user l); [by apply appends_nil|].
    by apply target_challenge_appends.
Qed.
End SecuritySteps.

(** ** The text of a request *)

(** The strings of the negotiation, after those of the parties. *)
Definition negotiation_strings `{Hashes} (w : world) (c : bytes) : list bytes :=
  let l := login (ctx w) in
  if current_phase l =? ISCSI_PDU_LOGIN_CSG_OPNEG then operational_strings (ctx w)
  else if secneg_phase l =? ISCSI_LOGIN_SECNEG_PHASE_OFFER_CHAP then [kv "AuthMethod=" (str "CHAP,None")]
  else if secneg_phase l =? ISCSI_LOGIN_SECNEG_PHASE_SELECT_ALGORITHM then [kv "CHAP_A=" (print_d (chap_auth l))]
  else [kv "CHAP_N=" (user l)] ++ response_strings w c ++ own_challenge_strings w.

Definition request_strings `{Hashes} (w : world) (c : bytes) : list bytes :=
  (if secneg_phase (login (ctx w)) =? ISCSI_LOGIN_SECNEG_PHASE_OFFER_CHAP then identity_strings w else [])
  ++ negotiation_strings w c.

(** Is this the step of the CHAP response? *)
Definition responding (w : world) : bool :=
  (current_phase (login (ctx w)) =? ISCSI_PDU_LOGIN_CSG_SECNEG)
  && (secneg_phase (login (ctx w)) =? ISCSI_LOGIN_SECNEG_PHASE_SEND_RESPONSE).

(** A step of the login, with challenge [c] if it is the response. *)
Record login_step `{Hashes} (w : world) (c : bytes) : Prop := {
  ls_phase : current_phase (login (ctx w)) = ISCSI_PDU_LOGIN_CSG_OPNEG \/
    current_phase (login (ctx w)) = ISCSI_PDU_LOGIN_CSG_SECNEG /\ 0 <= secneg_phase (login (ctx w)) <= 2;
  ls_chap : responding w = true -> chap_known (chap_auth (login (ctx w))) /\ has_challenge w c
}.

(** The world after the step. *)
Definition stepped `{Hashes} (w : world) : world := if responding w then responded w else w.

(** One operation of a step after the other. *)
Ltac step_keys Hno :=
  repeat (constructor;
    [first [(apply authmethod_appends; [done|by split])|(apply authalgorithm_appends; [done|by split])
           |(apply username_appends; [done|by split])|(apply skips_secneg, Hno; discriminate)]|]); constructor.

Section RequestText.
Context `{HashesLaws} (w : world) (Hm : memory w) (Hr : requestable w).

Lemma opneg_keys_skipped v : current_phase (login (ctx v)) = ISCSI_PDU_LOGIN_CSG_SECNEG ->
  appends (add_all [iscsi_login_add_headerdigest]) v v [] /\
  appends (add_all (drop 5 negotiation_keys)) v v [].
Proof.
  intros Hp. assert (Hne : current_phase (login (ctx v)) <> ISCSI_PDU_LOGIN_CSG_OPNEG) by (by rewrite Hp).
  split; apply add_all_none; repeat constructor; by apply skips_opneg.
Qed.

Lemma security_step c : current_phase (login (ctx w)) = ISCSI_PDU_LOGIN_CSG_SECNEG ->
  0 <= secneg_phase (login (ctx w)) <= 2 ->
  (responding w = true -> chap_known (chap_auth (login (ctx w))) /\ has_challenge w c) ->
  appends (add_all negotiation_keys) w (stepped w) (join_nul (negotiation_strings w c)).
Proof.
  intros Hp Hs Hc. destruct (opneg_keys_skipped w Hp) as [Hh Hrest].
  assert (Hno : forall n, secneg_phase (login (ctx w)) <> n -> ~ in_step w n) by (by intros n Hn [_ E]).
  assert (Hc5 : forall w' s, appends (add_all (take 4 (drop 1 negotiation_keys))) w w' s ->
    current_phase (login (ctx w')) = ISCSI_PDU_LOGIN_CSG_SECNEG -> appends (add_all negotiation_keys) w w' s).
  { intros w' s Hmid Hp'. destruct (opneg_keys_skipped w' Hp') as [_ Hrest'].
    pose proof (add_all_app _ _ _ _ _ _ _ Hh (add_all_app _ _ _ _ _ _ _ Hmid Hrest')) as Hall.
    by rewrite app_nil_r in Hall. }
  unfold stepped, negotiation_strings, responding in *. cbv zeta. rewrite Hp in *. cbn [Z.eqb andb] in *.
  assert (Es : secneg_phase (login (ctx w)) = 0 \/ secneg_phase (login (ctx w)) = 1 \/ secneg_phase (login (ctx w)) = 2) by lia.
  destruct Es as [Es|[Es|Es]]; rewrite Es in *; apply Hc5.
  - apply (add_all_strings w _ [[_]; []; []; []]). step_keys Hno.
  - done.
  - apply (add_all_strings w _ [[]; [_]; []; []]). step_keys Hno.
  - done.
  - destruct (Hc eq_refl) as [Ha Hch].
    match goal with |- appends _ _ _ (join_nul ?x) => change x with
      ([kv "CHAP_N=" (user (login (ctx w)))] ++ response_strings w c ++ own_challenge_strings w) end.
    rewrite join_nul_app.
    change (take 4 (drop 1 negotiation_keys)) with
      ([iscsi_login_add_authmethod; iscsi_login_add_authalgorithm; iscsi_login_add_chap_username] ++ [iscsi_login_add_chap_response]).
    apply (add_all_app _ _ w w (responded w)).
    + apply (add_all_strings w _ [[]; []; [_]]). step_keys Hno.
    + rewrite <- (app_nil_r (join_nul _)). apply (add_all_cons _ _ w (responded w) (responded w)); [|apply add_all_nil].
      apply chap_response_appends; [exact Hm|by split|done|done| |]; by destruct Hr as [_ _ _ _ _ _ _ _ [? [? _]%Forall_cons]%Forall_cons].
  - unfold responded. by destruct (target_user _).
Qed.

(** All keys of a request. *)
Lemma request_text c : login_step w c ->
  appends (add_all (login_keys (ctx w))) w (stepped w) (join_nul (request_strings w c)).
Proof.
  intros [Hph Hc]. unfold login_keys, request_strings. rewrite join_nul_app.
  apply (add_all_app _ _ w w (stepped w)).
  - destruct (Z.eqb_spec (secneg_phase (login (ctx w))) ISCSI_LOGIN_SECNEG_PHASE_OFFER_CHAP) as [E|Hne].
    + by apply identity_appends.
    + by apply identity_skipped.
  - destruct Hph as [Hp|[Hp Hs]]; [|by apply security_step].
    unfold stepped, responding, negotiation_strings. cbv zeta. rewrite Hp. by apply operational_step.
Qed.
End RequestText.

(** ** Sending a request *)

(** The first request of a login starts with random serials. *)
Definition randomized (w : world) : world :=
  let r k := u32 (rand_seq (sys w) (k + rand_n (sys w))%nat) in
  w <| sys ::= drawn 2 |>
    <| ctx ::= fun c => c <| itt := r 0%nat |> <| cmdsn := r 1%nat |> <| min_cmdsn_waiting := r 1%nat |>
         <| maxcmdsn := r 1%nat |> <| expcmdsn := r 1%nat |> |>.

Definition first_request (w : world) : bool :=
  (current_phase (login (ctx w)) =? 0) && (secneg_phase (login (ctx w)) =? 0).

(** The world in which the keys are added. *)
Definition login_start (w : world) : world :=
  let w1 := w <| ctx ::= fun c => c <| login_attempts ::= fun n => i32 (n + 1) |> |> in
  (if first_request w then randomized w1 else w1) <| ctx ::= fun c => c <| login ::= request_phases |> |>.

(** The header of a login request. *)
Definition login_header (c : iscsi_context) : bytes :=
  let b := blank_hdr c ISCSI_PDU_LOGIN_REQUEST (itt c) in
  let b := <[0%nat := u8 (byte_at b 0 ||| ISCSI_PDU_IMMEDIATE)]> b in
  let b := scsi_set_uint32 b 24 (cmdsn c) in
  let l := login c in
  <[1%nat := u8 (request_transit l ||| current_phase l ||| next_phase l)]> b.

Definition login_pdu (c : iscsi_context) : iscsi_pdu :=
  (fresh_pdu c ISCSI_PDU_LOGIN_REQUEST ISCSI_PDU_LOGIN_RESPONSE (itt c) ISCSI_PDU_DROP_ON_RECONNECT)
    <| outdata := Build_iscsi_data (ISCSI_HEADER_SIZE (header_digest c)) (Some (login_header c)) |>
    <| pdu_cmdsn := cmdsn c |>.

Lemma randomize_run w : randomize_serials w = Ret (tt, randomized w).
Proof. done. Qed.

Lemma grown_id w : w = grown w (alloc_n w) (reallocs (ctx w)).
Proof. by destruct w as [[]]. Qed.

Section SendRequest.
Context `{Transport}.

(** The first PDU of an empty queue. *)
Lemma queue_first_run w p pdu : unlocked w -> quiet w -> pdus w !! p = Some pdu -> outqueue (ctx w) = [] ->
  exists w', iscsi_queue_pdu p w = Ret (tt, w') /\ w' = (enqueued w p pdu [p]) <| trace := trace w' |> /\
    wakeups w w'.
Proof.
  intros Hl Hq Hp Ho. unfold iscsi_queue_pdu, iscsi_tcp_queue_pdu, iscsi_add_to_outqueue.
  assert (Hget : forall k : world -> IO unit, (getS ≫= k) w = k w w) by done. rewrite Hget.
  run (set_pdu_run w p pdu (fun q => stamped w q) Hp).
  set (w0 := w <| pdus ::= <[p := stamped w pdu]> |>).
  run (lock_run w0 Hl). set (wb := set_lock (have_mt w0) w0).
  assert (E0 : outqueue_insert p wb = Ret (None, set_lock (have_mt w0) (w0 <| ctx ::= fun c => c <| outqueue := [p] |> |>))).
  { unfold outqueue_insert. run (get_ctx_run outqueue wb). change (outqueue (ctx wb)) with (outqueue (ctx w)). by rewrite Ho. }
  run E0. match goal with |- context [(_ ≫= _) ?v] => run (unlock_run v eq_refl) end.
  destruct (notify_run (enqueued w p pdu [p]) p None Hq) as (w' & E & Hw & Ew). exists w'.
  split; [|done]. rewrite <- E. transitivity (outqueue_notify p None (set_lock false (enqueued w p pdu [p]))); [done|].
  by rewrite (set_lock_id (enqueued w p pdu [p]) false Hl).
Qed.
End SendRequest.

(** When a login request can be sent: the first in an empty queue. *)
Record can_login (w : world) : Prop := {
  cl_attempts : 0 <= login_attempts (ctx w) <= 10;
  cl_loggedin : is_loggedin (ctx w) = false;
  cl_session : session_type (ctx w) = ISCSI_SESSION_DISCOVERY \/ session_type (ctx w) = ISCSI_SESSION_NORMAL;
  cl_lock : unlocked w;
  cl_memory : memory w;
  cl_queue : outqueue (ctx w) = []
}.

(** The PDU [pdu] in the queue of [w'] is the request of the step [W]. *)
Record sent_request (W w' : world) (p : nat) (cb : option iscsi_command_cb) (private : Z)
  (text : bytes) (pdu : iscsi_pdu) : Prop := {
  sr_queue : outqueue (ctx w') = [p];
  sr_pdu : pdus w' !! p = Some pdu;
  sr_text : text_pdu (header_digest (ctx W))
    (stamped W ((login_pdu (ctx W)) <| pdu_callback := cb |> <| private_data := private |>))
    (login_header (ctx W)) text pdu
}.

Lemma set_cmdsn_put_run w p a sn b : ddata (outdata a) = Some b -> cbdata_task a = None ->
  iscsi_pdu_set_cmdsn p sn (put w p a) =
  Ret (tt, put w p (a <| outdata ::= fun d => d <| ddata := Some (scsi_set_uint32 b 24 sn) |> |> <| pdu_cmdsn := sn |>)).
Proof.
  intros Hb Ht. unfold iscsi_pdu_set_cmdsn. run (hdr_put_run w p a (fun b => scsi_set_uint32 b 24 sn) b Hb).
  match goal with |- context [put w p ?x] => set (a1 := x) end.
  run (set_put_run w p a1 (fun pdu => pdu <| pdu_cmdsn := sn |>)).
  run (get_put_run w p (a1 <| pdu_cmdsn := sn |>)).
  change (cbdata_task (a1 <| pdu_cmdsn := sn |>)) with (cbdata_task a). by rewrite Ht.
Qed.

Section SendLogin.
Context `{HashesLaws} `{Transport}.

(** The header is built, and the keys are added, in the world [login_start]. *)
Lemma login_prepared w cb private : can_login w ->
  exists v, v = allocated (login_start w) /\
  iscsi_login_async cb private w =
    (rc ← add_all (login_keys (ctx (login_start w))) (fresh w);
     if negb (rc =? 0) then _ ← iscsi_tcp_free_pdu (fresh w); mret (-1) else
     _ ← set_pdu (fresh w) (fun pdu => pdu <| pdu_callback := cb |> <| private_data := private |>);
     _ ← iscsi_queue_pdu (fresh w);
     mret 0) (put v (fresh w) (login_pdu (ctx v))).
Proof.
  intros [Ha Hli Hs Hl Hm Ho]. exists (allocated (login_start w)). split; [done|].
  unfold iscsi_login_async. run (get_ctx_run id w). change (id (ctx w)) with (ctx w).
  set (w1 := w <| ctx ::= fun c => c <| login_attempts ::= fun n => i32 (n + 1) |> |>).
  rewrite (bind_run _ _ _ tt w1) by done. destruct (Z.ltb_spec 10 (login_attempts (ctx w))); [lia|].
  rewrite Hli. assert (Hst : negb ((session_type (ctx w) =? ISCSI_SESSION_DISCOVERY) || (session_type (ctx w) =? ISCSI_SESSION_NORMAL)) = false)
    by (by destruct Hs as [-> | ->]).
  rewrite Hst. fold (first_request w). set (w2 := if first_request w then randomized w1 else w1).
  rewrite (bind_run _ _ _ tt w2) by (unfold w2; by destruct (first_request w)).
  run (get_ctx_run id w2). change (id (ctx w2)) with (ctx w2). set (p := fresh w).
  assert (Ef : fresh w2 = p) by (unfold w2; by destruct (first_request w)).
  assert (Hm2 : memory w2) by (unfold w2; by destruct (first_request w)).
  set (c2 := ctx w2). run (allocate_run w2 ISCSI_PDU_LOGIN_REQUEST ISCSI_PDU_LOGIN_RESPONSE (itt c2) ISCSI_PDU_DROP_ON_RECONNECT (Hm2 _) (Hm2 _)).
  rewrite Ef. fold c2. set (b0 := blank_hdr c2 ISCSI_PDU_LOGIN_REQUEST (itt c2)).
  set (a0 := fresh_pdu c2 ISCSI_PDU_LOGIN_REQUEST ISCSI_PDU_LOGIN_RESPONSE (itt c2) ISCSI_PDU_DROP_ON_RECONNECT).
  unfold iscsi_pdu_set_immediate.
  run (hdr_put_run (allocated w2) p a0 (fun b => <[0%nat := u8 (byte_at b 0 ||| ISCSI_PDU_IMMEDIATE)]> b) b0 eq_refl).
  set (a1 := a0 <| outdata ::= _ |>).
  run (set_cmdsn_put_run (allocated w2) p a1 (cmdsn c2) (<[0%nat := u8 (byte_at b0 0 ||| ISCSI_PDU_IMMEDIATE)]> b0) eq_refl eq_refl).
  set (a2 := a1 <| outdata ::= _ |> <| pdu_cmdsn := _ |>).
  set (v := allocated (login_start w)). rewrite (bind_run _ _ _ tt (put v p a2)) by done.
  run (get_ctx_run id (put v p a2)). change (id (ctx (put v p a2))) with (ctx v). unfold iscsi_pdu_set_pduflags.
  run (hdr_put_run v p a2 (fun b => <[1%nat := u8 (request_transit (login (ctx v)) ||| current_phase (login (ctx v)) ||| next_phase (login (ctx v)))]> b)
    _ eq_refl).
  done.
Qed.
End SendLogin.

Lemma byte_at_blit_ne buf off src i : (off + length src <= length buf)%nat ->
  (i < off \/ off + length src <= i)%nat -> byte_at (blit buf off src) i = byte_at buf i.
Proof. intros Hl Hi. unfold byte_at. rewrite blit_lookup by done. by rewrite decide_False by lia. Qed.

Lemma header_size_range d : (48 <= Z.to_nat (ISCSI_HEADER_SIZE d) <= 52)%nat.
Proof. unfold ISCSI_HEADER_SIZE. destruct (_ =? _); vm_compute; lia. Qed.

Lemma length_blank_hdr c op i : length (blank_hdr c op i) = Z.to_nat (ISCSI_HEADER_SIZE (header_digest c)).
Proof. unfold blank_hdr. destruct (_ =? _); by autorewrite with iscsi. Qed.

Lemma length_login_header c : length (login_header c) = Z.to_nat (ISCSI_HEADER_SIZE (header_digest c)).
Proof. unfold login_header. autorewrite with iscsi. apply length_blank_hdr. Qed.

(** What the header says. *)
Lemma login_header_fields c : let h := login_header c in let l := login c in
  byte_at h 0 = 0x43 /\ byte_at h 1 = u8 (request_transit l ||| current_phase l ||| next_phase l) /\
  scsi_get_uint32 h 4 = 0 /\ scsi_get_uint32 h 16 = u32 (itt c) /\ scsi_get_uint32 h 24 = u32 (cmdsn c).
Proof.
  intros h l. pose proof (header_size_range (header_digest c)) as Hs.
  pose proof (length_blank_hdr c ISCSI_PDU_LOGIN_REQUEST (itt c)) as Hb.
  set (b0 := blank_hdr c ISCSI_PDU_LOGIN_REQUEST (itt c)) in *.
  assert (Hz : forall i, (i < 8)%nat -> byte_at b0 i = if decide (i = 0)%nat then 3 else 0).
  { intros i Hi. unfold b0, blank_hdr. rewrite Z.eqb_refl, byte_at_set32_ne by lia.
    rewrite byte_at_blit_ne by (rewrite ?length_insert, ?length_zeros, ?length_take; lia).
    destruct (decide (i = 0%nat)) as [->|].
    - by rewrite byte_at_insert_eq by (rewrite length_zeros; lia).
    - rewrite byte_at_insert_ne by done. apply byte_at_zeros. }
  unfold h, login_header. fold b0. cbv zeta. fold l. repeat split.
  - rewrite byte_at_insert_ne, byte_at_set32_ne by lia. rewrite byte_at_insert_eq by lia. by rewrite Hz by lia.
  - by rewrite byte_at_insert_eq by (autorewrite with iscsi; lia).
  - transitivity (scsi_get_uint32 (zeros 8) 4); [|done]. apply get32_ext. intros i Hi.
    rewrite byte_at_insert_ne, byte_at_set32_ne, byte_at_insert_ne by lia.
    rewrite byte_at_zeros, Hz by lia. by rewrite decide_False by lia.
  - transitivity (scsi_get_uint32 b0 16).
    + apply get32_ext. intros i Hi. by rewrite byte_at_insert_ne, byte_at_set32_ne, byte_at_insert_ne by lia.
    + unfold b0, blank_hdr. rewrite get32_set32; [done|]. destruct (_ =? _); autorewrite with iscsi; lia.
  - transitivity (scsi_get_uint32 (scsi_set_uint32 (<[0%nat:=u8 (byte_at b0 0 ||| ISCSI_PDU_IMMEDIATE)]> b0) 24 (cmdsn c)) 24).
    + apply get32_ext. intros i Hi. by rewrite byte_at_insert_ne by lia.
    + apply get32_set32. autorewrite with iscsi. lia.
Qed.

Lemma text_pdu_start c : text_pdu (header_digest c) (login_pdu c) (login_header c) [] (login_pdu c).
Proof.
  split; [done|]. exists (login_header c). pose proof (header_size_range (header_digest c)).
  destruct (login_header_fields c) as (_ & _ & H4 & _). split; [|split; [|done]].
  - split; [apply length_login_header|]. split; [cbn [outdata login_pdu dsize]; cbn; lia|].
    exists 0%nat. split; [|split; [lia|]].
    + cbn. by rewrite app_nil_r.
    + rewrite Nat.add_0_r. cbn [length]. unfold ISCSI_HEADER_SIZE. destruct (_ =? _); reflexivity.
  - unfold iscsi_get_pdu_data_size. by rewrite H4.
Qed.

(** *** The strings are strings *)

Ltac str_ok := split; [discriminate|]; repeat constructor; discriminate.

Lemma kv_text_ok k v : text_ok (str k) -> no_nul v -> text_ok (kv k v).
Proof. apply text_ok_app. Qed.

Lemma str_no_nul s : forallb (fun b => negb (b =? 0)) (str s) = true -> no_nul (str s).
Proof.
  intros E. apply Forall_forall. intros b Hb. rewrite forallb_forall in E.
  specialize (E b ltac:(by apply list_elem_of_In)). by apply negb_true_iff, Z.eqb_neq in E.
Qed.

Lemma digest_text_no_nul d : no_nul (digest_text d).
Proof. unfold digest_text. repeat destruct (_ =? _); by apply str_no_nul. Qed.

Lemma yes_no_no_nul b : no_nul (yes_no b).
Proof. by destruct b; apply str_no_nul. Qed.

Section StringsOk.
Context `{HashesLaws} (w : world) (Hr : requestable w).

(** A key and its value. *)
Ltac one_string :=
  apply kv_text_ok; [str_ok|];
  first [apply print_d_no_nul|apply digest_text_no_nul|apply yes_no_no_nul|by apply str_no_nul|assumption].

Lemma identity_strings_ok : Forall text_ok (identity_strings w).
Proof.
  destruct Hr as [_ _ _ _ _ _ _ Ht _]. rewrite !Forall_cons in Ht. destruct Ht as (Hi & Ha & Htg & _).
  unfold identity_strings. rewrite !Forall_app. split_and!.
  - constructor; [one_string|constructor].
  - destruct (negb _); [constructor; [one_string|]|]; constructor.
  - destruct (_ =? _); [constructor; [one_string|]|]; constructor.
  - constructor; [|constructor]. destruct (_ =? _); one_string.
Qed.

Lemma operational_strings_ok c : Forall text_ok (operational_strings c).
Proof.
  unfold operational_strings. rewrite Forall_app. split.
  - repeat (constructor; [one_string|]). constructor.
  - destruct (_ =? _); repeat (constructor; [one_string|]); constructor.
Qed.

Lemma request_strings_ok c : login_step w c -> Forall text_ok (request_strings w c).
Proof.
  intros [Hp Hc]. assert (Hu : no_nul (user (login (ctx w)))).
  { destruct Hr as [_ _ _ _ _ _ _ Ht _]. rewrite !Forall_cons in Ht. tauto. }
  unfold request_strings. apply Forall_app. split.
  { destruct (_ =? _); [apply identity_strings_ok|constructor]. }
  unfold negotiation_strings, responding in *. cbv zeta.
  destruct Hp as [-> | [Hp Hs]]; [apply operational_strings_ok|]. rewrite Hp in *. cbn [Z.eqb andb] in *.
  assert (Es : secneg_phase (login (ctx w)) = 0 \/ secneg_phase (login (ctx w)) = 1 \/ secneg_phase (login (ctx w)) = 2) by lia.
  destruct Es as [Es|[Es|Es]]; rewrite Es in *.
  - constructor; [one_string|constructor].
  - constructor; [one_string|constructor].
  - destruct (Hc eq_refl) as [Ha _].
    match goal with |- Forall _ ?x => change x with
      ([kv "CHAP_N=" (user (login (ctx w)))] ++ response_strings w c ++ own_challenge_strings w) end.
    rewrite !Forall_app. split_and!.
    + constructor; [one_string|constructor].
    + constructor; [|constructor]. apply kv_text_ok; [str_ok|]. by apply hex_text_nonzero, hash_bytes.
    + unfold own_challenge_strings. destruct (target_user _); [constructor|]. unfold challenge_strings.
      constructor; [one_string|]. constructor; [|constructor]. apply kv_text_ok; [str_ok|].
      apply hex_text_nonzero, draws_ok.
Qed.
End StringsOk.

Section SendLoginRun.
Context `{HashesLaws} `{Transport}.

Lemma login_start_same w : have_mt (login_start w) = have_mt w /\ have_pthread (login_start w) = have_pthread w /\
  multithreading_enabled (ctx (login_start w)) = multithreading_enabled (ctx w) /\
  outqueue (ctx (login_start w)) = outqueue (ctx w) /\ iscsi_lock (ctx (login_start w)) = iscsi_lock (ctx w) /\
  alloc_ok (login_start w) = alloc_ok w /\ pdus (login_start w) = pdus w /\ fresh (login_start w) = fresh w /\
  trace (login_start w) = trace w.
Proof. unfold login_start. cbv zeta. by destruct (first_request w). Qed.

(** A step changes the CHAP state and the random numbers only. *)
Lemma stepped_shape w : exists s l, stepped w = w <| sys := s |> <| ctx ::= fun c => c <| login := l |> |>.
Proof.
  assert (E : exists s l, w = w <| sys := s |> <| ctx ::= fun c => c <| login := l |> |>).
  { exists (sys w), (login (ctx w)). by destruct w as [[]]. }
  unfold stepped, responded. destruct (responding w); [|done]. destruct (target_user _); [done|].
  by eexists _, _.
Qed.

Lemma request_frame W a q cb private : a = q <| outdata := outdata a |> ->
  let b := stamped W (a <| pdu_callback := cb |> <| private_data := private |>) in
  b = (stamped W (q <| pdu_callback := cb |> <| private_data := private |>)) <| outdata := outdata b |>.
Proof. intros E. cbv zeta. rewrite E. by destruct q. Qed.

Lemma stepped_allocated w : stepped (allocated w) = allocated (stepped w).
Proof.
  unfold stepped, responded. change (responding (allocated w)) with (responding w).
  destruct (responding w); [|done]. change (target_user (login (ctx (allocated w)))) with (target_user (login (ctx w))).
  by destruct (target_user _).
Qed.

Lemma login_async_run w cb private c : can_login w -> quiet w ->
  requestable (login_start w) -> login_step (login_start w) c ->
  Z.of_nat (length (join_nul (request_strings (login_start w) c))) < 2 ^ 24 ->
  exists w' pdu m r, iscsi_login_async cb private w = Ret (0, w') /\
    sent_request (login_start w) w' (fresh w) cb private (join_nul (request_strings (login_start w) c)) pdu /\
    ctx w' = (ctx (stepped (login_start w))) <| mallocs := m |> <| reallocs := r |> <| outqueue := [fresh w] |> /\
    pdus w' = <[fresh w := pdu]> (pdus w) /\ wakeups w w'.
Proof.
  intros Hw Hq Hr Hs Hlen. destruct (login_prepared w cb private Hw) as (v & -> & E).
  set (W := login_start w) in *. set (p := fresh w) in *. set (v := allocated W) in *.
  destruct (login_start_same w) as (M1 & M2 & M3 & M4 & M5 & M6 & M7 & M8 & M9). fold W in M1, M2, M3, M4, M5, M6, M7, M8, M9.
  assert (Hm : memory v) by (intros n; change (alloc_ok W n = true); rewrite M6; apply Hw).
  destruct (request_text v Hm ltac:(by destruct Hr) c ltac:(by destruct Hs) p (login_pdu (ctx v)) (login_header (ctx v)) []
    (login_pdu (ctx v)) (alloc_n v) (reallocs (ctx v)) (text_pdu_start (ctx v)) Hlen) as (pdu1 & a1 & r1 & E1 & Ht1).
  rewrite <- grown_id in E1. change (login_keys (ctx v)) with (login_keys (ctx W)) in E1.
  cbn [app] in Ht1. assert (Esv : stepped v = allocated (stepped W)) by apply stepped_allocated.
  rewrite Esv in E1, Ht1.
  set (u := grown (allocated (stepped W)) a1 r1) in *. destruct (stepped_shape W) as (s & l & Eu).
  set (pdu2 := pdu1 <| pdu_callback := cb |> <| private_data := private |>).
  destruct (queue_first_run (put u p pdu2) p pdu2) as (w' & E3 & Ew & Hwk).
  { unfold unlocked, u. rewrite Eu. change (iscsi_lock (ctx W) = false). rewrite M5. apply Hw. }
  { unfold quiet, u. rewrite Eu.
    change (have_mt W && have_pthread W && multithreading_enabled (ctx W) = true \/ forall v, exists r, service POLLOUT v = Ret (r, v)).
    by rewrite M1, M2, M3. }
  { apply put_lookup. }
  { unfold u. rewrite Eu. change (outqueue (ctx W) = []). rewrite M4. apply Hw. }
  exists w', (stamped (put u p pdu2) pdu2), (mallocs (ctx v)), r1. split; [|split; [|split; [|split]]].
  - rewrite E. run E1. cbn [Z.eqb negb]. run (set_put_run u p pdu1 (fun pdu => pdu <| pdu_callback := cb |> <| private_data := private |>)).
    by run E3.
  - split; [by rewrite Ew|rewrite Ew; apply lookup_insert_eq|].
    destruct Ht1 as [Ep R].
    assert (Est : stamped (put u p pdu2) pdu2 = stamped W pdu2).
    { unfold stamped, u. by rewrite Eu. }
    rewrite Est. split; [apply (request_frame W pdu1 (login_pdu (ctx W)) cb private); exact Ep|].
    change (outdata (stamped W pdu2)) with (outdata pdu1). revert R. unfold u. by rewrite Eu.
  - rewrite Ew. unfold u. by rewrite Eu.
  - rewrite Ew. set (q := stamped (put u p pdu2) pdu2).
    assert (Eus : pdus u = pdus w) by (rewrite <- M7; unfold u; by rewrite Eu).
    transitivity (<[p := q]> (<[p := pdu2]> (pdus u))); [done|]. rewrite Eus. apply insert_insert_eq.
  - destruct Hwk as (evs & T & Hevs). exists evs. split; [|done]. rewrite T. unfold u. rewrite Eu.
    change (trace W ++ evs = trace w ++ evs). by rewrite M9.
Qed.

End SendLoginRun.

(** ** Properties *)

Section RequestProperties.
Context `{HashesLaws} `{Transport}.

(** C11: The first step of a login, and every following one, queues one Login Request as
    an immediate PDU with the T bit, CSG and NSG of the step, the task tag and CmdSN of
    the session (random in the first step), whose data segment splits at its NULs into
    exactly the strings of the step: the names in the first one, then all operational
    keys with the wanted values, or the CHAP offer, algorithm, or name and response; one
    attempt is counted. *)
Theorem login_request_strings (w : world) (cb : option iscsi_command_cb) (private : Z) (c : bytes)
  (Hw : can_login w) (Hq : quiet w) (Hr : requestable (login_start w))
  (Hs : login_step (login_start w) c)
  (Hlen : Z.of_nat (length (join_nul (request_strings (login_start w) c))) < 2 ^ 24) :
  let l := login (ctx (login_start w)) in
  exists w' pdu h text, iscsi_login_async cb private w = Ret (0, w') /\
    outqueue (ctx w') = [fresh w] /\ pdus w' = <[fresh w := pdu]> (pdus w) /\
    outdata_wf (Z.to_nat (ISCSI_HEADER_SIZE (header_digest (ctx w)))) (outdata pdu) h text /\
    split_strings (length text) text = Some (request_strings (login_start w) c) /\
    iscsi_get_pdu_data_size h = Z.of_nat (length text) /\ byte_at h 0 = 0x43 /\
    byte_at h 1 = u8 (request_transit l ||| current_phase l ||| next_phase l) /\
    scsi_get_uint32 h 16 = u32 (pdu_itt pdu) /\ pdu_itt pdu = itt (ctx (login_start w)) /\
    scsi_get_uint32 h 24 = u32 (pdu_cmdsn pdu) /\ pdu_cmdsn pdu = cmdsn (ctx (login_start w)) /\
    pdu_callback pdu = cb /\ private_data pdu = private /\
    login_attempts (ctx w') = login_attempts (ctx w) + 1.
Proof.
  intros l. destruct (login_async_run w cb private c Hw Hq Hr Hs Hlen) as (w' & pdu & m & r & E & [S1 S2 S3] & C & P & _).
  set (W := login_start w) in *. destruct S3 as [Ep (h & Hwf & Hd & Hh)].
  set (text := join_nul (request_strings W c)) in *. exists w', pdu, h, text.
  destruct (login_header_fields (ctx W)) as (F0 & F1 & _ & F16 & F24).
  assert (Ehd : header_digest (ctx W) = header_digest (ctx w)).
  { unfold W, login_start. cbv zeta. by destruct (first_request w). }
  assert (Hb : forall k, scsi_get_uint32 h (8 + k) = scsi_get_uint32 (login_header (ctx W)) (8 + k)).
  { intros k. apply get32_ext. intros i Hi. apply Hh. lia. }
  assert (Ei : pdu_itt pdu = itt (ctx W)) by (by rewrite Ep).
  assert (Es : pdu_cmdsn pdu = cmdsn (ctx W)) by (by rewrite Ep).
  split_and!; try done.
  - by rewrite <- Ehd.
  - unfold text. apply split_join; [by apply request_strings_ok|apply length_join_nul].
  - by rewrite Hh by lia.
  - by rewrite Hh by lia.
  - rewrite Ei, <- F16. apply (Hb 8%nat).
  - rewrite Es, <- F24. apply (Hb 16%nat).
  - by rewrite Ep.
  - by rewrite Ep.
  - rewrite C. destruct (stepped_shape W) as (s & l' & ->).
    change (login_attempts (ctx W) = login_attempts (ctx w) + 1).
    transitivity (i32 (login_attempts (ctx w) + 1)); [unfold W, login_start; cbv zeta; by destruct (first_request w)|].
    apply i32_small. destruct Hw. lia.
Qed.

End RequestProperties.

(** A context that is not logged in. *)
Definition sample_login_world : world :=
  sample_world <| ctx ::= fun c => c <| is_loggedin := false |> <| multithreading_enabled := true |> |>.

Lemma login_request_strings_witness :
  exists w' pdu h text, @iscsi_login_async libiscsi_hashes sample_transport (Some (Cb_user 1)) 0 sample_login_world = Ret (0, w') /\
    outqueue (ctx w') = [1%nat] /\ pdus w' !! 1%nat = Some pdu /\
    split_strings (length text) text = Some (request_strings (login_start sample_login_world) []) /\
    byte_at h 1 = 0x87 /\ login_attempts (ctx w') = 1.
Proof.
  destruct (@login_request_strings libiscsi_hashes libiscsi_hashes_laws sample_transport sample_login_world (Some (Cb_user 1)) 0 [])
    as (w' & pdu & h & text & E & Q & P & _ & T & _ & _ & F & _ & _ & _ & _ & _ & _ & A).
  - split; [vm_compute; split; discriminate|reflexivity|by right|reflexivity|done|reflexivity].
  - left. reflexivity.
  - split; [by right|vm_compute; split; discriminate|vm_compute; split; discriminate|discriminate|vm_compute; lia|vm_compute; lia|vm_compute; lia| |].
    + repeat (constructor; [repeat constructor; discriminate|]). constructor.
    + repeat (constructor; [split; [apply (bool_decide_unpack _); vm_compute; exact I|vm_compute; discriminate]|]). constructor.
  - split; [by left|discriminate].
  - vm_compute. reflexivity.
  - exists w', pdu, h, text. split; [exact E|]. split; [exact Q|]. split; [by rewrite P|].
    split; [exact T|]. split; [exact F|exact A].
Defined.
