(* ===== verification/LoginReply.v ===== *)
(** The login replies (theorems about the second half of [Login]): which string
    has which effect, what authenticates the target, and how the operational
    parameters are adopted. *)

From S2P Require Import SList Prelude Hash Hashes Bytes Crc32c Task Context Pdu Queue Complete Cancel Iovec Command Process Text Login LoginRequest.

(** ** The keys exclude each other *)

Fixpoint all_clash (l : list (string * handler)) : bool :=
  match l with
  | [] => true
  | (k, _) :: l => forallb (fun '(k', _) => clash (str k) (str k')) l && all_clash l
  end.

Lemma clash_sym k1 k2 : clash k1 k2 = clash k2 k1.
Proof.
  revert k2. induction k1 as [|a k1 IH]; intros [|b k2]; try done. cbn [clash].
  rewrite Z.eqb_sym. by destruct (b =? a).
Qed.

Lemma try_keys_none l p s o w : (forall k h, (k, h) ∈ l -> strip (str k) s = None) ->
  try_keys l p s o w = Ret (inr o, w).
Proof.
  induction l as [|[k h] l IH]; intros Hn; [done|]. cbn [try_keys].
  rewrite (Hn k h) by left. rewrite (bind_run _ _ _ (inr o) w) by done.
  apply IH. intros k' h' Hin. apply (Hn k' h'). by right.
Qed.

(** One key decides: the others do not begin the string. *)
Lemma try_keys_one l p s o w k h v : all_clash l = true -> (k, h) ∈ l -> strip (str k) s = Some v ->
  try_keys l p s o w = h p v o w.
Proof.
  induction l as [|[k0 h0] l IH]; intros Hc Hin E; [by apply not_elem_of_nil in Hin|].
  cbn [all_clash] in Hc. apply andb_true_iff in Hc as [Hc0 Hc]. rewrite forallb_forall in Hc0.
  cbn [try_keys]. apply elem_of_cons in Hin as [[= <- <-]|Hin].
  - rewrite E. unfold mbind, M_bind. destruct (h p v o w) as [[[rc|o'] w']|u]; try done.
    apply try_keys_none. intros k' h' Hin. apply (strip_clash (str k)) with v; [|done].
    by apply (Hc0 (k', h')), list_elem_of_In.
  - rewrite (strip_clash (str k) (str k0) s v); [|rewrite clash_sym; by apply (Hc0 (k, h)), list_elem_of_In|done].
    rewrite (bind_run _ _ _ (inr o) w) by done. by apply IH.
Qed.

Lemma reply_keys_clash : all_clash reply_keys = true.
Proof. vm_compute. reflexivity. Qed.

Lemma known_key k h v p o w : (k, h) ∈ reply_keys -> try_keys reply_keys p (kv k v) o w = h p v o w.
Proof. intros Hin. apply (try_keys_one _ _ _ _ _ k); [apply reply_keys_clash|done|]. apply strip_app. Qed.

(** ** The loop over the strings *)

Fixpoint process_strings (p : nat) (l : list bytes) (o : owed) : IO (Z + owed) :=
  match l with
  | [] => mret (inr o)
  | s :: l =>
      r ← try_keys reply_keys p s o;
      match r with inl rc => mret (inl rc) | inr o => process_strings p l o end
  end.

Lemma split_strings_rest fuel b t l : split_strings (S fuel) (b :: t) = Some l ->
  (exists r, split_nul (b :: t) = Some ([], r)) /\ l = [] \/
  exists s r l', split_nul (b :: t) = Some (s, r) /\ s <> [] /\ l = s :: l' /\ split_strings fuel r = Some l' /\
    (length r <= length t)%nat.
Proof.
  intros E. cbn [split_strings] in E. destruct (split_nul (b :: t)) as [[s r]|] eqn:En; [|done].
  destruct (split_nul_Some _ _ _ En) as [Et _]. destruct s as [|a s].
  - left. injection E as <-. split; [by exists r|done].
  - right. destruct (split_strings fuel r) as [l'|] eqn:El; [|done]. cbn in E. injection E as <-.
    exists (a :: s), r, l'. do 4 (split; [done|]). apply (f_equal length) in Et.
    rewrite length_app in Et. cbn in Et. lia.
Qed.

Lemma login_text_run fuel fuel' p text l o w : (length text <= fuel)%nat ->
  split_strings fuel' text = Some l -> login_text fuel p text o w = process_strings p l o w.
Proof.
  revert fuel fuel' l o w. induction text as [text IH] using (induction_ltof1 _ (@length Z)).
  intros fuel fuel' l o w Hf El. destruct text as [|b t].
  { destruct fuel', fuel; by injection El as <-. }
  destruct fuel' as [|fuel']; [done|]. destruct fuel as [|fuel]; [cbn in Hf; lia|].
  destruct (split_strings_rest fuel' b t l El) as [[[r En] ->]|(s & r & l' & En & Hs & -> & El' & Hr)].
  - cbn [login_text]. by rewrite En.
  - cbn [login_text process_strings]. rewrite En. destruct s as [|a s]; [done|].
    unfold mbind, M_bind. destruct (try_keys _ _ _ _ _) as [[[rc|o'] w']|u]; try done.
    apply (IH r) with fuel'; [unfold ltof; cbn; lia|cbn in Hf; lia|done].
Qed.

(** ** What a string can do

    Reading a string changes parameters only, or ends the login with an error
    that the callback is told. *)
Record negotiated (w w' : world) : Prop := {
  ng_pdus : pdus w' = pdus w;
  ng_trace : trace w' = trace w;
  ng_queue : outqueue (ctx w') = outqueue (ctx w);
  ng_loggedin : is_loggedin (ctx w') = is_loggedin (ctx w);
  ng_user : target_user (login (ctx w')) = target_user (login (ctx w));
  ng_answer : target_chap_r (login (ctx w')) = target_chap_r (login (ctx w));
  ng_auth : chap_auth (login (ctx w')) = chap_auth (login (ctx w));
  ng_wait : waitpdu (ctx w') = waitpdu (ctx w);
  ng_lock : iscsi_lock (ctx w') = iscsi_lock (ctx w)
}.

#[export] Instance negotiated_preorder : PreOrder negotiated.
Proof.
  split; [by split|]. intros w1 w2 w3 [] []. split; by etransitivity.
Qed.

(** The callback was told [st], and nothing was sent. *)
Record told (w w' : world) (f : nat) (pdu : iscsi_pdu) (st : Z) : Prop := {
  tl_pdus : pdus w' = pdus w;
  tl_trace : trace w' = trace w ++ [Ev_callback f st Data_none (private_data pdu)];
  tl_queue : outqueue (ctx w') = outqueue (ctx w);
  tl_loggedin : is_loggedin (ctx w') = is_loggedin (ctx w);
  tl_wait : waitpdu (ctx w') = waitpdu (ctx w);
  tl_lock : iscsi_lock (ctx w') = iscsi_lock (ctx w)
}.

Lemma told_after w w1 w2 f pdu st : negotiated w w1 -> told w1 w2 f pdu st -> told w w2 f pdu st.
Proof. intros [N1 N2 N3 N4 _ _ _ N8 N9] [T1 T2 T3 T4 T5 T6]. split; congruence. Qed.

(** A response that the target could only compute from its secret. *)
Definition right_response (l : login_state) (v : bytes) : Prop :=
  Z.of_nat (length v) = 2 * chap_r_size (chap_auth l) /\
  hex_pairs v = take (Z.to_nat (chap_r_size (chap_auth l))) (target_chap_r l).

(** What pays off [chap_n_owed] and [chap_r_owed]. *)
Definition pays (l : login_state) (s : bytes) (o o' : owed) : Prop :=
  (chap_n_owed o' = chap_n_owed o \/ s = kv "CHAP_N=" (target_user l)) /\
  (chap_r_owed o' = chap_r_owed o \/ exists v, s = kv "CHAP_R=0x" v /\ right_response l v).

Section Handlers.
Context (p : nat) (pdu : iscsi_pdu) (f : nat) (Hf : pdu_callback pdu = Some (Cb_user f)).

Lemma login_failed_run msg rc w : pdus w !! p = Some pdu ->
  exists w', login_failed msg p rc w = Ret (inl rc, w') /\ told w w' f pdu SCSI_STATUS_ERROR.
Proof.
  intros Hp. unfold login_failed, call_callback.
  rewrite (bind_run _ _ _ tt (w <| ctx ::= fun c => c <| error_string := msg |> |>)) by done.
  unfold mbind at 1, M_bind at 1. set (w1 := w <| ctx ::= _ |>).
  run (get_pdu_run w1 p pdu Hp). rewrite Hf. eexists. split; [reflexivity|done].
Qed.

(** The outcome of one string. *)
Definition string_outcome (s : bytes) (o : owed) (w : world) (r : res ((Z + owed) * world)) : Prop :=
  (exists rc w', r = Ret (inl rc, w') /\ told w w' f pdu SCSI_STATUS_ERROR) \/
  (exists o' w', r = Ret (inr o', w') /\ negotiated w w' /\ pays (login (ctx w)) s o o').

Lemma unchanged_outcome s o w w' : negotiated w w' -> string_outcome s o w (Ret (inr o, w')).
Proof. intros Hn. right. exists o, w'. split; [done|]. split; [done|]. by split; left. Qed.

Lemma handler_outcome k h v o w : (k, h) ∈ reply_keys -> pdus w !! p = Some pdu ->
  string_outcome (kv k v) o w (h p v o w).
Proof.
  intros Hin Hp. unfold reply_keys in Hin.
  repeat (apply elem_of_cons in Hin as [[= -> ->]|Hin];
    [try (apply (unchanged_outcome _ o); by split)|]); [..|by apply not_elem_of_nil in Hin].
  - unfold parameter. apply (unchanged_outcome _ o). destruct (bool_decide _); by split.
  - unfold reply_chap_c. destruct (_ <? _).
    + left. destruct (login_failed_run "Wrong length of CHAP_C received from target (%d, max: %d)" 0 w Hp) as (w' & E & T).
      by exists 0, w'.
    + apply (unchanged_outcome _ o). by split.
  - unfold reply_chap_n. run (get_ctx_run login w). destruct (bool_decide_reflect (target_user (login (ctx w)) = v)) as [<-|Hne].
    + right. eexists _, w. split; [reflexivity|]. split; [done|]. split; [by right|by left].
    + left. destruct (login_failed_run "Failed to log in to target. Wrong CHAP targetname received: %s" 0 w Hp) as (w' & E & T).
      by exists 0, w'.
  - unfold reply_chap_r. run (get_ctx_run login w). cbv zeta.
    destruct (Z.eqb_spec (Z.of_nat (length v)) (2 * chap_r_size (chap_auth (login (ctx w))))) as [El|_]; cbn [negb].
    2: { left. destruct (login_failed_run "Wrong size of CHAP_R received from target." 0 w Hp) as (w' & E & T). by exists 0, w'. }
    destruct (bool_decide_reflect (hex_pairs v = take (Z.to_nat (chap_r_size (chap_auth (login (ctx w))))) (target_chap_r (login (ctx w))))) as [Ev|_]; cbn [negb].
    + right. eexists _, w. split; [reflexivity|]. split; [done|]. split; [by left|right]. by exists v.
    + left. destruct (login_failed_run "Authentication failed. Invalid CHAP_R response from the target" 0 w Hp) as (w' & E & T).
      by exists 0, w'.
Qed.
End Handlers.

Lemma key_of (l : list (string * handler)) s :
  (exists k h v, (k, h) ∈ l /\ s = kv k v) \/ (forall k h, (k, h) ∈ l -> strip (str k) s = None).
Proof.
  induction l as [|[k h] l [(k' & h' & v & Hin & E)|Hn]].
  - right. intros k h Hin. by apply not_elem_of_nil in Hin.
  - left. exists k', h', v. split; [by right|done].
  - destruct (strip (str k) s) as [v|] eqn:E.
    + left. exists k, h, v. split; [by left|]. by apply strip_Some.
    + right. intros k' h' Hin. apply elem_of_cons in Hin as [[= <- <-]|Hin]; [done|by apply (Hn k' h')].
Qed.

(** What the strings of a text pay off. *)
Definition paid (l : login_state) (strings : list bytes) (o o' : owed) : Prop :=
  (chap_n_owed o' = chap_n_owed o \/ kv "CHAP_N=" (target_user l) ∈ strings) /\
  (chap_r_owed o' = chap_r_owed o \/ exists v, kv "CHAP_R=0x" v ∈ strings /\ right_response l v).

Section Texts.
Context (p : nat) (pdu : iscsi_pdu) (f : nat) (Hf : pdu_callback pdu = Some (Cb_user f)).

Lemma try_keys_outcome s o w : pdus w !! p = Some pdu ->
  string_outcome pdu f s o w (try_keys reply_keys p s o w).
Proof.
  intros Hp. destruct (key_of reply_keys s) as [(k & h & v & Hin & ->)|Hn].
  - rewrite (known_key k h) by done. by apply handler_outcome.
  - rewrite try_keys_none by done. by apply unchanged_outcome.
Qed.

(** Reading a text ends with an error that the callback is told, or goes on
    with what is still owed. *)
Lemma login_text_outcome fuel fuel' text o w : (length text <= fuel)%nat -> (length text <= fuel')%nat ->
  pdus w !! p = Some pdu ->
  (exists rc w', login_text fuel p text o w = Ret (inl rc, w') /\ told w w' f pdu SCSI_STATUS_ERROR) \/
  (exists o' w' l, login_text fuel p text o w = Ret (inr o', w') /\ negotiated w w' /\
     split_strings fuel' text = Some l /\ paid (login (ctx w)) l o o').
Proof.
  revert fuel fuel' o w. induction text as [text IH] using (induction_ltof1 _ (@length Z)).
  intros fuel fuel' o w Hl Hl' Hp. destruct text as [|b t].
  { right. exists o, w, []. split; [by destruct fuel|]. split; [done|]. split; [by destruct fuel'|]. by split; left. }
  destruct fuel as [|fuel]; [cbn in Hl; lia|]. destruct fuel' as [|fuel']; [cbn in Hl'; lia|].
  cbn [login_text split_strings]. destruct (split_nul (b :: t)) as [[s r]|] eqn:En.
  2: { left. destruct (login_failed_run p pdu f Hf "NUL not found after offset %ld when parsing login data" (-1) w Hp)
         as (w' & E & T). by exists (-1), w'. }
  assert (Hr : (length r <= length t)%nat).
  { destruct (split_nul_Some _ _ _ En) as [Et _]. apply (f_equal length) in Et. rewrite length_app in Et. cbn in Et. lia. }
  destruct s as [|a s]; [right; exists o, w, []; do 3 (split; [done|]); by split; left|].
  unfold mbind, M_bind. destruct (try_keys_outcome (a :: s) o w Hp) as [(rc & w1 & E & T)|(o1 & w1 & E & N & P)]; rewrite E.
  { left. by exists rc, w1. }
  assert (Hp1 : pdus w1 !! p = Some pdu) by (by rewrite (ng_pdus _ _ N)).
  cbn in Hl, Hl'. destruct (IH r ltac:(unfold ltof; cbn; lia) fuel fuel' o1 w1 ltac:(lia) ltac:(lia) Hp1)
    as [(rc & w' & E' & T)|(o' & w' & l & E' & N' & El & P')].
  - left. exists rc, w'. split; [done|]. by apply (told_after w w1).
  - right. exists o', w', ((a :: s) :: l). split; [done|]. split; [by etransitivity|]. split; [by rewrite El|].
    destruct N as [_ _ _ _ N5 N6 N7 _ _]. destruct P as [P1 P2], P' as [P1' P2'].
    unfold right_response in P2'. rewrite N5 in P1'. rewrite N6, N7 in P2'. split.
    + destruct P1' as [->|Hin]; [|right; by right]. destruct P1 as [->| ->]; [by left|right; by left].
    + destruct P2' as [->|(v & Hin & Hv)]; [|right; exists v; split; [by right|done]].
      destruct P2 as [->|(v & -> & Hv)]; [by left|right; exists v; split; [by left|done]].
Qed.

End Texts.

Section Replies.
Context `{Hashes} `{Transport}.

(** The world in which the text is read. *)
Definition reply_start (inp : iscsi_in_pdu) (w : world) : world :=
  if negb (truth (scsi_get_uint16 (hdr inp) 36 >> 8)) && first_request w
  then w <| ctx ::= fun c => c <| statsn := scsi_get_uint32 (hdr inp) 24 |> |> else w.

(** Are CHAP_N and CHAP_R due? *)
Definition owes (inp : iscsi_in_pdu) (w : world) : bool :=
  truth (byte_at (hdr inp) 1 &&& ISCSI_PDU_LOGIN_TRANSIT)
  && (byte_at (hdr inp) 1 &&& ISCSI_PDU_LOGIN_CSG_FF =? ISCSI_PDU_LOGIN_CSG_SECNEG)
  && negb (bool_decide (target_user (login (ctx w)) = [])).

Lemma reply_start_negotiated inp w : negotiated w (reply_start inp w) /\
  login (ctx (reply_start inp w)) = login (ctx w).
Proof. unfold reply_start. destruct (_ && _); [by split; [split|]|done]. Qed.

Lemma process_login_reply_eq w p inp text : received_text inp = Ret text ->
  iscsi_process_login_reply p inp w =
    (r ← login_text (length text) p text {| chap_n_owed := owes inp w; chap_r_owed := owes inp w |};
     match r with
     | inl rc => mret rc
     | inr o => login_outcome p (scsi_get_uint16 (hdr inp) 36) (byte_at (hdr inp) 1) o
     end) (reply_start inp w).
Proof.
  intros Htext. unfold iscsi_process_login_reply. run (get_ctx_run id w). change (id (ctx w)) with (ctx w).
  rewrite (bind_run _ _ _ tt (reply_start inp w)).
  - by rewrite Htext.
  - unfold reply_start, first_request. rewrite andb_assoc. by destruct (_ && _).
Qed.

(** A reply that is not accepted: the callback is told why. *)
Lemma outcome_refused w p pdu f status flags o : pdus w !! p = Some pdu -> pdu_callback pdu = Some (Cb_user f) ->
  status <> 0 \/ chap_n_owed o = true \/ chap_r_owed o = true ->
  exists rc w' st, login_outcome p status flags o w = Ret (rc, w') /\ told w w' f pdu st /\ st <> SCSI_STATUS_GOOD.
Proof.
  intros Hp Hf Ho.
  assert (Hfail : forall msg, exists w', (_ ← login_failed msg p 0; mret 0 : IO Z) w = Ret (0, w') /\ told w w' f pdu SCSI_STATUS_ERROR).
  { intros msg. destruct (login_failed_run p pdu f Hf msg 0 w Hp) as (w' & E & T). exists w'. by run E. }
  assert (Hcase : (exists msg, login_outcome p status flags o w = (_ ← login_failed msg p 0; mret 0 : IO Z) w) \/
    login_outcome p status flags o w = (_ ← call_callback p SCSI_STATUS_REDIRECT Data_none; mret 0 : IO Z) w).
  { unfold login_outcome. run (get_ctx_run login w). destruct (_ && _); [by right|left].
    destruct (Z.eqb_spec status 0) as [->|]; [|by eexists]. destruct (chap_n_owed o); [by eexists|].
    destruct (chap_r_owed o); [by eexists|]. by destruct Ho as [?|[?|?]]. }
  destruct Hcase as [[msg E]|E].
  - destruct (Hfail msg) as (w' & E' & T). exists 0, w', SCSI_STATUS_ERROR. by rewrite E.
  - rewrite E. unfold call_callback. unfold mbind at 1, M_bind at 1. run (get_pdu_run w p pdu Hp). rewrite Hf.
    by eexists 0, _, SCSI_STATUS_REDIRECT.
Qed.
End Replies.

(** ** Accepted replies *)

Section Accepted.
Context `{Hashes} `{Transport}.

(** The world after a login. *)
Definition logged_in (w : world) (pdu : iscsi_pdu) (f : nat) : world :=
  w <| ctx ::= fun c => c <| login ::= fun l => l <| current_phase := 12 |> |> <| is_loggedin := true |>
         <| itt := (itt c + 1) mod 0xffffffff |> <| header_digest := want_header_digest (login c) |>
         <| data_digest := want_data_digest (login c) |> |>
    <| trace ::= fun t => t ++ [Ev_callback f SCSI_STATUS_GOOD Data_none (private_data pdu)] |>.

Lemma last_step_run w p pdu f flags : pdus w !! p = Some pdu -> pdu_callback pdu = Some (Cb_user f) ->
  unlocked w -> 0 <= itt (ctx w) < 0xffffffff ->
  truth (flags &&& ISCSI_PDU_LOGIN_TRANSIT) = true -> flags &&& ISCSI_PDU_LOGIN_NSG_FF = ISCSI_PDU_LOGIN_NSG_FF ->
  login_step_done p flags w = Ret (0, logged_in w pdu f).
Proof.
  intros Hp Hf Hl Hi Ht Hn. unfold login_step_done. cbv zeta. rewrite Ht, Hn.
  set (w1 := w <| ctx ::= fun c => c <| login ::= fun l => l <| current_phase := 12 |> |> |>).
  rewrite (bind_run _ _ _ tt w1) by done. run (get_pdu_run w1 p pdu Hp).
  change (true && (ISCSI_PDU_LOGIN_NSG_FF =? ISCSI_PDU_LOGIN_NSG_FF)) with true. cbv iota.
  set (w2 := w1 <| ctx ::= fun c => c <| is_loggedin := true |> |>). rewrite (bind_run _ _ _ tt w2) by done.
  run (itt_post_increment_run w2 Hl Hi).
  set (w3 := w2 <| ctx ::= _ |>).
  set (w4 := w3 <| ctx ::= fun c => c <| header_digest := want_header_digest (login c) |>
                            <| data_digest := want_data_digest (login c) |> |>).
  rewrite (bind_run _ _ _ tt w4) by done. rewrite Hf. rewrite (bind_run _ _ _ (Cb_user f) w4) by done.
  unfold call_callback. unfold mbind at 1, M_bind at 1. run (get_pdu_run w4 p pdu Hp). by rewrite Hf.
Qed.

(** A reply without errors, of which nothing is owed, ends the step. *)
Lemma outcome_accepted w p flags o : chap_n_owed o = false -> chap_r_owed o = false ->
  login_outcome p 0 flags o w = login_step_done p flags w.
Proof. intros E1 E2. unfold login_outcome. run (get_ctx_run login w). by rewrite E1, E2. Qed.

Lemma chap_n_run p o w : reply_chap_n p (target_user (login (ctx w))) o w =
  Ret (inr {| chap_n_owed := false; chap_r_owed := chap_r_owed o |}, w).
Proof. unfold reply_chap_n. run (get_ctx_run login w). by rewrite bool_decide_true. Qed.

Lemma chap_r_run p v o w : right_response (login (ctx w)) v ->
  reply_chap_r p v o w = Ret (inr {| chap_n_owed := chap_n_owed o; chap_r_owed := false |}, w).
Proof.
  intros [H1 H2]. unfold reply_chap_r. run (get_ctx_run login w). cbv zeta.
  by rewrite (proj2 (Z.eqb_eq _ _) H1), bool_decide_true.
Qed.

Lemma reply_key_in k h i : reply_keys !! i = Some (k, h) -> (k, h) ∈ reply_keys.
Proof. apply list_elem_of_lookup_2. Qed.

(** The two strings that answer the challenge. *)
Lemma chap_reply_run w p v o : no_nul (target_user (login (ctx w))) -> no_nul v -> right_response (login (ctx w)) v ->
  let text := join_nul [kv "CHAP_N=" (target_user (login (ctx w))); kv "CHAP_R=0x" v] in
  login_text (length text) p text o w = Ret (inr {| chap_n_owed := false; chap_r_owed := false |}, w).
Proof.
  intros Hu Hv Hr text. set (l := [kv "CHAP_N=" (target_user (login (ctx w))); kv "CHAP_R=0x" v]).
  rewrite (login_text_run (length text) 2 p text l); [|done|].
  - unfold l. cbn [process_strings].
    rewrite (bind_run _ _ _ (inr {| chap_n_owed := false; chap_r_owed := chap_r_owed o |}) w).
    2: { rewrite (known_key "CHAP_N=" reply_chap_n) by (by apply (reply_key_in _ _ 15)). apply chap_n_run. }
    rewrite (bind_run _ _ _ (inr {| chap_n_owed := false; chap_r_owed := false |}) w); [done|].
    rewrite (known_key "CHAP_R=0x" reply_chap_r) by (by apply (reply_key_in _ _ 16)). by rewrite chap_r_run.
  - apply split_join; [|done]. repeat constructor; try discriminate; done.
Qed.

End Accepted.

(** ** Echoed parameters *)

Section Echo.
Context (p : nat) (o : owed).

(** A string that sets a parameter. *)
Lemma param_string i k f v l w : reply_keys !! i = Some (k, parameter f) ->
  process_strings p (kv k v :: l) o w = process_strings p l o (w <| ctx ::= f v |>).
Proof.
  intros Hi. cbn [process_strings]. rewrite (bind_run _ _ _ (inr o) (w <| ctx ::= f v |>)); [done|].
  by rewrite (known_key k (parameter f)) by (by apply (reply_key_in _ _ i)).
Qed.

(** A string the code does not know. *)
Lemma unknown_string k v l w : forallb (fun '(k', _) => clash (str k) (str k')) reply_keys = true ->
  process_strings p (kv k v :: l) o w = process_strings p l o w.
Proof.
  intros Hc. cbn [process_strings]. rewrite (bind_run _ _ _ (inr o) w); [done|].
  apply try_keys_none. intros k' h Hin. rewrite forallb_forall in Hc.
  apply (strip_clash (str k)) with v; [by apply (Hc (k', h)), list_elem_of_In|apply strip_app].
Qed.

(** The digest the target chose. *)
Definition chosen (d : Z) : Z := if d =? ISCSI_HEADER_DIGEST_CRC32C then ISCSI_HEADER_DIGEST_CRC32C else 0.

Lemma digest_of_text d : 0 <= d <= 3 -> digest_of_reply (digest_text d) = chosen d.
Proof. intros Hd. destruct (digest_cases d Hd) as [-> | [-> | [-> | ->]]]; reflexivity. Qed.

(** The context after the parameters of [c] were echoed to it. *)
Definition echoed (c : iscsi_context) : iscsi_context :=
  c <| login ::= fun l => l <| want_header_digest ::= chosen |> <| want_data_digest ::= chosen |> |>
    <| use_initial_r2t := if want_initial_r2t (login c) =? ISCSI_INITIAL_R2T_NO then ISCSI_INITIAL_R2T_NO else ISCSI_INITIAL_R2T_YES |>
    <| use_immediate_data := if want_immediate_data (login c) =? ISCSI_IMMEDIATE_DATA_NO then ISCSI_IMMEDIATE_DATA_NO else use_immediate_data c |>
    <| target_max_recv_data_segment_length := initiator_max_recv_data_segment_length (conn c) |>.

Record parameters_ok (c : iscsi_context) : Prop := {
  po_header_digest : 0 <= want_header_digest (login c) <= 3;
  po_data_digest : 0 <= want_data_digest (login c) <= 3;
  po_max_burst : 0 <= max_burst_length (login c) < 2 ^ 32;
  po_first_burst : 0 <= first_burst_length c < 2 ^ 32;
  po_max_recv : 0 <= initiator_max_recv_data_segment_length (conn c) < 2 ^ 32;
  po_transport : transport (login c) <> ISER_TRANSPORT
}.

Lemma ctx_update (w : world) c (g : iscsi_context -> iscsi_context) :
  c = g (ctx w) -> (w <| ctx := c |>) = (w <| ctx ::= g |>).
Proof. by intros ->. Qed.

Lemma echo_run w : parameters_ok (ctx w) ->
  process_strings p (operational_strings (ctx w)) o w = Ret (inr o, w <| ctx ::= echoed |>).
Proof.
  intros [Hh Hd Hmb Hfb Hmr Ht]. unfold operational_strings. cbv zeta. rewrite (proj2 (Z.eqb_neq _ _) Ht), app_nil_r.
  rewrite (param_string 2 _ _ _ _ _ eq_refl). rewrite (param_string 3 _ _ _ _ _ eq_refl).
  rewrite (param_string 5 _ _ _ _ _ eq_refl). rewrite (param_string 6 _ _ _ _ _ eq_refl).
  rewrite (param_string 7 _ _ _ _ _ eq_refl). rewrite (param_string 4 _ _ _ _ _ eq_refl).
  do 7 (rewrite unknown_string by (vm_compute; reflexivity)). rewrite (param_string 8 _ _ _ _ _ eq_refl).
  do 2 (rewrite unknown_string by (vm_compute; reflexivity)). cbn [process_strings].
  unfold mret, M_ret. do 2 f_equal. rewrite !digest_of_text, !strtol_print_u32 by done.
  match goal with |- ?L = _ => change L with (w <| ctx := ctx L |>) end.
  apply ctx_update. clear Hh Hd Hmb Hfb Hmr Ht.
  unfold reply_initial_r2t, reply_immediate_data, echoed, yes_no.
  destruct (want_initial_r2t (login (ctx w)) =? ISCSI_INITIAL_R2T_NO); 
    destruct (want_immediate_data (login (ctx w)) =? ISCSI_IMMEDIATE_DATA_NO) eqn:Ei; cbn [negb].
  all: destruct w; destruct ctx; destruct login, conn.
  all: vm_compute in Ei |- *. all: destruct want_immediate_data; try discriminate Ei; reflexivity.
Qed.
End Echo.

(** ** The response to our challenge *)

Section Answers.
Context `{HashesLaws}.

Lemma responding_secneg w : responding w = true ->
  current_phase (login (ctx w)) = ISCSI_PDU_LOGIN_CSG_SECNEG /\
  secneg_phase (login (ctx w)) = ISCSI_LOGIN_SECNEG_PHASE_SEND_RESPONSE.
Proof. unfold responding. intros [E1%Z.eqb_eq E2%Z.eqb_eq]%andb_true_iff. done. Qed.

(** Starting a login changes phases only. *)
Lemma login_start_chap w : let l := login (ctx w) in let l' := login (ctx (login_start w)) in
  target_user l' = target_user l /\ chap_auth l' = chap_auth l /\ target_passwd l' = target_passwd l /\
  target_chap_r l' = target_chap_r l.
Proof.
  assert (Hp : forall l, let l' := request_phases l in target_user l' = target_user l /\ chap_auth l' = chap_auth l /\
    target_passwd l' = target_passwd l /\ target_chap_r l' = target_chap_r l).
  { intros l. unfold request_phases. destruct (user l); cbv zeta; by repeat case_match. }
  cbv zeta. unfold login_start. cbv zeta. destruct (first_request w); apply Hp.
Qed.

Lemma stepped_responding w : responding w = true -> target_user (login (ctx w)) <> [] -> stepped w = challenged w.
Proof. intros Hr Hu. unfold stepped, responded. rewrite Hr. by destruct (target_user _). Qed.

Lemma challenge_size w : Z.of_nat (length (challenge w)) = 2 * chap_r_size (chap_auth (login (ctx w))).
Proof.
  unfold challenge. rewrite (proj1 (draws_ok _ _ _)). unfold chap_r_size. by repeat case_match.
Qed.

Lemma challenge_in_request w c : responding w = true -> target_user (login (ctx w)) <> [] ->
  kv "CHAP_I=" (print_d (target_identifier w)) ∈ request_strings w c /\
  kv "CHAP_C=0x" (hex_text (challenge w)) ∈ request_strings w c.
Proof.
  intros [E1 E2]%responding_secneg Hu. unfold request_strings, negotiation_strings. cbv zeta. rewrite E1, E2.
  change (ISCSI_PDU_LOGIN_CSG_SECNEG =? ISCSI_PDU_LOGIN_CSG_OPNEG) with false.
  assert (Eo : own_challenge_strings w = challenge_strings w).
  { unfold own_challenge_strings. by destruct (target_user _). }
  rewrite Eo. split; apply elem_of_app; right; apply elem_of_app; right; apply elem_of_app; right; [by left|right; by left].
Qed.

Lemma answer_no_nul auth i pw ch : chap_known auth -> no_nul (hex_text (chap_answer auth i pw ch)).
Proof. intros Ha. apply hex_text_nonzero, hash_bytes. done. Qed.

(** The right response to a challenge is the hash the target can compute. *)
Lemma right_after_challenge w : chap_known (chap_auth (login (ctx w))) ->
  length (target_chap_r (login (ctx w))) = Z.to_nat MAX_CHAP_R_SIZE ->
  right_response (login (ctx (challenged w))) (hex_text (target_answer w)).
Proof.
  intros Ha Hl. set (auth := chap_auth (login (ctx w))) in *. pose proof (chap_size_cases auth Ha) as Hs.
  assert (Hn : length (target_answer w) = Z.to_nat (chap_r_size auth)) by (by apply length_answer).
  split; change (chap_auth (login (ctx (challenged w)))) with auth.
  - rewrite length_hex_text, Hn. lia.
  - rewrite hex_pairs_text by (by apply hash_bytes).
    change (target_chap_r (login (ctx (challenged w)))) with (blit (target_chap_r (login (ctx w))) 0 (target_answer w)).
    rewrite blit_whole by lia. rewrite <- Hn. symmetry. apply take_app_length.
Qed.

Lemma reply_start_same inp w : secneg_phase (login (ctx w)) = ISCSI_LOGIN_SECNEG_PHASE_SEND_RESPONSE ->
  reply_start inp w = w.
Proof. intros E. unfold reply_start, first_request. rewrite E. by rewrite !andb_false_r. Qed.
End Answers.

(** The text names the target and answers the challenge. *)
Definition authenticated (l : login_state) (text : bytes) : Prop :=
  exists strings v, split_strings (length text) text = Some strings /\
    kv "CHAP_N=" (target_user l) ∈ strings /\ kv "CHAP_R=0x" v ∈ strings /\ right_response l v.

Section Refused.
Context `{Hashes} `{Transport}.

(** A target that ends the security phase without the right CHAP_N and CHAP_R. *)
Lemma unauthenticated_run (w : world) (p f : nat) (pdu : iscsi_pdu) (inp : iscsi_in_pdu) (text : bytes)
  (Hp : pdus w !! p = Some pdu) (Hf : pdu_callback pdu = Some (Cb_user f))
  (Htext : received_text inp = Ret text)
  (Ht : truth (byte_at (hdr inp) 1 &&& ISCSI_PDU_LOGIN_TRANSIT) = true)
  (Hcsg : byte_at (hdr inp) 1 &&& ISCSI_PDU_LOGIN_CSG_FF = ISCSI_PDU_LOGIN_CSG_SECNEG)
  (Hu : target_user (login (ctx w)) <> []) (Hno : ~ authenticated (login (ctx w)) text) :
  exists rc w' st, iscsi_process_login_reply p inp w = Ret (rc, w') /\
    told w w' f pdu st /\ st <> SCSI_STATUS_GOOD.
Proof.
  rewrite (process_login_reply_eq w p inp text Htext). set (w0 := reply_start inp w).
  destruct (reply_start_negotiated inp w) as [N0 L0]. fold w0 in N0, L0.
  assert (Eo : owes inp w = true).
  { unfold owes. rewrite Ht, Hcsg, bool_decide_false by done. done. }
  rewrite Eo. assert (Hp0 : pdus w0 !! p = Some pdu) by (by rewrite (ng_pdus _ _ N0)).
  destruct (login_text_outcome p pdu f Hf (length text) (length text) text
      {| chap_n_owed := true; chap_r_owed := true |} w0 ltac:(done) ltac:(done) Hp0)
    as [(rc & w' & E & T)|(o & w1 & strings & E & N & El & [Pn Pr])].
  - unfold mbind, M_bind. rewrite E. exists rc, w', SCSI_STATUS_ERROR. split; [done|].
    split; [by apply (told_after w w0)|done].
  - run E. assert (Hp1 : pdus w1 !! p = Some pdu) by (by rewrite (ng_pdus _ _ N)).
    destruct (outcome_refused w1 p pdu f (scsi_get_uint16 (hdr inp) 36) (byte_at (hdr inp) 1) o Hp1 Hf) as (rc & w' & st & E' & T & Hst).
    { right. destruct (chap_n_owed o) eqn:E1; [by left|]. destruct (chap_r_owed o) eqn:E2; [by right|]. exfalso. apply Hno.
      destruct Pn as [?|Pn]; [done|]. destruct Pr as [?|(v & Pr & Hv)]; [done|]. rewrite L0 in Pn, Hv.
      by exists strings, v. }
    exists rc, w', st. split; [done|]. split; [|done]. apply (told_after w w1); [by etransitivity|done].
Qed.
End Refused.

(** ** Properties *)

Section ReplyProperties.
Context `{HashesLaws} `{Transport}.

(** C9: Mutual CHAP, from our request to the reply: in the step that sends our response,
    the one PDU queued is a request whose data segment splits at its NULs into the
    strings of the step, among them a CHAP_I and a CHAP_C whose bytes, twice as many as
    the digest has, are the next ones of rand(); a target that answers with its name and
    the hash of that identifier, the shared secret and that challenge is accepted, as
    long as the login state is as the request left it: the reply is processed exactly as
    the end of the step. *)
Theorem honest_target_accepted (w : world) (cb : option iscsi_command_cb) (private : Z) (c : bytes)
  (Hw : can_login w) (Hq : quiet w) (Hr : requestable (login_start w)) (Hs : login_step (login_start w) c)
  (Hlen : Z.of_nat (length (join_nul (request_strings (login_start w) c))) < 2 ^ 24)
  (Hresp : responding (login_start w) = true)
  (Hu : target_user (login (ctx w)) <> []) (Hun : no_nul (target_user (login (ctx w))))
  (Hbuf : length (target_chap_r (login (ctx w))) = Z.to_nat MAX_CHAP_R_SIZE) :
  let l := login (ctx w) in
  exists w1 pdu h text strings i ch, iscsi_login_async cb private w = Ret (0, w1) /\
    outqueue (ctx w1) = [fresh w] /\ pdus w1 = <[fresh w := pdu]> (pdus w) /\
    outdata_wf (Z.to_nat (ISCSI_HEADER_SIZE (header_digest (ctx w)))) (outdata pdu) h text /\
    byte_at h 0 = 0x43 /\ split_strings (length text) text = Some strings /\
    kv "CHAP_I=" (print_d i) ∈ strings /\ kv "CHAP_C=0x" (hex_text ch) ∈ strings /\
    Z.of_nat (length ch) = 2 * chap_r_size (chap_auth l) /\
    ch = draws (rand_seq (sys (login_start w))) (rand_n (sys (login_start w))) (length ch) /\
    forall w2 p inp, login (ctx w2) = login (ctx w1) -> scsi_get_uint16 (hdr inp) 36 = 0 ->
      received_text inp = Ret (join_nul [kv "CHAP_N=" (target_user l);
        kv "CHAP_R=0x" (hex_text (chap_answer (chap_auth l) i (target_passwd l) ch))]) ->
      iscsi_process_login_reply p inp w2 = login_step_done p (byte_at (hdr inp) 1) w2.
Proof.
  intros l. set (W := login_start w) in *.
  destruct (login_async_run w cb private c Hw Hq Hr Hs Hlen) as (w1 & pdu & m & r & E & [_ _ [_ (h & Hwf & _ & Hh)]] & C & P & _).
  fold W in C, Hwf, Hh. set (strings := request_strings W c) in *.
  destruct (login_start_chap w) as (Lu & La & Lp & Lr). fold W l in Lu, La, Lp, Lr. fold l in Hu, Hun, Hbuf.
  rewrite stepped_responding in C by (done || by rewrite Lu).
  assert (Hok : Forall text_ok strings) by (by apply request_strings_ok).
  destruct Hs as [_ Hchap]. destruct (Hchap Hresp) as [Hk _].
  exists w1, pdu, h, (join_nul strings), strings, (target_identifier W), (challenge W). split; [done|].
  split; [by rewrite C|]. split; [done|]. split.
  { replace (header_digest (ctx w)) with (header_digest (ctx W)); [done|].
    unfold W, login_start. cbv zeta. by destruct (first_request w). }
  split; [rewrite Hh by lia; apply login_header_fields|]. split; [by apply split_join, length_join_nul|].
  destruct (challenge_in_request W c Hresp ltac:(by rewrite Lu)) as [Hi Hc]. split; [done|]. split; [done|].
  split; [by rewrite <- La; apply challenge_size|].
  split; [unfold challenge; by rewrite (proj1 (draws_ok _ _ _))|].
  intros w2 p inp Hl2 Hst Htext. rewrite (process_login_reply_eq w2 p inp _ Htext), Hst.
  assert (El : login (ctx w2) = login (ctx (challenged W))) by (by rewrite Hl2, C).
  rewrite <- Lu, <- La, <- Lp in Htext |- *.
  set (v := hex_text _). assert (Hrr : right_response (login (ctx w2)) v).
  { rewrite El. apply right_after_challenge; [done|by rewrite Lr]. }
  rewrite (reply_start_same inp w2) by (rewrite El; apply responding_secneg in Hresp; apply Hresp).
  assert (Eu : target_user (login (ctx W)) = target_user (login (ctx w2))) by (by rewrite El).
  rewrite Eu. rewrite (bind_run _ _ _ _ _ (chap_reply_run w2 p v _ ltac:(rewrite <- Eu, Lu; done) ltac:(apply answer_no_nul; done) Hrr)).
  by apply outcome_accepted.
Qed.

End ReplyProperties.

(** A login whose CHAP response is due, with mutual CHAP. *)
Definition sample_mutual_login : login_state :=
  sample_login <| user := str "u" |> <| passwd := str "secret" |> <| target_user := str "t" |>
    <| target_passwd := str "hidden" |> <| chap_i := 3 |>
    <| chap_c ::= fun c => blit c 0 (str "0102") |>
    <| secneg_phase := ISCSI_LOGIN_SECNEG_PHASE_SEND_RESPONSE |>.

Definition sample_mutual_world : world :=
  sample_login_world <| ctx ::= fun c => c <| login := sample_mutual_login |> |>
    <| pdus := {[ 1%nat := (sample_pdu 0x43 5) <| pdu_callback := Some (Cb_user 8) |> ]} |> <| fresh := 2%nat |>.

(** A login response with some flags and text. *)
Definition sample_reply (flags : Z) (text : bytes) : iscsi_in_pdu := {|
  hdr_pos := 48; hdr := <[0%nat := 0x23]> (<[1%nat := flags]> (zeros 48));
  data_pos := Z.of_nat (length text); in_data := Some text; data_digest_buf := [];
  received_data_digest_bytes := 0; in_calculated_data_digest := 0
|}.

Lemma honest_target_accepted_witness :
  exists w1 pdu h text strings i ch,
    @iscsi_login_async libiscsi_hashes sample_transport (Some (Cb_user 8)) 0 sample_mutual_world = Ret (0, w1) /\
    pdus w1 !! 2%nat = Some pdu /\ outdata_wf 48 (outdata pdu) h text /\
    split_strings (length text) text = Some strings /\ kv "CHAP_C=0x" (hex_text ch) ∈ strings /\
    length ch = 32%nat /\
    forall w2 p inp, login (ctx w2) = login (ctx w1) -> scsi_get_uint16 (hdr inp) 36 = 0 ->
      received_text inp = Ret (join_nul [kv "CHAP_N=" (str "t");
        kv "CHAP_R=0x" (hex_text (chap_answer 5 i (str "hidden") ch))]) ->
      @iscsi_process_login_reply sample_transport libiscsi_hashes p inp w2 =
        @login_step_done sample_transport libiscsi_hashes p (byte_at (hdr inp) 1) w2.
Proof.
  destruct (@honest_target_accepted libiscsi_hashes libiscsi_hashes_laws sample_transport sample_mutual_world (Some (Cb_user 8)) 0 [1; 2])
    as (w1 & pdu & h & text & strings & i & ch & E & _ & P & Wf & _ & S & _ & Hc & L & _ & A).
  - split; [vm_compute; split; discriminate|reflexivity|by right|reflexivity|done|reflexivity].
  - left. reflexivity.
  - split; [by right|vm_compute; split; discriminate|vm_compute; split; discriminate|discriminate|vm_compute; lia|vm_compute; lia|vm_compute; lia| |].
    + repeat (constructor; [repeat constructor; discriminate|]). constructor.
    + repeat (constructor; [split; [apply (bool_decide_unpack _); vm_compute; exact I|vm_compute; discriminate]|]). constructor.
  - split; [right; split; [reflexivity|vm_compute; split; discriminate]|]. intros _. split; [by left|].
    split.
    { split; [apply (bool_decide_unpack _); vm_compute; exact I|vm_compute; discriminate]. }
    split; [discriminate|]. exists (zeros 2044). vm_compute. reflexivity.
  - vm_compute. reflexivity.
  - reflexivity.
  - discriminate.
  - repeat constructor; discriminate.
  - reflexivity.
  - exists w1, pdu, h, text, strings, i, ch. split; [exact E|]. split; [rewrite P; apply lookup_insert_eq|].
    split; [exact Wf|]. split; [exact S|]. split; [exact Hc|]. split; [|exact A]. change (Z.of_nat (length ch) = 32) in L. lia.
Defined.
