(* ===== verification/Discovery.v ===== *)
(** Discovery (src/lib/discovery.c): the SendTargets request, and the list of
    targets and portals that is built from the text of the reply, handed to the
    callback and freed.

    The names of the blocks of the list do not matter, so the list is a value;
    what is counted is every allocation and every release
    ([iscsi->mallocs] and [iscsi->frees]). *)

From S2P Require Import SList Prelude Bytes Crc32c Task Context Pdu Queue Complete Cancel Iovec Command Process Text Login LoginRequest LoginReply.

Definition ISCSI_PDU_TEXT_FINAL : Z := 0x80.

(** ** Operations *)

Section Discovery.
Context `{Transport}.

Definition iscsi_discovery_async (cb : option iscsi_command_cb) (private : Z) : IO Z :=
  itt ← iscsi_itt_post_increment;
  r ← iscsi_allocate_pdu ISCSI_PDU_TEXT_REQUEST ISCSI_PDU_TEXT_RESPONSE itt ISCSI_PDU_DROP_ON_RECONNECT;
  match r with
  | None => _ ← iscsi_set_error "Out-of-memory: Failed to allocate text pdu."; mret (-1)
  | Some p =>
      _ ← iscsi_pdu_set_immediate p;
      sn ← get_ctx cmdsn;
      _ ← iscsi_pdu_set_cmdsn p sn;
      _ ← iscsi_pdu_set_pduflags p ISCSI_PDU_TEXT_FINAL;
      _ ← iscsi_pdu_set_ttt p 0xffffffff;
      let s := str "SendTargets=All" ++ [0] in
      rc ← iscsi_pdu_add_data (Some p) s (Z.of_nat (length s));
      if negb (rc =? 0) then
        _ ← iscsi_set_error "Out-of-memory: pdu add data failed.";
        _ ← iscsi_tcp_free_pdu p;
        mret (-1)
      else
      _ ← set_pdu p (fun pdu => pdu <| pdu_callback := cb |> <| private_data := private |>);
      _ ← iscsi_queue_pdu p;
      mret 0
  end.

End Discovery.

Definition nonnull {A} (o : option A) : bool := match o with Some _ => true | None => false end.

Fixpoint free_portals (portals : list (option bytes)) : IO unit :=
  match portals with
  | [] => mret tt
  | portal :: portals =>
      _ ← iscsi_free (nonnull portal);
      _ ← iscsi_free true;
      free_portals portals
  end.

Fixpoint iscsi_free_discovery_addresses (addresses : list iscsi_discovery_address) : IO unit :=
  match addresses with
  | [] => mret tt
  | a :: next =>
      _ ← iscsi_free true;
      _ ← free_portals (da_portals a);
      _ ← iscsi_free true;
      iscsi_free_discovery_addresses next
  end.

(** An error that the callback is told; [inl rc] is [return rc]. *)
Definition discovery_failed (msg : string) (p : nat) (targets : list iscsi_discovery_address) :
    IO (Z + list iscsi_discovery_address) :=
  _ ← iscsi_set_error msg;
  _ ← call_callback p SCSI_STATUS_ERROR Data_none;
  _ ← iscsi_free_discovery_addresses targets;
  mret (inl (-1)).

(** "TargetName=" *)
Definition discovery_target (p : nat) (v : bytes) (targets : list iscsi_discovery_address) :
    IO (Z + list iscsi_discovery_address) :=
  target ← iscsi_zmalloc;
  if negb target then
    discovery_failed "Failed to allocate data for new discovered target" p targets
  else
  name ← iscsi_strdup v;
  match name with
  | None =>
      _ ← iscsi_set_error "Failed to allocate data for new discovered target name";
      _ ← call_callback p SCSI_STATUS_ERROR Data_none;
      _ ← iscsi_free true;
      _ ← iscsi_free_discovery_addresses targets;
      mret (inl (-1))
  | Some name => mret (inr ({| da_target_name := name; da_portals := [] |} :: targets))
  end.

(** "TargetAddress=" *)
Definition discovery_portal (p : nat) (v : bytes) (targets : list iscsi_discovery_address) :
    IO (Z + list iscsi_discovery_address) :=
  match targets with
  | [] => discovery_failed "Invalid discovery reply" p targets
  | target :: next =>
      ok ← iscsi_zmalloc;
      if negb ok then discovery_failed "Failed to malloc portal structure" p targets else
      portal ← iscsi_strdup v;
      let targets := (target <| da_portals ::= cons portal |>) :: next in
      match portal with
      | None => discovery_failed "Failed to allocate data for new discovered target address" p targets
      | Some _ => mret (inr targets)
      end
  end.

Definition discovery_string (p : nat) (s : bytes) (targets : list iscsi_discovery_address) :
    IO (Z + list iscsi_discovery_address) :=
  match strip (str "TargetName=") s with
  | Some v => discovery_target p v targets
  | None =>
      match strip (str "TargetAddress=") s with
      | Some v => discovery_portal p v targets
      | None => discovery_failed "Don't know how to handle discovery string : %s" p targets
      end
  end.

(** The loop over the strings; every turn but the last consumes one byte at
    least. *)
Fixpoint discovery_text (fuel : nat) (p : nat) (text : bytes) (targets : list iscsi_discovery_address) :
    IO (Z + list iscsi_discovery_address) :=
  match text with
  | [] => mret (inr targets)
  | _ =>
      match split_nul text with
      | None => discovery_failed "NUL not found after offset %ld when parsing discovery data" p targets
      | Some ([], _) => mret (inr targets)
      | Some (s, rest) =>
          r ← discovery_string p s targets;
          match r, fuel with
          | inl rc, _ => mret (inl rc)
          | inr targets, S fuel => discovery_text fuel p rest targets
          | inr _, O => undefined NoFuel
          end
      end
  end.

Definition iscsi_process_text_reply (p : nat) (inp : iscsi_in_pdu) : IO Z :=
  if negb (byte_at (hdr inp) 1 =? ISCSI_PDU_TEXT_FINAL) then
    _ ← iscsi_set_error "unsupported flags in text reply %02x";
    _ ← call_callback p SCSI_STATUS_ERROR Data_none;
    mret (-1)
  else
  text ← lift (received_text inp);
  r ← discovery_text (length text) p text [];
  match r with
  | inl rc => mret rc
  | inr targets =>
      _ ← call_callback p SCSI_STATUS_GOOD (Data_targets targets);
      _ ← iscsi_free_discovery_addresses targets;
      mret 0
  end.

(** * Lemmas *)

(** The blocks of a list of targets. *)
Definition portal_blocks (portals : list (option bytes)) : Z :=
  foldr (fun portal n => (if nonnull portal then 1 else 0) + 1 + n) 0 portals.
Definition blocks (targets : list iscsi_discovery_address) : Z :=
  foldr (fun a n => 2 + portal_blocks (da_portals a) + n) 0 targets.

(** Only the counters and the error message of the context change, and [d]
    more blocks are held. *)
Record holding (d : Z) (w w' : world) : Prop := {
  hd_held : mallocs (ctx w') - frees (ctx w') = mallocs (ctx w) - frees (ctx w) + d;
  hd_ctx : ctx w' = (ctx w) <| mallocs := mallocs (ctx w') |> <| frees := frees (ctx w') |> <| error_string := error_string (ctx w') |>;
  hd_pdus : pdus w' = pdus w;
  hd_oracle : alloc_ok w' = alloc_ok w;
  hd_mt : have_mt w' = have_mt w
}.

Lemma holding_refl w : holding 0 w w.
Proof. split; [lia| |done|done|done]. by destruct (ctx w). Qed.

Lemma holding_trans d1 d2 d w1 w2 w3 : holding d1 w1 w2 -> holding d2 w2 w3 -> d = d1 + d2 -> holding d w1 w3.
Proof.
  intros [A1 A2 A3 A4 A5] [B1 B2 B3 B4 B5] ->. split; [lia| |congruence|congruence|congruence].
  rewrite B2, A2. by destruct (ctx w1).
Qed.

Lemma freed_run b w : iscsi_free b w = Ret (tt, w <| ctx ::= fun c => c <| frees ::= Z.add (if b then 1 else 0) |> |>).
Proof. destruct b; [done|]. unfold iscsi_free, when, mret, M_ret. do 2 f_equal. by destruct w as [[]]. Qed.

Definition freeing (n : Z) (w : world) : world := w <| ctx ::= fun c => c <| frees ::= Z.add n |> |>.

Lemma freeing_freeing n m w : freeing n (freeing m w) = freeing (m + n) w.
Proof.
  destruct w as [[]]. unfold freeing, upd, eta, eta_world, eta_iscsi_context. cbn. by rewrite Z.add_assoc, (Z.add_comm n m).
Qed.

Lemma freeing_eq n m w : n = m -> Ret (tt, freeing n w) = Ret (tt, freeing m w).
Proof. by intros ->. Qed.

Lemma free_portals_run ps w : free_portals ps w = Ret (tt, freeing (portal_blocks ps) w).
Proof.
  revert w. induction ps as [|o ps IH]; intros w.
  { unfold freeing. cbn. unfold mret, M_ret. do 2 f_equal. by destruct w as [[]]. }
  cbn [free_portals]. run (freed_run (nonnull o) w). fold (freeing (if nonnull o then 1 else 0) w).
  set (w1 := freeing _ w). run (freed_run true w1). fold (freeing 1 w1). rewrite IH.
  unfold w1. rewrite !freeing_freeing. apply freeing_eq. unfold portal_blocks. cbn [foldr]. lia.
Qed.

Lemma free_addresses_run l w : iscsi_free_discovery_addresses l w = Ret (tt, freeing (blocks l) w).
Proof.
  revert w. induction l as [|a l IH]; intros w.
  { unfold freeing. cbn. unfold mret, M_ret. do 2 f_equal. by destruct w as [[]]. }
  cbn [iscsi_free_discovery_addresses]. run (freed_run true w). fold (freeing 1 w).
  run (free_portals_run (da_portals a) (freeing 1 w)). set (w1 := freeing _ (freeing 1 w)).
  run (freed_run true w1). fold (freeing 1 w1). rewrite IH. unfold w1. rewrite !freeing_freeing.
  apply freeing_eq. unfold blocks. cbn [foldr]. lia.
Qed.

Lemma freeing_holding n w : holding (- n) w (freeing n w).
Proof.
  split; try done.
  change (mallocs (ctx w) - (n + frees (ctx w)) = mallocs (ctx w) - frees (ctx w) + - n). lia.
Qed.

(** An allocation, whatever the oracle answers. *)
Lemma zmalloc_holding w : exists b w', iscsi_zmalloc w = Ret (b, w') /\ holding (if b then 1 else 0) w w' /\
  trace w' = trace w /\ (memory w -> b = true).
Proof.
  unfold iscsi_zmalloc, iscsi_malloc, malloc. destruct (alloc_ok w (alloc_n w)) eqn:E.
  - exists true, (w <| alloc_n ::= S |> <| ctx ::= fun c => c <| mallocs ::= Z.add 1 |> |>). split; [|split; [|done]].
    + unfold mbind, M_bind, getS, modify, mret, M_ret. by rewrite E.
    + split; try done. change (1 + mallocs (ctx w) - frees (ctx w) = mallocs (ctx w) - frees (ctx w) + 1). lia.
  - exists false, (w <| alloc_n ::= S |>). split; [|split; [|split; [done|intros Hm; by rewrite Hm in E]]].
    + unfold mbind, M_bind, getS, modify, mret, M_ret. by rewrite E.
    + split; try done; [|by destruct w as [[]]].
      change (mallocs (ctx w) - frees (ctx w) = mallocs (ctx w) - frees (ctx w) + 0). lia.
Qed.

Lemma strdup_holding s w : exists o w', iscsi_strdup s w = Ret (o, w') /\
  holding (if nonnull o then 1 else 0) w w' /\ trace w' = trace w /\ (o = None \/ o = Some s) /\ (memory w -> o = Some s).
Proof.
  destruct (zmalloc_holding w) as (b & w' & E & H & T & M). exists (if b then Some s else None), w'.
  split; [|split; [by destruct b|split; [done|split; [destruct b; [by right|by left]|intros Hm; by rewrite (M Hm)]]]].
  revert E. unfold iscsi_zmalloc, iscsi_malloc, iscsi_strdup.
  unfold mbind, M_bind, mret, M_ret. destruct (malloc w) as [[c v]|]; [|done]. destruct (when _ _ v) as [[u x]|]; [|done].
  by intros [= -> ->].
Qed.

Section Reply.
Context (p : nat) (pdu : iscsi_pdu) (f : nat) (Hf : pdu_callback pdu = Some (Cb_user f)).

Lemma callback_holding st data w : pdus w !! p = Some pdu ->
  exists w', call_callback p st data w = Ret (tt, w') /\ holding 0 w w' /\
    trace w' = trace w ++ [Ev_callback f st data (private_data pdu)].
Proof.
  intros Hp. unfold call_callback. run (get_pdu_run w p pdu Hp). rewrite Hf.
  eexists. split; [reflexivity|]. split; [|done]. destruct (holding_refl w). by split.
Qed.

(** The callback was told of an error, and [n] blocks were freed. *)
Definition gave_up (n : Z) (w w' : world) : Prop :=
  holding (- n) w w' /\ trace w' = trace w ++ [Ev_callback f SCSI_STATUS_ERROR Data_none (private_data pdu)].

Lemma gave_up_after d n m w w1 w2 : holding d w w1 -> trace w1 = trace w -> gave_up n w1 w2 -> m = n - d -> gave_up m w w2.
Proof.
  intros H1 T1 [H2 T2] ->. split; [by apply (holding_trans d (- n) _ w w1 w2); [| |lia]|]. by rewrite T2, T1.
Qed.

(** Tell the callback, then free blocks. *)
Lemma give_up_run (msg : string) (m : IO unit) n w : pdus w !! p = Some pdu ->
  (forall v, m v = Ret (tt, freeing n v)) ->
  exists w', (_ ← iscsi_set_error msg; _ ← call_callback p SCSI_STATUS_ERROR Data_none; _ ← m; mret (inl (-1)) :
    IO (Z + list iscsi_discovery_address)) w = Ret (inl (-1), w') /\ gave_up n w w'.
Proof.
  intros Hp Hm. set (w1 := w <| ctx ::= fun c => c <| error_string := msg |> |>).
  rewrite (bind_run _ _ _ tt w1) by done.
  assert (H1 : holding 0 w w1).
  { split; try done. change (mallocs (ctx w) - frees (ctx w) = mallocs (ctx w) - frees (ctx w) + 0). lia. }
  destruct (callback_holding SCSI_STATUS_ERROR Data_none w1 Hp) as (w2 & E2 & H2 & T2). run E2. run (Hm w2).
  exists (freeing n w2). split; [done|]. split; [|exact T2].
  apply (holding_trans 0 (- n) _ w w2 _); [by apply (holding_trans 0 0 _ w w1 w2)|apply freeing_holding|lia].
Qed.

Lemma discovery_failed_run msg targets w : pdus w !! p = Some pdu ->
  exists w', discovery_failed msg p targets w = Ret (inl (-1), w') /\ gave_up (blocks targets) w w'.
Proof. intros Hp. apply give_up_run; [done|]. intros v. apply free_addresses_run. Qed.

(** What a string does to a list of targets. *)
Definition string_done (targets : list iscsi_discovery_address) (w : world)
    (r : res ((Z + list iscsi_discovery_address) * world)) : Prop :=
  (exists w', r = Ret (inl (-1), w') /\ gave_up (blocks targets) w w') \/
  (exists targets' w', r = Ret (inr targets', w') /\ holding (blocks targets' - blocks targets) w w' /\ trace w' = trace w).

Lemma string_failed msg d targets targets' w w1 : holding d w w1 -> trace w1 = trace w -> pdus w !! p = Some pdu ->
  blocks targets = blocks targets' - d -> string_done targets w (discovery_failed msg p targets' w1).
Proof.
  intros H1 T1 Hp Hd. left.
  destruct (discovery_failed_run msg targets' w1) as (w' & E & G); [by rewrite (hd_pdus _ _ _ H1)|].
  exists w'. split; [done|]. by apply (gave_up_after d (blocks targets') _ w w1 w').
Qed.

Lemma target_done v targets w : pdus w !! p = Some pdu -> string_done targets w (discovery_target p v targets w).
Proof.
  intros Hp. unfold discovery_target. destruct (zmalloc_holding w) as (b & w1 & E1 & H1 & T1 & _). run E1.
  destruct b; cbn [negb]; [|by apply (string_failed _ 0 _ _ w w1); [| | |lia]].
  destruct (strdup_holding v w1) as (o & w2 & E2 & H2 & T2 & _ & _). run E2.
  assert (T : trace w2 = trace w) by congruence. destruct o as [name|].
  - right. eexists _, w2. split; [reflexivity|]. split; [|done].
    apply (holding_trans 1 1 _ w w1 w2); [done|done|]. unfold blocks. cbn. lia.
  - left. assert (H : holding 1 w w2) by (by apply (holding_trans 1 0 _ w w1 w2)).
    destruct (give_up_run "Failed to allocate data for new discovered target name"
        (_ ← iscsi_free true; iscsi_free_discovery_addresses targets) (1 + blocks targets) w2) as (w' & E' & G).
    + by rewrite (hd_pdus _ _ _ H).
    + intros u. run (freed_run true u). fold (freeing 1 u). by rewrite free_addresses_run, freeing_freeing.
    + exists w'. split; [|by apply (gave_up_after 1 (1 + blocks targets) _ w w2 w'); [| | |lia]]. rewrite <- E'.
      unfold mbind, M_bind. destruct (iscsi_set_error _ _) as [[[] ?]|]; [|done].
      destruct (call_callback _ _ _ _) as [[[] ?]|]; [|done]. by destruct (iscsi_free _ _) as [[[] ?]|].
Qed.

Lemma portal_done v targets w : pdus w !! p = Some pdu -> string_done targets w (discovery_portal p v targets w).
Proof.
  intros Hp. unfold discovery_portal. destruct targets as [|t next].
  { apply (string_failed _ 0 _ _ w w); [apply holding_refl|done|done|lia]. }
  destruct (zmalloc_holding w) as (b & w1 & E1 & H1 & T1 & _). run E1.
  destruct b; cbn [negb]; [|by apply (string_failed _ 0 _ _ w w1); [| | |lia]].
  destruct (strdup_holding v w1) as (o & w2 & E2 & H2 & T2 & _ & _). run E2. cbv zeta.
  assert (T : trace w2 = trace w) by congruence.
  set (targets' := (t <| da_portals ::= cons o |>) :: next).
  assert (Hb : blocks targets' = blocks (t :: next) + (1 + if nonnull o then 1 else 0)).
  { unfold targets', blocks. cbn [foldr]. change (da_portals (t <| da_portals ::= cons o |>)) with (o :: da_portals t).
    unfold portal_blocks. cbn [foldr]. lia. }
  assert (H : holding (1 + if nonnull o then 1 else 0) w w2) by (by apply (holding_trans 1 (if nonnull o then 1 else 0) _ w w1 w2)).
  destruct o as [portal|].
  - right. exists targets', w2. split; [done|]. split; [|done].
    apply (holding_trans _ 0 _ w w2 w2 H); [apply holding_refl|]. lia.
  - apply (string_failed _ _ _ targets' w w2 H); [done|done|]. lia.
Qed.

Lemma discovery_string_done s targets w : pdus w !! p = Some pdu -> string_done targets w (discovery_string p s targets w).
Proof.
  intros Hp. unfold discovery_string. destruct (strip _ s); [by apply target_done|].
  destruct (strip _ s); [by apply portal_done|]. apply (string_failed _ 0 _ _ w w); [apply holding_refl|done|done|lia].
Qed.

Lemma discovery_text_done fuel text targets w : (length text <= fuel)%nat -> pdus w !! p = Some pdu ->
  string_done targets w (discovery_text fuel p text targets w).
Proof.
  revert fuel targets w. induction text as [text IH] using (induction_ltof1 _ (@length Z)).
  intros fuel targets w Hl Hp. assert (Hdone : string_done targets w (Ret (inr targets, w))).
  { right. exists targets, w. split; [done|]. split; [|done]. replace (_ - _) with 0 by lia. apply holding_refl. }
  destruct text as [|b t]; [by destruct fuel|]. destruct fuel as [|fuel]; [cbn in Hl; lia|].
  cbn [discovery_text]. destruct (split_nul (b :: t)) as [[s r]|] eqn:En.
  2: { apply (string_failed _ 0 _ _ w w); [apply holding_refl|done|done|lia]. }
  assert (Hr : (length r <= length t)%nat).
  { destruct (split_nul_Some _ _ _ En) as [Et _]. apply (f_equal length) in Et. rewrite length_app in Et. cbn in Et. lia. }
  destruct s as [|a s]; [done|]. unfold mbind, M_bind.
  destruct (discovery_string_done (a :: s) targets w Hp) as [(w' & E & G)|(targets' & w1 & E & H1 & T1)]; rewrite E.
  { left. by exists w'. }
  assert (Hp1 : pdus w1 !! p = Some pdu) by (by rewrite (hd_pdus _ _ _ H1)). cbn in Hl.
  destruct (IH r ltac:(unfold ltof; cbn; lia) fuel targets' w1 ltac:(lia) Hp1) as [(w' & E' & G)|(l & w' & E' & H' & T')].
  - left. exists w'. split; [done|]. by apply (gave_up_after _ (blocks targets') _ w w1 w' H1); [| |lia].
  - right. exists l, w'. split; [done|]. split; [|congruence]. by apply (holding_trans _ _ _ w w1 w' H1 H'); lia.
Qed.
End Reply.

(** ** Well-formed replies *)

(** A list of targets with their portals, and its text. *)
Definition target_strings (t : bytes * list bytes) : list bytes :=
  kv "TargetName=" t.1 :: map (kv "TargetAddress=") t.2.

Definition targets_text (l : list (bytes * list bytes)) : bytes := join_nul (concat (map target_strings l)).

(** The list that is built: the last target, and of each the last portal,
    comes first. *)
Definition discovered (t : bytes * list bytes) : iscsi_discovery_address :=
  {| da_target_name := t.1; da_portals := rev (map Some t.2) |}.

(** The strings one after the other. *)
Fixpoint discovery_strings (p : nat) (l : list bytes) (targets : list iscsi_discovery_address) :
    IO (Z + list iscsi_discovery_address) :=
  match l with
  | [] => mret (inr targets)
  | s :: l =>
      r ← discovery_string p s targets;
      match r with inl rc => mret (inl rc) | inr targets => discovery_strings p l targets end
  end.

(** The padding of the data segment ends the text. *)
Lemma discovery_text_strings fuel p l pad targets w : Forall text_ok l -> (length (join_nul l) <= fuel)%nat ->
  discovery_text fuel p (join_nul l ++ zeros pad) targets w = discovery_strings p l targets w.
Proof.
  intros Hl. revert fuel targets w. induction Hl as [|s l [Hne Hs] Hl IH]; intros fuel targets w Hf.
  { by destruct fuel, pad. }
  assert (E : join_nul (s :: l) = s ++ 0 :: join_nul l) by (unfold join_nul; cbn [map concat]; by rewrite <- app_assoc).
  rewrite E in *. destruct s as [|a s]; [done|]. rewrite length_app in Hf. cbn in Hf. destruct fuel as [|fuel]; [lia|].
  rewrite <- app_assoc. cbn [app].
  assert (Es : split_nul ((a :: s) ++ 0 :: join_nul l ++ zeros pad) = Some (a :: s, join_nul l ++ zeros pad))
    by (by apply split_nul_app).
  cbn [app] in *. cbn [discovery_text discovery_strings]. rewrite Es. unfold mbind, M_bind.
  destruct (discovery_string _ _ _ _) as [[[rc|targets'] w']|]; try done. apply IH. lia.
Qed.

Lemma name_string p v targets w : memory w -> exists w', 
  discovery_string p (kv "TargetName=" v) targets w = Ret (inr ({| da_target_name := v; da_portals := [] |} :: targets), w') /\
  holding 2 w w' /\ trace w' = trace w.
Proof.
  intros Hm. unfold discovery_string, kv. rewrite strip_app. unfold discovery_target.
  destruct (zmalloc_holding w) as (b & w1 & E1 & H1 & T1 & M1). rewrite (M1 Hm) in *. run E1. cbn [negb].
  destruct (strdup_holding v w1) as (o & w2 & E2 & H2 & T2 & _ & M2).
  assert (Hm1 : memory w1) by (intros n; rewrite (hd_oracle _ _ _ H1); apply Hm). rewrite (M2 Hm1) in *. run E2.
  exists w2. split; [done|]. split; [by apply (holding_trans 1 1 _ w w1 w2)|congruence].
Qed.

Lemma address_string p v t targets w : memory w -> exists w',
  discovery_string p (kv "TargetAddress=" v) (t :: targets) w = Ret (inr ((t <| da_portals ::= cons (Some v) |>) :: targets), w') /\
  holding 2 w w' /\ trace w' = trace w.
Proof.
  intros Hm. unfold discovery_string, kv.
  assert (En : strip (str "TargetName=") (str "TargetAddress=" ++ v) = None).
  { apply (strip_clash (str "TargetAddress=")) with v; [reflexivity|apply strip_app]. }
  rewrite En, strip_app. unfold discovery_portal.
  destruct (zmalloc_holding w) as (b & w1 & E1 & H1 & T1 & M1). rewrite (M1 Hm) in *. run E1. cbn [negb].
  destruct (strdup_holding v w1) as (o & w2 & E2 & H2 & T2 & _ & M2).
  assert (Hm1 : memory w1) by (intros n; rewrite (hd_oracle _ _ _ H1); apply Hm). rewrite (M2 Hm1) in *. run E2.
  exists w2. split; [done|]. split; [by apply (holding_trans 1 1 _ w w1 w2)|congruence].
Qed.

(** Going on after a part of the strings. *)
Definition builds (p : nat) (l : list bytes) (targets targets' : list iscsi_discovery_address) : Prop :=
  forall rest w, memory w -> exists n w', holding n w w' /\ trace w' = trace w /\
    discovery_strings p (l ++ rest) targets w = discovery_strings p rest targets' w'.

Lemma memory_holding n w w' : holding n w w' -> memory w -> memory w'.
Proof. intros H Hm k. rewrite (hd_oracle _ _ _ H). apply Hm. Qed.

Lemma builds_app p l1 l2 t1 t2 t3 : builds p l1 t1 t2 -> builds p l2 t2 t3 -> builds p (l1 ++ l2) t1 t3.
Proof.
  intros B1 B2 rest w Hm. rewrite <- app_assoc. destruct (B1 (l2 ++ rest) w Hm) as (n1 & w1 & H1 & T1 & ->).
  destruct (B2 rest w1 (memory_holding _ _ _ H1 Hm)) as (n2 & w2 & H2 & T2 & ->).
  exists (n1 + n2), w2. split; [by apply (holding_trans n1 n2 _ w w1 w2)|]. split; [congruence|done].
Qed.

Lemma builds_one p s targets targets' : (forall w, memory w -> exists w',
    discovery_string p s targets w = Ret (inr targets', w') /\ holding 2 w w' /\ trace w' = trace w) ->
  builds p [s] targets targets'.
Proof.
  intros Hs rest w Hm. destruct (Hs w Hm) as (w' & E & H & T). exists 2, w'. do 2 (split; [done|]).
  cbn [app discovery_strings]. by run E.
Qed.

Lemma builds_portals p n ps done_ps targets :
  builds p (map (kv "TargetAddress=") ps) ({| da_target_name := n; da_portals := done_ps |} :: targets)
    ({| da_target_name := n; da_portals := rev (map Some ps) ++ done_ps |} :: targets).
Proof.
  revert done_ps. induction ps as [|v ps IH]; intros done_ps.
  { intros rest w _. exists 0, w. split; [apply holding_refl|done]. }
  cbn [map]. change (kv "TargetAddress=" v :: map (kv "TargetAddress=") ps) with ([kv "TargetAddress=" v] ++ map (kv "TargetAddress=") ps).
  eapply builds_app; [apply builds_one; intros w Hm; by apply address_string|].
  cbn [rev]. rewrite <- app_assoc. apply IH.
Qed.

Lemma builds_targets p l targets :
  builds p (concat (map target_strings l)) targets (rev (map discovered l) ++ targets).
Proof.
  revert targets. induction l as [|[n ps] l IH]; intros targets.
  { intros rest w _. exists 0, w. split; [apply holding_refl|done]. }
  cbn [map concat rev]. eapply builds_app; [|rewrite <- app_assoc; apply IH].
  change (target_strings (n, ps)) with ([kv "TargetName=" n] ++ map (kv "TargetAddress=") ps).
  eapply builds_app; [apply builds_one; intros w Hm; by apply name_string|].
  pose proof (builds_portals p n ps [] targets) as B. by rewrite app_nil_r in B.
Qed.

Lemma target_strings_ok l : Forall (fun t => no_nul t.1 /\ Forall no_nul t.2) l -> Forall text_ok (concat (map target_strings l)).
Proof.
  induction 1 as [|[n ps] l [Hn Hps] _ IH]; [constructor|]. cbn [map concat]. apply Forall_app. split; [|done].
  constructor; [apply kv_text_ok; [split; [discriminate|by apply str_no_nul]|done]|].
  apply Forall_map. eapply Forall_impl; [exact Hps|]. intros v Hv.
  apply kv_text_ok; [split; [discriminate|by apply str_no_nul]|done].
Qed.

(** ** Properties *)

(** C23: Whatever bytes a target sends as the answer to SendTargets, and whichever
    allocations fail while they are read, the reply is processed with exactly one
    callback - GOOD with the list that was built, or ERROR with nothing - and every
    block allocated on the way is freed again: the balance of [mallocs] and [frees] is
    what it was, and no PDU is touched. *)
Theorem text_reply_once_without_leak (w : world) (p f : nat) (pdu : iscsi_pdu) (inp : iscsi_in_pdu) (text : bytes)
  (Hp : pdus w !! p = Some pdu) (Hf : pdu_callback pdu = Some (Cb_user f)) (Htext : received_text inp = Ret text) :
  exists w' rc st data, iscsi_process_text_reply p inp w = Ret (rc, w') /\
    trace w' = trace w ++ [Ev_callback f st data (private_data pdu)] /\
    (rc = 0 /\ st = SCSI_STATUS_GOOD /\ (exists targets, data = Data_targets targets) \/
     rc = -1 /\ st = SCSI_STATUS_ERROR /\ data = Data_none) /\
    mallocs (ctx w') - frees (ctx w') = mallocs (ctx w) - frees (ctx w) /\
    outqueue (ctx w') = outqueue (ctx w) /\ waitpdu (ctx w') = waitpdu (ctx w) /\ pdus w' = pdus w.
Proof.
  enough (exists w' rc st data, iscsi_process_text_reply p inp w = Ret (rc, w') /\ holding 0 w w' /\
    trace w' = trace w ++ [Ev_callback f st data (private_data pdu)] /\
    (rc = 0 /\ st = SCSI_STATUS_GOOD /\ (exists targets, data = Data_targets targets) \/
     rc = -1 /\ st = SCSI_STATUS_ERROR /\ data = Data_none)) as (w' & rc & st & data & E & H & T & R).
  { exists w', rc, st, data. destruct H as [H1 H2 H3 _ _]. rewrite H2. do 3 (split; [done|]). split; [|done].
    change (mallocs (ctx w') - frees (ctx w') = mallocs (ctx w) - frees (ctx w)). lia. }
  unfold iscsi_process_text_reply. destruct (negb _).
  - destruct (give_up_run p pdu f Hf "unsupported flags in text reply %02x" (mret tt) 0 w Hp) as (w' & E & H & T).
    { intros v. unfold mret, M_ret, freeing. do 2 f_equal. by destruct v as [[] ? ? ? ? ? ? ? ? ? ? ?]. }
    exists w', (-1), SCSI_STATUS_ERROR, Data_none. split; [|by split; [|split; [|by right]]].
    revert E. unfold mbind, M_bind. destruct (iscsi_set_error _ _) as [[[] ?]|]; [|done].
    destruct (call_callback _ _ _ _) as [[[] ?]|]; [|done]. unfold mret, M_ret. congruence.
  - rewrite Htext. rewrite (bind_run _ _ _ text w) by done.
    destruct (discovery_text_done p pdu f Hf (length text) text [] w ltac:(done) Hp)
      as [(w' & E & [H T])|(targets & w1 & E & H1 & T1)]; run E.
    + exists w', (-1), SCSI_STATUS_ERROR, Data_none. split; [done|]. split; [done|]. split; [done|by right].
    + destruct (callback_holding p pdu f Hf SCSI_STATUS_GOOD (Data_targets targets) w1) as (w2 & E2 & H2 & T2).
      { by rewrite (hd_pdus _ _ _ H1). }
      run E2. run (free_addresses_run targets w2).
      exists (freeing (blocks targets) w2), 0, SCSI_STATUS_GOOD, (Data_targets targets). split; [done|].
      split; [|split; [rewrite <- T1; exact T2|left; by eauto]].
      apply (holding_trans _ _ _ w w1 _ H1 (holding_trans _ _ _ w1 w2 _ H2 (freeing_holding (blocks targets) w2) eq_refl)).
      change (blocks []) with 0. lia.
Qed.

(** The reply, with padding behind the text, and what it leaves as it was. *)
Lemma listed_targets (w : world) (p f : nat) (pdu : iscsi_pdu) (inp : iscsi_in_pdu) (l : list (bytes * list bytes)) (pad : nat)
  (Hp : pdus w !! p = Some pdu) (Hf : pdu_callback pdu = Some (Cb_user f)) (Hm : memory w)
  (Hl : Forall (fun t => no_nul t.1 /\ Forall no_nul t.2) l) (Hflags : byte_at (hdr inp) 1 = ISCSI_PDU_TEXT_FINAL)
  (Htext : received_text inp = Ret (targets_text l ++ zeros pad)) :
  exists w' n, iscsi_process_text_reply p inp w = Ret (0, w') /\
    trace w' = trace w ++ [Ev_callback f SCSI_STATUS_GOOD (Data_targets (rev (map discovered l))) (private_data pdu)] /\
    holding n w w'.
Proof.
  unfold iscsi_process_text_reply. rewrite Hflags, Htext. change (negb (ISCSI_PDU_TEXT_FINAL =? ISCSI_PDU_TEXT_FINAL)) with false. cbv iota.
  rewrite (bind_run _ _ _ (targets_text l ++ zeros pad) w) by done. unfold targets_text.
  destruct (builds_targets p l [] [] w Hm) as (n & w1 & H1 & T1 & E1). rewrite app_nil_r in E1.
  rewrite (bind_run _ _ _ (inr (rev (map discovered l))) w1).
  - destruct (callback_holding p pdu f Hf SCSI_STATUS_GOOD (Data_targets (rev (map discovered l))) w1) as (w2 & E2 & H2 & T2).
    { by rewrite (hd_pdus _ _ _ H1). }
    run E2. run (free_addresses_run (rev (map discovered l)) w2).
    eexists _, _. split; [done|]. split; [rewrite <- T1; exact T2|].
    exact (holding_trans _ _ _ w w1 _ H1 (holding_trans _ _ _ w1 w2 _ H2 (freeing_holding _ w2) eq_refl) eq_refl).
  - rewrite discovery_text_strings; [|by apply target_strings_ok|rewrite length_app; lia]. rewrite E1. cbn [discovery_strings].
    unfold mret, M_ret. by rewrite app_nil_r.
Qed.

(** C24: A reply that lists targets, each with its portals, is handed to the callback as
    that list - the targets, and the portals of each, in reverse order - for all names
    and any number of them. *)
Theorem discovered_targets (w : world) (p f : nat) (pdu : iscsi_pdu) (inp : iscsi_in_pdu) (l : list (bytes * list bytes))
  (Hp : pdus w !! p = Some pdu) (Hf : pdu_callback pdu = Some (Cb_user f)) (Hm : memory w)
  (Hl : Forall (fun t => no_nul t.1 /\ Forall no_nul t.2) l) (Hflags : byte_at (hdr inp) 1 = ISCSI_PDU_TEXT_FINAL)
  (Htext : received_text inp = Ret (targets_text l)) :
  exists w', iscsi_process_text_reply p inp w = Ret (0, w') /\
    trace w' = trace w ++ [Ev_callback f SCSI_STATUS_GOOD (Data_targets (rev (map discovered l))) (private_data pdu)].
Proof.
  destruct (listed_targets w p f pdu inp l 0 Hp Hf Hm Hl Hflags) as (w' & _ & E & T & _); [by rewrite app_nil_r|].
  by exists w'.
Qed.

(** ** Witnesses *)

Definition sample_text_pdu : iscsi_pdu := (sample_pdu 0x44 5) <| pdu_callback := Some (Cb_user 8) |>.
Definition sample_discovery_world : world :=
  sample_world <| pdus := {[ 1%nat := sample_text_pdu ]} |> <| fresh := 2%nat |>.
Definition sample_text_reply (text : bytes) : iscsi_in_pdu := (sample_reply 0x80 text) <| hdr ::= <[0%nat := 0x24]> |>.

Definition sample_targets : list (bytes * list bytes) :=
  [(str "iqn.a", [str "10.0.0.1:3260,1"; str "10.0.0.2:3260,1"]); (str "iqn.b", [])].

(** The fourth allocation fails. *)
Lemma text_reply_once_without_leak_witness :
  exists w' rc st data, iscsi_process_text_reply 1 (sample_text_reply (targets_text sample_targets))
      (sample_discovery_world <| alloc_ok := fun n => negb (n =? 3)%nat |>) = Ret (rc, w') /\
    trace w' = [Ev_callback 8 st data 0] /\ mallocs (ctx w') - frees (ctx w') = 0.
Proof.
  destruct (text_reply_once_without_leak (sample_discovery_world <| alloc_ok := fun n => negb (n =? 3)%nat |>) 1 8 sample_text_pdu
    (sample_text_reply (targets_text sample_targets)) (targets_text sample_targets)) as (w' & rc & st & data & E & T & _ & B & _).
  - reflexivity.
  - reflexivity.
  - vm_compute. reflexivity.
  - exists w', rc, st, data. split; [exact E|]. split; [exact T|exact B].
Defined.

Lemma discovered_targets_witness :
  exists w', iscsi_process_text_reply 1 (sample_text_reply (targets_text sample_targets)) sample_discovery_world = Ret (0, w') /\
    trace w' = [Ev_callback 8 SCSI_STATUS_GOOD (Data_targets
      [{| da_target_name := str "iqn.b"; da_portals := [] |};
       {| da_target_name := str "iqn.a"; da_portals := [Some (str "10.0.0.2:3260,1"); Some (str "10.0.0.1:3260,1")] |}]) 0].
Proof.
  destruct (discovered_targets sample_discovery_world 1 8 sample_text_pdu (sample_text_reply (targets_text sample_targets)) sample_targets)
    as (w' & E & T).
  - reflexivity.
  - reflexivity.
  - done.
  - repeat constructor; discriminate.
  - reflexivity.
  - vm_compute. reflexivity.
  - exists w'. split; [exact E|exact T].
Defined.
