(* ===== verification/Negotiate.v ===== *)
(** The negotiation replies behind the dispatch: [Login] and [Discovery]
    implement the interface [Negotiation] of [Process], and what a login
    response does from [iscsi_process_pdu] to the callback. *)

From S2P Require Import SList Prelude Hash Hashes Bytes Crc32c Task Context Pdu Queue Complete Cancel Iovec Command Process Text Login LoginRequest LoginReply Discovery.

(** The two replies of the code. *)
#[export] Instance negotiation `{Hashes} `{Transport} : Negotiation := {|
  Process.iscsi_process_login_reply := Login.iscsi_process_login_reply;
  Process.iscsi_process_text_reply := Discovery.iscsi_process_text_reply
|}.

(** ** From the dispatch to the handler and back *)

Section Answers.
Context `{Hashes} `{Transport}.

Lemma after_serials_session w inp : unlocked w ->
  same_session w (after_serials inp w) /\ have_mt (after_serials inp w) = have_mt w.
Proof.
  intros Hl. pose proof (serials_run w inp Hl) as E. cbv zeta in E. unfold after_serials. rewrite E.
  by destruct (_ && truth _).
Qed.

(** The handler of an answer leaves the PDU waiting; it is ended then. *)
Lemma answer_run w p pdu inp op q1 q2 rc w2 h msg : unlocked w -> accepted w inp ->
  byte_at (hdr inp) 0 &&& 0x3f = op -> awaits w p pdu (scsi_get_uint32 (hdr inp) 16) q1 q2 ->
  response_opcode pdu = op -> op = ISCSI_PDU_LOGIN_RESPONSE \/ op = ISCSI_PDU_TEXT_RESPONSE ->
  process_reply op p inp = Some ((rc ← h; mret (rc, true) : IO (Z * bool)), msg) ->
  h (after_serials inp w) = Ret (rc, w2) -> unlocked w2 -> pdus w2 = pdus w -> waitpdu (ctx w2) = waitpdu (ctx w) ->
  exists w', iscsi_process_pdu inp w = Ret (if rc =? 0 then 0 else -1, w') /\ ended w2 w' p q1 q2.
Proof.
  intros Hl Hacc Hop Haw Hresp Hcase Hh E2 Hl2 P2 W2.
  rewrite (process_pdu_accepted w inp op _ Hl Hacc Hop eq_refl) by (destruct Hcase as [-> | ->]; discriminate).
  destruct (after_serials_run w inp Hl) as (_ & Hl1 & P & _).
  pose proof (awaits_serials _ _ _ _ _ _ inp Hl Haw) as Haw1. set (w1 := after_serials inp w) in *.
  unfold process_answer. run (find_waiting_run w1 p pdu _ q1 q2 Hl1 Haw1).
  run (get_pdu_run w1 p pdu (aw_pdu _ _ _ _ _ _ Haw1)). rewrite Hresp.
  assert (Eop : op =? expected_opcode op op = true) by (by destruct Hcase as [-> | ->]).
  rewrite Eop. cbn [negb]. rewrite Hh.
  assert (E2' : (rc ← h; mret (rc, true) : IO (Z * bool)) w1 = Ret ((rc, true), w2)) by by run E2.
  run E2'. assert (Haw2 : awaits w2 p pdu (scsi_get_uint32 (hdr inp) 16) q1 q2).
  { destruct Haw. split; rewrite ?P2, ?W2; done. }
  destruct (rc =? 0); cbn [negb].
  - destruct (finish_waiting_run w2 p pdu _ q1 q2 Hl2 Haw2) as (w3 & E3 & H3). run E3. by exists w3.
  - destruct (drop_waiting_run w2 p pdu _ q1 q2 Hl2 Haw2) as (w3 & E3 & [Eq Eo Ep Et Er El Es Ea]). run E3.
    eexists. split; [reflexivity|]. by split.
Qed.

Lemma login_answer_run w p pdu inp q1 q2 rc w2 : unlocked w -> accepted w inp ->
  byte_at (hdr inp) 0 &&& 0x3f = ISCSI_PDU_LOGIN_RESPONSE ->
  awaits w p pdu (scsi_get_uint32 (hdr inp) 16) q1 q2 -> response_opcode pdu = ISCSI_PDU_LOGIN_RESPONSE ->
  Login.iscsi_process_login_reply p inp (after_serials inp w) = Ret (rc, w2) -> unlocked w2 ->
  pdus w2 = pdus w -> waitpdu (ctx w2) = waitpdu (ctx w) ->
  exists w', iscsi_process_pdu inp w = Ret (if rc =? 0 then 0 else -1, w') /\ ended w2 w' p q1 q2.
Proof.
  intros Hl Hacc Hop Haw Hresp E2. apply (answer_run _ _ _ _ ISCSI_PDU_LOGIN_RESPONSE q1 q2 rc w2 (Login.iscsi_process_login_reply p inp) "iscsi login reply failed"%string Hl Hacc Hop Haw Hresp);
    [by left|reflexivity|exact E2].
Qed.

(** The last response, of which the text changes the context by [g]: login
    ends in the world [logged_in]. *)
Record last_response (inp : iscsi_in_pdu) : Prop := {
  lr_opcode : byte_at (hdr inp) 0 &&& 0x3f = ISCSI_PDU_LOGIN_RESPONSE;
  lr_status : scsi_get_uint16 (hdr inp) 36 = 0;
  lr_transit : truth (byte_at (hdr inp) 1 &&& ISCSI_PDU_LOGIN_TRANSIT) = true;
  lr_csg : byte_at (hdr inp) 1 &&& ISCSI_PDU_LOGIN_CSG_FF <> ISCSI_PDU_LOGIN_CSG_SECNEG;
  lr_nsg : byte_at (hdr inp) 1 &&& ISCSI_PDU_LOGIN_NSG_FF = ISCSI_PDU_LOGIN_NSG_FF
}.

Lemma reply_start_session w inp : same_session w (reply_start inp w) /\ pdus (reply_start inp w) = pdus w /\
  iscsi_lock (ctx (reply_start inp w)) = iscsi_lock (ctx w) /\ trace (reply_start inp w) = trace w /\
  waitpdu (ctx (reply_start inp w)) = waitpdu (ctx w) /\ outqueue (ctx (reply_start inp w)) = outqueue (ctx w).
Proof. unfold reply_start. by destruct (_ && _). Qed.

Lemma last_answer_run w p pdu f inp text g : pdus w !! p = Some pdu -> pdu_callback pdu = Some (Cb_user f) ->
  unlocked w -> 0 <= itt (ctx w) < 0xffffffff -> received_text inp = Ret text -> last_response inp ->
  (forall o, login_text (length text) p text o (reply_start inp w) = Ret (inr o, (reply_start inp w) <| ctx ::= g |>)) ->
  (forall c, iscsi_lock (g c) = iscsi_lock c /\ itt (g c) = itt c) ->
  Login.iscsi_process_login_reply p inp w = Ret (0, logged_in ((reply_start inp w) <| ctx ::= g |>) pdu f).
Proof.
  intros Hp Hf Hl Hi Htext [_ Hst Ht Hcsg Hnsg] Hrun Hg. rewrite (process_login_reply_eq w p inp text Htext), Hst.
  assert (Eo : owes inp w = false).
  { unfold owes. rewrite (proj2 (Z.eqb_neq _ _) Hcsg). by rewrite andb_false_r. }
  rewrite Eo. run (Hrun {| chap_n_owed := false; chap_r_owed := false |}). rewrite outcome_accepted by done.
  destruct (reply_start_session w inp) as (S & E1 & E2 & _).
  assert (E3 : itt (ctx (reply_start inp w)) = itt (ctx w)) by exact (f_equal itt S).
  destruct (Hg (ctx (reply_start inp w))) as [G1 G2]. set (w0 := reply_start inp w) in *.
  apply last_step_run; try done.
  - change (pdus w0 !! p = Some pdu). by rewrite E1.
  - unfold unlocked. change (iscsi_lock (g (ctx w0)) = false). by rewrite G1, E2.
  - change (0 <= itt (g (ctx w0)) < 0xffffffff). by rewrite G2, E3.
Qed.

(** A text that changes parameters of the context only. *)
Record sets_parameters (p : nat) (text : bytes) (w : world) (g : iscsi_context -> iscsi_context) : Prop := {
  sp_run : forall v o, same_session w v -> login_text (length text) p text o v = Ret (inr o, v <| ctx ::= g |>);
  sp_frame : forall c, iscsi_lock (g c) = iscsi_lock c /\ itt (g c) = itt c /\ waitpdu (g c) = waitpdu c /\
    outqueue (g c) = outqueue c;
  sp_session : forall c c', session_of c = session_of c' -> session_of (g c) = session_of (g c')
}.

(** The session after the last response. *)
Definition session_up (g : iscsi_context -> iscsi_context) (c : iscsi_context) : iscsi_context :=
  let c := g c in
  session_of (c <| login ::= fun l => l <| current_phase := 12 |> |> <| is_loggedin := true |>
         <| itt := (itt c + 1) mod 0xffffffff |> <| header_digest := want_header_digest (login c) |>
         <| data_digest := want_data_digest (login c) |>).

Lemma session_up_same g c c' : session_of (g c) = session_of (g c') -> session_up g c = session_up g c'.
Proof.
  unfold session_up. destruct (g c), (g c'). intros E. vm_compute in E. injection E. intros. subst. reflexivity.
Qed.

Lemma last_response_run w p pdu f inp q1 q2 text g : unlocked w -> accepted w inp -> last_response inp ->
  awaits w p pdu (scsi_get_uint32 (hdr inp) 16) q1 q2 -> response_opcode pdu = ISCSI_PDU_LOGIN_RESPONSE ->
  pdu_callback pdu = Some (Cb_user f) -> 0 <= itt (ctx w) < 0xffffffff -> received_text inp = Ret text ->
  sets_parameters p text w g ->
  exists w', iscsi_process_pdu inp w = Ret (0, w') /\
    trace w' = trace w ++ [Ev_callback f SCSI_STATUS_GOOD Data_none (private_data pdu)] /\
    session_of (ctx w') = session_up g (ctx w) /\
    waitpdu (ctx w') = q1 ++ q2 /\ pdus w' = delete p (pdus w).
Proof.
  intros Hl Hacc Hlast Haw Hresp Hf Hi Htext [Hrun Hfr Hg].
  destruct (after_serials_run w inp Hl) as (_ & Hl1 & P1 & _ & T1 & W1 & O1 & _).
  destruct (after_serials_session w inp Hl) as [S1 _]. set (w1 := after_serials inp w) in *.
  destruct (reply_start_session w1 inp) as (S0 & E1 & E2 & E3 & E4 & E5). set (w0 := reply_start inp w1) in *.
  assert (S : same_session w w0) by (unfold same_session; congruence).
  assert (E : Login.iscsi_process_login_reply p inp w1 = Ret (0, logged_in (w0 <| ctx ::= g |>) pdu f)).
  { apply (last_answer_run w1 p pdu f inp text g); try done.
    - rewrite P1. apply Haw.
    - assert (Ei : itt (ctx w1) = itt (ctx w)) by exact (f_equal itt S1). by rewrite Ei.
    - intros o. by apply Hrun.
    - intros c. destruct (Hfr c) as (G1 & G2 & _). done. }
  destruct (Hfr (ctx w0)) as (G1 & G2 & G3 & G4).
  destruct (login_answer_run w p pdu inp q1 q2 0 _ Hl Hacc (lr_opcode _ Hlast) Haw Hresp E) as (w3 & E6 & [Q1 Q2 Q3 _ Q5 _ Q7]).
  - unfold unlocked. change (iscsi_lock (g (ctx w0)) = false). by rewrite G1, E2.
  - change (pdus w0 = pdus w). by rewrite E1.
  - change (waitpdu (g (ctx w0)) = waitpdu (ctx w)). by rewrite G3, E4.
  - exists w3. split; [exact E6|]. split; [|split; [|split; [done|]]].
    + rewrite Q5. change (trace w0 ++ [Ev_callback f SCSI_STATUS_GOOD Data_none (private_data pdu)] =
        trace w ++ [Ev_callback f SCSI_STATUS_GOOD Data_none (private_data pdu)]). by rewrite E3, T1.
    + transitivity (session_up g (ctx w0)); [exact Q7|]. apply session_up_same, Hg. exact S.
    + rewrite Q3. change (delete p (pdus w0) = delete p (pdus w)). by rewrite E1, P1.
Qed.

(** No text, and the echoed operational keys. *)
Lemma no_text_sets p w : sets_parameters p [] w id.
Proof.
  split; [|done|done]. intros v o _. change (@length Z []) with 0%nat. cbn [login_text]. unfold mret, M_ret. by destruct v.
Qed.

Lemma echo_sets p w : parameters_ok (ctx w) -> sets_parameters p (join_nul (operational_strings (ctx w))) w echoed.
Proof.
  intros Hok. assert (Hsame : forall v, same_session w v -> parameters_ok (ctx v) /\ operational_strings (ctx v) = operational_strings (ctx w)).
  { intros v S. pose proof (f_equal login S) as S1. pose proof (f_equal conn S) as S2. pose proof (f_equal first_burst_length S) as S3.
    change (login (ctx v) = login (ctx w)) in S1. change (conn (ctx v) = conn (ctx w)) in S2.
    change (first_burst_length (ctx v) = first_burst_length (ctx w)) in S3. pose proof (f_equal target_max_recv_data_segment_length S) as S4.
    change (target_max_recv_data_segment_length (ctx v) = target_max_recv_data_segment_length (ctx w)) in S4.
    split; [destruct Hok; split; rewrite ?S1, ?S2, ?S3; done|].
    unfold operational_strings. by rewrite S1, S2, S3, S4. }
  split; [|done|].
  - intros v o S. destruct (Hsame v S) as [Hv Ev]. rewrite <- Ev.
    rewrite (login_text_run _ (length (join_nul (operational_strings (ctx v)))) p _ (operational_strings (ctx v))); [by apply echo_run|done|].
    apply split_join; [apply operational_strings_ok|apply length_join_nul].
  - intros c c' E. destruct c, c'. vm_compute in E |- *. injection E. intros. subst. reflexivity.
Qed.
End Answers.

(** ** Properties *)

Section NegotiateProperties.
Context `{Hashes} `{Transport}.

(** C8: With mutual CHAP, a Login Response that ends the security phase (T bit, CSG 0)
    without the right CHAP_N and the response to our challenge gets nowhere, whatever
    else it says: the callback of the login is called exactly once, with a status other
    than GOOD, the session is not logged in, no further request is queued, and the login
    PDU is unlinked and freed. *)
Theorem unauthenticated_target_refused (w : world) (p f : nat) (pdu : iscsi_pdu) (inp : iscsi_in_pdu)
  (q1 q2 : list nat) (text : bytes) (Hl : unlocked w) (Hacc : accepted w inp)
  (Hop : byte_at (hdr inp) 0 &&& 0x3f = ISCSI_PDU_LOGIN_RESPONSE)
  (Haw : awaits w p pdu (scsi_get_uint32 (hdr inp) 16) q1 q2)
  (Hresp : response_opcode pdu = ISCSI_PDU_LOGIN_RESPONSE) (Hf : pdu_callback pdu = Some (Cb_user f))
  (Htext : received_text inp = Ret text)
  (Ht : truth (byte_at (hdr inp) 1 &&& ISCSI_PDU_LOGIN_TRANSIT) = true)
  (Hcsg : byte_at (hdr inp) 1 &&& ISCSI_PDU_LOGIN_CSG_FF = ISCSI_PDU_LOGIN_CSG_SECNEG)
  (Hu : target_user (login (ctx w)) <> []) (Hno : ~ authenticated (login (ctx w)) text) :
  exists rc w' st, iscsi_process_pdu inp w = Ret (rc, w') /\
    trace w' = trace w ++ [Ev_callback f st Data_none (private_data pdu)] /\ st <> SCSI_STATUS_GOOD /\
    is_loggedin (ctx w') = is_loggedin (ctx w) /\ outqueue (ctx w') = outqueue (ctx w) /\
    waitpdu (ctx w') = q1 ++ q2 /\ pdus w' = delete p (pdus w).
Proof.
  destruct (after_serials_run w inp Hl) as (_ & Hl1 & P1 & _ & T1 & W1 & O1 & _).
  destruct (after_serials_session w inp Hl) as [S _]. set (w1 := after_serials inp w) in *.
  assert (S1 : is_loggedin (ctx w1) = is_loggedin (ctx w)) by exact (f_equal is_loggedin S).
  assert (S2 : login (ctx w1) = login (ctx w)) by exact (f_equal login S).
  destruct (unauthenticated_run w1 p f pdu inp text) as (rc & w2 & st & E & [R1 R2 R3 R4 R5 R6] & Hst); try done.
  - rewrite P1. apply Haw.
  - by rewrite S2.
  - by rewrite S2.
  - destruct (login_answer_run w p pdu inp q1 q2 rc w2 Hl Hacc Hop Haw Hresp E) as (w3 & E3 & [Q1 Q2 Q3 _ Q5 _ Q7]).
    + unfold unlocked. by rewrite R6.
    + by rewrite R1.
    + by rewrite R5.
    + eexists _, w3, st. split; [exact E3|]. rewrite Q5, R2, T1, Q2, R3, O1, Q3, R1, P1.
      assert (El : is_loggedin (ctx w3) = is_loggedin (ctx w2)) by exact (f_equal is_loggedin Q7).
      by rewrite El, R4, S1.
Qed.

(** C39: The request for mutual authentication does not bind the target: one Login
    Response with the T bit and status 0 that names another stage than security
    negotiation and goes to full feature phase, without any text, logs the session in
    and calls the login's callback with GOOD, although a target user is set: no CHAP_N,
    no CHAP_R, in any step of the login. *)
Theorem mutual_chap_bypassed (w : world) (p f : nat) (pdu : iscsi_pdu) (inp : iscsi_in_pdu)
  (q1 q2 : list nat) (Hl : unlocked w) (Hacc : accepted w inp) (Hlast : last_response inp)
  (Haw : awaits w p pdu (scsi_get_uint32 (hdr inp) 16) q1 q2)
  (Hresp : response_opcode pdu = ISCSI_PDU_LOGIN_RESPONSE) (Hf : pdu_callback pdu = Some (Cb_user f))
  (Hi : 0 <= itt (ctx w) < 0xffffffff) (Hu : target_user (login (ctx w)) <> [])
  (Htext : data_pos inp = 0) :
  exists w', iscsi_process_pdu inp w = Ret (0, w') /\
    trace w' = trace w ++ [Ev_callback f SCSI_STATUS_GOOD Data_none (private_data pdu)] /\
    is_loggedin (ctx w') = true /\ target_user (login (ctx w')) <> [].
Proof.
  assert (Ht0 : received_text inp = Ret []) by (unfold received_text; by rewrite Htext).
  destruct (last_response_run w p pdu f inp q1 q2 [] id Hl Hacc Hlast Haw Hresp Hf Hi Ht0 (no_text_sets p w))
    as (w' & E & T & S & _). exists w'. split; [exact E|]. split; [exact T|].
  split; [exact (f_equal is_loggedin S)|].
  assert (El : login (ctx w') = (login (ctx w)) <| current_phase := 12 |>) by exact (f_equal login S).
  by rewrite El.
Qed.

(** C10: Login completes with the negotiated parameters: when the target answers the
    operational keys of our request by echoing them (TCP transport) in a Login Response
    that goes to full feature phase, the login's callback is called with GOOD exactly
    once, the PDU is unlinked and freed, and the session is logged in: CRC32C digests
    are used where they were the sole offer, InitialR2T as wanted, ImmediateData as
    wanted unless it was already given up, the target's segment size is ours, the burst
    lengths are kept and the task tag moves on. *)
Theorem echoed_login_completes (w : world) (p f : nat) (pdu : iscsi_pdu) (inp : iscsi_in_pdu)
  (q1 q2 : list nat) (Hl : unlocked w) (Hacc : accepted w inp) (Hlast : last_response inp)
  (Haw : awaits w p pdu (scsi_get_uint32 (hdr inp) 16) q1 q2)
  (Hresp : response_opcode pdu = ISCSI_PDU_LOGIN_RESPONSE) (Hf : pdu_callback pdu = Some (Cb_user f))
  (Hi : 0 <= itt (ctx w) < 0xffffffff) (Hok : parameters_ok (ctx w))
  (Htext : received_text inp = Ret (join_nul (operational_strings (ctx w)))) :
  let c := ctx w in
  exists w', iscsi_process_pdu inp w = Ret (0, w') /\
    trace w' = trace w ++ [Ev_callback f SCSI_STATUS_GOOD Data_none (private_data pdu)] /\
    waitpdu (ctx w') = q1 ++ q2 /\ pdus w' = delete p (pdus w) /\
    is_loggedin (ctx w') = true /\
    header_digest (ctx w') = chosen (want_header_digest (login c)) /\
    data_digest (ctx w') = chosen (want_data_digest (login c)) /\
    use_initial_r2t (ctx w') = (if want_initial_r2t (login c) =? ISCSI_INITIAL_R2T_NO then ISCSI_INITIAL_R2T_NO
                                else ISCSI_INITIAL_R2T_YES) /\
    use_immediate_data (ctx w') = (if want_immediate_data (login c) =? ISCSI_IMMEDIATE_DATA_NO then ISCSI_IMMEDIATE_DATA_NO
                                   else use_immediate_data c) /\
    target_max_recv_data_segment_length (ctx w') = initiator_max_recv_data_segment_length (conn c) /\
    max_burst_length (login (ctx w')) = max_burst_length (login c) /\
    first_burst_length (ctx w') = first_burst_length c /\
    itt (ctx w') = (itt c + 1) mod 0xffffffff.
Proof.
  intros c. destruct (last_response_run w p pdu f inp q1 q2 _ echoed Hl Hacc Hlast Haw Hresp Hf Hi Htext (echo_sets p w Hok))
    as (w' & E & T & S & W & P).
  exists w'. split; [exact E|]. split; [exact T|]. split; [exact W|]. split; [exact P|].
  split; [exact (f_equal is_loggedin S)|]. split; [exact (f_equal header_digest S)|].
  split; [exact (f_equal data_digest S)|]. split; [exact (f_equal use_initial_r2t S)|].
  split; [exact (f_equal use_immediate_data S)|].
  split; [exact (f_equal target_max_recv_data_segment_length S)|].
  split; [exact (f_equal (fun c => max_burst_length (login c)) S)|].
  split; [exact (f_equal first_burst_length S)|exact (f_equal itt S)].
Qed.
End NegotiateProperties.

(** ** Witnesses *)

Definition sample_negotiate : Negotiation := @negotiation libiscsi_hashes sample_transport.

(** PDU 1 is a login request that waits for its response. *)
Definition sample_login_pdu : iscsi_pdu :=
  (sample_pdu 0x43 5) <| pdu_callback := Some (Cb_user 8) |> <| response_opcode := ISCSI_PDU_LOGIN_RESPONSE |>.
Definition sample_login_waiting : world :=
  sample_mutual_world <| pdus := {[ 1%nat := sample_login_pdu ]} |> <| ctx ::= fun c => c <| waitpdu := [1%nat] |> |>.

Lemma sample_login_awaits w : waitpdu (ctx w) = [1%nat] -> pdus w !! 1%nat = Some sample_login_pdu ->
  awaits w 1 sample_login_pdu 0 [] [].
Proof. intros Hq Hp. split; try done. apply not_elem_of_nil. Qed.

(** The name without a response. *)
Lemma unauthenticated_target_refused_witness :
  exists rc w' st, @iscsi_process_pdu sample_transport sample_negotiate (sample_reply 0x83 (join_nul [kv "CHAP_N=" (str "t")])) sample_login_waiting = Ret (rc, w') /\
    trace w' = [Ev_callback 8 st Data_none 0] /\ st <> SCSI_STATUS_GOOD /\ is_loggedin (ctx w') = false /\
    waitpdu (ctx w') = [].
Proof.
  destruct (@unauthenticated_target_refused libiscsi_hashes sample_transport sample_login_waiting 1 8 sample_login_pdu
    (sample_reply 0x83 (join_nul [kv "CHAP_N=" (str "t")])) [] [] (join_nul [kv "CHAP_N=" (str "t")]))
    as (rc & w' & st & E & T & S & L & _ & W & _).
  - reflexivity.
  - split; [reflexivity|split; reflexivity].
  - reflexivity.
  - by apply sample_login_awaits.
  - reflexivity.
  - reflexivity.
  - reflexivity.
  - reflexivity.
  - reflexivity.
  - discriminate.
  - intros (l & v & El & _ & Hin & _). vm_compute in El. injection El as <-.
    apply elem_of_cons in Hin as [Hin|Hin]; [discriminate|by apply not_elem_of_nil in Hin].
  - exists rc, w', st. split; [exact E|]. split; [exact T|]. split; [exact S|]. split; [exact L|exact W].
Defined.

Lemma mutual_chap_bypassed_witness :
  exists w', @iscsi_process_pdu sample_transport sample_negotiate (sample_reply 0x87 []) sample_login_waiting = Ret (0, w') /\
    trace w' = [Ev_callback 8 SCSI_STATUS_GOOD Data_none 0] /\ is_loggedin (ctx w') = true.
Proof.
  destruct (@mutual_chap_bypassed libiscsi_hashes sample_transport sample_login_waiting 1 8 sample_login_pdu
    (sample_reply 0x87 []) [] []) as (w' & E & T & L & _).
  - reflexivity.
  - split; [reflexivity|split; reflexivity].
  - split; try reflexivity. discriminate.
  - by apply sample_login_awaits.
  - reflexivity.
  - reflexivity.
  - vm_compute; split; [discriminate|reflexivity].
  - discriminate.
  - reflexivity.
  - exists w'. split; [exact E|]. split; [exact T|exact L].
Defined.

Lemma echoed_login_completes_witness :
  exists w', @iscsi_process_pdu sample_transport sample_negotiate
      (sample_reply 0x87 (join_nul (operational_strings (ctx sample_login_waiting)))) sample_login_waiting = Ret (0, w') /\
    trace w' = [Ev_callback 8 SCSI_STATUS_GOOD Data_none 0] /\ is_loggedin (ctx w') = true /\
    target_max_recv_data_segment_length (ctx w') = 262144.
Proof.
  destruct (@echoed_login_completes libiscsi_hashes sample_transport sample_login_waiting 1 8 sample_login_pdu
    (sample_reply 0x87 (join_nul (operational_strings (ctx sample_login_waiting)))) [] [])
    as (w' & E & T & _ & _ & L & _ & _ & _ & _ & M & _).
  - reflexivity.
  - split; [reflexivity|split; reflexivity].
  - split; try reflexivity. discriminate.
  - by apply sample_login_awaits.
  - reflexivity.
  - reflexivity.
  - vm_compute; split; [discriminate|reflexivity].
  - split; try (vm_compute; split; [discriminate|reflexivity]); try (vm_compute; split; discriminate). discriminate.
  - vm_compute. reflexivity.
  - exists w'. split; [exact E|]. split; [exact T|]. split; [exact L|exact M].
Defined.
