(* ===== verification/Init.v ===== *)
(** Creation and settings of a context (src/lib/init.c, and the settings of
    src/lib/socket.c), the end of a connection and of a context.

    The transport is TCP: a build without HAVE_LINUX_ISER.  [close], the log
    and the logging function are not modelled. *)

From S2P Require Import SList Prelude Bytes Crc32c Task Context Pdu Queue Complete Cancel Iovec Command Process Writer Reader Text Login.

Definition TCP_TRANSPORT : Z := 0.
Definition ISCSI_HEADER_DIGEST_LAST : Z := ISCSI_HEADER_DIGEST_CRC32C.
Definition ISCSI_DATA_DIGEST_LAST : Z := ISCSI_DATA_DIGEST_CRC32C.

Definition set_conf (f : settings -> settings) : IO unit :=
  set_ctx (fun c => c <| conf ::= f |>).

(** [strncpy(dst, src, n)] into an array of [n + 1] zeroed bytes. *)
Definition strncpy (n : Z) (src : bytes) : bytes := take (Z.to_nat n) src.

(** ** A new context *)

(** [memset(iscsi, 0, sizeof(struct iscsi_context))] *)
Definition zero_context : iscsi_context := {|
  isid := zeros 6; session_type := 0; itt := 0; cmdsn := 0; min_cmdsn_waiting := 0; expcmdsn := 0;
  maxcmdsn := 0; statsn := 0; header_digest := 0; data_digest := 0; is_connected := false;
  is_corked := false; is_loggedin := false; login_attempts := 0; nops_in_flight := 0;
  outqueue := []; outqueue_current := None; waitpdu := []; first_burst_length := 0;
  target_max_recv_data_segment_length := 0; use_initial_r2t := 0; use_immediate_data := 0;
  pending_reconnect := false; next_reconnect := 0; scsi_timeout := 0; mallocs := 0; reallocs := 0;
  frees := 0; error_string := ""; multithreading_enabled := false; iscsi_lock := false;
  login := {| initiator_name := []; target_name := []; target_address := []; target_name2 := [];
    alias := []; chap_auth := 0; user := []; passwd := []; chap_c := zeros (Z.to_nat MAX_CHAP_C_LENGTH + 1);
    target_user := []; target_passwd := []; target_chap_i := 0; target_chap_r := zeros (Z.to_nat MAX_CHAP_R_SIZE);
    want_header_digest := 0; want_data_digest := 0; current_phase := 0; next_phase := 0;
    secneg_phase := 0; chap_a := 0; chap_i := 0; max_burst_length := 0; want_initial_r2t := 0;
    want_immediate_data := 0; transport := 0 |};
  conn := {| fd := 0; incoming := None; initiator_max_recv_data_segment_length := 0;
    tcp_nonblocking := false; socket_status_cb := None; connect_data := 0 |};
  conf := {| connected_portal := []; portal := []; bind_interfaces := []; bind_interfaces_cnt := 0;
    unit_serial_number := []; ctx_lun := 0; no_auto_reconnect := 0; reconnect_deferred := 0;
    reconnect_max_retries := 0; retry_cnt := 0; no_ua_on_reconnect := 0; log_level := 0;
    cache_allocations := 0; tcp_user_timeout := 0; tcp_keepcnt := 0; tcp_keepintvl := 0;
    tcp_keepidle := 0; tcp_syncnt := 0; rdma_ack_timeout := 0 |};
  old_iscsi := None
|}.

(** The ISID formats; [qualifier] is 16 bits wide but for the first. *)
Definition iscsi_set_isid_oui (oui qualifier : Z) : IO Z :=
  _ ← set_ctx (fun c => c <| isid := [(oui >> 16) &&& 0x3f; (oui >> 8) &&& 0xff; oui &&& 0xff;
        (qualifier >> 16) &&& 0xff; (qualifier >> 8) &&& 0xff; qualifier &&& 0xff] |>);
  mret 0.

Definition iscsi_set_isid_en (en qualifier : Z) : IO Z :=
  _ ← set_ctx (fun c => c <| isid := [0x40; (en >> 16) &&& 0xff; (en >> 8) &&& 0xff; en &&& 0xff;
        (qualifier >> 8) &&& 0xff; qualifier &&& 0xff] |>);
  mret 0.

Definition iscsi_set_isid_random (rnd qualifier : Z) : IO Z :=
  _ ← set_ctx (fun c => c <| isid := [0x80; (rnd >> 16) &&& 0xff; (rnd >> 8) &&& 0xff; rnd &&& 0xff;
        (qualifier >> 8) &&& 0xff; qualifier &&& 0xff] |>);
  mret 0.

Definition iscsi_set_isid_reserved : IO Z :=
  _ ← set_ctx (fun c => c <| isid := [0xc0; 0x00; 0x00; 0x00; 0x00; 0x00] |>);
  mret 0.

Definition iscsi_init_tcp_transport : IO unit := set_login (fun l => l <| transport := TCP_TRANSPORT |>).

Definition iscsi_init_transport (t : Z) : IO Z :=
  _ ← set_login (fun l => l <| transport := t |>);
  if t =? TCP_TRANSPORT then _ ← iscsi_init_tcp_transport; mret 0
  else _ ← iscsi_set_error "Unfamiliar transport type"; mret (-1).

(** The defaults of [iscsi_create_context], before the environment. *)
Definition default_login (l : login_state) : login_state :=
  l <| current_phase := ISCSI_PDU_LOGIN_CSG_SECNEG |> <| next_phase := ISCSI_PDU_LOGIN_NSG_OPNEG |>
    <| secneg_phase := ISCSI_LOGIN_SECNEG_PHASE_OFFER_CHAP |> <| max_burst_length := 262144 |>
    <| want_initial_r2t := ISCSI_INITIAL_R2T_NO |> <| want_immediate_data := ISCSI_IMMEDIATE_DATA_YES |>
    <| want_header_digest := ISCSI_HEADER_DIGEST_NONE_CRC32C |>
    <| want_data_digest := ISCSI_DATA_DIGEST_NONE |> <| chap_auth := ISCSI_CHAP_MD5 |>.

Definition default_context (c : iscsi_context) : iscsi_context :=
  c <| login ::= default_login |> <| first_burst_length := 262144 |>
    <| conn ::= fun k => k <| initiator_max_recv_data_segment_length := 262144 |> |>
    <| target_max_recv_data_segment_length := 8192 |>
    <| use_initial_r2t := ISCSI_INITIAL_R2T_YES |> <| use_immediate_data := ISCSI_IMMEDIATE_DATA_YES |>
    <| conf ::= fun s => s <| tcp_keepcnt := 3 |> <| tcp_keepintvl := 30 |> <| tcp_keepidle := 30 |>
                           <| reconnect_max_retries := -1 |> |>.

Definition iscsi_set_log_level (level : Z) : IO unit := set_conf (fun s => s <| log_level := level |>).
Definition iscsi_set_tcp_syncnt (value : Z) : IO unit := set_conf (fun s => s <| tcp_syncnt := value |>).
Definition iscsi_set_tcp_user_timeout (value : Z) : IO unit :=
  set_conf (fun s => s <| tcp_user_timeout := value |>).
Definition iscsi_set_tcp_keepidle (value : Z) : IO unit := set_conf (fun s => s <| tcp_keepidle := value |>).
Definition iscsi_set_tcp_keepcnt (value : Z) : IO unit := set_conf (fun s => s <| tcp_keepcnt := value |>).
Definition iscsi_set_tcp_keepintvl (value : Z) : IO unit := set_conf (fun s => s <| tcp_keepintvl := value |>).
Definition iscsi_set_cache_allocations (ca : Z) : IO unit :=
  set_conf (fun s => s <| cache_allocations := ca |>).

(** One more than the commas.  The start of the round robin over the
    interfaces, a counter of the process, is not modelled. *)
Definition iscsi_set_bind_interfaces (interfaces : bytes) : IO unit :=
  set_conf (fun s => s <| bind_interfaces := strncpy MAX_STRING_SIZE interfaces |>
    <| bind_interfaces_cnt := Z.of_nat (length (filter (fun b => b = 44) interfaces)) + 1 |>).

(** [if (getenv(name) != NULL) f(getenv(name))] *)
Definition with_env (name : string) (f : bytes -> IO unit) : IO unit :=
  w ← getS;
  match env w name with Some v => f v | None => mret tt end.

(** The settings that the environment overrides. *)
Definition environment_settings : IO unit :=
  _ ← with_env "LIBISCSI_DEBUG" (fun v => iscsi_set_log_level (atoi v));
  _ ← with_env "LIBISCSI_TCP_USER_TIMEOUT" (fun v => iscsi_set_tcp_user_timeout (atoi v));
  _ ← with_env "LIBISCSI_TCP_KEEPCNT" (fun v => iscsi_set_tcp_keepcnt (atoi v));
  _ ← with_env "LIBISCSI_TCP_KEEPINTVL" (fun v => iscsi_set_tcp_keepintvl (atoi v));
  _ ← with_env "LIBISCSI_TCP_KEEPIDLE" (fun v => iscsi_set_tcp_keepidle (atoi v));
  _ ← with_env "LIBISCSI_TCP_SYNCNT" (fun v => iscsi_set_tcp_syncnt (atoi v));
  _ ← with_env "LIBISCSI_BIND_INTERFACES" iscsi_set_bind_interfaces;
  _ ← with_env "LIBISCSI_RDMA_ACK_TIMEOUT" (fun v => set_conf (fun s => s <| rdma_ack_timeout := u8 (atoi v) |>));
  w ← getS;
  when (match env w "LIBISCSI_CACHE_ALLOCATIONS" with None => true | Some v => negb (atoi v =? 0) end)
    (set_conf (fun s => s <| cache_allocations := 1 |>)).

(** Run [m] on a context of its own: the result and that context. *)
Definition on_ctx {A} (c : iscsi_context) (m : IO A) : IO (A * iscsi_context) := fun w =>
  match m (w <| ctx := c |>) with
  | Ret (a, w') => Ret ((a, ctx w'), w' <| ctx := ctx w |>)
  | Undef u => Undef u
  end.

(** The new context is a value; [None] is NULL. *)
Definition iscsi_create_context (name : bytes) : IO (option iscsi_context) :=
  match name with
  | [] => mret None
  | _ =>
      ok ← malloc;
      if negb ok then mret None else
      '(_, c) ← on_ctx zero_context
        (_ ← iscsi_init_transport TCP_TRANSPORT;
         _ ← set_login (fun l => l <| initiator_name := strncpy MAX_ISCSI_NAME_SIZE name |>);
         _ ← set_conn (fun k => k <| fd := -1 |>);
         rnd ← rand;
         _ ← iscsi_set_isid_random rnd 0;
         _ ← set_ctx default_context;
         environment_settings);
      mret (Some c)
  end.

(** ** Settings *)

(** A setter that is refused once the session is up. *)
Definition before_login (msg : string) (m : IO unit) : IO Z :=
  loggedin ← get_ctx is_loggedin;
  if (loggedin : bool) then _ ← iscsi_set_error msg; mret (-1) else _ ← m; mret 0.

Definition iscsi_set_alias (s : bytes) : IO Z :=
  before_login "Already logged in when adding alias"
    (set_login (fun l => l <| alias := strncpy MAX_STRING_SIZE s |>)).

Definition iscsi_set_targetname (s : bytes) : IO Z :=
  before_login "Already logged in when adding targetname"
    (set_login (fun l => l <| target_name := strncpy MAX_ISCSI_NAME_SIZE s |>)).

Definition iscsi_set_unit_serial_number (s : bytes) : IO Z :=
  before_login "Already logged in when adding unit_serial_number"
    (set_conf (fun k => k <| unit_serial_number := strncpy MAX_STRING_SIZE s |>)).

(** The enumeration is compared as an unsigned number. *)
Definition iscsi_set_header_digest (digest : Z) : IO Z :=
  loggedin ← get_ctx is_loggedin;
  if (loggedin : bool) then _ ← iscsi_set_error "trying to set header digest while logged in"; mret (-1)
  else if ISCSI_HEADER_DIGEST_LAST <? u32 digest then
    _ ← iscsi_set_error "invalid header digest value"; mret (-1)
  else _ ← set_login (fun l => l <| want_header_digest := digest |>); mret 0.

Definition iscsi_set_data_digest (digest : Z) : IO Z :=
  loggedin ← get_ctx is_loggedin;
  if (loggedin : bool) then _ ← iscsi_set_error "trying to set data digest while logged in"; mret (-1)
  else if ISCSI_DATA_DIGEST_LAST <? u32 digest then
    _ ← iscsi_set_error "invalid data digest value"; mret (-1)
  else _ ← set_login (fun l => l <| want_data_digest := digest |>); mret 0.

Definition iscsi_set_immediate_data (v : Z) : IO Z :=
  before_login "Already logged in when trying to set immediate_data"
    (set_ctx (fun c => c <| login ::= fun l => l <| want_immediate_data := v |> |>
                         <| use_immediate_data := v |>)).

Definition iscsi_set_initial_r2t (v : Z) : IO Z :=
  before_login "Already logged in when trying to set initial_r2t"
    (set_login (fun l => l <| want_initial_r2t := v |>)).

(** [!user || !passwd || !user[0] || !passwd[0]]; an empty string stands for
    NULL. *)
Definition incomplete (user passwd : bytes) : bool :=
  bool_decide (user = []) || bool_decide (passwd = []).

Definition iscsi_set_initiator_username_pwd (u p : bytes) : IO Z :=
  _ ← set_login (fun l =>
        if incomplete u p then l <| user := [] |> <| passwd := [] |>
        else l <| user := strncpy MAX_STRING_SIZE u |> <| passwd := strncpy MAX_STRING_SIZE p |>);
  mret 0.

Definition iscsi_set_target_username_pwd (u p : bytes) : IO Z :=
  _ ← set_login (fun l =>
        if incomplete u p then l <| target_user := [] |> <| target_passwd := [] |>
        else l <| target_user := strncpy MAX_STRING_SIZE u |> <| target_passwd := strncpy MAX_STRING_SIZE p |>);
  mret 0.

Definition iscsi_set_timeout (timeout : Z) : IO Z :=
  _ ← set_ctx (fun c => c <| scsi_timeout := timeout |>); mret 0.

Definition iscsi_set_auth (auth : Z) : IO unit := set_login (fun l => l <| chap_auth := auth |>).
Definition iscsi_get_auth : IO Z := get_ctx (fun c => chap_auth (login c)).

Definition iscsi_is_logged_in : IO bool := get_ctx is_loggedin.
Definition iscsi_get_error : IO string := get_ctx error_string.
Definition iscsi_get_target_address : IO bytes := get_ctx (fun c => target_address (login c)).
Definition iscsi_get_unit_serial_number : IO bytes := get_ctx (fun c => unit_serial_number (conf c)).

(** [iscsi_set_session_type] of src/lib/login.c is in Login. *)

(** ** The end of a connection and of a context *)

(** [iscsi_disconnect] of the TCP transport. *)
Definition iscsi_tcp_disconnect : IO Z :=
  c ← get_ctx id;
  if fd (conn c) =? -1 then _ ← iscsi_set_error "Trying to disconnect but not connected"; mret (-1)
  else
    _ ← set_ctx (fun c => c <| conn ::= fun k => k <| fd := -1 |> |>
          <| is_connected := false |> <| is_corked := false |>);
    mret 0.

Definition iscsi_disconnect : IO Z := iscsi_tcp_disconnect.

Definition iscsi_tcp_get_fd : IO Z :=
  c ← get_ctx id;
  mret (match old_iscsi c with Some old => fd (conn old) | None => fd (conn c) end).

Definition iscsi_get_fd : IO Z := iscsi_tcp_get_fd.

(** What [iscsi_destroy_context] and a reconnect free of a context: the PDU
    being sent, when nobody waits for it, and the PDU being received. *)
Definition free_current : IO unit :=
  c ← get_ctx id;
  match outqueue_current c with
  | None => mret tt
  | Some p =>
      pdu ← get_pdu p;
      when (truth (pdu_flags pdu &&& ISCSI_PDU_DELETE_WHEN_SENT)) (iscsi_tcp_free_pdu p)
  end.

Definition free_incoming : IO unit :=
  c ← get_ctx id;
  match incoming (conn c) with
  | None => mret tt
  | Some inp => iscsi_free_iscsi_in_pdu inp
  end.

(** [iscsi_destroy_context]; one level of recursion per old context.  The
    block of the context is gone at the end, its last contents are zeros. *)
Fixpoint iscsi_destroy_context (fuel : nat) : IO Z :=
  _ ← iscsi_disconnect;
  _ ← iscsi_cancel_pdus;
  _ ← iscsi_mt_spin_lock;
  _ ← free_current;
  _ ← free_incoming;
  _ ← iscsi_mt_spin_unlock;
  _ ← set_conn (fun k => k <| connect_data := 0 |>);
  old ← get_ctx old_iscsi;
  _ ← match old, fuel with
      | None, _ => mret tt
      | Some _, O => undefined NoFuel
      | Some old, S fuel =>
          _ ← on_ctx (old <| conn ::= fun k => k <| fd := -1 |> |>) (iscsi_destroy_context fuel);
          mret tt
      end;
  _ ← set_ctx (fun _ => zero_context);
  mret 0.
