(* ===== verification/Url.v ===== *)
(** URLs (src/lib/init.c: [iscsi_parse_url] and [iscsi_decode_url_string]).

    A string is the list of its bytes before the NUL; the code cuts a string
    by storing a NUL, the model by taking the parts.  The theorems show that a
    URL printed from its parts is parsed back, and what the decoder of
    percent escapes does, which is to miss some. *)

From S2P Require Import SList Prelude Bytes Crc32c Task Context Pdu Queue Complete Cancel Iovec Command Process Writer Reader Text Login Init.

Record iscsi_url := {
  url_portal : bytes;
  url_target : bytes;
  url_user : bytes;
  url_passwd : bytes;
  url_target_user : bytes;
  url_target_passwd : bytes;
  url_lun : Z
}.

#[export] Instance eta_iscsi_url : Eta iscsi_url := fun u =>
  Build_iscsi_url (url_portal u) (url_target u) (url_user u) (url_passwd u)
    (url_target_user u) (url_target_passwd u) (url_lun u).

(** ** Percent escapes *)

(** What is before the first NUL. *)
Fixpoint cstr (l : bytes) : bytes :=
  match l with [] => [] | b :: l => if b =? 0 then [] else b :: cstr l end.

(** [iscsi_decode_url_string] on the array [buf], [str] being an index: each
    escape is replaced by its byte and the rest of the string is moved down by
    two, but [str] stays where the rest was. *)
Fixpoint decode_loop (fuel : nat) (buf : bytes) (str : nat) : res bytes :=
  match buf !! str with
  | None => Undef OutOfBounds
  | Some c =>
      if c =? 0 then mret buf else
      match fuel with
      | O => Undef NoFuel
      | S fuel =>
          if negb (c =? 37) then decode_loop fuel buf (S str) else
          let a := byte_at buf (S str) in
          if a =? 0 then mret buf else
          let b := byte_at buf (S (S str)) in
          if b =? 0 then mret buf else
          let tmp := S str in
          let next := S (S (S str)) in
          let buf := <[str := hex_byte a b]> buf in
          let n := length (cstr (drop next buf)) in
          let buf := blit buf tmp (take n (drop next buf)) in
          let buf := <[(tmp + n)%nat := 0]> buf in
          decode_loop fuel buf next
      end
  end.

Definition iscsi_decode_url_string (buf : bytes) : res bytes := decode_loop (length buf) buf 0.

(** ** Parsing *)

(** [strchr(s, c)]: what is before [c] and what is behind it. *)
Fixpoint cut (c : Z) (s : bytes) : option (bytes * bytes) :=
  match s with
  | [] => None
  | b :: s => if b =? c then Some ([], s) else '(x, y) ← cut c s; Some (b :: x, y)
  end.

(** [strchr] and cut; the string as it is when [c] is not in it. *)
Definition cut_or (c : Z) (s : bytes) : bytes * option bytes :=
  match cut c s with Some (x, y) => (x, Some y) | None => (s, None) end.

(** [strtol(s, &end, 10)]: the value and what [end] points to. *)
Fixpoint skip_digits (s : bytes) : bytes :=
  match s with b :: s' => if isdigit b then skip_digits s' else s | [] => [] end.

Definition strtol_end (s : bytes) : bytes :=
  let t := match skip_space s with b :: t => if (b =? 45) || (b =? 43) then t else b :: t | [] => [] end in
  match t with b :: _ => if isdigit b then skip_digits t else s | [] => s end.

Section Url.
(** Whether [iscsi] is not NULL. *)
Context (iscsi : bool).

Definition url_error (msg : string) : IO (option iscsi_url) :=
  _ ← when iscsi (iscsi_set_error msg); mret None.

(** A call that dereferences [iscsi]. *)
Definition on_iscsi {A} (m : IO A) : IO A := if iscsi then m else undefined NullDeref.

(** What the arguments set besides the context: CHAP of the target and the
    serial number to expect. *)
Record url_args := {
  arg_target_user : option bytes;
  arg_target_passwd : option bytes;
  arg_usn : option bytes
}.

#[export] Instance eta_url_args : Eta url_args := fun a =>
  Build_url_args (arg_target_user a) (arg_target_passwd a) (arg_usn a).

(** [strcmp(value, s) == 0] for a value that may be NULL. *)
Definition value_is (value : option bytes) (s : string) : IO bool :=
  v ← deref value; mret (bool_decide (v = str s)).

(** [auth=...]: [false] for a value that is not known. *)
Definition auth_arg (value : option bytes) : IO bool :=
  md5 ← value_is value "md5";
  if (md5 : bool) then _ ← on_iscsi (iscsi_set_auth ISCSI_CHAP_MD5); mret true else
  sha1 ← value_is value "sha1";
  if (sha1 : bool) then _ ← on_iscsi (iscsi_set_auth ISCSI_CHAP_SHA_1); mret true else
  sha256 ← value_is value "sha-256";
  if (sha256 : bool) then _ ← on_iscsi (iscsi_set_auth ISCSI_CHAP_SHA_256); mret true else
  sha3 ← value_is value "sha3-256";
  if (sha3 : bool) then _ ← on_iscsi (iscsi_set_auth ISCSI_CHAP_SHA3_256); mret true else
  mret false.

Definition digest_arg (set : Z -> IO Z) (value : option bytes) : IO bool :=
  crc ← value_is value "crc32c";
  if (crc : bool) then _ ← on_iscsi (set ISCSI_HEADER_DIGEST_CRC32C); mret true else
  none ← value_is value "none";
  if (none : bool) then _ ← on_iscsi (set ISCSI_HEADER_DIGEST_NONE); mret true else mret false.

(** One argument; [None] when its value is invalid. *)
Definition url_arg (arg : bytes) (a : url_args) : IO (option url_args) :=
  let '(key, value) := cut_or 61 arg in
  let is_key s := bool_decide (key = str s) in
  ok ← (if is_key "auth" then auth_arg value else mret true);
  if negb ok then _ ← url_error "Invalid argument for auth: %s"; mret None else
  ok ← (if is_key "header_digest" then digest_arg iscsi_set_header_digest value else mret true);
  if negb ok then _ ← url_error "Invalid URL argument for header_digest: %s"; mret None else
  ok ← (if is_key "data_digest" then digest_arg iscsi_set_data_digest value else mret true);
  if negb ok then _ ← url_error "Invalid URL argument for data_digest: %s"; mret None else
  let a := if is_key "target_user" then a <| arg_target_user := value |>
           else if is_key "target_password" then a <| arg_target_passwd := value |> else a in
  mret (Some (if is_key "force_usn" then a <| arg_usn := value |> else a)).

(** [while (tmp && *tmp)] over the arguments. *)
Fixpoint url_args_loop (fuel : nat) (tmp : option bytes) (a : url_args) : IO (option url_args) :=
  match tmp with
  | None | Some [] => mret (Some a)
  | Some t =>
      match fuel with
      | O => undefined NoFuel
      | S fuel =>
          let '(arg, next) := cut_or 38 t in
          r ← url_arg arg a;
          match r with None => mret None | Some a => url_args_loop fuel next a end
      end
  end.

(** [[user[%passwd]@]portal]: the portal, and the user and password when they
    are there. *)
Definition url_credentials (s : bytes) (user passwd : option bytes)
  : bytes * option bytes * option bytes :=
  match cut 64 s with
  | None => (s, user, passwd)
  | Some (u, portal) =>
      match cut 37 u with
      | Some (u, p) => (portal, Some u, Some p)
      | None =>
          match cut 58 u with
          | Some (u, p) => (portal, Some u, Some p)
          | None => (portal, Some u, passwd)
          end
      end
  end.

(** The portal, target and LUN of [portal/target/lun]; a message when a part
    is missing. *)
Definition url_path (full : bool) (s : bytes) : string + (bytes * bytes * Z) :=
  if negb full then inr ((cut_or 47 s).1, [], 0) else
  match cut 47 s with
  | None => inl "Invalid URL %s\nCould not parse '<target-iqn>'\niSCSI URL must be of the form: %s"%string
  | Some (portal, target) =>
      match target with
      | [] => inl "Invalid URL %s\nCould not parse <target-iqn>\niSCSI URL must be of the form: %s"%string
      | _ =>
          match cut 47 target with
          | None => inl "Invalid URL %s\nCould not parse <lun>\niSCSI URL must be of the form: %s"%string
          | Some (target, lun) =>
              match lun, strtol_end lun with
              | _ :: _, [] => inr (portal, target, i32 (strtol lun))
              | _, _ => inl "Invalid URL %s\nCould not parse <lun>\niSCSI URL must be of the form: %s"%string
              end
          end
      end
  end.

(** Both strings are there and not empty. *)
Definition complete (u p : option bytes) : option (bytes * bytes) :=
  match u, p with Some (a :: u), Some (b :: p) => Some (a :: u, b :: p) | _, _ => None end.

(** The structure, before the target is decoded. *)
Definition fill_url (portal target : bytes) (lun : Z) (user passwd : option bytes) (a : url_args)
  : iscsi_url :=
  let u := {| url_portal := strncpy MAX_STRING_SIZE portal; url_target := strncpy MAX_STRING_SIZE target;
              url_user := []; url_passwd := []; url_target_user := []; url_target_passwd := [];
              url_lun := lun |} in
  match complete user passwd with
  | None => u
  | Some (x, y) =>
      let u := u <| url_user := strncpy MAX_STRING_SIZE x |> <| url_passwd := strncpy MAX_STRING_SIZE y |> in
      match complete (arg_target_user a) (arg_target_passwd a) with
      | None => u
      | Some (x, y) => u <| url_target_user := strncpy MAX_STRING_SIZE x |>
                         <| url_target_passwd := strncpy MAX_STRING_SIZE y |>
      end
  end.

(** A string in its array of 256 zeroed bytes. *)
Definition in_array (s : bytes) : bytes := s ++ zeros (256 - length s).

(** The settings applied to the context. *)
Definition apply_url (u : iscsi_url) (usn : option bytes) : IO unit :=
  _ ← iscsi_set_targetname (url_target u);
  _ ← iscsi_set_initiator_username_pwd (url_user u) (url_passwd u);
  _ ← iscsi_set_target_username_pwd (url_target_user u) (url_target_passwd u);
  match usn with Some s => _ ← iscsi_set_unit_serial_number s; mret tt | None => mret tt end.

(** [iscsi_parse_url], for a build without iSER.  A URL of 255 bytes or more
    behind the scheme leaves the array [str] without a NUL. *)
Definition iscsi_parse_url (url : bytes) (full : bool) : IO (option iscsi_url) :=
  match strip (str "iscsi://") url with
  | None => url_error (if full then "Invalid URL %s\niSCSI URL must be of the form: %s"
                       else "Invalid URL %s\niSCSI Portal URL must be of the form: %s")
  | Some s =>
      if MAX_STRING_SIZE <=? Z.of_nat (length s) then undefined OutOfBounds else
      w ← getS;
      let '(s, query) := cut_or 63 s in
      r ← url_args_loop (match query with Some q => length q | None => 0 end) query
            {| arg_target_user := env w "LIBISCSI_CHAP_TARGET_USERNAME";
               arg_target_passwd := env w "LIBISCSI_CHAP_TARGET_PASSWORD"; arg_usn := None |};
      match r with
      | None => mret None
      | Some a =>
          let '(s, user, passwd) := url_credentials s (env w "LIBISCSI_CHAP_USERNAME")
                                      (env w "LIBISCSI_CHAP_PASSWORD") in
          match url_path full s with
          | inl msg => url_error msg
          | inr (portal, target, lun) =>
              ok ← (if iscsi then iscsi_malloc else malloc);
              if negb ok then url_error "Out-of-memory: Failed to allocate iscsi_url structure" else
              let u := fill_url portal target lun user passwd a in
              t ← lift (iscsi_decode_url_string (in_array (url_target u)));
              let u := u <| url_target := cstr t |> in
              _ ← when iscsi (apply_url u (arg_usn a));
              mret (Some u)
          end
      end
  end.

Definition iscsi_parse_full_url (url : bytes) : IO (option iscsi_url) := iscsi_parse_url url true.
Definition iscsi_parse_portal_url (url : bytes) : IO (option iscsi_url) := iscsi_parse_url url false.

(** The structure is freed; [iscsi->frees] counts it when there is a
    context. *)
Definition iscsi_destroy_url : IO unit := iscsi_free iscsi.

End Url.

(** * Lemmas *)

(** *** Percent escapes *)

(** What percent decoding is meant to be. *)
Fixpoint url_decode (s : bytes) : bytes :=
  match s with
  | [] => []
  | c :: r =>
      if c =? 37 then
        match r with a :: b :: r => hex_byte a b :: url_decode r | _ => c :: url_decode r end
      else c :: url_decode r
  end.

(** Every escape is whole, and the two characters behind it do not start
    another one. *)
Fixpoint spaced (s : bytes) : bool :=
  match s with
  | [] => true
  | c :: r =>
      if c =? 37 then
        match r with
        | a :: b :: r => forallb (fun x => negb (x =? 37)) (take 2 r) && spaced r
        | _ => false
        end
      else spaced r
  end.

Lemma cstr_app s r : no_nul s -> cstr (s ++ 0 :: r) = s.
Proof.
  induction 1 as [|c s Hc _ IH]; [done|]. cbn [app cstr]. by rewrite (proj2 (Z.eqb_neq c 0) Hc), IH.
Qed.

Lemma cstr_nul s r : cstr (s ++ 0 :: r) = cstr s.
Proof. induction s as [|c s IH]; [done|]. cbn [app cstr]. destruct (c =? 0); [done|]. by rewrite IH. Qed.

Lemma lookup_S {A} (x : A) l i : (x :: l) !! S i = l !! i.
Proof. done. Qed.

(** Moving the rest of the string down over an escape. *)
Lemma move_down pre c x y r junk : no_nul r ->
  let buf := <[length pre := c]> (pre ++ 37 :: x :: y :: r ++ 0 :: junk) in
  let next := (length pre + 3)%nat in
  let n := length (cstr (drop next buf)) in
  <[(length pre + 1 + n)%nat := 0]> (blit buf (length pre + 1) (take n (drop next buf))) =
  pre ++ c :: r ++ 0 :: drop (length r + 1) (x :: y :: r ++ 0 :: junk).
Proof.
  intros Hr buf next n.
  assert (Eb : buf = pre ++ c :: x :: y :: r ++ 0 :: junk).
  { unfold buf. rewrite <- (Nat.add_0_r (length pre)), insert_app_r. done. }
  assert (Ed : drop next buf = r ++ 0 :: junk).
  { unfold next. by rewrite Eb, drop_app_add. }
  assert (En : n = length r) by (unfold n; by rewrite Ed, cstr_app).
  rewrite Ed, En, take_app_length, Eb. apply list_eq. intros i.
  destruct (decide (i < length pre)%nat) as [Hi|Hi].
  - rewrite list_lookup_insert_ne by lia. rewrite blit_lookup by (rewrite length_app; cbn; rewrite length_app; cbn; lia).
    rewrite decide_False by lia. by rewrite !lookup_app_l by done.
  - replace i with (length pre + (i - length pre))%nat by lia. set (j := (i - length pre)%nat).
    rewrite (lookup_app_r pre) by lia. replace (length pre + j - length pre)%nat with j by lia.
    destruct (decide (j = 1 + length r)%nat) as [->|Hj].
    + replace (length pre + 1 + length r)%nat with (length pre + (1 + length r))%nat by lia.
      rewrite list_lookup_insert_eq.
      2: { rewrite length_blit, length_app. cbn. rewrite length_app. cbn. lia. }
      change (Some 0 = (c :: r ++ 0 :: drop (length r + 1) (x :: y :: r ++ 0 :: junk)) !! S (length r)).
      by rewrite lookup_S, lookup_app_r, Nat.sub_diag by lia.
    + rewrite list_lookup_insert_ne by lia.
      rewrite blit_lookup by (rewrite length_app; cbn; rewrite length_app; cbn; lia).
      destruct (decide (length pre + 1 <= length pre + j < length pre + 1 + length r)%nat) as [Hk|Hk].
      * destruct j as [|j]; [lia|]. replace (length pre + S j - (length pre + 1))%nat with j by lia.
        by rewrite lookup_S, lookup_app_l by lia.
      * rewrite lookup_app_r by lia. replace (length pre + j - length pre)%nat with j by lia.
        destruct j as [|j]; [done|]. rewrite !lookup_S.
        rewrite (lookup_app_r r) by lia. destruct (j - length r)%nat as [|k] eqn:Ek; [lia|].
        rewrite lookup_S, lookup_drop. by replace (length r + 1 + k)%nat with j by lia.
Qed.

Lemma lookup_mid (pre : bytes) c l : (pre ++ c :: l) !! length pre = Some c.
Proof. by rewrite lookup_app_r, Nat.sub_diag by lia. Qed.

Lemma byte_at_mid (pre l : bytes) k : byte_at (pre ++ l) (length pre + k) = byte_at l k.
Proof. unfold byte_at. rewrite lookup_app_r by lia. by replace (length pre + k - length pre)%nat with k by lia. Qed.

(** The two characters the decoder skips behind an escape. *)
Lemma decode_skips n : forall fuel pre r junk,
  (forall fuel pre r junk, (length r <= n)%nat -> no_nul r -> spaced r = true -> (length r <= fuel)%nat ->
   exists junk', decode_loop fuel (pre ++ r ++ 0 :: junk) (length pre) = Ret (pre ++ url_decode r ++ 0 :: junk')) ->
  (length r <= n)%nat -> no_nul r -> spaced r = true ->
  forallb (fun x => negb (x =? 37)) (take 2 r) = true -> (length r <= fuel)%nat ->
  forall x y, exists junk', decode_loop fuel (pre ++ r ++ 0 :: drop (length r + 1) (x :: y :: r ++ 0 :: junk))
    (length pre + 2) = Ret (pre ++ url_decode r ++ 0 :: junk').
Proof.
  intros fuel pre r junk IH Hn Hr Hs Ht Hf x y. destruct r as [|a [|b r]].
  - exists (y :: 0 :: junk). cbn [app length drop Nat.add url_decode].
    replace (length pre + 2)%nat with (length (pre ++ [0; y])) by (rewrite length_app; cbn; lia).
    replace (pre ++ 0 :: y :: 0 :: junk) with ((pre ++ [0; y]) ++ 0 :: junk) by by rewrite <- app_assoc.
    destruct fuel; cbn [decode_loop]; rewrite lookup_mid; by rewrite <- app_assoc.
  - cbn [take forallb] in Ht. apply andb_true_iff in Ht as [Ha _]. apply negb_true_iff in Ha.
    inversion_clear Hr. exists (a :: 0 :: junk). cbn [app length drop Nat.add url_decode].
    rewrite Ha. destruct fuel as [|fuel]; [cbn in Hf; lia|].
    replace (length pre + 2)%nat with (length (pre ++ [a; 0])) by (rewrite length_app; cbn; lia).
    replace (pre ++ a :: 0 :: a :: 0 :: junk) with ((pre ++ [a; 0]) ++ a :: 0 :: junk) by by rewrite <- app_assoc.
    cbn [decode_loop]. rewrite lookup_mid, (proj2 (Z.eqb_neq a 0)), Ha by done. cbn [negb].
    replace ((pre ++ [a; 0]) ++ a :: 0 :: junk) with ((pre ++ [a; 0; a]) ++ 0 :: junk) by by rewrite <- !app_assoc.
    replace (S (length (pre ++ [a; 0]))) with (length (pre ++ [a; 0; a])) by (rewrite !length_app; cbn; lia).
    destruct fuel; cbn [decode_loop]; rewrite lookup_mid; by rewrite <- !app_assoc.
  - cbn [take forallb] in Ht. apply andb_true_iff in Ht as [Ha Hb]. apply andb_true_iff in Hb as [Hb _].
    apply negb_true_iff in Ha, Hb. inversion_clear Hr as [|? ? Na Hr']. inversion_clear Hr'.
    cbn [url_decode spaced] in Hs |- *. rewrite Ha, Hb in Hs |- *.
    destruct (IH fuel (pre ++ [a; b]) r (drop (length r + 3) (x :: y :: a :: b :: r ++ 0 :: junk)))
      as [junk' E]; [cbn in Hn; lia|done|done|cbn in Hf; lia|].
    exists junk'. rewrite <- !app_assoc in E. cbn [app] in E |- *. rewrite <- E.
    rewrite length_app. cbn [length]. by replace (S (S (length r)) + 1)%nat with (length r + 3)%nat by lia.
Qed.

Lemma decode_loop_run n : forall fuel pre r junk, (length r <= n)%nat -> no_nul r -> spaced r = true ->
  (length r <= fuel)%nat ->
  exists junk', decode_loop fuel (pre ++ r ++ 0 :: junk) (length pre) = Ret (pre ++ url_decode r ++ 0 :: junk').
Proof.
  induction n as [|n IH]; intros fuel pre r junk Hn Hr Hs Hf.
  { destruct r; [|cbn in Hn; lia]. exists junk. cbn [app url_decode]. destruct fuel; cbn [decode_loop]; by rewrite lookup_mid. }
  destruct r as [|c r].
  { exists junk. cbn [app url_decode]. destruct fuel; cbn [decode_loop]; by rewrite lookup_mid. }
  inversion_clear Hr as [|? ? Hc Hr']. destruct fuel as [|fuel]; [cbn in Hf; lia|].
  cbn [app decode_loop url_decode]. rewrite lookup_mid, (proj2 (Z.eqb_neq c 0) Hc). cbn [spaced] in Hs.
  destruct (Z.eqb_spec c 37) as [->|Hne]; cbn [negb].
  - destruct r as [|a [|b r]]; try done. apply andb_true_iff in Hs as [Ht Hs].
    inversion_clear Hr' as [|? ? Ha Hr'']. inversion_clear Hr'' as [|? ? Hb Hr].
    replace (S (length pre)) with (length pre + 1)%nat by lia.
    replace (S (length pre + 1)) with (length pre + 2)%nat by lia.
    replace (S (length pre + 2)) with (length pre + 3)%nat by lia.
    rewrite !byte_at_mid. change (byte_at (37 :: (a :: b :: r) ++ 0 :: junk) 1) with a.
    change (byte_at (37 :: (a :: b :: r) ++ 0 :: junk) 2) with b.
    rewrite (proj2 (Z.eqb_neq a 0) Ha), (proj2 (Z.eqb_neq b 0) Hb).
    pose proof (move_down pre (hex_byte a b) a b r junk Hr) as E. cbv zeta in E |- *. cbn [app] in E |- *. rewrite E.
    destruct (decode_skips n fuel (pre ++ [hex_byte a b]) r junk IH) with (x := a) (y := b) as [junk' E'];
      [cbn in Hn; lia|done|done|done|cbn in Hf; lia|].
    exists junk'. rewrite <- !app_assoc in E'. cbn [app] in E'. rewrite <- E', length_app. cbn [length].
    by replace (length pre + 1 + 2)%nat with (length pre + 3)%nat by lia.
  - destruct (IH fuel (pre ++ [c]) r junk) as [junk' E]; [cbn in Hn; lia|done|done|cbn in Hf; lia|].
    exists junk'. rewrite <- !app_assoc in E. cbn [app] in E |- *. rewrite <- E, length_app. cbn [length].
    by replace (length pre + 1)%nat with (S (length pre)) by lia.
Qed.

(** A target in its array is decoded. *)
Lemma decode_run s : (length s < 256)%nat -> no_nul s -> spaced s = true ->
  exists junk, iscsi_decode_url_string (in_array s) = Ret (url_decode s ++ 0 :: junk).
Proof.
  intros Hl Hn Hs. unfold iscsi_decode_url_string, in_array.
  replace (256 - length s)%nat with (S (255 - length s)) by lia. cbn [zeros].
  change (zeros (S (255 - length s))) with (0 :: zeros (255 - length s)).
  destruct (decode_loop_run (length s) (length (s ++ 0 :: zeros (255 - length s))) [] s (zeros (255 - length s)))
    as [junk E]; try done; [rewrite length_app; lia|]. exists junk. exact E.
Qed.

(** *** The parts of a URL *)

(** None of the separators [cs] is in [s]. *)
Definition without (cs : bytes) (s : bytes) : Prop := Forall (fun b => b ∉ cs) s.

Lemma without_one cs c s : c ∈ cs -> without cs s -> without [c] s.
Proof. intros Hc Hs. eapply Forall_impl; [exact Hs|]. set_solver. Qed.

Lemma cut_app c x y : without [c] x -> cut c (x ++ c :: y) = Some (x, y).
Proof.
  induction 1 as [|b x Hb _ IH]; cbn [app cut]; [by rewrite Z.eqb_refl|].
  rewrite (proj2 (Z.eqb_neq b c)) by set_solver. by rewrite IH.
Qed.

Lemma cut_none c x : without [c] x -> cut c x = None.
Proof.
  induction 1 as [|b x Hb _ IH]; [done|]. cbn [cut]. rewrite (proj2 (Z.eqb_neq b c)) by set_solver. by rewrite IH.
Qed.

Lemma cut_or_app c x y : without [c] x -> cut_or c (x ++ c :: y) = (x, Some y).
Proof. intros Hx. unfold cut_or. by rewrite cut_app. Qed.

Lemma cut_or_none c x : without [c] x -> cut_or c x = (x, None).
Proof. intros Hx. unfold cut_or. by rewrite cut_none. Qed.

Lemma strncpy_short s : Z.of_nat (length s) < MAX_STRING_SIZE -> strncpy MAX_STRING_SIZE s = s.
Proof. intros Hs. unfold strncpy. apply take_ge. lia. Qed.

(** A printed number is read to its end. *)
Lemma digits_isdigit fuel n acc : 0 <= n -> Forall (fun b => isdigit b = true) acc ->
  n < 10 ^ Z.of_nat fuel -> (0 < fuel)%nat -> Forall (fun b => isdigit b = true) (digits fuel n acc).
Proof.
  revert n acc. induction fuel as [|fuel IH]; intros n acc Hn Ha Hl Hf; [lia|]. cbn [digits].
  destruct (Z.ltb_spec n 10); [constructor; [apply isdigit_48; lia|done]|].
  pose proof (Z.mod_pos_bound n 10 ltac:(lia)). rewrite Nat2Z.inj_succ, Z.pow_succ_r in Hl by lia.
  apply IH; [apply Z.div_pos; lia|constructor; [apply isdigit_48; lia|done]|apply Z.div_lt_upper_bound; lia|].
  destruct fuel; [cbn in Hl; lia|lia].
Qed.

Lemma print_d_digits n : 0 <= n < 10 ^ 10 -> Forall (fun b => isdigit b = true) (print_d n) /\ print_d n <> [].
Proof.
  intros Hn. unfold print_d. destruct (Z.ltb_spec n 0); [lia|]. split; [by apply digits_isdigit; [lia|constructor|lia|lia]|].
  by destruct (digits_head 10 n [] ltac:(lia) ltac:(lia)) as (d & r & -> & _).
Qed.

Lemma skip_all s : Forall (fun b => isdigit b = true) s -> skip_digits s = [].
Proof. induction 1 as [|b s Hb _ IH]; [done|]. cbn [skip_digits]. by rewrite Hb. Qed.

Lemma digits_without c s : isdigit c = false -> Forall (fun b => isdigit b = true) s -> without [c] s.
Proof. intros Hc Hs. eapply Forall_impl; [exact Hs|]. intros b Hb Hin. assert (b = c) by set_solver. congruence. Qed.

Lemma strtol_end_print n : 0 <= n < 10 ^ 10 -> strtol_end (print_d n) = [].
Proof.
  intros Hn. destruct (print_d_digits n Hn) as [Hd Hne]. destruct (print_d n) as [|b s]; [done|].
  inversion_clear Hd as [|? ? Hb Hs]. unfold strtol_end. cbn [skip_space].
  assert (isspace b = false /\ (b =? 45) = false /\ (b =? 43) = false) as (-> & -> & ->).
  { unfold isdigit in Hb. unfold isspace. lia. }
  cbn [orb]. rewrite Hb. by apply skip_all; constructor.
Qed.

(** A URL printed from its parts. *)
Definition print_credentials (c : option (bytes * bytes)) : bytes :=
  match c with Some (u, p) => u ++ 37 :: p ++ [64] | None => [] end.
Definition print_arguments (m : option (bytes * bytes)) : option bytes :=
  '(u, p) ← m; Some (str "target_user" ++ 61 :: u ++ 38 :: str "target_password" ++ 61 :: p).
Definition url_query (m : option (bytes * bytes)) : bytes :=
  match print_arguments m with Some q => 63 :: q | None => [] end.
Definition print_url (creds : option (bytes * bytes)) (portal target : bytes) (lun : Z)
  (mutual : option (bytes * bytes)) : bytes :=
  str "iscsi://" ++ (print_credentials creds ++ portal ++ 47 :: target ++ 47 :: print_d lun) ++ url_query mutual.

Definition pair_ok (cs1 cs2 : bytes) (c : option (bytes * bytes)) : Prop :=
  match c with
  | Some (u, p) => u <> [] /\ p <> [] /\ without cs1 u /\ without cs2 p
  | None => True
  end.

(** The parts do not contain what separates them: [%], [@], [?], [/], [&]. *)
Record url_ok (creds : option (bytes * bytes)) (portal target : bytes) (lun : Z)
  (mutual : option (bytes * bytes)) : Prop := {
  uo_creds : pair_ok [37; 64; 63] [64; 63] creds;
  uo_mutual : pair_ok [38] [38] mutual;
  uo_portal : without [47; 63; 64] portal;
  uo_target : without [0; 47; 63; 64] target /\ target <> [] /\ spaced target = true;
  uo_lun : 0 <= lun < 2 ^ 31;
  uo_short : Z.of_nat (length (print_url creds portal target lun mutual)) < 8 + MAX_STRING_SIZE
}.

(** The credentials in force: those of the URL, or else of the environment. *)
Definition own_credentials (w : world) (creds : option (bytes * bytes)) : option (bytes * bytes) :=
  match creds with
  | Some c => Some c
  | None => complete (env w "LIBISCSI_CHAP_USERNAME") (env w "LIBISCSI_CHAP_PASSWORD")
  end.

Definition target_credentials (w : world) (mutual : option (bytes * bytes)) : option (bytes * bytes) :=
  match mutual with
  | Some c => Some c
  | None => complete (env w "LIBISCSI_CHAP_TARGET_USERNAME") (env w "LIBISCSI_CHAP_TARGET_PASSWORD")
  end.

Lemma target_user_arg iscsi v a w :
  url_arg iscsi (str "target_user" ++ 61 :: v) a w = Ret (Some (a <| arg_target_user := Some v |>), w).
Proof. unfold url_arg. rewrite cut_or_app by (by repeat constructor; set_solver). reflexivity. Qed.

Lemma target_password_arg iscsi v a w :
  url_arg iscsi (str "target_password" ++ 61 :: v) a w = Ret (Some (a <| arg_target_passwd := Some v |>), w).
Proof. unfold url_arg. rewrite cut_or_app by (by repeat constructor; set_solver). reflexivity. Qed.

Lemma without_app cs x y : without cs x -> without cs y -> without cs (x ++ y).
Proof. intros. by apply Forall_app. Qed.

(** Credentials of the URL replace the ones there. *)
Definition given (c : option (bytes * bytes)) (u p : option bytes) : option bytes * option bytes :=
  match c with Some (u, p) => (Some u, Some p) | None => (u, p) end.

Lemma arguments_run iscsi mutual tu tp w : pair_ok [38] [38] mutual ->
  let q := print_arguments mutual in
  url_args_loop iscsi (match q with Some q => length q | None => 0 end) q (Build_url_args tu tp None) w =
  Ret (Some (Build_url_args (given mutual tu tp).1 (given mutual tu tp).2 None), w).
Proof.
  intros Hm. destruct mutual as [[u p]|]; [|done]. destruct Hm as (_ & _ & Hu & Hp).
  change (print_arguments (Some (u, p))) with
    (Some (str "target_user" ++ 61 :: u ++ 38 :: str "target_password" ++ 61 :: p)). cbv beta iota zeta.
  set (q := str "target_user" ++ 61 :: u ++ 38 :: str "target_password" ++ 61 :: p).
  assert (Eq : q = (str "target_user" ++ 61 :: u) ++ 38 :: (str "target_password" ++ 61 :: p))
    by (unfold q; by rewrite <- app_assoc).
  assert (Hl : exists n, length q = S (S n)) by by eexists.
  destruct Hl as [n ->]. unfold url_args_loop at 1. change q with (116 :: tail q) at 1. cbv beta iota.
  change (116 :: tail q) with q. rewrite Eq, cut_or_app.
  2: { apply without_app; [by repeat constructor; set_solver|]. constructor; [set_solver|done]. }
  run (target_user_arg iscsi u (Build_url_args tu tp None) w). fold (url_args_loop iscsi).
  cbn [url_args_loop]. rewrite cut_or_none.
  2: { apply without_app; [by repeat constructor; set_solver|]. constructor; [set_solver|done]. }
  change (str "target_password" ++ 61 :: p) with (116 :: tail (str "target_password" ++ 61 :: p)) at 1.
  cbv beta iota. change (116 :: tail (str "target_password" ++ 61 :: p)) with (str "target_password" ++ 61 :: p).
  run (target_password_arg iscsi p ((Build_url_args tu tp None) <| arg_target_user := Some u |>) w).
  by destruct n.
Qed.

Lemma credentials_run creds s du dp : pair_ok [37; 64; 63] [64; 63] creds -> without [64] s ->
  url_credentials (print_credentials creds ++ s) du dp = (s, (given creds du dp).1, (given creds du dp).2).
Proof.
  intros Hc Hs. destruct creds as [[u p]|]; unfold url_credentials, print_credentials; cbn [app].
  - destruct Hc as (_ & _ & Hu & Hp). rewrite <- !app_assoc. cbn [app].
    rewrite <- (app_assoc p [64] s). replace (u ++ 37 :: p ++ [64] ++ s) with ((u ++ 37 :: p) ++ 64 :: s)
      by by rewrite <- app_assoc.
    rewrite cut_app; [by rewrite cut_app by by eapply without_one; [|exact Hu]; set_solver|].
    apply without_app; [eapply without_one; [|exact Hu]; set_solver|].
    constructor; [set_solver|]. eapply without_one; [|exact Hp]. set_solver.
  - by rewrite cut_none.
Qed.

Lemma path_run portal target lun : without [47] portal -> without [47] target -> target <> [] ->
  0 <= lun < 2 ^ 31 -> url_path true (portal ++ 47 :: target ++ 47 :: print_d lun) = inr (portal, target, lun).
Proof.
  intros Hp Ht Hne Hl. unfold url_path. cbn [negb]. rewrite cut_app by done.
  destruct target as [|b target]; [done|]. cbn [app].
  change (b :: target ++ 47 :: print_d lun) with ((b :: target) ++ 47 :: print_d lun).
  rewrite cut_app by done. cbv beta iota.
  destruct (print_d_digits lun ltac:(lia)) as [_ Hd]. pose proof (strtol_end_print lun ltac:(lia)) as He.
  rewrite strtol_print, i32_small by lia. destruct (print_d lun) as [|d s]; [done|]. by rewrite He.
Qed.

(** What parsing makes of the parts: mutual CHAP needs CHAP. *)
Definition parsed (creds : option (bytes * bytes)) (portal target : bytes) (lun : Z)
  (mutual : option (bytes * bytes)) : iscsi_url :=
  let mutual := match creds with Some _ => mutual | None => None end in
  {| url_portal := portal; url_target := cstr (url_decode target);
     url_user := default [] (fst <$> creds); url_passwd := default [] (snd <$> creds);
     url_target_user := default [] (fst <$> mutual); url_target_passwd := default [] (snd <$> mutual);
     url_lun := lun |}.

Definition short_pair (c : option (bytes * bytes)) : Prop :=
  match c with
  | Some (u, p) => Z.of_nat (length u) < MAX_STRING_SIZE /\ Z.of_nat (length p) < MAX_STRING_SIZE
  | None => True
  end.

(** The parts are short when the URL is. *)
Lemma parts_short creds portal target lun mutual : url_ok creds portal target lun mutual ->
  short_pair creds /\ short_pair mutual /\ Z.of_nat (length portal) < MAX_STRING_SIZE /\
  Z.of_nat (length target) < MAX_STRING_SIZE.
Proof.
  intros Hok. pose proof (uo_short _ _ _ _ _ Hok) as Hs. revert Hs. unfold print_url, url_query.
  rewrite !length_app. change (length (str "iscsi://")) with 8%nat. cbn [length]. rewrite length_app. cbn [length].
  unfold short_pair. destruct creds as [[u p]|], mutual as [[x y]|]; cbn [print_credentials print_arguments mbind option_bind];
    cbn [length]; repeat (rewrite length_app; cbn [length]); lia.
Qed.

Lemma complete_given cs1 cs2 c u p : pair_ok cs1 cs2 c ->
  complete (given c u p).1 (given c u p).2 = match c with Some c => Some c | None => complete u p end.
Proof. destruct c as [[x y]|]; [|done]. intros (Hu & Hp & _). by destruct x, y. Qed.

(** Credentials that are there are not empty. *)
Definition set_pair (c : option (bytes * bytes)) : Prop :=
  match c with Some (u, p) => u <> [] /\ p <> [] | None => True end.

Lemma complete_set u p : set_pair (complete u p).
Proof. by destruct u as [[|]|], p as [[|]|]. Qed.

Lemma own_set w cs1 cs2 c : pair_ok cs1 cs2 c -> set_pair (own_credentials w c).
Proof. destruct c as [[u p]|]; [by intros (? & ? & _)|intros _; apply complete_set]. Qed.

Lemma target_set w cs1 cs2 c : pair_ok cs1 cs2 c -> set_pair (target_credentials w c).
Proof. destruct c as [[u p]|]; [by intros (? & ? & _)|intros _; apply complete_set]. Qed.

Lemma fill_run portal target lun user passwd a c m :
  complete user passwd = c -> complete (arg_target_user a) (arg_target_passwd a) = m ->
  short_pair c -> short_pair m -> Z.of_nat (length portal) < MAX_STRING_SIZE ->
  Z.of_nat (length target) < MAX_STRING_SIZE ->
  (fill_url portal target lun user passwd a) <| url_target := cstr (url_decode target) |> =
  parsed c portal target lun m.
Proof.
  intros Ec Em S1 S2 S3 S4. unfold fill_url, parsed. rewrite Ec, Em.
  destruct c as [[u p]|]; [|cbn; by rewrite !strncpy_short].
  destruct m as [[x y]|]; cbn in S1, S2 |- *; rewrite !strncpy_short by apply S1 || apply S2 || done; done.
Qed.

(** The context after a URL was applied to it. *)
Definition url_login (u : iscsi_url) (l : login_state) : login_state :=
  l <| target_name := strncpy MAX_ISCSI_NAME_SIZE (url_target u) |>
    <| user := url_user u |> <| passwd := url_passwd u |>
    <| target_user := url_target_user u |> <| target_passwd := url_target_passwd u |>.

Lemma before_login_run msg m w w' : is_loggedin (ctx w) = false -> m w = Ret (tt, w') ->
  before_login msg m w = Ret (0, w').
Proof. intros Hl E. unfold before_login. run (get_ctx_run is_loggedin w). rewrite Hl. by run E. Qed.

Lemma apply_url_run creds portal target lun mutual w :
  set_pair creds -> short_pair creds -> set_pair mutual -> short_pair mutual ->
  is_loggedin (ctx w) = false ->
  let u := parsed creds portal target lun mutual in
  apply_url u None w = Ret (tt, w <| ctx ::= fun c => c <| login ::= url_login u |> |>).
Proof.
  intros Hc S1 Hm S2 Hl u. unfold apply_url.
  assert (E1 : iscsi_set_targetname (url_target u) w =
    Ret (0, w <| ctx ::= fun c => c <| login ::= fun l => l <| target_name := strncpy MAX_ISCSI_NAME_SIZE (url_target u) |> |> |>))
    by by apply before_login_run.
  run E1. unfold iscsi_set_initiator_username_pwd, iscsi_set_target_username_pwd, incomplete.
  unfold u, parsed, url_login. cbv zeta. cbn [url_user url_passwd url_target_user url_target_passwd url_target].
  destruct creds as [[a b]|]; [destruct Hc as (Ha & Hb)|]; cbn [fmap option_fmap option_map default from_option fst snd id].
  - cbn in S1. rewrite (bool_decide_false (a = [])), (bool_decide_false (b = [])) by done.
    rewrite (strncpy_short a), (strncpy_short b) by apply S1.
    destruct mutual as [[x y]|]; [destruct Hm as (Hx & Hy)|]; cbn [fmap option_fmap option_map default from_option fst snd id].
    + cbn in S2. rewrite (bool_decide_false (x = [])), (bool_decide_false (y = [])) by done.
      by rewrite (strncpy_short x), (strncpy_short y) by apply S2.
    + reflexivity.
  - reflexivity.
Qed.

Lemma short_target (target : bytes) : Z.of_nat (length target) < MAX_STRING_SIZE -> (length target < 256)%nat.
Proof. unfold MAX_STRING_SIZE. lia. Qed.

(** The credentials of the environment fit their arrays. *)
Definition env_short (w : world) : Prop :=
  short_pair (own_credentials w None) /\ short_pair (target_credentials w None).

(** [iscsi_parse_full_url] of a printed URL. *)
Lemma parse_run creds portal target lun mutual w : url_ok creds portal target lun mutual ->
  env_short w -> memory w -> is_loggedin (ctx w) = false ->
  let u := parsed (own_credentials w creds) portal target lun (target_credentials w mutual) in
  exists w', iscsi_parse_full_url true (print_url creds portal target lun mutual) w = Ret (Some u, w') /\
    ctx w' = (ctx w) <| mallocs ::= Z.add 1 |> <| login ::= url_login u |>.
Proof.
  intros Hok (N1 & N2) Hm Hl u. destruct (parts_short _ _ _ _ _ Hok) as (S1 & S2 & S3 & S4).
  assert (Sc : short_pair (own_credentials w creds)) by by destruct creds.
  assert (Sm : short_pair (target_credentials w mutual)) by by destruct mutual.
  pose proof Hok as [Hc Hmu Hp (Ht & Hne & Hsp) Hlun Hs].
  unfold iscsi_parse_full_url, iscsi_parse_url, print_url in *. rewrite strip_app. rewrite length_app in Hs.
  set (body := print_credentials creds ++ portal ++ 47 :: target ++ 47 :: print_d lun) in *.
  destruct (Z.leb_spec MAX_STRING_SIZE (Z.of_nat (length (body ++ url_query mutual)))) as [H|_].
  { change (length (str "iscsi://")) with 8%nat in Hs. lia. }
  assert (Hget : forall k : world -> IO (option iscsi_url), (getS ≫= k) w = k w w) by done. rewrite Hget.
  destruct (print_d_digits lun ltac:(lia)) as [Hd _].
  assert (Hb : forall c, c ∈ [63; 64] -> without [c] (portal ++ 47 :: target ++ 47 :: print_d lun)).
  { intros c Hin. assert (Hx : isdigit c = false /\ c <> 47).
    { apply elem_of_cons in Hin as [->|Hin]; [done|]. by apply list_elem_of_singleton in Hin as ->. }
    apply without_app; [eapply without_one; [|exact Hp]; set_solver|]. constructor; [set_solver|].
    apply without_app; [eapply without_one; [|exact Ht]; set_solver|]. constructor; [set_solver|].
    apply digits_without; [apply Hx|done]. }
  assert (Hq : cut_or 63 (body ++ url_query mutual) =
               (body, print_arguments mutual)).
  { assert (Hbody : without [63] body).
    { unfold body. apply without_app; [|apply Hb; set_solver]. destruct creds as [[a b]|]; [|constructor].
      destruct Hc as (_ & _ & Ha & Hb'). apply without_app; [eapply without_one; [|exact Ha]; set_solver|].
      constructor; [set_solver|]. apply without_app; [eapply without_one; [|exact Hb']; set_solver|]. repeat constructor; set_solver. }
    unfold url_query. destruct (print_arguments mutual) as [q|]; [by apply cut_or_app|]. rewrite app_nil_r. by apply cut_or_none. }
  rewrite Hq. run (arguments_run true mutual (env w "LIBISCSI_CHAP_TARGET_USERNAME") (env w "LIBISCSI_CHAP_TARGET_PASSWORD") w Hmu).
  unfold body. rewrite credentials_run by (try exact Hc; apply Hb; set_solver).
  rewrite path_run; [|eapply without_one; [|exact Hp]; set_solver|eapply without_one; [|exact Ht]; set_solver|done|done].
  assert (Em : iscsi_malloc w = Ret (true, w <| alloc_n ::= S |> <| ctx ::= fun c => c <| mallocs ::= Z.add 1 |> |>)).
  { unfold iscsi_malloc, malloc, when, set_ctx, mbind, M_bind, getS, modify, mret, M_ret. by rewrite Hm. }
  run Em. set (w1 := w <| alloc_n ::= S |> <| ctx ::= _ |>). cbn [negb].
  match goal with |- context [fill_url portal target lun ?x ?y ?z] => set (f := fill_url portal target lun x y z) end.
  assert (Eu : url_target f = target).
  { unfold f, fill_url. by repeat case_match; apply strncpy_short. }
  rewrite Eu. destruct (decode_run target (short_target _ S4)) as [junk Ed]; [|done|].
  { eapply Forall_impl; [exact Ht|]. set_solver. }
  rewrite Ed. rewrite (bind_run _ _ _ (url_decode target ++ 0 :: junk) w1) by done.
  rewrite cstr_nul.
  assert (Ef : f <| url_target := cstr (url_decode target) |> = u).
  { apply fill_run; [|cbn [arg_target_user arg_target_passwd]|exact Sc|exact Sm|exact S3|exact S4].
    - unfold own_credentials. by rewrite (complete_given _ _ _ _ _ Hc).
    - unfold target_credentials. by rewrite (complete_given _ _ _ _ _ Hmu). }
  rewrite Ef. cbn [when].
  run (apply_url_run _ portal target lun _ w1 (own_set w _ _ _ Hc) Sc (target_set w _ _ _ Hmu) Sm Hl). eexists. split; [reflexivity|]. done.
Qed.

(** ** What the code does with other URLs *)

(** An escape directly behind another one is not decoded: ["%41%42"] becomes
    ["A%42"]. *)
Example adjacent_escapes :
  iscsi_decode_url_string (str "%41%42" ++ [0]) = Ret (str "A%42" ++ [0; 50; 0]) /\
  url_decode (str "%41%42") = str "AB".
Proof. split; reflexivity. Qed.

(** An argument without a value, and an [auth] when there is no context. *)
Example auth_without_value :
  iscsi_parse_full_url true (str "iscsi://h/t/0?auth") sample_world = Undef NullDeref /\
  iscsi_parse_full_url false (str "iscsi://h/t/0?auth=md5") sample_world = Undef NullDeref.
Proof. split; reflexivity. Qed.

(** 255 bytes behind the scheme fill the array and leave no room for a NUL. *)
Example long_url :
  iscsi_parse_full_url true (str "iscsi://" ++ repeat 104 255) sample_world = Undef OutOfBounds.
Proof. reflexivity. Qed.

(** ** Properties *)

(** C29: A URL written from its parts is parsed back into them: for any user and
    password (or none), portal, target, LUN and CHAP credentials of the target (or none)
    free of the separators that follow them, shorter than the arrays and without
    adjacent escapes, iscsi_parse_full_url on a context that is not logged in, with
    memory, succeeds: the structure holds the portal, the decoded target, the LUN and
    the credentials - those of the URL, and where it has none those of the environment
    variables LIBISCSI_CHAP_* if both are set and not empty (and fit their arrays);
    those of the target only with own ones - and the same target name and credentials
    are stored in the context, which is otherwise unchanged. *)
Theorem full_url_roundtrip (creds mutual : option (bytes * bytes)) (portal target : bytes) (lun : Z)
  (w : world) :
  url_ok creds portal target lun mutual -> env_short w -> memory w -> is_loggedin (ctx w) = false ->
  let u := parsed (own_credentials w creds) portal target lun (target_credentials w mutual) in
  exists w', iscsi_parse_full_url true (print_url creds portal target lun mutual) w = Ret (Some u, w') /\
    ctx w' = (ctx w) <| mallocs ::= Z.add 1 |> <| login ::= url_login u |>.
Proof. exact (parse_run creds portal target lun mutual w). Qed.

Lemma full_url_roundtrip_witness :
  let w := sample_world <| ctx ::= fun c => c <| is_loggedin := false |> |>
    <| env := fun s => if String.eqb s "LIBISCSI_CHAP_TARGET_USERNAME" then Some (str "it")
                       else if String.eqb s "LIBISCSI_CHAP_TARGET_PASSWORD" then Some (str "tp") else None |> in
  exists w', iscsi_parse_full_url true (str "iscsi://me%pw@10.0.0.1:3260/iqn%3Ax/5") w =
    Ret (Some {| url_portal := str "10.0.0.1:3260"; url_target := str "iqn:x"; url_user := str "me";
                 url_passwd := str "pw"; url_target_user := str "it"; url_target_passwd := str "tp";
                 url_lun := 5 |}, w') /\
    target_name (login (ctx w')) = str "iqn:x" /\ user (login (ctx w')) = str "me".
Proof.
  intros w.
  assert (Hs : forall s cs : bytes, forallb (fun b => negb (existsb (Z.eqb b) cs)) s = true -> without cs s).
  { intros s cs Hb. apply Forall_forall. intros b Hin Hc. rewrite forallb_forall in Hb.
    apply list_elem_of_In in Hin. specialize (Hb b Hin).
    apply negb_true_iff in Hb. apply list_elem_of_In in Hc.
    assert (existsb (Z.eqb b) cs = true) by (apply existsb_exists; exists b; split; [done|apply Z.eqb_refl]). congruence. }
  destruct (full_url_roundtrip (Some (str "me", str "pw")) None
    (str "10.0.0.1:3260") (str "iqn%3Ax") 5 w) as (w' & E & C).
  - split; [| |by apply Hs|split; [by apply Hs|by split]|lia|vm_compute; reflexivity].
    + split; [done|]. split; [done|]. split; by apply Hs.
    + done.
  - by repeat split.
  - done.
  - reflexivity.
  - exists w'. split; [exact E|]. by rewrite C.
Defined.
