(* ===== verification/Connect.v ===== *)
(** Connecting and reconnecting: [iscsi_connect_async] and the TCP connect of
    src/lib/socket.c, and src/lib/connect.c.

    A connect in progress is a [connect_task]; its pointer is passed around as
    private data, here the number of its name.  The functions of the library
    that are installed as callbacks have the names below, functions of the
    user have other ones.  A callback of a command is an event of the trace;
    those of the library are run by [deliver] after the call that emitted
    them.

    The calls on the socket are the interface [Sockets].  [close], the log,
    [fd_dup_cb] and the choice of an interface to bind to are not modelled. *)

From S2P Require Import SList Prelude Hash Hashes Bytes Crc32c Task Cdb DataIn Inquiry ModePages Unmarshall Context Pdu Queue Complete Cancel Iovec Command Tasks Process Writer Reader Service Text Login Init Url.

(** ** Names and constants *)

Definition fn_iscsi_reconnect_cb : nat := 0.
Definition fn_iscsi_testunitready_cb : nat := 1.
Definition fn_iscsi_inquiry_page_0x0_cb : nat := 2.
Definition fn_iscsi_inquiry_page_0x80_cb : nat := 3.
Definition fn_iscsi_connect_cb : nat := 4.
Definition fn_iscsi_login_cb : nat := 5.

Definition ENOMEM : Z := 12.
Definition EINPROGRESS : Z := 115.
Definition AF_INET : Z := 2.
Definition AF_INET6 : Z := 10.
Definition SOL_SOCKET : Z := 1.
Definition SOL_TCP : Z := 6.
Definition SO_KEEPALIVE : Z := 9.
Definition TCP_KEEPIDLE : Z := 4.
Definition TCP_KEEPINTVL : Z := 5.
Definition TCP_KEEPCNT : Z := 6.
Definition TCP_SYNCNT : Z := 7.
Definition TCP_USER_TIMEOUT : Z := 18.

Definition SCSI_SENSE_NOT_READY : Z := 0x02.
Definition SCSI_SENSE_UNIT_ATTENTION : Z := 0x06.
Definition SCSI_SENSE_ASCQ_SANITIZE_IN_PROGRESS : Z := 0x041b.
Definition SCSI_SENSE_ASCQ_MEDIUM_NOT_PRESENT : Z := 0x3a00.
Definition SCSI_SENSE_ASCQ_MEDIUM_NOT_PRESENT_TRAY_CLOSED : Z := 0x3a01.
Definition SCSI_SENSE_ASCQ_MEDIUM_NOT_PRESENT_TRAY_OPEN : Z := 0x3a02.
Definition SCSI_INQUIRY_PERIPHERAL_DEVICE_TYPE_DIRECT_ACCESS : Z := 0x00.

(** What the platform answers, in the state it is asked in: the family of the
    first address of a host ([None] when it is not found), a new descriptor
    or -1, and the results of [dup2], [fcntl], [setsockopt] (level, option,
    value) and [connect] (family, host, port), the latter with [errno]. *)
Class Sockets := {
  getaddrinfo : bytes -> option Z;
  socket : world -> Z -> Z;
  dup2 : world -> Z -> Z -> Z;
  fcntl : world -> Z -> Z;
  setsockopt : world -> Z -> Z -> Z -> Z;
  connect : world -> Z -> bytes -> Z -> Z * Z
}.

(** ** Connecting the socket *)

(** [strrchr(s, c)]: what is before the last [c] and what is behind it. *)
Fixpoint rcut (c : Z) (s : bytes) : option (bytes * bytes) :=
  match s with
  | [] => None
  | b :: s =>
      match rcut c s with
      | Some (x, y) => Some (b :: x, y)
      | None => if b =? c then Some ([], s) else None
      end
  end.

(** The host and the port of a portal [host[:port][,tag]], the host in
    brackets or not; [None] when a bracket is missing. *)
Definition split_portal (portal : bytes) : option (bytes * Z) :=
  let host := match rcut 44 portal with Some (x, _) => x | None => portal end in
  let '(host, port) :=
    match rcut 58 host with
    | Some (x, y) => if bool_decide (93 ∈ y) then (host, 3260) else (x, atoi y)
    | None => (host, 3260)
    end in
  match host with
  | 91 :: h => match cut 93 h with Some (x, _) => Some (x, port) | None => None end
  | _ => Some (host, port)
  end.

Section Connect.
Context `{Sockets}.

(** [fcntl(fd, F_SETFL, v | O_NONBLOCK)] *)
Definition set_nonblocking (fd : Z) : IO Z := w ← getS; mret (fcntl w fd).

Definition set_tcp_sockopt (optname value : Z) : IO Z :=
  w ← getS; mret (setsockopt w SOL_TCP optname value).

Definition iscsi_set_tcp_keepalive (idle count interval : Z) : IO Z :=
  w ← getS;
  if negb (setsockopt w SOL_SOCKET SO_KEEPALIVE 1 =? 0) then
    _ ← iscsi_set_error "TCP: Failed to set socket option SO_KEEPALIVE. Error %s(%d)"; mret (-1) else
  rc ← set_tcp_sockopt TCP_KEEPCNT count;
  if negb (rc =? 0) then
    _ ← iscsi_set_error "TCP: Failed to set tcp keepalive count. Error %s(%d)"; mret (-1) else
  rc ← set_tcp_sockopt TCP_KEEPINTVL interval;
  if negb (rc =? 0) then
    _ ← iscsi_set_error "TCP: Failed to set tcp keepalive interval. Error %s(%d)"; mret (-1) else
  rc ← set_tcp_sockopt TCP_KEEPIDLE idle;
  if negb (rc =? 0) then
    _ ← iscsi_set_error "TCP: Failed to set tcp keepalive idle. Error %s(%d)"; mret (-1) else
  mret 0.

Definition set_tcp_user_timeout : IO Z :=
  c ← get_ctx conf;
  rc ← set_tcp_sockopt TCP_USER_TIMEOUT (tcp_user_timeout c);
  if negb (rc =? 0) then
    _ ← iscsi_set_error "TCP: Failed to set tcp user timeout. Error %s(%d)"; mret (-1) else mret 0.

Definition set_tcp_syncnt : IO Z :=
  c ← get_ctx conf;
  rc ← set_tcp_sockopt TCP_SYNCNT (tcp_syncnt c);
  if negb (rc =? 0) then
    _ ← iscsi_set_error "TCP: Failed to set tcp syn retries. Error %s(%d)"; mret (-1) else mret 0.

(** The new socket takes the descriptor of the old context. *)
Definition adopt_fd : IO Z :=
  c ← get_ctx id;
  match old_iscsi c with
  | None => mret 0
  | Some old =>
      if fd (conn c) =? fd (conn old) then mret 0 else
      w ← getS;
      if dup2 w (fd (conn c)) (fd (conn old)) =? -1 then mret (-1) else
      _ ← set_conn (fun k => k <| fd := fd (conn old) |>); mret 0
  end.

(** The options of the socket, of which a failure is an error message at
    most. *)
Definition socket_options : IO unit :=
  k ← get_ctx conn;
  rc ← set_nonblocking (fd k);
  _ ← set_conn (fun k => k <| tcp_nonblocking := rc =? 0 |>);
  c ← get_ctx conf;
  _ ← iscsi_set_tcp_keepalive (tcp_keepidle c) (tcp_keepcnt c) (tcp_keepintvl c);
  _ ← when (0 <? tcp_user_timeout c) (_ ← set_tcp_user_timeout; mret tt);
  when (0 <? tcp_syncnt c) (_ ← set_tcp_syncnt; mret tt).

(** [iscsi->drv->connect]: the address is the host and the port. *)
Definition iscsi_tcp_connect (family : Z) (host : bytes) (port : Z) : IO Z :=
  if negb ((family =? AF_INET) || (family =? AF_INET6)) then
    _ ← iscsi_set_error "Unknown address family :%d. Only IPv4/IPv6 supported so far."; mret (-1) else
  w ← getS;
  _ ← set_conn (fun k => k <| fd := socket w family |>);
  if socket w family =? -1 then
    _ ← iscsi_set_error "Failed to open iscsi socket. Errno:%s(%d)."; mret (-1) else
  rc ← adopt_fd;
  if rc =? -1 then mret (-1) else
  _ ← socket_options;
  w ← getS;
  let '(rc, err) := connect w family host port in
  if negb (rc =? 0) && negb (err =? EINPROGRESS) then
    _ ← iscsi_set_error "Connect failed with errno : %s(%d)";
    _ ← set_conn (fun k => k <| fd := -1 |>);
    mret (-1)
  else mret 0.

Definition iscsi_connect_async (portal : bytes) (cb : option iscsi_command_cb) (private : Z) : IO Z :=
  k ← get_ctx conn;
  if negb (fd k =? -1) then
    _ ← iscsi_set_error "Trying to connect but already connected."; mret (-1) else
  addr ← iscsi_strdup portal;
  match addr with
  | None => _ ← iscsi_set_error "Out-of-memory: Failed to strdup portal address."; mret (-1)
  | Some addr =>
      match split_portal addr with
      | None =>
          _ ← iscsi_free true;
          _ ← iscsi_set_error "Invalid target:%s  Missing ']' in IPv6 address"; mret (-1)
      | Some (host, port) =>
          _ ← iscsi_free true;
          match getaddrinfo host with
          | None =>
              _ ← iscsi_set_error "Invalid target:%s  Can not resolv into IPv4/v6."; mret (-1)
          | Some family =>
              if negb ((family =? AF_INET) || (family =? AF_INET6)) then
                _ ← iscsi_set_error "Unknown address family :%d. Only IPv4/IPv6 supported so far.";
                mret (-1) else
              _ ← set_conn (fun k => k <| socket_status_cb := cb |> <| connect_data := private |>);
              rc ← iscsi_tcp_connect family host (u16 port);
              if rc <? 0 then _ ← iscsi_set_error "Couldn't connect transport: %s"; mret (-1) else
              _ ← set_conf (fun s => s <| connected_portal := strncpy MAX_STRING_SIZE portal |>);
              mret 0
          end
      end
  end.

(** ** The connect task *)

Definition get_ct (p : Z) : IO connect_task :=
  w ← getS;
  match connects w !! Z.to_nat p with Some ct => mret ct | None => undefined UseAfterFree end.

Definition set_ct (p : Z) (f : connect_task -> connect_task) : IO unit :=
  ct ← get_ct p;
  modify (fun w => w <| connects ::= <[Z.to_nat p := f ct]> |>).

(** [iscsi_free(iscsi, ct)] *)
Definition free_ct (p : Z) : IO unit :=
  _ ← get_ct p;
  _ ← modify (fun w => w <| connects ::= delete (Z.to_nat p) |>);
  iscsi_free true.

(** ** The end of a reconnect *)

Context `{Transport}.

(** [ISCSI_LIST_REMOVE] and [ISCSI_LIST_ADD_END], until the outqueue is
    empty. *)
Fixpoint move_all (outqueue waitpdu : list nat) : list nat :=
  match outqueue with [] => waitpdu | p :: q => move_all q (waitpdu ++ [p]) end.

(** [iscsi->drv->free_pdu(old_iscsi, pdu)] *)
Definition free_on (old : iscsi_context) (p : nat) : IO iscsi_context :=
  '(_, old) ← on_ctx old (iscsi_tcp_free_pdu p); mret old.

(** What becomes of one PDU of the old context. *)
Definition requeue_pdu (p : nat) : IO unit :=
  pdu ← get_pdu p;
  if pdu_itt pdu =? 0xffffffff then mret tt
  else if truth (pdu_flags pdu &&& ISCSI_PDU_DROP_ON_RECONNECT) then
    call_callback p SCSI_STATUS_CANCELLED Data_none
  else
    t ← deref (cbdata_task pdu);
    _ ← set_task t (fun task => task <| iovector_in ::= scsi_task_reset_iov |>);
    _ ← set_task t (fun task => task <| iovector_out ::= scsi_task_reset_iov |>);
    _ ← iscsi_scsi_command_async (pdu_lun pdu) t (cbdata_callback pdu) None (cbdata_private_data pdu);
    mret tt.

Fixpoint requeue_all (old : iscsi_context) (tmp : list nat) : IO iscsi_context :=
  match tmp with
  | [] => mret old
  | p :: tmp => _ ← requeue_pdu p; old ← free_on old p; requeue_all old tmp
  end.

(** How long to wait after the [n]-th failure. *)
Definition backoff_of (n : Z) : IO Z :=
  if 10 <? n then
    r ← rand;
    let backoff := i32 (n + r mod 10 - 5) in
    mret (if 30 <? backoff then 30 else backoff)
  else mret n.

(** The attempt failed. *)
Definition reconnect_failed : IO unit :=
  c ← get_ctx id;
  old ← deref (old_iscsi c);
  let n := i32 (retry_cnt (conf old) + 1) in
  _ ← set_ctx (fun c => c <| old_iscsi := Some (old <| conf ::= fun s => s <| retry_cnt := n |> |>) |>);
  backoff ← backoff_of n;
  let backoff := if negb (reconnect_max_retries (conf c) =? -1) && (reconnect_max_retries (conf c) <? n)
                 then 0 else backoff in
  w ← getS;
  set_ctx (fun c => c <| next_reconnect := now w + backoff |> <| pending_reconnect := true |>).

(** The block of the old context is freed last. *)
Definition iscsi_reconnect_cb (status : Z) : IO unit :=
  if negb (status =? SCSI_STATUS_GOOD) then reconnect_failed else
  old ← get_ctx old_iscsi;
  _ ← set_ctx (fun c => c <| old_iscsi := None |>);
  _ ← iscsi_mt_spin_lock;
  old ← deref old;
  let tmp := move_all (outqueue old) (waitpdu old) in
  let old := old <| outqueue := [] |> <| waitpdu := [] |> in
  _ ← iscsi_mt_spin_unlock;
  old ← requeue_all old tmp;
  _ ← iscsi_mt_spin_lock;
  '(_, old) ← on_ctx old (_ ← free_incoming; free_current);
  _ ← iscsi_mt_spin_unlock;
  w ← getS;
  set_ctx (fun c => c <| mallocs ::= Z.add (mallocs old) |> <| frees ::= Z.add (frees old) |>
    <| next_reconnect := now w + 3 |> <| pending_reconnect := false |>).

(** ** The chain of a full connect *)

(** [ct->cb(iscsi, status, NULL, ct->private_data)] *)
Definition call_ct (p : Z) (status : Z) : IO unit :=
  ct ← get_ct p;
  if (ct_cb ct =? fn_iscsi_reconnect_cb)%nat then iscsi_reconnect_cb status
  else emit (Ev_callback (ct_cb ct) status Data_none (ct_private_data ct)).

(** The usual end: the callback, then the task is freed. *)
Definition settle (p : Z) (status : Z) : IO unit := _ ← call_ct p status; free_ct p.

(** The same, for a SCSI command of the chain. *)
Definition settle_task (p : Z) (t : nat) (status : Z) : IO unit :=
  _ ← call_ct p (if negb (status =? 0) then SCSI_STATUS_ERROR else SCSI_STATUS_GOOD);
  _ ← scsi_free_scsi_task t;
  free_ct p.

(** [old_iscsi] is NULL around [m], so that a command is sent here. *)
Definition without_old {A} (m : IO A) : IO A :=
  old ← get_ctx old_iscsi;
  _ ← set_ctx (fun c => c <| old_iscsi := None |>);
  r ← m;
  _ ← set_ctx (fun c => c <| old_iscsi := old |>);
  mret r.

Definition iscsi_testunitready_connect (lun : Z) (cb : nat) (private : Z) : IO (option nat) :=
  without_old (iscsi_testunitready_task lun (Some cb) private).

Definition iscsi_inquiry_task_connect (lun evpd page_code maxsize : Z) (cb : nat) (private : Z)
  : IO (option nat) :=
  without_old (iscsi_inquiry_task lun (Some cb) private evpd page_code maxsize).

Context `{Malloc}.

(** [scsi_datain_unmarshall(task)] on a task of the store. *)
Definition unmarshall_task (t : nat) : IO (option datain_view) :=
  task ← get_task t;
  '(v, task) ← lift (scsi_datain_unmarshall task);
  _ ← set_task t (fun _ => task);
  mret v.

(** The status after the serial number is compared. *)
Definition check_serial (usn : bytes) : IO Z :=
  c ← get_ctx conf;
  if bool_decide (unit_serial_number c = []) then
    _ ← set_conf (fun s => s <| unit_serial_number := strncpy MAX_STRING_SIZE usn |>); mret 0
  else if bool_decide (strncpy MAX_STRING_SIZE (unit_serial_number c) = strncpy MAX_STRING_SIZE usn) then
    mret 0
  else _ ← iscsi_set_error "unit serial number mismatch. got [%s] expected [%s]"; mret 1.

Definition iscsi_inquiry_page_0x80_cb (status : Z) (t : nat) (ct : Z) : IO unit :=
  status ←
    (if status =? 0 then
       v ← unmarshall_task t;
       match v with
       | Some (View_inquiry (Data_unit_serial_number inq)) => check_serial (cstr (usn_usn inq))
       | Some _ => undefined OutOfBounds
       | None =>
           _ ← iscsi_set_error "iscsi_inquiry_task datain_unmarshall failed. could not read vpd page 0x80.";
           mret 1
       end
     else
       _ ← iscsi_set_error "iscsi_inquiry_task failed. could not read vpd page 0x80."; mret status);
  settle_task ct t status.

(** The page of standard data; [None] when the serial number was asked for. *)
Definition check_standard (inq : scsi_inquiry_standard) (ct : Z) : IO (option Z) :=
  if (inq_rmb inq =? 0) &&
     (inq_device_type inq =? SCSI_INQUIRY_PERIPHERAL_DEVICE_TYPE_DIRECT_ACCESS) then
    c ← get_ct ct;
    r ← iscsi_inquiry_task_connect (ct_lun c) 1 0x80 (MAX_STRING_SIZE + 4)
          fn_iscsi_inquiry_page_0x80_cb ct;
    match r with
    | Some _ => mret None
    | None => _ ← iscsi_set_error "iscsi_inquiry_task for evpd 0x80 failed."; mret (Some 1)
    end
  else mret (Some 0).

Definition iscsi_inquiry_page_0x0_cb (status : Z) (t : nat) (ct : Z) : IO unit :=
  r ←
    (if status =? 0 then
       v ← unmarshall_task t;
       match v with
       | Some (View_inquiry (Data_standard inq)) => check_standard inq ct
       | Some _ => undefined OutOfBounds
       | None =>
           _ ← iscsi_set_error "iscsi_inquiry_task datain_unmarshall failed. could not read vpd page 0x0.";
           mret (Some 1)
       end
     else
       _ ← iscsi_set_error "iscsi_inquiry_task failed. could not read vpd page 0x0."; mret (Some status));
  match r with None => mret tt | Some status => settle_task ct t status end.

(** A failure to send a command of the chain. *)
Definition or_settle (ct : Z) (msg : string) (sent : option nat) : IO unit :=
  match sent with
  | Some _ => mret tt
  | None => _ ← iscsi_set_error msg; settle ct SCSI_STATUS_ERROR
  end.

(** The statuses of a TEST UNIT READY that do not fail a login. *)
Definition tolerated (status : Z) (s : scsi_sense) : Z :=
  let status :=
    if negb (status =? 0) && (key s =? SCSI_SENSE_NOT_READY) &&
       ((ascq s =? SCSI_SENSE_ASCQ_MEDIUM_NOT_PRESENT) ||
        (ascq s =? SCSI_SENSE_ASCQ_MEDIUM_NOT_PRESENT_TRAY_CLOSED) ||
        (ascq s =? SCSI_SENSE_ASCQ_MEDIUM_NOT_PRESENT_TRAY_OPEN)) then 0 else status in
  let status := if status =? SCSI_STATUS_RESERVATION_CONFLICT then 0 else status in
  if negb (status =? 0) && (key s =? SCSI_SENSE_NOT_READY) &&
     (ascq s =? SCSI_SENSE_ASCQ_SANITIZE_IN_PROGRESS) then 0 else status.

Definition inquire (lun ct : Z) : IO unit :=
  r ← iscsi_inquiry_task_connect lun 0 0 96 fn_iscsi_inquiry_page_0x0_cb ct;
  or_settle ct "iscsi_inquiry_task for vpd 0x0 failed." r.

(** A unit attention: once more, but for ten times at most. *)
Definition unit_attention (t : nat) (ct : Z) : IO unit :=
  _ ← set_ct ct (fun c => c <| ct_num_uas ::= fun n => i32 (n + 1) |>);
  c ← get_ct ct;
  if 10 <? ct_num_uas c then
    _ ← iscsi_set_error "iscsi_testunitready Too many UnitAttentions during login.";
    _ ← settle ct SCSI_STATUS_ERROR;
    scsi_free_scsi_task t
  else
    r ← iscsi_testunitready_connect (ct_lun c) fn_iscsi_testunitready_cb ct;
    _ ← or_settle ct "iscsi_testunitready failed." r;
    scsi_free_scsi_task t.

Definition iscsi_testunitready_cb (status : Z) (t : nat) (ct : Z) : IO unit :=
  task ← get_task t;
  let s := sense task in
  if negb (status =? 0) && (key s =? SCSI_SENSE_UNIT_ATTENTION) then unit_attention t ct else
  if negb (tolerated status s =? 0) then
    _ ← call_ct ct SCSI_STATUS_ERROR;
    _ ← scsi_free_scsi_task t;
    free_ct ct
  else c ← get_ct ct; inquire (ct_lun c) ct.

(** A redirected login connects to the address the target gave. *)
Definition iscsi_login_cb (status : Z) (ct : Z) : IO unit :=
  c ← get_ctx id;
  if (status =? SCSI_STATUS_REDIRECT) && negb (bool_decide (target_address (login c) = [])) then
    _ ← iscsi_disconnect;
    rc ← iscsi_connect_async (target_address (login c)) (Some (Cb_user fn_iscsi_connect_cb))
           (connect_data (conn c));
    if negb (rc =? 0) then free_ct ct else mret tt
  else if negb (status =? 0) then settle ct SCSI_STATUS_ERROR
  else
    t ← get_ct ct;
    if negb (no_ua_on_reconnect (conf c) =? 0) ||
       (negb (ct_lun t =? -1) && negb (bool_decide (is_Some (old_iscsi c)))) then
      r ← iscsi_testunitready_connect (ct_lun t) fn_iscsi_testunitready_cb ct;
      or_settle ct "iscsi_testunitready_async failed." r
    else if negb (ct_lun t =? -1) then inquire (ct_lun t) ct
    else settle ct SCSI_STATUS_GOOD.

Context `{Hashes}.

Definition iscsi_connect_cb (status : Z) (ct : Z) : IO unit :=
  if negb (status =? 0) then
    _ ← iscsi_set_error "Failed to connect to iSCSI socket. %s"; settle ct SCSI_STATUS_ERROR
  else
    rc ← iscsi_login_async (Some (Cb_user fn_iscsi_login_cb)) ct;
    if negb (rc =? 0) then
      _ ← iscsi_set_error "iscsi_login_async failed: %s"; settle ct SCSI_STATUS_ERROR
    else mret tt.

(** The portal is [None] when it is the array of the context itself. *)
Definition iscsi_full_connect_async (portal : option bytes) (lun : Z) (cb : nat) (private : Z) : IO Z :=
  _ ← set_conf (fun s => s <| ctx_lun := lun |>);
  _ ← match portal with
      | None => mret tt
      | Some p => set_conf (fun s => s <| Context.portal := strncpy MAX_STRING_SIZE p |>)
      end;
  ok ← iscsi_malloc;
  if negb ok then
    _ ← iscsi_set_error "Out-of-memory. Failed to allocate connect_task structure."; mret (- ENOMEM) else
  w ← getS;
  let p := match portal with None => Context.portal (conf (ctx w)) | Some p => p end in
  let ct := Z.of_nat (fresh w) in
  _ ← modify (fun w => w <| fresh ::= S |> <| connects ::= <[fresh w := Build_connect_task cb private lun 0]> |>);
  rc ← iscsi_connect_async p (Some (Cb_user fn_iscsi_connect_cb)) ct;
  if negb (rc =? 0) then _ ← free_ct ct; mret (- ENOMEM) else mret 0.

(** ** Reconnecting *)

Definition iscsi_defer_reconnect : IO unit :=
  _ ← set_conf (fun s => s <| reconnect_deferred := 1 |>); iscsi_cancel_pdus.

(** What the new context takes over from [c]. *)
Definition take_over (c : iscsi_context) : IO unit :=
  let l := login c in
  _ ← iscsi_set_targetname (target_name l);
  _ ← iscsi_set_header_digest (want_header_digest l);
  _ ← iscsi_set_data_digest (want_data_digest l);
  _ ← iscsi_set_initiator_username_pwd (user l) (passwd l);
  _ ← iscsi_set_target_username_pwd (target_user l) (target_passwd l);
  _ ← iscsi_set_session_type ISCSI_SESSION_NORMAL;
  let k := conf c in
  _ ← set_conf (fun s => s <| ctx_lun := ctx_lun k |>
        <| Context.portal := strncpy MAX_STRING_SIZE (Context.portal k) |>
        <| bind_interfaces := strncpy MAX_STRING_SIZE (bind_interfaces k) |>
        <| bind_interfaces_cnt := bind_interfaces_cnt k |>
        <| unit_serial_number := strncpy MAX_STRING_SIZE (unit_serial_number k) |>
        <| log_level := log_level k |> <| tcp_user_timeout := tcp_user_timeout k |>
        <| tcp_keepidle := tcp_keepidle k |> <| tcp_keepcnt := tcp_keepcnt k |>
        <| tcp_keepintvl := tcp_keepintvl k |> <| tcp_syncnt := tcp_syncnt k |>
        <| cache_allocations := cache_allocations k |>
        <| no_ua_on_reconnect := no_ua_on_reconnect k |>
        <| reconnect_max_retries := reconnect_max_retries k |>);
  set_ctx (fun c' => c' <| scsi_timeout := scsi_timeout c |>).

(** The context to come back to: the one of the first attempt. *)
Definition context_kept (c : iscsi_context) : IO (option iscsi_context) :=
  match old_iscsi c with
  | Some old => mret (Some (old <| mallocs ::= Z.add (mallocs c) |> <| frees ::= Z.add (frees c) |>))
  | None => ok ← malloc; mret (if (ok : bool) then Some c else None)
  end.

Definition start_reconnect : IO Z :=
  c ← get_ctx id;
  tmp ← iscsi_create_context (initiator_name (login c));
  match tmp with
  | None => mret (-1)
  | Some tmp =>
      '(rc, tmp) ← on_ctx tmp (iscsi_init_transport (transport (login c)));
      if negb (rc =? 0) then mret (-1) else
      '(_, tmp) ← on_ctx tmp (take_over c);
      old ← context_kept c;
      match old with
      | None => mret (-1)
      | Some old =>
          _ ← set_ctx (fun _ => tmp <| old_iscsi := Some old |>);
          iscsi_full_connect_async None (ctx_lun (conf tmp)) fn_iscsi_reconnect_cb 0
      end
  end.

Definition reconnect (force : bool) : IO Z :=
  w ← getS;
  let c := ctx w in
  if negb (reconnect_deferred (conf c) =? 0) then mret (-1) else
  if negb (no_auto_reconnect (conf c) =? 0) then _ ← iscsi_defer_reconnect; mret 0 else
  let again := bool_decide (is_Some (old_iscsi c)) in
  if again && negb (pending_reconnect c) && negb force then mret 0 else
  if now w <? next_reconnect c then _ ← set_ctx (fun c => c <| pending_reconnect := true |>); mret 0 else
  if negb (reconnect_max_retries (conf c) =? -1) &&
     match old_iscsi c with Some old => reconnect_max_retries (conf c) <? retry_cnt (conf old) | None => false end
  then _ ← iscsi_defer_reconnect; mret (-1)
  else start_reconnect.

Definition iscsi_reconnect : IO Z := reconnect false.
Definition iscsi_force_reconnect : IO Z := reconnect true.

Definition iscsi_reset_next_reconnect : IO unit :=
  w ← getS; set_ctx (fun c => c <| next_reconnect := now w |>).

Definition iscsi_set_noautoreconnect (state : Z) : IO unit :=
  _ ← set_conf (fun s => s <| no_auto_reconnect := state |>);
  c ← get_ctx conf;
  if (state =? 0) && negb (reconnect_deferred c =? 0) then
    _ ← set_conf (fun s => s <| reconnect_deferred := 0 |>);
    _ ← iscsi_reconnect; mret tt
  else mret tt.

Definition iscsi_set_no_ua_on_reconnect (state : Z) : IO unit :=
  set_conf (fun s => s <| no_ua_on_reconnect := state |>).

Definition iscsi_set_reconnect_max_retries (count : Z) : IO unit :=
  set_conf (fun s => s <| reconnect_max_retries := count |>).

(** ** What the rest of the library calls *)

(** The callback of a connect. *)
Definition connect_status_cb (cb : iscsi_command_cb) (status private : Z) : IO unit :=
  match cb with
  | Cb_user f =>
      if (f =? fn_iscsi_connect_cb)%nat then iscsi_connect_cb status private
      else emit (Ev_callback f status Data_none private)
  | Cb_reconnect_after_logout => iscsi_reconnect_after_logout status
  | Cb_scsi_response => undefined NullDeref
  end.

Definition connecting : Connect := {|
  Service.iscsi_reconnect := iscsi_reconnect;
  Service.iscsi_reconnect_cb := iscsi_reconnect_cb;
  Service.run_status_cb := connect_status_cb
|}.

(** The task of a SCSI callback. *)
Definition callback_task (data : command_data) : IO nat :=
  match data with Data_task t => mret t | _ => undefined NullDeref end.

(** Run one callback, if its function is of the library. *)
Definition library_callback (e : event) : IO unit :=
  match e with
  | Ev_wakeup => mret tt
  | Ev_callback f status data private =>
      if (f =? fn_iscsi_login_cb)%nat then iscsi_login_cb status private else
      if (f =? fn_iscsi_testunitready_cb)%nat then
        t ← callback_task data; iscsi_testunitready_cb status t private else
      if (f =? fn_iscsi_inquiry_page_0x0_cb)%nat then
        t ← callback_task data; iscsi_inquiry_page_0x0_cb status t private else
      if (f =? fn_iscsi_inquiry_page_0x80_cb)%nat then
        t ← callback_task data; iscsi_inquiry_page_0x80_cb status t private else
      mret tt
  end.

(** Run the callbacks of the library from event [i] of the trace on. *)
Fixpoint deliver (fuel : nat) (i : nat) : IO unit :=
  w ← getS;
  match trace w !! i with
  | None => mret tt
  | Some e =>
      match fuel with
      | O => undefined NoFuel
      | S fuel => _ ← library_callback e; deliver fuel (S i)
      end
  end.

(** A call, and the callbacks of the library it makes. *)
Definition delivering {A} (fuel : nat) (m : IO A) : IO A :=
  w ← getS;
  r ← m;
  _ ← deliver fuel (length (trace w));
  mret r.

End Connect.

(** ** The knot

    Queueing a PDU may run the service routine of the transport, which may
    reconnect, which queues PDUs: [connect_at n] allows [n] turns. *)

Definition connect_stuck : Connect := {|
  Service.iscsi_reconnect := undefined NoFuel;
  Service.iscsi_reconnect_cb := fun _ => undefined NoFuel;
  Service.run_status_cb := fun _ _ _ => undefined NoFuel
|}.

Fixpoint connect_at `{Sockets} `{Hashes} (n : nat) : Connect :=
  match n with
  | O => connect_stuck
  | S n => @connecting _ (@tcp_transport (connect_at n)) _
  end.

(** A platform on which everything succeeds. *)
Definition sample_sockets : Sockets := {|
  getaddrinfo := fun _ => Some AF_INET; socket := fun _ _ => 9; dup2 := fun _ _ fd => fd;
  fcntl := fun _ _ => 0; setsockopt := fun _ _ _ _ => 0; connect := fun _ _ _ _ => (-1, EINPROGRESS)
|}.
