(* ===== verification/Reconnect.v ===== *)
(** What a reconnect does to the commands that were in flight
    ([iscsi_reconnect_cb] of src/lib/connect.c), and to the settings of the
    context ([reconnect]).

    The PDUs of the old context are taken in the order of its queues: each
    SCSI command is sent again on the new session under a new task tag and
    CmdSN, every other PDU is cancelled, and all of them are freed. *)

From S2P Require Import SList Prelude Bytes Crc32c Task Cdb Context Pdu Queue Complete Cancel Iovec Command Tasks Process Writer Reader Service Text Login Init Url Connect.

(** ** The PDUs of the old context *)

(** The PDU is a command that is sent again. *)
Definition reissued (w : world) (p : nat) : bool :=
  let a := the_pdu w p in
  negb (pdu_itt a =? 0xffffffff) && negb (truth (pdu_flags a &&& ISCSI_PDU_DROP_ON_RECONNECT)).

(** The PDU is discarded, and its callback is called. *)
Definition discarded (w : world) (p : nat) : bool :=
  let a := the_pdu w p in
  negb (pdu_itt a =? 0xffffffff) && truth (pdu_flags a &&& ISCSI_PDU_DROP_ON_RECONNECT).

Definition the_task (w : world) (t : nat) : scsi_task := default new_task (tasks w !! t).

(** The task of a command that is sent again. *)
Definition task_of (w : world) (p : nat) : option nat :=
  if reissued w p then cbdata_task (the_pdu w p) else None.

(** The number of Data-Out PDUs that follow the command at once. *)
Definition train_of (w : world) (p : nat) : nat :=
  match cbdata_task (the_pdu w p) with Some t => train_length w (the_task w t) | None => 0%nat end.

Definition commands (w : world) (ps : list nat) : list nat := filter (fun p => reissued w p = true) ps.

(** How many PDUs are queued for the commands [ps]. *)
Fixpoint total (w : world) (ps : list nat) : nat :=
  match ps with [] => 0 | p :: ps => S (train_of w p) + total w ps end.

(** The names of the command PDUs, the first of them being [x]. *)
Fixpoint starts (w : world) (x : nat) (ps : list nat) : list nat :=
  match ps with [] => [] | p :: ps => x :: starts w (x + S (train_of w p)) ps end.

(** The calls made for the PDUs [ps]. *)
Definition cancelled (w : world) (ps : list nat) : list event :=
  concat (map (fun p => if discarded w p
                        then cb_event (the_pdu w p) SCSI_STATUS_CANCELLED Data_none else []) ps).

Definition is_call (e : event) : bool :=
  match e with Ev_callback _ _ _ _ => true | Ev_wakeup => false end.

(** The task before it is sent again. *)
Definition rewound (task : scsi_task) : scsi_task :=
  task <| iovector_in ::= scsi_task_reset_iov |> <| iovector_out ::= scsi_task_reset_iov |>.

(** The context after [k] commands. *)
Definition numbered (k : nat) (c : iscsi_context) : iscsi_context :=
  c <| itt := (itt c + Z.of_nat k) mod 0xffffffff |> <| cmdsn := u32 (cmdsn c + Z.of_nat k) |>.

Section Reissue.
Context `{Transport}.

(** PDU [p] of [w] is, as the [k]-th command sent again, the PDU [x] of [w']:
    same task, LUN, callback and private data, the task tag and CmdSN that are
    due, and the Data-Out PDUs of the command behind it. *)
Definition reissue (w w' : world) (k p x : nat) : Prop :=
  let a := the_pdu w p in
  exists t c, cbdata_task a = Some t /\ is_Some (tasks w !! t) /\
    let task := rewound (the_task w t) in
    let v := w <| ctx ::= numbered k |> in
    pdus w' !! x = Some c /\ cbdata_task c = Some t /\
    (exists task', tasks w' !! t = Some task' /\ same_command task task' /\
       task_itt task' = itt (ctx v) /\ task_cmdsn task' = cmdsn (ctx v)) /\
    queued_any v (pdu_lun a) task (cbdata_callback a) (cbdata_private_data a) c /\
    forall i, (i < train_length w task)%nat ->
      let max := target_max_recv_data_segment_length (ctx w) in
      let left := unsolicited w task - Z.of_nat i * max in
      exists pdu h, pdus w' !! (S x + i)%nat = Some pdu /\
        carries c pdu 0xffffffff (Z.of_nat i)
          (immediate_len (phase task (ctx w)) (Task.expxferlen task) + Z.of_nat i * max)
          (MIN left max) (left <=? max) h.

(** A task that a command can carry. *)
Definition sized (task : scsi_task) : Prop :=
  (0 <= cdb_size task <= 16 /\ length (cdb task) = 16%nat) /\ 0 <= Task.expxferlen task < 2 ^ 31.

Record requeueable (w : world) (p : nat) : Prop := {
  ra_pdu : is_Some (pdus w !! p);
  ra_task : reissued w p = true -> exists t, cbdata_task (the_pdu w p) = Some t /\
    is_Some (tasks w !! t) /\ sized (the_task w t);
  ra_cb : discarded w p = true -> pdu_callback (the_pdu w p) <> Some Cb_scsi_response
}.

(** The CmdSN of PDU [x] is before the next [n] ones. *)
Definition older (w : world) (n : nat) (x : nat) : Prop :=
  let sn := pdu_cmdsn (the_pdu w x) in
  0 <= sn < 2 ^ 32 /\
  exists d, 0 <= d /\ d + Z.of_nat n < 2 ^ 31 /\ cmdsn (ctx w) = u32 (sn + d).

(** The new session, on which [n] commands can be sent. *)
Record resumed (w : world) (n : nat) : Prop := {
  rs_ready : ready w;
  rs_old : old_iscsi (ctx w) = None;
  rs_session : session_type (ctx w) = ISCSI_SESSION_NORMAL;
  rs_login : is_loggedin (ctx w) = true \/ pending_reconnect (ctx w) = true;
  rs_itt : 0 <= itt (ctx w) < 0xffffffff;
  rs_cmdsn : 0 <= cmdsn (ctx w) < 2 ^ 32;
  rs_max : 0 < target_max_recv_data_segment_length (ctx w) < 2 ^ 24;
  rs_burst : 0 <= first_burst_length (ctx w) < 2 ^ 32;
  rs_room : Z.of_nat n < 2 ^ 31;
  rs_queue : Forall (older w n) (outqueue (ctx w))
}.

(** From [w] to [v], the PDUs [ps] have been dealt with. *)
Record requeued (w v : world) (ps : list nat) : Prop := {
  rq_ctx : exists m pd,
    ctx v = (numbered (length (commands w ps)) (ctx w)) <| mallocs := m |>
      <| outqueue := outqueue (ctx w) ++ seq (fresh w) (total w (commands w ps)) |>
      <| pending_reconnect := pd |> /\ (pd = pending_reconnect (ctx w) \/ pd = true);
  rq_env : alloc_ok v = alloc_ok w /\ now v = now w /\ have_mt v = have_mt w /\
    have_pthread v = have_pthread w /\ connects v = connects w;
  rq_fresh : fresh v = (fresh w + total w (commands w ps))%nat;
  rq_freed : forall p, p ∈ ps -> pdus v !! p = None;
  rq_kept : forall x, (x < fresh w)%nat -> x ∉ ps -> pdus v !! x = pdus w !! x;
  rq_tasks : forall t, t ∉ omap (task_of w) ps -> tasks v !! t = tasks w !! t;
  rq_trace : exists evs, trace v = trace w ++ evs /\ filter (fun e => is_call e = true) evs = cancelled w ps;
  rq_ready : ready v;
  rq_queue : forall m, Forall (older w (m + length (commands w ps))) (outqueue (ctx w)) ->
    Z.of_nat (m + length (commands w ps)) < 2 ^ 31 -> Forall (older v m) (outqueue (ctx v));
  rq_cmds : forall k p x, commands w ps !! k = Some p ->
    starts w (fresh w) (commands w ps) !! k = Some x -> reissue w v k p x
}.

(** ** Lists *)

Lemma move_all_app q l : move_all q l = l ++ q.
Proof. revert l. induction q as [|p q IH]; intros l; [by rewrite app_nil_r|]. cbn. by rewrite IH, <- app_assoc. Qed.

Lemma commands_cons w p ps : commands w (p :: ps) = (if reissued w p then [p] else []) ++ commands w ps.
Proof. unfold commands. rewrite filter_cons. by destruct (reissued w p). Qed.

Lemma wakeups_calls evs : Forall (.= Ev_wakeup) evs -> filter (fun e => is_call e = true) evs = [].
Proof. induction 1 as [|e evs -> _ IH]; [done|]. by rewrite filter_cons_False. Qed.

Lemma calls_of_event pdu st data : filter (fun e => is_call e = true) (cb_event pdu st data) = cb_event pdu st data.
Proof. unfold cb_event. repeat case_match; done. Qed.

Lemma omap_cons {A B} (f : A -> option B) x l :
  omap f (x :: l) = match f x with Some y => y :: omap f l | None => omap f l end.
Proof. reflexivity. Qed.

(** ** The numbers of the commands *)

Lemma numbered_0 c : 0 <= itt c < 0xffffffff -> 0 <= cmdsn c < 2 ^ 32 -> numbered 0 c = c.
Proof.
  intros Hi Hc. unfold numbered. cbn [Z.of_nat]. rewrite !Z.add_0_r, Z.mod_small, u32_small by done.
  by destruct c.
Qed.

Lemma numbered_add j k c : numbered k (numbered j c) = numbered (j + k) c.
Proof.
  destruct c. unfold numbered, u32. cbn. rewrite !Zplus_mod_idemp_l, Nat2Z.inj_add.
  by rewrite !Z.add_assoc.
Qed.

Lemma older_later w n x : older w n x -> later w (cmdsn (ctx w)) x = false.
Proof.
  intros (Hs & d & H0 & Hd & E). unfold later. apply Z.ltb_ge. rewrite E.
  rewrite serial32_sgn by (try apply u32_range; done).
  assert (Ei : i32 (u32 (pdu_cmdsn (the_pdu w x) + d) - pdu_cmdsn (the_pdu w x)) = d); [|rewrite Ei; lia].
  rewrite <- (i32_small d) at 2 by lia. unfold i32, u32. cbv zeta.
  by rewrite Zminus_mod_idemp_l, Z.add_simpl_l.
Qed.

Lemma resumed_splits w n : resumed w n -> splits w (cmdsn (ctx w)) (outqueue (ctx w)) [].
Proof.
  intros [_ _ _ _ _ _ _ _ _ Hq]. split; [by rewrite app_nil_r|]. split; [|done].
  eapply Forall_impl; [exact Hq|]. intros x. apply older_later.
Qed.

(** ** Freeing a PDU of the old context *)

(** The old context once [p] is freed. *)
Definition old_without (p : nat) (old : iscsi_context) (f : Z) : iscsi_context :=
  old <| frees := f |>
    <| outqueue_current := if bool_decide (outqueue_current old = Some p) then None else outqueue_current old |>.

Lemma free_pdu_world w p pdu : pdus w !! p = Some pdu -> exists f, iscsi_tcp_free_pdu p w =
  Ret (tt, w <| ctx := old_without p (ctx w) f |> <| pdus ::= delete p |>).
Proof.
  intros Hp. unfold iscsi_tcp_free_pdu. run (get_pdu_run w p pdu Hp).
  set (a := bool_decide (is_Some (ddata (outdata pdu)))). set (b := bool_decide (is_Some (ddata (indata pdu)))).
  clearbody a b. unfold iscsi_free, when, get_ctx, set_ctx, gets, modify, mbind, M_bind, mret, M_ret.
  unfold old_without. destruct w as [[]].
  exists (1 + (if b then 1 + (if a then 1 + frees else frees) else (if a then 1 + frees else frees))).
  destruct a, b; cbn; destruct (bool_decide (outqueue_current = Some p)); reflexivity.
Qed.

Lemma free_on_run old w p pdu : pdus w !! p = Some pdu ->
  exists f, free_on old p w = Ret (old_without p old f, w <| pdus ::= delete p |>).
Proof.
  intros Hp. set (w0 := w <| ctx := old |>).
  destruct (free_pdu_world w0 p pdu Hp) as [f E]. exists f.
  assert (E2 : on_ctx old (iscsi_tcp_free_pdu p) w = Ret ((tt, old_without p old f), w <| pdus ::= delete p |>)).
  { unfold on_ctx. fold w0. rewrite E. by destruct w. }
  unfold free_on. by run E2.
Qed.

Lemma ready_delete w p : ready w -> p ∉ outqueue (ctx w) -> ready (w <| pdus ::= delete p |>).
Proof.
  intros [Hl Hqt Hm Hn Hq] Hp. split; try done.
  - intros x [a Ha]. cbn in Ha. apply lookup_delete_Some in Ha as [_ Ha]. apply Hn. by eexists.
  - change (outqueue (ctx (w <| pdus ::= delete p |>))) with (outqueue (ctx w)).
    rewrite Forall_forall in Hq |- *. intros x Hx. destruct (Hq x Hx) as (a & b & Ha & Hb).
    exists a, b. split; [|done]. cbn. rewrite lookup_delete_ne; [done|]. intros ->. done.
Qed.

(** ** One PDU *)

Lemma discarded_run w p : is_Some (pdus w !! p) -> discarded w p = true ->
  pdu_callback (the_pdu w p) <> Some Cb_scsi_response ->
  exists pd, requeue_pdu p w = Ret (tt, w <| ctx ::= fun c => c <| pending_reconnect := pd |> |>
      <| trace ::= fun t => t ++ cb_event (the_pdu w p) SCSI_STATUS_CANCELLED Data_none |>) /\
    (pd = pending_reconnect (ctx w) \/ pd = true).
Proof.
  intros [a Ha] Hd Hc. unfold discarded, the_pdu in *. rewrite Ha in *. cbn [default from_option id] in *.
  apply andb_true_iff in Hd as [H1 H2]. apply negb_true_iff in H1. unfold requeue_pdu.
  run (get_pdu_run w p a Ha). rewrite H1, H2. unfold call_callback. run (get_pdu_run w p a Ha).
  unfold cb_event. destruct (pdu_callback a) as [[| |f]|]; [done|exists true|exists (pending_reconnect (ctx w))..];
    (split; [|first [by left|by right]]); destruct w as [[]]; unfold upd; cbn; rewrite ?app_nil_r; reflexivity.
Qed.

(** Neither sent again nor discarded: a PDU without task tag of its own. *)
Lemma untagged_run w p : is_Some (pdus w !! p) -> reissued w p = false -> discarded w p = false ->
  requeue_pdu p w = Ret (tt, w).
Proof.
  intros [a Ha] Hr Hd. unfold reissued, discarded, the_pdu in *. rewrite Ha in *. cbn [default from_option id] in *.
  unfold requeue_pdu. run (get_pdu_run w p a Ha). destruct (_ =? _); [done|]. by destruct (truth _).
Qed.

(** A command: what [command_run] gives, from the rewound task on. *)
Lemma reissued_run w n p t : resumed w (S n) -> is_Some (pdus w !! p) -> reissued w p = true ->
  cbdata_task (the_pdu w p) = Some t -> is_Some (tasks w !! t) -> sized (the_task w t) ->
  exists v c, requeue_pdu p w = Ret (tt, v) /\
    command_sent (w <| tasks ::= <[t := rewound (the_task w t)]> |>) v t (rewound (the_task w t))
      (pdu_lun (the_pdu w p)) (cbdata_callback (the_pdu w p)) None (cbdata_private_data (the_pdu w p))
      (outqueue (ctx w)) [] c.
Proof.
  intros Hr [a Ha] Hre Ht [task Htask] [Hc Hx]. pose proof (resumed_splits w _ Hr) as Hs.
  destruct Hr as [Hready Hold Hses Hlog Hitt Hsn Hmax Hb _ _].
  unfold reissued, the_pdu, the_task in *. rewrite Ha, Htask in *. cbn [default from_option id] in *.
  apply andb_true_iff in Hre as [H1 H2]. apply negb_true_iff in H1, H2.
  set (w1 := w <| tasks ::= <[t := rewound task]> |>).
  destruct (command_run w1 t (rewound task) (pdu_lun a) (cbdata_callback a) None (cbdata_private_data a)
    (outqueue (ctx w)) []) as (v & c & E & Hsent); [|done..|].
  - split; try done; [|apply lookup_insert_eq]. by destruct Hready.
  - exists v, c. split; [|done]. unfold requeue_pdu. run (get_pdu_run w p a Ha). rewrite H1, H2, Ht. cbn [deref].
    assert (Hret : forall k : nat -> IO unit, (mret t ≫= k) w = k t w) by done. rewrite Hret.
    run (set_task_run w t task (fun task => task <| iovector_in ::= scsi_task_reset_iov |>) Htask).
    set (wa := w <| tasks ::= _ |>).
    run (set_task_run wa t _ (fun task => task <| iovector_out ::= scsi_task_reset_iov |>) (lookup_insert_eq _ _ _)).
    assert (Ew : wa <| tasks ::= <[t := task <| iovector_in ::= scsi_task_reset_iov |>
                                      <| iovector_out ::= scsi_task_reset_iov |>]> |> = w1).
    { unfold wa, w1. apply world_stores_eq; [done|done|]. cbn. by rewrite insert_insert_eq. }
    rewrite Ew. by run E.
Qed.

(** What one PDU leaves behind, once it is freed. *)
Lemma requeued_idle w n p pd evs : resumed w n -> p ∉ outqueue (ctx w) -> reissued w p = false ->
  (pd = pending_reconnect (ctx w) \/ pd = true) ->
  filter (fun e => is_call e = true) evs = cancelled w [p] ->
  requeued w (w <| ctx ::= fun c => c <| pending_reconnect := pd |> |> <| trace ::= fun t => t ++ evs |>
                <| pdus ::= delete p |>) [p].
Proof.
  intros Hr Hp Hre Hpd Hev. pose proof Hr as [Hready _ _ _ Hitt Hsn _ _ _ _].
  assert (Ec : commands w [p] = []) by (rewrite commands_cons, Hre; done).
  set (v := upd _ _ _). split; rewrite ?Ec; cbn [length total seq starts].
  - exists (mallocs (ctx w)), pd. split; [|done]. rewrite numbered_0, app_nil_r by done.
    unfold v. by destruct w as [[]].
  - done.
  - cbn. lia.
  - intros x ->%list_elem_of_singleton. apply lookup_delete_eq.
  - intros x _ Hx. apply lookup_delete_ne. set_solver.
  - done.
  - exists evs. done.
  - unfold v. apply ready_delete; [|done]. destruct Hready as [Hl Hqt Hm Hn Hq]. done.
  - intros m Hq _. rewrite Nat.add_0_r in Hq. change (outqueue (ctx v)) with (outqueue (ctx w)).
    rewrite Forall_forall in Hq |- *. intros x Hx. destruct (Hq x Hx) as (H1 & d & H2).
    assert (Ex : the_pdu v x = the_pdu w x).
    { unfold the_pdu, v. cbn. rewrite lookup_delete_ne; [done|]. intros ->. done. }
    unfold older. rewrite Ex. split; [done|]. by exists d.
  - done.
Qed.

Lemma requeued_command w n p t v c : resumed w (S n) -> (p < fresh w)%nat -> p ∉ outqueue (ctx w) ->
  reissued w p = true -> cbdata_task (the_pdu w p) = Some t -> is_Some (tasks w !! t) ->
  command_sent (w <| tasks ::= <[t := rewound (the_task w t)]> |>) v t (rewound (the_task w t))
    (pdu_lun (the_pdu w p)) (cbdata_callback (the_pdu w p)) None (cbdata_private_data (the_pdu w p))
    (outqueue (ctx w)) [] c ->
  requeued w (v <| pdus ::= delete p |>) [p].
Proof.
  intros Hr Hlt Hp Hre Ht Htask [Q T P Eq N O F R [(m & Cv) (task' & Tv & Sc & Ti & Tc & _) Env Tr]].
  pose proof Hr as [Hready _ _ _ Hitt Hsn _ _ Hroom _].
  set (task := rewound (the_task w t)) in *. set (w1 := w <| tasks ::= _ |>) in *.
  assert (Ec : commands w [p] = [p]) by (rewrite commands_cons, Hre; done).
  assert (Etr : train_length w1 task = train_of w p) by (unfold train_of; by rewrite Ht).
  change (fresh w1) with (fresh w) in *. rewrite Etr in *. set (k := train_of w p) in *. rewrite app_nil_r in Eq.
  set (v' := v <| pdus ::= delete p |>).
  assert (Hlook : forall x, x <> p -> pdus v' !! x = pdus v !! x) by (intros x Hx; by apply lookup_delete_ne).
  pose proof Q as (h & _ & _ & _ & _ & Hpc & _). change (cmdsn (ctx w1)) with (cmdsn (ctx w)) in Hpc.
  split; rewrite ?Ec; cbn [length total starts]; rewrite ?Nat.add_0_r.
  - exists m, (pending_reconnect (ctx w)). split; [|by left]. change (ctx v') with (ctx v).
    rewrite Cv, Eq. reflexivity.
  - exact Env.
  - change (fresh v') with (fresh v). rewrite F. fold k. lia.
  - intros x ->%list_elem_of_singleton. apply lookup_delete_eq.
  - intros x Hx Hxp. rewrite Hlook by set_solver. by rewrite O.
  - intros t' Ht'. change (tasks v') with (tasks v). rewrite Tv.
    assert (t' <> t). { intros ->. apply Ht'. cbn. unfold task_of. rewrite Hre, Ht. set_solver. }
    rewrite lookup_insert_ne by done. by apply lookup_insert_ne.
  - destruct Tr as (evs & E & Hw). exists evs. split; [exact E|]. rewrite (wakeups_calls _ Hw).
    unfold cancelled, discarded. cbn. unfold reissued in Hre. apply andb_true_iff in Hre as [-> Hf].
    apply negb_true_iff in Hf. by rewrite Hf.
  - apply ready_delete; [done|]. rewrite Eq. apply not_elem_of_app. split; [done|].
    rewrite not_elem_of_cons, elem_of_seq. lia.
  - intros m' Hq Hm. change (outqueue (ctx v')) with (outqueue (ctx v)). rewrite Eq. apply Forall_app. 
    assert (Ecm : cmdsn (ctx v') = u32 (cmdsn (ctx w) + 1)) by (change (ctx v') with (ctx v); by rewrite Cv).
    assert (Hnew : forall x a, pdus v' !! x = Some a -> pdu_cmdsn a = cmdsn (ctx w) -> older v' m' x).
    { intros x a Hx Ha. unfold older, the_pdu. rewrite Hx. cbn [default from_option id]. rewrite Ha.
      split; [done|]. exists 1. split; [lia|]. split; [lia|done]. }
    split; [|apply Forall_cons; split].
    + rewrite Forall_forall in Hq |- *. intros x Hin. destruct (Hq x Hin) as (H1 & d & H2 & H3 & H4).
      pose proof (rd_queue _ Hready) as Hl. rewrite Forall_forall in Hl. destruct (Hl x Hin) as (a & b & Ha & _).
      assert (Hx : (x < fresh w)%nat) by (apply (rd_names _ Hready); by eexists).
      assert (Ex : the_pdu v' x = the_pdu w x).
      { unfold the_pdu. rewrite Hlook by (intros ->; done). by rewrite O. }
      unfold older. rewrite Ex, Ecm, H4. split; [done|]. exists (d + 1). split; [lia|]. split; [lia|].
      unfold u32. by rewrite Zplus_mod_idemp_l, Z.add_assoc.
    + apply (Hnew _ c); [|done]. rewrite Hlook by lia. done.
    + apply Forall_forall. intros x (Hx1 & Hx2)%elem_of_seq.
      destruct (N (x - S (fresh w))%nat) as (a & ha & Ha & Hc); [lia|].
      replace (S (fresh w) + (x - S (fresh w)))%nat with x in Ha by lia.
      apply (Hnew _ a); [rewrite Hlook by lia; done|]. rewrite (proj2 (ca_task _ _ _ _ _ _ _ _ Hc)). done.
  - intros [|j] q x [= <-] [= <-]. exists t, c. split; [done|]. split; [done|]. cbv zeta. fold task.
    rewrite Hlook by lia. change (tasks v') with (tasks v). rewrite Tv, lookup_insert_eq.
    change (ctx (w <| ctx ::= numbered 0 |>)) with (numbered 0 (ctx w)). rewrite numbered_0 by done.
    assert (Ew : w <| ctx ::= numbered 0 |> = w) by (destruct w; unfold upd; cbn in *; by rewrite numbered_0).
    rewrite Ew. split; [done|]. split; [done|]. split; [by exists task'|]. split; [exact Q|].
    intros i Hi. destruct (N i) as (a & ha & Ha & Hc); [unfold k, train_of; by rewrite Ht|].
    exists a, ha. rewrite Hlook by lia. split; [exact Ha|exact Hc].
Qed.

(** ** One PDU after the other *)

(** The parameters of the session do not depend on what sending changes. *)
Lemma phase_moved task k c m q pd :
  phase task ((numbered k c) <| mallocs := m |> <| outqueue := q |> <| pending_reconnect := pd |>) =
  (numbered k (phase task c)) <| mallocs := m |> <| outqueue := q |> <| pending_reconnect := pd |>.
Proof. unfold phase. by destruct (_ =? _). Qed.

Lemma phase_numbered task k c : phase task (numbered k c) = numbered k (phase task c).
Proof. unfold phase. by destruct (_ =? _). Qed.

Lemma moved_twice c j k m1 q1 pd1 m2 q2 pd2 :
  (numbered k ((numbered j c) <| mallocs := m1 |> <| outqueue := q1 |> <| pending_reconnect := pd1 |>))
    <| mallocs := m2 |> <| outqueue := q2 |> <| pending_reconnect := pd2 |> =
  (numbered (j + k) c) <| mallocs := m2 |> <| outqueue := q2 |> <| pending_reconnect := pd2 |>.
Proof. by rewrite <- numbered_add. Qed.

Lemma moved_again c j k m q pd :
  numbered k ((numbered j c) <| mallocs := m |> <| outqueue := q |> <| pending_reconnect := pd |>) =
  (numbered (j + k) c) <| mallocs := m |> <| outqueue := q |> <| pending_reconnect := pd |>.
Proof. rewrite <- numbered_add. destruct c. reflexivity. Qed.

(** The PDUs [ps] and the tasks they are for are in [w1] as in [w]. *)
Record agrees (w w1 : world) (k : nat) (ps : list nat) : Prop := {
  ag_ctx : exists m q pd, ctx w1 = (numbered k (ctx w)) <| mallocs := m |> <| outqueue := q |>
    <| pending_reconnect := pd |>;
  ag_pdu : forall q, q ∈ ps -> the_pdu w1 q = the_pdu w q;
  ag_task : forall q t, q ∈ ps -> task_of w q = Some t -> tasks w1 !! t = tasks w !! t
}.

Lemma requeued_agrees w w1 p ps : requeued w w1 [p] -> Forall (fun q => (q < fresh w)%nat) ps ->
  NoDup (p :: ps) -> NoDup (omap (task_of w) (p :: ps)) -> agrees w w1 (length (commands w [p])) ps.
Proof.
  intros [(m & pd & E & _) _ _ _ Hk Ht _ _ _ _] Hf [Hp _]%NoDup_cons Hnt.
  rewrite Forall_forall in Hf. split.
  - by eexists m, _, pd.
  - intros q Hq. unfold the_pdu. rewrite Hk; [done|by apply Hf|]. intros ->%list_elem_of_singleton. done.
  - intros q t Hq Htq. apply Ht. rewrite omap_cons in *. destruct (task_of w p) as [t'|]; [|apply not_elem_of_nil].
    apply NoDup_cons in Hnt as [Hn _]. intros ->%list_elem_of_singleton. apply Hn.
    apply list_elem_of_omap. by exists q.
Qed.

Section Agree.
Context {w w1 : world} {k : nat} {ps : list nat} (A : agrees w w1 k ps).

Lemma agree_length task : train_length w1 task = train_length w task.
Proof. destruct (ag_ctx _ _ _ _ A) as (m & q & pd & E). unfold train_length, unsolicited. by rewrite E, phase_moved. Qed.

Lemma agree_reissued q : q ∈ ps -> reissued w1 q = reissued w q.
Proof. intros Hq. unfold reissued. by rewrite (ag_pdu _ _ _ _ A q Hq). Qed.

Lemma agree_task_of q : q ∈ ps -> task_of w1 q = task_of w q.
Proof. intros Hq. unfold task_of. by rewrite agree_reissued, (ag_pdu _ _ _ _ A q Hq). Qed.

Lemma agree_the_task q t : q ∈ ps -> task_of w q = Some t -> the_task w1 t = the_task w t.
Proof. intros Hq Ht. unfold the_task. by rewrite (ag_task _ _ _ _ A q t Hq Ht). Qed.

Lemma agree_commands l : (forall q, q ∈ l -> q ∈ ps) -> commands w1 l = commands w l.
Proof.
  induction l as [|q l IH]; intros Hl; [done|].
  rewrite !commands_cons, agree_reissued, IH by set_solver. done.
Qed.

Lemma agree_train q : q ∈ commands w ps -> train_of w1 q = train_of w q.
Proof.
  intros [Hr Hq]%list_elem_of_filter. unfold train_of. rewrite (ag_pdu _ _ _ _ A q Hq).
  destruct (cbdata_task (the_pdu w q)) as [t|] eqn:E; [|done].
  rewrite (agree_the_task q t Hq) by (unfold task_of; by rewrite Hr). apply agree_length.
Qed.

Lemma agree_total l : (forall q, q ∈ l -> q ∈ commands w ps) -> total w1 l = total w l.
Proof.
  induction l as [|q l IH]; intros Hl; [done|]. cbn. rewrite agree_train, IH by set_solver. done.
Qed.

Lemma agree_starts l : (forall q, q ∈ l -> q ∈ commands w ps) -> forall x, starts w1 x l = starts w x l.
Proof.
  induction l as [|q l IH]; intros Hl x; [done|]. cbn. rewrite agree_train, IH by set_solver. done.
Qed.

Lemma agree_cancelled l : (forall q, q ∈ l -> q ∈ ps) -> cancelled w1 l = cancelled w l.
Proof.
  induction l as [|q l IH]; intros Hl; [done|]. unfold cancelled, discarded in *. cbn.
  rewrite (ag_pdu _ _ _ _ A q), IH by set_solver. done.
Qed.

Lemma agree_omap (l : list nat) : (forall q, q ∈ l -> q ∈ ps) -> omap (task_of w1) l = omap (task_of w) l.
Proof.
  induction l as [|q l IH]; intros Hl; [done|]. rewrite !omap_cons, agree_task_of, IH by set_solver. done.
Qed.

Lemma agree_reissue v j q x : q ∈ commands w ps -> reissue w1 v j q x -> reissue w v (k + j) q x.
Proof.
  intros [Hr Hq]%list_elem_of_filter (t & c & Ht & Hs & H1 & H2 & H3 & H4 & H5).
  rewrite (ag_pdu _ _ _ _ A q Hq) in *. exists t, c. split; [done|].
  assert (Eto : task_of w q = Some t) by (unfold task_of; by rewrite Hr).
  rewrite (agree_the_task q t Hq Eto) in *. rewrite (ag_task _ _ _ _ A q t Hq Eto) in Hs.
  rewrite agree_length in H5. split; [done|]. cbv zeta in *. split; [done|]. split; [done|].
  destruct (ag_ctx _ _ _ _ A) as (m & l & pd & E).
  assert (En : ctx (w1 <| ctx ::= numbered j |>) = (numbered (k + j) (ctx w)) <| mallocs := m |>
                 <| outqueue := l |> <| pending_reconnect := pd |>).
  { change (ctx (w1 <| ctx ::= numbered j |>)) with (numbered j (ctx w1)). rewrite E. apply moved_again. }
  unfold unsolicited in *. rewrite E, phase_moved in H5. split; [|split; [|exact H5]].
  - destruct H3 as (task' & T1 & T2 & T3 & T4). exists task'. rewrite En in T3, T4. done.
  - unfold queued_any in *. rewrite En, phase_moved in H4.
    change (ctx (w <| ctx ::= numbered (k + j) |>)) with (numbered (k + j) (ctx w)).
    rewrite phase_numbered. exact H4.
Qed.

End Agree.

Lemma length_commands_cons w p ps :
  length (commands w (p :: ps)) = (length (commands w [p]) + length (commands w ps))%nat.
Proof. rewrite (commands_cons w p ps), (commands_cons w p []), !length_app. cbn. lia. Qed.

Lemma total_app w l1 l2 : total w (l1 ++ l2) = (total w l1 + total w l2)%nat.
Proof. induction l1 as [|p l IH]; [done|]. cbn. rewrite IH. lia. Qed.

Lemma total_commands_cons w p ps :
  total w (commands w (p :: ps)) = (total w (commands w [p]) + total w (commands w ps))%nat.
Proof. rewrite (commands_cons w p ps), (commands_cons w p []), app_nil_r. apply total_app. Qed.

Lemma starts_app w x l1 l2 : starts w x (l1 ++ l2) = starts w x l1 ++ starts w (x + total w l1) l2.
Proof.
  revert x. induction l1 as [|p l IH]; intros x; cbn; [by rewrite Nat.add_0_r|].
  rewrite IH. do 3 f_equal. lia.
Qed.

Lemma length_starts w x l : length (starts w x l) = length l.
Proof. revert x. induction l as [|p l IH]; intros x; [done|]. cbn. by rewrite IH. Qed.

Lemma starts_bounds w l : forall x y, y ∈ starts w x l -> (x <= y)%nat.
Proof.
  induction l as [|p l IH]; intros x y; cbn; [set_solver|].
  intros [->|Hy]%elem_of_cons; [lia|]. apply IH in Hy. lia.
Qed.

(** A command stays what it is as long as its PDUs and its task do. *)
Lemma reissue_frame w w1 v k p x : reissue w w1 k p x ->
  (forall y, (x <= y <= x + train_of w p)%nat -> pdus v !! y = pdus w1 !! y) ->
  (forall t, cbdata_task (the_pdu w p) = Some t -> tasks v !! t = tasks w1 !! t) -> reissue w v k p x.
Proof.
  intros (t & c & Ht & Hs & H1 & H2 & H3 & H4 & H5) Hk Htk. exists t, c.
  unfold train_of in Hk. rewrite Ht in Hk. cbv zeta in *.
  split; [done|]. split; [done|]. split; [rewrite Hk by lia; done|]. split; [done|].
  split; [by rewrite (Htk t Ht)|]. split; [done|].
  intros i Hi. destruct (H5 i Hi) as (a & h & Ha & Hc). exists a, h. split; [|exact Hc].
  rewrite Hk; [done|]. change (train_length w (rewound (the_task w t))) with (train_length w (the_task w t)) in Hi. lia.
Qed.

Lemma reissue_later w w1 v k p x ps : requeued w1 v ps -> reissue w w1 k p x ->
  (x + train_of w p < fresh w1)%nat -> (forall y, (x <= y)%nat -> y ∉ ps) ->
  (forall t, cbdata_task (the_pdu w p) = Some t -> t ∉ omap (task_of w1) ps) -> reissue w v k p x.
Proof.
  intros Hrq Hre Hlt Hps Hnt. apply (reissue_frame w w1 v k p x Hre).
  - intros y Hy. apply (rq_kept _ _ _ Hrq); [lia|apply Hps; lia].
  - intros t Ht. by apply (rq_tasks _ _ _ Hrq), Hnt.
Qed.

Lemma requeued_trans w w1 v p ps : requeued w w1 [p] -> requeued w1 v ps ->
  Forall (fun q => (q < fresh w)%nat) (p :: ps) -> NoDup (p :: ps) ->
  NoDup (omap (task_of w) (p :: ps)) -> requeued w v (p :: ps).
Proof.
  intros R1 R2 Hf Hnd Hnt. pose proof Hf as [Hfp Hfs]%Forall_cons. pose proof Hnd as [Hp _]%NoDup_cons.
  pose proof (requeued_agrees w w1 p ps R1 Hfs Hnd Hnt) as A.
  assert (Ec : commands w1 ps = commands w ps) by (apply (agree_commands A); done).
  assert (Et : total w1 (commands w ps) = total w (commands w ps)) by (apply (agree_total A); done).
  assert (Es : forall x, starts w1 x (commands w ps) = starts w x (commands w ps)) by (apply (agree_starts A); done).
  assert (Eo : omap (task_of w1) ps = omap (task_of w) ps) by (apply (agree_omap A); done).
  pose proof R1 as [(m1 & pd1 & C1 & Hpd1) (A1 & N1 & M1 & P1 & K1) F1 D1 O1 T1 (e1 & Tr1 & Ev1) _ Q1 X1].
  pose proof R2 as [(m2 & pd2 & C2 & Hpd2) (A2 & N2 & M2 & P2 & K2) F2 D2 O2 T2 (e2 & Tr2 & Ev2) Rd Q2 X2].
  rewrite Ec in C2, F2, X2, Q2. rewrite Et in C2, F2. rewrite Eo in T2.
  assert (Hge : (fresh w <= fresh w1)%nat) by lia.
  split.
  - exists m2, pd2. split; [|].
    + assert (Eq : outqueue (ctx w1) = outqueue (ctx w) ++ seq (fresh w) (total w (commands w [p]))) by (by rewrite C1).
      rewrite C2, Eq, C1, moved_twice, F1, (length_commands_cons w p ps),
        (total_commands_cons w p ps), seq_app, app_assoc. done.
    + destruct Hpd2 as [-> | ->]; [|by right]. rewrite C1. exact Hpd1.
  - by rewrite A2, N2, M2, P2, K2.
  - rewrite F2, F1, (total_commands_cons w p ps). lia.
  - intros q [->|Hq]%elem_of_cons; [|by apply D2]. rewrite O2 by (done || lia). apply D1. set_solver.
  - intros x Hx [Hxp Hxps]%not_elem_of_cons. rewrite O2; [|lia|done]. apply O1; [done|].
    by intros ->%list_elem_of_singleton.
  - intros t Ht. rewrite omap_cons in Ht. rewrite T2, T1; [done|rewrite omap_cons|];
      (destruct (task_of w p) as [t'|]; [apply not_elem_of_cons in Ht as [Ht1 Ht2]|]); try done;
      [by intros ->%list_elem_of_singleton|apply not_elem_of_nil].
  - exists (e1 ++ e2). split; [by rewrite Tr2, Tr1, app_assoc|]. rewrite filter_app, Ev1, Ev2.
    rewrite (agree_cancelled A) by done. unfold cancelled. cbn. by rewrite app_nil_r.
  - exact Rd.
  - intros m Hq Hm. rewrite (length_commands_cons w p ps) in Hq, Hm. apply Q2; [|lia].
    apply Q1; [|lia]. rewrite <- Nat.add_assoc, (Nat.add_comm (length (commands w ps))). exact Hq.
  - intros k q x Hk Hx. rewrite (commands_cons w p ps) in Hk, Hx.
    assert (Hrest : forall j, commands w ps !! j = Some q -> starts w (fresh w1) (commands w ps) !! j = Some x ->
      reissue w v (length (commands w [p]) + j) q x).
    { intros j Hj Hjx. apply (agree_reissue A); [by eapply list_elem_of_lookup_2|]. apply X2; [done|by rewrite Es]. }
    rewrite (commands_cons w p []) in Hrest, X1, F1. destruct (reissued w p) eqn:Er; cbn in Hrest, X1, F1, Hk, Hx.
    + destruct k as [|k]; [|apply (Hrest k Hk); rewrite F1; rewrite Nat.add_0_r; exact Hx].
      injection Hk as <-. injection Hx as <-. apply (reissue_later w w1 v 0 p (fresh w) ps R2); [by apply X1|lia| |].
      * intros y Hy Hin. rewrite Forall_forall in Hfs. specialize (Hfs y Hin). cbn in Hfs. lia.
      * intros t Ht. rewrite Eo. rewrite omap_cons in Hnt. unfold task_of at 1 in Hnt. rewrite Er, Ht in Hnt.
        by apply NoDup_cons in Hnt as [? _].
    + apply (Hrest k Hk). rewrite F1, Nat.add_0_r. exact Hx.
Qed.

(** The new session after some PDUs. *)
Lemma requeued_resumed w w1 n ps : requeued w w1 ps -> resumed w (n + length (commands w ps)) -> resumed w1 n.
Proof.
  intros [(m & pd & C & Hpd) _ _ _ _ _ _ Rd Q _] [_ Hold Hses Hlog Hitt Hsn Hmax Hb Hroom Hq].
  split; try done; try (rewrite C; done).
  - rewrite C. cbn. destruct Hpd as [-> | ->]; [done|by right].
  - rewrite C. apply Z.mod_pos_bound. lia.
  - rewrite C. apply u32_range.
  - lia.
  - by apply Q.
Qed.

(** Dealing with one PDU, to its end. *)
Lemma requeue_one w n p : resumed w (n + length (commands w [p])) -> requeueable w p -> p ∉ outqueue (ctx w) ->
  exists u, requeue_pdu p w = Ret (tt, u) /\ is_Some (pdus u !! p) /\ requeued w (u <| pdus ::= delete p |>) [p].
Proof.
  intros Hr [Ha Ht Hc] Hp. assert (Hlt : (p < fresh w)%nat) by (by apply (rd_names _ (rs_ready _ _ Hr))).
  destruct (reissued w p) eqn:Er.
  - assert (Ec : commands w [p] = [p]) by (rewrite commands_cons, Er; done).
    rewrite Ec, Nat.add_1_r in Hr. destruct (Ht eq_refl) as (t & Et & Hs & Hsz).
    destruct (reissued_run w n p t Hr Ha Er Et Hs Hsz) as (u & c & E & Hsent). exists u. split; [done|].
    split; [by rewrite (st_old _ _ _ _ _ _ _ _ _ _ _ Hsent)|]. by apply (requeued_command w n p t u c).
  - destruct (discarded w p) eqn:Ed.
    + destruct (discarded_run w p Ha Ed (Hc eq_refl)) as (pd & E & Hpd). eexists. split; [exact E|].
      split; [done|]. apply (requeued_idle w _ p pd _ Hr Hp Er Hpd).
      rewrite calls_of_event. unfold cancelled. cbn. by rewrite Ed, app_nil_r.
    + exists w. split; [by apply untagged_run|]. split; [done|].
      pose proof (requeued_idle w _ p (pending_reconnect (ctx w)) [] Hr Hp Er (or_introl eq_refl)) as R.
      assert (Ew : w <| ctx ::= fun c => c <| pending_reconnect := pending_reconnect (ctx w) |> |>
                     <| trace ::= fun t => t ++ [] |> = w)
        by (destruct w as [[]]; unfold upd; cbn; by rewrite app_nil_r).
      rewrite Ew in R. apply R. unfold cancelled. cbn. by rewrite Ed.
Qed.

(** The old context once the PDUs [ps] are freed. *)
Definition old_after (ps : list nat) (old : iscsi_context) (f : Z) : iscsi_context :=
  old <| frees := f |>
    <| outqueue_current := match outqueue_current old with
                           | Some c => if bool_decide (c ∈ ps) then None else Some c
                           | None => None
                           end |>.

Lemma old_after_nil old : old_after [] old (frees old) = old.
Proof. unfold old_after. destruct old. cbn. by destruct outqueue_current. Qed.

Lemma old_after_cons p ps old f f' : old_after ps (old_without p old f) f' = old_after (p :: ps) old f'.
Proof.
  unfold old_after, old_without. destruct old. cbn. destruct outqueue_current as [c|]; [|done].
  destruct (decide (c = p)) as [->|Hne].
  - by rewrite !bool_decide_true by set_solver.
  - rewrite (bool_decide_false (Some c = Some p)) by congruence.
    by rewrite (bool_decide_ext (c ∈ p :: ps) (c ∈ ps)) by set_solver.
Qed.

Lemma requeued_nil w n : resumed w n -> requeued w w [].
Proof.
  intros [Hready _ _ _ Hitt Hsn _ _ _ _].
  assert (Ec : commands w [] = []) by done. split; rewrite ?Ec; try done.
  - exists (mallocs (ctx w)), (pending_reconnect (ctx w)). split; [|by left]. cbn [length total seq]. rewrite app_nil_r, numbered_0 by done.
    by destruct (ctx w).
  - set_solver.
  - exists []. by rewrite app_nil_r.
  - intros m Hq _. cbn in Hq. rewrite Nat.add_0_r in Hq. exact Hq.
Qed.

Lemma requeueable_kept w w1 p q : requeued w w1 [p] -> requeueable w q -> (q < fresh w)%nat -> q <> p ->
  (forall t, task_of w q = Some t -> t ∉ omap (task_of w) [p]) -> requeueable w1 q.
Proof.
  intros R [Ha Ht Hc] Hlt Hne Hnt.
  assert (Ep : pdus w1 !! q = pdus w !! q) by (apply (rq_kept _ _ _ R); [done|by intros ->%list_elem_of_singleton]).
  assert (Ed : the_pdu w1 q = the_pdu w q) by (unfold the_pdu; by rewrite Ep).
  split; [by rewrite Ep| |unfold discarded; by rewrite Ed].
  assert (Er : reissued w1 q = reissued w q) by (unfold reissued; by rewrite Ed).
  rewrite Er, Ed. intros Hr. destruct (Ht Hr) as (t & Et & Hs). exists t. split; [done|].
  assert (Etk : tasks w1 !! t = tasks w !! t) by (apply (rq_tasks _ _ _ R), Hnt; unfold task_of; by rewrite Hr).
  unfold the_task. by rewrite Etk.
Qed.

Lemma requeue_all_run ps : forall w old, resumed w (length (commands w ps)) ->
  Forall (requeueable w) ps -> NoDup ps -> NoDup (omap (task_of w) ps) ->
  (forall p, p ∈ ps -> p ∉ outqueue (ctx w)) ->
  exists v f, requeue_all old ps w = Ret (old_after ps old f, v) /\ requeued w v ps.
Proof.
  induction ps as [|p ps IH]; intros w old Hr Hq Hnd Hnt Hout.
  { exists w, (frees old). rewrite old_after_nil. split; [done|]. by apply (requeued_nil w _ Hr). }
  assert (Hf : Forall (fun q => (q < fresh w)%nat) (p :: ps)).
  { eapply Forall_impl; [exact Hq|]. intros q Hqq. apply (rd_names _ (rs_ready _ _ Hr)), (ra_pdu _ _ Hqq). }
  pose proof Hf as [Hfp Hfs]%Forall_cons. pose proof Hq as [Hp Hqs]%Forall_cons. pose proof Hnd as [Hnp Hns]%NoDup_cons.
  rewrite (length_commands_cons w p ps), Nat.add_comm in Hr.
  destruct (requeue_one w _ p Hr Hp) as (u & E & [a Ha] & R1); [apply Hout; by left|].
  destruct (free_on_run old u p a Ha) as (f & Ef). set (w1 := u <| pdus ::= delete p |>) in *.
  pose proof (requeued_agrees w w1 p ps R1 Hfs Hnd Hnt) as A.
  assert (Ec : commands w1 ps = commands w ps) by (apply (agree_commands A); done).
  destruct (IH w1 (old_without p old f)) as (v & f' & Ev & R2).
  - rewrite Ec. exact (requeued_resumed w w1 _ [p] R1 Hr).
  - rewrite Forall_forall in Hqs, Hfs |- *. intros q Hin. apply (requeueable_kept w w1 p q R1); auto.
    + by intros ->.
    + intros t Ht. rewrite !omap_cons in *. destruct (task_of w p) as [t'|]; [|apply not_elem_of_nil].
      intros ->%list_elem_of_singleton. apply NoDup_cons in Hnt as [Hn _]. apply Hn. apply list_elem_of_omap. by exists q.
  - done.
  - rewrite (agree_omap A) by done. rewrite omap_cons in Hnt. destruct (task_of w p); [|done].
    by apply NoDup_cons in Hnt as [_ ?].
  - intros q Hin. destruct (rq_ctx _ _ _ R1) as (m & pd & C & _). rewrite C. intros [H1|H1]%elem_of_app.
    + apply (Hout q); [by right|done].
    + apply elem_of_seq in H1. rewrite Forall_forall in Hfs. specialize (Hfs q Hin). cbn in Hfs. lia.
  - exists v, f'. split; [|by apply (requeued_trans w w1)].
    change (requeue_all old (p :: ps)) with (_ ← requeue_pdu p; old ← free_on old p; requeue_all old ps).
    run E. run Ef. rewrite Ev. by rewrite old_after_cons.
Qed.

(** ** The rest of the old context *)

(** The PDU being sent is freed when nobody waits for it. *)
Definition without_current (old : iscsi_context) (w : world) : gmap nat iscsi_pdu :=
  match outqueue_current old with
  | Some p => if truth (pdu_flags (the_pdu w p) &&& ISCSI_PDU_DELETE_WHEN_SENT)
              then delete p (pdus w) else pdus w
  | None => pdus w
  end.

Lemma free_in_run w inp : exists f,
  iscsi_free_iscsi_in_pdu inp w = Ret (tt, w <| ctx := (ctx w) <| frees := f |> |>).
Proof.
  unfold iscsi_free_iscsi_in_pdu, iscsi_free, when.
  destruct (bool_decide (hdr inp <> [])), (bool_decide (is_Some (in_data inp)));
    destruct w as [[]]; eexists; reflexivity.
Qed.

Lemma free_rest_run old w : (forall p, outqueue_current old = Some p -> is_Some (pdus w !! p)) ->
  exists old', on_ctx old (_ ← free_incoming; free_current) w =
    Ret ((tt, old'), w <| pdus := without_current old w |>).
Proof.
  intros Hc. unfold on_ctx. set (w0 := w <| ctx := old |>).
  assert (H1 : exists f, free_incoming w0 = Ret (tt, w0 <| ctx := old <| frees := f |> |>)).
  { unfold free_incoming. run (get_ctx_run id w0). destruct (incoming (conn (id (ctx w0)))) as [inp|]; [apply free_in_run|].
    exists (frees old). unfold w0. destruct w, old. done. }
  destruct H1 as [f E1]. run E1. unfold free_current. set (w1 := w0 <| ctx := _ |>). run (get_ctx_run id w1).
  unfold without_current. change (outqueue_current (id (ctx w1))) with (outqueue_current old).
  destruct (outqueue_current old) as [p|] eqn:Ec; [|eexists; unfold w1, w0; by destruct w].
  destruct (Hc p eq_refl) as [a Ha]. run (get_pdu_run w1 p a Ha). unfold the_pdu. rewrite Ha. cbn [default from_option id].
  destruct (truth _); cbn [when].
  - destruct (free_pdu_world w1 p a Ha) as [f' E]. rewrite E. eexists. unfold w1, w0. by destruct w.
  - eexists. unfold w1, w0. by destruct w.
Qed.

Lemma set_lock_free b w : unlocked w -> set_lock false (set_lock b w) = w.
Proof. unfold unlocked. destruct w as [[]]. cbn. by intros ->. Qed.

(** The new session on its own. *)
Definition session (w : world) : world := w <| ctx ::= fun c => c <| old_iscsi := None |> |>.

Lemma reconnect_run w old : old_iscsi (ctx w) = Some old ->
  let ps := waitpdu old ++ outqueue old in
  resumed (session w) (length (commands w ps)) -> Forall (requeueable (session w)) ps ->
  NoDup ps -> NoDup (omap (task_of w) ps) -> (forall p, p ∈ ps -> p ∉ outqueue (ctx w)) ->
  (forall p, outqueue_current old = Some p -> is_Some (pdus w !! p)) ->
  exists v old' m f, requeued (session w) v ps /\
    iscsi_reconnect_cb SCSI_STATUS_GOOD w = Ret (tt,
      v <| pdus := without_current old' v |>
        <| ctx ::= fun c => c <| mallocs := m |> <| frees := f |> <| next_reconnect := now w + 3 |>
                              <| pending_reconnect := false |> |>) /\
    outqueue_current old' = match outqueue_current old with
                            | Some c => if bool_decide (c ∈ ps) then None else Some c
                            | None => None
                            end.
Proof.
  intros Hold ps Hr Hq Hnd Hnt Hout Hcur. set (w0 := session w) in *.
  pose proof (rd_lock _ (rs_ready _ _ Hr)) as Hl.
  destruct (requeue_all_run ps w0 (old <| outqueue := [] |> <| waitpdu := [] |>) Hr) as (v & f & E & R); try done.
  set (o := old <| outqueue := [] |> <| waitpdu := [] |>) in *. set (o' := old_after ps o f) in *.
  pose proof (rd_lock _ (rq_ready _ _ _ R)) as Hlv.
  destruct (free_rest_run o' (set_lock (have_mt v) v)) as (old' & E2).
  { intros p Hp. unfold o', old_after in Hp. cbn in Hp. destruct (outqueue_current old) as [c|] eqn:Ec; [|done].
    destruct (bool_decide _) eqn:Eb; [done|]. injection Hp as ->. apply bool_decide_eq_false in Eb.
    destruct (Hcur p eq_refl) as [a Ha]. change (pdus (set_lock (have_mt v) v)) with (pdus v).
    rewrite (rq_kept _ _ _ R); [by exists a|apply (rd_names _ (rs_ready _ _ Hr)); by exists a|done]. }
  set (v1 := set_lock (have_mt v) v <| pdus := without_current o' (set_lock (have_mt v) v) |>) in *.
  exists v, o', (mallocs old' + mallocs (ctx v)), (frees old' + frees (ctx v)). split; [exact R|]. split; [|done].
  unfold iscsi_reconnect_cb. rewrite Z.eqb_refl. cbn [negb]. run (get_ctx_run old_iscsi w). rewrite Hold.
  assert (E0 : set_ctx (fun c => c <| old_iscsi := None |>) w = Ret (tt, w0)) by done. run E0.
  run (lock_run w0 Hl). cbn [deref].
  assert (Hret : forall (k : iscsi_context -> IO unit) u, (mret old ≫= k) u = k old u) by done. rewrite Hret.
  rewrite move_all_app. fold ps o. run (unlock_run (set_lock (have_mt w0) w0) eq_refl).
  rewrite (set_lock_free _ w0 Hl). run E. run (lock_run v Hlv). run E2. run (unlock_run v1 eq_refl).
  assert (En : now v1 = now w) by (change (now v1) with (now v); by rewrite (proj1 (proj2 (rq_env _ _ _ R)))).
  assert (Hget : forall k : world -> IO unit, (getS ≫= k) (set_lock false v1) = k (set_lock false v1) (set_lock false v1)) by done.
  rewrite Hget. change (now (set_lock false v1)) with (now v1). rewrite En. unfold set_ctx, modify.
  do 2 f_equal. unfold v1, without_current, the_pdu. unfold unlocked in Hlv. destruct v as [[]]. cbn in Hlv |- *. by subst.
Qed.

(** ** Properties *)

(** C16: A reconnect loses no command: on a session that can send, iscsi_reconnect_cb
    takes the PDUs of the old context in the order waitpdu, outqueue; each SCSI command
    is sent again exactly once, in that order, behind what is queued, with its CDB, LUN,
    task, callback and private data, the next task tag and the next CmdSN, and directly
    followed by the Data-Out PDUs it is due; each other PDU is discarded and its
    callback called once with SCSI_STATUS_CANCELLED, in order. All PDUs of the old
    context are freed, other PDUs are not touched, and the old context is gone. *)
Theorem reconnect_reissues (w : world) (old : iscsi_context) :
  old_iscsi (ctx w) = Some old ->
  let ps := waitpdu old ++ outqueue old in
  let v := session w in
  resumed v (length (commands v ps)) -> Forall (requeueable v) ps ->
  NoDup ps -> NoDup (omap (task_of v) ps) -> (forall p, p ∈ ps -> p ∉ outqueue (ctx w)) ->
  (forall p, outqueue_current old = Some p -> is_Some (pdus w !! p)) ->
  exists w', iscsi_reconnect_cb SCSI_STATUS_GOOD w = Ret (tt, w') /\
    outqueue (ctx w') = outqueue (ctx w) ++ seq (fresh w) (total v (commands v ps)) /\
    (forall k p x, commands v ps !! k = Some p ->
       starts v (fresh w) (commands v ps) !! k = Some x -> reissue v w' k p x) /\
    (exists evs, trace w' = trace w ++ evs /\
       filter (fun e => is_call e = true) evs = cancelled v ps) /\
    (forall p, p ∈ ps -> pdus w' !! p = None) /\
    (forall p a, outqueue_current old = Some p -> pdus w !! p = Some a ->
       truth (pdu_flags a &&& ISCSI_PDU_DELETE_WHEN_SENT) = true -> pdus w' !! p = None) /\
    (forall x, (x < fresh w)%nat -> x ∉ ps -> outqueue_current old <> Some x -> pdus w' !! x = pdus w !! x) /\
    old_iscsi (ctx w') = None /\ pending_reconnect (ctx w') = false /\
    next_reconnect (ctx w') = now w + 3.
Proof.
  intros Hold ps v Hr Hq Hnd Hnt Hout Hcur.
  destruct (reconnect_run w old Hold Hr Hq Hnd Hnt Hout Hcur) as (u & old' & m & f & R & E & Ec).
  fold ps v in R, Ec.
  destruct (rq_ctx _ _ _ R) as (m' & pd & C & _).
  assert (Hp : forall x, outqueue_current old <> Some x -> without_current old' u !! x = pdus u !! x).
  { intros x Hx. unfold without_current. rewrite Ec. destruct (outqueue_current old) as [c|]; [|done].
    destruct (bool_decide (c ∈ ps)); [done|]. destruct (truth _); [|done]. apply lookup_delete_ne. congruence. }
  assert (Hlt : forall x, outqueue_current old = Some x -> (x < fresh v)%nat)
    by (intros x Hx; by apply (rd_names _ (rs_ready _ _ Hr)), Hcur).
  eexists. split; [exact E|]. split; [cbn; by rewrite C|]. split; [|split; [|split; [|split; [|split; [|split; [|done]]]]]].
  - intros k p x Hk Hx. apply (reissue_frame v u); [by apply (rq_cmds _ _ _ R)| |done].
    intros y Hy. apply Hp. intros Hc. apply Hlt in Hc.
    assert (fresh v <= x)%nat; [|lia]. apply (starts_bounds v (commands v ps)). by eapply list_elem_of_lookup_2.
  - exact (rq_trace _ _ _ R).
  - intros p Hin. pose proof (rq_freed _ _ _ R p Hin) as Hf. cbn. unfold without_current.
    destruct (outqueue_current old') as [c|]; [|done]. destruct (truth _); [|done]. by apply lookup_delete_None; right.
  - intros p a Hc Ha Hfl. cbn. unfold without_current. rewrite Ec, Hc.
    destruct (bool_decide (p ∈ ps)) eqn:Eb; [apply bool_decide_eq_true in Eb; by apply (rq_freed _ _ _ R)|].
    apply bool_decide_eq_false in Eb. unfold the_pdu. rewrite (rq_kept _ _ _ R p (Hlt p Hc) Eb).
    change (pdus v) with (pdus w). rewrite Ha. cbn [default from_option id]. rewrite Hfl. apply lookup_delete_eq.
  - intros x Hx Hxp Hc. cbn. rewrite Hp by done. by apply (rq_kept _ _ _ R).
  - cbn. by rewrite C.
Qed.

End Reissue.

(** A WRITE and a NOP wait for their answers, a READ is queued, and a Data-Out
    PDU is being sent. *)
Definition sample_read_task : scsi_task :=
  new_task <| cdb := [0x28; 0; 0; 0; 0; 0; 0; 0; 1; 0; 0; 0; 0; 0; 0; 0] |> <| cdb_size := 10 |>
    <| xfer_dir := SCSI_XFER_READ |> <| Task.expxferlen := 512 |>.

Definition sample_old : iscsi_context :=
  sample_ctx <| waitpdu := [1; 2]%nat |> <| outqueue := [3%nat] |> <| outqueue_current := Some 4%nat |>.

Definition sample_broken : world :=
  let cmd t f := (sample_pdu 1 5) <| pdu_itt := 5 |> <| cbdata_task := Some t |>
    <| pdu_callback := Some Cb_scsi_response |> <| cbdata_callback := Some f |> <| cbdata_private_data := 70 |> in
  sample_world
    <| pdus := {[ 1%nat := cmd 10%nat 7%nat;
                  2%nat := (sample_pdu 0x40 6) <| pdu_itt := 6 |> <| pdu_flags := ISCSI_PDU_DROP_ON_RECONNECT |>
                             <| pdu_callback := Some (Cb_user 8) |>;
                  3%nat := cmd 11%nat 9%nat;
                  4%nat := (sample_pdu 5 5) <| pdu_flags := 5 |> ]} |>
    <| tasks := {[ 10%nat := sample_write_task; 11%nat := sample_read_task ]} |> <| fresh := 5%nat |>
    <| ctx ::= fun c => c <| multithreading_enabled := true |> <| pending_reconnect := true |>
                          <| old_iscsi := Some sample_old |> |>.

Lemma sample_resumed : @resumed sample_transport (session sample_broken) 2.
Proof.
  split; try done; [|by left].
  split; try done; [by left|]. intros x [a Ha].
  change (fresh (session sample_broken)) with 5%nat.
  do 5 (destruct x as [|x]; [lia|]). cbn in Ha. rewrite !lookup_insert_ne, lookup_singleton_ne in Ha by lia. done.
Qed.

Lemma sample_sized : sized sample_write_task /\ sized sample_read_task.
Proof. split; repeat split; vm_compute; congruence. Qed.

Lemma sample_requeueable :
  Forall (requeueable (session sample_broken)) (waitpdu sample_old ++ outqueue sample_old).
Proof.
  apply Forall_cons; split; [|apply Forall_cons; split; [|apply Forall_cons; split; [|apply Forall_nil; exact I]]].
  - split; [by eexists| |intros Hd; vm_compute in Hd; discriminate].
    intros _. exists 10%nat. split; [reflexivity|]. split; [by eexists|exact (proj1 sample_sized)].
  - split; [by eexists|intros Hd; vm_compute in Hd; discriminate|intros _; vm_compute; discriminate].
  - split; [by eexists| |intros Hd; vm_compute in Hd; discriminate].
    intros _. exists 11%nat. split; [reflexivity|]. split; [by eexists|exact (proj2 sample_sized)].
Qed.

Lemma reconnect_reissues_witness :
  exists w', @iscsi_reconnect_cb sample_transport SCSI_STATUS_GOOD sample_broken = Ret (tt, w') /\
    outqueue (ctx w') = [5; 6; 7; 8]%nat /\
    @reissue (session sample_broken) w' 0 1 5 /\ @reissue (session sample_broken) w' 1 3 8 /\
    (exists evs, trace w' = evs /\
       filter (fun e => is_call e = true) evs = [Ev_callback 8 SCSI_STATUS_CANCELLED Data_none 0]) /\
    pdus w' !! 2%nat = None /\ pdus w' !! 4%nat = None.
Proof.
  destruct (@reconnect_reissues sample_transport sample_broken sample_old) as
    (w' & E & Q & C & T & F & K & _); [done|exact sample_resumed| | | | | |].
  - exact sample_requeueable.
  - apply (bool_decide_unpack _). vm_compute. exact I.
  - apply (bool_decide_unpack _). vm_compute. exact I.
  - intros p _. apply not_elem_of_nil.
  - intros p [= <-]. by eexists.
  - exists w'. split; [exact E|]. split; [exact Q|]. split; [by apply C|]. split; [by apply C|].
    split; [exact T|]. split; [apply F; by right; left|]. by eapply K.
Defined.

(** ** The settings of the new context *)

(** What [take_over] makes of the new context [t]. *)
Definition taken_over (c t : iscsi_context) : iscsi_context :=
  let l := login c in
  let k := conf c in
  t <| login ::= fun m =>
         m <| target_name := strncpy MAX_ISCSI_NAME_SIZE (target_name l) |>
           <| want_header_digest := want_header_digest l |> <| want_data_digest := want_data_digest l |>
           <| user := if incomplete (user l) (passwd l) then [] else strncpy MAX_STRING_SIZE (user l) |>
           <| passwd := if incomplete (user l) (passwd l) then [] else strncpy MAX_STRING_SIZE (passwd l) |>
           <| target_user := if incomplete (target_user l) (target_passwd l) then []
                             else strncpy MAX_STRING_SIZE (target_user l) |>
           <| target_passwd := if incomplete (target_user l) (target_passwd l) then []
                               else strncpy MAX_STRING_SIZE (target_passwd l) |> |>
    <| session_type := ISCSI_SESSION_NORMAL |>
    <| conf ::= fun s => s <| ctx_lun := ctx_lun k |>
        <| Context.portal := strncpy MAX_STRING_SIZE (Context.portal k) |>
        <| bind_interfaces := strncpy MAX_STRING_SIZE (bind_interfaces k) |>
        <| bind_interfaces_cnt := bind_interfaces_cnt k |>
        <| unit_serial_number := strncpy MAX_STRING_SIZE (unit_serial_number k) |>
        <| log_level := log_level k |> <| tcp_user_timeout := tcp_user_timeout k |>
        <| tcp_keepidle := tcp_keepidle k |> <| tcp_keepcnt := tcp_keepcnt k |>
        <| tcp_keepintvl := tcp_keepintvl k |> <| tcp_syncnt := tcp_syncnt k |>
        <| cache_allocations := cache_allocations k |>
        <| no_ua_on_reconnect := no_ua_on_reconnect k |>
        <| reconnect_max_retries := reconnect_max_retries k |> |>
    <| scsi_timeout := scsi_timeout c |>.

(** The digests asked for are members of their enumerations. *)
Definition digests_ok (l : login_state) : Prop :=
  0 <= want_header_digest l <= ISCSI_HEADER_DIGEST_LAST /\ 0 <= want_data_digest l <= ISCSI_DATA_DIGEST_LAST.

Lemma take_over_run c w : is_loggedin (ctx w) = false -> digests_ok (login c) ->
  take_over c w = Ret (tt, w <| ctx := taken_over c (ctx w) |>).
Proof.
  intros Hl [Hh Hd]. unfold take_over, iscsi_set_targetname, iscsi_set_header_digest, iscsi_set_data_digest,
    before_login, iscsi_set_initiator_username_pwd, iscsi_set_target_username_pwd, iscsi_set_session_type.
  assert (E1 : (ISCSI_HEADER_DIGEST_LAST <? u32 (want_header_digest (login c))) = false).
  { rewrite u32_small by (change ISCSI_HEADER_DIGEST_LAST with 3 in Hh; lia). apply Z.ltb_ge. lia. }
  assert (E2 : (ISCSI_DATA_DIGEST_LAST <? u32 (want_data_digest (login c))) = false).
  { rewrite u32_small by (change ISCSI_DATA_DIGEST_LAST with 3 in Hd; lia). apply Z.ltb_ge. lia. }
  rewrite E1, E2. unfold taken_over.
  set (b1 := incomplete (user (login c)) (passwd (login c))).
  set (b2 := incomplete (target_user (login c)) (target_passwd (login c))).
  clearbody b1 b2. destruct w as [[]]. cbn in Hl. subst. destruct b1, b2; vm_compute; reflexivity.
Qed.

(** A computation that changes settings only. *)
Definition only_conf (m : IO unit) : Prop :=
  forall w, exists k, m w = Ret (tt, w <| ctx ::= fun c => c <| conf := k |> |>).

Lemma conf_same w : w = w <| ctx ::= fun c => c <| conf := conf (ctx w) |> |>.
Proof. by destruct w as [[]]. Qed.

Lemma only_conf_set f : only_conf (set_conf f).
Proof. intros w. exists (f (conf (ctx w))). by destruct w as [[]]. Qed.

Lemma only_conf_seq m n : only_conf m -> only_conf n -> only_conf (_ ← m; n).
Proof.
  intros Hm Hn w. destruct (Hm w) as [k E]. destruct (Hn (w <| ctx ::= fun c => c <| conf := k |> |>)) as [k' E'].
  exists k'. run E. rewrite E'. by destruct w as [[]].
Qed.

Lemma only_conf_env name f : (forall v, only_conf (f v)) -> only_conf (with_env name f).
Proof.
  intros Hf w. unfold with_env, mbind, M_bind, getS. destruct (env w name) as [v|]; [apply Hf|].
  exists (conf (ctx w)). by rewrite <- conf_same.
Qed.

(** The environment changes settings only. *)
Lemma environment_run : only_conf environment_settings.
Proof.
  unfold environment_settings. repeat (apply only_conf_seq; [apply only_conf_env; intros v; apply only_conf_set|]).
  intros w. unfold mbind, M_bind, getS, when. destruct (match env w _ with Some _ => _ | None => _ end).
  - apply only_conf_set.
  - exists (conf (ctx w)). by rewrite <- conf_same.
Qed.

(** The context of [iscsi_create_context], up to the environment. *)
Definition created (name : bytes) (rnd : Z) (k : settings) : iscsi_context :=
  (default_context (zero_context <| isid := [0x80; (rnd >> 16) &&& 0xff; (rnd >> 8) &&& 0xff; rnd &&& 0xff; 0; 0] |>
    <| login ::= fun l => l <| initiator_name := strncpy MAX_ISCSI_NAME_SIZE name |> |>
    <| conn ::= fun c => c <| fd := -1 |> |>)) <| conf := k |>.

Lemma create_context_run name w : name <> [] -> memory w -> exists k v,
  iscsi_create_context name w = Ret (Some (created name (rand_seq (sys w) (rand_n (sys w))) k), v) /\
  ctx v = ctx w /\ memory v /\ pdus v = pdus w /\ tasks v = tasks w /\ connects v = connects w.
Proof.
  intros Hn Hm. unfold iscsi_create_context. destruct name as [|b name]; [done|].
  assert (Em : malloc w = Ret (true, w <| alloc_n ::= S |>)).
  { unfold malloc, mbind, M_bind, getS, modify, mret, M_ret. by rewrite Hm. }
  run Em. cbn [negb]. set (w1 := w <| alloc_n ::= S |>). set (rnd := rand_seq (sys w) (rand_n (sys w))).
  set (c1 := default_context (zero_context <| isid := [0x80; (rnd >> 16) &&& 0xff; (rnd >> 8) &&& 0xff; rnd &&& 0xff; 0; 0] |>
    <| login ::= fun l => l <| initiator_name := strncpy MAX_ISCSI_NAME_SIZE (b :: name) |> |>
    <| conn ::= fun c => c <| fd := -1 |> |>)).
  set (w2 := w1 <| ctx := c1 |> <| sys ::= fun s => s <| rand_n ::= S |> |>).
  assert (E0 : forall m : IO unit,
    (_ ← iscsi_init_transport TCP_TRANSPORT;
     _ ← set_login (fun l => l <| initiator_name := strncpy MAX_ISCSI_NAME_SIZE (b :: name) |>);
     _ ← set_conn (fun k => k <| fd := -1 |>);
     r ← rand; _ ← iscsi_set_isid_random r 0; _ ← set_ctx default_context; m) (w1 <| ctx := zero_context |>) = m w2).
  { intros m. unfold w2, c1, w1, rnd. destruct w as [[]]. vm_compute. reflexivity. }
  destruct (environment_run w2) as [k E]. exists k, (w1 <| sys ::= fun s => s <| rand_n ::= S |> |>).
  split; [|done].
  assert (E1 : on_ctx zero_context
    (_ ← iscsi_init_transport TCP_TRANSPORT;
     _ ← set_login (fun l => l <| initiator_name := strncpy MAX_ISCSI_NAME_SIZE (b :: name) |>);
     _ ← set_conn (fun k => k <| fd := -1 |>);
     r ← rand; _ ← iscsi_set_isid_random r 0; _ ← set_ctx default_context; environment_settings) w1 =
    Ret ((tt, c1 <| conf := k |>), w1 <| sys ::= fun s => s <| rand_n ::= S |> |>)).
  { unfold on_ctx. rewrite E0, E. unfold w2. clear E0 E. clearbody c1 w1. by destruct w1. }
  run E1. done.
Qed.

(** Two contexts differ: what the application had set up and the new one has
    ([rn_kept]), and what a new context has whatever was set up ([rn_lost]). *)
Record renewed (c t : iscsi_context) : Prop := {
  rn_names : initiator_name (login t) = initiator_name (login c) /\ target_name (login t) = target_name (login c);
  rn_digests : want_header_digest (login t) = want_header_digest (login c) /\
    want_data_digest (login t) = want_data_digest (login c);
  rn_user : incomplete (user (login c)) (passwd (login c)) = false ->
    user (login t) = user (login c) /\ passwd (login t) = passwd (login c);
  rn_target_user : incomplete (target_user (login c)) (target_passwd (login c)) = false ->
    target_user (login t) = target_user (login c) /\ target_passwd (login t) = target_passwd (login c);
  rn_conf : let k := conf c in let s := conf t in
    ctx_lun s = ctx_lun k /\ Context.portal s = Context.portal k /\
    bind_interfaces s = bind_interfaces k /\ bind_interfaces_cnt s = bind_interfaces_cnt k /\
    unit_serial_number s = unit_serial_number k /\ log_level s = log_level k /\
    tcp_user_timeout s = tcp_user_timeout k /\ tcp_keepidle s = tcp_keepidle k /\
    tcp_keepcnt s = tcp_keepcnt k /\ tcp_keepintvl s = tcp_keepintvl k /\
    tcp_syncnt s = tcp_syncnt k /\ cache_allocations s = cache_allocations k /\
    no_ua_on_reconnect s = no_ua_on_reconnect k /\ reconnect_max_retries s = reconnect_max_retries k;
  rn_timeout : scsi_timeout t = scsi_timeout c;
  rn_idle : is_loggedin t = false /\ outqueue t = [] /\ waitpdu t = [] /\ fd (conn t) = -1 /\
    session_type t = ISCSI_SESSION_NORMAL;
  rn_lost : chap_auth (login t) = ISCSI_CHAP_MD5 /\ alias (login t) = [] /\
    want_initial_r2t (login t) = ISCSI_INITIAL_R2T_NO /\
    want_immediate_data (login t) = ISCSI_IMMEDIATE_DATA_YES /\
    multithreading_enabled t = false /\ byte_at (isid t) 0 = 0x80;
  rn_old : old_iscsi t = Some c
}.

(** The character arrays hold what fits them. *)
Record fits (c : iscsi_context) : Prop := {
  ft_name : (length (initiator_name (login c)) <= 223)%nat /\ initiator_name (login c) <> [];
  ft_target : (length (target_name (login c)) <= 223)%nat;
  ft_user : (length (user (login c)) <= 255)%nat /\ (length (passwd (login c)) <= 255)%nat;
  ft_target_user : (length (target_user (login c)) <= 255)%nat /\ (length (target_passwd (login c)) <= 255)%nat;
  ft_conf : (length (Context.portal (conf c)) <= 255)%nat /\ (length (bind_interfaces (conf c)) <= 255)%nat /\
    (length (unit_serial_number (conf c)) <= 255)%nat;
  ft_digests : digests_ok (login c);
  ft_transport : transport (login c) = TCP_TRANSPORT
}.

Lemma strncpy_fits n s : (length s <= Z.to_nat n)%nat -> strncpy n s = s.
Proof. apply take_ge. Qed.

Lemma taken_over_renewed c rnd k : fits c ->
  renewed c ((taken_over c (created (initiator_name (login c)) rnd k)) <| old_iscsi := Some c |>).
Proof.
  intros [[Hn _] Ht [Hu1 Hu2] [Hv1 Hv2] (Hp & Hb & Hs) _ _].
  split; cbn; rewrite ?strncpy_fits by done; try done.
  - intros Hi. by rewrite Hi.
  - intros Hi. by rewrite Hi.
Qed.

Section Renew.
Context `{Sockets}.

Lemma start_reconnect_run w : old_iscsi (ctx w) = None -> fits (ctx w) -> memory w ->
  exists v, start_reconnect w = iscsi_full_connect_async None (ctx_lun (conf (ctx w))) fn_iscsi_reconnect_cb 0 v /\
    renewed (ctx w) (ctx v) /\ pdus v = pdus w /\ tasks v = tasks w /\ connects v = connects w.
Proof.
  intros Hold Hf Hm. set (c := ctx w) in *. unfold start_reconnect. run (get_ctx_run id w).
  change (id (ctx w)) with c. pose proof (proj2 (ft_name _ Hf)) as Hn.
  destruct (create_context_run _ w Hn Hm) as (k & u & E & Hc & Hmu & Hp & Ht & Hk). run E.
  set (rnd := rand_seq (sys w) (rand_n (sys w))) in *. set (t := created (initiator_name (login c)) rnd k) in *.
  assert (E1 : on_ctx t (iscsi_init_transport (transport (login c))) u = Ret ((0, t), u)).
  { rewrite (ft_transport _ Hf). unfold t. clearbody rnd. clear. destruct u. vm_compute. reflexivity. }
  run E1. cbn [Z.eqb negb].
  assert (E2 : on_ctx t (take_over c) u = Ret ((tt, taken_over c t), u)).
  { unfold on_ctx. rewrite take_over_run; [by destruct u|done|exact (ft_digests _ Hf)]. }
  run E2. unfold context_kept. rewrite Hold.
  assert (Em : (ok ← malloc; mret (if (ok : bool) then Some c else None)) u =
    Ret (Some c, u <| alloc_n ::= S |>)).
  { unfold malloc, mbind, M_bind, getS, modify, mret, M_ret. by rewrite Hmu. }
  run Em. set (v := u <| alloc_n ::= S |> <| ctx := (taken_over c t) <| old_iscsi := Some c |> |>).
  exists v. split; [reflexivity|]. split; [exact (taken_over_renewed c rnd k Hf)|]. done.
Qed.

(** C17: What a reconnect keeps of the settings: the first attempt of iscsi_reconnect
    goes on as a full connect, to the portal and LUN of the session, of a new context
    that has the names, digests, credentials, timeouts and socket settings of the old
    one, which is kept whole for its commands; but the new context authenticates with
    MD5 whatever CHAP algorithm was set, has no alias, a random ISID and the default
    wishes for InitialR2T and ImmediateData, and multithreading is off. *)
Theorem reconnect_renews (w : world) :
  old_iscsi (ctx w) = None -> fits (ctx w) -> memory w ->
  reconnect_deferred (conf (ctx w)) = 0 -> no_auto_reconnect (conf (ctx w)) = 0 ->
  next_reconnect (ctx w) <= now w ->
  exists v, iscsi_reconnect w =
      iscsi_full_connect_async None (ctx_lun (conf (ctx w))) fn_iscsi_reconnect_cb 0 v /\
    renewed (ctx w) (ctx v) /\ pdus v = pdus w /\ tasks v = tasks w.
Proof.
  intros Hold Hf Hm Hd Ha Hn. destruct (start_reconnect_run w Hold Hf Hm) as (v & E & Hr & Hp & Ht & _).
  exists v. split; [|done]. rewrite <- E. unfold iscsi_reconnect, reconnect.
  assert (Hget : forall k : world -> IO Z, (getS ≫= k) w = k w w) by done. rewrite Hget.
  rewrite Hd, Ha, Hold. cbn [Z.eqb negb]. rewrite bool_decide_false by (by intros [? ?]). cbn [andb].
  destruct (Z.ltb_spec (now w) (next_reconnect (ctx w))); [lia|]. by rewrite andb_false_r.
Qed.
End Renew.

(** A session with CHAP by SHA-256. *)
Definition sample_secure : world :=
  sample_world <| ctx ::= fun c => c <| multithreading_enabled := true |>
    <| login ::= fun l => l <| chap_auth := 7 |> <| alias := [0x61] |> |> |>.

Lemma reconnect_renews_witness :
  exists v, @iscsi_reconnect sample_sockets sample_secure =
      @iscsi_full_connect_async sample_sockets None 0 0 0 v /\
    renewed (ctx sample_secure) (ctx v) /\ chap_auth (login (ctx sample_secure)) = ISCSI_CHAP_SHA_256 /\
    chap_auth (login (ctx v)) = ISCSI_CHAP_MD5.
Proof.
  destruct (@reconnect_renews sample_sockets sample_secure) as (v & E & R & _);
    [done| |done..|].
  - split; cbn; repeat split; try lia; done.
  - exists v. split; [exact E|]. split; [exact R|]. split; [reflexivity|]. exact (proj1 (rn_lost _ _ R)).
Defined.
