(* ===== verification/Sync.v ===== *)
(** Synchronous wrappers (src/lib/sync.c): each starts an asynchronous call with
    its [iscsi_sync_state] as the private data, and serves the connection until the
    callback has set [finished]; with multithreading it waits for a semaphore
    while the service thread (src/lib/multithreading.c) does that.

    The state lives on the stack of the wrapper, at the address [here]: a
    callback that comes with another address writes to a frame that is gone.
    As in [Connect.deliver], the callbacks of the library are run after the call
    that emitted them.  The application waits while the service thread runs:
    the thread is the loop of [iscsi_mt_sem_wait].  What [poll] answers, and
    what it does to the world meanwhile, is the interface [Poll].  [fuel] bounds
    the turns of each loop and the callbacks of each call. *)

From S2P Require Import SList Prelude Hash Hashes Bytes Crc32c Task Cdb DataIn Inquiry ModePages Unmarshall Context Pdu Queue Complete Cancel Iovec Command Tasks Process Writer Reader Service Text Login Discovery Negotiate Init Connect.

Class Poll := {
  poll : Z -> Z -> Z -> IO (Z * Z);  (* descriptor, events, timeout: result, revents *)
  sleep : Z -> IO unit
}.

(** ** The state of a wrapper *)

(** A copy of a discovered target; a name is [None] when [strdup] failed. *)
Record discovery_data := {
  dd_target_name : option bytes;
  dd_portals : list (option bytes)
}.

(** [ptr] is the list of the targets; [wait_sem] the value of the semaphore. *)
Record iscsi_sync_state := {
  finished : Z;
  sync_status : Z;
  sync_ptr : list discovery_data;
  sync_task : option nat;
  wait_sem : Z
}.

#[export] Instance eta_sync_state : Eta iscsi_sync_state := fun s =>
  Build_iscsi_sync_state (finished s) (sync_status s) (sync_ptr s) (sync_task s) (wait_sem s).

(** [memset], and a semaphore of value 0 where there is one. *)
Definition iscsi_init_sync_state : iscsi_sync_state := Build_iscsi_sync_state 0 0 [] None 0.

(** The functions of sync.c that are installed as callbacks. *)
Definition fn_iscsi_sync_cb : nat := 6.
Definition fn_scsi_sync_cb : nat := 7.
Definition fn_iscsi_task_mgmt_sync_cb : nat := 8.
Definition fn_iscsi_discovery_cb : nat := 9.

(** [iscsi->poll_timeout] *)
Definition poll_timeout : Z := 100.

Abbreviation SIO := (M (world * iscsi_sync_state)).

Definition io {A} (m : IO A) : SIO A := fun '(w, s) =>
  match m w with Ret (a, w') => Ret (a, (w', s)) | Undef u => Undef u end.

Definition get_state : SIO iscsi_sync_state := gets snd.
Definition set_state (f : iscsi_sync_state -> iscsi_sync_state) : SIO unit :=
  modify (fun '(w, s) => (w, f s)).

(** A function with a state of its own. *)
Definition in_frame {A} (m : SIO A) : IO A := fun w =>
  match m (w, iscsi_init_sync_state) with Ret (a, (w', _)) => Ret (a, w') | Undef u => Undef u end.

(** An error that ends a loop. *)
Definition loop_failed (msg : string) : SIO unit :=
  _ ← io (iscsi_set_error msg); set_state (fun s => s <| sync_status := -1 |>).

(** ** The list of discovered targets *)

Definition strdup (s : option bytes) : IO (option bytes) :=
  s ← deref s;
  ok ← malloc;
  mret (if (ok : bool) then Some s else None).

(** [malloc], and [memset] of the block without a test. *)
Definition zeroed_block : IO unit := ok ← malloc; if (ok : bool) then mret tt else undefined NullDeref.

Fixpoint copy_portals (po portals : list (option bytes)) : IO (list (option bytes)) :=
  match po with
  | [] => mret portals
  | p :: po => _ ← zeroed_block; s ← strdup p; copy_portals po (s :: portals)
  end.

Fixpoint copy_targets (da : list iscsi_discovery_address) (dahead : list discovery_data)
    : IO (list discovery_data) :=
  match da with
  | [] => mret dahead
  | a :: da =>
      _ ← zeroed_block;
      name ← strdup (Some (da_target_name a));
      portals ← copy_portals (da_portals a) [];
      copy_targets da (Build_discovery_data name portals :: dahead)
  end.

Definition blocks_of (s : option bytes) : nat := match s with Some _ => 1 | None => 0 end.

Fixpoint free_portals (po : list (option bytes)) : nat :=
  match po with [] => 0 | p :: po => blocks_of p + 1 + free_portals po end.

(** The blocks it frees. *)
Fixpoint iscsi_free_discovery_data (da : list discovery_data) : nat :=
  match da with
  | [] => 0
  | a :: da => free_portals (dd_portals a) + blocks_of (dd_target_name a) + 1 + iscsi_free_discovery_data da
  end.

Section Sync.
Context `{Sockets} `{Malloc} `{Hashes} `{Connect} `{Negotiation} `{Poll}.
Context (fuel : nat) (here : Z).

(** ** The callbacks *)

(** [struct iscsi_sync_state *state = private_data] *)
Definition state_at (private : Z) : SIO unit :=
  if private =? here then mret tt else undefined UseAfterFree.

Definition iscsi_mt_sem_post : SIO unit := set_state (fun s => s <| wait_sem ::= Z.add 1 |>).

Definition multithreaded : SIO bool :=
  w ← io getS; mret (have_mt w && multithreading_enabled (ctx w)).

Definition iscsi_sync_cb (status private : Z) : SIO unit :=
  _ ← state_at private;
  _ ← set_state (fun s => s <| sync_status := status |> <| finished := 1 |>);
  mt ← multithreaded;
  when mt iscsi_mt_sem_post.

Definition scsi_sync_cb (status : Z) (t : nat) (private : Z) : SIO unit :=
  _ ← io (set_task t (fun task => task <| Task.status := status |>));
  _ ← state_at private;
  _ ← set_state (fun s => s <| sync_status := status |> <| finished := 1 |> <| sync_task := Some t |>);
  mt ← multithreaded;
  when mt iscsi_mt_sem_post.

Definition task_mgmt_message (response : Z) : option string :=
  if response =? 1 then Some "TASK MGMT responded Task Does Not Exist" else
  if response =? 2 then Some "TASK MGMT responded LUN Does Not Exist" else
  if response =? 3 then Some "TASK MGMT responded Task Still Allegiant" else
  if response =? 4 then Some "TASK MGMT responded Task Allegiance Reassignment Not Supported" else
  if response =? 5 then Some "TASK MGMT responded Task Mgmt Function Not Supported" else
  if response =? 6 then Some "TASK MGMT responded Function Authorization Failed" else
  if response =? 255 then Some "TASK MGMT responded Function Rejected" else None.

(** The response is [None] when [command_data] is NULL. *)
Definition iscsi_task_mgmt_sync_cb (status : Z) (response : option Z) (private : Z) : SIO unit :=
  _ ← state_at private;
  _ ← set_state (fun s => s <| sync_status := status |> <| finished := 1 |>);
  match response with
  | None => mret tt
  | Some r =>
      if r =? 0 then mret tt else
      _ ← match task_mgmt_message r with Some msg => io (iscsi_set_error msg) | None => mret tt end;
      set_state (fun s => s <| sync_status := SCSI_STATUS_ERROR |>)
  end.

Definition iscsi_discovery_cb (status : Z) (targets : list iscsi_discovery_address) (private : Z) : SIO unit :=
  dahead ← io (copy_targets targets []);
  _ ← state_at private;
  set_state (fun s => s <| sync_status := status |> <| finished := 1 |> <| sync_ptr := dahead |>).

(** What a callback is given, as each function takes it. *)
Definition response_of (data : command_data) : option Z :=
  match data with Data_response r => Some r | _ => None end.
Definition targets_of (data : command_data) : list iscsi_discovery_address :=
  match data with Data_targets l => l | _ => [] end.

Definition sync_callback (e : event) : SIO unit :=
  match e with
  | Ev_wakeup => mret tt
  | Ev_callback f status data private =>
      if (f =? fn_iscsi_sync_cb)%nat then iscsi_sync_cb status private else
      if (f =? fn_scsi_sync_cb)%nat then t ← io (callback_task data); scsi_sync_cb status t private else
      if (f =? fn_iscsi_task_mgmt_sync_cb)%nat then
        iscsi_task_mgmt_sync_cb status (response_of data) private else
      if (f =? fn_iscsi_discovery_cb)%nat then iscsi_discovery_cb status (targets_of data) private else
      mret tt
  end.

(** Run the callbacks of the library from event [i] of the trace on. *)
Fixpoint run_callbacks (n i : nat) : SIO unit :=
  w ← io getS;
  match trace w !! i with
  | None => mret tt
  | Some e =>
      match n with
      | O => undefined NoFuel
      | S n => _ ← io (library_callback e); _ ← sync_callback e; run_callbacks n (S i)
      end
  end.

(** A call, and the callbacks it makes. *)
Definition calling {A} (m : IO A) : SIO A :=
  w ← io getS;
  r ← io m;
  _ ← run_callbacks fuel (length (trace w));
  mret r.

(** ** Waiting *)

(** One turn of the loop of [iscsi_mt_service_thread]. *)
Definition service_turn : SIO unit :=
  d ← io iscsi_get_fd;
  events ← io iscsi_tcp_which_events;
  '(ret, revents) ← io (poll d events poll_timeout);
  e ← io (get_sys errno);
  revents ←
    (if (ret <? 0) && (e =? EINTR) then mret POLLOUT else
     if ret <? 0 then _ ← io (iscsi_set_error "Poll failed"); mret (-1) else mret revents);
  rc ← calling (iscsi_service revents);
  when ((rc <? 0) && negb (revents =? -1)) (io (iscsi_set_error "iscsi_service failed")).

(** The thread runs as long as multithreading is enabled. *)
Fixpoint iscsi_mt_sem_wait (n : nat) : SIO unit :=
  s ← get_state;
  if 0 <? wait_sem s then set_state (fun s => s <| wait_sem ::= fun v => v - 1 |>) else
  match n with
  | O => undefined NoFuel
  | S n => mt ← multithreaded; _ ← when mt service_turn; iscsi_mt_sem_wait n
  end.

(** The loop of [event_loop]; [deadline] is the local [scsi_timeout]. *)
Fixpoint event_turns (n : nat) (deadline : Z) : SIO unit :=
  s ← get_state;
  if negb (finished s =? 0) then mret tt else
  match n with
  | O => undefined NoFuel
  | S n =>
      w ← io getS;
      if truth deadline && (deadline <? now w) then
        _ ← calling check_timeout; loop_failed "Connect timedout" else
      d ← io iscsi_get_fd;
      events ← io iscsi_tcp_which_events;
      '(ret, revents) ← io (poll d events 1000);
      if ret <? 0 then loop_failed "Poll failed" else
      rc ← calling (iscsi_service (if ret =? 0 then 0 else revents));
      if rc <? 0 then loop_failed "iscsi_service failed with : %s" else
      k ← io (get_ctx conn);
      if fd k <? 0 then loop_failed "Invalid fd %d" else event_turns n deadline
  end.

Definition event_loop : SIO unit :=
  mt ← multithreaded;
  if (mt : bool) then iscsi_mt_sem_wait fuel else
  w ← io getS;
  let t := scsi_timeout (ctx w) in
  event_turns fuel (if truth t then i32 (now w + t) else 0).

Fixpoint reconnect_event_loop (n : nat) : SIO unit :=
  old ← io (get_ctx old_iscsi);
  match old with
  | None => set_state (fun s => s <| sync_status := 0 |>)
  | Some _ =>
      match n with
      | O => undefined NoFuel
      | S n =>
          d ← io iscsi_get_fd;
          events ← io iscsi_tcp_which_events;
          if events =? 0 then _ ← io (sleep 1); reconnect_event_loop n else
          '(ret, revents) ← io (poll d events 1000);
          if ret <? 0 then loop_failed "Poll failed" else
          rc ← calling (iscsi_service revents);
          if rc <? 0 then loop_failed "iscsi_service failed with : %s" else reconnect_event_loop n
      end
  end.

(** [(state.status == SCSI_STATUS_GOOD) ? 0 : -1] *)
Definition sync_result : SIO Z :=
  s ← get_state; mret (if sync_status s =? SCSI_STATUS_GOOD then 0 else -1).

(** ** The wrappers *)

(** The body of most of them: start, report a failure, wait, go on. *)
Definition started (start : IO Z) (msg : string) (after : SIO Z) : IO Z :=
  in_frame
    (rc ← calling start;
     if negb (rc =? 0) then _ ← io (iscsi_set_error msg); mret (-1) else
     _ ← event_loop;
     after).

(** A connect that failed cancels what it sent. *)
Definition cancel_on_error : SIO Z :=
  s ← get_state;
  _ ← when (negb (sync_status s =? SCSI_STATUS_GOOD)) (calling iscsi_cancel_pdus);
  sync_result.

Definition iscsi_connect_sync (portal : bytes) : IO Z :=
  started (iscsi_connect_async portal (Some (Cb_user fn_iscsi_sync_cb)) here) "Failed to start connect() %s"
    (_ ← io (set_conn (fun k => k <| connect_data := 0 |>)); cancel_on_error).

Definition iscsi_full_connect_sync (portal : bytes) (lun : Z) : IO Z :=
  started (iscsi_full_connect_async (Some portal) lun fn_iscsi_sync_cb here) "Failed to start full connect %s"
    cancel_on_error.

Definition iscsi_login_sync : IO Z :=
  started (iscsi_login_async (Some (Cb_user fn_iscsi_sync_cb)) here) "Failed to login. %s" sync_result.

Definition iscsi_logout_sync : IO Z :=
  started (iscsi_logout_async (Some (Cb_user fn_iscsi_sync_cb)) here) "Failed to start logout() %s" sync_result.

(** With [force], [iscsi_force_reconnect_sync]. *)
Definition reconnect_sync (force : bool) : IO Z :=
  in_frame
    (rc ← calling (reconnect force);
     if negb (rc =? 0) then _ ← io (iscsi_set_error "Failed to reconnect. %s"); mret (-1) else
     _ ← reconnect_event_loop fuel;
     sync_result).

Definition iscsi_reconnect_sync : IO Z := reconnect_sync false.
Definition iscsi_force_reconnect_sync : IO Z := reconnect_sync true.

Definition iscsi_task_mgmt_sync (lun function ritt rcmdsn : Z) : IO Z :=
  started (iscsi_task_mgmt_async lun function ritt rcmdsn (Some (Cb_user fn_iscsi_task_mgmt_sync_cb)) here)
    "Failed to send TASK MGMT function: %s" sync_result.

Definition iscsi_task_mgmt_abort_task_sync (t : nat) : IO Z :=
  task ← get_task t;
  iscsi_task_mgmt_sync (task_lun task) ISCSI_TM_ABORT_TASK (task_itt task) (task_cmdsn task).

(** The commands are cancelled before there is a frame: a callback of a wrapper
    that gave up writes to one that is gone. *)
Definition is_sync_event (e : event) : bool :=
  match e with
  | Ev_callback f _ _ _ => (fn_iscsi_sync_cb <=? f)%nat && (f <=? fn_iscsi_discovery_cb)%nat
  | Ev_wakeup => false
  end.

Definition cancel_all : IO unit :=
  w ← getS;
  _ ← delivering fuel iscsi_scsi_cancel_all_tasks;
  w' ← getS;
  if existsb is_sync_event (drop (length (trace w)) (trace w')) then undefined UseAfterFree else mret tt.

Definition iscsi_task_mgmt_abort_task_set_sync (lun : Z) : IO Z :=
  _ ← cancel_all; iscsi_task_mgmt_sync lun ISCSI_TM_ABORT_TASK_SET 0xffffffff 0.

Definition iscsi_task_mgmt_lun_reset_sync (lun : Z) : IO Z :=
  _ ← cancel_all; iscsi_task_mgmt_sync lun ISCSI_TM_LUN_RESET 0xffffffff 0.

Definition iscsi_task_mgmt_target_warm_reset_sync : IO Z :=
  _ ← cancel_all; iscsi_task_mgmt_sync 0 ISCSI_TM_TARGET_WARM_RESET 0xffffffff 0.

Definition iscsi_task_mgmt_target_cold_reset_sync : IO Z :=
  _ ← cancel_all; iscsi_task_mgmt_sync 0 ISCSI_TM_TARGET_COLD_RESET 0xffffffff 0.

Definition iscsi_discovery_sync : IO (list discovery_data) :=
  in_frame
    (rc ← calling (iscsi_discovery_async (Some (Cb_user fn_iscsi_discovery_cb)) here);
     if negb (rc =? 0) then _ ← io (iscsi_set_error "Failed to run discovery. %s"); mret [] else
     _ ← event_loop;
     s ← get_state;
     mret (sync_ptr s)).

(** ** SCSI commands *)

(** The body of all of them: [send] is the asynchronous function. *)
Definition scsi_sync (msg : string) (send : option nat -> Z -> IO (option nat)) : IO (option nat) :=
  in_frame
    (r ← calling (send (Some fn_scsi_sync_cb) here);
     match r with
     | None => _ ← io (iscsi_set_error msg); mret None
     | Some _ => _ ← event_loop; s ← get_state; mret (sync_task s)
     end).

Definition iscsi_scsi_command_sync (lun : Z) (t : nat) (data : option scsi_iovec) : IO (option nat) :=
  scsi_sync "Failed to send SCSI command"
    (fun cb private =>
       rc ← iscsi_scsi_command_async lun t cb data private;
       mret (if rc =? 0 then Some t else None)).

Definition iscsi_reportluns_sync (report_type alloc_len : Z) : IO (option nat) :=
  scsi_sync "Failed to send ReportLuns command"
    (fun cb private => iscsi_reportluns_task cb private report_type alloc_len).

Definition iscsi_testunitready_sync (lun : Z) : IO (option nat) :=
  scsi_sync "Failed to send TestUnitReady command"
    (fun cb private => iscsi_testunitready_task lun cb private).

Definition iscsi_inquiry_sync (lun evpd page_code maxsize : Z) : IO (option nat) :=
  scsi_sync "Failed to send Inquiry command"
    (fun cb private => iscsi_inquiry_task lun cb private evpd page_code maxsize).

Definition iscsi_read6_sync (lun lba datalen blocksize : Z) : IO (option nat) :=
  scsi_sync "Failed to send Read6 command"
    (fun cb private => iscsi_read6_task lun cb private lba datalen blocksize).

Definition iscsi_read6_iov_sync (lun lba datalen blocksize : Z) (iov : option (list scsi_iovec))
    (niov : Z) : IO (option nat) :=
  scsi_sync "Failed to send Read6 command"
    (fun cb private => iscsi_read6_iov_task lun cb private lba datalen blocksize iov niov).

Definition iscsi_read10_sync (lun lba datalen blocksize rdprotect dpo fua fua_nv
    group_number : Z) : IO (option nat) :=
  scsi_sync "Failed to send Read10 command"
    (fun cb private =>
       iscsi_read10_task lun cb private lba datalen blocksize rdprotect dpo fua fua_nv
         group_number).

Definition iscsi_read10_iov_sync (lun lba datalen blocksize rdprotect dpo fua fua_nv
    group_number : Z) (iov : option (list scsi_iovec)) (niov : Z) : IO (option nat) :=
  scsi_sync "Failed to send Read10 command"
    (fun cb private =>
       iscsi_read10_iov_task lun cb private lba datalen blocksize rdprotect dpo fua fua_nv
         group_number iov niov).

Definition iscsi_read12_sync (lun lba datalen blocksize rdprotect dpo fua fua_nv
    group_number : Z) : IO (option nat) :=
  scsi_sync "Failed to send Read12 command"
    (fun cb private =>
       iscsi_read12_task lun cb private lba datalen blocksize rdprotect dpo fua fua_nv
         group_number).

Definition iscsi_read12_iov_sync (lun lba datalen blocksize rdprotect dpo fua fua_nv
    group_number : Z) (iov : option (list scsi_iovec)) (niov : Z) : IO (option nat) :=
  scsi_sync "Failed to send Read12 command"
    (fun cb private =>
       iscsi_read12_iov_task lun cb private lba datalen blocksize rdprotect dpo fua fua_nv
         group_number iov niov).

Definition iscsi_read16_sync (lun lba datalen blocksize rdprotect dpo fua fua_nv
    group_number : Z) : IO (option nat) :=
  scsi_sync "Failed to send Read16 command"
    (fun cb private =>
       iscsi_read16_task lun cb private lba datalen blocksize rdprotect dpo fua fua_nv
         group_number).

Definition iscsi_read16_iov_sync (lun lba datalen blocksize rdprotect dpo fua fua_nv
    group_number : Z) (iov : option (list scsi_iovec)) (niov : Z) : IO (option nat) :=
  scsi_sync "Failed to send Read16 command"
    (fun cb private =>
       iscsi_read16_iov_task lun cb private lba datalen blocksize rdprotect dpo fua fua_nv
         group_number iov niov).

Definition iscsi_readcapacity10_sync (lun lba pmi : Z) : IO (option nat) :=
  scsi_sync "Failed to send ReadCapacity10 command"
    (fun cb private => iscsi_readcapacity10_task lun cb private lba pmi).

Definition iscsi_readcapacity16_sync (lun : Z) : IO (option nat) :=
  scsi_sync "Failed to send ReadCapacity16 command"
    (fun cb private => iscsi_readcapacity16_task lun cb private).

Definition iscsi_readdefectdata10_sync (lun req_plist req_glist defect_list_format
    alloc_len : Z) : IO (option nat) :=
  scsi_sync "Failed to send ReadDefectData10 command"
    (fun cb private =>
       iscsi_readdefectdata10_task lun cb private req_plist req_glist defect_list_format
         alloc_len).

Definition iscsi_readdefectdata12_sync (lun req_plist req_glist defect_list_format
    address_descriptor_index alloc_len : Z) : IO (option nat) :=
  scsi_sync "Failed to send ReadDefectData12 command"
    (fun cb private =>
       iscsi_readdefectdata12_task lun cb private req_plist req_glist defect_list_format
         address_descriptor_index alloc_len).

Definition iscsi_sanitize_sync (lun immed ause sa param_len : Z)
    (data : option scsi_iovec) : IO (option nat) :=
  scsi_sync "Failed to send Sanitize command"
    (fun cb private => iscsi_sanitize_task lun cb private immed ause sa param_len data).

Definition iscsi_sanitize_block_erase_sync (lun immed ause : Z) : IO (option nat) :=
  scsi_sync "Failed to send Sanitize command"
    (fun cb private => iscsi_sanitize_block_erase_task lun cb private immed ause).

Definition iscsi_sanitize_crypto_erase_sync (lun immed ause : Z) : IO (option nat) :=
  scsi_sync "Failed to send Sanitize command"
    (fun cb private => iscsi_sanitize_crypto_erase_task lun cb private immed ause).

Definition iscsi_sanitize_exit_failure_mode_sync (lun immed ause : Z) : IO (option nat) :=
  scsi_sync "Failed to send Sanitize command"
    (fun cb private => iscsi_sanitize_exit_failure_mode_task lun cb private immed ause).

Definition iscsi_get_lba_status_sync (lun starting_lba alloc_len : Z) : IO (option nat) :=
  scsi_sync "Failed to send GetLbaStatus command"
    (fun cb private => iscsi_get_lba_status_task lun cb private starting_lba alloc_len).

Definition iscsi_synchronizecache10_sync (lun lba num_blocks syncnv
    immed : Z) : IO (option nat) :=
  scsi_sync "Failed to send SynchronizeCache10 command"
    (fun cb private => iscsi_synchronizecache10_task lun cb private lba num_blocks syncnv immed).

Definition iscsi_startstopunit_sync (lun immed pcm pc no_flush loej
    start : Z) : IO (option nat) :=
  scsi_sync "Failed to send StartStopUnit command"
    (fun cb private => iscsi_startstopunit_task lun cb private immed pcm pc no_flush loej start).

Definition iscsi_preventallow_sync (lun prevent : Z) : IO (option nat) :=
  scsi_sync "Failed to send PreventAllowMediumRemoval command"
    (fun cb private => iscsi_preventallow_task lun cb private prevent).

Definition iscsi_synchronizecache16_sync (lun lba num_blocks syncnv
    immed : Z) : IO (option nat) :=
  scsi_sync "Failed to send SynchronizeCache16 command"
    (fun cb private => iscsi_synchronizecache16_task lun cb private lba num_blocks syncnv immed).

Definition iscsi_prefetch10_sync (lun lba num_blocks immed group : Z) : IO (option nat) :=
  scsi_sync "Failed to send PreFetch10 command"
    (fun cb private => iscsi_prefetch10_task lun cb private lba num_blocks immed group).

Definition iscsi_prefetch16_sync (lun lba num_blocks immed group : Z) : IO (option nat) :=
  scsi_sync "Failed to send PreFetch16 command"
    (fun cb private => iscsi_prefetch16_task lun cb private lba num_blocks immed group).

Definition iscsi_write10_sync (lun lba data datalen blocksize wrprotect dpo fua fua_nv
    group_number : Z) : IO (option nat) :=
  scsi_sync "Failed to send Write10 command"
    (fun cb private =>
       iscsi_write10_task lun cb private lba data datalen blocksize wrprotect dpo fua fua_nv
         group_number).

Definition iscsi_write10_iov_sync (lun lba data datalen blocksize wrprotect dpo fua fua_nv
    group_number : Z) (iov : option (list scsi_iovec)) (niov : Z) : IO (option nat) :=
  scsi_sync "Failed to send Write10 command"
    (fun cb private =>
       iscsi_write10_iov_task lun cb private lba data datalen blocksize wrprotect dpo fua fua_nv
         group_number iov niov).

Definition iscsi_write12_sync (lun lba data datalen blocksize wrprotect dpo fua fua_nv
    group_number : Z) : IO (option nat) :=
  scsi_sync "Failed to send Write12 command"
    (fun cb private =>
       iscsi_write12_task lun cb private lba data datalen blocksize wrprotect dpo fua fua_nv
         group_number).

Definition iscsi_write12_iov_sync (lun lba data datalen blocksize wrprotect dpo fua fua_nv
    group_number : Z) (iov : option (list scsi_iovec)) (niov : Z) : IO (option nat) :=
  scsi_sync "Failed to send Write12 command"
    (fun cb private =>
       iscsi_write12_iov_task lun cb private lba data datalen blocksize wrprotect dpo fua fua_nv
         group_number iov niov).

Definition iscsi_write16_sync (lun lba data datalen blocksize wrprotect dpo fua fua_nv
    group_number : Z) : IO (option nat) :=
  scsi_sync "Failed to send Write16 command"
    (fun cb private =>
       iscsi_write16_task lun cb private lba data datalen blocksize wrprotect dpo fua fua_nv
         group_number).

Definition iscsi_write16_iov_sync (lun lba data datalen blocksize wrprotect dpo fua fua_nv
    group_number : Z) (iov : option (list scsi_iovec)) (niov : Z) : IO (option nat) :=
  scsi_sync "Failed to send Write16 command"
    (fun cb private =>
       iscsi_write16_iov_task lun cb private lba data datalen blocksize wrprotect dpo fua fua_nv
         group_number iov niov).

Definition iscsi_writeatomic16_sync (lun lba data datalen blocksize wrprotect dpo fua
    group_number : Z) : IO (option nat) :=
  scsi_sync "Failed to send WriteAtomic16 command"
    (fun cb private =>
       iscsi_writeatomic16_task lun cb private lba data datalen blocksize wrprotect dpo fua
         group_number).

Definition iscsi_writeatomic16_iov_sync (lun lba data datalen blocksize wrprotect dpo fua
    group_number : Z) (iov : option (list scsi_iovec)) (niov : Z) : IO (option nat) :=
  scsi_sync "Failed to send WriteAtomic16 command"
    (fun cb private =>
       iscsi_writeatomic16_iov_task lun cb private lba data datalen blocksize wrprotect dpo fua
         group_number iov niov).

Definition iscsi_orwrite_sync (lun lba data datalen blocksize wrprotect dpo fua fua_nv
    group_number : Z) : IO (option nat) :=
  scsi_sync "Failed to send Orwrite command"
    (fun cb private =>
       iscsi_orwrite_task lun cb private lba data datalen blocksize wrprotect dpo fua fua_nv
         group_number).

Definition iscsi_orwrite_iov_sync (lun lba data datalen blocksize wrprotect dpo fua fua_nv
    group_number : Z) (iov : option (list scsi_iovec)) (niov : Z) : IO (option nat) :=
  scsi_sync "Failed to send Orwrite command"
    (fun cb private =>
       iscsi_orwrite_iov_task lun cb private lba data datalen blocksize wrprotect dpo fua fua_nv
         group_number iov niov).

Definition iscsi_compareandwrite_sync (lun lba data datalen blocksize wrprotect dpo fua fua_nv
    group_number : Z) : IO (option nat) :=
  scsi_sync "Failed to send CompareAndWrite command"
    (fun cb private =>
       iscsi_compareandwrite_task lun cb private lba data datalen blocksize wrprotect dpo fua
         fua_nv group_number).

Definition iscsi_compareandwrite_iov_sync (lun lba data datalen blocksize wrprotect dpo fua fua_nv
    group_number : Z) (iov : option (list scsi_iovec)) (niov : Z) : IO (option nat) :=
  scsi_sync "Failed to send CompareAndWrite command"
    (fun cb private =>
       iscsi_compareandwrite_iov_task lun cb private lba data datalen blocksize wrprotect dpo fua
         fua_nv group_number iov niov).

Definition iscsi_writeverify10_sync (lun lba data datalen blocksize wrprotect dpo bytchk
    group_number : Z) : IO (option nat) :=
  scsi_sync "Failed to send Writeverify10 command"
    (fun cb private =>
       iscsi_writeverify10_task lun cb private lba data datalen blocksize wrprotect dpo bytchk
         group_number).

Definition iscsi_writeverify10_iov_sync (lun lba data datalen blocksize wrprotect dpo bytchk
    group_number : Z) (iov : option (list scsi_iovec)) (niov : Z) : IO (option nat) :=
  scsi_sync "Failed to send Writeverify10 command"
    (fun cb private =>
       iscsi_writeverify10_iov_task lun cb private lba data datalen blocksize wrprotect dpo bytchk
         group_number iov niov).

Definition iscsi_writeverify12_sync (lun lba data datalen blocksize wrprotect dpo bytchk
    group_number : Z) : IO (option nat) :=
  scsi_sync "Failed to send Writeverify12 command"
    (fun cb private =>
       iscsi_writeverify12_task lun cb private lba data datalen blocksize wrprotect dpo bytchk
         group_number).

Definition iscsi_writeverify12_iov_sync (lun lba data datalen blocksize wrprotect dpo bytchk
    group_number : Z) (iov : option (list scsi_iovec)) (niov : Z) : IO (option nat) :=
  scsi_sync "Failed to send Writeverify12 command"
    (fun cb private =>
       iscsi_writeverify12_iov_task lun cb private lba data datalen blocksize wrprotect dpo bytchk
         group_number iov niov).

Definition iscsi_writeverify16_sync (lun lba data datalen blocksize wrprotect dpo bytchk
    group_number : Z) : IO (option nat) :=
  scsi_sync "Failed to send Writeverify16 command"
    (fun cb private =>
       iscsi_writeverify16_task lun cb private lba data datalen blocksize wrprotect dpo bytchk
         group_number).

Definition iscsi_writeverify16_iov_sync (lun lba data datalen blocksize wrprotect dpo bytchk
    group_number : Z) (iov : option (list scsi_iovec)) (niov : Z) : IO (option nat) :=
  scsi_sync "Failed to send Writeverify16 command"
    (fun cb private =>
       iscsi_writeverify16_iov_task lun cb private lba data datalen blocksize wrprotect dpo bytchk
         group_number iov niov).

Definition iscsi_verify10_sync (lun data datalen lba vprotect dpo bytchk
    blocksize : Z) : IO (option nat) :=
  scsi_sync "Failed to send Verify10 command"
    (fun cb private =>
       iscsi_verify10_task lun cb private data datalen lba vprotect dpo bytchk blocksize).

Definition iscsi_verify10_iov_sync (lun data datalen lba vprotect dpo bytchk blocksize : Z)
    (iov : option (list scsi_iovec)) (niov : Z) : IO (option nat) :=
  scsi_sync "Failed to send Verify10 command"
    (fun cb private =>
       iscsi_verify10_iov_task lun cb private data datalen lba vprotect dpo bytchk blocksize iov
         niov).

Definition iscsi_verify12_sync (lun data datalen lba vprotect dpo bytchk
    blocksize : Z) : IO (option nat) :=
  scsi_sync "Failed to send Verify12 command"
    (fun cb private =>
       iscsi_verify12_task lun cb private data datalen lba vprotect dpo bytchk blocksize).

Definition iscsi_verify12_iov_sync (lun data datalen lba vprotect dpo bytchk blocksize : Z)
    (iov : option (list scsi_iovec)) (niov : Z) : IO (option nat) :=
  scsi_sync "Failed to send Verify12 command"
    (fun cb private =>
       iscsi_verify12_iov_task lun cb private data datalen lba vprotect dpo bytchk blocksize iov
         niov).

Definition iscsi_verify16_sync (lun data datalen lba vprotect dpo bytchk
    blocksize : Z) : IO (option nat) :=
  scsi_sync "Failed to send Verify16 command"
    (fun cb private =>
       iscsi_verify16_task lun cb private data datalen lba vprotect dpo bytchk blocksize).

Definition iscsi_verify16_iov_sync (lun data datalen lba vprotect dpo bytchk blocksize : Z)
    (iov : option (list scsi_iovec)) (niov : Z) : IO (option nat) :=
  scsi_sync "Failed to send Verify16 command"
    (fun cb private =>
       iscsi_verify16_iov_task lun cb private data datalen lba vprotect dpo bytchk blocksize iov
         niov).

Definition iscsi_writesame10_sync (lun lba data datalen num_blocks anchor unmap wrprotect
    group : Z) : IO (option nat) :=
  scsi_sync "Failed to send WRITESAME10 command"
    (fun cb private =>
       iscsi_writesame10_task lun cb private lba data datalen num_blocks anchor unmap wrprotect
         group).

Definition iscsi_writesame10_iov_sync (lun lba data datalen num_blocks anchor unmap wrprotect
    group : Z) (iov : option (list scsi_iovec)) (niov : Z) : IO (option nat) :=
  scsi_sync "Failed to send WRITESAME10 command"
    (fun cb private =>
       iscsi_writesame10_iov_task lun cb private lba data datalen num_blocks anchor unmap
         wrprotect group iov niov).

Definition iscsi_writesame16_sync (lun lba data datalen num_blocks anchor unmap wrprotect
    group : Z) : IO (option nat) :=
  scsi_sync "Failed to send WRITESAME16 command"
    (fun cb private =>
       iscsi_writesame16_task lun cb private lba data datalen num_blocks anchor unmap wrprotect
         group).

Definition iscsi_writesame16_iov_sync (lun lba data datalen num_blocks anchor unmap wrprotect
    group : Z) (iov : option (list scsi_iovec)) (niov : Z) : IO (option nat) :=
  scsi_sync "Failed to send WRITESAME16 command"
    (fun cb private =>
       iscsi_writesame16_iov_task lun cb private lba data datalen num_blocks anchor unmap
         wrprotect group iov niov).

Definition iscsi_persistent_reserve_in_sync (lun sa xferlen : Z) : IO (option nat) :=
  scsi_sync "Failed to send PERSISTENT_RESERVE_IN command"
    (fun cb private => iscsi_persistent_reserve_in_task lun cb private sa xferlen).

Definition iscsi_persistent_reserve_out_sync (lun param_at sa scope type : Z)
    (param : scsi_persistent_reserve_out_basic) : IO (option nat) :=
  scsi_sync "Failed to send PERSISTENT_RESERVE_OUT command"
    (fun cb private =>
       iscsi_persistent_reserve_out_task lun cb private param_at sa scope type param).

Definition iscsi_unmap_sync (lun param_at anchor group : Z)
    (list : list unmap_list) : IO (option nat) :=
  scsi_sync "Failed to send UNMAP command"
    (fun cb private => iscsi_unmap_task lun cb private param_at anchor group list).

Definition iscsi_readtoc_sync (lun msf format track_session maxsize : Z) : IO (option nat) :=
  scsi_sync "Failed to send Read TOC command"
    (fun cb private => iscsi_readtoc_task lun cb private msf format track_session maxsize).

Definition iscsi_reserve6_sync (lun : Z) : IO (option nat) :=
  scsi_sync "Failed to send RESERVE6 command"
    (fun cb private => iscsi_reserve6_task lun cb private).

Definition iscsi_release6_sync (lun : Z) : IO (option nat) :=
  scsi_sync "Failed to send RELEASE6 command"
    (fun cb private => iscsi_release6_task lun cb private).

Definition iscsi_report_supported_opcodes_sync (lun rctd options opcode sa
    alloc_len : Z) : IO (option nat) :=
  scsi_sync "Failed to send MaintenanceIn:Report Supported Opcodes command"
    (fun cb private =>
       iscsi_report_supported_opcodes_task lun cb private rctd options opcode sa alloc_len).

Definition iscsi_receive_copy_results_sync (lun sa list_id alloc_len : Z) : IO (option nat) :=
  scsi_sync "Failed to send RECEIVE COPY RESULTS command"
    (fun cb private => iscsi_receive_copy_results_task lun cb private sa list_id alloc_len).

Definition iscsi_extended_copy_sync (lun : Z)
    (param_data : option scsi_iovec) : IO (option nat) :=
  scsi_sync "Failed to send EXTENDED COPY command"
    (fun cb private => iscsi_extended_copy_task lun cb private param_data).

Definition iscsi_modeselect6_sync (lun param_at pf sp : Z)
    (mp : scsi_mode_page) : IO (option nat) :=
  scsi_sync "Failed to send MODE_SELECT6 command"
    (fun cb private => iscsi_modeselect6_task lun cb private param_at pf sp mp).

Definition iscsi_modeselect10_sync (lun param_at pf sp : Z)
    (mp : scsi_mode_page) : IO (option nat) :=
  scsi_sync "Failed to send MODE_SELECT10 command"
    (fun cb private => iscsi_modeselect10_task lun cb private param_at pf sp mp).

Definition iscsi_modesense6_sync (lun dbd pc page_code sub_page_code
    alloc_len : Z) : IO (option nat) :=
  scsi_sync "Failed to send MODE_SENSE6 command"
    (fun cb private =>
       iscsi_modesense6_task lun cb private dbd pc page_code sub_page_code alloc_len).

Definition iscsi_modesense10_sync (lun llbaa dbd pc page_code sub_page_code
    alloc_len : Z) : IO (option nat) :=
  scsi_sync "Failed to send MODE_SENSE10 command"
    (fun cb private =>
       iscsi_modesense10_task lun cb private llbaa dbd pc page_code sub_page_code alloc_len).

End Sync.

(** * Lemmas *)

(** ** Running the wrappers *)

Lemma io_run {A} (m : IO A) w s a w' : m w = Ret (a, w') -> io m (w, s) = Ret (a, (w', s)).
Proof. intros E. unfold io. by rewrite E. Qed.

Lemma multithreaded_run w s :
  multithreaded (w, s) = Ret (have_mt w && multithreading_enabled (ctx w), (w, s)).
Proof. done. Qed.

(** A command of a wrapper that nothing disturbs: no deadline has passed and
    nothing is to be sent. *)
Definition unexpired (w : world) (p : nat) : Prop :=
  exists pdu, pdus w !! p = Some pdu /\ (pdu_scsi_timeout pdu = 0 \/ now w < pdu_scsi_timeout pdu).

Lemma waitpdu_unexpired w q tmp : Forall (unexpired w) q -> timeout_waitpdu (now w) q tmp w = Ret (tmp, w).
Proof.
  induction 1 as [|p q (pdu & Hp & Ht) Hq IH]; [done|]. cbn [timeout_waitpdu].
  run (get_pdu_run w p pdu Hp).
  destruct (Z.eqb_spec (pdu_scsi_timeout pdu) 0); [exact IH|].
  destruct (Z.ltb_spec (now w) (pdu_scsi_timeout pdu)); [exact IH|]. lia.
Qed.

Lemma locked_run {A B} (m : IO A) (k : A -> IO B) w a : unlocked w ->
  m (set_lock (have_mt w) w) = Ret (a, set_lock (have_mt w) w) ->
  (_ ← iscsi_mt_spin_lock; a ← m; _ ← iscsi_mt_spin_unlock; k a) w = k a w.
Proof.
  intros Hl E. run (lock_run w Hl). run E. run (unlock_run (set_lock (have_mt w) w) eq_refl).
  by rewrite set_lock_back.
Qed.

Lemma scan_quiet w : unlocked w -> outqueue (ctx w) = [] -> Forall (unexpired w) (waitpdu (ctx w)) ->
  iscsi_timeout_scan w = Ret (tt, w).
Proof.
  intros Hl Ho Hq. unfold iscsi_timeout_scan. rewrite (bind_run _ _ _ w w) by done. cbv zeta.
  set (v := set_lock (have_mt w) w).
  run (lock_run w Hl). fold v. run (get_ctx_run outqueue v).
  change (outqueue (ctx v)) with (outqueue (ctx w)). rewrite Ho. cbn [timeout_outqueue].
  rewrite (bind_run _ _ _ [] v) by done. run (unlock_run v eq_refl).
  replace (set_lock false v) with w by (symmetry; by apply set_lock_back).
  cbn [complete_tmp]. rewrite (bind_run _ _ _ tt w) by done.
  run (lock_run w Hl). fold v. run (get_ctx_run waitpdu v). change (waitpdu (ctx v)) with (waitpdu (ctx w)).
  run (waitpdu_unexpired v (waitpdu (ctx w)) [] Hq). run (unlock_run v eq_refl).
  by replace (set_lock false v) with w by (symmetry; by apply set_lock_back).
Qed.

(** What the loop relies on between its turns. *)
Record quiet (w : world) : Prop := {
  qt_lock : unlocked w;
  qt_out : outqueue (ctx w) = [];
  qt_wait : Forall (unexpired w) (waitpdu (ctx w));
  qt_old : old_iscsi (ctx w) = None;
  qt_pending : pending_reconnect (ctx w) = false;
  qt_conn : is_connected (ctx w) = true;
  qt_fd : 0 <= fd (conn (ctx w))
}.

Lemma which_events_quiet w : quiet w -> exists ev, iscsi_tcp_which_events w = Ret (ev, w).
Proof.
  intros Q. unfold iscsi_tcp_which_events. rewrite (bind_run _ _ _ w w) by done. cbv zeta.
  rewrite (qt_pending _ Q), (qt_out _ Q). cbn [andb].
  eexists. refine (eq_trans (locked_run _ _ w (bool_decide (is_Some (outqueue_current (ctx w)))) (qt_lock _ Q) _) eq_refl).
  by destruct (outqueue_current (ctx w)).
Qed.

Section SyncProofs.
Context `{Sockets} `{Malloc} `{Hashes} `{Connect} `{Negotiation} `{Poll}.
Context (fuel : nat) (here : Z).

Lemma check_timeout_quiet w : quiet w -> check_timeout w = Ret (0, w).
Proof.
  intros Q. unfold check_timeout. run (scan_quiet w (qt_lock _ Q) (qt_out _ Q) (qt_wait _ Q)).
  run (get_ctx_run old_iscsi w). by rewrite (qt_old _ Q).
Qed.

Lemma get_fd_run w : exists d, iscsi_get_fd w = Ret (d, w).
Proof. by eexists. Qed.

(** The service routine, with data to read and nothing else. *)
Lemma service_pollin w rc w' : quiet w ->
  iscsi_read_from_socket w = Ret (rc, w') -> rc = 0 -> iscsi_service POLLIN w = check_timeout w'.
Proof.
  intros Q E ->. unfold iscsi_service, iscsi_tcp_service, tcp_service.
  rewrite (bind_run _ _ _ w w) by done. cbv zeta.
  rewrite (proj2 (Z.ltb_ge _ _) (qt_fd _ Q)), (qt_pending _ Q). unfold service_events.
  change (truth (POLLIN &&& POLLERR)) with false. change (truth (POLLIN &&& POLLHUP)) with false.
  change (truth (POLLIN &&& POLLIN)) with true. change (truth (POLLIN &&& POLLOUT)) with false. cbv iota.
  run (get_ctx_run is_connected w). rewrite (qt_conn _ Q). cbn [negb andb].
  run E. change (negb (0 =? 0)) with false. cbv iota. by rewrite (bind_run _ _ _ 0 w') by done.
Qed.

(** A call without callbacks, and one with a single one. *)
Lemma calling_quiet {A} (m : IO A) w s a w' : m w = Ret (a, w') -> trace w' = trace w ->
  calling fuel here m (w, s) = Ret (a, (w', s)).
Proof.
  intros E T. unfold calling. rewrite (bind_run _ _ _ w (w, s)) by done. run (io_run m w s a w' E).
  assert (Er : run_callbacks here fuel (length (trace w)) (w', s) = Ret (tt, (w', s))).
  { destruct fuel; cbn [run_callbacks]; rewrite (bind_run _ _ _ w' (w', s)) by done;
      by rewrite T, lookup_ge_None_2. }
  by run Er.
Qed.

Lemma calling_one {A} (m : IO A) w s a w1 e w2 s2 : (0 < fuel)%nat -> m w = Ret (a, w1) ->
  trace w1 = trace w ++ [e] -> library_callback e w1 = Ret (tt, w1) ->
  sync_callback here e (w1, s) = Ret (tt, (w2, s2)) -> trace w2 = trace w1 ->
  calling fuel here m (w, s) = Ret (a, (w2, s2)).
Proof.
  intros Hf E T Hlib Hcb T2. unfold calling. rewrite (bind_run _ _ _ w (w, s)) by done.
  run (io_run m w s a w1 E).
  assert (Er : run_callbacks here fuel (length (trace w)) (w1, s) = Ret (tt, (w2, s2))).
  { destruct fuel as [|n]; [lia|]. cbn [run_callbacks]. rewrite (bind_run _ _ _ w1 (w1, s)) by done.
    rewrite T, lookup_app_r, Nat.sub_diag by lia. cbn [lookup list_lookup].
    run (io_run (library_callback e) w1 s tt w1 Hlib). run Hcb.
    destruct n; cbn [run_callbacks]; rewrite (bind_run _ _ _ w2 (w2, s2)) by done;
      rewrite T2, T, lookup_ge_None_2 by (rewrite length_app; cbn; lia); done. }
  by run Er.
Qed.

(** *** The end of the wait

    The header [h] and the data [body] of an answer are on the way. *)

Context (w : world) (h body more : bytes).
Context (Hquiet : quiet w) (Hmem : memory w) (Hpdu : buffered_pdu w h body).
Context (Hdigest : data_digest (ctx w) = ISCSI_DATA_DIGEST_NONE).
Context (Hpoll : forall d ev v, poll d ev 1000 v = Ret ((1, POLLIN), v)).

Lemma quiet_rd a m i s : quiet (rd w a m i s).
Proof. destruct Hquiet. by split. Qed.

Lemma linked_quiet v w1 : quiet v -> unlocked w1 -> outqueue (ctx w1) = [] -> waitpdu (ctx w1) = [] ->
  link_of (ctx w1) = link_of (ctx v) -> quiet w1.
Proof.
  intros [_ _ _ Q1 Q2 Q3 Q4] Hl Ho Hq L. injection L as Lc Lo Ln Lp Ls Lm.
  split; try congruence. by rewrite Hq.
Qed.

(** The turns until the answer is complete, and the one in which it is. *)
Lemma event_turns_end (Done : world -> iscsi_sync_state -> Prop) s n deadline :
  (forall v k a m i st, quiet v ->
     iscsi_read_from_socket v = Reader.deliver k (whole h body) (rd w a m i st) -> trace v = trace w ->
     exists w' s', calling fuel here (iscsi_service POLLIN) (v, s) = Ret (0, (w', s')) /\
       Done w' s' /\ finished s' = 1 /\ 0 <= fd (conn (ctx w'))) ->
  truth deadline && (deadline <? now w) = false -> finished s = 0 ->
  incoming (conn (ctx w)) = None -> peer (sys w) = h ++ body ++ more -> Forall gives (rx (sys w)) ->
  (length h + length body <= oks (rx (sys w)))%nat -> (length (rx (sys w)) < n)%nat ->
  exists w' s', event_turns fuel here n deadline (w, s) = Ret (tt, (w', s')) /\ Done w' s'.
Proof.
  intros Hturn Hd Hs Hi Hp Hg Ho Hn. pose proof (hdr_size_pos w h body Hpdu).
  pose proof (rd_id w) as Ew. rewrite Hi in Ew.
  assert (Hat : at_byte h body more 0 None (sys w)).
  { split; try done; [lia| |lia]. by rewrite Hp, drop_0, app_assoc. }
  assert (Hlt : (0 < length h + length body)%nat) by lia.
  rewrite Ew. clear Ew Hi Hp Hg Ho. revert Hat Hlt Hn.
  generalize (alloc_n w) as a, (mallocs (ctx w)) as m, (None : option iscsi_in_pdu) as i, (sys w) as st, 0%nat as got.
  induction n as [|n IH]; intros a m i st got Hat Hlt Hn; [lia|].
  set (v := rd w a m i st). assert (Hq : quiet v) by apply quiet_rd.
  cbn [event_turns]. unfold get_state at 1. rewrite (bind_run _ _ _ s (v, s)) by done. rewrite Hs. cbn [Z.eqb negb].
  rewrite (bind_run _ _ _ v (v, s)) by done. change (now v) with (now w). rewrite Hd.
  destruct (get_fd_run v) as [d Ed]. run (io_run _ v s _ v Ed).
  destruct (which_events_quiet v Hq) as [ev Ee]. run (io_run _ v s _ v Ee).
  run (io_run _ v s _ v (Hpoll d ev v)). cbv iota beta. cbn [Z.ltb Z.compare Z.eqb].
  destruct (read_stops w a m i st got h body more Hpdu Hmem Hdigest Hat Hlt)
    as (a1 & m1 & inp1 & s1 & got1 & Hat1 & _ & [(Ei & Ep & E)|(Hg & Hrx & E)]).
  - destruct (Hturn v _ _ _ _ _ Hq E eq_refl) as (w' & s' & Ec & D & F & Hfd). run Ec.
    cbn [Z.ltb Z.compare]. run (io_run _ w' s' _ w' (get_ctx_run conn w')).
    rewrite (proj2 (Z.ltb_ge _ _) Hfd). exists w', s'. split; [|done].
    destruct n; cbn [event_turns]; unfold get_state at 1; rewrite (bind_run _ _ _ s' (w', s')) by done; by rewrite F.
  - set (v1 := rd w a1 m1 (Some inp1) s1) in *.
    assert (Ec : calling fuel here (iscsi_service POLLIN) (v, s) = Ret (0, (v1, s))).
    { apply calling_quiet; [|done]. rewrite (service_pollin v 0 v1 Hq E eq_refl).
      apply check_timeout_quiet, quiet_rd. }
    run Ec. cbn [Z.ltb Z.compare]. run (io_run _ v1 s _ v1 (get_ctx_run conn v1)).
    rewrite (proj2 (Z.ltb_ge (fd (conn (ctx v1))) 0) (qt_fd v1 (quiet_rd a1 m1 (Some inp1) s1))).
    apply (IH a1 m1 (Some inp1) s1 got1 Hat1 Hg). lia.
Qed.

(** The loop waits for the answer as long as its deadline is not reached. *)
Lemma event_loop_turns s : multithreading_enabled (ctx w) = false ->
  scsi_timeout (ctx w) = 0 \/ now w <= i32 (now w + scsi_timeout (ctx w)) ->
  exists deadline, truth deadline && (deadline <? now w) = false /\
    event_loop fuel here (w, s) = event_turns fuel here fuel deadline (w, s).
Proof.
  intros Hmt Htime.
  exists (if truth (scsi_timeout (ctx w)) then i32 (now w + scsi_timeout (ctx w)) else 0). split.
  - destruct Htime as [-> | Hle]; [done|]. destruct (truth (scsi_timeout _)); [|done].
    by rewrite (proj2 (Z.ltb_ge _ _) Hle), andb_false_r.
  - unfold event_loop. run (multithreaded_run w s). by rewrite Hmt, andb_false_r.
Qed.

(** *** The answer to a command

    The command of task [t] waits as PDU [p]. *)

Context (p t : nat) (pdu : iscsi_pdu) (task : scsi_task).
Context (Hacc : accepted w (whole h body)) (Hop : byte_at h 0 &&& 0x3f = ISCSI_PDU_SCSI_RESPONSE).
Context (Haw : awaits w p pdu (scsi_get_uint32 h 16) [] []) (Hw : waiting w p t fn_scsi_sync_cb pdu task).
Context (Hresp : response_opcode pdu = ISCSI_PDU_SCSI_RESPONSE) (Hpriv : cbdata_private_data pdu = here).
Context (Hsense : snd (reply_outcome h) = SCSI_STATUS_CHECK_CONDITION -> sense_received w (whole h body)).
Context (Hok : fst (reply_outcome h) = 0) (Hmt : multithreading_enabled (ctx w) = false).
Context (Hfuel : (0 < fuel)%nat).

(** The state after the callback. *)
Definition answered (s : iscsi_sync_state) : iscsi_sync_state :=
  s <| sync_status := snd (reply_outcome h) |> <| finished := 1 |> <| sync_task := Some t |>.

(** The command is done. *)
Record command_done (w' : world) : Prop := {
  cd_reply : reply_done (reply_outcome h) w' t task pdu (whole h body);
  cd_wait : waitpdu (ctx w') = [];
  cd_out : outqueue (ctx w') = [];
  cd_pdus : pdus w' = delete p (pdus w);
  cd_trace : trace w' = trace w ++
    [Ev_callback fn_scsi_sync_cb (snd (reply_outcome h)) (Data_task t) here]
}.

(** The turn in which the response is complete. *)
Lemma answer_turn v s k a m i st : quiet v -> finished s = 0 ->
  iscsi_read_from_socket v = Reader.deliver k (whole h body) (rd w a m i st) -> trace v = trace w ->
  exists w', calling fuel here (iscsi_service POLLIN) (v, s) = Ret (0, (w', answered s)) /\
    command_done w' /\ 0 <= fd (conn (ctx w')).
Proof.
  intros Hq Hs Er Tv.
  destruct (deliver_response (rd w a m i st) p t fn_scsi_sync_cb pdu task h body k)
    as (w1 & E & Hl1 & T & Q & O & P & L & D); try done.
  { exact (qt_lock _ Hquiet). }
  { destruct Haw as [A1 A2 A3 A4 A5]. split; [exact A1|exact A2|exact A3|exact A4|constructor]. }
  { destruct Hw as [W1 W2 W3 W4 W5]. by split. }
  { intros E. destruct (Hsense E) as (_ & R). split; [apply Hmem|exact R]. }
  rewrite Hok in E. rewrite Hpriv in T. change (trace (rd w a m i st)) with (trace w) in T.
  assert (Hq1 : quiet w1).
  { apply (linked_quiet _ w1 (quiet_rd a m i st) Hl1); [|exact Q|exact L]. rewrite O. exact (qt_out _ Hquiet). }
  assert (Es : iscsi_service POLLIN v = Ret (0, w1)).
  { rewrite (service_pollin v 0 w1 Hq); [by apply check_timeout_quiet| |done]. by rewrite Er. }
  destruct D as (task' & Ht & Hst & D).
  set (w2 := w1 <| tasks ::= <[t := task' <| status := snd (reply_outcome h) |>]> |>).
  exists w2. split; [|split; [|exact (qt_fd _ Hq1)]].
  - apply (calling_one _ v s 0 w1 (Ev_callback fn_scsi_sync_cb (snd (reply_outcome h)) (Data_task t) here)); try done.
    { by rewrite Tv. }
    unfold sync_callback. change ((fn_scsi_sync_cb =? fn_iscsi_sync_cb)%nat) with false.
    change ((fn_scsi_sync_cb =? fn_scsi_sync_cb)%nat) with true. cbv iota.
    rewrite (bind_run _ _ _ t (w1, s)) by done. unfold scsi_sync_cb.
    run (io_run _ w1 s tt w2 (set_task_run w1 t task' (fun task => task <| status := snd (reply_outcome h) |>) Ht)).
    unfold state_at. rewrite Z.eqb_refl.
    rewrite (bind_run _ _ _ tt (w2, s)) by done. rewrite (bind_run _ _ _ tt (w2, answered s)) by done.
    run (multithreaded_run w2 (answered s)).
    replace (multithreading_enabled (ctx w2)) with false; [by rewrite andb_false_r|].
    injection L as _ _ _ _ _ L. rewrite <- Hmt. symmetry. exact L.
  - split; [|exact Q|exact (eq_trans O (qt_out _ Hquiet))|exact P|exact T].
    eexists. split; [apply lookup_insert_eq|]. by split.
Qed.

Lemma event_turns_answered n deadline s : truth deadline && (deadline <? now w) = false ->
  incoming (conn (ctx w)) = None -> peer (sys w) = h ++ body ++ more -> Forall gives (rx (sys w)) ->
  (length h + length body <= oks (rx (sys w)))%nat -> (length (rx (sys w)) < n)%nat -> finished s = 0 ->
  exists w', event_turns fuel here n deadline (w, s) = Ret (tt, (w', answered s)) /\ command_done w'.
Proof.
  intros Hd Hi Hp Hg Ho Hn Hs.
  destruct (event_turns_end (fun w' s' => s' = answered s /\ command_done w') s) with (n := n) (deadline := deadline)
    as (w' & s' & E & -> & D); try done.
  { intros v k a m i st Hq Er Tv. destruct (answer_turn v s k a m i st Hq Hs Er Tv) as (w' & E & D & Hfd).
    by exists w', (answered s). }
  by exists w'.
Qed.

End SyncProofs.

Section Wrappers.
Context `{Sockets} `{Malloc} `{Hashes} `{Connect} `{Negotiation} `{Poll}.

(** C4: A synchronous SCSI command returns the response of the target: without
    multithreading and without a data digest, once the command - of whichever SCSI
    wrapper - has been sent and is the one that waits, and its answer is a SCSI Response
    alone, with no Data-In before it, that comes in pieces of any size with
    interruptions in between, the wrapper returns its task with the status, residual and
    sense data of the response; the command is no longer queued, its PDU is freed, and
    its callback was called once. Assumed are: poll always reports the socket readable,
    the deadline of the caller is not reached, memory suffices, the sense data of a
    CHECK CONDITION are complete, and the response is not one for which its handler
    returns -1. *)
Theorem sync_command_returns (fuel : nat) (here : Z) (msg : string) (send : option nat -> Z -> IO (option nat))
  (w0 w : world) (p t : nat) (pdu : iscsi_pdu) (task : scsi_task) (h body more : bytes)
  (Hsend : send (Some fn_scsi_sync_cb) here w0 = Ret (Some t, w)) (Htrace : trace w = trace w0)
  (Hquiet : quiet w) (Hmem : memory w) (Hmt : multithreading_enabled (ctx w) = false)
  (Htime : scsi_timeout (ctx w) = 0 \/ now w <= i32 (now w + scsi_timeout (ctx w)))
  (Hpoll : forall d ev v, poll d ev 1000 v = Ret ((1, POLLIN), v))
  (Hw : waiting w p t fn_scsi_sync_cb pdu task) (Haw : awaits w p pdu (scsi_get_uint32 h 16) [] [])
  (Hresp : response_opcode pdu = ISCSI_PDU_SCSI_RESPONSE) (Hpriv : cbdata_private_data pdu = here)
  (Hpdu : buffered_pdu w h body) (Harr : arriving w h body more) (Hacc : accepted w (whole h body))
  (Hop : byte_at h 0 &&& 0x3f = ISCSI_PDU_SCSI_RESPONSE) (Hok : fst (reply_outcome h) = 0)
  (Hsense : snd (reply_outcome h) = SCSI_STATUS_CHECK_CONDITION -> sense_received w (whole h body))
  (Hfuel : (length (rx (sys w)) < fuel)%nat) :
  exists w', scsi_sync fuel here msg send w0 = Ret (Some t, w') /\ command_done here w h body p t pdu task w'.
Proof.
  destruct Harr as [Hd Hi Hp Hg Ho].
  destruct (event_loop_turns fuel here w iscsi_init_sync_state Hmt Htime) as (deadline & Hdead & El).
  destruct (event_turns_answered fuel here w h body more Hquiet Hmem Hpdu Hd Hpoll p t pdu task Hacc Hop Haw Hw Hresp
    Hpriv Hsense Hok Hmt ltac:(lia) fuel deadline iscsi_init_sync_state Hdead Hi Hp Hg Ho Hfuel eq_refl) as (w' & E & D).
  exists w'. split; [|exact D]. unfold scsi_sync, in_frame.
  run (calling_quiet fuel here _ w0 iscsi_init_sync_state (Some t) w Hsend Htrace).
  rewrite E in El. by run El.
Qed.

(** ** The copy of the list of targets *)

Definition kept_portals (po : list bytes) : list (option bytes) := map Some po.
Definition copied (t : bytes * list bytes) : discovery_data :=
  {| dd_target_name := Some t.1; dd_portals := kept_portals t.2 |}.

(** [n] blocks were allocated. *)
Definition allocated (n : nat) (w : world) : world := w <| alloc_n ::= fun k => (k + n)%nat |>.

Lemma allocated_allocated n m w : allocated n (allocated m w) = allocated (m + n) w.
Proof. destruct w. unfold allocated, upd, eta, eta_world. cbn. by rewrite Nat.add_assoc. Qed.

Lemma zeroed_block_run w : memory w -> zeroed_block w = Ret (tt, allocated 1 w).
Proof.
  intros Hm. unfold zeroed_block, malloc, allocated, mbind, M_bind, getS, modify, mret, M_ret. rewrite Hm.
  unfold upd, eta, eta_world. by rewrite Nat.add_1_r.
Qed.

Lemma strdup_run b w : memory w -> strdup (Some b) w = Ret (Some b, allocated 1 w).
Proof.
  intros Hm. unfold strdup, deref, malloc, allocated, mbind, M_bind, getS, modify, mret, M_ret. rewrite Hm.
  unfold upd, eta, eta_world. by rewrite Nat.add_1_r.
Qed.

Lemma free_kept l : free_portals (kept_portals l) = (2 * length l)%nat.
Proof.
  induction l as [|b l IH]; [done|].
  change (free_portals (kept_portals (b :: l))) with (1 + 1 + free_portals (kept_portals l))%nat.
  rewrite IH. cbn [length]. lia.
Qed.

(** A list is copied back to front. *)
Lemma copy_portals_run l portals w : memory w ->
  copy_portals (kept_portals l) portals w = Ret (rev (kept_portals l) ++ portals, allocated (2 * length l) w).
Proof.
  revert portals w. induction l as [|b l IH]; intros portals w Hm.
  { cbn. unfold mret, M_ret, allocated. do 2 f_equal. destruct w. unfold upd, eta, eta_world. cbn. by rewrite Nat.add_0_r. }
  cbn [kept_portals map copy_portals]. change (map Some l) with (kept_portals l). run (zeroed_block_run w Hm). run (strdup_run b (allocated 1 w) Hm).
  rewrite (IH _ (allocated 1 (allocated 1 w)) Hm), !allocated_allocated. cbn [rev]. rewrite <- app_assoc.
  do 3 f_equal. cbn [length]. lia.
Qed.

Lemma copy_targets_run l dahead w : memory w ->
  copy_targets (map discovered l) dahead w =
    Ret (rev (map copied l) ++ dahead, allocated (iscsi_free_discovery_data (map copied l)) w).
Proof.
  revert dahead w. induction l as [|[name po] l IH]; intros dahead w Hm.
  { cbn. unfold mret, M_ret, allocated. do 2 f_equal. destruct w. unfold upd, eta, eta_world. cbn. by rewrite Nat.add_0_r. }
  cbn [map copy_targets]. run (zeroed_block_run w Hm). unfold discovered at 1. cbn [da_target_name fst snd].
  run (strdup_run name (allocated 1 w) Hm). unfold discovered at 1. cbn [da_portals snd].
  change (map Some po) with (kept_portals po). unfold kept_portals at 1. rewrite <- map_rev.
  change (map Some (rev po)) with (kept_portals (rev po)).
  run (copy_portals_run (rev po) [] (allocated 1 (allocated 1 w)) Hm).
  rewrite app_nil_r. unfold kept_portals at 1. rewrite <- map_rev, rev_involutive.
  rewrite (IH _ (allocated (2 * length (rev po)) (allocated 1 (allocated 1 w))) Hm), !allocated_allocated.
  cbn [rev]. rewrite <- app_assoc.
  change (iscsi_free_discovery_data (copied (name, po) :: map copied l)) with
    (free_portals (kept_portals po) + 1 + 1 + iscsi_free_discovery_data (map copied l))%nat.
  rewrite free_kept, length_rev. do 3 f_equal. lia.
Qed.

Lemma free_data_app a b :
  iscsi_free_discovery_data (a ++ b) = (iscsi_free_discovery_data a + iscsi_free_discovery_data b)%nat.
Proof. induction a as [|x a IH]; [done|]. cbn [app iscsi_free_discovery_data]. rewrite IH. lia. Qed.

Lemma free_data_rev a : iscsi_free_discovery_data (rev a) = iscsi_free_discovery_data a.
Proof.
  induction a as [|x a IH]; [done|]. cbn [rev]. rewrite free_data_app, IH. cbn [iscsi_free_discovery_data]. lia.
Qed.

End Wrappers.

(** *** Discovery *)

Section Discovering.
Context `{Sockets} `{Malloc} `{Hashes} `{Connect} `{Poll}.
Context (w : world) (p : nat) (pdu : iscsi_pdu) (h body more : bytes).
Context (l : list (bytes * list bytes)) (pad : nat) (here : Z).
Context (Hquiet : quiet w) (Hmem : memory w) (Hacc : accepted w (whole h body)).
Context (Hop : byte_at h 0 &&& 0x3f = ISCSI_PDU_TEXT_RESPONSE).
Context (Hflags : byte_at h 1 = ISCSI_PDU_TEXT_FINAL).
Context (Haw : awaits w p pdu (scsi_get_uint32 h 16) [] []).
Context (Hresp : response_opcode pdu = ISCSI_PDU_TEXT_RESPONSE).
Context (Hcb : pdu_callback pdu = Some (Cb_user fn_iscsi_discovery_cb)) (Hpriv : private_data pdu = here).
Context (Hl : Forall (fun t => no_nul t.1 /\ Forall no_nul t.2) l).
Context (Hbody : body = targets_text l ++ zeros pad).

(** The event of the callback. *)
Definition targets_listed : event :=
  Ev_callback fn_iscsi_discovery_cb SCSI_STATUS_GOOD (Data_targets (rev (map discovered l))) here.

(** The request is over when the callback runs. *)
Record request_done (w1 : world) : Prop := {
  rq_quiet : quiet w1;
  rq_memory : memory w1;
  rq_wait : waitpdu (ctx w1) = [];
  rq_pdus : pdus w1 = delete p (pdus w);
  rq_trace : trace w1 = trace w ++ [targets_listed];
  rq_threads : multithreading_enabled (ctx w1) = multithreading_enabled (ctx w)
}.

Lemma received_body : received_text (whole h body) = Ret body.
Proof.
  unfold received_text, whole. cbn [data_pos in_data]. destruct body as [|b t]; [done|].
  destruct (Z.leb_spec (Z.of_nat (length (b :: t))) 0) as [Hn|_]; [cbn in Hn; lia|].
  by rewrite Z.ltb_irrefl, Nat2Z.id, firstn_all.
Qed.

(** The delivery of the reply to the waiting request. *)
Lemma deliver_targets k a m i st : exists w1,
  Reader.deliver k (whole h body) (rd w a m i st) = Ret (0, w1) /\ request_done w1.
Proof.
  set (v := rd w a m i st). set (inp := whole h body).
  assert (Hlv : unlocked v) by exact (qt_lock _ Hquiet).
  assert (Haw' : awaits v p pdu (scsi_get_uint32 (hdr inp) 16) [] []).
  { destruct Haw as [A1 A2 A3 A4 A5]. split; [exact A1|exact A2|exact A3|exact A4|constructor]. }
  destruct (after_serials_run v inp Hlv) as (_ & Hl1 & P1 & _ & T1 & W1 & O1 & L1 & A1 & _).
  destruct (listed_targets (after_serials inp v) p fn_iscsi_discovery_cb pdu inp l pad) as (w2 & n & E2 & T2 & Hold); try done.
  { rewrite P1. exact (aw_pdu _ _ _ _ _ _ Haw). }
  { intros x. rewrite A1. apply Hmem. }
  { unfold inp. rewrite received_body. by rewrite <- Hbody. }
  pose proof (hd_ctx _ _ _ Hold) as C2.
  destruct (answer_run v p pdu inp ISCSI_PDU_TEXT_RESPONSE [] [] 0 w2 (Discovery.iscsi_process_text_reply p inp)
    "iscsi text reply failed"%string Hlv Hacc Hop Haw' Hresp) as (w3 & E3 & [Q O P _ T Lk S A]); try done.
  { by right. }
  { unfold unlocked. by rewrite C2. }
  { by rewrite (hd_pdus _ _ _ Hold), P1. }
  { rewrite C2. exact W1. }
  destruct (free_in_pdu_run inp w3) as [fr Ef]. set (w4 := w3 <| ctx ::= _ |>) in Ef. exists w4. split.
  - unfold Reader.deliver. fold inp. run E3. run Ef. change (negb (0 =? 0)) with false. cbv iota. run (get_ctx_run id w4).
    change (waitpdu (id (ctx w4))) with (waitpdu (ctx w3)). rewrite Q, bool_decide_true by done. by rewrite andb_false_r.
  - assert (L : link_of (ctx w4) = link_of (ctx v)).
    { change (link_of (ctx w4)) with (link_of (ctx w3)). rewrite (same_session_link _ _ S), <- L1, C2. done. }
    split.
    + apply (linked_quiet v w4); [by apply quiet_rd|exact Lk| |exact Q|exact L].
      change (outqueue (ctx w4)) with (outqueue (ctx w3)). rewrite O, C2. exact (eq_trans O1 (qt_out _ Hquiet)).
    + intros x. change (alloc_ok w4) with (alloc_ok w3). rewrite A, (hd_oracle _ _ _ Hold), A1. apply Hmem.
    + exact Q.
    + change (pdus w4) with (pdus w3). by rewrite P, (hd_pdus _ _ _ Hold), P1.
    + change (trace w4) with (trace w3). by rewrite T, T2, T1, Hpriv.
    + exact (f_equal snd L).
Qed.

(** The turn in which the reply is complete: the callback copies the list. *)
Definition listed (s : iscsi_sync_state) : iscsi_sync_state :=
  s <| sync_status := SCSI_STATUS_GOOD |> <| finished := 1 |> <| sync_ptr := map copied l |>.

Lemma targets_turn fuel v s k a m i st : (0 < fuel)%nat -> quiet v ->
  iscsi_read_from_socket v = Reader.deliver k (whole h body) (rd w a m i st) -> trace v = trace w ->
  exists w1, calling fuel here (iscsi_service POLLIN) (v, s) =
      Ret (0, (allocated (iscsi_free_discovery_data (map copied l)) w1, listed s)) /\ request_done w1.
Proof.
  intros Hfuel Hq Er Tv. destruct (deliver_targets k a m i st) as (w1 & E & D). exists w1. split; [|done].
  assert (Es : iscsi_service POLLIN v = Ret (0, w1)).
  { rewrite (service_pollin v 0 w1 Hq); [by apply check_timeout_quiet, D| |done]. by rewrite Er. }
  refine (calling_one fuel here _ v s 0 w1 targets_listed _ _ Hfuel Es _ _ _ _); [|done| |done].
  { by rewrite (rq_trace _ D), Tv. }
  unfold sync_callback, targets_listed. change ((fn_iscsi_discovery_cb =? fn_iscsi_sync_cb)%nat) with false.
  change ((fn_iscsi_discovery_cb =? fn_scsi_sync_cb)%nat) with false.
  change ((fn_iscsi_discovery_cb =? fn_iscsi_task_mgmt_sync_cb)%nat) with false.
  change ((fn_iscsi_discovery_cb =? fn_iscsi_discovery_cb)%nat) with true. cbv iota. cbn [targets_of].
  unfold iscsi_discovery_cb. rewrite <- map_rev.
  run (io_run _ w1 s _ _ (copy_targets_run (rev l) [] w1 (rq_memory _ D))).
  rewrite app_nil_r, <- map_rev, rev_involutive. unfold state_at. rewrite Z.eqb_refl.
  rewrite (bind_run _ _ _ tt (allocated (iscsi_free_discovery_data (map copied (rev l))) w1, s)) by done.
  by rewrite map_rev, free_data_rev.
Qed.

(** C25: iscsi_discovery_sync returns the targets in the order of the reply: without
    multithreading and without a data digest, once the request has been sent and the
    text of the target - targets with their portals, any number of them, with padding -
    comes in pieces of any size with interruptions in between (poll always reports the
    socket readable, the deadline of the caller is not reached, memory suffices), the
    call returns the list with every target and every portal once and in the order of
    the reply - the list is built back to front, and the deep copy turns it again; the
    callback was called once, the request is no longer queued and its PDU is freed, and
    iscsi_free_discovery_data frees exactly as many blocks as the copy allocated. *)
Theorem discovery_sync_in_order (fuel : nat) (w0 : world)
  (Hsend : iscsi_discovery_async (Some (Cb_user fn_iscsi_discovery_cb)) here w0 = Ret (0, w))
  (Htrace : trace w = trace w0) (Hmt : multithreading_enabled (ctx w) = false)
  (Htime : scsi_timeout (ctx w) = 0 \/ now w <= i32 (now w + scsi_timeout (ctx w)))
  (Hpoll : forall d ev v, poll d ev 1000 v = Ret ((1, POLLIN), v))
  (Hpdu : buffered_pdu w h body) (Harr : arriving w h body more)
  (Hfuel : (length (rx (sys w)) < fuel)%nat) :
  exists w1, iscsi_discovery_sync fuel here w0 =
      Ret (map copied l, allocated (iscsi_free_discovery_data (map copied l)) w1) /\
    trace w1 = trace w ++ [targets_listed] /\ waitpdu (ctx w1) = [] /\ outqueue (ctx w1) = [] /\
    pdus w1 = delete p (pdus w).
Proof.
  destruct Harr as [Hd Hi Hp Hg Ho]. set (s := iscsi_init_sync_state).
  destruct (event_loop_turns fuel here w s Hmt Htime) as (deadline & Hdead & El).
  destruct (event_turns_end fuel here w h body more Hquiet Hmem Hpdu Hd Hpoll
    (fun w' s' => s' = listed s /\ exists w1, w' = allocated (iscsi_free_discovery_data (map copied l)) w1 /\ request_done w1)
    s fuel deadline) as (w' & s' & E & -> & w1 & -> & D); try done.
  { intros v k a m i st Hq Er Tv. destruct (targets_turn fuel v s k a m i st ltac:(lia) Hq Er Tv) as (w1 & E & D).
    eexists _, _. split; [exact E|]. split; [split; [done|by eexists]|]. split; [done|]. exact (qt_fd _ (rq_quiet _ D)). }
  exists w1. split; [|by destruct D as [[_ Q _ _ _ _ _] _ D1 D2 D3 _]].
  unfold iscsi_discovery_sync, in_frame. fold s.
  run (calling_quiet fuel here _ w0 s 0 w Hsend Htrace).
  change (negb (0 =? 0)) with false. cbv iota. rewrite E in El. by run El.
Qed.

End Discovering.

Section Threads.
Context `{Sockets} `{Malloc} `{Hashes} `{Connect} `{Negotiation} `{Poll}.

(** ** Waiting for the semaphore *)

(** The service routine without an event. *)
Lemma service_idle w : quiet w -> iscsi_service 0 w = Ret (0, w).
Proof.
  intros Q. unfold iscsi_service, iscsi_tcp_service, tcp_service. rewrite (bind_run _ _ _ w w) by done. cbv zeta.
  rewrite (proj2 (Z.ltb_ge _ _) (qt_fd _ Q)), (qt_pending _ Q). unfold service_events. rewrite !Z.land_0_l.
  change (truth 0) with false. cbv iota.
  run (get_ctx_run is_connected w). rewrite (qt_conn _ Q). cbn [negb andb].
  rewrite (bind_run _ _ _ 0 w) by done. change (negb (0 =? 0)) with false. cbv iota.
  rewrite (bind_run _ _ _ 0 w) by done. change (negb (0 =? 0)) with false. cbv iota.
  by apply check_timeout_quiet.
Qed.

(** A turn in which poll answers [revents] and the service routine makes a call. *)
Lemma service_turn_run fuel here v s revents ret v' s' : quiet v ->
  (forall d ev, poll d ev poll_timeout v = Ret ((ret, revents), v)) -> 0 <= ret ->
  calling fuel here (iscsi_service revents) (v, s) = Ret (0, (v', s')) ->
  service_turn fuel here (v, s) = Ret (tt, (v', s')).
Proof.
  intros Q Hp Hr E. unfold service_turn. destruct (get_fd_run v) as [d Ed]. run (io_run _ v s _ v Ed).
  destruct (which_events_quiet v Q) as [ev Ee]. run (io_run _ v s _ v Ee).
  run (io_run _ v s _ v (Hp d ev)). rewrite (bind_run _ _ _ (errno (sys v)) (v, s)) by done.
  rewrite (proj2 (Z.ltb_ge _ _) Hr). cbn [andb]. rewrite (bind_run _ _ _ revents (v, s)) by done. by run E.
Qed.

(** With nothing to come, the wait does not end. *)
Lemma sem_wait_idle fuel here v s n : quiet v -> wait_sem s <= 0 ->
  (forall d ev, poll d ev poll_timeout v = Ret ((0, 0), v)) ->
  iscsi_mt_sem_wait fuel here n (v, s) = Undef NoFuel.
Proof.
  intros Q Hs Hp. induction n as [|n IH]; cbn [iscsi_mt_sem_wait];
    unfold get_state at 1; rewrite (bind_run _ _ _ s (v, s)) by done;
    rewrite (proj2 (Z.ltb_ge _ _) Hs); [done|].
  run (multithreaded_run v s). destruct (_ && _); [|exact IH]. unfold when.
  run (service_turn_run fuel here v s 0 0 v s Q Hp ltac:(lia)
    (calling_quiet fuel here _ v s 0 v (service_idle v Q) eq_refl)).
  exact IH.
Qed.

(** C38: With multithreading iscsi_task_mgmt_sync does not return: the service thread
    receives the answer, the callback sets finished and the status, and nothing more is
    to come - but the callback does not post the semaphore the caller waits for, so that
    the wait goes on for any number of turns of the service thread. *)
Theorem task_mgmt_sync_hangs (fuel : nat) (here : Z) (w1 w2 : world) (s : iscsi_sync_state) (st r : Z)
  (Hmt : have_mt w1 = true /\ multithreading_enabled (ctx w1) = true) (Hq1 : quiet w1) (Hs : wait_sem s = 0)
  (Hanswer : iscsi_service POLLIN w1 = Ret (0, w2))
  (Htrace : trace w2 = trace w1 ++ [Ev_callback fn_iscsi_task_mgmt_sync_cb st (Data_response r) here])
  (Hq2 : quiet w2) (Hnone : waitpdu (ctx w2) = [])
  (Hready : forall d ev, poll d ev poll_timeout w1 = Ret ((1, POLLIN), w1))
  (Hidle : forall d ev v, waitpdu (ctx v) = [] -> poll d ev poll_timeout v = Ret ((0, 0), v)) :
  (exists w3 s3, calling (S fuel) here (iscsi_service POLLIN) (w1, s) = Ret (0, (w3, s3)) /\
     finished s3 = 1 /\ sync_status s3 = (if r =? 0 then st else SCSI_STATUS_ERROR)) /\
  event_loop fuel here (w1, s) = Undef NoFuel.
Proof.
  set (e := Ev_callback fn_iscsi_task_mgmt_sync_cb st (Data_response r) here).
  assert (Hcb : exists w3 s3, sync_callback here e (w2, s) = Ret (tt, (w3, s3)) /\ quiet w3 /\
    waitpdu (ctx w3) = [] /\ trace w3 = trace w2 /\ wait_sem s3 = 0 /\ finished s3 = 1 /\
    sync_status s3 = (if r =? 0 then st else SCSI_STATUS_ERROR)).
  { unfold sync_callback, e. change ((fn_iscsi_task_mgmt_sync_cb =? fn_iscsi_sync_cb)%nat) with false.
    change ((fn_iscsi_task_mgmt_sync_cb =? fn_scsi_sync_cb)%nat) with false.
    change ((fn_iscsi_task_mgmt_sync_cb =? fn_iscsi_task_mgmt_sync_cb)%nat) with true. cbv iota.
    cbn [response_of]. unfold iscsi_task_mgmt_sync_cb, state_at. rewrite Z.eqb_refl.
    rewrite (bind_run _ _ _ tt (w2, s)) by done.
    rewrite (bind_run _ _ _ tt (w2, s <| sync_status := st |> <| finished := 1 |>)) by done.
    destruct (r =? 0); [by exists w2, (s <| sync_status := st |> <| finished := 1 |>)|].
    destruct (task_mgmt_message r) as [msg|].
    - exists (w2 <| ctx ::= fun c => c <| error_string := msg |> |>),
        (s <| sync_status := st |> <| finished := 1 |> <| sync_status := SCSI_STATUS_ERROR |>).
      split; [done|]. split; [by destruct Hq2|done].
    - by exists w2, (s <| sync_status := st |> <| finished := 1 |> <| sync_status := SCSI_STATUS_ERROR |>). }
  destruct Hcb as (w3 & s3 & Ecb & Q3 & N3 & T3 & S3 & F3 & St3).
  assert (Ec : forall n, (0 < n)%nat -> calling n here (iscsi_service POLLIN) (w1, s) = Ret (0, (w3, s3))).
  { intros n Hn. by apply (calling_one n here _ w1 s 0 w2 e w3 s3 Hn Hanswer Htrace). }
  split; [exists w3, s3; split; [apply Ec; lia|done]|].
  unfold event_loop. run (multithreaded_run w1 s). rewrite (proj1 Hmt), (proj2 Hmt). cbn [andb].
  destruct fuel as [|n] eqn:Ef; cbn [iscsi_mt_sem_wait]; unfold get_state at 1;
    rewrite (bind_run _ _ _ s (w1, s)) by done; rewrite Hs; [done|]. cbn [Z.ltb Z.compare].
  run (multithreaded_run w1 s). rewrite (proj1 Hmt), (proj2 Hmt). cbn [andb]. unfold when.
  run (service_turn_run (S n) here w1 s POLLIN 1 w3 s3 Hq1 Hready ltac:(lia) (Ec (S n) ltac:(lia))).
  apply sem_wait_idle; [exact Q3|lia|]. intros d ev. by apply Hidle.
Qed.

End Threads.

(** *** Witnesses *)

(** Data are always there to be read. *)
Definition sample_poll : Poll := {|
  poll := fun _ _ _ => mret (1, POLLIN);
  sleep := fun _ => mret tt
|}.

(** The header of the response to the next command. *)
Definition sample_answer : bytes := scsi_set_uint32 (hdr (sample_response 0x80 0 0 0 [])) 16 17.

(** The kernel takes the header of a command, and hands over its response in pieces. *)
Definition sample_sync : world :=
  (sample_receiving sample_world 7 (sample_answer ++ [] ++ [1; 2; 3]))
    <| sys ::= fun s => s <| tx := [Io_ok 48] |> |>.

Definition sample_testunitready (cb : option nat) (private : Z) : IO (option nat) :=
  @iscsi_testunitready_task (@tcp_transport connect_stuck) 0 cb private.

Definition sample_sent : world :=
  match sample_testunitready (Some fn_scsi_sync_cb) 1000 sample_sync with Ret (_, w) => w | Undef _ => sample_sync end.

Definition pdu_sent : iscsi_pdu := default zero_pdu (pdus sample_sent !! 2%nat).
Definition task_sent : scsi_task := default new_task (tasks sample_sent !! 1%nat).

Lemma sample_sent_quiet : quiet sample_sent.
Proof.
  split; try (vm_compute; reflexivity); [|vm_compute; discriminate].
  assert (E : waitpdu (ctx sample_sent) = [2%nat]) by (vm_compute; reflexivity). rewrite E.
  constructor; [|constructor]. exists pdu_sent. split; [|left]; vm_compute; reflexivity.
Qed.

Lemma sync_command_returns_witness :
  exists w', @iscsi_testunitready_sync sample_sockets all_memory connect_stuck sample_negotiate sample_poll
      60 1000 0 sample_sync = Ret (Some 1%nat, w') /\ pdus w' !! 2%nat = None /\
    trace w' = [Ev_callback fn_scsi_sync_cb SCSI_STATUS_GOOD (Data_task 1) 1000].
Proof.
  destruct (@sync_command_returns sample_sockets all_memory connect_stuck sample_negotiate sample_poll
    60 1000 "Failed to send TestUnitReady command" sample_testunitready sample_sync sample_sent 2 1
    pdu_sent task_sent sample_answer [] [1; 2; 3]) as (w' & E & [_ _ _ P T]).
  - vm_compute. reflexivity.
  - vm_compute. reflexivity.
  - exact sample_sent_quiet.
  - intros n. reflexivity.
  - reflexivity.
  - left. reflexivity.
  - intros d ev v. reflexivity.
  - split; vm_compute; reflexivity.
  - split; try (vm_compute; reflexivity); [apply not_elem_of_nil|constructor].
  - vm_compute. reflexivity.
  - vm_compute. reflexivity.
  - split; try (vm_compute; done); vm_compute; split; discriminate.
  - split; try (vm_compute; reflexivity); [|vm_compute; lia].
    assert (E : rx (sys sample_sent) = Io_error EAGAIN :: replicate 51 (Io_ok 7)) by (vm_compute; reflexivity).
    rewrite E. constructor; [by left|]. apply Forall_replicate. unfold gives. lia.
  - split_and!; vm_compute; reflexivity.
  - vm_compute. reflexivity.
  - vm_compute. reflexivity.
  - intros E. vm_compute in E. discriminate.
  - vm_compute. lia.
  - exists w'. split; [exact E|]. split; [rewrite P; apply lookup_delete_eq|]. rewrite T. vm_compute. reflexivity.
Defined.

(** The reply to a SendTargets request, with two bytes of padding. *)
Definition sample_targets_body : bytes := targets_text sample_targets ++ zeros 2.
Definition sample_targets_header : bytes :=
  scsi_set_uint32 (scsi_set_uint32 (ISCSI_PDU_TEXT_RESPONSE :: ISCSI_PDU_TEXT_FINAL :: zeros 46) 16 17) 4
    (Z.of_nat (length (targets_text sample_targets))).

(** The kernel takes the request at once, and hands over its reply in pieces. *)
Definition sample_discovering : world :=
  (sample_receiving sample_world 7 (sample_targets_header ++ sample_targets_body ++ [1; 2; 3]))
    <| sys ::= fun s => s <| tx := [Io_ok 64] |> |>.

Definition sample_discovery_sent : world :=
  match @iscsi_discovery_async (@tcp_transport connect_stuck) (Some (Cb_user fn_iscsi_discovery_cb)) 1000
          sample_discovering with Ret (_, w) => w | Undef _ => sample_discovering end.

Definition pdu_asking : iscsi_pdu := default zero_pdu (pdus sample_discovery_sent !! 1%nat).

Lemma sample_discovery_quiet : quiet sample_discovery_sent.
Proof.
  split; try (vm_compute; reflexivity); [|vm_compute; discriminate].
  assert (E : waitpdu (ctx sample_discovery_sent) = [1%nat]) by (vm_compute; reflexivity). rewrite E.
  constructor; [|constructor]. exists pdu_asking. split; [|left]; vm_compute; reflexivity.
Qed.

Lemma discovery_sync_in_order_witness :
  exists w', @iscsi_discovery_sync sample_sockets all_memory connect_stuck
      (@negotiation libiscsi_hashes (@tcp_transport connect_stuck)) sample_poll 200 1000 sample_discovering =
    Ret ([{| dd_target_name := Some (str "iqn.a");
             dd_portals := [Some (str "10.0.0.1:3260,1"); Some (str "10.0.0.2:3260,1")] |};
          {| dd_target_name := Some (str "iqn.b"); dd_portals := [] |}], w').
Proof.
  destruct (@discovery_sync_in_order sample_sockets all_memory libiscsi_hashes connect_stuck sample_poll
    sample_discovery_sent 1 pdu_asking sample_targets_header sample_targets_body [1; 2; 3] sample_targets 2 1000)
    with (fuel := 200%nat) (w0 := sample_discovering) as (w1 & E & _).
  - exact sample_discovery_quiet.
  - intros n. reflexivity.
  - split_and!; vm_compute; reflexivity.
  - vm_compute. reflexivity.
  - reflexivity.
  - split; try (vm_compute; reflexivity); [apply not_elem_of_nil|constructor].
  - vm_compute. reflexivity.
  - vm_compute. reflexivity.
  - vm_compute. reflexivity.
  - repeat constructor; discriminate.
  - reflexivity.
  - vm_compute. reflexivity.
  - vm_compute. reflexivity.
  - reflexivity.
  - left. reflexivity.
  - intros d ev v. reflexivity.
  - split; try (vm_compute; done); vm_compute; split; discriminate.
  - split; try (vm_compute; reflexivity); [|vm_compute; lia].
    assert (E : rx (sys sample_discovery_sent) = Io_error EAGAIN :: replicate 147 (Io_ok 7)) by (vm_compute; reflexivity).
    rewrite E. constructor; [by left|]. apply Forall_replicate. unfold gives. lia.
  - vm_compute. lia.
  - eexists. exact E.
Defined.

(** Data are there while something waits for them. *)
Definition answering_poll : Poll := {|
  poll := fun _ _ _ w => Ret (if bool_decide (waitpdu (ctx w) = []) then (0, 0) else (1, POLLIN), w);
  sleep := fun _ => mret tt
|}.

Definition sample_tmf : iscsi_pdu :=
  (sample_pdu ISCSI_PDU_SCSI_TASK_MANAGEMENT_REQUEST 5)
    <| pdu_callback := Some (Cb_user fn_iscsi_task_mgmt_sync_cb) |> <| private_data := 1000 |>
    <| response_opcode := ISCSI_PDU_SCSI_TASK_MANAGEMENT_RESPONSE |>.

(** The answer to a request sent with multithreading. *)
Definition sample_tmf_world : world :=
  (sample_receiving sample_world 7 (<[0%nat := ISCSI_PDU_SCSI_TASK_MANAGEMENT_RESPONSE]> (zeros 48)))
    <| sys ::= fun s => s <| rx := [Io_ok 48] |> |>
    <| pdus := {[ 1%nat := sample_tmf ]} |>
    <| ctx ::= fun c => c <| waitpdu := [1%nat] |> <| multithreading_enabled := true |> |>.

Definition sample_tmf_done : world :=
  match @iscsi_service connect_stuck sample_negotiate POLLIN sample_tmf_world with
  | Ret (_, w) => w | Undef _ => sample_tmf_world end.

Lemma task_mgmt_sync_hangs_witness :
  @event_loop sample_sockets all_memory connect_stuck sample_negotiate answering_poll 500 1000
    (sample_tmf_world, iscsi_init_sync_state) = Undef NoFuel.
Proof.
  refine (proj2 (@task_mgmt_sync_hangs sample_sockets all_memory connect_stuck sample_negotiate
    answering_poll 500 1000 sample_tmf_world sample_tmf_done iscsi_init_sync_state 0 0 _ _ _ _ _ _ _ _ _)).
  - split; reflexivity.
  - split; try (vm_compute; reflexivity); [|vm_compute; discriminate].
    constructor; [|constructor]. exists sample_tmf. split; [|left]; reflexivity.
  - reflexivity.
  - vm_compute. reflexivity.
  - vm_compute. reflexivity.
  - split; try (vm_compute; reflexivity); [|vm_compute; discriminate].
    assert (E : waitpdu (ctx sample_tmf_done) = []) by (vm_compute; reflexivity). rewrite E. constructor.
  - vm_compute. reflexivity.
  - intros d ev. reflexivity.
  - intros d ev v E. unfold poll, answering_poll. by rewrite bool_decide_true.
Defined.
